(* ===== verification/_CoqProject ===== *)
-Q . S2P
Prelude.v
SwapCore.v
Coordinator.v
CoordinatorSteps.v
CoordinatorFacts.v
ScheduleFacts.v
SwapHistory.v
SwapSpec.v
PublicEffectPlan.v
Decimal.v
BridgeValues.v
BridgeValuesFacts.v
AssetEvidence.v
AssetEvidenceFacts.v
MakerMarket.v
MakerMarketFacts.v
SqlTable.v
StoreBase.v
MakerStore.v
MakerConfiguration.v
MakerOffers.v
MakerStoreFacts.v
MakerInvariant.v
MakerCalls.v
MakerTheorems.v
MakerListings.v
MakerIntegrity.v
MakerSamples.v
PublicEffectJournal.v
PublicEffectFacts.v
AdaptorJournal.v
AdaptorFacts.v
BridgeJournal.v
BridgeJournalFacts.v
BridgePorts.v
BridgePortsFacts.v
XmrWorkflow.v
XmrWorkflowFacts.v
BtcMakerLock.v
BtcMakerLockFacts.v
BtcRecovery.v
BtcRecoverySpec.v
BtcRecoveryFacts.v
BtcRecoveryReplay.v
BtcRecoveryTheorems.v
Escrow.v
EscrowFacts.v
EscrowTheorems.v
AssetObserver.v
AssetObserverFacts.v
AssetObserverSamples.v
ReleaseCrypto.v
ReleaseStore.v
ReleaseIssuer.v
ReleasePublisher.v
ReleaseFacts.v
ReleaseProtocol.v
ReleaseInvariant.v
ReleaseTheorems.v
ReleaseIntegrity.v
ReleaseLiveness.v
ReleaseSamples.v
ActorProcess.v
ActorScheduler.v
ActorFacts.v
ActorInvariant.v
ActorTheorems.v
ActorIntegrity.v
ActorReads.v
ActorLiveness.v
ActorSamples.v
BtcRecoverySamples.v
