(* ===== verification/Prelude.v ===== *)
(** * LEZ atomic swaps: a verification library

    This library models parts of the LEZ atomic-swap system and proves the
    properties that make them correct.  It follows the Rust sources under [src/]
    function by function; definitions keep the source's names, prefixed by their
    type where Rust has a method or a field and Rocq has one name space.

    ** The program

    Two parties, a maker and a taker, swap an asset of the Logos Execution Zone
    (LEZ) for bitcoin, monero or zcash.  Both lock funds, one claim reveals a
    secret that enables the other, and deadlines let each party recover alone.
    The parts modelled so far:

    - the swap coordinator ([crates/swap-core/src/lib.rs]): the pair-independent
      state machine that consumes chain observations and decides which lock,
      claim or refund is authorised next, with the recovery schedules and clock
      conversions it relies on;
    - public-effect plans ([crates/swap-sdk-core/src/public_effect.rs] and
      [version.rs]): the bounded, ordered transaction plans the parties commit to;
    - the public-effect journal
      ([crates/swap-store/src/public_effect_journal.rs]): the SQLite table that
      turns a prepared transaction into at most one authorised submission;
    - the adaptor-session journal
      ([crates/swap-store/src/adaptor_session_journal.rs]): the SQLite table that
      guards the nonces, partial signatures and presignature of a two-party
      adaptor-signing session across crashes and retries;
    - the XMR effect-workflow journal
      ([crates/swap-store/src/xmr_effect_workflow_journal.rs]): the two SQLite
      tables that fix the branch of a monero swap and release each of its
      irreversible steps once, behind the proof of its predecessor;
    - the BTC maker-lock journal
      ([crates/swap-store/src/btc_maker_lock_journal.rs]): the tables of the
      maker's ordered bitcoin lock plan, whose steps are submitted once each;
    - the BTC recovery store ([crates/swap-store/src/btc_recovery.rs]): the
      database from which one party of a bitcoin swap recovers alone, with the
      accepted agreement, hash-chained evidence of each step and the replay of
      that evidence into the coordinator;
    - the bridge operation journal
      ([crates/swap-store/src/bridge_operation_journal.rs]): the durable request
      identity and scan window of every call to the LEZ bridge;
    - the values of the bridge protocol
      ([crates/lez-bridge-protocol/src/primitives.rs]): identifiers, exact bytes,
      windows, amounts and escrow terms with their canonical texts;
    - the context handling of the bridge ports
      ([crates/lez-bridge-adapter/src/sdk_ports.rs]): the client of the bridge
      operation journal, with its retries and its paging over heights;
    - the evidence messages of the bridge
      ([crates/lez-bridge-protocol/src/messages.rs]): what a sidecar reports of a
      native or token escrow, and the validation of every report;
    - the finalized observer of the LEZ sidecar
      ([compat/lez-v0_2-sidecar/src/finalized_asset_observation.rs] and the
      window reading of [finalized_claim_observation.rs]): the scans of finalized
      blocks and the historical reads that produce those reports;
    - the maker's market
      ([crates/swap-store/src/maker_application.rs] and [maker_offer.rs]): the
      SQLite tables of routes, pair policies, local prices, immutable offers and
      their swap bindings, with exact price quoting and idempotent requests;
    - the XMR release authority ([crates/xmr-release-authority]): the service
      that turns verified evidence of both locks into one encrypted, signed
      claim authorization and hands it to the LEZ node once, inside its window;
    - the maker's actor processes
      ([crates/swap-store/src/maker_actor_process.rs]): the tables by which the
      maker's daemons take turns in running the actor of each swap, under leases
      fenced by an owner and a generation, and execute what the owner asks for;
    - the LEZ escrow program ([compat/lez-v0.2-provisional/escrow/src/lib.rs]):
      the on-chain guest that holds the LEZ leg, with hash, aggregate-witness and
      XMR dual-adaptor claim authorities over native and token custody.

    A maker configures routes and pairs, sets a price and publishes an offer; a
    taker's swap reserves it, and the swap then consumes or releases it.  Each
    swap of a maker has an actor process, which a daemon runs while it holds the
    lease of the swap.
    A node asks the coordinator what is authorised, records the exact
    transaction in the public-effect journal, submits it when the journal says
    so, and feeds chain observations back; the monero workflow and the bitcoin
    maker lock have journals of their own.  What a party of a bitcoin swap has seen
    on the chains it records in its recovery store, the maker's lock together with
    the closing of its plan.  Claims by adaptor signature are
    prepared in sessions of the adaptor-session journal.  On LEZ the transaction
    executes one of the escrow's instructions; the node reaches LEZ through the
    bridge ports, which reserve every request in the bridge operation journal.
    The sidecar at the other end of the bridge answers from the chain's indexer:
    it looks for the transaction, reads what the escrow program left in its
    accounts, and reports the effect as found, absent, uncertain or unavailable.
    In a monero swap the taker's release authority publishes the authorization
    that enables the maker's claim, once the monero output is confirmed.

    ** Files

    - [Prelude]: Rust's [Result] and [?], machine integers as [Z] with their
      maximum written out, bytes, tactics and generic lemmas.
    - [SwapCore]: the data types of the coordinator, clock conversions, timelock
      safety and recovery schedules.
    - [Coordinator]: the record [SwapCoordinator] and each of its methods.  A
      method [&mut self -> Result<(), Error>] is a function to the state left
      behind and the result, so that what an error leaves is visible.  [apply]
      and [run] play any sequence of calls.
    - [CoordinatorSteps]: the same machine as an inductive transition relation,
      proved sound and complete for the methods.
    - [CoordinatorFacts]: the invariant of reachable coordinators and the
      properties of runs (order of claims, authority, pinning, recovery,
      absorption, progress, currency of the funding flags).
    - [ScheduleFacts]: clock conversions, and what the declared bounds of an
      accepted schedule give the claim order.
    - [SwapHistory]: what the phase of a coordinator says about the calls that
      led to it; a swap settles one way.
    - [SwapSpec]: an abstract two-leg swap and the proof that the coordinator
      refines it.
    - [PublicEffectPlan]: plans, identifiers, the commitment; the grammar of
      identifiers, acceptance, lookup and binding of the commitment.
    - [Decimal]: Rust's decimal printing and parsing of unsigned integers, and
      that they invert each other on canonical texts.
    - [BridgeValues]: the values of the bridge protocol.  The [hex] and [base64]
      crates are the classes [HexCodec] and [Base64Codec].
    - [BridgeValuesFacts]: canonical texts, submission requests, windows and
      token terms; a concrete codec.
    - [AssetEvidence]: the second-version witnessed-asset messages and their
      validators.
    - [AssetEvidenceFacts]: what an accepted state, placement, signer and
      instruction are, and exactly which claim reports are accepted.
    - [MakerMarket]: routes, pair policies, prices, offers and their validation;
      the greatest common divisor and the exact quote of a foreign amount.
    - [MakerMarketFacts]: the divisor loop terminates within its fuel and is the
      divisor; a quote is the exact product or is refused.
    - [MakerStore], [MakerConfiguration], [MakerOffers]: the maker's tables with
      their foreign keys, and the operations of the two source files.  JSON is
      the class [MakerJson], with the round trips of the store's own encodings in
      [MakerJsonLaws].
    - [MakerStoreFacts], [MakerInvariant], [MakerCalls]: what one committed call
      may change, as a step relation; the invariant of the tables, the growth
      order of their history, and that every call refines a step.
    - [MakerTheorems]: one fate and one swap per offer, final terms, idempotent
      requests, no lost policy edit, no rolled-back external price, and what an
      offer copies from the policy and price of its publication.
    - [MakerListings]: the listings of offers are exact, and a listed offer can be
      reserved.
    - [MakerIntegrity]: every row of a reachable store loads and is listed, and no
      call on it reports corruption.
    - [MakerSamples]: a concrete encoding and a day of calls, on which the
      theorems are applied.
    - [SqlTable]: a keyed table with row checks and a uniqueness constraint, the
      statements the journals use, and transactions.
    - [StoreBase]: the errors of the store, and runs of calls of which any may be
      lost before or after its commit, with the lemmas every journal uses.
    - [PublicEffectJournal]: the journal's operations on that table.
    - [PublicEffectFacts]: runs with lost and rolled-back calls; one send per
      key, forward-only rows, exact authorisation, no corruption, and the
      table-free decision functions the transactions implement.
    - [AdaptorJournal]: the session journal's data, schema and operations; the
      signing callback is an argument.
    - [AdaptorFacts]: runs with lost and rolled-back calls; one transcript per
      secret nonce, final partials, nonces revealed behind a commitment,
      forward-only sessions, outcomes of reservations, no corruption.
    - [BridgeJournal]: the bridge operation journal's operations on its table.
    - [BridgeJournalFacts]: the table represents, for each operation, the polls
      that were completed and the active one; one-use request identities, gapless
      polls, and retries of a lost advance.
    - [BridgePorts]: reserving, finishing, resuming and paging, on the journal;
      the answers of the adapter and the allocator are arguments.
    - [BridgePortsFacts]: every phase is a run of the journal; no height is
      skipped by the scan for a refund from the window of the reservation that
      started it, what a finished page leaves, and the bounds of windows.
    - [XmrWorkflow]: the identity and step tables of a monero workflow.
    - [XmrWorkflowFacts]: one invocation per step, one branch, proved
      predecessors, final evidence, progress, and reopening.
    - [BtcMakerLock]: the intent and step tables of a maker's lock plan.
    - [BtcMakerLockFacts]: the tables refine a map of plans; one submission per
      step, in order, and closed intents are final.
    - [BtcRecovery]: the acceptance, the evidence and every operation of the
      recovery store on its tables; JSON is the class [RecoveryJson].
    - [BtcRecoverySpec]: the store as a plain log of evidence per swap next to the
      abstract lock journal, with every call on both.
    - [BtcRecoveryFacts]: the life of a swap in evidence, and that each operation
      on tables that represent a log does what the log says.
    - [BtcRecoveryReplay]: on any database the store accepts, also one changed from
      outside, a reported outcome is the end of a whole life of the swap, and the
      head of the hash chain determines the evidence.
    - [BtcRecoveryTheorems]: in all runs the store behaves as the log; an accepted
      swap stays recoverable, evidence is final, and the maker's lock is recorded
      exactly when its plan is closed.
    - [BtcRecoverySamples]: a concrete encoding, a completed and an early refunded
      swap, on which the theorems are applied.
    - [Escrow]: the metadata, helpers, eighteen instructions and their account
      attributes.  Code outside the repository is the class [EscrowHost], with
      the documented behaviour the theorems use in [EscrowHostLaws].
    - [EscrowFacts]: each instruction as a step on metadata, traces of executed
      instructions on one metadata account, and the trace invariant.
    - [EscrowTheorems]: settlement at most once and to the agreed party,
      immutable terms, deadlines, authority, publication before an XMR claim,
      frame, availability of refunds and the partition of time between the XMR
      branches; then a concrete host on which every theorem is applied.
    - [AssetObserver]: the observer's handlers as programs in the monad [Io] over
      the trait [FinalizedIndexerApi]; the LEZ crates are the class [LeeRuntime].
    - [AssetObserverFacts]: stable windows, what a scan finds and what it
      excludes, that the observer's reports pass the protocol's validation, and,
      against a ledger whose escrow account is written by executions of [Escrow],
      that a reported claim or refund was paid as agreed and that an effect
      reported absent has not happened.
    - [AssetObserverSamples]: two concrete ledgers, one claimed and one refunded,
      on which the observer runs and its theorems are applied.
    - [ReleaseCrypto] ([lib.rs] of the release authority): the protection key and
      its file, the encrypted publication, the encodings and authenticators of a
      record.  The cryptographic crates are the class [ReleaseCrypto] with their
      documented behaviour in [ReleaseCryptoLaws].
    - [ReleaseStore] ([store.rs]): the release table and every operation on it;
      [Storage] says which of an operation's storage accesses fail and what
      becomes of its commit.
    - [ReleaseIssuer] ([issuer.rs], the terms of [xmr_v3.rs] and the topology
      binding of the monero adapter): the checks of the evidence and the plan of a
      release.
    - [ReleasePublisher] ([store/publisher.rs]): publication as a [Program] that
      stops at each call of the journal, the clock and the node; a [System] of
      such tasks over one journal, and its runs.
    - [ReleaseFacts], [ReleaseProtocol], [ReleaseInvariant]: encodings are
      injective, each operation by cases, the order in which a task may act, the
      system as a transition relation, and its invariant by rule induction.
    - [ReleaseTheorems]: one submission per release and per monero output, behind
      its evidence and inside its window; suppressed releases are never
      disclosed, admitted ones were answered, and records are final.
    - [ReleaseIntegrity], [ReleaseLiveness]: reachable journals are readable and
      an edited state is noticed; a prepared release can be admitted.
    - [ReleaseSamples]: an admitted and a suppressed release, on which the
      theorems are applied.
    - [ActorProcess], [ActorScheduler]: manifests, leases, owner requests and
      progress with their tables, and every operation on them.  JSON is the class
      [ActorJson], with the round trips the store relies on in [ActorJsonLaws].
    - [ActorFacts], [ActorInvariant]: every operation leaves the tables as they
      were or makes one [effect]; the growth order of the tables and their
      invariant.
    - [ActorTheorems]: a generation is granted once, a stale or forged lease is
      refused, and an owner's action is completed only after it was handed to a
      later lease.
    - [ActorIntegrity], [ActorReads]: rows written by well-formed calls decode;
      monitor and listings return and are complete, requests are idempotent.
    - [ActorLiveness]: a due process can be claimed, handed its action and
      resolved while the clocks do not run backwards.
    - [ActorSamples]: a concrete encoding and an evening of calls with a daemon
      that dies, on which the theorems are applied.

    ** Conventions

    Integers are [Z]; bounds that matter are tested where the code tests them.
    The loops of the sources are over lists and are structural here, and runs are
    lists of calls.  Two loops are bounded by fuel: decimal printing, forty
    digits, which every [u128] fits, and Euclid's division, 128 rounds, enough for
    two [u64] because two rounds halve the remainder.  Strings are compared by their
    bytes.  Fixed-size arrays are byte lists; where their length matters a
    theorem says so.  SHA-256 is an argument wherever it is used, and binding
    theorems exhibit a collision rather than assume there is none; runs of the
    recovery store start from coordinators whose digests tell them apart.

    SQLite is modelled by what the journals' statements mean on a table with the
    schema's constraints; a transaction commits as a whole or leaves the table
    unchanged, and a run may lose any call before or after its commit.  The calls
    of a run are those of one connection, one after the other; the checks a call
    makes before it opens its transaction therefore see the same tables.  The
    actor operations read inside their transactions only, so there the calls of a
    run may come from several connections.  The BTC recovery store is shared by
    processes too, but its status reads outside a transaction; there the calls of a
    run follow one another whole.  Where the code would panic, the call's error is [Panicked].

    LEZ is modelled by three facts: an instruction runs only if the framework's
    check of its account attributes passes ([AccountValidation]), only at a time
    its validity window admits, and a metadata account holds what the previous
    execution on it left.  Balances of other programs' accounts are inputs of
    each instruction.  A payout needs the custody to hold exactly the agreed
    amount: a custody balance changed by someone else blocks claim and refund
    alike, and the availability theorems state that premise.

    The indexer answers every call from a world that the call may change, so no
    two answers need to agree and any call may fail.  Only where a theorem speaks
    of what happened on the chain does it assume, in the class [EscrowLedger],
    that an account has one state after each block, that a historical read which
    succeeds returns it, and that the escrow's metadata account holds what the
    executions up to that block left.

    The release authority is asynchronous, and several tasks and processes may
    work on one journal.  A run is a list of actions, each of which lets one task
    take one step or issues or discloses a release, so every interleaving is a
    run; a task that is cancelled or whose process ends takes no further step.
    Every journal operation is one step because it is one immediate transaction.
    Snapshots, keys, answers and clock readings of a run are arbitrary.

    ** Not modelled

    Node, wallet and HTTP adapters, actors, nodes, applications and deployment,
    which are input and output around the parts above; elliptic curves, adaptor
    signatures and DLEQ proofs, which are external crates; serialization formats;
    the schema self-checks, migrations and file permissions at the opening of the
    journals; zeroizing of memory.  Of the maker's offers, the staging and completion
    of bitcoin and monero negotiations and the completion of zcash ones, which
    read the swap aggregate, are not modelled yet.  Of the bridge, the checks of node facts
    against an agreement in [crates/lez-bridge-adapter/src/lib.rs], the
    first-version native messages and the observers that answer them, the XMR
    messages other than the terms and the submission, and the sidecar's planning
    and submission of transactions are not modelled yet.  Of the release
    authority, the opening of the database and the derivation of the terms from
    the two agreements ([XmrLezBridgeBindingV3::new], an argument of the issuer)
    are not modelled.  Of the actor processes, the kernel locks, whose check is an
    argument of the recovery of a lease, and the pinned programs, configurations
    and descriptors of a child are not modelled.

    ** Plan

    Next the first-version observers and the sidecar's transaction planning; then
    the v0.1 escrow of [compat/spel-zec-escrow], the store's swap aggregate
    with the negotiations bound to it, and the zcash planners. *)

From stdpp Require Import base gmap strings list numbers.
From Stdlib Require Import Strings.Byte.

(** ** Rust's [Result] *)

Inductive result (A E : Type) : Type :=
| Ok (a : A)
| Err (e : E).
Arguments Ok {A E} a.
Arguments Err {A E} e.

Definition result_bind {A B E} (r : result A E) (k : A → result B E) : result B E :=
  match r with
  | Ok a => k a
  | Err e => Err e
  end.

Definition is_ok {A E} (r : result A E) : bool :=
  match r with Ok _ => true | Err _ => false end.

(** [Option::ok_or] *)
Definition ok_or {A E} (o : option A) (e : E) : result A E :=
  match o with Some a => Ok a | None => Err e end.

(** [Result::map_err] with a constant target error *)
Definition map_err {A E F} (r : result A E) (f : E → F) : result A F :=
  match r with Ok a => Ok a | Err e => Err (f e) end.

(** The early return of Rust: [if c { return Err(e); }] *)
Definition reject_if {E} (c : bool) (e : E) : result unit E :=
  if c then Err e else Ok tt.

Declare Scope rust_scope.
Delimit Scope rust_scope with rust.

(** The [?] operator: bind the success value or return the error. *)
Notation "'let?' x ':=' c 'in' k" := (result_bind c (λ x, k))
  (at level 10, x binder, c at level 200, k at level 200,
   format "'[v' 'let?'  x  ':='  c  'in' '/' k ']'") : rust_scope.

(** Boolean equality tests of the source, decided by the type's instance. *)
Notation "a ==? b" := (bool_decide (a = b)) (at level 70) : rust_scope.
Notation "a !=? b" := (negb (bool_decide (a = b))) (at level 70) : rust_scope.

Open Scope rust_scope.
Open Scope Z_scope.

(** ** Machine integers *)

Definition u16_max : Z := 2 ^ 16 - 1.
Definition u32_max : Z := 2 ^ 32 - 1.
Definition u64_max : Z := 2 ^ 64 - 1.
Definition u128_max : Z := 2 ^ 128 - 1.
Definition i64_max : Z := 2 ^ 63 - 1.

Definition in_range (max v : Z) : Prop := 0 ≤ v ≤ max.
Abbreviation is_u16 := (in_range u16_max).
Abbreviation is_u32 := (in_range u32_max).
Abbreviation is_u64 := (in_range u64_max).
Abbreviation is_u128 := (in_range u128_max).

(** [uN::checked_add] and [uN::checked_mul] at the width given by [max]. *)
Definition checked_add (max a b : Z) : option Z :=
  if a + b <=? max then Some (a + b) else None.
Definition checked_mul (max a b : Z) : option Z :=
  if a * b <=? max then Some (a * b) else None.

(** ** Bytes *)

Abbreviation bytes := (list Byte.byte).

#[global] Instance byte_eq_decision : EqDecision Byte.byte := Byte.byte_eq_dec.
#[global] Instance byte_countable : Countable Byte.byte :=
  inj_countable Byte.to_N Byte.of_N Byte.of_to_N.
#[global] Instance result_eq_decision `{EqDecision A, EqDecision E} :
  EqDecision (result A E).
Proof. solve_decision. Defined.

(** The all-zero array [[0; n]]. *)
Definition zeros (n : nat) : bytes := replicate n Byte.x00.
Abbreviation zero32 := (zeros 32).

(** The low byte of an integer, and the big-endian encoding [to_be_bytes] on
    [n] bytes. *)
Definition byte_of_Z (v : Z) : Byte.byte :=
  match Byte.of_N (Z.to_N (v `mod` 256)) with Some b => b | None => Byte.x00 end.
Definition Z_of_byte (b : Byte.byte) : Z := Z.of_N (Byte.to_N b).

Fixpoint be_bytes (n : nat) (v : Z) : bytes :=
  match n with
  | O => []
  | S n' => be_bytes n' (v / 256) ++ [byte_of_Z v]
  end.

(** Bytes of a string, as [str::as_bytes]. *)
Fixpoint bytes_of_string (s : string) : bytes :=
  match s with
  | EmptyString => []
  | String.String c s' => Ascii.byte_of_ascii c :: bytes_of_string s'
  end.

(** [len()] of a byte slice or vector, and of a string in bytes. *)
Definition blen {A} (l : list A) : Z := Z.of_nat (length l).
Definition slen (s : string) : Z := Z.of_nat (String.length s).

(** The character classes of [u8] the sources test. *)
Definition is_ascii_lowercase (b : Byte.byte) : bool :=
  (97 <=? Z_of_byte b) && (Z_of_byte b <=? 122).
Definition is_ascii_digit (b : Byte.byte) : bool :=
  (48 <=? Z_of_byte b) && (Z_of_byte b <=? 57).
Definition is_ascii_uppercase (b : Byte.byte) : bool :=
  (65 <=? Z_of_byte b) && (Z_of_byte b <=? 90).
Definition is_ascii_alphanumeric (b : Byte.byte) : bool :=
  is_ascii_lowercase b || is_ascii_uppercase b || is_ascii_digit b.
Definition is_ascii_hexdigit (b : Byte.byte) : bool :=
  is_ascii_digit b || ((65 <=? Z_of_byte b) && (Z_of_byte b <=? 70))
  || ((97 <=? Z_of_byte b) && (Z_of_byte b <=? 102)).
Definition is_ascii_graphic (b : Byte.byte) : bool :=
  (33 <=? Z_of_byte b) && (Z_of_byte b <=? 126).

(** ** Tactics *)

Create HintDb rust.

(** Take apart a successful (or failed) [result] computation in a hypothesis. *)
Ltac result_step H :=
  match type of H with
  | result_bind ?c _ = _ =>
      let E := fresh "E" in destruct c eqn:E; cbn [result_bind] in H
  | (let _ := _ in _) = _ => cbv zeta in H
  end.

Ltac bool_props :=
  repeat match goal with
  | H : _ || _ = false |- _ => apply orb_false_iff in H; destruct H
  | H : _ && _ = true |- _ => apply andb_true_iff in H; destruct H
  | H : negb _ = true |- _ => apply negb_true_iff in H
  | H : negb _ = false |- _ => apply negb_false_iff in H
  | H : bool_decide _ = true |- _ => apply bool_decide_eq_true in H
  | H : bool_decide _ = false |- _ => apply bool_decide_eq_false in H
  | H : (_ <=? _) = true |- _ => apply Z.leb_le in H
  | H : (_ <=? _) = false |- _ => apply Z.leb_gt in H
  | H : (_ <? _) = true |- _ => apply Z.ltb_lt in H
  | H : (_ <? _) = false |- _ => apply Z.ltb_ge in H
  | H : (_ =? _) = true |- _ => apply Z.eqb_eq in H
  | H : (_ =? _) = false |- _ => apply Z.eqb_neq in H
  end.

(** ** Generic lemmas *)

Lemma result_bind_Ok {A B E} (r : result A E) (k : A → result B E) b :
  result_bind r k = Ok b ↔ ∃ a, r = Ok a ∧ k a = Ok b.
Proof. destruct r; cbn; split; intros; destruct_and?; simplify_eq; eauto; naive_solver. Qed.

Lemma Ok_inj {A E} (a b : A) : @Ok A E a = Ok b → a = b.
Proof. by intros [= ->]. Qed.

Lemma ok_or_Ok {A E : Type} (o : option A) (e : E) a : ok_or o e = Ok a ↔ o = Some a.
Proof. destruct o; cbn; split; try done; by intros [= ->]. Qed.

Lemma reject_if_Ok {E} c (e : E) u : reject_if c e = Ok u → c = false.
Proof. by destruct c. Qed.

(** Take apart a computation that returned [Ok], down to its last value. *)
Ltac inv_ok H1 :=
  lazymatch type of H1 with
  | result_bind _ _ = Ok _ =>
      let x := fresh "x" in let Hx := fresh "Hx" in
      apply result_bind_Ok in H1 as (x & Hx & H1); inv_ok H1
  | (let _ := _ in _) = Ok _ => cbv zeta in H1; inv_ok H1
  | (if ?c then Err _ else _) = Ok _ =>
      let E := fresh "E" in destruct c eqn:E; [discriminate H1|]; inv_ok H1
  | (if ?c then Ok _ else Err _) = Ok _ =>
      let E := fresh "E" in destruct c eqn:E; [|discriminate H1]; inv_ok H1
  | (let '(_, _) := ?p in _) = Ok _ =>
      let st := fresh "st" in let pa := fresh "pa" in
      destruct p as [st pa]; cbv beta iota in H1; inv_ok H1
  | Ok _ = Ok _ => apply Ok_inj in H1
  | _ => idtac
  end.

Lemma checked_add_Some max a b v :
  checked_add max a b = Some v ↔ v = a + b ∧ a + b ≤ max.
Proof.
  unfold checked_add. destruct (Z.leb_spec (a + b) max); split; intros; destruct_and?; simplify_eq; try done; lia.
Qed.

Lemma checked_add_None max a b :
  checked_add max a b = None ↔ max < a + b.
Proof.
  unfold checked_add. destruct (Z.leb_spec (a + b) max); split; intros; destruct_and?; simplify_eq; try done; lia.
Qed.

Lemma checked_mul_Some max a b v :
  checked_mul max a b = Some v ↔ v = a * b ∧ a * b ≤ max.
Proof.
  unfold checked_mul. destruct (Z.leb_spec (a * b) max); split; intros; destruct_and?; simplify_eq; try done; lia.
Qed.

Lemma Z_of_byte_of_Z v : Z_of_byte (byte_of_Z v) = v `mod` 256.
Proof.
  unfold Z_of_byte, byte_of_Z.
  pose proof (Z.mod_pos_bound v 256 ltac:(lia)) as Hb.
  destruct (Byte.of_N (Z.to_N (v `mod` 256))) as [b|] eqn:E.
  - apply Byte.to_of_N in E. rewrite E. lia.
  - apply Byte.of_N_None_iff in E. lia.
Qed.

Lemma length_be_bytes n v : length (be_bytes n v) = n.
Proof.
  revert v. induction n as [|n IH]; intros v; cbn; [done|].
  rewrite length_app, IH. cbn. lia.
Qed.

(** Big-endian encoding on [n] bytes is injective below [256 ^ n]. *)
Lemma be_bytes_inj n v w :
  0 ≤ v < 256 ^ Z.of_nat n → 0 ≤ w < 256 ^ Z.of_nat n →
  be_bytes n v = be_bytes n w → v = w.
Proof.
  revert v w. induction n as [|n IH]; intros v w Hv Hw Heq.
  { change (256 ^ Z.of_nat 0) with 1 in *. lia. }
  assert (Hp : 256 ^ Z.of_nat (S n) = 256 * 256 ^ Z.of_nat n).
  { rewrite Nat2Z.inj_succ, Z.pow_succ_r; lia. }
  rewrite Hp in Hv, Hw. cbn in Heq.
  apply app_inj_2 in Heq as [Hhi Hlo]; [|done].
  injection Hlo as Hlo. apply (f_equal Z_of_byte) in Hlo.
  rewrite !Z_of_byte_of_Z in Hlo.
  apply IH in Hhi;
    [|split; [apply Z.div_pos; lia|apply Z.div_lt_upper_bound; lia]..].
  rewrite (Z.div_mod v 256), (Z.div_mod w 256) by lia. lia.
Qed.

Lemma bytes_of_string_inj s t :
  bytes_of_string s = bytes_of_string t → s = t.
Proof.
  revert t. induction s as [|c s IH]; intros [|d t]; cbn; try done.
  intros [= Hc Hs]. f_equal; [|by apply IH].
  apply (f_equal Ascii.ascii_of_byte) in Hc.
  by rewrite !Ascii.ascii_of_byte_of_ascii in Hc.
Qed.

Lemma length_bytes_of_string s : length (bytes_of_string s) = String.length s.
Proof. induction s as [|c s IH]; cbn; congruence. Qed.

#[export] Hint Resolve length_be_bytes length_bytes_of_string : rust.
