(* ===== verification/SwapCore.v ===== *)
(** * Chain-independent vocabulary of one swap

    Models [crates/swap-core/src/lib.rs] up to the coordinator: the pair,
    direction, participant and chain enumerations, Unix-second and LEZ
    millisecond clocks, chain positions, the cross-chain safety margin, the
    recovery schedule with its validation and deadline tests, the durable
    phases, the error type, identifiers, chain proofs and claim evidence.  A
    Rust variant [T::V] is the constructor [T_V]; a [u32] or [u64] is a [Z];
    a [Box<str>] is a [string], whose [String.length] counts bytes. *)

From stdpp Require Import base strings list numbers.
From S2P Require Import Prelude.

Open Scope Z_scope.

Inductive Pair := Pair_Bitcoin | Pair_Monero | Pair_Zcash.

Inductive SwapDirection := TakerSellsForeign | TakerSellsLez.

Inductive Participant := Participant_Maker | Participant_Taker.

Inductive Chain := Chain_Lez | Chain_Bitcoin | Chain_Monero | Chain_Zcash.

Inductive ClockBasis := BlockHeight | Timestamp.

#[global] Instance Pair_eq_dec : EqDecision Pair.
Proof. solve_decision. Defined.
#[global] Instance SwapDirection_eq_dec : EqDecision SwapDirection.
Proof. solve_decision. Defined.
#[global] Instance Participant_eq_dec : EqDecision Participant.
Proof. solve_decision. Defined.
#[global] Instance Chain_eq_dec : EqDecision Chain.
Proof. solve_decision. Defined.
#[global] Instance ClockBasis_eq_dec : EqDecision ClockBasis.
Proof. solve_decision. Defined.

Definition other (self : Participant) : Participant :=
  match self with
  | Participant_Maker => Participant_Taker
  | Participant_Taker => Participant_Maker
  end.

Definition Chain_from_pair (pair : Pair) : Chain :=
  match pair with
  | Pair_Bitcoin => Chain_Bitcoin
  | Pair_Monero => Chain_Monero
  | Pair_Zcash => Chain_Zcash
  end.

(** ** Positions, safety margin and schedule: data *)

Record UnixSeconds := UnixSeconds_new { UnixSeconds_value : Z }.

Record LezUnixMilliseconds :=
  LezUnixMilliseconds_new { LezUnixMilliseconds_value : Z }.

Record ChainPosition := {
  position_chain : Chain;
  position_basis : ClockBasis;
  position_value : Z
}.

Record TimelockSafety := {
  earlier_chain : Chain;
  later_chain : Chain;
  earlier_refund_latest : Z;
  later_refund_earliest : Z;
  required_margin : Z
}.

Inductive MakerRecoveryTrigger :=
| Deadline (deadline : ChainPosition)
| CanonicalTakerRefund (chain : Chain) (required_confirmations : Z).

Record RecoverySchedule := {
  schedule_maker_trigger : MakerRecoveryTrigger;
  schedule_taker_refund : ChainPosition;
  schedule_safety : option TimelockSafety
}.

#[global] Instance ChainPosition_eq_dec : EqDecision ChainPosition.
Proof. solve_decision. Defined.
#[global] Instance TimelockSafety_eq_dec : EqDecision TimelockSafety.
Proof. solve_decision. Defined.
#[global] Instance MakerRecoveryTrigger_eq_dec : EqDecision MakerRecoveryTrigger.
Proof. solve_decision. Defined.
#[global] Instance RecoverySchedule_eq_dec : EqDecision RecoverySchedule.
Proof. solve_decision. Defined.

(** ** Durable phases and errors *)

Inductive Phase :=
| Offered
| AwaitingTakerConfirmations
| TakerLockConfirmed
| AwaitingMakerConfirmations
| BothLegsLocked
| TakerLockReorged
| MakerLockReorged
| ClaimEvidenceAvailable
| Completed
| MakerLegRefunded
| TakerLegRefunded
| Refunded
| MakerRecoveryAvailable.

#[global] Instance Phase_eq_dec : EqDecision Phase.
Proof. solve_decision. Defined.

(** [Error] of swap-core *)
Inductive CoreError :=
| InvalidIdentifier
| InvalidConfirmationPolicy
| TimestampConversionOverflow
| InsufficientTimelockMargin
| WrongRefundChain (role : string) (expected actual : Chain)
| WrongDeadlineClock (expected_chain : Chain) (expected_basis : ClockBasis)
    (actual_chain : Chain) (actual_basis : ClockBasis)
| WrongTimelockOrder (pair : Pair) (earlier later : Chain)
| UnsupportedDirection (pair : Pair) (direction : SwapDirection)
| UnexpectedClaimant (expected actual : Participant)
| TakerLockNotConfirmed
| MakerLockNotConfirmed
| ConflictingTakerLock
| ConflictingMakerLock
| ConflictingClaimEvidence
| ConflictingTakerClaim
| InvalidPhase (expected actual : Phase)
| TimelockNotExpired
| RecoveryRequiresTakerRefundEvent
| WrongRecoveryEventChain (expected actual : Chain)
| InsufficientRecoveryEventConfirmations (required actual : Z)
| ConflictingTakerRefundEvent
| ConflictingMakerRecovery.

#[global] Instance CoreError_eq_dec : EqDecision CoreError.
Proof. solve_decision. Defined.

(** ** Clock conversions *)

Definition checked_to_lez_milliseconds (self : UnixSeconds)
    : result LezUnixMilliseconds CoreError :=
  match checked_mul u64_max self.(UnixSeconds_value) 1000 with
  | Some value => Ok (LezUnixMilliseconds_new value)
  | None => Err TimestampConversionOverflow
  end.

Definition to_unix_seconds_floor (self : LezUnixMilliseconds) : UnixSeconds :=
  UnixSeconds_new (self.(LezUnixMilliseconds_value) / 1000).

Definition to_unix_seconds_ceil (self : LezUnixMilliseconds) : UnixSeconds :=
  let seconds := self.(LezUnixMilliseconds_value) / 1000 in
  let partial := if self.(LezUnixMilliseconds_value) `mod` 1000 =? 0 then 0 else 1 in
  UnixSeconds_new (seconds + partial).

(** ** Chain positions *)

Definition block_height (chain : Chain) (height : Z) : ChainPosition :=
  {| position_chain := chain; position_basis := BlockHeight; position_value := height |}.

Definition timestamp (chain : Chain) (unix_seconds : Z) : ChainPosition :=
  {| position_chain := chain; position_basis := Timestamp; position_value := unix_seconds |}.

Definition lez_timestamp_from_milliseconds_floor (ts : LezUnixMilliseconds)
    : ChainPosition :=
  timestamp Chain_Lez (UnixSeconds_value (to_unix_seconds_floor ts)).

(** ** Cross-chain margin *)

Definition TimelockSafety_between (earlier later : Chain)
    (earlier_refund_latest_unix_seconds later_refund_earliest_unix_seconds
     required_margin_seconds : Z) : result TimelockSafety CoreError :=
  match checked_add u64_max earlier_refund_latest_unix_seconds
          required_margin_seconds with
  | None => Err InsufficientTimelockMargin
  | Some required_later_time =>
      if (earlier ==? later)
         || (required_margin_seconds =? 0)
         || (later_refund_earliest_unix_seconds <? required_later_time)
      then Err InsufficientTimelockMargin
      else Ok {|
        earlier_chain := earlier;
        later_chain := later;
        earlier_refund_latest := earlier_refund_latest_unix_seconds;
        later_refund_earliest := later_refund_earliest_unix_seconds;
        required_margin := required_margin_seconds
      |}
  end.

(** ** Recovery schedule *)

(** The [expected_chains] array: maker's refund chain, taker's refund chain. *)
Definition expected_chains (foreign : Chain) (direction : SwapDirection) : Chain * Chain :=
  match direction with
  | TakerSellsForeign => (Chain_Lez, foreign)
  | TakerSellsLez => (foreign, Chain_Lez)
  end.

(** The [expected_safety_order] match; [None] is its [unreachable!] arm, which
    [RecoverySchedule_new] rules out before it looks at the order. *)
Definition expected_safety_order (pair : Pair) (maker_refund taker_refund : ChainPosition)
    : option (Chain * Chain) :=
  match pair with
  | Pair_Bitcoin => Some (maker_refund.(position_chain), taker_refund.(position_chain))
  | Pair_Zcash => Some (Chain_Lez, Chain_Zcash)
  | Pair_Monero => None
  end.

Definition RecoverySchedule_new (pair : Pair) (direction : SwapDirection)
    (maker_refund taker_refund : ChainPosition) (safety : TimelockSafety)
    : result RecoverySchedule CoreError :=
  match expected_safety_order pair maker_refund taker_refund with
  | None =>
      if direction ==? TakerSellsForeign
      then Err (UnsupportedDirection pair direction)
      else Err RecoveryRequiresTakerRefundEvent
  | Some (order_earlier, order_later) =>
      let '(expected_maker, expected_taker) :=
        expected_chains (Chain_from_pair pair) direction in
      if maker_refund.(position_chain) !=? expected_maker
      then Err (WrongRefundChain "maker" expected_maker maker_refund.(position_chain))
      else if taker_refund.(position_chain) !=? expected_taker
      then Err (WrongRefundChain "taker" expected_taker taker_refund.(position_chain))
      else if (safety.(earlier_chain), safety.(later_chain))
                !=? (order_earlier, order_later)
      then Err (WrongTimelockOrder pair order_earlier order_later)
      else Ok {|
        schedule_maker_trigger := Deadline maker_refund;
        schedule_taker_refund := taker_refund;
        schedule_safety := Some safety
      |}
  end.

Definition xmr_lez_first (taker_refund : ChainPosition)
    (required_event_confirmations : Z) : result RecoverySchedule CoreError :=
  if taker_refund.(position_chain) !=? Chain_Lez
  then Err (WrongRefundChain "taker" Chain_Lez taker_refund.(position_chain))
  else if required_event_confirmations =? 0
  then Err InvalidConfirmationPolicy
  else Ok {|
    schedule_maker_trigger :=
      CanonicalTakerRefund Chain_Lez required_event_confirmations;
    schedule_taker_refund := taker_refund;
    schedule_safety := None
  |}.

Definition deadline_for_chain (self : RecoverySchedule) (chain : Chain)
    : option ChainPosition :=
  let by_taker :=
    if self.(schedule_taker_refund).(position_chain) ==? chain
    then Some self.(schedule_taker_refund) else None in
  match self.(schedule_maker_trigger) with
  | Deadline deadline =>
      if deadline.(position_chain) ==? chain then Some deadline else by_taker
  | CanonicalTakerRefund _ _ => by_taker
  end.

Definition required_safety_margin_seconds (self : RecoverySchedule) : option Z :=
  match self.(schedule_safety) with
  | Some safety => Some safety.(required_margin)
  | None => None
  end.

Definition deadline_reached (deadline observed : ChainPosition) : result bool CoreError :=
  if (deadline.(position_chain) !=? observed.(position_chain))
     || (deadline.(position_basis) !=? observed.(position_basis))
  then Err (WrongDeadlineClock deadline.(position_chain) deadline.(position_basis)
              observed.(position_chain) observed.(position_basis))
  else Ok (deadline.(position_value) <=? observed.(position_value)).

Definition maker_deadline_reached (self : RecoverySchedule) (observed : ChainPosition)
    : result bool CoreError :=
  match self.(schedule_maker_trigger) with
  | Deadline deadline => deadline_reached deadline observed
  | CanonicalTakerRefund _ _ => Err RecoveryRequiresTakerRefundEvent
  end.

Definition taker_refund_reached (self : RecoverySchedule) (observed : ChainPosition)
    : result bool CoreError :=
  deadline_reached self.(schedule_taker_refund) observed.

(** ** Identifiers, proofs and evidence *)

Record SwapId := { SwapId_as_str : string }.

(** The test of [SwapId::new] and [ChainProof::new]: empty or over 128 bytes. *)
Definition bad_identifier (value : string) : bool :=
  (Z.of_nat (String.length value) =? 0) || (128 <? Z.of_nat (String.length value)).

Definition SwapId_new (value : string) : result SwapId CoreError :=
  if bad_identifier value then Err InvalidIdentifier
  else Ok {| SwapId_as_str := value |}.

Record ChainProof := {
  proof_transaction_id : string;
  proof_confirmations : Z
}.

Definition ChainProof_new (transaction_id : string) (confirmations : Z)
    : result ChainProof CoreError :=
  if bad_identifier transaction_id then Err InvalidIdentifier
  else Ok {| proof_transaction_id := transaction_id;
             proof_confirmations := confirmations |}.

Record ChainEventProof := {
  event_chain : Chain;
  event_proof : ChainProof
}.

Definition ChainEventProof_new (chain : Chain) (transaction_id : string)
    (confirmations : Z) : result ChainEventProof CoreError :=
  let? proof := ChainProof_new transaction_id confirmations in
  Ok {| event_chain := chain; event_proof := proof |}.

Record ConfirmationPolicy := { policy_required : Z }.

Definition ConfirmationPolicy_new (required : Z) : result ConfirmationPolicy CoreError :=
  if required =? 0 then Err InvalidConfirmationPolicy
  else Ok {| policy_required := required |}.

Definition default_maker_confirmation_policy : ConfirmationPolicy :=
  {| policy_required := 1 |}.

(** Only the commitment of the public claim witness is retained.  The hash is
    the [sha2] crate's, an argument of the constructor. *)
Record ClaimEvidence := { evidence_commitment : bytes }.

Definition ClaimEvidence_new (sha256 : bytes → bytes) (secret : bytes) : ClaimEvidence :=
  {| evidence_commitment := sha256 secret |}.

#[global] Instance SwapId_eq_dec : EqDecision SwapId.
Proof. solve_decision. Defined.
#[global] Instance ChainProof_eq_dec : EqDecision ChainProof.
Proof. solve_decision. Defined.
#[global] Instance ConfirmationPolicy_eq_dec : EqDecision ConfirmationPolicy.
Proof. solve_decision. Defined.
#[global] Instance ClaimEvidence_eq_dec : EqDecision ClaimEvidence.
Proof. solve_decision. Defined.

(** ** Properties of clocks, margins and schedules *)

Lemma other_involutive p : other (other p) = p.
Proof. by destruct p. Qed.

(** Whole seconds survive the trip to LEZ milliseconds and back. *)
Lemma lez_milliseconds_roundtrip (s : UnixSeconds) ms :
  checked_to_lez_milliseconds s = Ok ms →
  to_unix_seconds_floor ms = s ∧ to_unix_seconds_ceil ms = s.
Proof.
  unfold checked_to_lez_milliseconds, to_unix_seconds_floor, to_unix_seconds_ceil.
  destruct s as [s]; cbn. destruct (checked_mul u64_max s 1000) eqn:E; [|done].
  intros [= <-]; cbn. apply checked_mul_Some in E as [-> _].
  rewrite Z.div_mul, Z_mod_mult by lia. cbn. split; f_equal; lia.
Qed.

Lemma to_unix_seconds_floor_le (ms : LezUnixMilliseconds) :
  1000 * UnixSeconds_value (to_unix_seconds_floor ms) ≤ LezUnixMilliseconds_value ms.
Proof. destruct ms as [m]; cbn. apply Z.mul_div_le. lia. Qed.

Lemma to_unix_seconds_ceil_ge (ms : LezUnixMilliseconds) :
  LezUnixMilliseconds_value ms ≤ 1000 * UnixSeconds_value (to_unix_seconds_ceil ms)
  ∧ UnixSeconds_value (to_unix_seconds_ceil ms)
      ≤ UnixSeconds_value (to_unix_seconds_floor ms) + 1.
Proof.
  destruct ms as [m]; cbn. pose proof (Z.div_mod m 1000 ltac:(lia)).
  pose proof (Z.mod_pos_bound m 1000 ltac:(lia)).
  destruct (Z.eqb_spec (m `mod` 1000) 0); cbn; lia.
Qed.

Lemma TimelockSafety_between_Ok e l a b m s :
  TimelockSafety_between e l a b m = Ok s ↔
  e ≠ l ∧ m ≠ 0 ∧ a + m ≤ u64_max ∧ a + m ≤ b ∧
  s = {| earlier_chain := e; later_chain := l; earlier_refund_latest := a;
         later_refund_earliest := b; required_margin := m |}.
Proof.
  unfold TimelockSafety_between. destruct (checked_add u64_max a m) as [t|] eqn:E.
  - apply checked_add_Some in E as [-> Hle].
    destruct (_ || _) eqn:Hc.
    + split; [done|]. intros (?&?&?&?&_).
      apply orb_true_iff in Hc as [Hc|Hc]; [apply orb_true_iff in Hc as [Hc|Hc]|];
        bool_props; lia || done.
    + bool_props. naive_solver.
  - apply checked_add_None in E. split; [done|]. intros (_&_&?&_). lia.
Qed.

Lemma RecoverySchedule_new_Ok pair direction m t s r :
  RecoverySchedule_new pair direction m t s = Ok r →
  pair ≠ Pair_Monero ∧
  (position_chain m, position_chain t)
    = expected_chains (Chain_from_pair pair) direction ∧
  expected_safety_order pair m t = Some (earlier_chain s, later_chain s) ∧
  r = {| schedule_maker_trigger := Deadline m; schedule_taker_refund := t;
         schedule_safety := Some s |}.
Proof.
  unfold RecoverySchedule_new.
  destruct (expected_safety_order pair m t) as [[e l]|] eqn:Ho.
  - destruct (expected_chains _ direction) as [em et] eqn:Hc.
    intros H. repeat case_match; try done. simplify_eq. bool_props.
    destruct pair; naive_solver.
  - by case_match.
Qed.

Lemma deadline_reached_Ok d o b :
  deadline_reached d o = Ok b ↔
  position_chain d = position_chain o ∧ position_basis d = position_basis o ∧
  b = (position_value d <=? position_value o).
Proof.
  unfold deadline_reached. destruct (_ || _) eqn:E.
  - split; [done|]. intros (H1&H2&_). rewrite H1, H2 in E.
    by rewrite !bool_decide_true in E.
  - bool_props. naive_solver.
Qed.

Lemma deadline_reached_self d : deadline_reached d d = Ok true.
Proof. apply deadline_reached_Ok. by rewrite Z.leb_refl. Qed.

