(* ===== verification/Coordinator.v ===== *)
(** * The swap coordinator

    Models [SwapCoordinator] of [crates/swap-core/src/lib.rs]: the state of one
    persisted swap and every method that changes it.  A Rust method taking
    [&mut self] and returning [Result<(), Error>] is a function from the state
    to the state it leaves behind together with its result, so that what a
    rejected call does to the state is part of the model.  [CoordinatorOp] and
    [apply] list the public mutating methods, and [run] applies a sequence of
    them, keeping the state left by rejected calls. *)

From stdpp Require Import base strings list numbers.
From S2P Require Import Prelude SwapCore.

Open Scope Z_scope.

(** ** State *)

Record SwapCoordinator := {
  coord_id : SwapId;
  coord_pair : Pair;
  coord_direction : SwapDirection;
  confirmation_policy : ConfirmationPolicy;
  maker_confirmation_policy : ConfirmationPolicy;
  coord_recovery_schedule : RecoverySchedule;
  coord_phase : Phase;
  taker_funding_confirmed : bool;
  maker_funding_confirmed : bool;
  taker_lock_transaction_id : option string;
  maker_lock_transaction_id : option string;
  coord_claim_evidence : option ClaimEvidence;
  revealing_claim_transaction_id : option string;
  followup_claim_transaction_id : option string;
  taker_refund_event_transaction_id : option string;
  maker_recovery_transaction_id : option string
}.

Definition set_phase (v : Phase) (self : SwapCoordinator) : SwapCoordinator := {|
  coord_id := self.(coord_id);
  coord_pair := self.(coord_pair);
  coord_direction := self.(coord_direction);
  confirmation_policy := self.(confirmation_policy);
  maker_confirmation_policy := self.(maker_confirmation_policy);
  coord_recovery_schedule := self.(coord_recovery_schedule);
  coord_phase := v;
  taker_funding_confirmed := self.(taker_funding_confirmed);
  maker_funding_confirmed := self.(maker_funding_confirmed);
  taker_lock_transaction_id := self.(taker_lock_transaction_id);
  maker_lock_transaction_id := self.(maker_lock_transaction_id);
  coord_claim_evidence := self.(coord_claim_evidence);
  revealing_claim_transaction_id := self.(revealing_claim_transaction_id);
  followup_claim_transaction_id := self.(followup_claim_transaction_id);
  taker_refund_event_transaction_id := self.(taker_refund_event_transaction_id);
  maker_recovery_transaction_id := self.(maker_recovery_transaction_id)
|}.

Definition set_taker_funding_confirmed (v : bool) (self : SwapCoordinator) : SwapCoordinator := {|
  coord_id := self.(coord_id);
  coord_pair := self.(coord_pair);
  coord_direction := self.(coord_direction);
  confirmation_policy := self.(confirmation_policy);
  maker_confirmation_policy := self.(maker_confirmation_policy);
  coord_recovery_schedule := self.(coord_recovery_schedule);
  coord_phase := self.(coord_phase);
  taker_funding_confirmed := v;
  maker_funding_confirmed := self.(maker_funding_confirmed);
  taker_lock_transaction_id := self.(taker_lock_transaction_id);
  maker_lock_transaction_id := self.(maker_lock_transaction_id);
  coord_claim_evidence := self.(coord_claim_evidence);
  revealing_claim_transaction_id := self.(revealing_claim_transaction_id);
  followup_claim_transaction_id := self.(followup_claim_transaction_id);
  taker_refund_event_transaction_id := self.(taker_refund_event_transaction_id);
  maker_recovery_transaction_id := self.(maker_recovery_transaction_id)
|}.

Definition set_maker_funding_confirmed (v : bool) (self : SwapCoordinator) : SwapCoordinator := {|
  coord_id := self.(coord_id);
  coord_pair := self.(coord_pair);
  coord_direction := self.(coord_direction);
  confirmation_policy := self.(confirmation_policy);
  maker_confirmation_policy := self.(maker_confirmation_policy);
  coord_recovery_schedule := self.(coord_recovery_schedule);
  coord_phase := self.(coord_phase);
  taker_funding_confirmed := self.(taker_funding_confirmed);
  maker_funding_confirmed := v;
  taker_lock_transaction_id := self.(taker_lock_transaction_id);
  maker_lock_transaction_id := self.(maker_lock_transaction_id);
  coord_claim_evidence := self.(coord_claim_evidence);
  revealing_claim_transaction_id := self.(revealing_claim_transaction_id);
  followup_claim_transaction_id := self.(followup_claim_transaction_id);
  taker_refund_event_transaction_id := self.(taker_refund_event_transaction_id);
  maker_recovery_transaction_id := self.(maker_recovery_transaction_id)
|}.

Definition set_taker_lock_transaction_id (v : option string) (self : SwapCoordinator) : SwapCoordinator := {|
  coord_id := self.(coord_id);
  coord_pair := self.(coord_pair);
  coord_direction := self.(coord_direction);
  confirmation_policy := self.(confirmation_policy);
  maker_confirmation_policy := self.(maker_confirmation_policy);
  coord_recovery_schedule := self.(coord_recovery_schedule);
  coord_phase := self.(coord_phase);
  taker_funding_confirmed := self.(taker_funding_confirmed);
  maker_funding_confirmed := self.(maker_funding_confirmed);
  taker_lock_transaction_id := v;
  maker_lock_transaction_id := self.(maker_lock_transaction_id);
  coord_claim_evidence := self.(coord_claim_evidence);
  revealing_claim_transaction_id := self.(revealing_claim_transaction_id);
  followup_claim_transaction_id := self.(followup_claim_transaction_id);
  taker_refund_event_transaction_id := self.(taker_refund_event_transaction_id);
  maker_recovery_transaction_id := self.(maker_recovery_transaction_id)
|}.

Definition set_maker_lock_transaction_id (v : option string) (self : SwapCoordinator) : SwapCoordinator := {|
  coord_id := self.(coord_id);
  coord_pair := self.(coord_pair);
  coord_direction := self.(coord_direction);
  confirmation_policy := self.(confirmation_policy);
  maker_confirmation_policy := self.(maker_confirmation_policy);
  coord_recovery_schedule := self.(coord_recovery_schedule);
  coord_phase := self.(coord_phase);
  taker_funding_confirmed := self.(taker_funding_confirmed);
  maker_funding_confirmed := self.(maker_funding_confirmed);
  taker_lock_transaction_id := self.(taker_lock_transaction_id);
  maker_lock_transaction_id := v;
  coord_claim_evidence := self.(coord_claim_evidence);
  revealing_claim_transaction_id := self.(revealing_claim_transaction_id);
  followup_claim_transaction_id := self.(followup_claim_transaction_id);
  taker_refund_event_transaction_id := self.(taker_refund_event_transaction_id);
  maker_recovery_transaction_id := self.(maker_recovery_transaction_id)
|}.

Definition set_claim_evidence (v : option ClaimEvidence) (self : SwapCoordinator) : SwapCoordinator := {|
  coord_id := self.(coord_id);
  coord_pair := self.(coord_pair);
  coord_direction := self.(coord_direction);
  confirmation_policy := self.(confirmation_policy);
  maker_confirmation_policy := self.(maker_confirmation_policy);
  coord_recovery_schedule := self.(coord_recovery_schedule);
  coord_phase := self.(coord_phase);
  taker_funding_confirmed := self.(taker_funding_confirmed);
  maker_funding_confirmed := self.(maker_funding_confirmed);
  taker_lock_transaction_id := self.(taker_lock_transaction_id);
  maker_lock_transaction_id := self.(maker_lock_transaction_id);
  coord_claim_evidence := v;
  revealing_claim_transaction_id := self.(revealing_claim_transaction_id);
  followup_claim_transaction_id := self.(followup_claim_transaction_id);
  taker_refund_event_transaction_id := self.(taker_refund_event_transaction_id);
  maker_recovery_transaction_id := self.(maker_recovery_transaction_id)
|}.

Definition set_revealing_claim_transaction_id (v : option string) (self : SwapCoordinator) : SwapCoordinator := {|
  coord_id := self.(coord_id);
  coord_pair := self.(coord_pair);
  coord_direction := self.(coord_direction);
  confirmation_policy := self.(confirmation_policy);
  maker_confirmation_policy := self.(maker_confirmation_policy);
  coord_recovery_schedule := self.(coord_recovery_schedule);
  coord_phase := self.(coord_phase);
  taker_funding_confirmed := self.(taker_funding_confirmed);
  maker_funding_confirmed := self.(maker_funding_confirmed);
  taker_lock_transaction_id := self.(taker_lock_transaction_id);
  maker_lock_transaction_id := self.(maker_lock_transaction_id);
  coord_claim_evidence := self.(coord_claim_evidence);
  revealing_claim_transaction_id := v;
  followup_claim_transaction_id := self.(followup_claim_transaction_id);
  taker_refund_event_transaction_id := self.(taker_refund_event_transaction_id);
  maker_recovery_transaction_id := self.(maker_recovery_transaction_id)
|}.

Definition set_followup_claim_transaction_id (v : option string) (self : SwapCoordinator) : SwapCoordinator := {|
  coord_id := self.(coord_id);
  coord_pair := self.(coord_pair);
  coord_direction := self.(coord_direction);
  confirmation_policy := self.(confirmation_policy);
  maker_confirmation_policy := self.(maker_confirmation_policy);
  coord_recovery_schedule := self.(coord_recovery_schedule);
  coord_phase := self.(coord_phase);
  taker_funding_confirmed := self.(taker_funding_confirmed);
  maker_funding_confirmed := self.(maker_funding_confirmed);
  taker_lock_transaction_id := self.(taker_lock_transaction_id);
  maker_lock_transaction_id := self.(maker_lock_transaction_id);
  coord_claim_evidence := self.(coord_claim_evidence);
  revealing_claim_transaction_id := self.(revealing_claim_transaction_id);
  followup_claim_transaction_id := v;
  taker_refund_event_transaction_id := self.(taker_refund_event_transaction_id);
  maker_recovery_transaction_id := self.(maker_recovery_transaction_id)
|}.

Definition set_taker_refund_event_transaction_id (v : option string) (self : SwapCoordinator) : SwapCoordinator := {|
  coord_id := self.(coord_id);
  coord_pair := self.(coord_pair);
  coord_direction := self.(coord_direction);
  confirmation_policy := self.(confirmation_policy);
  maker_confirmation_policy := self.(maker_confirmation_policy);
  coord_recovery_schedule := self.(coord_recovery_schedule);
  coord_phase := self.(coord_phase);
  taker_funding_confirmed := self.(taker_funding_confirmed);
  maker_funding_confirmed := self.(maker_funding_confirmed);
  taker_lock_transaction_id := self.(taker_lock_transaction_id);
  maker_lock_transaction_id := self.(maker_lock_transaction_id);
  coord_claim_evidence := self.(coord_claim_evidence);
  revealing_claim_transaction_id := self.(revealing_claim_transaction_id);
  followup_claim_transaction_id := self.(followup_claim_transaction_id);
  taker_refund_event_transaction_id := v;
  maker_recovery_transaction_id := self.(maker_recovery_transaction_id)
|}.

Definition set_maker_recovery_transaction_id (v : option string) (self : SwapCoordinator) : SwapCoordinator := {|
  coord_id := self.(coord_id);
  coord_pair := self.(coord_pair);
  coord_direction := self.(coord_direction);
  confirmation_policy := self.(confirmation_policy);
  maker_confirmation_policy := self.(maker_confirmation_policy);
  coord_recovery_schedule := self.(coord_recovery_schedule);
  coord_phase := self.(coord_phase);
  taker_funding_confirmed := self.(taker_funding_confirmed);
  maker_funding_confirmed := self.(maker_funding_confirmed);
  taker_lock_transaction_id := self.(taker_lock_transaction_id);
  maker_lock_transaction_id := self.(maker_lock_transaction_id);
  coord_claim_evidence := self.(coord_claim_evidence);
  revealing_claim_transaction_id := self.(revealing_claim_transaction_id);
  followup_claim_transaction_id := self.(followup_claim_transaction_id);
  taker_refund_event_transaction_id := self.(taker_refund_event_transaction_id);
  maker_recovery_transaction_id := v
|}.
Definition new_with_confirmation_policies (id : SwapId) (pair : Pair)
    (direction : SwapDirection)
    (taker_confirmation_policy maker_policy : ConfirmationPolicy)
    (recovery_schedule : RecoverySchedule) : SwapCoordinator := {|
  coord_id := id;
  coord_pair := pair;
  coord_direction := direction;
  confirmation_policy := taker_confirmation_policy;
  maker_confirmation_policy := maker_policy;
  coord_recovery_schedule := recovery_schedule;
  coord_phase := Offered;
  taker_funding_confirmed := false;
  maker_funding_confirmed := false;
  taker_lock_transaction_id := None;
  maker_lock_transaction_id := None;
  coord_claim_evidence := None;
  revealing_claim_transaction_id := None;
  followup_claim_transaction_id := None;
  taker_refund_event_transaction_id := None;
  maker_recovery_transaction_id := None
|}.

Definition new_with_direction (id : SwapId) (pair : Pair) (direction : SwapDirection)
    (policy : ConfirmationPolicy) (recovery_schedule : RecoverySchedule) : SwapCoordinator := {|
  coord_id := id;
  coord_pair := pair;
  coord_direction := direction;
  confirmation_policy := policy;
  maker_confirmation_policy := default_maker_confirmation_policy;
  coord_recovery_schedule := recovery_schedule;
  coord_phase := Offered;
  taker_funding_confirmed := false;
  maker_funding_confirmed := false;
  taker_lock_transaction_id := None;
  maker_lock_transaction_id := None;
  coord_claim_evidence := None;
  revealing_claim_transaction_id := None;
  followup_claim_transaction_id := None;
  taker_refund_event_transaction_id := None;
  maker_recovery_transaction_id := None
|}.

(** [SwapCoordinator::new] fixes the default direction. *)
Definition SwapCoordinator_new (id : SwapId) (pair : Pair)
    (policy : ConfirmationPolicy) (recovery_schedule : RecoverySchedule) : SwapCoordinator := {|
  coord_id := id;
  coord_pair := pair;
  coord_direction := TakerSellsForeign;
  confirmation_policy := policy;
  maker_confirmation_policy := default_maker_confirmation_policy;
  coord_recovery_schedule := recovery_schedule;
  coord_phase := Offered;
  taker_funding_confirmed := false;
  maker_funding_confirmed := false;
  taker_lock_transaction_id := None;
  maker_lock_transaction_id := None;
  coord_claim_evidence := None;
  revealing_claim_transaction_id := None;
  followup_claim_transaction_id := None;
  taker_refund_event_transaction_id := None;
  maker_recovery_transaction_id := None
|}.

(** ** Queries *)

Definition funded_chain (self : SwapCoordinator) (participant : Participant) : Chain :=
  let foreign :=
    match self.(coord_pair) with
    | Pair_Bitcoin => Chain_Bitcoin
    | Pair_Monero => Chain_Monero
    | Pair_Zcash => Chain_Zcash
    end in
  match self.(coord_direction), participant with
  | TakerSellsForeign, Participant_Taker
  | TakerSellsLez, Participant_Maker => foreign
  | TakerSellsForeign, Participant_Maker
  | TakerSellsLez, Participant_Taker => Chain_Lez
  end.

Definition funding_transaction_id (self : SwapCoordinator) (participant : Participant)
    : option string :=
  match participant with
  | Participant_Maker => self.(maker_lock_transaction_id)
  | Participant_Taker => self.(taker_lock_transaction_id)
  end.

Definition required_confirmations (self : SwapCoordinator) (participant : Participant) : Z :=
  match participant with
  | Participant_Maker => policy_required self.(maker_confirmation_policy)
  | Participant_Taker => policy_required self.(confirmation_policy)
  end.

Definition first_claimant (self : SwapCoordinator) : Participant :=
  match self.(coord_pair), self.(coord_direction) with
  | Pair_Bitcoin, _ | Pair_Zcash, TakerSellsForeign => Participant_Taker
  | Pair_Monero, _ | Pair_Zcash, TakerSellsLez => Participant_Maker
  end.

(** ** Methods that change the state *)

Abbreviation outcome := (SwapCoordinator * result unit CoreError)%type.

Definition observe_taker_lock_removed (self : SwapCoordinator) (transaction_id : string)
    : outcome :=
  if self.(taker_lock_transaction_id) !=? Some transaction_id
  then (self, Err ConflictingTakerLock)
  else
    let self := set_taker_funding_confirmed false self in
    match self.(coord_phase) with
    | AwaitingTakerConfirmations | TakerLockConfirmed =>
        (set_phase Offered (set_taker_lock_transaction_id None self), Ok tt)
    | AwaitingMakerConfirmations | BothLegsLocked | ClaimEvidenceAvailable =>
        (set_phase TakerLockReorged self, Ok tt)
    | _ => (self, Ok tt)
    end.

Definition observe_maker_lock_removed (self : SwapCoordinator) (transaction_id : string)
    : outcome :=
  if self.(maker_lock_transaction_id) !=? Some transaction_id
  then (self, Err ConflictingMakerLock)
  else
    let self := set_maker_funding_confirmed false self in
    match self.(coord_phase) with
    | AwaitingMakerConfirmations =>
        (set_phase TakerLockConfirmed (set_maker_lock_transaction_id None self), Ok tt)
    | BothLegsLocked | ClaimEvidenceAvailable =>
        (set_phase MakerLockReorged self, Ok tt)
    | _ => (self, Ok tt)
    end.

(** [Option::is_some_and(|known| known != id)] *)
Definition known_and_differs (known : option string) (id : string) : bool :=
  match known with Some k => k !=? id | None => false end.

Definition is_some {A} (o : option A) : bool :=
  match o with Some _ => true | None => false end.

Definition observe_taker_lock_impl (self : SwapCoordinator) (proof : ChainProof)
    : outcome :=
  if known_and_differs self.(taker_lock_transaction_id) proof.(proof_transaction_id)
  then (self, Err ConflictingTakerLock)
  else if (self.(coord_phase) ==? Completed) || (self.(coord_phase) ==? Refunded)
  then (self, Ok tt)
  else
    let self := set_taker_lock_transaction_id (Some proof.(proof_transaction_id)) self in
    let confirmed :=
      policy_required self.(confirmation_policy) <=? proof.(proof_confirmations) in
    let self := set_taker_funding_confirmed confirmed self in
    let phase :=
      match self.(coord_phase), confirmed with
      | (Offered | AwaitingTakerConfirmations | TakerLockConfirmed), true =>
          TakerLockConfirmed
      | (Offered | AwaitingTakerConfirmations | TakerLockConfirmed), false =>
          AwaitingTakerConfirmations
      | (BothLegsLocked | ClaimEvidenceAvailable), false => TakerLockReorged
      | TakerLockReorged, true =>
          if is_some self.(coord_claim_evidence)
          then ClaimEvidenceAvailable else BothLegsLocked
      | phase, _ => phase
      end in
    (set_phase phase self, Ok tt).

Definition observe_maker_lock_impl (self : SwapCoordinator) (proof : ChainProof)
    : outcome :=
  let confirmed :=
    policy_required self.(maker_confirmation_policy) <=? proof.(proof_confirmations) in
  match self.(coord_phase) with
  | AwaitingMakerConfirmations | BothLegsLocked | MakerLockReorged
  | ClaimEvidenceAvailable =>
      if self.(maker_lock_transaction_id) !=? Some proof.(proof_transaction_id)
      then (self, Err ConflictingMakerLock)
      else
        let self := set_maker_funding_confirmed confirmed self in
        let phase :=
          match self.(coord_phase), confirmed with
          | AwaitingMakerConfirmations, false => AwaitingMakerConfirmations
          | (BothLegsLocked | ClaimEvidenceAvailable), false => MakerLockReorged
          | MakerLockReorged, true =>
              if is_some self.(coord_claim_evidence)
              then ClaimEvidenceAvailable else BothLegsLocked
          | AwaitingMakerConfirmations, true => BothLegsLocked
          | phase, _ => phase
          end in
        (set_phase phase self, Ok tt)
  | TakerLockConfirmed =>
      let self := set_maker_lock_transaction_id (Some proof.(proof_transaction_id)) self in
      let self := set_maker_funding_confirmed confirmed self in
      (set_phase (if confirmed then BothLegsLocked else AwaitingMakerConfirmations) self,
       Ok tt)
  | _ =>
      (self,
       match self.(maker_lock_transaction_id) with
       | Some known =>
           if known ==? proof.(proof_transaction_id) then Ok tt else Err ConflictingMakerLock
       | None => Err TakerLockNotConfirmed
       end)
  end.

Definition observe_taker_lock := observe_taker_lock_impl.
Definition observe_maker_lock := observe_maker_lock_impl.

Definition observe_funding (self : SwapCoordinator) (participant : Participant)
    (proof : ChainProof) : outcome :=
  match participant with
  | Participant_Maker => observe_maker_lock self proof
  | Participant_Taker => observe_taker_lock self proof
  end.

Definition observe_funding_removed (self : SwapCoordinator) (participant : Participant)
    (transaction_id : string) : outcome :=
  match participant with
  | Participant_Maker => observe_maker_lock_removed self transaction_id
  | Participant_Taker => observe_taker_lock_removed self transaction_id
  end.

Definition both_legs_funded (self : SwapCoordinator) : result unit CoreError :=
  if negb self.(taker_funding_confirmed) || negb (is_some self.(taker_lock_transaction_id))
  then Err TakerLockNotConfirmed
  else if negb self.(maker_funding_confirmed) || negb (is_some self.(maker_lock_transaction_id))
  then Err MakerLockNotConfirmed
  else Ok tt.

Definition observe_revealing_claim (self : SwapCoordinator) (claimant : Participant)
    (proof : ChainProof) (evidence : ClaimEvidence) : outcome :=
  let expected_claimant := first_claimant self in
  if claimant !=? expected_claimant
  then (self, Err (UnexpectedClaimant expected_claimant claimant))
  else if self.(coord_phase) ==? TakerLockReorged then (self, Err TakerLockNotConfirmed)
  else if self.(coord_phase) ==? MakerLockReorged then (self, Err MakerLockNotConfirmed)
  else
    match both_legs_funded self with
    | Err e => (self, Err e)
    | Ok _ =>
        if self.(coord_phase) !=? BothLegsLocked
        then
          (self,
           match self.(revealing_claim_transaction_id), self.(coord_claim_evidence) with
           | Some known_id, Some known_evidence =>
               if (known_id ==? proof.(proof_transaction_id))
                  && (known_evidence ==? evidence)
               then Ok tt else Err ConflictingClaimEvidence
           | _, _ => Err (InvalidPhase BothLegsLocked self.(coord_phase))
           end)
        else
          let self :=
            set_revealing_claim_transaction_id (Some proof.(proof_transaction_id)) self in
          let self := set_claim_evidence (Some evidence) self in
          (set_phase ClaimEvidenceAvailable self, Ok tt)
    end.

Definition observe_followup_claim (self : SwapCoordinator) (claimant : Participant)
    (proof : ChainProof) : outcome :=
  let expected_claimant := other (first_claimant self) in
  if claimant !=? expected_claimant
  then (self, Err (UnexpectedClaimant expected_claimant claimant))
  else if self.(coord_phase) ==? TakerLockReorged then (self, Err TakerLockNotConfirmed)
  else if self.(coord_phase) ==? MakerLockReorged then (self, Err MakerLockNotConfirmed)
  else
    match both_legs_funded self with
    | Err e => (self, Err e)
    | Ok _ =>
        if self.(coord_phase) !=? ClaimEvidenceAvailable
        then
          (self,
           match self.(followup_claim_transaction_id) with
           | Some known =>
               if known ==? proof.(proof_transaction_id) then Ok tt
               else Err ConflictingTakerClaim
           | None => Err (InvalidPhase ClaimEvidenceAvailable self.(coord_phase))
           end)
        else
          let self :=
            set_followup_claim_transaction_id (Some proof.(proof_transaction_id)) self in
          (set_phase Completed self, Ok tt)
    end.

Definition refund_maker_leg (self : SwapCoordinator) (observed : ChainPosition) : outcome :=
  match self.(coord_phase) with
  | BothLegsLocked | AwaitingMakerConfirmations | TakerLockReorged | MakerLockReorged
  | TakerLegRefunded =>
      match maker_deadline_reached self.(coord_recovery_schedule) observed with
      | Err e => (self, Err e)
      | Ok false => (self, Err TimelockNotExpired)
      | Ok true =>
          (set_phase (if self.(coord_phase) ==? TakerLegRefunded
                      then Refunded else MakerLegRefunded) self, Ok tt)
      end
  | _ => (self, Err (InvalidPhase BothLegsLocked self.(coord_phase)))
  end.

Definition observe_taker_refund_for_maker_recovery (self : SwapCoordinator)
    (evidence : ChainEventProof) : outcome :=
  match self.(coord_recovery_schedule).(schedule_maker_trigger) with
  | Deadline _ => (self, Err (InvalidPhase TakerLegRefunded self.(coord_phase)))
  | CanonicalTakerRefund chain required =>
      let id := evidence.(event_proof).(proof_transaction_id) in
      let confirmations := evidence.(event_proof).(proof_confirmations) in
      if evidence.(event_chain) !=? chain
      then (self, Err (WrongRecoveryEventChain chain evidence.(event_chain)))
      else if known_and_differs self.(taker_refund_event_transaction_id) id
      then (self, Err ConflictingTakerRefundEvent)
      else if confirmations <? required
      then
        if self.(coord_phase) ==? MakerRecoveryAvailable
        then (set_phase TakerLegRefunded self, Ok tt)
        else (self, Err (InsufficientRecoveryEventConfirmations required confirmations))
      else if (self.(coord_phase) ==? MakerRecoveryAvailable)
              || (self.(coord_phase) ==? Refunded)
      then (self, Ok tt)
      else if self.(coord_phase) !=? TakerLegRefunded
      then (self, Err (InvalidPhase TakerLegRefunded self.(coord_phase)))
      else
        let self := set_taker_refund_event_transaction_id (Some id) self in
        (set_phase MakerRecoveryAvailable self, Ok tt)
  end.

Definition observe_maker_recovery (self : SwapCoordinator) (proof : ChainProof) : outcome :=
  if known_and_differs self.(maker_recovery_transaction_id) proof.(proof_transaction_id)
  then (self, Err ConflictingMakerRecovery)
  else if (self.(coord_phase) ==? Refunded) && is_some self.(maker_recovery_transaction_id)
  then (self, Ok tt)
  else if self.(coord_phase) !=? MakerRecoveryAvailable
  then (self, Err (InvalidPhase MakerRecoveryAvailable self.(coord_phase)))
  else
    let self := set_maker_recovery_transaction_id (Some proof.(proof_transaction_id)) self in
    (set_phase Refunded self, Ok tt).

Definition refund_taker_leg (self : SwapCoordinator) (observed : ChainPosition) : outcome :=
  match self.(coord_phase) with
  | AwaitingTakerConfirmations | TakerLockConfirmed | AwaitingMakerConfirmations
  | BothLegsLocked | TakerLockReorged | MakerLockReorged | MakerLegRefunded =>
      match taker_refund_reached self.(coord_recovery_schedule) observed with
      | Err e => (self, Err e)
      | Ok false => (self, Err TimelockNotExpired)
      | Ok true =>
          let phase :=
            match self.(coord_phase) with
            | AwaitingTakerConfirmations | TakerLockConfirmed | MakerLegRefunded => Refunded
            | _ => TakerLegRefunded
            end in
          (set_phase phase self, Ok tt)
      end
  | _ => (self, Err (InvalidPhase TakerLockConfirmed self.(coord_phase)))
  end.

(** ** Sequences of calls *)

Inductive CoordinatorOp :=
| ObserveFunding (participant : Participant) (proof : ChainProof)
| ObserveFundingRemoved (participant : Participant) (transaction_id : string)
| ObserveRevealingClaim (claimant : Participant) (proof : ChainProof)
    (evidence : ClaimEvidence)
| ObserveFollowupClaim (claimant : Participant) (proof : ChainProof)
| RefundMakerLeg (observed : ChainPosition)
| ObserveTakerRefundForMakerRecovery (evidence : ChainEventProof)
| ObserveMakerRecovery (proof : ChainProof)
| RefundTakerLeg (observed : ChainPosition).

Definition apply (op : CoordinatorOp) (self : SwapCoordinator) : outcome :=
  match op with
  | ObserveFunding p proof => observe_funding self p proof
  | ObserveFundingRemoved p id => observe_funding_removed self p id
  | ObserveRevealingClaim c proof evidence => observe_revealing_claim self c proof evidence
  | ObserveFollowupClaim c proof => observe_followup_claim self c proof
  | RefundMakerLeg observed => refund_maker_leg self observed
  | ObserveTakerRefundForMakerRecovery evidence =>
      observe_taker_refund_for_maker_recovery self evidence
  | ObserveMakerRecovery proof => observe_maker_recovery self proof
  | RefundTakerLeg observed => refund_taker_leg self observed
  end.

Fixpoint run (ops : list CoordinatorOp) (self : SwapCoordinator) : SwapCoordinator :=
  match ops with
  | [] => self
  | op :: ops => run ops (apply op self).1
  end.

(** A coordinator as one of the three constructors leaves it. *)
Definition fresh_coordinator (s : SwapCoordinator) : Prop :=
  ∃ id pair direction taker_policy maker_policy schedule,
    s = new_with_confirmation_policies id pair direction taker_policy maker_policy schedule.

Definition reachable (s : SwapCoordinator) : Prop :=
  ∃ s0 ops, fresh_coordinator s0 ∧ s = run ops s0.
