(* ===== verification/CoordinatorSteps.v ===== *)
(** * Transition relation of the coordinator

    [coord_step] states, rule by rule, the effective transitions of the
    coordinator: which call, from which phases and under which guards, leads
    to which state.  [apply_sound] and [apply_complete] connect it with the
    methods of [Coordinator.v]: a call either leaves the state alone or takes
    exactly one of these transitions and succeeds.  The invariants of
    [CoordinatorFacts.v] are proved by rule induction over it. *)

From stdpp Require Import base strings list numbers.
From S2P Require Import Prelude SwapCore Coordinator.

Open Scope Z_scope.

Definition taker_meets_policy (s : SwapCoordinator) (proof : ChainProof) : bool :=
  required_confirmations s Participant_Taker <=? proof.(proof_confirmations).

Definition maker_meets_policy (s : SwapCoordinator) (proof : ChainProof) : bool :=
  required_confirmations s Participant_Maker <=? proof.(proof_confirmations).

(** The state after a taker observation has been noted, before its phase. *)
Definition note_taker (proof : ChainProof) (s : SwapCoordinator) : SwapCoordinator :=
  set_taker_funding_confirmed (taker_meets_policy s proof)
    (set_taker_lock_transaction_id (Some proof.(proof_transaction_id)) s).

(** Where a coordinator whose reorged leg is back resumes. *)
Definition resumed_phase (s : SwapCoordinator) : Phase :=
  if is_some s.(coord_claim_evidence) then ClaimEvidenceAvailable else BothLegsLocked.

(** Phase after the pinned maker lock is observed again. *)
Definition maker_phase_after (s : SwapCoordinator) (confirmed : bool) : Phase :=
  match s.(coord_phase), confirmed with
  | (BothLegsLocked | ClaimEvidenceAvailable), false => MakerLockReorged
  | MakerLockReorged, true => resumed_phase s
  | AwaitingMakerConfirmations, true => BothLegsLocked
  | phase, _ => phase
  end.

Inductive coord_step (s : SwapCoordinator) : CoordinatorOp → SwapCoordinator → Prop :=
| step_taker_first proof :
    s.(coord_phase) ∈ [Offered; AwaitingTakerConfirmations; TakerLockConfirmed] →
    known_and_differs s.(taker_lock_transaction_id) proof.(proof_transaction_id) = false →
    coord_step s (ObserveFunding Participant_Taker proof)
      (set_phase (if taker_meets_policy s proof
                  then TakerLockConfirmed else AwaitingTakerConfirmations)
         (note_taker proof s))
| step_taker_regressed proof :
    s.(coord_phase) ∈ [BothLegsLocked; ClaimEvidenceAvailable] →
    known_and_differs s.(taker_lock_transaction_id) proof.(proof_transaction_id) = false →
    taker_meets_policy s proof = false →
    coord_step s (ObserveFunding Participant_Taker proof)
      (set_phase TakerLockReorged (note_taker proof s))
| step_taker_restored proof :
    s.(coord_phase) = TakerLockReorged →
    known_and_differs s.(taker_lock_transaction_id) proof.(proof_transaction_id) = false →
    taker_meets_policy s proof = true →
    coord_step s (ObserveFunding Participant_Taker proof)
      (set_phase (resumed_phase s) (note_taker proof s))
| step_taker_noted proof :
    s.(coord_phase) ∈
      [AwaitingMakerConfirmations; MakerLockReorged; MakerLegRefunded; TakerLegRefunded;
       MakerRecoveryAvailable]
      ∨ s.(coord_phase) ∈ [BothLegsLocked; ClaimEvidenceAvailable]
        ∧ taker_meets_policy s proof = true
      ∨ s.(coord_phase) = TakerLockReorged ∧ taker_meets_policy s proof = false →
    known_and_differs s.(taker_lock_transaction_id) proof.(proof_transaction_id) = false →
    coord_step s (ObserveFunding Participant_Taker proof) (note_taker proof s)
| step_taker_removed_early id :
    s.(coord_phase) ∈ [AwaitingTakerConfirmations; TakerLockConfirmed] →
    s.(taker_lock_transaction_id) = Some id →
    coord_step s (ObserveFundingRemoved Participant_Taker id)
      (set_phase Offered
         (set_taker_lock_transaction_id None (set_taker_funding_confirmed false s)))
| step_taker_removed_late id :
    s.(coord_phase) ∈ [AwaitingMakerConfirmations; BothLegsLocked; ClaimEvidenceAvailable] →
    s.(taker_lock_transaction_id) = Some id →
    coord_step s (ObserveFundingRemoved Participant_Taker id)
      (set_phase TakerLockReorged (set_taker_funding_confirmed false s))
| step_taker_removed_noted id :
    s.(coord_phase) ∈
      [Offered; TakerLockReorged; MakerLockReorged; Completed; MakerLegRefunded;
       TakerLegRefunded; Refunded; MakerRecoveryAvailable] →
    s.(taker_lock_transaction_id) = Some id →
    coord_step s (ObserveFundingRemoved Participant_Taker id)
      (set_taker_funding_confirmed false s)
| step_maker_first proof :
    s.(coord_phase) = TakerLockConfirmed →
    coord_step s (ObserveFunding Participant_Maker proof)
      (set_phase (if maker_meets_policy s proof
                  then BothLegsLocked else AwaitingMakerConfirmations)
         (set_maker_funding_confirmed (maker_meets_policy s proof)
            (set_maker_lock_transaction_id (Some proof.(proof_transaction_id)) s)))
| step_maker_again proof :
    s.(coord_phase) ∈
      [AwaitingMakerConfirmations; BothLegsLocked; MakerLockReorged; ClaimEvidenceAvailable] →
    s.(maker_lock_transaction_id) = Some proof.(proof_transaction_id) →
    coord_step s (ObserveFunding Participant_Maker proof)
      (set_phase (maker_phase_after s (maker_meets_policy s proof))
         (set_maker_funding_confirmed (maker_meets_policy s proof) s))
| step_maker_removed_early id :
    s.(coord_phase) = AwaitingMakerConfirmations →
    s.(maker_lock_transaction_id) = Some id →
    coord_step s (ObserveFundingRemoved Participant_Maker id)
      (set_phase TakerLockConfirmed
         (set_maker_lock_transaction_id None (set_maker_funding_confirmed false s)))
| step_maker_removed_late id :
    s.(coord_phase) ∈ [BothLegsLocked; ClaimEvidenceAvailable] →
    s.(maker_lock_transaction_id) = Some id →
    coord_step s (ObserveFundingRemoved Participant_Maker id)
      (set_phase MakerLockReorged (set_maker_funding_confirmed false s))
| step_maker_removed_noted id :
    s.(coord_phase) ∈
      [Offered; AwaitingTakerConfirmations; TakerLockConfirmed; TakerLockReorged;
       MakerLockReorged; Completed; MakerLegRefunded; TakerLegRefunded; Refunded;
       MakerRecoveryAvailable] →
    s.(maker_lock_transaction_id) = Some id →
    coord_step s (ObserveFundingRemoved Participant_Maker id)
      (set_maker_funding_confirmed false s)
| step_revealed proof evidence :
    s.(coord_phase) = BothLegsLocked →
    both_legs_funded s = Ok tt →
    coord_step s (ObserveRevealingClaim (first_claimant s) proof evidence)
      (set_phase ClaimEvidenceAvailable
         (set_claim_evidence (Some evidence)
            (set_revealing_claim_transaction_id (Some proof.(proof_transaction_id)) s)))
| step_completed proof :
    s.(coord_phase) = ClaimEvidenceAvailable →
    both_legs_funded s = Ok tt →
    coord_step s (ObserveFollowupClaim (other (first_claimant s)) proof)
      (set_phase Completed
         (set_followup_claim_transaction_id (Some proof.(proof_transaction_id)) s))
| step_maker_refunded_first observed :
    s.(coord_phase) ∈
      [BothLegsLocked; AwaitingMakerConfirmations; TakerLockReorged; MakerLockReorged] →
    maker_deadline_reached s.(coord_recovery_schedule) observed = Ok true →
    coord_step s (RefundMakerLeg observed) (set_phase MakerLegRefunded s)
| step_maker_refunded_last observed :
    s.(coord_phase) = TakerLegRefunded →
    maker_deadline_reached s.(coord_recovery_schedule) observed = Ok true →
    coord_step s (RefundMakerLeg observed) (set_phase Refunded s)
| step_taker_refund_event evidence chain required :
    s.(coord_phase) = TakerLegRefunded →
    s.(coord_recovery_schedule).(schedule_maker_trigger)
      = CanonicalTakerRefund chain required →
    evidence.(event_chain) = chain →
    known_and_differs s.(taker_refund_event_transaction_id)
      evidence.(event_proof).(proof_transaction_id) = false →
    required ≤ evidence.(event_proof).(proof_confirmations) →
    coord_step s (ObserveTakerRefundForMakerRecovery evidence)
      (set_phase MakerRecoveryAvailable
         (set_taker_refund_event_transaction_id
            (Some evidence.(event_proof).(proof_transaction_id)) s))
| step_taker_refund_event_lost evidence chain required :
    s.(coord_phase) = MakerRecoveryAvailable →
    s.(coord_recovery_schedule).(schedule_maker_trigger)
      = CanonicalTakerRefund chain required →
    evidence.(event_chain) = chain →
    known_and_differs s.(taker_refund_event_transaction_id)
      evidence.(event_proof).(proof_transaction_id) = false →
    evidence.(event_proof).(proof_confirmations) < required →
    coord_step s (ObserveTakerRefundForMakerRecovery evidence)
      (set_phase TakerLegRefunded s)
| step_maker_recovered proof :
    s.(coord_phase) = MakerRecoveryAvailable →
    known_and_differs s.(maker_recovery_transaction_id)
      proof.(proof_transaction_id) = false →
    coord_step s (ObserveMakerRecovery proof)
      (set_phase Refunded
         (set_maker_recovery_transaction_id (Some proof.(proof_transaction_id)) s))
| step_taker_refunded_last observed :
    s.(coord_phase) ∈ [AwaitingTakerConfirmations; TakerLockConfirmed; MakerLegRefunded] →
    taker_refund_reached s.(coord_recovery_schedule) observed = Ok true →
    coord_step s (RefundTakerLeg observed) (set_phase Refunded s)
| step_taker_refunded_first observed :
    s.(coord_phase) ∈
      [AwaitingMakerConfirmations; BothLegsLocked; TakerLockReorged; MakerLockReorged] →
    taker_refund_reached s.(coord_recovery_schedule) observed = Ok true →
    coord_step s (RefundTakerLeg observed) (set_phase TakerLegRefunded s).

(** ** Tactics for case analysis on phases *)

(** Turn membership in an explicit list of phases into one goal per phase. *)
Ltac phase_cases :=
  repeat match goal with
  | H : _ ∈ [] |- _ => by apply elem_of_nil in H
  | H : _ ∈ _ :: _ |- _ => apply elem_of_cons in H as [H|H]
  end.

Ltac in_phases := rewrite ?elem_of_cons, ?elem_of_nil; naive_solver.

#[export] Hint Extern 1 (_ ∈ _ :: _) => in_phases : rust.

(** ** The methods implement the relation *)

Lemma set_phase_same s : set_phase s.(coord_phase) s = s.
Proof. by destruct s. Qed.

Lemma set_phase_eq p s : p = s.(coord_phase) → set_phase p s = s.
Proof. intros ->. apply set_phase_same. Qed.

Lemma coord_step_eq s op s1 s2 : coord_step s op s1 → s1 = s2 → coord_step s op s2.
Proof. by intros ? <-. Qed.

Ltac unfold_methods :=
  unfold observe_funding, observe_funding_removed, observe_taker_lock, observe_maker_lock,
    observe_taker_lock_impl, observe_maker_lock_impl, observe_taker_lock_removed,
    observe_maker_lock_removed, observe_revealing_claim, observe_followup_claim,
    refund_maker_leg, refund_taker_leg, observe_taker_refund_for_maker_recovery,
    observe_maker_recovery in *.

(** Close a goal [s' = s ∨ r = Ok tt ∧ coord_step s op s'] once the branch of
    the method is known: either nothing changed or the given rule applies. *)
Ltac solve_state :=
  unfold note_taker, maker_phase_after, resumed_phase, taker_meets_policy,
    maker_meets_policy; cbn;
  repeat match goal with H : (_ <=? _) = _ |- _ => rewrite H end; done.

Ltac solve_guard :=
  unfold taker_meets_policy, maker_meets_policy; cbn;
  repeat match goal with H : (_ <=? _) = _ |- _ => rewrite H end;
  first [ done | in_phases | lia ].

Ltac by_rule rule :=
  right; split; [done|]; eapply coord_step_eq; [eapply rule; solve_guard | solve_state].

Lemma observe_taker_lock_sound s proof s' r :
  observe_taker_lock s proof = (s', r) →
  s' = s ∨ r = Ok tt ∧ coord_step s (ObserveFunding Participant_Taker proof) s'.
Proof.
  unfold_methods.
  destruct (known_and_differs _ _) eqn:Hk; [naive_solver|].
  destruct (taker_meets_policy s proof) eqn:Hc; unfold taker_meets_policy in Hc;
    destruct s as [???? ?? p]; destruct p; cbn in *; rewrite ?Hc; intros [= <- <-].
  all: first [ by left | by_rule step_taker_first | by_rule step_taker_regressed
             | by_rule step_taker_restored | by_rule step_taker_noted ].
Qed.

Lemma observe_maker_lock_sound s proof s' r :
  observe_maker_lock s proof = (s', r) →
  s' = s ∨ r = Ok tt ∧ coord_step s (ObserveFunding Participant_Maker proof) s'.
Proof.
  unfold_methods.
  destruct (bool_decide (maker_lock_transaction_id s = Some (proof_transaction_id proof)))
    eqn:Hk;
  destruct (maker_meets_policy s proof) eqn:Hc; unfold maker_meets_policy in Hc;
    destruct s as [???? ?? p]; destruct p; cbn in *; rewrite ?Hc, ?Hk;
    try apply bool_decide_eq_true in Hk; intros [= <- <-].
  all: first [ by left | by_rule step_maker_first | by_rule step_maker_again ].
Qed.

Lemma observe_funding_removed_sound s p id s' r :
  observe_funding_removed s p id = (s', r) →
  s' = s ∨ r = Ok tt ∧ coord_step s (ObserveFundingRemoved p id) s'.
Proof.
  destruct p; unfold_methods; case_match; bool_props; [naive_solver| |naive_solver|];
    destruct s as [???? ?? ph]; destruct ph; cbn in *; intros [= <- <-].
  all: first [ by_rule step_taker_removed_early | by_rule step_taker_removed_late
             | by_rule step_taker_removed_noted | by_rule step_maker_removed_early
             | by_rule step_maker_removed_late | by_rule step_maker_removed_noted ].
Qed.

Lemma observe_revealing_claim_sound s c proof evidence s' r :
  observe_revealing_claim s c proof evidence = (s', r) →
  s' = s ∨ r = Ok tt ∧ coord_step s (ObserveRevealingClaim c proof evidence) s'.
Proof.
  unfold_methods.
  destruct (bool_decide (c = first_claimant s)) eqn:Hcl; cbn; [|naive_solver].
  repeat (case_match; [naive_solver|]).
  destruct (both_legs_funded s) as [[]|e] eqn:Hf; [|naive_solver].
  case_match; bool_props; [naive_solver|].
  intros [= <- <-]. subst. by_rule step_revealed.
Qed.

Lemma observe_followup_claim_sound s c proof s' r :
  observe_followup_claim s c proof = (s', r) →
  s' = s ∨ r = Ok tt ∧ coord_step s (ObserveFollowupClaim c proof) s'.
Proof.
  unfold_methods.
  destruct (bool_decide (c = other (first_claimant s))) eqn:Hcl; cbn; [|naive_solver].
  repeat (case_match; [naive_solver|]).
  destruct (both_legs_funded s) as [[]|e] eqn:Hf; [|naive_solver].
  case_match; bool_props; [naive_solver|].
  intros [= <- <-]. subst. by_rule step_completed.
Qed.

Lemma refund_maker_leg_sound s observed s' r :
  refund_maker_leg s observed = (s', r) →
  s' = s ∨ r = Ok tt ∧ coord_step s (RefundMakerLeg observed) s'.
Proof.
  unfold_methods.
  destruct (maker_deadline_reached _ observed) as [[]|e] eqn:Hd;
    destruct (coord_phase s) eqn:Hp; intros [= <- <-].
  all: first [ by left | by_rule step_maker_refunded_first
             | by_rule step_maker_refunded_last ].
Qed.

Lemma refund_taker_leg_sound s observed s' r :
  refund_taker_leg s observed = (s', r) →
  s' = s ∨ r = Ok tt ∧ coord_step s (RefundTakerLeg observed) s'.
Proof.
  unfold_methods.
  destruct (taker_refund_reached _ observed) as [[]|e] eqn:Hd;
    destruct (coord_phase s) eqn:Hp; intros [= <- <-].
  all: first [ by left | by_rule step_taker_refunded_last
             | by_rule step_taker_refunded_first ].
Qed.

Lemma observe_taker_refund_sound s evidence s' r :
  observe_taker_refund_for_maker_recovery s evidence = (s', r) →
  s' = s ∨ r = Ok tt ∧ coord_step s (ObserveTakerRefundForMakerRecovery evidence) s'.
Proof.
  unfold_methods. destruct (schedule_maker_trigger _) as [d|chain required] eqn:Ht;
    [naive_solver|].
  do 2 (case_match; bool_props; [naive_solver|]).
  repeat case_match; bool_props; intros [= <- <-].
  all: first [ by left | by_rule step_taker_refund_event
             | by_rule step_taker_refund_event_lost ].
Qed.

Lemma observe_maker_recovery_sound s proof s' r :
  observe_maker_recovery s proof = (s', r) →
  s' = s ∨ r = Ok tt ∧ coord_step s (ObserveMakerRecovery proof) s'.
Proof.
  unfold_methods. repeat case_match; bool_props; intros [= <- <-].
  all: first [ by left | by_rule step_maker_recovered ].
Qed.

(** Every call leaves the state alone or takes one transition and succeeds. *)
Lemma apply_sound op s s' r :
  apply op s = (s', r) → s' = s ∨ r = Ok tt ∧ coord_step s op s'.
Proof.
  destruct op as [[]| | | | | | |]; cbn;
    eauto using observe_taker_lock_sound, observe_maker_lock_sound,
      observe_funding_removed_sound, observe_revealing_claim_sound,
      observe_followup_claim_sound, refund_maker_leg_sound, refund_taker_leg_sound,
      observe_taker_refund_sound, observe_maker_recovery_sound.
Qed.

Ltac close_complete :=
  unfold note_taker, maker_phase_after, resumed_phase, taker_meets_policy,
    maker_meets_policy in *; cbn in *;
  repeat match goal with
  | H : known_and_differs _ _ = _ |- _ => rewrite H
  | H : (_ <=? _) = _ |- _ => rewrite H
  | H : both_legs_funded _ = _ |- _ => rewrite H
  | H : _ = Ok true |- _ => rewrite H
  | H : schedule_maker_trigger _ = _ |- _ => rewrite H
  | |- context [bool_decide (?a = ?a)] => rewrite (bool_decide_true (a = a)) by done
  end; cbn; repeat (case_match; cbn); bool_props; first [done | lia | congruence].

(** Every transition of the relation is taken by the method. *)
Lemma apply_complete op s s' : coord_step s op s' → apply op s = (s', Ok tt).
Proof.
  destruct 1 as
    [proof Hp Hk|proof Hp Hk Hc|proof Hp Hk Hc|proof Hp Hk|id Hp Hi|id Hp Hi|id Hp Hi
    |proof Hp|proof Hp Hi|id Hp Hi|id Hp Hi|id Hp Hi|proof ev Hp Hf|proof Hp Hf
    |obs Hp Hd|obs Hp Hd|ev ch rq Hp Ht He Hk Hc|ev ch rq Hp Ht He Hk Hc|proof Hp Hk
    |obs Hp Hd|obs Hp Hd].
  all: cbn; unfold_methods.
  all: try (rewrite Hf, Hp, bool_decide_true by done; done).
  all: try (destruct Hp as [Hp|[[Hp Hc]|[Hp Hc]]]).
  all: phase_cases; destruct s; cbn in *; subst; cbn.
  all: close_complete.
Qed.

(** The state left by a call is related to the state before by at most one
    transition, whatever the result. *)
Lemma apply_state op s : (apply op s).1 = s ∨ coord_step s op (apply op s).1.
Proof.
  destruct (apply op s) as [s' r] eqn:E. apply apply_sound in E. naive_solver.
Qed.

(** Induction over runs: what holds initially and is kept by every transition
    holds after any sequence of calls. *)
Lemma run_ind (P : SwapCoordinator → Prop) ops s :
  (∀ s op s', P s → coord_step s op s' → P s') → P s → P (run ops s).
Proof.
  intros Hstep. revert s. induction ops as [|op ops IH]; intros s Hs; [done|].
  cbn. apply IH. destruct (apply_state op s) as [->|Hop]; eauto.
Qed.

Lemma run_app ops1 ops2 s : run (ops1 ++ ops2) s = run ops2 (run ops1 s).
Proof. revert s. induction ops1 as [|op ops1 IH]; intros s; cbn; auto. Qed.
