(* ===== verification/CoordinatorFacts.v ===== *)
(** * Safety and liveness of the coordinator

    The well-formedness invariant [coord_inv] of every reachable coordinator,
    and the properties of [crates/swap-core/src/lib.rs] that follow from it or
    directly from the transition relation: rejected calls change nothing,
    claims need both legs, terminal phases are absorbing, funding identities
    stay pinned, completion and recovery happen in order, and a terminal phase
    stays within reach. *)

From stdpp Require Import base strings list numbers.
From S2P Require Import Prelude SwapCore Coordinator CoordinatorSteps.

Open Scope Z_scope.

(** ** Invariant *)

Definition terminal (p : Phase) : Prop := p = Completed ∨ p = Refunded.

Definition maker_pinned_shape (s : SwapCoordinator) : Prop :=
  match s.(coord_phase) with
  | Offered | AwaitingTakerConfirmations | TakerLockConfirmed =>
      s.(maker_lock_transaction_id) = None
  | Refunded => True
  | _ => is_Some s.(maker_lock_transaction_id)
  end.

Definition evidence_shape (s : SwapCoordinator) : Prop :=
  match s.(coord_phase) with
  | Offered | AwaitingTakerConfirmations | TakerLockConfirmed
  | AwaitingMakerConfirmations | BothLegsLocked =>
      s.(coord_claim_evidence) = None ∧ s.(revealing_claim_transaction_id) = None
  | ClaimEvidenceAvailable | Completed =>
      is_Some s.(coord_claim_evidence) ∧ is_Some s.(revealing_claim_transaction_id)
  | _ => is_Some s.(coord_claim_evidence) ↔ is_Some s.(revealing_claim_transaction_id)
  end.

Definition recovery_shape (s : SwapCoordinator) : Prop :=
  match s.(coord_recovery_schedule).(schedule_maker_trigger) with
  | Deadline _ =>
      s.(taker_refund_event_transaction_id) = None ∧
      s.(maker_recovery_transaction_id) = None ∧
      s.(coord_phase) ≠ MakerRecoveryAvailable
  | CanonicalTakerRefund _ _ =>
      s.(coord_phase) ≠ MakerLegRefunded ∧
      (s.(coord_phase) = MakerRecoveryAvailable →
         is_Some s.(taker_refund_event_transaction_id)) ∧
      (is_Some s.(maker_recovery_transaction_id) →
         s.(coord_phase) = Refunded ∧ is_Some s.(taker_refund_event_transaction_id)) ∧
      (s.(coord_phase) = Refunded → is_Some s.(maker_lock_transaction_id) →
         is_Some s.(maker_recovery_transaction_id))
  end.

Record coord_inv (s : SwapCoordinator) : Prop := {
  inv_taker : s.(taker_lock_transaction_id) = None ↔ s.(coord_phase) = Offered;
  inv_maker : maker_pinned_shape s;
  inv_evidence : evidence_shape s;
  inv_followup :
    is_Some s.(followup_claim_transaction_id) ↔ s.(coord_phase) = Completed;
  inv_recovery : recovery_shape s
}.

Lemma coord_inv_fresh s : fresh_coordinator s → coord_inv s.
Proof.
  intros (?&?&?&?&?&sched&->).
  split; cbn; unfold recovery_shape; cbn; try case_match; rewrite <- ?not_eq_None_Some;
    naive_solver.
Qed.

(** The three constructors all give a fresh coordinator. *)
Lemma new_with_direction_fresh id pair direction policy schedule :
  fresh_coordinator (new_with_direction id pair direction policy schedule).
Proof. by do 6 eexists. Qed.

Lemma SwapCoordinator_new_fresh id pair policy schedule :
  fresh_coordinator (SwapCoordinator_new id pair policy schedule).
Proof. by do 6 eexists. Qed.

(** Reduce a transition to its rules with the phases made concrete. *)
Ltac step_cases H :=
  destruct H as
    [? Hp Hk|? Hp Hk Hc|? Hp Hk Hc|? Hp Hk|? Hp Hi|? Hp Hi|? Hp Hi
    |? Hp|? Hp Hi|? Hp Hi|? Hp Hi|? Hp Hi|? ? Hp Hf|? Hp Hf
    |? Hp Hd|? Hp Hd|? ? ? Hp Htrig Hev Hk Hc|? ? ? Hp Htrig Hev Hk Hc|? Hp Hk
    |? Hp Hd|? Hp Hd];
  try (destruct Hp as [Hp|[[Hp Hc]|[Hp Hc]]]);
  phase_cases.

(** Compute the new state of a rule. *)
Ltac step_compute :=
  unfold note_taker, maker_phase_after, resumed_phase in *; cbn in *.

Lemma is_some_spec {A} (o : option A) : is_some o = true ↔ is_Some o.
Proof. destruct o; cbn; split; naive_solver. Qed.

Lemma inv_taker_step s op s' :
  (s.(taker_lock_transaction_id) = None ↔ s.(coord_phase) = Offered) →
  coord_step s op s' →
  (s'.(taker_lock_transaction_id) = None ↔ s'.(coord_phase) = Offered).
Proof.
  intros It H. step_cases H; step_compute; rewrite ?Hp in *; repeat case_match; naive_solver.
Qed.

Lemma inv_maker_step s op s' :
  maker_pinned_shape s → coord_step s op s' → maker_pinned_shape s'.
Proof.
  unfold maker_pinned_shape. intros Im H.
  step_cases H; step_compute; rewrite ?Hp in *; repeat case_match; naive_solver.
Qed.

Lemma inv_evidence_step s op s' :
  evidence_shape s → coord_step s op s' → evidence_shape s'.
Proof.
  unfold evidence_shape. intros Ie H.
  step_cases H; step_compute; rewrite ?Hp in *;
    destruct (coord_claim_evidence s), (revealing_claim_transaction_id s);
    cbn in *; repeat case_match; naive_solver.
Qed.

Lemma inv_followup_step s op s' :
  (is_Some s.(followup_claim_transaction_id) ↔ s.(coord_phase) = Completed) →
  coord_step s op s' →
  (is_Some s'.(followup_claim_transaction_id) ↔ s'.(coord_phase) = Completed).
Proof.
  intros If H. step_cases H; step_compute; rewrite ?Hp in *; repeat case_match; naive_solver.
Qed.

Lemma inv_recovery_step s op s' :
  maker_pinned_shape s → recovery_shape s → coord_step s op s' → recovery_shape s'.
Proof.
  unfold maker_pinned_shape, recovery_shape. intros Im Ir H.
  step_cases H; step_compute; rewrite ?Hp in *;
    unfold maker_deadline_reached in *;
    destruct (schedule_maker_trigger (coord_recovery_schedule s)) eqn:Htr;
    try done; repeat case_match; rewrite <- ?not_eq_None_Some in *; naive_solver.
Qed.

Lemma coord_inv_step s op s' : coord_inv s → coord_step s op s' → coord_inv s'.
Proof.
  intros [? ? ? ? ?] H.
  split; eauto using inv_taker_step, inv_maker_step, inv_evidence_step,
           inv_followup_step, inv_recovery_step.
Qed.

Lemma coord_inv_run ops s : coord_inv s → coord_inv (run ops s).
Proof. apply run_ind. eauto using coord_inv_step. Qed.

Lemma coord_inv_reachable s : reachable s → coord_inv s.
Proof. intros (s0&ops&Hf&->). apply coord_inv_run. by apply coord_inv_fresh. Qed.

#[export] Hint Resolve coord_inv_reachable coord_inv_step coord_inv_fresh : rust.

(** ** Immutable terms *)

Definition same_terms (s s' : SwapCoordinator) : Prop :=
  s'.(coord_id) = s.(coord_id) ∧ s'.(coord_pair) = s.(coord_pair) ∧
  s'.(coord_direction) = s.(coord_direction) ∧
  s'.(confirmation_policy) = s.(confirmation_policy) ∧
  s'.(maker_confirmation_policy) = s.(maker_confirmation_policy) ∧
  s'.(coord_recovery_schedule) = s.(coord_recovery_schedule).

Lemma same_terms_step s op s' : coord_step s op s' → same_terms s s'.
Proof. by destruct 1. Qed.

Lemma same_terms_run ops s : same_terms s (run ops s).
Proof.
  apply (run_ind (same_terms s)); [|by repeat split].
  intros s1 op s2 H1 H2%same_terms_step. unfold same_terms in *. naive_solver congruence.
Qed.

Lemma first_claimant_run ops s : first_claimant (run ops s) = first_claimant s.
Proof.
  destruct (same_terms_run ops s) as (_&Hp&Hd&_). unfold first_claimant. by rewrite Hp, Hd.
Qed.

(** ** Generic facts on runs *)

(** The first call after which a decidable property holds. *)
Lemma run_first (P : SwapCoordinator → Prop) `{∀ s, Decision (P s)} ops s :
  ¬ P s → P (run ops s) →
  ∃ ops1 op ops2, ops = ops1 ++ op :: ops2 ∧ ¬ P (run ops1 s) ∧
    P (apply op (run ops1 s)).1.
Proof.
  revert s. induction ops as [|op ops IH]; intros s Hs Hr; cbn in *; [done|].
  destruct (decide (P (apply op s).1)) as [Hp|Hp].
  - by exists [], op, ops.
  - destruct (IH _ Hp Hr) as (ops1&op'&ops2&->&?&?).
    by exists (op :: ops1), op', ops2.
Qed.

Lemma both_legs_funded_Ok s :
  both_legs_funded s = Ok tt ↔
  s.(taker_funding_confirmed) = true ∧ is_Some s.(taker_lock_transaction_id) ∧
  s.(maker_funding_confirmed) = true ∧ is_Some s.(maker_lock_transaction_id).
Proof.
  unfold both_legs_funded. rewrite <- !is_some_spec.
  destruct (taker_funding_confirmed s), (is_some (taker_lock_transaction_id s)),
    (maker_funding_confirmed s), (is_some (maker_lock_transaction_id s)); naive_solver.
Qed.

Lemma step_neq_apply op s s' :
  apply op s = (s', Ok tt) → s' ≠ s → coord_step s op s'.
Proof. intros H%apply_sound. naive_solver. Qed.

Lemma terminal_run ops s :
  terminal s.(coord_phase) → (run ops s).(coord_phase) = s.(coord_phase).
Proof.
  intros Hterm. apply (run_ind (λ s', s'.(coord_phase) = s.(coord_phase))); [|done].
  intros s1 op s2 Heq H. rewrite <- Heq in *. clear Heq.
  destruct Hterm as [Hterm|Hterm]; step_cases H; step_compute; congruence.
Qed.

(** ** Properties *)

(** The methods of the coordinator and the transition relation agree: every
    transition is taken by the call that names it, and a call that changes the
    state succeeds and takes a transition. *)
Theorem coordinator_implements_transitions op s s' r :
  (coord_step s op s' → apply op s = (s', Ok tt)) ∧
  (apply op s = (s', r) → s' ≠ s → r = Ok tt ∧ coord_step s op s').
Proof.
  split; [apply apply_complete|]. intros H%apply_sound. naive_solver.
Qed.

(** A rejected call leaves the coordinator exactly as it was. *)
Theorem rejected_call_changes_nothing op s s' e :
  apply op s = (s', Err e) → s' = s.
Proof. intros H%apply_sound. naive_solver. Qed.

(** A revealing claim is newly recorded exactly when the construction's
    first claimant makes it while both legs are locked, pinned and confirmed;
    it then stores the claim's transaction and evidence. *)
Lemma revealing_claim_authority s c proof evidence s' :
  observe_revealing_claim s c proof evidence = (s', Ok tt) ∧ s' ≠ s ↔
  c = first_claimant s ∧ s.(coord_phase) = BothLegsLocked ∧
  s.(taker_funding_confirmed) = true ∧ is_Some s.(taker_lock_transaction_id) ∧
  s.(maker_funding_confirmed) = true ∧ is_Some s.(maker_lock_transaction_id) ∧
  s' = set_phase ClaimEvidenceAvailable
         (set_claim_evidence (Some evidence)
            (set_revealing_claim_transaction_id (Some proof.(proof_transaction_id)) s)).
Proof.
  split.
  - intros [H Hne].
    assert (Hs : coord_step s (ObserveRevealingClaim c proof evidence) s')
      by (by apply step_neq_apply).
    inversion Hs as [| | | | | | | | | | | |p' e' Hp Hf| | | | | | | |]; subst.
    apply both_legs_funded_Ok in Hf. naive_solver.
  - intros (->&Hp&?&?&?&?&->). split.
    + apply (apply_complete (ObserveRevealingClaim (first_claimant s) proof evidence)).
      by apply step_revealed, both_legs_funded_Ok.
    + intros Heq%(f_equal coord_phase). cbn in Heq. congruence.
Qed.

(** The swap completes by a call exactly when the counterparty of the first
    claimant makes the follow-up claim after the evidence is available, with
    both legs still pinned and confirmed. *)
Lemma followup_claim_authority s c proof s' :
  observe_followup_claim s c proof = (s', Ok tt) ∧ s' ≠ s ↔
  c = other (first_claimant s) ∧ s.(coord_phase) = ClaimEvidenceAvailable ∧
  s.(taker_funding_confirmed) = true ∧ is_Some s.(taker_lock_transaction_id) ∧
  s.(maker_funding_confirmed) = true ∧ is_Some s.(maker_lock_transaction_id) ∧
  s' = set_phase Completed
         (set_followup_claim_transaction_id (Some proof.(proof_transaction_id)) s).
Proof.
  split.
  - intros [H Hne].
    assert (Hs : coord_step s (ObserveFollowupClaim c proof) s')
      by (by apply step_neq_apply).
    inversion Hs as [| | | | | | | | | | | | |p' Hp Hf| | | | | | |]; subst.
    apply both_legs_funded_Ok in Hf. naive_solver.
  - intros (->&Hp&?&?&?&?&->). split.
    + apply (apply_complete (ObserveFollowupClaim (other (first_claimant s)) proof)).
      by apply step_completed, both_legs_funded_Ok.
    + intros Heq%(f_equal coord_phase). cbn in Heq. congruence.
Qed.

(** Claim authority: a revealing claim is newly recorded exactly when the
    construction's first claimant makes it in [BothLegsLocked], and the swap is
    completed by a call exactly when the counterparty makes the follow-up claim
    in [ClaimEvidenceAvailable]; both need both legs pinned and confirmed at
    that moment, and record the claim's transaction (and evidence) and no other
    change. *)
Theorem claim_authority s c proof evidence s' :
  (observe_revealing_claim s c proof evidence = (s', Ok tt) ∧ s' ≠ s ↔
   c = first_claimant s ∧ s.(coord_phase) = BothLegsLocked ∧
   s.(taker_funding_confirmed) = true ∧ is_Some s.(taker_lock_transaction_id) ∧
   s.(maker_funding_confirmed) = true ∧ is_Some s.(maker_lock_transaction_id) ∧
   s' = set_phase ClaimEvidenceAvailable
          (set_claim_evidence (Some evidence)
             (set_revealing_claim_transaction_id (Some proof.(proof_transaction_id)) s))) ∧
  (observe_followup_claim s c proof = (s', Ok tt) ∧ s' ≠ s ↔
   c = other (first_claimant s) ∧ s.(coord_phase) = ClaimEvidenceAvailable ∧
   s.(taker_funding_confirmed) = true ∧ is_Some s.(taker_lock_transaction_id) ∧
   s.(maker_funding_confirmed) = true ∧ is_Some s.(maker_lock_transaction_id) ∧
   s' = set_phase Completed
          (set_followup_claim_transaction_id (Some proof.(proof_transaction_id)) s)).
Proof. split; [apply revealing_claim_authority|apply followup_claim_authority]. Qed.

(** The terminal phases are absorbing: no sequence of calls leaves
    [Completed] or [Refunded], so a completed swap is never refunded and a
    refunded swap never completes. *)
Theorem terminal_phases_absorbing ops s p :
  terminal p → s.(coord_phase) = p → (run ops s).(coord_phase) = p.
Proof. intros Ht <-. by apply terminal_run. Qed.

(** Once the maker's lock is committed past its confirmation wait, the two
    funding identities never change again. *)
Definition committed (t m : string) (s : SwapCoordinator) : Prop :=
  coord_inv s ∧ s.(taker_lock_transaction_id) = Some t ∧
  s.(maker_lock_transaction_id) = Some m ∧
  s.(coord_phase) ≠ AwaitingMakerConfirmations.

Lemma committed_step t m s op s' :
  committed t m s → coord_step s op s' → committed t m s'.
Proof.
  intros (Hinv&Ht0&Hm0&Hn) H. split; [eauto using coord_inv_step|].
  pose proof (inv_maker _ Hinv) as Im. unfold maker_pinned_shape in Im.
  step_cases H; step_compute; rewrite ?Hp, ?Ht0, ?Hm0 in *; try done;
    repeat case_match; cbn in *; bool_props; naive_solver.
Qed.

(** From a reachable state whose maker lock is pinned and no longer waiting
    for its first confirmations, no sequence of observations, removals,
    claims or refunds substitutes either funding transaction. *)
Theorem committed_funding_is_pinned ops s t m :
  reachable s →
  s.(taker_lock_transaction_id) = Some t → s.(maker_lock_transaction_id) = Some m →
  s.(coord_phase) ≠ AwaitingMakerConfirmations →
  (run ops s).(taker_lock_transaction_id) = Some t ∧
  (run ops s).(maker_lock_transaction_id) = Some m.
Proof.
  intros Hr Ht Hm Hn.
  assert (Hc : committed t m (run ops s)).
  { apply run_ind; [eauto using committed_step|].
    split; [by apply coord_inv_reachable|done]. }
  by destruct Hc as (_&?&?&_).
Qed.

Lemma run_completed_by ops s :
  s.(coord_phase) ≠ Completed → (run ops s).(coord_phase) = Completed →
  ∃ ops1 proof ops2,
    ops = ops1 ++ ObserveFollowupClaim (other (first_claimant s)) proof :: ops2 ∧
    (run ops1 s).(coord_phase) = ClaimEvidenceAvailable ∧
    both_legs_funded (run ops1 s) = Ok tt.
Proof.
  intros Hs Hr.
  destruct (run_first (λ s, s.(coord_phase) = Completed) _ _ Hs Hr)
    as (ops1&op&ops2&->&Hb&Ha).
  rewrite <- (first_claimant_run ops1 s).
  destruct (apply_state op (run ops1 s)) as [Heq|H]; [by rewrite Heq in Ha|].
  destruct (apply op (run ops1 s)) as [s' r]; cbn in *.
  step_cases H; step_compute; repeat case_match; try congruence. eauto 10.
Qed.

Lemma run_revealed_by ops s :
  s.(coord_claim_evidence) = None → is_Some (run ops s).(coord_claim_evidence) →
  ∃ ops1 proof evidence ops2,
    ops = ops1 ++ ObserveRevealingClaim (first_claimant s) proof evidence :: ops2 ∧
    (run ops1 s).(coord_phase) = BothLegsLocked ∧
    both_legs_funded (run ops1 s) = Ok tt.
Proof.
  intros Hs Hr.
  destruct (run_first (λ s, is_Some s.(coord_claim_evidence)) ops s)
    as (ops1&op&ops2&->&Hb&Ha); [by rewrite Hs; intros [? [=]]|done|].
  rewrite <- (first_claimant_run ops1 s).
  destruct (apply_state op (run ops1 s)) as [Heq|H]; [by rewrite Heq in Ha|].
  destruct (apply op (run ops1 s)) as [s' r]; cbn in *.
  step_cases H; step_compute; try done. eauto 10.
Qed.

(** C2: A swap reaches [Completed] only through a revealing claim by the first
    claimant, accepted while both legs were funded, followed later by the
    follow-up claim of the counterparty, again with both legs funded. *)
Theorem completion_is_ordered s0 ops :
  fresh_coordinator s0 → (run ops s0).(coord_phase) = Completed →
  ∃ ops1 proof1 evidence ops2 proof2 ops3,
    ops = ops1 ++ ObserveRevealingClaim (first_claimant s0) proof1 evidence
            :: ops2 ++ ObserveFollowupClaim (other (first_claimant s0)) proof2 :: ops3 ∧
    (run ops1 s0).(coord_phase) = BothLegsLocked ∧
    both_legs_funded (run ops1 s0) = Ok tt ∧
    both_legs_funded
      (run (ops1 ++ ObserveRevealingClaim (first_claimant s0) proof1 evidence :: ops2) s0)
      = Ok tt.
Proof.
  intros Hf Hc. pose proof Hf as (?&?&?&?&?&?&Hs0).
  destruct (run_completed_by ops s0) as (opsA&proof2&ops3&->&Hp&Hb2); [by subst|done|].
  assert (Hi : coord_inv (run opsA s0)) by eauto using coord_inv_run, coord_inv_fresh.
  pose proof (inv_evidence _ Hi) as He. unfold evidence_shape in He. rewrite Hp in He.
  destruct (run_revealed_by opsA s0) as (ops1&proof1&ev&ops2&->&Hp1&Hb1);
    [by subst|apply He|].
  exists ops1, proof1, ev, ops2, proof2, ops3.
  by rewrite <- app_assoc.
Qed.

(** With an event-gated (Monero) schedule the maker leg is never refunded by
    a deadline, and a fully refunded swap whose maker had funded records both
    the canonical taker refund and the maker's recovery transaction. *)
Theorem event_gated_recovery s chain required :
  reachable s →
  s.(coord_recovery_schedule).(schedule_maker_trigger)
    = CanonicalTakerRefund chain required →
  s.(coord_phase) ≠ MakerLegRefunded ∧
  (∀ observed, ∃ e, refund_maker_leg s observed = (s, Err e)) ∧
  (s.(coord_phase) = Refunded → is_Some s.(maker_lock_transaction_id) →
   is_Some s.(taker_refund_event_transaction_id) ∧
   is_Some s.(maker_recovery_transaction_id)).
Proof.
  intros Hr Htr. pose proof (inv_recovery _ (coord_inv_reachable _ Hr)) as Ir.
  unfold recovery_shape in Ir. rewrite Htr in Ir. destruct Ir as (?&_&H1&H2).
  split_and!; [done| |naive_solver].
  intros observed. unfold refund_maker_leg, maker_deadline_reached.
  rewrite Htr. destruct (coord_phase s); eauto.
Qed.

Definition maker_refundable (p : Phase) : Prop :=
  p ∈ [BothLegsLocked; AwaitingMakerConfirmations; TakerLockReorged; MakerLockReorged;
       TakerLegRefunded].

Definition taker_refundable (p : Phase) : Prop :=
  p ∈ [AwaitingTakerConfirmations; TakerLockConfirmed; AwaitingMakerConfirmations;
       BothLegsLocked; TakerLockReorged; MakerLockReorged; MakerLegRefunded].

(** The maker leg is refunded exactly in the refundable phases, at an
    observation of the deadline's own chain and clock that has reached it. *)
Lemma maker_refund_iff s observed s' :
  refund_maker_leg s observed = (s', Ok tt) ↔
  maker_refundable s.(coord_phase) ∧
  (∃ d, s.(coord_recovery_schedule).(schedule_maker_trigger) = Deadline d ∧
     position_chain d = position_chain observed ∧
     position_basis d = position_basis observed ∧
     position_value d ≤ position_value observed) ∧
  s' = set_phase (if s.(coord_phase) ==? TakerLegRefunded
                  then Refunded else MakerLegRefunded) s.
Proof.
  unfold refund_maker_leg, maker_deadline_reached, maker_refundable. split.
  - intros H.
    destruct (schedule_maker_trigger _) as [d|] eqn:Ht;
      [|by destruct (coord_phase s)].
    destruct (deadline_reached d observed) as [[]|] eqn:Hd;
      [|by destruct (coord_phase s)..].
    apply deadline_reached_Ok in Hd as (?&?&Hv). symmetry in Hv. bool_props.
    destruct (coord_phase s) eqn:Hp; simplify_eq;
      (split_and!; [in_phases|eauto|done]).
  - intros (Hp&(d&->&Hc&Hb&Hv)&->).
    assert (deadline_reached d observed = Ok true) as ->.
    { apply deadline_reached_Ok. split_and!; [done..|]. symmetry. by apply Z.leb_le. }
    by phase_cases; rewrite Hp.
Qed.

(** The taker leg is refunded exactly in the refundable phases, at an
    observation of the deadline's own chain and clock that has reached it;
    the swap is over when the maker leg was never funded or is back already. *)
Lemma taker_refund_iff s observed s' :
  refund_taker_leg s observed = (s', Ok tt) ↔
  taker_refundable s.(coord_phase) ∧
  position_chain s.(coord_recovery_schedule).(schedule_taker_refund)
    = position_chain observed ∧
  position_basis s.(coord_recovery_schedule).(schedule_taker_refund)
    = position_basis observed ∧
  position_value s.(coord_recovery_schedule).(schedule_taker_refund)
    ≤ position_value observed ∧
  s' = set_phase (if bool_decide (s.(coord_phase) ∈
                        [AwaitingTakerConfirmations; TakerLockConfirmed; MakerLegRefunded])
                  then Refunded else TakerLegRefunded) s.
Proof.
  unfold refund_taker_leg, taker_refund_reached, taker_refundable.
  destruct (coord_recovery_schedule s) as [tr d sf]; cbn. split.
  - intros H.
    destruct (deadline_reached d observed) as [[]|] eqn:Hd;
      [|by destruct (coord_phase s)..].
    apply deadline_reached_Ok in Hd as (?&?&Hv). symmetry in Hv. bool_props.
    destruct (coord_phase s) eqn:Hp; simplify_eq; (split_and!; [in_phases|done..]).
  - intros (Hp&Hc&Hb&Hv&->).
    assert (deadline_reached d observed = Ok true) as ->.
    { apply deadline_reached_Ok. split_and!; [done..|]. symmetry. by apply Z.leb_le. }
    by phase_cases; rewrite Hp.
Qed.

(** Refund authority: each leg is refunded exactly in its refundable phases,
    at an observation on the deadline's own chain and clock that has reached
    the deadline; the swap is over exactly when the other leg was never funded
    or is back already. *)
Theorem refund_authority s observed s' :
  (refund_maker_leg s observed = (s', Ok tt) ↔
   maker_refundable s.(coord_phase) ∧
   (∃ d, s.(coord_recovery_schedule).(schedule_maker_trigger) = Deadline d ∧
      position_chain d = position_chain observed ∧
      position_basis d = position_basis observed ∧
      position_value d ≤ position_value observed) ∧
   s' = set_phase (if s.(coord_phase) ==? TakerLegRefunded
                   then Refunded else MakerLegRefunded) s) ∧
  (refund_taker_leg s observed = (s', Ok tt) ↔
   taker_refundable s.(coord_phase) ∧
   position_chain s.(coord_recovery_schedule).(schedule_taker_refund)
     = position_chain observed ∧
   position_basis s.(coord_recovery_schedule).(schedule_taker_refund)
     = position_basis observed ∧
   position_value s.(coord_recovery_schedule).(schedule_taker_refund)
     ≤ position_value observed ∧
   s' = set_phase (if bool_decide (s.(coord_phase) ∈
                         [AwaitingTakerConfirmations; TakerLockConfirmed; MakerLegRefunded])
                   then Refunded else TakerLegRefunded) s).
Proof. split; [apply maker_refund_iff|apply taker_refund_iff]. Qed.

(** ** A terminal phase stays within reach *)

Definition can_finish (s : SwapCoordinator) : Prop :=
  ∃ ops, terminal (run ops s).(coord_phase).

Definition proof_of (id : string) (confirmations : Z) : ChainProof :=
  {| proof_transaction_id := id; proof_confirmations := confirmations |}.

Lemma can_finish_step s op s' : coord_step s op s' → can_finish s' → can_finish s.
Proof.
  intros H%apply_complete [ops Hops]. exists (op :: ops). cbn. by rewrite H.
Qed.

Lemma can_finish_now s : terminal s.(coord_phase) → can_finish s.
Proof. by exists []. Qed.

Lemma known_and_differs_default o d :
  known_and_differs o (default d o) = false.
Proof. destruct o; cbn; [by rewrite bool_decide_true|done]. Qed.

Lemma taker_deadline_self s :
  taker_refund_reached (coord_recovery_schedule s)
    (schedule_taker_refund (coord_recovery_schedule s)) = Ok true.
Proof. apply deadline_reached_self. Qed.

Lemma can_finish_recovery s :
  s.(coord_phase) = MakerRecoveryAvailable → can_finish s.
Proof.
  intros Hp. eapply can_finish_step.
  - apply (step_maker_recovered _
             (proof_of (default "r" s.(maker_recovery_transaction_id)) 0));
      [done|apply known_and_differs_default].
  - apply can_finish_now. by right.
Qed.

Lemma can_finish_taker_refunded s :
  s.(coord_phase) = TakerLegRefunded → can_finish s.
Proof.
  intros Hp. destruct (s.(coord_recovery_schedule).(schedule_maker_trigger))
    as [d|chain required] eqn:Htr.
  - eapply can_finish_step; [apply (step_maker_refunded_last _ d); [done|]|].
    + unfold maker_deadline_reached. rewrite Htr. apply deadline_reached_self.
    + apply can_finish_now. by right.
  - eapply can_finish_step.
    + apply (step_taker_refund_event _
               {| event_chain := chain;
                  event_proof := proof_of (default "e" s.(taker_refund_event_transaction_id))
                                   required |} chain required);
        [done|done|done|apply known_and_differs_default|done].
    + by apply can_finish_recovery.
Qed.

Lemma can_finish_revealed s :
  coord_inv s → s.(coord_phase) = ClaimEvidenceAvailable → can_finish s.
Proof.
  intros Hinv Hp. pose proof (inv_maker _ Hinv) as Hm. unfold maker_pinned_shape in Hm.
  rewrite Hp in Hm. destruct Hm as [m Hm].
  destruct (taker_lock_transaction_id s) as [t|] eqn:Ht;
    [|apply (inv_taker _ Hinv) in Ht; congruence].
  set (pt := proof_of t (required_confirmations s Participant_Taker)).
  set (pm := proof_of m (required_confirmations s Participant_Maker)).
  assert (Ct : taker_meets_policy s pt = true) by apply Z.leb_refl.
  assert (Cm : maker_meets_policy (note_taker pt s) pm = true) by apply Z.leb_refl.
  eapply can_finish_step.
  { apply (step_taker_noted _ pt); [right; left; split; [rewrite Hp; in_phases|done]|].
    rewrite Ht. cbn. by rewrite bool_decide_true. }
  eapply can_finish_step.
  { apply (step_maker_again _ pm); [cbn; rewrite Hp; in_phases|done]. }
  eapply can_finish_step; [apply (step_completed _ (proof_of "f" 0))|].
  - unfold maker_phase_after. rewrite Cm. cbn. by rewrite Hp.
  - apply both_legs_funded_Ok. rewrite Cm. cbn. rewrite Ct, Hm. naive_solver.
  - apply can_finish_now. by left.
Qed.

(** No reachable coordinator is stuck: from every reachable state some
    sequence of calls leads to [Completed] or [Refunded]. *)
Theorem reachable_can_finish s : reachable s → can_finish s.
Proof.
  intros Hinv%coord_inv_reachable. destruct (coord_phase s) eqn:Hp;
    try (apply can_finish_now; unfold terminal; rewrite Hp; naive_solver);
    try by eauto using can_finish_recovery, can_finish_taker_refunded, can_finish_revealed.
  (* nothing funded yet: lock, then refund *)
  1: eapply can_finish_step;
       [apply (step_taker_first _ (proof_of (default "t" s.(taker_lock_transaction_id)) 0));
          [rewrite Hp; in_phases|apply known_and_differs_default]|].
  all: eapply can_finish_step;
    [ first [ apply step_taker_refunded_last;
                [first [by case_match; in_phases | rewrite Hp; in_phases]
                |apply taker_deadline_self]
            | apply step_taker_refunded_first; [rewrite Hp; in_phases|apply taker_deadline_self] ]
    | first [ apply can_finish_now; by right | by apply can_finish_taker_refunded ] ].
Qed.

(** ** What the confirmation flags say *)

(** Verdict of the last accepted observation of the taker's lock. *)
Fixpoint last_taker_observation (ops : list CoordinatorOp) (s : SwapCoordinator)
    (acc : bool) : bool :=
  match ops with
  | [] => acc
  | op :: ops =>
      let verdict :=
        match op, (apply op s).2 with
        | ObserveFunding Participant_Taker proof, Ok _ => taker_meets_policy s proof
        | ObserveFundingRemoved Participant_Taker _, Ok _ => false
        | _, _ => acc
        end in
      last_taker_observation ops (apply op s).1 verdict
  end.

(** Verdict of the last accepted observation of the maker's lock. *)
Fixpoint last_maker_observation (ops : list CoordinatorOp) (s : SwapCoordinator)
    (acc : bool) : bool :=
  match ops with
  | [] => acc
  | op :: ops =>
      let verdict :=
        match op, (apply op s).2 with
        | ObserveFunding Participant_Maker proof, Ok _ => maker_meets_policy s proof
        | ObserveFundingRemoved Participant_Maker _, Ok _ => false
        | _, _ => acc
        end in
      last_maker_observation ops (apply op s).1 verdict
  end.

Lemma run_nonterminal ops s :
  ¬ terminal (run ops s).(coord_phase) → ¬ terminal s.(coord_phase).
Proof. intros Hn Ht. apply Hn. by rewrite terminal_run. Qed.

Lemma flags_other_step s op s' :
  coord_step s op s' →
  match op with
  | ObserveFunding Participant_Taker _ | ObserveFundingRemoved Participant_Taker _ =>
      s'.(maker_funding_confirmed) = s.(maker_funding_confirmed)
  | ObserveFunding Participant_Maker _ | ObserveFundingRemoved Participant_Maker _ =>
      s'.(taker_funding_confirmed) = s.(taker_funding_confirmed)
  | _ =>
      s'.(taker_funding_confirmed) = s.(taker_funding_confirmed) ∧
      s'.(maker_funding_confirmed) = s.(maker_funding_confirmed)
  end.
Proof. by destruct 1. Qed.

(** Outside the terminal phases the taker flag is the verdict of each accepted
    observation of the taker's lock. *)
Lemma taker_flag_step op s :
  ¬ terminal s.(coord_phase) →
  (apply op s).1.(taker_funding_confirmed) =
  match op, (apply op s).2 with
  | ObserveFunding Participant_Taker proof, Ok _ => taker_meets_policy s proof
  | ObserveFundingRemoved Participant_Taker _, Ok _ => false
  | _, _ => s.(taker_funding_confirmed)
  end.
Proof.
  intros Hn.
  assert (Ho : (apply op s).1 = s ∨
    match op with
    | ObserveFunding Participant_Taker _ | ObserveFundingRemoved Participant_Taker _ => True
    | _ => (apply op s).1.(taker_funding_confirmed) = s.(taker_funding_confirmed)
    end).
  { destruct (apply_state op s) as [->|H%flags_other_step]; [by left|right].
    by destruct op as [[]|[]| | | | | |]; try apply H. }
  destruct op as [[] proof|[] id| | | | | |];
    try (destruct Ho as [->|Ho]; [by repeat case_match|by repeat case_match]); clear Ho; cbn.
  - unfold observe_taker_lock, observe_taker_lock_impl. case_match; [done|].
    case_match eqn:Ht; [|done]. exfalso. apply Hn. unfold terminal.
    apply orb_true_iff in Ht as [Ht|Ht]; bool_props; auto.
  - unfold observe_taker_lock_removed. case_match; [done|].
    by destruct (coord_phase _).
Qed.

(** Phases in which an accepted maker observation is not recorded. *)
Definition ignores_maker_lock (p : Phase) : bool :=
  match p with
  | AwaitingMakerConfirmations | BothLegsLocked | MakerLockReorged
  | ClaimEvidenceAvailable | TakerLockConfirmed => false
  | _ => true
  end.

(** Whether some call of the run observes the maker's lock in such a phase. *)
Fixpoint maker_observation_ignored (ops : list CoordinatorOp) (s : SwapCoordinator) : bool :=
  match ops with
  | [] => false
  | op :: ops =>
      match op with
      | ObserveFunding Participant_Maker _ => ignores_maker_lock s.(coord_phase)
      | _ => false
      end || maker_observation_ignored ops (apply op s).1
  end.

Lemma maker_flag_step op s :
  match op with
  | ObserveFunding Participant_Maker _ => ignores_maker_lock s.(coord_phase)
  | _ => false
  end = false →
  (apply op s).1.(maker_funding_confirmed) =
  match op, (apply op s).2 with
  | ObserveFunding Participant_Maker proof, Ok _ => maker_meets_policy s proof
  | ObserveFundingRemoved Participant_Maker _, Ok _ => false
  | _, _ => s.(maker_funding_confirmed)
  end.
Proof.
  intros Hn.
  assert (Ho : (apply op s).1 = s ∨
    match op with
    | ObserveFunding Participant_Maker _ | ObserveFundingRemoved Participant_Maker _ => True
    | _ => (apply op s).1.(maker_funding_confirmed) = s.(maker_funding_confirmed)
    end).
  { destruct (apply_state op s) as [->|H%flags_other_step]; [by left|right].
    by destruct op as [[]|[]| | | | | |]; try apply H. }
  destruct op as [[] proof|[] id| | | | | |];
    try (destruct Ho as [->|Ho]; [by repeat case_match|by repeat case_match]); clear Ho; cbn.
  - unfold observe_maker_lock, observe_maker_lock_impl.
    destruct (coord_phase s) eqn:Hp; try done; case_match; done.
  - unfold observe_maker_lock_removed. case_match; [done|].
    by destruct (coord_phase _).
Qed.

(** While the swap is live, the taker flag that claim authority consults is
    the verdict of the latest accepted observation of the taker's lock, in
    every phase: regressions and removals are never dropped. *)
Theorem taker_flag_is_current ops s :
  ¬ terminal (run ops s).(coord_phase) →
  (run ops s).(taker_funding_confirmed) =
  last_taker_observation ops s s.(taker_funding_confirmed).
Proof.
  revert s. induction ops as [|op ops IH]; intros s Hn; [done|].
  cbn. rewrite IH by done. by rewrite taker_flag_step by exact (run_nonterminal (op :: ops) s Hn).
Qed.

(** The maker flag likewise is the verdict of the latest accepted
    observation of the maker's lock, on every run that does not observe the
    maker's lock in a phase whose table ignores it. *)
Theorem maker_flag_is_current ops s :
  maker_observation_ignored ops s = false →
  (run ops s).(maker_funding_confirmed) =
  last_maker_observation ops s s.(maker_funding_confirmed).
Proof.
  revert s. induction ops as [|op ops IH]; intros s Hn; [done|].
  cbn in *. apply orb_false_iff in Hn as [Hn1 Hn2].
  rewrite IH by done. by rewrite maker_flag_step.
Qed.

(** ** Concrete runs *)

Module Samples.

Definition maker_deadline : ChainPosition := timestamp Chain_Lez 1000.
Definition taker_deadline : ChainPosition := block_height Chain_Bitcoin 900.

Definition btc_schedule : RecoverySchedule := {|
  schedule_maker_trigger := Deadline maker_deadline;
  schedule_taker_refund := taker_deadline;
  schedule_safety := Some {|
    earlier_chain := Chain_Lez; later_chain := Chain_Bitcoin;
    earlier_refund_latest := 1000; later_refund_earliest := 5000; required_margin := 3600
  |}
|}.

Definition xmr_schedule : RecoverySchedule := {|
  schedule_maker_trigger := CanonicalTakerRefund Chain_Lez 2;
  schedule_taker_refund := timestamp Chain_Lez 700;
  schedule_safety := None
|}.

(** A BTC swap whose taker leg needs three confirmations and maker leg one. *)
Definition btc0 : SwapCoordinator :=
  new_with_direction {| SwapId_as_str := "swap" |} Pair_Bitcoin TakerSellsForeign
    {| policy_required := 3 |} btc_schedule.

Definition xmr0 : SwapCoordinator :=
  new_with_direction {| SwapId_as_str := "xmr" |} Pair_Monero TakerSellsLez
    {| policy_required := 3 |} xmr_schedule.

Definition evidence : ClaimEvidence := {| evidence_commitment := zero32 |}.

Definition lock_both : list CoordinatorOp :=
  [ ObserveFunding Participant_Taker (proof_of "taker" 3);
    ObserveFunding Participant_Maker (proof_of "maker" 1) ].

Definition reveal : CoordinatorOp :=
  ObserveRevealingClaim Participant_Taker (proof_of "claim" 1) evidence.

Definition happy_path : list CoordinatorOp :=
  lock_both ++
  [ reveal; ObserveFollowupClaim Participant_Maker (proof_of "follow" 1) ].

Definition xmr_recovery : list CoordinatorOp :=
  [ ObserveFunding Participant_Taker (proof_of "taker" 3);
    ObserveFunding Participant_Maker (proof_of "maker" 1);
    RefundTakerLeg (timestamp Chain_Lez 700);
    ObserveTakerRefundForMakerRecovery
      {| event_chain := Chain_Lez; event_proof := proof_of "refund" 2 |};
    ObserveMakerRecovery (proof_of "recovery" 1) ].

Lemma btc0_fresh : fresh_coordinator btc0.
Proof. apply new_with_direction_fresh. Qed.

Lemma xmr0_fresh : fresh_coordinator xmr0.
Proof. apply new_with_direction_fresh. Qed.

Lemma reachable_run s0 ops : fresh_coordinator s0 → reachable (run ops s0).
Proof. by exists s0, ops. Qed.

(** Both legs confirmed; the taker leg reorgs; the maker leg's depth regresses
    below policy while it does; the taker leg is back. *)
Definition maker_regression_run : list CoordinatorOp :=
  lock_both ++
  [ ObserveFunding Participant_Taker (proof_of "taker" 0);
    ObserveFunding Participant_Maker (proof_of "maker" 0);
    ObserveFunding Participant_Taker (proof_of "taker" 3) ].

(** The maker locks without confirmations, the taker leg regresses, the maker
    lock is removed. *)
Definition taker_regression_run : list CoordinatorOp :=
  [ ObserveFunding Participant_Taker (proof_of "taker" 3);
    ObserveFunding Participant_Maker (proof_of "maker" 0);
    ObserveFunding Participant_Taker (proof_of "taker" 0);
    ObserveFundingRemoved Participant_Maker "maker" ].

End Samples.

(** C39: A maker-depth regression observed while the taker leg is reorged is
    dropped.  From every coordinator in [TakerLockReorged] whose maker
    leg was confirmed: an observation of the maker's lock below its policy is
    accepted and changes nothing, and as soon as the taker's lock is seen at its
    policy again the next claim is accepted, the revealing one if the secret is
    not out yet and the follow-up claim if it is, although the latest observation
    of the maker's lock is below policy. *)
Theorem maker_regression_dropped_while_taker_reorged s maker_proof taker_proof proof evidence :
  s.(coord_phase) = TakerLockReorged → s.(maker_funding_confirmed) = true →
  s.(maker_lock_transaction_id) = Some maker_proof.(proof_transaction_id) →
  maker_proof.(proof_confirmations) < required_confirmations s Participant_Maker →
  s.(taker_lock_transaction_id) = Some taker_proof.(proof_transaction_id) →
  required_confirmations s Participant_Taker ≤ taker_proof.(proof_confirmations) →
  let back := run [ObserveFunding Participant_Maker maker_proof;
                   ObserveFunding Participant_Taker taker_proof] s in
  let claim :=
    if is_some s.(coord_claim_evidence)
    then ObserveFollowupClaim (other (first_claimant s)) proof
    else ObserveRevealingClaim (first_claimant s) proof evidence in
  apply (ObserveFunding Participant_Maker maker_proof) s = (s, Ok tt) ∧
  (apply claim back).2 = Ok tt ∧
  (apply claim back).1.(coord_phase)
    = (if is_some s.(coord_claim_evidence) then Completed else ClaimEvidenceAvailable).
Proof.
  intros Hp Hflag Hm Hlow Ht Hhigh back claim.
  assert (Hdrop : apply (ObserveFunding Participant_Maker maker_proof) s = (s, Ok tt)).
  { cbn. unfold observe_maker_lock, observe_maker_lock_impl. rewrite Hp, Hm. cbn.
    by rewrite bool_decide_true. }
  split; [done|].
  assert (Hback : back = set_phase (resumed_phase s) (note_taker taker_proof s)).
  { unfold back. cbn [run]. rewrite Hdrop. cbn [fst].
    rewrite (apply_complete _ s (set_phase (resumed_phase s) (note_taker taker_proof s))); [done|].
    apply step_taker_restored; [done| |by apply Z.leb_le].
    rewrite Ht. cbn. by rewrite bool_decide_true. }
  assert (Hfunded : both_legs_funded back = Ok tt).
  { apply both_legs_funded_Ok. rewrite Hback. cbn. rewrite Hm, Hflag.
    unfold taker_meets_policy. split_and!; eauto. by apply Z.leb_le. }
  pose proof (apply_complete claim back) as Hc. unfold claim in *.
  assert (Hfirst : first_claimant back = first_claimant s) by by rewrite Hback.
  assert (Hphase : back.(coord_phase) = resumed_phase s) by by rewrite Hback.
  unfold resumed_phase in Hphase. rewrite <- Hfirst in *.
  destruct (is_some (coord_claim_evidence s)).
  - by rewrite (Hc _ (step_completed back proof Hphase Hfunded)).
  - by rewrite (Hc _ (step_revealed back proof evidence Hphase Hfunded)).
Qed.

(** C40: A taker-depth regression during the maker's confirmation wait does not
    survive the removal of the maker's lock.  From every coordinator in
    [AwaitingMakerConfirmations]: after an observation of the taker's lock below
    its policy and the removal of the maker's lock the phase is
    [TakerLockConfirmed] with the taker's flag down, and every new maker lock is
    accepted and recorded although the taker's lock is below policy. *)
Theorem maker_lock_accepted_below_taker_policy s taker_proof removed maker_proof :
  s.(coord_phase) = AwaitingMakerConfirmations →
  s.(taker_lock_transaction_id) = Some taker_proof.(proof_transaction_id) →
  taker_proof.(proof_confirmations) < required_confirmations s Participant_Taker →
  s.(maker_lock_transaction_id) = Some removed →
  let waiting := run [ObserveFunding Participant_Taker taker_proof;
                      ObserveFundingRemoved Participant_Maker removed] s in
  waiting.(coord_phase) = TakerLockConfirmed ∧
  waiting.(taker_funding_confirmed) = false ∧
  (apply (ObserveFunding Participant_Maker maker_proof) waiting).2 = Ok tt ∧
  (apply (ObserveFunding Participant_Maker maker_proof) waiting).1.(maker_lock_transaction_id)
    = Some maker_proof.(proof_transaction_id).
Proof.
  intros Hp Ht Hlow Hm waiting.
  assert (Hw : waiting = set_phase TakerLockConfirmed (set_maker_lock_transaction_id None
                 (set_maker_funding_confirmed false (note_taker taker_proof s)))).
  { unfold waiting. cbn [run].
    rewrite (apply_complete _ s (note_taker taker_proof s)).
    - cbn [fst]. by rewrite (apply_complete _ _ _ (step_maker_removed_early (note_taker taker_proof s) removed Hp Hm)).
    - apply step_taker_noted; [left; rewrite Hp; in_phases|].
      rewrite Ht. cbn. by rewrite bool_decide_true. }
  assert (Hph : waiting.(coord_phase) = TakerLockConfirmed) by by rewrite Hw.
  split; [done|]. split; [rewrite Hw; by apply Z.leb_gt|].
  by rewrite (apply_complete _ _ _ (step_maker_first waiting maker_proof Hph)).
Qed.

Lemma evidence_step e id s op s' :
  coord_inv s →
  s.(coord_claim_evidence) = Some e ∧ s.(revealing_claim_transaction_id) = Some id →
  coord_step s op s' →
  s'.(coord_claim_evidence) = Some e ∧ s'.(revealing_claim_transaction_id) = Some id.
Proof.
  intros Hinv [He Hid] H. pose proof (inv_evidence _ Hinv) as Ie.
  unfold evidence_shape in Ie.
  step_cases H; step_compute; rewrite ?Hp in *; naive_solver.
Qed.

(** Revealed claim evidence and the transaction that revealed it are never
    overwritten or lost, whatever is observed afterwards. *)
Theorem revealed_evidence_is_permanent ops s e id :
  reachable s →
  s.(coord_claim_evidence) = Some e → s.(revealing_claim_transaction_id) = Some id →
  (run ops s).(coord_claim_evidence) = Some e ∧
  (run ops s).(revealing_claim_transaction_id) = Some id.
Proof.
  intros Hinv%coord_inv_reachable He Hid.
  enough (H : coord_inv (run ops s) ∧ (run ops s).(coord_claim_evidence) = Some e ∧
    (run ops s).(revealing_claim_transaction_id) = Some id) by apply H.
  apply run_ind; [|done].
  intros s1 op s2 [? ?] ?. split; eauto using coord_inv_step, evidence_step.
Qed.

Ltac self_equalities :=
  repeat match goal with
  | |- context [bool_decide (?a = ?a)] => rewrite (bool_decide_true (a = a)) by done
  end; cbn.

(** Evaluate a repeated call on the state a rule has produced. *)
Ltac replay :=
  unfold_methods; unfold note_taker, maker_phase_after, resumed_phase, taker_meets_policy,
    maker_meets_policy, known_and_differs in *; cbn in *;
  self_equalities; repeat (case_match; cbn in *; try congruence);
  self_equalities; try done.

Lemma observe_funding_idempotent p proof s s' :
  observe_funding s p proof = (s', Ok tt) → observe_funding s' p proof = (s', Ok tt).
Proof.
  intros H. pose proof H as Hs.
  apply (apply_sound (ObserveFunding p proof)) in Hs as [->|[_ Hs]]; [done|]. clear H.
  inversion Hs as [q Hp Hk|q Hp Hk Hc|q Hp Hk Hc|q Hp Hk| | | |q Hp|q Hp Hi| | | | | | | | | | | |];
    subst; clear Hs; try (destruct Hp as [Hp|[[Hp Hc]|[Hp Hc]]]); phase_cases;
    destruct s; cbn in *; subst; replay.
Qed.

Lemma observe_claims_idempotent c proof ev s s' :
  (observe_revealing_claim s c proof ev = (s', Ok tt) →
   observe_revealing_claim s' c proof ev = (s', Ok tt)) ∧
  (observe_followup_claim s c proof = (s', Ok tt) →
   observe_followup_claim s' c proof = (s', Ok tt)).
Proof.
  split; intros H; pose proof H as Hs.
  - apply (apply_sound (ObserveRevealingClaim c proof ev)) in Hs as [->|[_ Hs]]; [done|].
    clear H. inversion Hs as [| | | | | | | | | | | |p' e' Hp Hf| | | | | | | |]; subst.
    apply both_legs_funded_Ok in Hf as (?&[]&?&[]). destruct s; cbn in *; subst. cbn.
    unfold_methods. unfold both_legs_funded, first_claimant. cbn.
    self_equalities. done.
  - apply (apply_sound (ObserveFollowupClaim c proof)) in Hs as [->|[_ Hs]]; [done|].
    clear H. inversion Hs as [| | | | | | | | | | | | |p' Hp Hf| | | | | | |]; subst.
    apply both_legs_funded_Ok in Hf as (?&[]&?&[]). destruct s; cbn in *; subst. cbn.
    unfold_methods. unfold both_legs_funded, first_claimant. cbn.
    self_equalities. done.
Qed.

(** Observations are idempotent: reporting the same funding observation,
    revealing claim or follow-up claim again right after it was accepted is
    accepted again and changes nothing. *)
Theorem observations_are_idempotent op s s' :
  match op with
  | ObserveFunding _ _ | ObserveRevealingClaim _ _ _ | ObserveFollowupClaim _ _ => True
  | _ => False
  end →
  apply op s = (s', Ok tt) → apply op s' = (s', Ok tt).
Proof.
  intros Hop. destruct op as [p proof| |c proof ev|c proof| | | |]; try done; cbn.
  - apply observe_funding_idempotent.
  - apply observe_claims_idempotent.
  - by apply (observe_claims_idempotent _ _ {| evidence_commitment := [] |}).
Qed.

(** ** Witnesses *)

Lemma rejected_call_changes_nothing_witness :
  (apply Samples.reveal Samples.btc0).1 = Samples.btc0.
Proof.
  apply (rejected_call_changes_nothing Samples.reveal Samples.btc0 _ TakerLockNotConfirmed).
  by vm_compute.
Defined.

Lemma terminal_phases_absorbing_witness :
  (run [RefundTakerLeg Samples.taker_deadline; RefundMakerLeg Samples.maker_deadline]
     (run Samples.happy_path Samples.btc0)).(coord_phase) = Completed.
Proof.
  apply (terminal_phases_absorbing _ (run Samples.happy_path Samples.btc0) Completed);
    [by left|by vm_compute].
Defined.

Lemma committed_funding_is_pinned_witness :
  (run [ObserveFundingRemoved Participant_Taker "taker";
        ObserveFunding Participant_Taker (proof_of "other" 9)]
     (run Samples.lock_both Samples.btc0)).(taker_lock_transaction_id) = Some "taker".
Proof.
  apply (committed_funding_is_pinned _ (run Samples.lock_both Samples.btc0) "taker" "maker");
    [apply Samples.reachable_run, Samples.btc0_fresh|by vm_compute..].
Defined.

Lemma completion_is_ordered_witness :
  ∃ ops1 proof1 evidence ops2 proof2 ops3,
    Samples.happy_path = ops1 ++ ObserveRevealingClaim Participant_Taker proof1 evidence
            :: ops2 ++ ObserveFollowupClaim Participant_Maker proof2 :: ops3 ∧
    both_legs_funded (run ops1 Samples.btc0) = Ok tt.
Proof.
  destruct (completion_is_ordered Samples.btc0 Samples.happy_path)
    as (ops1&p1&ev&ops2&p2&ops3&H&_&Hb&_);
    [apply Samples.btc0_fresh|by vm_compute|].
  by exists ops1, p1, ev, ops2, p2, ops3.
Defined.

Lemma event_gated_recovery_witness :
  is_Some (run Samples.xmr_recovery Samples.xmr0).(maker_recovery_transaction_id).
Proof.
  apply (event_gated_recovery (run Samples.xmr_recovery Samples.xmr0) Chain_Lez 2);
    [apply Samples.reachable_run, Samples.xmr0_fresh|by vm_compute|by vm_compute|].
  by vm_compute; eexists.
Defined.

Lemma reachable_can_finish_witness :
  can_finish (run Samples.maker_regression_run Samples.btc0).
Proof. apply reachable_can_finish, Samples.reachable_run, Samples.btc0_fresh. Defined.

Lemma taker_flag_is_current_witness :
  (run Samples.taker_regression_run Samples.btc0).(taker_funding_confirmed) = false.
Proof.
  rewrite (taker_flag_is_current Samples.taker_regression_run Samples.btc0);
    [by vm_compute|].
  unfold terminal. vm_compute. by intros [|].
Defined.

Lemma maker_flag_is_current_witness :
  (run Samples.lock_both Samples.btc0).(maker_funding_confirmed) = true.
Proof.
  rewrite (maker_flag_is_current Samples.lock_both Samples.btc0); by vm_compute.
Defined.

Lemma revealed_evidence_is_permanent_witness :
  (run [ObserveFundingRemoved Participant_Maker "maker";
        RefundTakerLeg Samples.taker_deadline]
     (run (Samples.lock_both ++ [Samples.reveal]) Samples.btc0)).(coord_claim_evidence)
  = Some Samples.evidence.
Proof.
  apply (revealed_evidence_is_permanent _
           (run (Samples.lock_both ++ [Samples.reveal]) Samples.btc0)
           Samples.evidence "claim");
    [apply Samples.reachable_run, Samples.btc0_fresh|by vm_compute..].
Defined.

Lemma observations_are_idempotent_witness :
  apply Samples.reveal (run (Samples.lock_both ++ [Samples.reveal]) Samples.btc0)
  = (run (Samples.lock_both ++ [Samples.reveal]) Samples.btc0, Ok tt).
Proof.
  apply (observations_are_idempotent Samples.reveal (run Samples.lock_both Samples.btc0));
    [done|by vm_compute].
Defined.

Lemma maker_regression_dropped_while_taker_reorged_witness :
  let s := run (Samples.lock_both ++ [ObserveFunding Participant_Taker (proof_of "taker" 0)])
             Samples.btc0 in
  (apply Samples.reveal (run [ObserveFunding Participant_Maker (proof_of "maker" 0);
     ObserveFunding Participant_Taker (proof_of "taker" 3)] s)).1.(coord_phase)
  = ClaimEvidenceAvailable.
Proof.
  apply (maker_regression_dropped_while_taker_reorged
    (run (Samples.lock_both ++ [ObserveFunding Participant_Taker (proof_of "taker" 0)])
       Samples.btc0) (proof_of "maker" 0) (proof_of "taker" 3) (proof_of "claim" 1)
    Samples.evidence);
    by vm_compute.
Defined.

Lemma maker_lock_accepted_below_taker_policy_witness :
  let s := run [ObserveFunding Participant_Taker (proof_of "taker" 3);
                ObserveFunding Participant_Maker (proof_of "maker" 0)] Samples.btc0 in
  (run [ObserveFunding Participant_Taker (proof_of "taker" 0);
        ObserveFundingRemoved Participant_Maker "maker"] s).(coord_phase) = TakerLockConfirmed.
Proof.
  apply (maker_lock_accepted_below_taker_policy
    (run [ObserveFunding Participant_Taker (proof_of "taker" 3);
          ObserveFunding Participant_Maker (proof_of "maker" 0)] Samples.btc0)
    (proof_of "taker" 0) "maker" (proof_of "maker2" 1));
    by vm_compute.
Defined.
