(* ===== verification/ScheduleFacts.v ===== *)
(** * Clocks and recovery schedules

    Properties of the schedule constructors of [crates/swap-core/src/lib.rs]
    taken together with the coordinator's claim order: an accepted deadline
    schedule gives each leg its own chain's deadline, the chain on which the
    revealing claim is made is the one its bounds declare earlier, and the
    declared bounds are apart by the agreed margin. *)

From stdpp Require Import base strings list numbers.
From S2P Require Import Prelude SwapCore Coordinator.

Open Scope Z_scope.

(** Conversions between negotiated seconds and the LEZ millisecond clock
    lose nothing and round the safe way: a conversion never wraps, whole
    seconds come back exactly, an observation is floored and a refund bound
    is ceiled within one second without leaving 64 bits. *)
Theorem lez_clock_conversions (s : UnixSeconds) (ms : LezUnixMilliseconds) :
  (∀ ms', checked_to_lez_milliseconds s = Ok ms' →
     LezUnixMilliseconds_value ms' = 1000 * UnixSeconds_value s ∧
     LezUnixMilliseconds_value ms' ≤ u64_max ∧
     to_unix_seconds_floor ms' = s ∧ to_unix_seconds_ceil ms' = s) ∧
  (checked_to_lez_milliseconds s = Err TimestampConversionOverflow ↔
     u64_max < 1000 * UnixSeconds_value s) ∧
  1000 * UnixSeconds_value (to_unix_seconds_floor ms) ≤ LezUnixMilliseconds_value ms ∧
  LezUnixMilliseconds_value ms ≤ 1000 * UnixSeconds_value (to_unix_seconds_ceil ms) ∧
  (is_u64 (LezUnixMilliseconds_value ms) → is_u64 (UnixSeconds_value (to_unix_seconds_ceil ms))).
Proof.
  pose proof (to_unix_seconds_floor_le ms) as Hf.
  pose proof (to_unix_seconds_ceil_ge ms) as [Hc Hc'].
  split_and!; [| | done | done |].
  - intros ms' H. pose proof (lez_milliseconds_roundtrip _ _ H) as [Hrf Hrc].
    unfold checked_to_lez_milliseconds in H.
    destruct (checked_mul _ _ _) eqn:E; [|done]. injection H as <-.
    apply checked_mul_Some in E as [-> ?]. split_and!; [cbn; lia|cbn; lia|done|done].
  - unfold checked_to_lez_milliseconds.
    destruct (checked_mul _ _ _) eqn:E; [apply checked_mul_Some in E as [-> ?]|].
    + split; [done|lia].
    + split; [intros _|done]. unfold checked_mul in E. case_match; bool_props; [done|lia].
  - unfold in_range, u64_max. lia.
Qed.

(** Deadlines are compared only within one consensus clock: a test against
    another chain or basis is refused, and otherwise answers whether the
    observed value has reached the deadline. *)
Theorem deadline_comparison_is_typed (d o : ChainPosition) :
  deadline_reached d o =
  if decide (position_chain d = position_chain o ∧ position_basis d = position_basis o)
  then Ok (position_value d <=? position_value o)
  else Err (WrongDeadlineClock (position_chain d) (position_basis d)
              (position_chain o) (position_basis o)).
Proof.
  case_decide as H.
  - apply deadline_reached_Ok. naive_solver.
  - unfold deadline_reached. destruct (_ || _) eqn:E; [done|]. bool_props. naive_solver.
Qed.

(** The leg a participant's claim spends is funded by the counterparty. *)
Definition claimed_chain (s : SwapCoordinator) (claimant : Participant) : Chain :=
  funded_chain s (other claimant).

(** C38: When [RecoverySchedule::new] accepts bounds from [TimelockSafety::between]
    for a pair and direction, the coordinator for that pair and direction finds
    each participant's own refund deadline on the chain they fund; the revealing
    claim is made on the chain the bounds declare earlier and the follow-up claim
    on the one they declare later; and the declared latest earlier refund and
    earliest later refund are at least the agreed non-zero margin apart.  The
    constructors do not compare the deadlines with the bounds.  What follows for
    the deadlines needs the bounds to be what their documentation says: if every
    refund under the earlier chain's deadline is included by the declared latest
    time and none under the later chain's deadline is possible before the declared
    earliest time, then the refund on the revealing claim's chain is included at
    least the margin before the refund on the other chain opens. *)
Theorem claim_order_is_timelock_safe pair direction m t ec lc latest earliest margin
    safety schedule id tp mp (included_by opens_at : ChainPosition → Z) :
  TimelockSafety_between ec lc latest earliest margin = Ok safety →
  RecoverySchedule_new pair direction m t safety = Ok schedule →
  let s := new_with_confirmation_policies id pair direction tp mp schedule in
  deadline_for_chain schedule (funded_chain s Participant_Maker) = Some m ∧
  deadline_for_chain schedule (funded_chain s Participant_Taker) = Some t ∧
  claimed_chain s (first_claimant s) = earlier_chain safety ∧
  claimed_chain s (other (first_claimant s)) = later_chain safety ∧
  required_safety_margin_seconds schedule = Some margin ∧ margin ≠ 0 ∧
  earlier_refund_latest safety + margin ≤ later_refund_earliest safety ∧
  ((∀ d, deadline_for_chain schedule ec = Some d → included_by d ≤ latest) →
   (∀ d, deadline_for_chain schedule lc = Some d → earliest ≤ opens_at d) →
   ∃ revealing followup,
     deadline_for_chain schedule (claimed_chain s (first_claimant s)) = Some revealing ∧
     deadline_for_chain schedule (claimed_chain s (other (first_claimant s))) = Some followup ∧
     included_by revealing + margin ≤ opens_at followup).
Proof.
  intros Hs Hr s. apply TimelockSafety_between_Ok in Hs as (Hne&Hm&_&Hle&->).
  apply RecoverySchedule_new_Ok in Hr as (Hp&Hch&Ho&->).
  destruct pair, direction; cbn in *; try done;
    injection Hch as Hcm Hct; injection Ho as Ho1 Ho2; rewrite ?Hcm, ?Hct in *; subst ec lc;
    unfold deadline_for_chain, claimed_chain; cbn; rewrite ?Hcm, ?Hct; cbn;
    (split_and!; [congruence || done..|]); intros Hearly Hlate; do 2 eexists;
    (split_and!; [done..|]);
    (etrans; [|by apply Hlate]); (etrans; [|exact Hle]); apply Z.add_le_mono_r; by apply Hearly.
Qed.

(** The LEZ refund is included within the second of its deadline, and the Bitcoin
    chain does not reach height 800 before second 5000. *)
Lemma claim_order_is_timelock_safe_witness :
  ∃ safety schedule,
    TimelockSafety_between Chain_Lez Chain_Bitcoin 1000 5000 3600 = Ok safety ∧
    RecoverySchedule_new Pair_Bitcoin TakerSellsForeign
      (timestamp Chain_Lez 900) (block_height Chain_Bitcoin 800) safety = Ok schedule ∧
    ∃ revealing followup,
      deadline_for_chain schedule Chain_Lez = Some revealing ∧
      deadline_for_chain schedule Chain_Bitcoin = Some followup ∧
      revealing.(position_value) + 1 + 3600 ≤ followup.(position_value) + 4200.
Proof.
  do 2 eexists. split; [by vm_compute|]. split; [by vm_compute|].
  refine (proj2 (proj2 (proj2 (proj2 (proj2 (proj2 (proj2
    (claim_order_is_timelock_safe Pair_Bitcoin TakerSellsForeign
      (timestamp Chain_Lez 900) (block_height Chain_Bitcoin 800)
      Chain_Lez Chain_Bitcoin 1000 5000 3600 _ _ {| SwapId_as_str := "s" |}
      {| policy_required := 1 |} {| policy_required := 1 |}
      (λ d, d.(position_value) + 1) (λ d, d.(position_value) + 4200) _ _))))))) _ _);
    [by vm_compute|by vm_compute|intros d [= <-]; by vm_compute..].
Defined.

(** The XMR schedule is accepted exactly for a LEZ taker deadline and a
    non-zero confirmation requirement, and never has a maker deadline. *)
Theorem xmr_schedule_iff t n r :
  xmr_lez_first t n = Ok r ↔
  position_chain t = Chain_Lez ∧ n ≠ 0 ∧
  r = {| schedule_maker_trigger := CanonicalTakerRefund Chain_Lez n;
         schedule_taker_refund := t; schedule_safety := None |}.
Proof.
  unfold xmr_lez_first. repeat case_match; bool_props; naive_solver.
Qed.
