(* ===== verification/SwapHistory.v ===== *)
(** * What a coordinator's phase says about its history

    The calls of a run that took effect, read off the coordinator's own fields
    and phases: the maker's lock stands behind a taker lock that met its policy,
    completion and refunds exclude each other, and a refunded swap has returned
    every leg that is recorded as funded.  [history_inv] relates the state after
    a run to the calls of the run and is proved by induction over them. *)

From stdpp Require Import base strings list numbers.
From S2P Require Import Prelude SwapCore Coordinator CoordinatorSteps CoordinatorFacts.

Open Scope Z_scope.

(** A call of the run that satisfies [P] took effect: it changed the
    coordinator, which only an accepted call does. *)
Definition took (s0 : SwapCoordinator) (ops : list CoordinatorOp)
    (P : CoordinatorOp → Prop) : Prop :=
  ∃ before op after, ops = before ++ op :: after ∧ P op ∧
    (apply op (run before s0)).1 ≠ run before s0.

(** An observation of the taker's lock [id] at the depth its policy asks for. *)
Definition confirms_taker_lock (s : SwapCoordinator) (op : CoordinatorOp) : Prop :=
  ∃ proof, op = ObserveFunding Participant_Taker proof ∧
    s.(taker_lock_transaction_id) = Some proof.(proof_transaction_id) ∧
    required_confirmations s Participant_Taker ≤ proof.(proof_confirmations).

Definition completes (op : CoordinatorOp) : Prop :=
  ∃ claimant proof, op = ObserveFollowupClaim claimant proof.

Definition refunds_taker (op : CoordinatorOp) : Prop :=
  ∃ observed, op = RefundTakerLeg observed.

(** The maker gets its leg back by a refund at the deadline or, where its
    recovery follows the taker's refund, by the recovery transaction. *)
Definition refunds_maker (op : CoordinatorOp) : Prop :=
  (∃ observed, op = RefundMakerLeg observed) ∨ ∃ proof, op = ObserveMakerRecovery proof.

Lemma took_snoc s0 ops op P :
  took s0 (ops ++ [op]) P ↔
  took s0 ops P ∨ P op ∧ (apply op (run ops s0)).1 ≠ run ops s0.
Proof.
  split.
  - intros (before&op'&after&Heq&HP&Hne). destruct after as [|x after _] using rev_ind.
    + apply app_inj_tail in Heq as [-> ->]. by right.
    + left. exists before, op', after. split; [|done].
      rewrite app_comm_cons, app_assoc in Heq. by apply app_inj_tail in Heq as [-> _].
  - intros [(before&op'&after&->&HP&Hne)|[HP Hne]].
    + exists before, op', (after ++ [op]). split; [|done]. by rewrite <- app_assoc.
    + by exists ops, op, [].
Qed.

Lemma took_weaken s0 ops (P Q : CoordinatorOp → Prop) :
  (∀ op, P op → Q op) → took s0 ops P → took s0 ops Q.
Proof. intros H (b&op&a&?&?&?). exists b, op, a. auto. Qed.

(** The maker has locked, or the next observation of its lock is accepted. *)
Definition maker_may_lock (s : SwapCoordinator) : Prop :=
  is_Some s.(maker_lock_transaction_id) ∨ s.(coord_phase) = TakerLockConfirmed.

Definition maker_refunded (s : SwapCoordinator) : Prop :=
  s.(coord_phase) = MakerLegRefunded ∨
  s.(coord_phase) = Refunded ∧ is_Some s.(maker_lock_transaction_id).

(** What the phase of a coordinator says about the calls that led to it. *)
Record history_inv (s0 : SwapCoordinator) (ops : list CoordinatorOp) (s : SwapCoordinator)
    : Prop := {
  hist_lock : maker_may_lock s → took s0 ops (confirms_taker_lock s);
  hist_completed : s.(coord_phase) = Completed ↔ took s0 ops completes;
  hist_taker : s.(coord_phase) ∈ [TakerLegRefunded; MakerRecoveryAvailable; Refunded] ↔
    took s0 ops refunds_taker;
  hist_maker : maker_refunded s ↔ took s0 ops refunds_maker
}.

Lemma coordinator_run_snoc ops op s : run (ops ++ [op]) s = (apply op (run ops s)).1.
Proof. by rewrite run_app. Qed.

(** ** One transition

    Each clause, for a transition from [s] to [s'] by [op]: the new phase says
    what the old one said together with the call. *)

Lemma completed_step s op s' :
  coord_step s op s' →
  (s'.(coord_phase) = Completed ↔ s.(coord_phase) = Completed ∨ completes op) ∧
  (completes op → s' ≠ s).
Proof.
  intros H. unfold completes.
  step_cases H; step_compute; rewrite ?Hp; repeat case_match;
    (split; [naive_solver|intros (?&?&?); try done; intros Heq; by rewrite <- Heq in Hp]).
Qed.

Lemma taker_refunded_step s op s' :
  coord_step s op s' →
  (s'.(coord_phase) ∈ [TakerLegRefunded; MakerRecoveryAvailable; Refunded] ↔
   s.(coord_phase) ∈ [TakerLegRefunded; MakerRecoveryAvailable; Refunded] ∨ refunds_taker op) ∧
  (refunds_taker op → s' ≠ s).
Proof.
  intros H. unfold refunds_taker. rewrite !elem_of_cons, !elem_of_nil.
  step_cases H; step_compute; rewrite ?Hp; repeat case_match;
    (split; [naive_solver|intros (?&?); try done; intros Heq; by rewrite <- Heq in Hp]).
Qed.

Lemma maker_refunded_step s op s' :
  coord_inv s → coord_step s op s' →
  (maker_refunded s' ↔ maker_refunded s ∨ refunds_maker op) ∧ (refunds_maker op → s' ≠ s).
Proof.
  intros Hinv H. pose proof (inv_maker _ Hinv) as Im.
  unfold refunds_maker, maker_refunded, maker_pinned_shape in *.
  step_cases H; step_compute; rewrite ?Hp in *; repeat case_match;
    (split; [rewrite <- ?not_eq_None_Some in *; naive_solver
            |intros [(?&?)|(?&?)]; try done; intros Heq; by rewrite <- Heq in Hp]).
Qed.

Lemma known_same known id : known_and_differs known id = false → is_Some known → known = Some id.
Proof. intros Hk [x ->]. cbn in Hk. bool_props. congruence. Qed.

(** The maker can lock only behind a taker lock that met its policy, and from
    then on the taker's lock keeps its identity. *)
Lemma lock_step s op s' :
  coord_inv s → coord_step s op s' → maker_may_lock s' →
  (maker_may_lock s ∧ s'.(taker_lock_transaction_id) = s.(taker_lock_transaction_id)) ∨
  (confirms_taker_lock s' op ∧ s' ≠ s).
Proof.
  intros Hinv H. pose proof (inv_maker _ Hinv) as Im. pose proof (inv_taker _ Hinv) as It.
  unfold maker_may_lock, maker_pinned_shape in *.
  assert (Hid : s.(coord_phase) ≠ Offered → is_Some s.(taker_lock_transaction_id))
    by (intros ?; rewrite <- not_eq_None_Some; tauto).
  step_cases H; step_compute; rewrite ?Hp in *.
  all: try (intros _; left; split; [tauto|]; done || (symmetry; apply known_same; [done|by apply Hid])).
  all: try (intros [?|?]; [left; split; [by left|done]|done]).
  all: intros [[x Hs%(eq_trans (eq_sym Im))]|Hc]; [done|try done].
  all: right; destruct (taker_meets_policy s proof) eqn:Hm; [|done].
  all: split; [exists proof; unfold taker_meets_policy in Hm; bool_props; by split_and!|].
  all: intros Heq; by rewrite <- Heq in Hp.
Qed.

Lemma confirms_same s s' op :
  same_terms s s' → s'.(taker_lock_transaction_id) = s.(taker_lock_transaction_id) →
  confirms_taker_lock s op → confirms_taker_lock s' op.
Proof.
  intros Ht Hid (proof&->&?&?). exists proof. rewrite Hid. split_and!; [done..|].
  unfold same_terms in Ht. unfold required_confirmations in *. naive_solver congruence.
Qed.

Lemma history_step s0 ops op :
  coord_inv (run ops s0) → history_inv s0 ops (run ops s0) →
  history_inv s0 (ops ++ [op]) (run (ops ++ [op]) s0).
Proof.
  intros Hinv [Hl Hc Ht Hm]. rewrite coordinator_run_snoc. set (s := run ops s0) in *.
  destruct (apply_state op s) as [Heq|H]; [split; rewrite ?took_snoc; fold s; rewrite Heq; naive_solver|].
  destruct (completed_step _ _ _ H) as [Hc1 Hc2].
  destruct (taker_refunded_step _ _ _ H) as [Ht1 Ht2].
  destruct (maker_refunded_step _ _ _ Hinv H) as [Hm1 Hm2].
  split; rewrite ?took_snoc; fold s; [|tauto..].
  intros [[Hs Hid]|[Hop Hne]]%(lock_step s op _ Hinv H); [left|by right].
  eapply took_weaken; [|by apply Hl]. intros x. apply confirms_same; [|done].
  by eapply same_terms_step.
Qed.

Lemma took_nil s0 P : ¬ took s0 [] P.
Proof. by intros ([]&?&?&?&_). Qed.

Lemma coordinator_run_history s0 ops : fresh_coordinator s0 → history_inv s0 ops (run ops s0).
Proof.
  intros Hf. induction ops as [|op ops IH] using rev_ind.
  - destruct Hf as (?&?&?&?&?&?&->).
    split; cbn; rewrite ?elem_of_cons, ?elem_of_nil; unfold maker_may_lock, maker_refunded; cbn;
      try (split; [|by intros []%took_nil]); try naive_solver.
  - apply history_step; [|done]. by apply coord_inv_run, coord_inv_fresh.
Qed.

(** The call that records the maker's lock is made when the taker's lock counts
    as confirmed. *)
Lemma recorded_step s op :
  s.(maker_lock_transaction_id) = None → is_Some (apply op s).1.(maker_lock_transaction_id) →
  s.(coord_phase) = TakerLockConfirmed.
Proof.
  intros Hn Hs. destruct (apply_state op s) as [Heq|H].
  - rewrite Heq, Hn in Hs. by destruct Hs.
  - destruct (apply op s) as [s' r]. cbn in Hs, H.
    step_cases H; step_compute; try done; rewrite Hn in Hs; by destruct Hs.
Qed.

(** C15: A swap settles one way.  For every sequence of calls on a new
    coordinator: the call that records the maker's lock comes after an
    observation that took effect of the recorded taker lock at the depth of its
    policy; the swap is completed exactly when a follow-up claim took effect; it
    is refunded only when the taker's refund took effect and, if the maker's lock
    is recorded, the maker's refund or recovery as well; and no sequence has both
    a follow-up claim and a refund of a leg that took effect.  A revealing claim
    alone does not rule refunds out: a leg that a reorganisation takes back after
    it can still be refunded. *)
Theorem swap_settles_one_way s0 ops :
  fresh_coordinator s0 →
  let s := run ops s0 in
  (∀ op, s.(maker_lock_transaction_id) = None →
     is_Some (apply op s).1.(maker_lock_transaction_id) → took s0 ops (confirms_taker_lock s)) ∧
  (s.(coord_phase) = Completed ↔ took s0 ops completes) ∧
  (s.(coord_phase) = Refunded →
     took s0 ops refunds_taker ∧
     (is_Some s.(maker_lock_transaction_id) → took s0 ops refunds_maker)) ∧
  ¬ (took s0 ops completes ∧ (took s0 ops refunds_taker ∨ took s0 ops refunds_maker)).
Proof.
  intros Hf s. destruct (coordinator_run_history s0 ops Hf) as [Hl Hc Ht Hm]. fold s in Hl, Hc, Ht, Hm.
  split; [intros op Hn Hs; apply Hl; right; by eapply recorded_step|].
  rewrite <- Hc, <- Ht, <- Hm. unfold maker_refunded.
  rewrite !elem_of_cons, elem_of_nil. intuition congruence.
Qed.

Lemma swap_settles_one_way_witness :
  took Samples.btc0 Samples.happy_path completes ∧
  ¬ took Samples.btc0 Samples.happy_path refunds_taker ∧
  took Samples.xmr0 Samples.xmr_recovery refunds_maker.
Proof.
  destruct (swap_settles_one_way Samples.btc0 Samples.happy_path Samples.btc0_fresh)
    as (_&Hc&_&Hno).
  destruct (swap_settles_one_way Samples.xmr0 Samples.xmr_recovery Samples.xmr0_fresh)
    as (_&_&Hr&_).
  assert (Hd : took Samples.btc0 Samples.happy_path completes) by by apply Hc; vm_compute.
  split_and!; [done|tauto|]. apply Hr; [by vm_compute|by eexists; vm_compute].
Defined.
