(* ===== verification/SwapSpec.v ===== *)
(** * Abstract specification of a two-leg swap

    What a swap promises, without phases, confirmations or identifiers: two
    legs, each unfunded, locked, claimed or refunded, and whether the claim
    secret has been revealed.  [astep] lists the moves the protocol allows;
    [spec_inv] holds along every abstract run.  [coordinator_refines_spec]
    shows that every call of the coordinator of [Coordinator.v] is a move of
    this machine or invisible to it, so that the abstract safety facts hold of
    every reachable coordinator. *)

From stdpp Require Import base strings list numbers relations.
From S2P Require Import Prelude SwapCore Coordinator CoordinatorSteps CoordinatorFacts.

Open Scope Z_scope.

Inductive LegStatus := LegUnfunded | LegLocked | LegClaimed | LegRefunded.

#[global] Instance LegStatus_eq_dec : EqDecision LegStatus.
Proof. solve_decision. Defined.

Record SwapState := { taker_leg : LegStatus; maker_leg : LegStatus; revealed : bool }.

Abbreviation st t m r := {| taker_leg := t; maker_leg := m; revealed := r |}.

Definition spec_initial : SwapState := st LegUnfunded LegUnfunded false.

Inductive astep : SwapState → SwapState → Prop :=
| a_fund_taker : astep (st LegUnfunded LegUnfunded false) (st LegLocked LegUnfunded false)
| a_unfund_taker : astep (st LegLocked LegUnfunded false) (st LegUnfunded LegUnfunded false)
| a_fund_maker : astep (st LegLocked LegUnfunded false) (st LegLocked LegLocked false)
| a_unfund_maker : astep (st LegLocked LegLocked false) (st LegLocked LegUnfunded false)
| a_reveal : astep (st LegLocked LegLocked false) (st LegLocked LegLocked true)
| a_complete : astep (st LegLocked LegLocked true) (st LegClaimed LegClaimed true)
| a_refund_maker t r :
    t = LegLocked ∨ t = LegRefunded → astep (st t LegLocked r) (st t LegRefunded r)
| a_refund_taker m r :
    m ≠ LegClaimed → astep (st LegLocked m r) (st LegRefunded m r).

(** Safety of the abstract machine: the maker funds only behind the taker, the
    secret is revealed only over two legs, and the legs settle together. *)
Definition spec_inv (a : SwapState) : Prop :=
  (a.(maker_leg) ≠ LegUnfunded → a.(taker_leg) ≠ LegUnfunded) ∧
  (a.(revealed) = true → a.(maker_leg) ≠ LegUnfunded) ∧
  (a.(taker_leg) = LegClaimed ↔ a.(maker_leg) = LegClaimed) ∧
  (a.(taker_leg) = LegClaimed → a.(revealed) = true).

Lemma spec_inv_step a a' : spec_inv a → astep a a' → spec_inv a'.
Proof. unfold spec_inv. intros Hi H. destruct H; cbn in *; naive_solver. Qed.

Lemma spec_inv_run a : rtc astep spec_initial a → spec_inv a.
Proof.
  apply (rtc_ind_r spec_inv); [by unfold spec_inv|].
  intros a1 a2 _ Hs Hi. by eapply spec_inv_step.
Qed.

(** ** The abstraction of a coordinator *)

Definition abstraction (s : SwapCoordinator) : SwapState :=
  let r := is_some s.(coord_claim_evidence) in
  match s.(coord_phase) with
  | Offered => st LegUnfunded LegUnfunded r
  | AwaitingTakerConfirmations | TakerLockConfirmed => st LegLocked LegUnfunded r
  | AwaitingMakerConfirmations | BothLegsLocked | TakerLockReorged | MakerLockReorged
  | ClaimEvidenceAvailable => st LegLocked LegLocked r
  | Completed => st LegClaimed LegClaimed r
  | MakerLegRefunded => st LegLocked LegRefunded r
  | TakerLegRefunded | MakerRecoveryAvailable => st LegRefunded LegLocked r
  | Refunded =>
      st LegRefunded
        (if is_some s.(maker_lock_transaction_id) then LegRefunded else LegUnfunded) r
  end.

Lemma abstraction_fresh s : fresh_coordinator s → abstraction s = spec_initial.
Proof. by intros (?&?&?&?&?&?&->). Qed.

(** One transition of the coordinator is one abstract move or none. *)
Lemma abstraction_step s op s' :
  coord_inv s → coord_step s op s' →
  abstraction s' = abstraction s ∨ astep (abstraction s) (abstraction s').
Proof.
  intros Hinv H. pose proof (inv_maker _ Hinv) as Im. pose proof (inv_evidence _ Hinv) as Ie.
  unfold maker_pinned_shape, evidence_shape in *.
  step_cases H; rewrite Hp in Im, Ie; unfold abstraction; step_compute; rewrite ?Hp; cbn;
    repeat match goal with
    | H : _ ∧ _ |- _ => destruct H
    | H : is_Some _ |- _ => destruct H as [? ->]
    | H : coord_claim_evidence _ = None |- _ => rewrite H
    | H : maker_lock_transaction_id _ = None |- _ => rewrite H
    end; cbn; try (by left); try (repeat case_match; by left);
    right; repeat case_match; try constructor; naive_solver.
Qed.

Lemma abstraction_run ops s :
  coord_inv s → rtc astep (abstraction s) (abstraction (run ops s)).
Proof.
  intros Hinv.
  enough (H : coord_inv (run ops s) ∧ rtc astep (abstraction s) (abstraction (run ops s)))
    by apply H.
  apply run_ind; [|by split].
  intros s1 op s2 [Hi1 Hr] Hs. split; [by eapply coord_inv_step|].
  destruct (abstraction_step _ _ _ Hi1 Hs) as [->|Ha]; [done|].
  by eapply rtc_r.
Qed.

(** C14: The coordinator refines the abstract two-leg swap: from a fresh
    coordinator, every sequence of calls is matched by a run of the abstract
    machine that ends in the abstraction of the state reached, and a single
    call from a reachable state makes at most one abstract move. *)
Theorem coordinator_refines_spec s0 ops op :
  fresh_coordinator s0 →
  rtc astep spec_initial (abstraction (run ops s0)) ∧
  (abstraction (apply op (run ops s0)).1 = abstraction (run ops s0) ∨
   astep (abstraction (run ops s0)) (abstraction (apply op (run ops s0)).1)).
Proof.
  intros Hf. assert (Hi : coord_inv s0) by by apply coord_inv_fresh.
  split; [rewrite <- (abstraction_fresh s0 Hf); by apply abstraction_run|].
  destruct (apply_state op (run ops s0)) as [->|Hs]; [by left|].
  eapply abstraction_step; [by apply coord_inv_run|done].
Qed.

Lemma coordinator_refines_spec_witness :
  rtc astep spec_initial (abstraction (run Samples.happy_path Samples.btc0)) ∧
  abstraction (run Samples.happy_path Samples.btc0) = st LegClaimed LegClaimed true.
Proof.
  split; [|by vm_compute].
  apply (coordinator_refines_spec Samples.btc0 Samples.happy_path Samples.reveal).
  apply Samples.btc0_fresh.
Defined.
