(* ===== verification/PublicEffectPlan.v ===== *)
(** * Exact public-effect plans

    Models [crates/swap-sdk-core/src/public_effect.rs] and the schema version of
    [version.rs]: the bounded vocabulary of public effect steps, the validation
    of an ordered plan, lookup by step, re-validation on decoding, and the
    domain-separated commitment to the plan.  SHA-256 is the [sha2] crate's: an
    argument of the definitions that hash.  A streaming digest hashes the
    concatenation of what it was updated with. *)

From stdpp Require Import base gmap strings list numbers.
From S2P Require Import Prelude.

Open Scope Z_scope.

(** ** Versions ([version.rs]) *)

Inductive VersionError := VersionError_Zero.

Record SchemaVersion := { SchemaVersion_get : Z }.

Definition SchemaVersion_new (value : Z) : result SchemaVersion VersionError :=
  if value =? 0 then Err VersionError_Zero else Ok {| SchemaVersion_get := value |}.

Definition SchemaVersion_V1 : SchemaVersion := {| SchemaVersion_get := 1 |}.

Definition EXACT_PUBLIC_EFFECT_PLAN_SCHEMA_V1 : SchemaVersion := SchemaVersion_V1.

#[global] Instance SchemaVersion_eq_dec : EqDecision SchemaVersion.
Proof. solve_decision. Defined.

(** ** Limits *)

Definition MAX_PLAN_STEPS : Z := 32.
Definition MAX_STEP_ID_BYTES : Z := 96.
Definition MAX_EXPECTED_ID_BYTES : Z := 512.
Definition MAX_EXACT_EFFECT_BYTES : Z := 4 * 1024 * 1024.
Definition MAX_PLAN_EXACT_BYTES : Z := 8 * 1024 * 1024.
Definition PLAN_COMMITMENT_DOMAIN : bytes :=
  bytes_of_string "lez-swap-sdk-core/public-effect-plan/v1".

(** ** Errors *)

Inductive PublicEffectPlanError :=
| UnsupportedSchemaVersion
| InvalidStepId
| InvalidExpectedPublicId
| InvalidExactBytes
| EmptyPlan
| TooManySteps
| DuplicateStepId
| PlanBytesTooLarge.

(** ** Identifiers and bytes *)

Definition dot : Byte.byte := Byte.x2e.
Definition underscore : Byte.byte := Byte.x5f.

(** [str::split(sep)] on the bytes: always at least one component. *)
Fixpoint split_on (sep : Byte.byte) (l : bytes) : list bytes :=
  match l with
  | [] => [[]]
  | b :: l' =>
      if b ==? sep then [] :: split_on sep l'
      else match split_on sep l' with
           | c :: cs => (b :: c) :: cs
           | [] => [[b]]
           end
  end.

Definition valid_component (component : bytes) : bool :=
  match component with
  | [] => false
  | first :: rest =>
      is_ascii_lowercase first
      && forallb (λ byte, is_ascii_lowercase byte || is_ascii_digit byte
                          || (byte ==? underscore)) rest
  end.

Definition valid_step_id (value : string) : bool :=
  forallb valid_component (split_on dot (bytes_of_string value)).

Record PublicEffectStepId := { StepId_as_str : string }.

Definition PublicEffectStepId_new (value : string)
    : result PublicEffectStepId PublicEffectPlanError :=
  if (slen value =? 0) || (MAX_STEP_ID_BYTES <? slen value) || negb (valid_step_id value)
  then Err InvalidStepId
  else Ok {| StepId_as_str := value |}.

Record ExpectedPublicEffectId := { ExpectedId_as_str : string }.

Definition ExpectedPublicEffectId_new (value : string)
    : result ExpectedPublicEffectId PublicEffectPlanError :=
  if (slen value =? 0) || (MAX_EXPECTED_ID_BYTES <? slen value)
     || negb (forallb is_ascii_graphic (bytes_of_string value))
  then Err InvalidExpectedPublicId
  else Ok {| ExpectedId_as_str := value |}.

Record ExactPublicEffectBytes := { ExactBytes_as_slice : bytes }.

Definition ExactPublicEffectBytes_new (value : bytes)
    : result ExactPublicEffectBytes PublicEffectPlanError :=
  if (blen value =? 0) || (MAX_EXACT_EFFECT_BYTES <? blen value)
  then Err InvalidExactBytes
  else Ok {| ExactBytes_as_slice := value |}.

Definition ExactPublicEffectBytes_sha256 (sha256 : bytes → bytes)
    (self : ExactPublicEffectBytes) : bytes :=
  sha256 self.(ExactBytes_as_slice).

(** ** Steps and plans *)

Record PublicEffectStepV1 := {
  plan_step_id : PublicEffectStepId;
  expected_public_id : ExpectedPublicEffectId;
  exact_bytes : ExactPublicEffectBytes
}.

Record ExactPublicEffectPlanV1 := {
  plan_schema_version : SchemaVersion;
  plan_steps : list PublicEffectStepV1
}.

#[global] Instance StepId_eq_dec : EqDecision PublicEffectStepId.
Proof. solve_decision. Defined.
#[global] Instance ExpectedId_eq_dec : EqDecision ExpectedPublicEffectId.
Proof. solve_decision. Defined.
#[global] Instance ExactBytes_eq_dec : EqDecision ExactPublicEffectBytes.
Proof. solve_decision. Defined.
#[global] Instance PublicEffectStepV1_eq_dec : EqDecision PublicEffectStepV1.
Proof. solve_decision. Defined.
#[global] Instance ExactPublicEffectPlanV1_eq_dec : EqDecision ExactPublicEffectPlanV1.
Proof. solve_decision. Defined.
#[global] Instance StepId_countable : Countable PublicEffectStepId.
Proof.
  refine (inj_countable' StepId_as_str (λ s, {| StepId_as_str := s |}) _). by intros [].
Defined.

(** The validation loop of [ExactPublicEffectPlanV1::new]: [seen] is its
    [HashSet], [total_bytes] its [usize] accumulator. *)
Fixpoint check_plan_steps (seen : gset PublicEffectStepId) (total_bytes : Z)
    (steps : list PublicEffectStepV1) : result unit PublicEffectPlanError :=
  match steps with
  | [] => Ok tt
  | step :: steps =>
      if bool_decide (step.(plan_step_id) ∈ seen) then Err DuplicateStepId
      else
        match checked_add u64_max total_bytes
                (blen step.(exact_bytes).(ExactBytes_as_slice)) with
        | None => Err PlanBytesTooLarge
        | Some total_bytes =>
            if MAX_PLAN_EXACT_BYTES <? total_bytes then Err PlanBytesTooLarge
            else check_plan_steps ({[ step.(plan_step_id) ]} ∪ seen) total_bytes steps
        end
  end.

Definition ExactPublicEffectPlanV1_new (steps : list PublicEffectStepV1)
    : result ExactPublicEffectPlanV1 PublicEffectPlanError :=
  if blen steps =? 0 then Err EmptyPlan
  else if MAX_PLAN_STEPS <? blen steps then Err TooManySteps
  else
    let? _ := check_plan_steps ∅ 0 steps in
    Ok {| plan_schema_version := EXACT_PUBLIC_EFFECT_PLAN_SCHEMA_V1; plan_steps := steps |}.

(** Decoding re-validates the record it read. *)
Definition ExactPublicEffectPlanV1_from_record (schema_version : SchemaVersion)
    (steps : list PublicEffectStepV1)
    : result ExactPublicEffectPlanV1 PublicEffectPlanError :=
  if schema_version !=? EXACT_PUBLIC_EFFECT_PLAN_SCHEMA_V1
  then Err UnsupportedSchemaVersion
  else ExactPublicEffectPlanV1_new steps.

(** [steps.iter().find(...)] *)
Fixpoint find_step (step : PublicEffectStepId) (steps : list PublicEffectStepV1)
    : option PublicEffectStepV1 :=
  match steps with
  | [] => None
  | candidate :: steps =>
      if candidate.(plan_step_id) ==? step then Some candidate else find_step step steps
  end.

Definition plan_step (self : ExactPublicEffectPlanV1) (step : PublicEffectStepId)
    : option PublicEffectStepV1 :=
  find_step step self.(plan_steps).

(** ** Commitment *)

Definition len_prefixed (value : bytes) : bytes :=
  be_bytes 8 (Z.min (blen value) u64_max) ++ value.

Definition step_preimage (step : PublicEffectStepV1) : bytes :=
  len_prefixed (bytes_of_string step.(plan_step_id).(StepId_as_str)) ++
  len_prefixed (bytes_of_string step.(expected_public_id).(ExpectedId_as_str)) ++
  len_prefixed step.(exact_bytes).(ExactBytes_as_slice).

(** Everything the commitment's digest is updated with, in order. *)
Definition commitment_preimage (self : ExactPublicEffectPlanV1) : bytes :=
  PLAN_COMMITMENT_DOMAIN ++
  be_bytes 2 self.(plan_schema_version).(SchemaVersion_get) ++
  be_bytes 4 (Z.min (blen self.(plan_steps)) u32_max) ++
  concat (map step_preimage self.(plan_steps)).

Definition plan_commitment (sha256 : bytes → bytes) (self : ExactPublicEffectPlanV1) : bytes :=
  sha256 (commitment_preimage self).

(** ** Well-formed values: those the constructors return *)

Definition step_wf (step : PublicEffectStepV1) : Prop :=
  PublicEffectStepId_new step.(plan_step_id).(StepId_as_str) = Ok step.(plan_step_id) ∧
  ExpectedPublicEffectId_new step.(expected_public_id).(ExpectedId_as_str)
    = Ok step.(expected_public_id) ∧
  ExactPublicEffectBytes_new step.(exact_bytes).(ExactBytes_as_slice)
    = Ok step.(exact_bytes).

Definition plan_wf (plan : ExactPublicEffectPlanV1) : Prop :=
  Forall step_wf plan.(plan_steps) ∧
  ExactPublicEffectPlanV1_new plan.(plan_steps) = Ok plan.

(** Bytes carried by a list of steps. *)
Definition total_exact_bytes (steps : list PublicEffectStepV1) : Z :=
  foldr (λ step acc, blen step.(exact_bytes).(ExactBytes_as_slice) + acc) 0 steps.

(** ** Lemmas *)

Lemma blen_nonneg {A} (l : list A) : 0 ≤ blen l.
Proof. unfold blen. lia. Qed.

Lemma total_exact_bytes_nonneg steps : 0 ≤ total_exact_bytes steps.
Proof.
  induction steps as [|s steps IH]; cbn; [lia|].
  pose proof (blen_nonneg (ExactBytes_as_slice (exact_bytes s))). unfold total_exact_bytes in *. lia.
Qed.

Lemma check_plan_steps_Ok seen total steps :
  0 ≤ total →
  check_plan_steps seen total steps = Ok tt ↔
  NoDup (map plan_step_id steps) ∧ (∀ i, i ∈ map plan_step_id steps → i ∉ seen) ∧
  (steps = [] ∨ total + total_exact_bytes steps ≤ MAX_PLAN_EXACT_BYTES).
Proof.
  revert seen total. induction steps as [|s steps IH]; intros seen total Ht; cbn.
  { split; [|done]. intros _. split_and!; [constructor|set_solver|by left]. }
  pose proof (blen_nonneg (ExactBytes_as_slice (exact_bytes s))) as Hb.
  pose proof (total_exact_bytes_nonneg steps) as Hn.
  fold (total_exact_bytes steps).
  set (b := blen (ExactBytes_as_slice (exact_bytes s))) in *.
  case_bool_decide as Hin.
  { split; [done|]. intros (_&H&_). exfalso. apply (H (plan_step_id s)); set_solver. }
  destruct (checked_add u64_max total b) as [t|] eqn:E.
  - apply checked_add_Some in E as [-> Hle].
    destruct (Z.ltb_spec MAX_PLAN_EXACT_BYTES (total + b)).
    + split; [done|]. intros (_&_&[?|?]); [done|lia].
    + rewrite IH by lia. rewrite list.NoDup_cons.
      assert (steps = [] → total_exact_bytes steps = 0) by (by intros ->).
      set_unfold. naive_solver lia.
  - apply checked_add_None in E. split; [done|]. intros (_&_&[?|?]); [done|].
    unfold u64_max, MAX_PLAN_EXACT_BYTES in *. lia.
Qed.

Lemma plan_new_Ok steps plan :
  ExactPublicEffectPlanV1_new steps = Ok plan ↔
  steps ≠ [] ∧ blen steps ≤ MAX_PLAN_STEPS ∧ NoDup (map plan_step_id steps) ∧
  total_exact_bytes steps ≤ MAX_PLAN_EXACT_BYTES ∧
  plan = {| plan_schema_version := SchemaVersion_V1; plan_steps := steps |}.
Proof.
  unfold ExactPublicEffectPlanV1_new.
  destruct (Z.eqb_spec (blen steps) 0) as [H0|H0].
  { split; [done|]. intros (?&_). destruct steps; cbn in *; [done|unfold blen in H0; cbn in H0; lia]. }
  assert (Hne : steps ≠ []) by (by intros ->).
  destruct (Z.ltb_spec MAX_PLAN_STEPS (blen steps)).
  { split; [done|]. intros (_&?&_). lia. }
  destruct (check_plan_steps ∅ 0 steps) as [[]|e] eqn:E; cbn.
  - apply check_plan_steps_Ok in E as (?&_&[?|?]); [done| |lia]. naive_solver lia.
  - split; [done|]. intros (_&_&Hd&Ht&_).
    assert (check_plan_steps ∅ 0 steps = Ok tt) as E'; [|congruence].
    apply check_plan_steps_Ok; [lia|]. split_and!; [done|set_solver|right; lia].
Qed.

Lemma step_id_new_Ok s i :
  PublicEffectStepId_new s = Ok i ↔
  slen s ≠ 0 ∧ slen s ≤ MAX_STEP_ID_BYTES ∧ valid_step_id s = true ∧ i = {| StepId_as_str := s |}.
Proof.
  unfold PublicEffectStepId_new.
  destruct (Z.eqb_spec (slen s) 0), (Z.ltb_spec MAX_STEP_ID_BYTES (slen s)),
    (valid_step_id s); cbn; naive_solver lia.
Qed.

Lemma expected_id_new_Ok s i :
  ExpectedPublicEffectId_new s = Ok i → slen s ≤ MAX_EXPECTED_ID_BYTES.
Proof.
  unfold ExpectedPublicEffectId_new.
  destruct (Z.eqb_spec (slen s) 0), (Z.ltb_spec MAX_EXPECTED_ID_BYTES (slen s)); cbn; done.
Qed.

Lemma exact_bytes_new_Ok b i :
  ExactPublicEffectBytes_new b = Ok i → blen b ≤ MAX_EXACT_EFFECT_BYTES.
Proof.
  unfold ExactPublicEffectBytes_new.
  destruct (Z.eqb_spec (blen b) 0), (Z.ltb_spec MAX_EXACT_EFFECT_BYTES (blen b)); cbn; done.
Qed.

Lemma slen_blen s : blen (bytes_of_string s) = slen s.
Proof. unfold blen, slen. by rewrite length_bytes_of_string. Qed.

(** A length prefix delimits what it prefixes. *)
Lemma len_prefixed_inj a b x y :
  blen a ≤ u64_max → blen b ≤ u64_max →
  len_prefixed a ++ x = len_prefixed b ++ y → a = b ∧ x = y.
Proof.
  unfold len_prefixed. intros Ha Hb H. rewrite <- !(assoc_L (++)) in H.
  apply app_inj_1 in H as [Hl H]; [|by rewrite !length_be_bytes].
  rewrite !Z.min_l in Hl by done.
  pose proof (blen_nonneg a). pose proof (blen_nonneg b).
  apply be_bytes_inj in Hl;
    [|change (256 ^ Z.of_nat 8) with (u64_max + 1); lia..].
  apply app_inj_1 in H; [done|]. unfold blen in Hl. lia.
Qed.

Lemma step_preimage_inj s t x y :
  step_wf s → step_wf t → step_preimage s ++ x = step_preimage t ++ y → s = t ∧ x = y.
Proof.
  intros (Hi&He&Hb) (Hi'&He'&Hb') H. unfold step_preimage in H.
  apply step_id_new_Ok in Hi as (_&Hi&_), Hi' as (_&Hi'&_).
  apply expected_id_new_Ok in He, He'. apply exact_bytes_new_Ok in Hb, Hb'.
  unfold MAX_STEP_ID_BYTES, MAX_EXPECTED_ID_BYTES, MAX_EXACT_EFFECT_BYTES in *.
  rewrite <- !(assoc_L (++)) in H.
  apply len_prefixed_inj in H as [H1 H]; [|rewrite slen_blen; unfold u64_max; lia..].
  apply len_prefixed_inj in H as [H2 H]; [|rewrite slen_blen; unfold u64_max; lia..].
  apply len_prefixed_inj in H as [H3 H]; [|unfold u64_max; lia..].
  apply bytes_of_string_inj in H1, H2.
  destruct s as [[] [] []], t as [[] [] []]; cbn in *. by subst.
Qed.

Lemma steps_preimage_inj ss ts :
  Forall step_wf ss → Forall step_wf ts → length ss = length ts →
  concat (map step_preimage ss) = concat (map step_preimage ts) → ss = ts.
Proof.
  intros Hs. revert ts. induction Hs as [|s ss Hw Hs IH]; intros [|t ts] Ht Hl H; try done.
  apply list.Forall_cons in Ht as [Ht Hts]. cbn in H, Hl.
  apply step_preimage_inj in H as [-> H]; [|done..].
  f_equal. apply IH; [done|lia|done].
Qed.

(** The commitment preimage determines the plan. *)
Lemma commitment_preimage_inj p q :
  plan_wf p → plan_wf q → commitment_preimage p = commitment_preimage q → p = q.
Proof.
  intros [Hp Hpn] [Hq Hqn] H.
  apply plan_new_Ok in Hpn as (_&Hpl&_&_&Ep), Hqn as (_&Hql&_&_&Eq).
  destruct p as [vp sp], q as [vq sq]. injection Ep as ->. injection Eq as ->.
  cbn [plan_steps] in *. unfold commitment_preimage in H. cbn [plan_steps plan_schema_version] in H.
  apply app_inj_1 in H as [_ H]; [|done].
  apply app_inj_1 in H as [_ H]; [|done].
  apply app_inj_1 in H as [Hl H]; [|by rewrite !length_be_bytes].
  unfold MAX_PLAN_STEPS in *.
  pose proof (blen_nonneg sp). pose proof (blen_nonneg sq).
  rewrite !Z.min_l in Hl by (unfold u32_max; lia).
  apply be_bytes_inj in Hl; [|lia..].
  f_equal. apply steps_preimage_inj; [done..| |done]. unfold blen in Hl. lia.
Qed.

Lemma find_step_elem steps i st :
  NoDup (map plan_step_id steps) →
  find_step i steps = Some st ↔ st ∈ steps ∧ st.(plan_step_id) = i.
Proof.
  induction steps as [|s steps IH]; cbn; intros Hd.
  { set_solver. }
  apply list.NoDup_cons in Hd as [Hn Hd]. rewrite list_elem_of_fmap in Hn.
  specialize (IH Hd). case_bool_decide; [|set_solver].
  split; [intros [= ->]; set_solver|].
  intros [[->|Hin]%elem_of_cons Hst]; [done|].
  exfalso. apply Hn. exists st. split; [congruence|done].
Qed.

(** ** The step-identifier grammar *)

(** Components joined by dots. *)
Fixpoint join_dots (components : list bytes) : bytes :=
  match components with
  | [] => []
  | [c] => c
  | c :: cs => c ++ dot :: join_dots cs
  end.

Lemma split_on_cons sep l : ∃ c cs, split_on sep l = c :: cs.
Proof.
  destruct l as [|b l]; cbn; [eauto|]. case_bool_decide; [eauto|].
  destruct (split_on sep l); eauto.
Qed.

Lemma join_split l : join_dots (split_on dot l) = l.
Proof.
  induction l as [|b l IH]; [done|]. cbn. case_bool_decide as Hb.
  - destruct (split_on_cons dot l) as (c&cs&E). rewrite E in *. cbn in *. congruence.
  - destruct (split_on_cons dot l) as (c&cs&E). rewrite E in *.
    destruct cs; cbn in *; congruence.
Qed.

Lemma split_no_dot c : dot ∉ c → split_on dot c = [c].
Proof.
  induction c as [|b c IH]; [done|]. intros H. cbn.
  rewrite bool_decide_eq_false_2 by set_solver. rewrite IH by set_solver. done.
Qed.

Lemma split_app_dot c l : dot ∉ c → split_on dot (c ++ dot :: l) = c :: split_on dot l.
Proof.
  induction c as [|b c IH]; intros H.
  - cbn. by rewrite bool_decide_eq_true_2.
  - cbn. rewrite bool_decide_eq_false_2 by set_solver. rewrite IH by set_solver. done.
Qed.

Lemma split_join cs : cs ≠ [] → Forall (λ c, dot ∉ c) cs → split_on dot (join_dots cs) = cs.
Proof.
  intros Hne Hc. induction Hc as [|c cs Hc Hcs IH]; [done|].
  destruct cs as [|d cs]; [by apply split_no_dot|].
  change (join_dots (c :: d :: cs)) with (c ++ dot :: join_dots (d :: cs)).
  rewrite split_app_dot by done. rewrite IH; done.
Qed.

Lemma valid_component_no_dot c : valid_component c = true → dot ∉ c.
Proof.
  destruct c as [|b c]; cbn; [done|].
  intros [Hb Hc]%andb_true_iff. rewrite elem_of_cons. intros [<-|Hin]; [done|].
  rewrite forallb_forall in Hc. specialize (Hc dot). rewrite <- list_elem_of_In in Hc. by specialize (Hc Hin).
Qed.

Lemma valid_components_no_dot cs :
  Forall (λ c, valid_component c = true) cs → Forall (λ c, dot ∉ c) cs.
Proof. intros H. eapply list.Forall_impl; [exact H|]. apply valid_component_no_dot. Qed.

Lemma valid_step_id_iff s :
  valid_step_id s = true ↔
  ∃ cs, cs ≠ [] ∧ Forall (λ c, valid_component c = true) cs ∧ bytes_of_string s = join_dots cs.
Proof.
  unfold valid_step_id. rewrite forallb_forall. split.
  - intros H. exists (split_on dot (bytes_of_string s)). rewrite join_split. split_and!; [|apply list.Forall_forall|done].
    + by destruct (split_on_cons dot (bytes_of_string s)) as (c&cs&->).
    + intros c Hc. apply H. by apply list_elem_of_In.
  - intros (cs&Hne&Hcs&Heq) c Hc. rewrite Heq, split_join in Hc by eauto using valid_components_no_dot.
    apply list_elem_of_In in Hc. by eapply list.Forall_forall in Hcs.
Qed.

(** ** Properties *)

(** A step identifier is accepted exactly when it is at most 96 bytes long
    and is a nonempty sequence of components joined by single dots, each
    component a lowercase letter followed by lowercase letters, digits and
    underscores; the components are then determined by the identifier. *)
Theorem step_id_grammar s :
  is_ok (PublicEffectStepId_new s) = true ↔
  slen s ≤ MAX_STEP_ID_BYTES ∧
  exists! components, components ≠ [] ∧ Forall (λ c, valid_component c = true) components ∧
    bytes_of_string s = join_dots components.
Proof.
  transitivity (slen s ≠ 0 ∧ slen s ≤ MAX_STEP_ID_BYTES ∧ valid_step_id s = true).
  { destruct (PublicEffectStepId_new s) as [i|e] eqn:E; cbn.
    - apply step_id_new_Ok in E. naive_solver.
    - split; [done|]. intros (?&?&?). exfalso.
      assert (PublicEffectStepId_new s = Ok {| StepId_as_str := s |}) by (by apply step_id_new_Ok).
      congruence. }
  rewrite valid_step_id_iff. split.
  - intros (_&Hle&cs&Hne&Hcs&Heq). split; [done|]. exists cs. split; [done|].
    intros ds (Hne'&Hds&Heq'). rewrite <- (split_join cs), <- (split_join ds); eauto using valid_components_no_dot.
    congruence.
  - intros (Hle&cs&(Hne&Hcs&Heq)&_). split_and!; eauto.
    rewrite <- slen_blen, Heq. destruct cs as [|[|b c] cs]; [done|by inversion Hcs|].
    destruct cs; cbn; unfold blen; cbn; lia.
Qed.

(** A plan is accepted exactly when it is nonempty, has at most 32 steps,
    no two of them with the same discriminator, and at most 8 MiB of exact bytes
    in all; the accepted plan has the steps in the order given, schema version
    1, and decoding the record it serializes to accepts it again. *)
Theorem plan_accepted_iff steps plan :
  ExactPublicEffectPlanV1_new steps = Ok plan ↔
  steps ≠ [] ∧ blen steps ≤ MAX_PLAN_STEPS ∧ NoDup (map plan_step_id steps) ∧
  total_exact_bytes steps ≤ MAX_PLAN_EXACT_BYTES ∧
  plan = {| plan_schema_version := SchemaVersion_V1; plan_steps := steps |} ∧
  ExactPublicEffectPlanV1_from_record plan.(plan_schema_version) plan.(plan_steps) = Ok plan.
Proof.
  rewrite plan_new_Ok. split; [|naive_solver].
  intros (?&?&?&?&->). split_and!; try done.
  unfold ExactPublicEffectPlanV1_from_record. cbn. by apply plan_new_Ok.
Qed.

(** Lookup by discriminator finds a step of an accepted plan exactly when
    the plan has it, so every step is found under its own discriminator and
    the answer is the only step carrying it. *)
Theorem plan_lookup_exact steps plan :
  ExactPublicEffectPlanV1_new steps = Ok plan →
  ∀ i st, plan_step plan i = Some st ↔ st ∈ steps ∧ st.(plan_step_id) = i.
Proof.
  intros (_&_&Hd&_&->)%plan_new_Ok i st. by apply find_step_elem.
Qed.

Definition sample_step (id : string) : PublicEffectStepV1 :=
  {| plan_step_id := {| StepId_as_str := id |};
     expected_public_id := {| ExpectedId_as_str := "aa" |};
     exact_bytes := {| ExactBytes_as_slice := [Byte.x01; Byte.x02] |} |}.
Definition sample_plan : ExactPublicEffectPlanV1 :=
  {| plan_schema_version := SchemaVersion_V1;
     plan_steps := [sample_step "lez.initialize"; sample_step "lez.fund"] |}.

Lemma plan_lookup_exact_witness :
  plan_step sample_plan {| StepId_as_str := "lez.fund" |} = Some (sample_step "lez.fund").
Proof.
  apply (plan_lookup_exact (plan_steps sample_plan) sample_plan); [vm_compute; reflexivity|].
  split; [apply list_elem_of_here || (right; left)|reflexivity].
Defined.

(** The commitment binds the plan: whatever function hashes, two plans
    accepted by the constructors with the same commitment are equal (schema,
    order, discriminators, expected identities and every byte), or a collision
    of that function is at hand in their commitment preimages. *)
Theorem commitment_binds_plan (sha256 : bytes → bytes) p q :
  plan_wf p → plan_wf q → plan_commitment sha256 p = plan_commitment sha256 q →
  p = q ∨
  (commitment_preimage p ≠ commitment_preimage q ∧
   sha256 (commitment_preimage p) = sha256 (commitment_preimage q)).
Proof.
  intros Hp Hq H. destruct (decide (commitment_preimage p = commitment_preimage q)).
  - left. by apply commitment_preimage_inj.
  - by right.
Qed.

Lemma commitment_binds_plan_witness :
  sample_plan = sample_plan ∨
  (commitment_preimage sample_plan ≠ commitment_preimage sample_plan ∧
   id (commitment_preimage sample_plan) = id (commitment_preimage sample_plan)).
Proof.
  assert (plan_wf sample_plan).
  { split; [|vm_compute; reflexivity]. repeat constructor. }
  apply (commitment_binds_plan id sample_plan sample_plan); [assumption..|reflexivity].
Defined.
