(* ===== verification/Decimal.v ===== *)
(** * Decimal text of unsigned integers

    The standard library's [to_string] and [str::parse] of the unsigned integer
    types, on the bytes of the text, and that each is the inverse of the other on
    canonical text (no sign, no leading zero). *)

From stdpp Require Import base gmap strings list numbers.
From S2P Require Import Prelude.

Open Scope Z_scope.

Fixpoint string_of_bytes (l : bytes) : string :=
  match l with
  | [] => EmptyString
  | b :: l => String.String (Ascii.ascii_of_byte b) (string_of_bytes l)
  end.

(** The character of a digit, and the digit of a character. *)
Definition digit_byte (d : Z) : Byte.byte := byte_of_Z (48 + d).
Definition byte_digit (b : Byte.byte) : Z := Z_of_byte b - 48.

(** Most significant digit first; [fuel] bounds the number of digits. *)
Fixpoint digits (fuel : nat) (v : Z) : bytes :=
  match fuel with
  | O => []
  | S fuel => if v <? 10 then [digit_byte v] else digits fuel (v / 10) ++ [digit_byte (v mod 10)]
  end.

(** The widest type, [u128], has 39 digits. *)
Definition to_string (v : Z) : string := string_of_bytes (digits 40 v).

(** The accumulation of [str::parse] at the width given by [max]. *)
Fixpoint parse_digits (max acc : Z) (l : bytes) : option Z :=
  match l with
  | [] => Some acc
  | b :: l =>
      match checked_mul max acc 10 with
      | None => None
      | Some shifted =>
          if is_ascii_digit b
          then match checked_add max shifted (byte_digit b) with
               | None => None
               | Some acc => parse_digits max acc l
               end
          else None
      end
  end.

(** [str::parse] of an unsigned type: one leading plus sign is accepted. *)
Definition parse_unsigned (max : Z) (s : string) : option Z :=
  match bytes_of_string s with
  | [] => None
  | [b] => if (b ==? Byte.x2b) || (b ==? Byte.x2d) then None else parse_digits max 0 [b]
  | b :: l => if b ==? Byte.x2b then parse_digits max 0 l else parse_digits max 0 (b :: l)
  end.

(** The canonical texts: no sign and no leading zero. *)
Definition canonical_decimal (s : string) : bool :=
  let l := bytes_of_string s in
  negb (blen l =? 0)
  && negb ((1 <? blen l) && match l with b :: _ => b ==? Byte.x30 | [] => false end)
  && forallb is_ascii_digit l.

(** ** Lemmas *)

Lemma string_of_bytes_of_string s : string_of_bytes (bytes_of_string s) = s.
Proof.
  induction s as [|c s IH]; cbn; [done|]. by rewrite Ascii.ascii_of_byte_of_ascii, IH.
Qed.

Lemma bytes_of_string_of_bytes l : bytes_of_string (string_of_bytes l) = l.
Proof.
  induction l as [|b l IH]; cbn; [done|]. by rewrite Ascii.byte_of_ascii_of_byte, IH.
Qed.

Lemma slen_string_of_bytes l : slen (string_of_bytes l) = blen l.
Proof. unfold slen, blen. induction l as [|b l IH]; cbn; [done|]. lia. Qed.

Lemma Z_of_byte_range b : 0 ≤ Z_of_byte b < 256.
Proof.
  unfold Z_of_byte. pose proof (Byte.to_N_bounded b). lia.
Qed.

Lemma byte_of_Z_of_byte b : byte_of_Z (Z_of_byte b) = b.
Proof.
  pose proof (Z_of_byte_range b). unfold byte_of_Z. rewrite Z.mod_small by lia.
  unfold Z_of_byte. by rewrite N2Z.id, Byte.of_to_N.
Qed.

Lemma digit_byte_spec d : 0 ≤ d < 10 → is_ascii_digit (digit_byte d) = true ∧ byte_digit (digit_byte d) = d.
Proof.
  intros Hd. unfold is_ascii_digit, byte_digit, digit_byte. rewrite Z_of_byte_of_Z, Z.mod_small by lia.
  split; [|lia]. rewrite andb_true_iff, !Z.leb_le. lia.
Qed.

Lemma byte_digit_spec b :
  is_ascii_digit b = true → 0 ≤ byte_digit b < 10 ∧ digit_byte (byte_digit b) = b.
Proof.
  unfold is_ascii_digit, byte_digit, digit_byte. rewrite andb_true_iff, !Z.leb_le. intros H.
  split; [lia|]. replace (48 + (Z_of_byte b - 48)) with (Z_of_byte b) by lia.
  apply byte_of_Z_of_byte.
Qed.

(** The value of a list of digits. *)
Definition digits_value (acc : Z) (l : bytes) : Z :=
  foldl (λ acc b, 10 * acc + byte_digit b) acc l.

Lemma digits_value_app acc l l' : digits_value acc (l ++ l') = digits_value (digits_value acc l) l'.
Proof. apply foldl_app. Qed.

Lemma digits_value_mono acc l :
  forallb is_ascii_digit l = true → 0 ≤ acc → acc ≤ digits_value acc l.
Proof.
  revert acc. induction l as [|b l IH]; intros acc Hl Ha; cbn; [lia|]. cbn in Hl.
  apply andb_true_iff in Hl as [Hb Hl]. apply byte_digit_spec in Hb as [Hb _].
  specialize (IH (10 * acc + byte_digit b) Hl ltac:(lia)). unfold digits_value in IH. lia.
Qed.

Lemma parse_digits_Some max acc l v :
  0 ≤ acc ≤ max →
  parse_digits max acc l = Some v ↔
  forallb is_ascii_digit l = true ∧ digits_value acc l = v ∧ v ≤ max.
Proof.
  revert acc. induction l as [|b l IH]; intros acc Ha; cbn [parse_digits forallb digits_value foldl].
  { split; [intros [= <-]; lia|]. intros (_&<-&_). done. }
  unfold checked_mul, checked_add.
  destruct (is_ascii_digit b) eqn:Hb; cbn [andb].
  2: { split; [by destruct (acc * 10 <=? max)|by intros [? _]]. }
  apply byte_digit_spec in Hb as [Hb _].
  fold (digits_value (10 * acc + byte_digit b) l).
  assert (Hover : max < 10 * acc + byte_digit b →
            ¬ (forallb is_ascii_digit l = true ∧ digits_value (10 * acc + byte_digit b) l = v ∧ v ≤ max)).
  { intros Hlt (Hl&Hv&Hle).
    pose proof (digits_value_mono (10 * acc + byte_digit b) l Hl). lia. }
  destruct (Z.leb_spec (acc * 10) max); [|split; [done|]; intros ?; exfalso; apply Hover; [lia|done]].
  destruct (Z.leb_spec (acc * 10 + byte_digit b) max);
    [|split; [done|]; intros ?; exfalso; apply Hover; [lia|done]].
  rewrite IH by lia. replace (acc * 10 + byte_digit b) with (10 * acc + byte_digit b) by lia. done.
Qed.

Lemma digits_spec fuel v :
  0 ≤ v < 10 ^ Z.of_nat fuel → (0 < fuel)%nat →
  digits fuel v ≠ [] ∧ forallb is_ascii_digit (digits fuel v) = true ∧
  digits_value 0 (digits fuel v) = v ∧
  (∀ b l, digits fuel v = b :: l → l ≠ [] → b ≠ Byte.x30).
Proof.
  revert v. induction fuel as [|fuel IH]; intros v Hv Hf; [lia|]. cbn [digits].
  destruct (Z.ltb_spec v 10) as [Hlt|Hge].
  { destruct (digit_byte_spec v ltac:(lia)) as [Hd Hb]. split_and!; [done| | |].
    - cbn. by rewrite Hd.
    - cbn. lia.
    - by intros b l [= <- <-]. }
  destruct (digit_byte_spec (v mod 10) ltac:(apply Z.mod_pos_bound; lia)) as [Hd Hb].
  assert (Hdiv : 0 ≤ v / 10 < 10 ^ Z.of_nat fuel).
  { rewrite Nat2Z.inj_succ, Z.pow_succ_r in Hv by lia.
    split; [apply Z.div_pos; lia|]. apply Z.div_lt_upper_bound; lia. }
  assert (Hpos : 1 ≤ v / 10) by (apply Z.div_le_lower_bound; lia).
  destruct (decide (fuel = O)) as [->|Hfuel]; [cbn in Hdiv; lia|].
  destruct (IH (v / 10) Hdiv ltac:(lia)) as (Hne&Hall&Hval&Hlead). split_and!.
  - by destruct (digits fuel (v / 10)).
  - rewrite forallb_app, Hall. cbn. by rewrite Hd.
  - rewrite digits_value_app, Hval. cbn. rewrite Hb.
    pose proof (Z.div_mod v 10 ltac:(lia)). lia.
  - intros b l Hbl _. destruct (digits fuel (v / 10)) as [|b' l'] eqn:E; [done|].
    cbn in Hbl. injection Hbl as <- _. destruct l' as [|b'' l'']; [|by apply (Hlead b' (b'' :: l''))].
    intros ->. cbn in Hval. unfold byte_digit in Hval. cbn in Hval. lia.
Qed.

(** Canonical digits are those of their value. *)
Lemma digits_of_value fuel l :
  forallb is_ascii_digit l = true → l ≠ [] → (length l ≤ fuel)%nat →
  (∀ b l', l = b :: l' → l' ≠ [] → b ≠ Byte.x30) →
  digits fuel (digits_value 0 l) = l ∧ 10 ^ (blen l - 1) ≤ Z.max 1 (digits_value 0 l).
Proof.
  revert fuel. induction l as [|d l IH] using rev_ind; [done|]. intros fuel Hall _ Hlen Hlead.
  rewrite forallb_app in Hall. apply andb_true_iff in Hall as [Hall Hd]. cbn in Hd.
  rewrite andb_true_r in Hd. apply byte_digit_spec in Hd as [Hd Hdb].
  rewrite length_app in Hlen. cbn in Hlen. destruct fuel as [|fuel]; [lia|].
  rewrite digits_value_app. cbn [digits_value foldl]. fold (digits_value 0 l).
  destruct l as [|b l].
  { cbn [digits_value foldl digits app]. replace (10 * 0 + byte_digit d) with (byte_digit d) by lia.
    rewrite (proj2 (Z.ltb_lt _ _)) by lia. rewrite Hdb. split; [done|]. change (10 ^ (blen [d] - 1)) with 1. lia. }
  destruct (IH fuel Hall) as [IHd IHp]; [done|lia|..].
  { intros b' l' [= <- <-] _. by apply (Hlead b (l ++ [d])); [|destruct l]. }
  assert (Hpos : 1 ≤ digits_value 0 (b :: l)).
  { cbn in Hall. apply andb_true_iff in Hall as [Hb Hl]. apply byte_digit_spec in Hb as [Hb Hbb].
    pose proof (digits_value_mono (byte_digit b) l Hl ltac:(lia)) as Hm.
    cbn [digits_value foldl]. fold (digits_value (10 * 0 + byte_digit b) l).
    replace (10 * 0 + byte_digit b) with (byte_digit b) by lia.
    assert (byte_digit b ≠ 0); [|lia]. intros H0. rewrite H0 in Hbb.
    apply (Hlead b (l ++ [d])); [done|by destruct l|by rewrite <- Hbb]. }
  set (v := digits_value 0 (b :: l)) in *. split.
  - cbn [digits]. rewrite (proj2 (Z.ltb_ge _ _)) by lia.
    replace ((10 * v + byte_digit d) / 10) with v
      by (apply (Z.div_unique_pos _ _ _ (byte_digit d)); lia).
    replace ((10 * v + byte_digit d) mod 10) with (byte_digit d)
      by (apply (Z.mod_unique_pos _ _ v); lia).
    by rewrite IHd, Hdb.
  - unfold blen in *. rewrite length_app. cbn [length] in IHp |- *.
    replace (Z.of_nat (S (length l) + 1) - 1) with (Z.succ (Z.of_nat (S (length l)) - 1)) by lia.
    rewrite Z.pow_succ_r by lia. lia.
Qed.

(** Texts up to the width of [u128]. *)
Lemma canonical_to_string max v :
  0 ≤ v ≤ max → max ≤ u128_max →
  canonical_decimal (to_string v) = true ∧ parse_unsigned max (to_string v) = Some v.
Proof.
  intros Hv Hmax. unfold u128_max in Hmax.
  destruct (digits_spec 40 v) as (Hne&Hall&Hval&Hlead); [lia|lia|].
  unfold canonical_decimal, to_string, parse_unsigned. rewrite bytes_of_string_of_bytes.
  assert (Hparse : parse_digits max 0 (digits 40 v) = Some v) by (apply parse_digits_Some; [lia|split_and!; [done..|lia]]).
  rewrite Hall. destruct (digits 40 v) as [|b l]; [done|].
  assert (Hsign : b ≠ Byte.x2b ∧ b ≠ Byte.x2d).
  { cbn in Hall. apply andb_true_iff in Hall as [Hb _]. split; intros ->; done. }
  destruct Hsign as [H1 H2]. split.
  - rewrite andb_true_r, andb_true_iff, !negb_true_iff. split; [apply Z.eqb_neq; unfold blen; cbn; lia|].
    destruct l as [|b' l]; [done|]. apply andb_false_iff. right. apply bool_decide_eq_false.
    by apply (Hlead b (b' :: l)).
  - destruct l; rewrite ?(bool_decide_eq_false_2 _ H1), ?(bool_decide_eq_false_2 _ H2); done.
Qed.

Lemma to_string_canonical max s v :
  max ≤ u128_max → canonical_decimal s = true → parse_unsigned max s = Some v →
  0 ≤ v ≤ max ∧ to_string v = s.
Proof.
  intros Hmax Hc Hp. unfold canonical_decimal in Hc. unfold parse_unsigned in Hp.
  rewrite <- (string_of_bytes_of_string s). unfold to_string.
  destruct (bytes_of_string s) as [|b l] eqn:Hs; [done|].
  rewrite !andb_true_iff, !negb_true_iff in Hc. destruct Hc as [[_ Hlead] Hall].
  assert (Hsign : b ≠ Byte.x2b ∧ b ≠ Byte.x2d).
  { cbn in Hall. apply andb_true_iff in Hall as [Hb _]. split; intros ->; done. }
  destruct Hsign as [H1 H2].
  assert (Hp' : parse_digits max 0 (b :: l) = Some v).
  { destruct l; rewrite ?(bool_decide_eq_false_2 _ H1), ?(bool_decide_eq_false_2 _ H2) in Hp; done. }
  assert (Hmax0 : 0 ≤ max).
  { cbn in Hp'. unfold checked_mul in Hp'. destruct (Z.leb_spec (0 * 10) max); [lia|done]. }
  apply parse_digits_Some in Hp' as (_&Hval&Hle); [|lia].
  assert (Hv : 0 ≤ v) by (rewrite <- Hval; by apply digits_value_mono).
  assert (Hlead' : ∀ b' l', b :: l = b' :: l' → l' ≠ [] → b' ≠ Byte.x30).
  { intros b' l' [= <- <-] Hne ->. apply andb_false_iff in Hlead as [Hlt|Hb]; [|done].
    apply Z.ltb_ge in Hlt. unfold blen in Hlt. destruct l; [done|cbn in Hlt; lia]. }
  split; [done|]. f_equal. rewrite <- Hval. apply digits_of_value; [done..| |done].
  destruct (digits_of_value (length (b :: l)) (b :: l)) as [_ Hpow]; [done..|].
  rewrite Hval in Hpow. unfold blen, u128_max in *.
  destruct (decide (length (b :: l) ≤ 40)%nat); [done|].
  pose proof (Z.pow_le_mono_r 10 40 (Z.of_nat (length (b :: l)) - 1)). lia.
Qed.
