(* ===== verification/BridgeValues.v ===== *)
(** * The values of the LEZ bridge protocol

    Models [crates/lez-bridge-protocol/src/primitives.rs]: the bounded values that
    cross the process boundary between an SDK actor and its sidecar, their
    validation, and their text forms.  Hexadecimal and base64 are the [hex] and
    [base64] crates': interfaces whose laws state their documented behaviour.
    The JSON layer around the texts is [serde]'s and not modelled. *)

From stdpp Require Import base gmap strings list numbers.
From S2P Require Import Prelude SwapCore Decimal.

Open Scope Z_scope.

Definition SCHEMA_VERSION : Z := 1.
Definition WITNESSED_LEZ_ASSET_TERMS_VERSION : Z := 2.
Definition MAX_TRANSACTION_BYTES : Z := 2000000.
Definition MAX_ACCOUNT_IDS : Z := 16.
Definition MAX_ERROR_MESSAGE_BYTES : Z := 256.
Definition MAX_DISCOVERY_BLOCKS : Z := 4096.

Inductive ProtocolValueError :=
| InvalidIdentifier (kind : string)
| InvalidHex32
| InvalidTransactionLength
| InvalidTransactionEncoding
| InvalidMessageLength
| InvalidMessageEncoding
| InvalidBip340Signature
| TooManyAccountIds
| ErrorMessageTooLong
| SameEscrowRoles
| ZeroEscrowAmount
| InvalidNativeAmount
| SameEscrowAccounts
| ZeroSecretDigest
| ZeroRefundAt
| ZeroAuthenticatedTransferProgram
| SameWitnessedClaimAccounts
| ZeroAggregatePublicKey
| ZeroWitnessedTokenTermsHash
| ZeroWitnessedTokenIdentity (name : string)
| AliasedWitnessedTokenIdentities (name other : string)
| UnsupportedWitnessedLezAssetTermsVersion (version : Z)
| InvalidWitnessedAssetPrepareEffects
| WitnessedAssetFactsMismatch (field : string)
| InvalidDiscoveryWindow
| InvalidXmrRoleMapping
| ZeroXmrValue (name : string)
| AliasedXmrValues (name other : string)
| InvalidXmrWindows
| UnsupportedXmrNativeTermsVersion (version : Z)
| XmrFactsMismatch (field : string).

(** ** The codecs of other crates *)

Definition is_lower_hex (b : Byte.byte) : bool :=
  is_ascii_digit b || ((97 <=? Z_of_byte b) && (Z_of_byte b <=? 102)).

(** [hex::encode] writes two lowercase digits per byte, and
    [hex::decode_to_slice] inverts it; on lowercase text of even length it
    succeeds. *)
Class HexCodec := {
  hex_encode : bytes → string;
  hex_decode : string → option bytes;
  hex_encode_length : ∀ b, slen (hex_encode b) = 2 * blen b;
  hex_encode_lower : ∀ b, forallb is_lower_hex (bytes_of_string (hex_encode b)) = true;
  hex_decode_encode : ∀ b, hex_decode (hex_encode b) = Some b;
  hex_encode_onto : ∀ s n, slen s = 2 * n → forallb is_lower_hex (bytes_of_string s) = true →
    ∃ b, blen b = n ∧ hex_encode b = s
}.

(** [STANDARD.encode] writes four characters per started group of three bytes,
    and [STANDARD.decode] inverts it. *)
Class Base64Codec := {
  base64_encode : bytes → string;
  base64_decode : string → option bytes;
  base64_encode_length : ∀ b, slen (base64_encode b) ≤ (blen b + 2) / 3 * 4;
  base64_decode_encode : ∀ b, base64_decode (base64_encode b) = Some b
}.

(** ** Identifiers *)

Definition is_identifier_byte (b : Byte.byte) : bool :=
  is_ascii_alphanumeric b || (b ==? Byte.x2e) || (b ==? Byte.x5f) || (b ==? Byte.x2d).

Definition safe_identifier (value : string) : bool :=
  (8 <=? slen value) && (slen value <=? 64)
  && forallb is_identifier_byte (bytes_of_string value).

Record RunId := { RunId_as_str : string }.
Record RequestId := { RequestId_as_str : string }.

#[global] Instance RunId_eq_dec : EqDecision RunId.
Proof. solve_decision. Defined.
#[global] Instance RequestId_eq_dec : EqDecision RequestId.
Proof. solve_decision. Defined.

Definition RunId_new (value : string) : result RunId ProtocolValueError :=
  if safe_identifier value then Ok {| RunId_as_str := value |}
  else Err (InvalidIdentifier "run id").

Definition RequestId_new (value : string) : result RequestId ProtocolValueError :=
  if safe_identifier value then Ok {| RequestId_as_str := value |}
  else Err (InvalidIdentifier "request id").

(** ** Fixed-width identifiers, transaction and message bytes, signatures *)

Record Hex32 := { Hex32_as_bytes : bytes }.

#[global] Instance Hex32_eq_dec : EqDecision Hex32.
Proof. solve_decision. Defined.

Definition zero_hex32 : Hex32 := {| Hex32_as_bytes := zero32 |}.

Record ExactTransactionBytes := { TransactionBytes_as_slice : bytes }.
Record ExactMessageBytes := { MessageBytes_as_slice : bytes }.
Record AggregateBip340Signature := { Signature_as_bytes : bytes }.

Definition ExactTransactionBytes_new (value : bytes)
    : result ExactTransactionBytes ProtocolValueError :=
  if (blen value =? 0) || (MAX_TRANSACTION_BYTES <? blen value)
  then Err InvalidTransactionLength
  else Ok {| TransactionBytes_as_slice := value |}.

Definition ExactMessageBytes_new (value : bytes)
    : result ExactMessageBytes ProtocolValueError :=
  if (blen value =? 0) || (MAX_TRANSACTION_BYTES <? blen value)
  then Err InvalidMessageLength
  else Ok {| MessageBytes_as_slice := value |}.

Section text.
Context `{HexCodec, Base64Codec}.

Definition decode_hex32 (value : string) : result bytes ProtocolValueError :=
  if negb (slen value =? 64) || negb (forallb is_lower_hex (bytes_of_string value))
  then Err InvalidHex32
  else
    let? bytes := ok_or (hex_decode value) InvalidHex32 in
    Ok bytes.

Definition Hex32_from_hex (value : string) : result Hex32 ProtocolValueError :=
  let? bytes := decode_hex32 value in
  Ok {| Hex32_as_bytes := bytes |}.

Definition Hex32_encode_hex (self : Hex32) : string := hex_encode self.(Hex32_as_bytes).

(** The canonical one-attempt submission request of a transaction identity. *)
Definition submission_request_id (transaction_id : Hex32) : RequestId :=
  {| RequestId_as_str := Hex32_encode_hex transaction_id |}.

Definition maximum_encoded_len : Z := (MAX_TRANSACTION_BYTES + 2) / 3 * 4.

Definition ExactTransactionBytes_serialize (self : ExactTransactionBytes) : string :=
  base64_encode self.(TransactionBytes_as_slice).

Definition ExactTransactionBytes_deserialize (encoded : string)
    : result ExactTransactionBytes ProtocolValueError :=
  if maximum_encoded_len <? slen encoded then Err InvalidTransactionLength
  else
    let? bytes := ok_or (base64_decode encoded) InvalidTransactionEncoding in
    if base64_encode bytes !=? encoded then Err InvalidTransactionEncoding
    else ExactTransactionBytes_new bytes.

Definition ExactMessageBytes_serialize (self : ExactMessageBytes) : string :=
  base64_encode self.(MessageBytes_as_slice).

Definition ExactMessageBytes_deserialize (encoded : string)
    : result ExactMessageBytes ProtocolValueError :=
  if maximum_encoded_len <? slen encoded then Err InvalidMessageLength
  else
    let? bytes := ok_or (base64_decode encoded) InvalidMessageEncoding in
    if base64_encode bytes !=? encoded then Err InvalidMessageEncoding
    else ExactMessageBytes_new bytes.

Definition AggregateBip340Signature_serialize (self : AggregateBip340Signature) : string :=
  hex_encode self.(Signature_as_bytes).

Definition AggregateBip340Signature_deserialize (encoded : string)
    : result AggregateBip340Signature ProtocolValueError :=
  if negb (slen encoded =? 128) || negb (forallb is_lower_hex (bytes_of_string encoded))
  then Err InvalidBip340Signature
  else
    let? bytes := ok_or (hex_decode encoded) InvalidBip340Signature in
    Ok {| Signature_as_bytes := bytes |}.
End text.

(** ** Bounded lists, windows and messages *)

Record AccountIds := { AccountIds_as_slice : list Hex32 }.

Definition AccountIds_new (ids : list Hex32) : result AccountIds ProtocolValueError :=
  if MAX_ACCOUNT_IDS <? blen ids then Err TooManyAccountIds
  else Ok {| AccountIds_as_slice := ids |}.

Record DiscoveryWindow := { window_start_height : Z; window_max_blocks : Z }.

#[global] Instance DiscoveryWindow_eq_dec : EqDecision DiscoveryWindow.
Proof. solve_decision. Defined.

(** [max_blocks.saturating_sub(1)] *)
Definition DiscoveryWindow_new (start_height max_blocks : Z)
    : result DiscoveryWindow ProtocolValueError :=
  if (max_blocks =? 0)
     || (MAX_DISCOVERY_BLOCKS <? max_blocks)
     || match checked_add u64_max start_height (Z.max (max_blocks - 1) 0) with
        | None => true
        | Some _ => false
        end
  then Err InvalidDiscoveryWindow
  else Ok {| window_start_height := start_height; window_max_blocks := max_blocks |}.

Record ErrorMessage := { ErrorMessage_as_str : string }.

Definition ErrorMessage_new (value : string) : result ErrorMessage ProtocolValueError :=
  if slen value <=? MAX_ERROR_MESSAGE_BYTES then Ok {| ErrorMessage_as_str := value |}
  else Err ErrorMessageTooLong.

(** ** Amounts *)

Record NativeAmount := { NativeAmount_as_u128 : Z }.

Definition NativeAmount_serialize (self : NativeAmount) : string :=
  to_string self.(NativeAmount_as_u128).

Definition NativeAmount_deserialize (encoded : string)
    : result NativeAmount ProtocolValueError :=
  let l := bytes_of_string encoded in
  if (blen l =? 0)
     || ((1 <? blen l) && match l with b :: _ => b ==? Byte.x30 | [] => false end)
     || negb (forallb is_ascii_digit l)
  then Err InvalidNativeAmount
  else
    let? value := ok_or (parse_unsigned u128_max encoded) InvalidNativeAmount in
    Ok {| NativeAmount_as_u128 := value |}.

(** ** Escrow terms *)

Record NativeEscrowTerms := {
  native_swap_id : Hex32;
  native_terms_hash : Hex32;
  native_secret_digest : Hex32;
  native_depositor : Participant;
  native_depositor_account_id : Hex32;
  native_claimant : Participant;
  native_claimant_account_id : Hex32;
  native_amount : Z;
  native_refund_at_ms : Z;
  native_authenticated_transfer_program_id : Hex32
}.

(** The validation of an input, which becomes the terms as it is. *)
Definition NativeEscrowTerms_new (input : NativeEscrowTerms)
    : result NativeEscrowTerms ProtocolValueError :=
  if input.(native_depositor) ==? input.(native_claimant) then Err SameEscrowRoles
  else if input.(native_depositor_account_id) ==? input.(native_claimant_account_id)
  then Err SameEscrowAccounts
  else if input.(native_amount) =? 0 then Err ZeroEscrowAmount
  else if input.(native_secret_digest) ==? zero_hex32 then Err ZeroSecretDigest
  else if input.(native_refund_at_ms) =? 0 then Err ZeroRefundAt
  else if input.(native_authenticated_transfer_program_id) ==? zero_hex32
  then Err ZeroAuthenticatedTransferProgram
  else Ok input.

Record WitnessedNativeEscrowTerms := {
  witnessed_swap_id : Hex32;
  witnessed_terms_hash : Hex32;
  witnessed_depositor : Participant;
  witnessed_depositor_account_id : Hex32;
  witnessed_claimant : Participant;
  witnessed_claimant_account_id : Hex32;
  witnessed_aggregate_authority_account_id : Hex32;
  witnessed_aggregate_x_only_public_key : Hex32;
  witnessed_amount : Z;
  witnessed_refund_at_ms : Z;
  witnessed_authenticated_transfer_program_id : Hex32
}.

Definition WitnessedNativeEscrowTerms_new (input : WitnessedNativeEscrowTerms)
    : result WitnessedNativeEscrowTerms ProtocolValueError :=
  if input.(witnessed_depositor) ==? input.(witnessed_claimant) then Err SameEscrowRoles
  else if input.(witnessed_depositor_account_id) ==? input.(witnessed_claimant_account_id)
  then Err SameEscrowAccounts
  else if (input.(witnessed_claimant_account_id)
           ==? input.(witnessed_aggregate_authority_account_id))
          || (input.(witnessed_depositor_account_id)
              ==? input.(witnessed_aggregate_authority_account_id))
  then Err SameWitnessedClaimAccounts
  else if input.(witnessed_aggregate_x_only_public_key) ==? zero_hex32
  then Err ZeroAggregatePublicKey
  else if input.(witnessed_amount) =? 0 then Err ZeroEscrowAmount
  else if input.(witnessed_refund_at_ms) =? 0 then Err ZeroRefundAt
  else if input.(witnessed_authenticated_transfer_program_id) ==? zero_hex32
  then Err ZeroAuthenticatedTransferProgram
  else Ok input.

Record WitnessedTokenEscrowTermsV2 := {
  token_swap_id : Hex32;
  token_terms_hash : Hex32;
  token_depositor : Participant;
  token_depositor_owner_account_id : Hex32;
  token_depositor_ata_account_id : Hex32;
  token_claimant : Participant;
  token_claimant_owner_account_id : Hex32;
  token_claimant_ata_account_id : Hex32;
  token_custody_ata_account_id : Hex32;
  token_program_id : Hex32;
  token_ata_program_id : Hex32;
  token_definition_account_id : Hex32;
  token_aggregate_authority_account_id : Hex32;
  token_aggregate_x_only_public_key : Hex32;
  token_amount : Z;
  token_refund_at_ms : Z
}.

Definition token_identities (input : WitnessedTokenEscrowTermsV2) : list (string * Hex32) :=
  [("token program id", input.(token_program_id));
   ("ATA program id", input.(token_ata_program_id));
   ("token definition account id", input.(token_definition_account_id));
   ("depositor owner account id", input.(token_depositor_owner_account_id));
   ("depositor ATA account id", input.(token_depositor_ata_account_id));
   ("claimant owner account id", input.(token_claimant_owner_account_id));
   ("claimant ATA account id", input.(token_claimant_ata_account_id));
   ("custody ATA account id", input.(token_custody_ata_account_id));
   ("aggregate authority account id", input.(token_aggregate_authority_account_id))].

(** The inner loop: the first later identity that aliases. *)
Fixpoint find_alias (identity : Hex32) (rest : list (string * Hex32)) : option string :=
  match rest with
  | [] => None
  | (other_name, other_identity) :: rest =>
      if identity ==? other_identity then Some other_name else find_alias identity rest
  end.

Fixpoint check_token_identities (identities : list (string * Hex32))
    : result unit ProtocolValueError :=
  match identities with
  | [] => Ok tt
  | (name, identity) :: rest =>
      if identity ==? zero_hex32 then Err (ZeroWitnessedTokenIdentity name)
      else
        match find_alias identity rest with
        | Some other_name => Err (AliasedWitnessedTokenIdentities name other_name)
        | None => check_token_identities rest
        end
  end.

Definition WitnessedTokenEscrowTermsV2_new (input : WitnessedTokenEscrowTermsV2)
    : result WitnessedTokenEscrowTermsV2 ProtocolValueError :=
  if input.(token_depositor) ==? input.(token_claimant) then Err SameEscrowRoles
  else if input.(token_terms_hash) ==? zero_hex32 then Err ZeroWitnessedTokenTermsHash
  else if input.(token_aggregate_x_only_public_key) ==? zero_hex32
  then Err ZeroAggregatePublicKey
  else if input.(token_amount) =? 0 then Err ZeroEscrowAmount
  else if input.(token_refund_at_ms) =? 0 then Err ZeroRefundAt
  else
    let? _ := check_token_identities (token_identities input) in
    Ok input.

(** ** The versioned asset envelope *)

Inductive WitnessedLezAssetV2 :=
| Asset_Native (terms : WitnessedNativeEscrowTerms)
| Asset_CustomToken (terms : WitnessedTokenEscrowTermsV2).

Record WitnessedLezAssetTermsV2 := {
  asset_terms_version : Z;
  terms_asset : WitnessedLezAssetV2
}.

Definition WitnessedLezAssetTermsV2_native (terms : WitnessedNativeEscrowTerms)
    : WitnessedLezAssetTermsV2 :=
  {| asset_terms_version := WITNESSED_LEZ_ASSET_TERMS_VERSION; terms_asset := Asset_Native terms |}.

Definition WitnessedLezAssetTermsV2_custom_token (terms : WitnessedTokenEscrowTermsV2)
    : WitnessedLezAssetTermsV2 :=
  {| asset_terms_version := WITNESSED_LEZ_ASSET_TERMS_VERSION;
     terms_asset := Asset_CustomToken terms |}.

(** [TryFrom] of the wire form; the inner terms were validated as they were read. *)
Definition WitnessedLezAssetTermsV2_try_from (value : WitnessedLezAssetTermsV2)
    : result WitnessedLezAssetTermsV2 ProtocolValueError :=
  if negb (value.(asset_terms_version) =? WITNESSED_LEZ_ASSET_TERMS_VERSION)
  then Err (UnsupportedWitnessedLezAssetTermsVersion value.(asset_terms_version))
  else Ok value.
