(* ===== verification/BridgeValuesFacts.v ===== *)
(** * Properties of the values of the LEZ bridge protocol

    Every text the protocol reads is the one it writes for the value it obtains:
    the text forms are canonical.  Discovery windows end inside the [u64] range,
    and the terms of a token escrow name nine distinct nonzero identities. *)

From stdpp Require Import base gmap strings list numbers.
From S2P Require Import Prelude SwapCore Decimal BridgeValues.

Open Scope Z_scope.

(** ** Text forms *)

Section text.
Context `{HexCodec, Base64Codec}.

(** What the hexadecimal readers of the protocol accept: lowercase text of one
    length. *)
Lemma hex_text_canonical s b n :
  (negb (slen s =? 2 * n) || negb (forallb is_lower_hex (bytes_of_string s)) = false
   ∧ hex_decode s = Some b) ↔ blen b = n ∧ hex_encode b = s.
Proof.
  rewrite orb_false_iff, !negb_false_iff, Z.eqb_eq. split.
  - intros [[Hlen Hlow] Hdec]. destruct (hex_encode_onto s n Hlen Hlow) as (b'&Hb&<-).
    rewrite hex_decode_encode in Hdec. by injection Hdec as ->.
  - intros [<- <-]. by rewrite hex_encode_length, hex_encode_lower, hex_decode_encode.
Qed.

Lemma encoded_within (b : bytes) :
  blen b ≤ MAX_TRANSACTION_BYTES → (maximum_encoded_len <? slen (base64_encode b)) = false.
Proof.
  intros Hb. apply Z.ltb_ge. pose proof (base64_encode_length b). unfold maximum_encoded_len.
  assert ((blen b + 2) / 3 ≤ (MAX_TRANSACTION_BYTES + 2) / 3) by (apply Z.div_le_mono; lia). lia.
Qed.

(** The length test the constructors of transaction and message bytes share. *)
Lemma exact_length (b : bytes) :
  (blen b =? 0) || (MAX_TRANSACTION_BYTES <? blen b) = false ↔ 1 ≤ blen b ≤ MAX_TRANSACTION_BYTES.
Proof. rewrite orb_false_iff, Z.eqb_neq, Z.ltb_ge. unfold blen. lia. Qed.

Lemma Hex32_text s v :
  Hex32_from_hex s = Ok v ↔ blen v.(Hex32_as_bytes) = 32 ∧ Hex32_encode_hex v = s.
Proof.
  unfold Hex32_from_hex, decode_hex32, Hex32_encode_hex. rewrite <- hex_text_canonical.
  destruct v as [b]. cbn [Hex32_as_bytes]. change (2 * 32) with 64.
  destruct (_ || _); [split; [done|by intros [? _]]|].
  destruct (hex_decode s); cbn; split; try done; [by intros [= ->]|by intros [_ [= ->]]|by intros [_ ?]].
Qed.

Lemma signature_text s v :
  AggregateBip340Signature_deserialize s = Ok v ↔
  blen v.(Signature_as_bytes) = 64 ∧ AggregateBip340Signature_serialize v = s.
Proof.
  unfold AggregateBip340Signature_deserialize, AggregateBip340Signature_serialize.
  rewrite <- hex_text_canonical. destruct v as [b]. cbn [Signature_as_bytes]. change (2 * 64) with 128.
  destruct (_ || _); [split; [done|by intros [? _]]|].
  destruct (hex_decode s); cbn; split; try done; [by intros [= ->]|by intros [_ [= ->]]|by intros [_ ?]].
Qed.

Lemma transaction_text s v :
  ExactTransactionBytes_deserialize s = Ok v ↔
  1 ≤ blen v.(TransactionBytes_as_slice) ≤ MAX_TRANSACTION_BYTES ∧
  ExactTransactionBytes_serialize v = s.
Proof.
  unfold ExactTransactionBytes_deserialize, ExactTransactionBytes_serialize.
  destruct v as [b]. cbn [TransactionBytes_as_slice]. split.
  - destruct (_ <? _); [done|]. destruct (base64_decode s) as [b'|]; [|done]. cbn.
    case_bool_decide; [|done]. cbn. unfold ExactTransactionBytes_new.
    destruct (_ || _) eqn:Hl; [done|]. intros [= ->]. by apply exact_length in Hl.
  - intros [Hl <-]. rewrite encoded_within, base64_decode_encode by lia. cbn.
    rewrite bool_decide_eq_true_2 by done. unfold ExactTransactionBytes_new. cbn.
    by rewrite (proj2 (exact_length b)).
Qed.

Lemma message_text s v :
  ExactMessageBytes_deserialize s = Ok v ↔
  1 ≤ blen v.(MessageBytes_as_slice) ≤ MAX_TRANSACTION_BYTES ∧ ExactMessageBytes_serialize v = s.
Proof.
  unfold ExactMessageBytes_deserialize, ExactMessageBytes_serialize.
  destruct v as [b]. cbn [MessageBytes_as_slice]. split.
  - destruct (_ <? _); [done|]. destruct (base64_decode s) as [b'|]; [|done]. cbn.
    case_bool_decide; [|done]. cbn. unfold ExactMessageBytes_new.
    destruct (_ || _) eqn:Hl; [done|]. intros [= ->]. by apply exact_length in Hl.
  - intros [Hl <-]. rewrite encoded_within, base64_decode_encode by lia. cbn.
    rewrite bool_decide_eq_true_2 by done. unfold ExactMessageBytes_new. cbn.
    by rewrite (proj2 (exact_length b)).
Qed.

Lemma amount_text s v :
  NativeAmount_deserialize s = Ok v ↔
  is_u128 v.(NativeAmount_as_u128) ∧ NativeAmount_serialize v = s.
Proof.
  assert (Hdes : NativeAmount_deserialize s =
    if canonical_decimal s then
      let? value := ok_or (parse_unsigned u128_max s) InvalidNativeAmount in
      Ok {| NativeAmount_as_u128 := value |}
    else Err InvalidNativeAmount).
  { unfold NativeAmount_deserialize, canonical_decimal.
    destruct (blen _ =? 0); [done|]. cbn [negb orb andb].
    destruct (_ && match _ with [] => _ | _ :: _ => _ end); [done|]. cbn [negb orb andb].
    by destruct (forallb _ _). }
  rewrite Hdes. clear Hdes. unfold NativeAmount_serialize. destruct v as [v]. cbn [NativeAmount_as_u128]. split.
  - destruct (canonical_decimal s) eqn:Hc; [|done].
    destruct (parse_unsigned u128_max s) eqn:Hp; [|done]. cbn. intros [= ->].
    by apply (to_string_canonical u128_max).
  - intros [Hv <-]. destruct (canonical_to_string u128_max v Hv) as [-> ->]; [lia|done].
Qed.

(** C37: the text forms of the protocol are canonical: a reader accepts a text
    exactly when it is what the writer produces for a value of the type's width,
    and yields that value.  So every value survives the wire, and no two texts
    are read as the same value. *)
Theorem wire_texts_canonical :
  (∀ s v, Hex32_from_hex s = Ok v ↔ blen v.(Hex32_as_bytes) = 32 ∧ Hex32_encode_hex v = s) ∧
  (∀ s v, AggregateBip340Signature_deserialize s = Ok v ↔
     blen v.(Signature_as_bytes) = 64 ∧ AggregateBip340Signature_serialize v = s) ∧
  (∀ s v, ExactTransactionBytes_deserialize s = Ok v ↔
     1 ≤ blen v.(TransactionBytes_as_slice) ≤ MAX_TRANSACTION_BYTES ∧
     ExactTransactionBytes_serialize v = s) ∧
  (∀ s v, ExactMessageBytes_deserialize s = Ok v ↔
     1 ≤ blen v.(MessageBytes_as_slice) ≤ MAX_TRANSACTION_BYTES ∧
     ExactMessageBytes_serialize v = s) ∧
  (∀ s v, NativeAmount_deserialize s = Ok v ↔
     is_u128 v.(NativeAmount_as_u128) ∧ NativeAmount_serialize v = s).
Proof.
  auto using Hex32_text, signature_text, transaction_text, message_text, amount_text.
Qed.

Lemma lower_hex_identifier b : is_lower_hex b = true → is_identifier_byte b = true.
Proof.
  unfold is_lower_hex, is_identifier_byte, is_ascii_alphanumeric, is_ascii_digit, is_ascii_lowercase.
  rewrite !orb_true_iff, !andb_true_iff, !Z.leb_le. lia.
Qed.

(** The submission request of a transaction is a request identity, and distinct
    transactions have distinct ones. *)
Theorem submission_requests_valid i j :
  blen i.(Hex32_as_bytes) = 32 →
  RequestId_new (RequestId_as_str (submission_request_id i)) = Ok (submission_request_id i) ∧
  (submission_request_id i = submission_request_id j → i = j).
Proof.
  intros Hi. split.
  - unfold RequestId_new, submission_request_id, Hex32_encode_hex, safe_identifier. cbn.
    rewrite hex_encode_length, Hi. cbn.
    rewrite (proj2 (forallb_forall _ _)); [done|]. intros b Hb. apply lower_hex_identifier.
    pose proof (hex_encode_lower i.(Hex32_as_bytes)) as Hl. rewrite forallb_forall in Hl. auto.
  - intros [= Heq]. destruct i as [a], j as [b]. unfold Hex32_encode_hex in Heq. cbn in Heq.
    pose proof (hex_decode_encode a) as Ha. rewrite Heq, hex_decode_encode in Ha. by injection Ha as ->.
Qed.
End text.

(** ** Discovery windows *)

Lemma DiscoveryWindow_new_Ok start max w :
  is_u64 start → is_u32 max →
  DiscoveryWindow_new start max = Ok w ↔
  w = {| window_start_height := start; window_max_blocks := max |} ∧
  1 ≤ max ≤ MAX_DISCOVERY_BLOCKS ∧ start + (max - 1) ≤ u64_max.
Proof.
  unfold in_range, DiscoveryWindow_new, checked_add. intros Hs Hm.
  destruct (Z.eqb_spec max 0); cbn; [split; [done|intros (_&?&_); lia]|].
  destruct (Z.ltb_spec MAX_DISCOVERY_BLOCKS max); cbn; [split; [done|intros (_&?&_); lia]|].
  rewrite Z.max_l by lia. destruct (Z.leb_spec (start + (max - 1)) u64_max).
  - split; [intros [= <-]; split_and!; done || lia|by intros [-> _]].
  - split; [done|intros (_&_&?); lia].
Qed.

(** ** Token terms *)

Lemma find_alias_None identity rest :
  find_alias identity rest = None ↔ identity ∉ rest.*2.
Proof.
  induction rest as [|[n i] rest IH]; cbn; [split; [intros _; apply not_elem_of_nil|done]|].
  rewrite not_elem_of_cons. case_bool_decide; naive_solver.
Qed.

Lemma check_token_identities_Ok identities :
  check_token_identities identities = Ok tt ↔
  NoDup identities.*2 ∧ zero_hex32 ∉ identities.*2.
Proof.
  induction identities as [|[n i] rest IH]; cbn.
  - split; [intros _; split; [constructor|apply not_elem_of_nil]|done].
  - rewrite list.NoDup_cons, not_elem_of_cons, <- find_alias_None.
    case_bool_decide; [naive_solver|]. destruct (find_alias i rest); [naive_solver|].
    rewrite IH. naive_solver.
Qed.

(** Terms of a token escrow exist exactly when the depositor and the claimant
    are different parties, the hash, key, amount and deadline are set, and the
    nine programs, accounts and the authority they name are nonzero and pairwise
    distinct; they are the input unchanged. *)
Theorem token_terms_well_formed input terms :
  WitnessedTokenEscrowTermsV2_new input = Ok terms ↔
  terms = input ∧ token_depositor input ≠ token_claimant input ∧
  token_terms_hash input ≠ zero_hex32 ∧ token_aggregate_x_only_public_key input ≠ zero_hex32 ∧
  token_amount input ≠ 0 ∧ token_refund_at_ms input ≠ 0 ∧
  NoDup (token_identities input).*2 ∧ zero_hex32 ∉ (token_identities input).*2.
Proof.
  rewrite <- check_token_identities_Ok. unfold WitnessedTokenEscrowTermsV2_new.
  repeat (case_bool_decide; [split; [done|by intros (_&?&?&?&_)]|]).
  destruct (Z.eqb_spec (token_amount input) 0); [split; [done|by intros (_&_&_&_&?&_)]|].
  destruct (Z.eqb_spec (token_refund_at_ms input) 0); [split; [done|by intros (_&_&_&_&_&?&_)]|].
  destruct (check_token_identities _) as [[]|]; cbn.
  - split; [by intros [= <-]|by intros (->&_)].
  - split; [done|by intros (_&_&_&_&_&_&?)].
Qed.

(** ** Concrete codecs *)

Module CodecSamples.

Definition hex_digit (d : Z) : Byte.byte := byte_of_Z (if d <? 10 then 48 + d else 87 + d).

Definition digit_of_hex (b : Byte.byte) : Z :=
  if is_ascii_digit b then Z_of_byte b - 48 else Z_of_byte b - 87.

Fixpoint encode_nibbles (l : bytes) : bytes :=
  match l with
  | [] => []
  | b :: l => hex_digit (Z_of_byte b / 16) :: hex_digit (Z_of_byte b mod 16) :: encode_nibbles l
  end.

Fixpoint decode_nibbles (l : bytes) : option bytes :=
  match l with
  | [] => Some []
  | h :: d :: l =>
      if is_lower_hex h && is_lower_hex d
      then cons (byte_of_Z (16 * digit_of_hex h + digit_of_hex d)) <$> decode_nibbles l
      else None
  | _ => None
  end.

Lemma hex_digit_spec d :
  0 ≤ d < 16 → is_lower_hex (hex_digit d) = true ∧ digit_of_hex (hex_digit d) = d.
Proof.
  intros Hd. unfold is_lower_hex, digit_of_hex, hex_digit, is_ascii_digit.
  rewrite Z_of_byte_of_Z, Z.mod_small by (destruct (_ <? _); lia).
  destruct (Z.ltb_spec d 10); destruct (_ && _) eqn:E;
    rewrite ?andb_true_iff, ?andb_false_iff, ?Z.leb_le, ?Z.leb_gt in E; cbn [orb];
    rewrite ?andb_true_iff, ?Z.leb_le; lia.
Qed.

Lemma digit_of_hex_spec b :
  is_lower_hex b = true → 0 ≤ digit_of_hex b < 16 ∧ hex_digit (digit_of_hex b) = b.
Proof.
  unfold is_lower_hex, digit_of_hex, hex_digit, is_ascii_digit. intros Hb.
  destruct (_ && _) eqn:E in Hb |- *; cbn in Hb.
  - apply andb_true_iff in E. rewrite !Z.leb_le in E. split; [lia|].
    rewrite (proj2 (Z.ltb_lt _ _)) by lia.
    replace (48 + (Z_of_byte b - 48)) with (Z_of_byte b) by lia. apply byte_of_Z_of_byte.
  - apply andb_true_iff in Hb. rewrite !Z.leb_le in Hb. split; [lia|].
    rewrite (proj2 (Z.ltb_ge _ _)) by lia.
    replace (87 + (Z_of_byte b - 87)) with (Z_of_byte b) by lia. apply byte_of_Z_of_byte.
Qed.

Lemma encode_nibbles_spec l :
  blen (encode_nibbles l) = 2 * blen l ∧ forallb is_lower_hex (encode_nibbles l) = true ∧
  decode_nibbles (encode_nibbles l) = Some l.
Proof.
  induction l as [|b l (IHl&IHb&IHd)]; [done|]. pose proof (Z_of_byte_range b).
  destruct (hex_digit_spec (Z_of_byte b / 16)) as [H1 H2].
  { split; [apply Z.div_pos; lia|apply Z.div_lt_upper_bound; lia]. }
  destruct (hex_digit_spec (Z_of_byte b mod 16)) as [H3 H4]; [by apply Z.mod_pos_bound|].
  cbn [encode_nibbles decode_nibbles forallb]. rewrite H1, H2, H3, H4, IHb, IHd.
  unfold blen in *. cbn [length]. split; [lia|]. split; [done|]. cbn.
  rewrite <- Z.div_mod by done. by rewrite byte_of_Z_of_byte.
Qed.

Lemma encode_nibbles_onto n l :
  blen l = 2 * Z.of_nat n → forallb is_lower_hex l = true →
  ∃ b, blen b = Z.of_nat n ∧ encode_nibbles b = l.
Proof.
  revert l. induction n as [|n IH]; intros l Hl Hh.
  - exists []. destruct l; [done|]. unfold blen in Hl. cbn in Hl. lia.
  - unfold blen in *. destruct l as [|h [|d l]]; cbn in Hl; try lia. cbn in Hh.
    apply andb_true_iff in Hh as [Hh Hd]. apply andb_true_iff in Hd as [Hd Hr].
    destruct (IH l) as (b&Hb&<-); [lia|done|].
    apply digit_of_hex_spec in Hh as [Hh Hh'], Hd as [Hd Hd'].
    exists (byte_of_Z (16 * digit_of_hex h + digit_of_hex d) :: b). split; [cbn; lia|]. cbn [encode_nibbles].
    rewrite Z_of_byte_of_Z, (Z.mod_small _ 256) by lia.
    rewrite (Z.add_comm (16 * _)), (Z.mul_comm 16), Z.div_add, Z.mod_add by lia.
    rewrite (Z.div_small _ 16), (Z.mod_small _ 16) by lia. by rewrite Z.add_0_l, Hh', Hd'.
Qed.

(** Lowercase hexadecimal. *)
#[global] Program Instance lower_hex : HexCodec := {|
  hex_encode b := string_of_bytes (encode_nibbles b);
  hex_decode s := decode_nibbles (bytes_of_string s)
|}.
Next Obligation. intros b. cbv beta. rewrite slen_string_of_bytes. apply encode_nibbles_spec. Qed.
Next Obligation. intros b. cbv beta. rewrite bytes_of_string_of_bytes. apply encode_nibbles_spec. Qed.
Next Obligation. intros b. cbv beta. rewrite bytes_of_string_of_bytes. apply encode_nibbles_spec. Qed.
Next Obligation.
  intros s n Hlen Hhex. rewrite <- (string_of_bytes_of_string s), slen_string_of_bytes in Hlen.
  assert (0 ≤ n) by (unfold blen in Hlen; lia).
  destruct (encode_nibbles_onto (Z.to_nat n) (bytes_of_string s)) as (b&Hb&He);
    [by rewrite Z2Nat.id|done|].
  exists b. rewrite Z2Nat.id in Hb by done. split; [done|]. cbn.
  by rewrite He, string_of_bytes_of_string.
Qed.

(** Text of one character per byte obeys the laws the protocol uses of base64. *)
#[global] Program Instance plain_text : Base64Codec := {|
  base64_encode := string_of_bytes;
  base64_decode s := Some (bytes_of_string s)
|}.
Next Obligation.
  intros b. cbv beta. rewrite slen_string_of_bytes. unfold blen.
  pose proof (Z.div_mod (Z.of_nat (length b) + 2) 3 ltac:(lia)).
  pose proof (Z.mod_pos_bound (Z.of_nat (length b) + 2) 3 ltac:(lia)). lia.
Qed.
Next Obligation. intros b. cbv beta. by rewrite bytes_of_string_of_bytes. Qed.

Definition hash : Hex32 := {| Hex32_as_bytes := replicate 32 Byte.xa5 |}.

Lemma wire_texts_canonical_witness :
  Hex32_from_hex (string_of_bytes (encode_nibbles (replicate 32 Byte.xa5))) = Ok hash ∧
  NativeAmount_deserialize "1000000" = Ok {| NativeAmount_as_u128 := 1000000 |}.
Proof.
  destruct wire_texts_canonical as (Hhex&_&_&_&Hamount). split.
  - apply Hhex. by split.
  - apply Hamount. split; [unfold in_range, u128_max; cbn; lia|by vm_compute].
Defined.

End CodecSamples.
