(* ===== verification/AssetEvidence.v ===== *)
(** * Evidence messages of the LEZ bridge

    Models the second-version witnessed-asset messages of
    [crates/lez-bridge-protocol/src/messages.rs]: the facts a sidecar reports of
    a native or token escrow, the results that carry them, and the validation
    every result passes when it is built and again when it is read from the
    wire.  Newtypes of [Hex32] are [Hex32].  The JSON layer is [serde]'s and not
    modelled: a [_deserialize] starts from the decoded fields. *)

From stdpp Require Import base gmap strings list numbers.
From S2P Require Import Prelude SwapCore BridgeValues.

Open Scope Z_scope.

#[global] Instance ExactTransactionBytes_eq_dec : EqDecision ExactTransactionBytes.
Proof. solve_decision. Defined.
#[global] Instance ExactMessageBytes_eq_dec : EqDecision ExactMessageBytes.
Proof. solve_decision. Defined.
#[global] Instance AccountIds_eq_dec : EqDecision AccountIds.
Proof. solve_decision. Defined.
#[global] Instance NativeAmount_eq_dec : EqDecision NativeAmount.
Proof. solve_decision. Defined.

Definition NativeAmount_new (value : Z) : NativeAmount := {| NativeAmount_as_u128 := value |}.

(** ** Contexts, clocks and positions *)

Record MessageContext := {
  message_schema_version : Z;
  message_run_id : RunId;
  message_request_id : RequestId;
  message_sidecar_role : Participant
}.

Record ChainTip := { tip_block_hash : Hex32; tip_height : Z }.

Record ChainClock := {
  clock_block_hash : Hex32;
  clock_height : Z;
  clock_timestamp_ms : Z
}.

Record ChainPosition := {
  position_block_hash : Hex32;
  position_height : Z;
  position_transaction_index : Z
}.

Inductive RuntimeCompatibility := NssaV0_1_2 | LeeV0_2_0.

Record RuntimeDescriptor := {
  runtime_sidecar_role : Participant;
  runtime_compatibility : RuntimeCompatibility;
  runtime_chain_id : Hex32;
  runtime_channel_id : Hex32;
  runtime_genesis_block_hash : Hex32;
  runtime_escrow_program_id : Hex32;
  runtime_signer_account_id : Hex32
}.

#[global] Instance RuntimeCompatibility_eq_dec : EqDecision RuntimeCompatibility.
Proof. solve_decision. Defined.
#[global] Instance RuntimeDescriptor_eq_dec : EqDecision RuntimeDescriptor.
Proof. solve_decision. Defined.

Record PreparedTransaction := {
  prepared_transaction_id : Hex32;
  prepared_exact_bytes : ExactTransactionBytes
}.

Record PreparedWitnessedClaim := {
  claim_preparation_request_id : RequestId;
  claim_message_hash : Hex32;
  claim_exact_message_bytes : ExactMessageBytes
}.

#[global] Instance PreparedTransaction_eq_dec : EqDecision PreparedTransaction.
Proof. solve_decision. Defined.
#[global] Instance PreparedWitnessedClaim_eq_dec : EqDecision PreparedWitnessedClaim.
Proof. solve_decision. Defined.

Record ObservedTransactionFacts := {
  observed_transaction_id : Hex32;
  observed_exact_bytes : ExactTransactionBytes;
  observed_position : ChainPosition;
  observed_signer_account_ids : AccountIds;
  observed_is_public : bool
}.

Record FinalizedBlockIdentity := {
  identity_block_id : Z;
  identity_block_hash : Hex32;
  identity_timestamp_ms : Z
}.

(** ** Metadata and custody facts *)

Inductive EscrowState := State_Empty | State_Funded | State_Claimed | State_Refunded.

#[global] Instance EscrowState_eq_dec : EqDecision EscrowState.
Proof. solve_decision. Defined.

Record WitnessedEscrowMetadataFacts := {
  facts_account_id : Hex32;
  facts_owner_program_id : Hex32;
  facts_version : Z;
  facts_swap_id : Hex32;
  facts_terms_hash : Hex32;
  facts_aggregate_authority_account_id : Hex32;
  facts_aggregate_x_only_public_key : Hex32;
  facts_depositor_account_id : Hex32;
  facts_depositor_asset_account_id : Hex32;
  facts_claimant_account_id : Hex32;
  facts_claimant_asset_account_id : Hex32;
  facts_custody_account_id : Hex32;
  facts_asset_program_id : Hex32;
  facts_custody_program_id : Hex32;
  facts_asset_definition : Hex32;
  facts_amount : NativeAmount;
  facts_refund_at_ms : Z;
  facts_status : EscrowState
}.

Definition from_witnessed_native_terms (account_id owner_program_id custody_account_id : Hex32)
    (terms : WitnessedNativeEscrowTerms) (status : EscrowState) : WitnessedEscrowMetadataFacts :=
  {| facts_account_id := account_id;
     facts_owner_program_id := owner_program_id;
     facts_version := 2;
     facts_swap_id := terms.(witnessed_swap_id);
     facts_terms_hash := terms.(witnessed_terms_hash);
     facts_aggregate_authority_account_id := terms.(witnessed_aggregate_authority_account_id);
     facts_aggregate_x_only_public_key := terms.(witnessed_aggregate_x_only_public_key);
     facts_depositor_account_id := terms.(witnessed_depositor_account_id);
     facts_depositor_asset_account_id := terms.(witnessed_depositor_account_id);
     facts_claimant_account_id := terms.(witnessed_claimant_account_id);
     facts_claimant_asset_account_id := terms.(witnessed_claimant_account_id);
     facts_custody_account_id := custody_account_id;
     facts_asset_program_id := terms.(witnessed_authenticated_transfer_program_id);
     facts_custody_program_id := terms.(witnessed_authenticated_transfer_program_id);
     facts_asset_definition := zero_hex32;
     facts_amount := NativeAmount_new terms.(witnessed_amount);
     facts_refund_at_ms := terms.(witnessed_refund_at_ms);
     facts_status := status |}.

Definition from_witnessed_token_terms (account_id owner_program_id : Hex32)
    (terms : WitnessedTokenEscrowTermsV2) (status : EscrowState) : WitnessedEscrowMetadataFacts :=
  {| facts_account_id := account_id;
     facts_owner_program_id := owner_program_id;
     facts_version := 2;
     facts_swap_id := terms.(token_swap_id);
     facts_terms_hash := terms.(token_terms_hash);
     facts_aggregate_authority_account_id := terms.(token_aggregate_authority_account_id);
     facts_aggregate_x_only_public_key := terms.(token_aggregate_x_only_public_key);
     facts_depositor_account_id := terms.(token_depositor_owner_account_id);
     facts_depositor_asset_account_id := terms.(token_depositor_ata_account_id);
     facts_claimant_account_id := terms.(token_claimant_owner_account_id);
     facts_claimant_asset_account_id := terms.(token_claimant_ata_account_id);
     facts_custody_account_id := terms.(token_custody_ata_account_id);
     facts_asset_program_id := terms.(token_program_id);
     facts_custody_program_id := terms.(token_ata_program_id);
     facts_asset_definition := terms.(token_definition_account_id);
     facts_amount := NativeAmount_new terms.(token_amount);
     facts_refund_at_ms := terms.(token_refund_at_ms);
     facts_status := status |}.

Record NativeCustodyFacts := {
  custody_account_id : Hex32;
  custody_owner_program_id : Hex32;
  custody_balance : NativeAmount
}.

Definition NativeCustodyFacts_new (account_id owner_program_id : Hex32) (balance : Z)
    : NativeCustodyFacts :=
  {| custody_account_id := account_id; custody_owner_program_id := owner_program_id;
     custody_balance := NativeAmount_new balance |}.

Record TokenHoldingFactsV2 := {
  holding_account_id : Hex32;
  holding_owner_program_id : Hex32;
  holding_token_definition_account_id : Hex32;
  holding_balance : NativeAmount
}.

Definition TokenHoldingFactsV2_new (account_id owner_program_id token_definition_account_id : Hex32)
    (balance : Z) : TokenHoldingFactsV2 :=
  {| holding_account_id := account_id; holding_owner_program_id := owner_program_id;
     holding_token_definition_account_id := token_definition_account_id;
     holding_balance := NativeAmount_new balance |}.

Inductive WitnessedAssetCustodyFactsV2 :=
| Custody_Native (facts : NativeCustodyFacts)
| Custody_CustomToken (facts : TokenHoldingFactsV2).

Inductive WitnessedAssetInitializationCustodyFactsV2 :=
| InitialCustody_Native (facts : NativeCustodyFacts)
| InitialCustody_CustomTokenAtaAbsent (expected_account_id : Hex32).

(** ** Instructions and effects *)

Inductive WitnessedAssetPrepareStepV2 := InitializeWitnessed | CreateCustodyAta | Fund.

#[global] Instance PrepareStep_eq_dec : EqDecision WitnessedAssetPrepareStepV2.
Proof. solve_decision. Defined.

Record WitnessedAssetPreparedEffectV2 := {
  prepared_step : WitnessedAssetPrepareStepV2;
  prepared_transaction : PreparedTransaction
}.

Record WitnessedAssetObservedPrepareEffectV2 := {
  observed_step : WitnessedAssetPrepareStepV2;
  observed_transaction : ObservedTransactionFacts;
  observed_program_id : Hex32;
  observed_ordered_account_ids : AccountIds
}.

Record WitnessedAssetEffectInstructionFactsV2 := {
  effect_step : WitnessedAssetPrepareStepV2;
  effect_program_id : Hex32;
  effect_ordered_account_ids : AccountIds;
  effect_swap_id : Hex32
}.

Record WitnessedAssetClaimInstructionFactsV2 := {
  claim_program_id : Hex32;
  claim_ordered_account_ids : AccountIds;
  claim_swap_id : Hex32;
  claim_transcript : PreparedWitnessedClaim
}.

Record WitnessedAssetRefundInstructionFactsV2 := {
  refund_program_id : Hex32;
  refund_ordered_account_ids : AccountIds;
  refund_swap_id : Hex32
}.

(** ** Fact bundles *)

Record FinalizedWitnessedAssetInitializationFactsV2 := {
  init_transaction : ObservedTransactionFacts;
  init_instruction : WitnessedAssetEffectInstructionFactsV2;
  init_containing_block : FinalizedBlockIdentity;
  init_metadata : WitnessedEscrowMetadataFacts;
  init_custody : WitnessedAssetInitializationCustodyFactsV2
}.

Record FinalizedWitnessedAssetCustodyCreationFactsV2 := {
  creation_transaction : ObservedTransactionFacts;
  creation_instruction : WitnessedAssetEffectInstructionFactsV2;
  creation_containing_block : FinalizedBlockIdentity;
  creation_metadata : WitnessedEscrowMetadataFacts;
  creation_custody : TokenHoldingFactsV2
}.

Record FinalizedWitnessedAssetFundingFactsV2 := {
  funding_transaction : ObservedTransactionFacts;
  funding_instruction : WitnessedAssetEffectInstructionFactsV2;
  funding_containing_block : FinalizedBlockIdentity;
  funding_metadata : WitnessedEscrowMetadataFacts;
  funding_custody : WitnessedAssetCustodyFactsV2
}.

Record FinalizedWitnessedAssetClaimFactsV2 := {
  claim_transaction : ObservedTransactionFacts;
  claim_instruction : WitnessedAssetClaimInstructionFactsV2;
  claim_aggregate_signature : AggregateBip340Signature;
  claim_containing_block : FinalizedBlockIdentity;
  claim_metadata : WitnessedEscrowMetadataFacts;
  claim_custody : WitnessedAssetCustodyFactsV2
}.

Record WitnessedAssetRefundFoundFactsV2 := {
  refund_transaction : ObservedTransactionFacts;
  refund_instruction : WitnessedAssetRefundInstructionFactsV2
}.

Inductive WitnessedAssetRefundObservationV2 :=
| Refund_NotRequested
| Refund_Absent
| Refund_UnknownOrPending
| Refund_Found (facts : WitnessedAssetRefundFoundFactsV2).

(** ** Targets, reasons and outcomes *)

Inductive FinalizedWitnessedAssetTransactionTargetV2 :=
| Target_Exact (transaction : PreparedTransaction)
| Target_DiscoverByTerms.

Inductive NativeRefundObservationTarget :=
| RefundTarget_StateOnly
| RefundTarget_Exact (refund_transaction_id : Hex32) (window : DiscoveryWindow)
| RefundTarget_DiscoverByTerms (window : DiscoveryWindow).

Inductive FinalizedWitnessedAssetUnavailableReasonV2 :=
| Reason_MovingTip | Reason_FinalityUnavailable | Reason_HistoryUnavailable
| Reason_ConflictingMatches.

Inductive FinalizedWitnessedAssetScanOutcomeV2 (T : Type) :=
| Outcome_Found (finalized_clock : ChainClock) (scanned_window : DiscoveryWindow) (facts : T)
| Outcome_Absent (finalized_clock : ChainClock) (scanned_window : DiscoveryWindow)
| Outcome_Uncertain (finalized_clock : ChainClock) (scanned_window : DiscoveryWindow)
| Outcome_Unavailable (reason : FinalizedWitnessedAssetUnavailableReasonV2).
Arguments Outcome_Found {T}.
Arguments Outcome_Absent {T}.
Arguments Outcome_Uncertain {T}.
Arguments Outcome_Unavailable {T}.

(** ** Validation *)

Definition ensure (condition : bool) (field : string) : result unit ProtocolValueError :=
  if condition then Ok tt else Err (WitnessedAssetFactsMismatch field).

Definition validate_prepare_steps (terms : WitnessedLezAssetTermsV2)
    (actual : list WitnessedAssetPrepareStepV2) : result unit ProtocolValueError :=
  let expected :=
    match terms.(terms_asset) with
    | Asset_Native _ => [InitializeWitnessed; Fund]
    | Asset_CustomToken _ => [InitializeWitnessed; CreateCustodyAta; Fund]
    end in
  if actual ==? expected then Ok tt else Err InvalidWitnessedAssetPrepareEffects.

Definition asset_amount (terms : WitnessedLezAssetTermsV2) : NativeAmount :=
  match terms.(terms_asset) with
  | Asset_Native terms => NativeAmount_new terms.(witnessed_amount)
  | Asset_CustomToken terms => NativeAmount_new terms.(token_amount)
  end.

Definition validate_native_asset_state (terms : WitnessedNativeEscrowTerms)
    (metadata : WitnessedEscrowMetadataFacts) (custody : NativeCustodyFacts)
    (expected_balance : option NativeAmount) : result unit ProtocolValueError :=
  let? _ := ensure (metadata.(facts_swap_id) ==? terms.(witnessed_swap_id)) "swap id" in
  let? _ := ensure (metadata.(facts_terms_hash) ==? terms.(witnessed_terms_hash)) "terms hash" in
  let? _ := ensure (metadata.(facts_aggregate_authority_account_id)
                    ==? terms.(witnessed_aggregate_authority_account_id))
              "aggregate authority account" in
  let? _ := ensure (metadata.(facts_aggregate_x_only_public_key)
                    ==? terms.(witnessed_aggregate_x_only_public_key)) "aggregate public key" in
  let? _ := ensure
    ((metadata.(facts_depositor_account_id) ==? terms.(witnessed_depositor_account_id))
     && (metadata.(facts_depositor_asset_account_id) ==? terms.(witnessed_depositor_account_id)))
    "native depositor account" in
  let? _ := ensure
    ((metadata.(facts_claimant_account_id) ==? terms.(witnessed_claimant_account_id))
     && (metadata.(facts_claimant_asset_account_id) ==? terms.(witnessed_claimant_account_id)))
    "native claimant account" in
  let? _ := ensure
    ((metadata.(facts_asset_program_id) ==? terms.(witnessed_authenticated_transfer_program_id))
     && (metadata.(facts_custody_program_id)
         ==? terms.(witnessed_authenticated_transfer_program_id))) "native program" in
  let? _ := ensure (metadata.(facts_asset_definition) ==? zero_hex32) "native asset definition" in
  let? _ := ensure (metadata.(facts_amount) ==? NativeAmount_new terms.(witnessed_amount))
              "native amount" in
  let? _ := ensure (metadata.(facts_refund_at_ms) =? terms.(witnessed_refund_at_ms))
              "native refund time" in
  let? _ := ensure (metadata.(facts_custody_account_id) ==? custody.(custody_account_id))
              "native custody account" in
  let? _ := ensure (custody.(custody_owner_program_id)
                    ==? terms.(witnessed_authenticated_transfer_program_id))
              "native custody owner" in
  match expected_balance with
  | Some balance => ensure (custody.(custody_balance) ==? balance) "native custody balance"
  | None => Ok tt
  end.

Definition validate_token_asset_state (terms : WitnessedTokenEscrowTermsV2)
    (metadata : WitnessedEscrowMetadataFacts) (custody : TokenHoldingFactsV2)
    (expected_balance : option NativeAmount) : result unit ProtocolValueError :=
  let? _ := ensure (metadata.(facts_swap_id) ==? terms.(token_swap_id)) "swap id" in
  let? _ := ensure (metadata.(facts_terms_hash) ==? terms.(token_terms_hash)) "terms hash" in
  let? _ := ensure (metadata.(facts_aggregate_authority_account_id)
                    ==? terms.(token_aggregate_authority_account_id))
              "aggregate authority account" in
  let? _ := ensure (metadata.(facts_aggregate_x_only_public_key)
                    ==? terms.(token_aggregate_x_only_public_key)) "aggregate public key" in
  let? _ := ensure
    ((metadata.(facts_depositor_account_id) ==? terms.(token_depositor_owner_account_id))
     && (metadata.(facts_depositor_asset_account_id) ==? terms.(token_depositor_ata_account_id)))
    "token depositor accounts" in
  let? _ := ensure
    ((metadata.(facts_claimant_account_id) ==? terms.(token_claimant_owner_account_id))
     && (metadata.(facts_claimant_asset_account_id) ==? terms.(token_claimant_ata_account_id)))
    "token claimant accounts" in
  let? _ := ensure
    ((metadata.(facts_custody_account_id) ==? terms.(token_custody_ata_account_id))
     && (custody.(holding_account_id) ==? terms.(token_custody_ata_account_id)))
    "token custody ATA" in
  let? _ := ensure
    ((metadata.(facts_asset_program_id) ==? terms.(token_program_id))
     && (custody.(holding_owner_program_id) ==? terms.(token_program_id))) "token program" in
  let? _ := ensure (metadata.(facts_custody_program_id) ==? terms.(token_ata_program_id))
              "ATA program" in
  let? _ := ensure
    ((metadata.(facts_asset_definition) ==? terms.(token_definition_account_id))
     && (custody.(holding_token_definition_account_id) ==? terms.(token_definition_account_id)))
    "token definition" in
  let? _ := ensure (metadata.(facts_amount) ==? NativeAmount_new terms.(token_amount))
              "token amount" in
  let? _ := ensure (metadata.(facts_refund_at_ms) =? terms.(token_refund_at_ms))
              "token refund time" in
  match expected_balance with
  | Some balance => ensure (custody.(holding_balance) ==? balance) "token custody balance"
  | None => Ok tt
  end.

Definition validate_asset_state (terms : WitnessedLezAssetTermsV2)
    (metadata : WitnessedEscrowMetadataFacts) (custody : WitnessedAssetCustodyFactsV2)
    (expected_status : option EscrowState) (expected_balance : option NativeAmount)
    : result unit ProtocolValueError :=
  let? _ := ensure (metadata.(facts_version) =? 2) "metadata version" in
  let? _ :=
    match expected_status with
    | Some status => ensure (metadata.(facts_status) ==? status) "metadata status"
    | None => Ok tt
    end in
  match terms.(terms_asset), custody with
  | Asset_Native terms, Custody_Native custody =>
      validate_native_asset_state terms metadata custody expected_balance
  | Asset_CustomToken terms, Custody_CustomToken custody =>
      validate_token_asset_state terms metadata custody expected_balance
  | _, _ => Err (WitnessedAssetFactsMismatch "asset kind")
  end.

Definition expected_prepare_accounts (terms : WitnessedLezAssetTermsV2)
    (metadata : WitnessedEscrowMetadataFacts) : list (list Hex32) :=
  match terms.(terms_asset) with
  | Asset_Native terms =>
      [[metadata.(facts_account_id); metadata.(facts_custody_account_id);
        terms.(witnessed_depositor_account_id); terms.(witnessed_claimant_account_id);
        terms.(witnessed_aggregate_authority_account_id)];
       [metadata.(facts_account_id); metadata.(facts_custody_account_id);
        terms.(witnessed_depositor_account_id)]]
  | Asset_CustomToken terms =>
      [[metadata.(facts_account_id); terms.(token_depositor_owner_account_id);
        terms.(token_claimant_owner_account_id); terms.(token_definition_account_id);
        terms.(token_aggregate_authority_account_id)];
       [metadata.(facts_account_id); terms.(token_definition_account_id);
        terms.(token_custody_ata_account_id)];
       [metadata.(facts_account_id); terms.(token_depositor_owner_account_id);
        terms.(token_depositor_ata_account_id); terms.(token_custody_ata_account_id)]]
  end.

Fixpoint ensure_prepare_program (program : Hex32)
    (effects : list WitnessedAssetObservedPrepareEffectV2) : result unit ProtocolValueError :=
  match effects with
  | [] => Ok tt
  | effect :: effects =>
      let? _ := ensure (effect.(observed_program_id) ==? program) "prepare program" in
      ensure_prepare_program program effects
  end.

Definition validate_observed_prepare_effects (terms : WitnessedLezAssetTermsV2)
    (effects : list WitnessedAssetObservedPrepareEffectV2)
    (metadata : WitnessedEscrowMetadataFacts) : result unit ProtocolValueError :=
  let? _ := validate_prepare_steps terms (map observed_step effects) in
  let? _ := ensure_prepare_program metadata.(facts_owner_program_id) effects in
  ensure
    (forallb (λ p, p.1.(observed_ordered_account_ids).(AccountIds_as_slice) ==? p.2)
       (zip effects (expected_prepare_accounts terms metadata)))
    "prepare account order".

Definition validate_claim_facts (terms : WitnessedLezAssetTermsV2)
    (instruction : WitnessedAssetClaimInstructionFactsV2)
    (metadata : WitnessedEscrowMetadataFacts) : result unit ProtocolValueError :=
  let? _ := ensure (instruction.(claim_program_id) ==? metadata.(facts_owner_program_id))
              "claim program" in
  let? _ := ensure (instruction.(claim_swap_id) ==? metadata.(facts_swap_id)) "claim swap id" in
  let expected :=
    match terms.(terms_asset) with
    | Asset_Native terms =>
        [metadata.(facts_account_id); metadata.(facts_custody_account_id);
         terms.(witnessed_claimant_account_id);
         terms.(witnessed_aggregate_authority_account_id)]
    | Asset_CustomToken terms =>
        [metadata.(facts_account_id); terms.(token_custody_ata_account_id);
         terms.(token_claimant_owner_account_id); terms.(token_claimant_ata_account_id);
         terms.(token_aggregate_authority_account_id)]
    end in
  ensure (instruction.(claim_ordered_account_ids).(AccountIds_as_slice) ==? expected)
    "claim account order".

Definition validate_refund_facts (terms : WitnessedLezAssetTermsV2)
    (instruction : WitnessedAssetRefundInstructionFactsV2)
    (metadata : WitnessedEscrowMetadataFacts) : result unit ProtocolValueError :=
  let? _ := ensure (instruction.(refund_program_id) ==? metadata.(facts_owner_program_id))
              "refund program" in
  let? _ := ensure (instruction.(refund_swap_id) ==? metadata.(facts_swap_id)) "refund swap id" in
  let expected :=
    match terms.(terms_asset) with
    | Asset_Native terms =>
        [metadata.(facts_account_id); metadata.(facts_custody_account_id);
         terms.(witnessed_depositor_account_id)]
    | Asset_CustomToken terms =>
        [metadata.(facts_account_id); terms.(token_custody_ata_account_id);
         terms.(token_depositor_ata_account_id)]
    end in
  ensure (instruction.(refund_ordered_account_ids).(AccountIds_as_slice) ==? expected)
    "refund account order".

(** [start_height + max_blocks.saturating_sub(1)], in range for every window. *)
Definition window_end_height (window : DiscoveryWindow) : Z :=
  window.(window_start_height) + Z.max (window.(window_max_blocks) - 1) 0.

Definition validate_scan_coverage (finalized_clock : ChainClock)
    (scanned_window : DiscoveryWindow) : result unit ProtocolValueError :=
  ensure (window_end_height scanned_window <=? finalized_clock.(clock_height))
    "finalized window coverage".

Definition validate_finalized_placement (transaction : ObservedTransactionFacts)
    (containing_block : FinalizedBlockIdentity) (finalized_clock : ChainClock)
    (scanned_window : DiscoveryWindow) : result unit ProtocolValueError :=
  let position := transaction.(observed_position) in
  let? _ := ensure transaction.(observed_is_public) "public transaction" in
  let? _ := ensure
    ((scanned_window.(window_start_height) <=? position.(position_height))
     && (position.(position_height) <=? window_end_height scanned_window))
    "transaction scan window" in
  let? _ := ensure (position.(position_block_hash) ==? containing_block.(identity_block_hash))
              "containing block hash" in
  ensure
    ((position.(position_height) <=? finalized_clock.(clock_height))
     && (containing_block.(identity_timestamp_ms) <=? finalized_clock.(clock_timestamp_ms)))
    "finalized transaction placement".

Definition validate_exact_target (target : FinalizedWitnessedAssetTransactionTargetV2)
    (transaction : ObservedTransactionFacts) : result unit ProtocolValueError :=
  match target with
  | Target_Exact expected =>
      let? _ := ensure (transaction.(observed_transaction_id)
                        ==? expected.(prepared_transaction_id)) "exact transaction id" in
      ensure (transaction.(observed_exact_bytes) ==? expected.(prepared_exact_bytes))
        "exact transaction bytes"
  | Target_DiscoverByTerms => Ok tt
  end.

Definition validate_initialization_state (terms : WitnessedLezAssetTermsV2)
    (facts : FinalizedWitnessedAssetInitializationFactsV2) : result unit ProtocolValueError :=
  match terms.(terms_asset), facts.(init_custody) with
  | Asset_Native _, InitialCustody_Native custody =>
      validate_asset_state terms facts.(init_metadata) (Custody_Native custody)
        (Some State_Empty) (Some (NativeAmount_new 0))
  | Asset_CustomToken token, InitialCustody_CustomTokenAtaAbsent expected_account_id =>
      let? _ := ensure (expected_account_id ==? token.(token_custody_ata_account_id))
                  "initial token custody ATA" in
      let expected :=
        Custody_CustomToken
          (TokenHoldingFactsV2_new token.(token_custody_ata_account_id)
             token.(token_program_id) token.(token_definition_account_id) 0) in
      validate_asset_state terms facts.(init_metadata) expected (Some State_Empty) None
  | _, _ => Err (WitnessedAssetFactsMismatch "initial custody kind")
  end.

Definition validate_asset_effect_instruction (terms : WitnessedLezAssetTermsV2)
    (metadata : WitnessedEscrowMetadataFacts)
    (instruction : WitnessedAssetEffectInstructionFactsV2)
    (expected_step : WitnessedAssetPrepareStepV2) : result unit ProtocolValueError :=
  let? _ := ensure (instruction.(effect_step) ==? expected_step) "asset effect step" in
  let? _ := ensure (instruction.(effect_program_id) ==? metadata.(facts_owner_program_id))
              "asset effect program" in
  let? _ := ensure (instruction.(effect_swap_id) ==? metadata.(facts_swap_id))
              "asset effect swap id" in
  let? expected :=
    match terms.(terms_asset), expected_step with
    | Asset_Native terms, InitializeWitnessed =>
        Ok [metadata.(facts_account_id); metadata.(facts_custody_account_id);
            terms.(witnessed_depositor_account_id); terms.(witnessed_claimant_account_id);
            terms.(witnessed_aggregate_authority_account_id)]
    | Asset_Native terms, Fund =>
        Ok [metadata.(facts_account_id); metadata.(facts_custody_account_id);
            terms.(witnessed_depositor_account_id)]
    | Asset_CustomToken terms, InitializeWitnessed =>
        Ok [metadata.(facts_account_id); terms.(token_depositor_owner_account_id);
            terms.(token_claimant_owner_account_id); terms.(token_definition_account_id);
            terms.(token_aggregate_authority_account_id)]
    | Asset_CustomToken terms, CreateCustodyAta =>
        Ok [metadata.(facts_account_id); terms.(token_definition_account_id);
            terms.(token_custody_ata_account_id)]
    | Asset_CustomToken terms, Fund =>
        Ok [metadata.(facts_account_id); terms.(token_depositor_owner_account_id);
            terms.(token_depositor_ata_account_id); terms.(token_custody_ata_account_id)]
    | Asset_Native _, CreateCustodyAta => Err InvalidWitnessedAssetPrepareEffects
    end in
  ensure (instruction.(effect_ordered_account_ids).(AccountIds_as_slice) ==? expected)
    "asset effect account order".

Definition validate_depositor_signer (terms : WitnessedLezAssetTermsV2)
    (transaction : ObservedTransactionFacts) : result unit ProtocolValueError :=
  let expected :=
    match terms.(terms_asset) with
    | Asset_Native terms => terms.(witnessed_depositor_account_id)
    | Asset_CustomToken terms => terms.(token_depositor_owner_account_id)
    end in
  ensure (transaction.(observed_signer_account_ids).(AccountIds_as_slice) ==? [expected])
    "depositor signer".

Definition validate_authority_signer (terms : WitnessedLezAssetTermsV2)
    (transaction : ObservedTransactionFacts) : result unit ProtocolValueError :=
  let expected :=
    match terms.(terms_asset) with
    | Asset_Native terms => terms.(witnessed_aggregate_authority_account_id)
    | Asset_CustomToken terms => terms.(token_aggregate_authority_account_id)
    end in
  ensure (transaction.(observed_signer_account_ids).(AccountIds_as_slice) ==? [expected])
    "aggregate authority signer".

Definition ensure_custom_token_terms (terms : WitnessedLezAssetTermsV2)
    : result unit ProtocolValueError :=
  ensure (match terms.(terms_asset) with Asset_CustomToken _ => true | Asset_Native _ => false end)
    "custom-token-only effect".

(** ** Initialization results *)

Record ClassifyFinalizedWitnessedAssetInitializationV2Request := {
  initialization_request_context : MessageContext;
  initialization_request_runtime : RuntimeDescriptor;
  initialization_request_terms : WitnessedLezAssetTermsV2;
  initialization_request_target : FinalizedWitnessedAssetTransactionTargetV2;
  initialization_request_window : DiscoveryWindow
}.

Record ClassifyFinalizedWitnessedAssetInitializationV2Result := {
  initialization_context : MessageContext;
  initialization_terms : WitnessedLezAssetTermsV2;
  initialization_target : FinalizedWitnessedAssetTransactionTargetV2;
  initialization_outcome :
    FinalizedWitnessedAssetScanOutcomeV2 FinalizedWitnessedAssetInitializationFactsV2
}.

Definition validate_initialization_result (self : ClassifyFinalizedWitnessedAssetInitializationV2Result)
    : result unit ProtocolValueError :=
  match self.(initialization_outcome) with
  | Outcome_Found finalized_clock scanned_window facts =>
      let? _ := validate_scan_coverage finalized_clock scanned_window in
      let? _ := validate_finalized_placement facts.(init_transaction)
                  facts.(init_containing_block) finalized_clock scanned_window in
      let? _ := validate_exact_target self.(initialization_target) facts.(init_transaction) in
      let? _ := validate_initialization_state self.(initialization_terms) facts in
      let? _ := validate_asset_effect_instruction self.(initialization_terms)
                  facts.(init_metadata) facts.(init_instruction) InitializeWitnessed in
      validate_depositor_signer self.(initialization_terms) facts.(init_transaction)
  | Outcome_Absent finalized_clock scanned_window
  | Outcome_Uncertain finalized_clock scanned_window =>
      validate_scan_coverage finalized_clock scanned_window
  | Outcome_Unavailable _ => Ok tt
  end.

Section initialization_results.
Variables (context : MessageContext) (terms : WitnessedLezAssetTermsV2)
  (target : FinalizedWitnessedAssetTransactionTargetV2).

Definition initialization_result
    (outcome : FinalizedWitnessedAssetScanOutcomeV2 FinalizedWitnessedAssetInitializationFactsV2)
    : ClassifyFinalizedWitnessedAssetInitializationV2Result :=
  {| initialization_context := context; initialization_terms := terms;
     initialization_target := target; initialization_outcome := outcome |}.

Definition initialization_found (finalized_clock : ChainClock) (scanned_window : DiscoveryWindow)
    (facts : FinalizedWitnessedAssetInitializationFactsV2)
    : result ClassifyFinalizedWitnessedAssetInitializationV2Result ProtocolValueError :=
  let self := initialization_result (Outcome_Found finalized_clock scanned_window facts) in
  let? _ := validate_initialization_result self in
  Ok self.

Definition initialization_absent (finalized_clock : ChainClock) (scanned_window : DiscoveryWindow)
    : result ClassifyFinalizedWitnessedAssetInitializationV2Result ProtocolValueError :=
  let? _ := validate_scan_coverage finalized_clock scanned_window in
  Ok (initialization_result (Outcome_Absent finalized_clock scanned_window)).

Definition initialization_uncertain (finalized_clock : ChainClock)
    (scanned_window : DiscoveryWindow)
    : result ClassifyFinalizedWitnessedAssetInitializationV2Result ProtocolValueError :=
  let? _ := validate_scan_coverage finalized_clock scanned_window in
  Ok (initialization_result (Outcome_Uncertain finalized_clock scanned_window)).

Definition initialization_unavailable (reason : FinalizedWitnessedAssetUnavailableReasonV2)
    : ClassifyFinalizedWitnessedAssetInitializationV2Result :=
  initialization_result (Outcome_Unavailable reason).
End initialization_results.

Definition initialization_deserialize (wire : ClassifyFinalizedWitnessedAssetInitializationV2Result)
    : result ClassifyFinalizedWitnessedAssetInitializationV2Result ProtocolValueError :=
  let? _ := validate_initialization_result wire in
  Ok wire.

(** ** Funding results *)

Record ClassifyFinalizedWitnessedAssetFundingV2Request := {
  funding_request_context : MessageContext;
  funding_request_runtime : RuntimeDescriptor;
  funding_request_terms : WitnessedLezAssetTermsV2;
  funding_request_target : FinalizedWitnessedAssetTransactionTargetV2;
  funding_request_window : DiscoveryWindow
}.

Record ClassifyFinalizedWitnessedAssetFundingV2Result := {
  funding_context : MessageContext;
  funding_terms : WitnessedLezAssetTermsV2;
  funding_target : FinalizedWitnessedAssetTransactionTargetV2;
  funding_outcome :
    FinalizedWitnessedAssetScanOutcomeV2 FinalizedWitnessedAssetFundingFactsV2
}.

Definition validate_funding_result (self : ClassifyFinalizedWitnessedAssetFundingV2Result)
    : result unit ProtocolValueError :=
  match self.(funding_outcome) with
  | Outcome_Found finalized_clock scanned_window facts =>
      let? _ := validate_scan_coverage finalized_clock scanned_window in
      let? _ := validate_finalized_placement facts.(funding_transaction)
                  facts.(funding_containing_block) finalized_clock scanned_window in
      let? _ := validate_exact_target self.(funding_target) facts.(funding_transaction) in
      let? _ := validate_asset_state self.(funding_terms) facts.(funding_metadata)
                  facts.(funding_custody) (Some State_Funded)
                  (Some (asset_amount self.(funding_terms))) in
      let? _ := validate_asset_effect_instruction self.(funding_terms)
                  facts.(funding_metadata) facts.(funding_instruction) Fund in
      validate_depositor_signer self.(funding_terms) facts.(funding_transaction)
  | Outcome_Absent finalized_clock scanned_window
  | Outcome_Uncertain finalized_clock scanned_window =>
      validate_scan_coverage finalized_clock scanned_window
  | Outcome_Unavailable _ => Ok tt
  end.

Section funding_results.
Variables (context : MessageContext) (terms : WitnessedLezAssetTermsV2)
  (target : FinalizedWitnessedAssetTransactionTargetV2).

Definition funding_result
    (outcome : FinalizedWitnessedAssetScanOutcomeV2 FinalizedWitnessedAssetFundingFactsV2)
    : ClassifyFinalizedWitnessedAssetFundingV2Result :=
  {| funding_context := context; funding_terms := terms;
     funding_target := target; funding_outcome := outcome |}.

Definition funding_found (finalized_clock : ChainClock) (scanned_window : DiscoveryWindow)
    (facts : FinalizedWitnessedAssetFundingFactsV2)
    : result ClassifyFinalizedWitnessedAssetFundingV2Result ProtocolValueError :=
  let self := funding_result (Outcome_Found finalized_clock scanned_window facts) in
  let? _ := validate_funding_result self in
  Ok self.

Definition funding_absent (finalized_clock : ChainClock) (scanned_window : DiscoveryWindow)
    : result ClassifyFinalizedWitnessedAssetFundingV2Result ProtocolValueError :=
  let? _ := validate_scan_coverage finalized_clock scanned_window in
  Ok (funding_result (Outcome_Absent finalized_clock scanned_window)).

Definition funding_uncertain (finalized_clock : ChainClock)
    (scanned_window : DiscoveryWindow)
    : result ClassifyFinalizedWitnessedAssetFundingV2Result ProtocolValueError :=
  let? _ := validate_scan_coverage finalized_clock scanned_window in
  Ok (funding_result (Outcome_Uncertain finalized_clock scanned_window)).

Definition funding_unavailable (reason : FinalizedWitnessedAssetUnavailableReasonV2)
    : ClassifyFinalizedWitnessedAssetFundingV2Result :=
  funding_result (Outcome_Unavailable reason).
End funding_results.

Definition funding_deserialize (wire : ClassifyFinalizedWitnessedAssetFundingV2Result)
    : result ClassifyFinalizedWitnessedAssetFundingV2Result ProtocolValueError :=
  let? _ := validate_funding_result wire in
  Ok wire.

(** ** Custody-creation results *)

Record ClassifyFinalizedWitnessedAssetCustodyCreationV2Request := {
  creation_request_context : MessageContext;
  creation_request_runtime : RuntimeDescriptor;
  creation_request_terms : WitnessedLezAssetTermsV2;
  creation_request_target : FinalizedWitnessedAssetTransactionTargetV2;
  creation_request_window : DiscoveryWindow
}.

Record ClassifyFinalizedWitnessedAssetCustodyCreationV2Result := {
  creation_context : MessageContext;
  creation_terms : WitnessedLezAssetTermsV2;
  creation_target : FinalizedWitnessedAssetTransactionTargetV2;
  creation_outcome :
    FinalizedWitnessedAssetScanOutcomeV2 FinalizedWitnessedAssetCustodyCreationFactsV2
}.

Definition validate_custody_creation_result (self : ClassifyFinalizedWitnessedAssetCustodyCreationV2Result)
    : result unit ProtocolValueError :=
  let? _ := ensure_custom_token_terms self.(creation_terms) in
  match self.(creation_outcome) with
  | Outcome_Found finalized_clock scanned_window facts =>
      let? _ := validate_scan_coverage finalized_clock scanned_window in
      let? _ := validate_finalized_placement facts.(creation_transaction)
                  facts.(creation_containing_block) finalized_clock scanned_window in
      let? _ := validate_exact_target self.(creation_target) facts.(creation_transaction) in
      let? _ := validate_asset_state self.(creation_terms) facts.(creation_metadata)
                  (Custody_CustomToken facts.(creation_custody)) (Some State_Empty)
                  (Some (NativeAmount_new 0)) in
      let? _ := validate_asset_effect_instruction self.(creation_terms)
                  facts.(creation_metadata) facts.(creation_instruction) CreateCustodyAta in
      ensure (facts.(creation_transaction).(observed_signer_account_ids).(AccountIds_as_slice) ==? [])
        "permissionless custody signer"
  | Outcome_Absent finalized_clock scanned_window
  | Outcome_Uncertain finalized_clock scanned_window =>
      validate_scan_coverage finalized_clock scanned_window
  | Outcome_Unavailable _ => Ok tt
  end.

Section creation_results.
Variables (context : MessageContext) (terms : WitnessedLezAssetTermsV2)
  (target : FinalizedWitnessedAssetTransactionTargetV2).

Definition custody_creation_result
    (outcome : FinalizedWitnessedAssetScanOutcomeV2 FinalizedWitnessedAssetCustodyCreationFactsV2)
    : ClassifyFinalizedWitnessedAssetCustodyCreationV2Result :=
  {| creation_context := context; creation_terms := terms;
     creation_target := target; creation_outcome := outcome |}.

Definition creation_found (finalized_clock : ChainClock) (scanned_window : DiscoveryWindow)
    (facts : FinalizedWitnessedAssetCustodyCreationFactsV2)
    : result ClassifyFinalizedWitnessedAssetCustodyCreationV2Result ProtocolValueError :=
  let self := custody_creation_result (Outcome_Found finalized_clock scanned_window facts) in
  let? _ := validate_custody_creation_result self in
  Ok self.

Definition creation_absent (finalized_clock : ChainClock) (scanned_window : DiscoveryWindow)
    : result ClassifyFinalizedWitnessedAssetCustodyCreationV2Result ProtocolValueError :=
  let? _ := ensure_custom_token_terms terms in
  let? _ := validate_scan_coverage finalized_clock scanned_window in
  Ok (custody_creation_result (Outcome_Absent finalized_clock scanned_window)).

Definition creation_uncertain (finalized_clock : ChainClock)
    (scanned_window : DiscoveryWindow)
    : result ClassifyFinalizedWitnessedAssetCustodyCreationV2Result ProtocolValueError :=
  let? _ := ensure_custom_token_terms terms in
  let? _ := validate_scan_coverage finalized_clock scanned_window in
  Ok (custody_creation_result (Outcome_Uncertain finalized_clock scanned_window)).

Definition creation_unavailable (reason : FinalizedWitnessedAssetUnavailableReasonV2)
    : result ClassifyFinalizedWitnessedAssetCustodyCreationV2Result ProtocolValueError :=
  let? _ := ensure_custom_token_terms terms in
  Ok (custody_creation_result (Outcome_Unavailable reason)).
End creation_results.

Definition creation_deserialize (wire : ClassifyFinalizedWitnessedAssetCustodyCreationV2Result)
    : result ClassifyFinalizedWitnessedAssetCustodyCreationV2Result ProtocolValueError :=
  let? _ := validate_custody_creation_result wire in
  Ok wire.

(** A request for the custody of native terms cannot be built or read. *)
Definition CustodyCreationV2Request_new (context : MessageContext) (runtime : RuntimeDescriptor)
    (terms : WitnessedLezAssetTermsV2) (target : FinalizedWitnessedAssetTransactionTargetV2)
    (window : DiscoveryWindow)
    : result ClassifyFinalizedWitnessedAssetCustodyCreationV2Request ProtocolValueError :=
  let? _ := ensure_custom_token_terms terms in
  Ok {| creation_request_context := context; creation_request_runtime := runtime;
        creation_request_terms := terms; creation_request_target := target;
        creation_request_window := window |}.

(** ** Claim results *)

Record ClassifyFinalizedWitnessedAssetClaimV2Request := {
  claim_request_context : MessageContext;
  claim_request_runtime : RuntimeDescriptor;
  claim_request_terms : WitnessedLezAssetTermsV2;
  claim_request_claim : PreparedWitnessedClaim;
  claim_request_target : FinalizedWitnessedAssetTransactionTargetV2;
  claim_request_window : DiscoveryWindow
}.

Record ClassifyFinalizedWitnessedAssetClaimV2Result := {
  claim_context : MessageContext;
  claim_terms : WitnessedLezAssetTermsV2;
  claim_claim : PreparedWitnessedClaim;
  claim_target : FinalizedWitnessedAssetTransactionTargetV2;
  claim_outcome : FinalizedWitnessedAssetScanOutcomeV2 FinalizedWitnessedAssetClaimFactsV2
}.

Definition validate_claim_classification_result
    (self : ClassifyFinalizedWitnessedAssetClaimV2Result) : result unit ProtocolValueError :=
  match self.(claim_outcome) with
  | Outcome_Found finalized_clock scanned_window facts =>
      let? _ := validate_scan_coverage finalized_clock scanned_window in
      let? _ := validate_finalized_placement facts.(claim_transaction)
                  facts.(claim_containing_block) finalized_clock scanned_window in
      let? _ := validate_exact_target self.(claim_target) facts.(claim_transaction) in
      let? _ := validate_asset_state self.(claim_terms) facts.(claim_metadata)
                  facts.(claim_custody) (Some State_Claimed) (Some (NativeAmount_new 0)) in
      let? _ := validate_claim_facts self.(claim_terms) facts.(claim_instruction)
                  facts.(claim_metadata) in
      let? _ := ensure (facts.(claim_instruction).(claim_transcript) ==? self.(claim_claim))
                  "claim transcript" in
      validate_authority_signer self.(claim_terms) facts.(claim_transaction)
  | Outcome_Absent finalized_clock scanned_window
  | Outcome_Uncertain finalized_clock scanned_window =>
      validate_scan_coverage finalized_clock scanned_window
  | Outcome_Unavailable _ => Ok tt
  end.

Section claim_results.
Variables (context : MessageContext) (terms : WitnessedLezAssetTermsV2)
  (claim : PreparedWitnessedClaim) (target : FinalizedWitnessedAssetTransactionTargetV2).

Definition claim_result
    (outcome : FinalizedWitnessedAssetScanOutcomeV2 FinalizedWitnessedAssetClaimFactsV2)
    : ClassifyFinalizedWitnessedAssetClaimV2Result :=
  {| claim_context := context; claim_terms := terms; claim_claim := claim;
     claim_target := target; claim_outcome := outcome |}.

Definition claim_found (finalized_clock : ChainClock) (scanned_window : DiscoveryWindow)
    (facts : FinalizedWitnessedAssetClaimFactsV2)
    : result ClassifyFinalizedWitnessedAssetClaimV2Result ProtocolValueError :=
  let self := claim_result (Outcome_Found finalized_clock scanned_window facts) in
  let? _ := validate_claim_classification_result self in
  Ok self.

Definition claim_absent (finalized_clock : ChainClock) (scanned_window : DiscoveryWindow)
    : result ClassifyFinalizedWitnessedAssetClaimV2Result ProtocolValueError :=
  let? _ := validate_scan_coverage finalized_clock scanned_window in
  Ok (claim_result (Outcome_Absent finalized_clock scanned_window)).

Definition claim_uncertain (finalized_clock : ChainClock) (scanned_window : DiscoveryWindow)
    : result ClassifyFinalizedWitnessedAssetClaimV2Result ProtocolValueError :=
  let? _ := validate_scan_coverage finalized_clock scanned_window in
  Ok (claim_result (Outcome_Uncertain finalized_clock scanned_window)).

Definition claim_unavailable (reason : FinalizedWitnessedAssetUnavailableReasonV2)
    : ClassifyFinalizedWitnessedAssetClaimV2Result :=
  claim_result (Outcome_Unavailable reason).
End claim_results.

Definition claim_deserialize (wire : ClassifyFinalizedWitnessedAssetClaimV2Result)
    : result ClassifyFinalizedWitnessedAssetClaimV2Result ProtocolValueError :=
  let? _ := validate_claim_classification_result wire in
  Ok wire.

(** The found-only result of the same claim. *)
Record ObserveFinalizedWitnessedAssetClaimV2Result := {
  observed_claim_context : MessageContext;
  observed_claim_terms : WitnessedLezAssetTermsV2;
  observed_claim_finalized_tip : ChainTip;
  observed_claim_claim : FinalizedWitnessedAssetClaimFactsV2
}.

Definition ObserveFinalizedWitnessedAssetClaimV2Result_new (context : MessageContext)
    (terms : WitnessedLezAssetTermsV2) (finalized_tip : ChainTip)
    (claim : FinalizedWitnessedAssetClaimFactsV2)
    : result ObserveFinalizedWitnessedAssetClaimV2Result ProtocolValueError :=
  let? _ := validate_asset_state terms claim.(claim_metadata) claim.(claim_custody)
              (Some State_Claimed) (Some (NativeAmount_new 0)) in
  let? _ := validate_claim_facts terms claim.(claim_instruction) claim.(claim_metadata) in
  Ok {| observed_claim_context := context; observed_claim_terms := terms;
        observed_claim_finalized_tip := finalized_tip; observed_claim_claim := claim |}.

(** ** Refund results *)

Record ObserveWitnessedAssetRefundV2Request := {
  refund_request_context : MessageContext;
  refund_request_runtime : RuntimeDescriptor;
  refund_request_terms : WitnessedLezAssetTermsV2;
  refund_request_target : NativeRefundObservationTarget
}.

Record ObserveWitnessedAssetRefundV2Result := {
  refund_context : MessageContext;
  refund_terms : WitnessedLezAssetTermsV2;
  refund_clock_before : ChainClock;
  refund_metadata : WitnessedEscrowMetadataFacts;
  refund_custody : WitnessedAssetCustodyFactsV2;
  refund_refund : WitnessedAssetRefundObservationV2;
  refund_clock_after : ChainClock
}.

Definition ObserveWitnessedAssetRefundV2Result_new (context : MessageContext)
    (terms : WitnessedLezAssetTermsV2) (clock_before : ChainClock)
    (metadata : WitnessedEscrowMetadataFacts) (custody : WitnessedAssetCustodyFactsV2)
    (refund : WitnessedAssetRefundObservationV2) (clock_after : ChainClock)
    : result ObserveWitnessedAssetRefundV2Result ProtocolValueError :=
  let found := match refund with Refund_Found _ => true | _ => false end in
  let? _ := validate_asset_state terms metadata custody
              (if found then Some State_Refunded else None)
              (if found then Some (NativeAmount_new 0) else None) in
  let? _ :=
    match refund with
    | Refund_Found facts => validate_refund_facts terms facts.(refund_instruction) metadata
    | _ => Ok tt
    end in
  Ok {| refund_context := context; refund_terms := terms; refund_clock_before := clock_before;
        refund_metadata := metadata; refund_custody := custody; refund_refund := refund;
        refund_clock_after := clock_after |}.

(** ** Preparation plans *)

Record PrepareWitnessedAssetEscrowV2Result := {
  prepare_context : MessageContext;
  prepare_terms : WitnessedLezAssetTermsV2;
  prepare_effects : list WitnessedAssetPreparedEffectV2
}.

Definition PrepareWitnessedAssetEscrowV2Result_new (context : MessageContext)
    (terms : WitnessedLezAssetTermsV2) (effects : list WitnessedAssetPreparedEffectV2)
    : result PrepareWitnessedAssetEscrowV2Result ProtocolValueError :=
  let? _ := validate_prepare_steps terms (map prepared_step effects) in
  Ok {| prepare_context := context; prepare_terms := terms; prepare_effects := effects |}.

Record ObserveWitnessedAssetEscrowV2Request := {
  escrow_request_context : MessageContext;
  escrow_request_runtime : RuntimeDescriptor;
  escrow_request_terms : WitnessedLezAssetTermsV2;
  escrow_request_prepared_effects : list WitnessedAssetPreparedEffectV2;
  escrow_request_window : DiscoveryWindow
}.

Definition ObserveWitnessedAssetEscrowV2Request_new (context : MessageContext)
    (runtime : RuntimeDescriptor) (terms : WitnessedLezAssetTermsV2)
    (prepared_effects : list WitnessedAssetPreparedEffectV2) (window : DiscoveryWindow)
    : result ObserveWitnessedAssetEscrowV2Request ProtocolValueError :=
  let? _ := validate_prepare_steps terms (map prepared_step prepared_effects) in
  Ok {| escrow_request_context := context; escrow_request_runtime := runtime;
        escrow_request_terms := terms; escrow_request_prepared_effects := prepared_effects;
        escrow_request_window := window |}.

Record ObserveWitnessedAssetEscrowV2Result := {
  escrow_context : MessageContext;
  escrow_terms : WitnessedLezAssetTermsV2;
  escrow_tip_before : ChainTip;
  escrow_effects : list WitnessedAssetObservedPrepareEffectV2;
  escrow_metadata : WitnessedEscrowMetadataFacts;
  escrow_custody : WitnessedAssetCustodyFactsV2;
  escrow_tip_after : ChainTip
}.

Definition ObserveWitnessedAssetEscrowV2Result_new (context : MessageContext)
    (terms : WitnessedLezAssetTermsV2) (tip_before : ChainTip)
    (effects : list WitnessedAssetObservedPrepareEffectV2)
    (metadata : WitnessedEscrowMetadataFacts) (custody : WitnessedAssetCustodyFactsV2)
    (tip_after : ChainTip) : result ObserveWitnessedAssetEscrowV2Result ProtocolValueError :=
  let? _ := validate_asset_state terms metadata custody (Some State_Funded)
              (Some (asset_amount terms)) in
  let? _ := validate_observed_prepare_effects terms effects metadata in
  Ok {| escrow_context := context; escrow_terms := terms; escrow_tip_before := tip_before;
        escrow_effects := effects; escrow_metadata := metadata; escrow_custody := custody;
        escrow_tip_after := tip_after |}.
