(* ===== verification/AssetEvidenceFacts.v ===== *)
(** * What accepted evidence says

    The state facts a validated message carries are determined by the terms: the
    exact metadata the escrow program writes for them, and a custody of the
    agreed asset. *)

From stdpp Require Import base gmap strings list numbers.
From S2P Require Import Prelude SwapCore BridgeValues AssetEvidence.

Open Scope Z_scope.

Lemma ensure_Ok condition field u : ensure condition field = Ok u ↔ condition = true.
Proof. destruct u, condition; cbn; split; done. Qed.

(** The first of several checks. *)
Lemma check_bind_Ok {A E : Type} (r : result unit E) (k : unit → result A E) a :
  (let? u := r in k u) = Ok a ↔ r = Ok tt ∧ k tt = Ok a.
Proof. destruct r as [[]|e]; cbn; split; [done| |by intros|]; by intros [??]. Qed.

Lemma ensure_bind_Ok {A : Type} condition field (k : unit → result A ProtocolValueError) a :
  (let? u := ensure condition field in k u) = Ok a ↔ condition = true ∧ k tt = Ok a.
Proof. by rewrite check_bind_Ok, ensure_Ok. Qed.

Lemma account_list_eq (ids : AccountIds) (l : list Hex32) :
  (AccountIds_as_slice ids ==? l)%rust = true ↔ ids = {| AccountIds_as_slice := l |}.
Proof. rewrite bool_decide_eq_true. destruct ids; cbn. naive_solver. Qed.

(** The state facts of an escrow under the terms, from the accounts it uses. *)
Definition asset_facts (terms : WitnessedLezAssetTermsV2)
    (account_id owner_program_id custody_id : Hex32) (status : EscrowState)
    (balance : NativeAmount) : WitnessedEscrowMetadataFacts * WitnessedAssetCustodyFactsV2 :=
  match terms.(terms_asset) with
  | Asset_Native native =>
      (from_witnessed_native_terms account_id owner_program_id custody_id native status,
       Custody_Native
         {| custody_account_id := custody_id;
            custody_owner_program_id := native.(witnessed_authenticated_transfer_program_id);
            custody_balance := balance |})
  | Asset_CustomToken token =>
      (from_witnessed_token_terms account_id owner_program_id token status,
       Custody_CustomToken
         {| holding_account_id := token.(token_custody_ata_account_id);
            holding_owner_program_id := token.(token_program_id);
            holding_token_definition_account_id := token.(token_definition_account_id);
            holding_balance := balance |})
  end.

(** State facts are accepted for given terms, status and balance if and only
    if they are, field by field, the metadata the escrow program writes for the
    terms in that status and a custody of the agreed asset with that balance;
    only the address of the metadata, the escrow program and, for the native
    asset, the custody's address are left open, and the two places that name
    the custody agree. *)
Lemma asset_state_accepted_iff terms metadata custody status balance :
  validate_asset_state terms metadata custody (Some status) (Some balance) = Ok tt ↔
  ∃ custody_id,
    (metadata, custody)
    = asset_facts terms metadata.(facts_account_id) metadata.(facts_owner_program_id)
        custody_id status balance.
Proof.
  unfold validate_asset_state, asset_facts. rewrite !ensure_bind_Ok, Z.eqb_eq, bool_decide_eq_true.
  destruct (terms_asset terms) as [t|t], custody as [c|c];
    try (split; [by intros (?&?&?)|by intros (?&[=])]).
  - unfold validate_native_asset_state.
    rewrite !ensure_bind_Ok, ensure_Ok, !andb_true_iff, !bool_decide_eq_true, !Z.eqb_eq.
    destruct metadata, c; cbn. split.
    + intros; destruct_and!; subst. by eexists.
    + intros (?&[=]); subst. by repeat split.
  - unfold validate_token_asset_state.
    rewrite !ensure_bind_Ok, ensure_Ok, !andb_true_iff, !bool_decide_eq_true, !Z.eqb_eq.
    destruct metadata, c; cbn. split.
    + intros; destruct_and!; subst. by exists zero_hex32.
    + intros (?&[=]); subst. by repeat split.
Qed.

(** Facts with the right balance pass where the balance is not asked for. *)
Lemma asset_state_any_balance terms metadata custody status balance :
  validate_asset_state terms metadata custody status (Some balance) = Ok tt →
  validate_asset_state terms metadata custody status None = Ok tt.
Proof.
  unfold validate_asset_state. rewrite !ensure_bind_Ok, !check_bind_Ok. intros (Hv&Hs&Hr).
  split_and!; try done. destruct (terms_asset terms), custody; try done;
    unfold validate_native_asset_state, validate_token_asset_state in *;
    rewrite !ensure_bind_Ok in *; naive_solver.
Qed.

(** ** Where an effect is *)

(** The finalized clock covers the window; the transaction is public, in a block
    of the window with the hash of the reported block, and not younger than the
    clock. *)
Definition placed (transaction : ObservedTransactionFacts) (block : FinalizedBlockIdentity)
    (clock : ChainClock) (window : DiscoveryWindow) : Prop :=
  window_end_height window ≤ clock.(clock_height) ∧
  transaction.(observed_is_public) = true ∧
  window.(window_start_height) ≤ transaction.(observed_position).(position_height)
    ≤ window_end_height window ∧
  transaction.(observed_position).(position_block_hash) = block.(identity_block_hash) ∧
  block.(identity_timestamp_ms) ≤ clock.(clock_timestamp_ms).

Definition targeted (target : FinalizedWitnessedAssetTransactionTargetV2)
    (transaction : ObservedTransactionFacts) : Prop :=
  match target with
  | Target_Exact exact =>
      transaction.(observed_transaction_id) = exact.(prepared_transaction_id) ∧
      transaction.(observed_exact_bytes) = exact.(prepared_exact_bytes)
  | Target_DiscoverByTerms => True
  end.

Lemma placement_Ok transaction block clock window {A : Type} k (a : A) :
  (let? _ := validate_scan_coverage clock window in
   let? u := validate_finalized_placement transaction block clock window in k u) = Ok a ↔
  placed transaction block clock window ∧ k tt = Ok a.
Proof.
  unfold validate_scan_coverage, validate_finalized_placement, placed.
  rewrite ensure_bind_Ok, check_bind_Ok, !ensure_bind_Ok, ensure_Ok, !andb_true_iff, !Z.leb_le, bool_decide_eq_true.
  naive_solver lia.
Qed.

Lemma target_Ok target transaction {A : Type} k (a : A) :
  (let? u := validate_exact_target target transaction in k u) = Ok a ↔
  targeted target transaction ∧ k tt = Ok a.
Proof.
  unfold validate_exact_target, targeted. rewrite check_bind_Ok. f_equiv.
  destruct target as [exact|]; [|done]. by rewrite ensure_bind_Ok, ensure_Ok, !bool_decide_eq_true.
Qed.

Lemma state_Ok terms metadata custody status balance {A : Type} k (a : A) :
  (let? u := validate_asset_state terms metadata custody (Some status) (Some balance) in k u)
    = Ok a ↔
  (∃ custody_id,
    (metadata, custody)
    = asset_facts terms metadata.(facts_account_id) metadata.(facts_owner_program_id)
        custody_id status balance) ∧ k tt = Ok a.
Proof. by rewrite <- asset_state_accepted_iff, check_bind_Ok. Qed.

(** ** Accounts and signers of the effects *)

Definition claim_accounts (terms : WitnessedLezAssetTermsV2) (metadata custody : Hex32)
    : list Hex32 :=
  match terms.(terms_asset) with
  | Asset_Native t =>
      [metadata; custody; t.(witnessed_claimant_account_id);
       t.(witnessed_aggregate_authority_account_id)]
  | Asset_CustomToken t =>
      [metadata; t.(token_custody_ata_account_id); t.(token_claimant_owner_account_id);
       t.(token_claimant_ata_account_id); t.(token_aggregate_authority_account_id)]
  end.

Definition effect_accounts (terms : WitnessedLezAssetTermsV2)
    (step : WitnessedAssetPrepareStepV2) (metadata custody : Hex32) : list Hex32 :=
  match terms.(terms_asset), step with
  | Asset_Native t, InitializeWitnessed =>
      [metadata; custody; t.(witnessed_depositor_account_id); t.(witnessed_claimant_account_id);
       t.(witnessed_aggregate_authority_account_id)]
  | Asset_Native t, Fund => [metadata; custody; t.(witnessed_depositor_account_id)]
  | Asset_Native _, CreateCustodyAta => []
  | Asset_CustomToken t, InitializeWitnessed =>
      [metadata; t.(token_depositor_owner_account_id); t.(token_claimant_owner_account_id);
       t.(token_definition_account_id); t.(token_aggregate_authority_account_id)]
  | Asset_CustomToken t, CreateCustodyAta =>
      [metadata; t.(token_definition_account_id); t.(token_custody_ata_account_id)]
  | Asset_CustomToken t, Fund =>
      [metadata; t.(token_depositor_owner_account_id); t.(token_depositor_ata_account_id);
       t.(token_custody_ata_account_id)]
  end.

Definition claim_authority_of (terms : WitnessedLezAssetTermsV2) : Hex32 :=
  match terms.(terms_asset) with
  | Asset_Native t => t.(witnessed_aggregate_authority_account_id)
  | Asset_CustomToken t => t.(token_aggregate_authority_account_id)
  end.

Definition depositor_of (terms : WitnessedLezAssetTermsV2) : Hex32 :=
  match terms.(terms_asset) with
  | Asset_Native t => t.(witnessed_depositor_account_id)
  | Asset_CustomToken t => t.(token_depositor_owner_account_id)
  end.

(** The open fields of state facts, read back. *)
Lemma asset_facts_fields terms metadata custody m p c status balance :
  (metadata, custody) = asset_facts terms m p c status balance →
  metadata.(facts_account_id) = m ∧ metadata.(facts_owner_program_id) = p ∧
  (∀ x, claim_accounts terms x metadata.(facts_custody_account_id) = claim_accounts terms x c) ∧
  (∀ step x, effect_accounts terms step x metadata.(facts_custody_account_id)
             = effect_accounts terms step x c).
Proof.
  unfold asset_facts, claim_accounts, effect_accounts.
  destruct (terms_asset terms); by intros [= -> ->].
Qed.

Lemma claim_facts_Ok terms instruction metadata {A : Type} k (a : A) :
  (let? u := validate_claim_facts terms instruction metadata in k u) = Ok a ↔
  (instruction.(claim_program_id) = metadata.(facts_owner_program_id) ∧
   instruction.(claim_swap_id) = metadata.(facts_swap_id) ∧
   instruction.(claim_ordered_account_ids).(AccountIds_as_slice)
   = claim_accounts terms metadata.(facts_account_id) metadata.(facts_custody_account_id)) ∧
  k tt = Ok a.
Proof.
  unfold validate_claim_facts, claim_accounts.
  by rewrite check_bind_Ok, !ensure_bind_Ok, ensure_Ok, !bool_decide_eq_true.
Qed.

Lemma authority_signer_Ok terms transaction :
  validate_authority_signer terms transaction = Ok tt ↔
  transaction.(observed_signer_account_ids)
  = {| AccountIds_as_slice := [claim_authority_of terms] |}.
Proof.
  unfold validate_authority_signer, claim_authority_of.
  destruct (terms_asset terms); by rewrite ensure_Ok, account_list_eq.
Qed.

Lemma depositor_signer_Ok terms transaction :
  validate_depositor_signer terms transaction = Ok tt ↔
  transaction.(observed_signer_account_ids)
  = {| AccountIds_as_slice := [depositor_of terms] |}.
Proof.
  unfold validate_depositor_signer, depositor_of.
  destruct (terms_asset terms); by rewrite ensure_Ok, account_list_eq.
Qed.

Lemma effect_instruction_Ok terms metadata instruction step {A : Type} k (a : A) :
  (∀ t, terms.(terms_asset) = Asset_Native t → step ≠ CreateCustodyAta) →
  (let? u := validate_asset_effect_instruction terms metadata instruction step in k u) = Ok a ↔
  (instruction.(effect_step) = step ∧
   instruction.(effect_program_id) = metadata.(facts_owner_program_id) ∧
   instruction.(effect_swap_id) = metadata.(facts_swap_id) ∧
   instruction.(effect_ordered_account_ids).(AccountIds_as_slice)
   = effect_accounts terms step metadata.(facts_account_id)
       metadata.(facts_custody_account_id)) ∧
  k tt = Ok a.
Proof.
  intros Hn. unfold validate_asset_effect_instruction, effect_accounts.
  destruct (terms_asset terms) as [t|t]; [specialize (Hn t eq_refl)|clear Hn];
    destruct step; try done;
    cbn [result_bind]; by rewrite check_bind_Ok, !ensure_bind_Ok, ensure_Ok, !bool_decide_eq_true.
Qed.

(** Evidence of a claim is accepted if and only if it places a public
    transaction, the requested one if one was requested, in a block of a
    completely finalized window; reports the claimed metadata and the emptied
    custody of exactly these terms; and shows the claim instruction of the
    escrow program that owns the metadata, with its accounts in order, the
    agreed transcript, and the aggregate authority as its only signer. *)
Theorem claim_evidence_accepted_iff context terms claim target clock window facts :
  let self := claim_result context terms claim target (Outcome_Found clock window facts) in
  claim_deserialize self = Ok self ↔
  placed facts.(claim_transaction) facts.(claim_containing_block) clock window ∧
  targeted target facts.(claim_transaction) ∧
  ∃ metadata_id program custody_id,
    (facts.(claim_metadata), facts.(claim_custody))
    = asset_facts terms metadata_id program custody_id State_Claimed (NativeAmount_new 0) ∧
    facts.(claim_instruction)
    = {| claim_program_id := program;
         claim_ordered_account_ids :=
           {| AccountIds_as_slice := claim_accounts terms metadata_id custody_id |};
         claim_swap_id := facts.(claim_metadata).(facts_swap_id);
         claim_transcript := claim |} ∧
    facts.(claim_transaction).(observed_signer_account_ids)
    = {| AccountIds_as_slice := [claim_authority_of terms] |}.
Proof.
  intros self. unfold claim_deserialize, validate_claim_classification_result.
  cbn [self claim_result claim_outcome claim_target claim_terms claim_claim].
  rewrite check_bind_Ok, placement_Ok, target_Ok, state_Ok, claim_facts_Ok, ensure_bind_Ok,
    bool_decide_eq_true, authority_signer_Ok.
  split.
  - intros ((Hpl&Ht&(c&Hs)&(Hp&Hi&Ha)&Hc&Hsign)&_). do 2 (split; [done|]). eexists _, _, c. split; [exact Hs|]. split; [|done].
    destruct (asset_facts_fields _ _ _ _ _ _ _ _ Hs) as (_&_&Hacc&_). rewrite Hacc in Ha.
    destruct (claim_instruction facts) as [? [] ? ?]; cbn in *. by subst.
  - intros (Hpl&Ht&m&p&c&Hs&Hi&Hsign).
    destruct (asset_facts_fields _ _ _ _ _ _ _ _ Hs) as (<-&<-&Hacc&_).
    rewrite Hi; cbn. rewrite Hacc. split_and!; eauto.
Qed.
