(* ===== verification/MakerMarket.v ===== *)
(** * The maker's routes, prices and offers

    The values of [crates/swap-store/src/maker_application.rs] and
    [maker_offer.rs]: the route policies and exact lot prices a maker
    configures, the immutable offers it publishes from them and the proposals
    staged against an offer, each with the validation the code applies to a
    value it builds or reads back.  [MakerStore] keeps them durably. *)

From stdpp Require Import base strings list numbers.
From S2P Require Import Prelude SwapCore BridgeValues.

Open Scope Z_scope.

(** ** Errors *)

Inductive MakerConfigurationError :=
| UnsupportedRouteDirection
| InvalidAmountBounds
| InvalidOfferTtl
| InvalidLocalPrice.

Inductive MakerOfferError :=
| InvalidOfferIdentifier
| InvalidTime
| InvalidSnapshot
| AmountOutOfBounds
| NonIntegralPrice
| InvalidNegotiation.

Definition MAXIMUM_OFFER_TTL_SECONDS : Z := 86400.
Definition MAX_LOGOS_QUOTE_AGE_SECONDS : Z := 3600.
Definition MAXIMUM_ZEC_PROPOSAL_BYTES : Z := 16 * 1024.

(** ** Routes and policies *)

Inductive MakerPriceSourceKind := Price_Local | Price_LogosCApi.

#[global] Instance MakerPriceSourceKind_eq_dec : EqDecision MakerPriceSourceKind.
Proof. solve_decision. Defined.

Record MakerRouteV1 := { route_pair : Pair; route_direction : SwapDirection }.

#[global] Instance MakerRouteV1_eq_dec : EqDecision MakerRouteV1.
Proof. solve_decision. Defined.

Definition MakerRouteV1_validate (route : MakerRouteV1) : result unit MakerConfigurationError :=
  if (route_pair route ==? Pair_Monero) && (route_direction route ==? TakerSellsForeign)
  then Err UnsupportedRouteDirection
  else Ok tt.

Definition MakerRouteV1_new (pair : Pair) (direction : SwapDirection)
    : result MakerRouteV1 MakerConfigurationError :=
  let route := {| route_pair := pair; route_direction := direction |} in
  let? _ := MakerRouteV1_validate route in
  Ok route.

Record MakerPairConfigurationV1 := {
  cfg_route : MakerRouteV1;
  cfg_enabled : bool;
  cfg_price_source : MakerPriceSourceKind;
  cfg_minimum_foreign_units : Z;
  cfg_maximum_foreign_units : Z;
  cfg_offer_ttl_seconds : Z
}.

#[global] Instance MakerPairConfigurationV1_eq_dec : EqDecision MakerPairConfigurationV1.
Proof. solve_decision. Defined.

Definition MakerPairConfigurationV1_validate (c : MakerPairConfigurationV1)
    : result unit MakerConfigurationError :=
  let? _ := MakerRouteV1_validate (cfg_route c) in
  if (cfg_minimum_foreign_units c =? 0)
     || (cfg_maximum_foreign_units c <? cfg_minimum_foreign_units c)
  then Err InvalidAmountBounds else
  if negb ((1 <=? cfg_offer_ttl_seconds c)
           && (cfg_offer_ttl_seconds c <=? MAXIMUM_OFFER_TTL_SECONDS))
  then Err InvalidOfferTtl else
  Ok tt.

Definition MakerPairConfigurationV1_new (route : MakerRouteV1) (enabled : bool)
    (price_source : MakerPriceSourceKind) (minimum maximum ttl : Z)
    : result MakerPairConfigurationV1 MakerConfigurationError :=
  let configuration := {| cfg_route := route; cfg_enabled := enabled;
    cfg_price_source := price_source; cfg_minimum_foreign_units := minimum;
    cfg_maximum_foreign_units := maximum; cfg_offer_ttl_seconds := ttl |} in
  let? _ := MakerPairConfigurationV1_validate configuration in
  Ok configuration.

(** ** Prices *)

(** The loop [while right != 0]; [None] when [fuel] iterations do not end it. *)
Fixpoint gcd_loop (fuel : nat) (left right : Z) : option Z :=
  if right =? 0 then Some left else
  match fuel with
  | O => None
  | S fuel => gcd_loop fuel right (left mod right)
  end.

(** Two iterations at least halve the smaller operand: 128 end the loop on any
    operands of 64 bits. *)
Definition gcd_fuel : nat := 128.

Definition greatest_common_divisor (left right : Z) : option Z := gcd_loop gcd_fuel left right.

Record LocalPriceV1 := {
  price_route : MakerRouteV1;
  lez_units_per_lot : Z;
  foreign_units_per_lot : Z
}.

#[global] Instance LocalPriceV1_eq_dec : EqDecision LocalPriceV1.
Proof. solve_decision. Defined.

Definition LocalPriceV1_validate (p : LocalPriceV1) : result unit MakerConfigurationError :=
  let? _ := MakerRouteV1_validate (price_route p) in
  if (lez_units_per_lot p =? 0) || (foreign_units_per_lot p =? 0)
     || (i64_max <? lez_units_per_lot p) || (i64_max <? foreign_units_per_lot p)
     || (greatest_common_divisor (lez_units_per_lot p) (foreign_units_per_lot p) !=? Some 1)
  then Err InvalidLocalPrice
  else Ok tt.

Definition LocalPriceV1_new (route : MakerRouteV1) (lez foreign : Z)
    : result LocalPriceV1 MakerConfigurationError :=
  let price := {| price_route := route; lez_units_per_lot := lez;
                  foreign_units_per_lot := foreign |} in
  let? _ := LocalPriceV1_validate price in
  Ok price.

(** ** Offers *)

Record MakerOfferId := { MakerOfferId_as_str : string }.

#[global] Instance MakerOfferId_eq_dec : EqDecision MakerOfferId.
Proof. solve_decision. Defined.

(** The grammar is the one of the bridge protocol's identifiers. *)
Definition MakerOfferId_new (value : string) : result MakerOfferId MakerOfferError :=
  if safe_identifier value then Ok {| MakerOfferId_as_str := value |}
  else Err InvalidOfferIdentifier.

Inductive MakerOfferStatus :=
| Offer_Active | Offer_Expired | Offer_Reserved | Offer_Consumed | Offer_Withdrawn.

#[global] Instance MakerOfferStatus_eq_dec : EqDecision MakerOfferStatus.
Proof. solve_decision. Defined.

Record MakerOfferV1 := {
  offer_id : MakerOfferId;
  offer_configuration : MakerPairConfigurationV1;
  offer_price : LocalPriceV1;
  offer_configuration_revision : Z;
  offer_price_revision : Z;
  offer_price_observed_at : Z;
  offer_price_identity : option bytes;
  offer_created_at : Z;
  offer_expires_at : Z
}.

#[global] Instance MakerOfferV1_eq_dec : EqDecision MakerOfferV1.
Proof. solve_decision. Defined.

Definition offer_route (o : MakerOfferV1) : MakerRouteV1 := cfg_route (offer_configuration o).

(** Dividing by a lot of zero foreign units panics ([None]). *)
Definition quote_foreign_amount (o : MakerOfferV1) (foreign_units : Z)
    : option (result Z MakerOfferError) :=
  if (foreign_units <? cfg_minimum_foreign_units (offer_configuration o))
     || (cfg_maximum_foreign_units (offer_configuration o) <? foreign_units)
  then Some (Err AmountOutOfBounds) else
  match checked_mul u128_max foreign_units (lez_units_per_lot (offer_price o)) with
  | None => Some (Err InvalidSnapshot)
  | Some numerator =>
      let denominator := foreign_units_per_lot (offer_price o) in
      if denominator =? 0 then None else
      if negb (numerator mod denominator =? 0) then Some (Err NonIntegralPrice)
      else Some (Ok (numerator / denominator))
  end.

Definition valid_observation_time (o : MakerOfferV1) : bool :=
  match cfg_price_source (offer_configuration o) with
  | Price_Local =>
      (offer_price_identity o ==? None) && (offer_price_observed_at o =? offer_created_at o)
  | Price_LogosCApi =>
      match offer_price_identity o with Some source => source !=? zero32 | None => false end
      && (0 <? offer_price_observed_at o)
      && (offer_price_observed_at o <=? offer_created_at o)
      && (offer_created_at o - offer_price_observed_at o <=? MAX_LOGOS_QUOTE_AGE_SECONDS)
  end.

Definition MakerOfferV1_validate (o : MakerOfferV1) : result unit MakerOfferError :=
  let? _ := MakerOfferId_new (MakerOfferId_as_str (offer_id o)) in
  let c := offer_configuration o in
  let? validated_policy := map_err (MakerPairConfigurationV1_new (cfg_route c) (cfg_enabled c)
    (cfg_price_source c) (cfg_minimum_foreign_units c) (cfg_maximum_foreign_units c)
    (cfg_offer_ttl_seconds c)) (λ _, InvalidSnapshot) in
  if (validated_policy !=? c) || negb (cfg_enabled c)
     || (price_route (offer_price o) !=? offer_route o)
     || (offer_configuration_revision o =? 0) || (offer_price_revision o =? 0)
     || negb (valid_observation_time o)
  then Err InvalidSnapshot else
  if (offer_expires_at o <=? offer_created_at o) || (i64_max <? offer_expires_at o)
     || negb (offer_expires_at o - offer_created_at o =? cfg_offer_ttl_seconds c)
  then Err InvalidTime else
  let? _ := map_err (LocalPriceV1_new (price_route (offer_price o))
    (lez_units_per_lot (offer_price o)) (foreign_units_per_lot (offer_price o)))
    (λ _, InvalidSnapshot) in
  Ok tt.

Record MakerOfferRecordV1 := {
  rec_revision : Z;
  rec_status : MakerOfferStatus;
  rec_offer : MakerOfferV1;
  rec_reservation_id : option RequestId;
  rec_swap_id : option string
}.

Record MakerOfferCommit := { commit_revision : Z; commit_was_replay : bool }.

Inductive MakerOfferPublicationPreflight :=
| Preflight_Replayed (commit : MakerOfferCommit)
| Preflight_Pending (pair_configuration_revision : Z) (price_source : MakerPriceSourceKind).

(** ** Staged Zcash proposals *)

Inductive MakerZecNegotiationStatus := Negotiation_Proposed | Negotiation_Completed.

#[global] Instance MakerZecNegotiationStatus_eq_dec : EqDecision MakerZecNegotiationStatus.
Proof. solve_decision. Defined.

Record MakerZecNegotiationV1 := {
  zn_reservation_id : RequestId;
  zn_offer_commitment : bytes;
  zn_maker_chat_identity : bytes;
  zn_taker_chat_identity : bytes;
  zn_foreign_units : Z;
  zn_lez_units : Z;
  zn_reserved_at : Z;
  zn_agreement_commitment : bytes;
  zn_maker_proposal_wire : bytes;
  zn_status : MakerZecNegotiationStatus;
  zn_final_agreement_wire : option bytes;
  zn_swap_id : option string
}.

Definition MakerZecNegotiationV1_validate (n : MakerZecNegotiationV1)
    : result unit MakerOfferError :=
  if (zn_offer_commitment n ==? zero32) || (zn_agreement_commitment n ==? zero32)
     || (zn_maker_chat_identity n ==? zeros 33) || (zn_taker_chat_identity n ==? zeros 33)
     || (zn_maker_chat_identity n ==? zn_taker_chat_identity n)
     || (zn_foreign_units n =? 0) || (zn_lez_units n =? 0)
     || (zn_reserved_at n =? 0) || (i64_max <? zn_reserved_at n)
     || (blen (zn_maker_proposal_wire n) =? 0)
     || (MAXIMUM_ZEC_PROPOSAL_BYTES <? blen (zn_maker_proposal_wire n))
     || match zn_final_agreement_wire n with
        | Some wire => MAXIMUM_ZEC_PROPOSAL_BYTES <? blen wire
        | None => false
        end
  then Err InvalidNegotiation else
  match zn_status n, zn_final_agreement_wire n, zn_swap_id n with
  | Negotiation_Proposed, None, None => Ok tt
  | Negotiation_Completed, Some wire, Some _ =>
      if blen wire =? 0 then Err InvalidNegotiation else Ok tt
  | _, _, _ => Err InvalidNegotiation
  end.

Definition MakerZecNegotiationV1_proposed (reservation_id : RequestId)
    (offer_commitment maker_chat_identity taker_chat_identity : bytes)
    (foreign_units lez_units reserved_at : Z) (agreement_commitment wire : bytes)
    : result MakerZecNegotiationV1 MakerOfferError :=
  let value := {| zn_reservation_id := reservation_id;
    zn_offer_commitment := offer_commitment; zn_maker_chat_identity := maker_chat_identity;
    zn_taker_chat_identity := taker_chat_identity; zn_foreign_units := foreign_units;
    zn_lez_units := lez_units; zn_reserved_at := reserved_at;
    zn_agreement_commitment := agreement_commitment; zn_maker_proposal_wire := wire;
    zn_status := Negotiation_Proposed; zn_final_agreement_wire := None;
    zn_swap_id := None |} in
  let? _ := MakerZecNegotiationV1_validate value in
  Ok value.
