(* ===== verification/MakerMarketFacts.v ===== *)
(** * Facts on routes, prices and offers

    The loop that reduces a price ends on any two 64-bit operands and computes
    their greatest common divisor; a quote is exact, never rounds, never
    overflows and never divides by zero on a validated offer. *)

From stdpp Require Import base strings list numbers.
From S2P Require Import Prelude SwapCore BridgeValues MakerMarket.

Open Scope Z_scope.

(** ** Euclid's loop *)

Lemma gcd_step l r : Z.gcd r (l mod r) = Z.gcd l r.
Proof. rewrite (Z.gcd_comm r), Z.gcd_mod_l. by rewrite Z.gcd_comm. Qed.

(** Two iterations bring an operand below half of what it was. *)
Lemma mod_mod_half l r k :
  0 ≤ l → 0 < r < 2 ^ Z.of_nat (S k) → 0 < l mod r →
  0 ≤ r mod (l mod r) < 2 ^ Z.of_nat k.
Proof.
  intros Hl [Hr Hk] Hm. rewrite Nat2Z.inj_succ, Z.pow_succ_r in Hk by lia.
  pose proof (Z.mod_pos_bound l r Hr). pose proof (Z.mod_pos_bound r (l mod r) Hm).
  pose proof (Z.div_mod r (l mod r)). pose proof (Z.div_le_lower_bound r (l mod r) 1). nia.
Qed.

Lemma gcd_loop_done fuel l : gcd_loop fuel l 0 = Some l.
Proof. by destruct fuel. Qed.

Lemma gcd_loop_S fuel l r :
  r ≠ 0 → gcd_loop (S fuel) l r = gcd_loop fuel r (l mod r).
Proof. intros Hr. cbn. by rewrite (proj2 (Z.eqb_neq _ _) Hr). Qed.

(** [2 * k] iterations are enough for a second operand of [k] bits. *)
Lemma gcd_loop_enough k l r :
  0 ≤ l → 0 ≤ r < 2 ^ Z.of_nat k → gcd_loop (2 * k) l r = Some (Z.gcd l r).
Proof.
  revert l r. induction k as [|k IH]; intros l r Hl Hr.
  - assert (r = 0) as -> by (cbn in Hr; lia). rewrite Z.gcd_0_r, Z.abs_eq by done. done.
  - replace (2 * S k)%nat with (S (S (2 * k))) by lia.
    destruct (decide (r = 0)) as [->|Hr0].
    { rewrite gcd_loop_done, Z.gcd_0_r, Z.abs_eq by done. done. }
    pose proof (Z.mod_pos_bound l r ltac:(lia)).
    rewrite gcd_loop_S by done. destruct (decide (l mod r = 0)) as [Hm|Hm].
    { rewrite <- gcd_step, Hm, gcd_loop_done, Z.gcd_0_r, Z.abs_eq by lia. done. }
    rewrite gcd_loop_S, IH by (try apply mod_mod_half; lia).
    by rewrite gcd_step, gcd_step.
Qed.

(** C34: The loop of [greatest_common_divisor] ends within its fuel of 128
    iterations on any two [u64] operands, and returns their greatest common
    divisor. *)
Theorem greatest_common_divisor_terminates l r :
  in_range u64_max l → in_range u64_max r →
  greatest_common_divisor l r = Some (Z.gcd l r).
Proof.
  unfold in_range, u64_max. intros Hl Hr. apply (gcd_loop_enough 64); cbn; lia.
Qed.

(** The operands of the longest run below [2 ^ 64] are Fibonacci numbers. *)
Lemma greatest_common_divisor_terminates_witness :
  in_range u64_max 12200160415121876738 ∧ in_range u64_max 7540113804746346429 ∧
  gcd_loop 90 12200160415121876738 7540113804746346429 = None ∧
  greatest_common_divisor 12200160415121876738 7540113804746346429 = Some 1.
Proof.
  assert (H1 : in_range u64_max 12200160415121876738) by (unfold in_range, u64_max; lia).
  assert (H2 : in_range u64_max 7540113804746346429) by (unfold in_range, u64_max; lia).
  split; [done|]. split; [done|]. split; [vm_compute; reflexivity|].
  exact (greatest_common_divisor_terminates _ _ H1 H2).
Defined.

(** ** What validation means *)

Definition route_ok (r : MakerRouteV1) : Prop :=
  ¬ (route_pair r = Pair_Monero ∧ route_direction r = TakerSellsForeign).

Definition configuration_ok (c : MakerPairConfigurationV1) : Prop :=
  route_ok (cfg_route c) ∧ cfg_minimum_foreign_units c ≠ 0 ∧
  cfg_minimum_foreign_units c ≤ cfg_maximum_foreign_units c ∧
  1 ≤ cfg_offer_ttl_seconds c ≤ MAXIMUM_OFFER_TTL_SECONDS.

(** The fields of a price are [u64]. *)
Definition price_in_range (p : LocalPriceV1) : Prop :=
  in_range u64_max (lez_units_per_lot p) ∧ in_range u64_max (foreign_units_per_lot p).

Definition price_ok (p : LocalPriceV1) : Prop :=
  route_ok (price_route p) ∧ 0 < lez_units_per_lot p ≤ i64_max ∧
  0 < foreign_units_per_lot p ≤ i64_max ∧
  Z.gcd (lez_units_per_lot p) (foreign_units_per_lot p) = 1.

Lemma MakerRouteV1_validate_Ok r u : MakerRouteV1_validate r = Ok u ↔ route_ok r.
Proof.
  unfold MakerRouteV1_validate, route_ok. destruct u.
  case_bool_decide; [case_bool_decide|]; cbn; naive_solver.
Qed.

Lemma MakerPairConfigurationV1_validate_Ok c u :
  MakerPairConfigurationV1_validate c = Ok u ↔ configuration_ok c.
Proof.
  unfold MakerPairConfigurationV1_validate, configuration_ok. destruct u.
  rewrite result_bind_Ok. setoid_rewrite MakerRouteV1_validate_Ok. split.
  - intros (?&?&Hc). inv_ok Hc. bool_props. done.
  - intros (?&?&?&?&?). exists tt. split; [done|].
    rewrite (proj2 (Z.eqb_neq _ _)), (proj2 (Z.ltb_ge _ _)), !(proj2 (Z.leb_le _ _)) by done.
    done.
Qed.

Lemma MakerPairConfigurationV1_new_Ok c d :
  MakerPairConfigurationV1_new (cfg_route c) (cfg_enabled c) (cfg_price_source c)
    (cfg_minimum_foreign_units c) (cfg_maximum_foreign_units c) (cfg_offer_ttl_seconds c) = Ok d
  ↔ d = c ∧ configuration_ok c.
Proof.
  unfold MakerPairConfigurationV1_new. cbv zeta. rewrite result_bind_Ok.
  setoid_rewrite MakerPairConfigurationV1_validate_Ok. destruct c. split.
  - intros (?&?&[= <-]). done.
  - intros [-> ?]. by exists tt.
Qed.

Lemma LocalPriceV1_validate_Ok p u :
  price_in_range p → LocalPriceV1_validate p = Ok u ↔ price_ok p.
Proof.
  intros [Hl Hf]. unfold LocalPriceV1_validate, price_ok. destruct u.
  assert (Hg : greatest_common_divisor (lez_units_per_lot p) (foreign_units_per_lot p)
               = Some (Z.gcd (lez_units_per_lot p) (foreign_units_per_lot p)))
    by (apply (gcd_loop_enough 64); unfold in_range, u64_max in *; cbn; lia).
  rewrite Hg. unfold in_range in *. rewrite result_bind_Ok.
  setoid_rewrite MakerRouteV1_validate_Ok. split.
  - intros (?&?&Hc). inv_ok Hc. bool_props. simplify_eq. split_and!; try done; lia.
  - intros (?&?&?&?). exists tt. split; [done|].
    rewrite !(proj2 (Z.eqb_neq _ _)), !(proj2 (Z.ltb_ge _ _)), bool_decide_eq_true_2
      by (try lia; congruence). done.
Qed.

Lemma LocalPriceV1_new_Ok p q :
  price_in_range p →
  LocalPriceV1_new (price_route p) (lez_units_per_lot p) (foreign_units_per_lot p) = Ok q
  ↔ q = p ∧ price_ok p.
Proof.
  intros Hr. unfold LocalPriceV1_new. cbv zeta. rewrite result_bind_Ok.
  destruct p as [route l f]. setoid_rewrite LocalPriceV1_validate_Ok; [|done]. split.
  - intros (?&?&[= <-]). done.
  - intros [-> ?]. by exists tt.
Qed.

(** The fields of an offer are unsigned integers. *)
Definition offer_in_range (o : MakerOfferV1) : Prop :=
  price_in_range (offer_price o) ∧
  in_range u64_max (cfg_minimum_foreign_units (offer_configuration o)) ∧
  in_range u64_max (cfg_maximum_foreign_units (offer_configuration o)) ∧
  in_range u64_max (cfg_offer_ttl_seconds (offer_configuration o)) ∧
  in_range u64_max (offer_configuration_revision o) ∧
  in_range u64_max (offer_price_revision o) ∧
  in_range u64_max (offer_price_observed_at o) ∧
  in_range u64_max (offer_created_at o) ∧ in_range u64_max (offer_expires_at o).

Definition offer_ok (o : MakerOfferV1) : Prop :=
  safe_identifier (MakerOfferId_as_str (offer_id o)) = true ∧
  configuration_ok (offer_configuration o) ∧ cfg_enabled (offer_configuration o) = true ∧
  price_ok (offer_price o) ∧ price_route (offer_price o) = offer_route o ∧
  offer_configuration_revision o ≠ 0 ∧ offer_price_revision o ≠ 0 ∧
  valid_observation_time o = true ∧
  offer_expires_at o = offer_created_at o + cfg_offer_ttl_seconds (offer_configuration o) ∧
  offer_expires_at o ≤ i64_max.

Lemma MakerOfferV1_validate_Ok o u :
  offer_in_range o → MakerOfferV1_validate o = Ok u ↔ offer_ok o.
Proof.
  intros (Hp&_). unfold MakerOfferV1_validate, offer_ok, MakerOfferId_new. cbv zeta. destruct u.
  split.
  - intros Hv. inv_ok Hv. unfold map_err in *.
    repeat match goal with H : match ?r with _ => _ end = Ok _ |- _ =>
      destruct r eqn:?; [simplify_eq|done] end.
    rewrite MakerPairConfigurationV1_new_Ok in *. rewrite LocalPriceV1_new_Ok in * by done.
    destruct (safe_identifier _) eqn:?; [|done]. bool_props. destruct_and!. subst.
    split_and!; try done. lia.
  - intros (->&Hc&He&Hq&Hr&H1&H2&H3&H4&H5). cbn [result_bind].
    rewrite (proj2 (MakerPairConfigurationV1_new_Ok _ _) (conj eq_refl Hc)). cbn [map_err result_bind].
    rewrite (proj2 (LocalPriceV1_new_Ok _ _ Hp) (conj eq_refl Hq)).
    destruct Hc as (_&_&_&Httl).
    rewrite He, H3, H4, Hr, !bool_decide_eq_true_2, !(proj2 (Z.eqb_neq _ _)),
      (proj2 (Z.leb_gt _ _)), (proj2 (Z.ltb_ge _ _)), (proj2 (Z.eqb_eq _ _)) by (done || lia).
    done.
Qed.

(** ** Quotes *)

Lemma divide_coprime_lot a f l : 0 < f → Z.gcd l f = 1 → (a * l) mod f = 0 ↔ (f | a).
Proof.
  intros Hf Hg. rewrite Z.mod_divide by lia. split.
  - rewrite Z.mul_comm. intros Hd. apply (Z.gauss f l a Hd). by rewrite Z.gcd_comm.
  - apply Z.divide_mul_l.
Qed.

(** C33: On a validated offer a quote never panics and never overflows: it is the
    exact LEZ amount of the selected number of whole lots, the amount is refused
    when it is outside the offer's bounds, and otherwise refused only when it is
    not a whole number of lots. *)
Theorem quote_exact o units :
  offer_in_range o → MakerOfferV1_validate o = Ok tt → in_range u64_max units →
  ∃ r, quote_foreign_amount o units = Some r ∧
  match r with
  | Ok q =>
      cfg_minimum_foreign_units (offer_configuration o) ≤ units
        ≤ cfg_maximum_foreign_units (offer_configuration o) ∧
      ∃ lots, units = lots * foreign_units_per_lot (offer_price o) ∧
              q = lots * lez_units_per_lot (offer_price o) ∧ 0 < q ≤ u128_max
  | Err AmountOutOfBounds =>
      ¬ (cfg_minimum_foreign_units (offer_configuration o) ≤ units
         ≤ cfg_maximum_foreign_units (offer_configuration o))
  | Err NonIntegralPrice =>
      cfg_minimum_foreign_units (offer_configuration o) ≤ units
        ≤ cfg_maximum_foreign_units (offer_configuration o) ∧
      ¬ (foreign_units_per_lot (offer_price o) | units)
  | Err _ => False
  end.
Proof.
  intros Hr Hv Hu. apply MakerOfferV1_validate_Ok in Hv; [|done].
  destruct Hv as (_&(_&Hmin&_&_)&_&(_&Hl&Hf&Hg)&_). destruct Hr as (_&Hmr&_).
  unfold quote_foreign_amount, checked_mul, in_range, i64_max, u64_max, u128_max in *.
  set (l := lez_units_per_lot (offer_price o)) in *.
  set (f := foreign_units_per_lot (offer_price o)) in *.
  destruct (Z.ltb_spec units (cfg_minimum_foreign_units (offer_configuration o)));
    [eexists; split; [done|]; cbn; lia|].
  destruct (Z.ltb_spec (cfg_maximum_foreign_units (offer_configuration o)) units);
    [eexists; split; [done|]; cbn; lia|]. cbn [orb].
  rewrite (proj2 (Z.leb_le _ _)) by nia. rewrite (proj2 (Z.eqb_neq f 0)) by lia.
  destruct (Z.eqb_spec ((units * l) mod f) 0) as [Hd|Hd]; cbn [negb]; eexists; split; try done.
  - apply divide_coprime_lot in Hd as [lots Hlots]; [|lia|done]. split; [lia|]. exists lots.
    replace (units * l) with (lots * l * f) by lia. rewrite Z.div_mul by lia.
    split_and!; try done; nia.
  - split; [lia|]. by rewrite <- divide_coprime_lot with (l := l) by (lia || done).
Qed.

Definition sample_route : MakerRouteV1 :=
  {| route_pair := Pair_Zcash; route_direction := TakerSellsForeign |}.

Definition sample_configuration : MakerPairConfigurationV1 :=
  {| cfg_route := sample_route; cfg_enabled := true; cfg_price_source := Price_Local;
     cfg_minimum_foreign_units := 10; cfg_maximum_foreign_units := 1000;
     cfg_offer_ttl_seconds := 600 |}.

Definition sample_price : LocalPriceV1 :=
  {| price_route := sample_route; lez_units_per_lot := 7; foreign_units_per_lot := 5 |}.

Definition sample_offer : MakerOfferV1 :=
  {| offer_id := {| MakerOfferId_as_str := "offer-0001" |};
     offer_configuration := sample_configuration; offer_price := sample_price;
     offer_configuration_revision := 1; offer_price_revision := 1;
     offer_price_observed_at := 100; offer_price_identity := None;
     offer_created_at := 100; offer_expires_at := 700 |}.

Lemma sample_offer_in_range : offer_in_range sample_offer.
Proof. unfold offer_in_range, price_in_range, in_range, u64_max; cbn; lia. Qed.

Lemma quote_exact_witness :
  offer_in_range sample_offer ∧ MakerOfferV1_validate sample_offer = Ok tt ∧
  ∃ r, quote_foreign_amount sample_offer 20 = Some r ∧ r = Ok 28.
Proof.
  split; [apply sample_offer_in_range|]. split; [vm_compute; reflexivity|].
  destruct (quote_exact sample_offer 20 sample_offer_in_range eq_refl
              ltac:(unfold in_range, u64_max; lia)) as (r&Hr&_).
  exists r. split; [exact Hr|]. vm_compute in Hr. by injection Hr as <-.
Defined.
