(* ===== verification/SqlTable.v ===== *)
(** * Keyed SQL tables with constraints

    The part of SQLite the durable journals of [crates/swap-store] rely on: a
    table with a primary key, [CHECK] constraints on each row and a [UNIQUE]
    constraint, the writing statements the store issues ([INSERT], [INSERT ... ON
    CONFLICT DO UPDATE] on the primary key, and [UPDATE ... WHERE] the whole
    primary key [AND] a condition on the row), and transactions that commit or
    roll back as a whole.  A statement that violates a constraint is refused by
    the engine ([None]).  [map_le] orders tables by what their rows may become. *)

From stdpp Require Import base gmap strings list numbers.
From S2P Require Import Prelude.

Open Scope Z_scope.

(** Conditions of the schemas: [IS NULL], [length(c) = n] on a column that may
    be null (the condition is then not false), and [IN]. *)
Definition is_null {A} (o : option A) : bool := match o with None => true | Some _ => false end.
Definition not_null {A} (o : option A) : bool := negb (is_null o).

Definition len_is (n : Z) (b : bytes) : bool := blen b =? n.
Definition null_or_len (n : Z) (o : option bytes) : bool :=
  match o with None => true | Some b => len_is n b end.

Definition str_in (s : string) (l : list string) : bool := existsb (λ x, s ==? x) l.

Section table.
Context {K : Type} `{Countable K} {R : Type}.
(** [CHECK] of a row, and the columns of the [UNIQUE] constraint. *)
Variable check : K → R → bool.
Context {U : Type} `{EqDecision U}.
Variable unique_key : K → R → U.

Definition unique_taken (t : gmap K R) (u : U) : bool :=
  existsb (λ kr, unique_key kr.1 kr.2 ==? u) (map_to_list t).

Definition sql_insert (t : gmap K R) (k : K) (row : R) : option (gmap K R) :=
  if bool_decide (is_Some (t !! k)) || negb (check k row)
     || unique_taken t (unique_key k row)
  then None
  else Some (<[k := row]> t).

(** [INSERT ... ON CONFLICT(primary key) DO UPDATE] of every other column. *)
Definition sql_upsert (t : gmap K R) (k : K) (row : R) : option (gmap K R) :=
  if check k row then Some (<[k := row]> t) else None.

(** The new table and the number of rows changed.  The journals never assign
    a column of the [UNIQUE] constraint in an [UPDATE]. *)
Definition sql_update (t : gmap K R) (k : K) (where_ : R → bool) (set : R → R)
    : option (gmap K R * Z) :=
  match t !! k with
  | Some row =>
      if where_ row
      then if check k (set row) then Some (<[k := set row]> t, 1) else None
      else Some (t, 0)
  | None => Some (t, 0)
  end.

(** Every row satisfies its [CHECK] and the [UNIQUE] columns identify it. *)
Definition table_ok (t : gmap K R) : Prop :=
  map_Forall (λ k row, check k row = true) t ∧
  (∀ k k' row row', t !! k = Some row → t !! k' = Some row' →
     unique_key k row = unique_key k' row' → k = k').

Lemma unique_taken_true t u :
  unique_taken t u = true ↔ ∃ k row, t !! k = Some row ∧ unique_key k row = u.
Proof.
  unfold unique_taken. rewrite existsb_exists. split.
  - intros ([k row]&Hin&Hu). apply list_elem_of_In, elem_of_map_to_list in Hin.
    apply bool_decide_eq_true in Hu. eauto.
  - intros (k&row&Hk&Hu). exists (k, row). split.
    + by apply list_elem_of_In, elem_of_map_to_list.
    + by apply bool_decide_eq_true.
Qed.

Lemma sql_insert_Some t k row t' :
  sql_insert t k row = Some t' ↔
  t' = <[k := row]> t ∧ t !! k = None ∧ check k row = true ∧
  unique_taken t (unique_key k row) = false.
Proof.
  unfold sql_insert. rewrite eq_None_not_Some. case_bool_decide; cbn; [naive_solver|].
  destruct (check k row), (unique_taken t (unique_key k row)); cbn; naive_solver.
Qed.

Lemma sql_upsert_Some t k row t' :
  sql_upsert t k row = Some t' ↔ t' = <[k := row]> t ∧ check k row = true.
Proof using Type.
  unfold sql_upsert. destruct (check k row); split.
  - by intros [= <-].
  - by intros [-> _].
  - done.
  - by intros [_ ?].
Qed.

Lemma sql_update_Some_1 t k where_ set t' :
  sql_update t k where_ set = Some (t', 1) ↔
  ∃ row, t !! k = Some row ∧ where_ row = true ∧ check k (set row) = true ∧
         t' = <[k := set row]> t.
Proof.
  unfold sql_update. split.
  - destruct (t !! k) as [row|]; [|done]. destruct (where_ row) eqn:Hw; [|done].
    destruct (check k (set row)) eqn:Hc; [|done]. intros [= <-]. eauto 6.
  - intros (row&->&->&->&->). done.
Qed.

Lemma table_ok_empty : table_ok ∅.
Proof. split; [apply map_Forall_empty|]. intros * H1. by rewrite lookup_empty in H1. Qed.

Lemma table_ok_insert t k row t' :
  table_ok t → sql_insert t k row = Some t' → table_ok t'.
Proof.
  intros [Hc Hu] (->&Hn&Hk&Hun)%sql_insert_Some. split; [by apply map_Forall_insert_2|].
  assert (Hnone : ∀ j r, t !! j = Some r → unique_key j r ≠ unique_key k row).
  { intros j r Hj Heq. rewrite (proj2 (unique_taken_true t (unique_key k row))) in Hun; [done|eauto]. }
  intros j j' r r' Hj Hj' Heq.
  apply lookup_insert_Some in Hj as [[<- <-]|[? Hj]], Hj' as [[<- <-]|[? Hj']]; try done.
  - exfalso. by eapply Hnone.
  - exfalso. by eapply Hnone.
  - eauto.
Qed.

Lemma table_ok_replace t k row row' :
  table_ok t → t !! k = Some row → check k row' = true →
  unique_key k row' = unique_key k row → table_ok (<[k := row']> t).
Proof.
  intros [Hc Hu] Hk Hck Hs. split; [by apply map_Forall_insert_2|].
  intros j j' r r' Hj Hj' Heq.
  apply lookup_insert_Some in Hj as [[<- <-]|[? Hj]], Hj' as [[<- <-]|[? Hj']]; try done;
    try rewrite Hs in Heq; eauto.
Qed.

Lemma sql_insert_fresh t k row :
  t !! k = None → check k row = true → unique_taken t (unique_key k row) = false →
  sql_insert t k row = Some (<[k := row]> t).
Proof. intros. by apply sql_insert_Some. Qed.
End table.

(** A table whose only key is the primary one. *)
Lemma sql_insert_primary {K R} `{Countable K} (check : K → R → bool) (t : gmap K R) k row :
  t !! k = None → check k row = true →
  sql_insert check (λ k _, k) t k row = Some (<[k := row]> t).
Proof.
  intros Hk Hc. apply sql_insert_fresh; [done..|]. apply not_true_iff_false.
  rewrite unique_taken_true. intros (k'&row'&Hk'&->). congruence.
Qed.

(** ** Growth of a table *)

Section map_le.
Context {K : Type} `{Countable K} {A : Type}.
Implicit Types R : A → A → Prop.

(** Every entry of [m] is still in [m'], related by [R]. *)
Definition map_le R (m m' : gmap K A) : Prop :=
  ∀ k x, m !! k = Some x → ∃ y, m' !! k = Some y ∧ R x y.

#[global] Instance map_le_preorder R `{!PreOrder R} : PreOrder (map_le R).
Proof.
  split.
  - intros m k x Hx. by exists x.
  - intros m1 m2 m3 H12 H23 k x (y&Hy&?)%H12. apply H23 in Hy as (z&?&?). exists z.
    split; [done|by trans y].
Qed.

Lemma map_le_insert R `{!PreOrder R} (m : gmap K A) k y :
  (∀ x, m !! k = Some x → R x y) → map_le R m (<[k := y]> m).
Proof.
  intros Hy j x Hj. destruct (decide (j = k)) as [->|].
  - exists y. rewrite lookup_insert_eq. auto.
  - exists x. by rewrite lookup_insert_ne.
Qed.
End map_le.

(** A transaction commits what its body leaves, or rolls back when the body
    returns early with an error. *)
Definition immediate_transaction {T A E} (t : T) (body : result (T * A) E)
    : T * result A E :=
  match body with
  | Ok (t', a) => (t', Ok a)
  | Err e => (t, Err e)
  end.

(** What becomes of a call: its caller sees the result, its transaction is
    rolled back by a failure, or the transaction commits and the result is lost. *)
Inductive Fate := Delivered | RolledBack | CommittedUnseen.

#[global] Instance Fate_eq_dec : EqDecision Fate.
Proof. solve_decision. Defined.
