(* ===== verification/StoreBase.v ===== *)
(** * The vocabulary the durable journals share

    The errors of [crates/swap-store/src/lib.rs] the modelled journals return,
    the text of participants, pairs and directions, and runs of calls on a
    store: a call may be rolled back by a failure of the storage, or commit with
    its result lost.  [Panicked] is not an error of the code: it stands for a
    call the thread unwinds out of, whose transaction is dropped. *)

From stdpp Require Import base gmap strings list numbers.
From S2P Require Import Prelude SwapCore MakerMarket SqlTable.

Open Scope Z_scope.

Inductive StoreError :=
| StoreError_Sqlite
| BridgeProtocolValue
| BridgeOperationContextConflict
| MissingBridgeOperationContext
| BridgeRequestIdReused
| InvalidBridgeOperationContext
| InvalidPublicEffect
| PublicEffectConflict
| MissingPublicEffect
| CorruptPublicEffectState
| InvalidXmrWorkflowIdentity
| InvalidXmrWorkflowReconciliation
| XmrWorkflowConflict
| MissingXmrWorkflowIdentity
| MissingXmrWorkflowStep
| CorruptXmrWorkflowState
| InvalidBtcMakerLockIntent
| BtcMakerLockConflict
| MissingBtcMakerLockIntent
| CorruptBtcMakerLockIntent
| BridgePollSequenceOverflow
| Serialization
| UnsupportedPayloadVersion (kind : string) (version : Z)
| RevisionOverflow
| MakerConfiguration (e : MakerConfigurationError)
| MakerOffer (e : MakerOfferError)
| MakerOfferRequestConflict
| MakerOfferAlreadyExists
| MissingMakerOffer
| MakerRouteDisabled
| MakerOfferExpired
| MakerOfferUnavailable
| MakerOfferSwapMismatch
| MakerOfferReservationConflict
| StaleMakerOffer (expected actual : Z)
| CorruptMakerOffer
| MakerConfigurationRequestConflict
| CorruptMakerConfiguration
| StaleMakerConfiguration (expected actual : option Z)
| MissingMakerPair
| MissingMakerLocalPrice
| MakerLocalRouteMismatch
| MakerPriceSourceMismatch
| MakerPriceRevisionRollback
| MakerPriceRevisionConflict
| Panicked.

Definition participant_name (p : Participant) : string :=
  match p with Participant_Maker => "maker" | Participant_Taker => "taker" end.

Lemma participant_name_inj p q : participant_name p = participant_name q → p = q.
Proof. by destruct p, q. Qed.

Definition pair_name (p : Pair) : string :=
  match p with
  | Pair_Bitcoin => "bitcoin" | Pair_Monero => "monero" | Pair_Zcash => "zcash"
  end.

Definition direction_name (d : SwapDirection) : string :=
  match d with
  | TakerSellsForeign => "taker_sells_foreign" | TakerSellsLez => "taker_sells_lez"
  end.

Lemma pair_name_inj p q : pair_name p = pair_name q → p = q.
Proof. by destruct p, q. Qed.

Lemma direction_name_inj d e : direction_name d = direction_name e → d = e.
Proof. by destruct d, e. Qed.

(** The operations that [maker_application_mutations] records. *)
Definition MUTATION_OPERATIONS : list string :=
  ["pair_configure"; "local_price_set"; "local_route_save"; "offer_publish";
   "offer_publish_at_revisions_v1"; "offer_reserve"; "offer_consume"; "offer_withdraw";
   "btc_negotiation_stage"; "btc_negotiation_complete"; "zec_negotiation_stage";
   "zec_negotiation_complete"; "xmr_negotiation_stage"; "xmr_negotiation_complete";
   "actor_action_request"].

(** [uN::try_from] of a column, [max] the largest value of the width. *)
Definition try_from_column (max v : Z) (e : StoreError) : result Z StoreError :=
  if (v <? 0) || (max <? v) then Err e else Ok v.

Lemma try_from_column_Ok max v e w :
  try_from_column max v e = Ok w ↔ w = v ∧ 0 ≤ v ≤ max.
Proof.
  unfold try_from_column.
  destruct (Z.ltb_spec v 0), (Z.ltb_spec max v); cbn; split; intros; destruct_and?; simplify_eq;
    try done; lia.
Qed.

Definition result_map {A B E} (f : A → B) (r : result A E) : result B E :=
  match r with Ok a => Ok (f a) | Err e => Err e end.

(** ** Runs *)

Section runs.
Context {T C O : Type}.
(** One call on the store: what it leaves and what it returns. *)
Variable call : T → C → T * O.

Definition call_next (t : T) (c : C * Fate) : T :=
  match c.2 with RolledBack => t | _ => (call t c.1).1 end.

Fixpoint run_calls (t : T) (calls : list (C * Fate)) : T :=
  match calls with
  | [] => t
  | c :: calls => run_calls (call_next t c) calls
  end.

(** The call at a position of a run and what it returned, when it committed. *)
Definition committed_at (t : T) (calls : list (C * Fate)) (i : nat) : option (C * O) :=
  match calls !! i with
  | Some (c, Delivered) | Some (c, CommittedUnseen) =>
      Some (c, (call (run_calls t (take i calls)) c).2)
  | _ => None
  end.

Lemma committed_output t calls i c o :
  committed_at t calls i = Some (c, o) → (call (run_calls t (take i calls)) c).2 = o.
Proof.
  unfold committed_at. destruct (calls !! i) as [[c' []]|]; intros H; by simplify_eq.
Qed.

Lemma run_calls_app t pre post :
  run_calls t (pre ++ post) = run_calls (run_calls t pre) post.
Proof. revert t. induction pre as [|c pre IH]; intros t; cbn; [done|apply IH]. Qed.

Section preserved.
(** An invariant of every call of a kind is an invariant of every run of them. *)
Variable P : C → Prop.
Variable I : T → Prop.
Hypothesis call_inv : ∀ t c, P c → I t → I (call t c).1.

Abbreviation all_P calls := (Forall (λ c : C * Fate, P c.1) calls).

Lemma run_calls_inv t calls : all_P calls → I t → I (run_calls t calls).
Proof using call_inv.
  intros HP. revert t. induction HP as [|[c f] calls Hc _ IH]; intros t Ht; cbn; [done|].
  apply IH. unfold call_next. destruct f; cbn; auto.
Qed.

(** What every call preserves of earlier states, every run preserves. *)
Lemma run_calls_grow (R : T → T → Prop) `{!PreOrder R} t calls :
  (∀ t c, P c → I t → R t (call t c).1) → all_P calls → I t → R t (run_calls t calls).
Proof using call_inv.
  intros HR HP. revert t. induction HP as [|[c f] calls Hc _ IH]; intros t Ht; cbn; [done|].
  unfold call_next. cbn in *. destruct f; cbn; [trans (call t c).1|by apply IH|trans (call t c).1]; auto.
Qed.

Lemma run_take_grow (R : T → T → Prop) `{!PreOrder R} t calls i j :
  (∀ t c, P c → I t → R t (call t c).1) → all_P calls → I t → (i ≤ j)%nat →
  R (run_calls t (take i calls)) (run_calls t (take j calls)).
Proof using call_inv.
  intros HR HP Ht Hij. replace (take i calls) with (take i (take j calls))
    by (rewrite take_take; f_equal; lia).
  rewrite <- (take_drop i (take j calls)) at 2. rewrite run_calls_app.
  apply (run_calls_grow R); [done|by apply Forall_drop, Forall_take|].
  apply run_calls_inv; [by apply Forall_take, Forall_take|done].
Qed.

(** The state of a run at a later position has grown from what an earlier
    committed call left. *)
Lemma committed_grow (R : T → T → Prop) `{!PreOrder R} t calls i j c o :
  (∀ t c, P c → I t → R t (call t c).1) → all_P calls → I t →
  committed_at t calls i = Some (c, o) → (i < j)%nat →
  P c ∧ I (run_calls t (take i calls)) ∧ o = (call (run_calls t (take i calls)) c).2 ∧
  R (call (run_calls t (take i calls)) c).1 (run_calls t (take j calls)).
Proof using call_inv.
  intros HR HP Ht Hi Hij. unfold committed_at in Hi.
  destruct (calls !! i) as [[c' f]|] eqn:Hc; [|done].
  assert (c' = c ∧ f ≠ RolledBack ∧ o = (call (run_calls t (take i calls)) c).2) as (->&Hf&->)
    by (destruct f; simplify_eq; done).
  assert (HPc : P c) by exact (Forall_lookup_1 _ _ _ _ HP Hc).
  assert (HIi : I (run_calls t (take i calls))) by (apply run_calls_inv; [by apply Forall_take|done]).
  split_and!; [done..|].
  assert (take j calls = take i calls ++ (c, f) :: take (j - S i) (drop (S i) calls)) as ->.
  { rewrite <- (take_drop_middle _ _ _ Hc) at 1. rewrite take_app.
    assert (Hl : length (take i calls) = i).
    { rewrite length_take. apply lookup_lt_Some in Hc. lia. }
    rewrite Hl, (take_ge (take i calls)) by lia.
    replace (j - i)%nat with (S (j - S i)) by lia. done. }
  rewrite run_calls_app. cbn.
  assert (Hn : call_next (run_calls t (take i calls)) (c, f)
               = (call (run_calls t (take i calls)) c).1)
    by (unfold call_next; destruct f; done).
  rewrite Hn. apply (run_calls_grow R); [done|by apply Forall_take, Forall_drop|auto].
Qed.
End preserved.
End runs.
