(* ===== verification/MakerStore.v ===== *)
(** * The maker's durable configuration and offers

    The tables and operations of [crates/swap-store/src/maker_application.rs]
    and [maker_offer.rs]: route policies and local prices under a revision each,
    the journal of mutations that makes every request idempotent, the offers
    with their one-winner state, the heads of external price sources, and the
    Zcash proposals staged against an offer.  Every operation is a function of
    the database that returns the database it commits and its result.

    [serde_json] is not part of the repository: [MakerJson] says what the store
    relies on, that a value written is the value read back and that the requests
    of two different calls have different texts. *)

From stdpp Require Import base gmap strings list numbers sorting.
From S2P Require Import Prelude SwapCore Coordinator BridgeValues MakerMarket SqlTable StoreBase.

Open Scope Z_scope.

(** ** Requests and their texts *)

(** The request structures the mutations serialise. *)
Inductive MutationRequest :=
| LocalRouteMutationRequest (expected_pair expected_price : option Z)
    (configuration : MakerPairConfigurationV1) (price : LocalPriceV1)
| PairMutationRequest (expected : option Z) (configuration : MakerPairConfigurationV1)
| PriceMutationRequest (expected : option Z) (price : LocalPriceV1)
| PublishRequest (offer : MakerOfferId) (route : MakerRouteV1)
| GuardedPublishRequest (offer : MakerOfferId) (route : MakerRouteV1)
    (expected_pair expected_price : Z)
| ReserveRequest (offer : MakerOfferId) (expected : Z) (reservation : RequestId) (now : Z)
| ConsumeRequest (offer : MakerOfferId) (expected : Z) (reservation : RequestId)
    (swap : SwapCoordinator)
| StageZecNegotiationRequest (offer : MakerOfferId) (expected : Z) (reservation : RequestId)
    (offer_commitment maker_chat_identity taker_chat_identity : bytes)
    (foreign_units lez_units : Z) (agreement_commitment maker_proposal_sha256 : bytes)
| WithdrawRequest (offer : MakerOfferId) (expected : Z).

(** [StoredCommitV1] and [StoredOfferCommitV1] have the same fields. *)
Record StoredCommitV1 := { stored_schema_version : Z; stored_revision : Z }.

Record StoredLocalRouteCommitV1 := {
  stored_route_schema_version : Z;
  stored_pair_revision : Z;
  stored_price_revision : Z
}.

Class MakerJson := {
  Json : Type;
  Json_eq_dec :: EqDecision Json;
  configuration_to_json : MakerPairConfigurationV1 → Json;
  configuration_from_json : Json → option MakerPairConfigurationV1;
  price_to_json : LocalPriceV1 → Json;
  price_from_json : Json → option LocalPriceV1;
  offer_to_json : MakerOfferV1 → Json;
  offer_from_json : Json → option MakerOfferV1;
  swap_to_json : SwapCoordinator → Json;
  commit_to_json : StoredCommitV1 → Json;
  commit_from_json : Json → option StoredCommitV1;
  route_commit_to_json : StoredLocalRouteCommitV1 → Json;
  route_commit_from_json : Json → option StoredLocalRouteCommitV1;
  request_to_json : MutationRequest → Json;
  (** [ReplayPublishRequest] *)
  publish_from_json : Json → option (MakerOfferId * MakerRouteV1)
}.

(** An offer identifier is read through [MakerOfferId::new]. *)
Class MakerJsonLaws `(MakerJson) := {
  configuration_round_trip : ∀ c, configuration_from_json (configuration_to_json c) = Some c;
  price_round_trip : ∀ p, price_from_json (price_to_json p) = Some p;
  offer_round_trip : ∀ o, safe_identifier (MakerOfferId_as_str (offer_id o)) = true →
    offer_from_json (offer_to_json o) = Some o;
  commit_round_trip : ∀ c, commit_from_json (commit_to_json c) = Some c;
  route_commit_round_trip : ∀ c, route_commit_from_json (route_commit_to_json c) = Some c;
  request_to_json_inj : ∀ r s, request_to_json r = request_to_json s → r = s;
  publish_round_trip : ∀ o route, safe_identifier (MakerOfferId_as_str o) = true →
    publish_from_json (request_to_json (PublishRequest o route)) = Some (o, route)
}.

(** ** Rows and tables *)

(** The rows of [maker_pair_configurations] and [maker_local_prices]. *)
Record ConfigurationRow `{MakerJson} := {
  conf_payload_version : Z;
  conf_payload_json : Json;
  conf_revision : Z;
  conf_updated_request_id : string
}.

Record MutationRow `{MakerJson} := {
  mut_operation : string;
  mut_request_payload_version : Z;
  mut_request_json : Json;
  mut_result_json : Json
}.

Record OfferRow `{MakerJson} := {
  offer_pair : string;
  offer_direction : string;
  offer_payload_version : Z;
  offer_payload_json : Json;
  offer_expires : Z;
  offer_state : string;
  offer_revision : Z;
  offer_reservation_id : option string;
  offer_swap_id : option string;
  offer_updated_request_id : string
}.

Record PriceHeadRow := {
  head_source_revision : Z;
  head_observed_at : Z;
  head_lez_units_per_lot : Z;
  head_foreign_units_per_lot : Z
}.

Record ZecNegotiationRow := {
  zec_reservation_id : string;
  zec_payload_version : Z;
  zec_offer_commitment : bytes;
  zec_maker_chat_identity : bytes;
  zec_taker_chat_identity : bytes;
  zec_foreign_units : Z;
  zec_lez_units : bytes;
  zec_reserved_at : Z;
  zec_agreement_commitment : bytes;
  zec_maker_proposal_wire : bytes;
  zec_state : string;
  zec_final_agreement_wire : option bytes;
  zec_swap_id : option string;
  zec_updated_request_id : string
}.

Record SwapRow `{MakerJson} := {
  swap_schema_version : Z;
  swap_state_json : Json;
  swap_revision : Z
}.

(** Of the Bitcoin and Monero negotiations only the offers they belong to. *)
Record MakerDb `{MakerJson} := {
  maker_pair_configurations : gmap (string * string) ConfigurationRow;
  maker_local_prices : gmap (string * string) ConfigurationRow;
  maker_application_mutations : gmap string MutationRow;
  maker_offers : gmap string OfferRow;
  maker_external_price_heads : gmap (string * string * bytes) PriceHeadRow;
  maker_zec_negotiations : gmap string ZecNegotiationRow;
  maker_btc_negotiations : gset string;
  maker_xmr_negotiations : gset string;
  swaps : gmap string SwapRow
}.

Definition empty_maker_db `{MakerJson} : MakerDb := {|
  maker_pair_configurations := ∅; maker_local_prices := ∅;
  maker_application_mutations := ∅; maker_offers := ∅; maker_external_price_heads := ∅;
  maker_zec_negotiations := ∅; maker_btc_negotiations := ∅; maker_xmr_negotiations := ∅;
  swaps := ∅
|}.

Section tables.
Context `{MakerJson}.

Definition with_pairs (db : MakerDb) t : MakerDb := {|
  maker_pair_configurations := t; maker_local_prices := db.(maker_local_prices);
  maker_application_mutations := db.(maker_application_mutations);
  maker_offers := db.(maker_offers);
  maker_external_price_heads := db.(maker_external_price_heads);
  maker_zec_negotiations := db.(maker_zec_negotiations);
  maker_btc_negotiations := db.(maker_btc_negotiations);
  maker_xmr_negotiations := db.(maker_xmr_negotiations); swaps := db.(swaps) |}.

Definition with_prices (db : MakerDb) t : MakerDb := {|
  maker_pair_configurations := db.(maker_pair_configurations); maker_local_prices := t;
  maker_application_mutations := db.(maker_application_mutations);
  maker_offers := db.(maker_offers);
  maker_external_price_heads := db.(maker_external_price_heads);
  maker_zec_negotiations := db.(maker_zec_negotiations);
  maker_btc_negotiations := db.(maker_btc_negotiations);
  maker_xmr_negotiations := db.(maker_xmr_negotiations); swaps := db.(swaps) |}.

Definition with_mutations (db : MakerDb) t : MakerDb := {|
  maker_pair_configurations := db.(maker_pair_configurations);
  maker_local_prices := db.(maker_local_prices); maker_application_mutations := t;
  maker_offers := db.(maker_offers);
  maker_external_price_heads := db.(maker_external_price_heads);
  maker_zec_negotiations := db.(maker_zec_negotiations);
  maker_btc_negotiations := db.(maker_btc_negotiations);
  maker_xmr_negotiations := db.(maker_xmr_negotiations); swaps := db.(swaps) |}.

Definition with_offers (db : MakerDb) t : MakerDb := {|
  maker_pair_configurations := db.(maker_pair_configurations);
  maker_local_prices := db.(maker_local_prices);
  maker_application_mutations := db.(maker_application_mutations); maker_offers := t;
  maker_external_price_heads := db.(maker_external_price_heads);
  maker_zec_negotiations := db.(maker_zec_negotiations);
  maker_btc_negotiations := db.(maker_btc_negotiations);
  maker_xmr_negotiations := db.(maker_xmr_negotiations); swaps := db.(swaps) |}.

Definition with_heads (db : MakerDb) t : MakerDb := {|
  maker_pair_configurations := db.(maker_pair_configurations);
  maker_local_prices := db.(maker_local_prices);
  maker_application_mutations := db.(maker_application_mutations);
  maker_offers := db.(maker_offers); maker_external_price_heads := t;
  maker_zec_negotiations := db.(maker_zec_negotiations);
  maker_btc_negotiations := db.(maker_btc_negotiations);
  maker_xmr_negotiations := db.(maker_xmr_negotiations); swaps := db.(swaps) |}.

Definition with_zec (db : MakerDb) t : MakerDb := {|
  maker_pair_configurations := db.(maker_pair_configurations);
  maker_local_prices := db.(maker_local_prices);
  maker_application_mutations := db.(maker_application_mutations);
  maker_offers := db.(maker_offers);
  maker_external_price_heads := db.(maker_external_price_heads);
  maker_zec_negotiations := t;
  maker_btc_negotiations := db.(maker_btc_negotiations);
  maker_xmr_negotiations := db.(maker_xmr_negotiations); swaps := db.(swaps) |}.

Definition with_swaps (db : MakerDb) t : MakerDb := {|
  maker_pair_configurations := db.(maker_pair_configurations);
  maker_local_prices := db.(maker_local_prices);
  maker_application_mutations := db.(maker_application_mutations);
  maker_offers := db.(maker_offers);
  maker_external_price_heads := db.(maker_external_price_heads);
  maker_zec_negotiations := db.(maker_zec_negotiations);
  maker_btc_negotiations := db.(maker_btc_negotiations);
  maker_xmr_negotiations := db.(maker_xmr_negotiations); swaps := t |}.

(** [CHECK] constraints. *)

Definition route_columns_check (pair direction : string) : bool :=
  str_in pair ["bitcoin"; "monero"; "zcash"]
  && str_in direction ["taker_sells_foreign"; "taker_sells_lez"]
  && ((pair !=? "monero") || (direction ==? "taker_sells_lez")).

Definition configuration_check (k : string * string) (row : ConfigurationRow) : bool :=
  route_columns_check k.1 k.2
  && (0 <? row.(conf_payload_version)) && (0 <? row.(conf_revision)).

Definition mutation_check (_ : string) (row : MutationRow) : bool :=
  str_in row.(mut_operation) MUTATION_OPERATIONS
  && (row.(mut_request_payload_version) =? 1).

Definition offer_check (_ : string) (row : OfferRow) : bool :=
  route_columns_check row.(offer_pair) row.(offer_direction)
  && (row.(offer_payload_version) =? 1) && (0 <? row.(offer_expires))
  && str_in row.(offer_state) ["active"; "reserved"; "consumed"; "withdrawn"]
  && (0 <? row.(offer_revision))
  && ((str_in row.(offer_state) ["active"; "withdrawn"]
       && is_null row.(offer_reservation_id) && is_null row.(offer_swap_id))
      || ((row.(offer_state) ==? "reserved")
          && not_null row.(offer_reservation_id) && is_null row.(offer_swap_id))
      || ((row.(offer_state) ==? "consumed")
          && not_null row.(offer_reservation_id) && not_null row.(offer_swap_id))).

Definition price_head_check (k : string * string * bytes) (row : PriceHeadRow) : bool :=
  route_columns_check k.1.1 k.1.2 && len_is 32 k.2
  && (0 <? row.(head_source_revision)) && (0 <? row.(head_observed_at))
  && (0 <? row.(head_lez_units_per_lot)) && (0 <? row.(head_foreign_units_per_lot)).

Definition zec_negotiation_check (_ : string) (row : ZecNegotiationRow) : bool :=
  (row.(zec_payload_version) =? 1) && len_is 32 row.(zec_offer_commitment)
  && len_is 33 row.(zec_maker_chat_identity) && len_is 33 row.(zec_taker_chat_identity)
  && (0 <? row.(zec_foreign_units)) && len_is 16 row.(zec_lez_units)
  && (0 <? row.(zec_reserved_at)) && len_is 32 row.(zec_agreement_commitment)
  && (1 <=? blen row.(zec_maker_proposal_wire))
  && (blen row.(zec_maker_proposal_wire) <=? 16384)
  && str_in row.(zec_state) ["proposed"; "completed"]
  && match row.(zec_final_agreement_wire) with
     | None => true
     | Some wire => (1 <=? blen wire) && (blen wire <=? 16384)
     end
  && (row.(zec_maker_chat_identity) !=? row.(zec_taker_chat_identity))
  && (((row.(zec_state) ==? "proposed")
       && is_null row.(zec_final_agreement_wire) && is_null row.(zec_swap_id))
      || ((row.(zec_state) ==? "completed")
          && not_null row.(zec_final_agreement_wire) && not_null row.(zec_swap_id))).

Definition swap_check (_ : string) (row : SwapRow) : bool := 0 <=? row.(swap_revision).

(** [FOREIGN KEY] of a nullable column. *)
Definition references {A} (t : gmap string A) (column : option string) : bool :=
  match column with None => true | Some k => bool_decide (is_Some (t !! k)) end.

(** A statement the engine refuses fails the transaction. *)
Definition executed {A} (o : option A) : result A StoreError := ok_or o StoreError_Sqlite.

Definition insert_mutation (db : MakerDb) (request_id : RequestId) (row : MutationRow)
    : result MakerDb StoreError :=
  let? t := executed (sql_insert mutation_check (λ k _, k) db.(maker_application_mutations)
                        (RequestId_as_str request_id) row) in
  Ok (with_mutations db t).

Definition upsert_pair (db : MakerDb) (k : string * string) (row : ConfigurationRow)
    : result MakerDb StoreError :=
  let? t := executed (sql_upsert configuration_check db.(maker_pair_configurations) k row) in
  Ok (with_pairs db t).

Definition upsert_price (db : MakerDb) (k : string * string) (row : ConfigurationRow)
    : result MakerDb StoreError :=
  let? _ := reject_if (negb (bool_decide (is_Some (db.(maker_pair_configurations) !! k))))
              StoreError_Sqlite in
  let? t := executed (sql_upsert configuration_check db.(maker_local_prices) k row) in
  Ok (with_prices db t).

Definition insert_offer (db : MakerDb) (k : string) (row : OfferRow)
    : result MakerDb StoreError :=
  let? _ := reject_if (negb (references db.(swaps) row.(offer_swap_id))) StoreError_Sqlite in
  let? t := executed (sql_insert offer_check (λ k _, k) db.(maker_offers) k row) in
  Ok (with_offers db t).

(** The database after an [UPDATE] of one offer and whether it changed it. *)
Definition update_offer (db : MakerDb) (k : string) (where_ : OfferRow → bool)
    (set : OfferRow → OfferRow) : result (MakerDb * Z) StoreError :=
  let? '(t, changed) := executed (sql_update offer_check db.(maker_offers) k where_ set) in
  let? _ := reject_if (match t !! k with
                       | Some row => negb (references db.(swaps) row.(offer_swap_id))
                       | None => false
                       end) StoreError_Sqlite in
  Ok (with_offers db t, changed).

Definition insert_zec_negotiation (db : MakerDb) (k : string) (row : ZecNegotiationRow)
    : result MakerDb StoreError :=
  let? _ := reject_if (negb (references db.(maker_offers) (Some k))
                       || negb (references db.(swaps) row.(zec_swap_id))) StoreError_Sqlite in
  let? t := executed (sql_insert zec_negotiation_check (λ _ row, row.(zec_reservation_id))
                        db.(maker_zec_negotiations) k row) in
  Ok (with_zec db t).

Definition SWAP_PAYLOAD_VERSION : Z := 1.

Definition insert_swap (db : MakerDb) (swap : SwapCoordinator) : result MakerDb StoreError :=
  let? t := executed (sql_insert swap_check (λ k _, k) db.(swaps)
                        (SwapId_as_str (coord_id swap))
                        {| swap_schema_version := SWAP_PAYLOAD_VERSION;
                           swap_state_json := swap_to_json swap; swap_revision := 0 |}) in
  Ok (with_swaps db t).
End tables.
