(* ===== verification/MakerConfiguration.v ===== *)
(** * The maker's configuration operations

    [crates/swap-store/src/maker_application.rs]: saving a route policy, a local
    price, or both at once, each guarded by the revision its caller last saw and
    by the journal of requests, and listing what is stored. *)

From stdpp Require Import base gmap strings list numbers sorting.
From S2P Require Import Prelude SwapCore BridgeValues MakerMarket SqlTable StoreBase MakerStore.

Open Scope Z_scope.

Definition APPLICATION_PAYLOAD_VERSION : Z := 1.

Record VersionedMakerRecord (T : Type) := { record_revision : Z; record_value : T }.
Arguments record_revision {T} _.
Arguments record_value {T} _.
Arguments Build_VersionedMakerRecord {T} _ _.

Record MakerConfigurationCommit := { config_revision : Z; config_was_replay : bool }.

Record MakerLocalRouteCommit := {
  route_pair_revision : Z;
  route_price_revision : Z;
  route_was_replay : bool
}.

(** The primary key of a route's rows. *)
Definition route_key (route : MakerRouteV1) : string * string :=
  (pair_name (route_pair route), direction_name (route_direction route)).

(** [ORDER BY pair, direction] *)
Definition route_key_le {A} (x y : (string * string) * A) : Prop :=
  if x.1.1 ==? y.1.1 then String.leb x.1.2 y.1.2 = true else String.leb x.1.1 y.1.1 = true.

#[global] Instance route_key_le_dec {A} (x y : (string * string) * A) :
  Decision (route_key_le x y).
Proof. unfold route_key_le. destruct (x.1.1 ==? y.1.1); apply _. Defined.

(** The rows a listing decodes in turn, up to the first that does not. *)
Fixpoint collect_results {A B E} (f : A → result B E) (l : list A) : result (list B) E :=
  match l with
  | [] => Ok []
  | x :: l =>
      let? y := f x in
      let? ys := collect_results f l in
      Ok (y :: ys)
  end.

Lemma collect_results_Ok {A B E} (f : A → result B E) l :
  (∀ x, x ∈ l → ∃ y, f x = Ok y) →
  ∃ ys, collect_results f l = Ok ys ∧ Forall2 (λ x y, f x = Ok y) l ys.
Proof.
  induction l as [|x l IH]; intros Hl; [by exists []|].
  destruct (Hl x ltac:(set_solver)) as [y Hy]. destruct IH as (ys&Hys&HF); [set_solver|].
  exists (y :: ys). cbn. rewrite Hy. cbn. rewrite Hys. split; [done|by constructor].
Qed.

Definition check_payload_version (version : Z) (kind : string) : result unit StoreError :=
  if version !=? APPLICATION_PAYLOAD_VERSION
  then Err (UnsupportedPayloadVersion kind version) else Ok tt.

Definition validate_route_columns (route : MakerRouteV1) (pair direction : string)
    : result unit StoreError :=
  if (pair_name (route_pair route) !=? pair)
     || (direction_name (route_direction route) !=? direction)
  then Err CorruptMakerConfiguration else Ok tt.

Definition revision_from_sql (value : Z) : result Z StoreError :=
  if value <? 0 then Err RevisionOverflow else
  if value =? 0 then Err CorruptMakerConfiguration else Ok value.

Definition revision_to_sql (value : Z) : result Z StoreError :=
  if i64_max <? value then Err RevisionOverflow else Ok value.

Section operations.
Context `{MakerJson}.

Definition decode_pair_record (k : string * string) (row : ConfigurationRow)
    : result (VersionedMakerRecord MakerPairConfigurationV1) StoreError :=
  let? _ := check_payload_version row.(conf_payload_version) "maker pair configuration" in
  let? value := ok_or (configuration_from_json row.(conf_payload_json)) Serialization in
  let? _ := map_err (MakerPairConfigurationV1_validate value) MakerConfiguration in
  let? _ := validate_route_columns (cfg_route value) k.1 k.2 in
  let? revision := revision_from_sql row.(conf_revision) in
  Ok {| record_revision := revision; record_value := value |}.

Definition decode_price_record (k : string * string) (row : ConfigurationRow)
    : result (VersionedMakerRecord LocalPriceV1) StoreError :=
  let? _ := check_payload_version row.(conf_payload_version) "maker local price" in
  let? value := ok_or (price_from_json row.(conf_payload_json)) Serialization in
  let? _ := map_err (LocalPriceV1_validate value) MakerConfiguration in
  let? _ := validate_route_columns (price_route value) k.1 k.2 in
  let? revision := revision_from_sql row.(conf_revision) in
  Ok {| record_revision := revision; record_value := value |}.

Definition load_pair_record (db : MakerDb) (route : MakerRouteV1)
    : result (option (VersionedMakerRecord MakerPairConfigurationV1)) StoreError :=
  match db.(maker_pair_configurations) !! route_key route with
  | None => Ok None
  | Some row => result_map Some (decode_pair_record (route_key route) row)
  end.

Definition list_maker_pairs (db : MakerDb)
    : result (list (VersionedMakerRecord MakerPairConfigurationV1)) StoreError :=
  collect_results (λ kr, decode_pair_record kr.1 kr.2)
    (merge_sort route_key_le (map_to_list db.(maker_pair_configurations))).

Definition list_local_prices (db : MakerDb)
    : result (list (VersionedMakerRecord LocalPriceV1)) StoreError :=
  collect_results (λ kr, decode_price_record kr.1 kr.2)
    (merge_sort route_key_le (map_to_list db.(maker_local_prices))).

Definition route_exists (t : gmap (string * string) ConfigurationRow) (route : MakerRouteV1)
    : bool :=
  bool_decide (is_Some (t !! route_key route)).

Definition next_revision (t : gmap (string * string) ConfigurationRow) (route : MakerRouteV1)
    (expected : option Z) : result Z StoreError :=
  let? current := match t !! route_key route with
                  | None => Ok None
                  | Some row => result_map Some (revision_from_sql row.(conf_revision))
                  end in
  if current !=? expected then Err (StaleMakerConfiguration expected current) else
  ok_or (checked_add u64_max (default 0 current) 1) RevisionOverflow.

Definition replay_configuration_mutation (db : MakerDb) (request_id : RequestId)
    (operation : string) (request_json : Json)
    : result (option MakerConfigurationCommit) StoreError :=
  match db.(maker_application_mutations) !! RequestId_as_str request_id with
  | None => Ok None
  | Some row =>
      if (row.(mut_operation) !=? operation) || (row.(mut_request_json) !=? request_json)
      then Err MakerConfigurationRequestConflict else
      let? stored := ok_or (commit_from_json row.(mut_result_json)) Serialization in
      if (stored_schema_version stored !=? 1) || (stored_revision stored =? 0)
      then Err CorruptMakerConfiguration else
      Ok (Some {| config_revision := stored_revision stored; config_was_replay := true |})
  end.

Definition persist_configuration_mutation (db : MakerDb) (request_id : RequestId)
    (operation : string) (request_json : Json) (revision : Z) : result MakerDb StoreError :=
  insert_mutation db request_id
    {| mut_operation := operation;
       mut_request_payload_version := APPLICATION_PAYLOAD_VERSION;
       mut_request_json := request_json;
       mut_result_json := commit_to_json
         {| stored_schema_version := 1; stored_revision := revision |} |}.

Definition replay_local_route_mutation (db : MakerDb) (request_id : RequestId)
    (request_json : Json) : result (option MakerLocalRouteCommit) StoreError :=
  match db.(maker_application_mutations) !! RequestId_as_str request_id with
  | None => Ok None
  | Some row =>
      if (row.(mut_operation) !=? "local_route_save")
         || (row.(mut_request_json) !=? request_json)
      then Err MakerConfigurationRequestConflict else
      let? stored := ok_or (route_commit_from_json row.(mut_result_json)) Serialization in
      if (stored_route_schema_version stored !=? 1) || (stored_pair_revision stored =? 0)
         || (stored_price_revision stored =? 0)
      then Err CorruptMakerConfiguration else
      Ok (Some {| route_pair_revision := stored_pair_revision stored;
                  route_price_revision := stored_price_revision stored;
                  route_was_replay := true |})
  end.

Definition persist_local_route_mutation (db : MakerDb) (request_id : RequestId)
    (request_json : Json) (pair_revision price_revision : Z) : result MakerDb StoreError :=
  insert_mutation db request_id
    {| mut_operation := "local_route_save";
       mut_request_payload_version := APPLICATION_PAYLOAD_VERSION;
       mut_request_json := request_json;
       mut_result_json := route_commit_to_json
         {| stored_route_schema_version := 1; stored_pair_revision := pair_revision;
            stored_price_revision := price_revision |} |}.

(** The upserts of [maker_pair_configurations] and [maker_local_prices]. *)
Definition write_pair (db : MakerDb) (request_id : RequestId)
    (configuration : MakerPairConfigurationV1) (revision : Z) : result MakerDb StoreError :=
  let? revision := revision_to_sql revision in
  upsert_pair db (route_key (cfg_route configuration))
    {| conf_payload_version := APPLICATION_PAYLOAD_VERSION;
       conf_payload_json := configuration_to_json configuration;
       conf_revision := revision;
       conf_updated_request_id := RequestId_as_str request_id |}.

Definition write_price (db : MakerDb) (request_id : RequestId)
    (price : LocalPriceV1) (revision : Z) : result MakerDb StoreError :=
  let? revision := revision_to_sql revision in
  upsert_price db (route_key (price_route price))
    {| conf_payload_version := APPLICATION_PAYLOAD_VERSION;
       conf_payload_json := price_to_json price;
       conf_revision := revision;
       conf_updated_request_id := RequestId_as_str request_id |}.

Definition save_local_maker_route (db : MakerDb) (request_id : RequestId)
    (expected_pair expected_price : option Z) (configuration : MakerPairConfigurationV1)
    (price : LocalPriceV1) : MakerDb * result MakerLocalRouteCommit StoreError :=
  immediate_transaction db (
    let? _ := map_err (MakerPairConfigurationV1_validate configuration) MakerConfiguration in
    let? _ := map_err (LocalPriceV1_validate price) MakerConfiguration in
    if cfg_route configuration !=? price_route price then Err MakerLocalRouteMismatch else
    if cfg_price_source configuration !=? Price_Local then Err MakerPriceSourceMismatch else
    let request_json := request_to_json
      (LocalRouteMutationRequest expected_pair expected_price configuration price) in
    let? replay := replay_local_route_mutation db request_id request_json in
    match replay with
    | Some commit => Ok (db, commit)
    | None =>
        let route := cfg_route configuration in
        let? pair_revision :=
          next_revision db.(maker_pair_configurations) route expected_pair in
        let? price_revision := next_revision db.(maker_local_prices) route expected_price in
        let? db := write_pair db request_id configuration pair_revision in
        let? db := write_price db request_id price price_revision in
        let? db := persist_local_route_mutation db request_id request_json
                     pair_revision price_revision in
        Ok (db, {| route_pair_revision := pair_revision;
                   route_price_revision := price_revision; route_was_replay := false |})
    end).

Definition configure_maker_pair (db : MakerDb) (request_id : RequestId)
    (expected : option Z) (configuration : MakerPairConfigurationV1)
    : MakerDb * result MakerConfigurationCommit StoreError :=
  immediate_transaction db (
    let? _ := map_err (MakerPairConfigurationV1_validate configuration) MakerConfiguration in
    let request_json := request_to_json (PairMutationRequest expected configuration) in
    let? replay := replay_configuration_mutation db request_id "pair_configure" request_json in
    match replay with
    | Some commit => Ok (db, commit)
    | None =>
        let route := cfg_route configuration in
        let? revision := next_revision db.(maker_pair_configurations) route expected in
        if cfg_enabled configuration && (cfg_price_source configuration ==? Price_Local)
           && negb (route_exists db.(maker_local_prices) route)
        then Err MissingMakerLocalPrice else
        let? db := write_pair db request_id configuration revision in
        let? db := persist_configuration_mutation db request_id "pair_configure"
                     request_json revision in
        Ok (db, {| config_revision := revision; config_was_replay := false |})
    end).

Definition set_local_price (db : MakerDb) (request_id : RequestId)
    (expected : option Z) (price : LocalPriceV1)
    : MakerDb * result MakerConfigurationCommit StoreError :=
  immediate_transaction db (
    let? _ := map_err (LocalPriceV1_validate price) MakerConfiguration in
    let request_json := request_to_json (PriceMutationRequest expected price) in
    let? replay := replay_configuration_mutation db request_id "local_price_set" request_json in
    match replay with
    | Some commit => Ok (db, commit)
    | None =>
        let route := price_route price in
        let? loaded := load_pair_record db route in
        let? policy := ok_or loaded MissingMakerPair in
        if cfg_price_source (record_value policy) !=? Price_Local
        then Err MakerPriceSourceMismatch else
        let? revision := next_revision db.(maker_local_prices) route expected in
        let? db := write_price db request_id price revision in
        let? db := persist_configuration_mutation db request_id "local_price_set"
                     request_json revision in
        Ok (db, {| config_revision := revision; config_was_replay := false |})
    end).
End operations.
