(* ===== verification/MakerOffers.v ===== *)
(** * The maker's offer operations

    [crates/swap-store/src/maker_offer.rs]: publishing an offer from the stored
    policy and a local or external price, reserving it for one negotiation,
    staging a Zcash proposal against it, binding it to a swap, withdrawing it,
    and the listings.  Staging and completing Bitcoin and Monero negotiations,
    and completing Zcash ones, are not modelled. *)

From stdpp Require Import base gmap strings list numbers sorting.
From S2P Require Import Prelude SwapCore Coordinator BridgeValues MakerMarket SqlTable StoreBase MakerStore MakerConfiguration.

Open Scope Z_scope.

Definition OFFER_PAYLOAD_VERSION : Z := 1.

Definition check_version (version : Z) (kind : string) : result unit StoreError :=
  if version !=? OFFER_PAYLOAD_VERSION
  then Err (UnsupportedPayloadVersion kind version) else Ok tt.

Definition sql_to_u64 (value : Z) : result Z StoreError :=
  if value <? 0 then Err CorruptMakerOffer else
  if value =? 0 then Err CorruptMakerOffer else Ok value.

Definition u64_to_sql (value : Z) : result Z StoreError :=
  if i64_max <? value then Err (MakerOffer InvalidTime) else Ok value.

(** [Option::map(..).transpose()] with its error replaced. *)
Definition parse_column {A E} (parse : string → result A E) (column : option string)
    : result (option A) StoreError :=
  match column with
  | None => Ok None
  | Some value => map_err (result_map Some (parse value)) (λ _, CorruptMakerOffer)
  end.

(** [ORDER BY offer_id] *)
Definition offer_key_le {A} (x y : string * A) : Prop := String.leb x.1 y.1 = true.

#[global] Instance offer_key_le_dec {A} (x y : string * A) : Decision (offer_key_le x y).
Proof. unfold offer_key_le. apply _. Defined.

Section operations.
Context `{MakerJson}.

(** ** Reading rows *)

(** The status of a [state] column and whether the other columns agree. *)
Definition decode_offer_state {A B} (state : string) (reservation : option A)
    (swap : option B) : result (MakerOfferStatus * bool) StoreError :=
  if state ==? "active" then Ok (Offer_Active, is_null reservation && is_null swap) else
  if state ==? "reserved" then Ok (Offer_Reserved, not_null reservation && is_null swap) else
  if state ==? "consumed" then Ok (Offer_Consumed, not_null reservation && not_null swap) else
  if state ==? "withdrawn" then Ok (Offer_Withdrawn, is_null reservation && is_null swap) else
  Err CorruptMakerOffer.

Definition decode_offer_tuple (key : string) (row : OfferRow) (now : Z)
    : result MakerOfferRecordV1 StoreError :=
  let? _ := check_version row.(offer_payload_version) "maker offer" in
  let? offer := ok_or (offer_from_json row.(offer_payload_json)) Serialization in
  let? _ := map_err (MakerOfferV1_validate offer) MakerOffer in
  let? mismatch :=
    (if (MakerOfferId_as_str (offer_id offer) !=? key)
        || (pair_name (route_pair (offer_route offer)) !=? row.(offer_pair))
        || (direction_name (route_direction (offer_route offer)) !=? row.(offer_direction))
     then Ok true
     else let? expires := sql_to_u64 row.(offer_expires) in
          Ok (negb (offer_expires_at offer =? expires))) in
  if (mismatch : bool) then Err CorruptMakerOffer else
  let? reservation := parse_column RequestId_new row.(offer_reservation_id) in
  let? swap := parse_column SwapId_new row.(offer_swap_id) in
  let? '(status, valid_shape) := decode_offer_state row.(offer_state) reservation swap in
  if negb valid_shape then Err CorruptMakerOffer else
  let status := if (status ==? Offer_Active) && (offer_expires_at offer <=? now)
                then Offer_Expired else status in
  let? revision := sql_to_u64 row.(offer_revision) in
  Ok {| rec_revision := revision; rec_status := status; rec_offer := offer;
        rec_reservation_id := reservation; rec_swap_id := SwapId_as_str <$> swap |}.

Definition load_offer (db : MakerDb) (offer : MakerOfferId) (now : Z)
    : result (option MakerOfferRecordV1) StoreError :=
  match db.(maker_offers) !! MakerOfferId_as_str offer with
  | None => Ok None
  | Some row => result_map Some (decode_offer_tuple (MakerOfferId_as_str offer) row now)
  end.

Definition load_pair (db : MakerDb) (route : MakerRouteV1)
    : result (option (MakerPairConfigurationV1 * Z)) StoreError :=
  match db.(maker_pair_configurations) !! route_key route with
  | None => Ok None
  | Some row =>
      let? _ := check_version row.(conf_payload_version) "maker pair configuration" in
      let? value := ok_or (configuration_from_json row.(conf_payload_json)) Serialization in
      let? validated := map_err (MakerPairConfigurationV1_new (cfg_route value)
        (cfg_enabled value) (cfg_price_source value) (cfg_minimum_foreign_units value)
        (cfg_maximum_foreign_units value) (cfg_offer_ttl_seconds value)) MakerConfiguration in
      if (cfg_route validated !=? route) || (validated !=? value)
      then Err CorruptMakerConfiguration else
      let? revision := sql_to_u64 row.(conf_revision) in
      Ok (Some (value, revision))
  end.

Definition load_price (db : MakerDb) (route : MakerRouteV1)
    : result (option (LocalPriceV1 * Z)) StoreError :=
  match db.(maker_local_prices) !! route_key route with
  | None => Ok None
  | Some row =>
      let? _ := check_version row.(conf_payload_version) "maker local price" in
      let? value := ok_or (price_from_json row.(conf_payload_json)) Serialization in
      let? validated := map_err (LocalPriceV1_new (price_route value)
        (lez_units_per_lot value) (foreign_units_per_lot value)) MakerConfiguration in
      if (price_route validated !=? route) || (validated !=? value)
      then Err CorruptMakerConfiguration else
      let? revision := sql_to_u64 row.(conf_revision) in
      Ok (Some (value, revision))
  end.

(** The [predicate] is the [WHERE] clause on the state and expiry columns. *)
Definition list_offers (db : MakerDb) (predicate : OfferRow → bool) (now : Z)
    : result (list MakerOfferRecordV1) StoreError :=
  collect_results (λ kr, decode_offer_tuple kr.1 kr.2 now)
    (filter (λ kr : string * OfferRow, predicate kr.2 = true)
       (merge_sort offer_key_le (map_to_list db.(maker_offers)))).

Definition list_discoverable_maker_offers (db : MakerDb) (now : Z)
    : result (list MakerOfferRecordV1) StoreError :=
  if i64_max <? now then Err (MakerOffer InvalidTime) else
  list_offers db (λ row, (row.(offer_state) ==? "active") && (now <? row.(offer_expires))) now.

Definition list_retryable_maker_offers (db : MakerDb) (now : Z)
    : result (list MakerOfferRecordV1) StoreError :=
  if i64_max <? now then Err (MakerOffer InvalidTime) else
  list_offers db (λ row, str_in row.(offer_state) ["active"; "reserved"; "consumed"]
                         && (now <? row.(offer_expires))) now.

Definition list_maker_offer_history (db : MakerDb) (now : Z)
    : result (list MakerOfferRecordV1) StoreError :=
  if i64_max <? now then Err (MakerOffer InvalidTime) else list_offers db (λ _, true) now.

(** ** The request journal *)

Definition equivalent_publish_requests (stored current : Json) : bool :=
  match publish_from_json stored, publish_from_json current with
  | Some stored, Some current => stored ==? current
  | _, _ => false
  end.

Definition replay_offer_mutation (db : MakerDb) (request_id : RequestId)
    (operation : string) (request_json : Json) : result (option MakerOfferCommit) StoreError :=
  match db.(maker_application_mutations) !! RequestId_as_str request_id with
  | None => Ok None
  | Some row =>
      if row.(mut_operation) !=? operation then Err MakerOfferRequestConflict else
      let exact_request := row.(mut_request_json) ==? request_json in
      let compatible_legacy_publish := (operation ==? "offer_publish")
        && equivalent_publish_requests row.(mut_request_json) request_json in
      if negb exact_request && negb compatible_legacy_publish
      then Err MakerOfferRequestConflict else
      let? stored := ok_or (commit_from_json row.(mut_result_json)) Serialization in
      if (stored_schema_version stored !=? 1) || (stored_revision stored =? 0)
      then Err CorruptMakerOffer else
      Ok (Some {| commit_revision := stored_revision stored; commit_was_replay := true |})
  end.

Definition persist_offer_mutation (db : MakerDb) (request_id : RequestId)
    (operation : string) (request_json : Json) (revision : Z) : result MakerDb StoreError :=
  insert_mutation db request_id
    {| mut_operation := operation; mut_request_payload_version := OFFER_PAYLOAD_VERSION;
       mut_request_json := request_json;
       mut_result_json := commit_to_json
         {| stored_schema_version := 1; stored_revision := revision |} |}.

(** ** Publication *)

Definition offer_exists (db : MakerDb) (offer : MakerOfferId) : bool :=
  bool_decide (is_Some (db.(maker_offers) !! MakerOfferId_as_str offer)).

Definition prepare_maker_offer_publication (db : MakerDb) (request_id : RequestId)
    (offer : MakerOfferId) (route : MakerRouteV1)
    : MakerDb * result MakerOfferPublicationPreflight StoreError :=
  immediate_transaction db (
    let request_json := request_to_json (PublishRequest offer route) in
    let? replay := replay_offer_mutation db request_id "offer_publish" request_json in
    match replay with
    | Some commit => Ok (db, Preflight_Replayed commit)
    | None =>
        if offer_exists db offer then Err MakerOfferAlreadyExists else
        let? loaded := load_pair db route in
        let? '(policy, policy_revision) := ok_or loaded MissingMakerPair in
        if negb (cfg_enabled policy) then Err MakerRouteDisabled else
        Ok (db, Preflight_Pending policy_revision (cfg_price_source policy))
    end).

(** The expiry of an offer published at [now]. *)
Definition offer_expiry (now ttl : Z) : result Z StoreError :=
  match checked_add u64_max now ttl with
  | Some expires => if expires <=? i64_max then Ok expires else Err (MakerOffer InvalidTime)
  | None => Err (MakerOffer InvalidTime)
  end.

(** The [INSERT] of a published offer. *)
Definition insert_active_offer (db : MakerDb) (request_id : RequestId) (route : MakerRouteV1)
    (offer : MakerOfferV1) : result MakerDb StoreError :=
  let? expires := u64_to_sql (offer_expires_at offer) in
  insert_offer db (MakerOfferId_as_str (offer_id offer))
    {| offer_pair := pair_name (route_pair route);
       offer_direction := direction_name (route_direction route);
       offer_payload_version := OFFER_PAYLOAD_VERSION;
       offer_payload_json := offer_to_json offer;
       offer_expires := expires;
       offer_state := "active";
       offer_revision := 1;
       offer_reservation_id := None;
       offer_swap_id := None;
       offer_updated_request_id := RequestId_as_str request_id |}.

Definition check_expected_revisions (expected : option (Z * Z)) (policy price : Z)
    : result unit StoreError :=
  match expected with
  | None => Ok tt
  | Some (expected_pair, expected_price) =>
      if negb (expected_pair =? policy)
      then Err (StaleMakerConfiguration (Some expected_pair) (Some policy)) else
      if negb (expected_price =? price)
      then Err (StaleMakerConfiguration (Some expected_price) (Some price)) else
      Ok tt
  end.

Definition local_publish_request (offer : MakerOfferId) (route : MakerRouteV1)
    (expected : option (Z * Z)) : string * MutationRequest :=
  match expected with
  | Some (expected_pair, expected_price) =>
      ("offer_publish_at_revisions_v1",
       GuardedPublishRequest offer route expected_pair expected_price)
  | None => ("offer_publish", PublishRequest offer route)
  end.

Definition publish_local_offer_inner (db : MakerDb) (request_id : RequestId)
    (offer : MakerOfferId) (route : MakerRouteV1) (expected : option (Z * Z)) (now : Z)
    : MakerDb * result MakerOfferCommit StoreError :=
  immediate_transaction db (
    let '(operation, request) := local_publish_request offer route expected in
    let request_json := request_to_json request in
    let? replay := replay_offer_mutation db request_id operation request_json in
    match replay with
    | Some commit => Ok (db, commit)
    | None =>
        if i64_max <? now then Err (MakerOffer InvalidTime) else
        if offer_exists db offer then Err MakerOfferAlreadyExists else
        let? loaded := load_pair db route in
        let? '(policy, policy_revision) := ok_or loaded MissingMakerPair in
        if negb (cfg_enabled policy) then Err MakerRouteDisabled else
        if cfg_price_source policy !=? Price_Local then Err MakerPriceSourceMismatch else
        let? loaded := load_price db route in
        let? '(price, price_revision) := ok_or loaded MissingMakerLocalPrice in
        let? _ := check_expected_revisions expected policy_revision price_revision in
        let? expires := offer_expiry now (cfg_offer_ttl_seconds policy) in
        let published := {|
          offer_id := offer; offer_configuration := policy; offer_price := price;
          offer_configuration_revision := policy_revision;
          offer_price_revision := price_revision;
          offer_price_observed_at := now; offer_price_identity := None;
          offer_created_at := now; offer_expires_at := expires |} in
        let? _ := map_err (MakerOfferV1_validate published) MakerOffer in
        let? db := insert_active_offer db request_id route published in
        let? db := persist_offer_mutation db request_id operation request_json 1 in
        Ok (db, {| commit_revision := 1; commit_was_replay := false |})
    end).

Definition publish_local_offer (db : MakerDb) (request_id : RequestId)
    (offer : MakerOfferId) (route : MakerRouteV1) (now : Z) :=
  publish_local_offer_inner db request_id offer route None now.

Definition publish_local_offer_at_revisions (db : MakerDb) (request_id : RequestId)
    (offer : MakerOfferId) (route : MakerRouteV1) (expected : Z * Z) (now : Z) :=
  publish_local_offer_inner db request_id offer route (Some expected) now.

(** A quote of an external price source. *)
Record LogosQuote := {
  quote_price : LocalPriceV1;
  quote_source_identity : bytes;
  quote_source_revision : Z;
  quote_observed_at : Z
}.

Definition update_external_price_head (db : MakerDb) (route : MakerRouteV1)
    (quote : LogosQuote) : result MakerDb StoreError :=
  let k := (route_key route, quote_source_identity quote) in
  let? _ := match db.(maker_external_price_heads) !! k with
    | None => Ok tt
    | Some head =>
        let? prior_revision := sql_to_u64 head.(head_source_revision) in
        let? prior_observed := sql_to_u64 head.(head_observed_at) in
        let? prior_lez := sql_to_u64 head.(head_lez_units_per_lot) in
        let? prior_foreign := sql_to_u64 head.(head_foreign_units_per_lot) in
        if (quote_source_revision quote <? prior_revision)
           || ((prior_revision <? quote_source_revision quote)
               && (quote_observed_at quote <? prior_observed))
        then Err MakerPriceRevisionRollback else
        if (prior_revision =? quote_source_revision quote)
           && (negb (prior_observed =? quote_observed_at quote)
               || negb (prior_lez =? lez_units_per_lot (quote_price quote))
               || negb (prior_foreign =? foreign_units_per_lot (quote_price quote)))
        then Err MakerPriceRevisionConflict else
        Ok tt
    end in
  let? source_revision := u64_to_sql (quote_source_revision quote) in
  let? observed_at := u64_to_sql (quote_observed_at quote) in
  let? lez := u64_to_sql (lez_units_per_lot (quote_price quote)) in
  let? foreign := u64_to_sql (foreign_units_per_lot (quote_price quote)) in
  let? t := executed (sql_upsert price_head_check db.(maker_external_price_heads) k
    {| head_source_revision := source_revision; head_observed_at := observed_at;
       head_lez_units_per_lot := lez; head_foreign_units_per_lot := foreign |}) in
  Ok (with_heads db t).

(** The test of a quote's fields and its age at [now]. *)
Definition quote_rejected (route : MakerRouteV1) (quote : LogosQuote) (now max_age : Z) : bool :=
  (price_route (quote_price quote) !=? route)
  || (quote_source_revision quote =? 0) || (i64_max <? quote_source_revision quote)
  || (quote_source_identity quote ==? zero32)
  || (quote_observed_at quote =? 0) || (now <? quote_observed_at quote)
  || (i64_max <? now)
  || negb ((1 <=? max_age) && (max_age <=? MAX_LOGOS_QUOTE_AGE_SECONDS))
  || (max_age <? now - quote_observed_at quote).

Definition publish_logos_offer (db : MakerDb) (request_id : RequestId)
    (offer : MakerOfferId) (route : MakerRouteV1) (expected : Z) (quote : LogosQuote)
    (now max_age : Z) : MakerDb * result MakerOfferCommit StoreError :=
  immediate_transaction db (
    let request_json := request_to_json (PublishRequest offer route) in
    let? replay := replay_offer_mutation db request_id "offer_publish" request_json in
    match replay with
    | Some commit => Ok (db, commit)
    | None =>
        if quote_rejected route quote now max_age then Err (MakerOffer InvalidSnapshot) else
        if offer_exists db offer then Err MakerOfferAlreadyExists else
        let? loaded := load_pair db route in
        let? '(policy, policy_revision) := ok_or loaded MissingMakerPair in
        if negb (policy_revision =? expected)
        then Err (StaleMakerConfiguration (Some expected) (Some policy_revision)) else
        if negb (cfg_enabled policy) then Err MakerRouteDisabled else
        if cfg_price_source policy !=? Price_LogosCApi then Err MakerPriceSourceMismatch else
        let? expires := offer_expiry now (cfg_offer_ttl_seconds policy) in
        let published := {|
          offer_id := offer; offer_configuration := policy;
          offer_price := quote_price quote;
          offer_configuration_revision := policy_revision;
          offer_price_revision := quote_source_revision quote;
          offer_price_observed_at := quote_observed_at quote;
          offer_price_identity := Some (quote_source_identity quote);
          offer_created_at := now; offer_expires_at := expires |} in
        let? _ := map_err (MakerOfferV1_validate published) MakerOffer in
        let? db := update_external_price_head db route quote in
        let? db := insert_active_offer db request_id route published in
        let? db := persist_offer_mutation db request_id "offer_publish" request_json 1 in
        Ok (db, {| commit_revision := 1; commit_was_replay := false |})
    end).

(** ** Transitions *)

(** The columns every transition of an offer sets. *)
Definition set_offer (state : string) (revision : Z) (reservation swap : option string)
    (request_id : RequestId) (row : OfferRow) : OfferRow :=
  {| offer_pair := row.(offer_pair); offer_direction := row.(offer_direction);
     offer_payload_version := row.(offer_payload_version);
     offer_payload_json := row.(offer_payload_json);
     offer_expires := row.(offer_expires); offer_state := state;
     offer_revision := revision; offer_reservation_id := reservation;
     offer_swap_id := swap;
     offer_updated_request_id := RequestId_as_str request_id |}.

Definition transition_offer (db : MakerDb) (request_id : RequestId) (operation : string)
    (request : MutationRequest) (offer : MakerOfferId) (expected : Z)
    (swap_to_insert : option SwapCoordinator)
    (transition : MakerOfferRecordV1 →
                  result (string * option string * option string) StoreError)
    : MakerDb * result MakerOfferCommit StoreError :=
  immediate_transaction db (
    let request_json := request_to_json request in
    let? replay := replay_offer_mutation db request_id operation request_json in
    match replay with
    | Some commit => Ok (db, commit)
    | None =>
        let? loaded := load_offer db offer 0 in
        let? record := ok_or loaded MissingMakerOffer in
        if negb (rec_revision record =? expected)
        then Err (StaleMakerOffer expected (rec_revision record)) else
        let? '(state, reservation, swap_id) := transition record in
        let? db := match swap_to_insert with
                   | Some swap => insert_swap db swap
                   | None => Ok db
                   end in
        let? revision := ok_or (checked_add u64_max expected 1) RevisionOverflow in
        let? sql_revision := u64_to_sql revision in
        let? sql_expected := u64_to_sql expected in
        let? '(db, updated) := update_offer db (MakerOfferId_as_str offer)
          (λ row, row.(offer_revision) =? sql_expected)
          (set_offer state sql_revision reservation swap_id request_id) in
        if negb (updated =? 1) then Err (StaleMakerOffer expected (rec_revision record)) else
        let? db := persist_offer_mutation db request_id operation request_json revision in
        Ok (db, {| commit_revision := revision; commit_was_replay := false |})
    end).

Definition reserve_maker_offer (db : MakerDb) (request_id : RequestId) (offer : MakerOfferId)
    (expected : Z) (reservation : RequestId) (now : Z)
    : MakerDb * result MakerOfferCommit StoreError :=
  transition_offer db request_id "offer_reserve"
    (ReserveRequest offer expected reservation now) offer expected None
    (λ record,
      if (i64_max <? now) || (offer_expires_at (rec_offer record) <=? now)
      then Err MakerOfferExpired else
      if rec_status record !=? Offer_Active then Err MakerOfferUnavailable else
      Ok ("reserved", Some (RequestId_as_str reservation), None)).

Definition staged_pair_negotiation (db : MakerDb) (offer : MakerOfferId) : bool :=
  let k := MakerOfferId_as_str offer in
  bool_decide (is_Some (db.(maker_zec_negotiations) !! k))
  || bool_decide (k ∈ db.(maker_btc_negotiations))
  || bool_decide (k ∈ db.(maker_xmr_negotiations)).

Definition consume_maker_offer (db : MakerDb) (request_id : RequestId) (offer : MakerOfferId)
    (expected : Z) (reservation : RequestId) (swap : SwapCoordinator)
    : MakerDb * result MakerOfferCommit StoreError :=
  if staged_pair_negotiation db offer then (db, Err MakerOfferUnavailable) else
  transition_offer db request_id "offer_consume"
    (ConsumeRequest offer expected reservation swap) offer expected (Some swap)
    (λ record,
      if (rec_status record !=? Offer_Reserved)
         || (rec_reservation_id record !=? Some reservation)
      then Err MakerOfferReservationConflict else
      if (route_pair (offer_route (rec_offer record)) !=? coord_pair swap)
         || (route_direction (offer_route (rec_offer record)) !=? coord_direction swap)
         || (coord_phase swap !=? Offered)
      then Err MakerOfferSwapMismatch else
      Ok ("consumed", Some (RequestId_as_str reservation),
          Some (SwapId_as_str (coord_id swap)))).

Definition withdraw_maker_offer (db : MakerDb) (request_id : RequestId)
    (offer : MakerOfferId) (expected : Z) : MakerDb * result MakerOfferCommit StoreError :=
  transition_offer db request_id "offer_withdraw" (WithdrawRequest offer expected)
    offer expected None
    (λ record,
      if rec_status record !=? Offer_Active then Err MakerOfferUnavailable else
      Ok ("withdrawn", None, None)).

(** ** Staged Zcash proposals *)

(** [u128::from_be_bytes] *)
Definition u128_from_be_bytes (b : bytes) : Z := fold_left (λ acc x, acc * 256 + Z_of_byte x) b 0.

(** [try_into] an array of [n] bytes. *)
Definition column_array (n : Z) (b : bytes) : result bytes StoreError :=
  if len_is n b then Ok b else Err CorruptMakerOffer.

Definition decode_zec_negotiation_row (row : ZecNegotiationRow)
    : result MakerZecNegotiationV1 StoreError :=
  let? _ := check_version row.(zec_payload_version) "maker ZEC negotiation" in
  let? offer_commitment := column_array 32 row.(zec_offer_commitment) in
  let? maker_chat_identity := column_array 33 row.(zec_maker_chat_identity) in
  let? taker_chat_identity := column_array 33 row.(zec_taker_chat_identity) in
  let? lez_units := column_array 16 row.(zec_lez_units) in
  let? agreement_commitment := column_array 32 row.(zec_agreement_commitment) in
  let? status :=
    (if row.(zec_state) ==? "proposed" then Ok Negotiation_Proposed else
     if row.(zec_state) ==? "completed" then Ok Negotiation_Completed else
     Err CorruptMakerOffer) in
  let? swap := parse_column SwapId_new row.(zec_swap_id) in
  let? reservation := map_err (RequestId_new row.(zec_reservation_id))
                        (λ _, CorruptMakerOffer) in
  let? foreign_units := sql_to_u64 row.(zec_foreign_units) in
  let? reserved_at := sql_to_u64 row.(zec_reserved_at) in
  let value := {|
    zn_reservation_id := reservation; zn_offer_commitment := offer_commitment;
    zn_maker_chat_identity := maker_chat_identity;
    zn_taker_chat_identity := taker_chat_identity;
    zn_foreign_units := foreign_units; zn_lez_units := u128_from_be_bytes lez_units;
    zn_reserved_at := reserved_at; zn_agreement_commitment := agreement_commitment;
    zn_maker_proposal_wire := row.(zec_maker_proposal_wire); zn_status := status;
    zn_final_agreement_wire := row.(zec_final_agreement_wire);
    zn_swap_id := SwapId_as_str <$> swap |} in
  let? _ := map_err (MakerZecNegotiationV1_validate value) MakerOffer in
  Ok value.

Definition load_zec_maker_negotiation (db : MakerDb) (offer : MakerOfferId)
    : result (option MakerZecNegotiationV1) StoreError :=
  match db.(maker_zec_negotiations) !! MakerOfferId_as_str offer with
  | None => Ok None
  | Some row => result_map Some (decode_zec_negotiation_row row)
  end.

Variable sha256 : bytes → bytes.

Definition stage_zec_request (offer : MakerOfferId) (expected : Z) (n : MakerZecNegotiationV1)
    : MutationRequest :=
  StageZecNegotiationRequest offer expected (zn_reservation_id n) (zn_offer_commitment n)
    (zn_maker_chat_identity n) (zn_taker_chat_identity n) (zn_foreign_units n)
    (zn_lez_units n) (zn_agreement_commitment n) (sha256 (zn_maker_proposal_wire n)).

Definition stage_zec_maker_negotiation (db : MakerDb) (request_id : RequestId)
    (offer : MakerOfferId) (expected : Z) (n : MakerZecNegotiationV1)
    : MakerDb * result MakerOfferCommit StoreError :=
  immediate_transaction db (
    let? _ := map_err (MakerZecNegotiationV1_validate n) MakerOffer in
    if zn_status n !=? Negotiation_Proposed then Err (MakerOffer InvalidNegotiation) else
    let request_json := request_to_json (stage_zec_request offer expected n) in
    let? replay := replay_offer_mutation db request_id "zec_negotiation_stage" request_json in
    match replay with
    | Some commit => Ok (db, commit)
    | None =>
        let? loaded := load_offer db offer (zn_reserved_at n) in
        let? record := ok_or loaded MissingMakerOffer in
        if negb (rec_revision record =? expected)
        then Err (StaleMakerOffer expected (rec_revision record)) else
        if route_pair (offer_route (rec_offer record)) !=? Pair_Zcash
        then Err MakerOfferSwapMismatch else
        if offer_expires_at (rec_offer record) <=? zn_reserved_at n
        then Err MakerOfferExpired else
        if rec_status record !=? Offer_Active then Err MakerOfferUnavailable else
        let? quoted := ok_or (quote_foreign_amount (rec_offer record) (zn_foreign_units n))
                         Panicked in
        let? lez_units := map_err quoted MakerOffer in
        if negb (lez_units =? zn_lez_units n) then Err (MakerOffer InvalidNegotiation) else
        let? foreign_units := u64_to_sql (zn_foreign_units n) in
        let? reserved_at := u64_to_sql (zn_reserved_at n) in
        let? db := insert_zec_negotiation db (MakerOfferId_as_str offer)
          {| zec_reservation_id := RequestId_as_str (zn_reservation_id n);
             zec_payload_version := 1;
             zec_offer_commitment := zn_offer_commitment n;
             zec_maker_chat_identity := zn_maker_chat_identity n;
             zec_taker_chat_identity := zn_taker_chat_identity n;
             zec_foreign_units := foreign_units;
             zec_lez_units := be_bytes 16 (zn_lez_units n);
             zec_reserved_at := reserved_at;
             zec_agreement_commitment := zn_agreement_commitment n;
             zec_maker_proposal_wire := zn_maker_proposal_wire n;
             zec_state := "proposed"; zec_final_agreement_wire := None;
             zec_swap_id := None;
             zec_updated_request_id := RequestId_as_str request_id |} in
        let? revision := ok_or (checked_add u64_max expected 1) RevisionOverflow in
        let? sql_revision := u64_to_sql revision in
        let? sql_expected := u64_to_sql expected in
        let? '(db, updated) := update_offer db (MakerOfferId_as_str offer)
          (λ row, (row.(offer_revision) =? sql_expected) && (row.(offer_state) ==? "active"))
          (λ row, set_offer "reserved" sql_revision
                    (Some (RequestId_as_str (zn_reservation_id n))) row.(offer_swap_id)
                    request_id row) in
        if negb (updated =? 1) then Err (StaleMakerOffer expected (rec_revision record)) else
        let? db := persist_offer_mutation db request_id "zec_negotiation_stage"
                     request_json revision in
        Ok (db, {| commit_revision := revision; commit_was_replay := false |})
    end).
End operations.
