(* ===== verification/MakerStoreFacts.v ===== *)
(** * Facts on the maker's configuration and offers

    Every successful mutation is one of eight changes of the database plus the
    row that records it ([change]); the invariant [maker_inv] that all of them
    preserve says what the rows of a reachable database are, and [maker_le] what
    later databases keep of earlier ones. *)

From stdpp Require Import base gmap strings list numbers sorting.
From S2P Require Import Prelude SwapCore Coordinator BridgeValues MakerMarket MakerMarketFacts SqlTable StoreBase MakerStore MakerConfiguration MakerOffers.

Open Scope Z_scope.

(** ** Calls and their outcomes *)

Inductive MakerCall :=
| Call_SaveRoute (rid : RequestId) (expected_pair expected_price : option Z)
    (c : MakerPairConfigurationV1) (p : LocalPriceV1)
| Call_ConfigurePair (rid : RequestId) (expected : option Z) (c : MakerPairConfigurationV1)
| Call_SetPrice (rid : RequestId) (expected : option Z) (p : LocalPriceV1)
| Call_Prepare (rid : RequestId) (offer : MakerOfferId) (route : MakerRouteV1)
| Call_PublishLocal (rid : RequestId) (offer : MakerOfferId) (route : MakerRouteV1)
    (expected : option (Z * Z)) (now : Z)
| Call_PublishLogos (rid : RequestId) (offer : MakerOfferId) (route : MakerRouteV1)
    (expected : Z) (quote : LogosQuote) (now max_age : Z)
| Call_Reserve (rid : RequestId) (offer : MakerOfferId) (expected : Z)
    (reservation : RequestId) (now : Z)
| Call_StageZec (rid : RequestId) (offer : MakerOfferId) (expected : Z)
    (n : MakerZecNegotiationV1)
| Call_Consume (rid : RequestId) (offer : MakerOfferId) (expected : Z)
    (reservation : RequestId) (swap : SwapCoordinator)
| Call_Withdraw (rid : RequestId) (offer : MakerOfferId) (expected : Z).

Inductive MutationResult := Revision (revision : Z) | Revisions (pair price : Z).

Inductive MakerOutcome :=
| Committed (result : MutationResult) (was_replay : bool)
| Pending (revision : Z) (source : MakerPriceSourceKind)
| Refused (e : StoreError).

Definition call_request_id (c : MakerCall) : RequestId :=
  match c with
  | Call_SaveRoute rid _ _ _ _ | Call_ConfigurePair rid _ _ | Call_SetPrice rid _ _
  | Call_Prepare rid _ _ | Call_PublishLocal rid _ _ _ _ | Call_PublishLogos rid _ _ _ _ _ _
  | Call_Reserve rid _ _ _ _ | Call_StageZec rid _ _ _ | Call_Consume rid _ _ _ _
  | Call_Withdraw rid _ _ => rid
  end.

Definition of_route_commit (r : result MakerLocalRouteCommit StoreError) : MakerOutcome :=
  match r with
  | Ok c => Committed (Revisions (route_pair_revision c) (route_price_revision c))
              (route_was_replay c)
  | Err e => Refused e
  end.

Definition of_configuration_commit (r : result MakerConfigurationCommit StoreError)
    : MakerOutcome :=
  match r with
  | Ok c => Committed (Revision (config_revision c)) (config_was_replay c)
  | Err e => Refused e
  end.

Definition of_offer_commit (r : result MakerOfferCommit StoreError) : MakerOutcome :=
  match r with
  | Ok c => Committed (Revision (commit_revision c)) (commit_was_replay c)
  | Err e => Refused e
  end.

Definition of_preflight (r : result MakerOfferPublicationPreflight StoreError) : MakerOutcome :=
  match r with
  | Ok (Preflight_Replayed c) => Committed (Revision (commit_revision c)) (commit_was_replay c)
  | Ok (Preflight_Pending revision source) => Pending revision source
  | Err e => Refused e
  end.

(** ** What rows hold *)

(** The life of an offer; its revision counts the transitions. *)
Inductive OfferPhase :=
| P_Active
| P_Reserved (r : RequestId)
| P_Consumed (r : RequestId) (s : SwapId)
| P_Withdrawn.

Definition phase_state (p : OfferPhase) : string :=
  match p with
  | P_Active => "active" | P_Reserved _ => "reserved"
  | P_Consumed _ _ => "consumed" | P_Withdrawn => "withdrawn"
  end.

Definition phase_status (p : OfferPhase) (expired : bool) : MakerOfferStatus :=
  match p with
  | P_Active => if expired then Offer_Expired else Offer_Active
  | P_Reserved _ => Offer_Reserved
  | P_Consumed _ _ => Offer_Consumed
  | P_Withdrawn => Offer_Withdrawn
  end.

Definition phase_revision (p : OfferPhase) : Z :=
  match p with P_Active => 1 | P_Reserved _ | P_Withdrawn => 2 | P_Consumed _ _ => 3 end.

Definition phase_reservation (p : OfferPhase) : option RequestId :=
  match p with P_Reserved r | P_Consumed r _ => Some r | _ => None end.

Definition phase_swap (p : OfferPhase) : option SwapId :=
  match p with P_Consumed _ s => Some s | _ => None end.

Definition phase_ok (p : OfferPhase) : Prop :=
  match p with
  | P_Reserved r => safe_identifier (RequestId_as_str r) = true
  | P_Consumed r s => safe_identifier (RequestId_as_str r) = true ∧
      bad_identifier (SwapId_as_str s) = false
  | _ => True
  end.

(** The fields of a policy are [u64]. *)
Definition configuration_in_range (c : MakerPairConfigurationV1) : Prop :=
  in_range u64_max (cfg_minimum_foreign_units c) ∧
  in_range u64_max (cfg_maximum_foreign_units c) ∧ in_range u64_max (cfg_offer_ttl_seconds c).

(** The arrays of a proposal have their lengths and its amounts their widths. *)
Definition negotiation_in_range (n : MakerZecNegotiationV1) : Prop :=
  safe_identifier (RequestId_as_str (zn_reservation_id n)) = true ∧
  blen (zn_offer_commitment n) = 32 ∧ blen (zn_maker_chat_identity n) = 33 ∧
  blen (zn_taker_chat_identity n) = 33 ∧ blen (zn_agreement_commitment n) = 32 ∧
  in_range u64_max (zn_foreign_units n) ∧ in_range u128_max (zn_lez_units n) ∧
  in_range u64_max (zn_reserved_at n).

Definition quote_in_range (q : LogosQuote) : Prop :=
  price_in_range (quote_price q) ∧ blen (quote_source_identity q) = 32 ∧
  in_range u64_max (quote_source_revision q) ∧ in_range u64_max (quote_observed_at q).

Definition revision_in_range (e : option Z) : Prop :=
  match e with None => True | Some r => in_range u64_max r end.

Abbreviation safe_offer o := (safe_identifier (MakerOfferId_as_str o) = true).

(** What the types of the arguments guarantee: identifiers built by their
    constructors, arrays of their lengths, integers of their widths. *)
Definition well_typed (c : MakerCall) : Prop :=
  match c with
  | Call_SaveRoute _ e1 e2 c p => revision_in_range e1 ∧ revision_in_range e2 ∧
      configuration_in_range c ∧ price_in_range p
  | Call_ConfigurePair _ e c => revision_in_range e ∧ configuration_in_range c
  | Call_SetPrice _ e p => revision_in_range e ∧ price_in_range p
  | Call_Prepare _ o _ => safe_offer o
  | Call_PublishLocal _ o _ _ now => safe_offer o ∧ in_range u64_max now
  | Call_PublishLogos _ o _ _ q now _ => safe_offer o ∧ quote_in_range q ∧ in_range u64_max now
  | Call_Reserve _ o e r now => safe_offer o ∧ in_range u64_max e ∧
      safe_identifier (RequestId_as_str r) = true ∧ in_range u64_max now
  | Call_StageZec _ o e n => safe_offer o ∧ in_range u64_max e ∧ negotiation_in_range n
  | Call_Consume _ o e r s => safe_offer o ∧ in_range u64_max e ∧
      safe_identifier (RequestId_as_str r) = true ∧
      bad_identifier (SwapId_as_str (coord_id s)) = false
  | Call_Withdraw _ o e => safe_offer o ∧ in_range u64_max e
  end.

(** The stored revisions of a route. *)
Abbreviation pair_revision db route :=
  (conf_revision <$> maker_pair_configurations db !! route_key route).
Abbreviation price_revision db route :=
  (conf_revision <$> maker_local_prices db !! route_key route).

Section facts.
Context {J : MakerJson} {L : MakerJsonLaws J} (sha256 : bytes → bytes).

Definition maker_call (db : MakerDb) (c : MakerCall) : MakerDb * MakerOutcome :=
  match c with
  | Call_SaveRoute rid e1 e2 c p =>
      prod_map id of_route_commit (save_local_maker_route db rid e1 e2 c p)
  | Call_ConfigurePair rid e c =>
      prod_map id of_configuration_commit (configure_maker_pair db rid e c)
  | Call_SetPrice rid e p => prod_map id of_configuration_commit (set_local_price db rid e p)
  | Call_Prepare rid o route =>
      prod_map id of_preflight (prepare_maker_offer_publication db rid o route)
  | Call_PublishLocal rid o route e now =>
      prod_map id of_offer_commit (publish_local_offer_inner db rid o route e now)
  | Call_PublishLogos rid o route e q now max_age =>
      prod_map id of_offer_commit (publish_logos_offer db rid o route e q now max_age)
  | Call_Reserve rid o e r now =>
      prod_map id of_offer_commit (reserve_maker_offer db rid o e r now)
  | Call_StageZec rid o e n =>
      prod_map id of_offer_commit (stage_zec_maker_negotiation sha256 db rid o e n)
  | Call_Consume rid o e r s =>
      prod_map id of_offer_commit (consume_maker_offer db rid o e r s)
  | Call_Withdraw rid o e => prod_map id of_offer_commit (withdraw_maker_offer db rid o e)
  end.

Definition call_request (c : MakerCall) : MutationRequest :=
  match c with
  | Call_SaveRoute _ e1 e2 c p => LocalRouteMutationRequest e1 e2 c p
  | Call_ConfigurePair _ e c => PairMutationRequest e c
  | Call_SetPrice _ e p => PriceMutationRequest e p
  | Call_Prepare _ o route | Call_PublishLogos _ o route _ _ _ _ => PublishRequest o route
  | Call_PublishLocal _ o route e _ => (local_publish_request o route e).2
  | Call_Reserve _ o e r now => ReserveRequest o e r now
  | Call_StageZec _ o e n => stage_zec_request sha256 o e n
  | Call_Consume _ o e r s => ConsumeRequest o e r s
  | Call_Withdraw _ o e => WithdrawRequest o e
  end.

Definition request_operation (r : MutationRequest) : string :=
  match r with
  | LocalRouteMutationRequest _ _ _ _ => "local_route_save"
  | PairMutationRequest _ _ => "pair_configure"
  | PriceMutationRequest _ _ => "local_price_set"
  | PublishRequest _ _ => "offer_publish"
  | GuardedPublishRequest _ _ _ _ => "offer_publish_at_revisions_v1"
  | ReserveRequest _ _ _ _ => "offer_reserve"
  | ConsumeRequest _ _ _ _ => "offer_consume"
  | StageZecNegotiationRequest _ _ _ _ _ _ _ _ _ _ => "zec_negotiation_stage"
  | WithdrawRequest _ _ => "offer_withdraw"
  end.

Definition encode_result (r : MutationResult) : Json :=
  match r with
  | Revision v => commit_to_json {| stored_schema_version := 1; stored_revision := v |}
  | Revisions a b => route_commit_to_json
      {| stored_route_schema_version := 1; stored_pair_revision := a;
         stored_price_revision := b |}
  end.

Definition encode_mutation (req : MutationRequest) (res : MutationResult) : MutationRow :=
  {| mut_operation := request_operation req; mut_request_payload_version := 1;
     mut_request_json := request_to_json req; mut_result_json := encode_result res |}.

Definition encode_configuration (payload : Json) (revision : Z) (rid : RequestId)
    : ConfigurationRow :=
  {| conf_payload_version := 1; conf_payload_json := payload; conf_revision := revision;
     conf_updated_request_id := RequestId_as_str rid |}.

Definition encode_offer (o : MakerOfferV1) (p : OfferPhase) (rid : RequestId) : OfferRow :=
  {| offer_pair := pair_name (route_pair (offer_route o));
     offer_direction := direction_name (route_direction (offer_route o));
     offer_payload_version := 1; offer_payload_json := offer_to_json o;
     offer_expires := offer_expires_at o; offer_state := phase_state p;
     offer_revision := phase_revision p;
     offer_reservation_id := RequestId_as_str <$> phase_reservation p;
     offer_swap_id := SwapId_as_str <$> phase_swap p;
     offer_updated_request_id := RequestId_as_str rid |}.

Definition encode_negotiation (n : MakerZecNegotiationV1) (rid : RequestId)
    : ZecNegotiationRow :=
  {| zec_reservation_id := RequestId_as_str (zn_reservation_id n); zec_payload_version := 1;
     zec_offer_commitment := zn_offer_commitment n;
     zec_maker_chat_identity := zn_maker_chat_identity n;
     zec_taker_chat_identity := zn_taker_chat_identity n;
     zec_foreign_units := zn_foreign_units n;
     zec_lez_units := be_bytes 16 (zn_lez_units n); zec_reserved_at := zn_reserved_at n;
     zec_agreement_commitment := zn_agreement_commitment n;
     zec_maker_proposal_wire := zn_maker_proposal_wire n; zec_state := "proposed";
     zec_final_agreement_wire := None; zec_swap_id := None;
     zec_updated_request_id := RequestId_as_str rid |}.

Definition encode_head (q : LogosQuote) : PriceHeadRow :=
  {| head_source_revision := quote_source_revision q;
     head_observed_at := quote_observed_at q;
     head_lez_units_per_lot := lez_units_per_lot (quote_price q);
     head_foreign_units_per_lot := foreign_units_per_lot (quote_price q) |}.

(** ** Reading back what was written *)

Lemma sql_to_u64_pos v : 0 < v → sql_to_u64 v = Ok v.
Proof.
  intros. unfold sql_to_u64. by rewrite (proj2 (Z.ltb_ge _ _)), (proj2 (Z.eqb_neq _ _)) by lia.
Qed.

Lemma u64_to_sql_le v : v ≤ i64_max → u64_to_sql v = Ok v.
Proof. intros. unfold u64_to_sql. by rewrite (proj2 (Z.ltb_ge _ _)) by lia. Qed.

Lemma u64_to_sql_Ok v w : u64_to_sql v = Ok w → w = v ∧ v ≤ i64_max.
Proof. unfold u64_to_sql. destruct (Z.ltb_spec i64_max v); [done|]. intros [= <-]. lia. Qed.

Lemma revision_from_sql_pos v : 0 < v → revision_from_sql v = Ok v.
Proof.
  intros. unfold revision_from_sql.
  by rewrite (proj2 (Z.ltb_ge _ _)), (proj2 (Z.eqb_neq _ _)) by lia.
Qed.

Lemma revision_to_sql_Ok v w : revision_to_sql v = Ok w → w = v ∧ v ≤ i64_max.
Proof. unfold revision_to_sql. destruct (Z.ltb_spec i64_max v); [done|]. intros [= <-]. lia. Qed.

Lemma parse_reservation p :
  phase_ok p →
  parse_column RequestId_new (RequestId_as_str <$> phase_reservation p)
  = Ok (phase_reservation p).
Proof.
  destruct p as [|[r]|[r] s|]; cbn; intros Hp; try done; unfold RequestId_new; cbn;
    [rewrite Hp|rewrite (proj1 Hp)]; done.
Qed.

Lemma parse_swap p :
  phase_ok p → parse_column SwapId_new (SwapId_as_str <$> phase_swap p) = Ok (phase_swap p).
Proof.
  destruct p as [|r|r [s]|]; cbn; intros Hp; try done. unfold SwapId_new. cbn.
  by rewrite (proj2 Hp).
Qed.

Lemma phase_revision_pos p : 0 < phase_revision p ≤ 3.
Proof. destruct p; cbn; lia. Qed.

Lemma offer_expires_pos o : offer_in_range o → offer_ok o → 0 < offer_expires_at o ≤ i64_max.
Proof.
  intros (_&_&_&_&_&_&_&Hc&_) (_&(_&_&_&Ht)&_&_&_&_&_&_&He&?). unfold in_range in *. lia.
Qed.

Lemma decode_encoded_offer o p rid now :
  offer_in_range o → offer_ok o → phase_ok p →
  decode_offer_tuple (MakerOfferId_as_str (offer_id o)) (encode_offer o p rid) now =
  Ok {| rec_revision := phase_revision p;
        rec_status := phase_status p (offer_expires_at o <=? now); rec_offer := o;
        rec_reservation_id := phase_reservation p;
        rec_swap_id := SwapId_as_str <$> phase_swap p |}.
Proof using L.
  intros Hr Ho Hp. pose proof (offer_expires_pos o Hr Ho). pose proof (phase_revision_pos p).
  unfold decode_offer_tuple, encode_offer. cbn -[Z.eqb Z.leb parse_column].
  rewrite offer_round_trip by apply Ho. cbn -[Z.eqb Z.leb parse_column].
  rewrite (proj2 (MakerOfferV1_validate_Ok o tt Hr) Ho).
  rewrite !bool_decide_eq_true_2 by done. cbn -[Z.eqb Z.leb parse_column].
  rewrite !sql_to_u64_pos by lia. cbn -[Z.eqb Z.leb parse_column].
  rewrite Z.eqb_refl, parse_reservation, parse_swap by done. by destruct p.
Qed.

(** What a request must be for the text of its journal row to be read. *)
Definition request_safe (req : MutationRequest) : Prop :=
  match req with PublishRequest o _ => safe_offer o | _ => True end.

Definition result_ok (req : MutationRequest) (res : MutationResult) : Prop :=
  match req, res with
  | LocalRouteMutationRequest _ _ _ _, Revisions a b => 0 < a ∧ 0 < b
  | LocalRouteMutationRequest _ _ _ _, Revision _ => False
  | _, Revision v => 0 < v
  | _, Revisions _ _ => False
  end.

Lemma call_request_safe c : well_typed c → request_safe (call_request c).
Proof. destruct c; cbn; try done; [|naive_solver]. destruct expected as [[]|]; cbn; naive_solver. Qed.

Section replay.
Variables (db : MakerDb) (rid : RequestId) (req : MutationRequest).

Lemma replay_offer_fresh op json :
  db.(maker_application_mutations) !! RequestId_as_str rid = None →
  replay_offer_mutation db rid op json = Ok None.
Proof using. unfold replay_offer_mutation. by intros ->. Qed.

Lemma replay_offer_same v :
  0 < v →
  db.(maker_application_mutations) !! RequestId_as_str rid
    = Some (encode_mutation req (Revision v)) →
  replay_offer_mutation db rid (request_operation req) (request_to_json req)
  = Ok (Some {| commit_revision := v; commit_was_replay := true |}).
Proof using L.
  intros Hv Hm. unfold replay_offer_mutation. rewrite Hm. cbn -[Z.eqb].
  rewrite !bool_decide_eq_true_2 by done. cbn -[Z.eqb].
  rewrite commit_round_trip. cbn -[Z.eqb].
  by rewrite (proj2 (Z.eqb_neq v 0)) by lia.
Qed.

Lemma replay_offer_other req' res' :
  request_safe req → request_safe req' → req' ≠ req →
  db.(maker_application_mutations) !! RequestId_as_str rid
    = Some (encode_mutation req' res') →
  replay_offer_mutation db rid (request_operation req) (request_to_json req)
  = Err MakerOfferRequestConflict.
Proof using L.
  intros Hs Hs' Hne Hm. unfold replay_offer_mutation. rewrite Hm. cbn -[Z.eqb].
  case_bool_decide as Hop; [|done].
  rewrite bool_decide_eq_false_2 by (intros Heq%request_to_json_inj; done). cbn.
  case_bool_decide as Hpub; [|done]. cbn.
  destruct req; try done. destruct req'; try done. cbn in Hs, Hs'.
  unfold equivalent_publish_requests. rewrite !publish_round_trip by done.
  rewrite bool_decide_eq_false_2; [done|]. intros [= -> ->]. done.
Qed.

Lemma replay_configuration_fresh op json :
  db.(maker_application_mutations) !! RequestId_as_str rid = None →
  replay_configuration_mutation db rid op json = Ok None.
Proof using. unfold replay_configuration_mutation. by intros ->. Qed.

Lemma replay_configuration_same v :
  0 < v →
  db.(maker_application_mutations) !! RequestId_as_str rid
    = Some (encode_mutation req (Revision v)) →
  replay_configuration_mutation db rid (request_operation req) (request_to_json req)
  = Ok (Some {| config_revision := v; config_was_replay := true |}).
Proof using L.
  intros Hv Hm. unfold replay_configuration_mutation. rewrite Hm. cbn -[Z.eqb].
  rewrite !bool_decide_eq_true_2 by done. cbn -[Z.eqb]. rewrite commit_round_trip.
  cbn -[Z.eqb]. by rewrite (proj2 (Z.eqb_neq v 0)) by lia.
Qed.

Lemma replay_configuration_other req' res' :
  req' ≠ req →
  db.(maker_application_mutations) !! RequestId_as_str rid
    = Some (encode_mutation req' res') →
  replay_configuration_mutation db rid (request_operation req) (request_to_json req)
  = Err MakerConfigurationRequestConflict.
Proof using L.
  intros Hne Hm. unfold replay_configuration_mutation. rewrite Hm. cbn -[Z.eqb].
  rewrite (bool_decide_eq_false_2 (request_to_json req' = _))
    by (intros Heq%request_to_json_inj; done).
  by rewrite orb_true_r.
Qed.

Lemma replay_route_fresh json :
  db.(maker_application_mutations) !! RequestId_as_str rid = None →
  replay_local_route_mutation db rid json = Ok None.
Proof using. unfold replay_local_route_mutation. by intros ->. Qed.

Lemma replay_route_same a b :
  0 < a → 0 < b → request_operation req = "local_route_save" →
  db.(maker_application_mutations) !! RequestId_as_str rid
    = Some (encode_mutation req (Revisions a b)) →
  replay_local_route_mutation db rid (request_to_json req)
  = Ok (Some {| route_pair_revision := a; route_price_revision := b;
                route_was_replay := true |}).
Proof using L.
  intros Ha Hb Hop Hm. unfold replay_local_route_mutation. rewrite Hm. cbn -[Z.eqb].
  rewrite Hop, !bool_decide_eq_true_2 by done. cbn -[Z.eqb]. rewrite route_commit_round_trip.
  cbn -[Z.eqb]. by rewrite !(proj2 (Z.eqb_neq _ 0)) by lia.
Qed.

Lemma replay_route_other req' res' :
  req' ≠ req →
  db.(maker_application_mutations) !! RequestId_as_str rid
    = Some (encode_mutation req' res') →
  replay_local_route_mutation db rid (request_to_json req)
  = Err MakerConfigurationRequestConflict.
Proof using L.
  intros Hne Hm. unfold replay_local_route_mutation. rewrite Hm. cbn -[Z.eqb].
  rewrite (bool_decide_eq_false_2 (request_to_json req' = _))
    by (intros Heq%request_to_json_inj; done).
  by rewrite orb_true_r.
Qed.
End replay.

(** ** Changes *)

Definition stored_configuration (db : MakerDb) (c : MakerPairConfigurationV1) (revision : Z)
    : Prop :=
  ∃ rid, db.(maker_pair_configurations) !! route_key (cfg_route c)
         = Some (encode_configuration (configuration_to_json c) revision rid).

Definition stored_price (db : MakerDb) (p : LocalPriceV1) (revision : Z) : Prop :=
  ∃ rid, db.(maker_local_prices) !! route_key (price_route p)
         = Some (encode_configuration (price_to_json p) revision rid).

(** A quote a head of its source admits: a later revision not observed earlier,
    or the same quote again. *)
Definition head_le (h h' : PriceHeadRow) : Prop :=
  (h.(head_source_revision) < h'.(head_source_revision) ∧
   h.(head_observed_at) ≤ h'.(head_observed_at)) ∨ h = h'.

Definition offer_at (db : MakerDb) (id : MakerOfferId) (o : MakerOfferV1) (p : OfferPhase)
    : Prop :=
  ∃ rid, db.(maker_offers) !! MakerOfferId_as_str id = Some (encode_offer o p rid).

Definition put_pair (db : MakerDb) (rid : RequestId) (c : MakerPairConfigurationV1) (v : Z) :=
  with_pairs db (<[route_key (cfg_route c)
                   := encode_configuration (configuration_to_json c) v rid]>
                 db.(maker_pair_configurations)).

Definition put_price (db : MakerDb) (rid : RequestId) (p : LocalPriceV1) (v : Z) :=
  with_prices db (<[route_key (price_route p)
                    := encode_configuration (price_to_json p) v rid]>
                  db.(maker_local_prices)).

Definition put_offer (db : MakerDb) (rid : RequestId) (o : MakerOfferV1) (p : OfferPhase) :=
  with_offers db (<[MakerOfferId_as_str (offer_id o) := encode_offer o p rid]>
                  db.(maker_offers)).

Definition put_head (db : MakerDb) (route : MakerRouteV1) (q : LogosQuote) :=
  with_heads db (<[(route_key route, quote_source_identity q) := encode_head q]>
                 db.(maker_external_price_heads)).

Definition put_negotiation (db : MakerDb) (rid : RequestId) (id : MakerOfferId)
    (n : MakerZecNegotiationV1) :=
  with_zec db (<[MakerOfferId_as_str id := encode_negotiation n rid]>
               db.(maker_zec_negotiations)).

Definition put_swap (db : MakerDb) (s : SwapCoordinator) :=
  with_swaps db (<[SwapId_as_str (coord_id s) :=
    {| swap_schema_version := SWAP_PAYLOAD_VERSION; swap_state_json := swap_to_json s;
       swap_revision := 0 |}]> db.(swaps)).

Definition put_mutation (db : MakerDb) (rid : RequestId) (req : MutationRequest)
    (res : MutationResult) :=
  with_mutations db (<[RequestId_as_str rid := encode_mutation req res]>
                     db.(maker_application_mutations)).

(** A proposal that agrees with the offer it is staged against. *)
Definition proposal_matches (o : MakerOfferV1) (n : MakerZecNegotiationV1) : Prop :=
  route_pair (offer_route o) = Pair_Zcash ∧ zn_reserved_at n < offer_expires_at o ∧
  quote_foreign_amount o (zn_foreign_units n) = Some (Ok (zn_lez_units n)).

Definition proposal_ok (n : MakerZecNegotiationV1) : Prop :=
  negotiation_in_range n ∧ MakerZecNegotiationV1_validate n = Ok tt ∧
  zn_status n = Negotiation_Proposed ∧ zn_foreign_units n ≤ i64_max.

Definition next (e : option Z) : Z := default 0 e + 1.

(** What a mutation that is committed for the first time does, besides the row
    that records it. *)
Inductive change (db : MakerDb) (rid : RequestId)
    : MutationRequest → MutationResult → MakerDb → Prop :=
| change_route c p :
    configuration_ok c → configuration_in_range c → price_ok p → price_in_range p →
    cfg_route c = price_route p → cfg_price_source c = Price_Local →
    next (pair_revision db (cfg_route c)) ≤ i64_max →
    next (price_revision db (price_route p)) ≤ i64_max →
    change db rid
      (LocalRouteMutationRequest (pair_revision db (cfg_route c))
         (price_revision db (price_route p)) c p)
      (Revisions (next (pair_revision db (cfg_route c)))
         (next (price_revision db (price_route p))))
      (put_price (put_pair db rid c (next (pair_revision db (cfg_route c)))) rid p
         (next (price_revision db (price_route p))))
| change_pair c :
    configuration_ok c → configuration_in_range c →
    (cfg_enabled c = true → cfg_price_source c = Price_Local →
     is_Some (db.(maker_local_prices) !! route_key (cfg_route c))) →
    next (pair_revision db (cfg_route c)) ≤ i64_max →
    change db rid (PairMutationRequest (pair_revision db (cfg_route c)) c)
      (Revision (next (pair_revision db (cfg_route c))))
      (put_pair db rid c (next (pair_revision db (cfg_route c))))
| change_price c v p :
    price_ok p → price_in_range p → stored_configuration db c v →
    cfg_route c = price_route p → cfg_price_source c = Price_Local →
    next (price_revision db (price_route p)) ≤ i64_max →
    change db rid (PriceMutationRequest (price_revision db (price_route p)) p)
      (Revision (next (price_revision db (price_route p))))
      (put_price db rid p (next (price_revision db (price_route p))))
| change_publish_local o expected :
    offer_ok o → offer_in_range o →
    db.(maker_offers) !! MakerOfferId_as_str (offer_id o) = None →
    stored_configuration db (offer_configuration o) (offer_configuration_revision o) →
    cfg_price_source (offer_configuration o) = Price_Local →
    stored_price db (offer_price o) (offer_price_revision o) →
    (expected = None ∨
     expected = Some (offer_configuration_revision o, offer_price_revision o)) →
    change db rid (local_publish_request (offer_id o) (offer_route o) expected).2 (Revision 1)
      (put_offer db rid o P_Active)
| change_publish_logos o q :
    offer_ok o → offer_in_range o → quote_in_range q →
    db.(maker_offers) !! MakerOfferId_as_str (offer_id o) = None →
    stored_configuration db (offer_configuration o) (offer_configuration_revision o) →
    cfg_price_source (offer_configuration o) = Price_LogosCApi →
    offer_price o = quote_price q → offer_price_revision o = quote_source_revision q →
    offer_price_observed_at o = quote_observed_at q →
    offer_price_identity o = Some (quote_source_identity q) →
    (∀ h, db.(maker_external_price_heads) !! (route_key (offer_route o),
       quote_source_identity q) = Some h → head_le h (encode_head q)) →
    change db rid (PublishRequest (offer_id o) (offer_route o)) (Revision 1)
      (put_offer (put_head db (offer_route o) q) rid o P_Active)
| change_reserve o r now :
    offer_at db (offer_id o) o P_Active → safe_identifier (RequestId_as_str r) = true →
    now < offer_expires_at o →
    change db rid (ReserveRequest (offer_id o) 1 r now) (Revision 2)
      (put_offer db rid o (P_Reserved r))
| change_stage o n :
    offer_at db (offer_id o) o P_Active → proposal_ok n → proposal_matches o n →
    db.(maker_zec_negotiations) !! MakerOfferId_as_str (offer_id o) = None →
    change db rid (stage_zec_request sha256 (offer_id o) 1 n) (Revision 2)
      (put_offer (put_negotiation db rid (offer_id o) n) rid o
         (P_Reserved (zn_reservation_id n)))
| change_consume o r s :
    offer_at db (offer_id o) o (P_Reserved r) →
    staged_pair_negotiation db (offer_id o) = false →
    bad_identifier (SwapId_as_str (coord_id s)) = false →
    db.(swaps) !! SwapId_as_str (coord_id s) = None →
    coord_pair s = route_pair (offer_route o) →
    coord_direction s = route_direction (offer_route o) → coord_phase s = Offered →
    change db rid (ConsumeRequest (offer_id o) 2 r s) (Revision 3)
      (put_offer (put_swap db s) rid o (P_Consumed r (coord_id s)))
| change_withdraw o :
    offer_at db (offer_id o) o P_Active →
    change db rid (WithdrawRequest (offer_id o) 1) (Revision 2)
      (put_offer db rid o P_Withdrawn).

(** ** What reachable databases hold *)

Definition configuration_row_ok (k : string * string) (row : ConfigurationRow) : Prop :=
  ∃ c v rid, k = route_key (cfg_route c) ∧ configuration_ok c ∧ configuration_in_range c ∧
    0 < v ≤ i64_max ∧ row = encode_configuration (configuration_to_json c) v rid.

Definition price_row_ok (k : string * string) (row : ConfigurationRow) : Prop :=
  ∃ p v rid, k = route_key (price_route p) ∧ price_ok p ∧ price_in_range p ∧
    0 < v ≤ i64_max ∧ row = encode_configuration (price_to_json p) v rid.

Definition offer_row_ok (k : string) (row : OfferRow) : Prop :=
  ∃ o p rid, k = MakerOfferId_as_str (offer_id o) ∧ offer_in_range o ∧ offer_ok o ∧
    phase_ok p ∧ row = encode_offer o p rid.

Definition head_ok (h : PriceHeadRow) : Prop :=
  0 < h.(head_source_revision) ∧ 0 < h.(head_observed_at) ∧
  0 < h.(head_lez_units_per_lot) ∧ 0 < h.(head_foreign_units_per_lot).

Definition negotiation_row_ok (db : MakerDb) (k : string) (row : ZecNegotiationRow) : Prop :=
  ∃ n o rid, k = MakerOfferId_as_str (offer_id o) ∧ row = encode_negotiation n rid ∧
    proposal_ok n ∧ proposal_matches o n ∧
    offer_at db (offer_id o) o (P_Reserved (zn_reservation_id n)).

(** What a recorded mutation still shows in the tables. *)
Definition mutation_effect (db : MakerDb) (req : MutationRequest) : Prop :=
  match req with
  | LocalRouteMutationRequest e1 e2 c p =>
      (∃ v, pair_revision db (cfg_route c) = Some v ∧ next e1 ≤ v) ∧
      (∃ v, price_revision db (price_route p) = Some v ∧ next e2 ≤ v)
  | PairMutationRequest e c => ∃ v, pair_revision db (cfg_route c) = Some v ∧ next e ≤ v
  | PriceMutationRequest e p => ∃ v, price_revision db (price_route p) = Some v ∧ next e ≤ v
  | PublishRequest id _ | GuardedPublishRequest id _ _ _ =>
      is_Some (db.(maker_offers) !! MakerOfferId_as_str id)
  | ReserveRequest id _ r _ | StageZecNegotiationRequest id _ r _ _ _ _ _ _ _ =>
      ∃ row, db.(maker_offers) !! MakerOfferId_as_str id = Some row ∧
             row.(offer_reservation_id) = Some (RequestId_as_str r)
  | ConsumeRequest id _ r s =>
      ∃ row, db.(maker_offers) !! MakerOfferId_as_str id = Some row ∧
             row.(offer_reservation_id) = Some (RequestId_as_str r) ∧
             row.(offer_swap_id) = Some (SwapId_as_str (coord_id s))
  | WithdrawRequest id _ =>
      ∃ row, db.(maker_offers) !! MakerOfferId_as_str id = Some row ∧
             row.(offer_state) = "withdrawn"
  end.

Definition mutation_row_ok (db : MakerDb) (row : MutationRow) : Prop :=
  ∃ req res, row = encode_mutation req res ∧ request_safe req ∧ result_ok req res ∧
    mutation_effect db req.

Record tables_inv (db : MakerDb) : Prop := {
  inv_pairs : map_Forall configuration_row_ok db.(maker_pair_configurations);
  inv_prices : map_Forall price_row_ok db.(maker_local_prices);
  inv_offers : map_Forall offer_row_ok db.(maker_offers);
  inv_heads : map_Forall (λ _, head_ok) db.(maker_external_price_heads);
  inv_zec : map_Forall (negotiation_row_ok db) db.(maker_zec_negotiations);
  inv_swaps : map_Forall (λ _ row, references db.(swaps) row.(offer_swap_id) = true)
                db.(maker_offers);
  inv_bound_once : ∀ k k' row row' s, db.(maker_offers) !! k = Some row →
    db.(maker_offers) !! k' = Some row' → row.(offer_swap_id) = Some s →
    row'.(offer_swap_id) = Some s → k = k';
  inv_other_pairs : db.(maker_btc_negotiations) = ∅ ∧ db.(maker_xmr_negotiations) = ∅
}.

Record maker_inv (db : MakerDb) : Prop := {
  inv_tables : tables_inv db;
  inv_mutations : map_Forall (λ _, mutation_row_ok db) db.(maker_application_mutations)
}.
End facts.
