(* ===== verification/MakerInvariant.v ===== *)
(** * The invariant of the maker's store

    Every change preserves [maker_inv] and leaves a database that has grown from
    the one before it: terms of an offer never change, its state moves along the
    lifecycle, revisions and price heads do not go back and recorded requests,
    swaps and proposals stay. *)

From stdpp Require Import base gmap strings list numbers sorting.
From S2P Require Import Prelude SwapCore Coordinator BridgeValues MakerMarket MakerMarketFacts SqlTable StoreBase MakerStore MakerConfiguration MakerOffers MakerStoreFacts.

Open Scope Z_scope.

(** ** Growth *)

#[global] Instance head_le_preorder : PreOrder head_le.
Proof.
  split.
  - by right.
  - intros a b c [[? ?]| ->] [[? ?]| <-]; [left; lia|by left|by left|by right].
Qed.

Section invariant.
Context {J : MakerJson} {L : MakerJsonLaws J} (sha256 : bytes → bytes).

Definition offer_terms (row : OfferRow) : string * string * Z * Json * Z :=
  (row.(offer_pair), row.(offer_direction), row.(offer_payload_version),
   row.(offer_payload_json), row.(offer_expires)).

Definition offer_life (row : OfferRow) : string * Z * option string * option string :=
  (row.(offer_state), row.(offer_revision), row.(offer_reservation_id), row.(offer_swap_id)).

(** The lifecycle: an active offer is reserved or withdrawn, a reserved one is
    consumed by its reservation, and every transition raises the revision. *)
Definition offer_row_le (row row' : OfferRow) : Prop :=
  offer_terms row = offer_terms row' ∧
  (offer_life row = offer_life row' ∨
   (row.(offer_revision) < row'.(offer_revision) ∧
    ((row.(offer_state) = "active" ∧ row'.(offer_state) ≠ "active") ∨
     (row.(offer_state) = "reserved" ∧ row'.(offer_state) = "consumed" ∧
      row'.(offer_reservation_id) = row.(offer_reservation_id))))).

#[global] Instance offer_row_le_preorder : PreOrder offer_row_le.
Proof.
  unfold offer_row_le, offer_life. split.
  - intros r. auto.
  - intros a b c [Hab Hl] [Hbc Hl']. split; [congruence|].
    destruct Hl as [Hl|[? ?]], Hl' as [Hl'|[? ?]]; simplify_eq; [left; congruence|right..].
    + split; [lia|]. naive_solver congruence.
    + split; [lia|]. naive_solver congruence.
    + split; [lia|]. naive_solver congruence.
Qed.

Definition conf_row_le (row row' : ConfigurationRow) : Prop :=
  row = row' ∨ row.(conf_revision) < row'.(conf_revision).

#[global] Instance conf_row_le_preorder : PreOrder conf_row_le.
Proof.
  split.
  - by left.
  - intros a b c [->|Hab] [->|Hbc]; [by left|by right|by right|right; lia].
Qed.

Record maker_le (db db' : MakerDb) : Prop := {
  le_pairs : map_le conf_row_le db.(maker_pair_configurations) db'.(maker_pair_configurations);
  le_prices : map_le conf_row_le db.(maker_local_prices) db'.(maker_local_prices);
  le_mutations : map_le eq db.(maker_application_mutations) db'.(maker_application_mutations);
  le_offers : map_le offer_row_le db.(maker_offers) db'.(maker_offers);
  le_heads : map_le head_le db.(maker_external_price_heads) db'.(maker_external_price_heads);
  le_zec : map_le eq db.(maker_zec_negotiations) db'.(maker_zec_negotiations);
  le_swaps : map_le eq db.(swaps) db'.(swaps)
}.

#[global] Instance maker_le_preorder : PreOrder maker_le.
Proof.
  split.
  - intros db. by split.
  - intros a b c [] []. split; by etrans.
Qed.

(** ** Changes grow the database *)

Lemma put_offer_le db rid o p p' :
  offer_at db (offer_id o) o p →
  phase_revision p < phase_revision p' →
  (p = P_Active ∧ p' ≠ P_Active ∨ ∃ r s, p = P_Reserved r ∧ p' = P_Consumed r s) →
  maker_le db (put_offer db rid o p').
Proof.
  intros (rid0&Ho) Hrev Hp. split; cbn; try done. apply map_le_insert; [apply _|].
  intros row Hrow. simplify_eq. split; [done|]. right. split; [done|].
  destruct Hp as [[-> Hp]|(r&s&->&->)]; [left|right; done].
  split; [done|]. by destruct p'.
Qed.

Lemma put_new_offer_le db rid o p :
  db.(maker_offers) !! MakerOfferId_as_str (offer_id o) = None →
  maker_le db (put_offer db rid o p).
Proof.
  intros Hn. split; cbn; try done. apply map_le_insert; [apply _|]. intros ? ?. congruence.
Qed.

Lemma put_pair_le db rid c :
  maker_le db (put_pair db rid c (next (pair_revision db (cfg_route c)))).
Proof.
  split; cbn; try done. apply map_le_insert; [apply _|]. intros x ->. right. cbn.
  unfold next. cbn. lia.
Qed.

Lemma put_price_le db rid p v :
  v = next (price_revision db (price_route p)) → maker_le db (put_price db rid p v).
Proof.
  intros ->. split; cbn; try done. apply map_le_insert; [apply _|]. intros x ->. right. cbn.
  unfold next. cbn. lia.
Qed.

Lemma change_le db rid req res db' : change sha256 db rid req res db' → maker_le db db'.
Proof.
  destruct 1.
  - etrans; [apply put_pair_le|]. by apply put_price_le.
  - apply put_pair_le.
  - by apply put_price_le.
  - by apply put_new_offer_le.
  - trans (put_head db (offer_route o) q); [|by apply put_new_offer_le].
    split; cbn; try done. apply map_le_insert; [apply _|]. auto.
  - apply (put_offer_le _ _ _ P_Active); cbn; [done|lia|by left].
  - trans (put_negotiation db rid (offer_id o) n).
    + split; cbn; try done. apply map_le_insert; [apply _|]. intros ? ?. congruence.
    + apply (put_offer_le _ _ _ P_Active); cbn; [done|lia|by left].
  - trans (put_swap db s).
    + split; cbn; try done. apply map_le_insert; [apply _|]. intros ? ?. congruence.
    + apply (put_offer_le _ _ _ (P_Reserved r)); cbn; [done|lia|eauto].
  - apply (put_offer_le _ _ _ P_Active); cbn; [done|lia|by left].
Qed.

Lemma put_mutation_le db rid req res :
  db.(maker_application_mutations) !! RequestId_as_str rid = None →
  maker_le db (put_mutation db rid req res).
Proof.
  intros Hn. split; cbn; try done. apply map_le_insert; [apply _|]. intros ? ?. congruence.
Qed.

(** ** What a mutation shows stays *)

Lemma revision_mono (m m' : gmap (string * string) ConfigurationRow) k v :
  map_le conf_row_le m m' →
  (∃ w, conf_revision <$> m !! k = Some w ∧ v ≤ w) →
  ∃ w, conf_revision <$> m' !! k = Some w ∧ v ≤ w.
Proof.
  intros Hle (w&(row&Hrow&->)%fmap_Some&?). apply Hle in Hrow as (row'&Hrow'&Hr).
  exists (conf_revision row'). rewrite Hrow'. split; [done|]. destruct Hr as [<-|?]; lia.
Qed.

Lemma offer_fate_kept k row row' :
  offer_row_ok k row → offer_row_le row row' →
  (∀ r, row.(offer_reservation_id) = Some r → row'.(offer_reservation_id) = Some r) ∧
  (∀ s, row.(offer_swap_id) = Some s → row'.(offer_swap_id) = Some s) ∧
  (row.(offer_state) = "withdrawn" → row'.(offer_state) = "withdrawn").
Proof.
  intros (o&p&rid&_&_&_&_&->) [_ Hl]. unfold offer_life in Hl.
  destruct Hl as [[= H1 _ H2 H3]|[_ [[Ha _]|(Hr&_&->)]]]; cbn;
    [split_and!; congruence|..]; destruct p; try discriminate; done.
Qed.

Lemma mutation_effect_mono db db' req :
  map_Forall offer_row_ok db.(maker_offers) → maker_le db db' →
  mutation_effect db req → mutation_effect db' req.
Proof.
  intros Hok [Hp Hq _ Ho _ _ _].
  assert (Hkept : ∀ k row, db.(maker_offers) !! k = Some row → ∃ row',
    db'.(maker_offers) !! k = Some row' ∧
    (∀ r, row.(offer_reservation_id) = Some r → row'.(offer_reservation_id) = Some r) ∧
    (∀ s, row.(offer_swap_id) = Some s → row'.(offer_swap_id) = Some s) ∧
    (row.(offer_state) = "withdrawn" → row'.(offer_state) = "withdrawn")).
  { intros k row Hrow. pose proof (Hok _ _ Hrow). apply Ho in Hrow as (row'&?&?).
    exists row'. split; [done|]. by eapply offer_fate_kept. }
  destruct req; cbn.
  - intros [? ?]. split; by eapply revision_mono.
  - by apply revision_mono.
  - by apply revision_mono.
  - intros [row Hrow]. apply Ho in Hrow as (?&?&_). eauto.
  - intros [row Hrow]. apply Ho in Hrow as (?&?&_). eauto.
  - intros (row&(row'&?&?&_)%Hkept&?). eauto.
  - intros (row&(row'&?&?&?&_)%Hkept&?&?). eauto 6.
  - intros (row&(row'&?&?&_)%Hkept&?). eauto.
  - intros (row&(row'&?&?&?&?)%Hkept&?). eauto.
Qed.

(** ** Changes preserve the invariant *)

Lemma negotiation_offer db k row :
  tables_inv db → db.(maker_zec_negotiations) !! k = Some row →
  ∃ orow, db.(maker_offers) !! k = Some orow ∧ orow.(offer_state) = "reserved".
Proof.
  intros Hinv Hk. destruct (inv_zec _ Hinv _ _ Hk) as (n&o&rid&->&_&_&_&rid'&Ho).
  eexists. split; [exact Ho|done].
Qed.

Lemma unstaged_unless_reserved db k :
  tables_inv db →
  (∀ row, db.(maker_offers) !! k = Some row → row.(offer_state) ≠ "reserved") →
  db.(maker_zec_negotiations) !! k = None.
Proof.
  intros Hinv Hk. apply eq_None_not_Some. intros [row Hrow].
  destruct (negotiation_offer _ _ _ Hinv Hrow) as (?&?&?). naive_solver.
Qed.

Lemma put_offer_tables db rid o p :
  tables_inv db → offer_in_range o → offer_ok o → phase_ok p →
  db.(maker_zec_negotiations) !! MakerOfferId_as_str (offer_id o) = None →
  references db.(swaps) (SwapId_as_str <$> phase_swap p) = true →
  (∀ k row s, db.(maker_offers) !! k = Some row → row.(offer_swap_id) = Some s →
     SwapId_as_str <$> phase_swap p = Some s → k = MakerOfferId_as_str (offer_id o)) →
  tables_inv (put_offer db rid o p).
Proof.
  intros [Hp Hq Ho Hh Hz Hs Hb Hx] Hr Hok Hpo Hn Href Hone.
  split; cbn [put_offer with_offers maker_pair_configurations maker_local_prices maker_offers
    maker_external_price_heads maker_zec_negotiations swaps maker_btc_negotiations
    maker_xmr_negotiations]; try done.
  - apply map_Forall_insert_2; [|done]. by exists o, p, rid.
  - intros k row Hk. destruct (Hz _ _ Hk) as (n&o'&rid'&->&?&?&?&rid''&Ho').
    exists n, o', rid'. split_and!; try done. exists rid''. cbn.
    rewrite lookup_insert_ne; [done|]. intros Heq. rewrite <- Heq in Hk. congruence.
  - by apply map_Forall_insert_2.
  - intros k k' row row' s [[<- <-]|[Hne Hk]]%lookup_insert_Some
      [[<- <-]|[Hne' Hk']]%lookup_insert_Some H1 H2; try done.
    + symmetry. by eapply Hone.
    + by eapply Hone.
    + by eapply Hb.
Qed.

Lemma put_pair_tables db rid c v :
  tables_inv db → configuration_ok c → configuration_in_range c → 0 < v ≤ i64_max →
  tables_inv (put_pair db rid c v).
Proof.
  intros [] Hc Hr Hv. split; try done. cbn. apply map_Forall_insert_2; [|done].
  by exists c, v, rid.
Qed.

Lemma put_price_tables db rid p v :
  tables_inv db → price_ok p → price_in_range p → 0 < v ≤ i64_max →
  tables_inv (put_price db rid p v).
Proof.
  intros [] Hc Hr Hv. split; try done. cbn. apply map_Forall_insert_2; [|done].
  by exists p, v, rid.
Qed.

Lemma put_swap_tables db s :
  tables_inv db → tables_inv (put_swap db s).
Proof.
  intros [? ? ? ? ? Hs ? ?]. split; try done. cbn. intros k row Hk. apply Hs in Hk.
  unfold references in *. destruct (offer_swap_id row) as [s'|]; [|done].
  apply bool_decide_eq_true in Hk. apply bool_decide_eq_true_2.
  rewrite lookup_insert_is_Some. destruct (decide (SwapId_as_str (coord_id s) = s')); auto.
Qed.

Lemma encode_phase_inj o p rid o' p' rid' :
  encode_offer o p rid = encode_offer o' p' rid' → p = p'.
Proof.
  intros Heq. pose proof (f_equal offer_state Heq). pose proof (f_equal offer_reservation_id Heq).
  pose proof (f_equal offer_swap_id Heq).
  destruct p as [|[]|[] []|], p' as [|[]|[] []|]; cbn in *; congruence.
Qed.

(** An offer of a reachable database is well formed. *)
Lemma offer_at_ok db o p :
  tables_inv db → offer_at db (offer_id o) o p → offer_in_range o ∧ offer_ok o ∧ phase_ok p.
Proof using L.
  intros Hinv (rid&Ho). destruct (inv_offers _ Hinv _ _ Ho) as (o'&p'&rid'&Hid&Hr&Hok&?&Heq).
  pose proof (encode_phase_inj _ _ _ _ _ _ Heq) as ->.
  assert (Hsafe : safe_identifier (MakerOfferId_as_str (offer_id o)) = true)
    by (rewrite Hid; apply Hok).
  assert (o = o') as ->; [|done]. apply (f_equal offer_payload_json) in Heq. cbn in Heq.
  apply (f_equal offer_from_json) in Heq. rewrite !offer_round_trip in Heq by (done || apply Hok).
  by injection Heq.
Qed.

Lemma next_pos (m : gmap (string * string) ConfigurationRow) k :
  (∀ row, m !! k = Some row → 0 < row.(conf_revision)) → 0 < next (conf_revision <$> m !! k).
Proof. unfold next. destruct (m !! k) as [row|]; cbn; intros Hk; [|lia]. specialize (Hk row eq_refl). lia. Qed.

Lemma next_pair_pos db route : tables_inv db → 0 < next (pair_revision db route).
Proof.
  intros Hinv. apply next_pos. intros row Hrow.
  destruct (inv_pairs _ Hinv _ _ Hrow) as (?&?&?&_&_&_&?&->). cbn. lia.
Qed.

Lemma next_price_pos db route : tables_inv db → 0 < next (price_revision db route).
Proof.
  intros Hinv. apply next_pos. intros row Hrow.
  destruct (inv_prices _ Hinv _ _ Hrow) as (?&?&?&_&_&_&?&->). cbn. lia.
Qed.

(** An active offer or a fresh identifier has no staged proposal. *)
Lemma active_unstaged db o :
  tables_inv db → offer_at db (offer_id o) o P_Active →
  db.(maker_zec_negotiations) !! MakerOfferId_as_str (offer_id o) = None.
Proof.
  intros Hinv [rid Ho]. apply unstaged_unless_reserved; [done|]. intros row Hrow.
  by simplify_eq.
Qed.

Lemma put_head_tables db route q :
  tables_inv db → head_ok (encode_head q) → tables_inv (put_head db route q).
Proof. intros [] Hq. split; try done. cbn. by apply map_Forall_insert_2. Qed.

Lemma put_negotiation_tables db rid o n :
  tables_inv db → offer_at db (offer_id o) o (P_Reserved (zn_reservation_id n)) →
  proposal_ok n → proposal_matches o n →
  tables_inv (put_negotiation db rid (offer_id o) n).
Proof.
  intros [? ? ? ? Hz ? ? ?] Ho Hn Hm. split; try done. cbn.
  apply map_Forall_insert_2; [by exists n, o, rid|]. exact Hz.
Qed.

Lemma quote_head_ok o q :
  offer_ok o → offer_price o = quote_price q → offer_price_revision o = quote_source_revision q →
  offer_price_observed_at o = quote_observed_at q →
  cfg_price_source (offer_configuration o) = Price_LogosCApi → quote_in_range q →
  head_ok (encode_head q).
Proof.
  intros (_&_&_&(_&?&?&_)&_&_&?&Hv&_) Hp Hr Ho Hs (_&_&?&?).
  unfold valid_observation_time in Hv. rewrite Hs, Ho in Hv. bool_props.
  unfold head_ok. cbn. rewrite <- Hp, <- Hr in *. unfold in_range in *. lia.
Qed.

Lemma change_tables db rid req res db' :
  tables_inv db → change sha256 db rid req res db' → tables_inv db'.
Proof using L.
  intros Hinv Hc.
  destruct Hc as [c p|c|c v p|o e Hok Hr Hn|o q Hok Hr Hq Hn Hst Hsrc Hp Hpr Hob Hid Hh
    |o r now Ho Hs|o n Ho Hn Hm Hz|o r s Ho Hst Hs Hfresh|o Ho].
  - pose proof (next_pair_pos db (cfg_route c) Hinv).
    pose proof (next_price_pos db (price_route p) Hinv).
    apply put_price_tables; try done. by apply put_pair_tables.
  - pose proof (next_pair_pos db (cfg_route c) Hinv). by apply put_pair_tables.
  - pose proof (next_price_pos db (price_route p) Hinv). by apply put_price_tables.
  - apply put_offer_tables; try done. apply unstaged_unless_reserved; [done|]. congruence.
  - apply put_offer_tables; try done;
      [|apply (unstaged_unless_reserved db); [done|]; congruence].
    apply put_head_tables; [done|]. by eapply quote_head_ok.
  - destruct (offer_at_ok _ _ _ Hinv Ho) as (?&?&_). pose proof (active_unstaged _ _ Hinv Ho).
    by apply put_offer_tables.
  - destruct (offer_at_ok _ _ _ Hinv Ho) as (?&?&_). pose proof (active_unstaged _ _ Hinv Ho).
    apply (put_negotiation_tables (put_offer db rid o (P_Reserved (zn_reservation_id n))));
      try done.
    + apply put_offer_tables; try done. apply Hn.
    + exists rid. cbn. by rewrite lookup_insert_eq.
  - destruct (offer_at_ok _ _ _ Hinv Ho) as (?&?&?).
    unfold staged_pair_negotiation in Hst. bool_props.
    apply put_offer_tables; try done.
    + by apply put_swap_tables.
    + by apply eq_None_not_Some.
    + cbn. apply bool_decide_eq_true_2. by rewrite lookup_insert_eq.
    + intros k row s' Hk Hs' [= <-]. pose proof (inv_swaps _ Hinv _ _ Hk) as Href.
      cbv beta in Href. rewrite Hs' in Href. cbn in Href. apply bool_decide_eq_true in Href as [? ?]. congruence.
  - destruct (offer_at_ok _ _ _ Hinv Ho) as (?&?&_). pose proof (active_unstaged _ _ Hinv Ho).
    by apply put_offer_tables.
Qed.

Lemma change_effect db rid req res db' :
  change sha256 db rid req res db' → mutation_effect db' req.
Proof.
  destruct 1; cbn.
  - rewrite !lookup_insert_eq. split; eexists; done.
  - rewrite lookup_insert_eq. by eexists.
  - rewrite lookup_insert_eq. by eexists.
  - destruct expected as [[]|]; cbn; rewrite lookup_insert_eq; eauto.
  - rewrite lookup_insert_eq. eauto.
  - rewrite lookup_insert_eq. eauto.
  - rewrite lookup_insert_eq. eauto.
  - rewrite lookup_insert_eq. eauto.
  - rewrite lookup_insert_eq. eauto.
Qed.

Lemma change_request_ok db rid req res db' :
  tables_inv db → change sha256 db rid req res db' → request_safe req ∧ result_ok req res.
Proof.
  intros Hinv. destruct 1 as [| | |o e Hok|o q Hok| | | |]; cbn; try (split; [done|lia]).
  - split; [done|]. split; [by apply next_pair_pos|by apply next_price_pos].
  - split; [done|by apply next_pair_pos].
  - split; [done|by apply next_price_pos].
  - destruct e as [[]|]; cbn; split; try lia; try done. apply Hok.
  - split; [apply Hok|lia].
Qed.

Lemma change_mutations db rid req res db' :
  change sha256 db rid req res db' →
  db'.(maker_application_mutations) = db.(maker_application_mutations).
Proof. by destruct 1. Qed.

(** A change together with the row that records it preserves the invariant and
    grows the database. *)
Lemma change_inv db rid req res db' :
  maker_inv db → change sha256 db rid req res db' →
  db.(maker_application_mutations) !! RequestId_as_str rid = None →
  maker_inv (put_mutation db' rid req res) ∧ maker_le db (put_mutation db' rid req res).
Proof using L.
  intros [Ht Hm] Hc Hn. pose proof (change_tables _ _ _ _ _ Ht Hc) as Ht'.
  pose proof (change_le _ _ _ _ _ Hc) as Hle.
  rewrite <- (change_mutations _ _ _ _ _ Hc) in Hn. split.
  - split; [by destruct Ht'; split|]. cbn. apply map_Forall_insert_2.
    + exists req, res. destruct (change_request_ok _ _ _ _ _ Ht Hc).
      split_and!; try done. by apply (change_effect _ _ _ _ _ Hc).
    + intros k row Hk. rewrite (change_mutations _ _ _ _ _ Hc) in Hk.
      destruct (Hm _ _ Hk) as (req'&res'&->&?&?&?). exists req', res'. split_and!; try done.
      exact (mutation_effect_mono db db' _ (inv_offers _ Ht) Hle ltac:(done)).
  - trans db'; [done|by apply put_mutation_le].
Qed.

Lemma maker_inv_empty : maker_inv empty_maker_db.
Proof. split; [split; try apply map_Forall_empty; done|apply map_Forall_empty]. Qed.
End invariant.
