(* ===== verification/MakerCalls.v ===== *)
(** * The maker's operations implement the changes

    On a reachable database every operation either refuses and leaves the
    database as it was, repeats the recorded result of the same request, or makes
    one [change] and records it ([maker_call_refines]). *)

From stdpp Require Import base gmap strings list numbers sorting.
From S2P Require Import Prelude SwapCore Coordinator BridgeValues MakerMarket MakerMarketFacts SqlTable StoreBase MakerStore MakerConfiguration MakerOffers MakerStoreFacts MakerInvariant.

Open Scope Z_scope.

Section calls.
Context {J : MakerJson} {L : MakerJsonLaws J} (sha256 : bytes → bytes).

Inductive call_outcome (db : MakerDb) (rid : RequestId) (req : MutationRequest)
    : MakerDb * MakerOutcome → Prop :=
| outcome_refused e : call_outcome db rid req (db, Refused e)
| outcome_pending v source :
    db.(maker_application_mutations) !! RequestId_as_str rid = None →
    call_outcome db rid req (db, Pending v source)
| outcome_replay res :
    result_ok req res →
    db.(maker_application_mutations) !! RequestId_as_str rid = Some (encode_mutation req res) →
    call_outcome db rid req (db, Committed res true)
| outcome_fresh res db' :
    db.(maker_application_mutations) !! RequestId_as_str rid = None →
    change sha256 db rid req res db' →
    call_outcome db rid req (put_mutation db' rid req res, Committed res false).

(** ** Statements *)

Lemma executed_Ok {A} (o : option A) a : executed o = Ok a → o = Some a.
Proof. destruct o; cbn; naive_solver. Qed.

Lemma insert_mutation_Ok db rid req res db' :
  insert_mutation db rid (encode_mutation req res) = Ok db' →
  db' = put_mutation db rid req res.
Proof. unfold insert_mutation. intros H. inv_ok H. apply executed_Ok, sql_insert_Some in Hx. naive_solver. Qed.

Lemma persist_offer_Ok db rid req v db' :
  persist_offer_mutation db rid (request_operation req) (request_to_json req) v = Ok db' →
  db' = put_mutation db rid req (Revision v).
Proof. exact (insert_mutation_Ok db rid req (Revision v) db'). Qed.

Lemma persist_configuration_Ok db rid req v db' :
  persist_configuration_mutation db rid (request_operation req) (request_to_json req) v = Ok db' →
  db' = put_mutation db rid req (Revision v).
Proof. exact (insert_mutation_Ok db rid req (Revision v) db'). Qed.

Lemma update_offer_Ok db k where_ set db' :
  update_offer db k where_ set = Ok (db', 1) →
  ∃ row, db.(maker_offers) !! k = Some row ∧ where_ row = true ∧
    references db.(swaps) (set row).(offer_swap_id) = true ∧
    db' = with_offers db (<[k := set row]> db.(maker_offers)).
Proof.
  unfold update_offer. intros H. apply result_bind_Ok in H as ([t n]&Ht&H). inv_ok H.
  simplify_eq. apply executed_Ok, sql_update_Some_1 in Ht as (row&Hk&Hw&_&->).
  apply reject_if_Ok in Hx. rewrite lookup_insert_eq in Hx. bool_props. eauto.
Qed.

Lemma insert_swap_Ok db s db' :
  insert_swap db s = Ok db' →
  db.(swaps) !! SwapId_as_str (coord_id s) = None ∧ db' = put_swap db s.
Proof. unfold insert_swap. intros H. inv_ok H. apply executed_Ok, sql_insert_Some in Hx. naive_solver. Qed.

(** ** Replay *)

Section replay.
Variables (db : MakerDb) (rid : RequestId) (req : MutationRequest).
Hypothesis Hinv : maker_inv db.

(** The journal has no row for the request identifier, the row of this request,
    or the row of another request. *)
Lemma journal_cases :
  db.(maker_application_mutations) !! RequestId_as_str rid = None ∨
  (∃ res, result_ok req res ∧ db.(maker_application_mutations) !! RequestId_as_str rid
          = Some (encode_mutation req res)) ∨
  (∃ req' res, request_safe req' ∧ req' ≠ req ∧
     db.(maker_application_mutations) !! RequestId_as_str rid
     = Some (encode_mutation req' res)).
Proof using Hinv L.
  destruct (maker_application_mutations db !! RequestId_as_str rid) as [row|] eqn:Hrow; [|auto].
  destruct (inv_mutations _ Hinv _ _ Hrow) as (req'&res&->&Hs&Hr&_). right.
  destruct (decide (request_to_json req' = request_to_json req)) as [->%request_to_json_inj|Hne].
  - left. eauto.
  - right. exists req', res. split_and!; [done| |done]. by intros ->.
Qed.

Lemma replay_offer_cases (body : result (MakerDb * MakerOfferCommit) StoreError) :
  request_safe req → (∀ a b, ¬ result_ok req (Revisions a b)) →
  (db.(maker_application_mutations) !! RequestId_as_str rid = None →
   call_outcome db rid req (prod_map id of_offer_commit (immediate_transaction db body))) →
  call_outcome db rid req (prod_map id of_offer_commit (immediate_transaction db (
    let? replay := replay_offer_mutation db rid (request_operation req) (request_to_json req) in
    match replay with Some commit => Ok (db, commit) | None => body end))).
Proof using Hinv L.
  intros Hs Hno Hf. destruct journal_cases as [Hn|[([v|a b]&Hok&Hm)|(req'&res&?&?&Hm)]].
  - rewrite replay_offer_fresh by done. by apply Hf.
  - assert (0 < v) by (by destruct req). rewrite (replay_offer_same db rid req v) by done.
    by apply outcome_replay.
  - by apply Hno in Hok.
  - rewrite (replay_offer_other db rid req req' res) by done. apply outcome_refused.
Qed.

Lemma replay_configuration_cases (body : result (MakerDb * MakerConfigurationCommit) StoreError) :
  (∀ a b, ¬ result_ok req (Revisions a b)) →
  (db.(maker_application_mutations) !! RequestId_as_str rid = None →
   call_outcome db rid req
     (prod_map id of_configuration_commit (immediate_transaction db body))) →
  call_outcome db rid req (prod_map id of_configuration_commit (immediate_transaction db (
    let? replay := replay_configuration_mutation db rid (request_operation req)
                     (request_to_json req) in
    match replay with Some commit => Ok (db, commit) | None => body end))).
Proof using Hinv L.
  intros Hno Hf. destruct journal_cases as [Hn|[([v|a b]&Hok&Hm)|(req'&res&?&?&Hm)]].
  - rewrite replay_configuration_fresh by done. by apply Hf.
  - assert (0 < v) by (by destruct req). rewrite (replay_configuration_same db rid req v) by done.
    by apply outcome_replay.
  - by apply Hno in Hok.
  - rewrite (replay_configuration_other db rid req req' res) by done. apply outcome_refused.
Qed.
End replay.

(** ** Transitions of an offer *)

Lemma load_offer_cases db oid now :
  tables_inv db →
  load_offer db oid now = Ok None ∨
  ∃ o p, offer_id o = oid ∧ offer_at db oid o p ∧ offer_in_range o ∧ offer_ok o ∧ phase_ok p ∧
    load_offer db oid now =
    Ok (Some {| rec_revision := phase_revision p;
                rec_status := phase_status p (offer_expires_at o <=? now); rec_offer := o;
                rec_reservation_id := phase_reservation p;
                rec_swap_id := SwapId_as_str <$> phase_swap p |}).
Proof using L.
  intros Hinv. unfold load_offer.
  destruct (maker_offers db !! MakerOfferId_as_str oid) as [row|] eqn:Hrow; [right|by left].
  destruct (inv_offers _ Hinv _ _ Hrow) as (o&p&rid&Hid&?&?&?&->). exists o, p.
  rewrite Hid, decode_encoded_offer by done. split_and!; try done.
  - destruct oid, (offer_id o). by f_equal.
  - by exists rid.
Qed.

(** An update of the offer row that is [encode_offer o p] to another phase. *)
Lemma set_offer_encode o p p' rid rid0 :
  set_offer (phase_state p') (phase_revision p') (RequestId_as_str <$> phase_reservation p')
    (SwapId_as_str <$> phase_swap p') rid (encode_offer o p rid0) = encode_offer o p' rid.
Proof. done. Qed.

Definition with_swap (db : MakerDb) (swap : option SwapCoordinator) : MakerDb :=
  match swap with Some s => put_swap db s | None => db end.

Definition swap_fresh (db : MakerDb) (swap : option SwapCoordinator) : Prop :=
  match swap with
  | Some s => db.(swaps) !! SwapId_as_str (coord_id s) = None
  | None => True
  end.

Lemma insert_swap_option_Ok db swap db' :
  match swap with Some s => insert_swap db s | None => Ok db end = Ok db' →
  swap_fresh db swap ∧ db' = with_swap db swap.
Proof. destruct swap; cbn; [apply insert_swap_Ok|]. by intros [= <-]. Qed.

Lemma with_swap_offers db swap : (with_swap db swap).(maker_offers) = db.(maker_offers).
Proof. by destruct swap. Qed.

Lemma transition_refines db rid req oid e swap f :
  maker_inv db → request_safe req → (∀ a b, ¬ result_ok req (Revisions a b)) →
  (∀ o p st r s,
     offer_id o = oid → offer_at db oid o p → phase_revision p = e → phase_ok p →
     offer_ok o → swap_fresh db swap →
     f {| rec_revision := phase_revision p;
          rec_status := phase_status p (offer_expires_at o <=? 0); rec_offer := o;
          rec_reservation_id := phase_reservation p;
          rec_swap_id := SwapId_as_str <$> phase_swap p |} = Ok (st, r, s) →
     ∃ p', st = phase_state p' ∧ r = RequestId_as_str <$> phase_reservation p' ∧
       s = SwapId_as_str <$> phase_swap p' ∧ phase_revision p' = e + 1 ∧
       change sha256 db rid req (Revision (e + 1)) (put_offer (with_swap db swap) rid o p')) →
  call_outcome db rid req (prod_map id of_offer_commit
    (transition_offer db rid (request_operation req) req oid e swap f)).
Proof using L.
  intros Hinv Hs Hno Hf. apply replay_offer_cases; [done..|]. intros Hn.
  destruct (load_offer_cases db oid 0 (inv_tables _ Hinv)) as [->|(o&p&Hid&Ho&_&Hok&Hp&->)];
    [apply outcome_refused|].
  match goal with |- context [immediate_transaction db ?b] => destruct b as [[db' c]|err] eqn:Hb end;
    [|apply outcome_refused].
  cbn [ok_or result_bind] in Hb. inv_ok Hb. bool_props.
  simplify_eq/=. apply insert_swap_option_Ok in Hx0 as [Hfresh ->].
  apply ok_or_Ok, checked_add_Some in Hx1 as [-> _].
  apply u64_to_sql_Ok in Hx2 as [-> _], Hx3 as [-> _].
  apply update_offer_Ok in Hx4 as (row&Hrow&_&_&->).
  apply persist_offer_Ok in Hx5 as ->.
  destruct (Hf _ _ _ _ _ eq_refl Ho eq_refl Hp Hok Hfresh Hx) as (p'&->&->&->&Hrev&Hc).
  destruct Ho as [rid0 Ho]. rewrite with_swap_offers in Hrow. simplify_eq.
  rewrite <- Hrev, set_offer_encode. rewrite <- Hrev in Hc.
  exact (outcome_fresh _ _ _ _ _ Hn Hc).
Qed.

Lemma reserve_refines db rid oid e r now :
  maker_inv db → safe_identifier (RequestId_as_str r) = true →
  call_outcome db rid (ReserveRequest oid e r now)
    (prod_map id of_offer_commit (reserve_maker_offer db rid oid e r now)).
Proof using L.
  intros Hinv Hs. apply (transition_refines db rid (ReserveRequest oid e r now));
    [done|done|by intros ? ? []|].
  intros o p st r' s <- Ho He _ Hok _ Hf. cbn in Hf. inv_ok Hf. bool_props. simplify_eq.
  destruct p; try done. exists (P_Reserved r). split_and!; try done.
  by apply change_reserve.
Qed.

Lemma consume_refines db rid oid e r s :
  maker_inv db → safe_identifier (RequestId_as_str r) = true →
  bad_identifier (SwapId_as_str (coord_id s)) = false →
  call_outcome db rid (ConsumeRequest oid e r s)
    (prod_map id of_offer_commit (consume_maker_offer db rid oid e r s)).
Proof using L.
  intros Hinv Hs Hb. unfold consume_maker_offer.
  destruct (staged_pair_negotiation db oid) eqn:Hst; [apply outcome_refused|].
  apply (transition_refines db rid (ConsumeRequest oid e r s));
    [done|done|by intros ? ? []|].
  intros o p st r' s' <- Ho He _ Hok Hfresh Hf. cbn in Hf. inv_ok Hf. bool_props. simplify_eq.
  destruct p; try done. simplify_eq/=.
  exists (P_Consumed r (coord_id s)). split_and!; try done. by apply change_consume.
Qed.

Lemma withdraw_refines db rid oid e :
  maker_inv db →
  call_outcome db rid (WithdrawRequest oid e)
    (prod_map id of_offer_commit (withdraw_maker_offer db rid oid e)).
Proof using L.
  intros Hinv. apply (transition_refines db rid (WithdrawRequest oid e));
    [done|done|by intros ? ? []|].
  intros o p st r' s <- Ho He _ Hok _ Hf. cbn in Hf. inv_ok Hf. bool_props. simplify_eq.
  destruct p; try done. exists P_Withdrawn. split_and!; try done. by apply change_withdraw.
Qed.

(** ** Publication *)

Lemma route_key_inj r r' : route_key r = route_key r' → r = r'.
Proof.
  destruct r, r'. unfold route_key. cbn. intros [= ?%pair_name_inj ?%direction_name_inj]. congruence.
Qed.

Lemma load_pair_cases db route :
  tables_inv db →
  load_pair db route = Ok None ∨
  ∃ c v, cfg_route c = route ∧ stored_configuration db c v ∧ configuration_ok c ∧
    configuration_in_range c ∧ 0 < v ≤ i64_max ∧ load_pair db route = Ok (Some (c, v)).
Proof using L.
  intros Hinv. unfold load_pair.
  destruct (maker_pair_configurations db !! route_key route) as [row|] eqn:Hrow; [right|by left].
  destruct (inv_pairs _ Hinv _ _ Hrow) as (c&v&rid&->%route_key_inj&Hc&Hr&Hv&->).
  exists c, v. split; [done|]. split; [by exists rid|]. do 3 (split; [done|]). cbn -[sql_to_u64 MakerPairConfigurationV1_new].
  rewrite configuration_round_trip. cbn -[sql_to_u64 MakerPairConfigurationV1_new].
  rewrite (proj2 (MakerPairConfigurationV1_new_Ok c c) (conj eq_refl Hc)). cbn -[sql_to_u64].
  by rewrite !bool_decide_eq_true_2, sql_to_u64_pos by (done || lia).
Qed.

Lemma load_price_cases db route :
  tables_inv db →
  load_price db route = Ok None ∨
  ∃ p v, price_route p = route ∧ stored_price db p v ∧ price_ok p ∧
    price_in_range p ∧ 0 < v ≤ i64_max ∧ load_price db route = Ok (Some (p, v)).
Proof using L.
  intros Hinv. unfold load_price.
  destruct (maker_local_prices db !! route_key route) as [row|] eqn:Hrow; [right|by left].
  destruct (inv_prices _ Hinv _ _ Hrow) as (p&v&rid&->%route_key_inj&Hc&Hr&Hv&->).
  exists p, v. split; [done|]. split; [by exists rid|]. do 3 (split; [done|]). cbn -[sql_to_u64 LocalPriceV1_new].
  rewrite price_round_trip. cbn -[sql_to_u64 LocalPriceV1_new].
  rewrite (proj2 (LocalPriceV1_new_Ok p p Hr) (conj eq_refl Hc)). cbn -[sql_to_u64].
  by rewrite !bool_decide_eq_true_2, sql_to_u64_pos by (done || lia).
Qed.

Lemma load_pair_Some db route c v :
  tables_inv db → load_pair db route = Ok (Some (c, v)) →
  cfg_route c = route ∧ stored_configuration db c v ∧ configuration_ok c ∧
  configuration_in_range c ∧ 0 < v ≤ i64_max.
Proof using L.
  intros Hinv Hl. destruct (load_pair_cases db route Hinv) as [?|(?&?&?&?&?&?&?&Hl')]; [congruence|].
  rewrite Hl in Hl'. by simplify_eq.
Qed.

Lemma load_price_Some db route p v :
  tables_inv db → load_price db route = Ok (Some (p, v)) →
  price_route p = route ∧ stored_price db p v ∧ price_ok p ∧ price_in_range p ∧
  0 < v ≤ i64_max.
Proof using L.
  intros Hinv Hl. destruct (load_price_cases db route Hinv) as [?|(?&?&?&?&?&?&?&Hl')]; [congruence|].
  rewrite Hl in Hl'. by simplify_eq.
Qed.

Lemma map_err_Ok {A E F} (r : result A E) (f : E → F) a : map_err r f = Ok a → r = Ok a.
Proof. destruct r; cbn; [by intros [= ->]|done]. Qed.

Lemma offer_expiry_Ok now ttl v :
  offer_expiry now ttl = Ok v → v = now + ttl ∧ v ≤ i64_max.
Proof.
  unfold offer_expiry. destruct (checked_add u64_max now ttl) eqn:H; [|done].
  apply checked_add_Some in H as [-> _]. destruct (Z.leb_spec (now + ttl) i64_max); [|done].
  intros [= <-]. done.
Qed.

Lemma insert_active_offer_Ok db rid o db' :
  insert_active_offer db rid (offer_route o) o = Ok db' →
  db.(maker_offers) !! MakerOfferId_as_str (offer_id o) = None ∧
  db' = put_offer db rid o P_Active.
Proof.
  unfold insert_active_offer. intros H. inv_ok H. apply u64_to_sql_Ok in Hx as [-> _].
  unfold insert_offer in H. inv_ok H. apply executed_Ok, sql_insert_Some in Hx0 as (->&?&_&_).
  done.
Qed.

(** The range of a published offer's fields. *)
Lemma published_in_range o now :
  configuration_in_range (offer_configuration o) → price_in_range (offer_price o) →
  0 < offer_configuration_revision o ≤ i64_max → 0 < offer_price_revision o ≤ i64_max →
  in_range u64_max now → in_range u64_max (offer_price_observed_at o) →
  offer_created_at o = now → now ≤ offer_expires_at o ≤ i64_max → offer_in_range o.
Proof.
  intros (?&?&?) ? ? ? ? ? ? ?. unfold offer_in_range, in_range, i64_max, u64_max in *.
  split_and!; try done; lia.
Qed.

Lemma check_expected_Ok expected a b :
  check_expected_revisions expected a b = Ok tt → expected = None ∨ expected = Some (a, b).
Proof.
  destruct expected as [[x y]|]; cbn; [|by left]. intros H. inv_ok H. bool_props. right. congruence.
Qed.

Lemma local_request_operation oid route e :
  (local_publish_request oid route e).1 =
  request_operation (local_publish_request oid route e).2.
Proof. by destruct e as [[]|]. Qed.

Lemma publish_local_refines db rid oid route expected now :
  maker_inv db → safe_identifier (MakerOfferId_as_str oid) = true → in_range u64_max now →
  call_outcome db rid (local_publish_request oid route expected).2
    (prod_map id of_offer_commit (publish_local_offer_inner db rid oid route expected now)).
Proof using L.
  intros Hinv Hs Hnow. unfold publish_local_offer_inner.
  destruct (local_publish_request oid route expected) as [op req] eqn:Hreq.
  pose proof (local_request_operation oid route expected) as Hop. rewrite Hreq in Hop. cbn in Hop.
  subst op. cbn [snd]. assert (Hreq' : (local_publish_request oid route expected).2 = req)
    by by rewrite Hreq.
  apply replay_offer_cases; [done|by destruct expected as [[]|]; subst req; cbn|
    by destruct expected as [[]|]; subst req; cbn; intros ? ? []|]. intros Hn.
  match goal with |- context [immediate_transaction db ?b] => destruct b as [[db' c]|err] eqn:Hb end;
    [|apply outcome_refused].
  inv_ok Hb. bool_props.
  injection Hb as <- <-. apply ok_or_Ok in Hx0 as ->, Hx2 as ->.
  apply load_pair_Some in Hx as (Hrt&Hcf&Hcok&Hcr&Hv); [|apply Hinv].
  apply load_price_Some in Hx1 as (Hrt'&Hpr&Hpok&Hprr&Hw); [|apply Hinv].
  apply offer_expiry_Ok in Hx4 as [-> Hexp]. destruct x1. apply check_expected_Ok in Hx3.
  apply map_err_Ok in Hx5. rewrite <- Hrt in Hx6.
  set (o := {| offer_id := oid |}) in *.
  assert (Hr : offer_in_range o).
  { destruct Hcok as (_&_&_&?). apply (published_in_range o now); cbn; try done; lia. }
  apply MakerOfferV1_validate_Ok in Hx5; [|done].
  change (cfg_route st) with (offer_route o) in Hx6.
  apply insert_active_offer_Ok in Hx6 as [Hfresh ->]. apply persist_offer_Ok in Hx7 as ->.
  apply outcome_fresh; [done|]. rewrite <- Hreq', <- Hrt.
  exact (change_publish_local sha256 db rid o expected Hx5 Hr Hfresh Hcf E2 Hpr Hx3).
Qed.

Lemma sql_to_u64_Ok v w : sql_to_u64 v = Ok w → w = v ∧ 0 < v.
Proof.
  unfold sql_to_u64. destruct (Z.ltb_spec v 0), (Z.eqb_spec v 0); try done. intros [= <-]. lia.
Qed.

Lemma update_head_Ok db route q db' :
  update_external_price_head db route q = Ok db' →
  (∀ h, db.(maker_external_price_heads) !! (route_key route, quote_source_identity q) = Some h →
     head_le h (encode_head q)) ∧ db' = put_head db route q.
Proof.
  unfold update_external_price_head. intros H. inv_ok H.
  repeat match goal with H : u64_to_sql _ = Ok _ |- _ => apply u64_to_sql_Ok in H as [-> _] end.
  apply executed_Ok, sql_upsert_Some in Hx4 as [-> _]. subst db'. split; [|done].
  intros h Hh. rewrite Hh in Hx. inv_ok Hx.
  repeat match goal with H : sql_to_u64 _ = Ok _ |- _ => apply sql_to_u64_Ok in H as [-> _] end.
  bool_props. unfold head_le. destruct h as [hr ho hl hf]. cbn in *.
  destruct (Z.eqb_spec hr (quote_source_revision q)); cbn in *; bool_props; subst; [by right|left].
  match goal with H : (_ <? _) && _ = false |- _ => apply andb_false_iff in H as [?|?] end;
    bool_props; lia.
Qed.

Lemma publish_logos_refines db rid oid route e q now max_age :
  maker_inv db → safe_identifier (MakerOfferId_as_str oid) = true → quote_in_range q →
  in_range u64_max now →
  call_outcome db rid (PublishRequest oid route)
    (prod_map id of_offer_commit (publish_logos_offer db rid oid route e q now max_age)).
Proof using L.
  intros Hinv Hs Hq Hnow.
  apply (replay_offer_cases db rid (PublishRequest oid route)); [done|done|by intros ? ? []|].
  intros Hn.
  match goal with |- context [immediate_transaction db ?b] => destruct b as [[db' c]|err] eqn:Hb end;
    [|apply outcome_refused].
  inv_ok Hb. unfold quote_rejected in *. bool_props.
  injection Hb as <- <-. apply ok_or_Ok in Hx0 as ->.
  apply load_pair_Some in Hx as (Hrt&Hcf&Hcok&Hcr&Hv); [|apply Hinv].
  apply offer_expiry_Ok in Hx1 as [-> Hexp].
  apply map_err_Ok in Hx2. apply update_head_Ok in Hx3 as [Hhead ->]. rewrite <- Hrt in Hx4.
  set (o := {| offer_id := oid |}) in *.
  assert (Hr : offer_in_range o).
  { destruct Hcok as (_&_&_&?), Hq as (?&_&Hqr&?). unfold in_range in Hqr.
    apply (published_in_range o now); cbn; try done; lia. }
  apply MakerOfferV1_validate_Ok in Hx2; [|done].
  change (cfg_route st) with (offer_route o) in *.
  apply insert_active_offer_Ok in Hx4 as [Hfresh ->].
  apply (persist_offer_Ok _ _ (PublishRequest oid route)) in Hx5 as ->.
  apply (outcome_fresh db rid (PublishRequest oid route) (Revision 1)); [done|].
  rewrite <- Hrt in *. by apply (change_publish_logos sha256 db rid o q).
Qed.

Lemma prepare_refines db rid oid route :
  maker_inv db → safe_identifier (MakerOfferId_as_str oid) = true →
  call_outcome db rid (PublishRequest oid route)
    (prod_map id of_preflight (prepare_maker_offer_publication db rid oid route)).
Proof using L.
  intros Hinv Hs. unfold prepare_maker_offer_publication.
  change "offer_publish"%string with (request_operation (PublishRequest oid route)).
  destruct (journal_cases db rid (PublishRequest oid route) Hinv)
    as [Hn|[([v|a b]&Hok&Hm)|(req'&res&?&?&Hm)]].
  - rewrite replay_offer_fresh by done. cbn [result_bind].
    match goal with |- context [immediate_transaction db ?b] =>
      destruct b as [[db' c]|err] eqn:Hb end; [|apply outcome_refused].
    inv_ok Hb. injection Hb as <- <-. by apply outcome_pending.
  - rewrite (replay_offer_same db rid (PublishRequest oid route) v) by done.
    by apply outcome_replay.
  - done.
  - rewrite (replay_offer_other db rid (PublishRequest oid route) req' res) by done.
    apply outcome_refused.
Qed.

(** ** Staged proposals *)

Lemma insert_negotiation_Ok db rid oid n db' :
  insert_zec_negotiation db (MakerOfferId_as_str oid) (encode_negotiation n rid) = Ok db' →
  db.(maker_zec_negotiations) !! MakerOfferId_as_str oid = None ∧
  db' = put_negotiation db rid oid n.
Proof.
  unfold insert_zec_negotiation. intros H. inv_ok H.
  apply executed_Ok, sql_insert_Some in Hx0 as (->&?&_&_). done.
Qed.

Lemma stage_refines db rid oid e n :
  maker_inv db → negotiation_in_range n →
  call_outcome db rid (stage_zec_request sha256 oid e n)
    (prod_map id of_offer_commit (stage_zec_maker_negotiation sha256 db rid oid e n)).
Proof using L.
  intros Hinv Hr. unfold stage_zec_maker_negotiation.
  destruct (MakerZecNegotiationV1_validate n) as [[]|] eqn:Hval; [|apply outcome_refused].
  cbn [map_err result_bind]. destruct (zn_status n !=? Negotiation_Proposed) eqn:Hst;
    [apply outcome_refused|].
  apply (replay_offer_cases db rid (stage_zec_request sha256 oid e n));
    [done|done|by intros ? ? []|]. intros Hn.
  destruct (load_offer_cases db oid (zn_reserved_at n) (inv_tables _ Hinv))
    as [->|(o&p&Hid&Ho&_&Hok&Hp&->)]; [apply outcome_refused|].
  match goal with |- context [immediate_transaction db ?b] => destruct b as [[db' c]|err] eqn:Hb end;
    [|apply outcome_refused].
  cbn [ok_or result_bind] in Hb. inv_ok Hb. bool_props. simplify_eq/=.
  destruct p; try done.
  apply ok_or_Ok in Hx as Hquote. apply map_err_Ok in Hx0 as ->.
  apply u64_to_sql_Ok in Hx1 as [-> Hfu], Hx2 as [-> _].
  apply (insert_negotiation_Ok db rid (offer_id o) n) in Hx3 as [Hz ->].
  apply ok_or_Ok, checked_add_Some in Hx4 as [-> _].
  apply u64_to_sql_Ok in Hx5 as [-> _], Hx6 as [-> _].
  apply update_offer_Ok in Hx7 as (row&Hrow&_&_&->). cbn in Hrow.
  apply (persist_offer_Ok _ _ (stage_zec_request sha256 (offer_id o) 1 n)) in Hx8 as ->.
  destruct Ho as [rid0 Ho]. simplify_eq/=.
  apply (outcome_fresh db rid (stage_zec_request sha256 (offer_id o) 1 n) (Revision 2)); [done|].
  apply change_stage; try done. by exists rid0.
Qed.

(** ** Configuration *)

Lemma next_revision_Ok t route e v :
  (∀ row, t !! route_key route = Some row → 0 < row.(conf_revision)) →
  next_revision t route e = Ok v →
  e = conf_revision <$> t !! route_key route ∧ v = next e.
Proof.
  intros Hpos. unfold next_revision, next.
  destruct (t !! route_key route) as [row|]; cbn -[revision_from_sql].
  - rewrite revision_from_sql_pos by auto. cbn. case_bool_decide as He; [|done]. cbn.
    intros H%ok_or_Ok%checked_add_Some. subst e. cbn. by destruct H.
  - case_bool_decide as He; [|done]. cbn. intros H%ok_or_Ok%checked_add_Some. subst e. by destruct H.
Qed.

Lemma next_pair_Ok db route e v :
  tables_inv db → next_revision db.(maker_pair_configurations) route e = Ok v →
  e = pair_revision db route ∧ v = next e.
Proof.
  intros Hinv. apply next_revision_Ok. intros row Hrow.
  destruct (inv_pairs _ Hinv _ _ Hrow) as (?&?&?&_&_&_&?&->). cbn. lia.
Qed.

Lemma next_price_Ok db route e v :
  tables_inv db → next_revision db.(maker_local_prices) route e = Ok v →
  e = price_revision db route ∧ v = next e.
Proof.
  intros Hinv. apply next_revision_Ok. intros row Hrow.
  destruct (inv_prices _ Hinv _ _ Hrow) as (?&?&?&_&_&_&?&->). cbn. lia.
Qed.

Lemma write_pair_Ok db rid c v db' :
  write_pair db rid c v = Ok db' → v ≤ i64_max ∧ db' = put_pair db rid c v.
Proof.
  unfold write_pair, upsert_pair. intros H. inv_ok H.
  apply revision_to_sql_Ok in Hx as [-> ?]. apply executed_Ok, sql_upsert_Some in Hx0 as [-> _].
  done.
Qed.

Lemma write_price_Ok db rid p v db' :
  write_price db rid p v = Ok db' → v ≤ i64_max ∧ db' = put_price db rid p v.
Proof.
  unfold write_price, upsert_price. intros H. inv_ok H.
  apply revision_to_sql_Ok in Hx as [-> ?]. apply executed_Ok, sql_upsert_Some in Hx1 as [-> _].
  done.
Qed.

Lemma load_pair_record_cases db route :
  tables_inv db →
  load_pair_record db route = Ok None ∨
  ∃ r, load_pair_record db route = Ok (Some r) ∧ cfg_route (record_value r) = route ∧
       stored_configuration db (record_value r) (record_revision r).
Proof using L.
  intros Hinv. unfold load_pair_record.
  destruct (maker_pair_configurations db !! route_key route) as [row|] eqn:Hrow; [right|by left].
  destruct (inv_pairs _ Hinv _ _ Hrow) as (c&v&rid&->%route_key_inj&Hc&_&Hv&->).
  unfold decode_pair_record. cbn -[revision_from_sql MakerPairConfigurationV1_validate].
  rewrite configuration_round_trip. cbn -[revision_from_sql MakerPairConfigurationV1_validate].
  rewrite (proj2 (MakerPairConfigurationV1_validate_Ok c tt) Hc). cbn -[revision_from_sql].
  unfold validate_route_columns. rewrite !bool_decide_eq_true_2 by done. cbn -[revision_from_sql].
  rewrite revision_from_sql_pos by lia. eexists. split; [done|]. cbn. split; [done|by exists rid].
Qed.

Lemma load_pair_record_Some db route r :
  tables_inv db → load_pair_record db route = Ok (Some r) →
  cfg_route (record_value r) = route ∧
  stored_configuration db (record_value r) (record_revision r).
Proof using L.
  intros Hinv Hl. destruct (load_pair_record_cases db route Hinv) as [?|(r'&Hr&?)]; [congruence|].
  rewrite Hl in Hr. by injection Hr as ->.
Qed.

Lemma configure_refines db rid e c :
  maker_inv db → configuration_in_range c →
  call_outcome db rid (PairMutationRequest e c)
    (prod_map id of_configuration_commit (configure_maker_pair db rid e c)).
Proof using L.
  intros Hinv Hr. unfold configure_maker_pair.
  destruct (MakerPairConfigurationV1_validate c) as [[]|] eqn:Hval; [|apply outcome_refused].
  cbn [map_err result_bind].
  apply (replay_configuration_cases db rid (PairMutationRequest e c)); [done|by intros ? ? []|].
  intros Hn.
  match goal with |- context [immediate_transaction db ?b] => destruct b as [[db' cm]|err] eqn:Hb end;
    [|apply outcome_refused].
  inv_ok Hb. injection Hb as <- <-. apply MakerPairConfigurationV1_validate_Ok in Hval.
  apply next_pair_Ok in Hx as [-> ->]; [|apply Hinv]. apply write_pair_Ok in Hx0 as [Hle ->].
  apply (persist_configuration_Ok _ _ (PairMutationRequest _ c)) in Hx1 as ->.
  apply (outcome_fresh db rid (PairMutationRequest _ c) (Revision _)); [done|].
  apply change_pair; try done. intros Hen Hsrc. rewrite Hen, Hsrc in E. cbn in E.
  apply negb_false_iff, bool_decide_eq_true in E. done.
Qed.

Lemma set_price_refines db rid e p :
  maker_inv db → price_in_range p →
  call_outcome db rid (PriceMutationRequest e p)
    (prod_map id of_configuration_commit (set_local_price db rid e p)).
Proof using L.
  intros Hinv Hr. unfold set_local_price.
  destruct (LocalPriceV1_validate p) as [[]|] eqn:Hval; [|apply outcome_refused].
  cbn [map_err result_bind].
  apply (replay_configuration_cases db rid (PriceMutationRequest e p)); [done|by intros ? ? []|].
  intros Hn.
  match goal with |- context [immediate_transaction db ?b] => destruct b as [[db' cm]|err] eqn:Hb end;
    [|apply outcome_refused].
  inv_ok Hb. bool_props. injection Hb as <- <-. apply LocalPriceV1_validate_Ok in Hval; [|done].
  apply ok_or_Ok in Hx0 as ->. apply load_pair_record_Some in Hx as [Hrt Hst]; [|apply Hinv].
  apply next_price_Ok in Hx1 as [-> ->]; [|apply Hinv]. apply write_price_Ok in Hx2 as [Hle ->].
  apply (persist_configuration_Ok _ _ (PriceMutationRequest _ p)) in Hx3 as ->.
  apply (outcome_fresh db rid (PriceMutationRequest _ p) (Revision _)); [done|].
  by eapply change_price.
Qed.

Lemma save_route_refines db rid e1 e2 c p :
  maker_inv db → configuration_in_range c → price_in_range p →
  call_outcome db rid (LocalRouteMutationRequest e1 e2 c p)
    (prod_map id of_route_commit (save_local_maker_route db rid e1 e2 c p)).
Proof using L.
  intros Hinv Hr Hpr. unfold save_local_maker_route.
  destruct (MakerPairConfigurationV1_validate c) as [[]|] eqn:Hval; [|apply outcome_refused].
  destruct (LocalPriceV1_validate p) as [[]|] eqn:Hval'; [|apply outcome_refused].
  cbn [map_err result_bind]. case_bool_decide as Hroute; [|apply outcome_refused].
  case_bool_decide as Hsrc; [|apply outcome_refused]. cbn [negb].
  apply MakerPairConfigurationV1_validate_Ok in Hval.
  apply LocalPriceV1_validate_Ok in Hval'; [|done].
  destruct (journal_cases db rid (LocalRouteMutationRequest e1 e2 c p) Hinv)
    as [Hn|[([v|a b]&Hok&Hm)|(req'&res&?&?&Hm)]].
  - rewrite replay_route_fresh by done. cbn [result_bind].
    match goal with |- context [immediate_transaction db ?b] =>
      destruct b as [[db' cm]|err] eqn:Hb end; [|apply outcome_refused].
    inv_ok Hb. injection Hb as <- <-.
    apply next_pair_Ok in Hx as [-> ->]; [|apply Hinv].
    apply next_price_Ok in Hx0 as [-> ->]; [|apply Hinv].
    apply write_pair_Ok in Hx1 as [? ->]. apply write_price_Ok in Hx2 as [? ->].
    apply (insert_mutation_Ok _ _ (LocalRouteMutationRequest _ _ c p) (Revisions _ _)) in Hx3 as ->.
    apply (outcome_fresh db rid (LocalRouteMutationRequest _ _ c p) (Revisions _ _)); [done|].
    pose proof (change_route sha256 db rid c p) as Hc. rewrite <- Hroute in Hc. by apply Hc.
  - done.
  - destruct Hok. rewrite (replay_route_same db rid (LocalRouteMutationRequest e1 e2 c p) a b)
      by done. by apply outcome_replay.
  - rewrite (replay_route_other db rid (LocalRouteMutationRequest e1 e2 c p) req' res) by done.
    apply outcome_refused.
Qed.

(** Every operation, on every reachable database. *)
Lemma maker_call_refines db c :
  maker_inv db → well_typed c →
  call_outcome db (call_request_id c) (call_request sha256 c) (maker_call sha256 db c).
Proof using L.
  intros Hinv Hw. destruct c; cbn in *; destruct_and?.
  - by apply save_route_refines.
  - by apply configure_refines.
  - by apply set_price_refines.
  - by apply prepare_refines.
  - by apply publish_local_refines.
  - by apply publish_logos_refines.
  - by apply reserve_refines.
  - by apply stage_refines.
  - by apply consume_refines.
  - by apply withdraw_refines.
Qed.

Lemma call_inv db c : well_typed c → maker_inv db → maker_inv (maker_call sha256 db c).1.
Proof using L.
  intros Hw Hinv. destruct (maker_call_refines db c Hinv Hw); try done. by eapply change_inv.
Qed.

Lemma call_le db c : well_typed c → maker_inv db → maker_le db (maker_call sha256 db c).1.
Proof using L.
  intros Hw Hinv. destruct (maker_call_refines db c Hinv Hw); try done. by eapply change_inv.
Qed.

(** A committed request is in the journal the call leaves. *)
Lemma committed_journal db c res replay :
  maker_inv db → well_typed c → (maker_call sha256 db c).2 = Committed res replay →
  result_ok (call_request sha256 c) res ∧
  (maker_call sha256 db c).1.(maker_application_mutations)
    !! RequestId_as_str (call_request_id c)
  = Some (encode_mutation (call_request sha256 c) res).
Proof using L.
  intros Hinv Hw. destruct (maker_call_refines db c Hinv Hw) as [| |res' Hok Hm|res' db' Hn Hc]; cbn;
    try done; intros [= <- <-]; [done|].
  rewrite lookup_insert_eq. split; [|done].
  by apply (change_request_ok sha256 _ _ _ _ _ (inv_tables _ Hinv) Hc).
Qed.
End calls.
