(* ===== verification/MakerTheorems.v ===== *)
(** * What the maker's store promises

    Theorems on runs of maker calls from an empty store, where any call may be
    rolled back by a failure or commit with its result lost: an offer has one
    winner and one swap, requests are idempotent, edits never overwrite one
    another unseen, external prices do not go back, what is listed can be
    reserved, and the store never finds its own rows corrupt. *)

From stdpp Require Import base gmap strings list numbers sorting.
From S2P Require Import Prelude SwapCore Coordinator BridgeValues MakerMarket MakerMarketFacts SqlTable StoreBase MakerStore MakerConfiguration MakerOffers MakerStoreFacts MakerInvariant MakerCalls.

Open Scope Z_scope.

(** The store after a run of calls, and a call with its outcome at a position. *)
Abbreviation maker_run sha256 := (run_calls (maker_call sha256) empty_maker_db).
Abbreviation maker_committed sha256 := (committed_at (maker_call sha256) empty_maker_db).
Abbreviation all_well_typed calls := (Forall (λ c : MakerCall * Fate, well_typed c.1) calls).

(** The offer a call settles when it commits: [Some r] for the reservation [r]
    that wins it, [None] when it is withdrawn. *)
Definition settles (c : MakerCall) : option (MakerOfferId * option RequestId) :=
  match c with
  | Call_Reserve _ o _ r _ => Some (o, Some r)
  | Call_StageZec _ o _ n => Some (o, Some (zn_reservation_id n))
  | Call_Consume _ o _ r _ => Some (o, Some r)
  | Call_Withdraw _ o _ => Some (o, None)
  | _ => None
  end.

Section theorems.
Context {J : MakerJson} {L : MakerJsonLaws J} (sha256 : bytes → bytes).

Lemma maker_run_inv calls : all_well_typed calls → maker_inv (maker_run sha256 calls).
Proof using L.
  intros Hw. apply (run_calls_inv _ well_typed maker_inv); [|done|apply maker_inv_empty].
  intros. by apply call_inv.
Qed.

Lemma run_le calls i j :
  all_well_typed calls → (i ≤ j)%nat →
  maker_le (maker_run sha256 (take i calls)) (maker_run sha256 (take j calls)).
Proof using L.
  intros Hw Hij.
  apply (run_take_grow (maker_call sha256) well_typed maker_inv ltac:(intros; by apply call_inv)
    maker_le); [intros; by apply call_le|done|apply maker_inv_empty|done].
Qed.

(** The journal row of a committed request is in every later store. *)
Lemma committed_recorded calls i j c res replay :
  all_well_typed calls → maker_committed sha256 calls i = Some (c, Committed res replay) →
  (i < j)%nat →
  result_ok (call_request sha256 c) res ∧
  (maker_run sha256 (take j calls)).(maker_application_mutations)
    !! RequestId_as_str (call_request_id c)
  = Some (encode_mutation (call_request sha256 c) res).
Proof using L.
  intros Hw Hi Hij.
  destruct (committed_grow (maker_call sha256) well_typed maker_inv
    ltac:(intros; by apply call_inv) maker_le _ _ _ _ _ _ ltac:(intros; by apply call_le)
    Hw maker_inv_empty Hi Hij) as (Hc&Hinv&Ho&[_ _ Hm _ _ _ _]).
  pose proof (committed_journal sha256 _ c res replay Hinv Hc (eq_sym Ho)) as [Hok Hrow].
  split; [done|]. by apply Hm in Hrow as (?&?&<-).
Qed.

(** What a committed request shows, in every later store. *)
Lemma committed_effect calls i j c res replay :
  all_well_typed calls → maker_committed sha256 calls i = Some (c, Committed res replay) →
  (i < j)%nat → mutation_effect (maker_run sha256 (take j calls)) (call_request sha256 c).
Proof using L.
  intros Hw Hi Hij. pose proof (committed_recorded _ _ _ _ _ _ Hw Hi Hij) as [_ Hrow].
  assert (Hinv : maker_inv (maker_run sha256 (take j calls))) by by apply maker_run_inv, Forall_take.
  destruct (inv_mutations _ Hinv _ _ Hrow) as (req&res'&Heq&_&_&He).
  apply (f_equal mut_request_json), request_to_json_inj in Heq. by rewrite Heq.
Qed.

Definition settled_as (db : MakerDb) (o : MakerOfferId) (f : option RequestId) : Prop :=
  ∃ row, db.(maker_offers) !! MakerOfferId_as_str o = Some row ∧
  match f with
  | Some r => row.(offer_reservation_id) = Some (RequestId_as_str r)
  | None => row.(offer_state) = "withdrawn"
  end.

Lemma settled_agree db o f f' :
  maker_inv db → settled_as db o f → settled_as db o f' → f = f'.
Proof.
  intros Hinv (row&Hrow&Hf) (row'&Hrow'&Hf'). simplify_eq.
  destruct (inv_offers _ (inv_tables _ Hinv) _ _ Hrow) as (o'&p&rid&_&_&_&_&->).
  destruct f as [[r]|], f' as [[r']|], p; cbn in *; congruence.
Qed.

Lemma settles_effect db c o f :
  settles c = Some (o, f) → mutation_effect db (call_request sha256 c) → settled_as db o f.
Proof. destruct c; intros [= <- <-]; cbn; intros He; destruct_and?; unfold settled_as; naive_solver. Qed.

(** C7: An offer has one fate.  In any run of maker calls, with calls rolled back
    or their results lost at any point, any two calls that succeed in reserving,
    staging, consuming or withdrawing the same offer agree: they name the same
    reservation, or both withdraw it. *)
Theorem offer_has_one_fate calls i j c c' res res' replay replay' o f f' :
  all_well_typed calls →
  maker_committed sha256 calls i = Some (c, Committed res replay) →
  maker_committed sha256 calls j = Some (c', Committed res' replay') →
  settles c = Some (o, f) → settles c' = Some (o, f') → f = f'.
Proof using L.
  intros Hw Hi Hj Hs Hs'. set (n := S (max i j)).
  apply (settled_agree (maker_run sha256 (take n calls)) o).
  - by apply maker_run_inv, Forall_take.
  - apply (settles_effect _ c); [done|]. eapply committed_effect; [done..|lia].
  - apply (settles_effect _ c'); [done|]. eapply committed_effect; [done..|lia].
Qed.

(** Offers and swaps are bound one to one.  Two calls that succeed in
    consuming an offer name the same swap exactly when they name the same
    offer. *)
Theorem offer_bound_to_one_swap calls i j rid rid' o o' e e' r r' s s' res res' b b' :
  all_well_typed calls →
  maker_committed sha256 calls i = Some (Call_Consume rid o e r s, Committed res b) →
  maker_committed sha256 calls j = Some (Call_Consume rid' o' e' r' s', Committed res' b') →
  o = o' ↔ coord_id s = coord_id s'.
Proof using L.
  intros Hw Hi Hj. set (n := S (max i j)).
  pose proof (committed_effect _ _ n _ _ _ Hw Hi ltac:(lia)) as (row&Hrow&_&Hs).
  pose proof (committed_effect _ _ n _ _ _ Hw Hj ltac:(lia)) as (row'&Hrow'&_&Hs').
  assert (Hinv : maker_inv (maker_run sha256 (take n calls))) by by apply maker_run_inv, Forall_take.
  split.
  - intros <-. simplify_eq. destruct (coord_id s), (coord_id s'). cbn in *. congruence.
  - intros Heq. rewrite <- Heq in Hs'.
    pose proof (inv_bound_once _ (inv_tables _ Hinv) _ _ _ _ _ Hrow Hrow' Hs Hs').
    destruct o, o'. cbn in *. congruence.
Qed.

(** ** Idempotence *)

(** The tests a call makes on its arguments before it looks at the journal. *)
Definition prechecked (c : MakerCall) : Prop :=
  match c with
  | Call_SaveRoute _ _ _ c p =>
      MakerPairConfigurationV1_validate c = Ok tt ∧ LocalPriceV1_validate p = Ok tt ∧
      cfg_route c = price_route p ∧ cfg_price_source c = Price_Local
  | Call_ConfigurePair _ _ c => MakerPairConfigurationV1_validate c = Ok tt
  | Call_SetPrice _ _ p => LocalPriceV1_validate p = Ok tt
  | Call_StageZec _ _ _ n =>
      MakerZecNegotiationV1_validate n = Ok tt ∧ zn_status n = Negotiation_Proposed
  | _ => True
  end.

Lemma committed_prechecked db c res replay :
  (maker_call sha256 db c).2 = Committed res replay → prechecked c.
Proof.
  destruct c; try done; cbn; unfold save_local_maker_route, configure_maker_pair, set_local_price,
    stage_zec_maker_negotiation.
  - destruct (MakerPairConfigurationV1_validate c) as [[]|]; [|done].
    destruct (LocalPriceV1_validate p) as [[]|]; [|done]. cbn.
    case_bool_decide; [|done]. by case_bool_decide.
  - by destruct (MakerPairConfigurationV1_validate c) as [[]|].
  - by destruct (LocalPriceV1_validate p) as [[]|].
  - destruct (MakerZecNegotiationV1_validate n) as [[]|]; [|done]. cbn. by case_bool_decide.
Qed.

(** A consumed offer has no staged proposal, so its retry passes the first test. *)
Lemma consumed_unstaged db o e r s :
  maker_inv db → mutation_effect db (ConsumeRequest o e r s) →
  staged_pair_negotiation db o = false.
Proof.
  intros Hinv (row&Hrow&_&Hs). unfold staged_pair_negotiation.
  destruct (inv_other_pairs _ (inv_tables _ Hinv)) as [-> ->].
  rewrite (unstaged_unless_reserved db); [| apply Hinv |].
  - rewrite !bool_decide_eq_false_2; [done|set_solver..|]. by intros [].
  - intros row' Hrow'. simplify_eq.
    destruct (inv_offers _ (inv_tables _ Hinv) _ _ Hrow) as (o'&p&rid&_&_&_&_&->).
    by destruct p.
Qed.

Lemma transition_replayed db rid req o e swap f v :
  0 < v → db.(maker_application_mutations) !! RequestId_as_str rid
    = Some (encode_mutation req (Revision v)) →
  transition_offer db rid (request_operation req) req o e swap f
  = (db, Ok {| commit_revision := v; commit_was_replay := true |}).
Proof using L.
  intros Hv Hm. unfold transition_offer. cbv zeta. by rewrite (replay_offer_same db rid req v).
Qed.

(** A recorded request is answered from the journal. *)
Lemma recorded_replayed db c res :
  maker_inv db → prechecked c → result_ok (call_request sha256 c) res →
  db.(maker_application_mutations) !! RequestId_as_str (call_request_id c)
    = Some (encode_mutation (call_request sha256 c) res) →
  maker_call sha256 db c = (db, Committed res true).
Proof using L.
  intros Hinv Hp Hok Hm.
  assert (He : mutation_effect db (call_request sha256 c)).
  { destruct (inv_mutations _ Hinv _ _ Hm) as (req&res'&Heq&_&_&He).
    apply (f_equal mut_request_json), request_to_json_inj in Heq. by rewrite Heq. }
  assert (Hoff : ∀ v, res = Revision v → 0 < v →
    replay_offer_mutation db (call_request_id c) (request_operation (call_request sha256 c))
      (request_to_json (call_request sha256 c))
    = Ok (Some {| commit_revision := v; commit_was_replay := true |})).
  { intros v -> Hv. by apply replay_offer_same. }
  destruct c as [rid e1 e2 cf p|rid e cf|rid e p|rid o rt|rid o rt [[a b]|] now|rid o rt e q now ma
    |rid o e r now|rid o e n|rid o e r s|rid o e], res as [v|v w]; cbn in Hok; try done;
    cbn in Hp, Hm; cbn [maker_call]; try specialize (Hoff v eq_refl Hok);
    cbn [call_request call_request_id request_operation local_publish_request snd
         stage_zec_request] in Hoff.
  - destruct Hp as (H1&H2&H3&H4), Hok. unfold save_local_maker_route.
    rewrite H1, H2, !bool_decide_eq_true_2 by done. cbn [map_err result_bind negb]. cbv zeta.
    by rewrite (replay_route_same db rid (LocalRouteMutationRequest e1 e2 cf p) v w).
  - unfold configure_maker_pair. rewrite Hp. cbn [map_err result_bind]. cbv zeta.
    pose proof (replay_configuration_same db rid (PairMutationRequest e cf) v Hok Hm) as Hr.
    cbn [request_operation] in Hr. by rewrite Hr.
  - unfold set_local_price. rewrite Hp. cbn [map_err result_bind]. cbv zeta.
    pose proof (replay_configuration_same db rid (PriceMutationRequest e p) v Hok Hm) as Hr.
    cbn [request_operation] in Hr. by rewrite Hr.
  - unfold prepare_maker_offer_publication. cbv zeta. by rewrite Hoff.
  - unfold publish_local_offer_inner. cbn. by rewrite Hoff.
  - unfold publish_local_offer_inner. cbn. by rewrite Hoff.
  - unfold publish_logos_offer. cbv zeta. by rewrite Hoff.
  - unfold reserve_maker_offer.
    pose proof (transition_replayed db rid (ReserveRequest o e r now) o e) as Hr. cbn [request_operation] in Hr.
    by rewrite (Hr _ _ v).
  - destruct Hp as [H1 H2]. unfold stage_zec_maker_negotiation.
    rewrite H1, H2, bool_decide_eq_true_2 by done. cbn [map_err result_bind negb]. cbv zeta.
    by rewrite Hoff.
  - unfold consume_maker_offer. rewrite (consumed_unstaged db o e r s Hinv He).
    pose proof (transition_replayed db rid (ConsumeRequest o e r s) o e) as Hr. cbn [request_operation] in Hr.
    by rewrite (Hr _ _ v).
  - unfold withdraw_maker_offer.
    pose proof (transition_replayed db rid (WithdrawRequest o e) o e) as Hr. cbn [request_operation] in Hr.
    by rewrite (Hr _ _ v).
Qed.

(** C16: Requests are idempotent.  Once a call has committed, every later call
    under the same request identifier changes nothing: the same request returns
    the recorded result as a replay, whatever has happened to the offer, the
    policy or the price since, and any other request is refused. *)
Theorem maker_requests_idempotent calls i j c c' res replay :
  all_well_typed calls → well_typed c' →
  maker_committed sha256 calls i = Some (c, Committed res replay) → (i < j)%nat →
  call_request_id c' = call_request_id c →
  let db := maker_run sha256 (take j calls) in
  (maker_call sha256 db c').1 = db ∧
  (c' = c ∨ call_request sha256 c' = call_request sha256 c ∧ prechecked c' →
   (maker_call sha256 db c').2 = Committed res true) ∧
  (call_request sha256 c' ≠ call_request sha256 c →
   ∃ e, (maker_call sha256 db c').2 = Refused e).
Proof using L.
  intros Hw Hw' Hi Hij Hid db.
  assert (Hinv : maker_inv db) by by apply maker_run_inv, Forall_take.
  destruct (committed_recorded _ _ _ _ _ _ Hw Hi Hij) as [Hok Hrow]. fold db in Hrow.
  rewrite <- Hid in Hrow. split_and!.
  - destruct (maker_call_refines sha256 db c' Hinv Hw') as [| | |res' db' Hn]; try done. congruence.
  - intros Hsame. assert (call_request sha256 c' = call_request sha256 c ∧ prechecked c') as [Hreq Hp].
    { destruct Hsame as [->|]; [|done]. split; [done|].
      apply (committed_prechecked (maker_run sha256 (take i calls)) _ res replay).
      by apply (committed_output (maker_call sha256)). }
    rewrite <- Hreq in Hok, Hrow. by rewrite (recorded_replayed db c' res Hinv Hp Hok Hrow).
  - intros Hne. destruct (maker_call_refines sha256 db c' Hinv Hw') as [e|v src Hn|res' _ Hm|res' db' Hn];
      cbn; [by eexists|congruence| |congruence].
    rewrite Hm in Hrow. injection Hrow as _ Heq _. by apply request_to_json_inj in Heq.
Qed.

(** ** The life of an offer *)

Lemma load_offer_Some db oid now rec :
  tables_inv db → load_offer db oid now = Ok (Some rec) →
  ∃ o p, offer_id o = oid ∧ offer_at db oid o p ∧ offer_in_range o ∧ offer_ok o ∧ phase_ok p ∧
    rec = {| rec_revision := phase_revision p;
             rec_status := phase_status p (offer_expires_at o <=? now); rec_offer := o;
             rec_reservation_id := phase_reservation p;
             rec_swap_id := SwapId_as_str <$> phase_swap p |}.
Proof using L.
  intros Hinv Hl. destruct (load_offer_cases db oid now Hinv) as [?|(o&p&?&?&?&?&?&Hl')];
    [congruence|]. rewrite Hl in Hl'. injection Hl' as ->. by exists o, p.
Qed.

Lemma load_offer_at db o p now :
  tables_inv db → offer_at db (offer_id o) o p →
  load_offer db (offer_id o) now =
  Ok (Some {| rec_revision := phase_revision p;
              rec_status := phase_status p (offer_expires_at o <=? now); rec_offer := o;
              rec_reservation_id := phase_reservation p;
              rec_swap_id := SwapId_as_str <$> phase_swap p |}).
Proof using L.
  intros Hinv Ho. destruct (offer_at_ok db o p Hinv Ho) as (?&?&?). destruct Ho as [rid Ho].
  unfold load_offer. by rewrite Ho, decode_encoded_offer.
Qed.

(** The phases a phase can reach. *)
Definition phase_le (p p' : OfferPhase) : Prop :=
  p = p' ∨ (p = P_Active ∧ p' ≠ P_Active) ∨
  ∃ r s, p = P_Reserved r ∧ p' = P_Consumed r s.

Lemma offer_at_le db db' o p :
  tables_inv db → tables_inv db' → maker_le db db' → offer_at db (offer_id o) o p →
  ∃ p', offer_at db' (offer_id o) o p' ∧ phase_le p p'.
Proof using L.
  intros Hinv Hinv' [_ _ _ Hle _ _ _] Ho. destruct (offer_at_ok db o p Hinv Ho) as (_&Hok&_).
  destruct Ho as [rid Ho]. apply Hle in Ho as (row'&Hrow'&Hterms&Hlife).
  destruct (inv_offers _ Hinv' _ _ Hrow') as (o'&p'&rid'&Hid&_&Hok'&_&->).
  assert (o = o') as <-.
  { injection Hterms as _ _ Hj _. apply (f_equal offer_from_json) in Hj.
    rewrite !offer_round_trip in Hj by (apply Hok || apply Hok'). by injection Hj. }
  exists p'. split; [by exists rid'|]. unfold phase_le.
  destruct Hlife as [Hl|[_ [[Ha Hna]|(Hr&Hc&Hrr)]]].
  - left. unfold offer_life in Hl.
    destruct p as [|[]|[] []|], p' as [|[]|[] []|]; cbn in Hl; congruence.
  - right; left. destruct p; try discriminate. split; [done|]. by intros ->.
  - right; right. destruct p as [|[r]| |], p' as [| |[r'] s'|]; try discriminate.
    cbn in Hrr. exists {| RequestId_as_str := r |}, s'. split; [done|]. congruence.
Qed.

(** The terms of an offer are final and its life moves forward.  In any run,
    an offer that can be loaded at one point can be loaded at every later one,
    with the same immutable terms and a revision no lower; a reservation, once
    made, and a swap, once bound, never change, and a withdrawn offer stays
    withdrawn. *)
Theorem offer_terms_are_final calls i j oid now now' rec :
  all_well_typed calls → (i ≤ j)%nat →
  load_offer (maker_run sha256 (take i calls)) oid now = Ok (Some rec) →
  ∃ rec', load_offer (maker_run sha256 (take j calls)) oid now' = Ok (Some rec') ∧
    rec_offer rec' = rec_offer rec ∧ rec_revision rec ≤ rec_revision rec' ∧
    (∀ r, rec_reservation_id rec = Some r → rec_reservation_id rec' = Some r) ∧
    (∀ s, rec_swap_id rec = Some s → rec_swap_id rec' = Some s) ∧
    (rec_status rec = Offer_Withdrawn → rec_status rec' = Offer_Withdrawn).
Proof using L.
  intros Hw Hij Hl.
  assert (Hi : maker_inv (maker_run sha256 (take i calls))) by by apply maker_run_inv, Forall_take.
  assert (Hj : maker_inv (maker_run sha256 (take j calls))) by by apply maker_run_inv, Forall_take.
  apply load_offer_Some in Hl as (o&p&<-&Ho&_&_&_&->); [|apply Hi].
  destruct (offer_at_le _ _ _ _ (inv_tables _ Hi) (inv_tables _ Hj) (run_le calls i j Hw Hij) Ho)
    as (p'&Ho'&Hp).
  eexists. split; [exact (load_offer_at _ _ _ now' (inv_tables _ Hj) Ho')|]. cbn.
  destruct Hp as [<-|[[-> Hp]|(r&s&->&->)]]; cbn.
  - split_and!; try done. destruct p; cbn; try done. by destruct (_ <=? now).
  - pose proof (phase_revision_pos p'). split_and!; try done; [lia|]. by destruct (_ <=? now).
  - by split_and!.
Qed.

(** ** Edits and prices *)

(** The route whose policy a call edits and the revision it expects. *)
Definition edits_policy (c : MakerCall) : option (MakerRouteV1 * option Z) :=
  match c with
  | Call_SaveRoute _ e _ c _ => Some (cfg_route c, e)
  | Call_ConfigurePair _ e c => Some (cfg_route c, e)
  | _ => None
  end.

Lemma edit_effect db c route e :
  edits_policy c = Some (route, e) → mutation_effect db (call_request sha256 c) →
  ∃ v, pair_revision db route = Some v ∧ next e ≤ v.
Proof. destruct c; intros [= <- <-]; cbn; naive_solver. Qed.

Lemma edit_fresh db c route e res :
  maker_inv db → well_typed c → edits_policy c = Some (route, e) →
  (maker_call sha256 db c).2 = Committed res false → pair_revision db route = e.
Proof using L.
  intros Hinv Hw He. destruct (maker_call_refines sha256 db c Hinv Hw) as [| | |res' db' _ Hc];
    try done. intros _.
  destruct c; simplify_eq/=; inversion Hc; subst; try done;
    match goal with H : (local_publish_request _ _ ?x).2 = _ |- _ => by destruct x as [[]|] end.
Qed.

(** No edit of a route's policy is lost.  Of two edits that both took effect,
    the later one was made against a revision at least as high as the one the
    earlier edit produced, so two editors that read the same revision cannot both
    succeed. *)
Theorem policy_edits_not_lost calls i j c c' route e e' res res' :
  all_well_typed calls → (i < j)%nat →
  maker_committed sha256 calls i = Some (c, Committed res false) →
  maker_committed sha256 calls j = Some (c', Committed res' false) →
  edits_policy c = Some (route, e) → edits_policy c' = Some (route, e') →
  ∃ v, e' = Some v ∧ next e ≤ v.
Proof using L.
  intros Hw Hij Hi Hj He He'.
  pose proof (committed_effect _ _ _ _ _ _ Hw Hi Hij) as Heff.
  apply (edit_effect _ _ _ _ He) in Heff as (v&Hv&?). exists v. split; [|done].
  rewrite <- Hv. symmetry. eapply edit_fresh; [|..|by apply (committed_output (maker_call sha256))];
    [by apply maker_run_inv, Forall_take| |done].
  unfold committed_at in Hj. destruct (calls !! j) as [[c0 f]|] eqn:Hc; [|done].
  assert (c0 = c') as -> by (destruct f; naive_solver).
  exact (Forall_lookup_1 _ _ _ _ Hw Hc).
Qed.

Lemma replay_is_replay db rid op json c :
  replay_offer_mutation db rid op json = Ok (Some c) → commit_was_replay c = true.
Proof.
  unfold replay_offer_mutation. destruct (_ !! _) as [row|]; [|done]. cbv zeta. intros H.
  inv_ok H. by injection H as <-.
Qed.

Lemma immediate_Ok {T A} (db db' : T) (body : result (T * A) StoreError) a :
  immediate_transaction db body = (db', Ok a) → body = Ok (db', a).
Proof. destruct body as [[]|]; cbn; naive_solver. Qed.

Lemma publish_logos_head db rid o route e q now max_age db' c :
  publish_logos_offer db rid o route e q now max_age = (db', Ok c) →
  commit_was_replay c = false →
  (∀ h, db.(maker_external_price_heads) !! (route_key route, quote_source_identity q) = Some h →
     head_le h (encode_head q)) ∧
  db'.(maker_external_price_heads) !! (route_key route, quote_source_identity q)
  = Some (encode_head q).
Proof.
  intros Hp Hc. apply immediate_Ok in Hp. cbv zeta in Hp.
  apply result_bind_Ok in Hp as ([c'|]&Hrep&Hp).
  { injection Hp as -> ->. apply replay_is_replay in Hrep. congruence. }
  inv_ok Hp. injection Hp as <- <-. apply update_head_Ok in Hx3 as [Hh ->]. split; [done|].
  unfold insert_active_offer, insert_offer in Hx4. inv_ok Hx4. subst.
  unfold persist_offer_mutation, insert_mutation in Hx5. inv_ok Hx5. subst. cbn.
  by rewrite lookup_insert_eq.
Qed.

(** An external price source never goes back.  Of two publications that used
    the same source for the same route, the later one used a higher source
    revision that was not observed earlier, or exactly the same quote: a revision
    never names two quotes. *)
Theorem external_prices_never_roll_back calls i j route
    rid o e q now age res rid' o' e' q' now' age' res' :
  all_well_typed calls → (i < j)%nat →
  maker_committed sha256 calls i
    = Some (Call_PublishLogos rid o route e q now age, Committed res false) →
  maker_committed sha256 calls j
    = Some (Call_PublishLogos rid' o' route e' q' now' age', Committed res' false) →
  quote_source_identity q = quote_source_identity q' →
  (quote_source_revision q < quote_source_revision q' ∧
   quote_observed_at q ≤ quote_observed_at q') ∨
  (quote_source_revision q = quote_source_revision q' ∧
   quote_observed_at q = quote_observed_at q' ∧
   lez_units_per_lot (quote_price q) = lez_units_per_lot (quote_price q') ∧
   foreign_units_per_lot (quote_price q) = foreign_units_per_lot (quote_price q')).
Proof using L.
  intros Hw Hij Hi Hj Hid.
  destruct (committed_grow (maker_call sha256) well_typed maker_inv
    ltac:(intros; by apply call_inv) maker_le _ _ _ _ _ _ ltac:(intros; by apply call_le)
    Hw maker_inv_empty Hi Hij) as (_&_&Ho&[_ _ _ _ Hle _ _]).
  apply committed_output in Hj. cbn in Ho, Hj, Hle.
  destruct (publish_logos_offer _ rid o route e q now age) as [d1 [c1|]] eqn:H1; [|done].
  destruct (publish_logos_offer _ rid' o' route e' q' now' age') as [d2 [c2|]] eqn:H2; [|done].
  cbn in Ho, Hj. apply publish_logos_head in H1 as [_ H1]; [|by injection Ho].
  apply publish_logos_head in H2 as [H2 _]; [|by injection Hj].
  apply Hle in H1 as (h&Hh&Hhle). rewrite Hid in Hh. apply H2 in Hh.
  assert (Hqq : head_le (encode_head q) (encode_head q')) by by etrans.
  destruct Hqq as [?|Heq]; [by left|right]. by injection Heq.
Qed.

(** A local publication snapshots what is configured at that moment.  When it
    takes effect the route is enabled with a local price, the revisions the caller
    reviewed (if given) are the stored ones, the identifier was unused, and the
    offer that can then be loaded is active at revision 1 with exactly the stored
    policy and price, their revisions and an expiry of the policy's lifetime after
    the publication. *)
Theorem published_offer_snapshot calls rid oid route expected now db' c :
  all_well_typed calls → safe_identifier (MakerOfferId_as_str oid) = true →
  in_range u64_max now →
  publish_local_offer_inner (maker_run sha256 calls) rid oid route expected now = (db', Ok c) →
  commit_was_replay c = false →
  ∃ cf v p w,
    load_pair (maker_run sha256 calls) route = Ok (Some (cf, v)) ∧
    load_price (maker_run sha256 calls) route = Ok (Some (p, w)) ∧
    cfg_enabled cf = true ∧ cfg_price_source cf = Price_Local ∧
    (expected = None ∨ expected = Some (v, w)) ∧
    load_offer (maker_run sha256 calls) oid now = Ok None ∧
    load_offer db' oid now = Ok (Some {|
      rec_revision := 1; rec_status := Offer_Active;
      rec_offer := {|
        offer_id := oid; offer_configuration := cf; offer_price := p;
        offer_configuration_revision := v; offer_price_revision := w;
        offer_price_observed_at := now; offer_price_identity := None;
        offer_created_at := now; offer_expires_at := now + cfg_offer_ttl_seconds cf |};
      rec_reservation_id := None; rec_swap_id := None |}).
Proof using L.
  intros Hw Hs Hnow Hp Hc.
  assert (Hinv : maker_inv (maker_run sha256 calls)) by by apply maker_run_inv.
  assert (Hinv' : maker_inv db').
  { pose proof (call_inv sha256 _ (Call_PublishLocal rid oid route expected now)
      (conj Hs Hnow) Hinv) as H'. cbn in H'. by rewrite Hp in H'. }
  apply immediate_Ok in Hp. destruct (local_publish_request oid route expected) as [op req].
  cbv zeta in Hp. apply result_bind_Ok in Hp as ([c'|]&Hrep&Hp).
  { injection Hp as -> ->. apply replay_is_replay in Hrep. congruence. }
  inv_ok Hp. bool_props. injection Hp as <- <-. apply ok_or_Ok in Hx0 as ->, Hx2 as ->.
  apply offer_expiry_Ok in Hx4 as [-> Hexp]. destruct x1. apply check_expected_Ok in Hx3.
  exists st, pa, st0, pa0. split_and!; try done.
  - unfold load_offer, offer_exists in *. apply bool_decide_eq_false, eq_None_not_Some in E0.
    by rewrite E0.
  - apply load_pair_Some in Hx as (Hrt&_&(_&_&_&Httl)&_); [|apply Hinv].
    set (o := {| offer_id := oid |}) in *. change oid with (offer_id o).
    rewrite <- Hrt in Hx6. change (cfg_route st) with (offer_route o) in Hx6.
    apply insert_active_offer_Ok in Hx6 as [_ ->].
    rewrite (load_offer_at _ o P_Active); [|apply Hinv'|].
    + cbn. by rewrite (proj2 (Z.leb_gt _ _)) by lia.
    + unfold persist_offer_mutation, insert_mutation in Hx7. inv_ok Hx7. subst. exists rid. cbn.
      by rewrite lookup_insert_eq.
Qed.
End theorems.
