(* ===== verification/MakerListings.v ===== *)
(** * Listings and proposals

    What the maker's store shows: the discoverable offers are exactly the active
    unexpired ones, in order, and each of them can be reserved; a staged proposal
    is read back as it was written and agrees with its offer. *)

From stdpp Require Import base gmap strings list numbers sorting.
From S2P Require Import Prelude SwapCore Coordinator BridgeValues MakerMarket MakerMarketFacts SqlTable StoreBase MakerStore MakerConfiguration MakerOffers MakerStoreFacts MakerInvariant MakerCalls MakerTheorems.

Open Scope Z_scope.

(** ** The order of strings *)

Lemma ascii_compare_trans_le a b c :
  Ascii.compare a b ≠ Gt → Ascii.compare b c ≠ Gt →
  Ascii.compare a c ≠ Gt ∧ (Ascii.compare a c = Eq → Ascii.compare a b = Eq ∧ Ascii.compare b c = Eq).
Proof.
  unfold Ascii.compare. rewrite !N.compare_le_iff. intros. split; [lia|].
  rewrite !N.compare_eq_iff. lia.
Qed.

Lemma string_leb_trans a b c :
  String.leb a b = true → String.leb b c = true → String.leb a c = true.
Proof.
  unfold String.leb. revert b c. induction a as [|x a IH]; intros [|y b] [|z c]; cbn; try done.
  pose proof (ascii_compare_trans_le x y z) as Ht.
  destruct (Ascii.compare x y) eqn:Hxy, (Ascii.compare y z) eqn:Hyz; try done; intros H1 H2;
    destruct Ht as [Ht1 Ht2]; try done; destruct (Ascii.compare x z) eqn:Hxz; try done;
    destruct (Ht2 eq_refl); try done.
  by eapply IH.
Qed.

#[global] Instance offer_key_le_trans {A} : Transitive (@offer_key_le A).
Proof. intros x y z. apply string_leb_trans. Qed.

#[global] Instance offer_key_le_total {A} : Total (@offer_key_le A).
Proof. intros x y. apply String.leb_total. Qed.

Lemma StronglySorted_filter {A} (R : A → A → Prop) (P : A → Prop) `{∀ x, Decision (P x)} l :
  StronglySorted R l → StronglySorted R (filter P l).
Proof.
  induction 1 as [|x l _ IH Hx]; [constructor|]. rewrite filter_cons. case_decide; [|done].
  constructor; [done|]. rewrite list.Forall_forall in *. intros y [_ ?]%list_elem_of_filter. auto.
Qed.

Lemma Forall2_StronglySorted {A B} (R : A → A → Prop) (S : B → B → Prop) (F : A → B → Prop) l k :
  (∀ x x' y y', F x y → F x' y' → R x x' → S y y') →
  Forall2 F l k → StronglySorted R l → StronglySorted S k.
Proof.
  intros HS HF. induction HF as [|x y l k Hxy HF IH]; intros Hl; [constructor|].
  inversion_clear Hl as [|?? Hl' Hx]. constructor; [auto|].
  apply list.Forall_lookup. intros i y' Hi.
  destruct (Forall2_lookup_r _ _ _ _ _ HF Hi) as (x'&Hx'&?).
  eapply HS; [done..|]. exact (Forall_lookup_1 _ _ _ _ Hx Hx').
Qed.

(** ** Amounts of 128 bits *)

Lemma fold_be_bytes n v acc :
  fold_left (λ acc x, acc * 256 + Z_of_byte x) (be_bytes n v) acc
  = acc * 256 ^ Z.of_nat n + v mod 256 ^ Z.of_nat n.
Proof.
  revert v acc. induction n as [|n IH]; intros v acc; cbn [be_bytes].
  - cbn. rewrite Z.mod_1_r. lia.
  - rewrite fold_left_app, IH. cbn [fold_left]. rewrite Z_of_byte_of_Z.
    rewrite Nat2Z.inj_succ, Z.pow_succ_r by lia.
    set (m := 256 ^ Z.of_nat n). assert (0 < m) by (apply Z.pow_pos_nonneg; lia).
    rewrite (Z.rem_mul_r v 256 m) by lia. lia.
Qed.

Lemma u128_be_bytes v : in_range u128_max v → u128_from_be_bytes (be_bytes 16 v) = v.
Proof.
  unfold in_range, u128_max, u128_from_be_bytes. intros Hv. rewrite fold_be_bytes.
  rewrite Z.mod_small; [lia|]. cbn; lia.
Qed.

Section listings.
Context {J : MakerJson} {L : MakerJsonLaws J} (sha256 : bytes → bytes).

(** ** Staged proposals *)

Lemma len_is_true n (b : bytes) : blen b = n → len_is n b = true.
Proof. unfold len_is. intros ->. apply Z.eqb_refl. Qed.

Lemma decode_encoded_negotiation n rid :
  proposal_ok n → decode_zec_negotiation_row (encode_negotiation n rid) = Ok n.
Proof.
  intros ((Hs&H1&H2&H3&H4&Hf&Hl&Ht)&Hval&Hst&_). pose proof Hval as Hval'.
  unfold MakerZecNegotiationV1_validate in Hval'. rewrite Hst in Hval'. inv_ok Hval'. bool_props.
  unfold in_range in *. destruct n as [[r] oc mi ti fu lu ra ac wire st fin sw]. cbn in *.
  destruct fin; [done|]. destruct sw; [done|]. subst st.
  unfold decode_zec_negotiation_row, encode_negotiation.
  cbn -[sql_to_u64 MakerZecNegotiationV1_validate be_bytes u128_from_be_bytes].
  unfold column_array. rewrite bool_decide_eq_true_2 by done.
  rewrite (len_is_true 32 oc), (len_is_true 33 mi), (len_is_true 33 ti), (len_is_true 32 ac),
    (len_is_true 16) by (done || unfold blen; by rewrite length_be_bytes).
  unfold RequestId_new.
  cbn -[sql_to_u64 MakerZecNegotiationV1_validate be_bytes u128_from_be_bytes]. rewrite Hs.
  cbn -[sql_to_u64 MakerZecNegotiationV1_validate be_bytes u128_from_be_bytes].
  rewrite !sql_to_u64_pos by lia.
  cbn -[MakerZecNegotiationV1_validate be_bytes u128_from_be_bytes].
  by rewrite u128_be_bytes, Hval by done.
Qed.

(** A staged proposal agrees with its offer.  The proposal that is loaded for
    an offer of a reachable store was made for the reservation that holds the
    offer, before the offer expired, on a Zcash route, and its LEZ amount is
    exactly the offer's quote of its foreign amount. *)
Theorem staged_proposal_matches_offer calls oid n now :
  all_well_typed calls →
  load_zec_maker_negotiation (maker_run sha256 calls) oid = Ok (Some n) →
  ∃ rec, load_offer (maker_run sha256 calls) oid now = Ok (Some rec) ∧
    rec_status rec = Offer_Reserved ∧ rec_reservation_id rec = Some (zn_reservation_id n) ∧
    route_pair (offer_route (rec_offer rec)) = Pair_Zcash ∧
    zn_reserved_at n < offer_expires_at (rec_offer rec) ∧
    quote_foreign_amount (rec_offer rec) (zn_foreign_units n) = Some (Ok (zn_lez_units n)).
Proof using L.
  intros Hw. assert (Hinv : maker_inv (maker_run sha256 calls)) by by apply maker_run_inv.
  unfold load_zec_maker_negotiation.
  destruct (maker_zec_negotiations _ !! _) as [row|] eqn:Hrow; [|done].
  destruct (inv_zec _ (inv_tables _ Hinv) _ _ Hrow) as (n'&o&rid&Hid&->&Hok&(?&?&?)&Ho).
  rewrite decode_encoded_negotiation by done. intros [= ->].
  assert (oid = offer_id o) as -> by (destruct oid, (offer_id o); cbn in *; congruence).
  eexists. split; [exact (load_offer_at _ _ _ now (inv_tables _ Hinv) Ho)|]. done.
Qed.

(** ** Listings *)

Definition listed_key (rec : MakerOfferRecordV1) : string :=
  MakerOfferId_as_str (offer_id (rec_offer rec)).

Lemma list_offers_exact db pred now :
  tables_inv db →
  ∃ l, list_offers db pred now = Ok l ∧
    StronglySorted (λ a b, String.leb (listed_key a) (listed_key b) = true) l ∧
    NoDup (listed_key <$> l) ∧
    ∀ rec, rec ∈ l ↔ ∃ k row, db.(maker_offers) !! k = Some row ∧ pred row = true ∧
                              decode_offer_tuple k row now = Ok rec.
Proof using L.
  intros Hinv. unfold list_offers.
  set (entries := filter (λ kr : string * OfferRow, pred kr.2 = true)
                    (merge_sort offer_key_le (map_to_list (maker_offers db)))).
  assert (Hin : ∀ kr, kr ∈ entries ↔ db.(maker_offers) !! kr.1 = Some kr.2 ∧ pred kr.2 = true).
  { intros [k row]. unfold entries.
    rewrite list_elem_of_filter, merge_sort_Permutation, elem_of_map_to_list. cbn. tauto. }
  assert (Hdec : ∀ kr, kr ∈ entries →
    ∃ rec, decode_offer_tuple kr.1 kr.2 now = Ok rec ∧ listed_key rec = kr.1).
  { intros [k row] [Hk _]%Hin. cbn in *.
    destruct (inv_offers _ Hinv _ _ Hk) as (o&p&rid&->&?&?&?&->).
    eexists. split; [by apply decode_encoded_offer|done]. }
  destruct (collect_results_Ok (λ kr, decode_offer_tuple kr.1 kr.2 now) entries) as (l&Hl&HF).
  { intros kr (rec&?&_)%Hdec. eauto. }
  assert (HF' : Forall2 (λ kr rec, decode_offer_tuple kr.1 kr.2 now = Ok rec
                                   ∧ listed_key rec = kr.1) entries l).
  { apply Forall2_same_length_lookup_2; [by eapply Forall2_length|]. intros i kr rec Hi Hj.
    assert (Hd : decode_offer_tuple kr.1 kr.2 now = Ok rec)
      by exact (Forall2_lookup_lr _ _ _ _ _ _ HF Hi Hj).
    split; [done|]. destruct (Hdec kr) as (rec'&Hd'&?); [by eapply list_elem_of_lookup_2|].
    congruence. }
  exists l. split; [done|]. split_and!.
  - eapply (Forall2_StronglySorted offer_key_le); [|exact HF'|].
    + intros x x' y y' [_ Hy] [_ Hy'] Hle. rewrite Hy, Hy'. exact Hle.
    + apply StronglySorted_filter, StronglySorted_merge_sort; apply _.
  - assert (Hkeys : listed_key <$> l = entries.*1).
    { clear -HF'. induction HF' as [|kr rec ? ? [_ Hk] _ IH]; cbn; [done|]. by rewrite Hk, IH. }
    rewrite Hkeys. unfold entries.
    apply (sublist_NoDup _ ((merge_sort offer_key_le (map_to_list (maker_offers db))).*1)).
    + rewrite merge_sort_Permutation. apply NoDup_fst_map_to_list.
    + apply fmap_sublist, sublist_filter.
  - intros rec. rewrite list_elem_of_lookup. split.
    + intros [i Hi]. destruct (Forall2_lookup_r _ _ _ _ _ HF Hi) as ([k row]&Hk&Hd).
      apply list_elem_of_lookup_2, Hin in Hk as [? ?]. eauto.
    + intros (k&row&Hk&Hp&Hd). assert (He : (k, row) ∈ entries) by by apply Hin.
      apply list_elem_of_lookup in He as [i Hi].
      destruct (Forall2_lookup_l _ _ _ _ _ HF Hi) as (rec'&Hi'&Hd'). exists i. cbn in Hd'. congruence.
Qed.

Lemma discoverable_inv db now :
  tables_inv db → in_range i64_max now →
  ∃ l, list_discoverable_maker_offers db now = Ok l ∧
    StronglySorted (λ a b, String.leb (listed_key a) (listed_key b) = true) l ∧
    NoDup (listed_key <$> l) ∧
    ∀ rec, rec ∈ l ↔ ∃ oid, load_offer db oid now = Ok (Some rec) ∧
                            rec_status rec = Offer_Active.
Proof using L.
  intros Hinv Hnow. unfold list_discoverable_maker_offers. unfold in_range in Hnow.
  rewrite (proj2 (Z.ltb_ge _ _)) by lia.
  destruct (list_offers_exact db
    (λ row, (row.(offer_state) ==? "active") && (now <? row.(offer_expires))) now Hinv)
    as (l&Hl&Hs&Hd&Hiff).
  exists l. split_and!; try done. intros rec. rewrite Hiff. split.
  - intros (k&row&Hk&Hp&Hdec). bool_props.
    destruct (inv_offers _ Hinv _ _ Hk) as (o&p&rid&->&?&?&?&->). cbn in *.
    rewrite decode_encoded_offer in Hdec by done. injection Hdec as <-.
    exists (offer_id o). destruct p; try done.
    rewrite (load_offer_at _ o P_Active) by (done || by exists rid).
    split; [done|]. cbn. by rewrite (proj2 (Z.leb_gt _ _)).
  - intros (oid&Hload&Hact).
    apply load_offer_Some in Hload as (o&p&<-&[rid Ho]&?&?&?&->); [|done].
    eexists _, _. split; [exact Ho|]. rewrite decode_encoded_offer by done. split; [|done].
    cbn in Hact |- *. destruct p; try done.
    destruct (Z.leb_spec (offer_expires_at o) now); [done|].
    rewrite bool_decide_eq_true_2 by done. cbn. by rewrite (proj2 (Z.ltb_lt _ _)).
Qed.

(** The discoverable offers are exactly the active ones.  On every reachable
    store and at any trusted time the listing succeeds, holds each offer at most
    once in increasing order of its identifier, and holds a record exactly when
    loading that offer at that time gives it as active. *)
Theorem discoverable_offers_exact calls now :
  all_well_typed calls → in_range i64_max now →
  ∃ l, list_discoverable_maker_offers (maker_run sha256 calls) now = Ok l ∧
    StronglySorted (λ a b, String.leb (listed_key a) (listed_key b) = true) l ∧
    NoDup (listed_key <$> l) ∧
    ∀ rec, rec ∈ l ↔ ∃ oid, load_offer (maker_run sha256 calls) oid now = Ok (Some rec) ∧
                            rec_status rec = Offer_Active.
Proof using L. intros Hw Hnow. by apply discoverable_inv, Hnow; apply maker_run_inv. Qed.

Lemma route_columns_ok r :
  route_ok r →
  route_columns_check (pair_name (route_pair r)) (direction_name (route_direction r)) = true.
Proof. destruct r as [[] []]; intros Hr; try (vm_compute; reflexivity). by destruct Hr. Qed.

Lemma offer_check_encoded k o p rid :
  offer_in_range o → offer_ok o → offer_check k (encode_offer o p rid) = true.
Proof.
  intros Hr Ho. pose proof (offer_expires_pos o Hr Ho). pose proof (phase_revision_pos p).
  unfold offer_check, encode_offer. cbn -[Z.ltb Z.eqb str_in route_columns_check].
  rewrite route_columns_ok by apply Ho. rewrite !(proj2 (Z.ltb_lt _ _)) by lia. by destruct p.
Qed.

Lemma insert_fresh_mutation db rid req res :
  db.(maker_application_mutations) !! RequestId_as_str rid = None →
  insert_mutation db rid (encode_mutation req res) = Ok (put_mutation db rid req res).
Proof.
  intros Hn. unfold insert_mutation.
  assert (sql_insert mutation_check (λ k _, k) db.(maker_application_mutations)
            (RequestId_as_str rid) (encode_mutation req res)
          = Some (<[RequestId_as_str rid := encode_mutation req res]>
                  db.(maker_application_mutations))) as ->; [|done].
  apply sql_insert_Some. split_and!; try done; [by destruct req|].
  apply not_true_iff_false. rewrite unique_taken_true. intros (k&row&Hk&->). congruence.
Qed.

(** The effect of reserving an active offer. *)
Lemma reserve_succeeds db rid o r now :
  tables_inv db → offer_at db (offer_id o) o P_Active →
  db.(maker_application_mutations) !! RequestId_as_str rid = None →
  now < offer_expires_at o →
  reserve_maker_offer db rid (offer_id o) 1 r now =
  (put_mutation (put_offer db rid o (P_Reserved r)) rid (ReserveRequest (offer_id o) 1 r now)
     (Revision 2), Ok {| commit_revision := 2; commit_was_replay := false |}).
Proof using L.
  intros Hinv Ho Hn Hnow. destruct (offer_at_ok _ _ _ Hinv Ho) as (Hr&Hok&_).
  pose proof (offer_expires_pos o Hr Hok).
  unfold reserve_maker_offer, transition_offer. cbv zeta.
  rewrite replay_offer_fresh by done. cbn [result_bind].
  rewrite (load_offer_at _ o P_Active) by done. cbn [result_bind ok_or rec_revision rec_offer].
  rewrite (proj2 (Z.ltb_ge i64_max now)), (proj2 (Z.leb_gt _ now)) by lia.
  cbn -[update_offer persist_offer_mutation u64_to_sql Z.leb].
  rewrite (proj2 (Z.leb_gt _ 0)) by lia. rewrite bool_decide_eq_true_2 by done.
  change (checked_add u64_max 1 1) with (Some 2). cbn -[update_offer persist_offer_mutation u64_to_sql].
  rewrite !u64_to_sql_le by (unfold i64_max; lia).
  cbn -[update_offer persist_offer_mutation].
  destruct Ho as [rid0 Ho].
  assert (Hup : update_offer db (MakerOfferId_as_str (offer_id o)) (λ row, offer_revision row =? 1)
    (set_offer "reserved" 2 (Some (RequestId_as_str r)) None rid)
    = Ok (put_offer db rid o (P_Reserved r), 1)).
  { unfold update_offer, sql_update. rewrite Ho.
    cbn -[offer_check]. rewrite (offer_check_encoded _ o (P_Reserved r) rid) by done.
    cbn -[offer_check]. by rewrite lookup_insert_eq. }
  rewrite Hup. cbn -[persist_offer_mutation].
  pose proof (insert_fresh_mutation (put_offer db rid o (P_Reserved r)) rid
    (ReserveRequest (offer_id o) 1 r now) (Revision 2) Hn) as Hm.
  unfold persist_offer_mutation, OFFER_PAYLOAD_VERSION. unfold encode_mutation in Hm at 1.
  cbn [request_operation encode_result] in Hm. by rewrite Hm.
Qed.

(** C32: What is listed can be reserved.  At the time of a listing every listed
    offer can be reserved at its listed revision by any request that has not been
    used, and the store then shows it reserved for exactly that reservation. *)
Theorem discoverable_offer_reservable calls now l rec rid r :
  all_well_typed calls → in_range i64_max now →
  list_discoverable_maker_offers (maker_run sha256 calls) now = Ok l → rec ∈ l →
  (maker_run sha256 calls).(maker_application_mutations) !! RequestId_as_str rid = None →
  safe_identifier (RequestId_as_str r) = true →
  ∃ db', reserve_maker_offer (maker_run sha256 calls) rid (offer_id (rec_offer rec))
           (rec_revision rec) r now
         = (db', Ok {| commit_revision := 2; commit_was_replay := false |}) ∧
    load_offer db' (offer_id (rec_offer rec)) now = Ok (Some {|
      rec_revision := 2; rec_status := Offer_Reserved; rec_offer := rec_offer rec;
      rec_reservation_id := Some r; rec_swap_id := None |}).
Proof using L.
  intros Hw Hnow Hl Hin Hn Hs. assert (Hinv : maker_inv (maker_run sha256 calls)) by by apply maker_run_inv.
  destruct (discoverable_inv _ now (inv_tables _ Hinv) Hnow) as (l'&Hl'&_&_&Hiff).
  rewrite Hl in Hl'. injection Hl' as <-. apply Hiff in Hin as (oid&Hload&Hact).
  apply load_offer_Some in Hload as (o&p&<-&Ho&Hr&Hok&?&->); [|apply Hinv]. cbn in Hact |- *.
  destruct p; try done. destruct (Z.leb_spec (offer_expires_at o) now); [done|].
  eexists. split; [by apply reserve_succeeds; [apply Hinv|..]|].
  assert (Hc : change sha256 (maker_run sha256 calls) rid (ReserveRequest (offer_id o) 1 r now)
    (Revision 2) (put_offer (maker_run sha256 calls) rid o (P_Reserved r)))
    by by apply change_reserve.
  destruct (change_inv sha256 _ _ _ _ _ Hinv Hc Hn) as [Hinv' _].
  rewrite (load_offer_at _ o (P_Reserved r)); [done|apply Hinv'|]. exists rid. cbn.
  by rewrite lookup_insert_eq.
Qed.
End listings.
