(* ===== verification/MakerIntegrity.v ===== *)
(** * The maker's store never finds itself corrupt

    The store checks every row it reads against its columns, its version and the
    rules of its values, and reports corruption or a validation error when they
    disagree.  On a store that only the modelled operations have written every
    row passes these checks, in the loads and in the listings, and no operation
    reports corruption. *)

From stdpp Require Import base gmap strings list numbers sorting.
From S2P Require Import Prelude SwapCore Coordinator BridgeValues MakerMarket MakerMarketFacts SqlTable StoreBase MakerStore MakerConfiguration MakerOffers MakerStoreFacts MakerInvariant MakerCalls MakerTheorems MakerListings.

Open Scope Z_scope.

(** The errors that say that a stored row cannot be what the code wrote, and the
    panic of a division by zero. *)
Definition corruption (e : StoreError) : bool :=
  match e with
  | CorruptMakerOffer | CorruptMakerConfiguration | Serialization
  | UnsupportedPayloadVersion _ _ | Panicked => true
  | _ => false
  end.

Definition clean {A} (r : result A StoreError) : Prop := ∀ e, r = Err e → corruption e = false.

Create HintDb clean.

Lemma clean_Ok {A} (a : A) : clean (Ok a).
Proof. by intros e. Qed.
Lemma clean_Err {A} e : corruption e = false → @clean A (Err e).
Proof. intros ? e' [= <-]. done. Qed.
Lemma clean_bind {A B} (r : result A StoreError) (k : A → result B StoreError) :
  clean r → (∀ a, r = Ok a → clean (k a)) → clean (result_bind r k).
Proof.
  intros Hr Hk. destruct r as [a|e]; cbn; [by apply Hk|].
  intros e' [= <-]. by apply Hr.
Qed.
Lemma clean_if {A} (b : bool) (r s : result A StoreError) :
  (b = true → clean r) → (b = false → clean s) → clean (if b then r else s).
Proof. destruct b; auto. Qed.
Lemma clean_executed {A} (o : option A) : clean (executed o).
Proof. destruct o; [apply clean_Ok|by apply clean_Err]. Qed.
Lemma clean_reject c e : corruption e = false → clean (reject_if c e).
Proof. intros He. destruct c; [by apply clean_Err|apply clean_Ok]. Qed.
Lemma clean_ok_or {A} (o : option A) e : corruption e = false → clean (ok_or o e).
Proof. destruct o; [intros; apply clean_Ok|apply clean_Err]. Qed.
Lemma clean_offer_error {A} (r : result A MakerOfferError) : clean (map_err r MakerOffer).
Proof. destruct r; [apply clean_Ok|by apply clean_Err]. Qed.
Lemma clean_configuration_error {A} (r : result A MakerConfigurationError) :
  clean (map_err r MakerConfiguration).
Proof. destruct r; [apply clean_Ok|by apply clean_Err]. Qed.
Lemma clean_u64_to_sql v : clean (u64_to_sql v).
Proof. unfold u64_to_sql. destruct (_ <? _); [by apply clean_Err|apply clean_Ok]. Qed.
Lemma clean_revision_to_sql v : clean (revision_to_sql v).
Proof. unfold revision_to_sql. destruct (_ <? _); [by apply clean_Err|apply clean_Ok]. Qed.
Lemma clean_offer_expiry now ttl : clean (offer_expiry now ttl).
Proof.
  unfold offer_expiry. destruct (checked_add _ _ _); [|by apply clean_Err].
  destruct (_ <=? _); [apply clean_Ok|by apply clean_Err].
Qed.
Lemma clean_check_expected e a b : clean (check_expected_revisions e a b).
Proof.
  destruct e as [[x y]|]; cbn; [|apply clean_Ok].
  repeat (apply clean_if; intros); try apply clean_Ok; by apply clean_Err.
Qed.

#[export] Hint Resolve clean_Ok clean_executed clean_offer_error clean_configuration_error
  clean_u64_to_sql clean_revision_to_sql clean_offer_expiry clean_check_expected : clean.
#[export] Hint Extern 1 (clean (Err _)) => apply clean_Err; reflexivity : clean.
#[export] Hint Extern 1 (clean (reject_if _ _)) => apply clean_reject; reflexivity : clean.
#[export] Hint Extern 1 (clean (ok_or _ _)) => apply clean_ok_or; reflexivity : clean.

(** Take a computation apart and leave the steps that need the invariant. *)
Ltac clean_step :=
  lazymatch goal with
  | |- clean (result_bind _ _) => apply clean_bind; [|intros ? ?]
  | |- clean (let '(_, _) := ?p in _) => destruct p
  | |- clean (if _ then _ else _) => apply clean_if; intros
  | |- clean (match ?x with Some _ => _ | None => _ end) => destruct x eqn:?
  | |- _ => idtac
  end; try solve [auto with clean].
Ltac clean_steps := repeat (progress clean_step).

Section integrity.
Context {J : MakerJson} {L : MakerJsonLaws J} (sha256 : bytes → bytes).

Lemma insert_mutation_clean db rid row : clean (insert_mutation db rid row).
Proof. unfold insert_mutation. clean_steps. Qed.

Lemma update_offer_clean db k w s : clean (update_offer db k w s).
Proof. unfold update_offer. clean_steps. Qed.

Lemma insert_active_offer_clean db rid route o : clean (insert_active_offer db rid route o).
Proof. unfold insert_active_offer, insert_offer. clean_steps. Qed.

Lemma insert_swap_clean db s : clean (insert_swap db s).
Proof. unfold insert_swap. clean_steps. Qed.

Lemma insert_negotiation_clean db k row : clean (insert_zec_negotiation db k row).
Proof. unfold insert_zec_negotiation. clean_steps. Qed.

Lemma write_pair_clean db rid c v : clean (write_pair db rid c v).
Proof. unfold write_pair, upsert_pair. clean_steps. Qed.

Lemma write_price_clean db rid p v : clean (write_price db rid p v).
Proof. unfold write_price, upsert_price. clean_steps. Qed.

Hint Extern 1 (clean (persist_offer_mutation _ _ _ _ _)) => apply insert_mutation_clean : clean.
Hint Extern 1 (clean (persist_configuration_mutation _ _ _ _ _)) =>
  apply insert_mutation_clean : clean.
Hint Extern 1 (clean (persist_local_route_mutation _ _ _ _ _)) =>
  apply insert_mutation_clean : clean.
Hint Resolve insert_mutation_clean update_offer_clean insert_active_offer_clean
  insert_swap_clean insert_negotiation_clean write_pair_clean write_price_clean : clean.

(** ** Reads of a reachable database *)

Section reads.
Context (db : MakerDb) (Hinv : maker_inv db).

Lemma replay_offer_clean rid req :
  request_safe req → (∀ a b, ¬ result_ok req (Revisions a b)) →
  clean (replay_offer_mutation db rid (request_operation req) (request_to_json req)).
Proof using Hinv L.
  intros Hs Hno.
  destruct (journal_cases db rid req Hinv) as [Hn|[([v|a b]&Hok&Hm)|(req'&res&?&?&Hm)]].
  - rewrite replay_offer_fresh by done. apply clean_Ok.
  - rewrite (replay_offer_same db rid req v) by (by destruct req). apply clean_Ok.
  - by apply Hno in Hok.
  - rewrite (replay_offer_other db rid req req' res) by done. by apply clean_Err.
Qed.

Lemma replay_configuration_clean rid req :
  (∀ a b, ¬ result_ok req (Revisions a b)) →
  clean (replay_configuration_mutation db rid (request_operation req) (request_to_json req)).
Proof using Hinv L.
  intros Hno.
  destruct (journal_cases db rid req Hinv) as [Hn|[([v|a b]&Hok&Hm)|(req'&res&?&?&Hm)]].
  - rewrite replay_configuration_fresh by done. apply clean_Ok.
  - rewrite (replay_configuration_same db rid req v) by (by destruct req). apply clean_Ok.
  - by apply Hno in Hok.
  - rewrite (replay_configuration_other db rid req req' res) by done. by apply clean_Err.
Qed.

Lemma replay_route_clean rid e1 e2 c p :
  clean (replay_local_route_mutation db rid
           (request_to_json (LocalRouteMutationRequest e1 e2 c p))).
Proof using Hinv L.
  destruct (journal_cases db rid (LocalRouteMutationRequest e1 e2 c p) Hinv)
    as [Hn|[([v|a b]&Hok&Hm)|(req'&res&?&?&Hm)]].
  - rewrite replay_route_fresh by done. apply clean_Ok.
  - done.
  - destruct Hok. rewrite (replay_route_same db rid (LocalRouteMutationRequest e1 e2 c p) a b)
      by done. apply clean_Ok.
  - rewrite (replay_route_other db rid (LocalRouteMutationRequest e1 e2 c p) req' res) by done.
    by apply clean_Err.
Qed.

Lemma load_offer_clean oid now : clean (load_offer db oid now).
Proof using Hinv L.
  destruct (load_offer_cases db oid now (inv_tables _ Hinv)) as [->|(?&?&_&_&_&_&_&->)];
    apply clean_Ok.
Qed.

Lemma load_pair_clean route : clean (load_pair db route).
Proof using Hinv L.
  destruct (load_pair_cases db route (inv_tables _ Hinv)) as [->|(?&?&_&_&_&_&_&->)];
    apply clean_Ok.
Qed.

Lemma load_price_clean route : clean (load_price db route).
Proof using Hinv L.
  destruct (load_price_cases db route (inv_tables _ Hinv)) as [->|(?&?&_&_&_&_&_&->)];
    apply clean_Ok.
Qed.

Lemma load_pair_record_clean route : clean (load_pair_record db route).
Proof using Hinv L.
  destruct (load_pair_record_cases db route (inv_tables _ Hinv)) as [->|(?&->&_)]; apply clean_Ok.
Qed.

Lemma next_revision_clean t route e :
  (∀ row, t !! route_key route = Some row → 0 < row.(conf_revision)) →
  clean (next_revision t route e).
Proof using.
  intros Hpos. unfold next_revision. apply clean_bind; [|intros; clean_steps].
  destruct (t !! route_key route) as [row|]; [|apply clean_Ok].
  rewrite revision_from_sql_pos by auto. apply clean_Ok.
Qed.

Lemma next_pair_clean route e : clean (next_revision db.(maker_pair_configurations) route e).
Proof using Hinv.
  apply next_revision_clean. intros row Hrow.
  destruct (inv_pairs _ (inv_tables _ Hinv) _ _ Hrow) as (?&?&?&_&_&_&?&->). cbn. lia.
Qed.

Lemma next_price_clean route e : clean (next_revision db.(maker_local_prices) route e).
Proof using Hinv.
  apply next_revision_clean. intros row Hrow.
  destruct (inv_prices _ (inv_tables _ Hinv) _ _ Hrow) as (?&?&?&_&_&_&?&->). cbn. lia.
Qed.

Lemma update_head_clean route q : clean (update_external_price_head db route q).
Proof using Hinv.
  unfold update_external_price_head. cbv zeta. apply clean_bind; [|intros; clean_steps].
  destruct (_ !! _) as [h|] eqn:Hh; [|apply clean_Ok].
  destruct (inv_heads _ (inv_tables _ Hinv) _ _ Hh) as (?&?&?&?).
  rewrite !sql_to_u64_pos by done. cbn. clean_steps.
Qed.

Lemma load_quote_clean oid now rec units :
  load_offer db oid now = Ok (Some rec) →
  clean (ok_or (quote_foreign_amount (rec_offer rec) units) Panicked).
Proof using Hinv L.
  intros Hl. apply load_offer_Some in Hl as (o&p&_&_&_&Hok&_&->); [|apply Hinv]. cbn.
  destruct Hok as (_&_&_&(_&_&Hf&_)&_). unfold quote_foreign_amount.
  repeat first [apply clean_Ok | case_match]. exfalso. bool_props. lia.
Qed.
End reads.

(** ** Operations *)

Lemma clean_transaction {A} (db : MakerDb) (body : result (MakerDb * A) StoreError) :
  clean body → clean (immediate_transaction db body).2.
Proof. intros Hb. destruct body as [[]|e]; cbn; [apply clean_Ok|]. intros e' [= <-]. by apply Hb. Qed.

Section operations.
Context (db : MakerDb) (Hinv : maker_inv db).

Hint Resolve load_offer_clean load_pair_clean load_price_clean load_pair_record_clean
  next_pair_clean next_price_clean update_head_clean replay_route_clean : clean.

Lemma save_route_clean rid e1 e2 c p : clean (save_local_maker_route db rid e1 e2 c p).2.
Proof using Hinv L. apply clean_transaction. cbv zeta. clean_steps. Qed.

Lemma configure_clean rid e c : clean (configure_maker_pair db rid e c).2.
Proof using Hinv L.
  apply clean_transaction. cbv zeta. clean_steps.
  apply (replay_configuration_clean db Hinv rid (PairMutationRequest e c)). by intros ? ? [].
Qed.

Lemma set_price_clean rid e p : clean (set_local_price db rid e p).2.
Proof using Hinv L.
  apply clean_transaction. cbv zeta. clean_steps.
  apply (replay_configuration_clean db Hinv rid (PriceMutationRequest e p)). by intros ? ? [].
Qed.

Lemma prepare_clean rid o route :
  safe_identifier (MakerOfferId_as_str o) = true →
  clean (prepare_maker_offer_publication db rid o route).2.
Proof using Hinv L.
  intros Hs. apply clean_transaction. cbv zeta. clean_steps.
  apply (replay_offer_clean db Hinv rid (PublishRequest o route)); [done|by intros ? ? []].
Qed.

Lemma publish_local_clean rid o route e now :
  safe_identifier (MakerOfferId_as_str o) = true →
  clean (publish_local_offer_inner db rid o route e now).2.
Proof using Hinv L.
  intros Hs. apply clean_transaction. destruct e as [[a b]|]; cbn [local_publish_request];
    cbv zeta; clean_steps.
  - apply (replay_offer_clean db Hinv rid (GuardedPublishRequest o route a b)); [done|by intros ? ? []].
  - apply (replay_offer_clean db Hinv rid (PublishRequest o route)); [done|by intros ? ? []].
Qed.

Lemma publish_logos_clean rid o route e q now age :
  safe_identifier (MakerOfferId_as_str o) = true →
  clean (publish_logos_offer db rid o route e q now age).2.
Proof using Hinv L.
  intros Hs. apply clean_transaction. cbv zeta. clean_steps.
  apply (replay_offer_clean db Hinv rid (PublishRequest o route)); [done|by intros ? ? []].
Qed.

Lemma transition_clean rid req o e swap f :
  request_safe req → (∀ a b, ¬ result_ok req (Revisions a b)) → (∀ r, clean (f r)) →
  clean (transition_offer db rid (request_operation req) req o e swap f).2.
Proof using Hinv L.
  intros Hs Hno Hf. apply clean_transaction. cbv zeta. clean_steps.
  by apply (replay_offer_clean db Hinv rid req).
Qed.

Lemma reserve_clean rid o e r now : clean (reserve_maker_offer db rid o e r now).2.
Proof using Hinv L.
  apply (transition_clean rid (ReserveRequest o e r now)); [done|by intros ? ? []|].
  intros rec. clean_steps.
Qed.

Lemma consume_clean rid o e r s : clean (consume_maker_offer db rid o e r s).2.
Proof using Hinv L.
  unfold consume_maker_offer. destruct (staged_pair_negotiation db o); [by apply clean_Err|].
  apply (transition_clean rid (ConsumeRequest o e r s)); [done|by intros ? ? []|].
  intros rec. clean_steps.
Qed.

Lemma withdraw_clean rid o e : clean (withdraw_maker_offer db rid o e).2.
Proof using Hinv L.
  apply (transition_clean rid (WithdrawRequest o e)); [done|by intros ? ? []|].
  intros rec. clean_steps.
Qed.

Lemma stage_clean rid o e n : clean (stage_zec_maker_negotiation sha256 db rid o e n).2.
Proof using Hinv L.
  apply clean_transaction. cbv zeta. clean_steps.
  - apply (replay_offer_clean db Hinv rid (stage_zec_request sha256 o e n)); [done|by intros ? ? []].
  - match goal with H : ok_or _ _ = Ok _ |- _ => apply ok_or_Ok in H; subst end.
    by eapply load_quote_clean.
Qed.
End operations.

(** ** Every row is readable *)

(** A load of a row: the value if there is a row, nothing if there is none, and
    in no case an error. *)
Definition reads {A B} (row : option A) (r : result (option B) StoreError) : Prop :=
  match row with Some _ => ∃ v, r = Ok (Some v) | None => r = Ok None end.

(** A listing that returns one value for each of [n] rows. *)
Definition lists {B} (n : nat) (r : result (list B) StoreError) : Prop :=
  ∃ l, r = Ok l ∧ length l = n.

(** Every row of the store is read by every operation that loads or lists it. *)
Record store_readable (db : MakerDb) : Prop := {
  readable_offer offer now :
    reads (db.(maker_offers) !! MakerOfferId_as_str offer) (load_offer db offer now);
  readable_pair route :
    reads (db.(maker_pair_configurations) !! route_key route) (load_pair db route) ∧
    reads (db.(maker_pair_configurations) !! route_key route) (load_pair_record db route);
  readable_price route :
    reads (db.(maker_local_prices) !! route_key route) (load_price db route);
  readable_proposal offer :
    reads (db.(maker_zec_negotiations) !! MakerOfferId_as_str offer)
      (load_zec_maker_negotiation db offer);
  readable_pairs : lists (size db.(maker_pair_configurations)) (list_maker_pairs db);
  readable_prices : lists (size db.(maker_local_prices)) (list_local_prices db);
  readable_history now :
    now ≤ i64_max → lists (size db.(maker_offers)) (list_maker_offer_history db now);
  readable_listings now :
    now ≤ i64_max → is_ok (list_discoverable_maker_offers db now) = true ∧
    is_ok (list_retryable_maker_offers db now) = true
}.

Lemma collect_results_lists {A B} (f : A → result B StoreError) l :
  (∀ x, x ∈ l → ∃ y, f x = Ok y) → lists (length l) (collect_results f l).
Proof.
  intros (ys&Hys&HF)%collect_results_Ok. exists ys. split; [done|]. symmetry.
  by eapply Forall2_length.
Qed.

Lemma sorted_rows_lists {K A B} `{Countable K} (R : K * A → K * A → Prop)
    `{∀ x y, Decision (R x y)} (t : gmap K A) (f : K * A → result B StoreError) :
  (∀ k row, t !! k = Some row → ∃ y, f (k, row) = Ok y) →
  lists (size t) (collect_results f (merge_sort R (map_to_list t))).
Proof.
  intros Hf.
  assert (Hlen : length (merge_sort R (map_to_list t)) = size t)
    by (rewrite merge_sort_Permutation; apply length_map_to_list).
  rewrite <- Hlen. apply collect_results_lists. intros [k row]. rewrite merge_sort_Permutation.
  intros Hk%elem_of_map_to_list. by apply Hf.
Qed.

Lemma decode_price_Ok db k row :
  tables_inv db → db.(maker_local_prices) !! k = Some row →
  ∃ r, decode_price_record k row = Ok r.
Proof using L.
  intros Hinv Hrow. destruct (inv_prices _ Hinv _ _ Hrow) as (p&v&rid&->&Hp&Hr&Hv&->).
  unfold decode_price_record. cbn -[revision_from_sql LocalPriceV1_validate].
  rewrite price_round_trip. cbn -[revision_from_sql LocalPriceV1_validate].
  rewrite (proj2 (LocalPriceV1_validate_Ok p tt Hr) Hp). cbn -[revision_from_sql].
  unfold validate_route_columns. rewrite !bool_decide_eq_true_2 by done. cbn -[revision_from_sql].
  rewrite revision_from_sql_pos by lia. eauto.
Qed.

Lemma decode_pair_Ok db k row :
  tables_inv db → db.(maker_pair_configurations) !! k = Some row →
  ∃ r, decode_pair_record k row = Ok r.
Proof using L.
  intros Hinv Hrow. destruct (inv_pairs _ Hinv _ _ Hrow) as (c&v&rid&->&_).
  destruct (load_pair_record_cases db (cfg_route c) Hinv) as [Hl|(r&Hl&_)];
    unfold load_pair_record in Hl; rewrite Hrow in Hl;
    destruct (decode_pair_record _ _) as [x|]; eauto; done.
Qed.

Lemma filter_every {A} (P : A → Prop) `{∀ x, Decision (P x)} (l : list A) :
  (∀ x, P x) → filter P l = l.
Proof.
  intros HP. induction l as [|x l IH]; [done|]. rewrite filter_cons_True by done. by f_equal.
Qed.

(** A load that has no error and cannot miss a row reads it. *)
Lemma loads_read {A B} (row : option A) (r : result (option B) StoreError) :
  r = Ok None ∨ (∃ v, r = Ok (Some v)) → (row = None → r = Ok None) →
  (r = Ok None → row = None) → reads row r.
Proof. intros Hr Hnone Hsome. destruct row; cbn; [|by apply Hnone]. naive_solver. Qed.

Lemma offers_read db oid now :
  tables_inv db →
  reads (db.(maker_offers) !! MakerOfferId_as_str oid) (load_offer db oid now).
Proof using L.
  intros Hinv. apply loads_read.
  - destruct (load_offer_cases db oid now Hinv) as [->|(?&?&_&_&_&_&_&->)]; eauto.
  - unfold load_offer. by intros ->.
  - unfold load_offer. destruct (_ !! _); [|done]. by destruct (decode_offer_tuple _ _ _).
Qed.

Lemma pairs_read db route :
  tables_inv db →
  reads (db.(maker_pair_configurations) !! route_key route) (load_pair db route) ∧
  reads (db.(maker_pair_configurations) !! route_key route) (load_pair_record db route).
Proof using L.
  intros Hinv. split; apply loads_read.
  - destruct (load_pair_cases db route Hinv) as [->|(?&?&_&_&_&_&_&->)]; eauto.
  - unfold load_pair. by intros ->.
  - unfold load_pair. destruct (_ !! _); [|done]. intros Hl. by inv_ok Hl.
  - destruct (load_pair_record_cases db route Hinv) as [->|(?&->&_)]; eauto.
  - unfold load_pair_record. by intros ->.
  - unfold load_pair_record. destruct (_ !! _); [|done]. by destruct (decode_pair_record _ _).
Qed.

Lemma prices_read db route :
  tables_inv db → reads (db.(maker_local_prices) !! route_key route) (load_price db route).
Proof using L.
  intros Hinv. apply loads_read.
  - destruct (load_price_cases db route Hinv) as [->|(?&?&_&_&_&_&_&->)]; eauto.
  - unfold load_price. by intros ->.
  - unfold load_price. destruct (_ !! _); [|done]. intros Hl. by inv_ok Hl.
Qed.

Lemma proposals_read db oid :
  tables_inv db →
  reads (db.(maker_zec_negotiations) !! MakerOfferId_as_str oid)
    (load_zec_maker_negotiation db oid).
Proof using.
  intros Hinv. unfold load_zec_maker_negotiation.
  destruct (_ !! _) as [row|] eqn:Hrow; [|done].
  destruct (inv_zec _ Hinv _ _ Hrow) as (n&o&rid&_&->&Hok&_). cbn -[decode_zec_negotiation_row].
  rewrite decode_encoded_negotiation by done. by exists n.
Qed.

Lemma tables_readable db : tables_inv db → store_readable db.
Proof using L.
  intros Hinv. split; auto using offers_read, pairs_read, prices_read, proposals_read.
  - apply sorted_rows_lists. intros k row Hk. by eapply decode_pair_Ok.
  - apply sorted_rows_lists. intros k row Hk. by eapply decode_price_Ok.
  - intros now Hnow. unfold list_maker_offer_history. rewrite (proj2 (Z.ltb_ge _ _)) by done.
    unfold list_offers. rewrite filter_every by done. apply sorted_rows_lists.
    intros k row Hk. destruct (inv_offers _ Hinv _ _ Hk) as (o&p&rid&->&?&?&?&->).
    eexists. by apply decode_encoded_offer.
  - intros now Hnow. unfold list_discoverable_maker_offers, list_retryable_maker_offers.
    rewrite !(proj2 (Z.ltb_ge _ _)) by done.
    by split; edestruct list_offers_exact as (l&->&_).
Qed.

(** C31: The maker's store never finds itself corrupt.  On every store that the
    operations have written, each row of offers, pair configurations, local prices
    and Zcash proposals decodes, passes its own validation and agrees with its
    columns: loading it gives its value, loading an absent one gives nothing, and
    the listings return every row (at a time the columns can hold).  And no
    operation on it reports corruption, an unreadable or unsupported row, or
    divides by zero in a quote.  Validation errors, with which an operation also
    refuses its own request, are not counted there; that none of them comes from a
    stored row is the first part. *)
Theorem store_never_corrupt calls :
  all_well_typed calls →
  store_readable (maker_run sha256 calls) ∧
  ∀ c e, well_typed c →
    (maker_call sha256 (maker_run sha256 calls) c).2 = Refused e → corruption e = false.
Proof using L.
  intros Hw. assert (Hinv : maker_inv (maker_run sha256 calls)) by by apply maker_run_inv.
  split; [apply tables_readable, Hinv|]. intros c e Hc.
  assert (Hof : ∀ A (f : result A StoreError → MakerOutcome) (r : MakerDb * result A StoreError),
    clean r.2 → (∀ a, f (Ok a) ≠ Refused e) → (∀ e', f (Err e') = Refused e') →
    (prod_map id f r).2 = Refused e → corruption e = false).
  { intros A f [d [a|e']] Hr Ha He; cbn; intros H; [by apply Ha in H|].
    apply Hr. cbn. rewrite He in H. congruence. }
  destruct c; cbn in Hc |- *; destruct_and?; eapply Hof; try done.
  - by apply save_route_clean.
  - by apply configure_clean.
  - by apply set_price_clean.
  - by apply prepare_clean.
  - by intros [].
  - by apply publish_local_clean.
  - by apply publish_logos_clean.
  - by apply reserve_clean.
  - by apply stage_clean.
  - by apply consume_clean.
  - by apply withdraw_clean.
Qed.
End integrity.
