(* ===== verification/MakerSamples.v ===== *)
(** * A market day

    A concrete serialisation and a run of maker calls on which the hypotheses of
    the theorems on the maker's store hold: a route is configured, offers are
    published, reserved, staged, consumed and withdrawn, results are lost and
    requests retried. *)

From stdpp Require Import base gmap strings list numbers sorting.
From S2P Require Import Prelude SwapCore Coordinator BridgeValues MakerMarket MakerMarketFacts SqlTable StoreBase MakerStore MakerConfiguration MakerOffers MakerStoreFacts MakerInvariant MakerCalls MakerTheorems MakerListings MakerIntegrity.

Open Scope Z_scope.

#[global] Instance SwapCoordinator_eq_dec : EqDecision SwapCoordinator.
Proof. solve_decision. Defined.
#[global] Instance MutationRequest_eq_dec : EqDecision MutationRequest.
Proof. solve_decision. Defined.
#[global] Instance StoredCommitV1_eq_dec : EqDecision StoredCommitV1.
Proof. solve_decision. Defined.
#[global] Instance StoredLocalRouteCommitV1_eq_dec : EqDecision StoredLocalRouteCommitV1.
Proof. solve_decision. Defined.

(** Texts as the values they stand for. *)
Inductive SampleJson :=
| J_configuration (c : MakerPairConfigurationV1)
| J_price (p : LocalPriceV1)
| J_offer (o : MakerOfferV1)
| J_swap (s : SwapCoordinator)
| J_commit (c : StoredCommitV1)
| J_route_commit (c : StoredLocalRouteCommitV1)
| J_request (r : MutationRequest).

#[global] Instance SampleJson_eq_dec : EqDecision SampleJson.
Proof. solve_decision. Defined.

#[global] Instance sample_json : MakerJson := {|
  Json := SampleJson;
  configuration_to_json := J_configuration;
  configuration_from_json j := match j with J_configuration c => Some c | _ => None end;
  price_to_json := J_price;
  price_from_json j := match j with J_price p => Some p | _ => None end;
  offer_to_json := J_offer;
  offer_from_json j := match j with
    | J_offer o => if safe_identifier (MakerOfferId_as_str (offer_id o)) then Some o else None
    | _ => None
    end;
  swap_to_json := J_swap;
  commit_to_json := J_commit;
  commit_from_json j := match j with J_commit c => Some c | _ => None end;
  route_commit_to_json := J_route_commit;
  route_commit_from_json j := match j with J_route_commit c => Some c | _ => None end;
  request_to_json := J_request;
  publish_from_json j := match j with
    | J_request (PublishRequest o r) | J_request (GuardedPublishRequest o r _ _) =>
        if safe_identifier (MakerOfferId_as_str o) then Some (o, r) else None
    | _ => None
    end
|}.

#[global] Instance sample_json_laws : MakerJsonLaws sample_json.
Proof.
  split; cbn; try done.
  - by intros o ->.
  - by intros r s [= ->].
  - by intros o r ->.
Qed.

Definition rq (s : string) : RequestId := {| RequestId_as_str := s |}.
Definition oid (s : string) : MakerOfferId := {| MakerOfferId_as_str := s |}.

Definition sample_swap : SwapCoordinator :=
  {| coord_id := {| SwapId_as_str := "swap-a" |}; coord_pair := Pair_Zcash;
     coord_direction := TakerSellsForeign;
     confirmation_policy := {| policy_required := 3 |};
     maker_confirmation_policy := default_maker_confirmation_policy;
     coord_recovery_schedule :=
       {| schedule_maker_trigger := CanonicalTakerRefund Chain_Lez 1;
          schedule_taker_refund := {| position_chain := Chain_Lez;
            position_basis := Timestamp; position_value := 5000 |};
          schedule_safety := None |};
     coord_phase := Offered; taker_funding_confirmed := false; maker_funding_confirmed := false;
     taker_lock_transaction_id := None; maker_lock_transaction_id := None;
     coord_claim_evidence := None; revealing_claim_transaction_id := None;
     followup_claim_transaction_id := None; taker_refund_event_transaction_id := None;
     maker_recovery_transaction_id := None |}.

Definition disabled_configuration : MakerPairConfigurationV1 :=
  {| cfg_route := sample_route; cfg_enabled := false; cfg_price_source := Price_Local;
     cfg_minimum_foreign_units := 10; cfg_maximum_foreign_units := 1000;
     cfg_offer_ttl_seconds := 600 |}.

Definition btc_route : MakerRouteV1 :=
  {| route_pair := Pair_Bitcoin; route_direction := TakerSellsLez |}.

Definition btc_configuration : MakerPairConfigurationV1 :=
  {| cfg_route := btc_route; cfg_enabled := true; cfg_price_source := Price_LogosCApi;
     cfg_minimum_foreign_units := 1; cfg_maximum_foreign_units := 500;
     cfg_offer_ttl_seconds := 60 |}.

Definition btc_quote (lez revision observed : Z) : LogosQuote :=
  {| quote_price := {| price_route := btc_route; lez_units_per_lot := lez;
                       foreign_units_per_lot := 1 |};
     quote_source_identity := replicate 32 Byte.x07; quote_source_revision := revision;
     quote_observed_at := observed |}.

Definition sample_proposal : MakerZecNegotiationV1 :=
  {| zn_reservation_id := rq "reservation-b"; zn_offer_commitment := replicate 32 Byte.x01;
     zn_maker_chat_identity := replicate 33 Byte.x02;
     zn_taker_chat_identity := replicate 33 Byte.x03; zn_foreign_units := 20;
     zn_lez_units := 28; zn_reserved_at := 310;
     zn_agreement_commitment := replicate 32 Byte.x04;
     zn_maker_proposal_wire := [Byte.x05; Byte.x06]; zn_status := Negotiation_Proposed;
     zn_final_agreement_wire := None; zn_swap_id := None |}.

Definition sample_digest (b : bytes) : bytes := take 32 (b ++ zeros 32).

(** The day: positions 0 to 14. *)
Definition sample_day : list (MakerCall * Fate) := [
  (Call_SaveRoute (rq "request-00") None None sample_configuration sample_price, Delivered);
  (Call_PublishLocal (rq "request-01") (oid "offer-aa") sample_route (Some (1, 1)) 100,
   CommittedUnseen);
  (Call_PublishLocal (rq "request-01") (oid "offer-aa") sample_route (Some (1, 1)) 130,
   Delivered);
  (Call_Reserve (rq "request-02") (oid "offer-aa") 1 (rq "reservation-a") 200, CommittedUnseen);
  (Call_Reserve (rq "request-03") (oid "offer-aa") 1 (rq "reservation-z") 200, Delivered);
  (Call_Consume (rq "request-04") (oid "offer-aa") 2 (rq "reservation-a") sample_swap,
   Delivered);
  (Call_Consume (rq "request-04") (oid "offer-aa") 2 (rq "reservation-a") sample_swap,
   Delivered);
  (Call_PublishLocal (rq "request-05") (oid "offer-bb") sample_route None 300, Delivered);
  (Call_StageZec (rq "request-06") (oid "offer-bb") 1 sample_proposal, Delivered);
  (Call_PublishLocal (rq "request-07") (oid "offer-cc") sample_route None 320, Delivered);
  (Call_ConfigurePair (rq "request-08") (Some 1) disabled_configuration, Delivered);
  (Call_ConfigurePair (rq "request-09") None btc_configuration, Delivered);
  (Call_PublishLogos (rq "request-10") (oid "offer-dd") btc_route 1 (btc_quote 3 7 400) 410 60,
   Delivered);
  (Call_PublishLogos (rq "request-11") (oid "offer-ee") btc_route 1 (btc_quote 4 8 420) 430 60,
   Delivered);
  (Call_Withdraw (rq "request-12") (oid "offer-dd") 1, RolledBack)
].

Lemma sample_day_typed : all_well_typed sample_day.
Proof.
  unfold sample_day. repeat constructor; cbn;
    unfold configuration_in_range, price_in_range, quote_in_range, negotiation_in_range, in_range,
      u64_max, u128_max; cbn; try lia.
Qed.

Abbreviation sample_at := (maker_committed sample_digest sample_day).

Lemma sample_at_3 :
  sample_at 3%nat = Some (Call_Reserve (rq "request-02") (oid "offer-aa") 1 (rq "reservation-a") 200,
                          Committed (Revision 2) false).
Proof. vm_compute. reflexivity. Qed.

Lemma sample_at_5 :
  sample_at 5%nat = Some (Call_Consume (rq "request-04") (oid "offer-aa") 2 (rq "reservation-a")
                            sample_swap, Committed (Revision 3) false).
Proof. vm_compute. reflexivity. Qed.

Lemma sample_at_6 :
  sample_at 6%nat = Some (Call_Consume (rq "request-04") (oid "offer-aa") 2 (rq "reservation-a")
                            sample_swap, Committed (Revision 3) true).
Proof. vm_compute. reflexivity. Qed.

(** The reservation and the consumption of an offer agree on its winner. *)
Lemma offer_has_one_fate_witness :
  ∃ f f', settles (Call_Reserve (rq "request-02") (oid "offer-aa") 1 (rq "reservation-a") 200)
          = Some (oid "offer-aa", f) ∧
    settles (Call_Consume (rq "request-04") (oid "offer-aa") 2 (rq "reservation-a") sample_swap)
    = Some (oid "offer-aa", f') ∧ f = f'.
Proof.
  eexists _, _. split; [reflexivity|]. split; [reflexivity|].
  exact (offer_has_one_fate sample_digest sample_day 3 5 _ _ _ _ _ _ (oid "offer-aa") _ _
    sample_day_typed sample_at_3 sample_at_5 eq_refl eq_refl).
Defined.

Lemma offer_bound_to_one_swap_witness :
  sample_at 5%nat ≠ None ∧ sample_at 6%nat ≠ None ∧
  (oid "offer-aa" = oid "offer-aa" ↔ coord_id sample_swap = coord_id sample_swap).
Proof.
  split; [rewrite sample_at_5; discriminate|]. split; [rewrite sample_at_6; discriminate|].
  exact (offer_bound_to_one_swap sample_digest sample_day 5 6 _ _ _ _ _ _ _ _ _ _ _ _ _ _
    sample_day_typed sample_at_5 sample_at_6).
Defined.

(** Once the offer is consumed, the reservation that won it is still answered,
    and another request under its identifier is refused. *)
Lemma maker_requests_idempotent_witness :
  let db := maker_run sample_digest (take 7 sample_day) in
  (maker_call sample_digest db (Call_Withdraw (rq "request-02") (oid "offer-aa") 3)).1 = db ∧
  ∃ e, (maker_call sample_digest db (Call_Withdraw (rq "request-02") (oid "offer-aa") 3)).2
       = Refused e.
Proof.
  assert (Hw : well_typed (Call_Withdraw (rq "request-02") (oid "offer-aa") 3))
    by (split; [reflexivity|unfold in_range, u64_max; lia]).
  destruct (maker_requests_idempotent sample_digest sample_day 3 7 _
    (Call_Withdraw (rq "request-02") (oid "offer-aa") 3) _ _ sample_day_typed Hw sample_at_3
    ltac:(lia) eq_refl) as (H1&_&H3).
  split; [exact H1|]. apply H3. discriminate.
Defined.

Lemma offer_terms_are_final_witness :
  ∃ rec rec',
    load_offer (maker_run sample_digest (take 4 sample_day)) (oid "offer-aa") 200 = Ok (Some rec) ∧
    load_offer (maker_run sample_digest (take 9 sample_day)) (oid "offer-aa") 900 = Ok (Some rec') ∧
    rec_reservation_id rec' = Some (rq "reservation-a") ∧ rec_offer rec' = rec_offer rec.
Proof.
  destruct (load_offer (maker_run sample_digest (take 4 sample_day)) (oid "offer-aa") 200)
    as [[rec|]|] eqn:Hl; [|vm_compute in Hl; discriminate Hl|vm_compute in Hl; discriminate Hl].
  destruct (offer_terms_are_final sample_digest sample_day 4 9 (oid "offer-aa") 200 900 rec
    sample_day_typed ltac:(lia) Hl) as (rec'&Hl'&Ho&_&Hr&_).
  exists rec, rec'. split; [reflexivity|]. split; [exact Hl'|]. split; [|exact Ho].
  apply Hr. vm_compute in Hl. injection Hl as <-. reflexivity.
Defined.

Lemma sample_at_0 :
  sample_at 0%nat = Some (Call_SaveRoute (rq "request-00") None None sample_configuration
                            sample_price, Committed (Revisions 1 1) false).
Proof. vm_compute. reflexivity. Qed.

Lemma sample_at_10 :
  sample_at 10%nat = Some (Call_ConfigurePair (rq "request-08") (Some 1) disabled_configuration,
                           Committed (Revision 2) false).
Proof. vm_compute. reflexivity. Qed.

Lemma policy_edits_not_lost_witness :
  ∃ v, edits_policy (Call_ConfigurePair (rq "request-08") (Some 1) disabled_configuration)
       = Some (sample_route, Some v) ∧ next None ≤ v.
Proof.
  destruct (policy_edits_not_lost sample_digest sample_day 0 10 _ _ sample_route None (Some 1)
    _ _ sample_day_typed ltac:(lia) sample_at_0 sample_at_10 eq_refl eq_refl) as (v&Hv&Hle).
  exists v. split; [by rewrite <- Hv|exact Hle].
Defined.

Lemma sample_at_12 :
  sample_at 12%nat = Some (Call_PublishLogos (rq "request-10") (oid "offer-dd") btc_route 1
                             (btc_quote 3 7 400) 410 60, Committed (Revision 1) false).
Proof. vm_compute. reflexivity. Qed.

Lemma sample_at_13 :
  sample_at 13%nat = Some (Call_PublishLogos (rq "request-11") (oid "offer-ee") btc_route 1
                             (btc_quote 4 8 420) 430 60, Committed (Revision 1) false).
Proof. vm_compute. reflexivity. Qed.

Lemma external_prices_never_roll_back_witness :
  quote_source_revision (btc_quote 3 7 400) < quote_source_revision (btc_quote 4 8 420).
Proof.
  destruct (external_prices_never_roll_back sample_digest sample_day 12 13 btc_route _ _ _ _ _ _ _
    _ _ _ _ _ _ _ sample_day_typed ltac:(lia) sample_at_12 sample_at_13 eq_refl) as [[H _]|[H _]];
    [exact H|discriminate H].
Defined.

Lemma published_offer_snapshot_witness :
  ∃ db' rec,
    publish_local_offer_inner (maker_run sample_digest (take 1 sample_day)) (rq "request-01")
      (oid "offer-aa") sample_route (Some (1, 1)) 100
    = (db', Ok {| commit_revision := 1; commit_was_replay := false |}) ∧
    load_offer db' (oid "offer-aa") 100 = Ok (Some rec) ∧
    offer_price (rec_offer rec) = sample_price.
Proof.
  destruct (publish_local_offer_inner (maker_run sample_digest (take 1 sample_day))
    (rq "request-01") (oid "offer-aa") sample_route (Some (1, 1)) 100) as [db' out] eqn:Hp.
  assert (Hout : out = Ok {| commit_revision := 1; commit_was_replay := false |}).
  { change out with (db', out).2. rewrite <- Hp. vm_compute. reflexivity. }
  subst out.
  destruct (published_offer_snapshot sample_digest (take 1 sample_day) (rq "request-01")
    (oid "offer-aa") sample_route (Some (1, 1)) 100 db' _
    ltac:(apply Forall_take, sample_day_typed) eq_refl ltac:(unfold in_range, u64_max; lia) Hp eq_refl)
    as (cf&v&p&w&_&Hprice&_&_&_&_&Hl).
  eexists db', _. split; [reflexivity|]. split; [exact Hl|]. cbn.
  vm_compute in Hprice. injection Hprice as <- _. reflexivity.
Defined.

Lemma staged_proposal_matches_offer_witness :
  ∃ n rec, load_zec_maker_negotiation (maker_run sample_digest sample_day) (oid "offer-bb")
           = Ok (Some n) ∧
    load_offer (maker_run sample_digest sample_day) (oid "offer-bb") 400 = Ok (Some rec) ∧
    quote_foreign_amount (rec_offer rec) 20 = Some (Ok 28).
Proof.
  assert (Hn : load_zec_maker_negotiation (maker_run sample_digest sample_day) (oid "offer-bb")
               = Ok (Some sample_proposal)) by (vm_compute; reflexivity).
  destruct (staged_proposal_matches_offer sample_digest sample_day (oid "offer-bb")
    sample_proposal 400 sample_day_typed Hn) as (rec&Hl&_&_&_&_&Hq).
  exists sample_proposal, rec. split; [exact Hn|]. split; [exact Hl|exact Hq].
Defined.

Lemma discoverable_offers_exact_witness :
  ∃ l, list_discoverable_maker_offers (maker_run sample_digest sample_day) 440 = Ok l ∧
    map listed_key l = ["offer-cc"; "offer-dd"; "offer-ee"]%string.
Proof.
  destruct (discoverable_offers_exact sample_digest sample_day 440 sample_day_typed
    ltac:(unfold in_range, i64_max; lia)) as (l&Hl&_).
  exists l. split; [exact Hl|]. vm_compute in Hl. injection Hl as <-. reflexivity.
Defined.

Lemma discoverable_offer_reservable_witness :
  ∃ rec db',
    reserve_maker_offer (maker_run sample_digest sample_day) (rq "request-99")
      (offer_id (rec_offer rec)) (rec_revision rec) (rq "reservation-e") 440
    = (db', Ok {| commit_revision := 2; commit_was_replay := false |}) ∧
    listed_key rec = "offer-cc"%string.
Proof.
  destruct (list_discoverable_maker_offers (maker_run sample_digest sample_day) 440) as [l|]
    eqn:Hl; [|vm_compute in Hl; discriminate Hl].
  destruct l as [|rec l]; [vm_compute in Hl; discriminate Hl|].
  destruct (discoverable_offer_reservable sample_digest sample_day 440 (rec :: l) rec
    (rq "request-99") (rq "reservation-e") sample_day_typed ltac:(unfold in_range, i64_max; lia)
    Hl ltac:(left) ltac:(vm_compute; reflexivity) eq_refl) as (db'&Hr&_).
  exists rec, db'. split; [exact Hr|]. vm_compute in Hl. injection Hl as <- _. reflexivity.
Defined.

(** The losing reservation is refused for a reason that is not corruption, and
    the history of the day's store lists all its offers. *)
Lemma store_never_corrupt_witness :
  (∃ e, (maker_call sample_digest (maker_run sample_digest (take 4 sample_day))
           (Call_Reserve (rq "request-03") (oid "offer-aa") 1 (rq "reservation-z") 200)).2
        = Refused e ∧ corruption e = false) ∧
  ∃ l, list_maker_offer_history (maker_run sample_digest sample_day) 440 = Ok l ∧ length l = 5%nat.
Proof.
  split.
  - assert (He : (maker_call sample_digest (maker_run sample_digest (take 4 sample_day))
      (Call_Reserve (rq "request-03") (oid "offer-aa") 1 (rq "reservation-z") 200)).2
      = Refused (StaleMakerOffer 1 2)) by (vm_compute; reflexivity).
    exists (StaleMakerOffer 1 2). split; [exact He|].
    exact (proj2 (store_never_corrupt sample_digest (take 4 sample_day)
      ltac:(apply Forall_take, sample_day_typed)) _ _
      (Forall_lookup_1 _ _ 4 _ sample_day_typed eq_refl) He).
  - destruct (readable_history _ (proj1 (store_never_corrupt sample_digest sample_day
      sample_day_typed)) 440 ltac:(unfold i64_max; lia)) as (l&Hl&Hlen).
    exists l. split; [exact Hl|]. rewrite Hlen. vm_compute. reflexivity.
Defined.
