(* ===== verification/PublicEffectJournal.v ===== *)
(** * The public-effect journal

    Models [crates/swap-store/src/public_effect_journal.rs]: the durable
    one-attempt authority to submit an exact public transaction.  The table is a
    map from the text columns of the primary key to the remaining columns as
    SQLite stores them; every operation of the source is a function from the
    table to the table its transaction leaves and its result.  SHA-256 is an
    argument.  Storage failures and crashes are steps of the runs of
    [PublicEffectFacts]. *)

From stdpp Require Import base gmap strings list numbers.
From S2P Require Import Prelude SwapCore PublicEffectPlan SqlTable StoreBase.

Open Scope Z_scope.

Definition MAX_EXPECTED_EFFECT_ID_BYTES : Z := 512.
Definition MAX_EXACT_PUBLIC_BYTES : Z := 4 * 1024 * 1024.

(** ** Keys *)

Inductive PublicEffectChain := Effect_Bitcoin | Effect_Lez.

Definition PublicEffectChain_as_str (c : PublicEffectChain) : string :=
  match c with Effect_Bitcoin => "bitcoin" | Effect_Lez => "lez" end.

Inductive PublicEffectOperation := Effect_Funding | Effect_Claim | Effect_Refund.

Definition PublicEffectOperation_as_str (o : PublicEffectOperation) : string :=
  match o with
  | Effect_Funding => "funding"
  | Effect_Claim => "claim"
  | Effect_Refund => "refund"
  end.

Record PublicEffectKey := {
  key_swap_id : SwapId;
  key_local_role : Participant;
  key_chain : PublicEffectChain;
  key_operation : PublicEffectOperation;
  key_predecessor_revision : Z
}.

#[global] Instance PublicEffectChain_eq_dec : EqDecision PublicEffectChain.
Proof. solve_decision. Defined.
#[global] Instance PublicEffectOperation_eq_dec : EqDecision PublicEffectOperation.
Proof. solve_decision. Defined.
#[global] Instance PublicEffectKey_eq_dec : EqDecision PublicEffectKey.
Proof. solve_decision. Defined.

(** ** Prepared effects, states, snapshots *)

Record PreparedPublicEffect := {
  effect_key : PublicEffectKey;
  effect_agreement_commitment : bytes;
  effect_expected_effect_id : string;
  effect_exact_public_bytes : bytes;
  effect_public_bytes_sha256 : bytes
}.

#[global] Instance PreparedPublicEffect_eq_dec : EqDecision PreparedPublicEffect.
Proof. solve_decision. Defined.

Definition PreparedPublicEffect_new (sha256 : bytes → bytes) (key : PublicEffectKey)
    (agreement_commitment : bytes) (expected_effect_id : string)
    (exact_public_bytes : bytes) : result PreparedPublicEffect StoreError :=
  if forallb (λ byte, byte ==? Byte.x00) agreement_commitment
     || (slen expected_effect_id =? 0)
     || (MAX_EXPECTED_EFFECT_ID_BYTES <? slen expected_effect_id)
     || negb (forallb is_ascii_graphic (bytes_of_string expected_effect_id))
     || (blen exact_public_bytes =? 0)
     || (MAX_EXACT_PUBLIC_BYTES <? blen exact_public_bytes)
     || (i64_max <? key.(key_predecessor_revision))
  then Err InvalidPublicEffect
  else Ok {| effect_key := key;
             effect_agreement_commitment := agreement_commitment;
             effect_expected_effect_id := expected_effect_id;
             effect_exact_public_bytes := exact_public_bytes;
             effect_public_bytes_sha256 := sha256 exact_public_bytes |}.

Inductive PublicEffectState :=
| Prepared | Started | Accepted | Rejected | Unknown.

#[global] Instance PublicEffectState_eq_dec : EqDecision PublicEffectState.
Proof. solve_decision. Defined.

Definition PublicEffectState_as_str (s : PublicEffectState) : string :=
  match s with
  | Prepared => "prepared"
  | Started => "started"
  | Accepted => "accepted"
  | Rejected => "rejected"
  | Unknown => "unknown"
  end.

Definition PublicEffectState_parse (value : string) : result PublicEffectState StoreError :=
  if value ==? "prepared" then Ok Prepared
  else if value ==? "started" then Ok Started
  else if value ==? "accepted" then Ok Accepted
  else if value ==? "rejected" then Ok Rejected
  else if value ==? "unknown" then Ok Unknown
  else Err CorruptPublicEffectState.

Record PublicEffectSnapshot := {
  snapshot_effect : PreparedPublicEffect;
  snapshot_state : PublicEffectState;
  snapshot_attempt_count : Z;
  snapshot_revision : Z
}.

#[global] Instance PublicEffectSnapshot_eq_dec : EqDecision PublicEffectSnapshot.
Proof. solve_decision. Defined.

Definition snapshot_with (snapshot : PublicEffectSnapshot) (state : PublicEffectState)
    (attempt_count revision : Z) : PublicEffectSnapshot :=
  {| snapshot_effect := snapshot.(snapshot_effect);
     snapshot_state := state;
     snapshot_attempt_count := attempt_count;
     snapshot_revision := revision |}.

Inductive PublicEffectObservation :=
| PresentExact (exact : bytes)
| ExactIdempotentLezClaimSubmissionSafe (expected_effect_id : string) (exact_public_bytes : bytes)
| EligibleToAttempt
| Absent
| Uncertain
| ConflictingPresence.

Inductive PublicEffectDecision :=
| SubmitOnce (snapshot : PublicEffectSnapshot)
| ObserveOnly (snapshot : PublicEffectSnapshot).

Inductive PublicEffectSubmissionResult :=
| Submission_Accepted (effect_id : string)
| Submission_Rejected
| Submission_Unknown.

Definition PublicEffectSubmissionResult_state (r : PublicEffectSubmissionResult)
    : PublicEffectState :=
  match r with
  | Submission_Accepted _ => Accepted
  | Submission_Rejected => Rejected
  | Submission_Unknown => Unknown
  end.

Record PublicEffectCommit := {
  commit_snapshot : PublicEffectSnapshot;
  was_replay : bool
}.

(** ** The table *)

(** [i64::try_from(revision)] *)
Definition revision_to_sql (revision : Z) : result Z StoreError :=
  if i64_max <? revision then Err InvalidPublicEffect else Ok revision.

(** The primary key columns: swap, role, chain, operation, predecessor. *)
Abbreviation SqlKey := (string * string * string * string * Z)%type.

Definition sql_key (key : PublicEffectKey) : result SqlKey StoreError :=
  let? predecessor := revision_to_sql key.(key_predecessor_revision) in
  Ok (key.(key_swap_id).(SwapId_as_str), participant_name key.(key_local_role),
      PublicEffectChain_as_str key.(key_chain),
      PublicEffectOperation_as_str key.(key_operation), predecessor).

Definition sql_chain (k : SqlKey) : string :=
  let '(_, _, chain, _, _) := k in chain.

Record StoredPublicEffectRow := {
  row_agreement_commitment : bytes;
  row_expected_effect_id : string;
  row_exact_public_bytes : bytes;
  row_public_bytes_sha256 : bytes;
  row_state : string;
  row_attempt_count : Z;
  row_revision : Z
}.

Definition row_with (row : StoredPublicEffectRow) (state : string)
    (attempt_count revision : Z) : StoredPublicEffectRow :=
  {| row_agreement_commitment := row.(row_agreement_commitment);
     row_expected_effect_id := row.(row_expected_effect_id);
     row_exact_public_bytes := row.(row_exact_public_bytes);
     row_public_bytes_sha256 := row.(row_public_bytes_sha256);
     row_state := state;
     row_attempt_count := attempt_count;
     row_revision := revision |}.

Abbreviation journal_table := (gmap SqlKey StoredPublicEffectRow).

(** The [CHECK] constraints of the table, in the order of the schema. *)
Definition journal_check (k : SqlKey) (row : StoredPublicEffectRow) : bool :=
  let '(_, local_role, chain, operation, predecessor_revision) := k in
  let state := row.(row_state) in
  let attempt_count := row.(row_attempt_count) in
  let revision := row.(row_revision) in
  str_in local_role ["maker"; "taker"]
  && str_in chain ["bitcoin"; "lez"]
  && str_in operation ["funding"; "claim"; "refund"]
  && (0 <=? predecessor_revision)
  && (blen row.(row_agreement_commitment) =? 32)
  && (1 <=? slen row.(row_expected_effect_id))
  && (slen row.(row_expected_effect_id) <=? 512)
  && (1 <=? blen row.(row_exact_public_bytes))
  && (blen row.(row_exact_public_bytes) <=? 4194304)
  && (blen row.(row_public_bytes_sha256) =? 32)
  && str_in state ["prepared"; "started"; "accepted"; "rejected"; "unknown"]
  && ((attempt_count =? 0) || (attempt_count =? 1))
  && (0 <=? revision) && (revision <=? 3)
  && (((state ==? "prepared") && (attempt_count =? 0) && (revision =? 0))
      || ((state ==? "started") && (attempt_count =? 1) && (revision =? 1))
      || (str_in state ["rejected"; "unknown"] && (attempt_count =? 1) && (revision =? 2))
      || ((state ==? "accepted")
          && (((attempt_count =? 0) && (revision =? 1))
              || ((attempt_count =? 1) && ((revision =? 2) || (revision =? 3)))))).

(** [UNIQUE (chain, expected_effect_id)] *)
Definition journal_unique (k : SqlKey) (row : StoredPublicEffectRow) : string * string :=
  (sql_chain k, row.(row_expected_effect_id)).

(** An [UPDATE] on the row of a key that must change exactly one row. *)
Definition update_one (t : journal_table) (k : SqlKey)
    (where_ : StoredPublicEffectRow → bool)
    (set : StoredPublicEffectRow → StoredPublicEffectRow) : result journal_table StoreError :=
  match sql_update journal_check t k where_ set with
  | None => Err StoreError_Sqlite
  | Some (t', updated) =>
      if updated =? 1 then Ok t' else Err PublicEffectConflict
  end.

Definition row_is (state : string) (attempt_count revision : Z)
    (row : StoredPublicEffectRow) : bool :=
  (row.(row_state) ==? state) && (row.(row_attempt_count) =? attempt_count)
  && (row.(row_revision) =? revision).

Definition row_set (state : string) (attempt_count revision : Z)
    (row : StoredPublicEffectRow) : StoredPublicEffectRow :=
  row_with row state attempt_count revision.

(** ** Decoding *)

Definition fixed_32 (raw : bytes) : result bytes StoreError :=
  if blen raw =? 32 then Ok raw else Err CorruptPublicEffectState.

Definition validate_transition_shape (state : PublicEffectState)
    (attempt_count revision : Z) : result unit StoreError :=
  let valid :=
    match state with
    | Prepared => (attempt_count =? 0) && (revision =? 0)
    | Started => (attempt_count =? 1) && (revision =? 1)
    | Rejected | Unknown => (attempt_count =? 1) && (revision =? 2)
    | Accepted =>
        ((attempt_count =? 0) && (revision =? 1))
        || ((attempt_count =? 1) && ((revision =? 2) || (revision =? 3)))
    end in
  if valid then Ok tt else Err CorruptPublicEffectState.

(** [u32::try_from] and [u64::try_from] of an SQL integer *)
Definition try_from_sql (max v : Z) : result Z StoreError :=
  if (0 <=? v) && (v <=? max) then Ok v else Err CorruptPublicEffectState.

Section journal.
Variable sha256 : bytes → bytes.

Definition decode_snapshot (key : PublicEffectKey) (row : StoredPublicEffectRow)
    : result PublicEffectSnapshot StoreError :=
  let? agreement_commitment := fixed_32 row.(row_agreement_commitment) in
  let? persisted_digest := fixed_32 row.(row_public_bytes_sha256) in
  let? effect :=
    map_err (PreparedPublicEffect_new sha256 key agreement_commitment
               row.(row_expected_effect_id) row.(row_exact_public_bytes))
      (λ _, CorruptPublicEffectState) in
  if effect.(effect_public_bytes_sha256) !=? persisted_digest
  then Err CorruptPublicEffectState
  else
    let? state := PublicEffectState_parse row.(row_state) in
    let? attempt_count := try_from_sql u32_max row.(row_attempt_count) in
    let? revision := try_from_sql u64_max row.(row_revision) in
    let? _ := validate_transition_shape state attempt_count revision in
    Ok {| snapshot_effect := effect;
          snapshot_state := state;
          snapshot_attempt_count := attempt_count;
          snapshot_revision := revision |}.

Definition load_snapshot (t : journal_table) (key : PublicEffectKey)
    : result (option PublicEffectSnapshot) StoreError :=
  let? k := sql_key key in
  match t !! k with
  | None => Ok None
  | Some row => let? snapshot := decode_snapshot key row in Ok (Some snapshot)
  end.

Definition validate_prepared (effect : PreparedPublicEffect) : result unit StoreError :=
  let? reconstructed :=
    PreparedPublicEffect_new sha256 effect.(effect_key) effect.(effect_agreement_commitment)
      effect.(effect_expected_effect_id) effect.(effect_exact_public_bytes) in
  if reconstructed ==? effect then Ok tt else Err InvalidPublicEffect.

(** ** Row transitions *)

Definition begin_once (t : journal_table) (snapshot : PublicEffectSnapshot)
    : result (journal_table * PublicEffectSnapshot) StoreError :=
  let? k := sql_key snapshot.(snapshot_effect).(effect_key) in
  let? t := update_one t k (row_is "prepared" 0 0) (row_set "started" 1 1) in
  Ok (t, snapshot_with snapshot Started 1 1).

Definition burn_authority_without_send (t : journal_table) (snapshot : PublicEffectSnapshot)
    : result (journal_table * PublicEffectSnapshot) StoreError :=
  let? k := sql_key snapshot.(snapshot_effect).(effect_key) in
  let? t := update_one t k (row_is "prepared" 0 0) (row_set "unknown" 1 2) in
  Ok (t, snapshot_with snapshot Unknown 1 2).

Definition advance_to_accepted (t : journal_table) (snapshot : PublicEffectSnapshot)
    : result (journal_table * PublicEffectSnapshot) StoreError :=
  let? next_revision :=
    ok_or (checked_add u64_max snapshot.(snapshot_revision) 1) CorruptPublicEffectState in
  let? k := sql_key snapshot.(snapshot_effect).(effect_key) in
  let? next_sql := revision_to_sql next_revision in
  let? current_sql := revision_to_sql snapshot.(snapshot_revision) in
  let? t :=
    update_one t k
      (row_is (PublicEffectState_as_str snapshot.(snapshot_state))
         snapshot.(snapshot_attempt_count) current_sql)
      (λ row, row_with row "accepted" row.(row_attempt_count) next_sql) in
  Ok (t, snapshot_with snapshot Accepted snapshot.(snapshot_attempt_count) next_revision).

(** ** Operations *)

Definition insert_prepared (t : journal_table) (effect : PreparedPublicEffect)
    : result (journal_table * PublicEffectCommit) StoreError :=
  if unique_taken journal_unique t
       (PublicEffectChain_as_str effect.(effect_key).(key_chain), effect.(effect_expected_effect_id))
  then Err PublicEffectConflict
  else
    let? k := sql_key effect.(effect_key) in
    let row :=
      {| row_agreement_commitment := effect.(effect_agreement_commitment);
         row_expected_effect_id := effect.(effect_expected_effect_id);
         row_exact_public_bytes := effect.(effect_exact_public_bytes);
         row_public_bytes_sha256 := effect.(effect_public_bytes_sha256);
         row_state := "prepared";
         row_attempt_count := 0;
         row_revision := 0 |} in
    let? t := ok_or (sql_insert journal_check journal_unique t k row) StoreError_Sqlite in
    let? loaded := load_snapshot t effect.(effect_key) in
    let? inserted := ok_or loaded CorruptPublicEffectState in
    if (inserted.(snapshot_effect) !=? effect)
       || (inserted.(snapshot_state) !=? Prepared)
       || negb (inserted.(snapshot_attempt_count) =? 0)
       || negb (inserted.(snapshot_revision) =? 0)
    then Err CorruptPublicEffectState
    else Ok (t, {| commit_snapshot := inserted; was_replay := false |}).

Definition record_prepared (t : journal_table) (effect : PreparedPublicEffect)
    : journal_table * result PublicEffectCommit StoreError :=
  immediate_transaction t (
    let? _ := validate_prepared effect in
    let? existing := load_snapshot t effect.(effect_key) in
    match existing with
    | Some existing =>
        if existing.(snapshot_effect) !=? effect then Err PublicEffectConflict
        else Ok (t, {| commit_snapshot := existing; was_replay := true |})
    | None => insert_prepared t effect
    end).

(** The send authority of one fresh row: [Prepared] begins, anything else only
    observes. *)
Definition begin_if_prepared (t : journal_table) (snapshot : PublicEffectSnapshot)
    : result (journal_table * PublicEffectSnapshot * bool) StoreError :=
  if snapshot.(snapshot_state) ==? Prepared then
    let? r := begin_once t snapshot in
    Ok (r.1, r.2, true)
  else Ok (t, snapshot, false).

(** The observation match of [reconcile]. *)
Definition reconcile_observation (t : journal_table) (key : PublicEffectKey)
    (snapshot : PublicEffectSnapshot) (observation : PublicEffectObservation)
    : result (journal_table * PublicEffectSnapshot * bool) StoreError :=
  match observation with
  | PresentExact observed =>
      if observed !=? snapshot.(snapshot_effect).(effect_exact_public_bytes)
      then Err PublicEffectConflict
      else
        match snapshot.(snapshot_state) with
        | Prepared | Started | Unknown =>
            let? r := advance_to_accepted t snapshot in
            Ok (r.1, r.2, false)
        | Accepted => Ok (t, snapshot, false)
        | Rejected => Err PublicEffectConflict
        end
  | ExactIdempotentLezClaimSubmissionSafe expected_effect_id exact_public_bytes =>
      if (key.(key_chain) !=? Effect_Lez) || (key.(key_operation) !=? Effect_Claim)
      then Err InvalidPublicEffect
      else if (expected_effect_id !=? snapshot.(snapshot_effect).(effect_expected_effect_id))
              || (exact_public_bytes !=? snapshot.(snapshot_effect).(effect_exact_public_bytes))
      then Err PublicEffectConflict
      else begin_if_prepared t snapshot
  | EligibleToAttempt =>
      if key.(key_operation) !=? Effect_Refund then Err InvalidPublicEffect
      else begin_if_prepared t snapshot
  | Absent =>
      if key.(key_operation) ==? Effect_Refund then Err InvalidPublicEffect
      else begin_if_prepared t snapshot
  | Uncertain => Ok (t, snapshot, false)
  | ConflictingPresence =>
      match snapshot.(snapshot_state) with
      | Prepared =>
          let? r := burn_authority_without_send t snapshot in
          Ok (r.1, r.2, false)
      | Started | Unknown => Ok (t, snapshot, false)
      | Accepted | Rejected => Err PublicEffectConflict
      end
  end.

(** The row read back before the commit must be the snapshot returned. *)
Definition check_postcondition (t : journal_table) (key : PublicEffectKey)
    (snapshot : PublicEffectSnapshot) : result unit StoreError :=
  let? loaded := load_snapshot t key in
  let? postcondition := ok_or loaded CorruptPublicEffectState in
  if postcondition !=? snapshot then Err CorruptPublicEffectState else Ok tt.

Definition reconcile (t : journal_table) (key : PublicEffectKey)
    (observation : PublicEffectObservation)
    : journal_table * result PublicEffectDecision StoreError :=
  immediate_transaction t (
    let? loaded := load_snapshot t key in
    let? snapshot := ok_or loaded MissingPublicEffect in
    let? r := reconcile_observation t key snapshot observation in
    let '(t', snapshot, submit_once) := r in
    let? _ := check_postcondition t' key snapshot in
    Ok (t', if submit_once : bool then SubmitOnce snapshot else ObserveOnly snapshot)).

Definition record_submission_result (t : journal_table) (key : PublicEffectKey)
    (submission : PublicEffectSubmissionResult)
    : journal_table * result PublicEffectCommit StoreError :=
  immediate_transaction t (
    let? loaded := load_snapshot t key in
    let? snapshot := ok_or loaded MissingPublicEffect in
    let? _ :=
      match submission with
      | Submission_Accepted effect_id =>
          reject_if (effect_id !=? snapshot.(snapshot_effect).(effect_expected_effect_id))
            PublicEffectConflict
      | _ => Ok tt
      end in
    let target := PublicEffectSubmissionResult_state submission in
    let? r :=
      if snapshot.(snapshot_state) ==? Started then
        let? k := sql_key key in
        let? t' := update_one t k (row_is "started" 1 1)
                     (λ row, row_with row (PublicEffectState_as_str target)
                               row.(row_attempt_count) 2) in
        Ok (t', snapshot_with snapshot target snapshot.(snapshot_attempt_count) 2, false)
      else if (snapshot.(snapshot_state) ==? target)
              && (snapshot.(snapshot_attempt_count) =? 1)
              && (snapshot.(snapshot_revision) =? 2)
      then Ok (t, snapshot, true)
      else Err PublicEffectConflict in
    let '(t', snapshot, was_replay) := r in
    let? _ := check_postcondition t' key snapshot in
    Ok (t', {| commit_snapshot := snapshot; was_replay := was_replay |})).

Definition current (t : journal_table) (key : PublicEffectKey)
    : result (option PublicEffectSnapshot) StoreError :=
  load_snapshot t key.

End journal.
