(* ===== verification/PublicEffectFacts.v ===== *)
(** * Correctness of the public-effect journal

    Runs of the journal of [PublicEffectJournal] interleave its operations in
    any order, each delivered, lost with its transaction rolled back, or lost
    after its transaction committed (a crash or a storage failure on either side
    of the commit).  The theorems: no run sends twice under one key, rows only
    move forward, a send is authorised exactly when the observation allows it,
    and the SQL statements implement the table-free decision function
    [decide_next]. *)

From stdpp Require Import base gmap strings list numbers relations.
From S2P Require Import Prelude SwapCore PublicEffectPlan SqlTable StoreBase PublicEffectJournal.

Open Scope Z_scope.

(** ** Rows and snapshots *)

(** The row a snapshot is stored as. *)
Definition encode_snapshot (s : PublicEffectSnapshot) : StoredPublicEffectRow :=
  {| row_agreement_commitment := s.(snapshot_effect).(effect_agreement_commitment);
     row_expected_effect_id := s.(snapshot_effect).(effect_expected_effect_id);
     row_exact_public_bytes := s.(snapshot_effect).(effect_exact_public_bytes);
     row_public_bytes_sha256 := s.(snapshot_effect).(effect_public_bytes_sha256);
     row_state := PublicEffectState_as_str s.(snapshot_state);
     row_attempt_count := s.(snapshot_attempt_count);
     row_revision := s.(snapshot_revision) |}.

(** The shapes (state, attempts, revision) a row can have. *)
Definition shape_ok (state : PublicEffectState) (attempt_count revision : Z) : Prop :=
  match state with
  | Prepared => attempt_count = 0 ∧ revision = 0
  | Started => attempt_count = 1 ∧ revision = 1
  | Rejected | Unknown => attempt_count = 1 ∧ revision = 2
  | Accepted => (attempt_count = 0 ∧ revision = 1) ∨
                (attempt_count = 1 ∧ (revision = 2 ∨ revision = 3))
  end.

Definition effect_valid (sha256 : bytes → bytes) (e : PreparedPublicEffect) : Prop :=
  blen e.(effect_agreement_commitment) = 32 ∧ blen e.(effect_public_bytes_sha256) = 32 ∧
  PreparedPublicEffect_new sha256 e.(effect_key) e.(effect_agreement_commitment)
    e.(effect_expected_effect_id) e.(effect_exact_public_bytes) = Ok e.

Definition snapshot_valid (sha256 : bytes → bytes) (s : PublicEffectSnapshot) : Prop :=
  effect_valid sha256 s.(snapshot_effect) ∧
  shape_ok s.(snapshot_state) s.(snapshot_attempt_count) s.(snapshot_revision).

Lemma sql_key_inj key key' k : sql_key key = Ok k → sql_key key' = Ok k → key = key'.
Proof.
  unfold sql_key, revision_to_sql.
  destruct (i64_max <? key_predecessor_revision key), (i64_max <? key_predecessor_revision key'); try done.
  destruct key as [[i] r c o p], key' as [[i'] r' c' o' p']; cbn.
  intros [= <-] [= -> Hr Hc Ho ->].
  destruct r, r'; try done; destruct c, c'; try done; destruct o, o'; done.
Qed.

Lemma parse_Ok v s : PublicEffectState_parse v = Ok s ↔ v = PublicEffectState_as_str s.
Proof.
  unfold PublicEffectState_parse. split.
  - repeat (case_bool_decide; [by intros [= <-]|]). done.
  - intros ->. by destruct s.
Qed.

Lemma transition_shape_Ok state a r u :
  validate_transition_shape state a r = Ok u ↔ shape_ok state a r.
Proof.
  destruct u. unfold validate_transition_shape, shape_ok.
  destruct state; repeat match goal with |- context [?x =? ?y] => destruct (Z.eqb_spec x y) end;
    cbn; split; (done || naive_solver lia || (intros; exfalso; lia)).
Qed.

Lemma prepared_new_Ok sha256 key a i x e :
  PreparedPublicEffect_new sha256 key a i x = Ok e →
  e.(effect_key) = key ∧ e.(effect_agreement_commitment) = a ∧
  e.(effect_expected_effect_id) = i ∧ e.(effect_exact_public_bytes) = x ∧
  e.(effect_public_bytes_sha256) = sha256 x ∧
  1 ≤ slen i ≤ 512 ∧ 1 ≤ blen x ≤ 4194304 ∧ key.(key_predecessor_revision) ≤ i64_max.
Proof.
  unfold PreparedPublicEffect_new.
  destruct (_ || _) eqn:E; [done|]. intros [= <-]. bool_props.
  unfold MAX_EXPECTED_EFFECT_ID_BYTES, MAX_EXACT_PUBLIC_BYTES in *.
  pose proof (blen_nonneg x). assert (0 ≤ slen i) by (unfold slen; lia).
  cbn. split_and!; try done; lia.
Qed.

Lemma try_from_sql_Ok max v w : try_from_sql max v = Ok w ↔ w = v ∧ 0 ≤ v ≤ max.
Proof.
  unfold try_from_sql. destruct (Z.leb_spec 0 v), (Z.leb_spec v max); cbn;
    (split; [try done; try (intros [= <-]; lia)|intros [-> ?]; try done; lia]).
Qed.

Lemma fixed_32_Ok b c : fixed_32 b = Ok c ↔ c = b ∧ blen b = 32.
Proof. unfold fixed_32. destruct (Z.eqb_spec (blen b) 32); naive_solver. Qed.

(** Decoding a row succeeds exactly on the encodings of valid snapshots. *)
Lemma decode_Ok sha256 key row s :
  decode_snapshot sha256 key row = Ok s ↔
  row = encode_snapshot s ∧ s.(snapshot_effect).(effect_key) = key ∧ snapshot_valid sha256 s.
Proof.
  unfold decode_snapshot. split.
  - intros H. apply result_bind_Ok in H as (a&[-> Ha]%fixed_32_Ok&H).
    apply result_bind_Ok in H as (d&[-> Hd]%fixed_32_Ok&H).
    apply result_bind_Ok in H as (e&He&H).
    destruct (PreparedPublicEffect_new _ _ _ _ _) as [e'|] eqn:En; [|done].
    cbn in He. injection He as ->.
    destruct (_ !=? _) eqn:Edig; [done|]. bool_props.
    apply result_bind_Ok in H as (st&Hst&H). apply parse_Ok in Hst.
    apply result_bind_Ok in H as (at_&[-> Hat]%try_from_sql_Ok&H).
    apply result_bind_Ok in H as (rv&[-> Hrv]%try_from_sql_Ok&H).
    apply result_bind_Ok in H as (u&Hs%transition_shape_Ok&[= <-]).
    pose proof (prepared_new_Ok _ _ _ _ _ _ En) as (Hk&Hag&Hid&Hx&Hsha&_).
    cbn. split_and!; [|done|].
    + unfold encode_snapshot; cbn. destruct row; cbn in *. congruence.
    + split; [|done]. cbn. split_and!; [congruence..|]. by rewrite Hk, Hag, Hid, Hx.
  - intros (->&<-&(Ha&Hd&Hn)&Hs). cbn.
    assert (Hsh := Hs).
    unfold fixed_32. rewrite (proj2 (Z.eqb_eq _ _) Ha), (proj2 (Z.eqb_eq _ _) Hd). cbn.
    rewrite Hn. cbn.
    rewrite bool_decide_eq_true_2 by done. cbn.
    rewrite (proj2 (parse_Ok _ (snapshot_state s)) eq_refl). cbn.
    rewrite (proj2 (try_from_sql_Ok u32_max _ (snapshot_attempt_count s))); [cbn|
      split; [reflexivity|unfold u32_max; destruct s as [? [] ? ?]; cbn in *; lia]].
    rewrite (proj2 (try_from_sql_Ok u64_max _ (snapshot_revision s))); [cbn|
      split; [reflexivity|unfold u64_max; destruct s as [? [] ? ?]; cbn in *; lia]].
    rewrite (proj2 (transition_shape_Ok _ _ _ tt) Hs). cbn. by destruct s.
Qed.

(** ** The invariant of the table *)

Definition journal_inv (sha256 : bytes → bytes) (t : journal_table) : Prop :=
  table_ok journal_check journal_unique t ∧
  ∀ k row, t !! k = Some row →
    ∃ s, row = encode_snapshot s ∧ sql_key s.(snapshot_effect).(effect_key) = Ok k ∧
         snapshot_valid sha256 s.

Lemma journal_inv_empty sha256 : journal_inv sha256 ∅.
Proof. split; [apply table_ok_empty|]. intros k row H. by rewrite lookup_empty in H. Qed.

Lemma load_Some sha256 t key s :
  load_snapshot sha256 t key = Ok (Some s) ↔
  ∃ k, sql_key key = Ok k ∧ t !! k = Some (encode_snapshot s) ∧
       s.(snapshot_effect).(effect_key) = key ∧ snapshot_valid sha256 s.
Proof.
  unfold load_snapshot. rewrite result_bind_Ok. split.
  - intros (k&Hk&H). destruct (t !! k) as [row|] eqn:Hr; [|done].
    apply result_bind_Ok in H as (s'&(->&?&?)%decode_Ok&[= <-]). eauto 6.
  - intros (k&Hk&Hr&Heq&Hv). exists k. split; [done|]. rewrite Hr.
    rewrite (proj2 (decode_Ok sha256 key _ s)); done.
Qed.

Lemma load_None sha256 t key :
  load_snapshot sha256 t key = Ok None ↔ ∃ k, sql_key key = Ok k ∧ t !! k = None.
Proof.
  unfold load_snapshot. rewrite result_bind_Ok. split.
  - intros (k&Hk&H). destruct (t !! k) eqn:Hr; [|eauto].
    by apply result_bind_Ok in H as (?&_&[=]).
  - intros (k&Hk&Hr). exists k. by rewrite Hr.
Qed.

(** On a table with the invariant a row always decodes: a lookup finds a valid
    snapshot, finds nothing, or the key's revision does not fit an SQL integer. *)
Lemma load_cases sha256 t key :
  journal_inv sha256 t →
  (∃ s, load_snapshot sha256 t key = Ok (Some s)) ∨
  load_snapshot sha256 t key = Ok None ∨
  (load_snapshot sha256 t key = Err InvalidPublicEffect ∧ i64_max < key.(key_predecessor_revision)).
Proof.
  intros [_ Hrows]. destruct (sql_key key) as [k|e] eqn:Hk.
  - destruct (t !! k) as [row|] eqn:Hr.
    + left. destruct (Hrows _ _ Hr) as (s&->&Hs&Hv). exists s. apply load_Some.
      exists k. split_and!; [done..| |done]. by eapply sql_key_inj.
    + right; left. apply load_None. eauto.
  - right; right. unfold load_snapshot. rewrite Hk. cbn.
    unfold sql_key, revision_to_sql in Hk.
    destruct (Z.ltb_spec i64_max (key_predecessor_revision key)); [|done].
    by injection Hk as <-.
Qed.

(** ** Writing a row *)

Lemma check_encode sha256 s k :
  snapshot_valid sha256 s → sql_key s.(snapshot_effect).(effect_key) = Ok k →
  journal_check k (encode_snapshot s) =
    (0 <=? s.(snapshot_effect).(effect_key).(key_predecessor_revision)).
Proof.
  intros ((Ha&Hd&Hn)&Hs) Hk.
  pose proof (prepared_new_Ok _ _ _ _ _ _ Hn) as (_&_&_&_&_&Hi&Hx&Hp).
  unfold sql_key, revision_to_sql in Hk.
  rewrite (proj2 (Z.ltb_ge _ _) Hp) in Hk. injection Hk as <-.
  unfold journal_check, encode_snapshot; cbn [row_agreement_commitment row_expected_effect_id
    row_exact_public_bytes row_public_bytes_sha256 row_state row_attempt_count row_revision].
  rewrite Ha, Hd.
  rewrite (proj2 (Z.leb_le 1 _)), (proj2 (Z.leb_le _ 512)), (proj2 (Z.leb_le 1 (blen _))),
    (proj2 (Z.leb_le _ 4194304)) by lia.
  assert (Hl : ∀ r, str_in (participant_name r) ["maker"; "taker"] = true) by (by intros []).
  assert (Hc : ∀ c, str_in (PublicEffectChain_as_str c) ["bitcoin"; "lez"] = true) by (by intros []).
  assert (Ho : ∀ o, str_in (PublicEffectOperation_as_str o) ["funding"; "claim"; "refund"] = true)
    by (by intros []).
  rewrite Hl, Hc, Ho. destruct (0 <=? _); [|done].
  destruct s as [e st a rv]; cbn in Hs |- *. destruct st; cbn in Hs; naive_solver.
Qed.

Lemma inv_write sha256 t k s s' :
  journal_inv sha256 t → t !! k = Some (encode_snapshot s) →
  sql_key s.(snapshot_effect).(effect_key) = Ok k →
  snapshot_valid sha256 s → snapshot_valid sha256 s' →
  s'.(snapshot_effect) = s.(snapshot_effect) →
  journal_check k (encode_snapshot s') = true ∧ journal_inv sha256 (<[k := encode_snapshot s']> t).
Proof.
  intros [Hok Hrows] Hk Hkey Hv Hv' Heff.
  assert (Hc' : journal_check k (encode_snapshot s') = true).
  { rewrite (check_encode sha256 s') by (done || by rewrite Heff). rewrite Heff.
    rewrite <- (check_encode sha256 s k) by done. by apply (proj1 Hok). }
  split; [done|]. split.
  - eapply table_ok_replace; [done..|].
    unfold journal_unique, encode_snapshot; cbn. by rewrite Heff.
  - intros j row [[<- <-]|[? Hj]]%lookup_insert_Some; [|by eauto].
    exists s'. split_and!; [done| |done]. by rewrite Heff.
Qed.

Lemma update_one_encode sha256 t k s s' where_ set :
  journal_inv sha256 t → t !! k = Some (encode_snapshot s) →
  sql_key s.(snapshot_effect).(effect_key) = Ok k →
  snapshot_valid sha256 s → snapshot_valid sha256 s' →
  s'.(snapshot_effect) = s.(snapshot_effect) →
  where_ (encode_snapshot s) = true → set (encode_snapshot s) = encode_snapshot s' →
  update_one t k where_ set = Ok (<[k := encode_snapshot s']> t).
Proof.
  intros Hinv Hk Hkey Hv Hv' Heff Hw Hset. unfold update_one, sql_update.
  rewrite Hk, Hw, Hset. by rewrite (proj1 (inv_write _ _ _ _ _ Hinv Hk Hkey Hv Hv' Heff)).
Qed.

(** ** The decisions, without the table *)

(** What [reconcile] decides from a snapshot: the next snapshot and whether the
    caller may send. *)
Definition decide_next (key : PublicEffectKey) (s : PublicEffectSnapshot)
    (observation : PublicEffectObservation)
    : result (PublicEffectSnapshot * bool) StoreError :=
  let send := if s.(snapshot_state) ==? Prepared
              then Ok (snapshot_with s Started 1 1, true) else Ok (s, false) in
  match observation with
  | PresentExact observed =>
      if bool_decide (observed = s.(snapshot_effect).(effect_exact_public_bytes))
         && (s.(snapshot_state) !=? Rejected)
      then Ok (if s.(snapshot_state) ==? Accepted then s
               else snapshot_with s Accepted s.(snapshot_attempt_count) (s.(snapshot_revision) + 1),
               false)
      else Err PublicEffectConflict
  | ExactIdempotentLezClaimSubmissionSafe i b =>
      if negb ((key.(key_chain) ==? Effect_Lez) && (key.(key_operation) ==? Effect_Claim))
      then Err InvalidPublicEffect
      else if (i ==? s.(snapshot_effect).(effect_expected_effect_id))
              && (b ==? s.(snapshot_effect).(effect_exact_public_bytes))
      then send else Err PublicEffectConflict
  | EligibleToAttempt =>
      if key.(key_operation) ==? Effect_Refund then send else Err InvalidPublicEffect
  | Absent =>
      if key.(key_operation) ==? Effect_Refund then Err InvalidPublicEffect else send
  | Uncertain => Ok (s, false)
  | ConflictingPresence =>
      match s.(snapshot_state) with
      | Prepared => Ok (snapshot_with s Unknown 1 2, false)
      | Started | Unknown => Ok (s, false)
      | Accepted | Rejected => Err PublicEffectConflict
      end
  end.

(** What [record_submission_result] decides: the next snapshot and whether it
    was a replay. *)
Definition decide_result (s : PublicEffectSnapshot) (submission : PublicEffectSubmissionResult)
    : result (PublicEffectSnapshot * bool) StoreError :=
  let target := PublicEffectSubmissionResult_state submission in
  let id_ok := match submission with
               | Submission_Accepted i => i ==? s.(snapshot_effect).(effect_expected_effect_id)
               | _ => true
               end in
  if negb id_ok then Err PublicEffectConflict
  else if s.(snapshot_state) ==? Started then Ok (snapshot_with s target 1 2, false)
  else if (s.(snapshot_state) ==? target) && (s.(snapshot_revision) =? 2) then Ok (s, true)
  else Err PublicEffectConflict.

(** The moves of a row. *)
Inductive effect_edge : PublicEffectSnapshot → PublicEffectSnapshot → Prop :=
| edge_begin s :
    s.(snapshot_state) = Prepared → effect_edge s (snapshot_with s Started 1 1)
| edge_burn s :
    s.(snapshot_state) = Prepared → effect_edge s (snapshot_with s Unknown 1 2)
| edge_observed s :
    s.(snapshot_state) ∈ [Prepared; Started; Unknown] →
    effect_edge s (snapshot_with s Accepted s.(snapshot_attempt_count) (s.(snapshot_revision) + 1))
| edge_result s target :
    s.(snapshot_state) = Started → target ∈ [Accepted; Rejected; Unknown] →
    effect_edge s (snapshot_with s target 1 2).

Lemma effect_edge_valid sha256 s s' :
  snapshot_valid sha256 s → effect_edge s s' →
  snapshot_valid sha256 s' ∧ s'.(snapshot_effect) = s.(snapshot_effect).
Proof.
  intros [He Hs] Hedge. split; [split; [by destruct Hedge|]|by destruct Hedge].
  destruct Hedge as [s Hst|s Hst|s Hst|s target Hst Ht]; cbn; try done.
  - set_unfold in Hst. destruct s as [e st a r]; cbn in *.
    destruct Hst as [->|[->|[->|[]]]]; cbn in Hs; lia.
  - set_unfold in Ht. destruct Ht as [->|[->|[->|[]]]]; cbn; lia.
Qed.

(** ** The statements implement the decisions *)

#[local] Arguments begin_once : simpl never.
#[local] Arguments burn_authority_without_send : simpl never.
#[local] Arguments advance_to_accepted : simpl never.
#[local] Arguments update_one : simpl never.
#[local] Arguments load_snapshot : simpl never.
#[local] Arguments check_postcondition : simpl never.

Section loaded.
Context (sha256 : bytes → bytes) (t : journal_table) (key : PublicEffectKey)
        (k : SqlKey) (s : PublicEffectSnapshot).
Hypothesis Hinv : journal_inv sha256 t.
Hypothesis Hsql : sql_key key = Ok k.
Hypothesis Hrow : t !! k = Some (encode_snapshot s).
Hypothesis Hkey : s.(snapshot_effect).(effect_key) = key.
Hypothesis Hv : snapshot_valid sha256 s.

Lemma write_edge s' :
  effect_edge s s' → ∀ where_ set,
  where_ (encode_snapshot s) = true → set (encode_snapshot s) = encode_snapshot s' →
  update_one t k where_ set = Ok (<[k := encode_snapshot s']> t).
Proof.
  intros Hedge where_ set Hw Hset.
  destruct (effect_edge_valid _ _ _ Hv Hedge) as [Hv' He].
  eapply update_one_encode; try done. by rewrite Hkey.
Qed.

Lemma begin_once_spec :
  s.(snapshot_state) = Prepared →
  begin_once t s = Ok (<[k := encode_snapshot (snapshot_with s Started 1 1)]> t,
                       snapshot_with s Started 1 1).
Proof.
  intros Hst. unfold begin_once. rewrite Hkey, Hsql. cbn [result_bind].
  destruct Hv as [_ Hs]. rewrite Hst in Hs. destruct Hs as [Ha Hr].
  erewrite write_edge; [reflexivity|by apply edge_begin| |reflexivity].
  unfold row_is, encode_snapshot; cbn. by rewrite Hst, Ha, Hr.
Qed.

Lemma burn_spec :
  s.(snapshot_state) = Prepared →
  burn_authority_without_send t s =
    Ok (<[k := encode_snapshot (snapshot_with s Unknown 1 2)]> t, snapshot_with s Unknown 1 2).
Proof.
  intros Hst. unfold burn_authority_without_send. rewrite Hkey, Hsql. cbn [result_bind].
  destruct Hv as [_ Hs]. rewrite Hst in Hs. destruct Hs as [Ha Hr].
  erewrite write_edge; [reflexivity|by apply edge_burn| |reflexivity].
  unfold row_is, encode_snapshot; cbn. by rewrite Hst, Ha, Hr.
Qed.

Lemma revision_small : 0 ≤ s.(snapshot_revision) ≤ 3.
Proof. destruct Hv as [_ Hs], s as [? [] ? ?]; cbn in *; lia. Qed.

Lemma advance_spec :
  s.(snapshot_state) ∈ [Prepared; Started; Unknown] →
  let s' := snapshot_with s Accepted s.(snapshot_attempt_count) (s.(snapshot_revision) + 1) in
  advance_to_accepted t s = Ok (<[k := encode_snapshot s']> t, s').
Proof.
  intros Hst s'. unfold advance_to_accepted. pose proof revision_small.
  unfold checked_add. rewrite (proj2 (Z.leb_le _ _)) by (unfold u64_max; lia).
  cbn [ok_or result_bind]. rewrite Hkey, Hsql. cbn [result_bind].
  unfold revision_to_sql. rewrite !(proj2 (Z.ltb_ge _ _)) by (unfold i64_max; lia).
  cbn [result_bind]. erewrite write_edge; [reflexivity|by apply edge_observed| |reflexivity].
  unfold row_is, encode_snapshot; cbn. rewrite bool_decide_eq_true_2, !Z.eqb_refl; done.
Qed.

Lemma postcondition_spec s' :
  snapshot_valid sha256 s' → s'.(snapshot_effect) = s.(snapshot_effect) →
  check_postcondition sha256 (<[k := encode_snapshot s']> t) key s' = Ok tt.
Proof.
  intros Hv' He. unfold check_postcondition.
  rewrite (proj2 (load_Some sha256 _ key s')); cbn.
  - by rewrite bool_decide_eq_true_2.
  - exists k. rewrite lookup_insert_eq. split_and!; [done..| |done]. by rewrite He.
Qed.

Lemma load_loaded : load_snapshot sha256 t key = Ok (Some s).
Proof. apply load_Some. eauto. Qed.

(** The observation match writes exactly the decided snapshot. *)
Lemma observation_spec observation :
  reconcile_observation t key s observation =
  match decide_next key s observation with
  | Ok (s', send) => Ok (<[k := encode_snapshot s']> t, s', send)
  | Err e => Err e
  end.
Proof.
  assert (Hid : <[k := encode_snapshot s]> t = t) by (by apply insert_id).
  assert (Hsend : begin_if_prepared t s =
    match (if s.(snapshot_state) ==? Prepared
           then Ok (snapshot_with s Started 1 1, true) else Ok (s, false)) with
    | Ok (s', send) => Ok (<[k := encode_snapshot s']> t, s', send)
    | Err e => @Err _ StoreError e
    end).
  { unfold begin_if_prepared. case_bool_decide; [|by rewrite Hid].
    by rewrite begin_once_spec. }
  unfold reconcile_observation, decide_next. rewrite Hsend. cbv zeta.
  destruct observation; try rewrite Hid; try done.
  - destruct (exact ==? _); cbn; [|done].
    destruct (snapshot_state s) eqn:Hst; repeat case_bool_decide; try done; cbn; rewrite ?Hid; try done;
      rewrite advance_spec by (rewrite Hst; set_solver); done.
  - destruct (key_chain key ==? _), (key_operation key ==? _); cbn; try done.
    by destruct (expected_effect_id ==? _), (exact_public_bytes ==? _).
  - by destruct (key_operation key ==? _).
  - by destruct (key_operation key ==? _).
  - destruct (snapshot_state s) eqn:Hst; rewrite ?Hid; try done. by rewrite burn_spec.
Qed.
End loaded.

Lemma decide_next_edge key s observation s' send :
  decide_next key s observation = Ok (s', send) →
  (s' = s ∧ send = false) ∨
  (effect_edge s s' ∧
   (send = true → s.(snapshot_state) = Prepared ∧ s' = snapshot_with s Started 1 1)).
Proof.
  unfold decide_next. cbv zeta. intros H.
  destruct observation; repeat (case_bool_decide; cbn in H; try done); simplify_eq;
    first [by left|right; split; [by constructor|done]|idtac].
  - right. split; [|done]. constructor. destruct (snapshot_state s); set_solver.
  - destruct (snapshot_state s) eqn:Hst; simplify_eq; try (by left).
    right. split; [by constructor|done].
Qed.

Lemma decide_result_edge s submission s' replay :
  decide_result s submission = Ok (s', replay) → s' = s ∨ effect_edge s s'.
Proof.
  unfold decide_result. destruct (negb _); [done|]. case_bool_decide as Hst.
  - intros [= <- <-]. right. constructor; [done|]. destruct submission; set_solver.
  - destruct (_ && _); [|done]. intros [= <- <-]. by left.
Qed.

Lemma valid_after sha256 s s' :
  snapshot_valid sha256 s → s' = s ∨ effect_edge s s' →
  snapshot_valid sha256 s' ∧ s'.(snapshot_effect) = s.(snapshot_effect).
Proof. intros Hv [->|He]; [done|by eapply effect_edge_valid]. Qed.

Lemma reconcile_loaded sha256 t key s observation :
  journal_inv sha256 t → load_snapshot sha256 t key = Ok (Some s) →
  ∃ k, sql_key key = Ok k ∧
  reconcile sha256 t key observation =
    match decide_next key s observation with
    | Ok (s', send) => (<[k := encode_snapshot s']> t,
                        Ok (if send : bool then SubmitOnce s' else ObserveOnly s'))
    | Err e => (t, Err e)
    end.
Proof.
  intros Hinv Hl. pose proof Hl as (k&Hk&Hr&Heq&Hv)%load_Some. exists k. split; [done|].
  unfold reconcile. rewrite Hl. cbn [ok_or result_bind].
  rewrite (observation_spec sha256 t key k s) by done.
  destruct (decide_next key s observation) as [[s' send]|e] eqn:E; [|done]. cbn [result_bind].
  assert (s' = s ∨ effect_edge s s') as Ha
    by (apply decide_next_edge in E; naive_solver).
  destruct (valid_after _ _ _ Hv Ha) as [Hv' He].
  by rewrite (postcondition_spec sha256 t key k s) by done.
Qed.

Lemma submission_loaded sha256 t key s submission :
  journal_inv sha256 t → load_snapshot sha256 t key = Ok (Some s) →
  ∃ k, sql_key key = Ok k ∧
  record_submission_result sha256 t key submission =
    match decide_result s submission with
    | Ok (s', replay) => (<[k := encode_snapshot s']> t,
                          Ok {| commit_snapshot := s'; was_replay := replay |})
    | Err e => (t, Err e)
    end.
Proof.
  intros Hinv Hl. pose proof Hl as (k&Hk&Hr&Heq&Hv)%load_Some. exists k. split; [done|].
  unfold record_submission_result. rewrite Hl. cbn [ok_or result_bind].
  set (target := PublicEffectSubmissionResult_state submission).
  set (id_ok := match submission with
                | Submission_Accepted i => i ==? s.(snapshot_effect).(effect_expected_effect_id)
                | _ => true
                end).
  assert (Hg : match submission with
               | Submission_Accepted i =>
                   reject_if (i !=? s.(snapshot_effect).(effect_expected_effect_id))
                     PublicEffectConflict
               | _ => Ok tt
               end = if id_ok then Ok tt else Err PublicEffectConflict).
  { subst id_ok. destruct submission; [|done..]. unfold reject_if. by case_bool_decide. }
  rewrite Hg. pose proof (decide_result_edge s submission) as Hedge.
  unfold decide_result in *. fold target id_ok in Hedge |- *.
  destruct id_ok; [cbn|done].
  case_bool_decide as Hst; cbn in Hedge |- *.
  - rewrite Hk. cbn. destruct (Hedge _ _ eq_refl) as [Hx|Hx].
    { exfalso. apply (f_equal snapshot_revision) in Hx. cbn in Hx.
      destruct Hv as [_ Hs]. rewrite Hst in Hs. cbn in Hs. lia. }
    pose proof Hv as [_ Hs]. rewrite Hst in Hs. destruct Hs as [Ha1 Hr1].
    destruct (valid_after _ _ _ Hv (or_intror Hx)) as [Hv' He].
    erewrite (write_edge sha256 t key k s); try done.
    + cbn. rewrite Ha1. rewrite (postcondition_spec sha256 t key k s) by done. done.
    + unfold row_is, encode_snapshot; cbn. by rewrite Hst, Ha1, Hr1.
    + unfold row_with, encode_snapshot; cbn. by rewrite Ha1.
  - assert (Hat : s.(snapshot_state) = target → s.(snapshot_revision) = 2 → s.(snapshot_attempt_count) = 1).
    { destruct Hv as [_ Hs], s as [? [] ? ?]; cbn in *; intros; try lia; subst target; by destruct submission. }
    assert (Hid : <[k := encode_snapshot s]> t = t) by (by apply insert_id).
    case_bool_decide as Hs; cbn; [|done].
    destruct (Z.eqb_spec (snapshot_revision s) 2); [|by rewrite andb_false_r].
    rewrite Hat by done. cbn.
    pose proof (postcondition_spec sha256 t key k s Hk Heq s Hv eq_refl) as Hp.
    rewrite Hid in Hp. rewrite Hp, Hid. done.
Qed.

(** ** Preparing an effect *)

Definition fresh_snapshot (e : PreparedPublicEffect) : PublicEffectSnapshot :=
  {| snapshot_effect := e; snapshot_state := Prepared;
     snapshot_attempt_count := 0; snapshot_revision := 0 |}.

Lemma unique_taken_fresh t e k :
  sql_key e.(effect_key) = Ok k →
  unique_taken journal_unique t (journal_unique k (encode_snapshot (fresh_snapshot e))) =
  unique_taken journal_unique t
    (PublicEffectChain_as_str e.(effect_key).(key_chain), e.(effect_expected_effect_id)).
Proof.
  unfold sql_key, revision_to_sql.
  destruct (i64_max <? _); [done|]. by intros [= <-].
Qed.

(** What a fresh preparation does to the table. *)
Lemma insert_prepared_Ok sha256 t e t' c :
  journal_inv sha256 t → insert_prepared sha256 t e = Ok (t', c) →
  ∃ k, sql_key e.(effect_key) = Ok k ∧ t !! k = None ∧
       t' = <[k := encode_snapshot (fresh_snapshot e)]> t ∧ journal_inv sha256 t' ∧
       c = {| commit_snapshot := fresh_snapshot e; was_replay := false |}.
Proof.
  intros [Hok Hrows]. unfold insert_prepared. destruct (unique_taken _ _ _); [done|].
  intros H. apply result_bind_Ok in H as (k&Hk&H). cbv zeta in H.
  apply result_bind_Ok in H as (t1&Hins&H).
  destruct (sql_insert _ _ _ _ _) as [t2|] eqn:Ei; [|done]. injection Hins as ->.
  apply result_bind_Ok in H as (l&Hl&H). apply result_bind_Ok in H as (s&Hs&H).
  destruct l as [s'|]; [|done]. injection Hs as ->.
  destruct (_ || _) eqn:E in H; [done|]. injection H as <- <-. bool_props.
  assert (s = fresh_snapshot e) as -> by (destruct s; unfold fresh_snapshot; cbn in *; congruence).
  apply load_Some in Hl as (k'&Hk'&Hrow&Heq&Hv). rewrite Hk in Hk'. injection Hk' as <-.
  exists k. pose proof Ei as (->&Hn&_&_)%sql_insert_Some.
  split_and!; [done..| |done]. split; [by eapply table_ok_insert|].
  intros j row [[<- <-]|[? Hj]]%lookup_insert_Some; [|by eauto].
  exists (fresh_snapshot e). done.
Qed.

(** On a valid effect whose key and identifier are free, it succeeds. *)
Lemma insert_prepared_succeeds sha256 t e k :
  effect_valid sha256 e → 0 ≤ e.(effect_key).(key_predecessor_revision) →
  sql_key e.(effect_key) = Ok k → t !! k = None →
  unique_taken journal_unique t
    (PublicEffectChain_as_str e.(effect_key).(key_chain), e.(effect_expected_effect_id)) = false →
  insert_prepared sha256 t e =
    Ok (<[k := encode_snapshot (fresh_snapshot e)]> t,
        {| commit_snapshot := fresh_snapshot e; was_replay := false |}).
Proof.
  intros Hv Hp Hk Hn Hu. unfold insert_prepared. rewrite Hu, Hk. cbn [result_bind].
  assert (Hvs : snapshot_valid sha256 (fresh_snapshot e)) by done.
  assert (Hins : sql_insert journal_check journal_unique t k
    (encode_snapshot (fresh_snapshot e)) = Some (<[k := encode_snapshot (fresh_snapshot e)]> t)).
  { apply sql_insert_Some. split_and!; [done..| |by rewrite unique_taken_fresh].
    rewrite (check_encode sha256) by done. by apply Z.leb_le. }
  unfold encode_snapshot in Hins at 1; cbn in Hins. rewrite Hins. cbn [ok_or result_bind].
  rewrite (proj2 (load_Some sha256 _ _ (fresh_snapshot e))); cbn.
  - by rewrite !bool_decide_eq_true_2.
  - exists k. by rewrite lookup_insert_eq.
Qed.

Lemma validate_prepared_valid sha256 e u :
  validate_prepared sha256 e = Ok u →
  PreparedPublicEffect_new sha256 e.(effect_key) e.(effect_agreement_commitment)
    e.(effect_expected_effect_id) e.(effect_exact_public_bytes) = Ok e.
Proof.
  unfold validate_prepared. intros (r&Hr&H)%result_bind_Ok.
  case_bool_decide; [|done]. by subst.
Qed.

(** ** Calls and runs *)

Inductive JournalCall :=
| CallPrepare (effect : PreparedPublicEffect)
| CallReconcile (key : PublicEffectKey) (observation : PublicEffectObservation)
| CallSubmission (key : PublicEffectKey) (submission : PublicEffectSubmissionResult).

Definition call_table (sha256 : bytes → bytes) (t : journal_table) (c : JournalCall)
    : journal_table :=
  match c with
  | CallPrepare e => (record_prepared sha256 t e).1
  | CallReconcile key o => (reconcile sha256 t key o).1
  | CallSubmission key r => (record_submission_result sha256 t key r).1
  end.

Definition step_table (sha256 : bytes → bytes) (t : journal_table) (c : JournalCall * Fate)
    : journal_table :=
  match c.2 with RolledBack => t | _ => call_table sha256 t c.1 end.

Fixpoint run_journal (sha256 : bytes → bytes) (t : journal_table)
    (calls : list (JournalCall * Fate)) : journal_table :=
  match calls with
  | [] => t
  | c :: calls => run_journal sha256 (step_table sha256 t c) calls
  end.

(** Whether a call hands its caller the authority to send under [key]. *)
Definition authorises (sha256 : bytes → bytes) (key : PublicEffectKey) (t : journal_table)
    (c : JournalCall * Fate) : bool :=
  match c with
  | (CallReconcile key' o, Delivered) =>
      bool_decide (key' = key) &&
      match (reconcile sha256 t key' o).2 with Ok (SubmitOnce _) => true | _ => false end
  | _ => false
  end.

(** The number of sends authorised under a key along a run. *)
Fixpoint sends (sha256 : bytes → bytes) (key : PublicEffectKey) (t : journal_table)
    (calls : list (JournalCall * Fate)) : nat :=
  match calls with
  | [] => 0
  | c :: calls =>
      ((if authorises sha256 key t c then 1 else 0)
       + sends sha256 key (step_table sha256 t c) calls)%nat
  end.

Lemma run_journal_app sha256 t pre post :
  run_journal sha256 t (pre ++ post) = run_journal sha256 (run_journal sha256 t pre) post.
Proof. revert t. induction pre as [|c pre IH]; intros t; cbn; [done|apply IH]. Qed.

(** Every way a call changes the table. *)
Inductive table_step (sha256 : bytes → bytes) (t : journal_table) : journal_table → Prop :=
| ts_same : table_step sha256 t t
| ts_insert k e :
    sql_key e.(effect_key) = Ok k → t !! k = None →
    table_step sha256 t (<[k := encode_snapshot (fresh_snapshot e)]> t)
| ts_move k s s' :
    t !! k = Some (encode_snapshot s) → sql_key s.(snapshot_effect).(effect_key) = Ok k →
    snapshot_valid sha256 s → effect_edge s s' →
    table_step sha256 t (<[k := encode_snapshot s']> t).

Lemma move_or_same sha256 t key k s s' :
  journal_inv sha256 t → load_snapshot sha256 t key = Ok (Some s) → sql_key key = Ok k →
  s' = s ∨ effect_edge s s' →
  journal_inv sha256 (<[k := encode_snapshot s']> t) ∧
  table_step sha256 t (<[k := encode_snapshot s']> t).
Proof.
  intros Hinv (k'&Hk'&Hr&<-&Hv)%load_Some Hk Ha. rewrite Hk in Hk'. injection Hk' as <-.
  destruct (valid_after _ _ _ Hv Ha) as [Hv' He]. split; [by eapply inv_write|].
  destruct Ha as [->|Hedge]; [|by econstructor]. rewrite insert_id by done. constructor.
Qed.

Lemma call_step sha256 t c :
  journal_inv sha256 t →
  journal_inv sha256 (call_table sha256 t c) ∧ table_step sha256 t (call_table sha256 t c).
Proof.
  intros Hinv. assert (Hsame : journal_inv sha256 t ∧ table_step sha256 t t) by (split; [done|constructor]).
  destruct c as [e|key o|key r]; cbn.
  - unfold record_prepared. destruct (validate_prepared sha256 e); [|done]. cbn [result_bind].
    destruct (load_snapshot sha256 t (effect_key e)) as [[s|]|]; cbn; [|..|done].
    + by destruct (_ !=? _).
    + destruct (insert_prepared sha256 t e) as [[t' c]|] eqn:E; [|done].
      apply insert_prepared_Ok in E as (k&Hk&Hn&->&Hinv'&_); [|done].
      split; [done|by constructor].
  - destruct (load_cases sha256 t key Hinv) as [[s Hl]|[Hl|[Hl _]]];
      [|by unfold reconcile; rewrite Hl..].
    destruct (reconcile_loaded sha256 t key s o Hinv Hl) as (k&Hk&->).
    destruct (decide_next key s o) as [[s' send]|] eqn:E; [|done]. cbn.
    eapply move_or_same; [done..|]. apply decide_next_edge in E. naive_solver.
  - destruct (load_cases sha256 t key Hinv) as [[s Hl]|[Hl|[Hl _]]];
      [|by unfold record_submission_result; rewrite Hl..].
    destruct (submission_loaded sha256 t key s r Hinv Hl) as (k&Hk&->).
    destruct (decide_result s r) as [[s' rep]|] eqn:E; [|done]. cbn.
    eapply move_or_same; [done..|]. by eapply decide_result_edge.
Qed.

Lemma step_table_step sha256 t c :
  journal_inv sha256 t →
  journal_inv sha256 (step_table sha256 t c) ∧ table_step sha256 t (step_table sha256 t c).
Proof.
  intros Hinv. unfold step_table. destruct (c.2); [by apply call_step| |by apply call_step].
  split; [done|constructor].
Qed.

Lemma run_journal_inv sha256 t calls :
  journal_inv sha256 t → journal_inv sha256 (run_journal sha256 t calls).
Proof.
  revert t. induction calls as [|c calls IH]; intros t Hinv; cbn; [done|].
  apply IH. by apply step_table_step.
Qed.

Lemma reachable_journal sha256 calls : journal_inv sha256 (run_journal sha256 ∅ calls).
Proof. apply run_journal_inv, journal_inv_empty. Qed.

(** ** The history of one key *)

Lemma encode_inj s s' :
  encode_snapshot s = encode_snapshot s' →
  s.(snapshot_effect).(effect_key) = s'.(snapshot_effect).(effect_key) → s = s'.
Proof.
  destruct s as [[] st ? ?], s' as [[] st' ? ?]. unfold encode_snapshot; cbn.
  intros [= -> -> -> -> Hst -> ->] ->. f_equal. by destruct st, st'.
Qed.

Lemma step_history sha256 t t' key s :
  table_step sha256 t t' → load_snapshot sha256 t key = Ok (Some s) →
  ∃ s', load_snapshot sha256 t' key = Ok (Some s') ∧ (s' = s ∨ effect_edge s s').
Proof.
  intros Hstep Hl. pose proof Hl as (k&Hk&Hr&Heq&Hv)%load_Some.
  destruct Hstep as [|j e Hj Hn|j s1 s1' Hj Hj1 Hv1 Hedge]; [by eauto|..].
  - exists s. split; [|by left]. apply load_Some. exists k.
    rewrite lookup_insert_ne by (intros ->; congruence). done.
  - destruct (decide (j = k)) as [->|Hne].
    + assert (s = s1) as ->.
      { apply encode_inj; [congruence|]. rewrite Heq. by eapply sql_key_inj. }
      destruct (effect_edge_valid _ _ _ Hv Hedge) as [Hv' He].
      exists s1'. split; [|by right]. apply load_Some. exists k.
      rewrite lookup_insert_eq. split_and!; [done..| |done]. by rewrite He.
    + exists s. split; [|by left]. apply load_Some. exists k.
      by rewrite lookup_insert_ne by done.
Qed.

Lemma run_history sha256 t calls key s :
  journal_inv sha256 t → load_snapshot sha256 t key = Ok (Some s) →
  ∃ s', load_snapshot sha256 (run_journal sha256 t calls) key = Ok (Some s') ∧
        rtc effect_edge s s'.
Proof.
  revert t s. induction calls as [|c calls IH]; intros t s Hinv Hl; cbn.
  { exists s. split; [done|constructor]. }
  destruct (step_table_step sha256 t c Hinv) as [Hinv' Hstep].
  destruct (step_history _ _ _ _ _ Hstep Hl) as (s1&Hl1&Ha).
  destruct (IH _ _ Hinv' Hl1) as (s2&Hl2&Hr). exists s2. split; [done|].
  destruct Ha as [->|He]; [done|]. by eapply rtc_l.
Qed.

Lemma edges_monotone sha256 s s' :
  snapshot_valid sha256 s → rtc effect_edge s s' →
  s'.(snapshot_effect) = s.(snapshot_effect) ∧
  s.(snapshot_attempt_count) ≤ s'.(snapshot_attempt_count) ≤ 1 ∧
  s.(snapshot_revision) ≤ s'.(snapshot_revision) ≤ 3 ∧
  (s.(snapshot_state) ≠ Prepared → s'.(snapshot_state) ≠ Prepared) ∧
  (s.(snapshot_state) ∈ [Accepted; Rejected] → s' = s).
Proof.
  intros Hv Hr. revert Hv. induction Hr as [s|s s1 s' He Hr IH]; intros Hv.
  { destruct Hv as [_ Hs]. destruct s as [e st a r]; cbn in *.
    split_and!; try done; destruct st; cbn in Hs; lia. }
  destruct (effect_edge_valid _ _ _ Hv He) as [Hv1 He1].
  destruct (IH Hv1) as (IHe&IHa&IHr&IHp&_). destruct Hv as [_ Hs].
  assert (Hst : s.(snapshot_state) ∈ [Prepared; Started; Unknown]) by (destruct He; set_solver).
  assert (Hs1 : s.(snapshot_attempt_count) ≤ s1.(snapshot_attempt_count) ∧
                s.(snapshot_revision) ≤ s1.(snapshot_revision) ∧ s1.(snapshot_state) ≠ Prepared).
  { destruct He as [s H|s H|s H|s tg H Ht]; cbn; try (rewrite H in Hs; cbn in Hs);
      split_and!; try done; try lia. set_unfold in Ht. by destruct Ht as [->|[->|[->|[]]]]. }
  split_and!; [congruence|lia..|naive_solver|].
  intros Hf. exfalso. destruct (snapshot_state s); set_solver.
Qed.

(** ** Authority *)

(** Whether a key may still be authorised: no row, or a prepared one. *)
Definition key_fresh (sha256 : bytes → bytes) (t : journal_table) (key : PublicEffectKey) : bool :=
  match load_snapshot sha256 t key with
  | Ok None => true
  | Ok (Some s) => s.(snapshot_state) ==? Prepared
  | Err _ => false
  end.

Lemma load_out_of_range sha256 t key :
  i64_max < key.(key_predecessor_revision) →
  load_snapshot sha256 t key = Err InvalidPublicEffect.
Proof.
  intros H. unfold load_snapshot, sql_key, revision_to_sql.
  by rewrite (proj2 (Z.ltb_lt _ _) H).
Qed.

Lemma key_fresh_antitone sha256 t c key :
  journal_inv sha256 t → key_fresh sha256 t key = false →
  key_fresh sha256 (step_table sha256 t c) key = false.
Proof.
  intros Hinv. unfold key_fresh at 1.
  destruct (step_table_step sha256 t c Hinv) as [_ Hstep].
  destruct (load_snapshot sha256 t key) as [[s|]|e] eqn:Hl; [|done|].
  - intros Hs. bool_props. pose proof Hl as (k&_&_&_&Hv)%load_Some.
    destruct (step_history _ _ _ _ _ Hstep Hl) as (s'&Hl'&Ha).
    unfold key_fresh. rewrite Hl'. apply bool_decide_eq_false.
    destruct (edges_monotone sha256 s s' Hv) as (_&_&_&Hp&_); [|by apply Hp].
    destruct Ha as [->|He]; [constructor|by apply rtc_once].
  - intros _. unfold key_fresh. rewrite load_out_of_range; [done|].
    destruct (load_cases sha256 t key Hinv) as [[s Hs]|[Hs|[_ Hp]]]; congruence.
Qed.

Lemma authorises_spec sha256 key t c :
  journal_inv sha256 t → authorises sha256 key t c = true →
  key_fresh sha256 t key = true ∧ key_fresh sha256 (step_table sha256 t c) key = false.
Proof.
  intros Hinv. destruct c as [[e|key' o|key' r] [| |]]; cbn; try done.
  intros [Hkey%bool_decide_eq_true H]%andb_true_iff. subst key'.
  unfold step_table; cbn.
  destruct (load_cases sha256 t key Hinv) as [[s Hl]|[Hl|[Hl _]]];
    [|by unfold reconcile in H; rewrite Hl in H..].
  destruct (reconcile_loaded sha256 t key s o Hinv Hl) as (k&Hk&Hr). rewrite Hr in H |- *.
  destruct (decide_next key s o) as [[s' send]|] eqn:E; [|done]. destruct send; [|done].
  apply decide_next_edge in E as [[_ [=]]|[He Hp]]. destruct (Hp eq_refl) as [Hst ->].
  unfold key_fresh. rewrite Hl. split; [by apply bool_decide_eq_true|].
  pose proof Hl as (k'&Hk'&_&Heq&Hv)%load_Some.
  cbn [fst]. rewrite (proj2 (load_Some sha256 _ key (snapshot_with s Started 1 1))); [done|].
  exists k. rewrite lookup_insert_eq. split_and!; [done..|]. by eapply effect_edge_valid.
Qed.

Lemma sends_bound sha256 key t calls :
  journal_inv sha256 t →
  (sends sha256 key t calls ≤ if key_fresh sha256 t key then 1 else 0)%nat.
Proof.
  revert t. induction calls as [|c calls IH]; intros t Hinv; cbn; [lia|].
  destruct (step_table_step sha256 t c Hinv) as [Hinv' _]. specialize (IH _ Hinv').
  destruct (authorises sha256 key t c) eqn:Ha.
  - apply authorises_spec in Ha as [-> Hf]; [|done]. rewrite Hf in IH. lia.
  - destruct (key_fresh sha256 t key) eqn:Hf.
    + destruct (key_fresh sha256 (step_table sha256 t c) key); lia.
    + rewrite key_fresh_antitone in IH by done. lia.
Qed.

(** ** Sample values *)

Definition sample_sha256 (b : bytes) : bytes := replicate 32 Byte.x07.
Definition sample_key (operation : PublicEffectOperation) : PublicEffectKey :=
  {| key_swap_id := {| SwapId_as_str := "swap-1" |};
     key_local_role := Participant_Maker; key_chain := Effect_Lez;
     key_operation := operation; key_predecessor_revision := 4 |}.
Definition sample_effect (operation : PublicEffectOperation) : PreparedPublicEffect :=
  {| effect_key := sample_key operation;
     effect_agreement_commitment := replicate 32 Byte.x01;
     effect_expected_effect_id := "a1b2";
     effect_exact_public_bytes := [Byte.x10; Byte.x20];
     effect_public_bytes_sha256 := replicate 32 Byte.x07 |}.

(** ** Properties *)

(** C4: along any interleaving of preparations, reconciliations and recorded
    results, with calls lost before or after their commit at any point, the
    journal authorises at most one send under each key. *)
Theorem at_most_one_send sha256 key calls :
  (sends sha256 key ∅ calls ≤ 1)%nat.
Proof.
  pose proof (sends_bound sha256 key ∅ calls (journal_inv_empty sha256)).
  destruct (key_fresh sha256 ∅ key); lia.
Qed.

(** [reconcile] hands out the authority to send exactly when the row of the
    key is prepared and the observation is the one the operation needs: an
    eligibility proof for a refund, absence for a funding or a claim, or an
    idempotent admission naming the same identifier and bytes for a LEZ claim.
    The row it returns is the started one with its only attempt consumed. *)
Theorem send_authorised_iff sha256 calls key observation s' :
  let t := run_journal sha256 ∅ calls in
  (reconcile sha256 t key observation).2 = Ok (SubmitOnce s') ↔
  ∃ s, current sha256 t key = Ok (Some s) ∧ s.(snapshot_state) = Prepared ∧
    s' = snapshot_with s Started 1 1 ∧
    match observation with
    | EligibleToAttempt => key.(key_operation) = Effect_Refund
    | Absent => key.(key_operation) ≠ Effect_Refund
    | ExactIdempotentLezClaimSubmissionSafe i b =>
        key.(key_chain) = Effect_Lez ∧ key.(key_operation) = Effect_Claim ∧
        i = s.(snapshot_effect).(effect_expected_effect_id) ∧
        b = s.(snapshot_effect).(effect_exact_public_bytes)
    | _ => False
    end.
Proof.
  intros t. pose proof (reachable_journal sha256 calls) as Hinv. fold t in Hinv.
  unfold current.
  destruct (load_cases sha256 t key Hinv) as [[s Hl]|[Hl|[Hl _]]].
  2,3: unfold reconcile; rewrite Hl; cbn; naive_solver.
  destruct (reconcile_loaded sha256 t key s observation Hinv Hl) as (k&_&->).
  rewrite Hl. unfold decide_next. cbv zeta.
  transitivity (s.(snapshot_state) = Prepared ∧ s' = snapshot_with s Started 1 1 ∧
    match observation with
    | EligibleToAttempt => key.(key_operation) = Effect_Refund
    | Absent => key.(key_operation) ≠ Effect_Refund
    | ExactIdempotentLezClaimSubmissionSafe i b =>
        key.(key_chain) = Effect_Lez ∧ key.(key_operation) = Effect_Claim ∧
        i = s.(snapshot_effect).(effect_expected_effect_id) ∧
        b = s.(snapshot_effect).(effect_exact_public_bytes)
    | _ => False
    end); [|naive_solver].
  destruct observation; repeat case_bool_decide; cbn; try naive_solver.
  destruct (snapshot_state s); naive_solver.
Qed.

(** A durable row only moves forward, whatever calls follow: it stays, its
    exact material never changes, its attempt count and revision never
    decrease and stay within 1 and 3, every change is a listed move, and an
    accepted or rejected effect never changes again. *)
Theorem rows_move_forward sha256 pre post key s :
  current sha256 (run_journal sha256 ∅ pre) key = Ok (Some s) →
  ∃ s', current sha256 (run_journal sha256 ∅ (pre ++ post)) key = Ok (Some s') ∧
    rtc effect_edge s s' ∧
    s'.(snapshot_effect) = s.(snapshot_effect) ∧
    s.(snapshot_attempt_count) ≤ s'.(snapshot_attempt_count) ≤ 1 ∧
    s.(snapshot_revision) ≤ s'.(snapshot_revision) ≤ 3 ∧
    (s.(snapshot_state) ∈ [Accepted; Rejected] → s' = s).
Proof.
  intros Hl. rewrite run_journal_app.
  destruct (run_history sha256 _ post key s (reachable_journal sha256 pre) Hl) as (s'&Hl'&Hr).
  exists s'. pose proof Hl as (k&_&_&_&Hv)%load_Some.
  destruct (edges_monotone sha256 s s' Hv Hr) as (?&?&?&_&?). done.
Qed.

Lemma rows_move_forward_witness :
  ∃ s', current sample_sha256
          (run_journal sample_sha256 ∅
             ([(CallPrepare (sample_effect Effect_Claim), Delivered)] ++
              [(CallReconcile (sample_key Effect_Claim) Absent, CommittedUnseen)]))
          (sample_key Effect_Claim) = Ok (Some s') ∧
        s'.(snapshot_effect) = sample_effect Effect_Claim.
Proof.
  destruct (rows_move_forward sample_sha256
    [(CallPrepare (sample_effect Effect_Claim), Delivered)]
    [(CallReconcile (sample_key Effect_Claim) Absent, CommittedUnseen)]
    (sample_key Effect_Claim) (fresh_snapshot (sample_effect Effect_Claim)))
    as (s'&H&_&He&_); [vm_compute; reflexivity|].
  exists s'. split; [exact H|exact He].
Defined.

(** Chain presence that contradicts the durable bytes burns the authority
    for good: once [reconcile] has accepted such an observation it sends
    nothing, and no later call under that key authorises a send. *)
Theorem conflicting_presence_burns sha256 pre post key t' d :
  reconcile sha256 (run_journal sha256 ∅ pre) key ConflictingPresence = (t', Ok d) →
  (∃ s, d = ObserveOnly s ∧ s.(snapshot_attempt_count) = 1) ∧ sends sha256 key t' post = 0%nat.
Proof.
  intros H. pose proof (reachable_journal sha256 pre) as Hinv.
  set (t := run_journal sha256 ∅ pre) in *.
  destruct (load_cases sha256 t key Hinv) as [[s Hl]|[Hl|[Hl _]]];
    [|by unfold reconcile in H; rewrite Hl in H..].
  pose proof (call_step sha256 t (CallReconcile key ConflictingPresence) Hinv) as [Hinv' _].
  cbn in Hinv'. rewrite H in Hinv'. cbn in Hinv'.
  destruct (reconcile_loaded sha256 t key s ConflictingPresence Hinv Hl) as (k&Hk&Hr).
  rewrite H in Hr. pose proof Hl as (k'&_&_&Heq&Hv)%load_Some.
  assert (Hd : ∃ s', decide_next key s ConflictingPresence = Ok (s', false) ∧
    s'.(snapshot_attempt_count) = 1 ∧ s'.(snapshot_state) ≠ Prepared).
  { unfold decide_next in *. destruct Hv as [_ Hs].
    destruct (snapshot_state s) eqn:Hst; try done; eexists; split_and!; try reflexivity;
      try (rewrite Hst; done); try done; cbn in Hs; tauto. }
  destruct Hd as (s'&Hd&Hat&Hst'). rewrite Hd in Hr. injection Hr as -> ->.
  split; [by eauto|].
  pose proof (sends_bound sha256 key _ post Hinv') as Hb.
  assert (s' = s ∨ effect_edge s s') as Ha by (apply decide_next_edge in Hd; naive_solver).
  destruct (valid_after _ _ _ Hv Ha) as [Hv' He].
  unfold key_fresh in Hb. rewrite (proj2 (load_Some sha256 _ key s')) in Hb.
  - rewrite bool_decide_eq_false_2 in Hb by done. lia.
  - exists k. rewrite lookup_insert_eq. split_and!; [done..| |done]. by rewrite He.
Qed.

Lemma conflicting_presence_burns_witness :
  let t := run_journal sample_sha256 ∅ [(CallPrepare (sample_effect Effect_Claim), Delivered)] in
  sends sample_sha256 (sample_key Effect_Claim)
    (reconcile sample_sha256 t (sample_key Effect_Claim) ConflictingPresence).1
    [(CallReconcile (sample_key Effect_Claim) Absent, Delivered)] = 0%nat.
Proof.
  intros t.
  apply (conflicting_presence_burns sample_sha256
    [(CallPrepare (sample_effect Effect_Claim), Delivered)]
    [(CallReconcile (sample_key Effect_Claim) Absent, Delivered)] (sample_key Effect_Claim)
    (reconcile sample_sha256 t (sample_key Effect_Claim) ConflictingPresence).1
    (ObserveOnly (snapshot_with (fresh_snapshot (sample_effect Effect_Claim)) Unknown 1 2))).
  apply injective_projections; [cbn [fst]; reflexivity|vm_compute; reflexivity].
Defined.

(** On any reachable journal, preparing a valid effect has exactly these
    outcomes: the same effect already recorded is replayed in whatever state it
    has reached; another effect under the key, or the identifier taken by
    another key of the chain, conflicts; otherwise the effect is recorded as
    prepared with no attempt.  A success can be read back. *)
Theorem record_prepared_outcome sha256 calls e :
  effect_valid sha256 e → 0 ≤ e.(effect_key).(key_predecessor_revision) →
  let t := run_journal sha256 ∅ calls in
  (record_prepared sha256 t e).2 =
    match current sha256 t e.(effect_key) with
    | Ok (Some s) => if s.(snapshot_effect) ==? e
                     then Ok {| commit_snapshot := s; was_replay := true |}
                     else Err PublicEffectConflict
    | _ => if unique_taken journal_unique t
                (PublicEffectChain_as_str e.(effect_key).(key_chain), e.(effect_expected_effect_id))
           then Err PublicEffectConflict
           else Ok {| commit_snapshot := fresh_snapshot e; was_replay := false |}
    end ∧
  ∀ c, (record_prepared sha256 t e).2 = Ok c →
       current sha256 (record_prepared sha256 t e).1 e.(effect_key) = Ok (Some c.(commit_snapshot)).
Proof.
  intros Hv Hp t. pose proof (reachable_journal sha256 calls) as Hinv. fold t in Hinv.
  pose proof Hv as (_&_&Hn).
  assert (validate_prepared sha256 e = Ok tt) as Hval.
  { unfold validate_prepared. rewrite Hn. cbn. by rewrite bool_decide_eq_true_2. }
  unfold record_prepared, current. rewrite Hval. cbn [result_bind].
  destruct (load_cases sha256 t e.(effect_key) Hinv) as [[s Hl]|[Hl|[Hl Hbig]]]; rewrite Hl; cbn.
  - destruct (bool_decide (snapshot_effect s = e)); cbn; split; try done. by intros c [= <-].
  - apply load_None in Hl as (k&Hk&Hnone).
    destruct (unique_taken journal_unique t _) eqn:Hu.
    { unfold insert_prepared. by rewrite Hu. }
    rewrite (insert_prepared_succeeds sha256 t e k) by done. cbn. split; [done|].
    intros c [= <-]. apply load_Some. exists k. by rewrite lookup_insert_eq.
  - exfalso. apply prepared_new_Ok in Hn as (_&_&_&_&_&_&_&Hn). lia.
Qed.

Lemma record_prepared_outcome_witness :
  current sample_sha256 (record_prepared sample_sha256 ∅ (sample_effect Effect_Refund)).1
    (sample_key Effect_Refund) = Ok (Some (fresh_snapshot (sample_effect Effect_Refund))).
Proof.
  assert (Hv : effect_valid sample_sha256 (sample_effect Effect_Refund))
    by (split; [reflexivity|split; vm_compute; reflexivity]).
  assert (Hp : 0 ≤ (sample_effect Effect_Refund).(effect_key).(key_predecessor_revision))
    by (cbn; lia).
  destruct (record_prepared_outcome sample_sha256 [] (sample_effect Effect_Refund) Hv Hp) as [_ H].
  exact (H {| commit_snapshot := fresh_snapshot (sample_effect Effect_Refund); was_replay := false |}
           ltac:(vm_compute; reflexivity)).
Defined.

(** No run of the journal corrupts it: every row of a reachable table
    satisfies the schema's checks, the chain and identifier of a row identify
    it, and reading any key whose revision fits an SQL integer succeeds. *)
Theorem journal_never_corrupt sha256 calls key :
  let t := run_journal sha256 ∅ calls in
  table_ok journal_check journal_unique t ∧
  (key.(key_predecessor_revision) ≤ i64_max → is_ok (current sha256 t key) = true).
Proof.
  intros t. pose proof (reachable_journal sha256 calls) as Hinv. fold t in Hinv.
  split; [apply Hinv|]. intros Hp. unfold current.
  destruct (load_cases sha256 t key Hinv) as [[s Hl]|[Hl|[Hl Hbig]]]; [by rewrite Hl..|lia].
Qed.

Lemma journal_never_corrupt_witness :
  is_ok (current sample_sha256
    (run_journal sample_sha256 ∅ [(CallPrepare (sample_effect Effect_Claim), Delivered)])
    (sample_key Effect_Claim)) = true.
Proof.
  apply (journal_never_corrupt sample_sha256
    [(CallPrepare (sample_effect Effect_Claim), Delivered)] (sample_key Effect_Claim)).
  vm_compute; discriminate.
Defined.

(** On any reachable journal the transactions of [reconcile] and
    [record_submission_result] implement the table-free decisions: with a row
    present, they commit exactly the decided snapshot to that row and nothing
    else, or return the decided error with the table unchanged; the statement
    errors and corruption errors of the code are never reached. *)
Theorem transactions_implement_decisions sha256 calls key s observation submission :
  let t := run_journal sha256 ∅ calls in
  current sha256 t key = Ok (Some s) →
  ∃ k, sql_key key = Ok k ∧
  reconcile sha256 t key observation =
    match decide_next key s observation with
    | Ok (s', send) => (<[k := encode_snapshot s']> t,
                        Ok (if send : bool then SubmitOnce s' else ObserveOnly s'))
    | Err e => (t, Err e)
    end ∧
  record_submission_result sha256 t key submission =
    match decide_result s submission with
    | Ok (s', replay) => (<[k := encode_snapshot s']> t,
                          Ok {| commit_snapshot := s'; was_replay := replay |})
    | Err e => (t, Err e)
    end.
Proof.
  intros t Hl. pose proof (reachable_journal sha256 calls) as Hinv. fold t in Hinv.
  destruct (reconcile_loaded sha256 t key s observation Hinv Hl) as (k&Hk&Hr).
  destruct (submission_loaded sha256 t key s submission Hinv Hl) as (k'&Hk'&Hr').
  rewrite Hk in Hk'. injection Hk' as <-. eauto.
Qed.

Lemma transactions_implement_decisions_witness :
  ∃ k, sql_key (sample_key Effect_Claim) = Ok k.
Proof.
  destruct (transactions_implement_decisions sample_sha256
    [(CallPrepare (sample_effect Effect_Claim), Delivered)] (sample_key Effect_Claim)
    (fresh_snapshot (sample_effect Effect_Claim)) Absent Submission_Rejected)
    as (k&Hk&_); [vm_compute; reflexivity|].
  exists k. exact Hk.
Defined.
