(* ===== verification/AdaptorJournal.v ===== *)
(** * The adaptor-session journal

    Models [crates/swap-store/src/adaptor_session_journal.rs]: the durable
    one-use journal of MuSig2 adaptor signing sessions.  A session is reserved
    with a fresh secret nonce, exchanges commitments and nonces, signs once, and
    records the peer's partial and the presignature.  The table maps a session
    identifier to the other columns as SQLite stores them; every operation is a
    function from the table to the table its transaction leaves and its result.
    The signing callback is an argument, as in the source, and the material it
    was called with is part of what the operation returns.  SHA-256 is an
    argument. *)

From stdpp Require Import base gmap strings list numbers.
From S2P Require Import Prelude PublicEffectPlan SqlTable.

Open Scope Z_scope.

Definition SECRET_NONCE_FINGERPRINT_DOMAIN : bytes :=
  bytes_of_string "lez-atomic-swaps/adaptor-secret-nonce-fingerprint/v1".

(** Fixed-width byte values of the source. *)
Abbreviation AdaptorNonceCommitment := bytes.
Abbreviation AdaptorPublicNonce := bytes.
Abbreviation AdaptorPartialSignature := bytes.
Abbreviation AdaptorPresignature := bytes.
Abbreviation SecretNonceBytes := bytes.

Inductive AdaptorSessionJournalError :=
| Journal_Store
| InvalidIdentity
| MissingSession
| SessionConflict
| SecretNonceReuse
| Journal_InvalidPhase
| CorruptSession
| SigningFailed.

(** ** Roles, identities, phases *)

Inductive AdaptorSessionRole := Session_Maker | Session_Taker.

Definition AdaptorSessionRole_name (r : AdaptorSessionRole) : string :=
  match r with Session_Maker => "maker" | Session_Taker => "taker" end.

Definition AdaptorSessionRole_parse (value : string)
    : result AdaptorSessionRole AdaptorSessionJournalError :=
  if value ==? "maker" then Ok Session_Maker
  else if value ==? "taker" then Ok Session_Taker
  else Err CorruptSession.

Record AdaptorSessionIdentity := {
  ident_session_id : bytes;
  ident_local_role : AdaptorSessionRole;
  ident_signing_domain : bytes;
  ident_exact_message : bytes;
  ident_adaptor_point : bytes;
  ident_ordered_public_keys : bytes * bytes
}.

#[global] Instance AdaptorSessionRole_eq_dec : EqDecision AdaptorSessionRole.
Proof. solve_decision. Defined.
#[global] Instance AdaptorSessionIdentity_eq_dec : EqDecision AdaptorSessionIdentity.
Proof. solve_decision. Defined.

Definition identity_validate (self : AdaptorSessionIdentity)
    : result unit AdaptorSessionJournalError :=
  if self.(ident_ordered_public_keys).1 ==? self.(ident_ordered_public_keys).2
  then Err InvalidIdentity else Ok tt.

Record AdaptorSessionReservation := {
  reservation_identity : AdaptorSessionIdentity;
  reservation_secret_nonce : SecretNonceBytes;
  reservation_own_public_nonce : AdaptorPublicNonce;
  reservation_own_commitment : AdaptorNonceCommitment
}.

Inductive AdaptorSessionPhase :=
| Session_Reserved
| Session_CommitmentExchanged
| Session_NoncesExchanged
| Session_PartialPersisted
| Session_PeerPartialVerified
| Session_PresignatureVerified.

#[global] Instance AdaptorSessionPhase_eq_dec : EqDecision AdaptorSessionPhase.
Proof. solve_decision. Defined.

(** The text of a phase in the statements and the schema. *)
Definition phase_text (p : AdaptorSessionPhase) : string :=
  match p with
  | Session_Reserved => "reserved"
  | Session_CommitmentExchanged => "commitment_exchanged"
  | Session_NoncesExchanged => "nonces_exchanged"
  | Session_PartialPersisted => "partial_persisted"
  | Session_PeerPartialVerified => "peer_partial_verified"
  | Session_PresignatureVerified => "presignature_verified"
  end.

Definition AdaptorSessionPhase_parse (value : string)
    : result AdaptorSessionPhase AdaptorSessionJournalError :=
  if value ==? "reserved" then Ok Session_Reserved
  else if value ==? "commitment_exchanged" then Ok Session_CommitmentExchanged
  else if value ==? "nonces_exchanged" then Ok Session_NoncesExchanged
  else if value ==? "partial_persisted" then Ok Session_PartialPersisted
  else if value ==? "peer_partial_verified" then Ok Session_PeerPartialVerified
  else if value ==? "presignature_verified" then Ok Session_PresignatureVerified
  else Err CorruptSession.

(** ** Results *)

Record ReservationCommit := {
  reserved_phase : AdaptorSessionPhase;
  reserved_own_commitment : AdaptorNonceCommitment;
  reserved_was_replay : bool
}.

Record AdaptorTransitionCommit := {
  transition_phase : AdaptorSessionPhase;
  transition_was_replay : bool
}.

Record PartialSignatureCommit := {
  committed_partial : AdaptorPartialSignature;
  partial_was_replay : bool
}.

Record AdaptorSessionSnapshot := {
  session_identity : AdaptorSessionIdentity;
  session_phase : AdaptorSessionPhase;
  session_own_commitment : AdaptorNonceCommitment;
  session_own_public_nonce : option AdaptorPublicNonce;
  session_peer_commitment : option AdaptorNonceCommitment;
  session_peer_public_nonce : option AdaptorPublicNonce;
  session_own_partial : option AdaptorPartialSignature;
  session_peer_partial : option AdaptorPartialSignature;
  session_presignature : option AdaptorPresignature
}.

(** What a signing callback is given. *)
Record SigningMaterial := {
  signing_identity : AdaptorSessionIdentity;
  signing_secret_nonce : SecretNonceBytes;
  signing_own_public_nonce : AdaptorPublicNonce;
  signing_peer_public_nonce : AdaptorPublicNonce
}.

(** ** The table *)

(** The columns of a row beside its key. *)
Record EncodedSession := {
  enc_local_role : string;
  enc_signing_domain : bytes;
  enc_exact_message : bytes;
  enc_adaptor_point : bytes;
  enc_maker_public_key : bytes;
  enc_taker_public_key : bytes;
  enc_secret_nonce : option bytes;
  enc_secret_nonce_fingerprint : bytes;
  enc_own_commitment : bytes;
  enc_own_public_nonce : bytes;
  enc_peer_commitment : option bytes;
  enc_peer_public_nonce : option bytes;
  enc_own_partial : option bytes;
  enc_peer_partial : option bytes;
  enc_presignature : option bytes;
  enc_phase : string
}.

Abbreviation session_table := (gmap (list Byte.byte) EncodedSession).

(** The columns an [UPDATE] of this journal assigns. *)
Definition enc_with (row : EncodedSession) (secret_nonce peer_commitment peer_public_nonce
    own_partial peer_partial presignature : option bytes) (phase : string) : EncodedSession :=
  {| enc_local_role := row.(enc_local_role);
     enc_signing_domain := row.(enc_signing_domain);
     enc_exact_message := row.(enc_exact_message);
     enc_adaptor_point := row.(enc_adaptor_point);
     enc_maker_public_key := row.(enc_maker_public_key);
     enc_taker_public_key := row.(enc_taker_public_key);
     enc_secret_nonce := secret_nonce;
     enc_secret_nonce_fingerprint := row.(enc_secret_nonce_fingerprint);
     enc_own_commitment := row.(enc_own_commitment);
     enc_own_public_nonce := row.(enc_own_public_nonce);
     enc_peer_commitment := peer_commitment;
     enc_peer_public_nonce := peer_public_nonce;
     enc_own_partial := own_partial;
     enc_peer_partial := peer_partial;
     enc_presignature := presignature;
     enc_phase := phase |}.

(** The phase constraint of the schema. *)
Definition phase_shape (row : EncodedSession) : bool :=
  let secret := row.(enc_secret_nonce) in
  let commitment := row.(enc_peer_commitment) in
  let nonce := row.(enc_peer_public_nonce) in
  let own := row.(enc_own_partial) in
  let peer := row.(enc_peer_partial) in
  let presignature := row.(enc_presignature) in
  ((row.(enc_phase) ==? "reserved") && not_null secret && is_null commitment && is_null nonce
     && is_null own && is_null peer && is_null presignature)
  || ((row.(enc_phase) ==? "commitment_exchanged") && not_null secret && not_null commitment
     && is_null nonce && is_null own && is_null peer && is_null presignature)
  || ((row.(enc_phase) ==? "nonces_exchanged") && not_null secret && not_null commitment
     && not_null nonce && is_null own && is_null peer && is_null presignature)
  || ((row.(enc_phase) ==? "partial_persisted") && is_null secret && not_null commitment
     && not_null nonce && not_null own && is_null peer && is_null presignature)
  || ((row.(enc_phase) ==? "peer_partial_verified") && is_null secret && not_null commitment
     && not_null nonce && not_null own && not_null peer && is_null presignature)
  || ((row.(enc_phase) ==? "presignature_verified") && is_null secret && not_null commitment
     && not_null nonce && not_null own && not_null peer && not_null presignature).

(** The [CHECK] constraints of the table, in the order of the schema; the list
    of phases is implied by [phase_shape]. *)
Definition session_check (session_id : bytes) (row : EncodedSession) : bool :=
  len_is 32 session_id
  && ((row.(enc_local_role) ==? "maker") || (row.(enc_local_role) ==? "taker"))
  && len_is 32 row.(enc_signing_domain)
  && len_is 32 row.(enc_exact_message)
  && len_is 33 row.(enc_adaptor_point)
  && len_is 33 row.(enc_maker_public_key)
  && len_is 33 row.(enc_taker_public_key)
  && null_or_len 97 row.(enc_secret_nonce)
  && len_is 32 row.(enc_secret_nonce_fingerprint)
  && len_is 32 row.(enc_own_commitment)
  && len_is 66 row.(enc_own_public_nonce)
  && null_or_len 32 row.(enc_peer_commitment)
  && null_or_len 66 row.(enc_peer_public_nonce)
  && null_or_len 32 row.(enc_own_partial)
  && null_or_len 32 row.(enc_peer_partial)
  && null_or_len 65 row.(enc_presignature)
  && (row.(enc_maker_public_key) !=? row.(enc_taker_public_key))
  && phase_shape row.

(** [secret_nonce_fingerprint BLOB NOT NULL UNIQUE] *)
Definition session_unique (session_id : bytes) (row : EncodedSession) : bytes :=
  row.(enc_secret_nonce_fingerprint).

(** ** Persisted sessions *)

Record PersistedSession := {
  ps_identity : AdaptorSessionIdentity;
  ps_secret_nonce : option SecretNonceBytes;
  ps_secret_nonce_fingerprint : bytes;
  ps_own_commitment : AdaptorNonceCommitment;
  ps_own_public_nonce : AdaptorPublicNonce;
  ps_peer_commitment : option AdaptorNonceCommitment;
  ps_peer_public_nonce : option AdaptorPublicNonce;
  ps_own_partial : option AdaptorPartialSignature;
  ps_peer_partial : option AdaptorPartialSignature;
  ps_presignature : option AdaptorPresignature;
  ps_phase : AdaptorSessionPhase
}.

Definition ps_snapshot (self : PersistedSession) : AdaptorSessionSnapshot :=
  {| session_identity := self.(ps_identity);
     session_phase := self.(ps_phase);
     session_own_commitment := self.(ps_own_commitment);
     session_own_public_nonce :=
       match self.(ps_peer_commitment) with
       | Some _ => Some self.(ps_own_public_nonce)
       | None => None
       end;
     session_peer_commitment := self.(ps_peer_commitment);
     session_peer_public_nonce := self.(ps_peer_public_nonce);
     session_own_partial := self.(ps_own_partial);
     session_peer_partial := self.(ps_peer_partial);
     session_presignature := self.(ps_presignature) |}.

Definition fixed_bytes (n : Z) (raw : bytes) : result bytes AdaptorSessionJournalError :=
  if blen raw =? n then Ok raw else Err CorruptSession.

(** [Option::map(fixed_bytes).transpose()] *)
Definition fixed_optional (n : Z) (raw : option bytes)
    : result (option bytes) AdaptorSessionJournalError :=
  match raw with
  | None => Ok None
  | Some raw => let? b := fixed_bytes n raw in Ok (Some b)
  end.

(** An [UPDATE] that must change exactly one row ([ensure_single_update]). *)
Definition update_session (t : session_table) (session_id : bytes)
    (where_ : EncodedSession → bool) (set : EncodedSession → EncodedSession)
    : result session_table AdaptorSessionJournalError :=
  match sql_update session_check t session_id where_ set with
  | None => Err Journal_Store
  | Some (t', updated) => if updated =? 1 then Ok t' else Err SessionConflict
  end.

Section adaptor_journal.
Variable sha256 : bytes → bytes.

Definition secret_nonce_fingerprint (secret_nonce : bytes) : bytes :=
  sha256 (SECRET_NONCE_FINGERPRINT_DOMAIN ++ secret_nonce).

Definition validate_integrity (self : PersistedSession)
    : result unit AdaptorSessionJournalError :=
  let? _ := identity_validate self.(ps_identity) in
  match self.(ps_secret_nonce), self.(ps_phase) with
  | Some secret, (Session_Reserved | Session_CommitmentExchanged | Session_NoncesExchanged) =>
      if secret_nonce_fingerprint secret ==? self.(ps_secret_nonce_fingerprint)
      then Ok tt else Err CorruptSession
  | None, (Session_PartialPersisted | Session_PeerPartialVerified
          | Session_PresignatureVerified) => Ok tt
  | _, _ => Err CorruptSession
  end.

Definition decode_session (session_id : bytes) (encoded : EncodedSession)
    : result PersistedSession AdaptorSessionJournalError :=
  let? id := fixed_bytes 32 session_id in
  let? role := AdaptorSessionRole_parse encoded.(enc_local_role) in
  let? signing_domain := fixed_bytes 32 encoded.(enc_signing_domain) in
  let? exact_message := fixed_bytes 32 encoded.(enc_exact_message) in
  let? adaptor_point := fixed_bytes 33 encoded.(enc_adaptor_point) in
  let? maker_public_key := fixed_bytes 33 encoded.(enc_maker_public_key) in
  let? taker_public_key := fixed_bytes 33 encoded.(enc_taker_public_key) in
  let? secret_nonce := fixed_optional 97 encoded.(enc_secret_nonce) in
  let? fingerprint := fixed_bytes 32 encoded.(enc_secret_nonce_fingerprint) in
  let? own_commitment := fixed_bytes 32 encoded.(enc_own_commitment) in
  let? own_public_nonce := fixed_bytes 66 encoded.(enc_own_public_nonce) in
  let? peer_commitment := fixed_optional 32 encoded.(enc_peer_commitment) in
  let? peer_public_nonce := fixed_optional 66 encoded.(enc_peer_public_nonce) in
  let? own_partial := fixed_optional 32 encoded.(enc_own_partial) in
  let? peer_partial := fixed_optional 32 encoded.(enc_peer_partial) in
  let? presignature := fixed_optional 65 encoded.(enc_presignature) in
  let? phase := AdaptorSessionPhase_parse encoded.(enc_phase) in
  let session :=
    {| ps_identity :=
         {| ident_session_id := id;
            ident_local_role := role;
            ident_signing_domain := signing_domain;
            ident_exact_message := exact_message;
            ident_adaptor_point := adaptor_point;
            ident_ordered_public_keys := (maker_public_key, taker_public_key) |};
       ps_secret_nonce := secret_nonce;
       ps_secret_nonce_fingerprint := fingerprint;
       ps_own_commitment := own_commitment;
       ps_own_public_nonce := own_public_nonce;
       ps_peer_commitment := peer_commitment;
       ps_peer_public_nonce := peer_public_nonce;
       ps_own_partial := own_partial;
       ps_peer_partial := peer_partial;
       ps_presignature := presignature;
       ps_phase := phase |} in
  let? _ := validate_integrity session in
  Ok session.

Definition load_session (t : session_table) (session_id : bytes)
    : result (option PersistedSession) AdaptorSessionJournalError :=
  match t !! session_id with
  | None => Ok None
  | Some row => let? session := decode_session session_id row in Ok (Some session)
  end.

Definition required_session (t : session_table) (identity : AdaptorSessionIdentity)
    : result PersistedSession AdaptorSessionJournalError :=
  let? _ := identity_validate identity in
  let? loaded := load_session t identity.(ident_session_id) in
  let? session := ok_or loaded MissingSession in
  let? _ := validate_integrity session in
  if session.(ps_identity) !=? identity then Err SessionConflict else Ok session.

(** ** Operations *)

Definition reserved_row (reservation : AdaptorSessionReservation) : EncodedSession :=
  let identity := reservation.(reservation_identity) in
  {| enc_local_role := AdaptorSessionRole_name identity.(ident_local_role);
     enc_signing_domain := identity.(ident_signing_domain);
     enc_exact_message := identity.(ident_exact_message);
     enc_adaptor_point := identity.(ident_adaptor_point);
     enc_maker_public_key := identity.(ident_ordered_public_keys).1;
     enc_taker_public_key := identity.(ident_ordered_public_keys).2;
     enc_secret_nonce := Some reservation.(reservation_secret_nonce);
     enc_secret_nonce_fingerprint :=
       secret_nonce_fingerprint reservation.(reservation_secret_nonce);
     enc_own_commitment := reservation.(reservation_own_commitment);
     enc_own_public_nonce := reservation.(reservation_own_public_nonce);
     enc_peer_commitment := None;
     enc_peer_public_nonce := None;
     enc_own_partial := None;
     enc_peer_partial := None;
     enc_presignature := None;
     enc_phase := "reserved" |}.

Definition reserve (t : session_table) (reservation : AdaptorSessionReservation)
    : session_table * result ReservationCommit AdaptorSessionJournalError :=
  immediate_transaction t (
    let identity := reservation.(reservation_identity) in
    let? _ := identity_validate identity in
    let fingerprint := secret_nonce_fingerprint reservation.(reservation_secret_nonce) in
    let? loaded := load_session t identity.(ident_session_id) in
    match loaded with
    | Some existing =>
        let? _ := validate_integrity existing in
        if (existing.(ps_identity) !=? identity)
           || (existing.(ps_own_public_nonce) !=? reservation.(reservation_own_public_nonce))
           || (existing.(ps_own_commitment) !=? reservation.(reservation_own_commitment))
           || (existing.(ps_secret_nonce_fingerprint) !=? fingerprint)
        then Err SessionConflict
        else Ok (t, {| reserved_phase := existing.(ps_phase);
                       reserved_own_commitment := existing.(ps_own_commitment);
                       reserved_was_replay := true |})
    | None =>
        if unique_taken session_unique t fingerprint then Err SecretNonceReuse
        else
          let? t' := ok_or (sql_insert session_check session_unique t
                              identity.(ident_session_id) (reserved_row reservation))
                       Journal_Store in
          Ok (t', {| reserved_phase := Session_Reserved;
                     reserved_own_commitment := reservation.(reservation_own_commitment);
                     reserved_was_replay := false |})
    end).

Definition record_peer_commitment (t : session_table) (identity : AdaptorSessionIdentity)
    (commitment : AdaptorNonceCommitment)
    : session_table * result AdaptorTransitionCommit AdaptorSessionJournalError :=
  immediate_transaction t (
    let? existing := required_session t identity in
    match existing.(ps_peer_commitment) with
    | Some durable =>
        if durable !=? commitment then Err SessionConflict
        else Ok (t, {| transition_phase := existing.(ps_phase); transition_was_replay := true |})
    | None =>
        if existing.(ps_phase) !=? Session_Reserved then Err Journal_InvalidPhase
        else
          let? t' := update_session t identity.(ident_session_id)
            (λ row, (row.(enc_phase) ==? "reserved") && is_null row.(enc_peer_commitment))
            (λ row, enc_with row row.(enc_secret_nonce) (Some commitment)
                      row.(enc_peer_public_nonce) row.(enc_own_partial) row.(enc_peer_partial)
                      row.(enc_presignature) "commitment_exchanged") in
          Ok (t', {| transition_phase := Session_CommitmentExchanged;
                     transition_was_replay := false |})
    end).

Definition reveal_own_public_nonce (t : session_table) (identity : AdaptorSessionIdentity)
    : result AdaptorPublicNonce AdaptorSessionJournalError :=
  let? existing := required_session t identity in
  match existing.(ps_peer_commitment) with
  | None => Err Journal_InvalidPhase
  | Some _ => Ok existing.(ps_own_public_nonce)
  end.

Definition record_verified_peer_public_nonce (t : session_table)
    (identity : AdaptorSessionIdentity) (public_nonce : AdaptorPublicNonce)
    : session_table * result AdaptorTransitionCommit AdaptorSessionJournalError :=
  immediate_transaction t (
    let? existing := required_session t identity in
    match existing.(ps_peer_public_nonce) with
    | Some durable =>
        if durable !=? public_nonce then Err SessionConflict
        else Ok (t, {| transition_phase := existing.(ps_phase); transition_was_replay := true |})
    | None =>
        if (existing.(ps_phase) !=? Session_CommitmentExchanged)
           || is_null existing.(ps_peer_commitment)
        then Err Journal_InvalidPhase
        else
          let? t' := update_session t identity.(ident_session_id)
            (λ row, (row.(enc_phase) ==? "commitment_exchanged")
                    && not_null row.(enc_peer_commitment) && is_null row.(enc_peer_public_nonce))
            (λ row, enc_with row row.(enc_secret_nonce) row.(enc_peer_commitment)
                      (Some public_nonce) row.(enc_own_partial) row.(enc_peer_partial)
                      row.(enc_presignature) "nonces_exchanged") in
          Ok (t', {| transition_phase := Session_NoncesExchanged;
                     transition_was_replay := false |})
    end).

(** The signing transaction, with the material its callback was called with. *)
Definition sign_and_persist_partial (t : session_table) (identity : AdaptorSessionIdentity)
    (signer : SigningMaterial → option AdaptorPartialSignature)
    : session_table * result PartialSignatureCommit AdaptorSessionJournalError
      * option SigningMaterial :=
  match required_session t identity with
  | Err e => (t, Err e, None)
  | Ok existing =>
      match existing.(ps_own_partial) with
      | Some partial =>
          (t, Ok {| committed_partial := partial; partial_was_replay := true |}, None)
      | None =>
          if existing.(ps_phase) !=? Session_NoncesExchanged
          then (t, Err Journal_InvalidPhase, None)
          else
            match existing.(ps_secret_nonce) with
            | None => (t, Err CorruptSession, None)
            | Some secret_nonce =>
                if secret_nonce_fingerprint secret_nonce
                   !=? existing.(ps_secret_nonce_fingerprint)
                then (t, Err CorruptSession, None)
                else
                  match existing.(ps_peer_public_nonce) with
                  | None => (t, Err CorruptSession, None)
                  | Some peer_public_nonce =>
                      let material :=
                        {| signing_identity := existing.(ps_identity);
                           signing_secret_nonce := secret_nonce;
                           signing_own_public_nonce := existing.(ps_own_public_nonce);
                           signing_peer_public_nonce := peer_public_nonce |} in
                      let outcome := immediate_transaction t (
                        let? partial := ok_or (signer material) SigningFailed in
                        let? t' := update_session t identity.(ident_session_id)
                          (λ row, (row.(enc_phase) ==? "nonces_exchanged")
                                  && not_null row.(enc_secret_nonce)
                                  && is_null row.(enc_own_partial))
                          (λ row, enc_with row None row.(enc_peer_commitment)
                                    row.(enc_peer_public_nonce) (Some partial)
                                    row.(enc_peer_partial) row.(enc_presignature)
                                    "partial_persisted") in
                        Ok (t', {| committed_partial := partial;
                                   partial_was_replay := false |})) in
                      (outcome, Some material)
                  end
            end
      end
  end.

Definition record_verified_peer_partial (t : session_table) (identity : AdaptorSessionIdentity)
    (partial : AdaptorPartialSignature)
    : session_table * result AdaptorTransitionCommit AdaptorSessionJournalError :=
  immediate_transaction t (
    let? existing := required_session t identity in
    match existing.(ps_peer_partial) with
    | Some durable =>
        if durable !=? partial then Err SessionConflict
        else Ok (t, {| transition_phase := existing.(ps_phase); transition_was_replay := true |})
    | None =>
        if (existing.(ps_phase) !=? Session_PartialPersisted)
           || is_null existing.(ps_own_partial)
        then Err Journal_InvalidPhase
        else
          let? t' := update_session t identity.(ident_session_id)
            (λ row, (row.(enc_phase) ==? "partial_persisted")
                    && not_null row.(enc_own_partial) && is_null row.(enc_peer_partial))
            (λ row, enc_with row row.(enc_secret_nonce) row.(enc_peer_commitment)
                      row.(enc_peer_public_nonce) row.(enc_own_partial) (Some partial)
                      row.(enc_presignature) "peer_partial_verified") in
          Ok (t', {| transition_phase := Session_PeerPartialVerified;
                     transition_was_replay := false |})
    end).

Definition record_verified_presignature (t : session_table) (identity : AdaptorSessionIdentity)
    (presignature : AdaptorPresignature)
    : session_table * result AdaptorTransitionCommit AdaptorSessionJournalError :=
  immediate_transaction t (
    let? existing := required_session t identity in
    match existing.(ps_presignature) with
    | Some durable =>
        if durable !=? presignature then Err SessionConflict
        else Ok (t, {| transition_phase := existing.(ps_phase); transition_was_replay := true |})
    | None =>
        if (existing.(ps_phase) !=? Session_PeerPartialVerified)
           || is_null existing.(ps_peer_partial)
        then Err Journal_InvalidPhase
        else
          let? t' := update_session t identity.(ident_session_id)
            (λ row, (row.(enc_phase) ==? "peer_partial_verified")
                    && not_null row.(enc_peer_partial) && is_null row.(enc_presignature))
            (λ row, enc_with row row.(enc_secret_nonce) row.(enc_peer_commitment)
                      row.(enc_peer_public_nonce) row.(enc_own_partial) row.(enc_peer_partial)
                      (Some presignature) "presignature_verified") in
          Ok (t', {| transition_phase := Session_PresignatureVerified;
                     transition_was_replay := false |})
    end).

Definition load (t : session_table) (session_id : bytes)
    : result (option AdaptorSessionSnapshot) AdaptorSessionJournalError :=
  let? loaded := load_session t session_id in
  match loaded with
  | None => Ok None
  | Some session =>
      let? _ := validate_integrity session in
      Ok (Some (ps_snapshot session))
  end.

End adaptor_journal.
