(* ===== verification/AdaptorFacts.v ===== *)
(** * Correctness of the adaptor-session journal

    Runs of the journal of [AdaptorJournal], with calls lost before or after
    their commit.  The central theorem: whatever crashes, retries and signer
    failures occur, a secret nonce is only ever handed to a signer for one
    transcript.  Then: a persisted partial is final, a public nonce is revealed
    only behind a durable peer commitment, sessions only move forward, and the
    journal never corrupts. *)

From stdpp Require Import base gmap strings list numbers relations.
From S2P Require Import Prelude PublicEffectPlan SqlTable AdaptorJournal.

Open Scope Z_scope.

(** ** Rows and sessions *)

Definition encode_session (s : PersistedSession) : EncodedSession :=
  let i := s.(ps_identity) in
  {| enc_local_role := AdaptorSessionRole_name i.(ident_local_role);
     enc_signing_domain := i.(ident_signing_domain);
     enc_exact_message := i.(ident_exact_message);
     enc_adaptor_point := i.(ident_adaptor_point);
     enc_maker_public_key := i.(ident_ordered_public_keys).1;
     enc_taker_public_key := i.(ident_ordered_public_keys).2;
     enc_secret_nonce := s.(ps_secret_nonce);
     enc_secret_nonce_fingerprint := s.(ps_secret_nonce_fingerprint);
     enc_own_commitment := s.(ps_own_commitment);
     enc_own_public_nonce := s.(ps_own_public_nonce);
     enc_peer_commitment := s.(ps_peer_commitment);
     enc_peer_public_nonce := s.(ps_peer_public_nonce);
     enc_own_partial := s.(ps_own_partial);
     enc_peer_partial := s.(ps_peer_partial);
     enc_presignature := s.(ps_presignature);
     enc_phase := phase_text s.(ps_phase) |}.

Abbreviation session_key s := (ident_session_id (ps_identity s)).

(** The secret of a session is the one its fingerprint was taken of. *)
Definition secret_bound (sha256 : bytes → bytes) (s : PersistedSession) : Prop :=
  ∀ n, s.(ps_secret_nonce) = Some n →
    secret_nonce_fingerprint sha256 n = s.(ps_secret_nonce_fingerprint).

Definition session_good (sha256 : bytes → bytes) (s : PersistedSession) : Prop :=
  session_check (session_key s) (encode_session s) = true ∧ secret_bound sha256 s.

(** What the schema's phase constraint says of a session. *)
Definition phase_fields (s : PersistedSession) : Prop :=
  match s.(ps_phase) with
  | Session_Reserved =>
      is_Some s.(ps_secret_nonce) ∧ s.(ps_peer_commitment) = None ∧
      s.(ps_peer_public_nonce) = None ∧ s.(ps_own_partial) = None ∧
      s.(ps_peer_partial) = None ∧ s.(ps_presignature) = None
  | Session_CommitmentExchanged =>
      is_Some s.(ps_secret_nonce) ∧ is_Some s.(ps_peer_commitment) ∧
      s.(ps_peer_public_nonce) = None ∧ s.(ps_own_partial) = None ∧
      s.(ps_peer_partial) = None ∧ s.(ps_presignature) = None
  | Session_NoncesExchanged =>
      is_Some s.(ps_secret_nonce) ∧ is_Some s.(ps_peer_commitment) ∧
      is_Some s.(ps_peer_public_nonce) ∧ s.(ps_own_partial) = None ∧
      s.(ps_peer_partial) = None ∧ s.(ps_presignature) = None
  | Session_PartialPersisted =>
      s.(ps_secret_nonce) = None ∧ is_Some s.(ps_peer_commitment) ∧
      is_Some s.(ps_peer_public_nonce) ∧ is_Some s.(ps_own_partial) ∧
      s.(ps_peer_partial) = None ∧ s.(ps_presignature) = None
  | Session_PeerPartialVerified =>
      s.(ps_secret_nonce) = None ∧ is_Some s.(ps_peer_commitment) ∧
      is_Some s.(ps_peer_public_nonce) ∧ is_Some s.(ps_own_partial) ∧
      is_Some s.(ps_peer_partial) ∧ s.(ps_presignature) = None
  | Session_PresignatureVerified =>
      s.(ps_secret_nonce) = None ∧ is_Some s.(ps_peer_commitment) ∧
      is_Some s.(ps_peer_public_nonce) ∧ is_Some s.(ps_own_partial) ∧
      is_Some s.(ps_peer_partial) ∧ is_Some s.(ps_presignature)
  end.

Lemma is_null_true {A} (o : option A) : is_null o = true ↔ o = None.
Proof. by destruct o. Qed.
Lemma not_null_true {A} (o : option A) : not_null o = true ↔ is_Some o.
Proof.
  destruct o; cbn; split; [by eexists|done|done|by intros [? ?]].
Qed.

Lemma phase_shape_fields s : phase_shape (encode_session s) = true ↔ phase_fields s.
Proof.
  unfold phase_shape, phase_fields. cbn. rewrite <- ?is_null_true.
  destruct (ps_phase s); cbn;
    rewrite <- ?is_null_true, <- ?not_null_true;
    repeat match goal with
    | |- context [bool_decide (?a = ?b)] =>
        first [rewrite (bool_decide_eq_true_2 (a = b)) by done
              |rewrite (bool_decide_eq_false_2 (a = b)) by done]
    end; cbn; rewrite ?orb_false_r, ?andb_true_iff; tauto.
Qed.

Lemma phase_parse_text p : AdaptorSessionPhase_parse (phase_text p) = Ok p.
Proof. by destruct p. Qed.

Lemma role_parse_name r : AdaptorSessionRole_parse (AdaptorSessionRole_name r) = Ok r.
Proof. by destruct r. Qed.

Lemma fixed_bytes_len n b : len_is n b = true → fixed_bytes n b = Ok b.
Proof. unfold len_is, fixed_bytes. by intros ->. Qed.

Lemma fixed_optional_len n o : null_or_len n o = true → fixed_optional n o = Ok o.
Proof. destruct o; cbn; [|done]. intros Hl. by rewrite fixed_bytes_len. Qed.

Lemma session_check_shape k row :
  session_check k row = true →
  phase_shape row = true ∧ row.(enc_maker_public_key) ≠ row.(enc_taker_public_key).
Proof. unfold session_check. intros Hc. bool_props. done. Qed.

Lemma good_fields sha256 s : session_good sha256 s → phase_fields s.
Proof. intros [[Hp _]%session_check_shape _]. by apply phase_shape_fields. Qed.

Lemma good_integrity sha256 s : session_good sha256 s → validate_integrity sha256 s = Ok tt.
Proof.
  intros Hg. pose proof (good_fields _ _ Hg) as Hf. destruct Hg as [Hc Hb].
  apply session_check_shape in Hc as [_ Hk]. cbn in Hk.
  unfold validate_integrity, identity_validate.
  rewrite bool_decide_eq_false_2 by done. cbn. unfold phase_fields in Hf.
  destruct (ps_phase s); destruct Hf as (Hs&_);
    first [rewrite Hs; done
          |destruct Hs as [n Hs]; rewrite Hs, bool_decide_eq_true_2 by (by apply Hb); done].
Qed.

(** A row that encodes a good session decodes to it. *)
Lemma decode_encode sha256 s :
  session_good sha256 s → decode_session sha256 (session_key s) (encode_session s) = Ok s.
Proof.
  intros Hg. pose proof (good_integrity _ _ Hg) as Hi. destruct Hg as [Hc _].
  unfold session_check in Hc. bool_props. unfold decode_session. cbn in *.
  rewrite role_parse_name, phase_parse_text.
  rewrite !fixed_bytes_len by done. cbn. rewrite !fixed_optional_len by done. cbn.
  destruct s as [[? ? ? ? ? [? ?]] ? ? ? ? ? ? ? ? ? ?]; cbn in *. by rewrite Hi.
Qed.

(** ** The invariant of the table *)

Definition session_inv (sha256 : bytes → bytes) (t : session_table) : Prop :=
  table_ok session_check session_unique t ∧
  ∀ k row, t !! k = Some row →
    ∃ s, row = encode_session s ∧ session_key s = k ∧ secret_bound sha256 s.

Lemma session_inv_empty sha256 : session_inv sha256 ∅.
Proof. split; [apply table_ok_empty|]. intros k row H. by rewrite lookup_empty in H. Qed.

Lemma inv_row sha256 t k row :
  session_inv sha256 t → t !! k = Some row →
  ∃ s, row = encode_session s ∧ session_key s = k ∧ session_good sha256 s.
Proof.
  intros [[Hc _] Hrows] Hk. destruct (Hrows _ _ Hk) as (s&->&<-&Hb). exists s.
  split_and!; try done. split; [by apply Hc|done].
Qed.

Lemma encode_session_inj s s' :
  encode_session s = encode_session s' → session_key s = session_key s' → s = s'.
Proof.
  destruct s as [[? r ? ? ? [? ?]] ? ? ? ? ? ? ? ? ? p], s' as [[? r' ? ? ? [? ?]] ? ? ? ? ? ? ? ? ? p'].
  unfold encode_session; cbn. intros [= Hr -> -> -> -> -> -> -> -> -> -> -> -> -> -> Hp] ->.
  apply (f_equal AdaptorSessionPhase_parse) in Hp. rewrite !phase_parse_text in Hp.
  apply (f_equal AdaptorSessionRole_parse) in Hr. rewrite !role_parse_name in Hr.
  by injection Hp as ->; injection Hr as ->.
Qed.

Lemma load_session_Some sha256 t k s :
  session_inv sha256 t →
  load_session sha256 t k = Ok (Some s) ↔ t !! k = Some (encode_session s) ∧ session_key s = k.
Proof.
  intros Hinv. unfold load_session. destruct (t !! k) as [row|] eqn:Hk; [|naive_solver].
  destruct (inv_row _ _ _ _ Hinv Hk) as (s0&->&<-&Hg). rewrite decode_encode by done. cbn.
  split; [by intros [= <-]|]. intros [Heq Hkey]. apply (inj Some) in Heq.
  do 2 f_equal. by apply encode_session_inj.
Qed.

Lemma load_session_total sha256 t k :
  session_inv sha256 t → ∃ o, load_session sha256 t k = Ok o.
Proof.
  intros Hinv. unfold load_session. destruct (t !! k) as [row|] eqn:Hk; [|eauto].
  destruct (inv_row _ _ _ _ Hinv Hk) as (s0&->&<-&Hg). rewrite decode_encode by done. cbn. eauto.
Qed.

Lemma required_Ok sha256 t identity s :
  session_inv sha256 t →
  required_session sha256 t identity = Ok s ↔
  t !! identity.(ident_session_id) = Some (encode_session s) ∧ s.(ps_identity) = identity.
Proof.
  intros Hinv. unfold required_session. split.
  - intros (u&_&H)%result_bind_Ok. apply result_bind_Ok in H as (o&Hl&H).
    apply result_bind_Ok in H as (s1&Hs&H). destruct o as [s2|]; [|done]. injection Hs as ->.
    apply result_bind_Ok in H as (u'&_&H). case_bool_decide; [|done]. injection H as <-.
    apply load_session_Some in Hl as [Hl _]; done.
  - intros [Hk <-]. destruct (inv_row _ _ _ _ Hinv Hk) as (s0&Heq&Hkey&Hg).
    apply encode_session_inj in Heq; [|done]. subst s0.
    pose proof (good_integrity _ _ Hg) as Hi. pose proof Hi as Hi'.
    unfold validate_integrity in Hi'. apply result_bind_Ok in Hi' as (u&Hu&_).
    rewrite Hu. cbn [result_bind].
    rewrite (proj2 (load_session_Some sha256 t _ s Hinv)) by done. cbn [ok_or result_bind].
    rewrite Hi. cbn [result_bind]. by rewrite bool_decide_eq_true_2.
Qed.

(** ** The moves of a session *)

Definition ps_with (s : PersistedSession) (secret_nonce peer_commitment peer_public_nonce
    own_partial peer_partial presignature : option bytes) (phase : AdaptorSessionPhase)
    : PersistedSession :=
  {| ps_identity := s.(ps_identity); ps_secret_nonce := secret_nonce;
     ps_secret_nonce_fingerprint := s.(ps_secret_nonce_fingerprint);
     ps_own_commitment := s.(ps_own_commitment);
     ps_own_public_nonce := s.(ps_own_public_nonce); ps_peer_commitment := peer_commitment;
     ps_peer_public_nonce := peer_public_nonce; ps_own_partial := own_partial;
     ps_peer_partial := peer_partial; ps_presignature := presignature; ps_phase := phase |}.

Inductive session_edge : PersistedSession → PersistedSession → Prop :=
| se_commitment s c :
    s.(ps_phase) = Session_Reserved →
    session_edge s (ps_with s s.(ps_secret_nonce) (Some c) s.(ps_peer_public_nonce)
      s.(ps_own_partial) s.(ps_peer_partial) s.(ps_presignature) Session_CommitmentExchanged)
| se_nonce s n :
    s.(ps_phase) = Session_CommitmentExchanged →
    session_edge s (ps_with s s.(ps_secret_nonce) s.(ps_peer_commitment) (Some n)
      s.(ps_own_partial) s.(ps_peer_partial) s.(ps_presignature) Session_NoncesExchanged)
| se_sign s p :
    s.(ps_phase) = Session_NoncesExchanged →
    session_edge s (ps_with s None s.(ps_peer_commitment) s.(ps_peer_public_nonce)
      (Some p) s.(ps_peer_partial) s.(ps_presignature) Session_PartialPersisted)
| se_peer_partial s p :
    s.(ps_phase) = Session_PartialPersisted →
    session_edge s (ps_with s s.(ps_secret_nonce) s.(ps_peer_commitment)
      s.(ps_peer_public_nonce) s.(ps_own_partial) (Some p) s.(ps_presignature)
      Session_PeerPartialVerified)
| se_presignature s p :
    s.(ps_phase) = Session_PeerPartialVerified →
    session_edge s (ps_with s s.(ps_secret_nonce) s.(ps_peer_commitment)
      s.(ps_peer_public_nonce) s.(ps_own_partial) s.(ps_peer_partial) (Some p)
      Session_PresignatureVerified).

Definition fresh_session (sha256 : bytes → bytes) (r : AdaptorSessionReservation)
    : PersistedSession :=
  {| ps_identity := r.(reservation_identity);
     ps_secret_nonce := Some r.(reservation_secret_nonce);
     ps_secret_nonce_fingerprint := secret_nonce_fingerprint sha256 r.(reservation_secret_nonce);
     ps_own_commitment := r.(reservation_own_commitment);
     ps_own_public_nonce := r.(reservation_own_public_nonce);
     ps_peer_commitment := None; ps_peer_public_nonce := None; ps_own_partial := None;
     ps_peer_partial := None; ps_presignature := None; ps_phase := Session_Reserved |}.

Lemma reserved_row_encode sha256 r :
  reserved_row sha256 r = encode_session (fresh_session sha256 r).
Proof. done. Qed.

(** Every way a call changes the table. *)
Inductive session_step (sha256 : bytes → bytes) (t : session_table) : session_table → Prop :=
| ss_same : session_step sha256 t t
| ss_reserve r :
    t !! r.(reservation_identity).(ident_session_id) = None →
    session_step sha256 t
      (<[r.(reservation_identity).(ident_session_id) := encode_session (fresh_session sha256 r)]> t)
| ss_move s s' :
    t !! session_key s = Some (encode_session s) → session_edge s s' →
    session_step sha256 t (<[session_key s := encode_session s']> t).

Definition step_ok (sha256 : bytes → bytes) (t t' : session_table) : Prop :=
  session_inv sha256 t' ∧ session_step sha256 t t'.

Lemma step_ok_same sha256 t : session_inv sha256 t → step_ok sha256 t t.
Proof. split; [done|constructor]. Qed.

Lemma edge_secret_bound sha256 s s' :
  session_edge s s' → secret_bound sha256 s → secret_bound sha256 s'.
Proof. destruct 1; unfold secret_bound; cbn; try done. Qed.

Lemma edge_key s s' : session_edge s s' → s'.(ps_identity) = s.(ps_identity).
Proof. by destruct 1. Qed.

(** An [UPDATE] of a session's own row, as a move. *)
Lemma update_session_move sha256 t s s' where_ set t' :
  session_inv sha256 t → t !! session_key s = Some (encode_session s) → session_edge s s' →
  set (encode_session s) = encode_session s' →
  update_session t (session_key s) where_ set = Ok t' →
  t' = <[session_key s := encode_session s']> t ∧ step_ok sha256 t t'.
Proof.
  intros Hinv Hk Hedge Hset Hu. unfold update_session in Hu.
  destruct (sql_update _ _ _ _ _) as [[t1 n]|] eqn:E; [|done].
  destruct (Z.eqb_spec n 1); [|done]. injection Hu as ->. subst n.
  apply sql_update_Some_1 in E as (row&Hrow&_&Hc&->). rewrite Hk in Hrow. injection Hrow as <-.
  rewrite Hset in *. split; [done|]. split; [|by constructor].
  destruct (inv_row _ _ _ _ Hinv Hk) as (s0&Heq&Hkey&[_ Hb]).
  apply encode_session_inj in Heq; [|done]. subst s0. destruct Hinv as [Hok Hrows]. split.
  - eapply table_ok_replace; [done..|]. unfold session_unique. by destruct Hedge.
  - intros j row [[<- <-]|[? Hj]]%lookup_insert_Some; [|by eauto].
    exists s'. rewrite (edge_key _ _ Hedge). split_and!; try done. by eapply edge_secret_bound.
Qed.

(** ** Every call is a step *)

Lemma reserve_step sha256 t r :
  session_inv sha256 t → step_ok sha256 t (reserve sha256 t r).1.
Proof.
  intros Hinv. unfold reserve. cbv zeta.
  destruct (identity_validate _); [|by apply step_ok_same]. cbn [result_bind].
  destruct (load_session sha256 t _) as [[s|]|] eqn:Hl; [..|by apply step_ok_same]; cbn [result_bind].
  { destruct (validate_integrity sha256 s); [|by apply step_ok_same]. cbn [result_bind].
    destruct (_ || _ || _ || _); by apply step_ok_same. }
  destruct (unique_taken _ _ _); [by apply step_ok_same|].
  destruct (sql_insert _ _ _ _ _) as [t'|] eqn:E; [|by apply step_ok_same]. cbn.
  pose proof E as (->&Hn&Hc&Hu)%sql_insert_Some. rewrite reserved_row_encode in *.
  split; [|by constructor]. split; [eapply table_ok_insert; [apply Hinv|exact E]|].
  intros j row [[<- <-]|[? Hj]]%lookup_insert_Some; [|by apply Hinv].
  exists (fresh_session sha256 r). split_and!; try done. intros n [= <-]. done.
Qed.

(** Open a transition: the session it found, and the update it made if any. *)
Ltac open_required Hinv :=
  let s := fresh "s" in let Hr := fresh "Hr" in let Hk := fresh "Hk" in
  match goal with
  | |- context [required_session ?h ?t ?i] =>
      destruct (required_session h t i) as [s|] eqn:Hr; cbn [result_bind];
      [apply required_Ok in Hr as [Hk <-]; [|exact Hinv]|by apply step_ok_same]
  end.

Ltac close_update :=
  match goal with
  | |- context [update_session ?t ?k ?w ?f] =>
      let t' := fresh "t'" in let E := fresh "E" in
      destruct (update_session t k w f) as [t'|] eqn:E; [|by apply step_ok_same]; cbn
  end.

Lemma peer_commitment_step sha256 t i c :
  session_inv sha256 t → step_ok sha256 t (record_peer_commitment sha256 t i c).1.
Proof.
  intros Hinv. unfold record_peer_commitment. open_required Hinv.
  destruct (ps_peer_commitment s); [case_bool_decide; by apply step_ok_same|].
  case_bool_decide; [cbn [negb]|by apply step_ok_same]. close_update.
  by eapply update_session_move in E as [_ ?]; [|done..|by apply (se_commitment s c)|].
Qed.

Lemma peer_nonce_step sha256 t i n :
  session_inv sha256 t → step_ok sha256 t (record_verified_peer_public_nonce sha256 t i n).1.
Proof.
  intros Hinv. unfold record_verified_peer_public_nonce. open_required Hinv.
  destruct (ps_peer_public_nonce s); [case_bool_decide; by apply step_ok_same|].
  destruct (_ || _) eqn:Ec; [by apply step_ok_same|]. bool_props. close_update.
  by eapply update_session_move in E as [_ ?]; [|done..|by apply (se_nonce s n)|].
Qed.

Lemma peer_partial_step sha256 t i p :
  session_inv sha256 t → step_ok sha256 t (record_verified_peer_partial sha256 t i p).1.
Proof.
  intros Hinv. unfold record_verified_peer_partial. open_required Hinv.
  destruct (ps_peer_partial s); [case_bool_decide; by apply step_ok_same|].
  destruct (_ || _) eqn:Ec; [by apply step_ok_same|]. bool_props. close_update.
  by eapply update_session_move in E as [_ ?]; [|done..|by apply (se_peer_partial s p)|].
Qed.

Lemma presignature_step sha256 t i p :
  session_inv sha256 t → step_ok sha256 t (record_verified_presignature sha256 t i p).1.
Proof.
  intros Hinv. unfold record_verified_presignature. open_required Hinv.
  destruct (ps_presignature s); [case_bool_decide; by apply step_ok_same|].
  destruct (_ || _) eqn:Ec; [by apply step_ok_same|]. bool_props. close_update.
  by eapply update_session_move in E as [_ ?]; [|done..|by apply (se_presignature s p)|].
Qed.

(** What a signing call does: it replays the durable partial, or calls the
    signer on the session found, or neither. *)
Lemma sign_cases sha256 t i signer :
  session_inv sha256 t →
  (sign_and_persist_partial sha256 t i signer).2 = None ∧
    (sign_and_persist_partial sha256 t i signer).1.1 = t ∨
  ∃ s n p,
    t !! i.(ident_session_id) = Some (encode_session s) ∧ s.(ps_identity) = i ∧
    s.(ps_phase) = Session_NoncesExchanged ∧ s.(ps_secret_nonce) = Some n ∧
    s.(ps_peer_public_nonce) = Some p ∧
    (sign_and_persist_partial sha256 t i signer).2 =
      Some {| signing_identity := i; signing_secret_nonce := n;
              signing_own_public_nonce := s.(ps_own_public_nonce);
              signing_peer_public_nonce := p |} ∧
    step_ok sha256 t (sign_and_persist_partial sha256 t i signer).1.1.
Proof.
  intros Hinv. unfold sign_and_persist_partial.
  destruct (required_session sha256 t i) as [s|] eqn:Hr; [|by left].
  apply required_Ok in Hr as [Hk <-]; [|done].
  destruct (ps_own_partial s); [by left|]. case_bool_decide as Hp; [cbn [negb]|by left].
  destruct (ps_secret_nonce s) as [n|] eqn:Hn; [|by left]. case_bool_decide; [cbn [negb]|by left].
  destruct (ps_peer_public_nonce s) as [q|] eqn:Hq; [|by left]. right.
  exists s, n, q. split_and!; try done. cbv zeta.
  destruct (signer _) as [p|]; [cbn|by apply step_ok_same]. close_update.
  by eapply update_session_move in E as [_ ?]; [|done..|by apply (se_sign s p)|].
Qed.

(** ** Calls and runs *)

Inductive SessionCall :=
| CallReserve (r : AdaptorSessionReservation)
| CallPeerCommitment (i : AdaptorSessionIdentity) (c : AdaptorNonceCommitment)
| CallPeerNonce (i : AdaptorSessionIdentity) (n : AdaptorPublicNonce)
| CallSign (i : AdaptorSessionIdentity)
    (signer : SigningMaterial → option AdaptorPartialSignature)
| CallPeerPartial (i : AdaptorSessionIdentity) (p : AdaptorPartialSignature)
| CallPresignature (i : AdaptorSessionIdentity) (p : AdaptorPresignature).

Definition session_call_table (sha256 : bytes → bytes) (t : session_table) (c : SessionCall)
    : session_table :=
  match c with
  | CallReserve r => (reserve sha256 t r).1
  | CallPeerCommitment i x => (record_peer_commitment sha256 t i x).1
  | CallPeerNonce i n => (record_verified_peer_public_nonce sha256 t i n).1
  | CallSign i signer => (sign_and_persist_partial sha256 t i signer).1.1
  | CallPeerPartial i p => (record_verified_peer_partial sha256 t i p).1
  | CallPresignature i p => (record_verified_presignature sha256 t i p).1
  end.

Definition session_next (sha256 : bytes → bytes) (t : session_table) (c : SessionCall * Fate)
    : session_table :=
  match c.2 with RolledBack => t | _ => session_call_table sha256 t c.1 end.

(** The material a call hands to its signer, also when the call is then lost. *)
Definition signing_of (sha256 : bytes → bytes) (t : session_table) (c : SessionCall)
    : list SigningMaterial :=
  match c with
  | CallSign i signer => option_list (sign_and_persist_partial sha256 t i signer).2
  | _ => []
  end.

Fixpoint run_sessions (sha256 : bytes → bytes) (t : session_table)
    (calls : list (SessionCall * Fate)) : session_table :=
  match calls with
  | [] => t
  | c :: calls => run_sessions sha256 (session_next sha256 t c) calls
  end.

(** All signer invocations of a run. *)
Fixpoint signings (sha256 : bytes → bytes) (t : session_table)
    (calls : list (SessionCall * Fate)) : list SigningMaterial :=
  match calls with
  | [] => []
  | c :: calls => signing_of sha256 t c.1 ++ signings sha256 (session_next sha256 t c) calls
  end.

Lemma run_sessions_app sha256 t pre post :
  run_sessions sha256 t (pre ++ post) = run_sessions sha256 (run_sessions sha256 t pre) post.
Proof. revert t. induction pre as [|c pre IH]; intros t; cbn; [done|apply IH]. Qed.

Lemma session_call_step sha256 t c :
  session_inv sha256 t → step_ok sha256 t (session_call_table sha256 t c).
Proof.
  intros Hinv. destruct c; cbn; eauto using reserve_step, peer_commitment_step, peer_nonce_step,
    peer_partial_step, presignature_step.
  destruct (sign_cases sha256 t i signer Hinv) as [[_ ->]|(s&n&p&_&_&_&_&_&_&Hs)];
    [by apply step_ok_same|done].
Qed.

Lemma session_next_step sha256 t c :
  session_inv sha256 t → step_ok sha256 t (session_next sha256 t c).
Proof.
  intros Hinv. unfold session_next.
  destruct (c.2); [by apply session_call_step|by apply step_ok_same|by apply session_call_step].
Qed.

Lemma run_sessions_inv sha256 t calls :
  session_inv sha256 t → session_inv sha256 (run_sessions sha256 t calls).
Proof.
  revert t. induction calls as [|c calls IH]; intros t Hinv; cbn; [done|].
  apply IH. by apply session_next_step.
Qed.

Lemma reachable_sessions sha256 calls : session_inv sha256 (run_sessions sha256 ∅ calls).
Proof. apply run_sessions_inv, session_inv_empty. Qed.

(** ** The history of one session *)

Definition phase_rank (p : AdaptorSessionPhase) : Z :=
  match p with
  | Session_Reserved => 0
  | Session_CommitmentExchanged => 1
  | Session_NoncesExchanged => 2
  | Session_PartialPersisted => 3
  | Session_PeerPartialVerified => 4
  | Session_PresignatureVerified => 5
  end.

(** A recorded value stays. *)
Definition kept {A} (o o' : option A) : Prop := ∀ v, o = Some v → o' = Some v.

(** What a later state of a session keeps of an earlier one. *)
Definition extends (s s' : PersistedSession) : Prop :=
  s'.(ps_identity) = s.(ps_identity) ∧
  s'.(ps_secret_nonce_fingerprint) = s.(ps_secret_nonce_fingerprint) ∧
  s'.(ps_own_commitment) = s.(ps_own_commitment) ∧
  s'.(ps_own_public_nonce) = s.(ps_own_public_nonce) ∧
  kept s.(ps_peer_commitment) s'.(ps_peer_commitment) ∧
  kept s.(ps_peer_public_nonce) s'.(ps_peer_public_nonce) ∧
  kept s.(ps_own_partial) s'.(ps_own_partial) ∧
  kept s.(ps_peer_partial) s'.(ps_peer_partial) ∧
  kept s.(ps_presignature) s'.(ps_presignature) ∧
  kept s'.(ps_secret_nonce) s.(ps_secret_nonce) ∧
  phase_rank s.(ps_phase) ≤ phase_rank s'.(ps_phase).

Lemma kept_refl {A} (o : option A) : kept o o.
Proof. by intros v. Qed.

Lemma extends_refl s : extends s s.
Proof. unfold extends. split_and!; auto using kept_refl. lia. Qed.

Lemma extends_trans s s' s'' : extends s s' → extends s' s'' → extends s s''.
Proof.
  unfold extends, kept. intros (?&?&?&?&?&?&?&?&?&?&?) (?&?&?&?&?&?&?&?&?&?&?).
  split_and!; try congruence; eauto. lia.
Qed.

Lemma edge_extends s s' : phase_fields s → session_edge s s' → extends s s'.
Proof.
  unfold phase_fields, extends, kept. intros Hf Hedge.
  destruct Hedge as [s c Hp|s c Hp|s c Hp|s c Hp|s c Hp]; rewrite Hp in Hf; cbn;
    destruct_and? Hf; rewrite Hp; split_and!; try done; try (intros; congruence); cbn; lia.
Qed.

Lemma session_history sha256 t t' s :
  session_inv sha256 t → session_step sha256 t t' →
  t !! session_key s = Some (encode_session s) →
  ∃ s', t' !! session_key s = Some (encode_session s') ∧ extends s s'.
Proof.
  intros Hinv Hstep Hk.
  destruct (inv_row _ _ _ _ Hinv Hk) as (s0&Heq&Hkey&Hg).
  apply encode_session_inj in Heq; [|done]. subst s0.
  destruct Hstep as [|r Hn|s1 s1' Hk1 Hedge].
  - exists s. split; [done|apply extends_refl].
  - exists s. rewrite lookup_insert_ne by congruence. split; [done|apply extends_refl].
  - destruct (decide (session_key s1 = session_key s)) as [He|Hne].
    + rewrite He in Hk1 |- *. rewrite Hk in Hk1. apply (inj Some) in Hk1.
      apply encode_session_inj in Hk1; [|done]. subst s1. exists s1'.
      rewrite lookup_insert_eq. split; [done|]. apply edge_extends; [by eapply good_fields|done].
    + exists s. rewrite lookup_insert_ne by done. split; [done|apply extends_refl].
Qed.

Lemma run_session_history sha256 t calls s :
  session_inv sha256 t → t !! session_key s = Some (encode_session s) →
  ∃ s', run_sessions sha256 t calls !! session_key s = Some (encode_session s') ∧ extends s s'.
Proof.
  revert t s. induction calls as [|c calls IH]; intros t s Hinv Hk; cbn.
  { exists s. split; [done|apply extends_refl]. }
  destruct (session_next_step sha256 t c Hinv) as [Hinv' Hstep].
  destruct (session_history _ _ _ _ Hinv Hstep Hk) as (s1&Hk1&He1).
  assert (Hid : session_key s1 = session_key s) by (by destruct He1 as [-> _]).
  rewrite <- Hid in Hk1. destruct (IH _ _ Hinv' Hk1) as (s2&Hk2&He2).
  exists s2. rewrite <- Hid. split; [done|by eapply extends_trans].
Qed.

(** ** Signings *)

(** The session a signer was called for, as the table knows it. *)
Definition bound (sha256 : bytes → bytes) (t : session_table) (m : SigningMaterial) : Prop :=
  ∃ s, t !! m.(signing_identity).(ident_session_id) = Some (encode_session s) ∧
    s.(ps_identity) = m.(signing_identity) ∧
    s.(ps_secret_nonce_fingerprint) = secret_nonce_fingerprint sha256 m.(signing_secret_nonce) ∧
    s.(ps_own_public_nonce) = m.(signing_own_public_nonce) ∧
    s.(ps_peer_public_nonce) = Some m.(signing_peer_public_nonce).

Lemma bound_run sha256 t calls m :
  session_inv sha256 t → bound sha256 t m → bound sha256 (run_sessions sha256 t calls) m.
Proof.
  intros Hinv (s&Hk&Hi&Hf&Ho&Hp). rewrite <- Hi in Hk.
  destruct (run_session_history sha256 t calls s Hinv Hk) as (s'&Hk'&He).
  destruct He as (Hi'&Hf'&_&Ho'&_&Hp'&_). exists s'. rewrite <- Hi.
  split_and!; try done; try congruence. by apply Hp'.
Qed.

Lemma signing_bound sha256 t c m :
  session_inv sha256 t → m ∈ signing_of sha256 t c → bound sha256 t m.
Proof.
  intros Hinv Hm. destruct c as [| | |i signer| |]; cbn in Hm; try (by apply elem_of_nil in Hm).
  destruct (sign_cases sha256 t i signer Hinv) as [[Hn _]|(s&n&p&Hk&Hi&_&Hs&Hp&Heq&_)].
  { rewrite Hn in Hm. by apply elem_of_nil in Hm. }
  rewrite Heq in Hm. apply list_elem_of_singleton in Hm. subst m. exists s. cbn.
  split_and!; try done.
  destruct (inv_row _ _ _ _ Hinv Hk) as (s0&Heq0&Hkey&[_ Hb]).
  apply encode_session_inj in Heq0; [|by rewrite Hkey, Hi]. subst s0. by rewrite (Hb n).
Qed.

Lemma signings_bound sha256 t calls m :
  session_inv sha256 t → m ∈ signings sha256 t calls →
  bound sha256 (run_sessions sha256 t calls) m.
Proof.
  revert t. induction calls as [|c calls IH]; intros t Hinv Hm; cbn in *.
  { by apply elem_of_nil in Hm. }
  destruct (session_next_step sha256 t c Hinv) as [Hinv' Hstep].
  apply elem_of_app in Hm as [Hm|Hm]; [|by apply IH].
  apply bound_run; [done|]. apply signing_bound in Hm; [|done].
  change (session_next sha256 t c) with (run_sessions sha256 t [c]). by apply bound_run.
Qed.

Lemma load_good sha256 t k snap :
  session_inv sha256 t →
  load sha256 t k = Ok (Some snap) ↔
  ∃ s, t !! k = Some (encode_session s) ∧ session_key s = k ∧ snap = ps_snapshot s.
Proof.
  intros Hinv. unfold load. split.
  - intros (o&Hl&H)%result_bind_Ok. destruct o as [s|]; [|done].
    apply load_session_Some in Hl as [Hk Hkey]; [|done].
    apply result_bind_Ok in H as (u&_&[= <-]). eauto.
  - intros (s&Hk&Hkey&->). rewrite (proj2 (load_session_Some sha256 t k s Hinv)) by done. cbn.
    destruct (inv_row _ _ _ _ Hinv Hk) as (s0&Heq&Hkey0&Hg).
    apply encode_session_inj in Heq; [|congruence]. subst s0. by rewrite good_integrity.
Qed.

Lemma load_session_None sha256 t k :
  session_inv sha256 t → load_session sha256 t k = Ok None → t !! k = None.
Proof.
  intros Hinv Hl. destruct (t !! k) as [row|] eqn:Hk; [|done].
  destruct (inv_row _ _ _ _ Hinv Hk) as (s&->&Hkey&Hg).
  by rewrite (proj2 (load_session_Some sha256 t k s Hinv)) in Hl.
Qed.

(** ** Properties *)

(** C5: nonce safety: over any run of the journal, whatever sessions, retries,
    signer failures and losses before or after a commit it contains, two signer
    invocations with the same secret nonce are given exactly the same
    transcript: identity, message, adaptor point, keys, own and peer nonce. *)
Theorem nonce_signs_one_transcript sha256 calls m m' :
  m ∈ signings sha256 ∅ calls → m' ∈ signings sha256 ∅ calls →
  m.(signing_secret_nonce) = m'.(signing_secret_nonce) → m = m'.
Proof.
  intros Hm Hm' Hs. pose proof (session_inv_empty sha256) as H0.
  destruct (signings_bound _ _ _ _ H0 Hm) as (s&Hk&Hi&Hf&Ho&Hp).
  destruct (signings_bound _ _ _ _ H0 Hm') as (s'&Hk'&Hi'&Hf'&Ho'&Hp').
  destruct (reachable_sessions sha256 calls) as [[_ Hu] _].
  assert (Hkey : m.(signing_identity).(ident_session_id) = m'.(signing_identity).(ident_session_id)).
  { eapply Hu; [exact Hk|exact Hk'|]. unfold session_unique; cbn. congruence. }
  rewrite Hkey, Hk' in Hk. apply (inj Some) in Hk.
  apply encode_session_inj in Hk; [|congruence]. subst s'.
  destruct m, m'; cbn in *. congruence.
Qed.

(** A persisted partial signature is final: once a session holds one, every
    later signing call, after any further calls, returns exactly those bytes as
    a replay without calling the signer or touching the table, and the secret
    nonce is gone from the session's row. *)
Theorem partial_is_final sha256 pre post signer id snap p :
  load sha256 (run_sessions sha256 ∅ pre) id = Ok (Some snap) →
  snap.(session_own_partial) = Some p →
  let t := run_sessions sha256 ∅ (pre ++ post) in
  sign_and_persist_partial sha256 t snap.(session_identity) signer =
    (t, Ok {| committed_partial := p; partial_was_replay := true |}, None) ∧
  ∃ row, t !! id = Some row ∧ row.(enc_secret_nonce) = None.
Proof.
  intros Hl Hp t. pose proof (reachable_sessions sha256 pre) as Hinv.
  apply load_good in Hl as (s&Hk&Hkey&->); [|done]. cbn in *. subst id.
  destruct (run_session_history sha256 _ post s Hinv Hk) as (s'&Hk'&He).
  rewrite <- run_sessions_app in Hk'. fold t in Hk'.
  pose proof (reachable_sessions sha256 (pre ++ post)) as Hinv'. fold t in Hinv'.
  pose proof He as (Hi&_&_&_&_&_&Hpart&_). apply Hpart in Hp.
  unfold sign_and_persist_partial.
  rewrite (proj2 (required_Ok sha256 t (ps_identity s) s' Hinv')) by done. rewrite Hp.
  split; [done|]. exists (encode_session s'). split; [done|]. cbn.
  destruct (inv_row _ _ _ _ Hinv' Hk') as (s0&Heq&Hkey&Hg).
  apply encode_session_inj in Heq; [|by rewrite Hkey, Hi]. subst s0.
  apply good_fields in Hg. unfold phase_fields in Hg.
  destruct (ps_phase s'); destruct_and? Hg; congruence.
Qed.

(** The local public nonce is only revealed behind a durable peer
    commitment: if the journal reveals it, the session holds a peer commitment
    that no later call replaces or removes, and shows the same nonce from then
    on. *)
Theorem nonce_revealed_behind_commitment sha256 pre i n :
  reveal_own_public_nonce sha256 (run_sessions sha256 ∅ pre) i = Ok n →
  ∃ c, ∀ post, ∃ snap,
    load sha256 (run_sessions sha256 ∅ (pre ++ post)) i.(ident_session_id) = Ok (Some snap) ∧
    snap.(session_identity) = i ∧ snap.(session_peer_commitment) = Some c ∧
    snap.(session_own_public_nonce) = Some n.
Proof.
  intros H. pose proof (reachable_sessions sha256 pre) as Hinv.
  unfold reveal_own_public_nonce in H. apply result_bind_Ok in H as (s&Hr&H).
  apply required_Ok in Hr as [Hk <-]; [|done].
  destruct (ps_peer_commitment s) as [c|] eqn:Hc; [|done]. injection H as <-.
  exists c. intros post.
  destruct (run_session_history sha256 _ post s Hinv Hk) as (s'&Hk'&He).
  rewrite <- run_sessions_app in Hk'. destruct He as (Hi&_&_&Ho&Hpc&_).
  apply Hpc in Hc. exists (ps_snapshot s'). cbn. rewrite Hc, Ho, Hi. split_and!; try done.
  apply load_good; [apply reachable_sessions|]. exists s'. by rewrite Hi.
Qed.

(** Sessions only move forward: a reserved session stays loadable, keeps its
    identity and commitment, never changes or loses a recorded peer
    commitment, nonce, partial or presignature, and its phase never goes back. *)
Theorem sessions_move_forward sha256 pre post id a :
  load sha256 (run_sessions sha256 ∅ pre) id = Ok (Some a) →
  ∃ b, load sha256 (run_sessions sha256 ∅ (pre ++ post)) id = Ok (Some b) ∧
    b.(session_identity) = a.(session_identity) ∧
    b.(session_own_commitment) = a.(session_own_commitment) ∧
    kept a.(session_own_public_nonce) b.(session_own_public_nonce) ∧
    kept a.(session_peer_commitment) b.(session_peer_commitment) ∧
    kept a.(session_peer_public_nonce) b.(session_peer_public_nonce) ∧
    kept a.(session_own_partial) b.(session_own_partial) ∧
    kept a.(session_peer_partial) b.(session_peer_partial) ∧
    kept a.(session_presignature) b.(session_presignature) ∧
    phase_rank a.(session_phase) ≤ phase_rank b.(session_phase).
Proof.
  intros Hl. pose proof (reachable_sessions sha256 pre) as Hinv.
  apply load_good in Hl as (s&Hk&<-&->); [|done].
  destruct (run_session_history sha256 _ post s Hinv Hk) as (s'&Hk'&He).
  rewrite <- run_sessions_app in Hk'. exists (ps_snapshot s').
  destruct He as (Hi&_&Hoc&Ho&Hpc&Hpn&Hop&Hpp&Hpr&_&Hrank). cbn. split_and!; try done.
  - apply load_good; [apply reachable_sessions|]. exists s'. by rewrite Hi.
  - intros v. destruct (ps_peer_commitment s) as [c|] eqn:Hc; [|done].
    rewrite (Hpc c eq_refl). congruence.
Qed.

(** On any reachable journal, a well-formed reservation has exactly these
    outcomes: an exact retry is replayed at the session's current phase, a
    different one under the same identifier conflicts, a secret nonce whose
    fingerprint is taken is refused, and otherwise the session is reserved and
    can be loaded. *)
Theorem reserve_outcome sha256 calls r :
  session_check r.(reservation_identity).(ident_session_id) (reserved_row sha256 r) = true →
  let t := run_sessions sha256 ∅ calls in
  let fingerprint := secret_nonce_fingerprint sha256 r.(reservation_secret_nonce) in
  (reserve sha256 t r).2 =
    match load_session sha256 t r.(reservation_identity).(ident_session_id) with
    | Ok (Some s) =>
        if bool_decide (s.(ps_identity) = r.(reservation_identity))
           && bool_decide (s.(ps_own_public_nonce) = r.(reservation_own_public_nonce))
           && bool_decide (s.(ps_own_commitment) = r.(reservation_own_commitment))
           && bool_decide (s.(ps_secret_nonce_fingerprint) = fingerprint)
        then Ok {| reserved_phase := s.(ps_phase);
                   reserved_own_commitment := s.(ps_own_commitment);
                   reserved_was_replay := true |}
        else Err SessionConflict
    | _ => if unique_taken session_unique t fingerprint then Err SecretNonceReuse
           else Ok {| reserved_phase := Session_Reserved;
                      reserved_own_commitment := r.(reservation_own_commitment);
                      reserved_was_replay := false |}
    end ∧
  (is_ok (reserve sha256 t r).2 = true →
   ∃ s, load_session sha256 (reserve sha256 t r).1
          r.(reservation_identity).(ident_session_id) = Ok (Some s) ∧
        s.(ps_identity) = r.(reservation_identity) ∧
        s.(ps_own_commitment) = r.(reservation_own_commitment)).
Proof.
  intros Hc t fingerprint. pose proof (reachable_sessions sha256 calls) as Hinv. fold t in Hinv.
  assert (Hid : identity_validate r.(reservation_identity) = Ok tt).
  { apply session_check_shape in Hc as [_ Hne]. cbn in Hne. unfold identity_validate.
    by rewrite bool_decide_eq_false_2. }
  unfold reserve. cbv zeta. rewrite Hid. cbn [result_bind]. fold fingerprint.
  destruct (load_session_total sha256 t (reservation_identity r).(ident_session_id) Hinv)
    as [[s|] Hl]; rewrite Hl; cbn [result_bind].
  - pose proof Hl as [Hk Hkey]%load_session_Some; [|done].
    destruct (inv_row _ _ _ _ Hinv Hk) as (s0&Heq&Hkey0&Hg).
    apply encode_session_inj in Heq; [|congruence]. subst s0.
    rewrite good_integrity by done. cbn [result_bind].
    repeat case_bool_decide; cbn; split; try done. intros _. eauto.
  - destruct (unique_taken session_unique t fingerprint) eqn:Hu; [done|].
    assert (Hn : t !! (reservation_identity r).(ident_session_id) = None).
    { by eapply load_session_None. }
    pose proof (reserve_step sha256 t r Hinv) as [Hinv' _].
    unfold reserve in Hinv'. cbv zeta in Hinv'. rewrite Hid, Hl in Hinv'. cbn [result_bind] in Hinv'.
    fold fingerprint in Hinv'. rewrite Hu in Hinv'.
    rewrite (proj2 (sql_insert_Some _ _ t _ (reserved_row sha256 r) _)) in Hinv' |- * by done.
    cbn in *. split; [done|]. intros _. exists (fresh_session sha256 r).
    split; [|done]. apply load_session_Some; [done|]. by rewrite lookup_insert_eq.
Qed.

(** No run corrupts the journal: every row of a reachable table satisfies
    the schema's checks, a nonce fingerprint belongs to one session, and
    loading any session succeeds. *)
Theorem sessions_never_corrupt sha256 calls id :
  table_ok session_check session_unique (run_sessions sha256 ∅ calls) ∧
  is_ok (load sha256 (run_sessions sha256 ∅ calls) id) = true.
Proof.
  pose proof (reachable_sessions sha256 calls) as Hinv. split; [apply Hinv|].
  unfold load. destruct (load_session_total sha256 _ id Hinv) as [[s|] Hl]; rewrite Hl; cbn; [|done].
  apply load_session_Some in Hl as [Hk Hkey]; [|done].
  destruct (inv_row _ _ _ _ Hinv Hk) as (s0&Heq&Hkey0&Hg).
  apply encode_session_inj in Heq; [|congruence]. subst s0. by rewrite good_integrity.
Qed.

(** ** Witnesses *)

Module SessionSamples.

(** A stand-in digest of 32 bytes: the last bytes of the input. *)
Definition digest (b : bytes) : bytes := take 32 (reverse b).

Definition identity : AdaptorSessionIdentity :=
  {| ident_session_id := replicate 32 Byte.x01;
     ident_local_role := Session_Maker;
     ident_signing_domain := replicate 32 Byte.x02;
     ident_exact_message := replicate 32 Byte.x03;
     ident_adaptor_point := replicate 33 Byte.x04;
     ident_ordered_public_keys := (replicate 33 Byte.x05, replicate 33 Byte.x06) |}.

Definition reservation : AdaptorSessionReservation :=
  {| reservation_identity := identity;
     reservation_secret_nonce := replicate 97 Byte.x07;
     reservation_own_public_nonce := replicate 66 Byte.x08;
     reservation_own_commitment := replicate 32 Byte.x09 |}.

Definition peer_commitment : bytes := replicate 32 Byte.x0a.
Definition peer_nonce : bytes := replicate 66 Byte.x0b.
Definition partial : bytes := replicate 32 Byte.x0c.
Definition signer (m : SigningMaterial) : option AdaptorPartialSignature := Some partial.

Definition committed : list (SessionCall * Fate) :=
  [(CallReserve reservation, Delivered);
   (CallPeerCommitment identity peer_commitment, CommittedUnseen)].

(** A signing whose commit is lost, so that the signer runs twice. *)
Definition signed : list (SessionCall * Fate) :=
  committed ++ [(CallPeerNonce identity peer_nonce, Delivered);
                (CallSign identity signer, RolledBack);
                (CallSign identity signer, Delivered)].

Definition material : SigningMaterial :=
  {| signing_identity := identity;
     signing_secret_nonce := replicate 97 Byte.x07;
     signing_own_public_nonce := replicate 66 Byte.x08;
     signing_peer_public_nonce := peer_nonce |}.

Definition snapshot : AdaptorSessionSnapshot :=
  {| session_identity := identity;
     session_phase := Session_PartialPersisted;
     session_own_commitment := replicate 32 Byte.x09;
     session_own_public_nonce := Some (replicate 66 Byte.x08);
     session_peer_commitment := Some peer_commitment;
     session_peer_public_nonce := Some peer_nonce;
     session_own_partial := Some partial;
     session_peer_partial := None;
     session_presignature := None |}.

Lemma signed_twice : signings digest ∅ signed = [material; material].
Proof. vm_compute. reflexivity. Qed.

Lemma signed_snapshot :
  load digest (run_sessions digest ∅ signed) identity.(ident_session_id) = Ok (Some snapshot).
Proof. vm_compute. reflexivity. Qed.

Lemma committed_reveals :
  reveal_own_public_nonce digest (run_sessions digest ∅ committed) identity
  = Ok (replicate 66 Byte.x08).
Proof. vm_compute. reflexivity. Qed.

End SessionSamples.

Module SessionWitnesses.
Import SessionSamples.

Lemma nonce_signs_one_transcript_witness :
  material ∈ signings digest ∅ signed ∧ material = material.
Proof.
  split; [rewrite signed_twice; apply list_elem_of_here|].
  apply (nonce_signs_one_transcript digest signed);
    [rewrite signed_twice; apply list_elem_of_here..|reflexivity].
Defined.

Lemma partial_is_final_witness :
  (sign_and_persist_partial digest (run_sessions digest ∅ (signed ++ signed)) identity
     (λ _, None)).2 = None.
Proof.
  destruct (partial_is_final digest signed signed (λ _, None) identity.(ident_session_id)
    snapshot partial signed_snapshot eq_refl) as [H _].
  change (session_identity snapshot) with identity in H. rewrite H. reflexivity.
Defined.

Lemma nonce_revealed_behind_commitment_witness :
  ∃ c, ∀ post, ∃ snap,
    load digest (run_sessions digest ∅ (committed ++ post)) identity.(ident_session_id)
      = Ok (Some snap) ∧ snap.(session_peer_commitment) = Some c.
Proof.
  destruct (nonce_revealed_behind_commitment digest committed identity _ committed_reveals)
    as [c H].
  exists c. intros post. destruct (H post) as (snap&Hl&_&Hc&_). exists snap. exact (conj Hl Hc).
Defined.

Lemma sessions_move_forward_witness :
  ∃ b, load digest (run_sessions digest ∅ (signed ++ signed)) identity.(ident_session_id)
         = Ok (Some b) ∧ kept (Some partial) b.(session_own_partial).
Proof.
  destruct (sessions_move_forward digest signed signed identity.(ident_session_id) snapshot
    signed_snapshot) as (b&Hl&_&_&_&_&_&Hp&_).
  exists b. exact (conj Hl Hp).
Defined.

Lemma reserve_outcome_witness :
  (reserve digest (run_sessions digest ∅ signed) reservation).2 =
    Ok {| reserved_phase := Session_PartialPersisted;
          reserved_own_commitment := replicate 32 Byte.x09;
          reserved_was_replay := true |}.
Proof.
  destruct (reserve_outcome digest signed reservation) as [H _]; [vm_compute; reflexivity|].
  rewrite H. vm_compute. reflexivity.
Defined.

End SessionWitnesses.
