(* ===== verification/BridgeJournal.v ===== *)
(** * The bridge operation journal

    Models [crates/swap-store/src/bridge_operation_journal.rs]: the durable
    request identity and discovery window of every bridge call, reserved before
    the call and advanced only by a definitive observation.  The table is a map
    from its primary key to the remaining columns; an operation is a function
    from the table to the table its transaction leaves and its result. *)

From stdpp Require Import base gmap strings list numbers.
From S2P Require Import Prelude SwapCore Decimal BridgeValues SqlTable StoreBase.

Open Scope Z_scope.

(** ** Operations and keys *)

Inductive BridgeOperationKind :=
| NativeEscrowPrepare
| NativeEscrowExactObserve
| NativeEscrowDiscoveryObserve
| NativeEscrowInitializeSubmit
| NativeEscrowFundSubmit
| RevealingClaimPrepare
| RevealingClaimExactObserve
| RevealingClaimDiscoveryObserve
| RevealingClaimSubmit
| NativeRefundPrepare
| NativeRefundEligibilityObserve
| NativeRefundExactObserve
| NativeRefundDiscoveryObserve
| NativeRefundSubmit.

Definition BridgeOperationKind_name (o : BridgeOperationKind) : string :=
  match o with
  | NativeEscrowPrepare => "native_escrow_prepare"
  | NativeEscrowExactObserve => "native_escrow_exact_observe"
  | NativeEscrowDiscoveryObserve => "native_escrow_discovery_observe"
  | NativeEscrowInitializeSubmit => "native_escrow_initialize_submit"
  | NativeEscrowFundSubmit => "native_escrow_fund_submit"
  | RevealingClaimPrepare => "revealing_claim_prepare"
  | RevealingClaimExactObserve => "revealing_claim_exact_observe"
  | RevealingClaimDiscoveryObserve => "revealing_claim_discovery_observe"
  | RevealingClaimSubmit => "revealing_claim_submit"
  | NativeRefundPrepare => "native_refund_prepare"
  | NativeRefundEligibilityObserve => "native_refund_eligibility_observe"
  | NativeRefundExactObserve => "native_refund_exact_observe"
  | NativeRefundDiscoveryObserve => "native_refund_discovery_observe"
  | NativeRefundSubmit => "native_refund_submit"
  end.

Definition is_observation (o : BridgeOperationKind) : bool :=
  match o with
  | NativeEscrowExactObserve | NativeEscrowDiscoveryObserve | RevealingClaimExactObserve
  | RevealingClaimDiscoveryObserve | NativeRefundEligibilityObserve | NativeRefundExactObserve
  | NativeRefundDiscoveryObserve => true
  | _ => false
  end.

Definition requires_window (o : BridgeOperationKind) : bool :=
  match o with
  | NativeEscrowDiscoveryObserve | RevealingClaimDiscoveryObserve | NativeRefundExactObserve
  | NativeRefundDiscoveryObserve => true
  | _ => false
  end.

Record BridgeOperationKey := {
  bridge_run_id : RunId;
  bridge_swap_id : SwapId;
  bridge_local_role : Participant;
  bridge_operation : BridgeOperationKind
}.

Record BridgeRequestSpec := {
  spec_request_id : RequestId;
  spec_discovery_window : option DiscoveryWindow
}.

Record DurableBridgeRequestContext := {
  context_poll_sequence : Z;
  context_request_id : RequestId;
  context_discovery_window : option DiscoveryWindow
}.

#[global] Instance BridgeOperationKind_eq_dec : EqDecision BridgeOperationKind.
Proof. solve_decision. Defined.
#[global] Instance BridgeOperationKey_eq_dec : EqDecision BridgeOperationKey.
Proof. solve_decision. Defined.
#[global] Instance BridgeRequestSpec_eq_dec : EqDecision BridgeRequestSpec.
Proof. solve_decision. Defined.
#[global] Instance DurableBridgeRequestContext_eq_dec : EqDecision DurableBridgeRequestContext.
Proof. solve_decision. Defined.

Definition matches_spec (self : DurableBridgeRequestContext) (spec : BridgeRequestSpec) : bool :=
  (self.(context_request_id) ==? spec.(spec_request_id))
  && (self.(context_discovery_window) ==? spec.(spec_discovery_window)).

Inductive BridgeObservationOutcome := Outcome_Succeeded | Outcome_TypedError.

#[global] Instance BridgeObservationOutcome_eq_dec : EqDecision BridgeObservationOutcome.
Proof. solve_decision. Defined.

Definition BridgeObservationOutcome_name (o : BridgeObservationOutcome) : string :=
  match o with Outcome_Succeeded => "succeeded" | Outcome_TypedError => "typed_error" end.

Record BridgeContextCommit := {
  commit_context : DurableBridgeRequestContext;
  context_was_replay : bool
}.

(** ** The table *)

Record ContextRow := {
  row_request_id : string;
  row_window_start_height : option string;
  row_window_max_blocks : option Z;
  row_context_state : string;
  row_completion_outcome : option string
}.

(** [(run_id, swap_id, local_role, operation)], and the key with the sequence. *)
Abbreviation operation_key := (string * string * string * string)%type.
Abbreviation context_key := (operation_key * Z)%type.
Abbreviation context_table := (gmap context_key ContextRow).

Definition operation_sql_key (key : BridgeOperationKey) : operation_key :=
  (key.(bridge_run_id).(RunId_as_str), key.(bridge_swap_id).(SwapId_as_str),
   participant_name key.(bridge_local_role), BridgeOperationKind_name key.(bridge_operation)).

Definition operation_names : list string :=
  ["native_escrow_prepare"; "native_escrow_exact_observe"; "native_escrow_discovery_observe";
   "native_escrow_initialize_submit"; "native_escrow_fund_submit"; "revealing_claim_prepare";
   "revealing_claim_exact_observe"; "revealing_claim_discovery_observe";
   "revealing_claim_submit"; "native_refund_prepare"; "native_refund_eligibility_observe";
   "native_refund_exact_observe"; "native_refund_discovery_observe"; "native_refund_submit"].

Definition context_check (k : context_key) (row : ContextRow) : bool :=
  let '(run_id, swap_id, local_role, operation, poll_sequence) := k in
  str_in local_role ["maker"; "taker"]
  && str_in operation operation_names
  && (0 <=? poll_sequence)
  && match row.(row_window_max_blocks) with None => true | Some n => 0 <? n end
  && str_in row.(row_context_state) ["active"; "completed"]
  && match row.(row_completion_outcome) with
     | None => true
     | Some o => str_in o ["succeeded"; "typed_error"]
     end
  && ((is_null row.(row_window_start_height) && is_null row.(row_window_max_blocks))
      || (not_null row.(row_window_start_height) && not_null row.(row_window_max_blocks)))
  && (((row.(row_context_state) ==? "active") && is_null row.(row_completion_outcome))
      || ((row.(row_context_state) ==? "completed") && not_null row.(row_completion_outcome))).

(** [bridge_operation_request_once (run_id, local_role, request_id)] *)
Definition request_once (k : context_key) (row : ContextRow) : string * string * string :=
  let '(run_id, swap_id, local_role, operation, poll_sequence) := k in
  (run_id, local_role, row.(row_request_id)).

(** The rows of one operation with their sequence. *)
Definition operation_rows (t : context_table) (k : operation_key) : list (Z * ContextRow) :=
  omap (λ e, if e.1.1 ==? k then Some (e.1.2, e.2) else None) (map_to_list t).

Definition active_rows (t : context_table) (k : operation_key) : list (Z * ContextRow) :=
  List.filter (λ e : Z * ContextRow, e.2.(row_context_state) ==? "active") (operation_rows t k).

(** [bridge_operation_one_active]: an insert of an active row of an operation
    that has one is refused. *)
Definition insert_context_row (t : context_table) (k : context_key) (row : ContextRow)
    : result context_table StoreError :=
  if (row.(row_context_state) ==? "active") && negb (blen (active_rows t k.1) =? 0)
  then Err StoreError_Sqlite
  else ok_or (sql_insert context_check request_once t k row) StoreError_Sqlite.

(** ** Encoding *)

Definition sequence_to_sql (sequence : Z) : result Z StoreError :=
  if i64_max <? sequence then Err BridgePollSequenceOverflow else Ok sequence.

Definition encode_window (window : option DiscoveryWindow) : option string * option Z :=
  match window with
  | None => (None, None)
  | Some window => (Some (to_string window.(window_start_height)), Some window.(window_max_blocks))
  end.

Definition decode_context (sequence : Z) (row : ContextRow)
    : result DurableBridgeRequestContext StoreError :=
  let protocol {E} (_ : E) := BridgeProtocolValue in
  let? poll_sequence := try_from_column u64_max sequence BridgePollSequenceOverflow in
  let? request_id := map_err (RequestId_new row.(row_request_id)) protocol in
  let? discovery_window :=
    match row.(row_window_start_height), row.(row_window_max_blocks) with
    | None, None => Ok None
    | Some start, Some maximum =>
        let? start := ok_or (parse_unsigned u64_max start) InvalidBridgeOperationContext in
        let? maximum := try_from_column u32_max maximum InvalidBridgeOperationContext in
        let? window := map_err (DiscoveryWindow_new start maximum) protocol in
        Ok (Some window)
    | _, _ => Err InvalidBridgeOperationContext
    end in
  Ok {| context_poll_sequence := poll_sequence; context_request_id := request_id;
        context_discovery_window := discovery_window |}.

(** ** Queries *)

Definition validate_request_shape (key : BridgeOperationKey) (request : BridgeRequestSpec)
    : result unit StoreError :=
  if Bool.eqb (not_null request.(spec_discovery_window)) (requires_window key.(bridge_operation))
  then Ok tt else Err InvalidBridgeOperationContext.

(** The unique index leaves at most one row to the query. *)
Definition load_active_context (t : context_table) (key : BridgeOperationKey)
    : result (option DurableBridgeRequestContext) StoreError :=
  match active_rows t (operation_sql_key key) with
  | [] => Ok None
  | (sequence, row) :: _ => let? context := decode_context sequence row in Ok (Some context)
  end.

(** [SELECT MAX(poll_sequence)] *)
Definition max_sequence (rows : list (Z * ContextRow)) : option Z :=
  foldr (λ e acc, Some (match acc with None => e.1 | Some m => Z.max e.1 m end)) None rows.

Definition next_poll_sequence (t : context_table) (key : BridgeOperationKey)
    : result Z StoreError :=
  match max_sequence (operation_rows t (operation_sql_key key)) with
  | None => Ok 0
  | Some value =>
      let? value := try_from_column u64_max value BridgePollSequenceOverflow in
      ok_or (checked_add u64_max value 1) BridgePollSequenceOverflow
  end.

Definition ensure_request_id_unused (t : context_table) (key : BridgeOperationKey)
    (request_id : RequestId) : result unit StoreError :=
  if unique_taken request_once t
       (key.(bridge_run_id).(RunId_as_str), participant_name key.(bridge_local_role),
        request_id.(RequestId_as_str))
  then Err BridgeRequestIdReused
  else Ok tt.

Definition completed_context_exists (t : context_table) (key : BridgeOperationKey)
    (expected : DurableBridgeRequestContext) (outcome : BridgeObservationOutcome)
    : result bool StoreError :=
  let '(start_height, max_blocks) := encode_window expected.(context_discovery_window) in
  let? sequence := sequence_to_sql expected.(context_poll_sequence) in
  Ok match t !! (operation_sql_key key, sequence) with
     | None => false
     | Some row =>
         (row.(row_request_id) ==? expected.(context_request_id).(RequestId_as_str))
         && (row.(row_window_start_height) ==? start_height)
         && (row.(row_window_max_blocks) ==? max_blocks)
         && (row.(row_context_state) ==? "completed")
         && (row.(row_completion_outcome) ==? Some (BridgeObservationOutcome_name outcome))
     end.

Definition insert_active_context (t : context_table) (key : BridgeOperationKey)
    (context : DurableBridgeRequestContext) : result context_table StoreError :=
  let '(start_height, max_blocks) := encode_window context.(context_discovery_window) in
  let? sequence := sequence_to_sql context.(context_poll_sequence) in
  insert_context_row t (operation_sql_key key, sequence)
    {| row_request_id := context.(context_request_id).(RequestId_as_str);
       row_window_start_height := start_height;
       row_window_max_blocks := max_blocks;
       row_context_state := "active";
       row_completion_outcome := None |}.

(** ** Operations of the journal *)

Definition begin_or_resume (t : context_table) (key : BridgeOperationKey)
    (requested : BridgeRequestSpec) : context_table * result BridgeContextCommit StoreError :=
  immediate_transaction t (
    let? _ := validate_request_shape key requested in
    let? loaded := load_active_context t key in
    match loaded with
    | Some active =>
        if matches_spec active requested
        then Ok (t, {| commit_context := active; context_was_replay := true |})
        else Err BridgeOperationContextConflict
    | None =>
        let? _ := ensure_request_id_unused t key requested.(spec_request_id) in
        let? poll_sequence := next_poll_sequence t key in
        let context :=
          {| context_poll_sequence := poll_sequence;
             context_request_id := requested.(spec_request_id);
             context_discovery_window := requested.(spec_discovery_window) |} in
        let? t' := insert_active_context t key context in
        Ok (t', {| commit_context := context; context_was_replay := false |})
    end).

Definition resume_after_ambiguous (t : context_table) (key : BridgeOperationKey)
    (expected : DurableBridgeRequestContext) : result DurableBridgeRequestContext StoreError :=
  let? loaded := load_active_context t key in
  let? active := ok_or loaded MissingBridgeOperationContext in
  if active ==? expected then Ok active else Err BridgeOperationContextConflict.

(** The [UPDATE] that completes the active row. *)
Definition complete_active_row (t : context_table) (key : BridgeOperationKey) (sequence : Z)
    (outcome : BridgeObservationOutcome) : result context_table StoreError :=
  let? sequence := sequence_to_sql sequence in
  match sql_update context_check t (operation_sql_key key, sequence)
          (λ row, row.(row_context_state) ==? "active")
          (λ row, {| row_request_id := row.(row_request_id);
                     row_window_start_height := row.(row_window_start_height);
                     row_window_max_blocks := row.(row_window_max_blocks);
                     row_context_state := "completed";
                     row_completion_outcome := Some (BridgeObservationOutcome_name outcome) |}) with
  | None => Err StoreError_Sqlite
  | Some (t', updated) =>
      if negb (updated =? 1) then Err BridgeOperationContextConflict else Ok t'
  end.

Definition advance_observation (t : context_table) (key : BridgeOperationKey)
    (expected : DurableBridgeRequestContext) (outcome : BridgeObservationOutcome)
    (next : BridgeRequestSpec) : context_table * result BridgeContextCommit StoreError :=
  immediate_transaction t (
    if negb (is_observation key.(bridge_operation)) then Err InvalidBridgeOperationContext
    else
      let? _ := validate_request_shape key next in
      if expected.(context_request_id) ==? next.(spec_request_id)
      then Err InvalidBridgeOperationContext
      else
        let? next_sequence :=
          ok_or (checked_add u64_max expected.(context_poll_sequence) 1)
            BridgePollSequenceOverflow in
        let? loaded := load_active_context t key in
        let? active := ok_or loaded MissingBridgeOperationContext in
        if active !=? expected then
          if (active.(context_poll_sequence) =? next_sequence) && matches_spec active next then
            let? completed := completed_context_exists t key expected outcome in
            if completed then Ok (t, {| commit_context := active; context_was_replay := true |})
            else Err BridgeOperationContextConflict
          else Err BridgeOperationContextConflict
        else
          let? _ := ensure_request_id_unused t key next.(spec_request_id) in
          let? t1 := complete_active_row t key expected.(context_poll_sequence) outcome in
          let context :=
            {| context_poll_sequence := next_sequence;
               context_request_id := next.(spec_request_id);
               context_discovery_window := next.(spec_discovery_window) |} in
          let? t2 := insert_active_context t1 key context in
          Ok (t2, {| commit_context := context; context_was_replay := false |})).

Definition current (t : context_table) (key : BridgeOperationKey)
    : result (option DurableBridgeRequestContext) StoreError :=
  load_active_context t key.
