(* ===== verification/BridgeJournalFacts.v ===== *)
(** * Properties of the bridge operation journal

    The table represents, for every operation, the list of polls that were
    completed and the one that is active; the SQL operations are those of that
    abstract journal.  It follows that a request identity is used once, that
    polls are numbered without gaps with only the last one active, and that an
    advance whose commit was not seen can be retried. *)

From stdpp Require Import base gmap strings list numbers relations.
From S2P Require Import Prelude SwapCore Decimal BridgeValues SqlTable StoreBase BridgeJournal.

Open Scope Z_scope.

#[local] Arguments context_check : simpl never.
#[local] Arguments request_once : simpl never.
#[local] Arguments str_in : simpl never.
#[local] Arguments try_from_column : simpl never.
#[local] Arguments parse_unsigned : simpl never.
#[local] Arguments to_string : simpl never.
#[local] Arguments safe_identifier : simpl never.
#[local] Arguments DiscoveryWindow_new : simpl never.

(** ** The abstract journal *)

(** The polls of one operation: those completed, oldest first, and the active
    one. *)
Record history := {
  done_polls : list (BridgeRequestSpec * BridgeObservationOutcome);
  active_spec : BridgeRequestSpec
}.

Abbreviation bridge_state := (gmap operation_key history).

Definition history_specs (h : history) : list BridgeRequestSpec :=
  h.(done_polls).*1 ++ [h.(active_spec)].

Definition context_of (sequence : Z) (s : BridgeRequestSpec) : DurableBridgeRequestContext :=
  {| context_poll_sequence := sequence; context_request_id := s.(spec_request_id);
     context_discovery_window := s.(spec_discovery_window) |}.

Definition active_context (h : history) : DurableBridgeRequestContext :=
  context_of (blen h.(done_polls)) h.(active_spec).

Definition encode_context (s : BridgeRequestSpec) (outcome : option BridgeObservationOutcome)
    : ContextRow :=
  {| row_request_id := s.(spec_request_id).(RequestId_as_str);
     row_window_start_height := (encode_window s.(spec_discovery_window)).1;
     row_window_max_blocks := (encode_window s.(spec_discovery_window)).2;
     row_context_state := match outcome with None => "active" | Some _ => "completed" end;
     row_completion_outcome := BridgeObservationOutcome_name <$> outcome |}.

Definition row_at (h : history) (q : Z) : option ContextRow :=
  if q <? 0 then None
  else match h.(done_polls) !! Z.to_nat q with
       | Some (s, o) => Some (encode_context s (Some o))
       | None => if q =? blen h.(done_polls) then Some (encode_context h.(active_spec) None) else None
       end.

Definition bridge_represents (t : context_table) (st : bridge_state) : Prop :=
  ∀ k q, t !! (k, q) = h ← st !! k; row_at h q.

(** The values the types of the source admit. *)
Definition spec_ok (s : BridgeRequestSpec) : Prop :=
  safe_identifier s.(spec_request_id).(RequestId_as_str) = true ∧
  ∀ w, s.(spec_discovery_window) = Some w →
    is_u64 w.(window_start_height) ∧ is_u32 w.(window_max_blocks) ∧
    DiscoveryWindow_new w.(window_start_height) w.(window_max_blocks) = Ok w.

(** The columns of the index on request identities. *)
Definition request_scope (k : operation_key) (s : BridgeRequestSpec) : string * string * string :=
  (k.1.1.1, k.1.2, s.(spec_request_id).(RequestId_as_str)).

Record state_ok (st : bridge_state) : Prop := {
  ok_specs : ∀ k h, st !! k = Some h → Forall spec_ok (history_specs h);
  ok_length : ∀ k h, st !! k = Some h → blen h.(done_polls) ≤ i64_max;
  ok_key : ∀ k h, st !! k = Some h → ∃ key, k = operation_sql_key key;
  ok_once : ∀ k k' h h' i j s s', st !! k = Some h → st !! k' = Some h' →
    history_specs h !! i = Some s → history_specs h' !! j = Some s' →
    request_scope k s = request_scope k' s' → k = k' ∧ i = j
}.

Lemma operation_sql_key_inj key key' :
  operation_sql_key key = operation_sql_key key' → key = key'.
Proof.
  destruct key as [[] [] r o], key' as [[] [] r' o']. unfold operation_sql_key. cbn.
  intros [= -> -> Hr Ho]. apply participant_name_inj in Hr as ->. by destruct o, o'.
Qed.

(** ** Rows *)

Lemma operation_rows_elem t k q row : (q, row) ∈ operation_rows t k ↔ t !! (k, q) = Some row.
Proof.
  unfold operation_rows. rewrite list_elem_of_omap. split.
  - intros ([[k' q'] row']&Hin&H). cbn in H. case_bool_decide; simplify_eq.
    by apply elem_of_map_to_list in Hin.
  - intros H. exists (k, q, row). split; [by apply elem_of_map_to_list|]. cbn.
    by rewrite bool_decide_eq_true_2.
Qed.

Lemma operation_rows_NoDup t k : NoDup (operation_rows t k).
Proof.
  unfold operation_rows. pose proof (NoDup_map_to_list t) as Hnd.
  induction Hnd as [|[[k' q] row] l Hnin Hnd IH]; cbn; [constructor|].
  case_bool_decide as Hk; [|done]. constructor; [|done]. subst k'.
  rewrite list_elem_of_omap. intros ([[k' q'] row']&Hin&H). cbn in H.
  case_bool_decide; simplify_eq. done.
Qed.

Lemma active_rows_elem t k q row :
  (q, row) ∈ active_rows t k ↔ t !! (k, q) = Some row ∧ row.(row_context_state) = "active".
Proof.
  unfold active_rows. rewrite list_elem_of_In, filter_In, <- list_elem_of_In, operation_rows_elem.
  cbn. by rewrite bool_decide_eq_true.
Qed.

Lemma active_rows_NoDup t k : NoDup (active_rows t k).
Proof.
  unfold active_rows. pose proof (operation_rows_NoDup t k) as Hnd. apply NoDup_ListNoDup in Hnd.
  apply NoDup_ListNoDup, List.NoDup_filter, Hnd.
Qed.

Lemma list_singleton {A} (l : list A) a : NoDup l → (∀ x, x ∈ l ↔ x = a) → l = [a].
Proof.
  intros Hnd Hl. destruct l as [|x [|y l]].
  - assert (a ∈ []) as H%elem_of_nil by (by apply Hl). done.
  - f_equal. apply Hl. constructor.
  - assert (x = a) as -> by (apply Hl; constructor).
    assert (y = a) as -> by (apply Hl; by do 2 constructor).
    apply list.NoDup_cons in Hnd as [H _]. exfalso. apply H. constructor.
Qed.

Lemma row_at_active h q row :
  row_at h q = Some row ∧ row.(row_context_state) = "active" ↔
  q = blen h.(done_polls) ∧ row = encode_context h.(active_spec) None.
Proof.
  unfold row_at. destruct (Z.ltb_spec q 0).
  { split; [by intros [? _]|]. intros [-> _]. unfold blen in *. lia. }
  destruct (done_polls h !! Z.to_nat q) as [[s o]|] eqn:Hq.
  { split; [by intros [[= <-] ?]|]. intros [-> _]. apply lookup_lt_Some in Hq.
    unfold blen in Hq. lia. }
  destruct (Z.eqb_spec q (blen (done_polls h))); naive_solver.
Qed.

Lemma active_rows_represented t st k :
  bridge_represents t st →
  active_rows t k = match st !! k with
                    | None => []
                    | Some h => [(blen h.(done_polls), encode_context h.(active_spec) None)]
                    end.
Proof.
  intros Hrep. destruct (st !! k) as [h|] eqn:Hk.
  - apply list_singleton; [apply active_rows_NoDup|]. intros [q row].
    rewrite active_rows_elem, Hrep, Hk. cbn. rewrite row_at_active. naive_solver.
  - destruct (active_rows t k) as [|[q row] l] eqn:E; [done|].
    assert (H : (q, row) ∈ active_rows t k) by (rewrite E; constructor).
    apply active_rows_elem in H as [H _]. by rewrite Hrep, Hk in H.
Qed.

Lemma operation_rows_empty t st k : bridge_represents t st → st !! k = None → operation_rows t k = [].
Proof.
  intros Hrep Hk. destruct (operation_rows t k) as [|[q row] l] eqn:E; [done|].
  assert (H : (q, row) ∈ operation_rows t k) by (rewrite E; constructor).
  apply operation_rows_elem in H. by rewrite Hrep, Hk in H.
Qed.

Lemma decode_encode_context q s outcome :
  spec_ok s → 0 ≤ q ≤ i64_max →
  decode_context q (encode_context s outcome) = Ok (context_of q s).
Proof.
  intros [Hid Hw] Hq. unfold decode_context.
  rewrite (proj2 (try_from_column_Ok u64_max q _ q)) by (unfold i64_max, u64_max in *; lia).
  cbn. unfold RequestId_new. rewrite Hid. cbn.
  destruct s as [[rid] [w|]]; cbn in *; [|done].
  destruct (Hw w eq_refl) as (Hs&Hm&Hn).
  rewrite (proj2 (canonical_to_string u64_max _ Hs ltac:(unfold u64_max, u128_max; lia))). cbn.
  rewrite (proj2 (try_from_column_Ok u32_max _ _ (window_max_blocks w))) by done. cbn.
  by rewrite Hn.
Qed.

Lemma bridge_load_represented t st key :
  bridge_represents t st → state_ok st →
  load_active_context t key = Ok (active_context <$> st !! operation_sql_key key).
Proof.
  intros Hrep Hok. unfold load_active_context. rewrite (active_rows_represented t st) by done.
  destruct (st !! operation_sql_key key) as [h|] eqn:Hk; [|done].
  rewrite decode_encode_context; [done| |].
  - eapply Forall_forall; [by eapply ok_specs|]. unfold history_specs. set_solver.
  - pose proof (ok_length _ Hok _ _ Hk). unfold blen in *. lia.
Qed.

Lemma row_at_specs h q row :
  row_at h q = Some row →
  0 ≤ q ∧ ∃ s o, history_specs h !! Z.to_nat q = Some s ∧ row = encode_context s o.
Proof.
  unfold row_at, history_specs. destruct (Z.ltb_spec q 0); [done|]. intros Hrow. split; [done|].
  destruct (done_polls h !! Z.to_nat q) as [[s o]|] eqn:Hq.
  - exists s, (Some o). split; [|by simplify_eq]. apply lookup_app_l_Some. by rewrite list_lookup_fmap, Hq.
  - destruct (Z.eqb_spec q (blen (done_polls h))) as [Hb|]; [|done].
    exists (active_spec h), None. split; [|by simplify_eq].
    rewrite lookup_app_r by (rewrite length_fmap; unfold blen in Hb; lia).
    rewrite length_fmap. replace (Z.to_nat q - length (done_polls h))%nat with O
      by (unfold blen in Hb; lia). done.
Qed.

Lemma row_at_of_specs h i s :
  history_specs h !! i = Some s → ∃ o, row_at h (Z.of_nat i) = Some (encode_context s o).
Proof.
  unfold row_at, history_specs. intros Hi. rewrite (proj2 (Z.ltb_ge _ _)) by lia. rewrite Nat2Z.id.
  apply lookup_app_Some in Hi as [Hi|[Hge Hi]].
  - rewrite list_lookup_fmap in Hi. destruct (done_polls h !! i) as [[s' o]|]; [|done].
    cbn in Hi. simplify_eq. eauto.
  - rewrite length_fmap in *. apply list_lookup_singleton_Some in Hi as [Hi <-].
    rewrite lookup_ge_None_2 by lia. rewrite (proj2 (Z.eqb_eq _ _)) by (unfold blen; lia). eauto.
Qed.

Lemma request_once_encode k q s o : request_once (k, q) (encode_context s o) = request_scope k s.
Proof. destruct k as [[[]]]. done. Qed.

Definition request_used (st : bridge_state) (u : string * string * string) : bool :=
  existsb (λ e, existsb (λ s, request_scope e.1 s ==? u) (history_specs e.2)) (map_to_list st).

Lemma request_used_true st u :
  request_used st u = true ↔
  ∃ k h i s, st !! k = Some h ∧ history_specs h !! i = Some s ∧ request_scope k s = u.
Proof.
  unfold request_used. rewrite existsb_exists. split.
  - intros ([k h]&Hin&H). apply list_elem_of_In, elem_of_map_to_list in Hin.
    apply existsb_exists in H as (s&Hs&Hu). apply bool_decide_eq_true in Hu.
    apply list_elem_of_In, list_elem_of_lookup_1 in Hs as [i Hi]. eauto 7.
  - intros (k&h&i&s&Hk&Hi&Hu). exists (k, h).
    split; [by apply list_elem_of_In, elem_of_map_to_list|]. apply existsb_exists. exists s.
    split; [by apply list_elem_of_In, (list_elem_of_lookup_2 _ i)|by apply bool_decide_eq_true].
Qed.

Lemma unique_taken_represented t st u :
  bridge_represents t st → unique_taken request_once t u = request_used st u.
Proof.
  intros Hrep. apply eq_true_iff_eq. rewrite unique_taken_true, request_used_true. split.
  - intros ([k q]&row&Hrow&Hu). rewrite Hrep in Hrow.
    destruct (st !! k) as [h|] eqn:Hk; [|done]. cbn in Hrow.
    destruct (row_at_specs _ _ _ Hrow) as (_&s&o&Hs&->). rewrite request_once_encode in Hu. eauto 7.
  - intros (k&h&i&s&Hk&Hi&Hu). destruct (row_at_of_specs _ _ _ Hi) as [o Ho].
    exists (k, Z.of_nat i), (encode_context s o). rewrite Hrep, Hk, request_once_encode. done.
Qed.

(** ** The abstract operations *)

Definition push_poll (h : history) (outcome : BridgeObservationOutcome) (next : BridgeRequestSpec)
    : history :=
  {| done_polls := h.(done_polls) ++ [(h.(active_spec), outcome)]; active_spec := next |}.

Definition commit (h : history) (replay : bool) : BridgeContextCommit :=
  {| commit_context := active_context h; context_was_replay := replay |}.

Inductive BridgeCall :=
| CallBegin (key : BridgeOperationKey) (requested : BridgeRequestSpec)
| CallAdvance (key : BridgeOperationKey) (expected : DurableBridgeRequestContext)
    (outcome : BridgeObservationOutcome) (next : BridgeRequestSpec).

Definition call_key (c : BridgeCall) : BridgeOperationKey :=
  match c with CallBegin key _ | CallAdvance key _ _ _ => key end.

Definition spec_begin (st : bridge_state) (key : BridgeOperationKey) (requested : BridgeRequestSpec)
    : result (bridge_state * BridgeContextCommit) StoreError :=
  let k := operation_sql_key key in
  let? _ := validate_request_shape key requested in
  match st !! k with
  | Some h => if h.(active_spec) ==? requested then Ok (st, commit h true)
              else Err BridgeOperationContextConflict
  | None =>
      if request_used st (request_scope k requested) then Err BridgeRequestIdReused
      else
        let h := {| done_polls := []; active_spec := requested |} in
        Ok (<[k := h]> st, commit h false)
  end.

Definition spec_advance (st : bridge_state) (key : BridgeOperationKey)
    (expected : DurableBridgeRequestContext) (outcome : BridgeObservationOutcome)
    (next : BridgeRequestSpec) : result (bridge_state * BridgeContextCommit) StoreError :=
  let k := operation_sql_key key in
  if negb (is_observation key.(bridge_operation)) then Err InvalidBridgeOperationContext
  else
    let? _ := validate_request_shape key next in
    if expected.(context_request_id) ==? next.(spec_request_id)
    then Err InvalidBridgeOperationContext
    else if u64_max <? expected.(context_poll_sequence) + 1 then Err BridgePollSequenceOverflow
    else
      match st !! k with
      | None => Err MissingBridgeOperationContext
      | Some h =>
          if active_context h ==? expected then
            if request_used st (request_scope k next) then Err BridgeRequestIdReused
            else if i64_max <? blen h.(done_polls) + 1 then Err BridgePollSequenceOverflow
            else let h' := push_poll h outcome next in Ok (<[k := h']> st, commit h' false)
          else if (blen h.(done_polls) =? expected.(context_poll_sequence) + 1)
                  && (h.(active_spec) ==? next)
                  && (last h.(done_polls)
                      ==? Some ({| spec_request_id := expected.(context_request_id);
                                   spec_discovery_window := expected.(context_discovery_window) |},
                                outcome))
          then Ok (st, commit h true)
          else Err BridgeOperationContextConflict
      end.

Definition bridge_spec_call (st : bridge_state) (c : BridgeCall)
    : bridge_state * result BridgeContextCommit StoreError :=
  immediate_transaction st
    match c with
    | CallBegin key requested => spec_begin st key requested
    | CallAdvance key expected outcome next => spec_advance st key expected outcome next
    end.

Definition bridge_call (t : context_table) (c : BridgeCall)
    : context_table * result BridgeContextCommit StoreError :=
  match c with
  | CallBegin key requested => begin_or_resume t key requested
  | CallAdvance key expected outcome next => advance_observation t key expected outcome next
  end.

Definition bridge_call_typed (c : BridgeCall) : Prop :=
  match c with
  | CallBegin key requested => spec_ok requested
  | CallAdvance key expected outcome next =>
      spec_ok next ∧ is_u64 expected.(context_poll_sequence) ∧
      spec_ok {| spec_request_id := expected.(context_request_id);
                 spec_discovery_window := expected.(context_discovery_window) |}
  end.

(** ** Writing rows *)

Lemma window_positive w :
  DiscoveryWindow_new w.(window_start_height) w.(window_max_blocks) = Ok w →
  w.(window_max_blocks) ≠ 0.
Proof. unfold DiscoveryWindow_new. destruct (Z.eqb_spec (window_max_blocks w) 0); done. Qed.

Lemma bridge_check_encode key q s o :
  spec_ok s → 0 ≤ q → context_check (operation_sql_key key, q) (encode_context s o) = true.
Proof.
  intros [_ Hw] Hq. unfold context_check, operation_sql_key. cbn.
  assert (str_in (participant_name (bridge_local_role key)) ["maker"; "taker"] = true) as ->
    by by destruct (bridge_local_role key).
  assert (str_in (BridgeOperationKind_name (bridge_operation key)) operation_names = true) as ->
    by (destruct (bridge_operation key); by vm_compute).
  rewrite (proj2 (Z.leb_le 0 q) Hq). cbn.
  destruct (spec_discovery_window s) as [w|]; cbn.
  - destruct (Hw w eq_refl) as (_&[Hm _]&Hn). apply window_positive in Hn.
    rewrite (proj2 (Z.ltb_lt 0 _)) by lia. by destruct o as [[]|].
  - by destruct o as [[]|].
Qed.

Lemma encode_window_inj s s' :
  spec_ok s → spec_ok s' →
  encode_window s.(spec_discovery_window) = encode_window s'.(spec_discovery_window) →
  s.(spec_discovery_window) = s'.(spec_discovery_window).
Proof.
  intros [_ Hw] [_ Hw'].
  destruct (spec_discovery_window s) as [w|], (spec_discovery_window s') as [w'|]; cbn; try done.
  destruct (Hw w eq_refl) as (Hs&_), (Hw' w' eq_refl) as (Hs'&_). intros [= Heq Hm].
  destruct (canonical_to_string u64_max _ Hs) as [_ Hp]; [unfold u64_max, u128_max; lia|].
  destruct (canonical_to_string u64_max _ Hs') as [_ Hp']; [unfold u64_max, u128_max; lia|].
  rewrite Heq, Hp' in Hp. destruct w, w'; cbn in *. by simplify_eq.
Qed.

Lemma matches_active h s : matches_spec (active_context h) s = bool_decide (h.(active_spec) = s).
Proof.
  unfold matches_spec, active_context, context_of. cbn.
  destruct (active_spec h) as [r w], s as [r' w']. cbn.
  repeat case_bool_decide; naive_solver.
Qed.

Lemma represents_insert t st k h rows :
  bridge_represents t st → (∀ q, rows !! (k, q) = row_at h q) →
  (∀ k' q, k' ≠ k → rows !! (k', q) = t !! (k', q)) → bridge_represents rows (<[k := h]> st).
Proof.
  intros Hrep Hk Hother k' q. destruct (decide (k' = k)) as [->|Hne].
  - by rewrite lookup_insert_eq, Hk.
  - by rewrite lookup_insert_ne, Hother, Hrep by done.
Qed.

(** An insert of an active row of an operation that has none. *)
Lemma insert_active_ok t key q s :
  active_rows t (operation_sql_key key) = [] → t !! (operation_sql_key key, q) = None →
  unique_taken request_once t (request_scope (operation_sql_key key) s) = false →
  spec_ok s → 0 ≤ q ≤ i64_max →
  insert_active_context t key (context_of q s)
  = Ok (<[(operation_sql_key key, q) := encode_context s None]> t).
Proof.
  intros Hact Hq Hun Hs Hr. unfold insert_active_context. cbn [context_of context_discovery_window].
  destruct (encode_window (spec_discovery_window s)) as [start max] eqn:Hw.
  unfold sequence_to_sql. cbn [context_of context_poll_sequence context_request_id].
  rewrite (proj2 (Z.ltb_ge _ _)) by lia. cbn [result_bind].
  assert ({| row_request_id := RequestId_as_str (spec_request_id s);
             row_window_start_height := start; row_window_max_blocks := max;
             row_context_state := "active"; row_completion_outcome := None |}
          = encode_context s None) as ->.
  { unfold encode_context. by rewrite Hw. }
  unfold insert_context_row. cbn [fst]. rewrite Hact. cbn.
  rewrite (proj2 (sql_insert_Some _ _ _ _ _ (<[(operation_sql_key key, q) := encode_context s None]> t))); [done|].
  rewrite request_once_encode. split_and!; [done..| |done]. apply bridge_check_encode; [done|lia].
Qed.

Lemma row_at_beyond h q : blen h.(done_polls) < q → row_at h q = None.
Proof.
  intros Hq. unfold row_at, blen in *. rewrite (proj2 (Z.ltb_ge _ _)) by lia.
  rewrite lookup_ge_None_2 by lia. rewrite (proj2 (Z.eqb_neq _ _)) by lia. done.
Qed.

Lemma row_at_last h : row_at h (blen h.(done_polls)) = Some (encode_context h.(active_spec) None).
Proof. by apply row_at_active. Qed.

Lemma row_at_push h outcome next q :
  row_at (push_poll h outcome next) q =
  if q =? blen h.(done_polls) + 1 then Some (encode_context next None)
  else if q =? blen h.(done_polls) then Some (encode_context h.(active_spec) (Some outcome))
  else row_at h q.
Proof.
  unfold row_at, push_poll. cbn. unfold blen. rewrite length_app. cbn [length].
  destruct (Z.eqb_spec q (Z.of_nat (length (done_polls h)) + 1)) as [->|H1].
  { destruct (Z.ltb_spec (Z.of_nat (length (done_polls h)) + 1) 0); [lia|].
    rewrite lookup_ge_None_2 by (rewrite length_app; cbn; lia).
    destruct (Z.eqb_spec (Z.of_nat (length (done_polls h)) + 1)
                (Z.of_nat (length (done_polls h) + 1))); [done|lia]. }
  destruct (Z.eqb_spec q (Z.of_nat (length (done_polls h)))) as [->|H2].
  { destruct (Z.ltb_spec (Z.of_nat (length (done_polls h))) 0); [lia|].
    rewrite Nat2Z.id. by rewrite list_lookup_middle. }
  destruct (Z.ltb_spec q 0); [done|].
  destruct (decide (Z.to_nat q < length (done_polls h))%nat) as [Hlt|Hge].
  - rewrite lookup_app_l by done. by destruct (lookup_lt_is_Some_2 _ _ Hlt) as [[s o] ->].
  - rewrite !lookup_ge_None_2 by (rewrite ?length_app; cbn; lia).
    destruct (Z.eqb_spec q (Z.of_nat (length (done_polls h) + 1))); [lia|].
    destruct (Z.eqb_spec q (Z.of_nat (length (done_polls h)))); [lia|done].
Qed.

(** ** The table refines the abstract journal *)

Definition specs_of (st : bridge_state) (k : operation_key) : list BridgeRequestSpec :=
  match st !! k with Some h => history_specs h | None => [] end.

Lemma push_specs h outcome next :
  history_specs (push_poll h outcome next) = history_specs h ++ [next].
Proof. unfold history_specs, push_poll. cbn. by rewrite fmap_app. Qed.

(** A history that grew by one unused request. *)
Lemma state_ok_grow st key h s :
  let k := operation_sql_key key in
  state_ok st → history_specs h = specs_of st k ++ [s] → spec_ok s →
  request_used st (request_scope k s) = false → blen h.(done_polls) ≤ i64_max →
  state_ok (<[k := h]> st).
Proof.
  intros k Hok Hspecs Hs Hun Hlen.
  assert (Hold : ∀ k' h' i x, <[k := h]> st !! k' = Some h' → history_specs h' !! i = Some x →
            (∃ h0, st !! k' = Some h0 ∧ history_specs h0 !! i = Some x) ∨
            (k' = k ∧ i = length (specs_of st k) ∧ x = s)).
  { intros k' h' i x [[<- <-]|[_ Hk]]%lookup_insert_Some Hi; [|by left; eauto].
    rewrite Hspecs in Hi. apply lookup_app_Some in Hi as [Hi|[Hge Hi]].
    - left. unfold specs_of in Hi. destruct (st !! k) as [h0|]; [eauto|done].
    - right. apply list_lookup_singleton_Some in Hi as [Hi <-]. split_and!; [done|lia|done]. }
  assert (Hfresh : ∀ k' h' i x, st !! k' = Some h' → history_specs h' !! i = Some x →
            request_scope k' x ≠ request_scope k s).
  { intros k' h' i x Hk Hi Heq. rewrite (proj2 (request_used_true _ _)) in Hun; [done|]. eauto 7. }
  split.
  - intros k' h' Hk. apply Forall_lookup. intros i x Hi.
    destruct (Hold _ _ _ _ Hk Hi) as [(h0&Hh0&Hi0)|(->&_&->)]; [|done].
    by eapply Forall_lookup_1; [by eapply ok_specs|].
  - intros k' h' [[<- <-]|[_ Hk]]%lookup_insert_Some; [done|by eapply ok_length].
  - intros k' h' [[<- <-]|[_ Hk]]%lookup_insert_Some; [by exists key|by eapply ok_key].
  - intros k1 k2 h1 h2 i j x y H1 H2 Hi Hj Hsc.
    destruct (Hold _ _ _ _ H1 Hi) as [(g1&Hg1&Hi1)|(->&->&->)],
      (Hold _ _ _ _ H2 Hj) as [(g2&Hg2&Hj2)|(->&->&->)]; [|exfalso..|done].
    + exact (ok_once _ Hok _ _ _ _ _ _ _ _ Hg1 Hg2 Hi1 Hj2 Hsc).
    + by eapply Hfresh.
    + by eapply Hfresh.
Qed.

(** A call on the table and the same call on the abstract journal. *)
Definition bridge_call_refines (c : BridgeCall) (t : context_table) (st : bridge_state) : Prop :=
  bridge_represents (bridge_call t c).1 (bridge_spec_call st c).1 ∧ state_ok (bridge_spec_call st c).1 ∧
  (bridge_call t c).2 = (bridge_spec_call st c).2.

Lemma request_scope_key key s :
  request_scope (operation_sql_key key) s
  = (RunId_as_str (bridge_run_id key), participant_name (bridge_local_role key),
     RequestId_as_str (spec_request_id s)).
Proof. done. Qed.

Lemma begin_refines t st key requested :
  bridge_represents t st → state_ok st → spec_ok requested →
  bridge_call_refines (CallBegin key requested) t st.
Proof.
  intros Hrep Hok Hs. unfold bridge_call_refines, bridge_call, bridge_spec_call, begin_or_resume, spec_begin.
  destruct (validate_request_shape key requested) as [[]|]; [|done]. cbn [result_bind].
  rewrite (bridge_load_represented t st) by done. cbn [result_bind].
  destruct (st !! operation_sql_key key) as [h|] eqn:Hk; cbn [fmap option_fmap option_map].
  { rewrite matches_active. by case_bool_decide. }
  unfold ensure_request_id_unused. rewrite <- request_scope_key, unique_taken_represented with (st := st) by done.
  destruct (request_used st (request_scope (operation_sql_key key) requested)) eqn:Hu; [done|].
  cbn [result_bind]. unfold next_poll_sequence. rewrite (operation_rows_empty t st) by done.
  cbn [max_sequence foldr result_bind]. fold (context_of 0 requested).
  rewrite insert_active_ok; try done.
  - cbn. split_and!; [|apply (state_ok_grow _ _ _ requested); try done|done].
    + apply (represents_insert t); [done| |].
      * intros q. destruct (decide (q = 0)) as [->|Hq]; [by rewrite lookup_insert_eq|].
        rewrite lookup_insert_ne by congruence. rewrite Hrep, Hk. cbn. unfold row_at. cbn.
        destruct (Z.ltb_spec q 0); [done|]. destruct (q =? _) eqn:E; [|done]. by apply Z.eqb_eq in E.
      * intros k' q Hne. by rewrite lookup_insert_ne by congruence.
    + unfold specs_of. by rewrite Hk.
  - by rewrite (active_rows_represented t st), Hk by done.
  - by rewrite Hrep, Hk.
  - by rewrite (unique_taken_represented t st).
Qed.

(** The [UPDATE] completes the active row and leaves the operation without one. *)
Lemma complete_active_ok t st key h outcome :
  let k := operation_sql_key key in
  bridge_represents t st → state_ok st → st !! k = Some h →
  ∃ t1, complete_active_row t key (blen h.(done_polls)) outcome = Ok t1 ∧
    t1 = <[(k, blen h.(done_polls)) := encode_context h.(active_spec) (Some outcome)]> t ∧
    active_rows t1 k = [] ∧
    ∀ u, unique_taken request_once t1 u = unique_taken request_once t u.
Proof.
  intros k Hrep Hok Hk. pose proof (ok_length _ Hok _ _ Hk) as Hlen.
  assert (Hrow : t !! (k, blen (done_polls h)) = Some (encode_context (active_spec h) None))
    by (rewrite Hrep, Hk; apply row_at_last).
  assert (Hs : spec_ok (active_spec h)).
  { eapply Forall_forall; [by eapply ok_specs|]. unfold history_specs. set_solver. }
  set (row := encode_context (active_spec h) (Some outcome)).
  exists (<[(k, blen (done_polls h)) := row]> t). split_and!; [|done|..].
  - unfold complete_active_row, sequence_to_sql. rewrite (proj2 (Z.ltb_ge _ _)) by lia.
    cbn [result_bind]. unfold sql_update. fold k. rewrite Hrow. cbn [encode_context row_context_state].
    rewrite bool_decide_eq_true_2 by done.
    assert (Hc : context_check (k, blen (done_polls h)) row = true)
      by (apply bridge_check_encode; [done|unfold blen; lia]).
    unfold row, encode_context in Hc |- *. cbn in Hc |- *. by rewrite Hc.
  - destruct (active_rows _ k) as [|[q r] l] eqn:E; [done|].
    assert (Hin : (q, r) ∈ active_rows (<[(k, blen (done_polls h)) := row]> t) k)
      by (rewrite E; constructor).
    apply active_rows_elem in Hin as [Hin Hact].
    apply lookup_insert_Some in Hin as [[[= <-] <-]|[Hne Hin]]; [done|].
    rewrite Hrep, Hk in Hin. cbn in Hin.
    destruct (proj1 (row_at_active h q r)) as [-> _]; done.
  - intros u. apply eq_true_iff_eq. rewrite !unique_taken_true. split.
    + intros (k'&r&[[<- <-]|[_ Hr]]%lookup_insert_Some&Hu); [|eauto].
      exists (k, blen (done_polls h)), (encode_context (active_spec h) None).
      by rewrite request_once_encode in *.
    + intros (k'&r&Hr&Hu). destruct (decide (k' = (k, blen (done_polls h)))) as [->|Hne].
      * exists (k, blen (done_polls h)), row. rewrite lookup_insert_eq. split; [done|].
        rewrite Hrow in Hr. injection Hr as <-. unfold row. by rewrite request_once_encode in *.
      * exists k', r. by rewrite lookup_insert_ne by done.
Qed.

(** The replayed advance is recognised by its completed row. *)
Lemma completed_represented t st key h expected outcome :
  bridge_represents t st → state_ok st → st !! operation_sql_key key = Some h →
  spec_ok {| spec_request_id := expected.(context_request_id);
             spec_discovery_window := expected.(context_discovery_window) |} →
  0 ≤ expected.(context_poll_sequence) →
  blen h.(done_polls) = expected.(context_poll_sequence) + 1 →
  completed_context_exists t key expected outcome
  = Ok (bool_decide (last h.(done_polls) =
          Some ({| spec_request_id := expected.(context_request_id);
                   spec_discovery_window := expected.(context_discovery_window) |}, outcome))).
Proof.
  intros Hrep Hok Hk Hs Hq Hlen. pose proof (ok_length _ Hok _ _ Hk) as Hmax.
  set (e := {| spec_request_id := _ |}) in *. unfold completed_context_exists.
  change (context_discovery_window expected) with (spec_discovery_window e).
  change (context_request_id expected) with (spec_request_id e). clearbody e.
  destruct (encode_window (spec_discovery_window e)) as [start max] eqn:Hw.
  unfold sequence_to_sql. rewrite (proj2 (Z.ltb_ge _ _)) by lia. cbn [result_bind]. f_equal.
  rewrite Hrep, Hk. cbn. unfold row_at. rewrite (proj2 (Z.ltb_ge _ _)) by lia.
  rewrite last_lookup.
  replace (Init.Nat.pred (length (done_polls h))) with (Z.to_nat (context_poll_sequence expected))
    by (unfold blen in Hlen; lia).
  destruct (lookup_lt_is_Some_2 (done_polls h) (Z.to_nat (context_poll_sequence expected)))
    as [[s o] Hso]; [unfold blen in Hlen; lia|]. rewrite Hso. cbn.
  assert (Hsok : spec_ok s).
  { eapply Forall_forall; [by eapply ok_specs|]. unfold history_specs. apply elem_of_app. left.
    apply list_elem_of_fmap. exists (s, o). split; [done|by eapply list_elem_of_lookup_2]. }
  apply eq_true_iff_eq. rewrite !andb_true_iff, !bool_decide_eq_true. split.
  - intros ((((Hid&H1)&H2)&_)&Ho). f_equal. f_equal.
    + destruct s as [[rid] w], e as [[rid'] w']. cbn in *. f_equal; [congruence|].
      apply (encode_window_inj {| spec_request_id := {| RequestId_as_str := rid |};
                                  spec_discovery_window := w |}
                               {| spec_request_id := {| RequestId_as_str := rid' |};
                                  spec_discovery_window := w' |} Hsok Hs). cbn.
      rewrite Hw. by destruct (encode_window w); cbn in *; subst.
    + injection Ho as Ho. by destruct o, outcome.
  - intros [= -> ->]. rewrite Hw. done.
Qed.

Lemma advance_refines t st key expected outcome next :
  bridge_represents t st → state_ok st → bridge_call_typed (CallAdvance key expected outcome next) →
  bridge_call_refines (CallAdvance key expected outcome next) t st.
Proof.
  intros Hrep Hok (Hn&Hq&He). set (k := operation_sql_key key).
  unfold bridge_call_refines, bridge_call, bridge_spec_call, advance_observation, spec_advance.
  destruct (negb _); [done|].
  destruct (validate_request_shape key next) as [[]|]; [|done]. cbn [result_bind].
  case_bool_decide; [done|]. unfold checked_add.
  destruct (Z.ltb_spec u64_max (context_poll_sequence expected + 1)),
    (Z.leb_spec (context_poll_sequence expected + 1) u64_max); try lia; [done|].
  cbn [negb ok_or result_bind]. rewrite (bridge_load_represented t st) by done. cbn [result_bind].
  fold k. destruct (st !! k) as [h|] eqn:Hk; [|done]. cbn [fmap option_fmap option_map ok_or result_bind].
  destruct (decide (active_context h = expected)) as [<-|Hne].
  - rewrite !bool_decide_eq_true_2 by done. cbn [negb].
    unfold ensure_request_id_unused. rewrite <- request_scope_key. fold k.
    rewrite (unique_taken_represented t st) by done.
    destruct (request_used st (request_scope k next)) eqn:Hu; [done|]. cbn [result_bind].
    cbn [active_context context_of context_poll_sequence].
    destruct (complete_active_ok t st key h outcome Hrep Hok Hk) as (t1&->&->&Hact&Htaken).
    cbn [result_bind]. fold k in Hact, Htaken |- *. fold (context_of (blen (done_polls h) + 1) next).
    destruct (Z.ltb_spec i64_max (blen (done_polls h) + 1)).
    { unfold insert_active_context, sequence_to_sql. cbn [context_of context_poll_sequence context_discovery_window].
      destruct (encode_window _). rewrite (proj2 (Z.ltb_lt _ _)) by lia. done. }
    rewrite insert_active_ok; try done.
    + cbn [result_bind immediate_transaction fst snd]. fold k.
      assert (Hcommit : commit (push_poll h outcome next) false
        = {| commit_context := context_of (blen (done_polls h) + 1) next; context_was_replay := false |}).
      { unfold commit, active_context, push_poll, blen. cbn. rewrite length_app. cbn.
        do 2 f_equal. lia. }
      rewrite Hcommit. split_and!; [| |done].
      * apply (represents_insert t); [done| |].
        -- intros q. rewrite row_at_push.
           destruct (Z.eqb_spec q (blen (done_polls h) + 1)) as [->|Hq1]; [by rewrite lookup_insert_eq|].
           rewrite lookup_insert_ne by congruence.
           destruct (Z.eqb_spec q (blen (done_polls h))) as [->|Hq2]; [by rewrite lookup_insert_eq|].
           rewrite lookup_insert_ne by congruence. by rewrite Hrep, Hk.
        -- intros k' q Hne. by rewrite !lookup_insert_ne by congruence.
      * apply (state_ok_grow _ _ _ next); try done.
        -- rewrite push_specs. unfold specs_of. fold k. by rewrite Hk.
        -- cbn. unfold blen in *. rewrite length_app. cbn. lia.
    + rewrite lookup_insert_ne by (intros [= ?]; lia). rewrite Hrep. fold k. rewrite Hk.
      apply row_at_beyond. lia.
    + fold k. by rewrite Htaken, (unique_taken_represented t st).
    + unfold blen in *. lia.
  - rewrite !(bool_decide_eq_false_2 (active_context h = expected)) by done. cbn [negb].
    rewrite matches_active. cbn [active_context context_of context_poll_sequence].
    destruct (Z.eqb_spec (blen (done_polls h)) (context_poll_sequence expected + 1)); [|done].
    cbn [andb]. case_bool_decide; [|done]. cbn [andb].
    rewrite (completed_represented t st key h) by (try done; apply Hq). cbn [result_bind].
    by case_bool_decide.
Qed.

Lemma bridge_call_refine t st c :
  bridge_represents t st → state_ok st → bridge_call_typed c → bridge_call_refines c t st.
Proof. destruct c; [apply begin_refines|apply advance_refines]. Qed.

(** ** Runs *)

Definition table_after (calls : list (BridgeCall * Fate)) : context_table :=
  run_calls bridge_call ∅ calls.
Definition state_after (calls : list (BridgeCall * Fate)) : bridge_state :=
  run_calls bridge_spec_call ∅ calls.

Abbreviation typed calls := (Forall (λ c : BridgeCall * Fate, bridge_call_typed c.1) calls).

Lemma bridge_represents_empty : bridge_represents ∅ ∅.
Proof. intros k q. by rewrite !lookup_empty. Qed.

Lemma state_ok_empty : state_ok ∅.
Proof. split; intros *; by rewrite ?lookup_empty. Qed.

Lemma bridge_run_refines t st calls :
  typed calls → bridge_represents t st → state_ok st →
  bridge_represents (run_calls bridge_call t calls) (run_calls bridge_spec_call st calls) ∧
  state_ok (run_calls bridge_spec_call st calls).
Proof.
  intros HP. revert t st. induction HP as [|[c f] calls Hc _ IH]; intros t st Hrep Hok; [done|].
  cbn. destruct (bridge_call_refine t st c Hrep Hok Hc) as (Hrep'&Hok'&_).
  unfold call_next. destruct f; cbn; auto.
Qed.

Lemma bridge_after_refines calls :
  typed calls → bridge_represents (table_after calls) (state_after calls) ∧ state_ok (state_after calls).
Proof. intros H. apply bridge_run_refines; [done|apply bridge_represents_empty|apply state_ok_empty]. Qed.

Definition state_grow (st st' : bridge_state) : Prop :=
  ∀ k h, st !! k = Some h → ∃ h', st' !! k = Some h' ∧
    h.(done_polls) `prefix_of` h'.(done_polls) ∧ history_specs h `prefix_of` history_specs h'.

#[global] Instance state_grow_preorder : PreOrder state_grow.
Proof.
  split.
  - intros st k h Hk. by exists h.
  - intros st st' st'' H H' k h Hk. destruct (H k h Hk) as (h'&Hk'&?&?).
    destruct (H' k h' Hk') as (h''&Hk''&?&?). exists h''. split_and!; [done|by etrans..].
Qed.

Definition bridge_run_inv (st : bridge_state) : Prop := ∃ t, bridge_represents t st ∧ state_ok st.

Lemma bridge_run_inv_empty : bridge_run_inv ∅.
Proof. exists ∅. split; [apply bridge_represents_empty|apply state_ok_empty]. Qed.

Lemma bridge_spec_call_inv st c : bridge_call_typed c → bridge_run_inv st → bridge_run_inv (bridge_spec_call st c).1.
Proof.
  intros Hc (t&Hrep&Hok). destruct (bridge_call_refine t st c Hrep Hok Hc) as (Hr&Ho&_).
  by exists (bridge_call t c).1.
Qed.

(** The request a call asks for. *)
Definition call_spec (c : BridgeCall) : BridgeRequestSpec :=
  match c with CallBegin _ requested => requested | CallAdvance _ _ _ next => next end.

(** What a call did: nothing, or it reserved an unused request as the active poll
    of its operation. *)
Lemma spec_call_cases st c :
  let k := operation_sql_key (call_key c) in
  ((bridge_spec_call st c).1 = st ∧ ∀ x, (bridge_spec_call st c).2 = Ok x → x.(context_was_replay) = true) ∨
  ∃ h, (bridge_spec_call st c).1 = <[k := h]> st ∧ (bridge_spec_call st c).2 = Ok (commit h false) ∧
    request_used st (request_scope k (call_spec c)) = false ∧
    history_specs h = specs_of st k ++ [call_spec c] ∧ h.(active_spec) = call_spec c ∧
    ∀ h0, st !! k = Some h0 → ∃ key expected outcome next,
      c = CallAdvance key expected outcome next ∧ active_context h0 = expected ∧
      h = push_poll h0 outcome next.
Proof.
  intros k. unfold bridge_spec_call. destruct c as [key requested|key expected outcome next]; cbn in k |- *.
  - unfold spec_begin. destruct (validate_request_shape key requested); [|by left]. cbn. fold k.
    destruct (st !! k) as [h|] eqn:Hk.
    + case_bool_decide; [|by left]. left. cbn. split; [done|]. by intros x [= <-].
    + destruct (request_used st _) eqn:Hu; [by left|]. right. cbn. eexists. split_and!; try done.
      unfold specs_of. by rewrite Hk.
  - unfold spec_advance. destruct (negb _); [by left|].
    destruct (validate_request_shape key next); [|by left]. cbn.
    case_bool_decide; [by left|]. destruct (_ <? _); [by left|]. fold k.
    destruct (st !! k) as [h|] eqn:Hk; [|by left].
    destruct (decide (active_context h = expected)) as [He|He].
    + rewrite bool_decide_eq_true_2 by done.
      destruct (request_used st _) eqn:Hu; [by left|]. destruct (_ <? _); [by left|].
      right. cbn. exists (push_poll h outcome next). rewrite push_specs. unfold specs_of. rewrite Hk.
      split_and!; try done. intros h0 [= <-]. eauto 8.
    + rewrite bool_decide_eq_false_2 by done. destruct (_ && _); [|by left]. left. cbn.
      split; [done|]. by intros x [= <-].
Qed.

Lemma bridge_spec_call_grow st c : bridge_call_typed c → bridge_run_inv st → state_grow st (bridge_spec_call st c).1.
Proof.
  intros _ _. destruct (spec_call_cases st c) as [[-> _]|(h&->&_&_&Hspecs&_&Hpush)]; [done|].
  intros k0 h0 Hk0. destruct (decide (k0 = operation_sql_key (call_key c))) as [->|Hne].
  - exists h. rewrite lookup_insert_eq. split; [done|].
    destruct (Hpush _ Hk0) as (key&e&o&next&->&_&->).
    rewrite push_specs. cbn. split; by eexists.
  - exists h0. by rewrite lookup_insert_ne by done.
Qed.

Lemma request_used_grow st st' u : state_grow st st' → request_used st u = true → request_used st' u = true.
Proof.
  intros Hg (k&h&i&s&Hk&Hi&Hu)%request_used_true. apply request_used_true.
  destruct (Hg k h Hk) as (h'&Hk'&_&Hpre). exists k, h', i, s. split_and!; [done| |done].
  by eapply prefix_lookup_Some.
Qed.

(** The state before a committed call of a run. *)
Lemma bridge_committed_state calls n c o :
  typed calls → committed_at bridge_call ∅ calls n = Some (c, o) →
  bridge_call_typed c ∧ bridge_run_inv (state_after (take n calls)) ∧
  (bridge_spec_call (state_after (take n calls)) c).2 = o ∧
  ∀ m, (n < m)%nat → state_grow (bridge_spec_call (state_after (take n calls)) c).1 (state_after (take m calls)).
Proof.
  intros Htyped Hn.
  assert (Hn' : committed_at bridge_spec_call ∅ calls n = Some (c, o)).
  { unfold committed_at in *. destruct (calls !! n) as [[c' f]|] eqn:Hc; [|done].
    assert (Hct : bridge_call_typed c') by exact (Forall_lookup_1 _ _ _ _ Htyped Hc).
    destruct (bridge_after_refines (take n calls)) as [Hrep Hok]; [by apply Forall_take|].
    destruct (bridge_call_refine _ _ c' Hrep Hok Hct) as (_&_&Hout). unfold table_after, state_after in Hout.
    by rewrite Hout in Hn. }
  assert (Hgrow := λ m, committed_grow bridge_spec_call bridge_call_typed bridge_run_inv bridge_spec_call_inv state_grow ∅ calls
    n m c o bridge_spec_call_grow Htyped bridge_run_inv_empty Hn').
  destruct (Hgrow (S n) ltac:(lia)) as (Hc&Hi&Ho&_). split_and!; [done..|].
  intros m Hm. by apply (Hgrow m Hm).
Qed.

Lemma represents_inj t t' st : bridge_represents t st → bridge_represents t' st → t = t'.
Proof. intros H H'. apply map_eq. intros [k q]. by rewrite H, H'. Qed.

(** ** Properties *)

Lemma fresh_not_before calls n m c d x y :
  typed calls → committed_at bridge_call ∅ calls n = Some (c, Ok x) →
  committed_at bridge_call ∅ calls m = Some (d, Ok y) →
  x.(context_was_replay) = false → y.(context_was_replay) = false →
  request_scope (operation_sql_key (call_key c)) (call_spec c)
  = request_scope (operation_sql_key (call_key d)) (call_spec d) → ¬ (n < m)%nat.
Proof.
  intros Htyped Hn Hm Hx Hy Hscope Hlt.
  destruct (bridge_committed_state _ _ _ _ Htyped Hn) as (_&_&Ho&Hgrow).
  destruct (bridge_committed_state _ _ _ _ Htyped Hm) as (_&_&Ho'&_).
  destruct (spec_call_cases (state_after (take n calls)) c) as [[_ H]|(h&Hst&_&_&Hspecs&_)];
    [by rewrite (H x Ho) in Hx|].
  destruct (spec_call_cases (state_after (take m calls)) d) as [[_ H]|(h'&_&_&Hun&_)];
    [by rewrite (H y Ho') in Hy|].
  rewrite <- Hscope in Hun. apply not_true_iff_false in Hun. apply Hun.
  eapply request_used_grow; [by apply Hgrow|]. rewrite Hst. apply request_used_true.
  exists (operation_sql_key (call_key c)), h,
    (length (specs_of (state_after (take n calls)) (operation_sql_key (call_key c)))), (call_spec c).
  rewrite lookup_insert_eq, Hspecs. split_and!; [done| |done]. by rewrite list_lookup_middle.
Qed.

(** Request identities are one-use: within one run of one role, no two
    committed calls of the journal, for whatever swaps and operations, reserve
    the same request identity. *)
Theorem bridge_requests_are_one_use calls n m c d x y :
  typed calls → committed_at bridge_call ∅ calls n = Some (c, Ok x) →
  committed_at bridge_call ∅ calls m = Some (d, Ok y) →
  x.(context_was_replay) = false → y.(context_was_replay) = false →
  (call_key c).(bridge_run_id) = (call_key d).(bridge_run_id) →
  (call_key c).(bridge_local_role) = (call_key d).(bridge_local_role) →
  (call_spec c).(spec_request_id) = (call_spec d).(spec_request_id) → n = m.
Proof.
  intros Htyped Hn Hm Hx Hy Hrun Hrole Hid.
  assert (Hscope : request_scope (operation_sql_key (call_key c)) (call_spec c)
                   = request_scope (operation_sql_key (call_key d)) (call_spec d))
    by (rewrite !request_scope_key; congruence).
  pose proof (fresh_not_before _ _ _ _ _ _ _ Htyped Hn Hm Hx Hy Hscope).
  pose proof (fresh_not_before _ _ _ _ _ _ _ Htyped Hm Hn Hy Hx (eq_sym Hscope)). lia.
Qed.

Lemma row_at_is_Some h q : is_Some (row_at h q) ↔ 0 ≤ q ≤ blen h.(done_polls).
Proof.
  split.
  - intros [row Hrow]. destruct (row_at_specs _ _ _ Hrow) as (Hq&s&o&Hs&_). split; [done|].
    apply lookup_lt_Some in Hs. unfold history_specs, blen in *.
    rewrite length_app, length_fmap in Hs. cbn in Hs. lia.
  - intros Hq. assert (is_Some (history_specs h !! Z.to_nat q)) as [s Hs].
    { apply lookup_lt_is_Some. unfold history_specs, blen in *. rewrite length_app, length_fmap. cbn. lia. }
    destruct (row_at_of_specs _ _ _ Hs) as [o Ho]. rewrite Z2Nat.id in Ho by lia. eauto.
Qed.

(** Polls are gapless with one active: in every reachable journal an
    operation either has no rows, or the active context of sequence [n] that the
    journal returns and exactly one row for each sequence up to [n], all but the
    last one completed. *)
Theorem bridge_polls_are_gapless calls key :
  typed calls →
  let t := table_after calls in
  let k := operation_sql_key key in
  (current t key = Ok None ∧ ∀ q, t !! (k, q) = None) ∨
  ∃ context, current t key = Ok (Some context) ∧
    ∀ q, (is_Some (t !! (k, q)) ↔ 0 ≤ q ≤ context.(context_poll_sequence)) ∧
      ∀ row, t !! (k, q) = Some row →
        (row.(row_context_state) = "active" ↔ q = context.(context_poll_sequence)).
Proof.
  intros Htyped t k. destruct (bridge_after_refines calls Htyped) as [Hrep Hok].
  unfold current. rewrite (bridge_load_represented _ _ _ Hrep Hok). fold k.
  destruct (state_after calls !! k) as [h|] eqn:Hk.
  - right. exists (active_context h). split; [done|]. intros q.
    assert (Hq : t !! (k, q) = row_at h q) by (unfold t; by rewrite Hrep, Hk). rewrite Hq. cbn.
    split; [apply row_at_is_Some|]. intros row Hrow. split.
    + intros Ha. by destruct (proj1 (row_at_active h q row) (conj Hrow Ha)).
    + intros ->. pose proof (row_at_last h). by simplify_eq.
  - left. split; [done|]. intros q. unfold t. by rewrite Hrep, Hk.
Qed.

Lemma spec_advance_retry st st' key expected outcome next x :
  spec_advance st key expected outcome next = Ok (st', x) →
  spec_advance st' key expected outcome next
  = Ok (st', {| commit_context := x.(commit_context); context_was_replay := true |}).
Proof.
  unfold spec_advance. destruct (negb _); [done|].
  destruct (validate_request_shape key next); [|done]. cbn.
  case_bool_decide; [done|]. destruct (_ <? _); [done|].
  destruct (st !! operation_sql_key key) as [h|] eqn:Hk; [|done].
  destruct (decide (active_context h = expected)) as [<-|He].
  - rewrite (bool_decide_eq_true_2 (_ = _)) by done.
    destruct (request_used _ _); [done|]. destruct (_ <? _); [done|]. intros [= <- <-].
    rewrite lookup_insert_eq. cbn. unfold active_context, push_poll. cbn.
    rewrite (bool_decide_eq_false_2 (context_of _ _ = _)).
    + unfold blen. rewrite length_app, last_snoc. cbn [length].
      rewrite (proj2 (Z.eqb_eq _ _)), !bool_decide_eq_true_2 by (done || lia || by destruct (active_spec h)).
      cbn. unfold commit, active_context, blen. cbn. by rewrite length_app.
    + intros [= Hlen _ _]. unfold blen in Hlen. rewrite length_app in Hlen. cbn in Hlen. lia.
  - rewrite (bool_decide_eq_false_2 (_ = expected)) by done.
    destruct (_ && _) eqn:Hb; [|done]. intros [= <- <-]. rewrite Hk.
    rewrite (bool_decide_eq_false_2 (_ = expected)) by done. by rewrite Hb.
Qed.

(** A lost advance can be retried: repeating an advance that committed, with
    the same arguments, changes nothing and returns the same next context,
    marked as a replay. *)
Theorem bridge_advance_retry calls key expected outcome next t x :
  typed calls → bridge_call_typed (CallAdvance key expected outcome next) →
  advance_observation (table_after calls) key expected outcome next = (t, Ok x) →
  advance_observation t key expected outcome next
  = (t, Ok {| commit_context := x.(commit_context); context_was_replay := true |}).
Proof.
  intros Htyped Hc Hadv. destruct (bridge_after_refines calls Htyped) as [Hrep Hok].
  destruct (bridge_call_refine _ _ _ Hrep Hok Hc) as (Hrep1&Hok1&Hout1).
  unfold bridge_call, bridge_spec_call in Hrep1, Hok1, Hout1. rewrite Hadv in Hrep1, Hout1.
  destruct (spec_advance _ key expected outcome next) as [[st' y]|e] eqn:Hadvance; [|done].
  cbn in Hrep1, Hok1, Hout1. injection Hout1 as <-.
  destruct (bridge_call_refine _ _ _ Hrep1 Hok1 Hc) as (Hrep2&_&Hout2).
  unfold bridge_call, bridge_spec_call in Hrep2, Hout2.
  rewrite (spec_advance_retry _ _ _ _ _ _ _ Hadvance) in Hrep2, Hout2. cbn in Hrep2, Hout2.
  destruct (advance_observation t key expected outcome next) as [t' o]. cbn in *. subst o.
  f_equal. by eapply represents_inj.
Qed.

(** ** Sample runs *)

Module BridgeSamples.

Definition key (operation : BridgeOperationKind) : BridgeOperationKey :=
  {| bridge_run_id := Build_RunId "bridge-run"; bridge_swap_id := Build_SwapId "swap-1";
     bridge_local_role := Participant_Taker; bridge_operation := operation |}.

Definition page (request_id : string) (start : Z) : BridgeRequestSpec :=
  {| spec_request_id := Build_RequestId request_id;
     spec_discovery_window :=
       Some {| window_start_height := start; window_max_blocks := 100 |} |}.

Definition first_advance : BridgeCall :=
  CallAdvance (key NativeRefundDiscoveryObserve) (context_of 0 (page "request-0" 5))
    Outcome_Succeeded (page "request-1" 105).

(** A reservation, its repetition, and two pages, the second of them of an
    operation that then repeats an identity of the first. *)
Definition calls : list (BridgeCall * Fate) :=
  [(CallBegin (key NativeRefundDiscoveryObserve) (page "request-0" 5), CommittedUnseen);
   (CallBegin (key NativeRefundDiscoveryObserve) (page "request-0" 5), Delivered);
   (first_advance, CommittedUnseen);
   (CallBegin (key NativeRefundExactObserve) (page "request-0" 5), Delivered);
   (CallBegin (key NativeRefundExactObserve) (page "request-2" 5), Delivered)].

Lemma page_ok request_id start :
  safe_identifier request_id = true → is_u64 start → DiscoveryWindow_new start 100
    = Ok {| window_start_height := start; window_max_blocks := 100 |} →
  spec_ok (page request_id start).
Proof. intros Hid Hs Hw. split; [done|]. intros w [= <-]. split_and!; try done; cbn; lia. Qed.

Lemma bridge_calls_typed : typed calls.
Proof.
  unfold calls. repeat apply Forall_cons_2; [| | | | |apply Forall_nil_2]; cbn [fst bridge_call_typed first_advance].
  3: split_and!; [|unfold in_range, u64_max; cbn; lia|].
  all: apply (page_ok _ _); [by vm_compute|unfold in_range, u64_max; lia|by vm_compute].
Qed.

Lemma bridge_requests_are_one_use_witness :
  match committed_at bridge_call ∅ calls 2 with
  | Some (c, Ok x) => x.(context_was_replay) = false ∧
      ∀ m d y, committed_at bridge_call ∅ calls m = Some (d, Ok y) →
        y.(context_was_replay) = false → (call_key d).(bridge_run_id) = Build_RunId "bridge-run" →
        (call_key d).(bridge_local_role) = Participant_Taker →
        (call_spec d).(spec_request_id) = Build_RequestId "request-1" → m = 2%nat
  | _ => False
  end.
Proof.
  destruct (committed_at bridge_call ∅ calls 2) as [[c [x|e]]|] eqn:H; [|by vm_compute in H..].
  assert (Hc : c = first_advance ∧ x.(context_was_replay) = false)
    by (vm_compute in H; by injection H as <- <-).
  destruct Hc as [-> Hx]. split; [done|]. intros m d y Hm Hy Hrun Hrole Hid. symmetry.
  by apply (bridge_requests_are_one_use calls 2 m first_advance d x y bridge_calls_typed H Hm Hx Hy).
Defined.

Lemma bridge_polls_are_gapless_witness :
  current (table_after calls) (key NativeRefundDiscoveryObserve)
    = Ok (Some (context_of 1 (page "request-1" 105)))
  ∧ is_Some (table_after calls !! (operation_sql_key (key NativeRefundDiscoveryObserve), 0)).
Proof.
  assert (Hcur : current (table_after calls) (key NativeRefundDiscoveryObserve)
                 = Ok (Some (context_of 1 (page "request-1" 105)))) by by vm_compute.
  split; [done|].
  pose proof (bridge_polls_are_gapless calls (key NativeRefundDiscoveryObserve) bridge_calls_typed)
    as Hpolls. cbv zeta in Hpolls. rewrite Hcur in Hpolls.
  destruct Hpolls as [[Hnone _]|(c&Hc&Hrows)]; [discriminate Hnone|].
  injection Hc as <-. apply (proj2 (proj1 (Hrows 0))). cbn. lia.
Defined.

Definition retry (t : context_table) : context_table * result BridgeContextCommit StoreError :=
  advance_observation t (key NativeRefundDiscoveryObserve) (context_of 0 (page "request-0" 5))
    Outcome_Succeeded (page "request-1" 105).

Definition advanced := retry (table_after (take 2 calls)).

Lemma bridge_advance_retry_witness :
  match advanced with
  | (t, Ok x) => x.(context_was_replay) = false ∧
      retry t = (t, Ok {| commit_context := x.(commit_context); context_was_replay := true |})
  | _ => False
  end.
Proof.
  assert (Hout : match advanced.2 with Ok x => x.(context_was_replay) = false | Err _ => False end)
    by (vm_compute; reflexivity).
  destruct advanced as [t [x|e]] eqn:H; [|done]. split; [exact Hout|].
  unfold advanced, retry in H. refine (bridge_advance_retry (take 2 calls) _ _ _ _ t x _ _ H).
  - exact (Forall_take _ 2 _ bridge_calls_typed).
  - exact (Forall_lookup_1 _ _ 2 _ bridge_calls_typed eq_refl).
Defined.

End BridgeSamples.
