(* ===== verification/BridgePorts.v ===== *)
(** * The context-owning bridge ports

    Models the context handling of [crates/lez-bridge-adapter/src/sdk_ports.rs],
    the client of the bridge operation journal: every bridge call of the SDK first
    reserves a durable request context, calls the adapter once with it, and then
    either finishes the poll with its outcome or, when the transport was
    ambiguous, keeps the context for the retry.  The journal's mutex is held
    within each of these two phases and not between them, so the phases are
    separate steps on the journal's table.

    What the adapter, the allocator of request identities and the disk do is an
    argument: the adapter's answer, the allocated request, and the fate of each
    call on the journal. *)

From stdpp Require Import base gmap strings list numbers.
From S2P Require Import Prelude SwapCore Decimal BridgeValues SqlTable StoreBase BridgeJournal.

Open Scope Z_scope.

(** The errors of the ports, without the boxed sources. *)
Inductive ContextOwningLezPortError :=
| Port_Context
| Port_Journal (e : StoreError)
| Port_Recovery
| Port_Factory
| Port_Configuration
| Port_Adapter
| Port_MissingLezPlan
| Port_LezPlanContextMismatch
| Port_MissingDiscoveryWindow
| Port_DiscoveryWindowChanged
| Port_DiscoveryWindowExhausted
| Port_InvalidCanonicalFunding
| Port_UnknownSubmission
| Port_JournalLockPoisoned.

(** The ports distinguish an adapter's transport errors from all its others. *)
Inductive AdapterError := Adapter_Transport | Adapter_Rejected.

(** Of an observation the ports inspect whether it is [Unstable]. *)
Inductive Observed := Observed_Unstable | Observed_Definitive.

Record NativeRefundPageObservation := {
  page_observation : Observed;
  fully_covered_miss : bool
}.

(** What the outside world does during one phase: the request the allocator
    supplies, the failures of the two reads and the fates of the two calls. *)
Record PhaseWorld := {
  world_request : option BridgeRequestSpec;
  world_read : option StoreError;
  world_probe : option StoreError;
  world_first : Fate;
  world_second : Fate
}.

(** A call on the journal as its caller sees it: a lost one returns an error,
    whether or not it committed. *)
Definition attempt {A : Type} (t : context_table) (f : Fate)
    (call : context_table → context_table * result A StoreError)
    : context_table * result A StoreError :=
  match f with
  | Delivered => call t
  | RolledBack => (t, Err StoreError_Sqlite)
  | CommittedUnseen => ((call t).1, Err StoreError_Sqlite)
  end.

Definition read_current (failure : option StoreError) (t : context_table) (key : BridgeOperationKey)
    : result (option DurableBridgeRequestContext) ContextOwningLezPortError :=
  match failure with
  | Some e => Err (Port_Journal e)
  | None => map_err (current t key) Port_Journal
  end.

Definition context_matches_spec (context : DurableBridgeRequestContext) (spec : BridgeRequestSpec)
    : bool :=
  (context.(context_request_id) ==? spec.(spec_request_id))
  && (context.(context_discovery_window) ==? spec.(spec_discovery_window)).

(** ** Reserving a context *)

Definition reserve_context (t : context_table) (key : BridgeOperationKey) (w : PhaseWorld)
    : context_table * result DurableBridgeRequestContext ContextOwningLezPortError :=
  match read_current w.(world_read) t key with
  | Err e => (t, Err e)
  | Ok (Some active) => (t, Ok active)
  | Ok None =>
      match w.(world_request) with
      | None => (t, Err Port_Context)
      | Some requested =>
          let '(t, answer) := attempt t w.(world_first) (λ t, begin_or_resume t key requested) in
          match answer with
          | Ok commit => (t, Ok commit.(commit_context))
          | Err original =>
              match read_current w.(world_probe) t key with
              | Err e => (t, Err e)
              | Ok (Some context) =>
                  if context_matches_spec context requested then (t, Ok context)
                  else (t, Err (Port_Journal original))
              | Ok None => (t, Err (Port_Journal original))
              end
          end
      end
  end.

(** ** Finishing a poll *)

(** The advance, attempted again when the first attempt reported an error. *)
Definition advance_twice (t : context_table) (key : BridgeOperationKey)
    (current : DurableBridgeRequestContext) (outcome : BridgeObservationOutcome)
    (next : BridgeRequestSpec) (w : PhaseWorld)
    : context_table * result unit ContextOwningLezPortError :=
  let advance t := advance_observation t key current outcome next in
  let '(t, first) := attempt t w.(world_first) advance in
  match first with
  | Ok _ => (t, Ok tt)
  | Err _ =>
      let '(t, second) := attempt t w.(world_second) advance in
      (t, map_err (result_map (λ _, tt) second) Port_Journal)
  end.

Definition finish_observation (t : context_table) (key : BridgeOperationKey)
    (current : DurableBridgeRequestContext) (outcome : BridgeObservationOutcome)
    (retain_window : bool) (w : PhaseWorld) : context_table * result unit ContextOwningLezPortError :=
  match w.(world_request) with
  | None => (t, Err Port_Context)
  | Some next =>
      if retain_window
         && (next.(spec_discovery_window) !=? current.(context_discovery_window))
      then (t, Err Port_DiscoveryWindowChanged)
      else advance_twice t key current outcome next w
  end.

Definition finish_observation_in_window (t : context_table) (key : BridgeOperationKey)
    (current : DurableBridgeRequestContext) (outcome : BridgeObservationOutcome)
    (next_window : DiscoveryWindow) (w : PhaseWorld)
    : context_table * result unit ContextOwningLezPortError :=
  match w.(world_request) with
  | None => (t, Err Port_Context)
  | Some allocated =>
      advance_twice t key current outcome
        {| spec_request_id := allocated.(spec_request_id);
           spec_discovery_window := Some next_window |} w
  end.

Definition resume_ambiguous (t : context_table) (key : BridgeOperationKey)
    (current : DurableBridgeRequestContext) (w : PhaseWorld)
    : context_table * result unit ContextOwningLezPortError :=
  match w.(world_read) with
  | Some e => (t, Err (Port_Journal e))
  | None => (t, map_err (result_map (λ _, tt) (resume_after_ambiguous t key current)) Port_Journal)
  end.

Definition outcome_of {A : Type} (r : result A AdapterError) : BridgeObservationOutcome :=
  match r with Ok _ => Outcome_Succeeded | Err _ => Outcome_TypedError end.

(** [finish_claim_observation], [finish_refund_observation], and the end of the
    first-lock and maker-lock observations. *)
Definition finish_poll {A : Type} (t : context_table) (key : BridgeOperationKey)
    (context : DurableBridgeRequestContext) (r : result A AdapterError) (retain_window : bool)
    (w : PhaseWorld) : context_table * result unit ContextOwningLezPortError :=
  match r with
  | Err Adapter_Transport => resume_ambiguous t key context w
  | _ => finish_observation t key context (outcome_of r) retain_window w
  end.

(** An unstable or rejected poll keeps its window, but the eligibility of a
    refund has none to keep. *)
Definition retain_window (operation : BridgeOperationKind) (r : result Observed AdapterError)
    : bool :=
  match operation with
  | NativeRefundEligibilityObserve => false
  | _ => match r with Ok Observed_Definitive => false | _ => true end
  end.

Definition next_contiguous_window (current : DiscoveryWindow)
    : result DiscoveryWindow ContextOwningLezPortError :=
  let? start_height :=
    ok_or (checked_add u64_max current.(window_start_height) current.(window_max_blocks))
      Port_DiscoveryWindowExhausted in
  map_err (DiscoveryWindow_new start_height current.(window_max_blocks))
    (λ _, Port_DiscoveryWindowExhausted).

Definition finish_refund_page_observation (t : context_table) (key : BridgeOperationKey)
    (context : DurableBridgeRequestContext) (r : result NativeRefundPageObservation AdapterError)
    (w : PhaseWorld) : context_table * result unit ContextOwningLezPortError :=
  match r with
  | Err Adapter_Transport => resume_ambiguous t key context w
  | _ =>
      match context.(context_discovery_window) with
      | None => (t, Err Port_MissingDiscoveryWindow)
      | Some current_window =>
          let next_window :=
            match r with
            | Ok observation =>
                if observation.(fully_covered_miss) then next_contiguous_window current_window
                else Ok current_window
            | Err _ => Ok current_window
            end in
          match next_window with
          | Err e => (t, Err e)
          | Ok next_window =>
              finish_observation_in_window t key context (outcome_of r) next_window w
          end
      end
  end.

(** ** Steps *)

(** The phases of the ports that call the journal.  A preparation or a
    submission reserves its context and reads it again when it was ambiguous;
    the observations of first locks, maker locks, claims and refund eligibility
    finish their poll; the two refund observations finish a page. *)
Inductive PortStep :=
| Step_Reserve (key : BridgeOperationKey)
| Step_Resume (key : BridgeOperationKey) (context : DurableBridgeRequestContext)
| Step_FinishPoll (key : BridgeOperationKey) (context : DurableBridgeRequestContext)
    (r : result Observed AdapterError)
| Step_FinishPage (key : BridgeOperationKey) (context : DurableBridgeRequestContext)
    (r : result NativeRefundPageObservation AdapterError).

Definition port_step (t : context_table) (s : PortStep) (w : PhaseWorld) : context_table :=
  match s with
  | Step_Reserve key => (reserve_context t key w).1
  | Step_Resume key context => (resume_ambiguous t key context w).1
  | Step_FinishPoll key context r =>
      (finish_poll t key context r (retain_window key.(bridge_operation) r) w).1
  | Step_FinishPage key context r => (finish_refund_page_observation t key context r w).1
  end.

Definition port_run (steps : list (PortStep * PhaseWorld)) : context_table :=
  foldl (λ t s, port_step t s.1 s.2) ∅ steps.
