(* ===== verification/BridgePortsFacts.v ===== *)
(** * Properties of the context-owning bridge ports

    Every phase of the ports is a run of at most two calls on the journal, so the
    journal's properties hold of everything the ports do.  The cursor of a refund
    observation moves only over windows that a page covered, and a poll whose
    answer was ambiguous or partial keeps its place. *)

From stdpp Require Import base gmap strings list numbers relations.
From S2P Require Import Prelude SwapCore Decimal BridgeValues BridgeValuesFacts SqlTable StoreBase.
From S2P Require Import BridgeJournal BridgeJournalFacts BridgePorts.

Open Scope Z_scope.

#[local] Arguments begin_or_resume : simpl never.
#[local] Arguments advance_observation : simpl never.
#[local] Arguments bridge_spec_call : simpl never.
#[local] Arguments DiscoveryWindow_new : simpl never.

(** The two refund observations, whose polls are pages. *)
Definition is_page (operation : BridgeOperationKind) : bool :=
  match operation with
  | NativeRefundExactObserve | NativeRefundDiscoveryObserve => true
  | _ => false
  end.

(** What the types of the source guarantee of a step, and which methods finish
    which operations. *)
Definition context_ok (context : DurableBridgeRequestContext) : Prop :=
  is_u64 context.(context_poll_sequence) ∧
  spec_ok {| spec_request_id := context.(context_request_id);
             spec_discovery_window := context.(context_discovery_window) |}.

Definition step_typed (s : PortStep * PhaseWorld) : Prop :=
  (∀ r, s.2.(world_request) = Some r → spec_ok r) ∧
  match s.1 with
  | Step_Reserve _ => True
  | Step_Resume _ context => context_ok context
  | Step_FinishPoll key context _ =>
      context_ok context ∧ is_page key.(bridge_operation) = false
  | Step_FinishPage key context _ =>
      context_ok context ∧ is_page key.(bridge_operation) = true
  end.

(** ** Phases as runs of the journal *)

(** A page of the run that the adapter reported as a fully covered miss. *)
Definition covered (steps : list (PortStep * PhaseWorld)) (key : BridgeOperationKey)
    (page : DiscoveryWindow) : Prop :=
  ∃ context r w, (Step_FinishPage key context (Ok r), w) ∈ steps ∧
    r.(fully_covered_miss) = true ∧ context.(context_discovery_window) = Some page.

(** The window a reservation step asks for. *)
Definition requests_window (s : PortStep * PhaseWorld) (key : BridgeOperationKey)
    (first : DiscoveryWindow) : Prop :=
  s.1 = Step_Reserve key ∧ ∃ request, s.2.(world_request) = Some request ∧
    request.(spec_discovery_window) = Some first.

(** Where the scan of an operation starts: the window of the reservation that
    put the operation into the journal.  Before that step the journal has no
    context for it, after it the requested one is active as poll 0; a
    reservation that is rolled back, or that meets a context, is not it. *)
Definition scan_start (steps : list (PortStep * PhaseWorld)) (key : BridgeOperationKey)
    (first : DiscoveryWindow) : Prop :=
  ∃ before w after request, steps = before ++ (Step_Reserve key, w) :: after ∧
    w.(world_request) = Some request ∧ request.(spec_discovery_window) = Some first ∧
    current (port_run before) key = Ok None ∧
    current (port_run (before ++ [(Step_Reserve key, w)])) key
      = Ok (Some (context_of 0 request)).

(** How the steps of a run account for a call on the journal. *)
Definition justified (s : PortStep * PhaseWorld) (c : BridgeCall) : Prop :=
  match c with
  | CallBegin key requested =>
      ∀ first, requested.(spec_discovery_window) = Some first → requests_window s key first
  | CallAdvance key context _ next =>
      is_page key.(bridge_operation) = true →
      ∃ page page', context.(context_discovery_window) = Some page ∧
        next.(spec_discovery_window) = Some page' ∧
        (page' = page ∨ covered [s] key page ∧
           page'.(window_start_height) = page.(window_start_height) + page.(window_max_blocks))
  end.

Lemma attempt_next {A : Type} (t : context_table) (f : Fate) (c : BridgeCall)
    (call : context_table → context_table * result A StoreError) :
  (∀ t, (call t).1 = (bridge_call t c).1) → (attempt t f call).1 = call_next bridge_call t (c, f).
Proof. intros H. unfold attempt, call_next. destruct f; cbn; by rewrite ?H. Qed.

Lemma advance_twice_run t key context outcome next w :
  ∃ calls, (advance_twice t key context outcome next w).1 = run_calls bridge_call t calls ∧
    Forall (λ c, c.1 = CallAdvance key context outcome next) calls.
Proof.
  unfold advance_twice.
  destruct (attempt t (world_first w) _) as [t1 [x|e]] eqn:H1.
  - exists [(CallAdvance key context outcome next, world_first w)]. split; [|by repeat constructor].
    cbn. rewrite <- (attempt_next t _ _ (λ t, advance_observation t key context outcome next)), H1; done.
  - destruct (attempt t1 (world_second w) _) as [t2 o] eqn:H2.
    exists [(CallAdvance key context outcome next, world_first w);
       (CallAdvance key context outcome next, world_second w)]. split; [|by repeat constructor].
    cbn [run_calls].
    rewrite <- (attempt_next t _ _ (λ t, advance_observation t key context outcome next)), H1 by done.
    cbn. rewrite <- (attempt_next t1 _ _ (λ t, advance_observation t key context outcome next)), H2; done.
Qed.

Lemma reserve_context_run t key w :
  ∃ calls, (reserve_context t key w).1 = run_calls bridge_call t calls ∧
    Forall (λ c, ∃ requested, w.(world_request) = Some requested ∧
                 c.1 = CallBegin key requested) calls.
Proof.
  unfold reserve_context.
  destruct (read_current _ t key) as [[active|]|e]; [by exists []| |by exists []].
  destruct (world_request w) as [requested|]; [|by exists []].
  destruct (attempt t (world_first w) _) as [t1 o] eqn:H1.
  exists [(CallBegin key requested, world_first w)]. split; [|by repeat econstructor]. cbn.
  rewrite <- (attempt_next t _ _ (λ t, begin_or_resume t key requested)), H1 by done. cbn.
  destruct o; [done|]. destruct (read_current _ t1 key) as [[context|]|e']; [|done..].
  by destruct (context_matches_spec context requested).
Qed.

Lemma context_ok_call key context outcome next :
  context_ok context → spec_ok next →
  bridge_call_typed (CallAdvance key context outcome next).
Proof. intros [Hseq Hctx] Hnext. by split_and!. Qed.

Lemma next_contiguous_window_Ok (page page' : DiscoveryWindow) :
  next_contiguous_window page = Ok page' →
  is_u64 page.(window_start_height) → is_u32 page.(window_max_blocks) →
  page' = {| window_start_height := page.(window_start_height) + page.(window_max_blocks);
             window_max_blocks := page.(window_max_blocks) |} ∧
  is_u64 page'.(window_start_height) ∧
  DiscoveryWindow_new page'.(window_start_height) page'.(window_max_blocks) = Ok page'.
Proof.
  intros H Hs Hm. unfold next_contiguous_window, checked_add in H.
  destruct (Z.leb_spec (window_start_height page + window_max_blocks page) u64_max); [|done].
  cbn in H. destruct (DiscoveryWindow_new _ _) as [x|] eqn:Hw; [|done]. injection H as ->.
  assert (Hs' : is_u64 (window_start_height page + window_max_blocks page))
    by (unfold in_range in *; lia).
  pose proof Hw as Hw'. apply DiscoveryWindow_new_Ok in Hw' as (->&_); [|done..]. by split_and!.
Qed.

(** Discovery windows stay inside the height range: a window is accepted
    exactly when it has 1 to 4096 blocks and its last height is a [u64], the page
    after an accepted window is the adjoining one of the same size, and it is
    refused as exhausted exactly when its own last height would overflow. *)
Theorem discovery_windows_bounded start max :
  is_u64 start → is_u32 max →
  (∀ w, DiscoveryWindow_new start max = Ok w ↔
     w = {| window_start_height := start; window_max_blocks := max |} ∧
     1 ≤ max ≤ MAX_DISCOVERY_BLOCKS ∧ start + (max - 1) ≤ u64_max) ∧
  ∀ w, DiscoveryWindow_new start max = Ok w →
    next_contiguous_window w =
    if start + max + (max - 1) <=? u64_max
    then Ok {| window_start_height := start + max; window_max_blocks := max |}
    else Err Port_DiscoveryWindowExhausted.
Proof.
  intros Hs Hm. split; [intros w; by apply DiscoveryWindow_new_Ok|].
  intros w Hw. apply DiscoveryWindow_new_Ok in Hw as (->&Hmax&Hend); [|done..].
  unfold next_contiguous_window, checked_add. cbn [window_start_height window_max_blocks].
  destruct (Z.leb_spec (start + max + (max - 1)) u64_max).
  - rewrite (proj2 (Z.leb_le (start + max) u64_max)) by lia. cbn [ok_or result_bind].
    assert (Hs' : is_u64 (start + max)) by (unfold in_range in *; lia).
    by rewrite (proj2 (DiscoveryWindow_new_Ok (start + max) max _ Hs' Hm) (conj eq_refl (conj Hmax H))).
  - destruct (Z.leb_spec (start + max) u64_max); [|done]. cbn [ok_or result_bind].
    destruct (DiscoveryWindow_new (start + max) max) as [w|] eqn:Hw; [|done].
    apply DiscoveryWindow_new_Ok in Hw as (_&_&?); [lia|unfold in_range in *; lia|done].
Qed.

(** The calls of a step: typed, and accounted for by the step. *)
Definition run_of (s : PortStep * PhaseWorld) (t t' : context_table) : Prop :=
  ∃ calls, t' = run_calls bridge_call t calls ∧
    Forall (λ c, bridge_call_typed c.1 ∧ justified s c.1) calls.

Lemma run_of_refl s t : run_of s t t.
Proof. by exists []. Qed.

Lemma resume_run s t key context w : run_of s t (resume_ambiguous t key context w).1.
Proof. unfold resume_ambiguous. destruct (world_read w); apply run_of_refl. Qed.

Lemma advance_run s t key context outcome next w :
  context_ok context → spec_ok next → justified s (CallAdvance key context outcome next) →
  run_of s t (advance_twice t key context outcome next w).1.
Proof.
  intros Hctx Hnext Hj.
  destruct (advance_twice_run t key context outcome next w) as (calls&Hrun&Hcalls).
  exists calls. split; [done|]. eapply Forall_impl; [exact Hcalls|]. intros [c f] Hc.
  cbn in Hc. subst c. split; [by apply context_ok_call|done].
Qed.

Lemma reserve_run t key w :
  step_typed (Step_Reserve key, w) →
  run_of (Step_Reserve key, w) t (reserve_context t key w).1.
Proof.
  intros [Hreq _]. destruct (reserve_context_run t key w) as (calls&Hrun&Hcalls).
  exists calls. split; [done|]. eapply Forall_impl; [exact Hcalls|].
  intros [c f] (requested&Hr&Hc). cbn in Hc. subst c. split; [by apply Hreq|].
  intros first Hfirst. split; [done|by exists requested].
Qed.

Lemma finish_poll_run t key context r retain w :
  step_typed (Step_FinishPoll key context r, w) →
  run_of (Step_FinishPoll key context r, w) t (finish_poll t key context r retain w).1.
Proof.
  intros (Hreq&Hctx&Hpage). cbn in Hreq.
  assert (Hfin : ∀ outcome, run_of (Step_FinishPoll key context r, w) t
                              (finish_observation t key context outcome retain w).1).
  { intros outcome. unfold finish_observation.
    destruct (world_request w) as [next|]; [|apply run_of_refl].
    destruct (_ && _); [apply run_of_refl|]. apply advance_run; [done|by apply Hreq|].
    cbn. congruence. }
  unfold finish_poll. destruct r as [o|[]]; [apply Hfin|apply resume_run|apply Hfin].
Qed.

Lemma page_run s t key context outcome page page' w :
  context_ok context → (∀ r, w.(world_request) = Some r → spec_ok r) →
  context.(context_discovery_window) = Some page →
  page' = page ∨ (covered [s] key page ∧ next_contiguous_window page = Ok page') →
  run_of s t (finish_observation_in_window t key context outcome page' w).1.
Proof.
  intros Hctx Hreq Hw Hnext. unfold finish_observation_in_window.
  destruct (world_request w) as [next|]; [|apply run_of_refl].
  destruct (proj2 (proj2 Hctx) page Hw) as (Hws&Hwm&Hwn). cbn in Hws, Hwm, Hwn.
  apply advance_run; [done| |].
  - split; [exact (proj1 (Hreq next eq_refl))|]. intros x [= <-]. destruct Hnext as [->|[_ Hnext]]; [done|].
    destruct (next_contiguous_window_Ok _ _ Hnext Hws Hwm) as (Heq&?&?).
    split_and!; [done|by rewrite Heq|done].
  - intros _. exists page, page'. split_and!; [done|done|].
    destruct Hnext as [->|[Hcov Hnext]]; [by left|right]. split; [done|].
    by destruct (next_contiguous_window_Ok _ _ Hnext Hws Hwm) as (->&_).
Qed.

Lemma finish_page_run t key context r w :
  step_typed (Step_FinishPage key context r, w) →
  run_of (Step_FinishPage key context r, w) t (finish_refund_page_observation t key context r w).1.
Proof.
  intros (Hreq&Hctx&_). cbn in Hreq. unfold finish_refund_page_observation.
  destruct r as [o|[]]; [|apply resume_run|];
    (destruct (context_discovery_window context) as [page|] eqn:Hw; [|apply run_of_refl]).
  - destruct (fully_covered_miss o) eqn:Hmiss; [|eapply page_run; eauto].
    destruct (next_contiguous_window page) as [page'|e] eqn:Hnext; [|apply run_of_refl].
    eapply page_run; [done..|]. right. split; [|done]. exists context, o, w.
    by rewrite list_elem_of_singleton.
  - eapply page_run; eauto.
Qed.

Lemma port_step_run t s w : step_typed (s, w) → run_of (s, w) t (port_step t s w).
Proof.
  destruct s; [apply reserve_run|intros _; apply resume_run|apply finish_poll_run|apply finish_page_run].
Qed.

(** ** The journal under the ports *)

Lemma spec_begin_only st c x :
  st !! operation_sql_key (call_key c) = None → (bridge_spec_call st c).2 = Ok x →
  ∃ key requested, c = CallBegin key requested ∧ validate_request_shape key requested = Ok tt.
Proof.
  unfold bridge_spec_call. destruct c as [key requested|key context outcome next]; cbn [call_key]; intros Hk.
  - unfold spec_begin. destruct (validate_request_shape key requested) as [[]|] eqn:Hs; [|done]. eauto.
  - unfold spec_advance. destruct (negb _); [done|]. destruct (validate_request_shape key next); [|done].
    cbn. case_bool_decide; [done|]. destruct (_ <? _); [done|]. by rewrite Hk.
Qed.

(** A call never forgets an operation. *)
Lemma spec_call_keeps st c k : is_Some (st !! k) → is_Some ((bridge_spec_call st c).1 !! k).
Proof.
  intros Hk. destruct (spec_call_cases st c) as [[-> _]|(h&->&_)]; [done|].
  apply lookup_insert_is_Some'. by right.
Qed.

(** The heights of an operation's pages, from a window it started with to its
    active one, have all been covered. *)
Definition pages_inv (start : BridgeOperationKey → DiscoveryWindow → Prop)
    (steps : list (PortStep * PhaseWorld)) (st : bridge_state) : Prop :=
  ∀ key h, is_page key.(bridge_operation) = true → st !! operation_sql_key key = Some h →
  ∃ first active, h.(active_spec).(spec_discovery_window) = Some active ∧
    start key first ∧ first.(window_start_height) ≤ active.(window_start_height) ∧
    ∀ height, first.(window_start_height) ≤ height < active.(window_start_height) →
    ∃ page, covered steps key page ∧
      page.(window_start_height) ≤ height < page.(window_start_height) + page.(window_max_blocks).

Lemma covered_mono steps steps' key page :
  steps ⊆ steps' → covered steps key page → covered steps' key page.
Proof. intros Hsub (c&r&w&?&?&?). exists c, r, w. split_and!; auto. Qed.

Lemma pages_inv_mono (start start' : BridgeOperationKey → DiscoveryWindow → Prop)
    steps steps' st :
  steps ⊆ steps' →
  (∀ key h first, st !! operation_sql_key key = Some h → start key first → start' key first) →
  pages_inv start steps st → pages_inv start' steps' st.
Proof.
  intros Hsub Hstart Hinv key h Hpage Hk.
  destruct (Hinv key h Hpage Hk) as (first&active&Ha&Hf&Hle&Hcov).
  exists first, active. split_and!; [done|by eapply Hstart|done|].
  intros height Hh. destruct (Hcov height Hh) as (page&?&?).
  exists page. split; [by eapply covered_mono|done].
Qed.

(** The windows an operation can have started with by the end of a step: that
    of a scan under way, or the one the step requests for an operation that the
    journal before it did not have. *)
Definition start_by (steps : list (PortStep * PhaseWorld)) (s : PortStep * PhaseWorld)
    (st0 : bridge_state) (key : BridgeOperationKey) (first : DiscoveryWindow) : Prop :=
  scan_start steps key first ∨
  st0 !! operation_sql_key key = None ∧ requests_window s key first.

Lemma pages_inv_call steps s st0 st c :
  s ∈ steps → bridge_call_typed c → justified s c →
  (∀ k, is_Some (st0 !! k) → is_Some (st !! k)) →
  pages_inv (start_by steps s st0) steps st →
  pages_inv (start_by steps s st0) steps (bridge_spec_call st c).1.
Proof.
  intros Hs Hc Hj Hgrow Hinv.
  destruct (spec_call_cases st c) as [[-> _]|(h&->&Ho&_&_&Ha&Hpush)]; [done|].
  intros key h' Hpage Hk.
  destruct (decide (operation_sql_key key = operation_sql_key (call_key c))) as [Heq|Hne];
    [|rewrite lookup_insert_ne in Hk by done; by apply (Hinv key)].
  rewrite Heq, lookup_insert_eq in Hk. injection Hk as <-.
  destruct (st !! operation_sql_key (call_key c)) as [h0|] eqn:Hk0.
  - destruct (Hpush h0 eq_refl) as (key'&context&outcome&next&->&Hctx&->). cbn [call_key] in *.
    apply operation_sql_key_inj in Heq as <-.
    destruct (Hinv key h0 Hpage Hk0) as (first&active&Hact&Hoff&Hle&Hcov).
    destruct (Hj Hpage) as (page&page'&Hp&Hp'&Hcase).
    assert (page = active) as -> by (rewrite <- Hctx in Hp; cbn in Hp; congruence).
    destruct Hc as (_&_&_&Hok). destruct (Hok active Hp) as (_&[Hm _]&_).
    exists first, page'. split_and!; [done|done|destruct Hcase as [->|[_ ->]]; lia|].
    intros height Hh. destruct Hcase as [->|[Hcv Hnext]]; [by apply Hcov|].
    destruct (decide (height < window_start_height active)); [apply Hcov; lia|].
    exists active. split; [|lia]. eapply covered_mono; [|done]. set_solver.
  - destruct (spec_begin_only _ _ _ Hk0 Ho) as (key'&requested&->&Hshape). cbn [call_key call_spec] in *.
    apply operation_sql_key_inj in Heq as <-. unfold validate_request_shape in Hshape.
    destruct (spec_discovery_window requested) as [first|] eqn:Hw;
      [|by destruct (bridge_operation key)].
    exists first, first. rewrite Ha. split_and!; [done| |done|intros; lia].
    right. split; [|by apply Hj]. apply eq_None_not_Some. intros H%Hgrow.
    rewrite Hk0 in H. by destruct H.
Qed.

Lemma pages_inv_run steps s st0 t st calls :
  s ∈ steps → Forall (λ c, bridge_call_typed c.1 ∧ justified s c.1) calls →
  (∀ k, is_Some (st0 !! k) → is_Some (st !! k)) →
  bridge_represents t st → state_ok st → pages_inv (start_by steps s st0) steps st →
  ∃ st', bridge_represents (run_calls bridge_call t calls) st' ∧ state_ok st' ∧
    (∀ k, is_Some (st0 !! k) → is_Some (st' !! k)) ∧
    pages_inv (start_by steps s st0) steps st'.
Proof.
  intros Hs Hcalls. revert t st.
  induction Hcalls as [|[c f] calls [Hc Hj] _ IH]; intros t st Hgrow Hrep Hok Hinv; [by exists st|].
  cbn [run_calls]. unfold call_next. cbn [snd fst] in *.
  destruct (bridge_call_refine t st c Hrep Hok Hc) as (Hrep'&Hok'&_).
  destruct f; [|by apply (IH t st)|];
    (eapply IH; [|done|done|by apply pages_inv_call]; auto using spec_call_keeps).
Qed.

(** The one context a reservation can create is the requested one, as poll 0. *)
Lemma begin_calls_create t st key requested calls c :
  spec_ok requested → Forall (λ x, x.1 = CallBegin key requested) calls →
  bridge_represents t st → state_ok st →
  current t key = Ok None ∨ current t key = Ok (Some (context_of 0 requested)) →
  current (run_calls bridge_call t calls) key = Ok (Some c) → c = context_of 0 requested.
Proof.
  intros Hreq Hcalls. revert t st.
  induction Hcalls as [|[x f] calls Hx _ IH]; intros t st Hrep Hok Hcur Hend;
    [cbn in Hend; destruct Hcur; congruence|].
  cbn in Hx. subst x. cbn [run_calls] in Hend. unfold call_next in Hend. cbn [fst snd] in Hend.
  destruct (bridge_call_refine t st (CallBegin key requested) Hrep Hok Hreq) as (Hrep'&Hok'&_).
  assert (Hstep : current (bridge_call t (CallBegin key requested)).1 key = Ok None ∨
    current (bridge_call t (CallBegin key requested)).1 key = Ok (Some (context_of 0 requested))).
  { unfold current in Hcur |- *.
    rewrite (bridge_load_represented _ _ key Hrep Hok) in Hcur.
    rewrite (bridge_load_represented _ _ key Hrep' Hok').
    destruct (spec_call_cases st (CallBegin key requested)) as [[-> _]|(h&->&_&_&Hspecs&Ha&Hpush)];
      [done|]. cbn [call_key call_spec] in *. unfold specs_of in Hspecs.
    destruct (st !! operation_sql_key key) as [h0|] eqn:Hk0.
    - by destruct (Hpush h0 eq_refl) as (?&?&?&?&?&_).
    - right. rewrite lookup_insert_eq. unfold history_specs in Hspecs.
      destruct h as [[|p l] active]; [|by destruct l]. cbn in Ha. by subst active. }
  destruct f; [|by apply (IH t st)|]; by eapply IH.
Qed.

Lemma port_run_snoc steps s : port_run (steps ++ [s]) = port_step (port_run steps) s.1 s.2.
Proof. unfold port_run. by rewrite foldl_app. Qed.

Lemma scan_start_snoc steps s key first :
  scan_start steps key first → scan_start (steps ++ [s]) key first.
Proof.
  intros (before&w&after&request&->&H). exists before, w, (after ++ [s]), request.
  split; [|done]. by rewrite <- app_assoc.
Qed.

(** A reservation that puts an operation into the journal starts its scan. *)
Lemma scan_start_here steps s st st' key h first :
  step_typed s → bridge_represents (port_run steps) st → state_ok st →
  bridge_represents (port_run (steps ++ [s])) st' → state_ok st' →
  st !! operation_sql_key key = None → st' !! operation_sql_key key = Some h →
  requests_window s key first → scan_start (steps ++ [s]) key first.
Proof.
  intros [Hreq _] Hrep Hok Hrep' Hok' Hk Hk' [Hs (request&Hr&Hf)]. destruct s as [s w].
  cbn in Hs, Hreq, Hr. subst s. exists steps, w, [], request.
  pose proof (bridge_load_represented _ _ key Hrep Hok) as Hcur. rewrite Hk in Hcur.
  pose proof (bridge_load_represented _ _ key Hrep' Hok') as Hcur'. rewrite Hk' in Hcur'.
  split_and!; [done..|]. unfold current. rewrite Hcur'. cbn. do 2 f_equal.
  rewrite port_run_snoc in Hcur'. cbn [fst snd port_step] in Hcur'.
  destruct (reserve_context_run (port_run steps) key w) as (calls&Hrun&Hcalls).
  rewrite Hrun in Hcur'.
  eapply begin_calls_create; [by apply Hreq| |exact Hrep|done|by left|exact Hcur'].
  eapply Forall_impl; [exact Hcalls|]. intros c (r&Hr'&->). congruence.
Qed.

Lemma port_run_inv_step steps s st :
  step_typed s → bridge_represents (port_run steps) st → state_ok st →
  pages_inv (scan_start steps) steps st →
  ∃ st', bridge_represents (port_run (steps ++ [s])) st' ∧ state_ok st' ∧
    (∀ k, is_Some (st !! k) → is_Some (st' !! k)) ∧
    pages_inv (scan_start (steps ++ [s])) (steps ++ [s]) st'.
Proof.
  intros Hs Hrep Hok Hinv.
  destruct (port_step_run (port_run steps) s.1 s.2) as (calls&Hrun&Hcalls); [by destruct s|].
  rewrite <- surjective_pairing in Hcalls.
  destruct (pages_inv_run (steps ++ [s]) s st (port_run steps) st calls)
    as (st'&Hrep'&Hok'&Hgrow&Hinv'); [set_solver|done|done|done|done| |].
  - eapply pages_inv_mono; [|intros ??? _ H; left; by apply scan_start_snoc|done]. set_solver.
  - rewrite <- Hrun, <- port_run_snoc in Hrep'. exists st'. split_and!; [done..|].
    eapply pages_inv_mono; [done| |done]. intros key h first Hk' [?|[Hk Hw]]; [done|].
    by eapply scan_start_here.
Qed.

Lemma port_run_inv steps :
  Forall step_typed steps →
  ∃ st, bridge_represents (port_run steps) st ∧ state_ok st ∧ pages_inv (scan_start steps) steps st.
Proof.
  induction steps as [|s steps IH] using rev_ind; intros Hsteps.
  - exists ∅. split_and!; [apply bridge_represents_empty|apply state_ok_empty|].
    intros key h _ Hk. by rewrite lookup_empty in Hk.
  - apply Forall_app in Hsteps as [Hsteps Hs]. apply Forall_cons_1 in Hs as [Hs _].
    destruct (IH Hsteps) as (st&Hrep&Hok&Hinv).
    destruct (port_run_inv_step steps s st Hs Hrep Hok Hinv) as (st'&?&?&_&?). by exists st'.
Qed.

(** Once an operation is in the journal it has a context at every later step. *)
Lemma current_stays steps later key c :
  Forall step_typed (steps ++ later) → current (port_run steps) key = Ok (Some c) →
  ∃ c', current (port_run (steps ++ later)) key = Ok (Some c').
Proof.
  intros Htyped Hcur. induction later as [|s later IH] using rev_ind;
    [rewrite app_nil_r; by exists c|].
  rewrite app_assoc in Htyped |- *. apply Forall_app in Htyped as [Hsteps Hs].
  apply Forall_cons_1 in Hs as [Hs _]. destruct (IH Hsteps) as [c1 Hc1].
  destruct (port_run_inv _ Hsteps) as (st&Hrep&Hok&Hinv).
  destruct (port_run_inv_step _ s st Hs Hrep Hok Hinv) as (st'&Hrep'&Hok'&Hgrow&_).
  unfold current in Hc1 |- *. rewrite (bridge_load_represented _ _ _ Hrep Hok) in Hc1.
  rewrite (bridge_load_represented _ _ _ Hrep' Hok').
  destruct (st !! operation_sql_key key) as [h|] eqn:Hk; [|done].
  destruct (Hgrow (operation_sql_key key)) as [h' ->]; eauto.
Qed.

(** A scan has one start. *)
Lemma scan_start_unique steps key first first' :
  Forall step_typed steps → scan_start steps key first → scan_start steps key first' →
  first = first'.
Proof.
  intros Htyped (b1&w1&a1&r1&H1&Hr1&Hf1&Hn1&Hs1) (b2&w2&a2&r2&H2&Hr2&Hf2&Hn2&Hs2).
  assert (Hlater : ∀ b b' s a a' c, steps = b ++ s :: a → steps = b' ++ a' →
    (length b < length b')%nat → current (port_run (b ++ [s])) key = Ok (Some c) →
    current (port_run b') key = Ok None → False).
  { intros b b' s a a' c -> Heq Hlen Hc Hn.
    rewrite (cons_middle s b a), app_assoc in Heq.
    apply app_eq_inv in Heq as [(k&Hb&->)|(k&->&->)].
    - rewrite Hb in Hc. 
      assert (k = []) as -> by (apply nil_length_inv; apply (f_equal length) in Hb;
        rewrite !length_app in Hb; cbn in Hb; lia).
      rewrite app_nil_r in Hc. congruence.
    - destruct (current_stays (b ++ [s]) k key c) as [c' Hc']; [|done|congruence].
      rewrite (cons_middle s b), !app_assoc in Htyped. by apply Forall_app in Htyped as [? _]. }
  destruct (Nat.lt_trichotomy (length b1) (length b2)) as [Hlt|[Heq|Hlt]];
    [by destruct (Hlater b1 b2 _ a1 _ _ H1 H2 Hlt Hs1 Hn2)| |
     by destruct (Hlater b2 b1 _ a2 _ _ H2 H1 Hlt Hs2 Hn1)].
  rewrite H1 in H2. apply app_inj_1 in H2 as [-> [= -> ->]]; [congruence|done].
Qed.

(** C17: the scan for a refund skips nothing: whatever answers, retries and lost
    commits the ports met, an operation with an active refund context was put
    into the journal by a reservation for one window [first], the only window
    with which its scan can have started, and every height from the start of that
    window up to the active window lies in a page that the adapter reported as a
    fully covered miss. *)
Theorem refund_pages_skip_nothing steps key context :
  Forall step_typed steps → is_page key.(bridge_operation) = true →
  current (port_run steps) key = Ok (Some context) →
  ∃ first active, context.(context_discovery_window) = Some active ∧
    (∀ start, scan_start steps key start ↔ start = first) ∧
    first.(window_start_height) ≤ active.(window_start_height) ∧
    ∀ height, first.(window_start_height) ≤ height < active.(window_start_height) →
    ∃ page, covered steps key page ∧
      page.(window_start_height) ≤ height < page.(window_start_height) + page.(window_max_blocks).
Proof.
  intros Hsteps Hpage Hcur. destruct (port_run_inv steps Hsteps) as (st&Hrep&Hok&Hinv).
  unfold current in Hcur. rewrite (bridge_load_represented _ _ _ Hrep Hok) in Hcur.
  destruct (st !! operation_sql_key key) as [h|] eqn:Hk; [|done]. injection Hcur as <-.
  destruct (Hinv key h Hpage Hk) as (first&active&Ha&Hstart&Hle&Hcov).
  exists first, active. split_and!; [done| |done|done].
  intros start. split; [|by intros ->]. intros H. by eapply scan_start_unique.
Qed.

(** ** One poll *)

(** An advance of the active context fails, or advances once and for all. *)
Lemma spec_advance_active st key h outcome next :
  st !! operation_sql_key key = Some h →
  let c := CallAdvance key (active_context h) outcome next in
  let advanced := <[operation_sql_key key := push_poll h outcome next]> st in
  (∃ e, bridge_spec_call st c = (st, Err e)) ∨
  (∃ x y, bridge_spec_call st c = (advanced, Ok x) ∧ bridge_spec_call advanced c = (advanced, Ok y)).
Proof.
  intros Hk c advanced. unfold bridge_spec_call, c.
  destruct (spec_advance st key (active_context h) outcome next) as [[st' x]|e] eqn:Hadv;
    [right|left; by exists e].
  assert (Hst : st' = advanced).
  { revert Hadv. unfold spec_advance. rewrite Hk.
    destruct (negb _); [done|]. destruct (validate_request_shape key next); [|done]. cbn.
    case_bool_decide; [done|]. destruct (_ <? _); [done|].
    rewrite (bool_decide_eq_true_2 (_ = active_context h)) by done.
    destruct (request_used _ _); [done|]. destruct (_ <? _); [done|]. by intros [= <- _]. }
  rewrite Hst in Hadv |- *. rewrite (spec_advance_retry _ _ _ _ _ _ _ Hadv). by eexists _, _.
Qed.

(** What an attempt leaves and reports: nothing and an error, or the call's
    effect and its result or an error. *)
Lemma attempt_advance_refines t st f key context outcome next :
  bridge_represents t st → state_ok st →
  let c := CallAdvance key context outcome next in
  bridge_call_typed c →
  let '(t1, o) := attempt t f (λ t, advance_observation t key context outcome next) in
  (bridge_represents t1 st ∧ state_ok st ∧ ∃ e, o = Err e) ∨
  (bridge_represents t1 (bridge_spec_call st c).1 ∧ state_ok (bridge_spec_call st c).1 ∧
   (o = (bridge_spec_call st c).2 ∨ ∃ e, o = Err e)).
Proof.
  intros Hrep Hok c Hc. destruct (bridge_call_refine t st c Hrep Hok Hc) as (Hr&Ho&Hout).
  unfold c in Hr, Hout. cbn [bridge_call] in Hr, Hout. unfold attempt. destruct f.
  - destruct (advance_observation t _ _ _ _). right. cbn in *. eauto.
  - left. eauto.
  - right. eauto.
Qed.

(** The two attempts at an advance of the active context leave the journal as it
    was, when both failed, or advanced once. *)
Lemma advance_twice_spec t st key h outcome next w :
  bridge_represents t st → state_ok st →
  bridge_call_typed (CallAdvance key (active_context h) outcome next) →
  st !! operation_sql_key key = Some h →
  let '(t', o) := advance_twice t key (active_context h) outcome next w in
  ∃ st', bridge_represents t' st' ∧ state_ok st' ∧
    (st' = st ∧ o ≠ Ok tt ∨ st' = <[operation_sql_key key := push_poll h outcome next]> st).
Proof.
  intros Hrep Hok Hc Hk. pose proof (spec_advance_active st key h outcome next Hk) as Hcall.
  cbn zeta in Hcall. set (c := CallAdvance key (active_context h) outcome next) in *.
  set (advanced := <[operation_sql_key key := push_poll h outcome next]> st) in *.
  unfold advance_twice.
  pose proof (attempt_advance_refines t st (world_first w) key _ outcome next Hrep Hok Hc) as H1.
  destruct (attempt t (world_first w) _) as [t1 o1].
  assert (Hfirst : (bridge_represents t1 st ∧ state_ok st ∧ ∃ e, o1 = Err e) ∨
                   (bridge_represents t1 advanced ∧ state_ok advanced ∧
                    ∃ y, bridge_spec_call advanced c = (advanced, Ok y))).
  { destruct H1 as [H1|(Hr&Ho&Hout)]; [by left|]. fold c in Hr, Ho, Hout.
    destruct Hcall as [[e He]|(x&y&Hx&Hy)]; [left|right].
    - rewrite He in *. cbn in *. split_and!; [done..|]. destruct Hout; eauto.
    - rewrite Hx in *. eauto. }
  destruct Hfirst as [(Hr1&Ho1&e1&->)|(Hr1&Ho1&y1&Hy1)].
  - pose proof (attempt_advance_refines t1 st (world_second w) key _ outcome next Hr1 Ho1 Hc) as H2.
    destruct (attempt t1 (world_second w) _) as [t2 o2].
    destruct H2 as [(Hr2&Ho2&e&->)|(Hr2&Ho2&Hout)]; [exists st; by eauto|]. fold c in Hr2, Ho2, Hout.
    destruct Hcall as [[e He]|(x&y&Hx&Hy)].
    + rewrite He in *. exists st. split_and!; [done..|]. left. split; [done|].
      by destruct Hout as [->|[? ->]].
    + rewrite Hx in *. exists advanced. by eauto.
  - destruct o1 as [x1|e1]; [exists advanced; by eauto|].
    pose proof (attempt_advance_refines t1 advanced (world_second w) key _ outcome next Hr1 Ho1 Hc) as H2.
    fold c in H2. destruct (attempt t1 (world_second w) _) as [t2 o2]. rewrite Hy1 in H2.
    exists advanced. destruct H2 as [(?&?&_)|(?&?&_)]; eauto.
Qed.

(** The next poll of an operation is active, over the same or the adjoining
    window. *)
Definition moved_on (t : context_table) (key : BridgeOperationKey)
    (context : DurableBridgeRequestContext) (missed : bool) (w : PhaseWorld) : Prop :=
  ∃ page page' request, context.(context_discovery_window) = Some page ∧
    w.(world_request) = Some request ∧
    current t key = Ok (Some {| context_poll_sequence := context.(context_poll_sequence) + 1;
                                context_request_id := request.(spec_request_id);
                                context_discovery_window := Some page' |}) ∧
    page'.(window_max_blocks) = page.(window_max_blocks) ∧
    page'.(window_start_height) =
      page.(window_start_height) + (if missed then page.(window_max_blocks) else 0).

Lemma finish_in_window_spec t st key context outcome (missed : bool) page page' w :
  bridge_represents t st → state_ok st → current t key = Ok (Some context) →
  context_ok context → (∀ r, w.(world_request) = Some r → spec_ok r) →
  context.(context_discovery_window) = Some page →
  (if missed then next_contiguous_window page = Ok page' else page' = page) →
  let '(t', o) := finish_observation_in_window t key context outcome page' w in
  (current t' key = Ok (Some context) ∨ moved_on t' key context missed w) ∧
  (o = Ok tt → moved_on t' key context missed w).
Proof.
  intros Hrep Hok Hcur Hctx Hreq Hpage Hnext. unfold finish_observation_in_window.
  destruct (world_request w) as [request|] eqn:Hr; [|split; [by left|done]].
  set (next := {| spec_request_id := spec_request_id request; spec_discovery_window := Some page' |}).
  destruct (proj2 (proj2 Hctx) page Hpage) as (Hs&Hm&Hw). cbn in Hs, Hm, Hw.
  assert (Hpage' : is_u64 (window_start_height page') ∧
    DiscoveryWindow_new (window_start_height page') (window_max_blocks page') = Ok page' ∧
    window_max_blocks page' = window_max_blocks page ∧ window_start_height page' =
      window_start_height page + (if missed then window_max_blocks page else 0)).
  { destruct missed; [|subst page'; split_and!; done || lia].
    destruct (next_contiguous_window_Ok _ _ Hnext Hs Hm) as (->&?&?). by split_and!. }
  destruct Hpage' as (Hs'&Hw'&Hm'&Hstart).
  assert (Hc : bridge_call_typed (CallAdvance key context outcome next)).
  { apply context_ok_call; [done|]. split; [exact (proj1 (Hreq request eq_refl))|].
    intros x [= <-]. split_and!; [done|by rewrite Hm'|done]. }
  unfold current in Hcur. rewrite (bridge_load_represented _ _ _ Hrep Hok) in Hcur.
  destruct (st !! operation_sql_key key) as [h|] eqn:Hk; [|done]. injection Hcur as <-.
  pose proof (advance_twice_spec t st key h outcome next w Hrep Hok Hc Hk) as Hadv.
  destruct (advance_twice _ _ _ _ _ _) as [t' o]. destruct Hadv as (st'&Hrep'&Hok'&Hcase).
  pose proof (bridge_load_represented _ _ key Hrep' Hok') as Hload. fold (current t' key) in Hload.
  destruct Hcase as [[-> Ho]| ->]; [rewrite Hk in Hload; split; [by left|done]|].
  assert (Hmoved : moved_on t' key (active_context h) missed w);
    [|split; [by right|done]].
  exists page, page', request. split_and!; [done..| |done|done].
  rewrite Hload, lookup_insert_eq. unfold active_context, context_of, push_poll. cbn.
  unfold blen. rewrite length_app. cbn. do 3 f_equal. lia.
Qed.

(** A page keeps its place or moves on by exactly one page: finishing a poll
    of the active context leaves that context active, or makes the next poll
    active under the fresh request identity, over the same window unless the page
    was a fully covered miss and over the adjoining window if it was.  When the
    phase reports success it has moved on, or the transport was ambiguous and
    nothing changed. *)
Theorem refund_page_finishes steps key context r w :
  Forall step_typed (steps ++ [(Step_FinishPage key context r, w)]) →
  current (port_run steps) key = Ok (Some context) →
  let '(t, o) := finish_refund_page_observation (port_run steps) key context r w in
  let missed := match r with Ok page => page.(fully_covered_miss) | Err _ => false end in
  (current t key = Ok (Some context) ∨ moved_on t key context missed w) ∧
  (o = Ok tt → r = Err Adapter_Transport ∧ t = port_run steps ∨ moved_on t key context missed w).
Proof.
  intros Htyped Hcur. apply Forall_app in Htyped as [Hsteps Hs].
  apply Forall_cons_1 in Hs as [(Hreq&Hctx&_) _]. cbn in Hreq.
  destruct (port_run_inv steps Hsteps) as (st&Hrep&Hok&_).
  pose proof (λ outcome missed page page', finish_in_window_spec _ st key context outcome missed
    page page' w Hrep Hok Hcur Hctx Hreq) as Hspec.
  unfold finish_refund_page_observation.
  destruct r as [obs|[]]; [|unfold resume_ambiguous; destruct (world_read w); cbn; by auto|];
    (destruct (context_discovery_window context) as [page|] eqn:Hpage; [|split; [by left|done]]).
  - destruct (fully_covered_miss obs).
    + destruct (next_contiguous_window page) as [page'|e] eqn:Hnext; [|split; [by left|done]].
      specialize (Hspec (outcome_of (Ok obs)) true page page' eq_refl Hnext).
      destruct (finish_observation_in_window _ _ _ _ _ _). naive_solver.
    + specialize (Hspec (outcome_of (Ok obs)) false page page eq_refl eq_refl).
      destruct (finish_observation_in_window _ _ _ _ _ _). naive_solver.
  - specialize (Hspec Outcome_TypedError false page page eq_refl eq_refl).
    cbn [outcome_of]. destruct (finish_observation_in_window _ _ _ _ _ _). naive_solver.
Qed.

(** ** A sample scan *)

Module PortSamples.
Import BridgeSamples.

Definition scan_key : BridgeOperationKey := key NativeRefundDiscoveryObserve.

Definition world (request_id : string) (start : Z) (first second : Fate) : PhaseWorld :=
  {| world_request := Some (page request_id start); world_read := None; world_probe := None;
     world_first := first; world_second := second |}.

Definition miss : result NativeRefundPageObservation AdapterError :=
  Ok {| page_observation := Observed_Unstable; fully_covered_miss := true |}.

(** A first reservation, for a window at height 1000, is rolled back; the one
    at height 5 is lost after it committed, the first page needs its second
    attempt, and the second one is ambiguous. *)
Definition steps : list (PortStep * PhaseWorld) :=
  [(Step_Reserve scan_key, world "request-r" 1000 RolledBack Delivered);
   (Step_Reserve scan_key, world "request-0" 5 CommittedUnseen Delivered);
   (Step_FinishPage scan_key (context_of 0 (page "request-0" 5)) miss,
    world "request-1" 5 RolledBack CommittedUnseen);
   (Step_FinishPage scan_key (context_of 1 (page "request-1" 105)) (Err Adapter_Transport),
    world "request-2" 5 Delivered Delivered)].

Definition next_step : PortStep * PhaseWorld :=
  (Step_FinishPage scan_key (context_of 1 (page "request-1" 105)) miss,
   world "request-3" 5 CommittedUnseen Delivered).

Lemma sample_page_ok request_id start :
  safe_identifier request_id = true → 0 ≤ start ≤ 1000 → spec_ok (page request_id start).
Proof.
  intros Hid Hs. apply page_ok; [done|unfold in_range, u64_max; lia|].
  apply DiscoveryWindow_new_Ok; unfold in_range, u64_max, u32_max, MAX_DISCOVERY_BLOCKS; [lia..|].
  split; [done|lia].
Qed.

Lemma sample_steps_typed : Forall step_typed (steps ++ [next_step]).
Proof.
  assert (Hreq : ∀ id start r, safe_identifier id = true → 0 ≤ start ≤ 1000 →
            Some (page id start) = Some r → spec_ok r)
    by (intros id start r Hid Hs [= <-]; by apply sample_page_ok).
  assert (Hctx : ∀ n id start, is_u64 n → safe_identifier id = true → 0 ≤ start ≤ 1000 →
            context_ok (context_of n (page id start)))
    by (intros n id start Hn Hid Hs; split; [done|by apply sample_page_ok]).
  repeat apply Forall_cons_2; try apply Forall_nil_2; (split; [by intros r; apply Hreq|]);
    cbn; try (split; [|done]); try done; apply Hctx; done.
Qed.

Lemma discovery_windows_bounded_witness :
  DiscoveryWindow_new (u64_max - 9) 10
    = Ok {| window_start_height := u64_max - 9; window_max_blocks := 10 |} ∧
  next_contiguous_window {| window_start_height := u64_max - 9; window_max_blocks := 10 |}
    = Err Port_DiscoveryWindowExhausted.
Proof.
  destruct (discovery_windows_bounded (u64_max - 9) 10) as [Hok Hnext];
    [unfold in_range, u64_max; lia|unfold in_range, u32_max; lia|].
  assert (Hw : DiscoveryWindow_new (u64_max - 9) 10
    = Ok {| window_start_height := u64_max - 9; window_max_blocks := 10 |})
    by (apply Hok; split; [done|unfold u64_max, MAX_DISCOVERY_BLOCKS; lia]).
  split; [done|]. by rewrite (Hnext _ Hw).
Defined.

Lemma sample_scan_start :
  scan_start steps scan_key {| window_start_height := 5; window_max_blocks := 100 |}.
Proof.
  exists [(Step_Reserve scan_key, world "request-r" 1000 RolledBack Delivered)],
    (world "request-0" 5 CommittedUnseen Delivered), (drop 2 steps), (page "request-0" 5).
  split_and!; by vm_compute.
Qed.

Lemma refund_pages_skip_nothing_witness :
  current (port_run steps) scan_key = Ok (Some (context_of 1 (page "request-1" 105))) ∧
  ∀ height, 5 ≤ height < 105 → ∃ p, covered steps scan_key p ∧
    p.(window_start_height) ≤ height < p.(window_start_height) + p.(window_max_blocks).
Proof.
  split; [by vm_compute|].
  destruct (refund_pages_skip_nothing steps scan_key (context_of 1 (page "request-1" 105)))
    as (first&active&Ha&Hstart&Hle&Hcov); [|done|by vm_compute|].
  - exact (proj1 (proj1 (Forall_app _ _ _) sample_steps_typed)).
  - injection Ha as <-. intros height Hh. apply Hcov.
    rewrite <- (proj1 (Hstart _) sample_scan_start). cbn. lia.
Defined.

Lemma refund_page_finishes_witness :
  current (port_run (steps ++ [next_step])) scan_key
    = Ok (Some (context_of 2 (page "request-3" 205))) ∧
  moved_on (port_run (steps ++ [next_step])) scan_key (context_of 1 (page "request-1" 105)) true
    next_step.2.
Proof.
  assert (Hcur : current (port_run (steps ++ [next_step])) scan_key
                 = Ok (Some (context_of 2 (page "request-3" 205)))) by by vm_compute.
  split; [done|].
  pose proof (refund_page_finishes steps scan_key _ miss next_step.2 sample_steps_typed
    ltac:(by vm_compute)) as Hfin.
  unfold port_run in Hcur |- *. rewrite foldl_app in Hcur |- *. fold (port_run steps) in Hcur |- *.
  cbn [foldl fst next_step port_step] in Hcur |- *.
  destruct (finish_refund_page_observation _ _ _ _ _) as [t o]. cbn [fst] in Hcur |- *.
  destruct Hfin as [[Hsame|Hmoved] _]; [|done]. rewrite Hcur in Hsame. by vm_compute in Hsame.
Defined.

End PortSamples.
