(* ===== verification/XmrWorkflow.v ===== *)
(** * The XMR effect-workflow journal

    Models [crates/swap-store/src/xmr_effect_workflow_journal.rs]: the durable
    orchestration of the effects one role performs in an XMR swap.  The database
    is a singleton identity row and one row per step; an operation is a function
    from the database to the database its transaction leaves and its result.
    The schema exists in versions 2 and 3 (the latter adds the punish branch) and
    is an argument.  Re-checking the database file around an operation is input
    and output: its failures are the rolled-back and unseen calls of a run. *)

From stdpp Require Import base gmap strings list numbers.
From S2P Require Import Prelude SwapCore SqlTable StoreBase.

Open Scope Z_scope.

Definition MAX_RUN_ID_BYTES : Z := 128.

(** ** Identity *)

Record XmrWorkflowIdentityV1 := {
  wf_swap_id : SwapId;
  wf_local_role : Participant;
  wf_run_id : string;
  wf_agreement_commitment : bytes;
  wf_activation_commitment : bytes;
  wf_authority_sha256 : bytes
}.

#[global] Instance XmrWorkflowIdentityV1_eq_dec : EqDecision XmrWorkflowIdentityV1.
Proof. solve_decision. Defined.

(** [iter().all(|byte| *byte == 0)] *)
Definition all_zero (b : bytes) : bool := forallb (λ byte, byte ==? Byte.x00) b.

Definition validate_identity (identity : XmrWorkflowIdentityV1) : result unit StoreError :=
  let swap := identity.(wf_swap_id).(SwapId_as_str) in
  if negb (slen swap =? 64)
     || negb (forallb (λ byte, is_ascii_hexdigit byte && negb (is_ascii_uppercase byte))
                (bytes_of_string swap))
     || (slen identity.(wf_run_id) =? 0)
     || (MAX_RUN_ID_BYTES <? slen identity.(wf_run_id))
     || negb (forallb is_ascii_graphic (bytes_of_string identity.(wf_run_id)))
     || all_zero identity.(wf_agreement_commitment)
     || all_zero identity.(wf_activation_commitment)
     || all_zero identity.(wf_authority_sha256)
  then Err InvalidXmrWorkflowIdentity
  else Ok tt.

Definition XmrWorkflowIdentityV1_new (swap_id : SwapId) (local_role : Participant)
    (run_id : string) (agreement_commitment activation_commitment authority_sha256 : bytes)
    : result XmrWorkflowIdentityV1 StoreError :=
  let value :=
    {| wf_swap_id := swap_id;
       wf_local_role := local_role;
       wf_run_id := run_id;
       wf_agreement_commitment := agreement_commitment;
       wf_activation_commitment := activation_commitment;
       wf_authority_sha256 := authority_sha256 |} in
  let? _ := validate_identity value in
  Ok value.

(** ** Branches, scopes, sources *)

Inductive XmrWorkflowBranch := Branch_Claim | Branch_Refund | Branch_Punish.

Definition XmrWorkflowBranch_name (b : XmrWorkflowBranch) : string :=
  match b with
  | Branch_Claim => "claim"
  | Branch_Refund => "refund"
  | Branch_Punish => "punish"
  end.

Definition XmrWorkflowBranch_parse (value : string) : result XmrWorkflowBranch StoreError :=
  if value ==? "claim" then Ok Branch_Claim
  else if value ==? "refund" then Ok Branch_Refund
  else if value ==? "punish" then Ok Branch_Punish
  else Err CorruptXmrWorkflowState.

Inductive XmrWorkflowStepScope := Scope_Common | Scope_Claim | Scope_Refund | Scope_Punish.

Definition XmrWorkflowStepScope_name (s : XmrWorkflowStepScope) : string :=
  match s with
  | Scope_Common => "common"
  | Scope_Claim => "claim"
  | Scope_Refund => "refund"
  | Scope_Punish => "punish"
  end.

Definition XmrWorkflowStepScope_parse (value : string)
    : result XmrWorkflowStepScope StoreError :=
  if value ==? "common" then Ok Scope_Common
  else if value ==? "claim" then Ok Scope_Claim
  else if value ==? "refund" then Ok Scope_Refund
  else if value ==? "punish" then Ok Scope_Punish
  else Err CorruptXmrWorkflowState.

Definition scope_branch (s : XmrWorkflowStepScope) : option XmrWorkflowBranch :=
  match s with
  | Scope_Common => None
  | Scope_Claim => Some Branch_Claim
  | Scope_Refund => Some Branch_Refund
  | Scope_Punish => Some Branch_Punish
  end.

Inductive XmrWorkflowReconciliationSource := LezFinalizedEvent | MoneroWalletTransaction.

Definition XmrWorkflowReconciliationSource_name (s : XmrWorkflowReconciliationSource) : string :=
  match s with
  | LezFinalizedEvent => "lez_finalized_event"
  | MoneroWalletTransaction => "monero_wallet_transaction"
  end.

Definition XmrWorkflowReconciliationSource_parse (value : string)
    : result XmrWorkflowReconciliationSource StoreError :=
  if value ==? "lez_finalized_event" then Ok LezFinalizedEvent
  else if value ==? "monero_wallet_transaction" then Ok MoneroWalletTransaction
  else Err CorruptXmrWorkflowState.

Record XmrWorkflowReconciliationV2 := {
  effect_evidence_sha256 : bytes;
  tool_plan_identity_sha256 : bytes;
  reconciliation_source_of : XmrWorkflowReconciliationSource
}.

Definition XmrWorkflowReconciliationV2_new (effect_evidence tool_plan_identity : bytes)
    (source : XmrWorkflowReconciliationSource)
    : result XmrWorkflowReconciliationV2 StoreError :=
  if all_zero effect_evidence || all_zero tool_plan_identity
  then Err InvalidXmrWorkflowReconciliation
  else Ok {| effect_evidence_sha256 := effect_evidence;
             tool_plan_identity_sha256 := tool_plan_identity;
             reconciliation_source_of := source |}.

#[global] Instance XmrWorkflowBranch_eq_dec : EqDecision XmrWorkflowBranch.
Proof. solve_decision. Defined.
#[global] Instance XmrWorkflowStepScope_eq_dec : EqDecision XmrWorkflowStepScope.
Proof. solve_decision. Defined.
#[global] Instance XmrWorkflowReconciliationSource_eq_dec :
  EqDecision XmrWorkflowReconciliationSource.
Proof. solve_decision. Defined.
#[global] Instance XmrWorkflowReconciliationV2_eq_dec : EqDecision XmrWorkflowReconciliationV2.
Proof. solve_decision. Defined.

(** ** Steps *)

Inductive XmrWorkflowStep :=
| InitializeLezTag13
| FundLezTag13
| FundMonero
| AuthorizeLezTag14
| ClaimLezTag15
| SweepMoneroClaim
| RefundLezTag16
| SweepMoneroRefund
| PunishLezTag17.

#[global] Instance XmrWorkflowStep_eq_dec : EqDecision XmrWorkflowStep.
Proof. solve_decision. Defined.

Definition XmrWorkflowStep_name (s : XmrWorkflowStep) : string :=
  match s with
  | InitializeLezTag13 => "initialize_lez_tag13"
  | FundLezTag13 => "fund_lez_tag13"
  | FundMonero => "fund_monero"
  | AuthorizeLezTag14 => "authorize_lez_tag14"
  | ClaimLezTag15 => "claim_lez_tag15"
  | SweepMoneroClaim => "sweep_monero_claim"
  | RefundLezTag16 => "refund_lez_tag16"
  | SweepMoneroRefund => "sweep_monero_refund"
  | PunishLezTag17 => "punish_lez_tag17"
  end.

Definition XmrWorkflowStep_role (s : XmrWorkflowStep) : Participant :=
  match s with
  | FundMonero | ClaimLezTag15 | SweepMoneroRefund | PunishLezTag17 => Participant_Maker
  | InitializeLezTag13 | FundLezTag13 | AuthorizeLezTag14 | SweepMoneroClaim
  | RefundLezTag16 => Participant_Taker
  end.

Definition XmrWorkflowStep_reconciliation_source (s : XmrWorkflowStep)
    : XmrWorkflowReconciliationSource :=
  match s with
  | FundMonero | SweepMoneroClaim | SweepMoneroRefund => MoneroWalletTransaction
  | InitializeLezTag13 | FundLezTag13 | AuthorizeLezTag14 | ClaimLezTag15 | RefundLezTag16
  | PunishLezTag17 => LezFinalizedEvent
  end.

Definition XmrWorkflowStep_scope (s : XmrWorkflowStep) : XmrWorkflowStepScope :=
  match s with
  | InitializeLezTag13 | FundLezTag13 | FundMonero => Scope_Common
  | AuthorizeLezTag14 | ClaimLezTag15 | SweepMoneroClaim => Scope_Claim
  | RefundLezTag16 | SweepMoneroRefund => Scope_Refund
  | PunishLezTag17 => Scope_Punish
  end.

Definition XmrWorkflowStep_predecessor (s : XmrWorkflowStep) : option XmrWorkflowStep :=
  match s with
  | InitializeLezTag13 | FundMonero => None
  | FundLezTag13 => Some InitializeLezTag13
  | AuthorizeLezTag14 | RefundLezTag16 => Some FundLezTag13
  | ClaimLezTag15 | SweepMoneroRefund | PunishLezTag17 => Some FundMonero
  | SweepMoneroClaim => Some AuthorizeLezTag14
  end.

Definition XmrWorkflowStep_parse (value : string) : result XmrWorkflowStep StoreError :=
  if value ==? "initialize_lez_tag13" then Ok InitializeLezTag13
  else if value ==? "fund_lez_tag13" then Ok FundLezTag13
  else if value ==? "fund_monero" then Ok FundMonero
  else if value ==? "authorize_lez_tag14" then Ok AuthorizeLezTag14
  else if value ==? "claim_lez_tag15" then Ok ClaimLezTag15
  else if value ==? "sweep_monero_claim" then Ok SweepMoneroClaim
  else if value ==? "refund_lez_tag16" then Ok RefundLezTag16
  else if value ==? "sweep_monero_refund" then Ok SweepMoneroRefund
  else if value ==? "punish_lez_tag17" then Ok PunishLezTag17
  else Err CorruptXmrWorkflowState.

Inductive XmrWorkflowDecision := InvokeOnce | Xmr_ObserveOnly | Complete.

Inductive StepState := Step_Prepared | Step_Started | Step_Succeeded | Step_Unknown.

#[global] Instance XmrWorkflowDecision_eq_dec : EqDecision XmrWorkflowDecision.
Proof. solve_decision. Defined.
#[global] Instance StepState_eq_dec : EqDecision StepState.
Proof. solve_decision. Defined.

Definition StepState_parse (value : string) : result StepState StoreError :=
  if value ==? "prepared" then Ok Step_Prepared
  else if value ==? "started" then Ok Step_Started
  else if value ==? "succeeded" then Ok Step_Succeeded
  else if value ==? "unknown" then Ok Step_Unknown
  else Err CorruptXmrWorkflowState.

Definition StepState_name (s : StepState) : string :=
  match s with
  | Step_Prepared => "prepared"
  | Step_Started => "started"
  | Step_Succeeded => "succeeded"
  | Step_Unknown => "unknown"
  end.

Record StepSnapshot := {
  snap_step : XmrWorkflowStep;
  snap_role : Participant;
  snap_scope : XmrWorkflowStepScope;
  snap_state : StepState;
  snap_attempts : Z;
  snap_revision : Z;
  snap_reconciliation : option XmrWorkflowReconciliationV2
}.

(** ** The database *)

Record IdentityRow := {
  id_swap_id : string;
  id_local_role : string;
  id_run_id : string;
  id_agreement_commitment : bytes;
  id_activation_commitment : bytes;
  id_authority_sha256 : bytes;
  id_selected_branch : option string;
  id_revision : Z
}.

Record StepRow := {
  step_singleton_id : Z;
  step_local_role : string;
  step_scope : string;
  step_state : string;
  step_attempt_count : Z;
  step_revision_column : Z;
  step_effect_evidence_sha256 : option bytes;
  step_tool_plan_identity_sha256 : option bytes;
  step_reconciliation_source : option string
}.

Record workflow_db := {
  identity_rows : gmap Z IdentityRow;
  step_rows : gmap string StepRow
}.

Definition empty_db : workflow_db := {| identity_rows := ∅; step_rows := ∅ |}.

Section schema.
(** The version of the schema, 2 or 3. *)
Variable schema : Z.

Definition branch_names : list string :=
  if schema =? 2 then ["claim"; "refund"] else ["claim"; "refund"; "punish"].

Definition step_names : list string :=
  ["initialize_lez_tag13"; "fund_lez_tag13"; "fund_monero"; "authorize_lez_tag14";
   "claim_lez_tag15"; "sweep_monero_claim"; "refund_lez_tag16"; "sweep_monero_refund"]
  ++ (if schema =? 2 then [] else ["punish_lez_tag17"]).

Definition scope_names : list string :=
  if schema =? 2 then ["common"; "claim"; "refund"] else ["common"; "claim"; "refund"; "punish"].

(** The [CHECK] constraints of [xmr_workflow_identity]. *)
Definition identity_check (singleton_id : Z) (row : IdentityRow) : bool :=
  (singleton_id =? 1)
  && (slen row.(id_swap_id) =? 64)
  && str_in row.(id_local_role) ["maker"; "taker"]
  && (1 <=? slen row.(id_run_id)) && (slen row.(id_run_id) <=? 128)
  && len_is 32 row.(id_agreement_commitment)
  && len_is 32 row.(id_activation_commitment)
  && len_is 32 row.(id_authority_sha256)
  && match row.(id_selected_branch) with None => true | Some b => str_in b branch_names end
  && ((is_null row.(id_selected_branch) && (row.(id_revision) =? 0))
      || (not_null row.(id_selected_branch) && (row.(id_revision) =? 1))).

(** The [CHECK] constraints of [xmr_workflow_steps].  A comparison with [NULL]
    is not false, so it does not violate the constraint. *)
Definition step_check (step : string) (row : StepRow) : bool :=
  let state := row.(step_state) in
  let attempt_count := row.(step_attempt_count) in
  let revision := row.(step_revision_column) in
  str_in step step_names
  && (row.(step_singleton_id) =? 1)
  && str_in row.(step_local_role) ["maker"; "taker"]
  && str_in row.(step_scope) scope_names
  && str_in state ["prepared"; "started"; "succeeded"; "unknown"]
  && ((attempt_count =? 0) || (attempt_count =? 1))
  && (((state ==? "prepared") && (attempt_count =? 0) && (revision =? 0))
      || ((state ==? "started") && (attempt_count =? 1) && (revision =? 1))
      || ((state ==? "unknown") && (attempt_count =? 1) && (revision =? 2))
      || ((state ==? "succeeded") && (attempt_count =? 1)
          && ((revision =? 2) || (revision =? 3))))
  && match row.(step_reconciliation_source) with
     | None => true
     | Some s => str_in s ["lez_finalized_event"; "monero_wallet_transaction"]
     end
  && (((state !=? "succeeded") && is_null row.(step_effect_evidence_sha256)
       && is_null row.(step_tool_plan_identity_sha256)
       && is_null row.(step_reconciliation_source))
      || ((state ==? "succeeded") && null_or_len 32 row.(step_effect_evidence_sha256)
          && null_or_len 32 row.(step_tool_plan_identity_sha256)
          && not_null row.(step_reconciliation_source))).

(** The tables have no [UNIQUE] constraint beside their primary keys. *)
Definition insert_identity (db : workflow_db) (singleton_id : Z) (row : IdentityRow)
    : result workflow_db StoreError :=
  let? rows := ok_or (sql_insert identity_check (λ k _, k) db.(identity_rows) singleton_id row)
                 StoreError_Sqlite in
  Ok {| identity_rows := rows; step_rows := db.(step_rows) |}.

(** The foreign key of a step row is checked with the insert. *)
Definition insert_step (db : workflow_db) (step : string) (row : StepRow)
    : result workflow_db StoreError :=
  match db.(identity_rows) !! row.(step_singleton_id) with
  | None => Err StoreError_Sqlite
  | Some _ =>
      let? rows := ok_or (sql_insert step_check (λ k _, k) db.(step_rows) step row)
                     StoreError_Sqlite in
      Ok {| identity_rows := db.(identity_rows); step_rows := rows |}
  end.

Definition update_identity (db : workflow_db) (where_ : IdentityRow → bool)
    (set : IdentityRow → IdentityRow) : result workflow_db StoreError :=
  match sql_update identity_check db.(identity_rows) 1 where_ set with
  | None => Err StoreError_Sqlite
  | Some (rows, changed) =>
      if changed =? 1 then Ok {| identity_rows := rows; step_rows := db.(step_rows) |}
      else Err XmrWorkflowConflict
  end.

Definition update_step_row (db : workflow_db) (step : string) (where_ : StepRow → bool)
    (set : StepRow → StepRow) : result workflow_db StoreError :=
  match sql_update step_check db.(step_rows) step where_ set with
  | None => Err StoreError_Sqlite
  | Some (rows, changed) =>
      if changed =? 1 then Ok {| identity_rows := db.(identity_rows); step_rows := rows |}
      else Err XmrWorkflowConflict
  end.

(** ** Loading *)

Definition parse_role (value : string) : result Participant StoreError :=
  if value ==? "maker" then Ok Participant_Maker
  else if value ==? "taker" then Ok Participant_Taker
  else Err CorruptXmrWorkflowState.

Definition digest (value : bytes) : result bytes StoreError :=
  if blen value =? 32 then Ok value else Err CorruptXmrWorkflowState.

Definition validate_identity_count (db : workflow_db) : result unit StoreError :=
  let count := Z.of_nat (size db.(identity_rows)) in
  if (0 <=? count) && (count <=? 1) then Ok tt else Err CorruptXmrWorkflowState.

Abbreviation LoadedIdentity := (XmrWorkflowIdentityV1 * option XmrWorkflowBranch * Z)%type.

Definition decode_identity (row : IdentityRow) : result LoadedIdentity StoreError :=
  let corrupt {E} (_ : E) := CorruptXmrWorkflowState in
  let? swap := map_err (SwapId_new row.(id_swap_id)) corrupt in
  let? role := parse_role row.(id_local_role) in
  let? agreement := digest row.(id_agreement_commitment) in
  let? activation := digest row.(id_activation_commitment) in
  let? authority := digest row.(id_authority_sha256) in
  let? identity := map_err (XmrWorkflowIdentityV1_new swap role row.(id_run_id)
                              agreement activation authority) corrupt in
  let? branch :=
    match row.(id_selected_branch) with
    | None => Ok None
    | Some b => let? branch := XmrWorkflowBranch_parse b in Ok (Some branch)
    end in
  let? revision := try_from_column u64_max row.(id_revision) CorruptXmrWorkflowState in
  match branch with
  | None => if revision =? 0 then Ok (identity, branch, revision)
            else Err CorruptXmrWorkflowState
  | Some _ => if revision =? 1 then Ok (identity, branch, revision)
              else Err CorruptXmrWorkflowState
  end.

Definition load_identity (db : workflow_db) : result (option LoadedIdentity) StoreError :=
  let? _ := validate_identity_count db in
  match db.(identity_rows) !! 1 with
  | None => Ok None
  | Some row => let? loaded := decode_identity row in Ok (Some loaded)
  end.

(** The shape of a decoded step row. *)
Definition snapshot_shape (snapshot : StepSnapshot) : bool :=
  let attempts := snapshot.(snap_attempts) in
  let revision := snapshot.(snap_revision) in
  match snapshot.(snap_state) with
  | Step_Prepared => (attempts =? 0) && (revision =? 0) && is_null snapshot.(snap_reconciliation)
  | Step_Started => (attempts =? 1) && (revision =? 1) && is_null snapshot.(snap_reconciliation)
  | Step_Unknown => (attempts =? 1) && (revision =? 2) && is_null snapshot.(snap_reconciliation)
  | Step_Succeeded =>
      (attempts =? 1) && ((revision =? 2) || (revision =? 3))
      && not_null snapshot.(snap_reconciliation)
  end.

Definition decode_reconciliation (row : StepRow)
    : result (option XmrWorkflowReconciliationV2) StoreError :=
  match row.(step_effect_evidence_sha256), row.(step_tool_plan_identity_sha256),
        row.(step_reconciliation_source) with
  | None, None, None => Ok None
  | Some effect, Some tool, Some source =>
      let? effect := digest effect in
      let? tool := digest tool in
      let? source := XmrWorkflowReconciliationSource_parse source in
      let? reconciliation :=
        map_err (XmrWorkflowReconciliationV2_new effect tool source)
          (λ _, CorruptXmrWorkflowState) in
      Ok (Some reconciliation)
  | _, _, _ => Err CorruptXmrWorkflowState
  end.

Definition load_step (db : workflow_db) (expected : XmrWorkflowStep)
    : result (option StepSnapshot) StoreError :=
  match db.(step_rows) !! XmrWorkflowStep_name expected with
  | None => Ok None
  | Some row =>
      let? reconciliation := decode_reconciliation row in
      let? step := XmrWorkflowStep_parse (XmrWorkflowStep_name expected) in
      let? role := parse_role row.(step_local_role) in
      let? scope := XmrWorkflowStepScope_parse row.(step_scope) in
      let? state := StepState_parse row.(step_state) in
      let? attempts := try_from_column u32_max row.(step_attempt_count) CorruptXmrWorkflowState in
      let? revision :=
        try_from_column u64_max row.(step_revision_column) CorruptXmrWorkflowState in
      let snapshot :=
        {| snap_step := step; snap_role := role; snap_scope := scope; snap_state := state;
           snap_attempts := attempts; snap_revision := revision;
           snap_reconciliation := reconciliation |} in
      if snapshot_shape snapshot then Ok (Some snapshot) else Err CorruptXmrWorkflowState
  end.

(** ** Guards *)

Definition ensure_identity (requested durable : XmrWorkflowIdentityV1)
    : result unit StoreError :=
  let? _ := validate_identity requested in
  if requested ==? durable then Ok tt else Err XmrWorkflowConflict.

Definition ensure_step_role (identity : XmrWorkflowIdentityV1) (step : XmrWorkflowStep)
    : result unit StoreError :=
  let? _ := validate_identity identity in
  if identity.(wf_local_role) ==? XmrWorkflowStep_role step then Ok tt
  else Err XmrWorkflowConflict.

Definition ensure_scope (db : workflow_db) (identity : XmrWorkflowIdentityV1)
    (expected : XmrWorkflowStepScope) : result unit StoreError :=
  let? loaded := load_identity db in
  let? l := ok_or loaded MissingXmrWorkflowIdentity in
  let '(durable, branch, revision) := l in
  let? _ := ensure_identity identity durable in
  let valid :=
    match scope_branch expected with
    | None => (is_null branch && (revision =? 0)) || (not_null branch && (revision =? 1))
    | Some expected_branch => (branch ==? Some expected_branch) && (revision =? 1)
    end in
  if valid then Ok tt else Err XmrWorkflowConflict.

Fixpoint ensure_prepared_list (db : workflow_db) (role : Participant)
    (expected : list XmrWorkflowStep) : result unit StoreError :=
  match expected with
  | [] => Ok tt
  | step :: rest =>
      let? loaded := load_step db step in
      let? snapshot := ok_or loaded MissingXmrWorkflowStep in
      if (snapshot.(snap_role) !=? role) || (snapshot.(snap_scope) !=? Scope_Common)
      then Err CorruptXmrWorkflowState
      else ensure_prepared_list db role rest
  end.

Definition ensure_common_prepared (db : workflow_db) (role : Participant)
    : result unit StoreError :=
  ensure_prepared_list db role
    (match role with
     | Participant_Maker => [FundMonero]
     | Participant_Taker => [InitializeLezTag13; FundLezTag13]
     end).

Definition ensure_predecessor (db : workflow_db) (step : XmrWorkflowStep)
    : result unit StoreError :=
  match XmrWorkflowStep_predecessor step with
  | None => Ok tt
  | Some predecessor =>
      let? loaded := load_step db predecessor in
      let? snapshot := ok_or loaded MissingXmrWorkflowStep in
      if snapshot.(snap_state) ==? Step_Succeeded then Ok tt else Err XmrWorkflowConflict
  end.

Definition validate_reconciliation (step : XmrWorkflowStep)
    (reconciliation : XmrWorkflowReconciliationV2) : result unit StoreError :=
  if (reconciliation.(reconciliation_source_of) !=? XmrWorkflowStep_reconciliation_source step)
     || all_zero reconciliation.(effect_evidence_sha256)
     || all_zero reconciliation.(tool_plan_identity_sha256)
  then Err InvalidXmrWorkflowReconciliation
  else Ok tt.

Definition validate_step (identity : XmrWorkflowIdentityV1) (expected : XmrWorkflowStep)
    (snapshot : StepSnapshot) : result unit StoreError :=
  if (snapshot.(snap_step) ==? expected)
     && (snapshot.(snap_role) ==? identity.(wf_local_role))
     && (snapshot.(snap_role) ==? XmrWorkflowStep_role expected)
     && (snapshot.(snap_scope) ==? XmrWorkflowStep_scope expected)
     && match snapshot.(snap_reconciliation) with
        | None => true
        | Some value =>
            value.(reconciliation_source_of) ==? XmrWorkflowStep_reconciliation_source expected
        end
  then Ok tt else Err CorruptXmrWorkflowState.

(** The guards every operation on a prepared step starts with. *)
Definition require_step (db : workflow_db) (identity : XmrWorkflowIdentityV1)
    (step : XmrWorkflowStep) : result StepSnapshot StoreError :=
  let? _ := ensure_scope db identity (XmrWorkflowStep_scope step) in
  let? loaded := load_step db step in
  let? snapshot := ok_or loaded MissingXmrWorkflowStep in
  let? _ := validate_step identity step snapshot in
  Ok snapshot.

Fixpoint validate_steps (db : workflow_db) (durable : option XmrWorkflowIdentityV1)
    (names : list string) : result unit StoreError :=
  match names with
  | [] => Ok tt
  | name :: rest =>
      let? step := XmrWorkflowStep_parse name in
      let? loaded := load_step db step in
      let? snapshot := ok_or loaded CorruptXmrWorkflowState in
      let? identity := ok_or durable CorruptXmrWorkflowState in
      let? _ := validate_step identity step snapshot in
      validate_steps db durable rest
  end.

(** The check of the rows when a journal is opened.  The source visits the
    names in order; every failure is the same error. *)
Definition validate_all_steps (db : workflow_db) : result unit StoreError :=
  let? loaded := load_identity db in
  let durable := fmap (λ l : LoadedIdentity, l.1.1) loaded in
  let names := (map_to_list db.(step_rows)).*1 in
  if negb (blen names =? 0) && is_null durable then Err CorruptXmrWorkflowState
  else validate_steps db durable names.

(** ** Operations *)

Definition initialize (db : workflow_db) (identity : XmrWorkflowIdentityV1)
    : workflow_db * result unit StoreError :=
  immediate_transaction db (
    let? _ := validate_identity identity in
    let? loaded := load_identity db in
    match loaded with
    | None =>
        let? db' := insert_identity db 1
          {| id_swap_id := identity.(wf_swap_id).(SwapId_as_str);
             id_local_role := participant_name identity.(wf_local_role);
             id_run_id := identity.(wf_run_id);
             id_agreement_commitment := identity.(wf_agreement_commitment);
             id_activation_commitment := identity.(wf_activation_commitment);
             id_authority_sha256 := identity.(wf_authority_sha256);
             id_selected_branch := None;
             id_revision := 0 |} in
        Ok (db', tt)
    | Some (durable, _, _) =>
        if durable ==? identity then Ok (db, tt) else Err XmrWorkflowConflict
    end).

Definition validate_initialized (db : workflow_db) (identity : XmrWorkflowIdentityV1)
    : result unit StoreError :=
  let? _ := validate_identity identity in
  let? loaded := load_identity db in
  let? l := ok_or loaded MissingXmrWorkflowIdentity in
  ensure_identity identity l.1.1.

Definition selected_branch (db : workflow_db) (identity : XmrWorkflowIdentityV1)
    : result (option XmrWorkflowBranch) StoreError :=
  let? _ := validate_identity identity in
  let? loaded := load_identity db in
  let? l := ok_or loaded MissingXmrWorkflowIdentity in
  let? _ := ensure_identity identity l.1.1 in
  Ok l.1.2.

Definition select_branch (db : workflow_db) (identity : XmrWorkflowIdentityV1)
    (branch : XmrWorkflowBranch) : workflow_db * result unit StoreError :=
  immediate_transaction db (
    let? loaded := load_identity db in
    let? l := ok_or loaded MissingXmrWorkflowIdentity in
    let '(durable, selected, revision) := l in
    let? _ := ensure_identity identity durable in
    match selected with
    | None =>
        if revision =? 0 then
          let? _ := ensure_common_prepared db identity.(wf_local_role) in
          let? db' := update_identity db
            (λ row, is_null row.(id_selected_branch) && (row.(id_revision) =? 0))
            (λ row, {| id_swap_id := row.(id_swap_id);
                       id_local_role := row.(id_local_role);
                       id_run_id := row.(id_run_id);
                       id_agreement_commitment := row.(id_agreement_commitment);
                       id_activation_commitment := row.(id_activation_commitment);
                       id_authority_sha256 := row.(id_authority_sha256);
                       id_selected_branch := Some (XmrWorkflowBranch_name branch);
                       id_revision := 1 |}) in
          Ok (db', tt)
        else Err CorruptXmrWorkflowState
    | Some current =>
        if revision =? 1
        then if current ==? branch then Ok (db, tt) else Err XmrWorkflowConflict
        else Err CorruptXmrWorkflowState
    end).

Definition prepare_step (db : workflow_db) (identity : XmrWorkflowIdentityV1)
    (step : XmrWorkflowStep) : workflow_db * result unit StoreError :=
  immediate_transaction db (
    let? _ := ensure_step_role identity step in
    let? loaded := load_step db step in
    match loaded with
    | Some snapshot =>
        let? _ := validate_step identity step snapshot in
        Ok (db, tt)
    | None =>
        let? _ := ensure_scope db identity (XmrWorkflowStep_scope step) in
        let? _ := ensure_predecessor db step in
        let? db' := insert_step db (XmrWorkflowStep_name step)
          {| step_singleton_id := 1;
             step_local_role := participant_name identity.(wf_local_role);
             step_scope := XmrWorkflowStepScope_name (XmrWorkflowStep_scope step);
             step_state := "prepared";
             step_attempt_count := 0;
             step_revision_column := 0;
             step_effect_evidence_sha256 := None;
             step_tool_plan_identity_sha256 := None;
             step_reconciliation_source := None |} in
        Ok (db', tt)
    end).

(** The state, attempt and revision columns of a row. *)
Definition step_row_is (state : string) (attempt_count revision : Z) (row : StepRow) : bool :=
  (row.(step_state) ==? state) && (row.(step_attempt_count) =? attempt_count)
  && (row.(step_revision_column) =? revision).

Definition step_row_set (state : string) (attempt_count revision : Z) (row : StepRow) : StepRow :=
  {| step_singleton_id := row.(step_singleton_id);
     step_local_role := row.(step_local_role);
     step_scope := row.(step_scope);
     step_state := state;
     step_attempt_count := attempt_count;
     step_revision_column := revision;
     step_effect_evidence_sha256 := row.(step_effect_evidence_sha256);
     step_tool_plan_identity_sha256 := row.(step_tool_plan_identity_sha256);
     step_reconciliation_source := row.(step_reconciliation_source) |}.

Definition authorize_once (db : workflow_db) (identity : XmrWorkflowIdentityV1)
    (step : XmrWorkflowStep) : workflow_db * result XmrWorkflowDecision StoreError :=
  immediate_transaction db (
    let? _ := ensure_step_role identity step in
    let? snapshot := require_step db identity step in
    match snapshot.(snap_state) with
    | Step_Prepared =>
        let? db' := update_step_row db (XmrWorkflowStep_name step)
          (step_row_is "prepared" 0 0) (step_row_set "started" 1 1) in
        Ok (db', InvokeOnce)
    | Step_Started | Step_Unknown => Ok (db, Xmr_ObserveOnly)
    | Step_Succeeded => Ok (db, Complete)
    end).

Definition mark_unknown (db : workflow_db) (identity : XmrWorkflowIdentityV1)
    (step : XmrWorkflowStep) : workflow_db * result unit StoreError :=
  immediate_transaction db (
    let? _ := ensure_step_role identity step in
    let? snapshot := require_step db identity step in
    match snapshot.(snap_state) with
    | Step_Started =>
        let? db' := update_step_row db (XmrWorkflowStep_name step)
          (step_row_is "started" 1 1)
          (λ row, step_row_set "unknown" row.(step_attempt_count) 2 row) in
        Ok (db', tt)
    | Step_Unknown => Ok (db, tt)
    | Step_Prepared | Step_Succeeded => Err XmrWorkflowConflict
    end).

Definition mark_succeeded (db : workflow_db) (identity : XmrWorkflowIdentityV1)
    (step : XmrWorkflowStep) : result unit StoreError :=
  let? _ := ensure_step_role identity step in
  Err XmrWorkflowConflict.

Definition validate_observation_eligible (db : workflow_db) (identity : XmrWorkflowIdentityV1)
    (step : XmrWorkflowStep) : result unit StoreError :=
  let? _ := ensure_step_role identity step in
  let? snapshot := require_step db identity step in
  match snapshot.(snap_state) with
  | Step_Started | Step_Unknown => Ok tt
  | _ => Err XmrWorkflowConflict
  end.

Definition requires_invocation_preflight (db : workflow_db) (identity : XmrWorkflowIdentityV1)
    (step : XmrWorkflowStep) : result bool StoreError :=
  let? _ := ensure_step_role identity step in
  let? snapshot := require_step db identity step in
  Ok (snapshot.(snap_state) ==? Step_Prepared).

Definition step_revision (db : workflow_db) (identity : XmrWorkflowIdentityV1)
    (step : XmrWorkflowStep) : result Z StoreError :=
  let? _ := ensure_step_role identity step in
  let? snapshot := require_step db identity step in
  Ok snapshot.(snap_revision).

Definition reconcile_succeeded (db : workflow_db) (identity : XmrWorkflowIdentityV1)
    (step : XmrWorkflowStep) (reconciliation : XmrWorkflowReconciliationV2)
    : workflow_db * result unit StoreError :=
  immediate_transaction db (
    let? _ := ensure_step_role identity step in
    let? _ := validate_reconciliation step reconciliation in
    let? snapshot := require_step db identity step in
    match snapshot.(snap_state) with
    | Step_Started | Step_Unknown =>
        let expected_revision := snapshot.(snap_revision) in
        if i64_max <? expected_revision then Err CorruptXmrWorkflowState
        else
          let next_revision := if snapshot.(snap_state) ==? Step_Started then 2 else 3 in
          let? db' := update_step_row db (XmrWorkflowStep_name step)
            (λ row, step_row_is (StepState_name snapshot.(snap_state)) 1 expected_revision row
                    && is_null row.(step_effect_evidence_sha256)
                    && is_null row.(step_tool_plan_identity_sha256)
                    && is_null row.(step_reconciliation_source))
            (λ row,
               {| step_singleton_id := row.(step_singleton_id);
                  step_local_role := row.(step_local_role);
                  step_scope := row.(step_scope);
                  step_state := "succeeded";
                  step_attempt_count := row.(step_attempt_count);
                  step_revision_column := next_revision;
                  step_effect_evidence_sha256 :=
                    Some reconciliation.(effect_evidence_sha256);
                  step_tool_plan_identity_sha256 :=
                    Some reconciliation.(tool_plan_identity_sha256);
                  step_reconciliation_source :=
                    Some (XmrWorkflowReconciliationSource_name
                            reconciliation.(reconciliation_source_of)) |}) in
          Ok (db', tt)
    | Step_Succeeded =>
        if snapshot.(snap_reconciliation) ==? Some reconciliation then Ok (db, tt)
        else Err XmrWorkflowConflict
    | Step_Prepared => Err XmrWorkflowConflict
    end).

Definition load_reconciliation (db : workflow_db) (identity : XmrWorkflowIdentityV1)
    (step : XmrWorkflowStep) : result (option XmrWorkflowReconciliationV2) StoreError :=
  let? _ := ensure_step_role identity step in
  let? snapshot := require_step db identity step in
  Ok snapshot.(snap_reconciliation).

End schema.
