(* ===== verification/XmrWorkflowFacts.v ===== *)
(** * Properties of the XMR effect-workflow journal

    The invariant of every reachable database, what a run preserves, and the
    properties of runs with lost and rolled-back calls: one invocation per step,
    one branch, predecessors first, final evidence, completion. *)

From stdpp Require Import base gmap strings list numbers relations.
From S2P Require Import Prelude SwapCore SqlTable StoreBase XmrWorkflow.

Open Scope Z_scope.

#[local] Arguments validate_identity : simpl never.
#[local] Arguments all_zero : simpl never.
#[local] Arguments identity_check : simpl never.
#[local] Arguments step_check : simpl never.

(** ** Rows and what they decode to *)

Definition encode_identity (i : XmrWorkflowIdentityV1) (b : option XmrWorkflowBranch)
    : IdentityRow :=
  {| id_swap_id := i.(wf_swap_id).(SwapId_as_str);
     id_local_role := participant_name i.(wf_local_role);
     id_run_id := i.(wf_run_id);
     id_agreement_commitment := i.(wf_agreement_commitment);
     id_activation_commitment := i.(wf_activation_commitment);
     id_authority_sha256 := i.(wf_authority_sha256);
     id_selected_branch := XmrWorkflowBranch_name <$> b;
     id_revision := match b with None => 0 | Some _ => 1 end |}.

Definition encode_step (s : StepSnapshot) : StepRow :=
  {| step_singleton_id := 1;
     step_local_role := participant_name s.(snap_role);
     step_scope := XmrWorkflowStepScope_name s.(snap_scope);
     step_state := StepState_name s.(snap_state);
     step_attempt_count := s.(snap_attempts);
     step_revision_column := s.(snap_revision);
     step_effect_evidence_sha256 := effect_evidence_sha256 <$> s.(snap_reconciliation);
     step_tool_plan_identity_sha256 := tool_plan_identity_sha256 <$> s.(snap_reconciliation);
     step_reconciliation_source :=
       (λ r, XmrWorkflowReconciliationSource_name r.(reconciliation_source_of))
         <$> s.(snap_reconciliation) |}.

Definition identity_good (i : XmrWorkflowIdentityV1) : Prop :=
  validate_identity i = Ok tt ∧ blen i.(wf_agreement_commitment) = 32 ∧
  blen i.(wf_activation_commitment) = 32 ∧ blen i.(wf_authority_sha256) = 32.

Definition step_good (s : StepSnapshot) : Prop :=
  s.(snap_role) = XmrWorkflowStep_role s.(snap_step) ∧
  s.(snap_scope) = XmrWorkflowStep_scope s.(snap_step) ∧
  snapshot_shape s = true ∧
  ∀ r, s.(snap_reconciliation) = Some r →
    validate_reconciliation s.(snap_step) r = Ok tt ∧
    blen r.(effect_evidence_sha256) = 32 ∧ blen r.(tool_plan_identity_sha256) = 32.

Definition identity_is (db : workflow_db) (i : XmrWorkflowIdentityV1)
    (b : option XmrWorkflowBranch) : Prop :=
  db.(identity_rows) !! 1 = Some (encode_identity i b).

Definition step_is (db : workflow_db) (s : StepSnapshot) : Prop :=
  db.(step_rows) !! XmrWorkflowStep_name s.(snap_step) = Some (encode_step s).

Lemma step_name_inj s t : XmrWorkflowStep_name s = XmrWorkflowStep_name t → s = t.
Proof. by destruct s, t. Qed.

Lemma branch_name_inj b c : XmrWorkflowBranch_name b = XmrWorkflowBranch_name c → b = c.
Proof. by destruct b, c. Qed.

Lemma encode_identity_inj i b j c :
  encode_identity i b = encode_identity j c → i = j ∧ b = c.
Proof.
  destruct i as [[] ? ? ? ? ?], j as [[] ? ? ? ? ?]. unfold encode_identity; cbn.
  intros [= -> Hr -> -> -> -> Hb _].
  apply participant_name_inj in Hr as ->. split; [done|].
  destruct b, c; cbn in Hb; simplify_eq; try done. f_equal. by apply branch_name_inj.
Qed.

Lemma encode_step_inj s t :
  s.(snap_step) = t.(snap_step) → encode_step s = encode_step t → s = t.
Proof.
  destruct s as [? ? sc st ? ? r], t as [? ? sc' st' ? ? r']. unfold encode_step; cbn.
  intros -> [= Hr Hs Ht -> -> He Hp Hq]. apply participant_name_inj in Hr as ->.
  assert (sc = sc') as -> by (by destruct sc, sc').
  assert (st = st') as -> by (by destruct st, st').
  f_equal. destruct r as [[? ? q]|], r' as [[? ? q']|]; cbn in *; simplify_eq; try done.
  by destruct q, q'.
Qed.

Lemma identity_is_inj db i b j c :
  identity_is db i b → identity_is db j c → i = j ∧ b = c.
Proof.
  unfold identity_is. intros -> H. apply (inj Some) in H. by apply encode_identity_inj.
Qed.

Lemma step_is_inj db s t :
  step_is db s → step_is db t → s.(snap_step) = t.(snap_step) → s = t.
Proof.
  unfold step_is. intros Hs Ht He. rewrite He, Ht in Hs. apply (inj Some) in Hs.
  by apply encode_step_inj.
Qed.

(** ** The invariant *)

Definition step_placed (db : workflow_db) (s : StepSnapshot) : Prop :=
  ∃ i b, identity_is db i b ∧ i.(wf_local_role) = s.(snap_role) ∧
    (∀ br, scope_branch s.(snap_scope) = Some br → b = Some br) ∧
    (∀ p, XmrWorkflowStep_predecessor s.(snap_step) = Some p →
       ∃ q, step_is db q ∧ q.(snap_step) = p ∧ q.(snap_state) = Step_Succeeded).

Record workflow_inv (db : workflow_db) : Prop := {
  inv_identity : ∀ k row, db.(identity_rows) !! k = Some row →
    k = 1 ∧ ∃ i b, row = encode_identity i b ∧ identity_good i;
  inv_step : ∀ k row, db.(step_rows) !! k = Some row →
    ∃ s, k = XmrWorkflowStep_name s.(snap_step) ∧ row = encode_step s ∧ step_good s ∧
      step_placed db s
}.

Lemma workflow_inv_empty : workflow_inv empty_db.
Proof. split; intros k row H; cbn in H; by rewrite lookup_empty in H. Qed.

Lemma identity_good_is db i b : workflow_inv db → identity_is db i b → identity_good i.
Proof.
  intros Hinv H. destruct (inv_identity _ Hinv _ _ H) as (_&j&c&Heq&Hg).
  by apply encode_identity_inj in Heq as [-> ->].
Qed.

Lemma step_good_is db s : workflow_inv db → step_is db s → step_good s ∧ step_placed db s.
Proof.
  intros Hinv H. destruct (inv_step _ Hinv _ _ H) as (t&Hk&Heq&Hg&Hp).
  apply step_name_inj in Hk. by apply encode_step_inj in Heq as ->.
Qed.

(** ** Loading *)

Lemma identity_count db : workflow_inv db → validate_identity_count db = Ok tt.
Proof.
  intros Hinv. unfold validate_identity_count.
  assert (size db.(identity_rows) ≤ 1)%nat as Hs.
  { rewrite <- size_dom. replace 1%nat with (size ({[1]} : gset Z)) by apply size_singleton.
    apply subseteq_size. intros k [row Hk]%elem_of_dom.
    destruct (inv_identity _ Hinv _ _ Hk) as [-> _]. by apply elem_of_singleton. }
  destruct (Z.leb_spec 0 (Z.of_nat (size db.(identity_rows)))),
    (Z.leb_spec (Z.of_nat (size db.(identity_rows))) 1); cbn; try done; lia.
Qed.

Lemma parse_role_name p : parse_role (participant_name p) = Ok p.
Proof. by destruct p. Qed.

Lemma branch_parse_name b : XmrWorkflowBranch_parse (XmrWorkflowBranch_name b) = Ok b.
Proof. by destruct b. Qed.

Lemma digest_len b : blen b = 32 → digest b = Ok b.
Proof. unfold digest. by intros ->. Qed.

Lemma valid_swap_id i : validate_identity i = Ok tt →
  SwapId_new i.(wf_swap_id).(SwapId_as_str) = Ok i.(wf_swap_id).
Proof.
  unfold validate_identity. destruct (_ || _) eqn:E; [done|]. intros _. bool_props.
  unfold SwapId_new, bad_identifier. unfold slen in *. destruct i as [[id] ? ? ? ? ?]; cbn in *.
  by rewrite H.
Qed.

Lemma decode_encode_identity i b :
  identity_good i →
  decode_identity (encode_identity i b) = Ok (i, b, match b with None => 0 | Some _ => 1 end).
Proof.
  intros (Hv&Ha&Hc&Hs). pose proof (valid_swap_id i Hv) as Hw.
  unfold decode_identity, encode_identity. destruct i as [swap role run a c s]; cbn in *.
  rewrite Hw. cbn. rewrite parse_role_name. cbn.
  rewrite !digest_len by done. cbn. unfold XmrWorkflowIdentityV1_new. rewrite Hv. cbn.
  destruct b as [b|]; cbn; [rewrite branch_parse_name|]; done.
Qed.

Lemma load_identity_spec db :
  workflow_inv db →
  (db.(identity_rows) !! 1 = None ∧ load_identity db = Ok None) ∨
  ∃ i b, identity_is db i b ∧ identity_good i ∧
    load_identity db = Ok (Some (i, b, match b with None => 0 | Some _ => 1 end)).
Proof.
  intros Hinv. unfold load_identity. rewrite identity_count by done. cbn.
  destruct (identity_rows db !! 1) as [row|] eqn:Hk; [right|by left].
  destruct (inv_identity _ Hinv _ _ Hk) as (_&i&b&->&Hg).
  exists i, b. rewrite decode_encode_identity by done. done.
Qed.

Lemma load_identity_is db i b :
  workflow_inv db → identity_is db i b →
  load_identity db = Ok (Some (i, b, match b with None => 0 | Some _ => 1 end)).
Proof.
  intros Hinv Hi. destruct (load_identity_spec db Hinv) as [[Hn _]|(j&c&Hj&_&Hl)].
  - unfold identity_is in Hi. congruence.
  - by destruct (identity_is_inj _ _ _ _ _ Hi Hj) as [-> ->].
Qed.

Lemma scope_parse_name s : XmrWorkflowStepScope_parse (XmrWorkflowStepScope_name s) = Ok s.
Proof. by destruct s. Qed.

Lemma state_parse_name s : StepState_parse (StepState_name s) = Ok s.
Proof. by destruct s. Qed.

Lemma step_parse_name s : XmrWorkflowStep_parse (XmrWorkflowStep_name s) = Ok s.
Proof. by destruct s. Qed.

Lemma source_parse_name s :
  XmrWorkflowReconciliationSource_parse (XmrWorkflowReconciliationSource_name s) = Ok s.
Proof. by destruct s. Qed.

Lemma validate_reconciliation_Ok step r :
  validate_reconciliation step r = Ok tt ↔
  r.(reconciliation_source_of) = XmrWorkflowStep_reconciliation_source step ∧
  all_zero r.(effect_evidence_sha256) = false ∧ all_zero r.(tool_plan_identity_sha256) = false.
Proof.
  unfold validate_reconciliation. case_bool_decide; cbn; [|naive_solver].
  destruct (all_zero (effect_evidence_sha256 r)), (all_zero (tool_plan_identity_sha256 r));
    cbn; naive_solver.
Qed.

Lemma decode_encode_reconciliation s :
  step_good s → decode_reconciliation (encode_step s) = Ok s.(snap_reconciliation).
Proof.
  intros (_&_&_&Hr). unfold decode_reconciliation, encode_step; cbn.
  destruct (snap_reconciliation s) as [[e t src]|]; cbn; [|done].
  destruct (Hr _ eq_refl) as ((_&He&Ht)%validate_reconciliation_Ok&Hle&Hlt). cbn in *.
  rewrite !digest_len by done. cbn. rewrite source_parse_name. cbn.
  unfold XmrWorkflowReconciliationV2_new. by rewrite He, Ht.
Qed.

Lemma shape_bounds s :
  snapshot_shape s = true → 0 ≤ s.(snap_attempts) ≤ 1 ∧ 0 ≤ s.(snap_revision) ≤ 3.
Proof.
  unfold snapshot_shape. destruct (snap_state s); intros H; bool_props; try lia.
Qed.

Lemma load_step_is db s :
  workflow_inv db → step_is db s → load_step db s.(snap_step) = Ok (Some s).
Proof.
  intros Hinv Hs. pose proof (step_good_is _ _ Hinv Hs) as [Hg _].
  unfold load_step. rewrite Hs. rewrite decode_encode_reconciliation by done. cbn.
  rewrite step_parse_name. cbn. rewrite parse_role_name. cbn. rewrite scope_parse_name. cbn.
  rewrite state_parse_name. cbn. destruct Hg as (_&_&Hshape&_).
  destruct (shape_bounds s Hshape) as [Ha Hr].
  rewrite (proj2 (try_from_column_Ok u32_max (snap_attempts s) _ (snap_attempts s)))
    by (unfold u32_max; lia). cbn.
  rewrite (proj2 (try_from_column_Ok u64_max (snap_revision s) _ (snap_revision s)))
    by (unfold u64_max; lia). cbn.
  destruct s as [? ? ? ? ? ? ?]; cbn in *. by rewrite Hshape.
Qed.

Lemma load_step_spec db step :
  workflow_inv db →
  (db.(step_rows) !! XmrWorkflowStep_name step = None ∧ load_step db step = Ok None) ∨
  ∃ s, step_is db s ∧ s.(snap_step) = step ∧ load_step db step = Ok (Some s).
Proof.
  intros Hinv. destruct (step_rows db !! XmrWorkflowStep_name step) as [row|] eqn:Hk.
  - right. destruct (inv_step _ Hinv _ _ Hk) as (s&Hn&->&_).
    apply step_name_inj in Hn as ->. exists s. split; [done|].
    split; [done|by apply load_step_is].
  - left. split; [done|]. unfold load_step. by rewrite Hk.
Qed.

(** ** Growth *)

Definition state_rank (s : StepState) : Z :=
  match s with
  | Step_Prepared => 0 | Step_Started => 1 | Step_Unknown => 2 | Step_Succeeded => 3
  end.

(** A step only moves forward, and a succeeded step does not change. *)
Definition snap_le (s s' : StepSnapshot) : Prop :=
  s'.(snap_step) = s.(snap_step) ∧
  state_rank s.(snap_state) ≤ state_rank s'.(snap_state) ∧
  (s.(snap_state) = Step_Succeeded → s' = s).

#[global] Instance snap_le_preorder : PreOrder snap_le.
Proof.
  split; [by intros s; repeat split|].
  intros s s' s'' (H1&H2&H3) (H1'&H2'&H3'). split; [congruence|]. split; [lia|].
  intros H. rewrite (H3 H) in *. auto.
Qed.

Record workflow_grow (db db' : workflow_db) : Prop := {
  grow_identity : ∀ i b, identity_is db i b →
    ∃ b', identity_is db' i b' ∧ (b = None ∨ b' = b);
  grow_step : ∀ s, step_is db s → ∃ s', step_is db' s' ∧ snap_le s s'
}.

#[global] Instance workflow_grow_preorder : PreOrder workflow_grow.
Proof.
  split.
  - intros db. split; [intros i b H; exists b; auto|intros s H; by exists s].
  - intros db db' db'' [Hi Hs] [Hi' Hs']. split.
    + intros i b H. destruct (Hi i b H) as (b'&H'&E). destruct (Hi' i b' H') as (b''&H''&E').
      exists b''. split; [done|]. naive_solver.
    + intros s H. destruct (Hs s H) as (s'&H'&E). destruct (Hs' s' H') as (s''&H''&E').
      exists s''. split; [done|by trans s'].
Qed.

Definition call_ok (db db' : workflow_db) : Prop := workflow_inv db' ∧ workflow_grow db db'.

Lemma call_ok_same db : workflow_inv db → call_ok db db.
Proof. by split. Qed.

Lemma placed_grow db db' s : workflow_grow db db' → step_placed db s → step_placed db' s.
Proof.
  intros [Hi Hs] (i&b&Hib&Hrole&Hb&Hp). destruct (Hi i b Hib) as (b'&Hib'&E).
  exists i, b'. split_and!; [done..| |].
  - intros br Hbr. specialize (Hb br Hbr). naive_solver.
  - intros p Hpp. destruct (Hp p Hpp) as (q&Hq&Hqp&Hqs).
    destruct (Hs q Hq) as (q'&Hq'&_&_&Heq). rewrite (Heq Hqs) in Hq'. eauto.
Qed.

Definition set_identity (db : workflow_db) (i : XmrWorkflowIdentityV1)
    (b : option XmrWorkflowBranch) : workflow_db :=
  {| identity_rows := <[1 := encode_identity i b]> db.(identity_rows);
     step_rows := db.(step_rows) |}.

Definition set_step (db : workflow_db) (s : StepSnapshot) : workflow_db :=
  {| identity_rows := db.(identity_rows);
     step_rows := <[XmrWorkflowStep_name s.(snap_step) := encode_step s]> db.(step_rows) |}.

Lemma set_identity_ok db i b :
  workflow_inv db → identity_good i →
  (∀ j c, identity_is db j c → j = i ∧ (c = None ∨ c = b)) →
  call_ok db (set_identity db i b) ∧ identity_is (set_identity db i b) i b.
Proof.
  intros Hinv Hg Hold.
  assert (Hnew : identity_is (set_identity db i b) i b) by apply lookup_insert_eq.
  assert (Hgrow : workflow_grow db (set_identity db i b)).
  { split; [|intros s Hs; by exists s].
    intros j c Hj. destruct (Hold j c Hj) as [-> E]. exists b. naive_solver. }
  split; [|done]. split; [|done]. split; cbn.
  - intros k row [[<- <-]|[_ Hk]]%lookup_insert_Some; [eauto|by eapply inv_identity].
  - intros k row Hk. destruct (inv_step _ Hinv _ _ Hk) as (s&?&?&?&Hpl).
    exists s. eauto using placed_grow.
Qed.

Lemma set_step_ok db s :
  workflow_inv db → step_good s → step_placed db s →
  (∀ o, step_is db o → o.(snap_step) = s.(snap_step) → snap_le o s) →
  call_ok db (set_step db s) ∧ step_is (set_step db s) s.
Proof.
  intros Hinv Hg Hpl Hold.
  assert (Hnew : step_is (set_step db s) s) by apply lookup_insert_eq.
  assert (Hgrow : workflow_grow db (set_step db s)).
  { split; [intros i b H; exists b; auto|]. intros o Ho.
    destruct (decide (o.(snap_step) = s.(snap_step))) as [He|Hne].
    - exists s. auto.
    - exists o. split; [|done]. unfold step_is, set_step; cbn.
      rewrite lookup_insert_ne; [done|]. intros Hn. by apply step_name_inj in Hn. }
  split; [|done]. split; [|done]. split; cbn; [by apply inv_identity|].
  intros k row [[<- <-]|[_ Hk]]%lookup_insert_Some.
  - exists s. eauto using placed_grow.
  - destruct (inv_step _ Hinv _ _ Hk) as (o&?&?&?&Ho). exists o. eauto using placed_grow.
Qed.

(** ** Guards *)

Lemma ensure_identity_Ok i j : ensure_identity i j = Ok tt ↔ i = j ∧ validate_identity i = Ok tt.
Proof.
  unfold ensure_identity. destruct (validate_identity i) as [[]|]; cbn; [|naive_solver].
  case_bool_decide; naive_solver.
Qed.

Lemma ensure_step_role_Ok i step :
  ensure_step_role i step = Ok tt ↔
  validate_identity i = Ok tt ∧ i.(wf_local_role) = XmrWorkflowStep_role step.
Proof.
  unfold ensure_step_role. destruct (validate_identity i) as [[]|]; cbn; [|naive_solver].
  case_bool_decide; naive_solver.
Qed.

Lemma ensure_scope_Ok db i sc :
  workflow_inv db →
  ensure_scope db i sc = Ok tt ↔
  ∃ b, identity_is db i b ∧ (∀ br, scope_branch sc = Some br → b = Some br).
Proof.
  intros Hinv. unfold ensure_scope.
  destruct (load_identity_spec db Hinv) as [[Hn ->]|(j&b&Hj&Hg&->)]; cbn.
  { split; [done|]. intros (b&Hb&_). unfold identity_is in Hb. congruence. }
  split.
  - intros (u&He&H)%result_bind_Ok. destruct u. apply ensure_identity_Ok in He as [-> _].
    exists b. split; [done|]. intros br Hbr. rewrite Hbr in H.
    case_bool_decide; [done|]. by cbn in H.
  - intros (c&Hc&Hb). destruct (identity_is_inj _ _ _ _ _ Hc Hj) as [-> ->].
    rewrite (proj2 (ensure_identity_Ok j j)) by (split; [done|apply Hg]). cbn.
    destruct (scope_branch sc) as [br|].
    + rewrite (Hb br eq_refl). by rewrite bool_decide_eq_true_2.
    + by destruct b.
Qed.

Lemma validate_step_Ok i step s :
  step_good s → s.(snap_step) = step →
  validate_step i step s = Ok tt ↔ s.(snap_role) = i.(wf_local_role).
Proof.
  intros (Hr&Hs&_&Hrec) <-. unfold validate_step. rewrite bool_decide_eq_true_2 by done. cbn.
  rewrite (bool_decide_eq_true_2 _ Hr), (bool_decide_eq_true_2 _ Hs).
  assert (match snap_reconciliation s with
          | None => true
          | Some value => reconciliation_source_of value
                          ==? XmrWorkflowStep_reconciliation_source (snap_step s)
          end = true) as ->.
  { destruct (snap_reconciliation s) as [r|]; [|done].
    destruct (Hrec r eq_refl) as [(?&_)%validate_reconciliation_Ok _].
    by apply bool_decide_eq_true_2. }
  case_bool_decide; cbn; naive_solver.
Qed.

Lemma require_step_Ok db i step s :
  workflow_inv db →
  require_step db i step = Ok s ↔
  (∃ b, identity_is db i b) ∧ step_is db s ∧ s.(snap_step) = step.
Proof.
  intros Hinv. unfold require_step. split.
  - intros (u&Hsc&H)%result_bind_Ok. destruct u.
    apply ensure_scope_Ok in Hsc as (b&Hb&_); [|done].
    destruct (load_step_spec db step Hinv) as [[_ Hl]|(t&Ht&Hst&Hl)]; rewrite Hl in H; cbn in H;
      [done|].
    apply result_bind_Ok in H as (u&_&[= <-]). eauto.
  - intros ((b&Hb)&Hs&<-). destruct (step_good_is _ _ Hinv Hs) as [Hg (j&c&Hj&Hrole&Hbr&_)].
    destruct (identity_is_inj _ _ _ _ _ Hb Hj) as [-> ->].
    rewrite (proj2 (ensure_scope_Ok db j _ Hinv)).
    + cbn. rewrite load_step_is by done. cbn. by rewrite (proj2 (validate_step_Ok j _ s Hg eq_refl)).
    + exists c. split; [done|]. destruct Hg as (_&<-&_). done.
Qed.

(** ** Every call preserves the invariant and only grows the database *)

Definition snap_with (s : StepSnapshot) (state : StepState) (attempts revision : Z)
    (reconciliation : option XmrWorkflowReconciliationV2) : StepSnapshot :=
  {| snap_step := s.(snap_step); snap_role := s.(snap_role); snap_scope := s.(snap_scope);
     snap_state := state; snap_attempts := attempts; snap_revision := revision;
     snap_reconciliation := reconciliation |}.

Definition fresh_step (step : XmrWorkflowStep) : StepSnapshot :=
  {| snap_step := step; snap_role := XmrWorkflowStep_role step;
     snap_scope := XmrWorkflowStep_scope step; snap_state := Step_Prepared;
     snap_attempts := 0; snap_revision := 0; snap_reconciliation := None |}.

Lemma fresh_step_good step : step_good (fresh_step step).
Proof. repeat split; by intros. Qed.

(** An update of a step row that moves its snapshot forward. *)
Lemma update_step_row_ok schema db s s' where_ set db' :
  workflow_inv db → step_is db s →
  s'.(snap_step) = s.(snap_step) → s'.(snap_role) = s.(snap_role) →
  s'.(snap_scope) = s.(snap_scope) →
  step_good s' → snap_le s s' → set (encode_step s) = encode_step s' →
  update_step_row schema db (XmrWorkflowStep_name s.(snap_step)) where_ set = Ok db' →
  call_ok db db' ∧ step_is db' s'.
Proof.
  intros Hinv Hs Hst Hro Hsc Hg Hle Hset H. unfold update_step_row in H.
  destruct (sql_update _ _ _ _ _) as [[rows n]|] eqn:E; [|done].
  destruct (n =? 1) eqn:Hn; [|done]. apply Z.eqb_eq in Hn as ->. injection H as <-.
  apply sql_update_Some_1 in E as (row&Hk&_&_&->). rewrite Hs in Hk. injection Hk as <-.
  rewrite Hset, <- Hst. apply (set_step_ok db s'); [done..| |].
  - destruct (step_good_is _ _ Hinv Hs) as [_ (i&b&?&?&?&?)].
    exists i, b. rewrite Hst, Hro, Hsc. eauto.
  - intros o Ho Heq. rewrite Hst in Heq. by rewrite (step_is_inj _ _ _ Ho Hs Heq).
Qed.

Lemma initialize_ok schema db i :
  workflow_inv db → call_ok db (initialize schema db i).1.
Proof.
  intros Hinv. unfold initialize.
  destruct (validate_identity i) as [[]|] eqn:Hv; [|by apply call_ok_same]. cbn [result_bind].
  destruct (load_identity_spec db Hinv) as [[Hn Hl]|(j&b&Hj&_&Hl)]; rewrite Hl; cbn [result_bind].
  - unfold insert_identity. destruct (sql_insert _ _ _ _ _) as [rows|] eqn:E; [|by apply call_ok_same].
    apply sql_insert_Some in E as (->&_&Hc&_). cbn.
    apply (set_identity_ok db i None); [done| |].
    + unfold identity_check, len_is in Hc. bool_props. by repeat split.
    + intros j c Hj. unfold identity_is in Hj. congruence.
  - case_bool_decide; by apply call_ok_same.
Qed.

Lemma select_branch_ok schema db i br :
  workflow_inv db → call_ok db (select_branch schema db i br).1.
Proof.
  intros Hinv. unfold select_branch.
  destruct (load_identity_spec db Hinv) as [[Hn Hl]|(j&b&Hj&Hg&Hl)]; rewrite Hl; cbn [result_bind ok_or];
    [by apply call_ok_same|].
  destruct (ensure_identity i j) as [[]|] eqn:He; [|by apply call_ok_same]. cbn [result_bind].
  apply ensure_identity_Ok in He as [-> _].
  destruct b as [c|]; cbn; [case_bool_decide; by apply call_ok_same|].
  destruct (ensure_common_prepared db _); [|by apply call_ok_same]. cbn [result_bind].
  unfold update_identity. destruct (sql_update _ _ _ _ _) as [[rows n]|] eqn:E; [|by apply call_ok_same].
  destruct (n =? 1) eqn:Hn; [|by apply call_ok_same]. apply Z.eqb_eq in Hn as ->. cbn.
  apply sql_update_Some_1 in E as (row&Hk&_&_&->). rewrite Hj in Hk. injection Hk as <-.
  apply (set_identity_ok db j (Some br)); [done..|].
  intros k c Hk. destruct (identity_is_inj _ _ _ _ _ Hk Hj) as [-> ->]. auto.
Qed.

Lemma prepare_step_ok schema db i step :
  workflow_inv db → call_ok db (prepare_step schema db i step).1.
Proof.
  intros Hinv. unfold prepare_step.
  destruct (ensure_step_role i step) as [[]|] eqn:Hr; [|by apply call_ok_same]. cbn [result_bind].
  apply ensure_step_role_Ok in Hr as [_ Hr].
  destruct (load_step_spec db step Hinv) as [[Hn Hl]|(s&Hs&_&Hl)]; rewrite Hl; cbn [result_bind];
    [|destruct (validate_step i step s); by apply call_ok_same].
  destruct (ensure_scope db i _) as [[]|] eqn:Hsc; [|by apply call_ok_same]. cbn [result_bind].
  apply ensure_scope_Ok in Hsc as (b&Hb&Hbr); [|done].
  destruct (ensure_predecessor db step) as [[]|] eqn:Hp; [|by apply call_ok_same]. cbn [result_bind].
  unfold insert_step. cbn [step_singleton_id]. unfold identity_is in Hb. rewrite Hb.
  destruct (sql_insert _ _ _ _ _) as [rows|] eqn:E; [|by apply call_ok_same].
  apply sql_insert_Some in E as (->&_&_&_). cbn. rewrite Hr.
  apply (set_step_ok db (fresh_step step)); [done|apply fresh_step_good| |].
  - exists i, b. split_and!; [done..|]. intros p Hpp. unfold ensure_predecessor in Hp.
    cbn in Hpp. rewrite Hpp in Hp.
    destruct (load_step_spec db p Hinv) as [[_ Hlp]|(q&Hq&Hqp&Hlp)]; rewrite Hlp in Hp; cbn in Hp;
      [done|]. case_bool_decide; [|done]. eauto.
  - intros o Ho Heq. cbn in Heq. unfold step_is in Ho. rewrite Heq in Ho. congruence.
Qed.

(** What an authorization does: it replays, or it consumes the authority of a
    prepared step of the durable identity and branch. *)
Lemma authorize_cases schema db i step :
  workflow_inv db →
  let r := authorize_once schema db i step in
  (r.2 ≠ Ok InvokeOnce ∧ r.1 = db) ∨
  (r.2 = Ok InvokeOnce ∧ ∃ b s,
     identity_is db i b ∧ step_is db s ∧ s.(snap_step) = step ∧ s.(snap_state) = Step_Prepared ∧
     step_is r.1 (snap_with s Step_Started 1 1 None) ∧ call_ok db r.1).
Proof.
  intros Hinv. unfold authorize_once.
  destruct (ensure_step_role i step) as [[]|]; [|by left]. cbn [result_bind].
  destruct (require_step db i step) as [s|] eqn:Hq; [|by left]. cbn [result_bind].
  apply require_step_Ok in Hq as ((b&Hb)&Hs&<-); [|done].
  destruct (snap_state s) eqn:Hst; try (by left).
  destruct (update_step_row _ _ _ _ _) as [db'|] eqn:E; [|by left]. right. cbn. split; [done|].
  destruct (step_good_is _ _ Hinv Hs) as [(Hr&Hsc&Hsh&_) _].
  assert (Hrec : s.(snap_reconciliation) = None).
  { unfold snapshot_shape in Hsh. rewrite Hst in Hsh. bool_props. by destruct (snap_reconciliation s). }
  exists b, s. eapply (update_step_row_ok _ _ _ (snap_with s Step_Started 1 1 None)) in E
    as [Hok His]; try done.
  - split; [done|]. split; [by rewrite Hst|]. by rewrite Hst.
  - unfold step_row_set, encode_step. cbn. by rewrite Hrec.
Qed.

Lemma authorize_ok schema db i step :
  workflow_inv db → call_ok db (authorize_once schema db i step).1.
Proof.
  intros Hinv. destruct (authorize_cases schema db i step Hinv) as [[_ ->]|(_&?&?&?&?&?&?&?&?)];
    [by apply call_ok_same|done].
Qed.

Lemma mark_unknown_ok schema db i step :
  workflow_inv db → call_ok db (mark_unknown schema db i step).1.
Proof.
  intros Hinv. unfold mark_unknown.
  destruct (ensure_step_role i step) as [[]|]; [|by apply call_ok_same]. cbn [result_bind].
  destruct (require_step db i step) as [s|] eqn:Hq; [|by apply call_ok_same]. cbn [result_bind].
  apply require_step_Ok in Hq as ((b&Hb)&Hs&<-); [|done].
  destruct (snap_state s) eqn:Hst; try (by apply call_ok_same).
  destruct (update_step_row _ _ _ _ _) as [db'|] eqn:E; [|by apply call_ok_same].
  destruct (step_good_is _ _ Hinv Hs) as [(Hr&Hsc&Hsh&_) _].
  unfold snapshot_shape in Hsh. rewrite Hst in Hsh. bool_props.
  eapply (update_step_row_ok _ _ _ (snap_with s Step_Unknown 1 2 None)) in E as [Hok _]; try done.
  - split; [done|]. split; [by rewrite Hst|]. by rewrite Hst.
  - unfold step_row_set, encode_step. cbn. destruct (snap_reconciliation s); [done|]. cbn. congruence.
Qed.

Lemma reconcile_cases schema db i step r :
  workflow_inv db →
  let out := reconcile_succeeded schema db i step r in
  out.1 = db ∨
  ∃ s rev, step_is db s ∧ s.(snap_step) = step ∧ call_ok db out.1 ∧ out.2 = Ok tt ∧
    step_is out.1 (snap_with s Step_Succeeded 1 rev (Some r)).
Proof.
  intros Hinv. unfold reconcile_succeeded.
  destruct (ensure_step_role i step) as [[]|]; [|by left]. cbn [result_bind].
  destruct (validate_reconciliation step r) as [[]|] eqn:Hv; [|by left]. cbn [result_bind].
  destruct (require_step db i step) as [s|] eqn:Hq; [|by left]. cbn [result_bind].
  apply require_step_Ok in Hq as ((b&Hb)&Hs&<-); [|done].
  destruct (step_good_is _ _ Hinv Hs) as [(Hr&Hsc&Hsh&_) _].
  unfold snapshot_shape in Hsh.
  destruct (snap_state s) eqn:Hst; try (by left); try (case_bool_decide; by left); bool_props;
    rewrite H1; cbn -[update_step_row];
    (destruct (update_step_row _ _ _ _ _) as [db'|] eqn:E; [right|by left]); cbn;
    pose proof E as Hlen; unfold update_step_row in Hlen;
    (destruct (sql_update _ _ _ _ _) as [[rows n]|] eqn:Hu; [|done]);
    (destruct (n =? 1) eqn:Hn; [|done]); apply Z.eqb_eq in Hn as ->;
    apply sql_update_Some_1 in Hu as (row&_&_&Hc&_);
    unfold step_check, null_or_len, len_is in Hc; cbn in Hc; bool_props.
  - eapply (update_step_row_ok _ _ _ (snap_with s Step_Succeeded 1 2 (Some r))) in E as [Hok His];
      try done; [eauto 8|..].
    + unfold step_good; cbn. split_and!; try done. intros ? [= <-]. split; [done|lia].
    + split; [done|]. split; by rewrite Hst.
    + unfold encode_step. cbn. by rewrite H.
  - eapply (update_step_row_ok _ _ _ (snap_with s Step_Succeeded 1 3 (Some r))) in E as [Hok His];
      try done; [eauto 8|..].
    + unfold step_good; cbn. split_and!; try done. intros ? [= <-]. split; [done|lia].
    + split; [done|]. split; by rewrite Hst.
    + unfold encode_step. cbn. by rewrite H.
Qed.

Lemma reconcile_ok schema db i step r :
  workflow_inv db → call_ok db (reconcile_succeeded schema db i step r).1.
Proof.
  intros Hinv. destruct (reconcile_cases schema db i step r Hinv) as [->|(?&?&?&?&?&?)];
    [by apply call_ok_same|done].
Qed.

(** ** Runs *)

Inductive XmrCall :=
| CallInitialize (i : XmrWorkflowIdentityV1)
| CallSelectBranch (i : XmrWorkflowIdentityV1) (b : XmrWorkflowBranch)
| CallPrepareStep (i : XmrWorkflowIdentityV1) (s : XmrWorkflowStep)
| CallAuthorizeOnce (i : XmrWorkflowIdentityV1) (s : XmrWorkflowStep)
| CallMarkUnknown (i : XmrWorkflowIdentityV1) (s : XmrWorkflowStep)
| CallReconcile (i : XmrWorkflowIdentityV1) (s : XmrWorkflowStep)
    (r : XmrWorkflowReconciliationV2).

Definition xmr_call (schema : Z) (db : workflow_db) (c : XmrCall)
    : workflow_db * result (option XmrWorkflowDecision) StoreError :=
  let quiet (out : workflow_db * result unit StoreError) :=
    (out.1, result_map (λ _, None) out.2) in
  match c with
  | CallInitialize i => quiet (initialize schema db i)
  | CallSelectBranch i b => quiet (select_branch schema db i b)
  | CallPrepareStep i s => quiet (prepare_step schema db i s)
  | CallAuthorizeOnce i s =>
      let out := authorize_once schema db i s in (out.1, result_map Some out.2)
  | CallMarkUnknown i s => quiet (mark_unknown schema db i s)
  | CallReconcile i s r => quiet (reconcile_succeeded schema db i s r)
  end.

(** The journal after a run from the empty database a new journal starts with. *)
Definition journal_after (schema : Z) (calls : list (XmrCall * Fate)) : workflow_db :=
  run_calls (xmr_call schema) empty_db calls.

(** The position of a committed call that was told to invoke a step. *)
Definition invoked_at (schema : Z) (calls : list (XmrCall * Fate)) (n : nat)
    (i : XmrWorkflowIdentityV1) (s : XmrWorkflowStep) : Prop :=
  committed_at (xmr_call schema) empty_db calls n =
    Some (CallAuthorizeOnce i s, Ok (Some InvokeOnce)).

Lemma xmr_call_ok schema db c : workflow_inv db → call_ok db (xmr_call schema db c).1.
Proof.
  destruct c; cbn; auto using initialize_ok, select_branch_ok, prepare_step_ok, authorize_ok,
    mark_unknown_ok, reconcile_ok.
Qed.

Lemma xmr_call_inv schema db c : True → workflow_inv db → workflow_inv (xmr_call schema db c).1.
Proof. intros _ H. by apply xmr_call_ok. Qed.

Lemma xmr_call_grow schema db c : True → workflow_inv db → workflow_grow db (xmr_call schema db c).1.
Proof. intros _ H. by apply xmr_call_ok. Qed.

(** Every call is admitted. *)
Lemma any_calls (calls : list (XmrCall * Fate)) : Forall (λ _, True) calls.
Proof. by apply Forall_true. Qed.

Lemma run_xmr_ok schema db calls :
  workflow_inv db → call_ok db (run_calls (xmr_call schema) db calls).
Proof.
  intros Hinv. pose proof (any_calls calls). split.
  - by apply (run_calls_inv _ _ workflow_inv (xmr_call_inv schema)).
  - by apply (run_calls_grow _ _ workflow_inv (xmr_call_inv schema) workflow_grow _ _ (xmr_call_grow schema)).
Qed.

Lemma journal_after_inv schema calls : workflow_inv (journal_after schema calls).
Proof. exact (proj1 (run_xmr_ok schema empty_db calls workflow_inv_empty)). Qed.

(** What an invocation found, and what every later state keeps of it. *)
Lemma invoked_at_state schema calls n i s :
  invoked_at schema calls n i s →
  ∃ b o, identity_is (journal_after schema (take n calls)) i b ∧
    step_is (journal_after schema (take n calls)) o ∧ o.(snap_step) = s ∧
    o.(snap_state) = Step_Prepared ∧
    (∀ br, scope_branch (XmrWorkflowStep_scope s) = Some br → b = Some br) ∧
    ∀ m, (n < m)%nat →
      (∃ b', identity_is (journal_after schema (take m calls)) i b' ∧ (b = None ∨ b' = b)) ∧
      (∃ o', step_is (journal_after schema (take m calls)) o' ∧ o'.(snap_step) = s ∧
             o'.(snap_state) ≠ Step_Prepared).
Proof.
  intros Hn. set (db := journal_after schema (take n calls)).
  pose proof (journal_after_inv schema (take n calls)) as Hinv. fold db in Hinv.
  assert (Hout : (authorize_once schema db i s).2 = Ok InvokeOnce).
  { pose proof (committed_output _ _ _ _ _ _ Hn) as H. cbn in H. fold (journal_after schema (take n calls)) in H.
    fold db in H. destruct (authorize_once schema db i s) as [? []]; cbn in *; by simplify_eq. }
  destruct (authorize_cases schema db i s Hinv) as [[H _]|(_&b&o&Hi&Ho&<-&Hst&Ho'&_)]; [done|].
  exists b, o. destruct (step_good_is _ _ Hinv Ho) as [(Hr&Hsc&_) (j&c&Hj&_&Hbr&_)].
  destruct (identity_is_inj _ _ _ _ _ Hi Hj) as [<- <-]. rewrite Hsc in Hbr.
  split_and!; try done. intros m Hm.
  destruct (committed_grow _ _ workflow_inv (xmr_call_inv schema) workflow_grow empty_db calls n m
    _ _ (xmr_call_grow schema) (any_calls calls) workflow_inv_empty Hn Hm) as (_&_&_&[Hgi Hgs]).
  cbn in Hgi, Hgs. fold (journal_after schema (take n calls)) in Hgi, Hgs. fold db in Hgi, Hgs. split.
  - destruct (authorize_ok schema db i (snap_step o) Hinv) as [_ [Hg1 _]].
    destruct (Hg1 _ _ Hi) as (b1&H1&E1). destruct (Hgi _ _ H1) as (b2&H2&E2).
    exists b2. split; [done|]. destruct E1 as [->| ->]; [by left|exact E2].
  - destruct (Hgs _ Ho') as (o2&H2&E2&Hrank&_). exists o2. split; [done|]. split; [done|].
    intros Hp. rewrite Hp in Hrank. cbn in Hrank. lia.
Qed.

(** ** Properties *)

(** C10: a step is invoked at most once: over any run of the workflow journal,
    with calls lost before or after their commit, no two committed
    authorizations of the same step are told to invoke it. *)
Theorem workflow_invokes_once schema calls n m i j s :
  invoked_at schema calls n i s → invoked_at schema calls m j s → n = m.
Proof.
  assert (Hlt : ∀ n m i j, invoked_at schema calls n i s → invoked_at schema calls m j s →
                  ¬ (n < m)%nat).
  { clear. intros n m i j Hn Hm Hnm.
    destruct (invoked_at_state _ _ _ _ _ Hn) as (?&?&?&?&?&?&?&Hlater).
    destruct (Hlater m Hnm) as [_ (o&Ho&Hos&Hne)].
    destruct (invoked_at_state _ _ _ _ _ Hm) as (_&o'&_&Ho'&Hos'&Hp&_).
    apply Hne. by rewrite (step_is_inj _ _ _ Ho Ho') by congruence. }
  intros Hn Hm. pose proof (Hlt n m i j Hn Hm). pose proof (Hlt m n j i Hm Hn). lia.
Qed.

(** C23: one identity and one branch: all invocations of a run are made under the
    same identity, so by the same role, and those that belong to a terminal
    branch all belong to the same one: claim, refund and punish effects never
    mix. *)
Theorem workflow_single_branch schema calls n m i j s t :
  invoked_at schema calls n i s → invoked_at schema calls m j t →
  i = j ∧ XmrWorkflowStep_role s = XmrWorkflowStep_role t ∧
  ∀ b c, scope_branch (XmrWorkflowStep_scope s) = Some b →
    scope_branch (XmrWorkflowStep_scope t) = Some c → b = c.
Proof.
  assert (Hle : ∀ n m i j s t, invoked_at schema calls n i s → invoked_at schema calls m j t →
    (n ≤ m)%nat → i = j ∧ XmrWorkflowStep_role s = XmrWorkflowStep_role t ∧
      ∀ b c, scope_branch (XmrWorkflowStep_scope s) = Some b →
        scope_branch (XmrWorkflowStep_scope t) = Some c → b = c).
  { clear. intros n m i j s t Hn Hm Hnm.
    destruct (invoked_at_state _ _ _ _ _ Hn) as (b&o&Hi&Ho&Hos&_&Hb&Hlater).
    destruct (invoked_at_state _ _ _ _ _ Hm) as (c&o'&Hj&Ho'&Hos'&_&Hc&_).
    pose proof (journal_after_inv schema (take n calls)) as Hinv.
    pose proof (journal_after_inv schema (take m calls)) as Hinv'.
    assert (∃ b', identity_is (journal_after schema (take m calls)) i b' ∧ (b = None ∨ b' = b))
      as (b'&Hi'&E).
    { apply Nat.le_lteq in Hnm as [Hlt| ->]; [by apply Hlater|]. exists b. auto. }
    destruct (identity_is_inj _ _ _ _ _ Hi' Hj) as [-> ->].
    assert (Hrole : ∀ db o i b, workflow_inv db → identity_is db i b → step_is db o →
              i.(wf_local_role) = XmrWorkflowStep_role o.(snap_step)).
    { clear. intros db o i b Hinv Hi Ho.
      destruct (step_good_is _ _ Hinv Ho) as [(Hr&_) (k&e&Hk&Hro&_)].
      destruct (identity_is_inj _ _ _ _ _ Hi Hk) as [<- _]. congruence. }
    split; [done|]. split.
    - rewrite <- Hos, <- Hos'. rewrite <- (Hrole _ _ _ _ Hinv Hi Ho). by eapply Hrole.
    - intros br br' Hbr Hbr'. rewrite (Hb br Hbr) in E. rewrite (Hc br' Hbr') in E. naive_solver. }
  intros Hn Hm. destruct (decide (n ≤ m)%nat); [by eapply Hle|].
  destruct (Hle m n j i t s Hm Hn ltac:(lia)) as (->&Hr&Hb). split_and!; [done..|].
  intros b c Hs Ht. symmetry. by apply Hb.
Qed.

Lemma load_reconciliation_is db i b s :
  workflow_inv db → identity_is db i b → step_is db s →
  load_reconciliation db i s.(snap_step) = Ok s.(snap_reconciliation).
Proof.
  intros Hinv Hi Hs. unfold load_reconciliation.
  destruct (step_good_is _ _ Hinv Hs) as [(Hr&_) (j&c&Hj&Hro&_)].
  destruct (identity_is_inj _ _ _ _ _ Hi Hj) as [<- <-].
  rewrite (proj2 (ensure_step_role_Ok i (snap_step s))).
  - cbn. rewrite (proj2 (require_step_Ok db i (snap_step s) s Hinv)); [done|]. eauto.
  - split; [by eapply identity_good_is|congruence].
Qed.

Lemma succeeded_evidence s :
  step_good s → s.(snap_state) = Step_Succeeded →
  ∃ r, s.(snap_reconciliation) = Some r ∧ validate_reconciliation s.(snap_step) r = Ok tt.
Proof.
  intros (_&_&Hsh&Hr) Hst. unfold snapshot_shape in Hsh. rewrite Hst in Hsh. bool_props.
  destruct (snap_reconciliation s) as [r|]; [|done]. exists r. split; [done|by apply Hr].
Qed.

(** Effects follow their predecessors: when a step with a predecessor is
    invoked, evidence of the predecessor's success from its own chain is
    durable, and every later state of the journal returns that evidence. *)
Theorem workflow_predecessor_proved schema calls n i s p :
  invoked_at schema calls n i s → XmrWorkflowStep_predecessor s = Some p →
  ∃ r, validate_reconciliation p r = Ok tt ∧
    ∀ m, (n ≤ m)%nat →
      load_reconciliation (journal_after schema (take m calls)) i p = Ok (Some r).
Proof.
  intros Hn Hp. destruct (invoked_at_state _ _ _ _ _ Hn) as (b&o&Hi&Ho&<-&_&_&_).
  pose proof (journal_after_inv schema (take n calls)) as Hinv.
  destruct (step_good_is _ _ Hinv Ho) as [_ (j&c&Hj&_&_&Hpred)].
  destruct (Hpred p Hp) as (q&Hq&<-&Hqs).
  destruct (succeeded_evidence q) as (r&Hr&Hv); [by eapply step_good_is|done|].
  exists r. split; [done|]. intros m Hm.
  destruct (run_take_grow _ _ workflow_inv (xmr_call_inv schema) workflow_grow empty_db calls n m
    (xmr_call_grow schema) (any_calls calls) workflow_inv_empty Hm) as [Hgi Hgs].
  destruct (Hgi _ _ Hi) as (b'&Hi'&_). destruct (Hgs _ Hq) as (q'&Hq'&_&_&Heq).
  rewrite (Heq Hqs) in Hq'. rewrite <- Hr.
  eapply load_reconciliation_is; [apply journal_after_inv|exact Hi'|exact Hq'].
Qed.

(** Evidence is final: once a step is reconciled, every later journal
    returns exactly that evidence, answers an authorization with [Complete]
    without changing anything, and refuses any other evidence. *)
Theorem workflow_evidence_is_final schema pre post i s r :
  load_reconciliation (journal_after schema pre) i s = Ok (Some r) →
  let db := journal_after schema (pre ++ post) in
  load_reconciliation db i s = Ok (Some r) ∧
  authorize_once schema db i s = (db, Ok Complete) ∧
  ∀ r', r' ≠ r → (reconcile_succeeded schema db i s r').1 = db ∧
                 is_ok (reconcile_succeeded schema db i s r').2 = false.
Proof.
  intros Hl db. pose proof (journal_after_inv schema pre) as Hinv.
  unfold load_reconciliation in Hl. apply result_bind_Ok in Hl as ([]&Hrole&Hl).
  apply result_bind_Ok in Hl as (o&Ho&[= Hr]).
  apply require_step_Ok in Ho as ((b&Hi)&Ho&<-); [|done].
  assert (Hst : o.(snap_state) = Step_Succeeded).
  { destruct (step_good_is _ _ Hinv Ho) as [(_&_&Hsh&_) _]. unfold snapshot_shape in Hsh.
    rewrite Hr in Hsh. destruct (snap_state o); bool_props; done. }
  assert (Hok : call_ok (journal_after schema pre) db).
  { unfold db, journal_after. rewrite run_calls_app. by apply run_xmr_ok. }
  destruct Hok as [Hinv' [Hgi Hgs]]. destruct (Hgi _ _ Hi) as (b'&Hi'&_).
  destruct (Hgs _ Ho) as (o'&Ho'&_&_&Heq). rewrite (Heq Hst) in Ho'.
  assert (Hreq : require_step db i (snap_step o) = Ok o) by (apply require_step_Ok; eauto).
  split; [rewrite <- Hr; by eapply load_reconciliation_is|].
  unfold authorize_once, reconcile_succeeded. rewrite Hrole, Hreq. cbn [result_bind]. rewrite Hst.
  split; [done|]. intros r' Hne.
  destruct (validate_reconciliation (snap_step o) r'); [|done]. cbn [result_bind].
  rewrite Hr, bool_decide_eq_false_2 by congruence. done.
Qed.

(** ** Progress *)

Definition in_schema (schema : Z) (s : XmrWorkflowStep) : Prop :=
  str_in (XmrWorkflowStep_name s) (step_names schema) = true.

Lemma in_schema_cases schema s : in_schema schema s ↔ schema ≠ 2 ∨ s ≠ PunishLezTag17.
Proof.
  unfold in_schema, step_names.
  destruct (schema =? 2) eqn:E; [apply Z.eqb_eq in E as ->|apply Z.eqb_neq in E];
    destruct s; vm_compute; naive_solver.
Qed.

Lemma scope_in_schema schema s :
  in_schema schema s →
  str_in (XmrWorkflowStepScope_name (XmrWorkflowStep_scope s)) (scope_names schema) = true.
Proof.
  rewrite in_schema_cases. unfold scope_names.
  destruct (schema =? 2) eqn:E; [apply Z.eqb_eq in E as ->|]; destruct s; vm_compute; naive_solver.
Qed.

Lemma step_check_encode schema s :
  step_good s → in_schema schema s.(snap_step) →
  step_check schema (XmrWorkflowStep_name s.(snap_step)) (encode_step s) = true.
Proof.
  intros (Hr&Hsc&Hsh&Hrec) Hin. unfold step_check. cbn. rewrite Hin.
  rewrite Hsc, scope_in_schema by done. unfold snapshot_shape in Hsh.
  destruct (snap_role s), (snap_state s), (snap_reconciliation s) as [r|] eqn:Er; bool_props;
    try done; repeat match goal with
      | H : _ = _ :> Z |- _ => rewrite H; clear H
      | H : _ || _ = true |- _ => rewrite H; clear H
      end; cbn; try done;
    destruct (Hrec r eq_refl) as (_&He&Ht); unfold len_is; rewrite He, Ht;
    by destruct (reconciliation_source_of r).
Qed.

Lemma identity_check_encode schema i b :
  identity_good i → str_in (XmrWorkflowBranch_name b) (branch_names schema) = true →
  identity_check schema 1 (encode_identity i (Some b)) = true.
Proof.
  intros (Hv&H1&H2&H3) Hb. unfold identity_check, len_is. cbn. rewrite H1, H2, H3, Hb.
  unfold validate_identity in Hv. case_match eqn:Hc; [done|]. bool_props.
  unfold MAX_RUN_ID_BYTES in *.
  destruct (wf_local_role i); cbn; rewrite !andb_true_r, !andb_true_iff, ?Z.eqb_eq, ?Z.leb_le; unfold slen, blen in *; lia.
Qed.

Definition step_done (db : workflow_db) (s : XmrWorkflowStep) : Prop :=
  ∃ o, step_is db o ∧ o.(snap_step) = s ∧ o.(snap_state) = Step_Succeeded.

Lemma step_done_grow db db' s : workflow_grow db db' → step_done db s → step_done db' s.
Proof.
  intros [_ Hg] (o&Ho&<-&Hst). destruct (Hg o Ho) as (o'&Ho'&_&_&Heq).
  rewrite (Heq Hst) in Ho'. by exists o.
Qed.

Lemma update_step_row_set schema db s s' where_ set :
  step_is db s → where_ (encode_step s) = true → set (encode_step s) = encode_step s' →
  s'.(snap_step) = s.(snap_step) → step_good s' → in_schema schema s'.(snap_step) →
  update_step_row schema db (XmrWorkflowStep_name s.(snap_step)) where_ set = Ok (set_step db s').
Proof.
  intros Hs Hw Hset Hst Hg Hin. unfold update_step_row, sql_update. rewrite Hs, Hw, Hset.
  rewrite <- Hst, step_check_encode by done. done.
Qed.

(** A step whose role, branch and predecessor allow it has a row after
    [prepare_step]. *)
Lemma prepare_present schema db i b s :
  workflow_inv db → identity_is db i b → i.(wf_local_role) = XmrWorkflowStep_role s →
  (∀ br, scope_branch (XmrWorkflowStep_scope s) = Some br → b = Some br) →
  (∀ p, XmrWorkflowStep_predecessor s = Some p → step_done db p) → in_schema schema s →
  let db' := (prepare_step schema db i s).1 in
  identity_is db' i b ∧ ∃ o, step_is db' o ∧ o.(snap_step) = s.
Proof.
  intros Hinv Hi Hro Hbr Hp Hin. unfold prepare_step.
  rewrite (proj2 (ensure_step_role_Ok i s)) by (split; [by eapply identity_good_is|done]).
  cbn [result_bind].
  destruct (load_step_spec db s Hinv) as [[Hn Hl]|(o&Ho&Hos&Hl)]; rewrite Hl; cbn [result_bind].
  2: { destruct (validate_step i s o); cbn; eauto. }
  rewrite (proj2 (ensure_scope_Ok db i _ Hinv)) by eauto. cbn [result_bind].
  assert (ensure_predecessor db s = Ok tt) as ->.
  { unfold ensure_predecessor. destruct (XmrWorkflowStep_predecessor s) as [p|]; [|done].
    destruct (Hp p eq_refl) as (q&Hq&<-&Hst). rewrite load_step_is by done. cbn.
    by rewrite Hst. }
  cbn [result_bind]. unfold insert_step. cbn [step_singleton_id]. pose proof Hi as Hi'.
  unfold identity_is in Hi'. rewrite Hi', Hro. clear Hi'.
  assert (Hc : step_check schema (XmrWorkflowStep_name s) (encode_step (fresh_step s)) = true)
    by (apply (step_check_encode schema (fresh_step s)); [apply fresh_step_good|done]).
  erewrite (proj2 (sql_insert_Some _ _ _ _ _ (<[_ := encode_step (fresh_step s)]> _))).
  - cbn. split; [done|]. exists (fresh_step s). split; [apply lookup_insert_eq|done].
  - split_and!; [done..|]. apply not_true_iff_false. intros (k&row&Hk&->)%unique_taken_true. congruence.
Qed.

Lemma authorize_present schema db i b o :
  workflow_inv db → identity_is db i b → step_is db o → in_schema schema o.(snap_step) →
  let db' := (authorize_once schema db i o.(snap_step)).1 in
  identity_is db' i b ∧
  ∃ o', step_is db' o' ∧ o'.(snap_step) = o.(snap_step) ∧ o'.(snap_state) ≠ Step_Prepared.
Proof.
  intros Hinv Hi Ho Hin. unfold authorize_once.
  destruct (step_good_is _ _ Hinv Ho) as [(Hr&Hsc&Hsh&_) (j&c&Hj&Hro&_)].
  destruct (identity_is_inj _ _ _ _ _ Hi Hj) as [<- <-].
  rewrite (proj2 (ensure_step_role_Ok i _))
    by (split; [by eapply identity_good_is|congruence]). cbn [result_bind].
  rewrite (proj2 (require_step_Ok db i _ o Hinv)) by eauto. cbn [result_bind].
  destruct (snap_state o) eqn:Hst; cbn; try (split; [done|]; exists o; by rewrite Hst).
  unfold snapshot_shape in Hsh. rewrite Hst in Hsh. bool_props.
  rewrite (update_step_row_set _ _ _ (snap_with o Step_Started 1 1 None)); try done.
  - cbn. split; [done|]. exists (snap_with o Step_Started 1 1 None).
    split; [apply lookup_insert_eq|done].
  - unfold step_row_is, encode_step. cbn. rewrite Hst. bool_props. by rewrite H, H1.
  - unfold step_row_set, encode_step. cbn. by destruct (snap_reconciliation o).
Qed.

Lemma reconcile_present schema db i b o r :
  workflow_inv db → identity_is db i b → step_is db o → in_schema schema o.(snap_step) →
  o.(snap_state) ≠ Step_Prepared →
  validate_reconciliation o.(snap_step) r = Ok tt →
  blen r.(effect_evidence_sha256) = 32 → blen r.(tool_plan_identity_sha256) = 32 →
  let db' := (reconcile_succeeded schema db i o.(snap_step) r).1 in
  identity_is db' i b ∧ step_done db' o.(snap_step).
Proof.
  intros Hinv Hi Ho Hin Hne Hv Hl1 Hl2. unfold reconcile_succeeded.
  destruct (step_good_is _ _ Hinv Ho) as [(Hr&Hsc&Hsh&_) (j&c&Hj&Hro&_)].
  destruct (identity_is_inj _ _ _ _ _ Hi Hj) as [<- <-].
  rewrite (proj2 (ensure_step_role_Ok i _))
    by (split; [by eapply identity_good_is|congruence]). cbn [result_bind].
  rewrite Hv. cbn [result_bind].
  rewrite (proj2 (require_step_Ok db i _ o Hinv)) by eauto. cbn [result_bind].
  unfold snapshot_shape in Hsh. destruct (snap_state o) eqn:Hst; [done|..].
  2: { case_bool_decide; cbn; (split; [done|]); by exists o. }
  all: apply andb_true_iff in Hsh as [[Hatt%Z.eqb_eq Hrev%Z.eqb_eq]%andb_true_iff Hnull];
    rewrite Hrev; (destruct (snap_reconciliation o) eqn:Hrec; [done|]); cbn -[update_step_row].
  - rewrite (update_step_row_set _ _ _ (snap_with o Step_Succeeded 1 2 (Some r))); try done.
    + cbn. split; [done|]. eexists. split; [apply lookup_insert_eq|done].
    + unfold step_row_is, encode_step. cbn. by rewrite Hst, Hrev, Hatt, Hrec.
    + unfold encode_step. cbn. by rewrite Hatt.
    + unfold step_good. cbn. split_and!; try done. by intros ? [= <-].
  - rewrite (update_step_row_set _ _ _ (snap_with o Step_Succeeded 1 3 (Some r))); try done.
    + cbn. split; [done|]. eexists. split; [apply lookup_insert_eq|done].
    + unfold step_row_is, encode_step. cbn. by rewrite Hst, Hrev, Hatt, Hrec.
    + unfold encode_step. cbn. by rewrite Hatt.
    + unfold step_good. cbn. split_and!; try done. by intros ? [= <-].
Qed.

(** Evidence for every step, as [XmrWorkflowReconciliationV2_new] accepts it. *)
Definition evidence_good (evidence : XmrWorkflowStep → XmrWorkflowReconciliationV2) : Prop :=
  ∀ s, validate_reconciliation s (evidence s) = Ok tt ∧
       blen (evidence s).(effect_evidence_sha256) = 32 ∧
       blen (evidence s).(tool_plan_identity_sha256) = 32.

(** The calls that take one step from any state to success. *)
Definition finish_calls (i : XmrWorkflowIdentityV1)
    (evidence : XmrWorkflowStep → XmrWorkflowReconciliationV2) (s : XmrWorkflowStep)
    : list (XmrCall * Fate) :=
  [(CallPrepareStep i s, Delivered); (CallAuthorizeOnce i s, Delivered);
   (CallReconcile i s (evidence s), Delivered)].

Lemma finish_step schema db i b evidence s :
  workflow_inv db → identity_is db i b → i.(wf_local_role) = XmrWorkflowStep_role s →
  (∀ br, scope_branch (XmrWorkflowStep_scope s) = Some br → b = Some br) →
  (∀ p, XmrWorkflowStep_predecessor s = Some p → step_done db p) → in_schema schema s →
  evidence_good evidence →
  let db' := run_calls (xmr_call schema) db (finish_calls i evidence s) in
  identity_is db' i b ∧ step_done db' s.
Proof.
  intros Hinv Hi Hro Hbr Hp Hin Hev. cbn.
  pose proof (proj1 (prepare_step_ok schema db i s Hinv)) as Hinv1.
  destruct (prepare_present schema db i b s) as (Hi1&o&Ho&<-); [done..|].
  pose proof (proj1 (authorize_ok schema _ i (snap_step o) Hinv1)) as Hinv2.
  destruct (authorize_present schema _ i b o Hinv1 Hi1 Ho Hin) as (Hi2&o'&Ho'&Hs'&Hne).
  destruct (Hev (snap_step o)) as (Hv&H1&H2). rewrite <- Hs' in *.
  by apply (reconcile_present schema _ i b o').
Qed.

Fixpoint plan_ordered (before plan : list XmrWorkflowStep) : Prop :=
  match plan with
  | [] => True
  | s :: rest =>
      (∀ p, XmrWorkflowStep_predecessor s = Some p → p ∈ before) ∧ plan_ordered (s :: before) rest
  end.

Lemma finish_plan schema i b evidence plan : ∀ db before,
  workflow_inv db → identity_is db i b → evidence_good evidence →
  (∀ s, s ∈ plan → i.(wf_local_role) = XmrWorkflowStep_role s ∧ in_schema schema s ∧
     ∀ br, scope_branch (XmrWorkflowStep_scope s) = Some br → b = Some br) →
  plan_ordered before plan → (∀ s, s ∈ before → step_done db s) →
  let db' := run_calls (xmr_call schema) db (plan ≫= finish_calls i evidence) in
  identity_is db' i b ∧ ∀ s, s ∈ before ∨ s ∈ plan → step_done db' s.
Proof.
  induction plan as [|s plan IH]; intros db before Hinv Hi Hev Hplan Hord Hbefore.
  { cbn. split; [done|]. intros t [Ht|Ht]; [auto|by apply elem_of_nil in Ht]. }
  destruct Hord as [Hpred Hord]. rewrite bind_cons. cbn zeta. rewrite run_calls_app.
  destruct (Hplan s (list_elem_of_here _ _)) as (Hro&Hin&Hbr).
  destruct (finish_step schema db i b evidence s) as [Hi' Hs]; try done; [naive_solver|].
  destruct (run_xmr_ok schema db (finish_calls i evidence s) Hinv) as [Hinv' Hgrow].
  destruct (IH _ (s :: before) Hinv' Hi' Hev) as [Hi'' Hdone]; [|done| |].
  - intros t Ht. apply Hplan. by constructor.
  - intros t [->|Ht]%elem_of_cons; [done|]. eauto using step_done_grow.
  - split; [done|]. intros t Ht. apply Hdone. rewrite !elem_of_cons in *. tauto.
Qed.

Definition common_plan (role : Participant) : list XmrWorkflowStep :=
  match role with
  | Participant_Maker => [FundMonero]
  | Participant_Taker => [InitializeLezTag13; FundLezTag13]
  end.

Definition branch_plan (role : Participant) (b : XmrWorkflowBranch) : list XmrWorkflowStep :=
  match role, b with
  | Participant_Maker, Branch_Claim => [ClaimLezTag15]
  | Participant_Maker, Branch_Refund => [SweepMoneroRefund]
  | Participant_Maker, Branch_Punish => [PunishLezTag17]
  | Participant_Taker, Branch_Claim => [AuthorizeLezTag14; SweepMoneroClaim]
  | Participant_Taker, Branch_Refund => [RefundLezTag16]
  | Participant_Taker, Branch_Punish => []
  end.

(** The two plans are the steps of the role in the common scope and the branch. *)
Lemma plans_complete role b s :
  s ∈ common_plan role ∨ s ∈ branch_plan role b ↔
  XmrWorkflowStep_role s = role ∧
  ∀ br, scope_branch (XmrWorkflowStep_scope s) = Some br → br = b.
Proof.
  split.
  - destruct role, b; cbn; set_unfold; naive_solver.
  - destruct role, b, s; cbn; intros [? H]; try done; set_unfold; try tauto;
      by specialize (H _ eq_refl).
Qed.

(** Selecting a branch after the common steps. *)
Lemma select_present schema db i b0 b :
  workflow_inv db → identity_is db i b0 → b0 = None ∨ b0 = Some b →
  str_in (XmrWorkflowBranch_name b) (branch_names schema) = true →
  (∀ s, s ∈ common_plan i.(wf_local_role) → step_done db s) →
  identity_is (select_branch schema db i b).1 i (Some b).
Proof.
  intros Hinv Hi Hb Hsch Hcommon. unfold select_branch.
  pose proof (identity_good_is _ _ _ Hinv Hi) as Hg.
  rewrite (load_identity_is db i b0) by done. cbn [result_bind ok_or].
  rewrite (proj2 (ensure_identity_Ok i i)) by (split; [done|apply Hg]). cbn [result_bind].
  destruct Hb as [-> | ->]; [|by cbn; rewrite bool_decide_eq_true_2]. cbn -[ensure_common_prepared].
  assert (ensure_common_prepared db (wf_local_role i) = Ok tt) as ->.
  { change (ensure_prepared_list db (wf_local_role i) (common_plan (wf_local_role i)) = Ok tt).
    assert (Hr : ∀ s, s ∈ common_plan (wf_local_role i) →
              XmrWorkflowStep_role s = wf_local_role i ∧ XmrWorkflowStep_scope s = Scope_Common).
    { destruct (wf_local_role i); cbn; set_unfold; naive_solver. }
    revert Hcommon Hr. generalize (common_plan (wf_local_role i)) as l.
    induction l as [|s l IH]; intros Hcommon Hr; [done|].
    destruct (Hcommon s (list_elem_of_here _ _)) as (o&Ho&<-&_).
    destruct (Hr _ (list_elem_of_here _ _)) as [H1 H2].
    destruct (step_good_is _ _ Hinv Ho) as [(H3&H4&_) _].
    cbn. rewrite load_step_is by done. cbn.
    rewrite H3, H4, H1, H2, !bool_decide_eq_true_2 by done. cbn.
    apply IH; intros t Ht; [apply Hcommon|apply Hr]; by constructor. }
  pose proof (identity_check_encode schema i b Hg Hsch) as Hc.
  unfold encode_identity in Hc; cbn in Hc.
  cbn [result_bind]. unfold update_identity, sql_update. rewrite Hi. cbn. rewrite Hc. cbn.
  apply lookup_insert_eq.
Qed.

Lemma selected_branch_Ok db i b :
  workflow_inv db → selected_branch db i = Ok b ↔ identity_is db i b.
Proof.
  intros Hinv. unfold selected_branch. split.
  - intros ([]&_&(l&Hl&H)%result_bind_Ok)%result_bind_Ok.
    destruct (load_identity_spec db Hinv) as [[_ Hl']|(j&c&Hj&_&Hl')]; rewrite Hl' in Hl;
      injection Hl as <-; cbn [result_bind ok_or fst snd] in H; [done|].
    apply result_bind_Ok in H as ([]&[-> _]%ensure_identity_Ok&[= <-]). done.
  - intros Hi. pose proof (identity_good_is _ _ _ Hinv Hi) as [Hv _].
    rewrite Hv, (load_identity_is db i b) by done. cbn [result_bind ok_or fst snd].
    by rewrite (proj2 (ensure_identity_Ok i i)).
Qed.

Lemma authorize_done schema db i b s :
  workflow_inv db → identity_is db i b → step_done db s →
  authorize_once schema db i s = (db, Ok Complete).
Proof.
  intros Hinv Hi (o&Ho&<-&Hst). unfold authorize_once.
  destruct (step_good_is _ _ Hinv Ho) as [(Hr&_) (j&c&Hj&Hro&_)].
  destruct (identity_is_inj _ _ _ _ _ Hi Hj) as [<- <-].
  rewrite (proj2 (ensure_step_role_Ok i _))
    by (split; [by eapply identity_good_is|congruence]). cbn [result_bind].
  rewrite (proj2 (require_step_Ok db i _ o Hinv)) by eauto. cbn [result_bind]. by rewrite Hst.
Qed.

Lemma plan_in_schema schema role b s :
  str_in (XmrWorkflowBranch_name b) (branch_names schema) = true →
  s ∈ common_plan role ∨ s ∈ branch_plan role b → in_schema schema s.
Proof.
  intros Hsch Hs. apply in_schema_cases. unfold branch_names in Hsch.
  destruct (schema =? 2) eqn:E; [right|left; by apply Z.eqb_neq].
  destruct b; [..|done]; intros ->; destruct role; cbn in Hs; set_unfold; naive_solver.
Qed.

Lemma plans_ordered role b :
  plan_ordered [] (common_plan role) ∧ plan_ordered (common_plan role) (branch_plan role b).
Proof. destruct role, b; cbn; set_unfold; naive_solver. Qed.

Lemma common_plan_scope role s :
  s ∈ common_plan role → scope_branch (XmrWorkflowStep_scope s) = None.
Proof. destruct role; cbn; set_unfold; naive_solver. Qed.

(** From a database with no other branch, the common plan, the selection and the
    branch's plan complete. *)
Lemma finish_workflow schema db i b0 b evidence :
  workflow_inv db → identity_is db i b0 → b0 = None ∨ b0 = Some b →
  str_in (XmrWorkflowBranch_name b) (branch_names schema) = true → evidence_good evidence →
  let role := i.(wf_local_role) in
  let db' := run_calls (xmr_call schema) db
    ((common_plan role ≫= finish_calls i evidence) ++
     (CallSelectBranch i b, Delivered) :: (branch_plan role b ≫= finish_calls i evidence)) in
  identity_is db' i (Some b) ∧
  ∀ s, s ∈ common_plan role ∨ s ∈ branch_plan role b → step_done db' s.
Proof.
  intros Hinv Hi Hb Hsch Hev role. cbn zeta. rewrite run_calls_app.
  pose proof (plans_complete role b) as Hplans. destruct (plans_ordered role b) as [Hord Hord'].
  destruct (finish_plan schema i b0 evidence (common_plan role) db []) as [Hi1 Hd1]; try done.
  { intros s Hs. split; [by symmetry; apply Hplans; left|].
    split; [by eapply plan_in_schema; eauto|]. by rewrite (common_plan_scope role). }
  { by intros s Hs%elem_of_nil. }
  set (db1 := run_calls _ db _) in *.
  assert (Hinv1 : workflow_inv db1) by by apply run_xmr_ok.
  cbn [run_calls call_next xmr_call fst]. set (db2 := (select_branch schema db1 i b).1).
  destruct (select_branch_ok schema db1 i b Hinv1 : call_ok db1 db2) as [Hinv2 Hg2].
  assert (Hi2 : identity_is db2 i (Some b)) by (eapply select_present; eauto).
  apply (finish_plan schema i (Some b) evidence (branch_plan role b) db2 (common_plan role));
    try done.
  - intros s Hs. destruct (proj1 (Hplans s)) as [Hr Hbr]; [by right|].
    split; [done|]. split; [by eapply plan_in_schema; eauto|]. intros br ->%Hbr. done.
  - intros s Hs. eapply step_done_grow; [exact Hg2|]. auto.
Qed.

(** The workflow can always be completed: from every reachable journal whose
    identity has not selected another branch, some continuation selects the
    branch and reaches success for every step of the role in the common scope
    and in that branch, whatever state a crash left the steps in. *)
Theorem workflow_can_finish schema calls i b evidence :
  selected_branch (journal_after schema calls) i = Ok None ∨
    selected_branch (journal_after schema calls) i = Ok (Some b) →
  str_in (XmrWorkflowBranch_name b) (branch_names schema) = true → evidence_good evidence →
  ∃ post, let db := journal_after schema (calls ++ post) in
    selected_branch db i = Ok (Some b) ∧
    ∀ s, XmrWorkflowStep_role s = i.(wf_local_role) →
      (∀ br, scope_branch (XmrWorkflowStep_scope s) = Some br → br = b) →
      authorize_once schema db i s = (db, Ok Complete).
Proof.
  intros Hsel Hsch Hev. pose proof (journal_after_inv schema calls) as Hinv.
  rewrite !selected_branch_Ok in Hsel by done.
  assert (∃ b0, identity_is (journal_after schema calls) i b0 ∧ (b0 = None ∨ b0 = Some b))
    as (b0&Hi&Hb) by naive_solver.
  destruct (finish_workflow schema _ i b0 b evidence Hinv Hi Hb Hsch Hev) as [Hi' Hdone].
  eexists. unfold journal_after at 1. cbn zeta. unfold journal_after. rewrite run_calls_app.
  fold (journal_after schema calls). set (db' := run_calls _ (journal_after schema calls) _) in *.
  assert (Hinv' : workflow_inv db') by by apply run_xmr_ok.
  split; [by apply selected_branch_Ok|]. intros s Hr Hbr.
  eapply authorize_done; [done..|]. apply Hdone, plans_complete. done.
Qed.

(** A journal opens after every crash: whatever calls ran, were lost or
    rolled back, the check of the rows when the journal is opened again
    succeeds. *)
Theorem workflow_reopens schema calls : validate_all_steps (journal_after schema calls) = Ok tt.
Proof.
  pose proof (journal_after_inv schema calls) as Hinv. set (db := journal_after schema calls) in *.
  unfold validate_all_steps.
  assert (Hrows : ∀ i b, identity_is db i b → ∀ names,
            (∀ k, k ∈ names → k ∈ (map_to_list (step_rows db)).*1) →
            validate_steps db (Some i) names = Ok tt).
  { intros i b Hi. induction names as [|k names IH]; intros Hin; [done|]. cbn.
    pose proof (Hin k (list_elem_of_here _ _)) as Hk.
    apply list_elem_of_fmap in Hk as ([k' row]&->&Hk). apply elem_of_map_to_list in Hk.
    destruct (inv_step _ Hinv _ _ Hk) as (s&->&->&Hg&(j&c&Hj&Hro&_)). cbn.
    destruct (identity_is_inj _ _ _ _ _ Hi Hj) as [<- <-].
    rewrite step_parse_name. cbn. rewrite load_step_is by done. cbn.
    rewrite (proj2 (validate_step_Ok i _ s Hg eq_refl)) by done. cbn.
    apply IH. intros k Hk'. apply Hin. by constructor. }
  destruct (load_identity_spec db Hinv) as [[Hn Hl]|(i&b&Hi&_&Hl)]; rewrite Hl; cbn -[map_to_list].
  - assert (step_rows db = ∅) as ->; [|done].
    apply map_eq. intros k. rewrite lookup_empty. apply eq_None_not_Some. intros [row Hk].
    destruct (inv_step _ Hinv _ _ Hk) as (s&_&_&_&(i&b&Hi&_)). unfold identity_is in Hi. congruence.
  - rewrite andb_false_r. by eapply Hrows.
Qed.

(** ** Witnesses *)

Module WorkflowSamples.

Definition workflow : XmrWorkflowIdentityV1 :=
  {| wf_swap_id := {| SwapId_as_str := "0000000000000000000000000000000000000000000000000000000000000001" |};
     wf_local_role := Participant_Taker;
     wf_run_id := "run-1";
     wf_agreement_commitment := replicate 32 Byte.x01;
     wf_activation_commitment := replicate 32 Byte.x02;
     wf_authority_sha256 := replicate 32 Byte.x03 |}.

Definition evidence (s : XmrWorkflowStep) : XmrWorkflowReconciliationV2 :=
  {| effect_evidence_sha256 := replicate 32 Byte.x04;
     tool_plan_identity_sha256 := replicate 32 Byte.x05;
     reconciliation_source_of := XmrWorkflowStep_reconciliation_source s |}.

(** A taker whose first authorization is committed but never seen, so that the
    effect is reconciled from observation only; then funding. *)
Definition funded_calls : list (XmrCall * Fate) :=
  [(CallInitialize workflow, Delivered);
   (CallPrepareStep workflow InitializeLezTag13, Delivered);
   (CallAuthorizeOnce workflow InitializeLezTag13, CommittedUnseen);
   (CallAuthorizeOnce workflow InitializeLezTag13, Delivered);
   (CallMarkUnknown workflow InitializeLezTag13, Delivered);
   (CallReconcile workflow InitializeLezTag13 (evidence InitializeLezTag13), Delivered)]
  ++ finish_calls workflow evidence FundLezTag13.

(** The claim branch up to the sweep, a refund refused on the way. *)
Definition claim_calls : list (XmrCall * Fate) :=
  funded_calls
  ++ [(CallSelectBranch workflow Branch_Claim, RolledBack);
      (CallSelectBranch workflow Branch_Claim, Delivered);
      (CallSelectBranch workflow Branch_Refund, Delivered);
      (CallPrepareStep workflow RefundLezTag16, Delivered)]
  ++ finish_calls workflow evidence AuthorizeLezTag14
  ++ [(CallPrepareStep workflow SweepMoneroClaim, Delivered);
      (CallAuthorizeOnce workflow SweepMoneroClaim, Delivered)].

Lemma workflow_invokes_once_witness :
  invoked_at 3 claim_calls 2 workflow InitializeLezTag13 ∧ 2%nat = 2%nat.
Proof.
  assert (H : invoked_at 3 claim_calls 2 workflow InitializeLezTag13) by by vm_compute.
  split; [exact H|]. exact (workflow_invokes_once 3 claim_calls 2 2 workflow workflow _ H H).
Defined.

Lemma workflow_single_branch_witness :
  invoked_at 3 claim_calls 14 workflow AuthorizeLezTag14 ∧
  invoked_at 3 claim_calls 17 workflow SweepMoneroClaim ∧ Branch_Claim = Branch_Claim.
Proof.
  assert (H : invoked_at 3 claim_calls 14 workflow AuthorizeLezTag14) by by vm_compute.
  assert (H' : invoked_at 3 claim_calls 17 workflow SweepMoneroClaim) by by vm_compute.
  split; [exact H|]. split; [exact H'|].
  apply (workflow_single_branch 3 claim_calls 14 17 workflow workflow _ _ H H'); reflexivity.
Defined.

Lemma workflow_predecessor_proved_witness :
  ∃ r, validate_reconciliation AuthorizeLezTag14 r = Ok tt ∧
    load_reconciliation (journal_after 3 claim_calls) workflow AuthorizeLezTag14 = Ok (Some r).
Proof.
  assert (H : invoked_at 3 claim_calls 17 workflow SweepMoneroClaim) by by vm_compute.
  destruct (workflow_predecessor_proved 3 claim_calls 17 workflow SweepMoneroClaim
    AuthorizeLezTag14 H eq_refl) as (r&Hv&Hr).
  exists r. split; [exact Hv|]. exact (Hr 18%nat ltac:(lia)).
Defined.

Lemma workflow_evidence_is_final_witness :
  load_reconciliation (journal_after 3 claim_calls) workflow InitializeLezTag13
  = Ok (Some (evidence InitializeLezTag13)).
Proof.
  apply (workflow_evidence_is_final 3 (take 6 claim_calls) (drop 6 claim_calls)).
  by vm_compute.
Defined.

Lemma workflow_can_finish_witness :
  ∃ post, selected_branch (journal_after 3 (funded_calls ++ post)) workflow
          = Ok (Some Branch_Refund).
Proof.
  destruct (workflow_can_finish 3 funded_calls workflow Branch_Refund evidence) as (post&H&_).
  - left. by vm_compute.
  - reflexivity.
  - intros []; by vm_compute.
  - exists post. exact H.
Defined.

End WorkflowSamples.
