(* ===== verification/BtcMakerLock.v ===== *)
(** * The Bitcoin maker second-lock journal

    Models [crates/swap-store/src/btc_maker_lock_journal.rs]: the durable ordered
    plan of exact public transactions with which a Bitcoin maker places the
    second lock, one send authority per step.  The database is the table of
    intents and the table of their steps; an operation is a function from the
    database to the database its transaction leaves and its result.  SHA-256 is
    an argument.  Storage failures and crashes are the fates of the calls of a
    run. *)

From stdpp Require Import base gmap strings list numbers.
From S2P Require Import Prelude SwapCore PublicEffectPlan SqlTable StoreBase.

Open Scope Z_scope.

Definition MAKER_LOCK_PREDECESSOR_REVISION : Z := 1.

(** ** Intents *)

Record BtcMakerLockIntentV1 := {
  lock_swap_id : SwapId;
  lock_agreement_commitment : bytes;
  lock_local_role : Participant;
  lock_predecessor_revision : Z;
  lock_plan : ExactPublicEffectPlanV1
}.

#[global] Instance BtcMakerLockIntentV1_eq_dec : EqDecision BtcMakerLockIntentV1.
Proof. solve_decision. Defined.

Definition BtcMakerLockIntentV1_validate (self : BtcMakerLockIntentV1) : result unit StoreError :=
  let? reconstructed := map_err (ExactPublicEffectPlanV1_new self.(lock_plan).(plan_steps))
                          (λ _, InvalidBtcMakerLockIntent) in
  if (self.(lock_local_role) !=? Participant_Maker)
     || negb (self.(lock_predecessor_revision) =? MAKER_LOCK_PREDECESSOR_REVISION)
     || forallb (λ byte, byte ==? Byte.x00) self.(lock_agreement_commitment)
     || (i64_max <? self.(lock_predecessor_revision))
     || (reconstructed !=? self.(lock_plan))
  then Err InvalidBtcMakerLockIntent
  else Ok tt.

Definition BtcMakerLockIntentV1_new (swap_id : SwapId) (agreement_commitment : bytes)
    (local_role : Participant) (predecessor_revision : Z) (plan : ExactPublicEffectPlanV1)
    : result BtcMakerLockIntentV1 StoreError :=
  let candidate :=
    {| lock_swap_id := swap_id;
       lock_agreement_commitment := agreement_commitment;
       lock_local_role := local_role;
       lock_predecessor_revision := predecessor_revision;
       lock_plan := plan |} in
  let? _ := BtcMakerLockIntentV1_validate candidate in
  Ok candidate.

Inductive BtcMakerLockIntentCreateOutcome := Lock_Created | Lock_ExistingSame | Lock_Conflict.

(** ** Steps *)

Inductive BtcMakerLockStepState := Lock_Prepared | Lock_Started | Lock_Unknown | Lock_Accepted.

#[global] Instance BtcMakerLockStepState_eq_dec : EqDecision BtcMakerLockStepState.
Proof. solve_decision. Defined.

Definition BtcMakerLockStepState_as_str (self : BtcMakerLockStepState) : string :=
  match self with
  | Lock_Prepared => "prepared"
  | Lock_Started => "started"
  | Lock_Unknown => "unknown"
  | Lock_Accepted => "accepted"
  end.

Definition BtcMakerLockStepState_parse (value : string)
    : result BtcMakerLockStepState StoreError :=
  if value ==? "prepared" then Ok Lock_Prepared
  else if value ==? "started" then Ok Lock_Started
  else if value ==? "unknown" then Ok Lock_Unknown
  else if value ==? "accepted" then Ok Lock_Accepted
  else Err CorruptBtcMakerLockIntent.

Inductive BtcMakerLockSubmissionResult :=
| Submission_Accepted (public_id : string)
| Submission_Unknown.

#[global] Instance BtcMakerLockSubmissionResult_eq_dec : EqDecision BtcMakerLockSubmissionResult.
Proof. solve_decision. Defined.

Definition BtcMakerLockSubmissionResult_as_str (self : BtcMakerLockSubmissionResult) : string :=
  match self with Submission_Accepted _ => "accepted" | Submission_Unknown => "unknown" end.

Definition BtcMakerLockSubmissionResult_parse (value : option string) (step : PublicEffectStepV1)
    : result (option BtcMakerLockSubmissionResult) StoreError :=
  match value with
  | None => Ok None
  | Some v =>
      if v ==? "accepted"
      then Ok (Some (Submission_Accepted step.(expected_public_id).(ExpectedId_as_str)))
      else if v ==? "unknown" then Ok (Some Submission_Unknown)
      else Err CorruptBtcMakerLockIntent
  end.

Record BtcMakerLockStepSnapshot := {
  lock_step : PublicEffectStepV1;
  lock_state : BtcMakerLockStepState;
  lock_attempt_count : Z;
  lock_revision : Z;
  lock_submission_result : option BtcMakerLockSubmissionResult
}.

Record BtcMakerLockIntentSnapshot := {
  lock_intent : BtcMakerLockIntentV1;
  lock_steps : list BtcMakerLockStepSnapshot;
  lock_closed_revision : option Z
}.

#[global] Instance BtcMakerLockStepSnapshot_eq_dec : EqDecision BtcMakerLockStepSnapshot.
Proof. solve_decision. Defined.

Inductive BtcMakerLockStepObservation :=
| PresentExact (expected_public_id : string) (exact_public_bytes : bytes)
| ExactIdempotentSubmissionSafe (expected_public_id : string) (exact_public_bytes : bytes)
| Lock_Absent
| Lock_Uncertain
| ConflictingPresence.

Inductive BtcMakerLockStepDecision :=
| SubmitOnce (step : BtcMakerLockStepSnapshot)
| Lock_ObserveOnly (step : BtcMakerLockStepSnapshot).

Record BtcMakerLockStepCommit := {
  commit_snapshot : BtcMakerLockStepSnapshot;
  commit_was_replay : bool
}.

Definition validate_step_shape (state : BtcMakerLockStepState) (attempt_count revision : Z)
    (submission_result : option BtcMakerLockSubmissionResult) : result unit StoreError :=
  let valid :=
    match state with
    | Lock_Prepared => (attempt_count =? 0) && (revision =? 0) && is_null submission_result
    | Lock_Started => (attempt_count =? 1) && (revision =? 1) && is_null submission_result
    | Lock_Unknown => (attempt_count =? 1) && (revision =? 2)
    | Lock_Accepted =>
        ((attempt_count =? 0) && (revision =? 1) && is_null submission_result)
        || ((attempt_count =? 1) && (revision =? 2) && is_null submission_result)
        || ((attempt_count =? 1) && (revision =? 3))
    end in
  if valid then Ok tt else Err CorruptBtcMakerLockIntent.

(** ** The database *)

(** The columns beside the key [(swap_id, local_role)]. *)
Record IntentRow := {
  row_predecessor_revision : Z;
  row_agreement : bytes;
  row_plan_schema_version : Z;
  row_plan_commitment : bytes;
  row_closed_revision : option Z
}.

(** The columns beside the key [(swap_id, local_role, step_index)]. *)
Record LockStepRow := {
  row_step_id : string;
  row_expected_public_id : string;
  row_exact_bytes : bytes;
  row_bytes_sha256 : bytes;
  row_submission_result : option string;
  row_step_state : string;
  row_attempts : Z;
  row_step_revision : Z
}.

Abbreviation intent_key := (string * string)%type.
Abbreviation step_key := (string * string * Z)%type.

Record lock_db := {
  intent_rows : gmap intent_key IntentRow;
  lock_rows : gmap step_key LockStepRow
}.

Definition empty_lock_db : lock_db := {| intent_rows := ∅; lock_rows := ∅ |}.

Definition intent_check (k : intent_key) (row : IntentRow) : bool :=
  (k.2 ==? "maker")
  && (row.(row_predecessor_revision) =? 1)
  && len_is 32 row.(row_agreement) && (row.(row_agreement) !=? zero32)
  && (row.(row_plan_schema_version) =? 1)
  && len_is 32 row.(row_plan_commitment)
  && match row.(row_closed_revision) with
     | None => true
     | Some closed => closed =? row.(row_predecessor_revision) + 1
     end.

(** [length] of a text column counts characters; the texts stored are ASCII. *)
Definition lock_step_check (k : step_key) (row : LockStepRow) : bool :=
  let state := row.(row_step_state) in
  let attempt_count := row.(row_attempts) in
  let revision := row.(row_step_revision) in
  (k.1.2 ==? "maker")
  && (0 <=? k.2) && (k.2 <=? 31)
  && (1 <=? slen row.(row_step_id)) && (slen row.(row_step_id) <=? 96)
  && (1 <=? slen row.(row_expected_public_id)) && (slen row.(row_expected_public_id) <=? 512)
  && (1 <=? blen row.(row_exact_bytes)) && (blen row.(row_exact_bytes) <=? 4194304)
  && len_is 32 row.(row_bytes_sha256)
  && match row.(row_submission_result) with
     | None => true
     | Some r => str_in r ["accepted"; "unknown"]
     end
  && str_in state ["prepared"; "started"; "unknown"; "accepted"]
  && ((attempt_count =? 0) || (attempt_count =? 1))
  && (0 <=? revision) && (revision <=? 3)
  && (((state ==? "prepared") && (attempt_count =? 0) && (revision =? 0)
       && is_null row.(row_submission_result))
      || ((state ==? "started") && (attempt_count =? 1) && (revision =? 1)
          && is_null row.(row_submission_result))
      || ((state ==? "unknown") && (attempt_count =? 1) && (revision =? 2))
      || ((state ==? "accepted")
          && (((attempt_count =? 0) && (revision =? 1))
              || ((attempt_count =? 1) && ((revision =? 2) || (revision =? 3)))))).

(** [UNIQUE (swap_id, local_role, step_id)] *)
Definition lock_step_unique (k : step_key) (row : LockStepRow) : string * string * string :=
  (k.1, row.(row_step_id)).

Definition insert_intent (db : lock_db) (k : intent_key) (row : IntentRow)
    : result lock_db StoreError :=
  let? rows := ok_or (sql_insert intent_check (λ k _, k) db.(intent_rows) k row)
                 StoreError_Sqlite in
  Ok {| intent_rows := rows; lock_rows := db.(lock_rows) |}.

(** The foreign key of a step is checked with the insert. *)
Definition insert_lock_step (db : lock_db) (k : step_key) (row : LockStepRow)
    : result lock_db StoreError :=
  match db.(intent_rows) !! k.1 with
  | None => Err StoreError_Sqlite
  | Some _ =>
      let? rows := ok_or (sql_insert lock_step_check lock_step_unique db.(lock_rows) k row)
                     StoreError_Sqlite in
      Ok {| intent_rows := db.(intent_rows); lock_rows := rows |}
  end.

(** ** Loading *)

Section sha256.
(** The digest of the [sha2] crate. *)
Variable sha256 : bytes → bytes.

Definition lock_revision_to_sql (revision : Z) : result Z StoreError :=
  if i64_max <? revision then Err InvalidBtcMakerLockIntent else Ok revision.

(** [SELECT ... ORDER BY step_index ASC]: the schema bounds the index by 31. *)
Definition select_lock_steps (db : lock_db) (swap_id : SwapId) : list (Z * LockStepRow) :=
  omap (λ index, pair index <$> db.(lock_rows) !! (swap_id.(SwapId_as_str), "maker", index))
    (seqZ 0 32).

(** The body of the loop over the rows. *)
Definition decode_lock_step (expected_index : Z) (r : Z * LockStepRow)
    : result BtcMakerLockStepSnapshot StoreError :=
  let '(index, row) := r in
  let corrupt {E} (_ : E) := CorruptBtcMakerLockIntent in
  if negb (index =? expected_index) then Err CorruptBtcMakerLockIntent
  else if negb (blen row.(row_bytes_sha256) =? 32) then Err CorruptBtcMakerLockIntent
  else if row.(row_bytes_sha256) !=? sha256 row.(row_exact_bytes)
  then Err CorruptBtcMakerLockIntent
  else
    let? step_id := map_err (PublicEffectStepId_new row.(row_step_id)) corrupt in
    let? expected_id := map_err (ExpectedPublicEffectId_new row.(row_expected_public_id)) corrupt in
    let? bytes := map_err (ExactPublicEffectBytes_new row.(row_exact_bytes)) corrupt in
    let step := {| plan_step_id := step_id; expected_public_id := expected_id;
                   exact_bytes := bytes |} in
    let? submission_result :=
      BtcMakerLockSubmissionResult_parse row.(row_submission_result) step in
    let? state := BtcMakerLockStepState_parse row.(row_step_state) in
    let? attempt_count := try_from_column u32_max row.(row_attempts) CorruptBtcMakerLockIntent in
    let? revision := try_from_column u64_max row.(row_step_revision) CorruptBtcMakerLockIntent in
    let? _ := validate_step_shape state attempt_count revision submission_result in
    Ok {| lock_step := step; lock_state := state; lock_attempt_count := attempt_count;
          lock_revision := revision; lock_submission_result := submission_result |}.

Fixpoint decode_lock_steps (expected_index : Z) (rows : list (Z * LockStepRow))
    : result (list BtcMakerLockStepSnapshot) StoreError :=
  match rows with
  | [] => Ok []
  | row :: rows =>
      let? snapshot := decode_lock_step expected_index row in
      let? snapshots := decode_lock_steps (expected_index + 1) rows in
      Ok (snapshot :: snapshots)
  end.

Definition load_exact_step_plan (db : lock_db) (swap_id : SwapId)
    : result (ExactPublicEffectPlanV1 * list BtcMakerLockStepSnapshot) StoreError :=
  let rows := select_lock_steps db swap_id in
  if blen rows =? 0 then Err CorruptBtcMakerLockIntent
  else
    let? snapshots := decode_lock_steps 0 rows in
    let? plan := map_err (ExactPublicEffectPlanV1_new (map lock_step snapshots))
                   (λ _, CorruptBtcMakerLockIntent) in
    Ok (plan, snapshots).

Definition all_accepted (steps : list BtcMakerLockStepSnapshot) : bool :=
  forallb (λ step, step.(lock_state) ==? Lock_Accepted) steps.

(** The [CHECK] on [local_role] leaves one row for a swap, the maker's. *)
Definition load_intent_snapshot (db : lock_db) (swap_id : SwapId)
    : result (option BtcMakerLockIntentSnapshot) StoreError :=
  match db.(intent_rows) !! (swap_id.(SwapId_as_str), "maker") with
  | None => Ok None
  | Some row =>
      if ("maker" !=? participant_name Participant_Maker)
         || negb (row.(row_plan_schema_version)
                  =? EXACT_PUBLIC_EFFECT_PLAN_SCHEMA_V1.(SchemaVersion_get))
      then Err CorruptBtcMakerLockIntent
      else
        let? loaded := load_exact_step_plan db swap_id in
        let '(plan, snapshots) := loaded in
        if plan_commitment sha256 plan !=? row.(row_plan_commitment)
        then Err CorruptBtcMakerLockIntent
        else if negb (blen row.(row_agreement) =? 32) then Err CorruptBtcMakerLockIntent
        else
          let? predecessor_revision :=
            try_from_column u64_max row.(row_predecessor_revision) CorruptBtcMakerLockIntent in
          let? intent :=
            map_err (BtcMakerLockIntentV1_new swap_id row.(row_agreement) Participant_Maker
                       predecessor_revision plan) (λ _, CorruptBtcMakerLockIntent) in
          let? closed_revision :=
            match row.(row_closed_revision) with
            | None => Ok None
            | Some value =>
                let? v := try_from_column u64_max value CorruptBtcMakerLockIntent in Ok (Some v)
            end in
          let loaded := {| lock_intent := intent; lock_steps := snapshots;
                           lock_closed_revision := closed_revision |} in
          match closed_revision with
          | Some closed =>
              if negb (closed =? predecessor_revision + 1) || negb (all_accepted snapshots)
              then Err CorruptBtcMakerLockIntent
              else Ok (Some loaded)
          | None => Ok (Some loaded)
          end
  end.

Definition load_intent (db : lock_db) (swap_id : SwapId)
    : result (option BtcMakerLockIntentSnapshot) StoreError :=
  load_intent_snapshot db swap_id.

Definition require_matching_intent (db : lock_db) (intent : BtcMakerLockIntentV1)
    : result BtcMakerLockIntentSnapshot StoreError :=
  let? loaded := load_intent_snapshot db intent.(lock_swap_id) in
  let? durable := ok_or loaded MissingBtcMakerLockIntent in
  if durable.(lock_intent) !=? intent then Err BtcMakerLockConflict else Ok durable.

(** [iter().position(...)] *)
Fixpoint position_of (step_id : PublicEffectStepId) (steps : list BtcMakerLockStepSnapshot)
    : option nat :=
  match steps with
  | [] => None
  | step :: steps =>
      if step.(lock_step).(plan_step_id) ==? step_id then Some O
      else S <$> position_of step_id steps
  end.

Definition step_index (durable : BtcMakerLockIntentSnapshot) (step_id : PublicEffectStepId)
    : result nat StoreError :=
  ok_or (position_of step_id durable.(lock_steps)) BtcMakerLockConflict.

Definition load_step_snapshot (db : lock_db) (intent : BtcMakerLockIntentV1) (index : nat)
    : result BtcMakerLockStepSnapshot StoreError :=
  let? loaded := load_intent_snapshot db intent.(lock_swap_id) in
  let? durable := ok_or loaded MissingBtcMakerLockIntent in
  ok_or (durable.(lock_steps) !! index) CorruptBtcMakerLockIntent.

(** ** Updates of one step *)

(** The new database and the step as the caller's variable holds it. *)
Definition update_step (db : lock_db) (intent : BtcMakerLockIntentV1) (index : nat)
    (step : BtcMakerLockStepSnapshot) (next_state : BtcMakerLockStepState)
    (next_attempts next_revision : Z)
    (next_submission_result : option BtcMakerLockSubmissionResult)
    : result (lock_db * BtcMakerLockStepSnapshot) StoreError :=
  let next_submission_name := BtcMakerLockSubmissionResult_as_str <$> next_submission_result in
  let current_submission_name :=
    BtcMakerLockSubmissionResult_as_str <$> step.(lock_submission_result) in
  let? next_revision_sql := lock_revision_to_sql next_revision in
  let? current_revision_sql := lock_revision_to_sql step.(lock_revision) in
  match sql_update lock_step_check db.(lock_rows)
          (intent.(lock_swap_id).(SwapId_as_str), "maker", Z.of_nat index)
          (λ row, (row.(row_step_id) ==? step.(lock_step).(plan_step_id).(StepId_as_str))
                  && (row.(row_step_state) ==? BtcMakerLockStepState_as_str step.(lock_state))
                  && (row.(row_attempts) =? step.(lock_attempt_count))
                  && (row.(row_step_revision) =? current_revision_sql)
                  && (row.(row_submission_result) ==? current_submission_name))
          (λ row, {| row_step_id := row.(row_step_id);
                     row_expected_public_id := row.(row_expected_public_id);
                     row_exact_bytes := row.(row_exact_bytes);
                     row_bytes_sha256 := row.(row_bytes_sha256);
                     row_submission_result := next_submission_name;
                     row_step_state := BtcMakerLockStepState_as_str next_state;
                     row_attempts := next_attempts;
                     row_step_revision := next_revision_sql |}) with
  | None => Err StoreError_Sqlite
  | Some (rows, updated) =>
      if negb (updated =? 1) then Err BtcMakerLockConflict
      else Ok ({| intent_rows := db.(intent_rows); lock_rows := rows |},
               {| lock_step := step.(lock_step); lock_state := next_state;
                  lock_attempt_count := next_attempts; lock_revision := next_revision;
                  lock_submission_result := next_submission_result |})
  end.

Definition begin_step_once (db : lock_db) (intent : BtcMakerLockIntentV1) (index : nat)
    (step : BtcMakerLockStepSnapshot) :=
  update_step db intent index step Lock_Started 1 1 None.

Definition burn_step_authority (db : lock_db) (intent : BtcMakerLockIntentV1) (index : nat)
    (step : BtcMakerLockStepSnapshot) :=
  update_step db intent index step Lock_Unknown 1 2 None.

Definition advance_step_to_accepted (db : lock_db) (intent : BtcMakerLockIntentV1) (index : nat)
    (step : BtcMakerLockStepSnapshot) :=
  let? revision := ok_or (checked_add u64_max step.(lock_revision) 1) CorruptBtcMakerLockIntent in
  update_step db intent index step Lock_Accepted step.(lock_attempt_count) revision
    step.(lock_submission_result).

Definition set_started_result (db : lock_db) (intent : BtcMakerLockIntentV1) (index : nat)
    (step : BtcMakerLockStepSnapshot) (target : BtcMakerLockStepState)
    (submission_result : BtcMakerLockSubmissionResult) :=
  update_step db intent index step target 1 2 (Some submission_result).

(** ** Operations *)

(** The loop of [create_intent] over the enumerated steps. *)
Fixpoint insert_steps (db : lock_db) (swap_id : SwapId) (index : Z)
    (steps : list PublicEffectStepV1) : result lock_db StoreError :=
  match steps with
  | [] => Ok db
  | step :: steps =>
      if i64_max <? index then Err InvalidBtcMakerLockIntent
      else
        let? db' := insert_lock_step db (swap_id.(SwapId_as_str), "maker", index)
          {| row_step_id := step.(plan_step_id).(StepId_as_str);
             row_expected_public_id := step.(expected_public_id).(ExpectedId_as_str);
             row_exact_bytes := step.(exact_bytes).(ExactBytes_as_slice);
             row_bytes_sha256 := ExactPublicEffectBytes_sha256 sha256 step.(exact_bytes);
             row_submission_result := None;
             row_step_state := "prepared";
             row_attempts := 0;
             row_step_revision := 0 |} in
        insert_steps db' swap_id (index + 1) steps
  end.

(** A step as [create_intent] expects it after the inserts. *)
Definition step_untouched (step : BtcMakerLockStepSnapshot) : bool :=
  (step.(lock_state) ==? Lock_Prepared) && (step.(lock_attempt_count) =? 0)
  && (step.(lock_revision) =? 0) && is_null step.(lock_submission_result).

Definition create_intent (db : lock_db) (intent : BtcMakerLockIntentV1)
    : lock_db * result BtcMakerLockIntentCreateOutcome StoreError :=
  immediate_transaction db (
    let? _ := BtcMakerLockIntentV1_validate intent in
    let? loaded := load_intent_snapshot db intent.(lock_swap_id) in
    match loaded with
    | Some existing =>
        Ok (db, if existing.(lock_intent) ==? intent then Lock_ExistingSame else Lock_Conflict)
    | None =>
        let? predecessor_revision := lock_revision_to_sql intent.(lock_predecessor_revision) in
        let? db1 := insert_intent db (intent.(lock_swap_id).(SwapId_as_str), "maker")
          {| row_predecessor_revision := predecessor_revision;
             row_agreement := intent.(lock_agreement_commitment);
             row_plan_schema_version :=
               intent.(lock_plan).(plan_schema_version).(SchemaVersion_get);
             row_plan_commitment := plan_commitment sha256 intent.(lock_plan);
             row_closed_revision := None |} in
        let? db2 := insert_steps db1 intent.(lock_swap_id) 0 intent.(lock_plan).(plan_steps) in
        let? reloaded := load_intent_snapshot db2 intent.(lock_swap_id) in
        let? inserted := ok_or reloaded CorruptBtcMakerLockIntent in
        if (inserted.(lock_intent) !=? intent)
           || not_null inserted.(lock_closed_revision)
           || negb (forallb step_untouched inserted.(lock_steps))
        then Err CorruptBtcMakerLockIntent
        else Ok (db2, Lock_Created)
    end).

(** The effect of an observation on the step: the database, the step and whether
    the caller may send. *)
Definition apply_lock_observation (db : lock_db) (intent : BtcMakerLockIntentV1)
    (durable : BtcMakerLockIntentSnapshot) (index : nat) (step : BtcMakerLockStepSnapshot)
    (predecessors_accepted : bool) (observation : BtcMakerLockStepObservation)
    : result (lock_db * BtcMakerLockStepSnapshot * bool) StoreError :=
  let exact id bytes :=
    (id ==? step.(lock_step).(expected_public_id).(ExpectedId_as_str))
    && (bytes ==? step.(lock_step).(exact_bytes).(ExactBytes_as_slice)) in
  let send :=
    if is_null durable.(lock_closed_revision) && predecessors_accepted
       && (step.(lock_state) ==? Lock_Prepared)
    then let? r := begin_step_once db intent index step in Ok (r, true)
    else Ok (db, step, false) in
  match observation with
  | PresentExact expected_public_id exact_public_bytes =>
      if negb (exact expected_public_id exact_public_bytes) then Err BtcMakerLockConflict
      else if negb predecessors_accepted then Err BtcMakerLockConflict
      else if step.(lock_state) !=? Lock_Accepted
      then let? r := advance_step_to_accepted db intent index step in Ok (r, false)
      else Ok (db, step, false)
  | Lock_Absent => send
  | ExactIdempotentSubmissionSafe expected_public_id exact_public_bytes =>
      if negb (exact expected_public_id exact_public_bytes) then Err BtcMakerLockConflict
      else send
  | Lock_Uncertain => Ok (db, step, false)
  | ConflictingPresence =>
      match step.(lock_state) with
      | Lock_Prepared => let? r := burn_step_authority db intent index step in Ok (r, false)
      | Lock_Started | Lock_Unknown => Ok (db, step, false)
      | Lock_Accepted => Err BtcMakerLockConflict
      end
  end.

Definition reconcile_step (db : lock_db) (intent : BtcMakerLockIntentV1)
    (step_id : PublicEffectStepId) (observation : BtcMakerLockStepObservation)
    : lock_db * result BtcMakerLockStepDecision StoreError :=
  immediate_transaction db (
    let? _ := BtcMakerLockIntentV1_validate intent in
    let? durable := require_matching_intent db intent in
    let? index := step_index durable step_id in
    let? step := ok_or (durable.(lock_steps) !! index) CorruptBtcMakerLockIntent in
    let predecessors_accepted := all_accepted (take index durable.(lock_steps)) in
    if (step.(lock_state) ==? Lock_Accepted) && negb predecessors_accepted
    then Err CorruptBtcMakerLockIntent
    else
      let? applied := apply_lock_observation db intent durable index step predecessors_accepted
                        observation in
      let '(db', step', submit_once) := applied in
      let? post := load_step_snapshot db' intent index in
      if post !=? step' then Err CorruptBtcMakerLockIntent
      else Ok (db', if submit_once then SubmitOnce step' else Lock_ObserveOnly step')).

(** The effect of the outcome of a submission on the step: the database, the
    step and whether the outcome was recorded already. *)
Definition apply_lock_submission (db : lock_db) (intent : BtcMakerLockIntentV1) (index : nat)
    (step : BtcMakerLockStepSnapshot) (submission : BtcMakerLockSubmissionResult)
    : result (lock_db * BtcMakerLockStepSnapshot * bool) StoreError :=
  let wrong_id :=
    match submission with
    | Submission_Accepted expected_id =>
        expected_id !=? step.(lock_step).(expected_public_id).(ExpectedId_as_str)
    | Submission_Unknown => false
    end in
  if wrong_id then Err BtcMakerLockConflict
  else
    let target := Lock_Unknown in
    if step.(lock_state) ==? Lock_Started then
      let? r := set_started_result db intent index step target submission in
      Ok (r, false)
    else if (step.(lock_state) ==? target) && (step.(lock_attempt_count) =? 1)
            && (step.(lock_revision) =? 2)
            && (step.(lock_submission_result) ==? Some submission)
    then Ok (db, step, true)
    else Err BtcMakerLockConflict.

Definition record_submission_result (db : lock_db) (intent : BtcMakerLockIntentV1)
    (step_id : PublicEffectStepId) (submission : BtcMakerLockSubmissionResult)
    : lock_db * result BtcMakerLockStepCommit StoreError :=
  immediate_transaction db (
    let? _ := BtcMakerLockIntentV1_validate intent in
    let? durable := require_matching_intent db intent in
    if not_null durable.(lock_closed_revision) then Err BtcMakerLockConflict
    else
      let? index := step_index durable step_id in
      if negb (all_accepted (take index durable.(lock_steps))) then Err BtcMakerLockConflict
      else
        let? step := ok_or (durable.(lock_steps) !! index) CorruptBtcMakerLockIntent in
        let? recorded := apply_lock_submission db intent index step submission in
        let '(db', step', was_replay) := recorded in
        let? post := load_step_snapshot db' intent index in
        if post !=? step' then Err CorruptBtcMakerLockIntent
        else Ok (db', {| commit_snapshot := step'; commit_was_replay := was_replay |})).

(** Runs in the transaction of the store that commits the maker's lock; the
    result tells whether the intent was closed already. *)
Definition close_ready_btc_maker_lock_intent (db : lock_db) (swap_id : SwapId)
    (agreement_commitment : bytes) (predecessor_revision committed_revision : Z)
    : result (lock_db * bool) StoreError :=
  if negb (predecessor_revision =? MAKER_LOCK_PREDECESSOR_REVISION)
     || negb (committed_revision =? Z.min (predecessor_revision + 1) u64_max)
  then Err BtcMakerLockConflict
  else
    let? loaded := load_intent_snapshot db swap_id in
    let? durable := ok_or loaded MissingBtcMakerLockIntent in
    let intent := durable.(lock_intent) in
    if (intent.(lock_local_role) !=? Participant_Maker)
       || (intent.(lock_agreement_commitment) !=? agreement_commitment)
       || negb (intent.(lock_predecessor_revision) =? predecessor_revision)
       || negb (all_accepted durable.(lock_steps))
    then Err BtcMakerLockConflict
    else if durable.(lock_closed_revision) ==? Some committed_revision then Ok (db, true)
    else if not_null durable.(lock_closed_revision) then Err BtcMakerLockConflict
    else
      let? predecessor_sql := lock_revision_to_sql predecessor_revision in
      let? committed_sql := lock_revision_to_sql committed_revision in
      match sql_update intent_check db.(intent_rows) (swap_id.(SwapId_as_str), "maker")
              (λ row, (row.(row_predecessor_revision) =? predecessor_sql)
                      && is_null row.(row_closed_revision))
              (λ row, {| row_predecessor_revision := row.(row_predecessor_revision);
                         row_agreement := row.(row_agreement);
                         row_plan_schema_version := row.(row_plan_schema_version);
                         row_plan_commitment := row.(row_plan_commitment);
                         row_closed_revision := Some committed_sql |}) with
      | None => Err StoreError_Sqlite
      | Some (rows, updated) =>
          if negb (updated =? 1) then Err BtcMakerLockConflict
          else Ok ({| intent_rows := rows; lock_rows := db.(lock_rows) |}, false)
      end.

End sha256.
