(* ===== verification/BtcMakerLockFacts.v ===== *)
(** * Properties of the Bitcoin maker second-lock journal

    An abstract journal keeps one snapshot per swap and decides without tables;
    the SQL journal refines it: on every run it returns the same results and
    loads the same snapshots.  The properties of runs with lost and rolled-back
    calls follow: one send per step, sends in plan order behind exact
    observations, intents that never change, closed intents that never send. *)

From stdpp Require Import base gmap strings list numbers relations.
From S2P Require Import Prelude SwapCore PublicEffectPlan SqlTable StoreBase BtcMakerLock.

Open Scope Z_scope.

#[local] Arguments BtcMakerLockIntentV1_validate : simpl never.
#[local] Arguments validate_step_shape : simpl never.
#[local] Arguments lock_step_check : simpl never.
#[local] Arguments intent_check : simpl never.
#[local] Arguments all_accepted : simpl never.
#[local] Arguments decode_lock_step : simpl never.

(** ** Rows and what they decode to *)

Definition encode_header (sha256 : bytes → bytes) (s : BtcMakerLockIntentSnapshot) : IntentRow :=
  {| row_predecessor_revision := s.(lock_intent).(lock_predecessor_revision);
     row_agreement := s.(lock_intent).(lock_agreement_commitment);
     row_plan_schema_version :=
       s.(lock_intent).(lock_plan).(plan_schema_version).(SchemaVersion_get);
     row_plan_commitment := plan_commitment sha256 s.(lock_intent).(lock_plan);
     row_closed_revision := s.(lock_closed_revision) |}.

Definition encode_lock_step (sha256 : bytes → bytes) (s : BtcMakerLockStepSnapshot) : LockStepRow :=
  {| row_step_id := s.(lock_step).(plan_step_id).(StepId_as_str);
     row_expected_public_id := s.(lock_step).(expected_public_id).(ExpectedId_as_str);
     row_exact_bytes := s.(lock_step).(exact_bytes).(ExactBytes_as_slice);
     row_bytes_sha256 := sha256 s.(lock_step).(exact_bytes).(ExactBytes_as_slice);
     row_submission_result :=
       BtcMakerLockSubmissionResult_as_str <$> s.(lock_submission_result);
     row_step_state := BtcMakerLockStepState_as_str s.(lock_state);
     row_attempts := s.(lock_attempt_count);
     row_step_revision := s.(lock_revision) |}.

Definition step_ok (s : BtcMakerLockStepSnapshot) : Prop :=
  step_wf s.(lock_step) ∧
  validate_step_shape s.(lock_state) s.(lock_attempt_count) s.(lock_revision)
    s.(lock_submission_result) = Ok tt ∧
  ∀ id, s.(lock_submission_result) = Some (Submission_Accepted id) →
    id = s.(lock_step).(expected_public_id).(ExpectedId_as_str).

(** Accepted steps form a prefix of the plan. *)
Definition accepted_prefix (steps : list BtcMakerLockStepSnapshot) : Prop :=
  ∀ i step, steps !! i = Some step → step.(lock_state) = Lock_Accepted →
    all_accepted (take i steps) = true.

Record snapshot_ok (s : BtcMakerLockIntentSnapshot) : Prop := {
  ok_intent : BtcMakerLockIntentV1_validate s.(lock_intent) = Ok tt;
  ok_agreement : blen s.(lock_intent).(lock_agreement_commitment) = 32;
  ok_steps : Forall step_ok s.(lock_steps);
  ok_plan : map lock_step s.(lock_steps) = s.(lock_intent).(lock_plan).(plan_steps);
  ok_prefix : accepted_prefix s.(lock_steps);
  ok_closed : s.(lock_closed_revision) = None ∨
    (s.(lock_closed_revision) = Some 2 ∧ all_accepted s.(lock_steps) = true)
}.

Lemma intent_validate_Ok i :
  BtcMakerLockIntentV1_validate i = Ok tt →
  i.(lock_local_role) = Participant_Maker ∧ i.(lock_predecessor_revision) = 1 ∧
  forallb (λ byte, byte ==? Byte.x00) i.(lock_agreement_commitment) = false ∧
  ExactPublicEffectPlanV1_new i.(lock_plan).(plan_steps) = Ok i.(lock_plan).
Proof.
  unfold BtcMakerLockIntentV1_validate. intros (plan&Hp&H)%result_bind_Ok.
  destruct (ExactPublicEffectPlanV1_new _) as [p|] eqn:E; [|done]. cbn in Hp. injection Hp as <-.
  case_match eqn:Hc; [done|]. bool_props. subst p. done.
Qed.

Lemma step_shape_range st a r u :
  validate_step_shape st a r u = Ok tt → (a = 0 ∨ a = 1) ∧ 0 ≤ r ≤ 3.
Proof.
  unfold validate_step_shape. case_match eqn:E; [|done]. intros _.
  destruct st; bool_props; lia.
Qed.

(** The abstract journal: one snapshot per swap. *)
Abbreviation journal := (gmap string BtcMakerLockIntentSnapshot).

(** ** Loading *)

Section journal.
Context (sha256 : bytes → bytes) (sha256_len : ∀ b, blen (sha256 b) = 32).

Lemma decode_encode_lock_step index s :
  step_ok s → decode_lock_step sha256 index (index, encode_lock_step sha256 s) = Ok s.
Proof using sha256_len.
  intros ((Hi&He&Hb)&Hsh&Hr). destruct (step_shape_range _ _ _ _ Hsh) as [Ha Hrev].
  unfold decode_lock_step, encode_lock_step. cbn -[try_from_column].
  rewrite Z.eqb_refl, sha256_len, bool_decide_eq_true_2 by done. cbn -[try_from_column].
  rewrite Hi, He, Hb. cbn -[try_from_column].
  assert (BtcMakerLockSubmissionResult_parse
            (BtcMakerLockSubmissionResult_as_str <$> lock_submission_result s)
            {| plan_step_id := plan_step_id (lock_step s);
               expected_public_id := expected_public_id (lock_step s);
               exact_bytes := exact_bytes (lock_step s) |} = Ok (lock_submission_result s)) as ->.
  { destruct (lock_submission_result s) as [[id|]|]; [|done..]. cbn. by rewrite <- (Hr id). }
  assert (BtcMakerLockStepState_parse (BtcMakerLockStepState_as_str (lock_state s))
          = Ok (lock_state s)) as -> by by destruct (lock_state s).
  cbn -[try_from_column].
  rewrite (proj2 (try_from_column_Ok u32_max _ _ (lock_attempt_count s)))
    by (unfold u32_max; lia). cbn -[try_from_column].
  rewrite (proj2 (try_from_column_Ok u64_max _ _ (lock_revision s)))
    by (unfold u64_max; lia). cbn. rewrite Hsh. cbn. by destruct s as [[] ? ? ? ?].
Qed.

(** The rows of a list of steps, in order. *)
Definition indexed_rows (a : Z) (steps : list BtcMakerLockStepSnapshot) : list (Z * LockStepRow) :=
  imap (λ n s, (a + Z.of_nat n, encode_lock_step sha256 s)) steps.

Lemma indexed_rows_cons a s steps :
  indexed_rows a (s :: steps) = (a, encode_lock_step sha256 s) :: indexed_rows (a + 1) steps.
Proof.
  unfold indexed_rows. cbn. f_equal; [f_equal; lia|]. apply imap_ext. intros n x _. cbn.
  f_equal. lia.
Qed.

Lemma decode_indexed_rows a steps :
  Forall step_ok steps → decode_lock_steps sha256 a (indexed_rows a steps) = Ok steps.
Proof using sha256_len.
  intros H. revert a. induction H as [|s steps Hs _ IH]; intros a; [done|].
  rewrite indexed_rows_cons. cbn. rewrite decode_encode_lock_step by done. cbn.
  by rewrite IH.
Qed.

Lemma omap_indexed_rows (f : Z → option LockStepRow) a steps m :
  (∀ n, f (a + Z.of_nat n) = encode_lock_step sha256 <$> steps !! n) →
  omap (λ i, pair i <$> f i) (seqZ a (Z.of_nat (length steps) + Z.of_nat m)) = indexed_rows a steps.
Proof.
  revert a. induction steps as [|s steps IH]; intros a Hf.
  - cbn. rewrite Z.add_0_l. revert a Hf. induction m as [|m IHm]; intros a Hf; [done|].
    rewrite seqZ_cons by lia. cbn. replace (f a) with (@None LockStepRow)
      by (specialize (Hf O); cbn in Hf; rewrite Z.add_0_r in Hf; done). cbn.
    replace (Z.pred (Z.of_nat (S m))) with (Z.of_nat m) by lia. apply IHm. intros n.
    replace (Z.succ a + Z.of_nat n) with (a + Z.of_nat (S n)) by lia. by rewrite Hf.
  - rewrite seqZ_cons by (cbn; lia). rewrite indexed_rows_cons. cbn.
    replace (f a) with (Some (encode_lock_step sha256 s))
      by (specialize (Hf O); cbn in Hf; rewrite Z.add_0_r in Hf; done). cbn. f_equal.
    replace (Z.pred (Z.of_nat (S (length steps)) + Z.of_nat m))
      with (Z.of_nat (length steps) + Z.of_nat m) by lia.
    apply IH. intros n. replace (a + 1 + Z.of_nat n) with (a + Z.of_nat (S n)) by lia.
    by rewrite Hf.
Qed.

(** ** The abstract journal and the database that represents it *)

Definition journal_ok (st : journal) : Prop :=
  ∀ swap s, st !! swap = Some s →
    snapshot_ok s ∧ s.(lock_intent).(lock_swap_id).(SwapId_as_str) = swap.

Definition step_row_of (st : journal) (swap : string) (index : Z) : option LockStepRow :=
  s ← st !! swap;
  step ← (if 0 <=? index then s.(lock_steps) !! Z.to_nat index else None);
  Some (encode_lock_step sha256 step).

Definition represents (db : lock_db) (st : journal) : Prop :=
  (∀ swap, db.(intent_rows) !! (swap, "maker") = encode_header sha256 <$> st !! swap) ∧
  (∀ swap index, db.(lock_rows) !! (swap, "maker", index) = step_row_of st swap index).

Lemma snapshot_length s :
  snapshot_ok s → s.(lock_steps) ≠ [] ∧ (length s.(lock_steps) ≤ 32)%nat.
Proof.
  intros Hs. destruct (intent_validate_Ok _ (ok_intent _ Hs)) as (_&_&_&Hp).
  apply plan_new_Ok in Hp as (Hne&Hl&_). rewrite <- (ok_plan _ Hs) in Hne, Hl.
  unfold blen, MAX_PLAN_STEPS in Hl. rewrite length_map in Hl. split; [by intros H; rewrite H in Hne|lia].
Qed.

Lemma select_represented db st (id : SwapId) s :
  represents db st → st !! SwapId_as_str id = Some s → snapshot_ok s →
  select_lock_steps db id = indexed_rows 0 s.(lock_steps).
Proof.
  intros [_ Hr] Hs Hok. destruct (snapshot_length s Hok) as [_ Hl]. unfold select_lock_steps.
  replace 32 with (Z.of_nat (length (lock_steps s)) + Z.of_nat (32 - length (lock_steps s))) by lia.
  apply (omap_indexed_rows (λ i, lock_rows db !! (SwapId_as_str id, "maker", i))). intros n.
  rewrite Hr. unfold step_row_of. rewrite Hs, Z.add_0_l.
  rewrite (proj2 (Z.leb_le 0 (Z.of_nat n))) by lia. rewrite Nat2Z.id. cbn. by destruct (lock_steps s !! n).
Qed.

Lemma load_represented db st (id : SwapId) :
  represents db st → journal_ok st →
  load_intent_snapshot sha256 db id = Ok (st !! SwapId_as_str id).
Proof using sha256_len.
  intros Hrep Hok. unfold load_intent_snapshot. rewrite (proj1 Hrep).
  destruct (st !! SwapId_as_str id) as [s|] eqn:Hs; [|done]. cbn -[load_exact_step_plan].
  destruct (Hok _ _ Hs) as [Hso Hid].
  destruct (intent_validate_Ok _ (ok_intent _ Hso)) as (Hrole&Hpred&_&Hp).
  pose proof Hp as Hp'. apply plan_new_Ok in Hp' as (_&_&_&_&Hplan).
  assert (Hload : load_exact_step_plan sha256 db id = Ok (lock_plan (lock_intent s), lock_steps s)).
  { unfold load_exact_step_plan. rewrite (select_represented db st id s) by done.
    destruct (snapshot_length s Hso) as [Hne _].
    replace (blen (indexed_rows 0 (lock_steps s)) =? 0) with false.
    - rewrite decode_indexed_rows by apply Hso. cbn [result_bind].
      rewrite (ok_plan _ Hso), Hp. done.
    - symmetry. apply Z.eqb_neq. unfold blen, indexed_rows. rewrite length_imap.
      destruct (lock_steps s); [done|cbn; lia]. }
  rewrite Hplan at 1. cbn -[load_exact_step_plan]. rewrite Hload. cbn [result_bind].
  rewrite (bool_decide_eq_true_2 (plan_commitment sha256 _ = _)) by done. cbn [negb].
  rewrite (ok_agreement _ Hso), Hpred. cbn -[BtcMakerLockIntentV1_new try_from_column].
  rewrite (proj2 (try_from_column_Ok u64_max 1 _ 1)) by (unfold u64_max; lia).
  cbn -[BtcMakerLockIntentV1_new try_from_column].
  assert (BtcMakerLockIntentV1_new id (lock_agreement_commitment (lock_intent s)) Participant_Maker 1
            (lock_plan (lock_intent s)) = Ok (lock_intent s)) as ->.
  { unfold BtcMakerLockIntentV1_new.
    assert ({| lock_swap_id := id;
               lock_agreement_commitment := lock_agreement_commitment (lock_intent s);
               lock_local_role := Participant_Maker; lock_predecessor_revision := 1;
               lock_plan := lock_plan (lock_intent s) |} = lock_intent s) as ->.
    { destruct (lock_intent s) as [[x] ? ? ? ?]; cbn in *. subst. by destruct id. }
    by rewrite (ok_intent _ Hso). }
  destruct (ok_closed _ Hso) as [Hc|[Hc Hacc]]; rewrite Hc; cbn -[try_from_column].
  - destruct s; cbn in *. by subst.
  - rewrite (proj2 (try_from_column_Ok u64_max 2 _ 2)) by (unfold u64_max; lia). cbn.
    rewrite Hacc. cbn. destruct s; cbn in *. by subst.
Qed.

(** ** Writing one step *)

Definition set_lock_step (s : BtcMakerLockIntentSnapshot) (index : nat)
    (step : BtcMakerLockStepSnapshot) : BtcMakerLockIntentSnapshot :=
  {| lock_intent := s.(lock_intent);
     lock_steps := <[index := step]> s.(lock_steps);
     lock_closed_revision := s.(lock_closed_revision) |}.

(** Decide the comparisons of closed strings. *)
Ltac decide_strings :=
  repeat match goal with
  | |- context [bool_decide (?a = ?b :> string)] =>
      first [change (bool_decide (a = b)) with true | change (bool_decide (a = b)) with false]
  end.

Lemma lock_step_check_ok swap index s :
  step_ok s → (index < 32)%nat →
  lock_step_check (swap, "maker", Z.of_nat index) (encode_lock_step sha256 s) = true.
Proof using sha256_len.
  intros ((Hi&He&Hb)&Hsh&_) Hindex.
  apply step_id_new_Ok in Hi as (Hi0&Hi1&_).
  unfold ExpectedPublicEffectId_new in He. case_match eqn:He1; [done|].
  unfold ExactPublicEffectBytes_new in Hb. case_match eqn:Hb1; [done|]. bool_props.
  unfold MAX_STEP_ID_BYTES, MAX_EXPECTED_ID_BYTES, MAX_EXACT_EFFECT_BYTES in *.
  assert (0 ≤ slen (StepId_as_str (plan_step_id (lock_step s)))) by (unfold slen; lia).
  assert (0 ≤ slen (ExpectedId_as_str (expected_public_id (lock_step s)))) by (unfold slen; lia).
  pose proof (blen_nonneg (ExactBytes_as_slice (exact_bytes (lock_step s)))).
  unfold lock_step_check, encode_lock_step, len_is. cbn. rewrite sha256_len.
  unfold validate_step_shape in Hsh. case_match eqn:Hv; [|done]. clear Hsh.
  rewrite !andb_true_iff, ?Z.leb_le. split_and!; try lia; try done.
  - by destruct (lock_submission_result s) as [[]|].
  - by destruct (lock_state s).
  - destruct (lock_state s); bool_props; rewrite orb_true_iff, !Z.eqb_eq; lia.
  - destruct (lock_state s); bool_props; lia.
  - destruct (lock_state s); bool_props; lia.
  - assert (Hnull : is_null (BtcMakerLockSubmissionResult_as_str <$> lock_submission_result s)
              = is_null (lock_submission_result s)) by by destruct (lock_submission_result s).
    rewrite Hnull. destruct (lock_state s); cbn in Hv |- *; decide_strings; cbn [andb orb];
      rewrite ?orb_false_r; try exact Hv.
    clear -Hv. destruct (lock_attempt_count s =? 0), (lock_attempt_count s =? 1),
      (lock_revision s =? 1), (lock_revision s =? 2), (lock_revision s =? 3); done.
Qed.

Lemma revision_sql_small r : 0 ≤ r ≤ 3 → lock_revision_to_sql r = Ok r.
Proof.
  intros Hr. unfold lock_revision_to_sql. destruct (Z.ltb_spec i64_max r); [|done].
  unfold i64_max in *. lia.
Qed.

Lemma step_row_lookup st swap s index step :
  st !! swap = Some s → s.(lock_steps) !! index = Some step →
  step_row_of st swap (Z.of_nat index) = Some (encode_lock_step sha256 step).
Proof.
  intros Hs Hi. unfold step_row_of. rewrite Hs.
  rewrite (proj2 (Z.leb_le 0 (Z.of_nat index))) by lia. rewrite Nat2Z.id. cbn. by rewrite Hi.
Qed.

(** The row of one step replaced. *)
Lemma represents_set db st swap s index step step' :
  represents db st → st !! swap = Some s → s.(lock_steps) !! index = Some step →
  represents
    {| intent_rows := db.(intent_rows);
       lock_rows := <[(swap, "maker", Z.of_nat index) := encode_lock_step sha256 step']>
                      db.(lock_rows) |}
    (<[swap := set_lock_step s index step']> st).
Proof.
  intros [Hh Hr] Hs Hi. assert (Hl : (index < length (lock_steps s))%nat)
    by (eapply lookup_lt_Some; eauto). split; cbn.
  - intros swap'. rewrite Hh. destruct (decide (swap' = swap)) as [->|Hne].
    + by rewrite Hs, lookup_insert_eq.
    + by rewrite lookup_insert_ne by congruence.
  - intros swap' i. unfold step_row_of. destruct (decide (swap' = swap)) as [->|Hne].
    2: { rewrite !lookup_insert_ne by congruence. apply Hr. }
    rewrite lookup_insert_eq. destruct (decide (i = Z.of_nat index)) as [->|Hi'].
    + rewrite lookup_insert_eq. rewrite (proj2 (Z.leb_le 0 (Z.of_nat index))) by lia.
      rewrite Nat2Z.id. cbn. by rewrite list_lookup_insert_eq.
    + rewrite lookup_insert_ne by congruence. rewrite Hr. unfold step_row_of. rewrite Hs.
      destruct (Z.leb_spec 0 i); [|done]. cbn. by rewrite list_lookup_insert_ne by lia.
Qed.

Definition move_step (step : BtcMakerLockStepSnapshot) (state : BtcMakerLockStepState)
    (attempts revision : Z) (submission : option BtcMakerLockSubmissionResult)
    : BtcMakerLockStepSnapshot :=
  {| lock_step := step.(lock_step); lock_state := state; lock_attempt_count := attempts;
     lock_revision := revision; lock_submission_result := submission |}.

Lemma update_step_represented db st s index step next attempts revision submission :
  represents db st → journal_ok st →
  st !! SwapId_as_str (lock_swap_id (lock_intent s)) = Some s →
  s.(lock_steps) !! index = Some step →
  let step' := move_step step next attempts revision submission in
  step_ok step' →
  ∃ db', update_step db s.(lock_intent) index step next attempts revision submission
         = Ok (db', step') ∧
    represents db' (<[SwapId_as_str (lock_swap_id (lock_intent s)) := set_lock_step s index step']> st).
Proof using sha256_len.
  intros Hrep Hok Hs Hi step' Hst'. destruct (Hok _ _ Hs) as [Hso _].
  assert (Hst : step_ok step) by (eapply Forall_lookup_1; [apply Hso|done]).
  destruct (step_shape_range _ _ _ _ (proj1 (proj2 Hst'))) as [_ Hr'].
  destruct (step_shape_range _ _ _ _ (proj1 (proj2 Hst))) as [_ Hr].
  destruct (snapshot_length s Hso) as [_ Hlen]. apply lookup_lt_Some in Hi as Hlt.
  unfold update_step. rewrite !revision_sql_small by done. cbn [result_bind].
  eexists. split; [|by apply (represents_set db st _ s index step step')].
  unfold sql_update. rewrite (proj2 Hrep), (step_row_lookup st _ s index step) by done.
  unfold encode_lock_step at 1 2 3 4 5. cbn [row_step_id row_step_state row_attempts row_step_revision row_submission_result].
  rewrite !bool_decide_eq_true_2, !Z.eqb_refl by done. cbn [andb].
  assert (Hc := lock_step_check_ok (SwapId_as_str (lock_swap_id (lock_intent s))) index step' Hst').
  unfold encode_lock_step in Hc |- *. cbn in Hc |- *. rewrite Hc by lia. done.
Qed.

Lemma journal_ok_set st swap s :
  journal_ok st → snapshot_ok s → s.(lock_intent).(lock_swap_id).(SwapId_as_str) = swap →
  journal_ok (<[swap := s]> st).
Proof. intros Hok Hs Hid swap' s' [[<- <-]|[_ H]]%lookup_insert_Some; auto. Qed.

Lemma load_step_represented db st s index step :
  represents db st → journal_ok st →
  st !! SwapId_as_str (lock_swap_id (lock_intent s)) = Some s →
  s.(lock_steps) !! index = Some step →
  load_step_snapshot sha256 db s.(lock_intent) index = Ok step.
Proof using sha256_len.
  intros Hrep Hok Hs Hi. unfold load_step_snapshot.
  rewrite (load_represented db st) by done. rewrite Hs. cbn. by rewrite Hi.
Qed.

(** ** The abstract journal's operations *)

(** The observation names the step's identity and bytes. *)
Definition exact_step (step : BtcMakerLockStepSnapshot) (id : string) (b : bytes) : bool :=
  (id ==? step.(lock_step).(expected_public_id).(ExpectedId_as_str))
  && (b ==? step.(lock_step).(exact_bytes).(ExactBytes_as_slice)).

(** The step after an observation, and whether it may be sent. *)
Definition decide_observation (s : BtcMakerLockIntentSnapshot) (index : nat)
    (step : BtcMakerLockStepSnapshot) (observation : BtcMakerLockStepObservation)
    : result (BtcMakerLockStepSnapshot * bool) StoreError :=
  let ready := all_accepted (take index s.(lock_steps)) in
  let send :=
    if is_null s.(lock_closed_revision) && ready && (step.(lock_state) ==? Lock_Prepared)
    then (move_step step Lock_Started 1 1 None, true) else (step, false) in
  match observation with
  | PresentExact id b =>
      if exact_step step id b && ready
      then Ok (if step.(lock_state) ==? Lock_Accepted then step
               else move_step step Lock_Accepted step.(lock_attempt_count)
                      (step.(lock_revision) + 1) step.(lock_submission_result), false)
      else Err BtcMakerLockConflict
  | Lock_Absent => Ok send
  | ExactIdempotentSubmissionSafe id b =>
      if exact_step step id b then Ok send else Err BtcMakerLockConflict
  | Lock_Uncertain => Ok (step, false)
  | ConflictingPresence =>
      match step.(lock_state) with
      | Lock_Prepared => Ok (move_step step Lock_Unknown 1 2 None, false)
      | Lock_Started | Lock_Unknown => Ok (step, false)
      | Lock_Accepted => Err BtcMakerLockConflict
      end
  end.

(** The step after the outcome of its submission, and whether it was recorded
    already. *)
Definition decide_submission (s : BtcMakerLockIntentSnapshot) (index : nat)
    (step : BtcMakerLockStepSnapshot) (submission : BtcMakerLockSubmissionResult)
    : result (BtcMakerLockStepSnapshot * bool) StoreError :=
  if all_accepted (take index s.(lock_steps))
     && match submission with
        | Submission_Accepted id => id ==? step.(lock_step).(expected_public_id).(ExpectedId_as_str)
        | Submission_Unknown => true
        end
  then match step.(lock_state) with
       | Lock_Started => Ok (move_step step Lock_Unknown 1 2 (Some submission), false)
       | Lock_Unknown =>
           if step.(lock_submission_result) ==? Some submission then Ok (step, true)
           else Err BtcMakerLockConflict
       | Lock_Prepared | Lock_Accepted => Err BtcMakerLockConflict
       end
  else Err BtcMakerLockConflict.

Definition fresh_lock_step (step : PublicEffectStepV1) : BtcMakerLockStepSnapshot :=
  {| lock_step := step; lock_state := Lock_Prepared; lock_attempt_count := 0; lock_revision := 0;
     lock_submission_result := None |}.

Definition fresh_intent (intent : BtcMakerLockIntentV1) : BtcMakerLockIntentSnapshot :=
  {| lock_intent := intent;
     lock_steps := map fresh_lock_step intent.(lock_plan).(plan_steps);
     lock_closed_revision := None |}.

Definition swap_of (intent : BtcMakerLockIntentV1) : string :=
  intent.(lock_swap_id).(SwapId_as_str).

(** The calls of the journal and what they return. *)
Inductive LockCall :=
| LockCreate (intent : BtcMakerLockIntentV1)
| LockReconcile (intent : BtcMakerLockIntentV1) (step_id : PublicEffectStepId)
    (observation : BtcMakerLockStepObservation)
| LockRecord (intent : BtcMakerLockIntentV1) (step_id : PublicEffectStepId)
    (submission : BtcMakerLockSubmissionResult)
| LockClose (swap_id : SwapId) (agreement_commitment : bytes)
    (predecessor_revision committed_revision : Z).

Inductive LockOutput :=
| Out_Created (o : BtcMakerLockIntentCreateOutcome)
| Out_Decision (d : BtcMakerLockStepDecision)
| Out_Commit (c : BtcMakerLockStepCommit)
| Out_Closed (was_closed : bool).

Definition find_step_of (st : journal) (intent : BtcMakerLockIntentV1)
    (step_id : PublicEffectStepId)
    : result (BtcMakerLockIntentSnapshot * (nat * BtcMakerLockStepSnapshot)) StoreError :=
  let? _ := BtcMakerLockIntentV1_validate intent in
  let? s := ok_or (st !! swap_of intent) MissingBtcMakerLockIntent in
  if s.(lock_intent) !=? intent then Err BtcMakerLockConflict
  else
    let? index := ok_or (position_of step_id s.(lock_steps)) BtcMakerLockConflict in
    let? step := ok_or (s.(lock_steps) !! index) BtcMakerLockConflict in
    Ok (s, (index, step)).

Definition spec_call (st : journal) (c : LockCall) : journal * result LockOutput StoreError :=
  immediate_transaction st
    match c with
    | LockCreate intent =>
        let? _ := BtcMakerLockIntentV1_validate intent in
        match st !! swap_of intent with
        | Some s =>
            Ok (st, Out_Created (if s.(lock_intent) ==? intent then Lock_ExistingSame
                                 else Lock_Conflict))
        | None => Ok (<[swap_of intent := fresh_intent intent]> st, Out_Created Lock_Created)
        end
    | LockReconcile intent step_id observation =>
        let? found := find_step_of st intent step_id in
        let '(s, (index, step)) := found in
        let? decided := decide_observation s index step observation in
        let '(step', send) := decided in
        Ok (<[swap_of intent := set_lock_step s index step']> st,
            Out_Decision (if send then SubmitOnce step' else Lock_ObserveOnly step'))
    | LockRecord intent step_id submission =>
        let? _ := BtcMakerLockIntentV1_validate intent in
        let? s := ok_or (st !! swap_of intent) MissingBtcMakerLockIntent in
        if (s.(lock_intent) !=? intent) || not_null s.(lock_closed_revision)
        then Err BtcMakerLockConflict
        else
          let? found := find_step_of st intent step_id in
          let '(s, (index, step)) := found in
          let? decided := decide_submission s index step submission in
          let '(step', replay) := decided in
          Ok (<[swap_of intent := set_lock_step s index step']> st,
              Out_Commit {| commit_snapshot := step'; commit_was_replay := replay |})
    | LockClose swap_id agreement predecessor committed =>
        if negb ((predecessor =? 1) && (committed =? 2)) then Err BtcMakerLockConflict
        else
          let? s := ok_or (st !! swap_id.(SwapId_as_str)) MissingBtcMakerLockIntent in
          if (s.(lock_intent).(lock_agreement_commitment) ==? agreement)
             && all_accepted s.(lock_steps)
          then Ok (<[swap_id.(SwapId_as_str) :=
                       {| lock_intent := s.(lock_intent); lock_steps := s.(lock_steps);
                          lock_closed_revision := Some 2 |}]> st,
                   Out_Closed (not_null s.(lock_closed_revision)))
          else Err BtcMakerLockConflict
    end.

(** The journal's operations on the database. *)
Definition lock_call (db : lock_db) (c : LockCall) : lock_db * result LockOutput StoreError :=
  match c with
  | LockCreate intent =>
      let out := create_intent sha256 db intent in (out.1, result_map Out_Created out.2)
  | LockReconcile intent step_id observation =>
      let out := reconcile_step sha256 db intent step_id observation in
      (out.1, result_map Out_Decision out.2)
  | LockRecord intent step_id submission =>
      let out := record_submission_result sha256 db intent step_id submission in
      (out.1, result_map Out_Commit out.2)
  | LockClose swap_id agreement predecessor committed =>
      let out := immediate_transaction db
        (close_ready_btc_maker_lock_intent sha256 db swap_id agreement predecessor committed) in
      (out.1, result_map Out_Closed out.2)
  end.

(** The values the types of the source admit: a plan's steps come from their
    constructors, commitments have 32 bytes and revisions 64 bits. *)
Definition call_typed (c : LockCall) : Prop :=
  match c with
  | LockCreate intent | LockReconcile intent _ _ | LockRecord intent _ _ =>
      Forall step_wf intent.(lock_plan).(plan_steps) ∧
      blen intent.(lock_agreement_commitment) = 32
  | LockClose _ _ predecessor committed => is_u64 predecessor ∧ is_u64 committed
  end.

(** ** The abstract operations keep snapshots well formed *)

Lemma all_accepted_true steps :
  all_accepted steps = true ↔
  ∀ i step, steps !! i = Some step → step.(lock_state) = Lock_Accepted.
Proof.
  unfold all_accepted. rewrite forallb_forall. split.
  - intros H i step Hi. eapply bool_decide_eq_true, H, list_elem_of_In, list_elem_of_lookup_2, Hi.
  - intros H step [i Hi]%list_elem_of_In%list_elem_of_lookup_1. apply bool_decide_eq_true. eauto.
Qed.

Lemma set_lock_step_same s index step :
  s.(lock_steps) !! index = Some step → set_lock_step s index step = s.
Proof. intros H. unfold set_lock_step. rewrite list_insert_id by done. by destruct s. Qed.

(** A step moves forward: same material, acceptance kept and only granted behind
    accepted predecessors. *)
Definition step_edge (s : BtcMakerLockIntentSnapshot) (index : nat)
    (step step' : BtcMakerLockStepSnapshot) : Prop :=
  step'.(lock_step) = step.(lock_step) ∧ step_ok step' ∧
  (step.(lock_state) = Lock_Accepted → step' = step) ∧
  (step.(lock_state) ≠ Lock_Prepared → step'.(lock_state) ≠ Lock_Prepared) ∧
  (step'.(lock_state) = Lock_Accepted → all_accepted (take index s.(lock_steps)) = true).

Lemma snapshot_ok_set s index step step' :
  snapshot_ok s → s.(lock_steps) !! index = Some step → step_edge s index step step' →
  snapshot_ok (set_lock_step s index step').
Proof.
  intros Hs Hi (Hst&Hok&Hacc&_&Hpre). apply lookup_lt_Some in Hi as Hlt.
  assert (Hkeep : ∀ j x, s.(lock_steps) !! j = Some x → x.(lock_state) = Lock_Accepted →
            ∀ y, <[index := step']> s.(lock_steps) !! j = Some y → y.(lock_state) = Lock_Accepted).
  { intros j x Hx Hxa y Hy. destruct (decide (j = index)) as [->|Hne].
    - rewrite list_lookup_insert_eq in Hy by done. simplify_eq. by rewrite Hacc.
    - rewrite list_lookup_insert_ne in Hy by done. by simplify_eq. }
  assert (Hall : ∀ n, all_accepted (take n s.(lock_steps)) = true →
            all_accepted (take n (<[index := step']> s.(lock_steps))) = true).
  { intros n. rewrite !all_accepted_true. intros H j y [Hy Hjn]%lookup_take_Some.
    destruct (s.(lock_steps) !! j) as [x|] eqn:Hx.
    - eapply Hkeep; [done| |done]. apply (H j). by apply lookup_take_Some.
    - apply lookup_lt_Some in Hy. rewrite length_insert in Hy. apply lookup_ge_None in Hx. lia. }
  split; cbn; try apply Hs.
  - apply Forall_insert; [apply Hs|done].
  - rewrite <- (ok_plan _ Hs). change (map lock_step) with (fmap (M := list) lock_step).
    rewrite list_fmap_insert, Hst. apply list_insert_id. by rewrite list_lookup_fmap, Hi.
  - intros j y Hy Hya. apply Hall. destruct (decide (j = index)) as [->|Hne].
    + rewrite list_lookup_insert_eq in Hy by done. simplify_eq. auto.
    + rewrite list_lookup_insert_ne in Hy by done. by eapply (ok_prefix _ Hs).
  - destruct (ok_closed _ Hs) as [Hc|[Hc Ha]]; [by left|right]. split; [done|].
    specialize (Hall (length (lock_steps s))). rewrite firstn_all in Hall.
    rewrite take_ge in Hall by (by rewrite length_insert). auto.
Qed.

Lemma move_step_ok step state attempts revision submission :
  step_ok step → validate_step_shape state attempts revision submission = Ok tt →
  (∀ id, submission = Some (Submission_Accepted id) →
     id = step.(lock_step).(expected_public_id).(ExpectedId_as_str)) →
  step_ok (move_step step state attempts revision submission).
Proof. intros (Hw&_) Hsh Hid. done. Qed.

(** The acceptance of a step that is not accepted has one of the accepted shapes. *)
Lemma accept_shape state a r u :
  validate_step_shape state a r u = Ok tt → state ≠ Lock_Accepted →
  validate_step_shape Lock_Accepted a (r + 1) u = Ok tt.
Proof.
  unfold validate_step_shape. case_match eqn:E; [|done]. intros _ Hne.
  destruct state; [..|done]; cbn in E; bool_props; subst; destruct u; done.
Qed.

Lemma decide_observation_edge s index step observation step' send :
  snapshot_ok s → s.(lock_steps) !! index = Some step →
  decide_observation s index step observation = Ok (step', send) →
  step_edge s index step step'.
Proof.
  intros Hs Hi H. assert (Hok : step_ok step) by (eapply Forall_lookup_1; [apply Hs|done]).
  assert (Hsame : step_edge s index step step).
  { split_and!; try done. by eapply (ok_prefix _ Hs). }
  assert (Hstart : step.(lock_state) = Lock_Prepared →
            step_edge s index step (move_step step Lock_Started 1 1 None)).
  { intros Hp. split_and!; try done; [by apply move_step_ok|by rewrite Hp]. }
  destruct observation; cbn in H.
  - case_match eqn:Hc; [|done]. injection H as <- <-. bool_props.
    case_bool_decide as Ha; [done|].
    split_and!; try done. apply move_step_ok; [done| |apply Hok].
    eapply accept_shape; [apply Hok|done].
  - case_match; [|done]. injection H as H. case_match eqn:Hc; simplify_eq; [|done]. bool_props. auto.
  - injection H as H. case_match eqn:Hc; simplify_eq; [|done]. bool_props. auto.
  - by simplify_eq.
  - destruct (lock_state step) eqn:Hp; simplify_eq; try done.
    split_and!; try done; [by apply move_step_ok|by rewrite Hp].
Qed.

Lemma decide_submission_edge s index step submission step' replay :
  snapshot_ok s → s.(lock_steps) !! index = Some step →
  decide_submission s index step submission = Ok (step', replay) →
  step_edge s index step step'.
Proof.
  intros Hs Hi H. assert (Hok : step_ok step) by (eapply Forall_lookup_1; [apply Hs|done]).
  unfold decide_submission in H. case_match eqn:Hc; [|done]. bool_props.
  destruct (lock_state step) eqn:Hp; try done.
  - simplify_eq. split_and!; try done; [|by rewrite Hp..]. apply move_step_ok; try done.
    intros id [= ->]. by bool_props.
  - case_bool_decide; simplify_eq. split_and!; done.
Qed.

(** ** The database refines the abstract journal *)

(** A call on the database and the same call on the abstract journal. *)
Definition call_refines (db : lock_db * result LockOutput StoreError)
    (st : journal * result LockOutput StoreError) : Prop :=
  represents db.1 st.1 ∧ journal_ok st.1 ∧ db.2 = st.2.

Lemma position_of_lookup id steps n :
  position_of id steps = Some n → ∃ step, steps !! n = Some step ∧ step.(lock_step).(plan_step_id) = id.
Proof.
  revert n. induction steps as [|step steps IH]; intros n; cbn; [done|].
  case_bool_decide as Hid; [intros [= <-]; eauto|].
  intros (m&Hm&->)%fmap_Some. cbn. by apply IH.
Qed.

Lemma find_step_of_Ok st intent id s index step :
  find_step_of st intent id = Ok (s, (index, step)) →
  st !! swap_of intent = Some s ∧ s.(lock_intent) = intent ∧ s.(lock_steps) !! index = Some step ∧
  position_of id s.(lock_steps) = Some index ∧ step.(lock_step).(plan_step_id) = id.
Proof.
  unfold find_step_of. intros ([]&_&H)%result_bind_Ok.
  destruct (st !! swap_of intent) as [s'|]; [|done]. cbn in H.
  case_bool_decide; [|done]. cbn in H.
  destruct (position_of id (lock_steps s')) as [n|] eqn:Hn; [|done]. cbn in H.
  destruct (position_of_lookup _ _ _ Hn) as (x&Hx&Hid). rewrite Hx in H. cbn in H. by simplify_eq.
Qed.

(** Both sides locate the same step. *)
Lemma locate_represented db st intent id {A} (k : BtcMakerLockIntentSnapshot → nat →
    BtcMakerLockStepSnapshot → result A StoreError) :
  represents db st → journal_ok st →
  (let? _ := BtcMakerLockIntentV1_validate intent in
   let? durable := require_matching_intent sha256 db intent in
   let? index := step_index durable id in
   let? step := ok_or (durable.(lock_steps) !! index) CorruptBtcMakerLockIntent in
   k durable index step)
  = (let? found := find_step_of st intent id in k found.1 found.2.1 found.2.2).
Proof using sha256_len.
  intros Hrep Hok. unfold find_step_of.
  destruct (BtcMakerLockIntentV1_validate intent) as [[]|]; [|done]. cbn [result_bind].
  unfold require_matching_intent. rewrite (load_represented db st) by done. cbn [result_bind].
  fold (swap_of intent). destruct (st !! swap_of intent) as [s|]; [|done]. cbn [result_bind ok_or].
  case_bool_decide; [|done]. cbn [negb result_bind]. unfold step_index.
  destruct (position_of id (lock_steps s)) as [n|] eqn:Hn; [|done]. cbn [result_bind ok_or].
  destruct (position_of_lookup _ _ _ Hn) as (x&Hx&_). by rewrite Hx.
Qed.

(** Writing the step a decision moved to leaves the abstract journal's state. *)
Lemma write_edge_represented db st s index step step' :
  represents db st → journal_ok st → st !! swap_of s.(lock_intent) = Some s →
  s.(lock_steps) !! index = Some step → step_edge s index step step' →
  step' = move_step step step'.(lock_state) step'.(lock_attempt_count) step'.(lock_revision)
            step'.(lock_submission_result) ∧
  journal_ok (<[swap_of s.(lock_intent) := set_lock_step s index step']> st) ∧
  ∃ db', update_step db s.(lock_intent) index step step'.(lock_state) step'.(lock_attempt_count)
           step'.(lock_revision) step'.(lock_submission_result) = Ok (db', step') ∧
    represents db' (<[swap_of s.(lock_intent) := set_lock_step s index step']> st) ∧
    load_step_snapshot sha256 db' s.(lock_intent) index = Ok step'.
Proof using sha256_len.
  intros Hrep Hok Hs Hi Hedge. assert (Hst : lock_step step' = lock_step step) by apply Hedge.
  assert (Heq : step' = move_step step step'.(lock_state) step'.(lock_attempt_count)
                          step'.(lock_revision) step'.(lock_submission_result)).
  { unfold move_step. rewrite <- Hst. by destruct step'. }
  split; [done|].
  assert (Hok' : journal_ok (<[swap_of s.(lock_intent) := set_lock_step s index step']> st)).
  { apply journal_ok_set; [done| |done]. eapply snapshot_ok_set; [by apply (Hok _ _ Hs)|done..]. }
  split; [done|].
  destruct (update_step_represented db st s index step (lock_state step') (lock_attempt_count step')
    (lock_revision step') (lock_submission_result step')) as (db'&Hu&Hrep'); try done.
  { rewrite <- Heq. apply Hedge. }
  rewrite <- Heq in Hu, Hrep'. exists db'. split; [done|]. split; [done|].
  apply (load_step_represented db' _ (set_lock_step s index step') index step' Hrep' Hok').
  - apply lookup_insert_eq.
  - cbn. apply list_lookup_insert_eq. by eapply lookup_lt_Some.
Qed.

(** What both sides agree on after a step was decided. *)
Definition wrote (st : journal) (s : BtcMakerLockIntentSnapshot) (index : nat)
    (step' : BtcMakerLockStepSnapshot) (db' : lock_db) : Prop :=
  let st' := <[swap_of s.(lock_intent) := set_lock_step s index step']> st in
  represents db' st' ∧ journal_ok st' ∧
  load_step_snapshot sha256 db' s.(lock_intent) index = Ok step'.

Section located.
Context (db : lock_db) (st : journal) (s : BtcMakerLockIntentSnapshot) (index : nat)
  (step : BtcMakerLockStepSnapshot).
Hypothesis Hrep : represents db st.
Hypothesis Hok : journal_ok st.
Hypothesis Hs : st !! swap_of s.(lock_intent) = Some s.
Hypothesis Hi : s.(lock_steps) !! index = Some step.

Lemma wrote_same : wrote st s index step db.
Proof using All.
  unfold wrote. rewrite set_lock_step_same, insert_id by done. split_and!; [done..|].
  by apply (load_step_represented db st).
Qed.

Lemma wrote_update step' state attempts revision submission :
  step_edge s index step step' →
  step' = move_step step state attempts revision submission →
  ∃ db', update_step db s.(lock_intent) index step state attempts revision submission
         = Ok (db', step') ∧ wrote st s index step' db'.
Proof using All.
  intros Hedge ->. unfold wrote.
  destruct (write_edge_represented db st s index step _ Hrep Hok Hs Hi Hedge)
    as (_&Hok'&db'&Hu&Hrep'&Hl). eauto 6.
Qed.

Lemma apply_observation_represented observation :
  match decide_observation s index step observation with
  | Err e => apply_lock_observation db s.(lock_intent) s index step
               (all_accepted (take index s.(lock_steps))) observation = Err e
  | Ok (step', send) =>
      ∃ db', apply_lock_observation db s.(lock_intent) s index step
               (all_accepted (take index s.(lock_steps))) observation = Ok (db', step', send) ∧
        wrote st s index step' db'
  end.
Proof using All.
  pose proof wrote_same as Hsame. destruct (Hok _ _ Hs) as [Hso _].
  assert (Hrev : 0 ≤ lock_revision step ≤ 3).
  { assert (step_ok step) as (_&Hsh&_) by (eapply Forall_lookup_1; [apply Hso|done]).
    by apply step_shape_range in Hsh as [_ ?]. }
  destruct (decide_observation s index step observation) as [[step' send]|e] eqn:Hd.
  - pose proof (decide_observation_edge _ _ _ _ _ _ Hso Hi Hd) as Hedge.
    pose proof (λ state a r u, wrote_update step' state a r u Hedge) as Hupdate.
    destruct observation as [id b|id b| | |]; cbn in Hd |- *; try fold (exact_step step id b);
      repeat case_match; simplify_eq; eauto; bool_props; try congruence.
    all: unfold advance_step_to_accepted, begin_step_once, burn_step_authority, checked_add;
      rewrite ?(proj2 (Z.leb_le (lock_revision step + 1) u64_max)) by (unfold u64_max; lia);
      cbn [ok_or result_bind];
      (edestruct Hupdate as (db'&Hu&Hw); [reflexivity|]); rewrite Hu; cbn; eauto.
  - destruct observation as [id b|id b| | |]; cbn in Hd |- *; try fold (exact_step step id b);
      repeat case_match; simplify_eq; try done; bool_props; try congruence.
    all: match goal with
         | H : ?a && ?b = false, Ha : ?a = true, Hb : ?b = true |- _ => by rewrite Ha, Hb in H
         end.
Qed.

Lemma apply_submission_represented submission :
  match decide_submission s index step submission with
  | Err e => all_accepted (take index s.(lock_steps)) = true →
      apply_lock_submission db s.(lock_intent) index step submission = Err e
  | Ok (step', replay) =>
      ∃ db', apply_lock_submission db s.(lock_intent) index step submission
             = Ok (db', step', replay) ∧ wrote st s index step' db'
  end.
Proof using All.
  pose proof wrote_same as Hsame. destruct (Hok _ _ Hs) as [Hso _].
  assert (Hsh : lock_state step = Lock_Unknown → lock_attempt_count step = 1 ∧ lock_revision step = 2).
  { assert (step_ok step) as (_&Hv&_) by (eapply Forall_lookup_1; [apply Hso|done]).
    intros Hu. unfold validate_step_shape in Hv. rewrite Hu in Hv. case_match eqn:Hc; [|done].
    by bool_props. }
  pose proof (λ step' replay, decide_submission_edge s index step submission step' replay Hso Hi)
    as Hedge.
  unfold decide_submission in *. destruct (all_accepted _); [|done]. cbn [andb] in *.
  set (right_id := match submission with Submission_Accepted _ => _ | _ => true end) in *.
  assert (match submission with
          | Submission_Accepted expected_id =>
              expected_id !=? ExpectedId_as_str (expected_public_id (lock_step step))
          | Submission_Unknown => false
          end = negb right_id) as Hid by by destruct submission.
  unfold apply_lock_submission. rewrite Hid. destruct right_id; [|done]. cbn [negb].
  destruct (lock_state step) eqn:Hst; cbn; [done| | |done].
  - unfold set_started_result.
    edestruct (wrote_update (move_step step Lock_Unknown 1 2 (Some submission))) as (db'&Hu&Hw);
      [by eapply Hedge|done|]. rewrite Hu. cbn. eauto.
  - destruct (Hsh eq_refl) as [-> ->]. cbn. case_bool_decide; eauto.
Qed.
End located.

Lemma reconcile_refines db st intent id observation :
  represents db st → journal_ok st →
  call_refines (lock_call db (LockReconcile intent id observation))
               (spec_call st (LockReconcile intent id observation)).
Proof using sha256_len.
  intros Hrep Hok. unfold call_refines, lock_call, spec_call, reconcile_step.
  rewrite (locate_represented db st intent id _ Hrep Hok).
  destruct (find_step_of st intent id) as [[s [index step]]|e] eqn:Hf; [|done].
  apply find_step_of_Ok in Hf as (Hs&<-&Hi&_). cbn [result_bind fst snd].
  destruct (Hok _ _ Hs) as [Hso _].
  assert ((lock_state step ==? Lock_Accepted)
          && negb (all_accepted (take index (lock_steps s))) = false) as ->.
  { case_bool_decide as Ha; [|done]. by rewrite (ok_prefix _ Hso index step). }
  pose proof (apply_observation_represented db st s index step Hrep Hok Hs Hi observation) as H.
  destruct (decide_observation s index step observation) as [[step' send]|e].
  - destruct H as (db'&->&Hr'&Ho'&Hl). cbn [result_bind]. rewrite Hl. cbn [result_bind].
    rewrite bool_decide_eq_true_2 by done. by destruct send.
  - by rewrite H.
Qed.

Lemma record_refines db st intent id submission :
  represents db st → journal_ok st →
  call_refines (lock_call db (LockRecord intent id submission))
               (spec_call st (LockRecord intent id submission)).
Proof using sha256_len.
  intros Hrep Hok. unfold call_refines, lock_call, spec_call, record_submission_result, find_step_of.
  destruct (BtcMakerLockIntentV1_validate intent) as [[]|]; [|done]. cbn [result_bind].
  unfold require_matching_intent. rewrite (load_represented db st) by done. cbn [result_bind].
  fold (swap_of intent).
  destruct (st !! swap_of intent) as [s|] eqn:Hs; [|done]. cbn [result_bind ok_or].
  case_bool_decide as Hint; [|done]. cbn [negb result_bind orb]. subst intent.
  destruct (lock_closed_revision s); [done|]. cbn [not_null is_null negb]. unfold step_index.
  destruct (position_of id (lock_steps s)) as [index|] eqn:Hn; [|done]. cbn [result_bind ok_or].
  destruct (position_of_lookup _ _ _ Hn) as (step&Hi&_). rewrite Hi. cbn [result_bind ok_or].
  pose proof (apply_submission_represented db st s index step Hrep Hok Hs Hi submission) as H.
  destruct (all_accepted (take index (lock_steps s))) eqn:Hall; cbn [negb].
  2: { assert (decide_submission s index step submission = Err BtcMakerLockConflict) as ->; [|done].
       unfold decide_submission. by rewrite Hall. }
  destruct (decide_submission s index step submission) as [[step' replay]|e].
  - destruct H as (db'&->&Hr'&Ho'&Hl). cbn [result_bind]. rewrite Hl. cbn [result_bind].
    by rewrite bool_decide_eq_true_2.
  - by rewrite H by done.
Qed.

(** ** Creating an intent *)

Lemma fresh_step_ok step : step_wf step → step_ok (fresh_lock_step step).
Proof. done. Qed.

Lemma insert_steps_represented (id : SwapId) steps : ∀ db n,
  is_Some (db.(intent_rows) !! (SwapId_as_str id, "maker")) →
  (∀ i row, db.(lock_rows) !! (SwapId_as_str id, "maker", i) = Some row →
     i < Z.of_nat n ∧ ∀ t, t ∈ steps → row.(row_step_id) ≠ t.(plan_step_id).(StepId_as_str)) →
  Forall step_wf steps → NoDup (map plan_step_id steps) → (n + length steps ≤ 32)%nat →
  ∃ rows, insert_steps sha256 db id (Z.of_nat n) steps
          = Ok {| intent_rows := db.(intent_rows); lock_rows := rows |} ∧
    ∀ swap i, rows !! (swap, "maker", i) =
      if bool_decide (swap = SwapId_as_str id) && (Z.of_nat n <=? i)
      then encode_lock_step sha256 ∘ fresh_lock_step <$> steps !! Z.to_nat (i - Z.of_nat n)
      else db.(lock_rows) !! (swap, "maker", i).
Proof using sha256_len.
  induction steps as [|step steps IH]; intros db n Hhead Hrows Hwf Hnd Hlen.
  { exists db.(lock_rows). split; [by destruct db|]. intros swap i.
    case_bool_decide as Hsw; [subst|done]. destruct (Z.leb_spec (Z.of_nat n) i); [|done]. cbn.
    destruct (lock_rows db !! _) eqn:E; [|done]. apply Hrows in E as [? _]. lia. }
  apply Forall_cons in Hwf as [Hw Hwf]. apply list.NoDup_cons in Hnd as [Hni Hnd]. cbn in Hlen.
  set (row := encode_lock_step sha256 (fresh_lock_step step)).
  set (db' := {| intent_rows := db.(intent_rows);
                 lock_rows := <[(SwapId_as_str id, "maker", Z.of_nat n) := row]> db.(lock_rows) |}).
  assert (Hins : insert_lock_step db (SwapId_as_str id, "maker", Z.of_nat n) row = Ok db').
  { unfold insert_lock_step. cbn [fst]. destruct Hhead as [h ->].
    rewrite (proj2 (sql_insert_Some _ _ _ _ _ (lock_rows db'))); [done|]. split_and!; [done|..].
    - destruct (lock_rows db !! _) eqn:E; [|done]. apply Hrows in E as [? _]. lia.
    - by apply (lock_step_check_ok _ n (fresh_lock_step step)); [apply fresh_step_ok|lia].
    - apply not_true_iff_false. intros ([[sw ro] i]&r&Hr&[= -> -> Heq])%unique_taken_true.
      apply Hrows in Hr as [_ Hne]. by apply (Hne step (list_elem_of_here _ _)). }
  destruct (IH db' (S n)) as (rows&Hrest&Hl); try done; [|lia|].
  { intros i r Hi. unfold db' in Hi. cbn [lock_rows] in Hi.
    apply lookup_insert_Some in Hi as [[[= <-] <-]|[_ Hr]].
    - split; [lia|]. intros t Ht Heq. apply Hni. apply list_elem_of_fmap. exists t. split; [|done].
      cbn in Heq. destruct (plan_step_id step), (plan_step_id t). cbn in Heq. by subst.
    - destruct (Hrows _ _ Hr) as [? Hne]. split; [lia|]. intros t Ht. apply Hne. by constructor. }
  exists rows. split.
  - cbn [insert_steps]. destruct (Z.ltb_spec i64_max (Z.of_nat n)); [unfold i64_max in *; lia|].
    change {| row_step_id := _ |} with row. rewrite Hins. cbn [result_bind].
    by replace (Z.of_nat n + 1) with (Z.of_nat (S n)) by lia.
  - intros swap i. rewrite Hl. unfold db'. cbn [lock_rows]. case_bool_decide as Hsw; [subst|by rewrite lookup_insert_ne by congruence].
    cbn [andb]. destruct (Z.leb_spec (Z.of_nat (S n)) i), (Z.leb_spec (Z.of_nat n) i); try lia.
    + replace (Z.to_nat (i - Z.of_nat n)) with (S (Z.to_nat (i - Z.of_nat (S n)))) by lia. done.
    + replace i with (Z.of_nat n) by lia. rewrite Z.sub_diag.
      by rewrite lookup_insert_eq.
    + by rewrite lookup_insert_ne by (intros [= ?]; lia).
Qed.

Lemma fresh_intent_ok intent :
  BtcMakerLockIntentV1_validate intent = Ok tt → Forall step_wf intent.(lock_plan).(plan_steps) →
  blen intent.(lock_agreement_commitment) = 32 → snapshot_ok (fresh_intent intent).
Proof.
  intros Hv Hwf Hl. split; cbn; try done.
  - apply Forall_forall. intros s (x&->&Hx)%list_elem_of_fmap. apply fresh_step_ok.
    by eapply Forall_forall in Hwf.
  - by rewrite map_map, map_id.
  - intros i step Hi Ha. exfalso. change (map fresh_lock_step) with (fmap (M := list) fresh_lock_step) in Hi.
    rewrite list_lookup_fmap in Hi. by apply fmap_Some in Hi as (x&_&->).
  - by left.
Qed.

Lemma intent_check_ok swap s :
  snapshot_ok s → intent_check (swap, "maker") (encode_header sha256 s) = true.
Proof using sha256_len.
  intros Hs. destruct (intent_validate_Ok _ (ok_intent _ Hs)) as (_&Hp&Hz&Hplan).
  apply plan_new_Ok in Hplan as (_&_&_&_&Hplan).
  unfold intent_check, encode_header, plan_commitment, len_is. cbn.
  rewrite Hp, (ok_agreement _ Hs), sha256_len. rewrite Hplan at 1. cbn.
  rewrite (bool_decide_eq_false_2 (lock_agreement_commitment (lock_intent s) = zero32))
    by (intros H; rewrite H in Hz; done).
  destruct (ok_closed _ Hs) as [Hc|[Hc _]]; by rewrite Hc.
Qed.

(** The rows of a new intent. *)
Lemma create_rows db st intent :
  represents db st → journal_ok st → st !! swap_of intent = None →
  BtcMakerLockIntentV1_validate intent = Ok tt → Forall step_wf intent.(lock_plan).(plan_steps) →
  blen intent.(lock_agreement_commitment) = 32 →
  ∃ db1 db2,
    insert_intent db (swap_of intent, "maker") (encode_header sha256 (fresh_intent intent)) = Ok db1 ∧
    insert_steps sha256 db1 intent.(lock_swap_id) 0 intent.(lock_plan).(plan_steps) = Ok db2 ∧
    represents db2 (<[swap_of intent := fresh_intent intent]> st).
Proof using sha256_len.
  intros Hrep Hok Hnone Hv Hwf Hl. pose proof (fresh_intent_ok intent Hv Hwf Hl) as Hfresh.
  destruct (intent_validate_Ok _ Hv) as (_&_&_&Hplan).
  apply plan_new_Ok in Hplan as (_&Hlen&Hnd&_).
  set (db1 := {| intent_rows := <[(swap_of intent, "maker") :=
                   encode_header sha256 (fresh_intent intent)]> db.(intent_rows);
                 lock_rows := db.(lock_rows) |}).
  assert (Hno : db.(intent_rows) !! (swap_of intent, "maker") = None)
    by (rewrite (proj1 Hrep), Hnone; done).
  assert (Hrows : ∀ i, lock_rows db !! (swap_of intent, "maker", i) = None)
    by (intros i; rewrite (proj2 Hrep); unfold step_row_of; by rewrite Hnone).
  destruct (insert_steps_represented (lock_swap_id intent) (plan_steps (lock_plan intent)) db1 0)
    as (rows&Hins&Hl'); try done.
  { exists (encode_header sha256 (fresh_intent intent)). apply lookup_insert_eq. }
  { intros i row Hi. cbn in Hi. fold (swap_of intent) in Hi. by rewrite Hrows in Hi. }
  { unfold blen, MAX_PLAN_STEPS in Hlen. cbn. lia. }
  exists db1, {| intent_rows := intent_rows db1; lock_rows := rows |}. split_and!; [|done|].
  - unfold insert_intent. rewrite (proj2 (sql_insert_Some _ _ _ _ _ (intent_rows db1))); [done|].
    split_and!; [done..|by apply intent_check_ok|]. apply not_true_iff_false.
    intros (k&row&Hk&->)%unique_taken_true. congruence.
  - split; cbn [intent_rows lock_rows].
    + intros swap. unfold db1. cbn [intent_rows]. destruct (decide (swap = swap_of intent)) as [->|Hne].
      * by rewrite !lookup_insert_eq.
      * rewrite !lookup_insert_ne by congruence. apply Hrep.
    + intros swap i. rewrite Hl'. fold (swap_of intent). unfold step_row_of.
      case_bool_decide as Hsw; [subst; rewrite lookup_insert_eq|].
      * cbn [andb]. change (Z.of_nat 0) with 0. rewrite Z.sub_0_r.
        destruct (Z.leb_spec 0 i); cbn; [|apply Hrows].
        change (map fresh_lock_step) with (fmap (M := list) fresh_lock_step).
        rewrite list_lookup_fmap. by destruct (_ !! Z.to_nat i).
      * cbn [andb]. rewrite lookup_insert_ne by congruence. apply Hrep.
Qed.

Lemma create_refines db st intent :
  represents db st → journal_ok st → call_typed (LockCreate intent) →
  call_refines (lock_call db (LockCreate intent)) (spec_call st (LockCreate intent)).
Proof using sha256_len.
  intros Hrep Hok [Hwf Hl]. unfold call_refines, lock_call, spec_call, create_intent.
  destruct (BtcMakerLockIntentV1_validate intent) as [[]|] eqn:Hv; [|done]. cbn [result_bind].
  rewrite (load_represented db st) by done. cbn [result_bind]. fold (swap_of intent).
  destruct (st !! swap_of intent) as [s|] eqn:Hs; [done|].
  destruct (create_rows db st intent) as (db1&db2&H1&H2&Hrep'); try done.
  assert (Hok' : journal_ok (<[swap_of intent := fresh_intent intent]> st))
    by (apply journal_ok_set; [done|by apply fresh_intent_ok|done]).
  unfold encode_header in H1. cbn [fresh_intent lock_intent lock_closed_revision] in H1.
  rewrite (proj1 (proj2 (intent_validate_Ok _ Hv))) in H1 |- *. cbn [result_bind lock_revision_to_sql].
  rewrite revision_sql_small by lia. cbn [result_bind]. rewrite H1. cbn [result_bind].
  rewrite H2. cbn [result_bind]. rewrite (load_represented db2 _ _ Hrep' Hok').
  fold (swap_of intent). rewrite lookup_insert_eq. cbn [result_bind ok_or].
  cbn [fresh_intent lock_intent lock_closed_revision lock_steps not_null is_null negb].
  rewrite bool_decide_eq_true_2 by done. cbn [negb orb].
  assert (forallb step_untouched (map fresh_lock_step (plan_steps (lock_plan intent))) = true) as ->;
    [|done].
  apply forallb_forall. by intros x (y&<-&_)%in_map_iff.
Qed.

Lemma close_refines db st id agreement predecessor committed :
  represents db st → journal_ok st →
  call_refines (lock_call db (LockClose id agreement predecessor committed))
               (spec_call st (LockClose id agreement predecessor committed)).
Proof using sha256_len.
  intros Hrep Hok. unfold call_refines, lock_call, spec_call, close_ready_btc_maker_lock_intent.
  unfold MAKER_LOCK_PREDECESSOR_REVISION.
  destruct (Z.eqb_spec predecessor 1) as [->|]; [|done]. cbn [negb andb orb].
  replace (Z.min (1 + 1) u64_max) with 2 by (unfold u64_max; lia).
  destruct (Z.eqb_spec committed 2) as [->|]; [|done]. cbn [negb].
  rewrite (load_represented db st) by done. cbn [result_bind].
  destruct (st !! SwapId_as_str id) as [s|] eqn:Hs; [|done]. cbn [result_bind ok_or].
  destruct (Hok _ _ Hs) as [Hso Hid].
  destruct (intent_validate_Ok _ (ok_intent _ Hso)) as (Hrole&Hpred&_). rewrite Hrole, Hpred.
  rewrite (bool_decide_eq_true_2 (Participant_Maker = Participant_Maker)) by done. cbn.
  case_bool_decide as Hagr; [|done]. cbn.
  destruct (all_accepted (lock_steps s)) eqn:Hall; [|done]. cbn.
  set (s' := {| lock_intent := lock_intent s |}).
  assert (Hso' : snapshot_ok s') by (split; try apply Hso; by right).
  destruct (ok_closed _ Hso) as [Hc|[Hc _]]; rewrite Hc; cbn.
  - rewrite (bool_decide_eq_false_2 (None = Some 2)) by done.
    rewrite !revision_sql_small by lia. cbn. unfold sql_update. rewrite (proj1 Hrep), Hs. cbn.
    rewrite Hpred, Hc. cbn.
    pose proof (intent_check_ok (SwapId_as_str id) s' Hso') as Hck.
    unfold encode_header in Hck. cbn in Hck. rewrite Hpred in Hck. rewrite Hck. cbn.
    split_and!; [split|by apply journal_ok_set|done]; cbn.
    + intros swap. destruct (decide (swap = SwapId_as_str id)) as [->|Hne].
      * rewrite !lookup_insert_eq. cbn. unfold encode_header, s'. cbn. by rewrite Hpred.
      * rewrite !lookup_insert_ne by congruence. apply Hrep.
    + intros swap i. rewrite (proj2 Hrep). unfold step_row_of.
      destruct (decide (swap = SwapId_as_str id)) as [->|Hne].
      * by rewrite lookup_insert_eq, Hs.
      * by rewrite lookup_insert_ne by congruence.
  - assert (s' = s) as -> by (unfold s'; destruct s; cbn in *; by subst).
    rewrite insert_id by done. done.
Qed.

Lemma call_refine db st c :
  represents db st → journal_ok st → call_typed c → call_refines (lock_call db c) (spec_call st c).
Proof using sha256_len.
  intros Hrep Hok Hc. destruct c;
    [by apply create_refines|by apply reconcile_refines|by apply record_refines|by apply close_refines].
Qed.

Definition lock_after (calls : list (LockCall * Fate)) : lock_db :=
  run_calls lock_call empty_lock_db calls.
Definition spec_after (calls : list (LockCall * Fate)) : journal := run_calls spec_call ∅ calls.

Abbreviation typed calls := (Forall (λ c : LockCall * Fate, call_typed c.1) calls).

Lemma represents_empty : represents empty_lock_db ∅.
Proof. split; intros; cbn; by rewrite ?lookup_empty. Qed.

Lemma journal_ok_empty : journal_ok ∅.
Proof. intros swap s H. by rewrite lookup_empty in H. Qed.

Lemma run_refines db st calls :
  typed calls → represents db st → journal_ok st →
  represents (run_calls lock_call db calls) (run_calls spec_call st calls) ∧
  journal_ok (run_calls spec_call st calls).
Proof using sha256_len.
  intros HP. revert db st. induction HP as [|[c f] calls Hc _ IH]; intros db st Hrep Hok; [done|].
  cbn. destruct (call_refine db st c Hrep Hok Hc) as (Hrep'&Hok'&_).
  unfold call_next. destruct f; cbn; auto.
Qed.

Lemma after_refines calls :
  typed calls → represents (lock_after calls) (spec_after calls) ∧ journal_ok (spec_after calls).
Proof using sha256_len.
  intros H. apply run_refines; [done|apply represents_empty|apply journal_ok_empty].
Qed.

Lemma committed_refines calls n :
  typed calls →
  committed_at lock_call empty_lock_db calls n = committed_at spec_call ∅ calls n.
Proof using sha256_len.
  intros HP. unfold committed_at. destruct (calls !! n) as [[c f]|] eqn:Hn; [|done].
  assert (Hc : call_typed c) by exact (Forall_lookup_1 _ _ _ _ HP Hn).
  destruct (after_refines (take n calls)) as [Hrep Hok]; [by apply Forall_take|].
  destruct (call_refine _ _ c Hrep Hok Hc) as (_&_&Hout). unfold lock_after, spec_after in Hout.
  by rewrite Hout.
Qed.

(** ** What runs preserve *)

Definition snap_grow (s s' : BtcMakerLockIntentSnapshot) : Prop :=
  s'.(lock_intent) = s.(lock_intent) ∧
  (∀ i step, s.(lock_steps) !! i = Some step →
     ∃ step', s'.(lock_steps) !! i = Some step' ∧ step'.(lock_step) = step.(lock_step) ∧
       (step.(lock_state) = Lock_Accepted → step' = step) ∧
       (step.(lock_state) ≠ Lock_Prepared → step'.(lock_state) ≠ Lock_Prepared)) ∧
  (s.(lock_closed_revision) ≠ None → s' = s).

Definition spec_grow (st st' : journal) : Prop :=
  ∀ swap s, st !! swap = Some s → ∃ s', st' !! swap = Some s' ∧ snap_grow s s'.

#[global] Instance snap_grow_preorder : PreOrder snap_grow.
Proof.
  split.
  - intros s. split_and!; [done| |done]. intros i step Hi. by exists step.
  - intros s s' s'' (H1&H2&H3) (H1'&H2'&H3'). split_and!; [congruence| |].
    + intros i step Hi. destruct (H2 i step Hi) as (x&Hx&Hxs&Hxa&Hxp).
      destruct (H2' i x Hx) as (y&Hy&Hys&Hya&Hyp). exists y. split_and!; [done|congruence| |auto].
      intros Ha. specialize (Hxa Ha). subst x. auto.
    + intros Hc. specialize (H3 Hc). subst s'. auto.
Qed.

#[global] Instance spec_grow_preorder : PreOrder spec_grow.
Proof.
  split.
  - intros st swap s Hs. by exists s.
  - intros st st' st'' H H' swap s Hs. destruct (H swap s Hs) as (s'&Hs'&Hg).
    destruct (H' swap s' Hs') as (s''&Hs''&Hg'). exists s''. split; [done|by trans s'].
Qed.

Lemma spec_grow_set st swap s s' :
  st !! swap = Some s → snap_grow s s' → spec_grow st (<[swap := s']> st).
Proof.
  intros Hs Hg swap' x Hx. destruct (decide (swap' = swap)) as [->|Hne].
  - simplify_eq. exists s'. split; [apply lookup_insert_eq|done].
  - exists x. by rewrite lookup_insert_ne by congruence.
Qed.

Lemma snap_grow_edge s index step step' :
  snapshot_ok s → s.(lock_steps) !! index = Some step → step_edge s index step step' →
  snap_grow s (set_lock_step s index step').
Proof.
  intros Hso Hi (Hst&_&Hacc&Hprep&_). split_and!; [done| |].
  - cbn. intros j x Hj. destruct (decide (j = index)) as [->|Hne].
    + simplify_eq. exists step'. split; [|done]. apply list_lookup_insert_eq. by eapply lookup_lt_Some.
    + exists x. by rewrite list_lookup_insert_ne by done.
  - intros Hc. destruct (ok_closed _ Hso) as [?|[_ Ha]]; [done|].
    rewrite Hacc by (by eapply all_accepted_true in Hi). by apply set_lock_step_same.
Qed.

(** The states of a run: represented, so that every operation is defined. *)
Definition run_inv (st : journal) : Prop := ∃ db, represents db st ∧ journal_ok st.

Lemma run_inv_empty : run_inv ∅.
Proof. exists empty_lock_db. split; [apply represents_empty|apply journal_ok_empty]. Qed.

Lemma spec_call_inv st c : call_typed c → run_inv st → run_inv (spec_call st c).1.
Proof using sha256_len.
  intros Hc (db&Hrep&Hok). destruct (call_refine db st c Hrep Hok Hc) as (Hr&Ho&_).
  by exists (lock_call db c).1.
Qed.

Lemma spec_call_grow st c : call_typed c → run_inv st → spec_grow st (spec_call st c).1.
Proof.
  intros Hc (db&_&Hok). unfold spec_call. destruct c as [i|i id o|i id sub|sw a p q].
  - destruct (BtcMakerLockIntentV1_validate i); [|done]. cbn.
    destruct (st !! swap_of i) as [s|] eqn:Hs; [done|]. cbn. intros swap x Hx. exists x.
    split; [|done]. rewrite lookup_insert_ne by congruence. done.
  - destruct (find_step_of st i id) as [[s [index step]]|] eqn:Hf; [|done]. cbn.
    apply find_step_of_Ok in Hf as (Hs&<-&Hi&_). destruct (Hok _ _ Hs) as [Hso _].
    destruct (decide_observation s index step o) as [[step' send]|] eqn:Hd; [|done]. cbn.
    apply (spec_grow_set _ _ s); [done|]. eapply snap_grow_edge; [done..|].
    by eapply decide_observation_edge.
  - destruct (BtcMakerLockIntentV1_validate i); [|done]. cbn -[find_step_of].
    destruct (st !! swap_of i) as [s0|] eqn:Hs0; [|done]. cbn -[find_step_of].
    destruct (_ || _); [done|].
    destruct (find_step_of st i id) as [[s [index step]]|] eqn:Hf; [|done]. cbn.
    apply find_step_of_Ok in Hf as (Hs&<-&Hi&_). destruct (Hok _ _ Hs) as [Hso _].
    destruct (decide_submission s index step sub) as [[step' replay]|] eqn:Hd; [|done]. cbn.
    apply (spec_grow_set _ _ s); [done|]. eapply snap_grow_edge; [done..|].
    by eapply decide_submission_edge.
  - destruct (negb _); [done|]. destruct (st !! SwapId_as_str sw) as [s|] eqn:Hs; [|done]. cbn.
    destruct (_ && _); [|done]. cbn. apply (spec_grow_set _ _ s); [done|].
    destruct (Hok _ _ Hs) as [Hso _]. split_and!; [done|intros j x Hx; by exists x|].
    intros Hcl. destruct (ok_closed _ Hso) as [?|[Hcl' _]]; [done|]. destruct s; cbn in *. by subst.
Qed.

Lemma position_of_map id steps steps' :
  map lock_step steps = map lock_step steps' → position_of id steps = position_of id steps'.
Proof.
  revert steps'. induction steps as [|s steps IH]; intros [|s' steps'] H; try done. cbn in *.
  injection H as -> H. by rewrite (IH _ H).
Qed.

(** What a committed authorization of a send found and left. *)
Lemma submit_cases st i id o step' :
  journal_ok st → (spec_call st (LockReconcile i id o)).2 = Ok (Out_Decision (SubmitOnce step')) →
  ∃ s index step, st !! swap_of i = Some s ∧ s.(lock_intent) = i ∧
    s.(lock_steps) !! index = Some step ∧ position_of id s.(lock_steps) = Some index ∧
    step.(lock_step).(plan_step_id) = id ∧ step.(lock_state) = Lock_Prepared ∧
    s.(lock_closed_revision) = None ∧ all_accepted (take index s.(lock_steps)) = true ∧
    step' = move_step step Lock_Started 1 1 None ∧
    (spec_call st (LockReconcile i id o)).1 = <[swap_of i := set_lock_step s index step']> st.
Proof.
  intros Hok. unfold spec_call.
  destruct (find_step_of st i id) as [[s [index step]]|] eqn:Hf; [|done]. cbn [result_bind].
  apply find_step_of_Ok in Hf as (Hs&Hint&Hi&Hpos&Hid).
  destruct (decide_observation s index step o) as [[x send]|] eqn:Hd; [|done]. cbn.
  destruct send; [|done]. intros [= ->]. exists s, index, step.
  assert (Hsend : is_null (lock_closed_revision s) && all_accepted (take index (lock_steps s))
                  && (lock_state step ==? Lock_Prepared) = true
                  ∧ step' = move_step step Lock_Started 1 1 None).
  { destruct o; cbn in Hd; repeat case_match; simplify_eq; done. }
  destruct Hsend as [Hc ->]. bool_props. split_and!; try done.
  by destruct (lock_closed_revision s).
Qed.
End journal.

(** ** Properties *)

Abbreviation typed calls := (Forall (λ c : LockCall * Fate, call_typed c.1) calls).
Abbreviation committed sha256 := (committed_at (lock_call sha256) empty_lock_db).

(** The SQL journal refines the abstract journal: on every run, with calls
    lost before or after their commit, each committed call returns what the
    table-free decision returns, and loading an intent gives the abstract
    snapshot, so that no reachable database is reported corrupt. *)
Theorem lock_journal_refines sha256 calls :
  (∀ b, blen (sha256 b) = 32) → typed calls →
  (∀ n, committed sha256 calls n = committed_at spec_call ∅ calls n) ∧
  ∀ id, load_intent sha256 (lock_after sha256 calls) id
        = Ok (spec_after calls !! SwapId_as_str id).
Proof.
  intros Hsha Htyped. split; [intros n; by apply committed_refines|].
  intros id. destruct (after_refines sha256 Hsha calls Htyped). by apply load_represented.
Qed.

(** The state before a committed call of a run. *)
Lemma committed_state sha256 calls n c o :
  (∀ b, blen (sha256 b) = 32) → typed calls → committed sha256 calls n = Some (c, o) →
  call_typed c ∧ run_inv sha256 (spec_after (take n calls)) ∧
  (spec_call (spec_after (take n calls)) c).2 = o ∧
  ∀ m, (n < m)%nat → spec_grow (spec_call (spec_after (take n calls)) c).1 (spec_after (take m calls)).
Proof.
  intros Hsha Htyped Hn. rewrite committed_refines in Hn by done.
  assert (Hgrow := λ m, committed_grow spec_call call_typed (run_inv sha256)
    (spec_call_inv sha256 Hsha) spec_grow ∅ calls n m c o (spec_call_grow sha256) Htyped
    (run_inv_empty sha256) Hn).
  destruct (Hgrow (S n) ltac:(lia)) as (Hc&Hi&Ho&_). split_and!; [done..|].
  intros m Hm. by apply (Hgrow m Hm).
Qed.

Lemma submit_not_before sha256 calls n m i j id o o' s s' :
  (∀ b, blen (sha256 b) = 32) → typed calls → swap_of i = swap_of j →
  committed sha256 calls n = Some (LockReconcile i id o, Ok (Out_Decision (SubmitOnce s))) →
  committed sha256 calls m = Some (LockReconcile j id o', Ok (Out_Decision (SubmitOnce s'))) →
  ¬ (n < m)%nat.
Proof.
  intros Hsha Htyped Hsw Hn Hm Hlt.
  destruct (committed_state _ _ _ _ _ Hsha Htyped Hn) as (_&(db&_&Hok)&Ho&Hgrow).
  destruct (committed_state _ _ _ _ _ Hsha Htyped Hm) as (_&(db'&_&Hok')&Ho'&_).
  destruct (submit_cases _ _ _ _ _ Hok Ho) as (x&k&t&Hx&_&Ht&Hpos&_&_&_&_&->&Hnext).
  destruct (submit_cases _ _ _ _ _ Hok' Ho') as (y&k'&t'&Hy&_&Ht'&Hpos'&_&Hprep&_).
  specialize (Hgrow m Hlt). rewrite Hnext in Hgrow.
  destruct (Hgrow (swap_of i) _ (lookup_insert_eq _ _ _)) as (y'&Hy'&Hint&Hsteps&_).
  rewrite Hsw, Hy in Hy'. injection Hy' as <-.
  destruct (Hsteps k (move_step t Lock_Started 1 1 None)) as (z&Hz&_&_&Hne).
  { cbn. apply list_lookup_insert_eq. by eapply lookup_lt_Some. }
  assert (k' = k) as ->.
  { destruct (Hok _ _ Hx) as [Hxo _]. destruct (Hok' _ _ Hy) as [Hyo _].
    cut (Some k' = Some k); [by intros [= ->]|]. rewrite <- Hpos, <- Hpos'. apply position_of_map.
    rewrite (ok_plan _ Hxo), (ok_plan _ Hyo). cbn in Hint. by rewrite Hint. }
  rewrite Hz in Ht'. injection Ht' as ->. by apply Hne.
Qed.

(** A step of a maker's lock is sent at most once: over any run no two
    committed reconciliations of the same step of a swap are told to submit
    it. *)
Theorem lock_submits_once sha256 calls n m i j id o o' s s' :
  (∀ b, blen (sha256 b) = 32) → typed calls → swap_of i = swap_of j →
  committed sha256 calls n = Some (LockReconcile i id o, Ok (Out_Decision (SubmitOnce s))) →
  committed sha256 calls m = Some (LockReconcile j id o', Ok (Out_Decision (SubmitOnce s'))) →
  n = m.
Proof.
  intros Hsha Htyped Hsw Hn Hm.
  pose proof (submit_not_before _ _ _ _ _ _ _ _ _ _ _ Hsha Htyped Hsw Hn Hm).
  pose proof (submit_not_before _ _ _ _ _ _ _ _ _ _ _ Hsha Htyped (eq_sym Hsw) Hm Hn). lia.
Qed.

(** A committed call before position [n] that observed exactly the step's bytes
    under the step's identity on the chain. *)
Definition observed_before (sha256 : bytes → bytes) (calls : list (LockCall * Fate)) (n : nat)
    (swap : string) (t : PublicEffectStepV1) : Prop :=
  ∃ m i d, (m < n)%nat ∧ swap_of i = swap ∧
    committed sha256 calls m =
      Some (LockReconcile i t.(plan_step_id)
              (PresentExact t.(expected_public_id).(ExpectedId_as_str)
                            t.(exact_bytes).(ExactBytes_as_slice)), Ok (Out_Decision d)).

(** Where an accepted step of a journal with one step replaced comes from. *)
Lemma accepted_in_set (st : journal) swap0 s index step1 swap s' j t' :
  st !! swap0 = Some s → <[swap0 := set_lock_step s index step1]> st !! swap = Some s' →
  s'.(lock_steps) !! j = Some t' → t'.(lock_state) = Lock_Accepted →
  (∃ s t, st !! swap = Some s ∧ s.(lock_steps) !! j = Some t ∧ t.(lock_state) = Lock_Accepted ∧
     t.(lock_step) = t'.(lock_step)) ∨ (swap = swap0 ∧ j = index ∧ t' = step1).
Proof.
  intros Hs [[<- <-]|[Hne Hs']]%lookup_insert_Some Hj Ha; [|by left; eauto 6].
  cbn in Hj. destruct (decide (j = index)) as [->|Hne].
  - right. assert ((index < length (lock_steps s))%nat)
      by (apply lookup_lt_Some in Hj; by rewrite length_insert in Hj).
    rewrite list_lookup_insert_eq in Hj by done. by simplify_eq.
  - left. rewrite list_lookup_insert_ne in Hj by done. eauto 6.
Qed.

Lemma decide_observation_accepts s index step o step' send :
  decide_observation s index step o = Ok (step', send) → step'.(lock_state) = Lock_Accepted →
  step' = step ∨
  o = PresentExact step'.(lock_step).(expected_public_id).(ExpectedId_as_str)
        step'.(lock_step).(exact_bytes).(ExactBytes_as_slice).
Proof.
  intros Hd Ha. destruct o; cbn in Hd; unfold exact_step in Hd;
    repeat case_match; simplify_eq; auto; bool_props; subst; auto.
Qed.

Lemma decide_submission_accepts s index step o step' replay :
  decide_submission s index step o = Ok (step', replay) → step'.(lock_state) = Lock_Accepted →
  step' = step.
Proof. intros Hd Ha. unfold decide_submission in Hd. repeat case_match; simplify_eq; done. Qed.

(** A call that makes a step accepted observed it exactly. *)
Lemma spec_accepts (st : journal) c swap s' j t' :
  journal_ok st → (spec_call st c).1 !! swap = Some s' → s'.(lock_steps) !! j = Some t' →
  t'.(lock_state) = Lock_Accepted →
  (∃ s t, st !! swap = Some s ∧ s.(lock_steps) !! j = Some t ∧ t.(lock_state) = Lock_Accepted ∧
     t.(lock_step) = t'.(lock_step)) ∨
  ∃ i d, swap_of i = swap ∧
    c = LockReconcile i t'.(lock_step).(plan_step_id)
          (PresentExact t'.(lock_step).(expected_public_id).(ExpectedId_as_str)
                        t'.(lock_step).(exact_bytes).(ExactBytes_as_slice)) ∧
    (spec_call st c).2 = Ok (Out_Decision d).
Proof.
  intros Hok Hs' Hj Ha. unfold spec_call in *. destruct c as [i|i id o|i id sub|sw a p q].
  - left. destruct (BtcMakerLockIntentV1_validate i); [|eauto 6]. cbn in Hs'.
    destruct (st !! swap_of i) as [s|] eqn:Hs; [eauto 6|]. cbn in Hs'.
    apply lookup_insert_Some in Hs' as [[<- <-]|[_ Hs']]; [|eauto 6]. cbn in Hj.
    change (map fresh_lock_step) with (fmap (M := list) fresh_lock_step) in Hj.
    rewrite list_lookup_fmap in Hj. by apply fmap_Some in Hj as (x&_&->).
  - destruct (find_step_of st i id) as [[s [index step]]|] eqn:Hf; [|left; eauto 6].
    cbn [result_bind] in *. apply find_step_of_Ok in Hf as (Hs&<-&Hi&_&Hid).
    destruct (decide_observation s index step o) as [[step1 send]|] eqn:Hd; [|left; eauto 6].
    cbn in Hs' |- *. destruct (accepted_in_set _ _ _ _ _ _ _ _ _ Hs Hs' Hj Ha) as [H|(->&->&->)]; [by left|].
    destruct (decide_observation_accepts _ _ _ _ _ _ Hd Ha) as [->| ->]; [left; eauto 6|right].
    destruct (decide_observation_edge _ _ _ _ _ _ (proj1 (Hok _ _ Hs)) Hi Hd) as (Hst&_).
    exists (lock_intent s). eexists. split; [done|]. split; [|done]. by rewrite Hst, <- Hid.
  - left. destruct (BtcMakerLockIntentV1_validate i); [|eauto 6]. cbn -[find_step_of] in Hs'.
    destruct (st !! swap_of i) as [s0|] eqn:Hs0; [|eauto 6]. cbn -[find_step_of] in Hs'.
    destruct (_ || _); [eauto 6|].
    destruct (find_step_of st i id) as [[s [index step]]|] eqn:Hf; [|eauto 6].
    cbn [result_bind] in *. apply find_step_of_Ok in Hf as (Hs&<-&Hi&_).
    destruct (decide_submission s index step sub) as [[step1 replay]|] eqn:Hd; [|eauto 6].
    cbn in Hs'. destruct (accepted_in_set _ _ _ _ _ _ _ _ _ Hs Hs' Hj Ha) as [H|(->&->&->)]; [done|].
    apply decide_submission_accepts in Hd as ->; [|done]. exists s, step. done.
  - left. destruct (negb _); [eauto 6|].
    destruct (st !! SwapId_as_str sw) as [s|] eqn:Hs; [|eauto 6]. cbn in Hs'.
    destruct (_ && _); [|eauto 6]. cbn in Hs'.
    apply lookup_insert_Some in Hs' as [[<- <-]|[_ Hs']]; eauto 6.
Qed.

(** Every accepted step was observed. *)
Lemma accepted_observed sha256 calls n swap s j t :
  (∀ b, blen (sha256 b) = 32) → typed calls →
  spec_after (take n calls) !! swap = Some s → s.(lock_steps) !! j = Some t →
  t.(lock_state) = Lock_Accepted → observed_before sha256 calls n swap t.(lock_step).
Proof.
  intros Hsha Htyped. revert s t. induction n as [|n IH]; intros s t Hs Hj Ha; [done|].
  assert (Hmono : ∀ x, observed_before sha256 calls n swap x → observed_before sha256 calls (S n) swap x).
  { intros x (m&i&d&Hm&H). exists m, i, d. split; [lia|done]. }
  destruct (calls !! n) as [[c f]|] eqn:Hn.
  2: { apply Hmono. eapply IH; [|done..].
       rewrite take_ge in Hs |- * by (apply lookup_ge_None in Hn; lia). done. }
  rewrite (take_S_r _ _ _ Hn) in Hs. unfold spec_after in Hs. rewrite run_calls_app in Hs.
  fold (spec_after (take n calls)) in Hs. cbn in Hs. unfold call_next in Hs. cbn in Hs.
  destruct (after_refines sha256 Hsha (take n calls)) as [_ Hok]; [by apply Forall_take|].
  destruct (decide (f = RolledBack)) as [->|Hf]; [by eapply Hmono, IH|].
  assert (Hs' : (spec_call (spec_after (take n calls)) c).1 !! swap = Some s) by by destruct f.
  destruct (spec_accepts _ _ _ _ _ _ Hok Hs' Hj Ha) as [(s0&t0&Hs0&Ht0&Ha0&<-)|(i&d&Hsw&->&Ho)].
  - by eapply Hmono, IH.
  - exists n, i, d. split; [lia|]. split; [done|]. rewrite committed_refines by done.
    unfold committed_at. rewrite Hn. fold (spec_after (take n calls)). rewrite Ho. by destruct f.
Qed.

(** Sends follow the plan behind exact observations: a step is submitted
    only when it is a step of the durable intent, with exactly the intent's
    bytes, and every step before it in the plan was observed on the chain with
    its exact identity and bytes by an earlier committed call. *)
Theorem lock_sends_in_order sha256 calls n i id o s :
  (∀ b, blen (sha256 b) = 32) → typed calls →
  committed sha256 calls n = Some (LockReconcile i id o, Ok (Out_Decision (SubmitOnce s))) →
  s.(lock_step).(plan_step_id) = id ∧
  ∃ k, i.(lock_plan).(plan_steps) !! k = Some s.(lock_step) ∧
    ∀ j t, (j < k)%nat → i.(lock_plan).(plan_steps) !! j = Some t →
      observed_before sha256 calls n (swap_of i) t.
Proof.
  intros Hsha Htyped Hn.
  destruct (committed_state _ _ _ _ _ Hsha Htyped Hn) as (_&(db&_&Hok)&Ho&_).
  destruct (submit_cases _ _ _ _ _ Hok Ho) as (x&k&t&Hx&Hint&Ht&_&Hid&_&_&Hall&->&_).
  destruct (Hok _ _ Hx) as [Hxo _]. split; [done|]. exists k. rewrite <- Hint, <- (ok_plan _ Hxo).
  change (map lock_step) with (fmap (M := list) lock_step).
  rewrite list_lookup_fmap, Ht. split; [done|]. intros j u Hjk Hu.
  rewrite list_lookup_fmap in Hu. apply fmap_Some in Hu as (y&Hy&->).
  apply (accepted_observed sha256 calls n _ x j y); try done; [by rewrite Hint|].
  eapply all_accepted_true; [exact Hall|]. by apply lookup_take_Some.
Qed.

(** Closing is final: once an intent is closed all its steps are accepted,
    every later journal loads exactly the same snapshot, and no reconciliation
    of it is ever told to submit. *)
Theorem lock_closed_is_final sha256 pre post id s :
  (∀ b, blen (sha256 b) = 32) → typed (pre ++ post) →
  load_intent sha256 (lock_after sha256 pre) id = Ok (Some s) →
  s.(lock_closed_revision) ≠ None →
  let db := lock_after sha256 (pre ++ post) in
  all_accepted s.(lock_steps) = true ∧ load_intent sha256 db id = Ok (Some s) ∧
  ∀ i step_id o step, i.(lock_swap_id) = id →
    (reconcile_step sha256 db i step_id o).2 ≠ Ok (SubmitOnce step).
Proof.
  intros Hsha Htyped Hload Hclosed db.
  destruct (proj1 (Forall_app _ _ _) Htyped) as [Hpre Hpost].
  destruct (after_refines sha256 Hsha pre Hpre) as [Hrep Hok].
  destruct (after_refines sha256 Hsha _ Htyped) as [Hrep' Hok'].
  unfold load_intent in *. rewrite (load_represented _ Hsha _ _ id Hrep Hok) in Hload.
  injection Hload as Hs. destruct (Hok _ _ Hs) as [Hso _].
  destruct (ok_closed _ Hso) as [?|[_ Hall]]; [done|]. split; [done|].
  assert (Hs' : spec_after (pre ++ post) !! SwapId_as_str id = Some s).
  { assert (Hg : spec_grow (spec_after pre) (spec_after (pre ++ post))).
    { unfold spec_after. rewrite run_calls_app.
      apply (run_calls_grow _ call_typed (run_inv sha256) (spec_call_inv sha256 Hsha) spec_grow _ _
        (spec_call_grow sha256) Hpost). exists (lock_after sha256 pre). done. }
    destruct (Hg _ _ Hs) as (s'&Hs'&_&_&Heq). by rewrite Heq in Hs'. }
  split; [unfold db; by rewrite (load_represented _ Hsha _ _ id Hrep' Hok'), Hs'|].
  intros i step_id o step <- H.
  destruct (reconcile_refines sha256 Hsha db _ i step_id o Hrep' Hok') as (_&_&Hout).
  cbn [lock_call snd] in Hout. rewrite H in Hout. cbn in Hout. symmetry in Hout.
  destruct (submit_cases _ _ _ _ _ Hok' Hout) as (x&_&_&Hx&_&_&_&_&_&Hnone&_).
  unfold swap_of in Hx. rewrite Hs' in Hx. by simplify_eq.
Qed.

(** ** Witnesses *)

Module LockSamples.

Definition digest (_ : bytes) : bytes := replicate 32 Byte.x07.

Definition lock_tx (name : string) (b : Byte.byte) : PublicEffectStepV1 :=
  {| plan_step_id := {| StepId_as_str := name |};
     expected_public_id := {| ExpectedId_as_str := name |};
     exact_bytes := {| ExactBytes_as_slice := [b] |} |}.

Definition parent := lock_tx "parent" Byte.x01.
Definition child := lock_tx "child" Byte.x02.

Definition intent : BtcMakerLockIntentV1 :=
  {| lock_swap_id := {| SwapId_as_str := "swap" |};
     lock_agreement_commitment := replicate 32 Byte.x03;
     lock_local_role := Participant_Maker;
     lock_predecessor_revision := 1;
     lock_plan := {| plan_schema_version := SchemaVersion_V1; plan_steps := [parent; child] |} |}.

Definition present (t : PublicEffectStepV1) : BtcMakerLockStepObservation :=
  PresentExact t.(expected_public_id).(ExpectedId_as_str) t.(exact_bytes).(ExactBytes_as_slice).

(** The send of the parent is committed but never seen; its outcome is taken from
    the chain, then the child is sent, observed, and the intent is closed. *)
Definition sent_calls : list (LockCall * Fate) :=
  [(LockCreate intent, Delivered);
   (LockReconcile intent child.(plan_step_id) Lock_Absent, Delivered);
   (LockReconcile intent parent.(plan_step_id) Lock_Absent, CommittedUnseen);
   (LockReconcile intent parent.(plan_step_id) Lock_Absent, Delivered);
   (LockRecord intent parent.(plan_step_id) Submission_Unknown, RolledBack);
   (LockReconcile intent parent.(plan_step_id) (present parent), Delivered);
   (LockReconcile intent child.(plan_step_id) Lock_Absent, Delivered)].

Definition closed_calls : list (LockCall * Fate) :=
  sent_calls ++
  [(LockRecord intent child.(plan_step_id) (Submission_Accepted "child"), Delivered);
   (LockReconcile intent child.(plan_step_id) (present child), Delivered);
   (LockClose intent.(lock_swap_id) (replicate 32 Byte.x03) 1 2, Delivered)].

Lemma digest_length b : blen (digest b) = 32.
Proof. reflexivity. Defined.

Lemma intent_typed : call_typed (LockCreate intent).
Proof. split; [|reflexivity]. repeat (constructor; [by vm_compute|]). constructor. Defined.

Lemma calls_typed : typed (closed_calls ++ sent_calls).
Proof.
  repeat (constructor; [first [exact intent_typed|split; by vm_compute]|]). constructor.
Defined.

Lemma lock_journal_refines_witness :
  load_intent digest (lock_after digest (closed_calls ++ sent_calls)) intent.(lock_swap_id)
  = Ok (spec_after (closed_calls ++ sent_calls) !! "swap").
Proof. apply (lock_journal_refines digest _ digest_length calls_typed). Defined.

Lemma lock_submits_once_witness :
  (∃ o s, committed digest (closed_calls ++ sent_calls) 2
    = Some (LockReconcile intent parent.(plan_step_id) o, Ok (Out_Decision (SubmitOnce s))))
  ∧ 2%nat = 2%nat.
Proof.
  assert (H : committed digest (closed_calls ++ sent_calls) 2
    = Some (LockReconcile intent parent.(plan_step_id) Lock_Absent,
            Ok (Out_Decision (SubmitOnce (move_step (fresh_lock_step parent) Lock_Started 1 1 None)))))
    by by vm_compute.
  split; [by eexists _, _|].
  exact (lock_submits_once digest _ 2 2 intent intent _ _ _ _ _ digest_length calls_typed eq_refl H H).
Defined.

Lemma lock_sends_in_order_witness :
  observed_before digest (closed_calls ++ sent_calls) 6 "swap" parent.
Proof.
  destruct (lock_sends_in_order digest (closed_calls ++ sent_calls) 6 intent child.(plan_step_id)
    Lock_Absent (move_step (fresh_lock_step child) Lock_Started 1 1 None) digest_length calls_typed)
    as (_&k&Hk&Hall); [by vm_compute|].
  destruct k as [|k]; [discriminate|]. apply (Hall 0%nat); [lia|reflexivity].
Defined.

Lemma lock_closed_is_final_witness :
  ∃ s, load_intent digest (lock_after digest closed_calls) intent.(lock_swap_id) = Ok (Some s) ∧
    load_intent digest (lock_after digest (closed_calls ++ sent_calls)) intent.(lock_swap_id)
    = Ok (Some s).
Proof.
  destruct (load_intent digest (lock_after digest closed_calls) intent.(lock_swap_id))
    as [[s|]|] eqn:H; [|by vm_compute in H..].
  exists s. split; [reflexivity|].
  apply (lock_closed_is_final digest closed_calls sent_calls _ s digest_length calls_typed H).
  vm_compute in H. injection H as <-. discriminate.
Defined.

End LockSamples.
