(* ===== verification/BtcRecovery.v ===== *)
(** * The Bitcoin recovery store

    Models [crates/swap-store/src/btc_recovery.rs]: the database from which one
    party of a Bitcoin swap recovers alone.  It holds the agreement the party
    accepted, one row of evidence per step of the swap's life, and an aggregate
    with the coordinator's snapshot and the head of a hash chain over the evidence.
    Opening the store and every operation replay the evidence into the coordinator
    of [Coordinator] and compare; the maker's lock is recorded together with the
    closing of its plan in the journal of [BtcMakerLock].

    [serde_json] is the class [RecoveryJson]; SHA-256 is an argument.  The opening
    and migration of the file are not modelled. *)

From stdpp Require Import base gmap strings list numbers.
From S2P Require Import Prelude SwapCore Coordinator PublicEffectPlan SqlTable StoreBase BtcMakerLock.

Open Scope Z_scope.

Definition EVIDENCE_PAYLOAD_VERSION : Z := 1.
Definition EVIDENCE_CHAIN_VERSION : Z := 1.
Definition SNAPSHOT_PAYLOAD_VERSION : Z := 1.
Definition MAX_AGREEMENT_WIRE_BYTES : Z := 16384.
Definition MAX_ASSET_EXTENSION_WIRE_BYTES : Z := 16384.
Definition MAX_CHAIN_EVIDENCE_BYTES : Z := 65536.
Definition MAX_ENCODED_EVIDENCE_BYTES : Z := 327680.
Definition REVEALING_WITNESS_BYTES : Z := 64.
Definition EVIDENCE_CHAIN_GENESIS_DOMAIN : bytes :=
  bytes_of_string "lez-atomic-swaps/btc-recovery/evidence-chain/v1/genesis".
Definition ASSET_EXTENSION_GENESIS_DOMAIN : bytes :=
  bytes_of_string "lez-atomic-swaps/btc-recovery/evidence-chain/v1/asset-extension".
Definition EVIDENCE_CHAIN_APPEND_DOMAIN : bytes :=
  bytes_of_string "lez-atomic-swaps/btc-recovery/evidence-chain/v1/append".

Inductive BtcRecoveryError :=
| Recovery_Store (e : StoreError)
| InvalidAgreementAcceptance
| AgreementConflict
| RolePathAlias
| InitialCoordinatorMismatch
| MissingAgreementAcceptance
| StalePredecessor (expected actual : Z)
| EvidenceConflict (revision : Z)
| InvalidSequence (revision : Z)
| InvalidEvidence (revision : Z)
| UnsupportedEvidenceVersion (version : Z)
| UnsupportedSnapshotVersion (version : Z)
| SnapshotMismatch
| UnsupportedEvidenceChainVersion (version : Z)
| EvidenceChainMismatch
| Recovery_RevisionOverflow.

(** ** Acceptances and evidence *)

Record BtcAgreementAcceptance := {
  acc_swap_id : SwapId;
  acc_local_role : Participant;
  acc_agreement_wire : bytes;
  acc_agreement_commitment : bytes;
  acc_asset_extension_wire : option bytes;
  acc_asset_commitment : option bytes;
  acc_initial_snapshot_digest : bytes;
  acc_accepted_at : Z
}.

Inductive BtcLifecycleEvidenceKind :=
| TakerLock | MakerLock | RevealingClaim | FollowupClaim | MakerRefund | TakerRefund.

#[global] Instance BtcLifecycleEvidenceKind_eq_dec : EqDecision BtcLifecycleEvidenceKind.
Proof. solve_decision. Defined.

Definition evidence_kind_name (self : BtcLifecycleEvidenceKind) : string :=
  match self with
  | TakerLock => "taker_lock"
  | MakerLock => "maker_lock"
  | RevealingClaim => "revealing_claim"
  | FollowupClaim => "followup_claim"
  | MakerRefund => "maker_refund"
  | TakerRefund => "taker_refund"
  end.

Definition is_allowed_at_revision (self : BtcLifecycleEvidenceKind) (revision : Z) : bool :=
  match self with
  | TakerLock => revision =? 1
  | MakerLock => revision =? 2
  | TakerRefund => (revision =? 2) || (revision =? 4)
  | RevealingClaim | MakerRefund => revision =? 3
  | FollowupClaim => revision =? 4
  end.

Record BtcLifecycleEvidenceV1 := {
  ev_kind : BtcLifecycleEvidenceKind;
  ev_chain : Chain;
  ev_proof : ChainProof;
  ev_chain_evidence : bytes;
  ev_revealing_public_witness : option bytes;
  ev_claim_evidence : option ClaimEvidence;
  ev_refund_position : option ChainPosition
}.

Definition bytes_all_zero (b : bytes) : bool := forallb (λ x, x ==? Byte.x00) b.

Definition validated_proof (transaction_id : string) (confirmations : Z)
    : result ChainProof BtcRecoveryError :=
  map_err (ChainProof_new transaction_id confirmations) (λ _, InvalidEvidence 0).

Definition validated_chain_evidence (chain_evidence : bytes) : result bytes BtcRecoveryError :=
  if (blen chain_evidence =? 0) || (MAX_CHAIN_EVIDENCE_BYTES <? blen chain_evidence)
  then Err (InvalidEvidence 0) else Ok chain_evidence.

Definition non_revealing (kind : BtcLifecycleEvidenceKind) (chain : Chain)
    (transaction_id : string) (confirmations : Z) (chain_evidence : bytes)
    : result BtcLifecycleEvidenceV1 BtcRecoveryError :=
  let? _ := reject_if ((kind ==? FollowupClaim) && (confirmations =? 0)) (InvalidEvidence 0) in
  let? proof := validated_proof transaction_id confirmations in
  let? chain_evidence := validated_chain_evidence chain_evidence in
  Ok {| ev_kind := kind; ev_chain := chain; ev_proof := proof;
        ev_chain_evidence := chain_evidence; ev_revealing_public_witness := None;
        ev_claim_evidence := None; ev_refund_position := None |}.

Definition revealing_claim (chain : Chain) (transaction_id : string) (confirmations : Z)
    (chain_evidence revealing_public_witness : bytes) (claim_evidence : ClaimEvidence)
    : result BtcLifecycleEvidenceV1 BtcRecoveryError :=
  let? _ := reject_if (bytes_all_zero revealing_public_witness) (InvalidEvidence 0) in
  let? proof := validated_proof transaction_id confirmations in
  let? chain_evidence := validated_chain_evidence chain_evidence in
  Ok {| ev_kind := RevealingClaim; ev_chain := chain; ev_proof := proof;
        ev_chain_evidence := chain_evidence;
        ev_revealing_public_witness := Some revealing_public_witness;
        ev_claim_evidence := Some claim_evidence; ev_refund_position := None |}.

Definition refund (kind : BtcLifecycleEvidenceKind) (chain : Chain) (transaction_id : string)
    (confirmations : Z) (chain_evidence : bytes) (refund_position : ChainPosition)
    : result BtcLifecycleEvidenceV1 BtcRecoveryError :=
  let? _ := reject_if (negb ((kind ==? MakerRefund) || (kind ==? TakerRefund))
                       || (confirmations =? 0)
                       || (refund_position.(position_chain) !=? chain)) (InvalidEvidence 0) in
  let? proof := validated_proof transaction_id confirmations in
  let? chain_evidence := validated_chain_evidence chain_evidence in
  Ok {| ev_kind := kind; ev_chain := chain; ev_proof := proof;
        ev_chain_evidence := chain_evidence; ev_revealing_public_witness := None;
        ev_claim_evidence := None; ev_refund_position := Some refund_position |}.

Definition taker_lock (chain : Chain) (transaction_id : string) (confirmations : Z)
    (chain_evidence : bytes) : result BtcLifecycleEvidenceV1 BtcRecoveryError :=
  non_revealing TakerLock chain transaction_id confirmations chain_evidence.

Definition maker_lock (chain : Chain) (transaction_id : string) (confirmations : Z)
    (chain_evidence : bytes) : result BtcLifecycleEvidenceV1 BtcRecoveryError :=
  non_revealing MakerLock chain transaction_id confirmations chain_evidence.

Definition followup_claim (chain : Chain) (transaction_id : string) (confirmations : Z)
    (chain_evidence : bytes) : result BtcLifecycleEvidenceV1 BtcRecoveryError :=
  non_revealing FollowupClaim chain transaction_id confirmations chain_evidence.

Definition maker_leg_refund (chain : Chain) (transaction_id : string) (confirmations : Z)
    (chain_evidence : bytes) (refund_position : ChainPosition)
    : result BtcLifecycleEvidenceV1 BtcRecoveryError :=
  refund MakerRefund chain transaction_id confirmations chain_evidence refund_position.

Definition taker_leg_refund (chain : Chain) (transaction_id : string) (confirmations : Z)
    (chain_evidence : bytes) (refund_position : ChainPosition)
    : result BtcLifecycleEvidenceV1 BtcRecoveryError :=
  refund TakerRefund chain transaction_id confirmations chain_evidence refund_position.

(** The chain on which a step of the swap's life must be observed. *)
Definition evidence_chain (kind : BtcLifecycleEvidenceKind) (coordinator : SwapCoordinator)
    : Chain :=
  match kind with
  | TakerLock | FollowupClaim | TakerRefund => funded_chain coordinator Participant_Taker
  | MakerLock | RevealingClaim | MakerRefund => funded_chain coordinator Participant_Maker
  end.

Definition is_refund (kind : BtcLifecycleEvidenceKind) : bool :=
  match kind with MakerRefund | TakerRefund => true | _ => false end.

Definition evidence_malformed (self : BtcLifecycleEvidenceV1) (coordinator : SwapCoordinator)
    : bool :=
  let revealing_shape := self.(ev_kind) ==? RevealingClaim in
  let refund_shape := is_refund self.(ev_kind) in
  let witness_is (p : bytes → bool) :=
    match self.(ev_revealing_public_witness) with Some w => p w | None => false end in
  (self.(ev_chain) !=? evidence_chain self.(ev_kind) coordinator)
  || (blen self.(ev_chain_evidence) =? 0)
  || (MAX_CHAIN_EVIDENCE_BYTES <? blen self.(ev_chain_evidence))
  || negb (eqb revealing_shape (not_null self.(ev_claim_evidence)))
  || negb (eqb revealing_shape (not_null self.(ev_revealing_public_witness)))
  || negb (eqb refund_shape (not_null self.(ev_refund_position)))
  || witness_is (λ w, negb (blen w =? REVEALING_WITNESS_BYTES))
  || witness_is bytes_all_zero
  || (((self.(ev_kind) ==? FollowupClaim) || refund_shape)
      && (self.(ev_proof).(proof_confirmations) =? 0)).

(** The coordinator's method for a step. *)
Definition evidence_op (self : BtcLifecycleEvidenceV1) (coordinator : SwapCoordinator)
    : option CoordinatorOp :=
  match self.(ev_kind) with
  | TakerLock => Some (ObserveFunding Participant_Taker self.(ev_proof))
  | MakerLock => Some (ObserveFunding Participant_Maker self.(ev_proof))
  | RevealingClaim =>
      claim ← self.(ev_claim_evidence);
      Some (ObserveRevealingClaim (first_claimant coordinator) self.(ev_proof) claim)
  | FollowupClaim =>
      Some (ObserveFollowupClaim (other (first_claimant coordinator)) self.(ev_proof))
  | MakerRefund => position ← self.(ev_refund_position); Some (RefundMakerLeg position)
  | TakerRefund => position ← self.(ev_refund_position); Some (RefundTakerLeg position)
  end.

Definition expected_phase (revision : Z) (kind : BtcLifecycleEvidenceKind) : option Phase :=
  if is_allowed_at_revision kind revision then
    Some match kind with
         | TakerLock => TakerLockConfirmed
         | MakerLock => BothLegsLocked
         | TakerRefund => Refunded
         | RevealingClaim => ClaimEvidenceAvailable
         | MakerRefund => MakerLegRefunded
         | FollowupClaim => Completed
         end
  else None.

Definition evidence_apply (self : BtcLifecycleEvidenceV1) (coordinator : SwapCoordinator)
    (revision : Z) : result SwapCoordinator BtcRecoveryError :=
  let? _ := reject_if (evidence_malformed self coordinator) (InvalidEvidence revision) in
  let? op := ok_or (evidence_op self coordinator) (InvalidEvidence revision) in
  let outcome := apply op coordinator in
  let? _ := map_err outcome.2 (λ _, InvalidEvidence revision) in
  let? phase := ok_or (expected_phase revision self.(ev_kind)) (InvalidSequence revision) in
  let? _ := reject_if (outcome.1.(coord_phase) !=? phase) (InvalidEvidence revision) in
  Ok outcome.1.

(** ** Tables *)

Class RecoveryJson := {
  coordinator_to_json : SwapCoordinator → string;
  evidence_to_json : BtcLifecycleEvidenceV1 → string;
  evidence_from_json : string → option BtcLifecycleEvidenceV1
}.

Class RecoveryJsonLaws `{RecoveryJson} := {
  evidence_round_trip : ∀ e, evidence_from_json (evidence_to_json e) = Some e;
  evidence_json_nonempty : ∀ e, evidence_to_json e ≠ ""
}.

Record AgreementRow := {
  agr_local_role : string;
  agr_wire : bytes;
  agr_commitment : bytes;
  agr_extension_wire : option bytes;
  agr_asset_commitment : option bytes;
  agr_initial_digest : bytes;
  agr_accepted_at : Z
}.

Record AggregateRow := {
  agg_revision : Z;
  agg_snapshot_version : Z;
  agg_snapshot_json : string;
  agg_chain_version : Z;
  agg_chain_head : bytes
}.

Record EvidenceRow := {
  evr_kind : string;
  evr_payload_version : Z;
  evr_payload_json : string
}.

Record RecoveryDb := {
  rdb_agreements : gmap string AgreementRow;
  rdb_aggregates : gmap (string * string) AggregateRow;
  rdb_evidence : gmap (string * string * Z) EvidenceRow;
  rdb_locks : lock_db
}.

Definition empty_recovery_db : RecoveryDb :=
  {| rdb_agreements := ∅; rdb_aggregates := ∅; rdb_evidence := ∅; rdb_locks := empty_lock_db |}.

Definition null_or_bytes (p : bytes → bool) (o : option bytes) : bool :=
  match o with None => true | Some b => p b end.

Definition between_bytes (lo hi n : Z) : bool := (lo <=? n) && (n <=? hi).

Definition agreement_check (_ : string) (row : AgreementRow) : bool :=
  str_in row.(agr_local_role) ["maker"; "taker"]
  && between_bytes 1 16384 (blen row.(agr_wire))
  && len_is 32 row.(agr_commitment) && negb (bytes_all_zero row.(agr_commitment))
  && null_or_bytes (λ b, between_bytes 1 16384 (blen b)) row.(agr_extension_wire)
  && null_or_bytes (λ b, len_is 32 b && negb (bytes_all_zero b)) row.(agr_asset_commitment)
  && len_is 32 row.(agr_initial_digest)
  && (0 <=? row.(agr_accepted_at)).

Definition aggregate_check (k : string * string) (row : AggregateRow) : bool :=
  str_in k.2 ["maker"; "taker"]
  && between_bytes 0 4 row.(agg_revision)
  && (1 <=? row.(agg_chain_version))
  && len_is 32 row.(agg_chain_head).

Definition evidence_check (k : string * string * Z) (row : EvidenceRow) : bool :=
  str_in k.1.2 ["maker"; "taker"]
  && between_bytes 1 4 k.2
  && str_in row.(evr_kind) ["taker_lock"; "maker_lock"; "revealing_claim"; "followup_claim";
                            "maker_refund"; "taker_refund"]
  && between_bytes 1 327680 (slen row.(evr_payload_json)).

(** [UNIQUE (swap_id, local_role, evidence_kind)] *)
Definition evidence_unique (k : string * string * Z) (row : EvidenceRow)
    : string * string * string := (k.1, row.(evr_kind)).

Definition sql_store {A} (o : option A) : result A BtcRecoveryError :=
  ok_or o (Recovery_Store StoreError_Sqlite).

(** ** Operations *)

Section recovery.
Context `{RecoveryJson}.
(** The digest of the [sha2] crate. *)
Variable sha256 : bytes → bytes.

Definition canonical_initial_snapshot_digest (initial : SwapCoordinator) : bytes :=
  sha256 (bytes_of_string (coordinator_to_json initial)).

Definition BtcAgreementAcceptance_new_inner (initial : SwapCoordinator) (local_role : Participant)
    (agreement_wire agreement_commitment : bytes) (asset_extension : option (bytes * bytes))
    (accepted_at : Z) : result BtcAgreementAcceptance BtcRecoveryError :=
  let? _ := reject_if ((initial.(coord_pair) !=? Pair_Bitcoin)
                       || (initial.(coord_phase) !=? Offered)) InitialCoordinatorMismatch in
  let? _ := reject_if
    ((blen agreement_wire =? 0) || (MAX_AGREEMENT_WIRE_BYTES <? blen agreement_wire)
     || bytes_all_zero agreement_commitment
     || match asset_extension with
        | Some (wire, commitment) =>
            (blen wire =? 0) || (MAX_ASSET_EXTENSION_WIRE_BYTES <? blen wire)
            || bytes_all_zero commitment
        | None => false
        end
     || (i64_max <? accepted_at)) InvalidAgreementAcceptance in
  Ok {| acc_swap_id := initial.(coord_id); acc_local_role := local_role;
        acc_agreement_wire := agreement_wire; acc_agreement_commitment := agreement_commitment;
        acc_asset_extension_wire := fst <$> asset_extension;
        acc_asset_commitment := snd <$> asset_extension;
        acc_initial_snapshot_digest := canonical_initial_snapshot_digest initial;
        acc_accepted_at := accepted_at |}.

Definition BtcAgreementAcceptance_new (initial : SwapCoordinator) (local_role : Participant)
    (agreement_wire agreement_commitment : bytes) (accepted_at : Z)
    : result BtcAgreementAcceptance BtcRecoveryError :=
  BtcAgreementAcceptance_new_inner initial local_role agreement_wire agreement_commitment None
    accepted_at.

Definition BtcAgreementAcceptance_new_with_asset_extension (initial : SwapCoordinator)
    (local_role : Participant) (agreement_wire agreement_commitment : bytes)
    (asset_extension_wire asset_commitment : bytes) (accepted_at : Z)
    : result BtcAgreementAcceptance BtcRecoveryError :=
  BtcAgreementAcceptance_new_inner initial local_role agreement_wire agreement_commitment
    (Some (asset_extension_wire, asset_commitment)) accepted_at.

Definition validate_initial (acceptance : BtcAgreementAcceptance) (initial : SwapCoordinator)
    : result unit BtcRecoveryError :=
  reject_if
    ((initial.(coord_id) !=? acceptance.(acc_swap_id))
     || (initial.(coord_pair) !=? Pair_Bitcoin)
     || (initial.(coord_phase) !=? Offered)
     || (canonical_initial_snapshot_digest initial
         !=? acceptance.(acc_initial_snapshot_digest))) InitialCoordinatorMismatch.

(** The key of a party's rows. *)
Definition acc_key (acceptance : BtcAgreementAcceptance) : string * string :=
  (SwapId_as_str acceptance.(acc_swap_id), participant_name acceptance.(acc_local_role)).

(** Everything the digest of the first head is updated with, in order. *)
Definition genesis_preimage (acceptance : BtcAgreementAcceptance) : bytes :=
  len_prefixed EVIDENCE_CHAIN_GENESIS_DOMAIN ++ be_bytes 8 EVIDENCE_CHAIN_VERSION
  ++ len_prefixed (bytes_of_string (acc_key acceptance).1)
  ++ len_prefixed (bytes_of_string (acc_key acceptance).2)
  ++ len_prefixed acceptance.(acc_agreement_wire)
  ++ len_prefixed acceptance.(acc_agreement_commitment)
  ++ match acceptance.(acc_asset_extension_wire), acceptance.(acc_asset_commitment) with
     | Some extension_wire, Some asset_commitment =>
         len_prefixed ASSET_EXTENSION_GENESIS_DOMAIN ++ len_prefixed extension_wire
         ++ len_prefixed asset_commitment
     | _, _ => []
     end
  ++ len_prefixed acceptance.(acc_initial_snapshot_digest)
  ++ be_bytes 8 acceptance.(acc_accepted_at).

Definition evidence_chain_genesis (acceptance : BtcAgreementAcceptance) : bytes :=
  sha256 (genesis_preimage acceptance).

Definition append_preimage (previous_head : bytes) (acceptance : BtcAgreementAcceptance)
    (revision : Z) (evidence_kind : string) (payload_version : Z) (payload_json : string)
    : bytes :=
  len_prefixed EVIDENCE_CHAIN_APPEND_DOMAIN ++ be_bytes 8 EVIDENCE_CHAIN_VERSION
  ++ len_prefixed previous_head
  ++ len_prefixed (bytes_of_string (acc_key acceptance).1)
  ++ len_prefixed (bytes_of_string (acc_key acceptance).2)
  ++ be_bytes 8 revision
  ++ len_prefixed (bytes_of_string evidence_kind)
  ++ be_bytes 8 payload_version
  ++ len_prefixed (bytes_of_string payload_json).

Definition evidence_chain_append (previous_head : bytes) (acceptance : BtcAgreementAcceptance)
    (revision : Z) (evidence_kind : string) (payload_version : Z) (payload_json : string)
    : bytes :=
  sha256 (append_preimage previous_head acceptance revision evidence_kind payload_version
            payload_json).

(** The row of an acceptance; [i64::try_from] of the time has succeeded. *)
Definition agreement_row (acceptance : BtcAgreementAcceptance) : AgreementRow :=
  {| agr_local_role := participant_name acceptance.(acc_local_role);
     agr_wire := acceptance.(acc_agreement_wire);
     agr_commitment := acceptance.(acc_agreement_commitment);
     agr_extension_wire := acceptance.(acc_asset_extension_wire);
     agr_asset_commitment := acceptance.(acc_asset_commitment);
     agr_initial_digest := acceptance.(acc_initial_snapshot_digest);
     agr_accepted_at := acceptance.(acc_accepted_at) |}.

Definition load_durable_acceptance (db : RecoveryDb) (swap_id : SwapId) : option AgreementRow :=
  db.(rdb_agreements) !! SwapId_as_str swap_id.

(** The comparison of a durable row with an acceptance. *)
Definition compare_acceptance (durable : AgreementRow) (acceptance : BtcAgreementAcceptance)
    (accepted_at : Z) : result unit BtcRecoveryError :=
  let? _ := reject_if (durable.(agr_local_role) !=? participant_name acceptance.(acc_local_role))
              RolePathAlias in
  reject_if
    ((durable.(agr_wire) !=? acceptance.(acc_agreement_wire))
     || (durable.(agr_commitment) !=? acceptance.(acc_agreement_commitment))
     || (durable.(agr_extension_wire) !=? acceptance.(acc_asset_extension_wire))
     || (durable.(agr_asset_commitment) !=? acceptance.(acc_asset_commitment))
     || (durable.(agr_initial_digest) !=? acceptance.(acc_initial_snapshot_digest))
     || negb (durable.(agr_accepted_at) =? accepted_at)) AgreementConflict.

Definition accepted_at_sql (acceptance : BtcAgreementAcceptance) : result Z BtcRecoveryError :=
  if i64_max <? acceptance.(acc_accepted_at) then Err InvalidAgreementAcceptance
  else Ok acceptance.(acc_accepted_at).

Definition verify_acceptance (db : RecoveryDb) (acceptance : BtcAgreementAcceptance)
    : result unit BtcRecoveryError :=
  let? durable := ok_or (load_durable_acceptance db acceptance.(acc_swap_id)) AgreementConflict in
  let? _ := reject_if (durable.(agr_local_role) !=? participant_name acceptance.(acc_local_role))
              RolePathAlias in
  let? accepted_at := accepted_at_sql acceptance in
  compare_acceptance durable acceptance accepted_at.

Definition load_durable_aggregate (db : RecoveryDb) (acceptance : BtcAgreementAcceptance)
    : result AggregateRow BtcRecoveryError :=
  ok_or (db.(rdb_aggregates) !! acc_key acceptance) (InvalidSequence 0).

Definition load_evidence_at (db : RecoveryDb) (acceptance : BtcAgreementAcceptance)
    (revision : Z) : option EvidenceRow :=
  db.(rdb_evidence) !! (acc_key acceptance, revision).

(** [ORDER BY aggregate_revision ASC]: the schema bounds the revision by 4. *)
Definition select_evidence (db : RecoveryDb) (acceptance : BtcAgreementAcceptance)
    : list (Z * EvidenceRow) :=
  omap (λ revision, pair revision <$> load_evidence_at db acceptance revision) (seqZ 1 4).

Record ReconstructedState := {
  rec_revision : Z;
  rec_coordinator : SwapCoordinator;
  rec_revealing_public_witness : option bytes;
  rec_chain_head : bytes
}.

(** The loop over the rows. *)
Definition replay_row (acceptance : BtcAgreementAcceptance) (state : ReconstructedState)
    (r : Z * EvidenceRow) : result ReconstructedState BtcRecoveryError :=
  let '(durable_revision, row) := r in
  let? _ := reject_if (durable_revision <? 0) (InvalidSequence 0) in
  let expected_revision := state.(rec_revision) + 1 in
  let? _ := reject_if (negb (durable_revision =? expected_revision))
              (InvalidSequence expected_revision) in
  let? _ := reject_if (negb (row.(evr_payload_version) =? EVIDENCE_PAYLOAD_VERSION))
              (UnsupportedEvidenceVersion row.(evr_payload_version)) in
  let? _ := reject_if (MAX_ENCODED_EVIDENCE_BYTES <? slen row.(evr_payload_json))
              (InvalidEvidence durable_revision) in
  let head := evidence_chain_append state.(rec_chain_head) acceptance durable_revision
                row.(evr_kind) row.(evr_payload_version) row.(evr_payload_json) in
  let? evidence := ok_or (evidence_from_json row.(evr_payload_json))
                     (Recovery_Store Serialization) in
  let? _ := reject_if (negb (is_allowed_at_revision evidence.(ev_kind) durable_revision)
                       || (row.(evr_kind) !=? evidence_kind_name evidence.(ev_kind)))
              (InvalidSequence durable_revision) in
  let? coordinator := evidence_apply evidence state.(rec_coordinator) durable_revision in
  Ok {| rec_revision := durable_revision; rec_coordinator := coordinator;
        rec_revealing_public_witness :=
          match evidence.(ev_revealing_public_witness) with
          | Some witness => Some witness
          | None => state.(rec_revealing_public_witness)
          end;
        rec_chain_head := head |}.

Fixpoint replay_rows (acceptance : BtcAgreementAcceptance) (state : ReconstructedState)
    (rows : list (Z * EvidenceRow)) : result ReconstructedState BtcRecoveryError :=
  match rows with
  | [] => Ok state
  | row :: rows =>
      let? state := replay_row acceptance state row in
      replay_rows acceptance state rows
  end.

Definition genesis_state (acceptance : BtcAgreementAcceptance) (initial : SwapCoordinator)
    : ReconstructedState :=
  {| rec_revision := 0; rec_coordinator := initial; rec_revealing_public_witness := None;
     rec_chain_head := evidence_chain_genesis acceptance |}.

Definition reconstruct_checked (db : RecoveryDb) (acceptance : BtcAgreementAcceptance)
    (initial : SwapCoordinator) : result ReconstructedState BtcRecoveryError :=
  let? _ := verify_acceptance db acceptance in
  let? aggregate := load_durable_aggregate db acceptance in
  let? _ := reject_if (aggregate.(agg_revision) <? 0) (InvalidSequence 0) in
  let? _ := reject_if (negb (aggregate.(agg_snapshot_version) =? SNAPSHOT_PAYLOAD_VERSION))
              (UnsupportedSnapshotVersion aggregate.(agg_snapshot_version)) in
  let? _ := reject_if (negb (aggregate.(agg_chain_version) =? EVIDENCE_CHAIN_VERSION))
              (UnsupportedEvidenceChainVersion aggregate.(agg_chain_version)) in
  let? _ := reject_if (negb (blen aggregate.(agg_chain_head) =? 32)) EvidenceChainMismatch in
  let? state := replay_rows acceptance (genesis_state acceptance initial)
                  (select_evidence db acceptance) in
  let? _ := reject_if (negb (state.(rec_revision) =? aggregate.(agg_revision)))
              (InvalidSequence (state.(rec_revision) + 1)) in
  let? _ := reject_if (coordinator_to_json state.(rec_coordinator)
                       !=? aggregate.(agg_snapshot_json)) SnapshotMismatch in
  let? _ := reject_if (state.(rec_chain_head) !=? aggregate.(agg_chain_head))
              EvidenceChainMismatch in
  Ok state.

(** ** Opening *)

Inductive BtcStoreOpenMode := Activate | ExistingOnly.

#[global] Instance BtcStoreOpenMode_eq_dec : EqDecision BtcStoreOpenMode.
Proof. solve_decision. Defined.

(** The value of an opened store; its connection is the database. *)
Record BtcRecoveryStore := {
  store_acceptance : BtcAgreementAcceptance;
  store_initial : SwapCoordinator;
  store_acceptance_was_replay : bool
}.

Definition has_actor_state_without_acceptance (db : RecoveryDb)
    (acceptance : BtcAgreementAcceptance) : bool :=
  let swap := SwapId_as_str acceptance.(acc_swap_id) in
  existsb (λ kr, kr.1.1 ==? swap) (map_to_list db.(rdb_aggregates))
  || existsb (λ kr, kr.1.1.1 ==? swap) (map_to_list db.(rdb_evidence)).

Definition insert_agreement (db : RecoveryDb) (acceptance : BtcAgreementAcceptance)
    : result RecoveryDb BtcRecoveryError :=
  let? rows := sql_store (sql_insert agreement_check (λ k _, k) db.(rdb_agreements)
                            (SwapId_as_str acceptance.(acc_swap_id)) (agreement_row acceptance)) in
  Ok {| rdb_agreements := rows; rdb_aggregates := db.(rdb_aggregates);
        rdb_evidence := db.(rdb_evidence); rdb_locks := db.(rdb_locks) |}.

(** The foreign key to the agreement is checked with the insert. *)
Definition insert_aggregate (db : RecoveryDb) (acceptance : BtcAgreementAcceptance)
    (initial_snapshot : string) (initial_head : bytes) : result RecoveryDb BtcRecoveryError :=
  let row := {| agg_revision := 0; agg_snapshot_version := SNAPSHOT_PAYLOAD_VERSION;
                agg_snapshot_json := initial_snapshot;
                agg_chain_version := EVIDENCE_CHAIN_VERSION; agg_chain_head := initial_head |} in
  let? _ := sql_store (db.(rdb_agreements) !! SwapId_as_str acceptance.(acc_swap_id)) in
  let? rows := sql_store (sql_insert aggregate_check (λ k _, k) db.(rdb_aggregates)
                            (acc_key acceptance) row) in
  Ok {| rdb_agreements := db.(rdb_agreements); rdb_aggregates := rows;
        rdb_evidence := db.(rdb_evidence); rdb_locks := db.(rdb_locks) |}.

(** The transaction of the opening: whether the acceptance was replayed. *)
Definition accept_agreement (db : RecoveryDb) (acceptance : BtcAgreementAcceptance)
    (initial : SwapCoordinator) (mode : BtcStoreOpenMode) (accepted_at : Z)
    : result (RecoveryDb * bool) BtcRecoveryError :=
  match load_durable_acceptance db acceptance.(acc_swap_id) with
  | Some durable =>
      let? _ := compare_acceptance durable acceptance accepted_at in
      Ok (db, true)
  | None =>
      if mode ==? ExistingOnly then
        Err (if has_actor_state_without_acceptance db acceptance then AgreementConflict
             else MissingAgreementAcceptance)
      else
        let? db := insert_agreement db acceptance in
        let? db := insert_aggregate db acceptance (coordinator_to_json initial)
                     (evidence_chain_genesis acceptance) in
        Ok (db, false)
  end.

Definition open_with_mode (db : RecoveryDb) (acceptance : BtcAgreementAcceptance)
    (initial : SwapCoordinator) (mode : BtcStoreOpenMode)
    : RecoveryDb * result BtcRecoveryStore BtcRecoveryError :=
  match (let? _ := validate_initial acceptance initial in accepted_at_sql acceptance) with
  | Err e => (db, Err e)
  | Ok accepted_at =>
      let '(db', accepted) :=
        immediate_transaction db (accept_agreement db acceptance initial mode accepted_at) in
      (db', let? was_replay := accepted in
            let? _ := reconstruct_checked db' acceptance initial in
            Ok {| store_acceptance := acceptance; store_initial := initial;
                  store_acceptance_was_replay := was_replay |})
  end.

Definition open_store (db : RecoveryDb) (acceptance : BtcAgreementAcceptance)
    (initial : SwapCoordinator) : RecoveryDb * result BtcRecoveryStore BtcRecoveryError :=
  open_with_mode db acceptance initial Activate.

Definition open_existing (db : RecoveryDb) (acceptance : BtcAgreementAcceptance)
    (initial : SwapCoordinator) : RecoveryDb * result BtcRecoveryStore BtcRecoveryError :=
  open_with_mode db acceptance initial ExistingOnly.

(** ** Projecting evidence *)

Record BtcProjectionCommit := { projection_revision : Z; projection_was_replay : bool }.

Definition prepare_evidence_projection (expected_predecessor : Z)
    (evidence : BtcLifecycleEvidenceV1) : result (Z * string) BtcRecoveryError :=
  let? _ := reject_if (expected_predecessor =? u64_max) Recovery_RevisionOverflow in
  let proposed_revision := expected_predecessor + 1 in
  let? _ := reject_if (i64_max <? proposed_revision) Recovery_RevisionOverflow in
  let evidence_json := evidence_to_json evidence in
  let? _ := reject_if (MAX_ENCODED_EVIDENCE_BYTES <? slen evidence_json)
              (InvalidEvidence proposed_revision) in
  Ok (proposed_revision, evidence_json).

(** What the maker's plan binds: the asset extension when there is one. *)
Definition execution_binding (acceptance : BtcAgreementAcceptance) : bytes :=
  match acceptance.(acc_asset_commitment) with
  | Some commitment => commitment
  | None => acceptance.(acc_agreement_commitment)
  end.

Definition maybe_close_maker_intent (db : RecoveryDb) (acceptance : BtcAgreementAcceptance)
    (predecessor_revision committed_revision : Z) (requested : bool)
    : result RecoveryDb BtcRecoveryError :=
  if requested then
    let? closed := map_err (close_ready_btc_maker_lock_intent sha256 db.(rdb_locks)
                              acceptance.(acc_swap_id) (execution_binding acceptance)
                              predecessor_revision committed_revision) Recovery_Store in
    Ok {| rdb_agreements := db.(rdb_agreements); rdb_aggregates := db.(rdb_aggregates);
          rdb_evidence := db.(rdb_evidence); rdb_locks := closed.1 |}
  else Ok db.

(** The foreign key to the aggregate is checked with the insert. *)
Definition insert_evidence (db : RecoveryDb) (acceptance : BtcAgreementAcceptance)
    (revision : Z) (evidence : BtcLifecycleEvidenceV1) (payload_json : string)
    : result RecoveryDb BtcRecoveryError :=
  let row := {| evr_kind := evidence_kind_name evidence.(ev_kind);
                evr_payload_version := EVIDENCE_PAYLOAD_VERSION;
                evr_payload_json := payload_json |} in
  let? _ := sql_store (db.(rdb_aggregates) !! acc_key acceptance) in
  let? rows := sql_store (sql_insert evidence_check evidence_unique db.(rdb_evidence)
                            (acc_key acceptance, revision) row) in
  Ok {| rdb_agreements := db.(rdb_agreements); rdb_aggregates := db.(rdb_aggregates);
        rdb_evidence := rows; rdb_locks := db.(rdb_locks) |}.

(** [UPDATE btc_actor_aggregates]: the compare-and-swap on the revision and head.  The
    reconstructed revision has been found equal to [predecessor]. *)
Definition update_aggregate (db : RecoveryDb) (acceptance : BtcAgreementAcceptance)
    (predecessor revision : Z) (previous_head head : bytes) (snapshot : string)
    : result RecoveryDb BtcRecoveryError :=
  let? changed := sql_store (sql_update aggregate_check db.(rdb_aggregates) (acc_key acceptance)
    (λ row, (row.(agg_revision) =? predecessor)
            && (row.(agg_chain_version) =? EVIDENCE_CHAIN_VERSION)
            && (row.(agg_chain_head) ==? previous_head))
    (λ _, {| agg_revision := revision; agg_snapshot_version := SNAPSHOT_PAYLOAD_VERSION;
             agg_snapshot_json := snapshot; agg_chain_version := EVIDENCE_CHAIN_VERSION;
             agg_chain_head := head |})) in
  let '(rows, updated) := changed in
  let? _ := reject_if (negb (updated =? 1)) (StalePredecessor predecessor predecessor) in
  Ok {| rdb_agreements := db.(rdb_agreements); rdb_aggregates := rows;
        rdb_evidence := db.(rdb_evidence); rdb_locks := db.(rdb_locks) |}.

Definition project_in_transaction (db : RecoveryDb) (self : BtcRecoveryStore)
    (expected_predecessor proposed_revision : Z) (evidence : BtcLifecycleEvidenceV1)
    (evidence_json : string) (close_maker_intent : bool)
    : result (RecoveryDb * BtcProjectionCommit) BtcRecoveryError :=
  let acceptance := self.(store_acceptance) in
  let kind := evidence.(ev_kind) in
  let? reconstructed := reconstruct_checked db acceptance self.(store_initial) in
  match load_evidence_at db acceptance proposed_revision with
  | Some existing =>
      if (existing.(evr_kind) ==? evidence_kind_name kind)
         && (existing.(evr_payload_version) =? EVIDENCE_PAYLOAD_VERSION)
         && (existing.(evr_payload_json) ==? evidence_json)
      then
        let? db := maybe_close_maker_intent db acceptance expected_predecessor proposed_revision
                     close_maker_intent in
        Ok (db, {| projection_revision := proposed_revision; projection_was_replay := true |})
      else Err (EvidenceConflict proposed_revision)
  | None =>
      let? _ := reject_if (negb (reconstructed.(rec_revision) =? expected_predecessor))
                  (StalePredecessor expected_predecessor reconstructed.(rec_revision)) in
      let? _ := reject_if (negb (is_allowed_at_revision kind proposed_revision))
                  (InvalidSequence proposed_revision) in
      let? next := evidence_apply evidence reconstructed.(rec_coordinator) proposed_revision in
      let next_head := evidence_chain_append reconstructed.(rec_chain_head) acceptance
                         proposed_revision (evidence_kind_name kind) EVIDENCE_PAYLOAD_VERSION
                         evidence_json in
      let? db := insert_evidence db acceptance proposed_revision evidence evidence_json in
      let? db := update_aggregate db acceptance expected_predecessor proposed_revision
                   reconstructed.(rec_chain_head) next_head (coordinator_to_json next) in
      let? db := maybe_close_maker_intent db acceptance expected_predecessor proposed_revision
                   close_maker_intent in
      Ok (db, {| projection_revision := proposed_revision; projection_was_replay := false |})
  end.

Definition project_with_optional_maker_intent_close (db : RecoveryDb) (self : BtcRecoveryStore)
    (expected_predecessor : Z) (evidence : BtcLifecycleEvidenceV1) (close_maker_intent : bool)
    : RecoveryDb * result BtcProjectionCommit BtcRecoveryError :=
  match prepare_evidence_projection expected_predecessor evidence with
  | Err e => (db, Err e)
  | Ok (proposed_revision, evidence_json) =>
      immediate_transaction db
        (project_in_transaction db self expected_predecessor proposed_revision evidence
           evidence_json close_maker_intent)
  end.

(** [u64::saturating_add] *)
Definition next_revision (predecessor : Z) : Z := Z.min (predecessor + 1) u64_max.

Definition project (db : RecoveryDb) (self : BtcRecoveryStore) (expected_predecessor : Z)
    (evidence : BtcLifecycleEvidenceV1) : RecoveryDb * result BtcProjectionCommit BtcRecoveryError :=
  if (self.(store_acceptance).(acc_local_role) ==? Participant_Maker)
     && (evidence.(ev_kind) ==? MakerLock)
  then (db, Err (InvalidSequence (next_revision expected_predecessor)))
  else project_with_optional_maker_intent_close db self expected_predecessor evidence false.

Definition project_maker_lock_and_close (db : RecoveryDb) (self : BtcRecoveryStore)
    (expected_predecessor : Z) (evidence : BtcLifecycleEvidenceV1)
    : RecoveryDb * result BtcProjectionCommit BtcRecoveryError :=
  if (self.(store_acceptance).(acc_local_role) !=? Participant_Maker)
     || (evidence.(ev_kind) !=? MakerLock)
  then (db, Err (InvalidSequence (next_revision expected_predecessor)))
  else project_with_optional_maker_intent_close db self expected_predecessor evidence true.

(** ** Reading *)

Inductive BtcTerminalOutcome := Outcome_Completed | Outcome_Refunded.

Record BtcOfflineStatus := {
  status_revision : Z;
  status_phase : Phase;
  status_terminal : option BtcTerminalOutcome;
  status_revealing_public_witness : option bytes
}.

Definition offline_status (state : ReconstructedState) : BtcOfflineStatus :=
  {| status_revision := state.(rec_revision);
     status_phase := state.(rec_coordinator).(coord_phase);
     status_terminal := match state.(rec_coordinator).(coord_phase) with
                        | Completed => Some Outcome_Completed
                        | Refunded => Some Outcome_Refunded
                        | _ => None
                        end;
     status_revealing_public_witness := state.(rec_revealing_public_witness) |}.

Definition status (db : RecoveryDb) (self : BtcRecoveryStore)
    : result BtcOfflineStatus BtcRecoveryError :=
  let? reconstructed := reconstruct_checked db self.(store_acceptance) self.(store_initial) in
  Ok (offline_status reconstructed).

Fixpoint decode_evidence (rows : list (Z * EvidenceRow))
    : result (list (Z * BtcLifecycleEvidenceV1)) BtcRecoveryError :=
  match rows with
  | [] => Ok []
  | (revision, row) :: rows =>
      let? _ := reject_if (negb (row.(evr_payload_version) =? EVIDENCE_PAYLOAD_VERSION))
                  (UnsupportedEvidenceVersion row.(evr_payload_version)) in
      let? _ := reject_if (revision <? 0) (InvalidSequence 0) in
      let? evidence := ok_or (evidence_from_json row.(evr_payload_json))
                         (Recovery_Store Serialization) in
      let? rest := decode_evidence rows in
      Ok ((revision, evidence) :: rest)
  end.

Definition recovery_evidence (db : RecoveryDb) (self : BtcRecoveryStore)
    : result (list (Z * BtcLifecycleEvidenceV1)) BtcRecoveryError :=
  decode_evidence (select_evidence db self.(store_acceptance)).
End recovery.
