(* ===== verification/BtcRecoverySpec.v ===== *)
(** * The Bitcoin recovery store as a log of evidence

    What [BtcRecovery] promises: per swap the acceptance, the coordinator it started
    from and the list of evidence, next to the abstract journal of the maker's lock
    plans ([BtcMakerLockFacts]).  No revisions, snapshots, digests or texts are left.
    [spec_recovery_call] is every call on that state, error by error;
    [recovery_call] is the same call on the tables. *)

From stdpp Require Import base gmap strings list numbers.
From S2P Require Import Prelude SwapCore Coordinator PublicEffectPlan SqlTable StoreBase BtcMakerLock BtcMakerLockFacts BtcRecovery.

Open Scope Z_scope.

#[global] Instance BtcAgreementAcceptance_eq_dec : EqDecision BtcAgreementAcceptance.
Proof. solve_decision. Defined.

#[global] Instance BtcLifecycleEvidenceV1_eq_dec : EqDecision BtcLifecycleEvidenceV1.
Proof. solve_decision. Defined.

(** ** Calls *)

Inductive RecoveryCall :=
| Call_open (acceptance : BtcAgreementAcceptance) (initial : SwapCoordinator)
    (mode : BtcStoreOpenMode)
| Call_project (self : BtcRecoveryStore) (expected_predecessor : Z)
    (evidence : BtcLifecycleEvidenceV1)
| Call_project_close (self : BtcRecoveryStore) (expected_predecessor : Z)
    (evidence : BtcLifecycleEvidenceV1)
| Call_status (self : BtcRecoveryStore)
| Call_evidence (self : BtcRecoveryStore)
| Call_lock (call : LockCall).

Inductive RecoveryOutput :=
| Out_store (store : BtcRecoveryStore)
| Out_projection (commit : BtcProjectionCommit)
| Out_status (status : BtcOfflineStatus)
| Out_evidence (evidence : list (Z * BtcLifecycleEvidenceV1))
| Out_lock (output : LockOutput).

Section calls.
Context `{RecoveryJson}.
Variable sha256 : bytes → bytes.

Definition recovery_call (db : RecoveryDb) (c : RecoveryCall)
    : RecoveryDb * result RecoveryOutput BtcRecoveryError :=
  match c with
  | Call_open acceptance initial mode =>
      let out := match mode with
                 | Activate => open_store sha256 db acceptance initial
                 | ExistingOnly => open_existing sha256 db acceptance initial
                 end in
      (out.1, result_map Out_store out.2)
  | Call_project self predecessor evidence =>
      let out := project sha256 db self predecessor evidence in
      (out.1, result_map Out_projection out.2)
  | Call_project_close self predecessor evidence =>
      let out := project_maker_lock_and_close sha256 db self predecessor evidence in
      (out.1, result_map Out_projection out.2)
  | Call_status self => (db, result_map Out_status (status sha256 db self))
  | Call_evidence self => (db, result_map Out_evidence (recovery_evidence db self))
  | Call_lock call =>
      let out := lock_call sha256 db.(rdb_locks) call in
      ({| rdb_agreements := db.(rdb_agreements); rdb_aggregates := db.(rdb_aggregates);
          rdb_evidence := db.(rdb_evidence); rdb_locks := out.1 |},
       map_err (result_map Out_lock out.2) Recovery_Store)
  end.

(** An acceptance as its two constructors build it from 32-byte commitments and a
    64-bit time. *)
Definition acceptance_built (acceptance : BtcAgreementAcceptance) : Prop :=
  ∃ initial role wire commitment accepted_at,
    blen commitment = 32 ∧ is_u64 accepted_at ∧
    (BtcAgreementAcceptance_new sha256 initial role wire commitment accepted_at = Ok acceptance ∨
     ∃ extension_wire asset_commitment, blen asset_commitment = 32 ∧
       BtcAgreementAcceptance_new_with_asset_extension sha256 initial role wire commitment
         extension_wire asset_commitment accepted_at = Ok acceptance).

(** The acceptance and the coordinator of a store that was opened. *)
Definition opened (acceptance : BtcAgreementAcceptance) (initial : SwapCoordinator) : Prop :=
  acceptance_built acceptance ∧ validate_initial sha256 acceptance initial = Ok tt.

Definition store_opened (self : BtcRecoveryStore) : Prop :=
  opened self.(store_acceptance) self.(store_initial).

(** What the types of the source admit; the journal's closing is reached only through
    [project_maker_lock_and_close]. *)
Definition recovery_typed (c : RecoveryCall) : Prop :=
  match c with
  | Call_open acceptance _ _ => acceptance_built acceptance
  | Call_project self predecessor _ | Call_project_close self predecessor _ =>
      store_opened self ∧ is_u64 predecessor
  | Call_status self | Call_evidence self => store_opened self
  | Call_lock (LockClose _ _ _ _) => False
  | Call_lock call => call_typed call
  end.

(** The coordinators the calls of a run start from. *)
Definition call_initial (c : RecoveryCall) : option SwapCoordinator :=
  match c with
  | Call_open _ initial _ => Some initial
  | Call_project self _ _ | Call_project_close self _ _ | Call_status self
  | Call_evidence self => Some self.(store_initial)
  | Call_lock _ => None
  end.
End calls.

(** ** The abstract store *)

Record RecoveryLog := {
  log_acceptance : BtcAgreementAcceptance;
  log_initial : SwapCoordinator;
  log_evidence : list BtcLifecycleEvidenceV1
}.

Record RecoverySpec := {
  spec_logs : gmap string RecoveryLog;
  spec_locks : journal
}.

Definition empty_recovery_spec : RecoverySpec := {| spec_logs := ∅; spec_locks := ∅ |}.

Fixpoint coordinator_after (coordinator : SwapCoordinator) (revision : Z)
    (evidence : list BtcLifecycleEvidenceV1) : result SwapCoordinator BtcRecoveryError :=
  match evidence with
  | [] => Ok coordinator
  | e :: evidence =>
      let? next := evidence_apply e coordinator (revision + 1) in
      coordinator_after next (revision + 1) evidence
  end.

(** The last witness the evidence reveals. *)
Fixpoint last_witness (witness : option bytes) (evidence : list BtcLifecycleEvidenceV1)
    : option bytes :=
  match evidence with
  | [] => witness
  | e :: evidence =>
      last_witness (match e.(ev_revealing_public_witness) with
                    | Some w => Some w
                    | None => witness
                    end) evidence
  end.

Definition log_coordinator (log : RecoveryLog) : result SwapCoordinator BtcRecoveryError :=
  coordinator_after log.(log_initial) 0 log.(log_evidence).

Definition same_acceptance (durable acceptance : BtcAgreementAcceptance)
    : result unit BtcRecoveryError :=
  let? _ := reject_if (durable.(acc_local_role) !=? acceptance.(acc_local_role)) RolePathAlias in
  reject_if (durable !=? acceptance) AgreementConflict.

Definition spec_log (st : RecoverySpec) (acceptance : BtcAgreementAcceptance)
    : result RecoveryLog BtcRecoveryError :=
  let? log := ok_or (st.(spec_logs) !! SwapId_as_str acceptance.(acc_swap_id))
                AgreementConflict in
  let? _ := same_acceptance log.(log_acceptance) acceptance in
  Ok log.

Definition log_append (log : RecoveryLog) (e : BtcLifecycleEvidenceV1) : RecoveryLog :=
  {| log_acceptance := log.(log_acceptance); log_initial := log.(log_initial);
     log_evidence := log.(log_evidence) ++ [e] |}.

Definition indexed_evidence (evidence : list BtcLifecycleEvidenceV1)
    : list (Z * BtcLifecycleEvidenceV1) :=
  imap (λ i e, (Z.of_nat i + 1, e)) evidence.

Section spec.
Context `{RecoveryJson}.
Variable sha256 : bytes → bytes.

Definition spec_open (st : RecoverySpec) (acceptance : BtcAgreementAcceptance)
    (initial : SwapCoordinator) (mode : BtcStoreOpenMode)
    : result (RecoverySpec * BtcRecoveryStore) BtcRecoveryError :=
  let swap := SwapId_as_str acceptance.(acc_swap_id) in
  let store was_replay := {| store_acceptance := acceptance; store_initial := initial;
                             store_acceptance_was_replay := was_replay |} in
  let? _ := validate_initial sha256 acceptance initial in
  match st.(spec_logs) !! swap with
  | Some log =>
      let? _ := same_acceptance log.(log_acceptance) acceptance in
      Ok (st, store true)
  | None =>
      if mode ==? ExistingOnly then Err MissingAgreementAcceptance
      else Ok ({| spec_logs := <[swap := {| log_acceptance := acceptance; log_initial := initial;
                                            log_evidence := [] |}]> st.(spec_logs);
                  spec_locks := st.(spec_locks) |}, store false)
  end.

(** Closing the maker's plan at the binding of the acceptance. *)
Definition spec_close (locks : journal) (acceptance : BtcAgreementAcceptance)
    (predecessor revision : Z) (requested : bool) : result journal BtcRecoveryError :=
  if requested then
    let out := spec_call locks (LockClose acceptance.(acc_swap_id)
                                  (execution_binding acceptance) predecessor revision) in
    let? _ := map_err out.2 Recovery_Store in
    Ok out.1
  else Ok locks.

Definition spec_project (st : RecoverySpec) (self : BtcRecoveryStore) (predecessor : Z)
    (evidence : BtcLifecycleEvidenceV1) (close : bool)
    : result (RecoverySpec * BtcProjectionCommit) BtcRecoveryError :=
  let acceptance := self.(store_acceptance) in
  let? prepared := prepare_evidence_projection predecessor evidence in
  let revision := prepared.1 in
  let? log := spec_log st acceptance in
  match log.(log_evidence) !! Z.to_nat predecessor with
  | Some existing =>
      let? _ := reject_if (existing !=? evidence) (EvidenceConflict revision) in
      let? locks := spec_close st.(spec_locks) acceptance predecessor revision close in
      Ok ({| spec_logs := st.(spec_logs); spec_locks := locks |},
          {| projection_revision := revision; projection_was_replay := true |})
  | None =>
      let? _ := reject_if (negb (blen log.(log_evidence) =? predecessor))
                  (StalePredecessor predecessor (blen log.(log_evidence))) in
      let? _ := reject_if (negb (is_allowed_at_revision evidence.(ev_kind) revision))
                  (InvalidSequence revision) in
      let? coordinator := log_coordinator log in
      let? _ := evidence_apply evidence coordinator revision in
      let? locks := spec_close st.(spec_locks) acceptance predecessor revision close in
      Ok ({| spec_logs := <[SwapId_as_str acceptance.(acc_swap_id) := log_append log evidence]>
                            st.(spec_logs);
             spec_locks := locks |},
          {| projection_revision := revision; projection_was_replay := false |})
  end.

Definition log_status (log : RecoveryLog) (coordinator : SwapCoordinator) : BtcOfflineStatus :=
  {| status_revision := blen log.(log_evidence);
     status_phase := coordinator.(coord_phase);
     status_terminal := match coordinator.(coord_phase) with
                        | Completed => Some Outcome_Completed
                        | Refunded => Some Outcome_Refunded
                        | _ => None
                        end;
     status_revealing_public_witness := last_witness None log.(log_evidence) |}.

Definition spec_status (st : RecoverySpec) (self : BtcRecoveryStore)
    : result BtcOfflineStatus BtcRecoveryError :=
  let? log := spec_log st self.(store_acceptance) in
  let? coordinator := log_coordinator log in
  Ok (log_status log coordinator).

(** The evidence query does not look at the agreement, only at the swap and role. *)
Definition spec_evidence (st : RecoverySpec) (self : BtcRecoveryStore)
    : list (Z * BtcLifecycleEvidenceV1) :=
  match st.(spec_logs) !! SwapId_as_str self.(store_acceptance).(acc_swap_id) with
  | Some log =>
      if log.(log_acceptance).(acc_local_role) ==? self.(store_acceptance).(acc_local_role)
      then indexed_evidence log.(log_evidence) else []
  | None => []
  end.

Definition spec_recovery_call (st : RecoverySpec) (c : RecoveryCall)
    : RecoverySpec * result RecoveryOutput BtcRecoveryError :=
  match c with
  | Call_open acceptance initial mode =>
      let out := immediate_transaction st (spec_open st acceptance initial mode) in
      (out.1, result_map Out_store out.2)
  | Call_project self predecessor evidence =>
      let out := immediate_transaction st
        (let? _ := reject_if
           ((self.(store_acceptance).(acc_local_role) ==? Participant_Maker)
            && (evidence.(ev_kind) ==? MakerLock)) (InvalidSequence (next_revision predecessor)) in
         spec_project st self predecessor evidence false) in
      (out.1, result_map Out_projection out.2)
  | Call_project_close self predecessor evidence =>
      let out := immediate_transaction st
        (let? _ := reject_if
           ((self.(store_acceptance).(acc_local_role) !=? Participant_Maker)
            || (evidence.(ev_kind) !=? MakerLock)) (InvalidSequence (next_revision predecessor)) in
         spec_project st self predecessor evidence true) in
      (out.1, result_map Out_projection out.2)
  | Call_status self => (st, result_map Out_status (spec_status st self))
  | Call_evidence self => (st, Ok (Out_evidence (spec_evidence st self)))
  | Call_lock call =>
      let out := spec_call st.(spec_locks) call in
      ({| spec_logs := st.(spec_logs); spec_locks := out.1 |},
       map_err (result_map Out_lock out.2) Recovery_Store)
  end.
End spec.
