(* ===== verification/BtcRecoveryFacts.v ===== *)
(** * The tables of the recovery store represent the log

    Lemmas: what evidence a log can hold, the row form of a log and its replay, and
    for each operation of [BtcRecovery] that on tables which represent an abstract
    store it does what [BtcRecoverySpec] says. *)

From stdpp Require Import base gmap strings list numbers.
From S2P Require Import Prelude SwapCore Coordinator CoordinatorSteps CoordinatorFacts PublicEffectPlan SqlTable StoreBase BtcMakerLock BtcMakerLockFacts BtcRecovery BtcRecoverySpec.

Open Scope Z_scope.

(** ** Evidence *)

Lemma evidence_kind_name_inj k k' : evidence_kind_name k = evidence_kind_name k' → k = k'.
Proof. by destruct k, k'. Qed.

Lemma is_allowed_iff kind revision :
  is_allowed_at_revision kind revision = true ↔
  (kind, revision) ∈ [(TakerLock, 1); (MakerLock, 2); (TakerRefund, 2); (RevealingClaim, 3);
                      (MakerRefund, 3); (TakerRefund, 4); (FollowupClaim, 4)].
Proof.
  rewrite !elem_of_cons, elem_of_nil.
  destruct kind; cbn; rewrite ?orb_true_iff, ?Z.eqb_eq; naive_solver.
Qed.

(** Applied evidence is well formed, its method succeeded, and it moved the
    coordinator to the phase of its revision. *)
Lemma evidence_apply_Ok e c revision c' :
  evidence_apply e c revision = Ok c' ↔
  evidence_malformed e c = false ∧
  (∃ op, evidence_op e c = Some op ∧ apply op c = (c', Ok tt)) ∧
  expected_phase revision e.(ev_kind) = Some c'.(coord_phase).
Proof.
  unfold evidence_apply. split.
  - destruct (evidence_malformed e c); [done|]. cbn [reject_if result_bind].
    destruct (evidence_op e c) as [op|]; [|done]. cbn [ok_or result_bind].
    destruct (apply op c) as [x [[]|]] eqn:Ha; [|done]. cbn [map_err snd fst result_bind].
    destruct (expected_phase revision (ev_kind e)) as [p|]; [|done]. cbn [ok_or result_bind].
    case_bool_decide as Hp; [|done]. intros [= <-]. rewrite <- Hp. eauto.
  - intros (->&(op&->&Ha)&Hp). cbn [reject_if ok_or result_bind]. rewrite Ha, Hp.
    cbn [map_err snd fst ok_or result_bind]. by rewrite bool_decide_eq_true_2.
Qed.

Lemma evidence_apply_allowed e c revision c' :
  evidence_apply e c revision = Ok c' → is_allowed_at_revision e.(ev_kind) revision = true.
Proof.
  intros (_&_&Hp)%evidence_apply_Ok. unfold expected_phase in Hp.
  by destruct (is_allowed_at_revision _ _).
Qed.

(** The life of a swap in evidence: which kinds a log can hold, and the phase they
    lead to. *)
Inductive lifecycle : list BtcLifecycleEvidenceKind → Phase → Prop :=
| life_offered : lifecycle [] Offered
| life_taker_locked : lifecycle [TakerLock] TakerLockConfirmed
| life_abandoned : lifecycle [TakerLock; TakerRefund] Refunded
| life_locked : lifecycle [TakerLock; MakerLock] BothLegsLocked
| life_revealed : lifecycle [TakerLock; MakerLock; RevealingClaim] ClaimEvidenceAvailable
| life_completed :
    lifecycle [TakerLock; MakerLock; RevealingClaim; FollowupClaim] Completed
| life_maker_refunded : lifecycle [TakerLock; MakerLock; MakerRefund] MakerLegRefunded
| life_refunded :
    lifecycle [TakerLock; MakerLock; MakerRefund; TakerRefund] Refunded.

Lemma evidence_apply_moves e c revision c' :
  evidence_apply e c revision = Ok c' →
  (terminal c.(coord_phase) → c'.(coord_phase) = c.(coord_phase)) ∧
  (e.(ev_kind) = TakerRefund → c.(coord_phase) ≠ ClaimEvidenceAvailable) ∧
  (e.(ev_kind) = FollowupClaim → c.(coord_phase) ≠ MakerLegRefunded).
Proof.
  intros (_&(op&Hop&Ha)&Hp)%evidence_apply_Ok. split_and!.
  - intros Ht. pose proof (terminal_run [op] c Ht) as Hr. cbn in Hr. by rewrite Ha in Hr.
  - intros Hk Hc. unfold evidence_op in Hop. rewrite Hk in Hop.
    destruct (ev_refund_position e); simplify_eq/=. unfold refund_taker_leg in Ha.
    by rewrite Hc in Ha.
  - intros Hk Hc. unfold evidence_op in Hop. rewrite Hk in Hop, Hp. simplify_eq/=.
    assert (c'.(coord_phase) = MakerLegRefunded) as Hc'.
    { revert Ha. unfold observe_followup_claim. repeat case_bool_decide;
        cbn; rewrite ?Hc in *; destruct (both_legs_funded c); cbn; try done;
        intros; simplify_eq; congruence. }
    unfold expected_phase in Hp. rewrite Hc' in Hp. by destruct (is_allowed_at_revision _ _).
Qed.

Lemma lifecycle_step kinds e c c' :
  lifecycle kinds c.(coord_phase) → evidence_apply e c (blen kinds + 1) = Ok c' →
  lifecycle (kinds ++ [e.(ev_kind)]) c'.(coord_phase).
Proof.
  intros Hl Ha. pose proof (evidence_apply_moves _ _ _ _ Ha) as (Hterm&Htaker&Hfollow).
  apply evidence_apply_Ok in Ha as (_&_&Hp). unfold expected_phase in Hp.
  remember (coord_phase c) as p eqn:Hc.
  destruct Hl, (ev_kind e) eqn:Hk; cbn in Hp; try done; injection Hp as Hp;
    rewrite <- Hp in *; cbn [app]; try solve [constructor]; exfalso; unfold terminal in Hterm; naive_solver.
Qed.

Lemma coordinator_after_snoc c revision evidence e :
  coordinator_after c revision (evidence ++ [e]) =
  (let? c' := coordinator_after c revision evidence in
   evidence_apply e c' (revision + blen evidence + 1)).
Proof.
  revert c revision. induction evidence as [|e0 evidence IH]; intros c revision; cbn.
  - unfold blen. cbn. rewrite Z.add_0_r. by destruct (evidence_apply e c _).
  - destruct (evidence_apply e0 c (revision + 1)) as [c1|]; [|done]. cbn. rewrite IH.
    replace (revision + 1 + blen evidence) with (revision + blen (e0 :: evidence)); [done|].
    unfold blen. cbn. lia.
Qed.

Lemma last_witness_snoc w evidence e :
  last_witness w (evidence ++ [e]) =
  match e.(ev_revealing_public_witness) with
  | Some v => Some v
  | None => last_witness w evidence
  end.
Proof. revert w. induction evidence as [|e0 evidence IH]; intros w; cbn; [done|apply IH]. Qed.

Lemma blen_snoc {A} (l : list A) x : blen (l ++ [x]) = blen l + 1.
Proof. unfold blen. rewrite length_app. cbn. lia. Qed.

Lemma log_lifecycle c evidence c' :
  c.(coord_phase) = Offered → coordinator_after c 0 evidence = Ok c' →
  lifecycle (ev_kind <$> evidence) c'.(coord_phase).
Proof.
  intros Hc. revert c'. induction evidence as [|e evidence IH] using rev_ind; intros c' Ha.
  - injection Ha as <-. rewrite Hc. constructor.
  - rewrite coordinator_after_snoc in Ha.
    destruct (coordinator_after c 0 evidence) as [c1|]; [|done]. cbn in Ha.
    rewrite fmap_app. apply (lifecycle_step _ _ c1); [by apply IH|].
    unfold blen in *. by rewrite length_fmap.
Qed.

(** No kind of evidence appears twice in a log. *)
Lemma lifecycle_fresh kinds e c c' :
  lifecycle kinds c.(coord_phase) → evidence_apply e c (blen kinds + 1) = Ok c' →
  (e.(ev_kind) ∉ kinds) ∧ 1 ≤ blen kinds + 1 ≤ 4.
Proof.
  intros Hl Ha. pose proof (lifecycle_step _ _ _ _ Hl Ha) as Hl'.
  destruct Hl; cbn in Hl'; inversion Hl'; (split; [set_solver by done|unfold blen; cbn; lia]).
Qed.

(** ** Rows of a log *)

Section tables.
Context `{RecoveryJsonLaws}.
Variable sha256 : bytes → bytes.
Hypothesis sha256_len : ∀ b, blen (sha256 b) = 32.

Definition evidence_row (e : BtcLifecycleEvidenceV1) : EvidenceRow :=
  {| evr_kind := evidence_kind_name e.(ev_kind);
     evr_payload_version := EVIDENCE_PAYLOAD_VERSION;
     evr_payload_json := evidence_to_json e |}.

Definition evidence_rows (revision : Z) (evidence : list BtcLifecycleEvidenceV1)
    : list (Z * EvidenceRow) :=
  imap (λ i e, (revision + Z.of_nat i + 1, evidence_row e)) evidence.

Fixpoint head_after (acceptance : BtcAgreementAcceptance) (head : bytes) (revision : Z)
    (evidence : list BtcLifecycleEvidenceV1) : bytes :=
  match evidence with
  | [] => head
  | e :: evidence =>
      head_after acceptance
        (evidence_chain_append sha256 head acceptance (revision + 1)
           (evidence_kind_name e.(ev_kind)) EVIDENCE_PAYLOAD_VERSION (evidence_to_json e))
        (revision + 1) evidence
  end.

Definition log_head (log : RecoveryLog) : bytes :=
  head_after log.(log_acceptance) (evidence_chain_genesis sha256 log.(log_acceptance)) 0
    log.(log_evidence).

Definition log_state (log : RecoveryLog) (coordinator : SwapCoordinator) : ReconstructedState :=
  {| rec_revision := blen log.(log_evidence); rec_coordinator := coordinator;
     rec_revealing_public_witness := last_witness None log.(log_evidence);
     rec_chain_head := log_head log |}.

Definition aggregate_row (log : RecoveryLog) (coordinator : SwapCoordinator) : AggregateRow :=
  {| agg_revision := blen log.(log_evidence); agg_snapshot_version := SNAPSHOT_PAYLOAD_VERSION;
     agg_snapshot_json := coordinator_to_json coordinator;
     agg_chain_version := EVIDENCE_CHAIN_VERSION; agg_chain_head := log_head log |}.

Definition evidence_sized (e : BtcLifecycleEvidenceV1) : Prop :=
  slen (evidence_to_json e) ≤ MAX_ENCODED_EVIDENCE_BYTES.

Lemma evidence_to_json_inj e e' : evidence_to_json e = evidence_to_json e' → e = e'.
Proof.
  intros Heq. apply (f_equal evidence_from_json) in Heq.
  rewrite !evidence_round_trip in Heq. congruence.
Qed.

Lemma evidence_rows_cons revision e evidence :
  evidence_rows revision (e :: evidence) =
  (revision + 1, evidence_row e) :: evidence_rows (revision + 1) evidence.
Proof.
  unfold evidence_rows. cbn. f_equal; [f_equal; lia|].
  apply imap_ext. intros i x Hx. cbn. f_equal. lia.
Qed.

Lemma replay_evidence acceptance revision c w head e c' :
  0 ≤ revision → evidence_sized e → evidence_apply e c (revision + 1) = Ok c' →
  replay_row sha256 acceptance
    {| rec_revision := revision; rec_coordinator := c; rec_revealing_public_witness := w;
       rec_chain_head := head |} (revision + 1, evidence_row e) =
  Ok {| rec_revision := revision + 1; rec_coordinator := c';
        rec_revealing_public_witness := last_witness w [e];
        rec_chain_head := head_after acceptance head revision [e] |}.
Proof.
  intros Hr Hs Ha. unfold replay_row. cbn [rec_revision rec_coordinator rec_chain_head
    rec_revealing_public_witness evr_payload_version evr_payload_json evr_kind evidence_row].
  rewrite (proj2 (Z.ltb_ge _ _)) by lia. rewrite Z.eqb_refl. cbn [negb reject_if result_bind].
  replace (EVIDENCE_PAYLOAD_VERSION =? EVIDENCE_PAYLOAD_VERSION) with true by done.
  cbn [negb reject_if result_bind]. unfold evidence_sized in Hs.
  rewrite (proj2 (Z.ltb_ge _ _)) by lia. cbn [reject_if result_bind].
  rewrite evidence_round_trip. cbn [ok_or result_bind].
  rewrite (evidence_apply_allowed _ _ _ _ Ha), bool_decide_eq_true_2 by done.
  cbn [negb orb reject_if result_bind]. by rewrite Ha.
Qed.

Lemma replay_evidence_rows acceptance evidence revision c w head c' :
  0 ≤ revision → Forall evidence_sized evidence →
  coordinator_after c revision evidence = Ok c' →
  replay_rows sha256 acceptance
    {| rec_revision := revision; rec_coordinator := c; rec_revealing_public_witness := w;
       rec_chain_head := head |} (evidence_rows revision evidence) =
  Ok {| rec_revision := revision + blen evidence; rec_coordinator := c';
        rec_revealing_public_witness := last_witness w evidence;
        rec_chain_head := head_after acceptance head revision evidence |}.
Proof.
  revert revision c w head. induction evidence as [|e evidence IH]; intros revision c w head Hr Hs Ha.
  - injection Ha as <-. cbn. by rewrite Z.add_0_r.
  - cbn [coordinator_after] in Ha. destruct (evidence_apply e c (revision + 1)) as [c1|] eqn:He; [|done].
    cbn in Ha. destruct (Forall_cons_1 _ _ _ Hs) as [Hs1 Hs2]. rewrite evidence_rows_cons. cbn [replay_rows].
    rewrite (replay_evidence _ _ _ _ _ _ c1) by done. cbn [result_bind].
    rewrite IH by (done || lia).
    replace (revision + blen (e :: evidence)) with (revision + 1 + blen evidence); [done|].
    unfold blen. cbn. lia.
Qed.

(** ** The relation *)

Definition role_log (st : RecoverySpec) (swap role : string) : option RecoveryLog :=
  log ← st.(spec_logs) !! swap;
  if participant_name log.(log_acceptance).(acc_local_role) ==? role then Some log else None.

Definition log_aggregate (log : RecoveryLog) : option AggregateRow :=
  match log_coordinator log with Ok c => Some (aggregate_row log c) | Err _ => None end.

Definition evidence_at (log : RecoveryLog) (revision : Z) : option EvidenceRow :=
  if 1 <=? revision then evidence_row <$> log.(log_evidence) !! Z.to_nat (revision - 1) else None.

Record store_represents (db : RecoveryDb) (st : RecoverySpec) : Prop := {
  rep_agreements : ∀ swap,
    db.(rdb_agreements) !! swap = agreement_row ∘ log_acceptance <$> st.(spec_logs) !! swap;
  rep_aggregates : ∀ swap role,
    db.(rdb_aggregates) !! (swap, role) = role_log st swap role ≫= log_aggregate;
  rep_evidence : ∀ swap role revision,
    db.(rdb_evidence) !! (swap, role, revision) =
      log ← role_log st swap role; evidence_at log revision;
  rep_locks : represents sha256 db.(rdb_locks) st.(spec_locks)
}.

(** [P] holds of the coordinators the calls start from. *)
Record log_ok (P : SwapCoordinator → Prop) (swap : string) (log : RecoveryLog) : Prop := {
  log_swap : SwapId_as_str log.(log_acceptance).(acc_swap_id) = swap;
  log_opened : opened sha256 log.(log_acceptance) log.(log_initial);
  log_known : P log.(log_initial);
  log_sized : Forall evidence_sized log.(log_evidence);
  log_applies : ∃ c, log_coordinator log = Ok c
}.

Definition spec_ok (P : SwapCoordinator → Prop) (st : RecoverySpec) : Prop :=
  map_Forall (log_ok P) st.(spec_logs) ∧ journal_ok st.(spec_locks).

(** ** Reading a represented store *)

Lemma acceptance_built_Ok acceptance :
  acceptance_built sha256 acceptance →
  accepted_at_sql acceptance = Ok acceptance.(acc_accepted_at) ∧
  agreement_check (SwapId_as_str acceptance.(acc_swap_id)) (agreement_row acceptance) = true.
Proof using sha256_len.
  intros (initial&role&wire&commitment&at_&Hc&Ht&Hnew).
  assert (∃ extension,
    BtcAgreementAcceptance_new_inner sha256 initial role wire commitment extension at_ = Ok acceptance ∧
    match extension with Some (_, asset) => blen asset = 32 | None => True end)
    as (extension&Hn&He).
  { destruct Hnew as [Hn|(w&a&Ha&Hn)]; [by exists None|by exists (Some (w, a))]. }
  unfold BtcAgreementAcceptance_new_inner in Hn.
  apply result_bind_Ok in Hn as ([]&_&Hn). apply result_bind_Ok in Hn as ([]&Hr&[= <-]).
  apply reject_if_Ok in Hr. rewrite !orb_false_iff in Hr. destruct Hr as ((((Hw0&Hw)&Hz)&Hx)&Hat).
  unfold accepted_at_sql, agreement_check, between_bytes. cbn -[str_in blen bytes_all_zero]. rewrite Hat. split; [done|].
  rewrite !andb_true_iff, !Z.leb_le, negb_true_iff. unfold len_is, canonical_initial_snapshot_digest.
  rewrite sha256_len, !Z.eqb_eq. apply Z.eqb_neq in Hw0. apply Z.ltb_ge in Hw.
  unfold MAX_AGREEMENT_WIRE_BYTES in Hw. pose proof (blen_nonneg wire).
  split_and!; try done; try lia; [by destruct role| | |by destruct Ht].
  - destruct extension as [[w a]|]; [|done]. cbn -[blen bytes_all_zero]. rewrite !orb_false_iff in Hx.
    destruct Hx as ((Hx0%Z.eqb_neq&Hx%Z.ltb_ge)&_). unfold MAX_ASSET_EXTENSION_WIRE_BYTES in Hx.
    pose proof (blen_nonneg w). rewrite andb_true_iff, !Z.leb_le. lia.
  - destruct extension as [[w a]|]; [|done]. cbn -[blen bytes_all_zero]. rewrite !orb_false_iff in Hx.
    destruct Hx as (_&->). by rewrite (proj2 (Z.eqb_eq _ _) He).
Qed.

Lemma compare_represented durable acceptance :
  SwapId_as_str durable.(acc_swap_id) = SwapId_as_str acceptance.(acc_swap_id) →
  compare_acceptance (agreement_row durable) acceptance acceptance.(acc_accepted_at) =
  same_acceptance durable acceptance.
Proof.
  intros Hid. unfold compare_acceptance, same_acceptance. cbn.
  destruct (decide (acc_local_role durable = acc_local_role acceptance)) as [Hr|Hr].
  - rewrite Hr, (bool_decide_eq_true_2 (participant_name _ = _)),
      (bool_decide_eq_true_2 (acc_local_role _ = _)) by done. cbn.
    destruct durable as [[id] r w c x a i t], acceptance as [[id'] r' w' c' x' a' i' t'];
      cbn in *; subst.
    destruct (Z.eqb_spec t t'); repeat case_bool_decide; cbn; congruence.
  - assert (participant_name (acc_local_role durable) ≠ participant_name (acc_local_role acceptance))
      by (by intros ?%participant_name_inj).
    by rewrite (bool_decide_eq_false_2 (participant_name _ = _)),
      (bool_decide_eq_false_2 (acc_local_role _ = _)).
Qed.

Lemma same_acceptance_Ok durable acceptance u :
  same_acceptance durable acceptance = Ok u → durable = acceptance.
Proof.
  unfold same_acceptance. case_bool_decide; [|done]. cbn. by case_bool_decide.
Qed.

Lemma spec_log_Ok st acceptance log :
  spec_log st acceptance = Ok log ↔
  st.(spec_logs) !! SwapId_as_str acceptance.(acc_swap_id) = Some log ∧
  log.(log_acceptance) = acceptance.
Proof.
  unfold spec_log. split.
  - destruct (spec_logs st !! _) as [l|]; [|done]. cbn.
    destruct (same_acceptance _ _) eqn:Hs; [|done]. cbn. intros [= <-].
    by apply same_acceptance_Ok in Hs.
  - intros [-> <-]. cbn. unfold same_acceptance. by rewrite !bool_decide_eq_true_2.
Qed.

Context (P : SwapCoordinator → Prop).
Hypothesis distinct_initials : ∀ c c', P c → P c' →
  canonical_initial_snapshot_digest sha256 c = canonical_initial_snapshot_digest sha256 c' → c = c'.

Lemma validate_initial_Ok acceptance initial u :
  validate_initial sha256 acceptance initial = Ok u →
  initial.(coord_id) = acceptance.(acc_swap_id) ∧ initial.(coord_phase) = Offered ∧
  initial.(coord_pair) = Pair_Bitcoin ∧
  canonical_initial_snapshot_digest sha256 initial = acceptance.(acc_initial_snapshot_digest).
Proof.
  intros Hv%reject_if_Ok. rewrite !orb_false_iff, !negb_false_iff, !bool_decide_eq_true in Hv.
  naive_solver.
Qed.

(** A store opened on a log's acceptance starts from the log's coordinator. *)
Lemma opened_initial swap log initial :
  log_ok P swap log → opened sha256 log.(log_acceptance) initial → P initial →
  initial = log.(log_initial).
Proof using distinct_initials.
  intros Hl [_ (_&_&_&Hd)%validate_initial_Ok] HP. apply distinct_initials; [done|apply Hl|].
  destruct (log_opened _ _ _ Hl) as [_ (_&_&_&Hd')%validate_initial_Ok]. congruence.
Qed.

Lemma log_kinds swap log c :
  log_ok P swap log → log_coordinator log = Ok c →
  lifecycle (ev_kind <$> log.(log_evidence)) c.(coord_phase).
Proof.
  intros Hl Hc. destruct (log_opened _ _ _ Hl) as [_ (_&Hp&_)%validate_initial_Ok].
  by apply (log_lifecycle (log_initial log)).
Qed.

Lemma lifecycle_length kinds p : lifecycle kinds p → (length kinds ≤ 4)%nat.
Proof. destruct 1; cbn; lia. Qed.

Lemma log_length swap log : log_ok P swap log → (length log.(log_evidence) ≤ 4)%nat.
Proof.
  intros Hl. destruct (log_applies _ _ _ Hl) as [c Hc].
  pose proof (lifecycle_length _ _ (log_kinds _ _ _ Hl Hc)) as Hn. by rewrite length_fmap in Hn.
Qed.

Lemma select_role_log db st acceptance :
  store_represents db st → map_Forall (log_ok P) st.(spec_logs) →
  select_evidence db acceptance =
  match role_log st (acc_key acceptance).1 (acc_key acceptance).2 with
  | Some log => evidence_rows 0 log.(log_evidence)
  | None => []
  end.
Proof.
  intros Hrep Hok. unfold select_evidence, load_evidence_at. cbn [seqZ].
  replace (seqZ 1 4) with [1; 2; 3; 4] by done. unfold acc_key. cbn [omap list_omap fst snd].
  rewrite !(rep_evidence _ _ Hrep).
  destruct (role_log st _ _) as [log|] eqn:Hr; [|done]. cbn -[evidence_rows].
  unfold role_log in Hr. destruct (spec_logs st !! _) as [l|] eqn:Hl; [|done]. cbn in Hr.
  case_bool_decide; [|done]. injection Hr as ->. pose proof (log_length _ _ (Hok _ _ Hl)) as Hn.
  unfold evidence_at. destruct log as [a i evs]. cbn in *.
  by destruct evs as [|e1 [|e2 [|e3 [|e4 [|]]]]]; cbn in Hn; try lia.
Qed.

Lemma role_log_Some st acceptance log :
  st.(spec_logs) !! SwapId_as_str acceptance.(acc_swap_id) = Some log →
  log.(log_acceptance) = acceptance →
  role_log st (acc_key acceptance).1 (acc_key acceptance).2 = Some log.
Proof. intros Hl <-. unfold role_log. cbn. rewrite Hl. cbn. by rewrite bool_decide_eq_true_2. Qed.

Lemma verify_represented db st acceptance :
  store_represents db st → map_Forall (log_ok P) st.(spec_logs) →
  acceptance_built sha256 acceptance →
  verify_acceptance db acceptance = (let? _ := spec_log st acceptance in Ok tt).
Proof using sha256_len.
  intros Hrep Hok Hb. unfold verify_acceptance, load_durable_acceptance, spec_log.
  rewrite (rep_agreements _ _ Hrep).
  destruct (spec_logs st !! _) as [log|] eqn:Hl; [|done]. cbn [fmap option_fmap option_map ok_or result_bind compose].
  destruct (acceptance_built_Ok _ Hb) as [-> _]. cbn [result_bind].
  rewrite compare_represented by exact (log_swap _ _ _ (Hok _ _ Hl)).
  unfold same_acceptance. cbn [agr_local_role agreement_row].
  destruct (decide (acc_local_role (log_acceptance log) = acc_local_role acceptance)) as [Hr|Hr].
  - rewrite Hr, !(bool_decide_eq_true_2 (_ = _)) by done. cbn. by case_bool_decide.
  - assert (participant_name (acc_local_role (log_acceptance log))
              ≠ participant_name (acc_local_role acceptance)) by (by intros ?%participant_name_inj).
    by rewrite (bool_decide_eq_false_2 (participant_name _ = _)),
      (bool_decide_eq_false_2 (acc_local_role _ = _)).
Qed.

Lemma head_length acceptance head revision evidence :
  blen head = 32 → blen (head_after acceptance head revision evidence) = 32.
Proof using sha256_len.
  revert head revision. induction evidence as [|e evidence IH]; intros head revision Hh; cbn -[blen]; [done|].
  apply IH, sha256_len.
Qed.

Lemma log_head_length log : blen (log_head log) = 32.
Proof using sha256_len. apply head_length, sha256_len. Qed.

Lemma reconstruct_represented db st acceptance initial :
  store_represents db st → spec_ok P st → opened sha256 acceptance initial → P initial →
  reconstruct_checked sha256 db acceptance initial =
  (let? log := spec_log st acceptance in
   let? c := log_coordinator log in
   Ok (log_state log c)).
Proof using distinct_initials sha256_len H0.
  intros Hrep [Hok _] Hop HP. unfold reconstruct_checked.
  rewrite (verify_represented _ st) by (done || apply Hop).
  destruct (spec_log st acceptance) as [log|] eqn:Hs; [|done]. cbn [result_bind].
  apply spec_log_Ok in Hs as [Hl Ha]. pose proof (Hok _ _ Hl) as Hlo.
  assert (initial = log_initial log) as -> by (subst acceptance; by apply (opened_initial _ _ _ Hlo)).
  destruct (log_applies _ _ _ Hlo) as [c Hc]. rewrite Hc. cbn [result_bind].
  pose proof (role_log_Some _ _ _ Hl Ha) as Hrl.
  unfold load_durable_aggregate. unfold acc_key in *.
  rewrite (rep_aggregates _ _ Hrep). cbn [fst snd] in Hrl. rewrite Hrl.
  unfold mbind, option_bind, log_aggregate. rewrite Hc. cbn [ok_or result_bind].
  cbn [aggregate_row agg_revision agg_snapshot_version agg_chain_version agg_chain_head agg_snapshot_json].
  pose proof (blen_nonneg (log_evidence log)).
  rewrite (proj2 (Z.ltb_ge _ _)) by lia. cbn [reject_if result_bind].
  rewrite log_head_length. cbn [Z.eqb negb reject_if result_bind SNAPSHOT_PAYLOAD_VERSION
    EVIDENCE_CHAIN_VERSION Pos.eqb].
  rewrite (select_role_log db st) by done. unfold acc_key. cbn [fst snd]. rewrite Hrl.
  unfold genesis_state.
  rewrite (replay_evidence_rows _ _ _ _ _ _ c); [|lia|apply Hlo|done].
  cbn [result_bind rec_revision rec_coordinator rec_chain_head].
  rewrite Z.add_0_l, Z.eqb_refl. cbn [negb reject_if result_bind].
  rewrite bool_decide_eq_true_2 by done. cbn [negb reject_if result_bind].
  rewrite bool_decide_eq_true_2; [|unfold log_head; by rewrite Ha].
  cbn [negb reject_if result_bind]. unfold log_state, log_head. by rewrite Ha.
Qed.

(** ** Writing a represented store *)

Lemma evidence_at_append log e revision :
  evidence_at (log_append log e) revision =
  if decide (revision = blen log.(log_evidence) + 1) then Some (evidence_row e)
  else evidence_at log revision.
Proof.
  unfold evidence_at, log_append, blen. cbn. case_decide as Hr.
  - subst revision. rewrite (proj2 (Z.leb_le _ _)) by lia.
    replace (Z.to_nat _) with (length (log_evidence log)) by lia.
    by rewrite list_lookup_middle by done.
  - destruct (Z.leb_spec 1 revision); [|done]. f_equal.
    destruct (decide (Z.to_nat (revision - 1) < length (log_evidence log))%nat).
    + by rewrite lookup_app_l.
    + rewrite !lookup_ge_None_2; [done|lia|rewrite length_app; cbn; lia].
Qed.

(** The tables after one log is added or replaced. *)
Lemma store_represents_set db st swap log c evidence locks_db locks :
  store_represents db st → log_coordinator log = Ok c →
  (∀ old, st.(spec_logs) !! swap = Some old → old.(log_acceptance) = log.(log_acceptance)) →
  (∀ role revision, evidence !! (swap, role, revision) =
     if decide (participant_name log.(log_acceptance).(acc_local_role) = role)
     then evidence_at log revision else db.(rdb_evidence) !! (swap, role, revision)) →
  (∀ k, k.1.1 ≠ swap → evidence !! k = db.(rdb_evidence) !! k) →
  represents sha256 locks_db locks →
  store_represents
    {| rdb_agreements := <[swap := agreement_row log.(log_acceptance)]> db.(rdb_agreements);
       rdb_aggregates := <[(swap, participant_name log.(log_acceptance).(acc_local_role))
                           := aggregate_row log c]> db.(rdb_aggregates);
       rdb_evidence := evidence; rdb_locks := locks_db |}
    {| spec_logs := <[swap := log]> st.(spec_logs); spec_locks := locks |}.
Proof.
  intros Hrep Hc Hold Hev Hev' Hlocks.
  assert (Hrole : ∀ role, role_log {| spec_logs := <[swap := log]> st.(spec_logs);
                                      spec_locks := locks |} swap role =
    if decide (participant_name log.(log_acceptance).(acc_local_role) = role) then Some log else None).
  { intros role. unfold role_log. cbn. rewrite lookup_insert_eq. cbn. by case_bool_decide; case_decide. }
  assert (Hother : ∀ role, participant_name log.(log_acceptance).(acc_local_role) ≠ role →
                     role_log st swap role = None).
  { intros role Hne. unfold role_log. destruct (spec_logs st !! swap) as [old|] eqn:Ho; [|done]. cbn.
    rewrite (Hold _ eq_refl). by rewrite bool_decide_eq_false_2. }
  assert (Hswap : ∀ swap' role, swap' ≠ swap →
    role_log {| spec_logs := <[swap := log]> st.(spec_logs); spec_locks := locks |} swap' role
    = role_log st swap' role).
  { intros swap' role Hne. unfold role_log. cbn. by rewrite lookup_insert_ne. }
  split; cbn [rdb_agreements rdb_aggregates rdb_evidence rdb_locks spec_logs spec_locks].
  - intros swap'. destruct (decide (swap' = swap)) as [->|Hne].
    + by rewrite !lookup_insert_eq.
    + rewrite !lookup_insert_ne by done. apply Hrep.
  - intros swap' role. destruct (decide (swap' = swap)) as [->|Hne].
    + rewrite Hrole. case_decide as Hr.
      * subst role. rewrite lookup_insert_eq. cbn. unfold log_aggregate. by rewrite Hc.
      * rewrite lookup_insert_ne by congruence. rewrite (rep_aggregates _ _ Hrep). by rewrite Hother.
    + rewrite lookup_insert_ne by congruence. rewrite Hswap by done. apply Hrep.
  - intros swap' role revision. destruct (decide (swap' = swap)) as [->|Hne].
    + rewrite Hrole, Hev. case_decide as Hr; [done|].
      rewrite (rep_evidence _ _ Hrep). by rewrite Hother.
    + rewrite Hev', Hswap by done. apply Hrep.
  - done.
Qed.

Lemma spec_ok_set st swap log locks :
  spec_ok P st → log_ok P swap log → journal_ok locks →
  spec_ok P {| spec_logs := <[swap := log]> st.(spec_logs); spec_locks := locks |}.
Proof. intros [Hl _] Hlog Hj. split; [by apply map_Forall_insert_2|done]. Qed.

Definition recovery_refines
    (out : RecoveryDb * result RecoveryOutput BtcRecoveryError)
    (spec : RecoverySpec * result RecoveryOutput BtcRecoveryError) : Prop :=
  store_represents out.1 spec.1 ∧ spec_ok P spec.1 ∧ out.2 = spec.2.

Lemma no_actor_state db st acceptance :
  store_represents db st → st.(spec_logs) !! SwapId_as_str acceptance.(acc_swap_id) = None →
  has_actor_state_without_acceptance db acceptance = false.
Proof.
  intros Hrep Hn. unfold has_actor_state_without_acceptance. apply orb_false_iff. split;
    apply not_true_iff_false; rewrite existsb_exists; intros ([k r]&Hin&Heq);
    apply list_elem_of_In, elem_of_map_to_list in Hin; apply bool_decide_eq_true in Heq; cbn in Heq.
  - destruct k as [swap role]. cbn in Heq. subst swap. rewrite (rep_aggregates _ _ Hrep) in Hin.
    unfold role_log in Hin. by rewrite Hn in Hin.
  - destruct k as [[swap role] n]. cbn in Heq. subst swap. rewrite (rep_evidence _ _ Hrep) in Hin.
    unfold role_log in Hin. by rewrite Hn in Hin.
Qed.

(** The first opening of a swap writes its agreement and its aggregate. *)
Lemma accept_fresh db st acceptance initial :
  store_represents db st → acceptance_built sha256 acceptance →
  st.(spec_logs) !! SwapId_as_str acceptance.(acc_swap_id) = None →
  ∃ db', accept_agreement sha256 db acceptance initial Activate acceptance.(acc_accepted_at)
           = Ok (db', false) ∧
    store_represents db'
      {| spec_logs := <[SwapId_as_str acceptance.(acc_swap_id) :=
           {| log_acceptance := acceptance; log_initial := initial; log_evidence := [] |}]>
           st.(spec_logs);
         spec_locks := st.(spec_locks) |}.
Proof using sha256_len.
  intros Hrep Hb Hn. destruct (acceptance_built_Ok _ Hb) as [_ Hck].
  set (log := {| log_acceptance := acceptance; log_initial := initial; log_evidence := [] |}).
  eexists. unfold accept_agreement, load_durable_acceptance, insert_agreement.
  rewrite (rep_agreements _ _ Hrep), Hn. cbn [fmap option_fmap option_map].
  rewrite (bool_decide_eq_false_2 (Activate = ExistingOnly)) by done.
  rewrite sql_insert_primary by (done || by rewrite (rep_agreements _ _ Hrep), Hn).
  cbn [sql_store ok_or result_bind]. unfold insert_aggregate.
  cbn [rdb_agreements rdb_aggregates rdb_evidence rdb_locks]. rewrite lookup_insert_eq.
  cbn [sql_store ok_or result_bind].
  assert (Hka : rdb_aggregates db !! acc_key acceptance = None).
  { unfold acc_key. rewrite (rep_aggregates _ _ Hrep). unfold role_log. by rewrite Hn. }
  rewrite sql_insert_primary; [|done|]; cycle 1.
  { unfold aggregate_check, acc_key, len_is. cbn -[str_in blen between_bytes].
    unfold evidence_chain_genesis. rewrite sha256_len. by destruct (acc_local_role acceptance). }
  cbn [sql_store ok_or result_bind]. split; [done|].
  apply (store_represents_set db st _ log initial); try done; [| |apply Hrep].
  - intros old. by rewrite Hn.
  - intros role revision. rewrite (rep_evidence _ _ Hrep). unfold role_log. rewrite Hn. cbn.
    case_decide; [|done]. unfold evidence_at. cbn. rewrite lookup_nil. by destruct (1 <=? revision).
Qed.

Lemma open_refines db st acceptance initial mode :
  store_represents db st → spec_ok P st → acceptance_built sha256 acceptance → P initial →
  recovery_refines (recovery_call sha256 db (Call_open acceptance initial mode))
                   (spec_recovery_call sha256 st (Call_open acceptance initial mode)).
Proof using distinct_initials sha256_len H0.
  intros Hrep Hok Hb HP. unfold recovery_refines, recovery_call, spec_recovery_call.
  assert (match mode with
          | Activate => open_store sha256 db acceptance initial
          | ExistingOnly => open_existing sha256 db acceptance initial
          end = open_with_mode sha256 db acceptance initial mode) as -> by (by destruct mode).
  unfold open_with_mode, spec_open.
  destruct (validate_initial sha256 acceptance initial) as [[]|] eqn:Hv; [|done].
  cbn [result_bind]. destruct (acceptance_built_Ok _ Hb) as [Hat _]. rewrite Hat.
  assert (Hop : opened sha256 acceptance initial) by done.
  destruct (spec_logs st !! SwapId_as_str (acc_swap_id acceptance)) as [log|] eqn:Hl.
  - unfold accept_agreement, load_durable_acceptance. rewrite (rep_agreements _ _ Hrep), Hl.
    cbn [fmap option_fmap option_map compose].
    rewrite compare_represented by exact (log_swap _ _ _ (proj1 Hok _ _ Hl)).
    destruct (same_acceptance (log_acceptance log) acceptance) as [[]|] eqn:Hs; [|done].
    cbn [immediate_transaction result_bind fst snd result_map].
    rewrite (reconstruct_represented db st) by done. unfold spec_log. rewrite Hl. cbn [ok_or result_bind].
    rewrite Hs. cbn [result_bind]. destruct (log_applies _ _ _ (proj1 Hok _ _ Hl)) as [c ->]. done.
  - destruct (decide (mode = ExistingOnly)) as [->|Hm].
    + unfold accept_agreement, load_durable_acceptance. rewrite (rep_agreements _ _ Hrep), Hl.
      cbn [fmap option_fmap option_map].
      rewrite (bool_decide_eq_true_2 (ExistingOnly = ExistingOnly)) by done.
      by rewrite (no_actor_state db st).
    + rewrite (bool_decide_eq_false_2 (mode = ExistingOnly)) by done.
      assert (mode = Activate) as -> by (by destruct mode).
      destruct (accept_fresh db st acceptance initial Hrep Hb Hl) as (db'&->&Hrep').
      cbn [immediate_transaction result_bind fst snd result_map].
      match type of Hrep' with store_represents _ ?s => set (st' := s) in * end.
      assert (Hok' : spec_ok P st').
      { apply (spec_ok_set st); [done| |apply Hok]. split; cbn; try done. by exists initial. }
      rewrite (reconstruct_represented db' st') by done. unfold spec_log. cbn [spec_logs st'].
      rewrite lookup_insert_eq. cbn [ok_or result_bind log_acceptance].
      unfold same_acceptance. rewrite !bool_decide_eq_true_2 by done. done.
Qed.

Lemma close_represented db st acceptance predecessor revision requested :
  store_represents db st → journal_ok st.(spec_locks) →
  match maybe_close_maker_intent sha256 db acceptance predecessor revision requested,
        spec_close st.(spec_locks) acceptance predecessor revision requested with
  | Ok db', Ok locks =>
      ∃ locks_db, db' = {| rdb_agreements := db.(rdb_agreements);
                           rdb_aggregates := db.(rdb_aggregates);
                           rdb_evidence := db.(rdb_evidence); rdb_locks := locks_db |} ∧
        represents sha256 locks_db locks ∧ journal_ok locks
  | Err e, Err e' => e = e'
  | _, _ => False
  end.
Proof using sha256_len.
  intros Hrep Hj. unfold maybe_close_maker_intent, spec_close. destruct requested.
  - destruct (close_refines sha256 sha256_len (rdb_locks db) (spec_locks st)
                (acc_swap_id acceptance) (execution_binding acceptance) predecessor revision)
      as (Hr&Ho&Hout); [apply Hrep|done|].
    unfold lock_call in Hr, Hout.
    destruct (close_ready_btc_maker_lock_intent _ _ _ _ _ _) as [[l b]|e]; cbn in Hr, Hout;
      rewrite <- Hout; cbn; eauto.
  - exists (rdb_locks db). split_and!; [by destruct db|apply Hrep|done].
Qed.

Lemma prepare_Ok predecessor evidence revision json :
  prepare_evidence_projection predecessor evidence = Ok (revision, json) →
  revision = predecessor + 1 ∧ json = evidence_to_json evidence ∧ evidence_sized evidence.
Proof.
  unfold prepare_evidence_projection. intros Hp. inv_ok Hp. simplify_eq.
  apply reject_if_Ok, Z.ltb_ge in Hx1. by split_and!.
Qed.

Lemma load_evidence_represented db st acceptance log predecessor :
  store_represents db st → 0 ≤ predecessor → spec_log st acceptance = Ok log →
  load_evidence_at db acceptance (predecessor + 1) =
  evidence_row <$> log.(log_evidence) !! Z.to_nat predecessor.
Proof.
  intros Hrep Hp [Hl Ha]%spec_log_Ok. pose proof (role_log_Some _ _ _ Hl Ha) as Hr.
  unfold load_evidence_at, acc_key in *. rewrite (rep_evidence _ _ Hrep). cbn [fst snd] in Hr.
  rewrite Hr. cbn. unfold evidence_at. rewrite (proj2 (Z.leb_le _ _)) by lia.
  by replace (predecessor + 1 - 1) with predecessor by lia.
Qed.

Lemma head_after_snoc acceptance head revision evidence e :
  head_after acceptance head revision (evidence ++ [e]) =
  evidence_chain_append sha256 (head_after acceptance head revision evidence) acceptance
    (revision + blen evidence + 1) (evidence_kind_name e.(ev_kind)) EVIDENCE_PAYLOAD_VERSION
    (evidence_to_json e).
Proof.
  revert head revision. induction evidence as [|e0 evidence IH]; intros head revision; cbn.
  - unfold blen. cbn. by rewrite Z.add_0_r.
  - rewrite IH. by replace (revision + 1 + blen evidence) with (revision + blen (e0 :: evidence))
      by (unfold blen; cbn; lia).
Qed.

Lemma log_append_coordinator log e c c' :
  log_coordinator log = Ok c → evidence_apply e c (blen log.(log_evidence) + 1) = Ok c' →
  log_coordinator (log_append log e) = Ok c'.
Proof.
  intros Hc Ha. unfold log_coordinator, log_append in *. cbn.
  rewrite coordinator_after_snoc, Hc. cbn [result_bind]. by rewrite Z.add_0_l.
Qed.

Lemma log_append_ok swap log e c c' :
  log_ok P swap log → log_coordinator log = Ok c → evidence_sized e →
  evidence_apply e c (blen log.(log_evidence) + 1) = Ok c' → log_ok P swap (log_append log e).
Proof.
  intros Hl Hc Hs Ha. split; try apply Hl.
  - apply Forall_app. split; [apply Hl|by apply Forall_singleton].
  - exists c'. by apply (log_append_coordinator _ _ c).
Qed.

Lemma append_fresh db st acceptance log e c c' :
  store_represents db st → map_Forall (log_ok P) st.(spec_logs) →
  spec_log st acceptance = Ok log → log_coordinator log = Ok c → evidence_sized e →
  evidence_apply e c (blen log.(log_evidence) + 1) = Ok c' →
  insert_evidence db acceptance (blen log.(log_evidence) + 1) e (evidence_to_json e) =
  Ok {| rdb_agreements := db.(rdb_agreements); rdb_aggregates := db.(rdb_aggregates);
        rdb_evidence := <[(acc_key acceptance, blen log.(log_evidence) + 1) := evidence_row e]>
                          db.(rdb_evidence);
        rdb_locks := db.(rdb_locks) |} ∧
  rdb_aggregates db !! acc_key acceptance = Some (aggregate_row log c).
Proof using H0.
  intros Hrep Hok Hs Hc Hz Ha. pose proof Hs as [Hl Hacc]%spec_log_Ok.
  pose proof (role_log_Some _ _ _ Hl Hacc) as Hr. unfold acc_key in Hr. cbn [fst snd] in Hr.
  assert (Hagg : rdb_aggregates db !! acc_key acceptance = Some (aggregate_row log c)).
  { unfold acc_key. rewrite (rep_aggregates _ _ Hrep), Hr. cbn. unfold log_aggregate. by rewrite Hc. }
  split; [|done]. unfold insert_evidence. rewrite Hagg. cbn [sql_store ok_or result_bind].
  pose proof (log_kinds _ _ _ (Hok _ _ Hl) Hc) as Hlife.
  destruct (lifecycle_fresh _ e c c' Hlife) as [Hfresh Hrange];
    [unfold blen in *; by rewrite length_fmap|].
  replace (blen (ev_kind <$> log_evidence log)) with (blen (log_evidence log)) in Hrange
    by (unfold blen; by rewrite length_fmap).
  rewrite sql_insert_fresh; [done|..].
  - pose proof (load_evidence_represented db st acceptance log (blen (log_evidence log)) Hrep) as Hld.
    unfold load_evidence_at in Hld. rewrite Hld by (done || lia).
    rewrite lookup_ge_None_2; [done|unfold blen; lia].
  - unfold evidence_check, between_bytes. cbn -[str_in slen]. rewrite !andb_true_iff, !Z.leb_le.
    unfold evidence_sized, MAX_ENCODED_EVIDENCE_BYTES in Hz.
    assert (1 ≤ slen (evidence_to_json e)).
    { pose proof (evidence_json_nonempty e) as Hne. unfold slen.
      destruct (evidence_to_json e); [done|cbn; lia]. }
    split_and!; [by destruct (acc_local_role acceptance)|lia|lia|by destruct (ev_kind e)|lia|lia].
  - apply not_true_iff_false. rewrite unique_taken_true. intros ([[swap role] n]&row&Hk&Heq).
    unfold evidence_unique, acc_key in Heq. cbn in Heq. injection Heq as -> -> Heq.
    rewrite (rep_evidence _ _ Hrep), Hr in Hk. cbn in Hk. unfold evidence_at in Hk.
    destruct (1 <=? n); [|done]. apply fmap_Some in Hk as (e'&He'&->). cbn in Heq.
    apply evidence_kind_name_inj in Heq. apply Hfresh. rewrite <- Heq.
    exact (list_elem_of_fmap_2 _ _ _ (list_elem_of_lookup_2 _ _ _ He')).
Qed.

(** The rows a fresh projection leaves. *)
Lemma append_represented db st acceptance log e c c' locks_db locks :
  store_represents db st → map_Forall (log_ok P) st.(spec_logs) →
  spec_log st acceptance = Ok log → log_coordinator log = Ok c →
  evidence_apply e c (blen log.(log_evidence) + 1) = Ok c' → represents sha256 locks_db locks →
  store_represents
    {| rdb_agreements := db.(rdb_agreements);
       rdb_aggregates := <[acc_key acceptance := aggregate_row (log_append log e) c']>
                           db.(rdb_aggregates);
       rdb_evidence := <[(acc_key acceptance, blen log.(log_evidence) + 1) := evidence_row e]>
                         db.(rdb_evidence);
       rdb_locks := locks_db |}
    {| spec_logs := <[SwapId_as_str acceptance.(acc_swap_id) := log_append log e]> st.(spec_logs);
       spec_locks := locks |}.
Proof.
  intros Hrep Hok [Hl Hacc]%spec_log_Ok Hc Ha Hlocks.
  pose proof (role_log_Some _ _ _ Hl Hacc) as Hr. unfold acc_key in *. cbn [fst snd] in Hr.
  set (swap := SwapId_as_str (acc_swap_id acceptance)) in *.
  assert (rdb_agreements db = <[swap := agreement_row (log_acceptance (log_append log e))]>
                                (rdb_agreements db)) as ->.
  { symmetry. apply insert_id. rewrite (rep_agreements _ _ Hrep), Hl. done. }
  rewrite <- Hacc at 1. change (log_acceptance log) with (log_acceptance (log_append log e)).
  apply (store_represents_set db st); try done.
  - by apply (log_append_coordinator _ _ c).
  - intros old Ho. by simplify_eq.
  - cbn. rewrite Hacc. intros role revision. rewrite evidence_at_append. case_decide as Hrole.
    + subst role. case_decide as Hn; [subst revision; apply lookup_insert_eq|].
      rewrite lookup_insert_ne by congruence. rewrite (rep_evidence _ _ Hrep), Hr. done.
    + by rewrite lookup_insert_ne by congruence.
  - intros [[swap' role] n] Hne. cbn in Hne. by rewrite lookup_insert_ne by congruence.
Qed.

Lemma update_represented db acceptance log e c c' rows :
  rdb_aggregates db !! acc_key acceptance = Some (aggregate_row log c) →
  log.(log_acceptance) = acceptance → 1 ≤ blen log.(log_evidence) + 1 ≤ 4 →
  update_aggregate {| rdb_agreements := db.(rdb_agreements); rdb_aggregates := db.(rdb_aggregates);
                      rdb_evidence := rows; rdb_locks := db.(rdb_locks) |}
    acceptance (blen log.(log_evidence)) (blen log.(log_evidence) + 1) (log_head log)
    (evidence_chain_append sha256 (log_head log) acceptance (blen log.(log_evidence) + 1)
       (evidence_kind_name e.(ev_kind)) EVIDENCE_PAYLOAD_VERSION (evidence_to_json e))
    (coordinator_to_json c') =
  Ok {| rdb_agreements := db.(rdb_agreements);
        rdb_aggregates := <[acc_key acceptance := aggregate_row (log_append log e) c']>
                            db.(rdb_aggregates);
        rdb_evidence := rows; rdb_locks := db.(rdb_locks) |}.
Proof using sha256_len.
  intros Hagg Hacc Hrange. unfold update_aggregate. cbn [rdb_aggregates].
  rewrite (proj2 (sql_update_Some_1 aggregate_check _ _ _ _
                    (<[acc_key acceptance := aggregate_row (log_append log e) c']>
                       (rdb_aggregates db)))); [done|].
  exists (aggregate_row log c). split_and!; [done| | |].
  - cbn [aggregate_row agg_revision agg_chain_version agg_chain_head].
    by rewrite !Z.eqb_refl, bool_decide_eq_true_2.
  - unfold aggregate_check, len_is, between_bytes, evidence_chain_append.
    cbn -[str_in blen]. rewrite sha256_len. rewrite !(proj2 (Z.leb_le _ _)) by lia.
    by destruct (acc_local_role acceptance).
  - unfold aggregate_row, log_head, log_append. cbn.
    by rewrite head_after_snoc, blen_snoc, Hacc, Z.add_0_l.
Qed.

(** ** Every call *)

Lemma existing_evidence_matches existing evidence :
  (evr_kind (evidence_row existing) ==? evidence_kind_name evidence.(ev_kind))
  && (evr_payload_version (evidence_row existing) =? EVIDENCE_PAYLOAD_VERSION)
  && (evr_payload_json (evidence_row existing) ==? evidence_to_json evidence)
  = (existing ==? evidence).
Proof using H0.
  destruct (decide (existing = evidence)) as [->|Hne].
  - by rewrite !bool_decide_eq_true_2.
  - rewrite (bool_decide_eq_false_2 (existing = evidence)) by done.
    rewrite (bool_decide_eq_false_2 (evr_payload_json _ = _)), andb_false_r; [done|].
    by intros ?%evidence_to_json_inj.
Qed.

Lemma project_refines db st self predecessor evidence close :
  store_represents db st → spec_ok P st → store_opened sha256 self → P self.(store_initial) →
  is_u64 predecessor →
  let out := project_with_optional_maker_intent_close sha256 db self predecessor evidence close in
  let spec := immediate_transaction st (spec_project st self predecessor evidence close) in
  store_represents out.1 spec.1 ∧ spec_ok P spec.1 ∧ out.2 = spec.2.
Proof using distinct_initials sha256_len H0.
  intros Hrep Hok Hop HP Hu. unfold project_with_optional_maker_intent_close, spec_project.
  set (acceptance := store_acceptance self) in *.
  destruct (prepare_evidence_projection predecessor evidence) as [[revision json]|] eqn:Hpr; [|done].
  apply prepare_Ok in Hpr as (->&->&Hsized). cbn [result_bind fst snd].
  unfold project_in_transaction. fold acceptance.
  rewrite (reconstruct_represented db st) by done.
  destruct (spec_log st acceptance) as [log|] eqn:Hs; [|done]. cbn [result_bind].
  pose proof Hs as [Hl Hacc]%spec_log_Ok. pose proof (proj1 Hok _ _ Hl) as Hlo.
  destruct (log_applies _ _ _ Hlo) as [c Hc]. rewrite Hc. cbn [result_bind].
  rewrite (load_evidence_represented db st acceptance log) by (done || apply Hu).
  destruct (log_evidence log !! Z.to_nat predecessor) as [existing|] eqn:He.
  - cbn [fmap option_fmap option_map]. rewrite existing_evidence_matches.
    case_bool_decide; [|done]. cbn [negb reject_if result_bind].
    pose proof (close_represented db st acceptance predecessor (predecessor + 1) close Hrep (proj2 Hok)) as Hcl.
    destruct (maybe_close_maker_intent _ _ _ _ _ _) as [db'|], (spec_close _ _ _ _ _) as [locks|];
      try done; [|by subst].
    destruct Hcl as (locks_db&->&Hr&Hj). split_and!; [split; try done; apply Hrep|by split; [apply Hok|]|done].
  - cbn [fmap option_fmap option_map log_state rec_revision rec_coordinator rec_chain_head].
    destruct (Z.eqb_spec (blen (log_evidence log)) predecessor) as [<-|]; [|done].
    cbn [negb reject_if result_bind]. destruct (is_allowed_at_revision _ _); [|done].
    cbn [negb reject_if result_bind].
    destruct (evidence_apply evidence c _) as [c'|] eqn:Ha; [|done]. cbn [result_bind].
    destruct (append_fresh db st acceptance log evidence c c') as [-> Hagg]; try done; [apply Hok|].
    cbn [result_bind].
    destruct (lifecycle_fresh (ev_kind <$> log_evidence log) evidence c c') as [_ Hrange];
      [by apply (log_kinds (SwapId_as_str (acc_swap_id acceptance)))|unfold blen in *; by rewrite length_fmap|].
    rewrite (update_represented db acceptance log evidence c c');
      [|done|done|unfold blen in *; by rewrite length_fmap in Hrange].
    cbn [result_bind].
    pose proof (append_represented db st acceptance log evidence c c' _ _ Hrep (proj1 Hok) Hs Hc Ha
                  (rep_locks _ _ Hrep)) as Hrep'.
    pose proof (close_represented _ _ acceptance (blen (log_evidence log))
                  (blen (log_evidence log) + 1) close Hrep' (proj2 Hok)) as Hcl.
    cbn [spec_locks] in Hcl.
    destruct (maybe_close_maker_intent _ _ _ _ _ _) as [db'|], (spec_close _ _ _ _ _) as [locks|];
      try done; [|by subst].
    destruct Hcl as (locks_db&->&Hr&Hj). cbn.
    split_and!; [split; try done; apply Hrep'| |done].
    apply (spec_ok_set st); [done|by apply (log_append_ok _ _ _ c c')|done].
Qed.

Lemma decode_evidence_rows revision evidence :
  0 ≤ revision →
  decode_evidence (evidence_rows revision evidence) =
  Ok (imap (λ i e, (revision + Z.of_nat i + 1, e)) evidence).
Proof using H0.
  revert revision. induction evidence as [|e evidence IH]; intros revision Hr; [done|].
  rewrite evidence_rows_cons. cbn [decode_evidence].
  rewrite (proj2 (Z.ltb_ge _ _)) by lia. cbn [evidence_row evr_payload_version evr_payload_json].
  replace (EVIDENCE_PAYLOAD_VERSION =? EVIDENCE_PAYLOAD_VERSION) with true by done.
  cbn [negb reject_if result_bind]. rewrite evidence_round_trip. cbn [ok_or result_bind].
  rewrite IH by lia. cbn [result_bind imap]. do 2 f_equal; [f_equal; lia|].
  apply imap_ext. intros i x Hx. cbn. f_equal. lia.
Qed.

Lemma evidence_represented db st self :
  store_represents db st → spec_ok P st →
  recovery_evidence db self = Ok (spec_evidence st self).
Proof using H0.
  intros Hrep Hok. unfold recovery_evidence, spec_evidence.
  rewrite (select_role_log db st) by (done || apply Hok). unfold role_log, acc_key. cbn [fst snd].
  destruct (spec_logs st !! _) as [log|]; [|done]. cbn [mbind option_bind].
  destruct (decide (acc_local_role (log_acceptance log) = acc_local_role (store_acceptance self)))
    as [Hr|Hr].
  - rewrite Hr, !(bool_decide_eq_true_2 (_ = _)) by done. by rewrite decode_evidence_rows by lia.
  - assert (participant_name (acc_local_role (log_acceptance log))
              ≠ participant_name (acc_local_role (store_acceptance self)))
      by (by intros ?%participant_name_inj).
    by rewrite (bool_decide_eq_false_2 (participant_name _ = _)),
      (bool_decide_eq_false_2 (acc_local_role _ = _)).
Qed.

Lemma recovery_call_refine db st c :
  store_represents db st → spec_ok P st → recovery_typed sha256 c →
  (∀ initial, call_initial c = Some initial → P initial) →
  recovery_refines (recovery_call sha256 db c) (spec_recovery_call sha256 st c).
Proof using distinct_initials sha256_len H0.
  intros Hrep Hok Hc HP. destruct c as [acceptance initial mode|self p e|self p e|self|self|call].
  - apply open_refines; auto.
  - destruct Hc as [Hop Hu]. unfold recovery_refines, recovery_call, spec_recovery_call, project.
    destruct (_ && _); [done|]. cbn [reject_if result_bind fst snd].
    destruct (project_refines db st self p e false) as (H1&H2&H3); auto. by rewrite H3.
  - destruct Hc as [Hop Hu].
    unfold recovery_refines, recovery_call, spec_recovery_call, project_maker_lock_and_close.
    destruct (_ || _); [done|]. cbn [reject_if result_bind fst snd].
    destruct (project_refines db st self p e true) as (H1&H2&H3); auto. by rewrite H3.
  - split_and!; [done..|]. cbn. unfold status, spec_status.
    rewrite (reconstruct_represented db st) by auto.
    destruct (spec_log st _) as [log|]; [|done]. cbn. by destruct (log_coordinator log).
  - split_and!; [done..|]. cbn. by rewrite (evidence_represented db st).
  - assert (Ht : call_typed call) by (by destruct call).
    destruct (call_refine sha256 sha256_len (rdb_locks db) (spec_locks st) call) as (H1&H2&H3);
      [apply Hrep|apply Hok|done|].
    split_and!; [split; try apply Hrep; done|split; [apply Hok|done]|]. cbn. by rewrite H3.
Qed.
End tables.
