(* ===== verification/BtcRecoveryReplay.v ===== *)
(** * What a database the recovery store accepts can hold

    Facts on any database, also one that was changed from outside: when the replay of
    [BtcRecovery] accepts it, the rows decode to evidence that leads the coordinator
    through the life of a swap, and the head of the hash chain determines the rows. *)

From stdpp Require Import base gmap strings list numbers.
From S2P Require Import Prelude SwapCore Coordinator CoordinatorSteps CoordinatorFacts PublicEffectPlan SqlTable StoreBase BtcMakerLock BtcRecovery BtcRecoverySpec BtcRecoveryFacts.

Open Scope Z_scope.

(** ** What applied evidence shows *)

(** What a piece of evidence shows about the swap that starts at [initial]. *)
Definition evidence_shows (initial : SwapCoordinator) (e : BtcLifecycleEvidenceV1) : Prop :=
  e.(ev_chain) = evidence_chain e.(ev_kind) initial ∧
  (e.(ev_kind) ≠ RevealingClaim → e.(ev_revealing_public_witness) = None) ∧
  match e.(ev_kind) with
  | TakerLock =>
      required_confirmations initial Participant_Taker ≤ e.(ev_proof).(proof_confirmations)
  | MakerLock =>
      required_confirmations initial Participant_Maker ≤ e.(ev_proof).(proof_confirmations)
  | RevealingClaim =>
      ∃ witness, e.(ev_revealing_public_witness) = Some witness ∧ blen witness = 64 ∧
        bytes_all_zero witness = false
  | FollowupClaim => e.(ev_proof).(proof_confirmations) ≠ 0
  | MakerRefund =>
      ∃ position deadline, e.(ev_refund_position) = Some position ∧
        initial.(coord_recovery_schedule).(schedule_maker_trigger) = Deadline deadline ∧
        position_chain deadline = position_chain position ∧
        position_basis deadline = position_basis position ∧
        position_value deadline ≤ position_value position
  | TakerRefund =>
      ∃ position, e.(ev_refund_position) = Some position ∧
        let deadline := initial.(coord_recovery_schedule).(schedule_taker_refund) in
        position_chain deadline = position_chain position ∧
        position_basis deadline = position_basis position ∧
        position_value deadline ≤ position_value position
  end.

(** Evidence as its constructors build it; the type of a witness has 64 bytes. *)
Definition evidence_built (e : BtcLifecycleEvidenceV1) : Prop :=
  ∃ chain id confirmations chain_evidence,
    taker_lock chain id confirmations chain_evidence = Ok e ∨
    maker_lock chain id confirmations chain_evidence = Ok e ∨
    (∃ witness claim, blen witness = REVEALING_WITNESS_BYTES ∧
       revealing_claim chain id confirmations chain_evidence witness claim = Ok e) ∨
    followup_claim chain id confirmations chain_evidence = Ok e ∨
    ∃ position, maker_leg_refund chain id confirmations chain_evidence position = Ok e ∨
                taker_leg_refund chain id confirmations chain_evidence position = Ok e.

Lemma validated_chain_evidence_Ok b b' :
  validated_chain_evidence b = Ok b' →
  b' = b ∧ blen b ≠ 0 ∧ blen b ≤ MAX_CHAIN_EVIDENCE_BYTES.
Proof.
  unfold validated_chain_evidence. destruct (_ || _) eqn:Hb; [done|]. intros [= <-].
  rewrite orb_false_iff, Z.eqb_neq, Z.ltb_ge in Hb. naive_solver.
Qed.

Lemma validated_proof_Ok id n proof :
  validated_proof id n = Ok proof → proof.(proof_confirmations) = n.
Proof.
  unfold validated_proof, ChainProof_new. intros Hp. destruct (bad_identifier id); [done|].
  by injection Hp as <-.
Qed.

(** What the constructors accept on the chain of its leg passes every check of its
    shape when it is applied. *)
Theorem built_evidence_well_formed e c :
  evidence_built e → e.(ev_chain) = evidence_chain e.(ev_kind) c → evidence_malformed e c = false.
Proof.
  intros (chain&id&n&b&Hb) Hc. unfold evidence_malformed. rewrite Hc, bool_decide_eq_true_2 by done.
  destruct Hb as [Hb|[Hb|[(w&claim&Hw&Hb)|[Hb|(position&[Hb|Hb])]]]];
    unfold taker_lock, maker_lock, revealing_claim, followup_claim, maker_leg_refund,
      taker_leg_refund, non_revealing, refund in Hb;
    apply result_bind_Ok in Hb as (u&Hr%reject_if_Ok&Hb);
    apply result_bind_Ok in Hb as (proof&<-%validated_proof_Ok&Hb);
    apply result_bind_Ok in Hb as (b'&(->&Hb0&Hbm)%validated_chain_evidence_Ok&[= <-]);
    cbn [ev_chain_evidence ev_kind ev_claim_evidence ev_revealing_public_witness ev_refund_position
         ev_proof]; rewrite (proj2 (Z.eqb_neq _ _) Hb0), (proj2 (Z.ltb_ge _ _) Hbm); cbn; try done.
  - by rewrite Hw, Hr.
  - apply orb_false_iff in Hr as [[_ Hr]%orb_false_iff _]. by rewrite Hr.
  - apply orb_false_iff in Hr as [[_ Hr]%orb_false_iff _]. by rewrite Hr.
Qed.

Lemma evidence_chain_terms kind s s' :
  same_terms s s' → evidence_chain kind s' = evidence_chain kind s.
Proof.
  intros (_&Hp&Hd&_). unfold evidence_chain, funded_chain. rewrite Hp, Hd. done.
Qed.

Lemma evidence_apply_terms e c revision c' :
  evidence_apply e c revision = Ok c' → same_terms c c'.
Proof.
  intros (_&(op&_&Ha)&_)%evidence_apply_Ok. pose proof (same_terms_run [op] c) as Ht.
  cbn in Ht. by rewrite Ha in Ht.
Qed.

Lemma taker_lock_confirmed c proof c' :
  c.(coord_phase) = Offered → observe_taker_lock c proof = (c', Ok tt) →
  c'.(coord_phase) = TakerLockConfirmed →
  policy_required c.(confirmation_policy) ≤ proof.(proof_confirmations).
Proof.
  intros Hc Ha Hp. unfold observe_taker_lock, observe_taker_lock_impl in Ha.
  destruct (known_and_differs _ _); [done|]. rewrite Hc in Ha. cbn in Ha.
  destruct (Z.leb_spec (policy_required (confirmation_policy c)) (proof_confirmations proof)); [done|].
  rewrite !bool_decide_eq_false_2, Hc in Ha by done. by simplify_eq/=.
Qed.

Lemma maker_lock_confirmed c proof c' :
  c.(coord_phase) = TakerLockConfirmed → observe_maker_lock c proof = (c', Ok tt) →
  c'.(coord_phase) = BothLegsLocked →
  policy_required c.(maker_confirmation_policy) ≤ proof.(proof_confirmations).
Proof.
  intros Hc Ha Hp. unfold observe_maker_lock, observe_maker_lock_impl in Ha. rewrite Hc in Ha.
  destruct (Z.leb_spec (policy_required (maker_confirmation_policy c)) (proof_confirmations proof));
    [done|]. by simplify_eq/=.
Qed.

Lemma applied_evidence_shows initial kinds e c c' :
  same_terms initial c → lifecycle kinds c.(coord_phase) →
  evidence_apply e c (blen kinds + 1) = Ok c' → evidence_shows initial e.
Proof.
  intros Ht Hl Ha. pose proof (lifecycle_step _ _ _ _ Hl Ha) as Hl'.
  apply evidence_apply_Ok in Ha as (Hm&(op&Hop&Hap)&Hp).
  unfold evidence_malformed in Hm. rewrite !orb_false_iff, !negb_false_iff in Hm.
  destruct Hm as ((((((((Hch&_)&_)&_)&Hrev)&_)&Hlen)&Hz)&Hconf).
  apply bool_decide_eq_true in Hch. rewrite (evidence_chain_terms _ _ _ Ht) in Hch.
  destruct Ht as (_&_&_&Htp&Hmp&Hs). unfold evidence_shows, evidence_op in *. split; [done|]. split.
  { intros Hne. rewrite bool_decide_eq_false_2 in Hrev by done.
    by destruct (ev_revealing_public_witness e). }
  destruct (ev_kind e) eqn:Hk; cbn in Hop, Hrev, Hconf.
  - injection Hop as <-. assert (coord_phase c = Offered ∧ coord_phase c' = TakerLockConfirmed) as [? ?]
      by (destruct Hl; inversion Hl'; done).
    cbn. rewrite <- Htp. by apply (taker_lock_confirmed c _ c').
  - injection Hop as <-. assert (coord_phase c = TakerLockConfirmed ∧ coord_phase c' = BothLegsLocked)
      as [? ?] by (destruct Hl; inversion Hl'; done).
    cbn. rewrite <- Hmp. by apply (maker_lock_confirmed c _ c').
  - destruct (ev_revealing_public_witness e) as [w|]; [|done]. exists w.
    rewrite negb_false_iff, Z.eqb_eq in Hlen. done.
  - by apply Z.eqb_neq.
  - destruct (ev_refund_position e) as [position|]; [|done]. cbn in Hop. injection Hop as <-.
    apply maker_refund_iff in Hap as (_&(d&Hd&?&?&?)&_). exists position, d. by rewrite <- Hs.
  - destruct (ev_refund_position e) as [position|]; [|done]. cbn in Hop. injection Hop as <-.
    apply taker_refund_iff in Hap as (_&?&?&?&_). exists position. by rewrite <- Hs.
Qed.

Lemma log_shows initial evidence c :
  initial.(coord_phase) = Offered → coordinator_after initial 0 evidence = Ok c →
  same_terms initial c ∧ Forall (evidence_shows initial) evidence.
Proof.
  intros Hi. revert c. induction evidence as [|e evidence IH] using rev_ind; intros c Hc.
  - injection Hc as <-. split; [by repeat split|constructor].
  - rewrite coordinator_after_snoc in Hc.
    destruct (coordinator_after initial 0 evidence) as [c1|] eqn:H1; [|done]. cbn in Hc.
    destruct (IH c1 eq_refl) as [Ht Hf]. split.
    + pose proof (evidence_apply_terms _ _ _ _ Hc). unfold same_terms in *. naive_solver congruence.
    + apply Forall_app. split; [done|]. apply Forall_singleton.
      apply (applied_evidence_shows _ (ev_kind <$> evidence) _ c1 c); [done|by apply (log_lifecycle initial)|].
      unfold blen in *. by rewrite length_fmap.
Qed.

(** ** Accepted rows *)

Section replay.
Context `{RecoveryJson}.
Variable sha256 : bytes → bytes.

Definition row_holds (r : Z * EvidenceRow) (e : BtcLifecycleEvidenceV1) : Prop :=
  0 ≤ r.1 ∧ evidence_from_json r.2.(evr_payload_json) = Some e ∧
  r.2.(evr_kind) = evidence_kind_name e.(ev_kind) ∧
  r.2.(evr_payload_version) = EVIDENCE_PAYLOAD_VERSION ∧
  slen r.2.(evr_payload_json) ≤ MAX_ENCODED_EVIDENCE_BYTES.

Definition row_preimage (acceptance : BtcAgreementAcceptance) (head : bytes)
    (r : Z * EvidenceRow) : bytes :=
  append_preimage head acceptance r.1 r.2.(evr_kind) r.2.(evr_payload_version)
    r.2.(evr_payload_json).

Definition rows_head (acceptance : BtcAgreementAcceptance) (head : bytes)
    (rows : list (Z * EvidenceRow)) : bytes :=
  foldl (λ head r, sha256 (row_preimage acceptance head r)) head rows.

Lemma replay_row_Ok acceptance state r state' :
  replay_row sha256 acceptance state r = Ok state' →
  ∃ e, row_holds r e ∧ r.1 = state.(rec_revision) + 1 ∧
    evidence_apply e state.(rec_coordinator) r.1 = Ok state'.(rec_coordinator) ∧
    state'.(rec_revision) = r.1 ∧
    state'.(rec_revealing_public_witness)
      = last_witness state.(rec_revealing_public_witness) [e] ∧
    state'.(rec_chain_head) = sha256 (row_preimage acceptance state.(rec_chain_head) r).
Proof.
  destruct r as [n row]. unfold replay_row. intros Hr. inv_ok Hr.
  repeat match goal with Hx : reject_if _ _ = Ok _ |- _ => apply reject_if_Ok in Hx end.
  repeat match goal with Hx : ok_or _ _ = Ok _ |- _ => apply ok_or_Ok in Hx end.
  bool_props. subst state'. eexists. unfold row_holds. cbn. split_and!; done || lia.
Qed.

Lemma replay_rows_Ok acceptance state rows state' :
  replay_rows sha256 acceptance state rows = Ok state' →
  ∃ evidence, Forall2 row_holds rows evidence ∧
    rows.*1 = (λ i, state.(rec_revision) + Z.of_nat i + 1) <$> seq 0 (length evidence) ∧
    coordinator_after state.(rec_coordinator) state.(rec_revision) evidence
      = Ok state'.(rec_coordinator) ∧
    state'.(rec_revealing_public_witness)
      = last_witness state.(rec_revealing_public_witness) evidence ∧
    state'.(rec_chain_head) = rows_head acceptance state.(rec_chain_head) rows.
Proof.
  revert state. induction rows as [|r rows IH]; intros state Hr.
  - injection Hr as <-. by exists [].
  - cbn in Hr. destruct (replay_row sha256 acceptance state r) as [s1|] eqn:H1; [|done]. cbn in Hr.
    apply replay_row_Ok in H1 as (e&Hh&Hn&Ha&Hrev&Hw&Hhead).
    apply IH in Hr as (evidence&Hf&Hns&Hc&Hw'&Hhead'). exists (e :: evidence).
    rewrite Hrev, Hn in *. split_and!.
    + by constructor.
    + cbn. f_equal; [lia|]. rewrite Hns, <- fmap_S_seq, <- list_fmap_compose.
      apply list_fmap_ext. intros i x _. cbn. lia.
    + cbn. by rewrite Ha.
    + by rewrite Hw', Hw.
    + by rewrite Hhead', Hhead.
Qed.

Lemma decode_rows_hold rows evidence :
  Forall2 row_holds rows evidence → decode_evidence rows = Ok (zip rows.*1 evidence).
Proof.
  induction 1 as [|[n row] e rows evidence (Hn&He&_&Hv&_) _ IH]; [done|]. cbn in *.
  rewrite Hv, (proj2 (Z.ltb_ge _ _)), He by done. cbn. by rewrite IH.
Qed.

Lemma zip_seq {A} (f : nat → Z) n (l : list A) :
  zip (f <$> seq n (length l)) l = imap (λ i x, (f (n + i)%nat, x)) l.
Proof.
  revert n. induction l as [|x l IH]; intros n; [done|]. cbn. rewrite Nat.add_0_r. f_equal.
  change (zip (f <$> seq (S n) (length l)) l = imap (λ i x, (f (n + S i)%nat, x)) l).
  rewrite IH. apply imap_ext. intros i y _. by rewrite Nat.add_succ_r.
Qed.

Lemma reconstruct_checked_Ok db acceptance initial state :
  reconstruct_checked sha256 db acceptance initial = Ok state →
  replay_rows sha256 acceptance (genesis_state sha256 acceptance initial)
    (select_evidence db acceptance) = Ok state ∧
  ∃ aggregate, db.(rdb_aggregates) !! acc_key acceptance = Some aggregate ∧
    aggregate.(agg_revision) = state.(rec_revision) ∧
    aggregate.(agg_snapshot_json) = coordinator_to_json state.(rec_coordinator) ∧
    aggregate.(agg_chain_head) = state.(rec_chain_head).
Proof.
  unfold reconstruct_checked, load_durable_aggregate. intros Hr. inv_ok Hr.
  repeat match goal with Hx : reject_if _ _ = Ok _ |- _ => apply reject_if_Ok in Hx end.
  repeat match goal with Hx : ok_or _ _ = Ok _ |- _ => apply ok_or_Ok in Hx end.
  bool_props. simplify_eq. split; [done|]. eexists. split_and!; done || lia.
Qed.

(** The evidence behind an accepted database. *)
Lemma reconstructed_evidence db acceptance initial state :
  reconstruct_checked sha256 db acceptance initial = Ok state →
  ∃ evidence,
    decode_evidence (select_evidence db acceptance) = Ok (indexed_evidence evidence) ∧
    Forall2 row_holds (select_evidence db acceptance) evidence ∧
    coordinator_after initial 0 evidence = Ok state.(rec_coordinator) ∧
    state.(rec_revealing_public_witness) = last_witness None evidence ∧
    state.(rec_chain_head) = rows_head acceptance (evidence_chain_genesis sha256 acceptance)
                               (select_evidence db acceptance).
Proof.
  intros [Hr _]%reconstruct_checked_Ok. apply replay_rows_Ok in Hr as (evidence&Hf&Hn&Hc&Hw&Hh).
  exists evidence. split_and!; try done. rewrite (decode_rows_hold _ evidence), Hn, zip_seq by done.
  done.
Qed.
End replay.

(** ** What a recovered outcome means *)

(** Evidence that is no claim publishes no witness. *)
Lemma last_witness_none initial evidence w :
  Forall (evidence_shows initial) evidence → RevealingClaim ∉ ev_kind <$> evidence →
  last_witness w evidence = w.
Proof.
  induction 1 as [|e evidence (_&Hw&_) _ IH]; intros Hk; [done|]. cbn.
  rewrite Hw by set_solver. apply IH. set_solver.
Qed.

(** The evidence and the status of a recovered store whose swap has ended. *)
Definition outcome_shown (initial : SwapCoordinator) (s : BtcOfflineStatus)
    (outcome : BtcTerminalOutcome) (evidence : list BtcLifecycleEvidenceV1) : Prop :=
  match outcome with
  | Outcome_Completed =>
      ev_kind <$> evidence = [TakerLock; MakerLock; RevealingClaim; FollowupClaim] ∧
      ∃ claim, evidence !! 2%nat = Some claim ∧
        s.(status_revealing_public_witness) = claim.(ev_revealing_public_witness)
  | Outcome_Refunded =>
      (ev_kind <$> evidence = [TakerLock; TakerRefund] ∨
       ev_kind <$> evidence = [TakerLock; MakerLock; MakerRefund; TakerRefund]) ∧
      s.(status_revealing_public_witness) = None
  end.

Section outcome.
Context `{RecoveryJson}.
Variable sha256 : bytes → bytes.

(** C11: The outcome an opened store reports, on any database, is the end of a whole life
    of the swap in the evidence it lists: completed after both locks, a claim whose
    64-byte witness it hands out and the claim that follows; or refunded, the taker's
    lock alone or both legs, with nothing published.  Each piece was observed on the
    chain of its leg, the locks with the required confirmations, the refunds at
    positions that have reached their deadlines. *)
Theorem recovered_outcome_genuine db self s outcome :
  validate_initial sha256 self.(store_acceptance) self.(store_initial) = Ok tt →
  status sha256 db self = Ok s → s.(status_terminal) = Some outcome →
  ∃ evidence, recovery_evidence db self = Ok (indexed_evidence evidence) ∧
    Forall (evidence_shows self.(store_initial)) evidence ∧
    outcome_shown self.(store_initial) s outcome evidence.
Proof.
  intros (_&Hoff&_)%validate_initial_Ok Hs Ho. unfold status in Hs.
  destruct (reconstruct_checked _ _ _ _) as [state|] eqn:Hr; [|done]. injection Hs as <-.
  apply reconstructed_evidence in Hr as (evidence&Hd&_&Hc&Hw&_). exists evidence.
  destruct (log_shows _ _ _ Hoff Hc) as [_ Hf]. split_and!; [done..|].
  pose proof (log_lifecycle _ _ _ Hoff Hc) as Hl. cbn in Ho. unfold outcome_shown. cbn.
  remember (ev_kind <$> evidence) as kinds eqn:Hk.
  destruct Hl; try done; injection Ho as <-; (split; [auto|]); rewrite Hw.
  - apply (last_witness_none (store_initial self)); [done|]. rewrite <- Hk. set_solver by done.
  - destruct evidence as [|e1 [|e2 [|e3 [|e4 [|]]]]]; try done. exists e3. split; [done|].
    injection Hk as H1 H2 H3 H4. decompose_Forall. unfold evidence_shows in *.
    destruct_and!. cbn.
    repeat match goal with Hx : _ ≠ RevealingClaim → _ |- _ => rewrite Hx by congruence end.
    by destruct (ev_revealing_public_witness e3).
  - apply (last_witness_none (store_initial self)); [done|]. rewrite <- Hk. set_solver by done.
Qed.
End outcome.

(** ** The head of the chain determines the evidence *)

Section chain.
Context `{RecoveryJson}.
Variable sha256 : bytes → bytes.
Hypothesis sha256_len : ∀ b, blen (sha256 b) = 32.

(** What the digest is computed of along a chain of rows. *)
Fixpoint chain_inputs (acceptance : BtcAgreementAcceptance) (head : bytes)
    (rows : list (Z * EvidenceRow)) : list bytes :=
  match rows with
  | [] => []
  | r :: rows =>
      row_preimage acceptance head r
        :: chain_inputs acceptance (sha256 (row_preimage acceptance head r)) rows
  end.

Definition history_inputs (acceptance : BtcAgreementAcceptance) (rows : list (Z * EvidenceRow))
    : list bytes :=
  genesis_preimage acceptance
    :: chain_inputs acceptance (evidence_chain_genesis sha256 acceptance) rows.

(** Two different inputs of the digest, among those of two histories, with one digest. *)
Definition digest_collision (xs ys : list bytes) : Prop :=
  ∃ x y, x ∈ xs ∧ y ∈ ys ∧ x ≠ y ∧ sha256 x = sha256 y.

Lemma chain_inputs_snoc acceptance head rows r :
  chain_inputs acceptance head (rows ++ [r]) =
  chain_inputs acceptance head rows
    ++ [row_preimage acceptance (rows_head sha256 acceptance head rows) r].
Proof.
  revert head. induction rows as [|r0 rows IH]; intros head; cbn; [done|]. by rewrite IH.
Qed.

Lemma rows_head_snoc acceptance head rows r :
  rows_head sha256 acceptance head (rows ++ [r]) =
  sha256 (row_preimage acceptance (rows_head sha256 acceptance head rows) r).
Proof. unfold rows_head. by rewrite foldl_app. Qed.

Lemma genesis_head_length acceptance rows :
  blen (rows_head sha256 acceptance (evidence_chain_genesis sha256 acceptance) rows) = 32.
Proof using sha256_len.
  destruct rows as [|r rows _] using rev_ind; [apply sha256_len|].
  rewrite rows_head_snoc. apply sha256_len.
Qed.

(** A row whose revision and text fit their prefixes. *)
Definition row_fits (r : Z * EvidenceRow) : Prop :=
  is_u64 r.1 ∧ is_u64 r.2.(evr_payload_version) ∧ slen r.2.(evr_kind) ≤ u64_max ∧
  slen r.2.(evr_payload_json) ≤ u64_max.

Lemma row_preimage_inj acceptance head head' r r' :
  blen head = 32 → blen head' = 32 → row_fits r → row_fits r' →
  slen (SwapId_as_str acceptance.(acc_swap_id)) ≤ u64_max →
  row_preimage acceptance head r = row_preimage acceptance head' r' → head = head' ∧ r = r'.
Proof.
  intros Hh Hh' (Hn&Hv&Hk&Hj) (Hn'&Hv'&Hk'&Hj') Hid Heq.
  destruct r as [n [k v j]], r' as [n' [k' v' j']].
  unfold row_preimage, append_preimage in Heq. cbn [fst snd evr_kind evr_payload_version
    evr_payload_json] in *.
  apply app_inj_1 in Heq as [_ Heq]; [|done]. apply app_inj_1 in Heq as [_ Heq]; [|done].
  apply len_prefixed_inj in Heq as [-> Heq]; [|rewrite ?Hh, ?Hh'; unfold u64_max; lia..].
  apply app_inj_1 in Heq as [_ Heq]; [|done]. apply app_inj_1 in Heq as [_ Heq]; [|done].
  apply app_inj_1 in Heq as [Hbn Heq]; [|by rewrite !length_be_bytes].
  apply len_prefixed_inj in Heq as [Hbk Heq]; [|by rewrite slen_blen..].
  apply app_inj_1 in Heq as [Hbv Heq]; [|by rewrite !length_be_bytes].
  rewrite <- (app_nil_r (len_prefixed (bytes_of_string j))),
    <- (app_nil_r (len_prefixed (bytes_of_string j'))) in Heq.
  apply len_prefixed_inj in Heq as [Hbj _]; [|by rewrite slen_blen..].
  unfold is_u64, in_range in *.
  apply be_bytes_inj in Hbn, Hbv; [|change (256 ^ Z.of_nat 8) with (u64_max + 1); lia..].
  apply bytes_of_string_inj in Hbk, Hbj. by subst.
Qed.

(** The domains of the first head and of the later ones differ. *)
Lemma genesis_not_append acceptance head r :
  genesis_preimage acceptance ≠ row_preimage acceptance head r.
Proof.
  intros Heq. unfold genesis_preimage, row_preimage, append_preimage in Heq.
  by apply len_prefixed_inj in Heq as [Heq _].
Qed.

Lemma rows_head_inj acceptance rows rows' :
  Forall row_fits rows → Forall row_fits rows' →
  slen (SwapId_as_str acceptance.(acc_swap_id)) ≤ u64_max →
  rows_head sha256 acceptance (evidence_chain_genesis sha256 acceptance) rows =
  rows_head sha256 acceptance (evidence_chain_genesis sha256 acceptance) rows' →
  rows = rows' ∨ digest_collision (history_inputs acceptance rows) (history_inputs acceptance rows').
Proof using sha256_len.
  intros Hf Hf' Hid. revert rows' Hf'. unfold history_inputs.
  assert (Hgen : evidence_chain_genesis sha256 acceptance = sha256 (genesis_preimage acceptance)) by done.
  induction rows as [|r rows IH] using rev_ind; intros rows' Hf' Heq;
    destruct rows' as [|r' rows' _] using rev_ind.
  - by left.
  - right. rewrite rows_head_snoc in Heq. rewrite chain_inputs_snoc.
    eexists _, _. split_and!; [left| |apply genesis_not_append|done]. set_solver.
  - right. rewrite rows_head_snoc in Heq. rewrite chain_inputs_snoc.
    eexists _, _. split_and!; [|left|apply not_eq_sym, genesis_not_append|exact Heq]. set_solver.
  - apply Forall_app in Hf as [Hf Hr], Hf' as [Hf' Hr'].
    pose proof (Forall_inv Hr). pose proof (Forall_inv Hr').
    rewrite !rows_head_snoc in Heq. rewrite !chain_inputs_snoc.
    destruct (decide (row_preimage acceptance (rows_head sha256 acceptance
                        (evidence_chain_genesis sha256 acceptance) rows) r =
                      row_preimage acceptance (rows_head sha256 acceptance
                        (evidence_chain_genesis sha256 acceptance) rows') r')) as [Hp|Hp].
    + apply row_preimage_inj in Hp as [Hh ->]; try done; [|apply genesis_head_length..].
      destruct (IH Hf rows' Hf' Hh) as [->|(x&y&Hx&Hy&?&?)]; [by left|right].
      exists x, y. set_solver.
    + right. eexists _, _. split_and!; [..|exact Hp|exact Heq]; set_solver.
Qed.

Lemma row_holds_fits r e : row_holds r e → r.1 ≤ 4 → row_fits r.
Proof.
  intros (Hn&_&Hk&Hv&Hj) H4. unfold row_fits, is_u64, in_range, u64_max. rewrite Hk, Hv.
  unfold MAX_ENCODED_EVIDENCE_BYTES, EVIDENCE_PAYLOAD_VERSION in *.
  split_and!; try lia. by destruct (ev_kind e).
Qed.

Lemma select_revisions db acceptance r : r ∈ select_evidence db acceptance → 1 ≤ r.1 ≤ 4.
Proof.
  unfold select_evidence. rewrite list_elem_of_omap. intros (n&Hn&Hr).
  destruct (load_evidence_at db acceptance n); [|done]. injection Hr as <-.
  apply elem_of_seqZ in Hn. cbn. lia.
Qed.

(** C24: The head of the hash chain binds the evidence: two databases that an acceptance's
    store accepts with the same head hold the same rows, text for text, unless two of
    the inputs hashed along their chains are a collision of the digest. *)
Theorem chain_head_binds_evidence db db' acceptance initial initial' state state' :
  slen (SwapId_as_str acceptance.(acc_swap_id)) ≤ u64_max →
  reconstruct_checked sha256 db acceptance initial = Ok state →
  reconstruct_checked sha256 db' acceptance initial' = Ok state' →
  state.(rec_chain_head) = state'.(rec_chain_head) →
  select_evidence db acceptance = select_evidence db' acceptance ∨
  digest_collision (history_inputs acceptance (select_evidence db acceptance))
                   (history_inputs acceptance (select_evidence db' acceptance)).
Proof using sha256_len.
  intros Hid (evs&_&Hf&_&_&Hh)%reconstructed_evidence (evs'&_&Hf'&_&_&Hh')%reconstructed_evidence Heq.
  assert (Hfits : ∀ d es, Forall2 row_holds (select_evidence d acceptance) es →
                    Forall row_fits (select_evidence d acceptance)).
  { intros d es Hd. apply Forall_lookup. intros i r Hi.
    destruct (Forall2_lookup_l _ _ _ _ _ Hd Hi) as (e&_&He). apply (row_holds_fits _ e He).
    apply (select_revisions d acceptance), (list_elem_of_lookup_2 _ _ _ Hi). }
  apply rows_head_inj; [eauto..|done|congruence].
Qed.
End chain.
