(* ===== verification/BtcRecoveryTheorems.v ===== *)
(** * Runs of the Bitcoin recovery store

    Any number of processes open one database and call it, one call after the other;
    calls may be lost before or after their commit.  Theorems: the tables behave as the log of
    [BtcRecoverySpec]; an accepted swap can be recovered ever after; projected
    evidence is final; the maker's lock is in the log exactly when its plan is closed. *)

From stdpp Require Import base gmap strings list numbers.
From S2P Require Import Prelude SwapCore Coordinator CoordinatorFacts PublicEffectPlan SqlTable StoreBase BtcMakerLock BtcMakerLockFacts BtcRecovery BtcRecoverySpec BtcRecoveryFacts.

Open Scope Z_scope.

(** ** Logs only grow *)

Definition log_grow (log log' : RecoveryLog) : Prop :=
  log'.(log_acceptance) = log.(log_acceptance) ∧ log'.(log_initial) = log.(log_initial) ∧
  log.(log_evidence) `prefix_of` log'.(log_evidence).

#[global] Instance log_grow_preorder : PreOrder log_grow.
Proof.
  split.
  - intros log. by split_and!.
  - intros x y z (H1&H2&H3) (H1'&H2'&H3'). split_and!; [congruence..|by etrans].
Qed.

Definition store_grow (st st' : RecoverySpec) : Prop :=
  map_le log_grow st.(spec_logs) st'.(spec_logs).

#[global] Instance store_grow_preorder : PreOrder store_grow.
Proof.
  unfold store_grow. split; [intros st; reflexivity|].
  intros x y z H1 H2. by trans (spec_logs y).
Qed.

Lemma spec_project_cases `{RecoveryJson} st self predecessor evidence close st' commit :
  spec_project st self predecessor evidence close = Ok (st', commit) →
  ∃ log, spec_log st self.(store_acceptance) = Ok log ∧
    commit.(projection_revision) = predecessor + 1 ∧
    spec_close st.(spec_locks) self.(store_acceptance) predecessor (predecessor + 1) close
      = Ok st'.(spec_locks) ∧
    ((log.(log_evidence) !! Z.to_nat predecessor = Some evidence ∧
      st'.(spec_logs) = st.(spec_logs)) ∨
     (blen log.(log_evidence) = predecessor ∧
      is_allowed_at_revision evidence.(ev_kind) (predecessor + 1) = true ∧
      st'.(spec_logs) = <[SwapId_as_str self.(store_acceptance).(acc_swap_id) :=
                            log_append log evidence]> st.(spec_logs))).
Proof.
  unfold spec_project. intros Hp. apply result_bind_Ok in Hp as ([revision json]&Hpr&Hp).
  apply prepare_Ok in Hpr as (->&->&_). cbn [fst] in Hp.
  apply result_bind_Ok in Hp as (log&Hl&Hp). exists log. split; [done|].
  destruct (log_evidence log !! Z.to_nat predecessor) as [existing|] eqn:He.
  - apply result_bind_Ok in Hp as (u&Hr%reject_if_Ok&Hp).
    rewrite negb_false_iff, bool_decide_eq_true in Hr. subst existing.
    apply result_bind_Ok in Hp as (locks&->&[= <- <-]). naive_solver.
  - apply result_bind_Ok in Hp as (u&Hn%reject_if_Ok&Hp).
    apply result_bind_Ok in Hp as (u'&Ha%reject_if_Ok&Hp).
    rewrite negb_false_iff in Hn, Ha. apply Z.eqb_eq in Hn.
    apply result_bind_Ok in Hp as (c&_&Hp). apply result_bind_Ok in Hp as (c'&_&Hp).
    apply result_bind_Ok in Hp as (locks&->&[= <- <-]). naive_solver.
Qed.

Lemma spec_project_grow `{RecoveryJson} st self predecessor evidence close st' commit :
  spec_project st self predecessor evidence close = Ok (st', commit) → store_grow st st'.
Proof.
  intros (log&[Hl Ha]%spec_log_Ok&_&_&[[_ He]|(_&_&He)])%spec_project_cases; unfold store_grow;
    rewrite He; [done|].
  intros swap x Hx. destruct (decide (swap = SwapId_as_str (acc_swap_id (store_acceptance self))))
    as [->|Hne].
  - simplify_eq. eexists. split; [apply lookup_insert_eq|]. split_and!; [done..|].
    by apply prefix_app_r.
  - exists x. by rewrite lookup_insert_ne by done.
Qed.

Lemma spec_recovery_grow `{RecoveryJson} sha256 st c :
  store_grow st (spec_recovery_call sha256 st c).1.
Proof.
  destruct c as [acceptance initial mode|self p e|self p e|self|self|call]; cbn;
    [| | |reflexivity|reflexivity|unfold store_grow; cbn; reflexivity].
  - destruct (spec_open sha256 st acceptance initial mode) as [[st' store]|] eqn:Ho; [|done]. cbn.
    unfold spec_open in Ho. apply result_bind_Ok in Ho as (u&_&Ho).
    destruct (spec_logs st !! _) as [log|] eqn:Hl.
    + apply result_bind_Ok in Ho as (u'&_&[= <- <-]). done.
    + case_bool_decide; [done|]. injection Ho as <- <-. intros swap x Hx. cbn.
      exists x. by rewrite lookup_insert_ne by congruence.
  - destruct (result_bind _ _) as [[st' commit]|] eqn:Ho; [|done]. cbn.
    apply result_bind_Ok in Ho as (u&_&Ho). by eapply spec_project_grow.
  - destruct (result_bind _ _) as [[st' commit]|] eqn:Ho; [|done]. cbn.
    apply result_bind_Ok in Ho as (u&_&Ho). by eapply spec_project_grow.
Qed.

(** ** The maker's lock and its plan *)

Definition is_close (c : LockCall) : bool := match c with LockClose _ _ _ _ => true | _ => false end.

(** Only the closing closes a plan. *)
Lemma lock_call_keeps_closed st c swap s :
  is_close c = false → (spec_call st c).1 !! swap = Some s → s.(lock_closed_revision) ≠ None →
  ∃ s0, st !! swap = Some s0 ∧ s0.(lock_closed_revision) = s.(lock_closed_revision).
Proof.
  intros Hc Hs Hcl. unfold spec_call in Hs.
  destruct c as [i|i id o|i id sub|sw a p q]; [..|done]; cbn -[find_step_of] in Hs.
  - destruct (BtcMakerLockIntentV1_validate i); [|eauto]. cbn in Hs.
    destruct (st !! swap_of i) as [s0|] eqn:H0; cbn in Hs; [eauto|].
    apply lookup_insert_Some in Hs as [[_ <-]|[_ ?]]; [done|eauto].
  - destruct (find_step_of st i id) as [[s0 [index step]]|] eqn:Hf; [|eauto]. cbn in Hs.
    apply find_step_of_Ok in Hf as (H0&Hi&_). destruct (decide_observation _ _ _ _) as [[step' send]|]; [|eauto].
    cbn in Hs. apply lookup_insert_Some in Hs as [[<- <-]|[_ ?]]; [|eauto]. exists s0. by subst i.
  - destruct (BtcMakerLockIntentV1_validate i); [|eauto]. cbn -[find_step_of] in Hs.
    destruct (st !! swap_of i) as [s1|] eqn:H1; [|eauto]. cbn -[find_step_of] in Hs.
    destruct (_ || _); [eauto|].
    destruct (find_step_of st i id) as [[s0 [index step]]|] eqn:Hf; [|eauto]. cbn in Hs.
    apply find_step_of_Ok in Hf as (H0&Hi&_). destruct (decide_submission _ _ _ _) as [[step' send]|]; [|eauto].
    cbn in Hs. apply lookup_insert_Some in Hs as [[<- <-]|[_ ?]]; [|eauto]. exists s0. by subst i.
Qed.

Definition plan_closed (acceptance : BtcAgreementAcceptance) (s : BtcMakerLockIntentSnapshot)
    : Prop :=
  s.(lock_closed_revision) = Some 2 ∧
  s.(lock_intent).(lock_agreement_commitment) = execution_binding acceptance ∧
  all_accepted s.(lock_steps) = true.

(** The log of a maker that has its lock as second evidence. *)
Definition maker_locked (log : RecoveryLog) : Prop :=
  log.(log_acceptance).(acc_local_role) = Participant_Maker ∧
  ∃ e, log.(log_evidence) !! 1%nat = Some e ∧ e.(ev_kind) = MakerLock.

Record locks_agree (st : RecoverySpec) : Prop := {
  closed_locked : ∀ swap s, st.(spec_locks) !! swap = Some s → s.(lock_closed_revision) ≠ None →
    ∃ log, st.(spec_logs) !! swap = Some log ∧ maker_locked log;
  locked_closed : ∀ swap log, st.(spec_logs) !! swap = Some log → maker_locked log →
    ∃ s, st.(spec_locks) !! swap = Some s ∧ plan_closed log.(log_acceptance) s
}.

Lemma maker_locked_grow log log' : log_grow log log' → maker_locked log → maker_locked log'.
Proof.
  intros (Ha&_&Hp) [Hr (e&He&Hk)]. split; [congruence|]. exists e. split; [|done].
  by eapply prefix_lookup_Some.
Qed.

(** A step that leaves the plans alone and adds no maker's lock. *)
Lemma locks_agree_same st st' :
  locks_agree st → st'.(spec_locks) = st.(spec_locks) → store_grow st st' →
  (∀ swap log', st'.(spec_logs) !! swap = Some log' → maker_locked log' →
     ∃ log, st.(spec_logs) !! swap = Some log ∧ maker_locked log) →
  locks_agree st'.
Proof.
  intros [H1 H2] Hl Hg Hb. split; rewrite Hl.
  - intros swap s Hs Hc. destruct (H1 swap s Hs Hc) as (log&Hlog&Hm).
    destruct (Hg _ _ Hlog) as (log'&Hlog'&Hgl). exists log'. split; [done|].
    by eapply maker_locked_grow.
  - intros swap log' Hlog' Hm. destruct (Hb _ _ Hlog' Hm) as (log&Hlog&Hm').
    destruct (Hg _ _ Hlog) as (x&Hx&Ha&_). simplify_eq. rewrite Ha. eauto.
Qed.

Lemma append_maker_locked log e :
  maker_locked (log_append log e) →
  maker_locked log ∨
  (log.(log_acceptance).(acc_local_role) = Participant_Maker ∧ e.(ev_kind) = MakerLock).
Proof.
  intros [Hr (e'&He&Hk)]. cbn in *. apply lookup_app_Some in He as [He|[_ He]].
  - left. split; [done|]. eauto.
  - apply list_lookup_singleton_Some in He as [_ <-]. by right.
Qed.

Lemma locks_agree_project `{RecoveryJson} st self p e st' commit :
  locks_agree st →
  (self.(store_acceptance).(acc_local_role) = Participant_Maker → e.(ev_kind) ≠ MakerLock) →
  spec_project st self p e false = Ok (st', commit) → locks_agree st'.
Proof.
  intros Hag Hne Hp. pose proof (spec_project_grow _ _ _ _ _ _ _ Hp) as Hg.
  apply spec_project_cases in Hp as (log&[Hl Ha]%spec_log_Ok&_&[= Hk]&Hcases).
  apply (locks_agree_same st); [done|done|done|]. intros swap log' Hlog' Hm.
  destruct Hcases as [[_ He]|(_&_&He)]; rewrite He in Hlog'; [eauto|].
  apply lookup_insert_Some in Hlog' as [[<- <-]|[_ ?]]; [|eauto].
  apply append_maker_locked in Hm as [?|[Hr Hk']]; [eauto|]. rewrite Ha in Hr. by apply Hne in Hr.
Qed.

(** What a successful closing needs and leaves. *)
Lemma spec_close_Ok locks acceptance p locks' :
  spec_close locks acceptance p (p + 1) true = Ok locks' →
  p = 1 ∧ ∃ s, locks !! SwapId_as_str acceptance.(acc_swap_id) = Some s ∧
    s.(lock_intent).(lock_agreement_commitment) = execution_binding acceptance ∧
    all_accepted s.(lock_steps) = true ∧
    locks' = <[SwapId_as_str acceptance.(acc_swap_id) :=
                 {| lock_intent := s.(lock_intent); lock_steps := s.(lock_steps);
                    lock_closed_revision := Some 2 |}]> locks.
Proof.
  unfold spec_close, spec_call. destruct (Z.eqb_spec p 1) as [->|]; [|done]. cbn.
  destruct (locks !! _) as [s|] eqn:Hs; [|done]. cbn. case_bool_decide; [|done]. cbn.
  destruct (all_accepted (lock_steps s)) eqn:Ha; [|done]. cbn. intros [= <-]. naive_solver.
Qed.

Lemma locks_agree_close `{RecoveryJson} st self p e st' commit :
  locks_agree st → self.(store_acceptance).(acc_local_role) = Participant_Maker →
  e.(ev_kind) = MakerLock → spec_project st self p e true = Ok (st', commit) → locks_agree st'.
Proof.
  intros [H1 H2] Hr Hk Hp. pose proof (spec_project_grow _ _ _ _ _ _ _ Hp) as Hg.
  apply spec_project_cases in Hp as (log&[Hl Ha]%spec_log_Ok&_&Hc&Hcases).
  apply spec_close_Ok in Hc as (->&s&Hs&Hb&Hacc&Hlocks).
  set (swap0 := SwapId_as_str _) in *.
  assert (Hnew : ∃ log', st'.(spec_logs) !! swap0 = Some log' ∧ maker_locked log' ∧
                   log_acceptance log' = store_acceptance self).
  { destruct Hcases as [[He Hlogs]|(Hn&_&Hlogs)]; rewrite Hlogs.
    - exists log. split; [done|]. split; [|done]. split; [congruence|]. eauto.
    - exists (log_append log e). rewrite lookup_insert_eq. split; [done|]. split; [|done].
      split; [cbn; congruence|]. exists e. split; [|done]. cbn.
      rewrite lookup_app_r by (unfold blen in Hn; lia). unfold blen in Hn.
      by replace (1 - length (log_evidence log))%nat with O by lia. }
  destruct Hnew as (log'&Hlog'&Hm'&Ha'). split; rewrite Hlocks.
  - intros swap x Hx Hcl. destruct (decide (swap = swap0)) as [->|Hne]; [eauto|].
    rewrite lookup_insert_ne in Hx by done. destruct (H1 swap x Hx Hcl) as (y&Hy&Hmy).
    destruct (Hg _ _ Hy) as (y'&Hy'&Hgy). exists y'. split; [done|by eapply maker_locked_grow].
  - intros swap y Hy Hmy. destruct (decide (swap = swap0)) as [->|Hne].
    + simplify_eq. rewrite lookup_insert_eq. eexists. split; [done|]. by rewrite Ha'.
    + rewrite lookup_insert_ne by done. apply (H2 swap); [|done].
      destruct Hcases as [[_ Hlogs]|(_&_&Hlogs)]; rewrite Hlogs in Hy; [done|].
      by rewrite lookup_insert_ne in Hy by done.
Qed.

Lemma lifecycle_maker_lock kinds p n :
  lifecycle kinds p → kinds !! n = Some MakerLock → n = 1%nat.
Proof. destruct 1; do 5 (destruct n as [|n]; [done|]); done. Qed.

(** Evidence in the log is projected again as a replay. *)
Lemma spec_project_replay `{RecoveryJson} sha256 P st self p e close log json :
  locks_agree st → spec_log st self.(store_acceptance) = Ok log →
  log_ok sha256 P (SwapId_as_str self.(store_acceptance).(acc_swap_id)) log →
  0 ≤ p → log.(log_evidence) !! Z.to_nat p = Some e →
  prepare_evidence_projection p e = Ok (p + 1, json) →
  (close = true → self.(store_acceptance).(acc_local_role) = Participant_Maker ∧
                  e.(ev_kind) = MakerLock) →
  ∃ st', spec_project st self p e close
         = Ok (st', {| projection_revision := p + 1; projection_was_replay := true |}).
Proof.
  intros Hag Hlog Hlo Hp He Hprep Hcl. unfold spec_project. rewrite Hprep. cbn [result_bind fst].
  rewrite Hlog. cbn [result_bind]. rewrite He, bool_decide_eq_true_2 by done.
  cbn [negb reject_if result_bind]. destruct close; [|by eexists].
  destruct (Hcl eq_refl) as [Hr Hk]. apply spec_log_Ok in Hlog as [Hl Ha].
  destruct (log_applies _ _ _ _ Hlo) as [c Hc].
  assert (Z.to_nat p = 1%nat) as Hp1.
  { apply (lifecycle_maker_lock _ _ _ (log_kinds _ _ _ _ _ Hlo Hc)).
    rewrite list_lookup_fmap, He. cbn. by rewrite Hk. }
  destruct (locked_closed _ Hag _ _ Hl) as (s&Hs&Hcls&Hb&Hacc).
  { split; [congruence|]. exists e. by rewrite <- Hp1. }
  unfold spec_close, spec_call. replace p with 1 by lia. cbn. rewrite Hs. cbn.
  rewrite bool_decide_eq_true_2 by (by rewrite Hb, Ha). rewrite Hacc. by eexists.
Qed.

Lemma spec_project_conflict `{RecoveryJson} st self p e e' close log :
  spec_log st self.(store_acceptance) = Ok log → log.(log_evidence) !! Z.to_nat p = Some e →
  e' ≠ e → ∃ err, spec_project st self p e' close = Err err.
Proof.
  intros Hlog He Hne. destruct (spec_project st self p e' close) as [[st' commit]|err] eqn:Hp; [|eauto].
  apply spec_project_cases in Hp as (l&Hl&_&_&Hcases).
  assert (l = log) as -> by congruence. destruct Hcases as [[He' _]|(Hn&_&_)]; [congruence|].
  apply lookup_lt_Some in He. unfold blen in *. lia.
Qed.

Section runs.
Context `{RecoveryJsonLaws}.
Variable sha256 : bytes → bytes.

Definition recovery_after (calls : list (RecoveryCall * Fate)) : RecoveryDb :=
  run_calls (recovery_call sha256) empty_recovery_db calls.

Definition recovery_spec_after (calls : list (RecoveryCall * Fate)) : RecoverySpec :=
  run_calls (spec_recovery_call sha256) empty_recovery_spec calls.

Definition recovery_committed (calls : list (RecoveryCall * Fate)) (n : nat)
    : option (RecoveryCall * result RecoveryOutput BtcRecoveryError) :=
  committed_at (recovery_call sha256) empty_recovery_db calls n.

(** The coordinators a run starts from. *)
Definition run_initial (calls : list (RecoveryCall * Fate)) (initial : SwapCoordinator) : Prop :=
  ∃ c, c ∈ calls ∧ call_initial c.1 = Some initial.

(** A run of calls the types admit in which no two different starting coordinators
    have the same SHA-256 digest. *)
Definition good_run (calls : list (RecoveryCall * Fate)) : Prop :=
  Forall (λ c : RecoveryCall * Fate, recovery_typed sha256 c.1) calls ∧
  ∀ c c', run_initial calls c → run_initial calls c' →
    canonical_initial_snapshot_digest sha256 c = canonical_initial_snapshot_digest sha256 c' →
    c = c'.

Hypothesis sha256_len : ∀ b, blen (sha256 b) = 32.

(** ** The tables and the log *)

Section good.
Context (calls : list (RecoveryCall * Fate)) (good : good_run calls).

Definition admitted_call (c : RecoveryCall) : Prop :=
  recovery_typed sha256 c ∧ ∀ initial, call_initial c = Some initial → run_initial calls initial.

Lemma good_admitted : Forall (λ c : RecoveryCall * Fate, admitted_call c.1) calls.
Proof using good.
  destruct good as [Ht _]. rewrite list.Forall_forall in Ht |- *. intros c Hc. split; [by apply Ht|].
  intros initial Hi. by exists c.
Qed.

(** What holds of the tables and the log together. *)
Definition joint (t : RecoveryDb * RecoverySpec) : Prop :=
  store_represents sha256 t.1 t.2 ∧ spec_ok sha256 (run_initial calls) t.2.

Lemma joint_empty : joint (empty_recovery_db, empty_recovery_spec).
Proof.
  split; [split|split]; cbn.
  - intros. by rewrite !lookup_empty.
  - intros. unfold role_log. cbn. by rewrite !lookup_empty.
  - intros. unfold role_log. cbn. by rewrite !lookup_empty.
  - apply represents_empty.
  - apply map_Forall_empty.
  - apply journal_ok_empty.
Qed.

Lemma joint_call db st c :
  admitted_call c → joint (db, st) →
  joint ((recovery_call sha256 db c).1, (spec_recovery_call sha256 st c).1) ∧
  (recovery_call sha256 db c).2 = (spec_recovery_call sha256 st c).2.
Proof using good sha256_len H0.
  intros [Hc Hi] [Hrep Hok].
  destruct (recovery_call_refine sha256 sha256_len (run_initial calls) (proj2 good) db st c)
    as (H1&H2&H3); done.
Qed.

Lemma joint_run db st cs :
  Forall (λ c : RecoveryCall * Fate, admitted_call c.1) cs → joint (db, st) →
  joint (run_calls (recovery_call sha256) db cs, run_calls (spec_recovery_call sha256) st cs).
Proof using good sha256_len H0.
  intros HP. revert db st. induction HP as [|[c f] cs Hc _ IH]; intros db st Hj; [done|]. cbn.
  destruct (joint_call db st c Hc Hj) as [Hj' _]. unfold call_next. destruct f; cbn; auto.
Qed.

Lemma joint_take n : joint (recovery_after (take n calls), recovery_spec_after (take n calls)).
Proof using good sha256_len H0.
  apply joint_run; [apply Forall_take, good_admitted|apply joint_empty].
Qed.

Lemma recovery_committed_spec n :
  recovery_committed calls n
  = committed_at (spec_recovery_call sha256) empty_recovery_spec calls n.
Proof using good sha256_len H0.
  unfold recovery_committed, committed_at. destruct (calls !! n) as [[c f]|] eqn:Hn; [|done].
  pose proof (Forall_lookup_1 _ _ _ _ good_admitted Hn) as Hc.
  destruct (joint_call _ _ c Hc (joint_take n)) as [_ Ho].
  unfold recovery_after, recovery_spec_after in Ho. by rewrite Ho.
Qed.

Lemma locks_agree_call db st c :
  admitted_call c → joint (db, st) → locks_agree st →
  locks_agree (spec_recovery_call sha256 st c).1.
Proof using sha256_len.
  intros [Hc _] [Hrep Hok] Hag. cbn [fst snd] in Hrep, Hok.
  pose proof (spec_recovery_grow sha256 st c) as Hg.
  destruct c as [acceptance initial mode|self p e|self p e|self|self|call]; cbn in *; try done.
  - destruct (spec_open sha256 st acceptance initial mode) as [[st' store]|] eqn:Ho; [|done]. cbn in *.
    unfold spec_open in Ho. apply result_bind_Ok in Ho as (u&_&Ho).
    destruct (spec_logs st !! _) as [log|] eqn:Hl.
    + by apply result_bind_Ok in Ho as (u'&_&[= <- <-]).
    + case_bool_decide; [done|]. injection Ho as <- <-. apply (locks_agree_same st); try done.
      cbn. intros swap log' Hlog' Hm. apply lookup_insert_Some in Hlog' as [[_ <-]|[_ ?]]; [|eauto].
      by destruct Hm as [_ (e&He&_)].
  - destruct (result_bind _ _) as [[st' commit]|] eqn:Ho; [|done]. cbn.
    apply result_bind_Ok in Ho as (u&Hr%reject_if_Ok&Ho).
    apply (locks_agree_project st self p e _ commit); [done| |done]. intros Hm Hk.
    by rewrite Hm, Hk in Hr.
  - destruct (result_bind _ _) as [[st' commit]|] eqn:Ho; [|done]. cbn.
    apply result_bind_Ok in Ho as (u&Hr%reject_if_Ok&Ho).
    rewrite orb_false_iff, !negb_false_iff, !bool_decide_eq_true in Hr. destruct Hr.
    by apply (locks_agree_close st self p e _ commit).
  - assert (is_close call = false ∧ call_typed call) as [Hnc Ht] by (by destruct call).
    assert (Hinv : run_inv sha256 (spec_locks st)) by (exists (rdb_locks db); split; [apply Hrep|apply Hok]).
    pose proof (spec_call_grow sha256 _ _ Ht Hinv) as Hgrow. destruct Hag as [H1 H2].
    split; cbn.
    + intros swap s Hs Hcl. destruct (lock_call_keeps_closed _ _ _ _ Hnc Hs Hcl) as (s0&Hs0&Heq).
      apply (H1 swap s0); congruence.
    + intros swap log Hlog Hm. destruct (H2 swap log Hlog Hm) as (s&Hs&Hp).
      destruct (Hgrow _ _ Hs) as (s'&Hs'&_&_&Hsame). exists s'. split; [done|].
      destruct Hp as [Hcl Hp]. rewrite Hsame by congruence. done.
Qed.

Lemma locks_agree_take n : locks_agree (recovery_spec_after (take n calls)).
Proof using good sha256_len H0.
  assert (Hall : ∀ cs db st, Forall (λ c : RecoveryCall * Fate, admitted_call c.1) cs →
    joint (db, st) → locks_agree st → locks_agree (run_calls (spec_recovery_call sha256) st cs)).
  { induction cs as [|[c f] cs IH]; intros db st Hcs Hj Hag; [done|].
    apply list.Forall_cons in Hcs as [Hc Hcs]. cbn in *. unfold call_next.
    destruct (joint_call db st c Hc Hj) as [Hj' _].
    pose proof (locks_agree_call db st c Hc Hj Hag). destruct f; cbn; eauto. }
  apply (Hall _ empty_recovery_db); [apply Forall_take, good_admitted|apply joint_empty|].
  split; cbn; intros *; by rewrite lookup_empty.
Qed.

(** The log before a committed call and at every later position. *)
Lemma recovery_committed_grow i j c o :
  recovery_committed calls i = Some (c, o) → (i < j)%nat →
  admitted_call c ∧
  o = (spec_recovery_call sha256 (recovery_spec_after (take i calls)) c).2 ∧
  store_grow (spec_recovery_call sha256 (recovery_spec_after (take i calls)) c).1
    (recovery_spec_after (take j calls)).
Proof using good sha256_len H0.
  intros Hi Hij. rewrite recovery_committed_spec in Hi.
  destruct (committed_grow (spec_recovery_call sha256) admitted_call (λ _, True)
    (λ _ _ _ _, I) store_grow empty_recovery_spec calls i j c o) as (Hc&_&Ho&Hg); try done.
  - intros st c' _ _. apply spec_recovery_grow.
  - apply good_admitted.
Qed.

(** At a position of the run, a call on the tables returns what it returns on the log. *)
Lemma call_output j c :
  admitted_call c →
  (recovery_call sha256 (recovery_after (take j calls)) c).2
  = (spec_recovery_call sha256 (recovery_spec_after (take j calls)) c).2.
Proof using good sha256_len H0. intros Hc. apply (joint_call _ _ c Hc (joint_take j)). Qed.

(** An opened store's swap has its log at every later position. *)
Lemma opened_log i j acceptance initial mode self :
  recovery_committed calls i = Some (Call_open acceptance initial mode, Ok (Out_store self)) →
  (i < j)%nat →
  self.(store_acceptance) = acceptance ∧ self.(store_initial) = initial ∧
  opened sha256 acceptance initial ∧ run_initial calls initial ∧
  ∃ log, spec_log (recovery_spec_after (take j calls)) acceptance = Ok log.
Proof using good sha256_len H0.
  intros Hi Hij. destruct (recovery_committed_grow _ _ _ _ Hi Hij) as ([Hb Hr]&Ho&Hg).
  cbn in Hb, Hr, Ho, Hg. set (st := recovery_spec_after (take i calls)) in *.
  destruct (spec_open sha256 st acceptance initial mode) as [[st' store]|] eqn:Hop; [|done].
  cbn in Ho, Hg. injection Ho as ->. unfold spec_open in Hop.
  apply result_bind_Ok in Hop as ([]&Hv&Hop).
  assert (∃ log, spec_logs st' !! SwapId_as_str (acc_swap_id acceptance) = Some log ∧
            log_acceptance log = acceptance ∧ store_acceptance store = acceptance ∧
            store_initial store = initial) as (log&Hl&Ha&?&?).
  { destruct (spec_logs st !! _) as [log|] eqn:Hl.
    - apply result_bind_Ok in Hop as (u&Hs%same_acceptance_Ok&[= <- <-]). eauto.
    - case_bool_decide; [done|]. injection Hop as <- <-. eexists. cbn. by rewrite lookup_insert_eq. }
  split_and!; [done..|by split|by apply Hr|]. destruct (Hg _ _ Hl) as (log'&Hl'&Ha'&_). exists log'.
  apply spec_log_Ok. split; [done|congruence].
Qed.

(** A log's coordinator at a position of the run. *)
Lemma log_coordinator_take j acceptance log :
  spec_log (recovery_spec_after (take j calls)) acceptance = Ok log →
  log_ok sha256 (run_initial calls) (SwapId_as_str acceptance.(acc_swap_id)) log ∧
  ∃ c, log_coordinator log = Ok c.
Proof using good sha256_len H0.
  intros [Hl _]%spec_log_Ok. destruct (joint_take j) as [_ [Hok _]].
  pose proof (Hok _ _ Hl) as Hlo. split; [done|apply Hlo].
Qed.

(** A committed projection's evidence is in the log at every later position. *)
Lemma projected_log i j self p e close commit :
  recovery_committed calls i
    = Some ((if close : bool then Call_project_close else Call_project) self p e,
            Ok (Out_projection commit)) →
  (i < j)%nat →
  store_opened sha256 self ∧ run_initial calls self.(store_initial) ∧ is_u64 p ∧
  commit.(projection_revision) = p + 1 ∧
  (close = true ↔ self.(store_acceptance).(acc_local_role) = Participant_Maker ∧
                  e.(ev_kind) = MakerLock) ∧
  (∃ json, prepare_evidence_projection p e = Ok (p + 1, json)) ∧
  ∃ log, spec_log (recovery_spec_after (take j calls)) self.(store_acceptance) = Ok log ∧
    log.(log_evidence) !! Z.to_nat p = Some e.
Proof using good sha256_len H0.
  intros Hi Hij. destruct (recovery_committed_grow _ _ _ _ Hi Hij) as ([Hb Hr]&Ho&Hg).
  set (st := recovery_spec_after (take i calls)) in *.
  assert (∃ st', spec_project st self p e close = Ok (st', commit) ∧
            store_grow st' (recovery_spec_after (take j calls)) ∧
            store_opened sha256 self ∧ is_u64 p ∧ run_initial calls (store_initial self) ∧
            (close = true ↔ acc_local_role (store_acceptance self) = Participant_Maker ∧
                            ev_kind e = MakerLock)) as (st'&Hp&Hg'&Hop&Hu&Hri&Hcl).
  { destruct close; cbn in Hb, Hr, Ho, Hg; destruct (reject_if _ _) eqn:Hrej; try done;
      cbn in Ho, Hg; apply reject_if_Ok in Hrej;
      destruct (spec_project st self p e _) as [[st' c']|]; try done; cbn in Ho, Hg;
      injection Ho as ->; exists st'; destruct Hb as [? ?];
      (split_and!; [done..|by apply Hr|]).
    - rewrite orb_false_iff, !negb_false_iff, !bool_decide_eq_true in Hrej. tauto.
    - split; [done|]. intros [Hm Hk]. by rewrite Hm, Hk in Hrej. }
  pose proof Hp as Hprep. unfold spec_project in Hprep.
  apply result_bind_Ok in Hprep as ([n json]&Hprep&_). pose proof (prepare_Ok _ _ _ _ Hprep) as (->&_).
  apply spec_project_cases in Hp as (log&[Hl Ha]%spec_log_Ok&Hrev&_&Hcases).
  split_and!; [done..|by exists json|].
  assert (∃ log', spec_logs st' !! SwapId_as_str (acc_swap_id (store_acceptance self)) = Some log' ∧
            log_acceptance log' = store_acceptance self ∧ log_evidence log' !! Z.to_nat p = Some e)
    as (log'&Hl'&Ha'&He).
  { destruct Hcases as [[He Hlogs]|(Hn&_&Hlogs)]; rewrite Hlogs; [by exists log|].
    exists (log_append log e). rewrite lookup_insert_eq. split_and!; [done..|]. cbn.
    by rewrite list_lookup_middle by (unfold blen in Hn; lia). }
  destruct (Hg' _ _ Hl') as (log''&Hl''&Ha''&_&Hpre). exists log''. split.
  - apply spec_log_Ok. split; [done|congruence].
  - by eapply prefix_lookup_Some.
Qed.
End good.

(** ** Theorems *)

(** C12: The recovery store is a log: in every run its calls return what they return on the
    abstract store, error by error, and a reader of the tables finds the abstract
    store in them; revisions, snapshots and the hash chain never show. *)
Theorem recovery_store_refines calls :
  good_run calls →
  (∀ n, recovery_committed calls n
        = committed_at (spec_recovery_call sha256) empty_recovery_spec calls n) ∧
  store_represents sha256 (recovery_after calls) (recovery_spec_after calls).
Proof using sha256_len H0.
  intros Hg. split; [intros n; by apply recovery_committed_spec|].
  pose proof (joint_take calls Hg (length calls)) as [Hr _].
  by rewrite firstn_all in Hr.
Qed.

(** C22: Whoever has opened the store of a swap can recover from it ever after: at every
    later position of the run the status is reconstructed and the store opens again,
    in the mode that creates nothing. *)
Theorem accepted_swap_recoverable calls i j acceptance initial mode self :
  good_run calls →
  recovery_committed calls i = Some (Call_open acceptance initial mode, Ok (Out_store self)) →
  (i < j)%nat →
  (∃ s, status sha256 (recovery_after (take j calls)) self = Ok s) ∧
  (open_existing sha256 (recovery_after (take j calls)) acceptance initial).2
    = Ok {| store_acceptance := acceptance; store_initial := initial;
            store_acceptance_was_replay := true |}.
Proof using sha256_len H0.
  intros Hg Hi Hij. destruct (opened_log calls Hg _ _ _ _ _ _ Hi Hij) as (Ha&Hin&Hop&Hri&log&Hlog).
  destruct (log_coordinator_take calls Hg _ _ _ Hlog) as [_ [c Hc]].
  split.
  - exists (log_status log c). assert (Hc' : admitted_call calls (Call_status self)).
    { split; [unfold recovery_typed, store_opened; by rewrite Ha, Hin|]. intros x [= <-]. congruence. }
    apply (call_output calls Hg j) in Hc'. cbn in Hc'. unfold spec_status in Hc'.
    rewrite Ha, Hlog in Hc'. cbn in Hc'. rewrite Hc in Hc'.
    by destruct (status sha256 _ self); simplify_eq/=.
  - assert (Hc' : admitted_call calls (Call_open acceptance initial ExistingOnly)).
    { split; [apply Hop|]. by intros x [= <-]. }
    apply (call_output calls Hg j) in Hc'. cbn in Hc'. unfold spec_open in Hc'.
    rewrite (proj2 Hop) in Hc'. cbn in Hc'.
    unfold spec_log in Hlog. destruct (spec_logs _ !! _) as [l|]; [|done]. cbn in Hlog, Hc'.
    destruct (same_acceptance _ _); [|done]. cbn in Hc'.
    by destruct (open_existing sha256 _ acceptance initial) as [? []]; simplify_eq/=.
Qed.

Abbreviation projection close := (if close : bool then Call_project_close else Call_project).

(** C21: Evidence is final: what a projection has committed stays listed at its revision,
    projecting it again is acknowledged as a replay, the maker's lock with its plan
    included, and no other evidence is accepted after the same predecessor. *)
Theorem projected_evidence_final calls i j self p e close commit :
  good_run calls →
  recovery_committed calls i = Some (projection close self p e, Ok (Out_projection commit)) →
  (i < j)%nat →
  (∃ listed, recovery_evidence (recovery_after (take j calls)) self = Ok listed ∧
     listed !! Z.to_nat p = Some (p + 1, e)) ∧
  (recovery_call sha256 (recovery_after (take j calls)) (projection close self p e)).2
    = Ok (Out_projection {| projection_revision := p + 1; projection_was_replay := true |}) ∧
  ∀ e' close', e' ≠ e →
    ∃ err, (recovery_call sha256 (recovery_after (take j calls)) (projection close' self p e')).2
           = Err err.
Proof using sha256_len H0.
  intros Hg Hi Hij.
  destruct (projected_log calls Hg _ _ _ _ _ _ _ Hi Hij)
    as (Hop&Hri&Hu&_&Hcl&(json&Hprep)&log&Hlog&He).
  assert (Hcall := λ e' close', call_output calls Hg j (projection close' self p e')).
  assert (Hadm : ∀ e' close', admitted_call calls (projection close' self p e')).
  { intros e' close'. split; destruct close'; try done; by intros x [= <-]. }
  split_and!.
  - exists (spec_evidence (recovery_spec_after (take j calls)) self). split.
    { destruct (joint_take calls Hg j) as [Hrep Hok].
      by apply (evidence_represented sha256 (run_initial calls)). }
    unfold spec_evidence. apply spec_log_Ok in Hlog as [-> Ha].
    rewrite bool_decide_eq_true_2 by congruence. unfold indexed_evidence.
    rewrite list_lookup_imap, He. cbn. unfold is_u64, in_range in Hu. by rewrite Z2Nat.id by lia.
  - rewrite Hcall by done. clear Hcall.
    destruct (log_coordinator_take calls Hg _ _ _ Hlog) as [Hlo _].
    destruct (spec_project_replay sha256 _ _ self p e close log json (locks_agree_take calls Hg j)
                Hlog Hlo (proj1 Hu) He Hprep (proj1 Hcl)) as [st' Hst'].
    destruct close; cbn.
    + destruct (proj1 Hcl eq_refl) as [-> ->]. rewrite !bool_decide_eq_true_2 by done. cbn. by rewrite Hst'.
    + destruct (_ && _) eqn:Hm; [|cbn; by rewrite Hst'].
      rewrite andb_true_iff, !bool_decide_eq_true in Hm. by apply Hcl in Hm.
  - intros e' close' Hne. rewrite Hcall by done. clear Hcall.
    destruct (spec_project_conflict (recovery_spec_after (take j calls)) self p e e' close' log) as [err Herr];
      [done..|].
    destruct close'; cbn; destruct (reject_if _ _) as [[]|err']; cbn; try rewrite Herr; cbn; eauto.
Qed.

(** C13: The maker's lock and its plan commit together: a maker's store lists its lock
    exactly when the journal has closed the plan of the swap, and a closed plan is the
    one bound to the accepted agreement, every transaction of it confirmed. *)
Theorem maker_lock_iff_plan_closed calls i j acceptance initial mode self :
  good_run calls →
  recovery_committed calls i = Some (Call_open acceptance initial mode, Ok (Out_store self)) →
  (i < j)%nat → acceptance.(acc_local_role) = Participant_Maker →
  ∃ evidence plan,
    recovery_evidence (recovery_after (take j calls)) self = Ok (indexed_evidence evidence) ∧
    load_intent sha256 (recovery_after (take j calls)).(rdb_locks) acceptance.(acc_swap_id)
      = Ok plan ∧
    (MakerLock ∈ ev_kind <$> evidence ↔
       ∃ s, plan = Some s ∧ s.(lock_closed_revision) ≠ None) ∧
    ∀ s, plan = Some s → s.(lock_closed_revision) ≠ None → plan_closed acceptance s.
Proof using sha256_len H0.
  intros Hg Hi Hij Hm.
  destruct (opened_log calls Hg _ _ _ _ _ _ Hi Hij) as (Ha&_&_&_&log&Hlog).
  destruct (log_coordinator_take calls Hg _ _ _ Hlog) as [Hlo [c Hc]].
  pose proof (joint_take calls Hg j) as [Hrep Hok]. cbn [fst snd] in Hrep, Hok.
  pose proof (locks_agree_take calls Hg j) as Hag. set (st := recovery_spec_after (take j calls)) in *.
  apply spec_log_Ok in Hlog as [Hl Hla].
  exists (log_evidence log), (spec_locks st !! SwapId_as_str (acc_swap_id acceptance)).
  assert (Hml : MakerLock ∈ ev_kind <$> log_evidence log ↔ maker_locked log).
  { split.
    - intros [n Hn]%list_elem_of_lookup.
      pose proof (lifecycle_maker_lock _ _ _ (log_kinds _ _ _ _ _ Hlo Hc) Hn) as ->.
      rewrite list_lookup_fmap in Hn. apply fmap_Some in Hn as (e&He&Hk). split; [congruence|eauto].
    - intros [_ (e&He&Hk)]. rewrite <- Hk. apply list_elem_of_fmap_2, (list_elem_of_lookup_2 _ _ _ He). }
  split_and!.
  - rewrite (evidence_represented sha256 (run_initial calls) _ st) by done. unfold spec_evidence.
    rewrite Ha, Hl, bool_decide_eq_true_2 by congruence. done.
  - unfold load_intent. apply (load_represented sha256 sha256_len); [apply Hrep|apply Hok].
  - rewrite Hml. split.
    + intros Hlk. destruct (locked_closed _ Hag _ _ Hl Hlk) as (s&Hs&Hcl&_). exists s.
      split; [done|congruence].
    + intros (s&Hs&Hcl). destruct (closed_locked _ Hag _ _ Hs Hcl) as (l&?&?). by simplify_eq.
  - intros s Hs Hcl. destruct (closed_locked _ Hag _ _ Hs Hcl) as (l&?&Hlk). simplify_eq.
    destruct (locked_closed _ Hag _ _ Hl Hlk) as (s'&?&Hp). rewrite Hla in Hp. by simplify_eq.
Qed.
End runs.
