(* ===== verification/Escrow.v ===== *)
(** * The LEZ v0.2 escrow program

    Models [compat/lez-v0.2-provisional/escrow/src/lib.rs]: the metadata of an
    escrow, the validation helpers, and the eighteen instructions, each from its
    accounts and arguments to the output LEZ executes atomically (post states,
    chained calls, validity window) or its error.

    What the program calls and this repository does not contain is the class
    [EscrowHost]: SHA-256, the Borsh codec of the metadata and the account data
    type, program-derived addresses, associated token accounts, the token
    program's data formats, the default account and the validity-window range
    check.  Program-derived addresses of public seeds always exist, as the
    source asserts.  [EscrowHostLaws] states what the theorems rely on. *)

From stdpp Require Import base strings list numbers.
From S2P Require Import Prelude.

Open Scope Z_scope.

Abbreviation AccountId := bytes.
Abbreviation ProgramId := (list Z).
Abbreviation PdaSeed := bytes.

(** ** Metadata *)

Inductive EscrowStatus :=
| Status_Empty | Status_Funded | Status_Claimed | Status_Refunded | Status_XmrClaimAuthorized.

Inductive ClaimAuthority :=
| Sha256Preimage (secret_digest : bytes)
| AggregateWitness (x_only_public_key : bytes) (account_id : AccountId)
| XmrDualAdaptor
    (claim_aggregate_x_only_public_key : bytes)
    (claim_aggregate_account_id : AccountId)
    (refund_aggregate_x_only_public_key : bytes)
    (refund_aggregate_account_id : AccountId)
    (maker_dleq_transcript_commitment : bytes)
    (taker_dleq_transcript_commitment : bytes)
    (claim_partial_context_binding : bytes)
    (claim_partial_commitment : bytes)
    (punish_at : Z).

Record EscrowMetadata := {
  meta_version : Z;
  meta_swap_id : bytes;
  meta_terms_hash : bytes;
  meta_claim_authority : ClaimAuthority;
  meta_depositor : AccountId;
  meta_depositor_asset : AccountId;
  meta_claimant : AccountId;
  meta_claimant_asset : AccountId;
  meta_custody : AccountId;
  meta_asset_program : ProgramId;
  meta_custody_program : ProgramId;
  meta_asset_definition : bytes;
  meta_amount : Z;
  meta_refund_at : Z;
  meta_status : EscrowStatus
}.

#[global] Instance EscrowStatus_eq_dec : EqDecision EscrowStatus.
Proof. solve_decision. Defined.
#[global] Instance ClaimAuthority_eq_dec : EqDecision ClaimAuthority.
Proof. solve_decision. Defined.
#[global] Instance EscrowMetadata_eq_dec : EqDecision EscrowMetadata.
Proof. solve_decision. Defined.

(** Assignments to the two fields the program changes after construction. *)
Definition set_status (m : EscrowMetadata) (s : EscrowStatus) : EscrowMetadata :=
  {| meta_version := m.(meta_version); meta_swap_id := m.(meta_swap_id); meta_terms_hash := m.(meta_terms_hash);
     meta_claim_authority := m.(meta_claim_authority); meta_depositor := m.(meta_depositor);
     meta_depositor_asset := m.(meta_depositor_asset); meta_claimant := m.(meta_claimant);
     meta_claimant_asset := m.(meta_claimant_asset); meta_custody := m.(meta_custody);
     meta_asset_program := m.(meta_asset_program); meta_custody_program := m.(meta_custody_program);
     meta_asset_definition := m.(meta_asset_definition); meta_amount := m.(meta_amount);
     meta_refund_at := m.(meta_refund_at); meta_status := s |}.

Definition set_version (m : EscrowMetadata) (v : Z) : EscrowMetadata :=
  {| meta_version := v; meta_swap_id := m.(meta_swap_id); meta_terms_hash := m.(meta_terms_hash);
     meta_claim_authority := m.(meta_claim_authority); meta_depositor := m.(meta_depositor);
     meta_depositor_asset := m.(meta_depositor_asset); meta_claimant := m.(meta_claimant);
     meta_claimant_asset := m.(meta_claimant_asset); meta_custody := m.(meta_custody);
     meta_asset_program := m.(meta_asset_program); meta_custody_program := m.(meta_custody_program);
     meta_asset_definition := m.(meta_asset_definition); meta_amount := m.(meta_amount);
     meta_refund_at := m.(meta_refund_at); meta_status := m.(meta_status) |}.

Definition ERROR_INVALID_TERMS : Z := 1.
Definition ERROR_NOT_FUNDED : Z := 2.
Definition ERROR_ACCOUNT_BINDING : Z := 3.
Definition ESCROW_METADATA_VERSION : Z := 2.
Definition XMR_ESCROW_METADATA_VERSION : Z := 3.
Definition ERROR_WRONG_PREIMAGE : Z := 4.
Definition ERROR_UNSUPPORTED_VERSION : Z := 5.
Definition ERROR_WRONG_CLAIM_AUTHORITY : Z := 6.
Definition XMR_CLAIM_PARTIAL_DOMAIN : bytes :=
  bytes_of_string "logos.gateway.lez-xmr.claim-partial-commitment.v1" ++ [Byte.x00].
Definition PUBLIC_ACCOUNT_ID_PREFIX : bytes :=
  bytes_of_string "/LEE/v0.3/AccountId/Public/" ++ zeros 5.

(** The framework's errors, without the text of the codec's messages. *)
Inductive SpelError :=
| SpelError_Custom (code : Z) (message : string)
| SerializationError
| DeserializationError (account_index : Z).

Definition custom_error (code : Z) (message : string) : SpelError :=
  SpelError_Custom code message.

(** ** The host *)

(** What the source reads of a decoded token holding: its definition, and its
    balance when it is fungible. *)
Record TokenHolding := {
  definition_id : AccountId;
  holding_fungible : option Z
}.

Class EscrowHost := {
  sha256 : bytes → bytes;
  (** Borsh-encoded bytes and account data *)
  Encoded : Type;
  Data : Type;
  data_eq_dec :: EqDecision Data;
  borsh_to_vec : EscrowMetadata → option Encoded;
  data_try_from : Encoded → option Data;
  metadata_try_from_slice : Data → option EscrowMetadata;
  token_holding_try_from : Data → option TokenHolding;
  token_definition_is_fungible : Data → bool;
  default_data : Data;
  DEFAULT_PROGRAM_ID : ProgramId;
  pda_from_seeds : list bytes → PdaSeed;
  seed_from_str : string → bytes;
  associated_token_account_id : ProgramId → AccountId → AccountId → AccountId;
  (** whether a half-open range is accepted as a validity window *)
  validity_range_ok : Z → Z → bool
}.

(** Documented behaviour: a written metadata reads back; fresh account data is
    no metadata; a nonempty range is a valid window. *)
Class EscrowHostLaws (H : EscrowHost) : Prop := {
  metadata_roundtrip m e d :
    borsh_to_vec m = Some e → data_try_from e = Some d →
    metadata_try_from_slice d = Some m;
  default_data_is_no_metadata : metadata_try_from_slice default_data = None;
  nonempty_range_ok from to : from < to → validity_range_ok from to = true
}.

Section escrow.
Context {H : EscrowHost}.

Record Account := {
  program_owner : ProgramId;
  balance : Z;
  data : Data;
  nonce : Z
}.

#[global] Instance Account_eq_dec : EqDecision Account.
Proof. solve_decision. Defined.

Definition Account_default : Account :=
  {| program_owner := DEFAULT_PROGRAM_ID; balance := 0; data := default_data; nonce := 0 |}.

Record AccountWithMetadata := {
  account : Account;
  is_authorized : bool;
  account_id : AccountId
}.

Definition authorized (a : AccountWithMetadata) : AccountWithMetadata :=
  {| account := a.(account); is_authorized := true; account_id := a.(account_id) |}.

Definition with_data (a : AccountWithMetadata) (d : Data) : AccountWithMetadata :=
  {| account := {| program_owner := a.(account).(program_owner);
                   balance := a.(account).(balance); data := d;
                   nonce := a.(account).(nonce) |};
     is_authorized := a.(is_authorized); account_id := a.(account_id) |}.

(** Instructions of the programs the escrow calls. *)
Inductive CallInstruction :=
| AuthenticatedTransfer_Initialize
| AuthenticatedTransfer_Transfer (amount : Z)
| Ata_Create (ata_program_id : ProgramId)
| Ata_Transfer (ata_program_id : ProgramId) (amount : Z).

Record ChainedCall := {
  call_program_id : ProgramId;
  call_pre_states : list AccountWithMetadata;
  call_instruction : CallInstruction;
  call_pda_seeds : list PdaSeed
}.

Definition ChainedCall_new (program : ProgramId) (pre_states : list AccountWithMetadata)
    (instruction : CallInstruction) : ChainedCall :=
  {| call_program_id := program; call_pre_states := pre_states;
     call_instruction := instruction; call_pda_seeds := [] |}.

Definition with_pda_seeds (call : ChainedCall) (seeds : list PdaSeed) : ChainedCall :=
  {| call_program_id := call.(call_program_id); call_pre_states := call.(call_pre_states);
     call_instruction := call.(call_instruction); call_pda_seeds := seeds |}.

(** A timestamp window [[from, to)] with optional ends. *)
Record SpelOutput := {
  post_states : list AccountWithMetadata;
  chained_calls : list ChainedCall;
  window_from : option Z;
  window_to : option Z
}.

Definition SpelOutput_execute (posts : list AccountWithMetadata) (calls : list ChainedCall)
    (from to : option Z) : SpelOutput :=
  {| post_states := posts; chained_calls := calls; window_from := from; window_to := to |}.

Definition window_admits (out : SpelOutput) (time : Z) : bool :=
  match out.(window_from) with Some f => f <=? time | None => true end
  && match out.(window_to) with Some e => time <? e | None => true end.

Definition SpelResult : Type := result SpelOutput SpelError.

Record ProgramContext := { self_program_id : ProgramId }.

(** ** Authorities *)

Definition witnessed_account_id (x_only_public_key : bytes) : AccountId :=
  sha256 (PUBLIC_ACCOUNT_ID_PREFIX ++ x_only_public_key).

Definition valid_claim_authority (authority : ClaimAuthority) (claimant : AccountId) : bool :=
  match authority with
  | Sha256Preimage secret_digest => secret_digest !=? zero32
  | AggregateWitness x_only_public_key account_id =>
      (x_only_public_key !=? zero32)
      && (witnessed_account_id x_only_public_key ==? account_id)
      && (account_id !=? claimant)
  | XmrDualAdaptor claim_key claim_account refund_key refund_account
      maker_dleq taker_dleq context_binding commitment punish_at =>
      (claim_key !=? zero32)
      && (refund_key !=? zero32)
      && (claim_key !=? refund_key)
      && (witnessed_account_id claim_key ==? claim_account)
      && (witnessed_account_id refund_key ==? refund_account)
      && (claim_account !=? refund_account)
      && (claim_account !=? claimant)
      && (refund_account !=? claimant)
      && (maker_dleq !=? zero32)
      && (taker_dleq !=? zero32)
      && (maker_dleq !=? taker_dleq)
      && (context_binding !=? zero32)
      && (commitment !=? zero32)
      && negb (punish_at =? 0)
  end.

Definition xmr_claim_partial_commitment (context_binding claim_partial : bytes) : bytes :=
  sha256 (XMR_CLAIM_PARTIAL_DOMAIN ++ context_binding ++ claim_partial).

Definition require_preimage_authority (state : EscrowMetadata) (preimage : bytes)
    : result unit SpelError :=
  match state.(meta_claim_authority) with
  | Sha256Preimage secret_digest =>
      if sha256 preimage !=? secret_digest
      then Err (custom_error ERROR_WRONG_PREIMAGE "wrong preimage")
      else Ok tt
  | _ => Err (custom_error ERROR_WRONG_CLAIM_AUTHORITY
                "escrow requires an aggregate transaction witness")
  end.

Definition require_aggregate_witness_authority (state : EscrowMetadata)
    (aggregate_authority : AccountId) : result unit SpelError :=
  match state.(meta_claim_authority) with
  | AggregateWitness x_only_public_key account_id =>
      if (witnessed_account_id x_only_public_key !=? account_id)
         || (account_id !=? aggregate_authority)
         || (account_id ==? state.(meta_claimant))
      then Err (custom_error ERROR_ACCOUNT_BINDING "aggregate witness account binding mismatch")
      else Ok tt
  | _ => Err (custom_error ERROR_WRONG_CLAIM_AUTHORITY "escrow requires a SHA-256 preimage")
  end.

Inductive XmrWitnessPurpose := Purpose_Claim | Purpose_Refund.

Definition require_xmr_witness_authority (state : EscrowMetadata)
    (purpose : XmrWitnessPurpose) (aggregate_authority : AccountId) : result Z SpelError :=
  match state.(meta_claim_authority) with
  | XmrDualAdaptor claim_key claim_account refund_key refund_account _ _ _ _ punish_at =>
      let '(public_key, account_id) :=
        match purpose with
        | Purpose_Claim => (claim_key, claim_account)
        | Purpose_Refund => (refund_key, refund_account)
        end in
      if (witnessed_account_id public_key !=? account_id)
         || (account_id !=? aggregate_authority)
         || (account_id ==? state.(meta_depositor))
         || (account_id ==? state.(meta_claimant))
      then Err (custom_error ERROR_ACCOUNT_BINDING "XMR aggregate witness account binding mismatch")
      else Ok punish_at
  | _ => Err (custom_error ERROR_WRONG_CLAIM_AUTHORITY "escrow is not an XMR dual-adaptor escrow")
  end.

(** ** Metadata accounts, addresses, tokens *)

Definition write_metadata (a : AccountWithMetadata) (metadata : EscrowMetadata)
    : result AccountWithMetadata SpelError :=
  let? encoded := ok_or (borsh_to_vec metadata) SerializationError in
  let? d := ok_or (data_try_from encoded) SerializationError in
  Ok (with_data a d).

Definition read_metadata (a : AccountWithMetadata) : result EscrowMetadata SpelError :=
  ok_or (metadata_try_from_slice a.(account).(data)) (DeserializationError 0).

Definition custody_pda_seed (swap_id : bytes) : PdaSeed :=
  pda_from_seeds [seed_from_str "custody"; swap_id].

Definition metadata_pda_seed (swap_id : bytes) : PdaSeed := pda_from_seeds [swap_id].

Definition associated_token_account (ata_program : ProgramId) (owner definition : AccountId)
    : AccountId :=
  associated_token_account_id ata_program owner definition.

Definition token_holding (a : AccountWithMetadata) : result TokenHolding SpelError :=
  ok_or (token_holding_try_from a.(account).(data))
    (custom_error ERROR_ACCOUNT_BINDING "invalid token holding").

Definition token_definition (a : AccountWithMetadata) : result AccountId SpelError :=
  let? holding := token_holding a in Ok holding.(definition_id).

Definition fungible_balance (a : AccountWithMetadata) : result Z SpelError :=
  let? holding := token_holding a in
  match holding.(holding_fungible) with
  | Some balance => Ok balance
  | None => Err (custom_error ERROR_ACCOUNT_BINDING "token holding must be fungible")
  end.

Definition require_fungible_definition (a : AccountWithMetadata) (token_program : ProgramId)
    : result unit SpelError :=
  if (a.(account).(program_owner) !=? token_program)
     || negb (token_definition_is_fungible a.(account).(data))
  then Err (custom_error ERROR_ACCOUNT_BINDING
              "token definition must be fungible and token-program owned")
  else Ok tt.

Definition native_initialize_call (authenticated_transfer_program : ProgramId)
    (custody : AccountWithMetadata) (swap_id : bytes) : ChainedCall :=
  with_pda_seeds
    (ChainedCall_new authenticated_transfer_program [authorized custody]
       AuthenticatedTransfer_Initialize)
    [custody_pda_seed swap_id].

Definition native_transfer_call (authenticated_transfer_program : ProgramId)
    (sender recipient : AccountWithMetadata) (amount : Z) (authorize_custody : bool)
    (swap_id : bytes) : ChainedCall :=
  let sender := if authorize_custody then authorized sender else sender in
  let call := ChainedCall_new authenticated_transfer_program [sender; recipient]
                (AuthenticatedTransfer_Transfer amount) in
  if authorize_custody then with_pda_seeds call [custody_pda_seed swap_id] else call.

Definition ata_transfer_call (ata_program : ProgramId)
    (owner sender recipient : AccountWithMetadata) (amount : Z) (authorize_metadata : bool)
    (swap_id : bytes) : ChainedCall :=
  let owner := if authorize_metadata then authorized owner else owner in
  let call := ChainedCall_new ata_program [owner; sender; recipient]
                (Ata_Transfer ata_program amount) in
  if authorize_metadata then with_pda_seeds call [metadata_pda_seed swap_id] else call.

Definition require_supported (state : EscrowMetadata) : result unit SpelError :=
  let supported :=
    match state.(meta_claim_authority) with
    | XmrDualAdaptor _ _ _ _ _ _ _ _ _ => state.(meta_version) =? XMR_ESCROW_METADATA_VERSION
    | _ => state.(meta_version) =? ESCROW_METADATA_VERSION
    end in
  if negb supported
  then Err (custom_error ERROR_UNSUPPORTED_VERSION "unsupported escrow metadata version")
  else Ok tt.

Definition require_funded (state : EscrowMetadata) : result unit SpelError :=
  let? _ := require_supported state in
  if state.(meta_status) !=? Status_Funded
  then Err (custom_error ERROR_NOT_FUNDED "escrow is not funded")
  else Ok tt.

(** ** State validation *)

Definition native_initial_state (ctx : ProgramContext)
    (custody depositor claimant : AccountWithMetadata)
    (swap_id terms_hash : bytes) (claim_authority : ClaimAuthority)
    (amount refund_at : Z) (authenticated_transfer_program : ProgramId)
    : result EscrowMetadata SpelError :=
  if (amount =? 0)
     || (refund_at =? 0)
     || (terms_hash ==? zero32)
     || negb (valid_claim_authority claim_authority claimant.(account_id))
     || (authenticated_transfer_program ==? DEFAULT_PROGRAM_ID)
     || (authenticated_transfer_program ==? ctx.(self_program_id))
  then Err (custom_error ERROR_INVALID_TERMS "invalid native terms")
  else if (custody.(account) !=? Account_default)
     || (depositor.(account).(program_owner) !=? authenticated_transfer_program)
     || (claimant.(account).(program_owner) !=? authenticated_transfer_program)
  then Err (custom_error ERROR_ACCOUNT_BINDING "native custody or actor owner mismatch")
  else Ok {| meta_version := ESCROW_METADATA_VERSION;
             meta_swap_id := swap_id;
             meta_terms_hash := terms_hash;
             meta_claim_authority := claim_authority;
             meta_depositor := depositor.(account_id);
             meta_depositor_asset := depositor.(account_id);
             meta_claimant := claimant.(account_id);
             meta_claimant_asset := claimant.(account_id);
             meta_custody := custody.(account_id);
             meta_asset_program := authenticated_transfer_program;
             meta_custody_program := authenticated_transfer_program;
             meta_asset_definition := zero32;
             meta_amount := amount;
             meta_refund_at := refund_at;
             meta_status := Status_Empty |}.

Definition native_xmr_initial_state (ctx : ProgramContext)
    (custody depositor claimant claim_aggregate_authority refund_aggregate_authority
       : AccountWithMetadata)
    (swap_id terms_hash claim_aggregate_x_only_public_key refund_aggregate_x_only_public_key
       maker_dleq_transcript_commitment taker_dleq_transcript_commitment
       claim_partial_context_binding claim_partial_commitment : bytes)
    (amount refund_at punish_at : Z) (authenticated_transfer_program : ProgramId)
    : result EscrowMetadata SpelError :=
  if (punish_at <=? refund_at)
     || (depositor.(account_id) ==? claimant.(account_id))
     || (depositor.(account_id) ==? claim_aggregate_authority.(account_id))
     || (depositor.(account_id) ==? refund_aggregate_authority.(account_id))
  then Err (custom_error ERROR_INVALID_TERMS "invalid XMR native terms")
  else
    let authority :=
      XmrDualAdaptor
        claim_aggregate_x_only_public_key claim_aggregate_authority.(account_id)
        refund_aggregate_x_only_public_key refund_aggregate_authority.(account_id)
        maker_dleq_transcript_commitment taker_dleq_transcript_commitment
        claim_partial_context_binding claim_partial_commitment punish_at in
    let? state :=
      native_initial_state ctx custody depositor claimant swap_id terms_hash authority
        amount refund_at authenticated_transfer_program in
    Ok (set_version state XMR_ESCROW_METADATA_VERSION).

Inductive ClaimProof :=
| Proof_Sha256Preimage (preimage : bytes)
| Proof_AggregateWitness (aggregate_authority : AccountId).

Definition require_claim_proof (state : EscrowMetadata) (proof : ClaimProof)
    : result unit SpelError :=
  match proof with
  | Proof_Sha256Preimage preimage => require_preimage_authority state preimage
  | Proof_AggregateWitness aggregate_authority =>
      require_aggregate_witness_authority state aggregate_authority
  end.

Definition validated_native_claim_state (metadata custody claimant : AccountWithMetadata)
    (swap_id : bytes) (proof : ClaimProof) : result EscrowMetadata SpelError :=
  let? state := read_metadata metadata in
  let? _ := require_funded state in
  if (state.(meta_swap_id) !=? swap_id)
     || (state.(meta_asset_definition) !=? zero32)
     || (state.(meta_asset_program) !=? state.(meta_custody_program))
     || (state.(meta_claimant) !=? claimant.(account_id))
     || (state.(meta_custody) !=? custody.(account_id))
     || (claimant.(account).(program_owner) !=? state.(meta_asset_program))
     || (custody.(account).(program_owner) !=? state.(meta_asset_program))
     || negb (custody.(account).(balance) =? state.(meta_amount))
  then Err (custom_error ERROR_ACCOUNT_BINDING "native claim account binding mismatch")
  else
    let? _ := require_claim_proof state proof in
    Ok (set_status state Status_Claimed).

Definition validated_xmr_native_witness_state
    (metadata custody recipient aggregate_authority : AccountWithMetadata)
    (swap_id : bytes) (purpose : XmrWitnessPurpose) : result (EscrowMetadata * Z) SpelError :=
  let? state := read_metadata metadata in
  let status_allowed :=
    match purpose with
    | Purpose_Claim => state.(meta_status) ==? Status_XmrClaimAuthorized
    | Purpose_Refund =>
        (state.(meta_status) ==? Status_Funded)
        || (state.(meta_status) ==? Status_XmrClaimAuthorized)
    end in
  if negb status_allowed
  then Err (custom_error ERROR_NOT_FUNDED "XMR escrow is not in the required branch state")
  else
    let expected_recipient :=
      match purpose with
      | Purpose_Claim => state.(meta_claimant)
      | Purpose_Refund => state.(meta_depositor)
      end in
    if (state.(meta_swap_id) !=? swap_id)
       || negb (state.(meta_version) =? XMR_ESCROW_METADATA_VERSION)
       || (state.(meta_asset_definition) !=? zero32)
       || (state.(meta_asset_program) !=? state.(meta_custody_program))
       || (expected_recipient !=? recipient.(account_id))
       || (state.(meta_custody) !=? custody.(account_id))
       || (recipient.(account).(program_owner) !=? state.(meta_asset_program))
       || (custody.(account).(program_owner) !=? state.(meta_asset_program))
       || negb (custody.(account).(balance) =? state.(meta_amount))
    then Err (custom_error ERROR_ACCOUNT_BINDING "XMR native witness account binding mismatch")
    else
      let? punish_at :=
        require_xmr_witness_authority state purpose aggregate_authority.(account_id) in
      Ok (set_status state
            (match purpose with
             | Purpose_Claim => Status_Claimed
             | Purpose_Refund => Status_Refunded
             end), punish_at).

Definition validated_xmr_claim_authorization_state (metadata depositor : AccountWithMetadata)
    (swap_id claim_partial : bytes) : result EscrowMetadata SpelError :=
  let? state := read_metadata metadata in
  let? _ := require_funded state in
  match state.(meta_claim_authority) with
  | XmrDualAdaptor _ _ _ _ _ _ claim_partial_context_binding claim_partial_commitment _ =>
      if (state.(meta_swap_id) !=? swap_id)
         || negb (state.(meta_version) =? XMR_ESCROW_METADATA_VERSION)
         || (state.(meta_depositor) !=? depositor.(account_id))
         || (depositor.(account).(program_owner) !=? state.(meta_asset_program))
         || (claim_partial ==? zero32)
         || (xmr_claim_partial_commitment claim_partial_context_binding claim_partial
             !=? claim_partial_commitment)
      then Err (custom_error ERROR_ACCOUNT_BINDING
                  "XMR on-chain claim-partial authorization mismatch")
      else Ok (set_status state Status_XmrClaimAuthorized)
  | _ => Err (custom_error ERROR_WRONG_CLAIM_AUTHORITY "escrow is not an XMR dual-adaptor escrow")
  end.

Definition validated_xmr_native_punish_state (metadata custody claimant : AccountWithMetadata)
    (swap_id : bytes) : result (EscrowMetadata * Z) SpelError :=
  let? state := read_metadata metadata in
  if negb ((state.(meta_status) ==? Status_Funded)
           || (state.(meta_status) ==? Status_XmrClaimAuthorized))
  then Err (custom_error ERROR_NOT_FUNDED "escrow is not funded")
  else if (state.(meta_swap_id) !=? swap_id)
     || negb (state.(meta_version) =? XMR_ESCROW_METADATA_VERSION)
     || (state.(meta_asset_definition) !=? zero32)
     || (state.(meta_asset_program) !=? state.(meta_custody_program))
     || (state.(meta_claimant) !=? claimant.(account_id))
     || (state.(meta_custody) !=? custody.(account_id))
     || (claimant.(account).(program_owner) !=? state.(meta_asset_program))
     || (custody.(account).(program_owner) !=? state.(meta_asset_program))
     || negb (custody.(account).(balance) =? state.(meta_amount))
  then Err (custom_error ERROR_ACCOUNT_BINDING "XMR native punishment account binding mismatch")
  else
    match state.(meta_claim_authority) with
    | XmrDualAdaptor _ _ _ _ _ _ _ _ punish_at => Ok (set_status state Status_Claimed, punish_at)
    | _ => Err (custom_error ERROR_WRONG_CLAIM_AUTHORITY "escrow is not an XMR dual-adaptor escrow")
    end.

Definition token_initial_state (ctx : ProgramContext)
    (metadata depositor_owner claimant_owner token_definition : AccountWithMetadata)
    (swap_id terms_hash : bytes) (claim_authority : ClaimAuthority)
    (amount refund_at : Z) (ata_program : ProgramId) : result EscrowMetadata SpelError :=
  let token_program := token_definition.(account).(program_owner) in
  if (amount =? 0)
     || (refund_at =? 0)
     || (terms_hash ==? zero32)
     || negb (valid_claim_authority claim_authority claimant_owner.(account_id))
     || (token_program ==? DEFAULT_PROGRAM_ID)
     || (token_program ==? ctx.(self_program_id))
     || (ata_program ==? DEFAULT_PROGRAM_ID)
     || (ata_program ==? ctx.(self_program_id))
     || (ata_program ==? token_program)
  then Err (custom_error ERROR_INVALID_TERMS "invalid token terms")
  else
    let? _ := require_fungible_definition token_definition token_program in
    let definition := token_definition.(account_id) in
    Ok {| meta_version := ESCROW_METADATA_VERSION;
          meta_swap_id := swap_id;
          meta_terms_hash := terms_hash;
          meta_claim_authority := claim_authority;
          meta_depositor := depositor_owner.(account_id);
          meta_depositor_asset :=
            associated_token_account ata_program depositor_owner.(account_id) definition;
          meta_claimant := claimant_owner.(account_id);
          meta_claimant_asset :=
            associated_token_account ata_program claimant_owner.(account_id) definition;
          meta_custody := associated_token_account ata_program metadata.(account_id) definition;
          meta_asset_program := token_program;
          meta_custody_program := ata_program;
          meta_asset_definition := definition;
          meta_amount := amount;
          meta_refund_at := refund_at;
          meta_status := Status_Empty |}.

(** Error of a failed account binding, under each instruction's message. *)
Definition binding_error (message : string) : SpelError :=
  custom_error ERROR_ACCOUNT_BINDING message.

Definition validated_token_claim_state
    (metadata custody claimant_owner claimant_asset : AccountWithMetadata)
    (swap_id : bytes) (proof : ClaimProof) : result EscrowMetadata SpelError :=
  let mismatch := binding_error "token claim account binding mismatch" in
  let? state := read_metadata metadata in
  let? _ := require_funded state in
  let? _ := reject_if
    ((state.(meta_swap_id) !=? swap_id)
     || (state.(meta_claimant) !=? claimant_owner.(account_id))
     || (state.(meta_claimant_asset) !=? claimant_asset.(account_id))
     || (state.(meta_custody) !=? custody.(account_id))
     || (claimant_asset.(account).(program_owner) !=? state.(meta_asset_program))
     || (custody.(account).(program_owner) !=? state.(meta_asset_program))) mismatch in
  let? claimant_definition := token_definition claimant_asset in
  let? _ := reject_if (claimant_definition !=? state.(meta_asset_definition)) mismatch in
  let? custody_definition := token_definition custody in
  let? _ := reject_if (custody_definition !=? state.(meta_asset_definition)) mismatch in
  let? custody_balance := fungible_balance custody in
  let? _ := reject_if (negb (custody_balance =? state.(meta_amount))) mismatch in
  let? _ := require_claim_proof state proof in
  Ok (set_status state Status_Claimed).

(** ** Instructions: native assets *)

Definition initialize_native (ctx : ProgramContext)
    (metadata custody depositor claimant : AccountWithMetadata)
    (swap_id terms_hash secret_digest : bytes) (amount refund_at : Z)
    (authenticated_transfer_program : ProgramId) : SpelResult :=
  let? state :=
    native_initial_state ctx custody depositor claimant swap_id terms_hash
      (Sha256Preimage secret_digest) amount refund_at authenticated_transfer_program in
  let? metadata := write_metadata metadata state in
  let initialize := native_initialize_call authenticated_transfer_program custody swap_id in
  Ok (SpelOutput_execute [metadata; custody; depositor; claimant] [initialize]
        None (Some refund_at)).

Definition initialize_native_witnessed (ctx : ProgramContext)
    (metadata custody depositor claimant aggregate_authority : AccountWithMetadata)
    (swap_id terms_hash aggregate_x_only_public_key : bytes) (amount refund_at : Z)
    (authenticated_transfer_program : ProgramId) : SpelResult :=
  let? state :=
    native_initial_state ctx custody depositor claimant swap_id terms_hash
      (AggregateWitness aggregate_x_only_public_key aggregate_authority.(account_id))
      amount refund_at authenticated_transfer_program in
  let? metadata := write_metadata metadata state in
  let initialize := native_initialize_call authenticated_transfer_program custody swap_id in
  Ok (SpelOutput_execute [metadata; custody; depositor; claimant; aggregate_authority]
        [initialize] None (Some refund_at)).

Definition fund_native (_ctx : ProgramContext)
    (metadata custody depositor : AccountWithMetadata) (swap_id : bytes) : SpelResult :=
  let? state := read_metadata metadata in
  let? _ := require_supported state in
  if state.(meta_status) !=? Status_Empty
  then Err (custom_error ERROR_NOT_FUNDED "escrow is not empty")
  else if (state.(meta_swap_id) !=? swap_id)
     || (state.(meta_asset_definition) !=? zero32)
     || (state.(meta_asset_program) !=? state.(meta_custody_program))
     || (state.(meta_depositor) !=? depositor.(account_id))
     || (state.(meta_custody) !=? custody.(account_id))
     || (depositor.(account).(program_owner) !=? state.(meta_asset_program))
     || (custody.(account).(program_owner) !=? state.(meta_asset_program))
     || negb (custody.(account).(balance) =? 0)
     || (depositor.(account).(balance) <? state.(meta_amount))
  then Err (custom_error ERROR_ACCOUNT_BINDING "native funding account binding mismatch")
  else
    let transfer :=
      native_transfer_call state.(meta_asset_program) depositor custody state.(meta_amount)
        false swap_id in
    let state := set_status state Status_Funded in
    let? metadata := write_metadata metadata state in
    Ok (SpelOutput_execute [metadata; custody; depositor] [transfer]
          None (Some state.(meta_refund_at))).

Definition claim_native (_ctx : ProgramContext)
    (metadata custody claimant : AccountWithMetadata) (swap_id preimage : bytes) : SpelResult :=
  let? state :=
    validated_native_claim_state metadata custody claimant swap_id
      (Proof_Sha256Preimage preimage) in
  let transfer :=
    native_transfer_call state.(meta_asset_program) custody claimant state.(meta_amount)
      true swap_id in
  let? metadata := write_metadata metadata state in
  Ok (SpelOutput_execute [metadata; custody; claimant] [transfer]
        None (Some state.(meta_refund_at))).

Definition claim_native_witnessed (_ctx : ProgramContext)
    (metadata custody claimant aggregate_authority : AccountWithMetadata) (swap_id : bytes)
    : SpelResult :=
  let? state :=
    validated_native_claim_state metadata custody claimant swap_id
      (Proof_AggregateWitness aggregate_authority.(account_id)) in
  let transfer :=
    native_transfer_call state.(meta_asset_program) custody claimant state.(meta_amount)
      true swap_id in
  let? metadata := write_metadata metadata state in
  Ok (SpelOutput_execute [metadata; custody; claimant; aggregate_authority] [transfer]
        None (Some state.(meta_refund_at))).

Definition is_xmr_dual_adaptor (authority : ClaimAuthority) : bool :=
  match authority with XmrDualAdaptor _ _ _ _ _ _ _ _ _ => true | _ => false end.

Definition refund_native (_ctx : ProgramContext)
    (metadata custody depositor : AccountWithMetadata) (swap_id : bytes) : SpelResult :=
  let? state := read_metadata metadata in
  let? _ := require_funded state in
  if is_xmr_dual_adaptor state.(meta_claim_authority)
  then Err (custom_error ERROR_WRONG_CLAIM_AUTHORITY
              "XMR escrow requires the signed refund instruction")
  else if (state.(meta_swap_id) !=? swap_id)
     || (state.(meta_asset_definition) !=? zero32)
     || (state.(meta_asset_program) !=? state.(meta_custody_program))
     || (state.(meta_depositor) !=? depositor.(account_id))
     || (state.(meta_custody) !=? custody.(account_id))
     || (depositor.(account).(program_owner) !=? state.(meta_asset_program))
     || (custody.(account).(program_owner) !=? state.(meta_asset_program))
     || negb (custody.(account).(balance) =? state.(meta_amount))
  then Err (custom_error ERROR_ACCOUNT_BINDING "native refund account binding mismatch")
  else
    let transfer :=
      native_transfer_call state.(meta_asset_program) custody depositor state.(meta_amount)
        true swap_id in
    let state := set_status state Status_Refunded in
    let? metadata := write_metadata metadata state in
    Ok (SpelOutput_execute [metadata; custody; depositor] [transfer]
          (Some state.(meta_refund_at)) None).

(** ** Instructions: token assets *)

Definition initialize_token (ctx : ProgramContext)
    (metadata depositor_owner claimant_owner token_definition : AccountWithMetadata)
    (swap_id terms_hash secret_digest : bytes) (amount refund_at : Z)
    (ata_program : ProgramId) : SpelResult :=
  let? state :=
    token_initial_state ctx metadata depositor_owner claimant_owner token_definition
      swap_id terms_hash (Sha256Preimage secret_digest) amount refund_at ata_program in
  let? metadata := write_metadata metadata state in
  Ok (SpelOutput_execute [metadata; depositor_owner; claimant_owner; token_definition] []
        None (Some refund_at)).

Definition create_token_custody (_ctx : ProgramContext)
    (metadata token_definition custody : AccountWithMetadata) (swap_id : bytes) : SpelResult :=
  let? state := read_metadata metadata in
  let? _ := require_supported state in
  if state.(meta_status) !=? Status_Empty
  then Err (custom_error ERROR_NOT_FUNDED "escrow is not empty")
  else if (state.(meta_swap_id) !=? swap_id)
     || (state.(meta_asset_definition) !=? token_definition.(account_id))
     || (state.(meta_custody) !=? custody.(account_id))
     || (state.(meta_custody)
         !=? associated_token_account state.(meta_custody_program) metadata.(account_id)
               token_definition.(account_id))
     || (custody.(account) !=? Account_default)
  then Err (custom_error ERROR_ACCOUNT_BINDING "token custody derivation mismatch")
  else
    let? _ := require_fungible_definition token_definition state.(meta_asset_program) in
    let create :=
      ChainedCall_new state.(meta_custody_program) [metadata; token_definition; custody]
        (Ata_Create state.(meta_custody_program)) in
    Ok (SpelOutput_execute [metadata; token_definition; custody] [create]
          None (Some state.(meta_refund_at))).

Definition fund_token (_ctx : ProgramContext)
    (metadata depositor_owner depositor_asset custody : AccountWithMetadata)
    (swap_id : bytes) : SpelResult :=
  let mismatch := binding_error "token funding account binding mismatch" in
  let? state := read_metadata metadata in
  let? _ := require_supported state in
  if state.(meta_status) !=? Status_Empty
  then Err (custom_error ERROR_NOT_FUNDED "escrow is not empty")
  else
    let? _ := reject_if
      ((state.(meta_swap_id) !=? swap_id)
       || (state.(meta_depositor) !=? depositor_owner.(account_id))
       || (state.(meta_depositor_asset) !=? depositor_asset.(account_id))
       || (state.(meta_custody) !=? custody.(account_id))
       || (depositor_asset.(account).(program_owner) !=? state.(meta_asset_program))
       || (custody.(account).(program_owner) !=? state.(meta_asset_program))) mismatch in
    let? depositor_definition := token_definition depositor_asset in
    let? _ := reject_if (depositor_definition !=? state.(meta_asset_definition)) mismatch in
    let? custody_definition := token_definition custody in
    let? _ := reject_if (custody_definition !=? state.(meta_asset_definition)) mismatch in
    let? depositor_balance := fungible_balance depositor_asset in
    let? _ := reject_if (depositor_balance <? state.(meta_amount)) mismatch in
    let? custody_balance := fungible_balance custody in
    let? _ := reject_if (negb (custody_balance =? 0)) mismatch in
    let transfer :=
      ata_transfer_call state.(meta_custody_program) depositor_owner depositor_asset custody
        state.(meta_amount) false swap_id in
    let state := set_status state Status_Funded in
    let? metadata := write_metadata metadata state in
    Ok (SpelOutput_execute [metadata; depositor_owner; depositor_asset; custody] [transfer]
          None (Some state.(meta_refund_at))).

Definition claim_token (_ctx : ProgramContext)
    (metadata custody claimant_owner claimant_asset : AccountWithMetadata)
    (swap_id preimage : bytes) : SpelResult :=
  let? state :=
    validated_token_claim_state metadata custody claimant_owner claimant_asset swap_id
      (Proof_Sha256Preimage preimage) in
  let? metadata := write_metadata metadata state in
  let transfer :=
    ata_transfer_call state.(meta_custody_program) metadata custody claimant_asset
      state.(meta_amount) true swap_id in
  Ok (SpelOutput_execute [metadata; custody; claimant_owner; claimant_asset] [transfer]
        None (Some state.(meta_refund_at))).

Definition refund_token (_ctx : ProgramContext)
    (metadata custody depositor_asset : AccountWithMetadata) (swap_id : bytes) : SpelResult :=
  let mismatch := binding_error "token refund account binding mismatch" in
  let? state := read_metadata metadata in
  let? _ := require_funded state in
  let? _ := reject_if
    ((state.(meta_swap_id) !=? swap_id)
     || (state.(meta_depositor_asset) !=? depositor_asset.(account_id))
     || (state.(meta_custody) !=? custody.(account_id))
     || (depositor_asset.(account).(program_owner) !=? state.(meta_asset_program))
     || (custody.(account).(program_owner) !=? state.(meta_asset_program))) mismatch in
  let? depositor_definition := token_definition depositor_asset in
  let? _ := reject_if (depositor_definition !=? state.(meta_asset_definition)) mismatch in
  let? custody_definition := token_definition custody in
  let? _ := reject_if (custody_definition !=? state.(meta_asset_definition)) mismatch in
  let? custody_balance := fungible_balance custody in
  let? _ := reject_if (negb (custody_balance =? state.(meta_amount))) mismatch in
  let state := set_status state Status_Refunded in
  let? metadata := write_metadata metadata state in
  let transfer :=
    ata_transfer_call state.(meta_custody_program) metadata custody depositor_asset
      state.(meta_amount) true swap_id in
  Ok (SpelOutput_execute [metadata; custody; depositor_asset] [transfer]
        (Some state.(meta_refund_at)) None).

Definition initialize_token_witnessed (ctx : ProgramContext)
    (metadata depositor_owner claimant_owner token_definition aggregate_authority
       : AccountWithMetadata)
    (swap_id terms_hash aggregate_x_only_public_key : bytes) (amount refund_at : Z)
    (ata_program : ProgramId) : SpelResult :=
  let? state :=
    token_initial_state ctx metadata depositor_owner claimant_owner token_definition
      swap_id terms_hash
      (AggregateWitness aggregate_x_only_public_key aggregate_authority.(account_id))
      amount refund_at ata_program in
  let? metadata := write_metadata metadata state in
  Ok (SpelOutput_execute
        [metadata; depositor_owner; claimant_owner; token_definition; aggregate_authority] []
        None (Some refund_at)).

Definition claim_token_witnessed (_ctx : ProgramContext)
    (metadata custody claimant_owner claimant_asset aggregate_authority : AccountWithMetadata)
    (swap_id : bytes) : SpelResult :=
  let? state :=
    validated_token_claim_state metadata custody claimant_owner claimant_asset swap_id
      (Proof_AggregateWitness aggregate_authority.(account_id)) in
  let? metadata := write_metadata metadata state in
  let transfer :=
    ata_transfer_call state.(meta_custody_program) metadata custody claimant_asset
      state.(meta_amount) true swap_id in
  Ok (SpelOutput_execute
        [metadata; custody; claimant_owner; claimant_asset; aggregate_authority] [transfer]
        None (Some state.(meta_refund_at))).

(** ** Instructions: native assets of an XMR swap *)

Definition initialize_native_xmr (ctx : ProgramContext)
    (metadata custody depositor claimant claim_aggregate_authority refund_aggregate_authority
       : AccountWithMetadata)
    (swap_id terms_hash claim_aggregate_x_only_public_key refund_aggregate_x_only_public_key
       maker_dleq_transcript_commitment taker_dleq_transcript_commitment
       claim_partial_context_binding claim_partial_commitment : bytes)
    (amount refund_at punish_at : Z) (authenticated_transfer_program : ProgramId)
    : SpelResult :=
  let? state :=
    native_xmr_initial_state ctx custody depositor claimant
      claim_aggregate_authority refund_aggregate_authority swap_id terms_hash
      claim_aggregate_x_only_public_key refund_aggregate_x_only_public_key
      maker_dleq_transcript_commitment taker_dleq_transcript_commitment
      claim_partial_context_binding claim_partial_commitment
      amount refund_at punish_at authenticated_transfer_program in
  let? metadata := write_metadata metadata state in
  let initialize := native_initialize_call authenticated_transfer_program custody swap_id in
  Ok (SpelOutput_execute
        [metadata; custody; depositor; claimant;
         claim_aggregate_authority; refund_aggregate_authority]
        [initialize] None (Some refund_at)).

Definition authorize_native_xmr_claim (_ctx : ProgramContext)
    (metadata depositor : AccountWithMetadata) (swap_id claim_partial : bytes) : SpelResult :=
  let? state :=
    validated_xmr_claim_authorization_state metadata depositor swap_id claim_partial in
  let? metadata := write_metadata metadata state in
  Ok (SpelOutput_execute [metadata; depositor] [] None (Some state.(meta_refund_at))).

Definition claim_native_xmr (_ctx : ProgramContext)
    (metadata custody claimant claim_aggregate_authority : AccountWithMetadata)
    (swap_id : bytes) : SpelResult :=
  let? validated :=
    validated_xmr_native_witness_state metadata custody claimant claim_aggregate_authority
      swap_id Purpose_Claim in
  let state := validated.1 in
  let transfer :=
    native_transfer_call state.(meta_asset_program) custody claimant state.(meta_amount)
      true swap_id in
  let? metadata := write_metadata metadata state in
  Ok (SpelOutput_execute [metadata; custody; claimant; claim_aggregate_authority] [transfer]
        None (Some state.(meta_refund_at))).

Definition refund_native_xmr (_ctx : ProgramContext)
    (metadata custody depositor refund_aggregate_authority : AccountWithMetadata)
    (swap_id : bytes) : SpelResult :=
  let? validated :=
    validated_xmr_native_witness_state metadata custody depositor refund_aggregate_authority
      swap_id Purpose_Refund in
  let '(state, punish_at) := validated in
  let transfer :=
    native_transfer_call state.(meta_asset_program) custody depositor state.(meta_amount)
      true swap_id in
  let? metadata := write_metadata metadata state in
  if validity_range_ok state.(meta_refund_at) punish_at
  then Ok (SpelOutput_execute [metadata; custody; depositor; refund_aggregate_authority]
             [transfer] (Some state.(meta_refund_at)) (Some punish_at))
  else Err (custom_error ERROR_INVALID_TERMS "invalid XMR signed refund validity window").

Definition punish_native_xmr (_ctx : ProgramContext)
    (metadata custody claimant : AccountWithMetadata) (swap_id : bytes) : SpelResult :=
  let? validated := validated_xmr_native_punish_state metadata custody claimant swap_id in
  let '(state, punish_at) := validated in
  let transfer :=
    native_transfer_call state.(meta_asset_program) custody claimant state.(meta_amount)
      true swap_id in
  let? metadata := write_metadata metadata state in
  Ok (SpelOutput_execute [metadata; custody; claimant] [transfer] (Some punish_at) None).

(** ** The program *)

(** The instructions in declaration order, which fixes their wire tags. *)
Inductive Instruction :=
| I_initialize_native (metadata custody depositor claimant : AccountWithMetadata)
    (swap_id terms_hash secret_digest : bytes) (amount refund_at : Z)
    (authenticated_transfer_program : ProgramId)
| I_initialize_native_witnessed
    (metadata custody depositor claimant aggregate_authority : AccountWithMetadata)
    (swap_id terms_hash aggregate_x_only_public_key : bytes) (amount refund_at : Z)
    (authenticated_transfer_program : ProgramId)
| I_fund_native (metadata custody depositor : AccountWithMetadata) (swap_id : bytes)
| I_claim_native (metadata custody claimant : AccountWithMetadata) (swap_id preimage : bytes)
| I_claim_native_witnessed
    (metadata custody claimant aggregate_authority : AccountWithMetadata) (swap_id : bytes)
| I_refund_native (metadata custody depositor : AccountWithMetadata) (swap_id : bytes)
| I_initialize_token
    (metadata depositor_owner claimant_owner token_definition : AccountWithMetadata)
    (swap_id terms_hash secret_digest : bytes) (amount refund_at : Z) (ata_program : ProgramId)
| I_create_token_custody (metadata token_definition custody : AccountWithMetadata)
    (swap_id : bytes)
| I_fund_token (metadata depositor_owner depositor_asset custody : AccountWithMetadata)
    (swap_id : bytes)
| I_claim_token (metadata custody claimant_owner claimant_asset : AccountWithMetadata)
    (swap_id preimage : bytes)
| I_refund_token (metadata custody depositor_asset : AccountWithMetadata) (swap_id : bytes)
| I_initialize_token_witnessed
    (metadata depositor_owner claimant_owner token_definition aggregate_authority
       : AccountWithMetadata)
    (swap_id terms_hash aggregate_x_only_public_key : bytes) (amount refund_at : Z)
    (ata_program : ProgramId)
| I_claim_token_witnessed
    (metadata custody claimant_owner claimant_asset aggregate_authority : AccountWithMetadata)
    (swap_id : bytes)
| I_initialize_native_xmr
    (metadata custody depositor claimant claim_aggregate_authority refund_aggregate_authority
       : AccountWithMetadata)
    (swap_id terms_hash claim_aggregate_x_only_public_key refund_aggregate_x_only_public_key
       maker_dleq_transcript_commitment taker_dleq_transcript_commitment
       claim_partial_context_binding claim_partial_commitment : bytes)
    (amount refund_at punish_at : Z) (authenticated_transfer_program : ProgramId)
| I_authorize_native_xmr_claim (metadata depositor : AccountWithMetadata)
    (swap_id claim_partial : bytes)
| I_claim_native_xmr
    (metadata custody claimant claim_aggregate_authority : AccountWithMetadata) (swap_id : bytes)
| I_refund_native_xmr
    (metadata custody depositor refund_aggregate_authority : AccountWithMetadata)
    (swap_id : bytes)
| I_punish_native_xmr (metadata custody claimant : AccountWithMetadata) (swap_id : bytes).

Definition execute (ctx : ProgramContext) (i : Instruction) : SpelResult :=
  match i with
  | I_initialize_native m c d r s t g a e p => initialize_native ctx m c d r s t g a e p
  | I_initialize_native_witnessed m c d r w s t k a e p =>
      initialize_native_witnessed ctx m c d r w s t k a e p
  | I_fund_native m c d s => fund_native ctx m c d s
  | I_claim_native m c r s x => claim_native ctx m c r s x
  | I_claim_native_witnessed m c r w s => claim_native_witnessed ctx m c r w s
  | I_refund_native m c d s => refund_native ctx m c d s
  | I_initialize_token m d r f s t g a e p => initialize_token ctx m d r f s t g a e p
  | I_create_token_custody m f c s => create_token_custody ctx m f c s
  | I_fund_token m d da c s => fund_token ctx m d da c s
  | I_claim_token m c r ra s x => claim_token ctx m c r ra s x
  | I_refund_token m c da s => refund_token ctx m c da s
  | I_initialize_token_witnessed m d r f w s t k a e p =>
      initialize_token_witnessed ctx m d r f w s t k a e p
  | I_claim_token_witnessed m c r ra w s => claim_token_witnessed ctx m c r ra w s
  | I_initialize_native_xmr m c d r wc wr s t kc kr dm dt b g a e u p =>
      initialize_native_xmr ctx m c d r wc wr s t kc kr dm dt b g a e u p
  | I_authorize_native_xmr_claim m d s x => authorize_native_xmr_claim ctx m d s x
  | I_claim_native_xmr m c r w s => claim_native_xmr ctx m c r w s
  | I_refund_native_xmr m c d w s => refund_native_xmr ctx m c d w s
  | I_punish_native_xmr m c r s => punish_native_xmr ctx m c r s
  end.

(** The [#[account(...)]] attributes of an instruction parameter. *)
Record AccountAttributes := {
  attr_init : bool;
  attr_mut : bool;
  attr_signer : bool;
  attr_owner_self : bool;
  attr_pda : option (list bytes)
}.

Definition attr_none : AccountAttributes :=
  {| attr_init := false; attr_mut := false; attr_signer := false; attr_owner_self := false;
     attr_pda := None |}.
Definition attr_m : AccountAttributes :=
  {| attr_init := false; attr_mut := true; attr_signer := false; attr_owner_self := false;
     attr_pda := None |}.
Definition attr_s : AccountAttributes :=
  {| attr_init := false; attr_mut := false; attr_signer := true; attr_owner_self := false;
     attr_pda := None |}.
Definition attr_ms : AccountAttributes :=
  {| attr_init := false; attr_mut := true; attr_signer := true; attr_owner_self := false;
     attr_pda := None |}.
Definition attr_new_metadata (swap_id : bytes) : AccountAttributes :=
  {| attr_init := true; attr_mut := false; attr_signer := false; attr_owner_self := false;
     attr_pda := Some [swap_id] |}.
Definition attr_metadata (mutable : bool) (swap_id : bytes) : AccountAttributes :=
  {| attr_init := false; attr_mut := mutable; attr_signer := false; attr_owner_self := true;
     attr_pda := Some [swap_id] |}.
Definition attr_custody (swap_id : bytes) : AccountAttributes :=
  {| attr_init := false; attr_mut := true; attr_signer := false; attr_owner_self := false;
     attr_pda := Some [seed_from_str "custody"; swap_id] |}.

(** The accounts of an instruction with their attributes, metadata first. *)
Definition instruction_accounts (i : Instruction)
    : list (AccountWithMetadata * AccountAttributes) :=
  match i with
  | I_initialize_native m c d r s _ _ _ _ _ =>
      [(m, attr_new_metadata s); (c, attr_custody s); (d, attr_s); (r, attr_none)]
  | I_initialize_native_witnessed m c d r w s _ _ _ _ _ =>
      [(m, attr_new_metadata s); (c, attr_custody s); (d, attr_s); (r, attr_none); (w, attr_none)]
  | I_fund_native m c d s =>
      [(m, attr_metadata true s); (c, attr_custody s); (d, attr_ms)]
  | I_claim_native m c r s _ =>
      [(m, attr_metadata true s); (c, attr_custody s); (r, attr_ms)]
  | I_claim_native_witnessed m c r w s =>
      [(m, attr_metadata true s); (c, attr_custody s); (r, attr_m); (w, attr_s)]
  | I_refund_native m c d s =>
      [(m, attr_metadata true s); (c, attr_custody s); (d, attr_m)]
  | I_initialize_token m d r f s _ _ _ _ _ =>
      [(m, attr_new_metadata s); (d, attr_s); (r, attr_none); (f, attr_none)]
  | I_create_token_custody m f c s =>
      [(m, attr_metadata false s); (f, attr_none); (c, attr_m)]
  | I_fund_token m d da c s =>
      [(m, attr_metadata true s); (d, attr_s); (da, attr_m); (c, attr_m)]
  | I_claim_token m c r ra s _ =>
      [(m, attr_metadata true s); (c, attr_m); (r, attr_s); (ra, attr_m)]
  | I_refund_token m c da s =>
      [(m, attr_metadata true s); (c, attr_m); (da, attr_m)]
  | I_initialize_token_witnessed m d r f w s _ _ _ _ _ =>
      [(m, attr_new_metadata s); (d, attr_s); (r, attr_none); (f, attr_none); (w, attr_none)]
  | I_claim_token_witnessed m c r ra w s =>
      [(m, attr_metadata true s); (c, attr_m); (r, attr_none); (ra, attr_m); (w, attr_s)]
  | I_initialize_native_xmr m c d r wc wr s _ _ _ _ _ _ _ _ _ _ _ =>
      [(m, attr_new_metadata s); (c, attr_custody s); (d, attr_s); (r, attr_none);
       (wc, attr_none); (wr, attr_none)]
  | I_authorize_native_xmr_claim m d s _ =>
      [(m, attr_metadata true s); (d, attr_s)]
  | I_claim_native_xmr m c r w s =>
      [(m, attr_metadata true s); (c, attr_custody s); (r, attr_m); (w, attr_s)]
  | I_refund_native_xmr m c d w s =>
      [(m, attr_metadata true s); (c, attr_custody s); (d, attr_m); (w, attr_s)]
  | I_punish_native_xmr m c r s =>
      [(m, attr_metadata true s); (c, attr_custody s); (r, attr_ms)]
  end.

End escrow.
