(* ===== verification/EscrowFacts.v ===== *)
(** * Correctness of the LEZ v0.2 escrow

    A trace is a sequence of executed instructions on one metadata account:
    each finds the data the previous one left, passes the framework's check of
    its account attributes, and runs at a time its validity window admits.  The
    theorems hold of every trace from an uninitialised account. *)

From stdpp Require Import base strings list numbers.
From S2P Require Import Prelude Escrow.

Open Scope Z_scope.

(** ** What the framework checks before an instruction runs *)

Class AccountValidation (H : EscrowHost) := {
  validate_accounts : ProgramContext → list (AccountWithMetadata * AccountAttributes) → bool;
  validate_init ctx accounts a attrs :
    validate_accounts ctx accounts = true → (a, attrs) ∈ accounts →
    attrs.(attr_init) = true → a.(account) = Account_default;
  validate_signer ctx accounts a attrs :
    validate_accounts ctx accounts = true → (a, attrs) ∈ accounts →
    attrs.(attr_signer) = true → a.(is_authorized) = true
}.

(** ** Transfers *)

(** Who pays whom how much. *)
Record Transfer := {
  transfer_from : AccountId;
  transfer_to : AccountId;
  transfer_amount : Z
}.

Section facts.
Context {H : EscrowHost}.

(** A transfer the escrow itself authorises: a transfer call carrying one of
    its program-derived seeds. *)
Definition escrow_transfer (call : ChainedCall) : option Transfer :=
  match call.(call_pda_seeds), call.(call_instruction), call.(call_pre_states) with
  | _ :: _, AuthenticatedTransfer_Transfer n, [sender; recipient] =>
      Some {| transfer_from := sender.(account_id); transfer_to := recipient.(account_id);
              transfer_amount := n |}
  | _ :: _, Ata_Transfer _ n, [_; sender; recipient] =>
      Some {| transfer_from := sender.(account_id); transfer_to := recipient.(account_id);
              transfer_amount := n |}
  | _, _, _ => None
  end.

Definition payouts (out : SpelOutput) : list Transfer :=
  omap escrow_transfer out.(chained_calls).

(** The metadata account is the first of every instruction and every output. *)
Definition metadata_account (i : Instruction) : option AccountWithMetadata :=
  option_map fst (head (instruction_accounts i)).

Definition post_data (out : SpelOutput) : option Data :=
  option_map (λ a, a.(account).(data)) (head out.(post_states)).

(** ** Kinds of instruction *)

Inductive StepKind :=
| K_Initialize
| K_Custody
| K_Fund
| K_Authorize (claim_partial : bytes)
| K_Claim (proof : ClaimProof)
| K_XmrClaim (authority : AccountId)
| K_Refund (token : bool)
| K_XmrRefund (authority : AccountId)
| K_Punish.

#[global] Instance ClaimProof_eq_dec : EqDecision ClaimProof.
Proof. solve_decision. Defined.
#[global] Instance StepKind_eq_dec : EqDecision StepKind.
Proof. solve_decision. Defined.

Definition kind_of (i : Instruction) : StepKind :=
  match i with
  | I_initialize_native _ _ _ _ _ _ _ _ _ _ => K_Initialize
  | I_initialize_native_witnessed _ _ _ _ _ _ _ _ _ _ _ => K_Initialize
  | I_fund_native _ _ _ _ => K_Fund
  | I_claim_native _ _ _ _ preimage => K_Claim (Proof_Sha256Preimage preimage)
  | I_claim_native_witnessed _ _ _ w _ => K_Claim (Proof_AggregateWitness w.(account_id))
  | I_refund_native _ _ _ _ => K_Refund false
  | I_initialize_token _ _ _ _ _ _ _ _ _ _ => K_Initialize
  | I_create_token_custody _ _ _ _ => K_Custody
  | I_fund_token _ _ _ _ _ => K_Fund
  | I_claim_token _ _ _ _ _ preimage => K_Claim (Proof_Sha256Preimage preimage)
  | I_refund_token _ _ _ _ => K_Refund true
  | I_initialize_token_witnessed _ _ _ _ _ _ _ _ _ _ _ => K_Initialize
  | I_claim_token_witnessed _ _ _ _ w _ => K_Claim (Proof_AggregateWitness w.(account_id))
  | I_initialize_native_xmr _ _ _ _ _ _ _ _ _ _ _ _ _ _ _ _ _ _ => K_Initialize
  | I_authorize_native_xmr_claim _ _ _ partial => K_Authorize partial
  | I_claim_native_xmr _ _ _ w _ => K_XmrClaim w.(account_id)
  | I_refund_native_xmr _ _ _ w _ => K_XmrRefund w.(account_id)
  | I_punish_native_xmr _ _ _ _ => K_Punish
  end.

(** The end of the XMR refund window. *)
Definition punish_deadline (m : EscrowMetadata) : option Z :=
  match m.(meta_claim_authority) with
  | XmrDualAdaptor _ _ _ _ _ _ _ _ punish_at => Some punish_at
  | _ => None
  end.

Definition to_claimant (m : EscrowMetadata) : Transfer :=
  {| transfer_from := m.(meta_custody); transfer_to := m.(meta_claimant_asset);
     transfer_amount := m.(meta_amount) |}.
Definition to_depositor (m : EscrowMetadata) : Transfer :=
  {| transfer_from := m.(meta_custody); transfer_to := m.(meta_depositor_asset);
     transfer_amount := m.(meta_amount) |}.

(** ** Well-formed metadata *)

Definition meta_inv (m : EscrowMetadata) : Prop :=
  m.(meta_amount) ≠ 0 ∧ m.(meta_refund_at) ≠ 0 ∧ m.(meta_terms_hash) ≠ zero32 ∧
  valid_claim_authority m.(meta_claim_authority) m.(meta_claimant) = true ∧
  is_ok (require_supported m) = true ∧
  (* the native and the token layout never mix *)
  (m.(meta_asset_program) = m.(meta_custody_program) →
     m.(meta_claimant_asset) = m.(meta_claimant) ∧
     m.(meta_depositor_asset) = m.(meta_depositor) ∧ m.(meta_asset_definition) = zero32) ∧
  (∀ kc ac kr ar dm dt b c punish_at,
     m.(meta_claim_authority) = XmrDualAdaptor kc ac kr ar dm dt b c punish_at →
     m.(meta_refund_at) < punish_at ∧ m.(meta_asset_program) = m.(meta_custody_program) ∧
     m.(meta_depositor) ≠ m.(meta_claimant) ∧ m.(meta_depositor) ≠ ac ∧
     m.(meta_depositor) ≠ ar) ∧
  (m.(meta_status) = Status_XmrClaimAuthorized → is_Some (punish_deadline m)).

(** One step of the escrow as a relation on metadata: the status it needs, the
    status it leaves, its window and what it pays. *)
Definition meta_step (m : EscrowMetadata) (k : StepKind) (from to : option Z)
    (pays : list Transfer) (m' : EscrowMetadata) : Prop :=
  match k with
  | K_Initialize => False
  | K_Custody =>
      m.(meta_status) = Status_Empty ∧ m' = m ∧
      from = None ∧ to = Some m.(meta_refund_at) ∧ pays = []
  | K_Fund =>
      m.(meta_status) = Status_Empty ∧ m' = set_status m Status_Funded ∧
      from = None ∧ to = Some m.(meta_refund_at) ∧ pays = []
  | K_Authorize partial =>
      m.(meta_status) = Status_Funded ∧ m' = set_status m Status_XmrClaimAuthorized ∧
      from = None ∧ to = Some m.(meta_refund_at) ∧ pays = [] ∧
      (∃ kc ac kr ar dm dt binding commitment u,
         m.(meta_claim_authority) = XmrDualAdaptor kc ac kr ar dm dt binding commitment u ∧
         xmr_claim_partial_commitment binding partial = commitment)
  | K_Claim proof =>
      m.(meta_status) = Status_Funded ∧ m' = set_status m Status_Claimed ∧
      from = None ∧ to = Some m.(meta_refund_at) ∧ pays = [to_claimant m] ∧
      require_claim_proof m proof = Ok tt
  | K_XmrClaim authority =>
      m.(meta_status) = Status_XmrClaimAuthorized ∧ m' = set_status m Status_Claimed ∧
      from = None ∧ to = Some m.(meta_refund_at) ∧ pays = [to_claimant m] ∧
      is_ok (require_xmr_witness_authority m Purpose_Claim authority) = true
  | K_Refund token =>
      m.(meta_status) = Status_Funded ∧ m' = set_status m Status_Refunded ∧
      from = Some m.(meta_refund_at) ∧ to = None ∧ pays = [to_depositor m] ∧
      (token = false → punish_deadline m = None)
  | K_XmrRefund authority =>
      (m.(meta_status) = Status_Funded ∨ m.(meta_status) = Status_XmrClaimAuthorized) ∧
      m' = set_status m Status_Refunded ∧ pays = [to_depositor m] ∧
      ∃ punish_at, punish_deadline m = Some punish_at ∧
        from = Some m.(meta_refund_at) ∧ to = Some punish_at ∧
        require_xmr_witness_authority m Purpose_Refund authority = Ok punish_at
  | K_Punish =>
      (m.(meta_status) = Status_Funded ∨ m.(meta_status) = Status_XmrClaimAuthorized) ∧
      m' = set_status m Status_Claimed ∧ pays = [to_claimant m] ∧
      ∃ punish_at, punish_deadline m = Some punish_at ∧ from = Some punish_at ∧ to = None
  end.

(** ** Inverting the code *)

Lemma write_metadata_Ok a m a' :
  write_metadata a m = Ok a' →
  ∃ e d, borsh_to_vec m = Some e ∧ data_try_from e = Some d ∧ a' = with_data a d.
Proof.
  unfold write_metadata. intros (e&He&H1)%result_bind_Ok. apply result_bind_Ok in H1 as (d&Hd&[= <-]).
  destruct (borsh_to_vec m) eqn:E1; [|done]. injection He as ->.
  destruct (data_try_from e) eqn:E2; [|done]. injection Hd as ->. eauto.
Qed.

Lemma read_metadata_Ok a m :
  read_metadata a = Ok m ↔ metadata_try_from_slice a.(account).(data) = Some m.
Proof. unfold read_metadata. destruct (metadata_try_from_slice _); cbn; naive_solver. Qed.

Lemma require_funded_Ok m u :
  require_funded m = Ok u → is_ok (require_supported m) = true ∧ m.(meta_status) = Status_Funded.
Proof.
  unfold require_funded. destruct (require_supported m); cbn; [|done].
  case_bool_decide; [done|]. done.
Qed.

End facts.

Section inversion.
Context {H : EscrowHost} {L : EscrowHostLaws H}.

Lemma supported_set_status m s : require_supported (set_status m s) = require_supported m.
Proof. done. Qed.

Lemma written m s a a' :
  write_metadata a (set_status m s) = Ok a' →
  metadata_try_from_slice a'.(account).(data) = Some (set_status m s).
Proof. intros (e&d&He&Hd&->)%write_metadata_Ok. cbn. by eapply metadata_roundtrip. Qed.

Lemma native_initial_state_Ok ctx c d r s t authority n e p m :
  native_initial_state ctx c d r s t authority n e p = Ok m →
  (∀ kc ac kr ar dm dt b g u, authority = XmrDualAdaptor kc ac kr ar dm dt b g u →
     e < u ∧ d.(account_id) ≠ r.(account_id) ∧ d.(account_id) ≠ ac ∧ d.(account_id) ≠ ar) →
  ∀ v, is_ok (require_supported (set_version m v)) = true →
  meta_inv (set_version m v) ∧ m.(meta_status) = Status_Empty ∧ m.(meta_refund_at) = e.
Proof.
  unfold native_initial_state. intros Hn. inv_ok Hn. subst m. bool_props. cbn.
  intros Hx v Hsup. unfold meta_inv; cbn. split_and!; try done.
  intros * Ha. destruct (Hx _ _ _ _ _ _ _ _ _ Ha) as (?&?&?&?). done.
Qed.

Lemma set_version_id m : set_version m m.(meta_version) = m.
Proof. by destruct m. Qed.

Lemma native_initial_plain ctx c d r s t authority n e p m :
  is_xmr_dual_adaptor authority = false →
  native_initial_state ctx c d r s t authority n e p = Ok m →
  meta_inv m ∧ m.(meta_status) = Status_Empty ∧ m.(meta_refund_at) = e.
Proof.
  intros Hx Hn. rewrite <- (set_version_id m) at 1.
  assert (m.(meta_claim_authority) = authority ∧ m.(meta_version) = 2) as [Ha Hv].
  { unfold native_initial_state in Hn. inv_ok Hn. by subst m. }
  eapply native_initial_state_Ok; [done|..].
  - by intros * ->.
  - rewrite set_version_id. unfold require_supported. rewrite Ha, Hv. by destruct authority.
Qed.

Lemma native_xmr_initial_Ok ctx c d r wc wr s t kc kr dm dt b g n e u p m :
  native_xmr_initial_state ctx c d r wc wr s t kc kr dm dt b g n e u p = Ok m →
  meta_inv m ∧ m.(meta_status) = Status_Empty ∧ m.(meta_refund_at) = e.
Proof.
  unfold native_xmr_initial_state. intros Hn. inv_ok Hn. subst m. bool_props.
  assert (Ha : x.(meta_claim_authority) =
    XmrDualAdaptor kc wc.(account_id) kr wr.(account_id) dm dt b g u).
  { unfold native_initial_state in Hx. inv_ok Hx. by subst x. }
  destruct (native_initial_state_Ok _ _ _ _ _ _ _ _ _ _ _ Hx) with (v := 3) as (?&?&?); [..|done].
  - intros * [= <- <- <- <- <- <- <- <- <-]. split_and!; [lia|done..].
  - unfold require_supported. cbn. by rewrite Ha.
Qed.

Lemma token_initial_Ok ctx a d r f s t authority n e p m :
  is_xmr_dual_adaptor authority = false →
  token_initial_state ctx a d r f s t authority n e p = Ok m →
  meta_inv m ∧ m.(meta_status) = Status_Empty ∧ m.(meta_refund_at) = e.
Proof.
  intros Hxm Hn. unfold token_initial_state in Hn. inv_ok Hn. subst m. bool_props. cbn.
  split_and!; try done. unfold meta_inv; cbn. split_and!; try done.
  - by destruct authority.
  - by intros * ->.
Qed.

Lemma require_claim_proof_plain m proof u :
  require_claim_proof m proof = Ok u → require_claim_proof m proof = Ok tt.
Proof. by destruct u. Qed.

Lemma native_claim_state_Ok a c r s proof m' :
  validated_native_claim_state a c r s proof = Ok m' →
  ∃ m, read_metadata a = Ok m ∧ m' = set_status m Status_Claimed ∧
    m.(meta_status) = Status_Funded ∧ require_claim_proof m proof = Ok tt ∧
    m.(meta_asset_program) = m.(meta_custody_program) ∧
    m.(meta_claimant) = r.(account_id) ∧ m.(meta_custody) = c.(account_id).
Proof.
  unfold validated_native_claim_state. intros Hc. inv_ok Hc. subst m'. bool_props.
  apply require_funded_Ok in Hx0 as [_ Hf]. exists x. destruct x1. done.
Qed.

Lemma token_claim_state_Ok a c o r s proof m' :
  validated_token_claim_state a c o r s proof = Ok m' →
  ∃ m, read_metadata a = Ok m ∧ m' = set_status m Status_Claimed ∧
    m.(meta_status) = Status_Funded ∧ require_claim_proof m proof = Ok tt ∧
    m.(meta_claimant_asset) = r.(account_id) ∧ m.(meta_custody) = c.(account_id).
Proof.
  unfold validated_token_claim_state. intros Hc. inv_ok Hc. subst m'.
  repeat match goal with Hr : reject_if _ _ = Ok _ |- _ => apply reject_if_Ok in Hr end.
  bool_props. apply require_funded_Ok in Hx0 as [_ Hf]. exists x.
  split_and!; try done. by eapply require_claim_proof_plain.
Qed.

Lemma xmr_authority_deadline m purpose authority u :
  require_xmr_witness_authority m purpose authority = Ok u → punish_deadline m = Some u.
Proof.
  unfold require_xmr_witness_authority, punish_deadline.
  destruct (meta_claim_authority m); try done.
  destruct purpose; intros Hr; inv_ok Hr; congruence.
Qed.

Lemma xmr_witness_state_Ok a c r w s purpose m' u :
  validated_xmr_native_witness_state a c r w s purpose = Ok (m', u) →
  ∃ m, read_metadata a = Ok m ∧
    require_xmr_witness_authority m purpose w.(account_id) = Ok u ∧
    m.(meta_asset_program) = m.(meta_custody_program) ∧ m.(meta_custody) = c.(account_id) ∧
    match purpose with
    | Purpose_Claim =>
        m.(meta_status) = Status_XmrClaimAuthorized ∧ m.(meta_claimant) = r.(account_id) ∧
        m' = set_status m Status_Claimed
    | Purpose_Refund =>
        (m.(meta_status) = Status_Funded ∨ m.(meta_status) = Status_XmrClaimAuthorized) ∧
        m.(meta_depositor) = r.(account_id) ∧ m' = set_status m Status_Refunded
    end.
Proof.
  unfold validated_xmr_native_witness_state. intros Hc. inv_ok Hc. injection Hc as <- <-.
  bool_props. exists x. split_and!; try done.
  destruct purpose; bool_props; [done|].
  apply orb_true_iff in E as [E|E]; bool_props; eauto.
Qed.

Lemma authorization_state_Ok a d s partial m' :
  validated_xmr_claim_authorization_state a d s partial = Ok m' →
  ∃ m, read_metadata a = Ok m ∧ m' = set_status m Status_XmrClaimAuthorized ∧
    m.(meta_status) = Status_Funded ∧
    (∃ kc ac kr ar dm dt binding commitment u,
       m.(meta_claim_authority) = XmrDualAdaptor kc ac kr ar dm dt binding commitment u ∧
       xmr_claim_partial_commitment binding partial = commitment).
Proof.
  unfold validated_xmr_claim_authorization_state. intros Hc. inv_ok Hc.
  destruct (meta_claim_authority x) eqn:Ea; try done. inv_ok Hc. subst m'. bool_props.
  apply require_funded_Ok in Hx0 as [_ Hf]. exists x. rewrite Ea. split_and!; try done.
  do 9 eexists. split; [reflexivity|done].
Qed.

Lemma punish_state_Ok a c r s m' u :
  validated_xmr_native_punish_state a c r s = Ok (m', u) →
  ∃ m, read_metadata a = Ok m ∧ m' = set_status m Status_Claimed ∧
    (m.(meta_status) = Status_Funded ∨ m.(meta_status) = Status_XmrClaimAuthorized) ∧
    m.(meta_asset_program) = m.(meta_custody_program) ∧ m.(meta_custody) = c.(account_id) ∧
    m.(meta_claimant) = r.(account_id) ∧ punish_deadline m = Some u.
Proof.
  unfold validated_xmr_native_punish_state, punish_deadline. intros Hc. inv_ok Hc.
  destruct (meta_claim_authority x) eqn:Ea; try done. injection Hc as <- <-. bool_props.
  exists x. rewrite Ea. split_and!; try done.
  apply orb_true_iff in E as [E|E]; bool_props; eauto.
Qed.

End inversion.

Section steps.
Context {H : EscrowHost} {L : EscrowHostLaws H}.

(** What an instruction that needs existing metadata does, whichever it is. *)
Definition refines_step (i : Instruction) (out : SpelOutput) : Prop :=
  ∃ a m d m',
    metadata_account i = Some a ∧ read_metadata a = Ok m ∧
    post_data out = Some d ∧ metadata_try_from_slice d = Some m' ∧
    (meta_inv m →
     meta_step m (kind_of i) out.(window_from) out.(window_to) (payouts out) m').

Lemma execute_initialize ctx i out :
  kind_of i = K_Initialize → execute ctx i = Ok out →
  ∃ d m, post_data out = Some d ∧ metadata_try_from_slice d = Some m ∧ meta_inv m ∧
    m.(meta_status) = Status_Empty ∧ out.(window_from) = None ∧
    out.(window_to) = Some m.(meta_refund_at) ∧ payouts out = [].
Proof.
  intros Hk Hex. destruct i; try done; cbn in Hex;
    unfold initialize_native, initialize_native_witnessed, initialize_token,
      initialize_token_witnessed, initialize_native_xmr in Hex;
    apply result_bind_Ok in Hex as (st&Hst&Hex);
    apply result_bind_Ok in Hex as (a'&(e&d&He&Hd&->)%write_metadata_Ok&Hex);
    inv_ok Hex; subst out; exists d, st; pose proof (metadata_roundtrip _ _ _ He Hd) as Hrt;
    (assert (meta_inv st ∧ meta_status st = Status_Empty ∧ meta_refund_at st = refund_at)
      as (?&?&<-)
      by (first [eapply native_initial_plain; [|exact Hst]; done
                |eapply token_initial_Ok; [|exact Hst]; done
                |eapply native_xmr_initial_Ok; exact Hst]));
    done.
Qed.

(** The native and token refund and funding instructions, whose guards are in
    their own bodies. *)
Lemma fund_native_step ctx a c d s out :
  fund_native ctx a c d s = Ok out → refines_step (I_fund_native a c d s) out.
Proof.
  unfold fund_native. intros Hex. inv_ok Hex. subst out. bool_props.
  apply written in Hx1 as Hw. exists a, x, x1.(account).(data), (set_status x Status_Funded).
  done.
Qed.

Lemma fund_token_step ctx a o da c s out :
  fund_token ctx a o da c s = Ok out → refines_step (I_fund_token a o da c s) out.
Proof.
  unfold fund_token. intros Hex. inv_ok Hex. subst out. bool_props.
  apply written in Hx10 as Hw. exists a, x, x10.(account).(data), (set_status x Status_Funded).
  done.
Qed.

Lemma custody_step ctx a f c s out :
  create_token_custody ctx a f c s = Ok out → refines_step (I_create_token_custody a f c s) out.
Proof.
  unfold create_token_custody. intros Hex. inv_ok Hex. subst out. bool_props.
  exists a, x, a.(account).(data), x. apply read_metadata_Ok in Hx as Hr. done.
Qed.

Lemma refund_native_step ctx a c d s out :
  refund_native ctx a c d s = Ok out → refines_step (I_refund_native a c d s) out.
Proof.
  unfold refund_native. intros Hex. inv_ok Hex. subst out. bool_props.
  apply require_funded_Ok in Hx0 as [_ Hf].
  apply written in Hx1 as Hw. exists a, x, x1.(account).(data), (set_status x Status_Refunded).
  split_and!; try done. intros (_&_&_&_&_&Hnat&_). destruct Hnat as (_&Hda&_); [done|].
  cbn. split_and!; try done.
  - unfold to_depositor. by rewrite Hda; congruence.
  - intros _. unfold punish_deadline. by destruct (meta_claim_authority x).
Qed.

Lemma refund_token_step ctx a c da s out :
  refund_token ctx a c da s = Ok out → refines_step (I_refund_token a c da s) out.
Proof.
  unfold refund_token. intros Hex. inv_ok Hex. subst out.
  repeat match goal with Hr : reject_if _ _ = Ok _ |- _ => apply reject_if_Ok in Hr end.
  bool_props. apply require_funded_Ok in Hx0 as [_ Hf].
  apply written in Hx8 as Hw. exists a, x, x8.(account).(data), (set_status x Status_Refunded).
  split_and!; try done. intros _. cbn. split_and!; try done.
  unfold to_depositor. cbn. congruence.
Qed.

Lemma claim_native_step ctx a c r s x out :
  claim_native ctx a c r s x = Ok out → refines_step (I_claim_native a c r s x) out.
Proof.
  unfold claim_native. intros Hex. inv_ok Hex. subst out.
  apply native_claim_state_Ok in Hx as (m&Hr&->&Hf&Hp&Hn&Hcl&Hcu). apply written in Hx0 as Hw.
  exists a, m, x1.(account).(data), (set_status m Status_Claimed).
  split_and!; try done. intros (_&_&_&_&_&Hnat&_). destruct Hnat as (Hca&_&_); [done|].
  cbn. split_and!; try done. unfold to_claimant. by rewrite Hca; congruence.
Qed.

Lemma claim_native_witnessed_step ctx a c r w s out :
  claim_native_witnessed ctx a c r w s = Ok out →
  refines_step (I_claim_native_witnessed a c r w s) out.
Proof.
  unfold claim_native_witnessed. intros Hex. inv_ok Hex. subst out.
  apply native_claim_state_Ok in Hx as (m&Hr&->&Hf&Hp&Hn&Hcl&Hcu). apply written in Hx0 as Hw.
  exists a, m, x0.(account).(data), (set_status m Status_Claimed).
  split_and!; try done. intros (_&_&_&_&_&Hnat&_). destruct Hnat as (Hca&_&_); [done|].
  cbn. split_and!; try done. unfold to_claimant. by rewrite Hca; congruence.
Qed.

Lemma claim_token_step ctx a c o r s x out :
  claim_token ctx a c o r s x = Ok out → refines_step (I_claim_token a c o r s x) out.
Proof.
  unfold claim_token. intros Hex. inv_ok Hex. subst out.
  apply token_claim_state_Ok in Hx as (m&Hr&->&Hf&Hp&Hcl&Hcu). apply written in Hx0 as Hw.
  exists a, m, x1.(account).(data), (set_status m Status_Claimed).
  split_and!; try done. intros _. cbn. split_and!; try done. unfold to_claimant. cbn; congruence.
Qed.

Lemma claim_token_witnessed_step ctx a c o r w s out :
  claim_token_witnessed ctx a c o r w s = Ok out →
  refines_step (I_claim_token_witnessed a c o r w s) out.
Proof.
  unfold claim_token_witnessed. intros Hex. inv_ok Hex. subst out.
  apply token_claim_state_Ok in Hx as (m&Hr&->&Hf&Hp&Hcl&Hcu). apply written in Hx0 as Hw.
  exists a, m, x0.(account).(data), (set_status m Status_Claimed).
  split_and!; try done. intros _. cbn. split_and!; try done. unfold to_claimant. cbn; congruence.
Qed.

Lemma authorize_step ctx a d s p out :
  authorize_native_xmr_claim ctx a d s p = Ok out →
  refines_step (I_authorize_native_xmr_claim a d s p) out.
Proof.
  unfold authorize_native_xmr_claim. intros Hex. inv_ok Hex. subst out.
  apply authorization_state_Ok in Hx as (m&Hr&->&Hf&Hp). apply written in Hx0 as Hw.
  exists a, m, x0.(account).(data), (set_status m Status_XmrClaimAuthorized). done.
Qed.

Lemma claim_xmr_step ctx a c r w s out :
  claim_native_xmr ctx a c r w s = Ok out → refines_step (I_claim_native_xmr a c r w s) out.
Proof.
  unfold claim_native_xmr. intros Hex. inv_ok Hex. subst out. destruct x as [m' u].
  apply xmr_witness_state_Ok in Hx as (m&Hr&Hau&Hn&Hcu&Hst&Hcl&->). apply written in Hx0 as Hw.
  exists a, m, x0.(account).(data), (set_status m Status_Claimed).
  split_and!; try done. intros (_&_&_&_&_&Hnat&_). destruct Hnat as (Hca&_&_); [done|].
  cbn. rewrite Hau. split_and!; try done. unfold to_claimant. by rewrite Hca; congruence.
Qed.

Lemma refund_xmr_step ctx a c d w s out :
  refund_native_xmr ctx a c d w s = Ok out → refines_step (I_refund_native_xmr a c d w s) out.
Proof.
  unfold refund_native_xmr. intros Hex. inv_ok Hex. subst out.
  apply xmr_witness_state_Ok in Hx as (m&Hr&Hau&Hn&Hcu&Hst&Hcl&->). apply written in Hx0 as Hw.
  exists a, m, x.(account).(data), (set_status m Status_Refunded).
  split_and!; try done. intros (_&_&_&_&_&Hnat&_). destruct Hnat as (_&Hda&_); [done|].
  cbn. split_and!; try done; [unfold to_depositor; by rewrite Hda; congruence|].
  exists pa. apply xmr_authority_deadline in Hau as Hd. done.
Qed.

Lemma punish_step ctx a c r s out :
  punish_native_xmr ctx a c r s = Ok out → refines_step (I_punish_native_xmr a c r s) out.
Proof.
  unfold punish_native_xmr. intros Hex. inv_ok Hex. subst out.
  apply punish_state_Ok in Hx as (m&Hr&->&Hst&Hn&Hcu&Hcl&Hu). apply written in Hx0 as Hw.
  exists a, m, x.(account).(data), (set_status m Status_Claimed).
  split_and!; try done. intros (_&_&_&_&_&Hnat&_). destruct Hnat as (Hca&_&_); [done|].
  cbn. split_and!; try done; [unfold to_claimant; by rewrite Hca; congruence|]. by exists pa.
Qed.

Lemma execute_step ctx i out :
  kind_of i ≠ K_Initialize → execute ctx i = Ok out → refines_step i out.
Proof.
  destruct i; cbn; intros Hk Hex; try done;
    eauto using fund_native_step, fund_token_step, custody_step, refund_native_step,
      refund_token_step, claim_native_step, claim_native_witnessed_step, claim_token_step,
      claim_token_witnessed_step, authorize_step, claim_xmr_step, refund_xmr_step, punish_step.
Qed.

End steps.

(** ** Traces *)

Section traces.
Context {H : EscrowHost} {L : EscrowHostLaws H} {V : AccountValidation H}.

Record Execution := {
  exec_time : Z;
  exec_instruction : Instruction;
  exec_output : SpelOutput
}.

(** The executions on one metadata account and the data they leave in it. *)
Inductive escrow_trace (ctx : ProgramContext) : list Execution → Data → Prop :=
| trace_start : escrow_trace ctx [] default_data
| trace_execute tr d time i out a d' :
    escrow_trace ctx tr d →
    metadata_account i = Some a → a.(account).(data) = d →
    validate_accounts ctx (instruction_accounts i) = true →
    execute ctx i = Ok out → window_admits out time = true →
    post_data out = Some d' →
    escrow_trace ctx
      (tr ++ [{| exec_time := time; exec_instruction := i; exec_output := out |}]) d'.

Definition trace_payouts (tr : list Execution) : list Transfer :=
  concat (map (λ e, payouts e.(exec_output)) tr).

(** What an escrow in a given state has paid. *)
Definition settled (m : EscrowMetadata) : list Transfer :=
  match m.(meta_status) with
  | Status_Claimed => [to_claimant m]
  | Status_Refunded => [to_depositor m]
  | _ => []
  end.

Inductive status_edge : EscrowStatus → EscrowStatus → Prop :=
| edge_fund : status_edge Status_Empty Status_Funded
| edge_authorize : status_edge Status_Funded Status_XmrClaimAuthorized
| edge_claim : status_edge Status_Funded Status_Claimed
| edge_refund : status_edge Status_Funded Status_Refunded
| edge_xmr_claim : status_edge Status_XmrClaimAuthorized Status_Claimed
| edge_xmr_refund : status_edge Status_XmrClaimAuthorized Status_Refunded.

Lemma set_status_self m : set_status m m.(meta_status) = m.
Proof. by destruct m. Qed.

Lemma set_status_twice m s s' : set_status (set_status m s) s' = set_status m s'.
Proof. done. Qed.

Lemma meta_inv_set_status m s :
  meta_inv m → (s = Status_XmrClaimAuthorized → is_Some (punish_deadline m)) →
  meta_inv (set_status m s).
Proof. intros (?&?&?&?&?&?&?&?) ?. done. Qed.

(** A step keeps the terms, moves the status along an edge, and pays exactly
    what the new status says was paid. *)
Lemma meta_step_facts m k from to pays m' :
  meta_inv m → meta_step m k from to pays m' →
  meta_inv m' ∧ m' = set_status m m'.(meta_status) ∧
  (m' = m ∨ status_edge m.(meta_status) m'.(meta_status)) ∧
  settled m' = settled m ++ pays.
Proof.
  intros Hinv Hs.
  assert (Hgo : ∀ s, m' = set_status m s →
    (s = Status_XmrClaimAuthorized → is_Some (punish_deadline m)) →
    (m' = m ∨ status_edge m.(meta_status) s) → settled m' = settled m ++ pays →
    meta_inv m' ∧ m' = set_status m m'.(meta_status) ∧
    (m' = m ∨ status_edge m.(meta_status) m'.(meta_status)) ∧ settled m' = settled m ++ pays).
  { intros s -> Hx He Hp. split_and!; try done. by apply meta_inv_set_status. }
  destruct k; cbn in Hs; try done; unfold settled.
  - destruct Hs as (Hst&->&->&->&->). apply (Hgo m.(meta_status)); [by rewrite set_status_self|..];
      rewrite ?Hst; try done; [by left|unfold settled; by rewrite Hst].
  - destruct Hs as (Hst&->&->&->&->). eapply Hgo; [done..|right; rewrite Hst; constructor|].
    unfold settled. by rewrite Hst.
  - destruct Hs as (Hst&->&->&->&->&Hx). eapply Hgo; [done|..].
    + intros _. destruct Hx as (?&?&?&?&?&?&?&?&?&Ha&_). unfold punish_deadline. rewrite Ha. eauto.
    + right. rewrite Hst. constructor.
    + unfold settled. by rewrite Hst.
  - destruct Hs as (Hst&->&->&->&->&Hx). eapply Hgo; [done..|right; rewrite Hst; constructor|].
    unfold settled. by rewrite Hst.
  - destruct Hs as (Hst&->&->&->&->&Hx). eapply Hgo; [done..|right; rewrite Hst; constructor|].
    unfold settled. by rewrite Hst.
  - destruct Hs as (Hst&->&->&->&->&Hx). eapply Hgo; [done..|right; rewrite Hst; constructor|].
    unfold settled. by rewrite Hst.
  - destruct Hs as (Hst&->&->&Hx). eapply Hgo; [done..| |].
    + right. destruct Hst as [->| ->]; constructor.
    + unfold settled. by destruct Hst as [->| ->].
  - destruct Hs as (Hst&->&->&Hx). eapply Hgo; [done..| |].
    + right. destruct Hst as [->| ->]; constructor.
    + unfold settled. by destruct Hst as [->| ->].
Qed.

(** One execution on data that already holds metadata, or that holds none. *)
Lemma execution_cases ctx i a out time d' :
  metadata_account i = Some a →
  validate_accounts ctx (instruction_accounts i) = true →
  execute ctx i = Ok out → post_data out = Some d' → window_admits out time = true →
  (kind_of i = K_Initialize ∧ a.(account).(data) = default_data ∧
   ∃ m', metadata_try_from_slice d' = Some m' ∧ meta_inv m' ∧
     m'.(meta_status) = Status_Empty ∧ payouts out = [] ∧ time < m'.(meta_refund_at)) ∨
  (kind_of i ≠ K_Initialize ∧
   ∃ m m', metadata_try_from_slice a.(account).(data) = Some m ∧
     metadata_try_from_slice d' = Some m' ∧
     (meta_inv m → meta_step m (kind_of i) out.(window_from) out.(window_to) (payouts out) m')).
Proof.
  intros Ha Hv Hex Hd Hw. destruct (decide (kind_of i = K_Initialize)) as [Hk|Hk].
  - left. destruct (execute_initialize ctx i out Hk Hex) as (d&m&Hd1&Hm&Hi&Hs&Hf&Ht&Hp).
    rewrite Hd in Hd1. injection Hd1 as <-. split_and!; [done| |].
    + assert (a.(account) = Account_default) as ->; [|done].
      destruct i; try done; cbn in Ha, Hv; injection Ha as <-;
        (eapply validate_init; [exact Hv|left|done]).
    + exists m. unfold window_admits in Hw. rewrite Hf, Ht in Hw. bool_props. done.
  - right. split; [done|].
    destruct (execute_step ctx i out Hk Hex) as (a1&m&d1&m1&Ha1&Hr&Hd1&Hm1&Hstep).
    rewrite Ha in Ha1. injection Ha1 as <-. rewrite Hd in Hd1. injection Hd1 as <-.
    exists m, m1. split_and!; try done. by apply read_metadata_Ok.
Qed.

(** ** The trace invariant *)

(** Where an execution must fall in time, for its kind. *)
Definition timing_ok (m : EscrowMetadata) (e : Execution) : Prop :=
  match kind_of e.(exec_instruction) with
  | K_Refund _ => m.(meta_refund_at) ≤ e.(exec_time)
  | K_XmrRefund _ =>
      ∃ u, punish_deadline m = Some u ∧ m.(meta_refund_at) ≤ e.(exec_time) < u
  | K_Punish => ∃ u, punish_deadline m = Some u ∧ u ≤ e.(exec_time)
  | _ => e.(exec_time) < m.(meta_refund_at)
  end.

(** Who must have authorised an execution, for its kind. *)
Definition signed_by (e : Execution) (authority : AccountId) : Prop :=
  ∃ a attrs, (a, attrs) ∈ instruction_accounts e.(exec_instruction) ∧
    a.(account_id) = authority ∧ a.(is_authorized) = true.

Definition authority_ok (m : EscrowMetadata) (e : Execution) : Prop :=
  match kind_of e.(exec_instruction), m.(meta_claim_authority) with
  | K_Claim (Proof_Sha256Preimage preimage), authority =>
      authority = Sha256Preimage (sha256 preimage) ∧
      (∃ r, signed_by e r ∧ r = m.(meta_claimant))
  | K_Claim (Proof_AggregateWitness w), authority =>
      ∃ key, authority = AggregateWitness key w ∧ w = witnessed_account_id key ∧ signed_by e w
  | K_XmrClaim w, XmrDualAdaptor kc ac _ _ _ _ _ _ _ =>
      w = ac ∧ w = witnessed_account_id kc ∧ signed_by e w
  | K_XmrClaim _, _ => False
  | K_XmrRefund w, XmrDualAdaptor _ _ kr ar _ _ _ _ _ =>
      w = ar ∧ w = witnessed_account_id kr ∧ signed_by e w
  | K_XmrRefund _, _ => False
  | _, _ => True
  end.

(** A published claim partial that opens the escrow's commitment. *)
Definition partial_published (m : EscrowMetadata) (tr : list Execution) : Prop :=
  ∃ e partial kc ac kr ar dm dt binding commitment u,
    e ∈ tr ∧ kind_of e.(exec_instruction) = K_Authorize partial ∧
    m.(meta_claim_authority) = XmrDualAdaptor kc ac kr ar dm dt binding commitment u ∧
    xmr_claim_partial_commitment binding partial = commitment.

Definition trace_inv (tr : list Execution) (m : EscrowMetadata) : Prop :=
  meta_inv m ∧ trace_payouts tr = settled m ∧
  Forall (timing_ok m) tr ∧ Forall (authority_ok m) tr ∧
  (m.(meta_status) = Status_XmrClaimAuthorized → partial_published m tr) ∧
  (∀ e w, e ∈ tr → kind_of e.(exec_instruction) = K_XmrClaim w → partial_published m tr).

Lemma timing_ok_set m s e : timing_ok (set_status m s) e ↔ timing_ok m e.
Proof. done. Qed.
Lemma authority_ok_set m s e : authority_ok (set_status m s) e ↔ authority_ok m e.
Proof. done. Qed.
Lemma published_set m s tr : partial_published (set_status m s) tr ↔ partial_published m tr.
Proof. done. Qed.
Lemma published_app m tr tr' : partial_published m tr → partial_published m (tr ++ tr').
Proof.
  intros (e&p&kc&ac&kr&ar&dm&dt&b&c&u&He&?&?&?). exists e, p, kc, ac, kr, ar, dm, dt, b, c, u.
  split_and!; try done. apply elem_of_app. by left.
Qed.

Lemma step_timing m e out m' :
  meta_step m (kind_of e.(exec_instruction)) out.(window_from) out.(window_to) (payouts out) m' →
  window_admits out e.(exec_time) = true → timing_ok m e.
Proof.
  unfold window_admits, timing_ok. intros Hs Hw.
  destruct (kind_of (exec_instruction e)); cbn in Hs; try done;
    destruct_and? Hs; repeat match goal with Hx : ∃ _, _ |- _ => destruct Hx end; destruct_and?;
    repeat match goal with Hx : window_from _ = _ |- _ => rewrite Hx in Hw end;
    repeat match goal with Hx : window_to _ = _ |- _ => rewrite Hx in Hw end;
    bool_props; eauto.
Qed.

Lemma signer_signed ctx e a attrs :
  validate_accounts ctx (instruction_accounts e.(exec_instruction)) = true →
  (a, attrs) ∈ instruction_accounts e.(exec_instruction) → attrs.(attr_signer) = true →
  signed_by e a.(account_id).
Proof. intros Hv Hin Hs. exists a, attrs. split_and!; try done. by eapply validate_signer. Qed.

Lemma aggregate_authority_Ok m w u :
  require_aggregate_witness_authority m w = Ok u →
  ∃ key, m.(meta_claim_authority) = AggregateWitness key w ∧ w = witnessed_account_id key.
Proof.
  unfold require_aggregate_witness_authority.
  destruct (meta_claim_authority m); try done. intros Hr. inv_ok Hr. bool_props. subst. eauto.
Qed.

Lemma preimage_authority_Ok m p u :
  require_preimage_authority m p = Ok u → m.(meta_claim_authority) = Sha256Preimage (sha256 p).
Proof.
  unfold require_preimage_authority.
  destruct (meta_claim_authority m); try done. intros Hr. inv_ok Hr. bool_props. by subst.
Qed.

Lemma xmr_authority_Ok m purpose w u :
  require_xmr_witness_authority m purpose w = Ok u →
  match m.(meta_claim_authority) with
  | XmrDualAdaptor kc ac kr ar _ _ _ _ _ =>
      match purpose with
      | Purpose_Claim => w = ac ∧ w = witnessed_account_id kc
      | Purpose_Refund => w = ar ∧ w = witnessed_account_id kr
      end
  | _ => False
  end.
Proof.
  unfold require_xmr_witness_authority.
  destruct (meta_claim_authority m); try done.
  destruct purpose; intros Hr; inv_ok Hr; bool_props; subst; done.
Qed.

Lemma token_claim_owner a c o r s proof m' m :
  validated_token_claim_state a c o r s proof = Ok m' → read_metadata a = Ok m →
  m.(meta_claimant) = o.(account_id).
Proof.
  unfold validated_token_claim_state. intros Hc Hr. inv_ok Hc. rewrite Hr in Hx. injection Hx as <-.
  repeat match goal with Hj : reject_if _ _ = Ok _ |- _ => apply reject_if_Ok in Hj end.
  bool_props. done.
Qed.

(** A preimage claim is also signed by the claimant. *)
Lemma preimage_claim_signed ctx time i out a m p :
  kind_of i = K_Claim (Proof_Sha256Preimage p) → metadata_account i = Some a →
  metadata_try_from_slice a.(account).(data) = Some m →
  validate_accounts ctx (instruction_accounts i) = true → execute ctx i = Ok out →
  signed_by {| exec_time := time; exec_instruction := i; exec_output := out |} m.(meta_claimant).
Proof.
  intros Hk Ha Hm Hv Hex. apply read_metadata_Ok in Hm.
  destruct i; cbn in Hk; try done; injection Ha as <-; cbn in Hex.
  - unfold claim_native in Hex. apply result_bind_Ok in Hex as (m'&Hc&_).
    apply native_claim_state_Ok in Hc as (m1&Hr&_&_&_&_&Hcl&_).
    rewrite Hm in Hr. injection Hr as <-. rewrite Hcl.
    eapply signer_signed; [exact Hv|right; right; left|done].
  - unfold claim_token in Hex. apply result_bind_Ok in Hex as (m'&Hc&_).
    rewrite (token_claim_owner _ _ _ _ _ _ _ _ Hc Hm).
    eapply signer_signed; [exact Hv|right; right; left|done].
Qed.

Lemma step_authority ctx time i out a m m' :
  let e := {| exec_time := time; exec_instruction := i; exec_output := out |} in
  metadata_account i = Some a → metadata_try_from_slice a.(account).(data) = Some m →
  validate_accounts ctx (instruction_accounts i) = true → execute ctx i = Ok out →
  meta_step m (kind_of i) out.(window_from) out.(window_to) (payouts out) m' →
  authority_ok m e.
Proof.
  intros e Ha Hm Hv Hex Hs. unfold authority_ok. cbn [e exec_instruction].
  destruct (kind_of i) as [| | | |proof|w| |w|] eqn:Hk; cbn in Hs; try done.
  - destruct Hs as (_&_&_&_&_&Hp). destruct proof as [p|w]; cbn in Hp.
    + apply preimage_authority_Ok in Hp. split; [done|]. eexists. split; [|done].
      by eapply preimage_claim_signed.
    + apply aggregate_authority_Ok in Hp as (key&Hau&Hw). exists key. split_and!; try done.
      destruct i; cbn in Hk; try done; injection Hk as <-;
        (apply (signer_signed ctx e _ attr_s); [exact Hv| |done]; cbn;
         rewrite !elem_of_cons; tauto).
  - destruct Hs as (_&_&_&_&_&Hp).
    destruct (require_xmr_witness_authority m Purpose_Claim w) eqn:Hr; [|done].
    apply xmr_authority_Ok in Hr. destruct (meta_claim_authority m); try done.
    destruct Hr as [? ?]. split_and!; try done.
    destruct i; cbn in Hk; try done; injection Hk as <-;
      (apply (signer_signed ctx e _ attr_s); [exact Hv| |done]; cbn; rewrite !elem_of_cons; tauto).
  - destruct Hs as (_&_&_&u&_&_&_&Hr).
    apply xmr_authority_Ok in Hr. destruct (meta_claim_authority m); try done.
    destruct Hr as [? ?]. split_and!; try done.
    destruct i; cbn in Hk; try done; injection Hk as <-;
      (apply (signer_signed ctx e _ attr_s); [exact Hv| |done]; cbn; rewrite !elem_of_cons; tauto).
Qed.

(** Only an authorization leads to the authorized status. *)
Lemma step_to_authorized m k from to pays m' :
  meta_step m k from to pays m' → m'.(meta_status) = Status_XmrClaimAuthorized →
  m.(meta_status) = Status_XmrClaimAuthorized ∨
  ∃ partial kc ac kr ar dm dt binding commitment u,
    k = K_Authorize partial ∧
    m.(meta_claim_authority) = XmrDualAdaptor kc ac kr ar dm dt binding commitment u ∧
    xmr_claim_partial_commitment binding partial = commitment.
Proof.
  intros Hs Hst. destruct k; cbn in Hs; try done.
  - destruct Hs as (_&->&_). by left.
  - destruct Hs as (_&->&_). done.
  - destruct Hs as (_&_&_&_&_&kc&ac&kr&ar&dm&dt&b&c&u&?&?). right.
    by exists claim_partial, kc, ac, kr, ar, dm, dt, b, c, u.
  - by destruct Hs as (_&->&_).
  - by destruct Hs as (_&->&_).
  - by destruct Hs as (_&->&_).
  - by destruct Hs as (_&->&_).
  - by destruct Hs as (_&->&_).
Qed.

(** The invariant holds of every trace. *)
Lemma trace_invariant ctx tr d :
  escrow_trace ctx tr d →
  (tr = [] ∧ d = default_data) ∨ ∃ m, metadata_try_from_slice d = Some m ∧ trace_inv tr m.
Proof.
  intros Htr. induction Htr as [|tr d time i out a d' Htr IH Ha Hd Hv Hex Hw Hpd]; [by left|].
  right. subst d. set (e := {| exec_time := time; exec_instruction := i; exec_output := out |}).
  assert (Hpay : trace_payouts (tr ++ [e]) = trace_payouts tr ++ payouts out).
  { unfold trace_payouts. rewrite map_app, concat_app. cbn. by rewrite app_nil_r. }
  destruct (execution_cases ctx i a out time d' Ha Hv Hex Hpd Hw)
    as [(Hk&Hdef&m'&Hm'&Hi&Hst&Hp&Ht)|(Hk&m&m'&Hm&Hm'&Hstep)].
  - destruct IH as [[-> _]|(m0&Hm0&_)];
      [|rewrite Hdef in Hm0; by rewrite default_data_is_no_metadata in Hm0].
    exists m'. split; [done|]. unfold trace_inv. rewrite Hpay, Hp.
    split_and!; try done; cbn.
    + unfold settled. by rewrite Hst.
    + repeat constructor. unfold timing_ok. cbn. by rewrite Hk.
    + repeat constructor. unfold authority_ok. cbn. by rewrite Hk.
    + by rewrite Hst.
    + intros e' w He' Hk'. apply list_elem_of_singleton in He'. subst e'. cbn in Hk'. congruence.
  - destruct IH as [[_ Hdef]|(m0&Hm0&Hinv)];
      [rewrite Hdef in Hm; by rewrite default_data_is_no_metadata in Hm|].
    rewrite Hm in Hm0. injection Hm0 as <-.
    destruct Hinv as (Hi&Hp&Hti&Hau&Hx1&Hx2). specialize (Hstep Hi).
    exists m'. split; [done|].
    destruct (meta_step_facts _ _ _ _ _ _ Hi Hstep) as (Hi'&Hset&_&Hpays).
    pose proof (step_timing m e out m' Hstep Hw) as Ht.
    pose proof (step_authority ctx time i out a m m' Ha Hm Hv Hex Hstep) as Hauth.
    set (s' := meta_status m') in Hset.
    unfold trace_inv. rewrite Hpay, Hp, Hpays. rewrite Hset in Hi' |- *.
    split_and!; try done.
    + apply Forall_app. split; [done|]. by repeat constructor.
    + apply Forall_app. split; [done|]. by repeat constructor.
    + intros Hs'. cbn in Hs'. rewrite published_set.
      destruct (decide (m.(meta_status) = Status_XmrClaimAuthorized)) as [Hy|Hy];
        [by apply published_app, Hx1|].
      destruct (step_to_authorized _ _ _ _ _ _ Hstep Hs')
        as [?|(p&kc&ac&kr&ar&dm&dt&b&c&u&?&?&?)]; [done|].
      exists e, p, kc, ac, kr, ar, dm, dt, b, c, u.
      split_and!; try done. apply elem_of_app. right. left.
    + intros e' w [He'|He'%list_elem_of_singleton]%elem_of_app Hk'; rewrite published_set.
      * by eapply published_app, Hx2.
      * subst e'. cbn in Hk'. rewrite Hk' in Hstep. cbn in Hstep.
        apply published_app, Hx1. tauto.
Qed.

End traces.
