(* ===== verification/EscrowTheorems.v ===== *)
(** * Theorems on the LEZ v0.2 escrow

    The properties of every trace of [EscrowFacts], the availability of the
    refund and of the XMR branches, and the frame of the instructions; then a
    small concrete host, on which each theorem is applied. *)

From stdpp Require Import base strings list numbers relations.
From S2P Require Import Prelude Escrow EscrowFacts.

Open Scope Z_scope.

Section theorems.
Context {H : EscrowHost} {L : EscrowHostLaws H} {V : AccountValidation H}.

(** ** Lemmas *)

Lemma trace_last ctx tr e d' :
  escrow_trace ctx (tr ++ [e]) d' →
  ∃ d a, escrow_trace ctx tr d ∧
    metadata_account e.(exec_instruction) = Some a ∧ a.(account).(data) = d ∧
    validate_accounts ctx (instruction_accounts e.(exec_instruction)) = true ∧
    execute ctx e.(exec_instruction) = Ok e.(exec_output) ∧
    window_admits e.(exec_output) e.(exec_time) = true ∧
    post_data e.(exec_output) = Some d'.
Proof.
  intros Htr. inversion Htr as [Heq|tr0 d time i out a d0 Htr0 ? ? ? ? ? ? Heq].
  - by destruct tr.
  - apply app_inj_2 in Heq as [-> [= <-]]; [|done]. subst. eauto 12.
Qed.

Lemma trace_nil_data ctx d : escrow_trace ctx [] d → d = default_data.
Proof.
  intros Htr. inversion Htr as [|tr0 ? ? ? ? ? ? ? ? ? ? ? ? ? Heq]; [done|]. by destruct tr0.
Qed.

Lemma trace_data_unique ctx tr d d' : escrow_trace ctx tr d → escrow_trace ctx tr d' → d = d'.
Proof.
  destruct tr as [|e tr _] using rev_ind.
  - intros ->%trace_nil_data ->%trace_nil_data. done.
  - intros (?&?&_&_&_&_&_&_&H1)%trace_last (?&?&_&_&_&_&_&_&H2)%trace_last. congruence.
Qed.

(** One execution after another, on metadata. *)
Lemma trace_last_step ctx tr e d d' m :
  escrow_trace ctx tr d → metadata_try_from_slice d = Some m →
  escrow_trace ctx (tr ++ [e]) d' →
  ∃ m', metadata_try_from_slice d' = Some m' ∧ trace_inv tr m ∧
    meta_step m (kind_of e.(exec_instruction)) e.(exec_output).(window_from)
      e.(exec_output).(window_to) (payouts e.(exec_output)) m'.
Proof.
  intros Htr Hm (d0&a&Htr0&Ha&Hd&Hv&Hex&Hw&Hp)%trace_last.
  rewrite (trace_data_unique _ _ _ _ Htr0 Htr) in Hd. subst d.
  destruct (trace_invariant _ _ _ Htr) as [[_ Hdef]|(m0&Hm0&Hinv)].
  { rewrite Hdef, default_data_is_no_metadata in Hm. done. }
  rewrite Hm in Hm0. injection Hm0 as <-.
  destruct (execution_cases ctx _ a _ _ d' Ha Hv Hex Hp Hw)
    as [(_&Hdef&_)|(Hk&m1&m'&Hm1&Hm'&Hs)].
  { rewrite Hdef, default_data_is_no_metadata in Hm. done. }
  rewrite Hm in Hm1. injection Hm1 as <-. exists m'. split_and!; try done. apply Hs, Hinv.
Qed.

Lemma trace_with_metadata ctx tr d m :
  escrow_trace ctx tr d → metadata_try_from_slice d = Some m → trace_inv tr m.
Proof.
  intros Htr Hm. destruct (trace_invariant _ _ _ Htr) as [[_ Hdef]|(m0&Hm0&Hinv)].
  - rewrite Hdef, default_data_is_no_metadata in Hm. done.
  - rewrite Hm in Hm0. by injection Hm0 as <-.
Qed.

(** ** Properties of every trace *)

(** C1: in every history of an escrow the transfers made under the escrow's own
    authority are exactly the settlement its status records: none before it is
    settled, one transfer of the whole agreed amount from the custody to the
    agreed claimant once it is claimed, one to the agreed depositor once it is
    refunded.  So no history pays twice, or any other party or amount. *)
Theorem escrow_pays_once ctx tr d :
  escrow_trace ctx tr d →
  match metadata_try_from_slice d with
  | Some m => trace_payouts tr = settled m ∧ m.(meta_amount) ≠ 0
  | None => tr = []
  end.
Proof.
  intros Htr. destruct (trace_invariant _ _ _ Htr) as [[-> ->]|(m&->&(Hi&Hp&_))].
  - by rewrite default_data_is_no_metadata.
  - split; [done|apply Hi].
Qed.

(** The terms of an initialised escrow never change: whatever instructions
    follow, only the status differs, and it has moved along the edges from
    empty to funded, optionally to claim-authorized, and to claimed or refunded,
    which are final. *)
Theorem escrow_terms_immutable ctx tr tr' d d' m :
  escrow_trace ctx tr d → metadata_try_from_slice d = Some m →
  escrow_trace ctx (tr ++ tr') d' →
  ∃ m', metadata_try_from_slice d' = Some m' ∧ m' = set_status m m'.(meta_status) ∧
        rtc status_edge m.(meta_status) m'.(meta_status).
Proof.
  intros Htr Hm. revert d'. induction tr' as [|e tr' IH] using rev_ind; intros d' Htr'.
  - rewrite app_nil_r in Htr'. rewrite (trace_data_unique _ _ _ _ Htr' Htr).
    exists m. rewrite set_status_self. split_and!; done.
  - rewrite (assoc_L (++)) in Htr'.
    pose proof Htr' as (d1&_&Htr1&_)%trace_last.
    destruct (IH _ Htr1) as (m1&Hm1&Hset&Hreach).
    destruct (trace_last_step _ _ _ _ _ _ Htr1 Hm1 Htr') as (m'&Hm'&(Hi&_)&Hs).
    destruct (meta_step_facts _ _ _ _ _ _ Hi Hs) as (_&Hset'&Hedge&_).
    exists m'. split_and!; [done| |].
    + rewrite Hset in Hset'. by rewrite set_status_twice in Hset'.
    + destruct Hedge as [->|Hedge]; [done|]. by eapply rtc_r.
Qed.

(** Every execution in a history falls on the right side of the deadlines:
    initialization, custody creation, funding, claim authorization and claims
    strictly before the refund time; the refunds of the hash and witness paths
    from the refund time on; the XMR refund from the refund time and strictly
    before the punish time; the XMR punishment from the punish time on. *)
Theorem executions_respect_deadlines ctx tr d m :
  escrow_trace ctx tr d → metadata_try_from_slice d = Some m → Forall (timing_ok m) tr.
Proof. intros Htr Hm. apply (trace_with_metadata _ _ _ _ Htr Hm). Qed.

(** C36: every claim and every signed XMR refund in a history was authorised by
    the authority fixed at initialization: a preimage of the agreed digest
    together with the claimant's signature, or the signature of the aggregate
    account derived from the agreed key (the claim key for an XMR claim, the
    refund key for an XMR refund). *)
Theorem settlements_are_authorised ctx tr d m :
  escrow_trace ctx tr d → metadata_try_from_slice d = Some m → Forall (authority_ok m) tr.
Proof. intros Htr Hm. apply (trace_with_metadata _ _ _ _ Htr Hm). Qed.

(** An XMR claim only ever happens after an execution of the history has
    published a claim partial that opens the commitment fixed in the terms. *)
Theorem xmr_claim_after_publication ctx tr e d w :
  escrow_trace ctx (tr ++ [e]) d → kind_of e.(exec_instruction) = K_XmrClaim w →
  ∃ m, metadata_try_from_slice d = Some m ∧ m.(meta_status) = Status_Claimed ∧
       partial_published m tr.
Proof.
  intros Htr' Hk. pose proof Htr' as (d0&a&Htr&Ha&Hd&Hv&Hex&Hw&Hp)%trace_last.
  destruct (execution_cases ctx _ a _ _ d Ha Hv Hex Hp Hw) as [(Hk0&_)|(_&m&_&Hm&_)];
    [congruence|]. rewrite Hd in Hm.
  destruct (trace_last_step _ _ _ _ _ _ Htr Hm Htr') as (m'&Hm'&Hinv&Hs).
  rewrite Hk in Hs. destruct Hs as (Hst&->&_). exists (set_status m Status_Claimed).
  split_and!; try done. apply Hinv, Hst.
Qed.

(** ** Frame *)

Lemma covered (q : AccountWithMetadata) l :
  In q l → ∃ q', q' ∈ l ∧ (q = q' ∨ q = authorized q').
Proof. intros Hq. exists q. split; [by apply list_elem_of_In|by left]. Qed.

Lemma covered_authorized (q : AccountWithMetadata) l :
  In q l → ∃ q', q' ∈ l ∧ (authorized q = q' ∨ authorized q = authorized q').
Proof. intros Hq. exists q. split; [by apply list_elem_of_In|by right]. Qed.

(** An instruction changes no account but the metadata's data: its post
    states are its accounts in order with at most the data of the first
    replaced, it replaces that data only where the account is declared created
    or mutable, and a chained call is passed only accounts of the instruction,
    at most marked authorised or with the new metadata. *)
Theorem instruction_frame ctx i out :
  execute ctx i = Ok out →
  ∃ a attrs rest d,
    instruction_accounts i = (a, attrs) :: rest ∧
    out.(post_states) = with_data a d :: map fst rest ∧
    (d = a.(account).(data) ∨ attrs.(attr_init) = true ∨ attrs.(attr_mut) = true) ∧
    Forall (λ call, Forall (λ p, ∃ q, q ∈ with_data a d :: a :: map fst rest ∧
                                      (p = q ∨ p = authorized q))
                      call.(call_pre_states))
      out.(chained_calls).
Proof.
  intros Hex.
  assert (Hself : ∀ a, a = with_data a a.(account).(data)) by (by intros [[] ? ?]).
  destruct i; cbn in Hex;
    unfold initialize_native, initialize_native_witnessed, initialize_token,
      initialize_token_witnessed, initialize_native_xmr, fund_native, fund_token,
      create_token_custody, claim_native, claim_native_witnessed, claim_token,
      claim_token_witnessed, refund_native, refund_token, authorize_native_xmr_claim,
      claim_native_xmr, refund_native_xmr, punish_native_xmr in Hex;
    inv_ok Hex; subst out;
    first
      [match goal with Hw : write_metadata _ _ = Ok _ |- _ =>
         apply write_metadata_Ok in Hw as (en&dd&_&_&->) end; do 3 eexists; exists dd
      |do 3 eexists; exists metadata.(account).(data)];
    (split_and!; [reflexivity|cbn; rewrite <- ?Hself; reflexivity|cbn; by auto|]);
    cbn; repeat first [apply List.Forall_nil|apply List.Forall_cons];
    first [apply covered; cbn; tauto|apply covered_authorized; cbn; tauto].
Qed.

(** ** Payouts *)

Ltac open_state :=
  repeat match goal with
  | Hx : validated_native_claim_state _ _ _ _ _ = Ok _ |- _ =>
      unfold validated_native_claim_state in Hx; inv_ok Hx
  | Hx : validated_token_claim_state _ _ _ _ _ _ = Ok _ |- _ =>
      unfold validated_token_claim_state in Hx; inv_ok Hx
  | Hx : validated_xmr_native_witness_state _ _ _ _ _ _ = Ok _ |- _ =>
      unfold validated_xmr_native_witness_state in Hx; inv_ok Hx
  | Hx : validated_xmr_native_punish_state _ _ _ _ = Ok _ |- _ =>
      unfold validated_xmr_native_punish_state in Hx; inv_ok Hx
  | Hx : reject_if _ _ = Ok _ |- _ => apply reject_if_Ok in Hx
  | Hx : match ?a with XmrDualAdaptor _ _ _ _ _ _ _ _ _ => _ | _ => _ end = Ok _ |- _ =>
      destruct a; try discriminate Hx; inv_ok Hx
  | Hx : (_, _) = ?p |- _ => is_var p; subst p
  | Hx : (_, _) = (_, _) |- _ => injection Hx as <- <-
  end; bool_props; subst; cbn in *.

(** A payout takes the custody's whole balance: the account it debits is
    one of the instruction's, and that account held exactly the amount paid,
    as its native balance or as its token balance. *)
Theorem payout_takes_whole_custody ctx i out t :
  execute ctx i = Ok out → t ∈ payouts out →
  ∃ c attrs, (c, attrs) ∈ instruction_accounts i ∧ c.(account_id) = t.(transfer_from) ∧
    (c.(account).(balance) = t.(transfer_amount) ∨ fungible_balance c = Ok t.(transfer_amount)).
Proof.
  intros Hex Ht. destruct i; cbn in Hex;
    unfold initialize_native, initialize_native_witnessed, initialize_token,
      initialize_token_witnessed, initialize_native_xmr, fund_native, fund_token,
      create_token_custody, claim_native, claim_native_witnessed, claim_token,
      claim_token_witnessed, refund_native, refund_token, authorize_native_xmr_claim,
      claim_native_xmr, refund_native_xmr, punish_native_xmr in Hex;
    inv_ok Hex; subst out; cbn in Ht; try (by apply elem_of_nil in Ht);
    apply list_elem_of_singleton in Ht; subst t; open_state; do 2 eexists;
    (split; [right; left|]); (split; [reflexivity|]); cbn; eauto using eq_sym.
Qed.

(** ** Availability *)

(** The account of a native party as the escrow expects it. *)
Definition native_account (m : EscrowMetadata) (a : AccountWithMetadata) (id : AccountId) : Prop :=
  a.(account_id) = id ∧ a.(account).(program_owner) = m.(meta_asset_program).

(** The custody as funding left it. *)
Definition funded_custody (m : EscrowMetadata) (c : AccountWithMetadata) : Prop :=
  native_account m c m.(meta_custody) ∧ c.(account).(balance) = m.(meta_amount).

Definition encodable (m : EscrowMetadata) : Prop :=
  ∃ e d, borsh_to_vec m = Some e ∧ data_try_from e = Some d.

Lemma encodable_write m a : encodable m → ∃ d, write_metadata a m = Ok (with_data a d).
Proof.
  intros (e&d&He&Hd). exists d. unfold write_metadata. rewrite He. cbn. by rewrite Hd.
Qed.

Lemma supported_inv m : meta_inv m → require_supported m = Ok tt.
Proof. intros (_&_&_&_&Hs&_). by destruct (require_supported m) as [[]|]. Qed.

(** After the deadline anyone can return the funds of an unclaimed hash or
    witness escrow: in any history that left a native escrow funded, with the
    custody still holding exactly the amount, [refund_native] succeeds without
    any signature, at every time from the refund time on, and pays the
    depositor. *)
Theorem native_refund_available ctx tr d m a c dep :
  escrow_trace ctx tr d → metadata_try_from_slice d = Some m →
  m.(meta_status) = Status_Funded → punish_deadline m = None →
  m.(meta_asset_program) = m.(meta_custody_program) →
  a.(account).(data) = d → funded_custody m c → native_account m dep m.(meta_depositor) →
  encodable (set_status m Status_Refunded) →
  ∃ out, refund_native ctx a c dep m.(meta_swap_id) = Ok out ∧
    payouts out = [to_depositor m] ∧
    ∀ time, window_admits out time = (m.(meta_refund_at) <=? time).
Proof.
  intros Htr Hm Hst Hx Hn <- [[Hc1 Hc2] Hc3] [Hd1 Hd2] Henc.
  pose proof (trace_with_metadata _ _ _ _ Htr Hm) as [Hi _].
  pose proof (supported_inv m Hi) as Hsup.
  destruct Hi as (_&_&_&_&_&Hnat&_). destruct (Hnat Hn) as (_&Hda&Hdef).
  destruct (encodable_write _ a Henc) as [d' Hw].
  unfold refund_native. rewrite (proj2 (read_metadata_Ok a m) Hm). cbn [result_bind].
  unfold require_funded. rewrite Hsup. cbn [result_bind]. rewrite Hst. cbn.
  assert (is_xmr_dual_adaptor m.(meta_claim_authority) = false) as ->
    by (unfold punish_deadline in Hx; by destruct (meta_claim_authority m)).
  rewrite Hdef, Hn, Hc1, Hc2, Hc3, Hd1, Hd2, Hn.
  rewrite !(bool_decide_eq_true_2 (_ = _)) by done. rewrite Z.eqb_refl. cbn.
  rewrite Hw. cbn. eexists. split; [reflexivity|]. split.
  - unfold payouts, to_depositor; cbn. by rewrite Hc1, Hd1, Hda.
  - intros time. unfold window_admits; cbn. by rewrite andb_true_r.
Qed.

Lemma xmr_witness_succeeds m a c r w purpose kc ac kr ar dm dt b g u :
  meta_inv m → metadata_try_from_slice a.(account).(data) = Some m →
  m.(meta_claim_authority) = XmrDualAdaptor kc ac kr ar dm dt b g u →
  m.(meta_status) = Status_XmrClaimAuthorized →
  funded_custody m c →
  native_account m r
    (match purpose with Purpose_Claim => m.(meta_claimant) | Purpose_Refund => m.(meta_depositor) end) →
  w.(account_id) = match purpose with Purpose_Claim => ac | Purpose_Refund => ar end →
  validated_xmr_native_witness_state a c r w m.(meta_swap_id) purpose =
    Ok (set_status m (match purpose with
                      | Purpose_Claim => Status_Claimed
                      | Purpose_Refund => Status_Refunded
                      end), u).
Proof.
  intros Hi Hm Ha Hst [[Hc1 Hc2] Hc3] [Hr1 Hr2] Hw.
  pose proof (supported_inv m Hi) as Hsup. unfold require_supported in Hsup.
  rewrite Ha in Hsup. destruct (Z.eqb_spec m.(meta_version) XMR_ESCROW_METADATA_VERSION) as [Hv|]; [|done].
  destruct Hi as (_&_&_&Hval&_&Hnat&Hxmr&_). rewrite Ha in Hval. unfold valid_claim_authority in Hval. bool_props.
  destruct (Hxmr _ _ _ _ _ _ _ _ _ Ha) as (_&Hn&_&Hdac&Hdar). destruct (Hnat Hn) as (_&_&Hdef).
  unfold validated_xmr_native_witness_state. rewrite (proj2 (read_metadata_Ok a m) Hm). cbn [result_bind].
  rewrite Hst. destruct purpose; cbn;
    rewrite ?(bool_decide_eq_false_2 (Status_XmrClaimAuthorized = Status_Funded)) by done;
    rewrite Hv, Hdef, Hc1, Hc2, Hc3, Hr1, Hr2, Hn, !Z.eqb_refl;
    rewrite !(bool_decide_eq_true_2 (_ = _)) by done; cbn;
    unfold require_xmr_witness_authority; rewrite Ha, Hw; cbn;
    repeat case_bool_decide; cbn; congruence.
Qed.

Lemma xmr_punish_succeeds m a c r kc ac kr ar dm dt b g u :
  meta_inv m → metadata_try_from_slice a.(account).(data) = Some m →
  m.(meta_claim_authority) = XmrDualAdaptor kc ac kr ar dm dt b g u →
  m.(meta_status) = Status_XmrClaimAuthorized →
  funded_custody m c → native_account m r m.(meta_claimant) →
  validated_xmr_native_punish_state a c r m.(meta_swap_id) = Ok (set_status m Status_Claimed, u).
Proof.
  intros Hi Hm Ha Hst [[Hc1 Hc2] Hc3] [Hr1 Hr2].
  pose proof (supported_inv m Hi) as Hsup. unfold require_supported in Hsup.
  rewrite Ha in Hsup. destruct (Z.eqb_spec m.(meta_version) XMR_ESCROW_METADATA_VERSION) as [Hv|]; [|done].
  destruct Hi as (_&_&_&_&_&Hnat&Hxmr&_).
  destruct (Hxmr _ _ _ _ _ _ _ _ _ Ha) as (_&Hn&_). destruct (Hnat Hn) as (_&_&Hdef).
  unfold validated_xmr_native_punish_state. rewrite (proj2 (read_metadata_Ok a m) Hm). cbn [result_bind].
  rewrite Hst. cbn.
  rewrite ?(bool_decide_eq_false_2 (Status_XmrClaimAuthorized = Status_Funded)) by done.
  rewrite Hv, Hdef, Hc1, Hc2, Hc3, Hr1, Hr2, Hn, !Z.eqb_refl.
  rewrite !(bool_decide_eq_true_2 (_ = _)) by done. cbn. by rewrite Ha.
Qed.

(** C35: once the claim partial is published, an XMR escrow is never stuck and
    never contested: with the custody funded and the parties' accounts in
    place, the claim, the signed refund and the punishment all succeed, and at
    every time exactly one of them is admitted: the claim before the refund
    time, the refund from there to the punish time, the punishment after. *)
Theorem xmr_branches_partition_time ctx tr d m a c dep cl wc wr kc ac kr ar dm dt b g u :
  escrow_trace ctx tr d → metadata_try_from_slice d = Some m →
  m.(meta_claim_authority) = XmrDualAdaptor kc ac kr ar dm dt b g u →
  m.(meta_status) = Status_XmrClaimAuthorized →
  a.(account).(data) = d → funded_custody m c →
  native_account m dep m.(meta_depositor) → native_account m cl m.(meta_claimant) →
  wc.(account_id) = ac → wr.(account_id) = ar →
  encodable (set_status m Status_Claimed) → encodable (set_status m Status_Refunded) →
  ∃ claim refund punish,
    claim_native_xmr ctx a c cl wc m.(meta_swap_id) = Ok claim ∧
    refund_native_xmr ctx a c dep wr m.(meta_swap_id) = Ok refund ∧
    punish_native_xmr ctx a c cl m.(meta_swap_id) = Ok punish ∧
    (∀ time, window_admits claim time = (time <? m.(meta_refund_at))) ∧
    (∀ time, window_admits refund time = (m.(meta_refund_at) <=? time) && (time <? u)) ∧
    (∀ time, window_admits punish time = (u <=? time)) ∧
    ∀ time, (Nat.b2n (window_admits claim time) + Nat.b2n (window_admits refund time)
             + Nat.b2n (window_admits punish time) = 1)%nat.
Proof.
  intros Htr Hm Ha Hst <- Hc Hdep Hcl Hwc Hwr Henc1 Henc2.
  pose proof (trace_with_metadata _ _ _ _ Htr Hm) as [Hi _].
  pose proof Hi as (_&_&_&_&_&_&Hxmr&_).
  destruct (Hxmr _ _ _ _ _ _ _ _ _ Ha) as (Hlt&_).
  destruct (encodable_write _ a Henc1) as [d1 Hw1]. destruct (encodable_write _ a Henc2) as [d2 Hw2].
  unfold claim_native_xmr, refund_native_xmr, punish_native_xmr.
  rewrite (xmr_witness_succeeds m a c cl wc Purpose_Claim _ _ _ _ _ _ _ _ _ Hi Hm Ha Hst Hc Hcl Hwc).
  rewrite (xmr_witness_succeeds m a c dep wr Purpose_Refund _ _ _ _ _ _ _ _ _ Hi Hm Ha Hst Hc Hdep Hwr).
  rewrite (xmr_punish_succeeds m a c cl _ _ _ _ _ _ _ _ _ Hi Hm Ha Hst Hc Hcl).
  cbn [result_bind fst snd]. rewrite Hw1, Hw2. cbn [result_bind].
  rewrite nonempty_range_ok by done.
  do 3 eexists. split_and!; [reflexivity..| | | |]; intros time; unfold window_admits; cbn;
    rewrite ?andb_true_r; try done.
  destruct (Z.ltb_spec time (meta_refund_at m)), (Z.leb_spec (meta_refund_at m) time),
    (Z.ltb_spec time u), (Z.leb_spec u time); cbn; lia.
Qed.
End theorems.

(** ** A concrete host *)

Module EscrowSamples.

Inductive sample_data :=
| D_default
| D_metadata (m : EscrowMetadata)
| D_holding (definition : AccountId) (balance : Z)
| D_definition.

#[global] Instance sample_data_eq_dec : EqDecision sample_data.
Proof. solve_decision. Defined.

(** Hashing is modelled by reversal cut to 32 bytes: distinct keys give
    distinct accounts. *)
#[global] Instance sample_host : EscrowHost := {|
  sha256 := λ b, take 32 (rev b);
  Encoded := EscrowMetadata;
  Data := sample_data;
  borsh_to_vec := Some;
  data_try_from := λ m, Some (D_metadata m);
  metadata_try_from_slice := λ d, match d with D_metadata m => Some m | _ => None end;
  token_holding_try_from := λ d,
    match d with
    | D_holding f n => Some {| definition_id := f; holding_fungible := Some n |}
    | _ => None
    end;
  token_definition_is_fungible := λ d, match d with D_definition => true | _ => false end;
  default_data := D_default;
  DEFAULT_PROGRAM_ID := replicate 8 0;
  pda_from_seeds := λ l, concat l;
  seed_from_str := bytes_of_string;
  associated_token_account_id := λ _ owner definition, owner ++ definition;
  validity_range_ok := Z.ltb
|}.

#[global] Instance sample_laws : EscrowHostLaws sample_host.
Proof.
  split.
  - intros m e d [= <-] [= <-]. reflexivity.
  - reflexivity.
  - intros from to Hlt. by apply Z.ltb_lt.
Qed.

(** Account validation as the attributes read. *)
Definition attributes_hold (p : AccountWithMetadata * AccountAttributes) : bool :=
  (negb p.2.(attr_init) || bool_decide (p.1.(account) = Account_default))
  && (negb p.2.(attr_signer) || p.1.(is_authorized)).

Lemma attributes_in accounts a attrs :
  forallb attributes_hold accounts = true → (a, attrs) ∈ accounts →
  attributes_hold (a, attrs) = true.
Proof.
  intros Hv Hin. apply list_elem_of_In in Hin. rewrite forallb_forall in Hv. by apply Hv.
Qed.

#[global] Instance sample_validation : AccountValidation sample_host.
Proof.
  refine {| validate_accounts := λ _ accounts, forallb attributes_hold accounts |}.
  - intros _ accounts a attrs Hv Hin Hi. pose proof (attributes_in _ _ _ Hv Hin) as Ha.
    unfold attributes_hold in Ha. cbn in Ha. rewrite Hi in Ha. cbn in Ha. bool_props. done.
  - intros _ accounts a attrs Hv Hin Hs. pose proof (attributes_in _ _ _ Hv Hin) as Ha.
    unfold attributes_hold in Ha. cbn in Ha. rewrite Hs in Ha. cbn in Ha. bool_props. done.
Defined.

Definition ctx : ProgramContext := {| self_program_id := replicate 8 7 |}.
Definition transfer_program : ProgramId := replicate 8 9.
Definition b32 (b : Byte.byte) : bytes := replicate 32 b.

Definition acct (id : bytes) (owner : ProgramId) (n : Z) (d : sample_data) (signs : bool)
    : AccountWithMetadata :=
  {| account := {| program_owner := owner; balance := n; data := d; nonce := 0 |};
     is_authorized := signs; account_id := id |}.

Definition meta_at (d : sample_data) : AccountWithMetadata := acct (b32 Byte.x0a) (replicate 8 7) 0 d false.
Definition custody_at (n : Z) : AccountWithMetadata := acct (b32 Byte.x0b) transfer_program n D_default false.
Definition depositor_acct : AccountWithMetadata := acct (b32 Byte.x0c) transfer_program 100 D_default true.
Definition claimant_acct : AccountWithMetadata := acct (b32 Byte.x0d) transfer_program 0 D_default true.
Definition new_account (id : bytes) : AccountWithMetadata :=
  {| account := Account_default; is_authorized := false; account_id := id |}.
Definition aggregate (key : bytes) : AccountWithMetadata :=
  acct (witnessed_account_id key) transfer_program 0 D_default true.

Definition out_of (r : SpelResult) : SpelOutput :=
  match r with Ok out => out | Err _ => SpelOutput_execute [] [] None None end.
Definition data_of (out : SpelOutput) : sample_data :=
  match post_data out with Some d => d | None => D_default end.
Definition at_time (time : Z) (i : Instruction) : Execution :=
  {| exec_time := time; exec_instruction := i; exec_output := out_of (execute ctx i) |}.

(** A native hash escrow of 75 units refundable from time 1000. *)
Definition init_native : Instruction :=
  I_initialize_native (new_account (b32 Byte.x0a)) (new_account (b32 Byte.x0b))
    depositor_acct claimant_acct (b32 Byte.x01) (b32 Byte.x02)
    (sha256 (b32 Byte.x03)) 75 1000 transfer_program.
Definition d_init : sample_data := data_of (out_of (execute ctx init_native)).
Definition fund : Instruction :=
  I_fund_native (meta_at d_init) (custody_at 0) depositor_acct (b32 Byte.x01).
Definition d_funded : sample_data := data_of (out_of (execute ctx fund)).
Definition claim : Instruction :=
  I_claim_native (meta_at d_funded) (custody_at 75) claimant_acct (b32 Byte.x01) (b32 Byte.x03).
Definition d_claimed : sample_data := data_of (out_of (execute ctx claim)).

Definition funded_run : list Execution := ([] ++ [at_time 10 init_native]) ++ [at_time 20 fund].
Definition claimed_run : list Execution := funded_run ++ [at_time 30 claim].

(** An XMR escrow, its claim partial published. *)
Definition init_xmr : Instruction :=
  I_initialize_native_xmr (new_account (b32 Byte.x0a)) (new_account (b32 Byte.x0b))
    depositor_acct claimant_acct (aggregate (b32 Byte.x21)) (aggregate (b32 Byte.x22))
    (b32 Byte.x01) (b32 Byte.x02) (b32 Byte.x21) (b32 Byte.x22)
    (b32 Byte.x23) (b32 Byte.x24) (b32 Byte.x25)
    (xmr_claim_partial_commitment (b32 Byte.x25) (b32 Byte.x26)) 75 1000 2000 transfer_program.
Definition x_init : sample_data := data_of (out_of (execute ctx init_xmr)).
Definition x_fund : Instruction :=
  I_fund_native (meta_at x_init) (custody_at 0) depositor_acct (b32 Byte.x01).
Definition x_funded : sample_data := data_of (out_of (execute ctx x_fund)).
Definition x_authorize : Instruction :=
  I_authorize_native_xmr_claim (meta_at x_funded) depositor_acct (b32 Byte.x01) (b32 Byte.x26).
Definition x_authorized : sample_data := data_of (out_of (execute ctx x_authorize)).
Definition x_claim : Instruction :=
  I_claim_native_xmr (meta_at x_authorized) (custody_at 75) claimant_acct
    (aggregate (b32 Byte.x21)) (b32 Byte.x01).
Definition x_claimed : sample_data := data_of (out_of (execute ctx x_claim)).

Definition xmr_run : list Execution :=
  (([] ++ [at_time 10 init_xmr]) ++ [at_time 20 x_fund]) ++ [at_time 30 x_authorize].

Definition metadata_in (d : sample_data) : EscrowMetadata :=
  match d with
  | D_metadata m => m
  | _ => {| meta_version := 0; meta_swap_id := []; meta_terms_hash := [];
            meta_claim_authority := Sha256Preimage []; meta_depositor := [];
            meta_depositor_asset := []; meta_claimant := []; meta_claimant_asset := [];
            meta_custody := []; meta_asset_program := []; meta_custody_program := [];
            meta_asset_definition := []; meta_amount := 0; meta_refund_at := 0;
            meta_status := Status_Empty |}
  end.

Lemma extend tr d time i a :
  escrow_trace ctx tr d → metadata_account i = Some a → a.(account).(data) = d →
  validate_accounts ctx (instruction_accounts i) = true →
  is_ok (execute ctx i) = true →
  window_admits (out_of (execute ctx i)) time = true →
  match post_data (out_of (execute ctx i)) with Some _ => true | None => false end = true →
  escrow_trace ctx (tr ++ [at_time time i]) (data_of (out_of (execute ctx i))).
Proof.
  intros Htr Ha Hd Hv Hok Hw Hp. unfold at_time, data_of.
  destruct (execute ctx i) as [out|] eqn:Hex; [|done]. cbn in *.
  destruct (post_data out) as [d'|] eqn:Hpost; [|done]. by econstructor.
Qed.

Lemma funded_trace : escrow_trace ctx funded_run d_funded.
Proof.
  apply (extend _ d_init _ _ (meta_at d_init));
    [|reflexivity|reflexivity|vm_compute; reflexivity..].
  apply (extend _ D_default _ _ (new_account (b32 Byte.x0a)));
    [constructor|reflexivity|reflexivity|vm_compute; reflexivity..].
Qed.

Lemma claimed_trace : escrow_trace ctx claimed_run d_claimed.
Proof.
  apply (extend _ d_funded _ _ (meta_at d_funded));
    [exact funded_trace|reflexivity|reflexivity|vm_compute; reflexivity..].
Qed.

Lemma xmr_trace : escrow_trace ctx xmr_run x_authorized.
Proof.
  apply (extend _ x_funded _ _ (meta_at x_funded));
    [|reflexivity|reflexivity|vm_compute; reflexivity..].
  apply (extend _ x_init _ _ (meta_at x_init));
    [|reflexivity|reflexivity|vm_compute; reflexivity..].
  apply (extend _ D_default _ _ (new_account (b32 Byte.x0a)));
    [constructor|reflexivity|reflexivity|vm_compute; reflexivity..].
Qed.

Lemma xmr_claimed_trace : escrow_trace ctx (xmr_run ++ [at_time 40 x_claim]) x_claimed.
Proof.
  apply (extend _ x_authorized _ _ (meta_at x_authorized));
    [exact xmr_trace|reflexivity|reflexivity|vm_compute; reflexivity..].
Qed.

End EscrowSamples.

(** ** The theorems on concrete histories *)

Module EscrowWitnesses.
Import EscrowSamples.

Lemma ok_out r : is_ok r = true → r = Ok (out_of r).
Proof. by destruct r. Qed.

Lemma escrow_pays_once_witness :
  match metadata_try_from_slice d_claimed with
  | Some m => trace_payouts claimed_run = settled m ∧ m.(meta_amount) ≠ 0
  | None => claimed_run = []
  end.
Proof. exact (escrow_pays_once ctx claimed_run d_claimed claimed_trace). Defined.

Lemma escrow_terms_immutable_witness :
  ∃ m', metadata_try_from_slice d_claimed = Some m' ∧
        m' = set_status (metadata_in d_funded) m'.(meta_status) ∧
        rtc status_edge (metadata_in d_funded).(meta_status) m'.(meta_status).
Proof.
  apply (escrow_terms_immutable ctx funded_run [at_time 30 claim] d_funded);
    [exact funded_trace|vm_compute; reflexivity|exact claimed_trace].
Defined.

Lemma executions_respect_deadlines_witness :
  Forall (timing_ok (metadata_in d_claimed)) claimed_run.
Proof.
  apply (executions_respect_deadlines ctx claimed_run d_claimed);
    [exact claimed_trace|vm_compute; reflexivity].
Defined.

Lemma settlements_are_authorised_witness :
  Forall (authority_ok (metadata_in d_claimed)) claimed_run.
Proof.
  apply (settlements_are_authorised ctx claimed_run d_claimed);
    [exact claimed_trace|vm_compute; reflexivity].
Defined.

Lemma xmr_claim_after_publication_witness :
  ∃ m, metadata_try_from_slice x_claimed = Some m ∧ m.(meta_status) = Status_Claimed ∧
       partial_published m xmr_run.
Proof.
  apply (xmr_claim_after_publication ctx xmr_run (at_time 40 x_claim) x_claimed
           (aggregate (b32 Byte.x21)).(account_id));
    [exact xmr_claimed_trace|reflexivity].
Defined.

Lemma instruction_frame_witness :
  ∃ a attrs rest d,
    instruction_accounts fund = (a, attrs) :: rest ∧
    (out_of (execute ctx fund)).(post_states) = with_data a d :: map fst rest.
Proof.
  destruct (instruction_frame ctx fund (out_of (execute ctx fund)))
    as (a&attrs&rest&d&Ha&Hp&_); [apply ok_out; vm_compute; reflexivity|].
  exists a, attrs, rest, d. split; assumption.
Defined.

Lemma payout_takes_whole_custody_witness :
  ∃ c attrs, (c, attrs) ∈ instruction_accounts claim ∧
    c.(account_id) = (to_claimant (metadata_in d_funded)).(transfer_from) ∧
    (c.(account).(balance) = (to_claimant (metadata_in d_funded)).(transfer_amount) ∨
     fungible_balance c = Ok (to_claimant (metadata_in d_funded)).(transfer_amount)).
Proof.
  apply (payout_takes_whole_custody ctx claim (out_of (execute ctx claim)));
    [apply ok_out; vm_compute; reflexivity|].
  replace (payouts (out_of (execute ctx claim))) with [to_claimant (metadata_in d_funded)]
    by (vm_compute; reflexivity).
  left.
Defined.

Lemma native_refund_available_witness :
  ∃ out, refund_native ctx (meta_at d_funded) (custody_at 75) depositor_acct (b32 Byte.x01) = Ok out ∧
    payouts out = [to_depositor (metadata_in d_funded)] ∧
    ∀ time, window_admits out time = ((metadata_in d_funded).(meta_refund_at) <=? time).
Proof.
  apply (native_refund_available ctx funded_run d_funded (metadata_in d_funded));
    [exact funded_trace|vm_compute; reflexivity..| | |].
  - split; [split|]; vm_compute; reflexivity.
  - split; vm_compute; reflexivity.
  - exists (set_status (metadata_in d_funded) Status_Refunded).
    eexists. split; reflexivity.
Defined.

Lemma xmr_branches_partition_time_witness :
  ∃ claim refund punish,
    claim_native_xmr ctx (meta_at x_authorized) (custody_at 75) claimant_acct
      (aggregate (b32 Byte.x21)) (b32 Byte.x01) = Ok claim ∧
    refund_native_xmr ctx (meta_at x_authorized) (custody_at 75) depositor_acct
      (aggregate (b32 Byte.x22)) (b32 Byte.x01) = Ok refund ∧
    punish_native_xmr ctx (meta_at x_authorized) (custody_at 75) claimant_acct
      (b32 Byte.x01) = Ok punish.
Proof.
  destruct (xmr_branches_partition_time ctx xmr_run x_authorized (metadata_in x_authorized)
    (meta_at x_authorized) (custody_at 75) depositor_acct claimant_acct
    (aggregate (b32 Byte.x21)) (aggregate (b32 Byte.x22))
    (b32 Byte.x21) (aggregate (b32 Byte.x21)).(account_id)
    (b32 Byte.x22) (aggregate (b32 Byte.x22)).(account_id)
    (b32 Byte.x23) (b32 Byte.x24) (b32 Byte.x25)
    (xmr_claim_partial_commitment (b32 Byte.x25) (b32 Byte.x26)) 2000)
    as (claim&refund&punish&Hc&Hr&Hp&_).
  - exact xmr_trace.
  - vm_compute; reflexivity.
  - vm_compute; reflexivity.
  - vm_compute; reflexivity.
  - reflexivity.
  - split; [split|]; vm_compute; reflexivity.
  - split; vm_compute; reflexivity.
  - split; vm_compute; reflexivity.
  - reflexivity.
  - reflexivity.
  - eexists _, _. split; reflexivity.
  - eexists _, _. split; reflexivity.
  - exists claim, refund, punish. split; [exact Hc|split; [exact Hr|exact Hp]].
Defined.

End EscrowWitnesses.
