(* ===== verification/AssetObserver.v ===== *)
(** * The finalized observer of the LEZ sidecar

    Models [compat/lez-v0_2-sidecar/src/finalized_asset_observation.rs] and the
    reading of finalized windows it uses from [finalized_claim_observation.rs]:
    scanning a window of finalized blocks for one effect of a swap, reading the
    escrow's accounts from historical state, and classifying the effect as
    found, absent, uncertain or unavailable.

    The indexer is the trait [FinalizedIndexerApi]: every call is answered from
    a world that the call may change, so that two calls with the same arguments
    need not agree and any call may fail.  The reads of [tokio::try_join!]
    complete in an order the world chooses; each is one call of the indexer, and
    the first to fail decides the error.

    The LEZ crates the sidecar calls are the class [LeeRuntime] and the host of
    the escrow program. *)

From stdpp Require Import base gmap strings list numbers.
From S2P Require Import Prelude SwapCore BridgeValues AssetEvidence Escrow.

Open Scope Z_scope.

Inductive BridgeRuntimeError :=
| Runtime_Planner
| Runtime_Unavailable
| Runtime_MovingTip
| Runtime_InvalidObservation
| Runtime_AmbiguousDiscovery
| Runtime_ConflictingDiscovery
| Runtime_UnknownSubmissionOutcome.

#[global] Instance BridgeRuntimeError_eq_dec : EqDecision BridgeRuntimeError.
Proof. solve_decision. Defined.

(** ** Blocks and transactions of the indexer *)

Record Message := {
  message_program_id : ProgramId;
  message_account_ids : list AccountId;
  message_nonces : list Z;
  message_instruction_data : list Z
}.

Record IndexedPublicTransaction := {
  indexed_hash : bytes;
  indexed_message : Message;
  indexed_signatures_and_public_keys : list (bytes * bytes);
  indexed_proof : option bytes
}.

(** The kinds of transaction the observer skips keep only what it reads. *)
Inductive IndexedTransaction :=
| Transaction_Public (transaction : IndexedPublicTransaction)
| Transaction_Other (hash content : bytes).

Definition transaction_hash (transaction : IndexedTransaction) : bytes :=
  match transaction with
  | Transaction_Public indexed => indexed.(indexed_hash)
  | Transaction_Other hash _ => hash
  end.

Inductive BedrockStatus := Bedrock_Finalized | Bedrock_NotFinalized (status : Z).

Record BlockHeader := {
  header_block_id : Z;
  header_prev_block_hash : bytes;
  header_hash : bytes;
  header_timestamp : Z;
  header_signature : bytes
}.

Record Block := {
  block_header : BlockHeader;
  block_transactions : list IndexedTransaction;
  block_bedrock_status : BedrockStatus
}.

#[global] Instance Message_eq_dec : EqDecision Message.
Proof. solve_decision. Defined.
#[global] Instance IndexedPublicTransaction_eq_dec : EqDecision IndexedPublicTransaction.
Proof. solve_decision. Defined.
#[global] Instance IndexedTransaction_eq_dec : EqDecision IndexedTransaction.
Proof. solve_decision. Defined.
#[global] Instance BedrockStatus_eq_dec : EqDecision BedrockStatus.
Proof. solve_decision. Defined.
#[global] Instance BlockHeader_eq_dec : EqDecision BlockHeader.
Proof. solve_decision. Defined.
#[global] Instance Block_eq_dec : EqDecision Block.
Proof. solve_decision. Defined.

(** The official transaction type: a message with its witnesses. *)
Record PublicTransaction := {
  public_message : Message;
  public_signatures_and_public_keys : list (bytes * bytes)
}.

(** The instructions of the generated client that the observer distinguishes. *)
Inductive ZecEscrowInstruction :=
| Zec_InitializeNativeWitnessed (swap_id terms_hash aggregate_x_only_public_key : bytes)
    (amount refund_at : Z) (authenticated_transfer_program : ProgramId)
| Zec_InitializeTokenWitnessed (swap_id terms_hash aggregate_x_only_public_key : bytes)
    (amount refund_at : Z) (ata_program : ProgramId)
| Zec_CreateTokenCustody (swap_id : bytes)
| Zec_FundNative (swap_id : bytes)
| Zec_FundToken (swap_id : bytes)
| Zec_ClaimNativeWitnessed (swap_id : bytes)
| Zec_ClaimTokenWitnessed (swap_id : bytes)
| Zec_RefundNative (swap_id : bytes)
| Zec_RefundToken (swap_id : bytes)
| Zec_Other.

(** ** What the LEZ crates provide *)

Class LeeRuntime (H : EscrowHost) := {
  GENESIS_BLOCK_ID : Z;
  token_program : ProgramId;
  ata_program : ProgramId;
  compute_metadata_pda : ProgramId → bytes → AccountId;
  compute_custody_pda : ProgramId → bytes → AccountId;
  public_key_try_new : bytes → bool;
  account_id_of_public_key : bytes → AccountId;
  public_transaction_hash : PublicTransaction → bytes;
  public_transaction_to_bytes : PublicTransaction → bytes;
  transaction_stateless_check : PublicTransaction → bool;
  message_to_vec : Message → option bytes;
  message_try_from_slice : bytes → option Message;
  message_hash : Message → bytes;
  instruction_from_slice : list Z → option ZecEscrowInstruction;
  data_is_empty : Data → bool
}.

(** ** Program identifiers *)

Fixpoint u32_from_le_bytes (chunk : bytes) : Z :=
  match chunk with
  | [] => 0
  | b :: chunk => Z_of_byte b + 256 * u32_from_le_bytes chunk
  end.

Definition u32_to_le_bytes (word : Z) : bytes :=
  map byte_of_Z [word; word / 256; word / 65536; word / 16777216].

Definition program_id_to_hex (program_id : ProgramId) : Hex32 :=
  {| Hex32_as_bytes := concat (map u32_to_le_bytes program_id) |}.

(** [chunks_exact(4)] over the eight words of a program identifier. *)
Fixpoint words_from_le_bytes (words : nat) (value : bytes) : list Z :=
  match words with
  | O => []
  | S words => u32_from_le_bytes (take 4 value) :: words_from_le_bytes words (drop 4 value)
  end.

Definition program_id_from_hex (value : Hex32) : ProgramId :=
  words_from_le_bytes 8 value.(Hex32_as_bytes).

(** ** Calls of the indexer *)

(** A computation that asks the indexer: it ends in a value or an error, and in
    the world after its calls. *)
Definition Io (World A : Type) : Type := World → result A BridgeRuntimeError * World.

Definition io_ok {World A : Type} (a : A) : Io World A := λ w, (Ok a, w).
Definition io_err {World A : Type} (e : BridgeRuntimeError) : Io World A := λ w, (Err e, w).
Definition io_of {World A : Type} (r : result A BridgeRuntimeError) : Io World A := λ w, (r, w).
Definition io_bind {World A B : Type} (m : Io World A) (k : A → Io World B) : Io World B :=
  λ w, match m w with
       | (Ok a, w) => k a w
       | (Err e, w) => (Err e, w)
       end.

(** [match m.await], on the result itself. *)
Definition io_try {World A : Type} (m : Io World A) : Io World (result A BridgeRuntimeError) :=
  λ w, let '(r, w) := m w in (Ok r, w).

Declare Scope io_scope.
Delimit Scope io_scope with io.
Notation "'let!' x ':=' c 'in' k" := (io_bind c (λ x, k))
  (at level 10, x binder, c at level 200, k at level 200,
   format "'[v' 'let!'  x  ':='  c  'in' '/' k ']'") : io_scope.
Open Scope io_scope.

(** [.map_err(|_| error)] on a validated value. *)
Definition or_error {A E : Type} (r : result A E) (error : BridgeRuntimeError)
    : result A BridgeRuntimeError :=
  match r with Ok a => Ok a | Err _ => Err error end.

Inductive JoinOrder := Join123 | Join132 | Join213 | Join231 | Join312 | Join321.

Inductive HistoricalAccount {H : EscrowHost} :=
| Account_Absent
| Account_Present (account : Account).

Class FinalizedIndexerApi (H : EscrowHost) (World : Type) := {
  last_finalized_block_id : Io World (option Z);
  block_by_id : Z → Io World (option Block);
  block_by_hash : bytes → Io World (option Block);
  account_at_block : AccountId → Z → Io World HistoricalAccount;
  (** the order in which three joined reads complete *)
  join_order : World → JoinOrder * World
}.

Section client.
Context {H : EscrowHost} {R : LeeRuntime H}.

(** The official client takes the default account for a missing one. *)
Definition historical_account (account : Account) : HistoricalAccount :=
  if (account.(program_owner) ==? replicate 8 0)
     && (account.(balance) =? 0)
     && data_is_empty account.(data)
     && (account.(nonce) =? 0)
  then Account_Absent
  else Account_Present account.

(** A call of the RPC client; its failure, of whatever kind, is [None]. *)
Definition Rpc (World A : Type) : Type := World → option A * World.

Definition rpc {World A : Type} (call : Rpc World A) : Io World A :=
  λ w, let '(r, w) := call w in (ok_or r Runtime_Unavailable, w).

Record IndexerRpc (World : Type) := {
  get_last_finalized_block_id : Rpc World (option Z);
  get_block_by_id : Z → Rpc World (option Block);
  get_block_by_hash : bytes → Rpc World (option Block);
  get_account_at_block : AccountId → Z → Rpc World Account;
  rpc_join_order : World → JoinOrder * World
}.

Definition OfficialIndexerRpc {World : Type} (client : IndexerRpc World)
    : FinalizedIndexerApi H World :=
  {| last_finalized_block_id := rpc (get_last_finalized_block_id _ client);
     block_by_id id := rpc (get_block_by_id _ client id);
     block_by_hash hash := rpc (get_block_by_hash _ client hash);
     account_at_block id block :=
       let! account := rpc (get_account_at_block _ client id block) in
       io_ok (historical_account account);
     join_order := rpc_join_order _ client |}.
End client.

(** ** Finalized windows *)

Record StableFinalizedWindow := {
  stable_blocks : list Block;
  stable_finalized_clock : ChainClock;
  stable_finalized_tip : Block;
  stable_requested_end : Z
}.

Definition clock_of (header : BlockHeader) : ChainClock :=
  {| clock_block_hash := {| Hex32_as_bytes := header.(header_hash) |};
     clock_height := header.(header_block_id);
     clock_timestamp_ms := header.(header_timestamp) |}.

Fixpoint find_block (blocks : list Block) (block_id : Z) : option Block :=
  match blocks with
  | [] => None
  | block :: blocks =>
      if block.(block_header).(header_block_id) =? block_id then Some block
      else find_block blocks block_id
  end.

Definition stable_block (self : StableFinalizedWindow) (block_id : Z)
    : result Block BridgeRuntimeError :=
  ok_or (find_block self.(stable_blocks) block_id) Runtime_Unavailable.

Definition requested_end_clock (self : StableFinalizedWindow) : result ChainClock BridgeRuntimeError :=
  let? block := stable_block self self.(stable_requested_end) in
  Ok (clock_of block.(block_header)).

Section windows.
Context {H : EscrowHost} {R : LeeRuntime H} {World : Type} {X : FinalizedIndexerApi H World}.

Definition read_finalized_block (block_id : Z) : Io World Block :=
  let! by_id := block_by_id block_id in
  let! by_id := io_of (ok_or by_id Runtime_Unavailable) in
  if negb (by_id.(block_header).(header_block_id) =? block_id)
     || (by_id.(block_bedrock_status) !=? Bedrock_Finalized)
  then io_err Runtime_InvalidObservation
  else
    let! by_hash := block_by_hash by_id.(block_header).(header_hash) in
    let! by_hash := io_of (ok_or by_hash Runtime_Unavailable) in
    if by_hash !=? by_id then io_err Runtime_InvalidObservation
    else io_ok by_id.

Definition confirm_block (self : StableFinalizedWindow) (block_id : Z) : Io World unit :=
  let! expected := io_of (stable_block self block_id) in
  let! observed := read_finalized_block block_id in
  if observed !=? expected then io_err Runtime_MovingTip else io_ok tt.

Definition confirm_requested_end (self : StableFinalizedWindow) : Io World unit :=
  confirm_block self self.(stable_requested_end).

Definition confirm_pinned_snapshot (self : StableFinalizedWindow) : Io World unit :=
  let tip := self.(stable_finalized_tip).(block_header).(header_block_id) in
  let! finalized_after := last_finalized_block_id in
  let! finalized_after := io_of (ok_or finalized_after Runtime_Unavailable) in
  if finalized_after <? tip then io_err Runtime_MovingTip
  else confirm_block self tip.

(** The loop over the blocks of a window, newest last. *)
Fixpoint read_linked_blocks (block_ids : list Z) (previous_hash : option bytes)
    : Io World (list Block) :=
  match block_ids with
  | [] => io_ok []
  | block_id :: block_ids =>
      let! block := read_finalized_block block_id in
      if match previous_hash with
         | Some hash => block.(block_header).(header_prev_block_hash) !=? hash
         | None => false
         end
      then io_err Runtime_InvalidObservation
      else
        let! blocks :=
          read_linked_blocks block_ids (Some block.(block_header).(header_hash)) in
        io_ok (block :: blocks)
  end.

Definition read_fixed_finalized_window (window : DiscoveryWindow) : Io World StableFinalizedWindow :=
  let! finalized_tip := last_finalized_block_id in
  let! finalized_tip := io_of (ok_or finalized_tip Runtime_Unavailable) in
  let! requested_end :=
    io_of (ok_or (checked_add u64_max window.(window_start_height) (window.(window_max_blocks) - 1))
             Runtime_InvalidObservation) in
  if finalized_tip <? requested_end then io_err Runtime_Unavailable
  else
    let! blocks :=
      read_linked_blocks (seqZ window.(window_start_height) window.(window_max_blocks)) None in
    let! requested_end_block := io_of (ok_or (list.last blocks) Runtime_Unavailable) in
    let! confirmed_end := read_finalized_block requested_end in
    if confirmed_end !=? requested_end_block then io_err Runtime_MovingTip
    else
      io_ok {| stable_finalized_clock := clock_of requested_end_block.(block_header);
               stable_finalized_tip := requested_end_block;
               stable_blocks := blocks;
               stable_requested_end := requested_end |}.

(** The finalized prefix of a window, and whether it is the whole window. *)
Definition read_stable_finalized_prefix (authorized_window : DiscoveryWindow)
    : Io World (StableFinalizedWindow * DiscoveryWindow * bool) :=
  let! finalized_before := last_finalized_block_id in
  let! finalized_before := io_of (ok_or finalized_before Runtime_Unavailable) in
  let start_height := authorized_window.(window_start_height) in
  if finalized_before <? start_height then io_err Runtime_Unavailable
  else
    let! authorized_end :=
      io_of (ok_or (checked_add u64_max start_height (authorized_window.(window_max_blocks) - 1))
               Runtime_InvalidObservation) in
    let prefix_end := Z.min authorized_end finalized_before in
    let! prefix_blocks :=
      io_of (ok_or (if start_height <=? prefix_end
                    then checked_add u64_max (prefix_end - start_height) 1 else None)
               Runtime_InvalidObservation) in
    let! max_blocks :=
      io_of (if prefix_blocks <=? u32_max then Ok prefix_blocks else Err Runtime_Unavailable) in
    let! scanned_window :=
      io_of (or_error (DiscoveryWindow_new start_height max_blocks) Runtime_InvalidObservation) in
    let! stable := read_fixed_finalized_window scanned_window in
    io_ok (stable, scanned_window, prefix_end =? authorized_end).

Definition read_genesis_bound_finalized_clock (expected_genesis_hash : Hex32)
    : Io World ChainClock :=
  if expected_genesis_hash ==? zero_hex32 then io_err Runtime_InvalidObservation
  else
    let! finalized_before := last_finalized_block_id in
    let! finalized_before := io_of (ok_or finalized_before Runtime_Unavailable) in
    if finalized_before <? GENESIS_BLOCK_ID then io_err Runtime_InvalidObservation
    else
      let! genesis_before := read_finalized_block GENESIS_BLOCK_ID in
      if genesis_before.(block_header).(header_hash) !=? expected_genesis_hash.(Hex32_as_bytes)
      then io_err Runtime_InvalidObservation
      else
        let! tip_before := read_finalized_block finalized_before in
        if (tip_before.(block_header).(header_hash) ==? zero32)
           || (tip_before.(block_header).(header_timestamp) =? 0)
        then io_err Runtime_InvalidObservation
        else
          let! genesis_after := read_finalized_block GENESIS_BLOCK_ID in
          let! tip_after := read_finalized_block finalized_before in
          if (genesis_after !=? genesis_before) || (tip_after !=? tip_before)
          then io_err Runtime_MovingTip
          else
            let! finalized_after := last_finalized_block_id in
            let! finalized_after := io_of (ok_or finalized_after Runtime_Unavailable) in
            if negb (finalized_after =? finalized_before) then io_err Runtime_MovingTip
            else io_ok (clock_of tip_before.(block_header)).

(** [tokio::try_join!] of three reads. *)
Definition try_join {A B C : Type} (a : Io World A) (b : Io World B) (c : Io World C)
    : Io World (A * B * C) :=
  λ w,
    let '(order, w) := join_order w in
    match order with
    | Join123 => (let! x := a in let! y := b in let! z := c in io_ok (x, y, z)) w
    | Join132 => (let! x := a in let! z := c in let! y := b in io_ok (x, y, z)) w
    | Join213 => (let! y := b in let! x := a in let! z := c in io_ok (x, y, z)) w
    | Join231 => (let! y := b in let! z := c in let! x := a in io_ok (x, y, z)) w
    | Join312 => (let! z := c in let! x := a in let! y := b in io_ok (x, y, z)) w
    | Join321 => (let! z := c in let! y := b in let! x := a in io_ok (x, y, z)) w
    end.
End windows.

(** ** Effects *)

Inductive EffectKind :=
| Effect_Initialization | Effect_CustodyCreation | Effect_Funding | Effect_Claim | Effect_Refund.

#[global] Instance EffectKind_eq_dec : EqDecision EffectKind.
Proof. solve_decision. Defined.

Record Candidate := {
  candidate_transaction : ObservedTransactionFacts;
  candidate_accounts : AccountIds;
  candidate_block : BlockHeader;
  candidate_public : PublicTransaction
}.

Inductive Scan :=
| Scan_Found (candidate : Candidate) (stable : StableFinalizedWindow)
| Scan_Missing (stable : StableFinalizedWindow)
| Scan_Unavailable (reason : FinalizedWitnessedAssetUnavailableReasonV2).

Inductive MissingEffectClassification :=
| Missing_Absent
| Missing_Uncertain
| Missing_Unavailable (reason : FinalizedWitnessedAssetUnavailableReasonV2).

Definition missing_state_error (error : BridgeRuntimeError)
    : result MissingEffectClassification BridgeRuntimeError :=
  match error with
  | Runtime_MovingTip => Ok (Missing_Unavailable Reason_MovingTip)
  | Runtime_Unavailable => Ok (Missing_Unavailable Reason_HistoryUnavailable)
  | error => Err error
  end.

Definition terms_swap_id (terms : WitnessedLezAssetTermsV2) : Hex32 :=
  match terms.(terms_asset) with
  | Asset_Native terms => terms.(witnessed_swap_id)
  | Asset_CustomToken terms => terms.(token_swap_id)
  end.

Definition terms_amount (terms : WitnessedLezAssetTermsV2) : Z :=
  match terms.(terms_asset) with
  | Asset_Native terms => terms.(witnessed_amount)
  | Asset_CustomToken terms => terms.(token_amount)
  end.

Definition containing_block (header : BlockHeader) : FinalizedBlockIdentity :=
  {| identity_block_id := header.(header_block_id);
     identity_block_hash := {| Hex32_as_bytes := header.(header_hash) |};
     identity_timestamp_ms := header.(header_timestamp) |}.

Definition escrow_state (status : EscrowStatus) : result EscrowState BridgeRuntimeError :=
  match status with
  | Status_Empty => Ok State_Empty
  | Status_Funded => Ok State_Funded
  | Status_Claimed => Ok State_Claimed
  | Status_Refunded => Ok State_Refunded
  | Status_XmrClaimAuthorized => Err Runtime_InvalidObservation
  end.

Section observer.
Context {H : EscrowHost} {R : LeeRuntime H}.

Definition require_present (account : HistoricalAccount) : result Account BridgeRuntimeError :=
  match account with
  | Account_Present account => Ok account
  | Account_Absent => Err Runtime_InvalidObservation
  end.

Definition instruction_matches (terms : WitnessedLezAssetTermsV2) (kind : EffectKind)
    (instruction : ZecEscrowInstruction) : bool :=
  match terms.(terms_asset), kind, instruction with
  | Asset_Native terms, Effect_Initialization,
    Zec_InitializeNativeWitnessed swap_id terms_hash aggregate_x_only_public_key amount refund_at
      authenticated_transfer_program =>
      (swap_id ==? terms.(witnessed_swap_id).(Hex32_as_bytes))
      && (terms_hash ==? terms.(witnessed_terms_hash).(Hex32_as_bytes))
      && (aggregate_x_only_public_key
          ==? terms.(witnessed_aggregate_x_only_public_key).(Hex32_as_bytes))
      && (amount =? terms.(witnessed_amount))
      && (refund_at =? terms.(witnessed_refund_at_ms))
      && (authenticated_transfer_program
          ==? program_id_from_hex terms.(witnessed_authenticated_transfer_program_id))
  | Asset_CustomToken terms, Effect_Initialization,
    Zec_InitializeTokenWitnessed swap_id terms_hash aggregate_x_only_public_key amount refund_at
      instruction_ata_program =>
      (swap_id ==? terms.(token_swap_id).(Hex32_as_bytes))
      && (terms_hash ==? terms.(token_terms_hash).(Hex32_as_bytes))
      && (aggregate_x_only_public_key
          ==? terms.(token_aggregate_x_only_public_key).(Hex32_as_bytes))
      && (amount =? terms.(token_amount))
      && (refund_at =? terms.(token_refund_at_ms))
      && (instruction_ata_program ==? ata_program)
  | Asset_CustomToken terms, Effect_CustodyCreation, Zec_CreateTokenCustody swap_id
  | Asset_CustomToken terms, Effect_Funding, Zec_FundToken swap_id
  | Asset_CustomToken terms, Effect_Claim, Zec_ClaimTokenWitnessed swap_id
  | Asset_CustomToken terms, Effect_Refund, Zec_RefundToken swap_id =>
      swap_id ==? terms.(token_swap_id).(Hex32_as_bytes)
  | Asset_Native terms, Effect_Funding, Zec_FundNative swap_id
  | Asset_Native terms, Effect_Claim, Zec_ClaimNativeWitnessed swap_id
  | Asset_Native terms, Effect_Refund, Zec_RefundNative swap_id =>
      swap_id ==? terms.(witnessed_swap_id).(Hex32_as_bytes)
  | _, _, _ => false
  end.

Definition instruction_swap (instruction : ZecEscrowInstruction) : option Hex32 :=
  match instruction with
  | Zec_InitializeNativeWitnessed swap_id _ _ _ _ _
  | Zec_InitializeTokenWitnessed swap_id _ _ _ _ _
  | Zec_CreateTokenCustody swap_id
  | Zec_FundNative swap_id
  | Zec_FundToken swap_id
  | Zec_ClaimNativeWitnessed swap_id
  | Zec_ClaimTokenWitnessed swap_id
  | Zec_RefundNative swap_id
  | Zec_RefundToken swap_id => Some {| Hex32_as_bytes := swap_id |}
  | Zec_Other => None
  end.

Definition instruction_kind (instruction : ZecEscrowInstruction) : option EffectKind :=
  match instruction with
  | Zec_InitializeNativeWitnessed _ _ _ _ _ _
  | Zec_InitializeTokenWitnessed _ _ _ _ _ _ => Some Effect_Initialization
  | Zec_CreateTokenCustody _ => Some Effect_CustodyCreation
  | Zec_FundNative _ | Zec_FundToken _ => Some Effect_Funding
  | Zec_ClaimNativeWitnessed _ | Zec_ClaimTokenWitnessed _ => Some Effect_Claim
  | Zec_RefundNative _ | Zec_RefundToken _ => Some Effect_Refund
  | Zec_Other => None
  end.

Definition account_hex (account : AccountId) : Hex32 := {| Hex32_as_bytes := account |}.

Definition metadata_pda (escrow_program : Hex32) (terms : WitnessedLezAssetTermsV2) : AccountId :=
  compute_metadata_pda (program_id_from_hex escrow_program)
    (terms_swap_id terms).(Hex32_as_bytes).

Definition expected_accounts (terms : WitnessedLezAssetTermsV2) (escrow_program : Hex32)
    (kind : EffectKind) : AccountIds :=
  let metadata := account_hex (metadata_pda escrow_program terms) in
  let custody (terms : WitnessedNativeEscrowTerms) :=
    account_hex (compute_custody_pda (program_id_from_hex escrow_program)
                   terms.(witnessed_swap_id).(Hex32_as_bytes)) in
  {| AccountIds_as_slice :=
       match terms.(terms_asset), kind with
       | Asset_Native terms, Effect_Initialization =>
           [metadata; custody terms; terms.(witnessed_depositor_account_id);
            terms.(witnessed_claimant_account_id);
            terms.(witnessed_aggregate_authority_account_id)]
       | Asset_Native terms, Effect_Funding
       | Asset_Native terms, Effect_Refund =>
           [metadata; custody terms; terms.(witnessed_depositor_account_id)]
       | Asset_Native terms, Effect_Claim =>
           [metadata; custody terms; terms.(witnessed_claimant_account_id);
            terms.(witnessed_aggregate_authority_account_id)]
       | Asset_CustomToken terms, Effect_Initialization =>
           [metadata; terms.(token_depositor_owner_account_id);
            terms.(token_claimant_owner_account_id); terms.(token_definition_account_id);
            terms.(token_aggregate_authority_account_id)]
       | Asset_CustomToken terms, Effect_CustodyCreation =>
           [metadata; terms.(token_definition_account_id); terms.(token_custody_ata_account_id)]
       | Asset_CustomToken terms, Effect_Funding =>
           [metadata; terms.(token_depositor_owner_account_id);
            terms.(token_depositor_ata_account_id); terms.(token_custody_ata_account_id)]
       | Asset_CustomToken terms, Effect_Claim =>
           [metadata; terms.(token_custody_ata_account_id);
            terms.(token_claimant_owner_account_id); terms.(token_claimant_ata_account_id);
            terms.(token_aggregate_authority_account_id)]
       | Asset_CustomToken terms, Effect_Refund =>
           [metadata; terms.(token_custody_ata_account_id);
            terms.(token_depositor_ata_account_id)]
       | Asset_Native _, Effect_CustodyCreation => []
       end |}.

Definition expected_signers (terms : WitnessedLezAssetTermsV2) (kind : EffectKind) : AccountIds :=
  {| AccountIds_as_slice :=
       match terms.(terms_asset), kind with
       | _, (Effect_CustodyCreation | Effect_Refund) => []
       | Asset_Native terms, Effect_Claim => [terms.(witnessed_aggregate_authority_account_id)]
       | Asset_CustomToken terms, Effect_Claim => [terms.(token_aggregate_authority_account_id)]
       | Asset_Native terms, _ => [terms.(witnessed_depositor_account_id)]
       | Asset_CustomToken terms, _ => [terms.(token_depositor_owner_account_id)]
       end |}.

Definition decode_indexed_public (indexed : IndexedPublicTransaction)
    : result PublicTransaction BridgeRuntimeError :=
  if forallb (λ w, public_key_try_new w.2) indexed.(indexed_signatures_and_public_keys)
  then Ok {| public_message := indexed.(indexed_message);
             public_signatures_and_public_keys := indexed.(indexed_signatures_and_public_keys) |}
  else Err Runtime_InvalidObservation.

Definition prepared_from_transaction (transaction : PublicTransaction)
    : result PreparedTransaction BridgeRuntimeError :=
  let? exact_bytes :=
    or_error (ExactTransactionBytes_new (public_transaction_to_bytes transaction))
      Runtime_Planner in
  Ok {| prepared_transaction_id := {| Hex32_as_bytes := public_transaction_hash transaction |};
        prepared_exact_bytes := exact_bytes |}.

Definition validate_claim_transcript (claim : PreparedWitnessedClaim)
    : result unit BridgeRuntimeError :=
  let bytes := claim.(claim_exact_message_bytes).(MessageBytes_as_slice) in
  let? message := ok_or (message_try_from_slice bytes) Runtime_Planner in
  let? encoded := ok_or (message_to_vec message) Runtime_Planner in
  if (encoded !=? bytes) || (message_hash message !=? claim.(claim_message_hash).(Hex32_as_bytes))
  then Err Runtime_Planner
  else Ok tt.

Definition official_ata (owner definition : AccountId) : Hex32 :=
  account_hex (associated_token_account_id ata_program owner definition).

Definition validate_token_terms (terms : WitnessedTokenEscrowTermsV2) (escrow_program : Hex32)
    : result unit BridgeRuntimeError :=
  if (terms.(token_program_id) !=? program_id_to_hex token_program)
     || (terms.(token_ata_program_id) !=? program_id_to_hex ata_program)
  then Err Runtime_Planner
  else
    let definition := terms.(token_definition_account_id).(Hex32_as_bytes) in
    let depositor := terms.(token_depositor_owner_account_id).(Hex32_as_bytes) in
    let claimant := terms.(token_claimant_owner_account_id).(Hex32_as_bytes) in
    let metadata :=
      compute_metadata_pda (program_id_from_hex escrow_program)
        terms.(token_swap_id).(Hex32_as_bytes) in
    if (official_ata depositor definition !=? terms.(token_depositor_ata_account_id))
       || (official_ata claimant definition !=? terms.(token_claimant_ata_account_id))
       || (official_ata metadata definition !=? terms.(token_custody_ata_account_id))
    then Err Runtime_Planner
    else
      let key := terms.(token_aggregate_x_only_public_key).(Hex32_as_bytes) in
      if negb (public_key_try_new key) then Err Runtime_Planner
      else if account_id_of_public_key key
              !=? terms.(token_aggregate_authority_account_id).(Hex32_as_bytes)
      then Err Runtime_Planner
      else Ok tt.

(** ** The observer *)

(** The immutable runtime identity of [FinalizedAssetObserver]. *)
Variable runtime : RuntimeDescriptor.

Definition validate_request (request_runtime : RuntimeDescriptor)
    (terms : WitnessedLezAssetTermsV2) : result unit BridgeRuntimeError :=
  if (request_runtime !=? runtime)
     || (request_runtime.(runtime_escrow_program_id) !=? runtime.(runtime_escrow_program_id))
  then Err Runtime_Planner
  else
    let? signer :=
      match terms.(terms_asset) with
      | Asset_Native terms =>
          if runtime.(runtime_sidecar_role) ==? terms.(witnessed_depositor)
          then Ok terms.(witnessed_depositor_account_id)
          else if runtime.(runtime_sidecar_role) ==? terms.(witnessed_claimant)
          then Ok terms.(witnessed_claimant_account_id)
          else Err Runtime_Planner
      | Asset_CustomToken terms =>
          let? _ := validate_token_terms terms runtime.(runtime_escrow_program_id) in
          if runtime.(runtime_sidecar_role) ==? terms.(token_depositor)
          then Ok terms.(token_depositor_owner_account_id)
          else if runtime.(runtime_sidecar_role) ==? terms.(token_claimant)
          then Ok terms.(token_claimant_owner_account_id)
          else Err Runtime_Planner
      end in
    if signer !=? runtime.(runtime_signer_account_id) then Err Runtime_Planner else Ok tt.

(** The error of a candidate that contradicts the terms. *)
Definition mismatch (exact : option PreparedTransaction) : BridgeRuntimeError :=
  match exact with
  | Some _ => Runtime_InvalidObservation
  | None => Runtime_ConflictingDiscovery
  end.

(** What the instruction of a transaction is to the observer: the effect it
    looks for, another effect of the swap, or none of its business. *)
Definition observe_kind (terms : WitnessedLezAssetTermsV2) (kind : EffectKind)
    (exact : option PreparedTransaction) (instruction : ZecEscrowInstruction)
    : result (option EffectKind) BridgeRuntimeError :=
  if instruction_matches terms kind instruction then Ok (Some kind)
  else
    match exact with
    | Some _ => Err Runtime_InvalidObservation
    | None =>
        if instruction_swap instruction !=? Some (terms_swap_id terms) then Ok None
        else
          let? observed_kind := ok_or (instruction_kind instruction) Runtime_ConflictingDiscovery in
          if (observed_kind ==? kind) || negb (instruction_matches terms observed_kind instruction)
          then Err Runtime_ConflictingDiscovery
          else Ok (Some observed_kind)
    end.

Definition matches_transcript (claim : option PreparedWitnessedClaim)
    (exact : option PreparedTransaction) (message : Message) : result unit BridgeRuntimeError :=
  match claim with
  | None => Ok tt
  | Some claim =>
      let? exact_message := ok_or (message_to_vec message) Runtime_InvalidObservation in
      if (exact_message !=? claim.(claim_exact_message_bytes).(MessageBytes_as_slice))
         || (message_hash message !=? claim.(claim_message_hash).(Hex32_as_bytes))
      then Err (mismatch exact)
      else Ok tt
  end.

Definition candidate (terms : WitnessedLezAssetTermsV2) (indexed : IndexedPublicTransaction)
    (block : BlockHeader) (index : Z) (kind : EffectKind) (claim : option PreparedWitnessedClaim)
    (exact : option PreparedTransaction) : result (option Candidate) BridgeRuntimeError :=
  let escrow_program := program_id_from_hex runtime.(runtime_escrow_program_id) in
  if indexed.(indexed_message).(message_program_id) !=? escrow_program
  then match exact with Some _ => Err Runtime_InvalidObservation | None => Ok None end
  else
    let? public := decode_indexed_public indexed in
    if public_transaction_hash public !=? indexed.(indexed_hash)
    then Err Runtime_InvalidObservation
    else if negb (transaction_stateless_check public)
    then Err Runtime_InvalidObservation
    else
      let? prepared := prepared_from_transaction public in
      if match exact with Some expected => expected !=? prepared | None => false end
      then Err Runtime_InvalidObservation
      else
        let message := public.(public_message) in
        let? instruction :=
          ok_or (instruction_from_slice message.(message_instruction_data)) (mismatch exact) in
        let? observed_kind := observe_kind terms kind exact instruction in
        match observed_kind with
        | None => Ok None
        | Some observed_kind =>
            let expected :=
              expected_accounts terms runtime.(runtime_escrow_program_id) observed_kind in
            let? observed_accounts :=
              or_error (AccountIds_new (map account_hex message.(message_account_ids)))
                Runtime_InvalidObservation in
            if observed_accounts !=? expected then Err (mismatch exact)
            else
              let? signer_ids :=
                or_error
                  (AccountIds_new
                     (map (λ w, account_hex (account_id_of_public_key w.2))
                        public.(public_signatures_and_public_keys)))
                  Runtime_InvalidObservation in
              if signer_ids !=? expected_signers terms observed_kind then Err (mismatch exact)
              else if observed_kind !=? kind then Ok None
              else
                let? _ := matches_transcript claim exact message in
                let? transaction_index :=
                  (if index <=? u32_max then Ok index else Err Runtime_InvalidObservation) in
                Ok (Some
                  {| candidate_transaction :=
                       {| observed_transaction_id := prepared.(prepared_transaction_id);
                          observed_exact_bytes := prepared.(prepared_exact_bytes);
                          observed_position :=
                            {| position_block_hash := account_hex block.(header_hash);
                               position_height := block.(header_block_id);
                               position_transaction_index := transaction_index |};
                          observed_signer_account_ids := signer_ids;
                          observed_is_public := true |};
                     candidate_accounts := observed_accounts;
                     candidate_block := block;
                     candidate_public := public |})
        end.

(** ** Scanning *)

(** What the scan makes of one transaction. *)
Definition examine (terms : WitnessedLezAssetTermsV2)
    (target : FinalizedWitnessedAssetTransactionTargetV2) (kind : EffectKind)
    (claim : option PreparedWitnessedClaim) (block : BlockHeader) (index : Z)
    (transaction : IndexedTransaction) : result (option Candidate) BridgeRuntimeError :=
  match target with
  | Target_Exact exact =>
      if transaction_hash transaction !=? exact.(prepared_transaction_id).(Hex32_as_bytes)
      then Ok None
      else
        match transaction with
        | Transaction_Public indexed =>
            candidate terms indexed block index kind claim (Some exact)
        | Transaction_Other _ _ => Err Runtime_InvalidObservation
        end
  | Target_DiscoverByTerms =>
      match transaction with
      | Transaction_Public indexed => candidate terms indexed block index kind claim None
      | Transaction_Other _ _ => Ok None
      end
  end.

(** The running match of the loop, or the early return on a second one. *)
Inductive ScanProgress :=
| Progress (found : option Candidate)
| Progress_Conflict.

Section scan_loop.
Variables (terms : WitnessedLezAssetTermsV2) (target : FinalizedWitnessedAssetTransactionTargetV2)
  (kind : EffectKind) (claim : option PreparedWitnessedClaim).

Fixpoint scan_transactions (block : BlockHeader) (index : Z)
    (transactions : list IndexedTransaction) (found : option Candidate)
    : result ScanProgress BridgeRuntimeError :=
  match transactions with
  | [] => Ok (Progress found)
  | transaction :: transactions =>
      let? examined := examine terms target kind claim block index transaction in
      match examined, found with
      | None, _ => scan_transactions block (index + 1) transactions found
      | Some candidate, None => scan_transactions block (index + 1) transactions (Some candidate)
      | Some _, Some _ => Ok Progress_Conflict
      end
  end.

Fixpoint scan_blocks (requested_end : Z) (blocks : list Block) (found : option Candidate)
    : result ScanProgress BridgeRuntimeError :=
  match blocks with
  | [] => Ok (Progress found)
  | block :: blocks =>
      if requested_end <? block.(block_header).(header_block_id)
      then scan_blocks requested_end blocks found
      else
        let? progress :=
          scan_transactions block.(block_header) 0 block.(block_transactions) found in
        match progress with
        | Progress found => scan_blocks requested_end blocks found
        | Progress_Conflict => Ok Progress_Conflict
        end
  end.
End scan_loop.

Section io.
Context {World : Type} {X : FinalizedIndexerApi H World}.

Definition scan (terms : WitnessedLezAssetTermsV2)
    (target : FinalizedWitnessedAssetTransactionTargetV2) (window : DiscoveryWindow)
    (kind : EffectKind) (claim : option PreparedWitnessedClaim) : Io World Scan :=
  let! stable := io_try (read_fixed_finalized_window window) in
  match stable with
  | Err Runtime_MovingTip => io_ok (Scan_Unavailable Reason_MovingTip)
  | Err Runtime_Unavailable => io_ok (Scan_Unavailable Reason_HistoryUnavailable)
  | Err error => io_err error
  | Ok stable =>
      let! progress :=
        io_of (scan_blocks terms target kind claim stable.(stable_requested_end)
                 stable.(stable_blocks) None) in
      match progress with
      | Progress_Conflict => io_ok (Scan_Unavailable Reason_ConflictingMatches)
      | Progress None => io_ok (Scan_Missing stable)
      | Progress (Some candidate) =>
          let! confirmed :=
            io_try (confirm_block stable candidate.(candidate_block).(header_block_id)) in
          match confirmed with
          | Ok _ => io_ok (Scan_Found candidate stable)
          | Err Runtime_MovingTip => io_ok (Scan_Unavailable Reason_MovingTip)
          | Err _ => io_ok (Scan_Unavailable Reason_HistoryUnavailable)
          end
      end
  end.

(** ** Reading the escrow's accounts *)

Definition native_metadata_matches (native : WitnessedNativeEscrowTerms) (custody : AccountId)
    (x_only_public_key : bytes) (account_id : AccountId) (metadata : EscrowMetadata) : bool :=
  let transfer := program_id_from_hex native.(witnessed_authenticated_transfer_program_id) in
  (metadata.(meta_swap_id) ==? native.(witnessed_swap_id).(Hex32_as_bytes))
  && (metadata.(meta_terms_hash) ==? native.(witnessed_terms_hash).(Hex32_as_bytes))
  && (x_only_public_key ==? native.(witnessed_aggregate_x_only_public_key).(Hex32_as_bytes))
  && (account_id ==? native.(witnessed_aggregate_authority_account_id).(Hex32_as_bytes))
  && (metadata.(meta_depositor) ==? native.(witnessed_depositor_account_id).(Hex32_as_bytes))
  && (metadata.(meta_depositor_asset) ==? metadata.(meta_depositor))
  && (metadata.(meta_claimant) ==? native.(witnessed_claimant_account_id).(Hex32_as_bytes))
  && (metadata.(meta_claimant_asset) ==? metadata.(meta_claimant))
  && (metadata.(meta_custody) ==? custody)
  && (metadata.(meta_asset_program) ==? transfer)
  && (metadata.(meta_custody_program) ==? transfer)
  && (metadata.(meta_asset_definition) ==? zero32)
  && (metadata.(meta_amount) =? native.(witnessed_amount))
  && (metadata.(meta_refund_at) =? native.(witnessed_refund_at_ms)).

Definition token_metadata_matches (token : WitnessedTokenEscrowTermsV2)
    (x_only_public_key : bytes) (account_id : AccountId) (metadata : EscrowMetadata) : bool :=
  (metadata.(meta_swap_id) ==? token.(token_swap_id).(Hex32_as_bytes))
  && (metadata.(meta_terms_hash) ==? token.(token_terms_hash).(Hex32_as_bytes))
  && (x_only_public_key ==? token.(token_aggregate_x_only_public_key).(Hex32_as_bytes))
  && (account_id ==? token.(token_aggregate_authority_account_id).(Hex32_as_bytes))
  && (metadata.(meta_depositor) ==? token.(token_depositor_owner_account_id).(Hex32_as_bytes))
  && (metadata.(meta_depositor_asset) ==? token.(token_depositor_ata_account_id).(Hex32_as_bytes))
  && (metadata.(meta_claimant) ==? token.(token_claimant_owner_account_id).(Hex32_as_bytes))
  && (metadata.(meta_claimant_asset) ==? token.(token_claimant_ata_account_id).(Hex32_as_bytes))
  && (metadata.(meta_custody) ==? token.(token_custody_ata_account_id).(Hex32_as_bytes))
  && (metadata.(meta_asset_program) ==? token_program)
  && (metadata.(meta_custody_program) ==? ata_program)
  && (metadata.(meta_asset_definition) ==? token.(token_definition_account_id).(Hex32_as_bytes))
  && (metadata.(meta_amount) =? token.(token_amount))
  && (metadata.(meta_refund_at) =? token.(token_refund_at_ms)).

(** The fields of an account at the metadata address, against the terms. *)
Definition check_metadata (terms : WitnessedLezAssetTermsV2) (expected_state : EscrowState)
    (account : Account) : result (WitnessedEscrowMetadataFacts * Hex32) BridgeRuntimeError :=
  let escrow_program := program_id_from_hex runtime.(runtime_escrow_program_id) in
  let? metadata :=
    ok_or (metadata_try_from_slice account.(data)) Runtime_InvalidObservation in
  let? state := escrow_state metadata.(meta_status) in
  if (account.(program_owner) !=? escrow_program)
     || negb (metadata.(meta_version) =? 2)
     || (state !=? expected_state)
  then Err Runtime_InvalidObservation
  else
    let metadata_hex :=
      account_hex (metadata_pda runtime.(runtime_escrow_program_id) terms) in
    match terms.(terms_asset), metadata.(meta_claim_authority) with
    | Asset_Native native, AggregateWitness x_only_public_key account_id =>
        let custody :=
          compute_custody_pda escrow_program native.(witnessed_swap_id).(Hex32_as_bytes) in
        if negb (native_metadata_matches native custody x_only_public_key account_id metadata)
        then Err Runtime_InvalidObservation
        else
          let custody_hex := account_hex custody in
          Ok (from_witnessed_native_terms metadata_hex runtime.(runtime_escrow_program_id)
                custody_hex native state, custody_hex)
    | Asset_CustomToken token, AggregateWitness x_only_public_key account_id =>
        if negb (token_metadata_matches token x_only_public_key account_id metadata)
        then Err Runtime_InvalidObservation
        else
          Ok (from_witnessed_token_terms metadata_hex runtime.(runtime_escrow_program_id)
                token state, token.(token_custody_ata_account_id))
    | _, _ => Err Runtime_InvalidObservation
    end.

Definition observe_metadata (terms : WitnessedLezAssetTermsV2) (block_id : Z)
    (expected_state : EscrowState) : Io World (WitnessedEscrowMetadataFacts * Hex32) :=
  let! account :=
    account_at_block (metadata_pda runtime.(runtime_escrow_program_id) terms) block_id in
  let! account := io_of (require_present account) in
  io_of (check_metadata terms expected_state account).

Definition read_metadata_state (terms : WitnessedLezAssetTermsV2) (block_id : Z)
    : Io World EscrowState :=
  let! account :=
    account_at_block (metadata_pda runtime.(runtime_escrow_program_id) terms) block_id in
  let! account := io_of (require_present account) in
  let! metadata :=
    io_of (ok_or (metadata_try_from_slice account.(data)) Runtime_InvalidObservation) in
  io_of (escrow_state metadata.(meta_status)).

Definition read_token_definition (terms : WitnessedTokenEscrowTermsV2) (block_id : Z)
    : Io World unit :=
  let! account :=
    account_at_block terms.(token_definition_account_id).(Hex32_as_bytes) block_id in
  let! account := io_of (require_present account) in
  if (account.(program_owner) !=? token_program)
     || negb (token_definition_is_fungible account.(data))
  then io_err Runtime_InvalidObservation
  else io_ok tt.

(** The three joined reads of a token escrow. *)
Definition read_token_accounts (terms : WitnessedLezAssetTermsV2)
    (token : WitnessedTokenEscrowTermsV2) (block_id : Z) (expected_state : EscrowState)
    : Io World (WitnessedEscrowMetadataFacts * HistoricalAccount) :=
  let! '(metadata, _, custody) :=
    try_join (observe_metadata terms block_id expected_state)
      (read_token_definition token block_id)
      (account_at_block token.(token_custody_ata_account_id).(Hex32_as_bytes) block_id) in
  io_ok (metadata.1, custody).

Definition check_native_custody (native : WitnessedNativeEscrowTerms) (custody_id : Hex32)
    (expected_balance : Z) (account : Account)
    : result WitnessedAssetCustodyFactsV2 BridgeRuntimeError :=
  if (account.(program_owner)
      !=? program_id_from_hex native.(witnessed_authenticated_transfer_program_id))
     || negb (account.(balance) =? expected_balance)
  then Err Runtime_InvalidObservation
  else
    Ok (Custody_Native
          (NativeCustodyFacts_new custody_id (program_id_to_hex account.(program_owner))
             account.(balance))).

Definition check_token_custody (token : WitnessedTokenEscrowTermsV2) (expected_balance : Z)
    (account : Account) : result WitnessedAssetCustodyFactsV2 BridgeRuntimeError :=
  if account.(program_owner) !=? token_program then Err Runtime_InvalidObservation
  else
    let? holding := ok_or (token_holding_try_from account.(data)) Runtime_InvalidObservation in
    match holding.(holding_fungible) with
    | None => Err Runtime_InvalidObservation
    | Some balance =>
        if (holding.(definition_id) !=? token.(token_definition_account_id).(Hex32_as_bytes))
           || negb (balance =? expected_balance)
        then Err Runtime_InvalidObservation
        else
          Ok (Custody_CustomToken
                (TokenHoldingFactsV2_new token.(token_custody_ata_account_id)
                   token.(token_program_id) token.(token_definition_account_id) balance))
    end.

Definition read_asset_state (terms : WitnessedLezAssetTermsV2) (block_id : Z)
    (expected_state : EscrowState) (expected_balance : Z)
    : Io World (WitnessedEscrowMetadataFacts * WitnessedAssetCustodyFactsV2) :=
  match terms.(terms_asset) with
  | Asset_Native native =>
      let! '(metadata, custody_id) := observe_metadata terms block_id expected_state in
      let! account := account_at_block custody_id.(Hex32_as_bytes) block_id in
      let! account := io_of (require_present account) in
      let! custody := io_of (check_native_custody native custody_id expected_balance account) in
      io_ok (metadata, custody)
  | Asset_CustomToken token =>
      let! '(metadata, custody) := read_token_accounts terms token block_id expected_state in
      let! account := io_of (require_present custody) in
      let! custody := io_of (check_token_custody token expected_balance account) in
      io_ok (metadata, custody)
  end.

Definition read_initialization_state (terms : WitnessedLezAssetTermsV2) (block_id : Z)
    : Io World (WitnessedEscrowMetadataFacts * WitnessedAssetInitializationCustodyFactsV2) :=
  match terms.(terms_asset) with
  | Asset_Native _ =>
      let! '(metadata, custody) := read_asset_state terms block_id State_Empty 0 in
      match custody with
      | Custody_Native custody => io_ok (metadata, InitialCustody_Native custody)
      | Custody_CustomToken _ => io_err Runtime_InvalidObservation
      end
  | Asset_CustomToken token =>
      let! '(metadata, custody) := read_token_accounts terms token block_id State_Empty in
      match custody with
      | Account_Absent =>
          io_ok (metadata,
                 InitialCustody_CustomTokenAtaAbsent token.(token_custody_ata_account_id))
      | Account_Present _ => io_err Runtime_InvalidObservation
      end
  end.

Definition read_asset_state_at_stable_tip (terms : WitnessedLezAssetTermsV2)
    (stable : StableFinalizedWindow)
    : Io World (ChainClock * WitnessedEscrowMetadataFacts * WitnessedAssetCustodyFactsV2) :=
  let tip := stable.(stable_finalized_tip).(block_header).(header_block_id) in
  let! state := read_metadata_state terms tip in
  let balance := if state ==? State_Funded then terms_amount terms else 0 in
  let! '(metadata, custody) := read_asset_state terms tip state balance in
  let! _ := confirm_pinned_snapshot stable in
  io_ok (stable.(stable_finalized_clock), metadata, custody).

Definition read_latest_asset_state (terms : WitnessedLezAssetTermsV2)
    : Io World (ChainClock * WitnessedEscrowMetadataFacts * WitnessedAssetCustodyFactsV2) :=
  let! tip := last_finalized_block_id in
  let! tip := io_of (ok_or tip Runtime_Unavailable) in
  let! window := io_of (or_error (DiscoveryWindow_new tip 1) Runtime_InvalidObservation) in
  let! stable := read_fixed_finalized_window window in
  read_asset_state_at_stable_tip terms stable.

Definition post_candidate_state_unavailable (stable : StableFinalizedWindow)
    (candidate_block_id : Z) : Io World (option FinalizedWitnessedAssetUnavailableReasonV2) :=
  let! confirmed := io_try (confirm_block stable candidate_block_id) in
  match confirmed with
  | Ok _ => io_ok None
  | Err Runtime_MovingTip => io_ok (Some Reason_MovingTip)
  | Err Runtime_Unavailable => io_ok (Some Reason_HistoryUnavailable)
  | Err error => io_err error
  end.

(** Whether the state at the end of the window shows that the effect never
    happened: an error that says so or an early return. *)
Definition state_proves_absence (terms : WitnessedLezAssetTermsV2) (kind : EffectKind) (tip : Z)
    : Io World (result bool BridgeRuntimeError) :=
  let proves {A : Type} (read : Io World A) : Io World (result bool BridgeRuntimeError) :=
    let! state := io_try read in
    io_ok
      match state with
      | Ok _ => Ok true
      | Err Runtime_InvalidObservation => Ok false
      | Err error => Err error
      end in
  match kind with
  | Effect_Initialization =>
      let! account :=
        io_try (account_at_block (metadata_pda runtime.(runtime_escrow_program_id) terms) tip) in
      io_ok
        match account with
        | Ok Account_Absent => Ok true
        | Ok (Account_Present _) => Ok false
        | Err error => Err error
        end
  | Effect_CustodyCreation => proves (read_initialization_state terms tip)
  | Effect_Funding => proves (read_asset_state terms tip State_Empty 0)
  | Effect_Claim => proves (read_asset_state terms tip State_Funded (terms_amount terms))
  | Effect_Refund => io_ok (Ok false)
  end.

Definition classify_missing_effect (terms : WitnessedLezAssetTermsV2) (kind : EffectKind)
    (stable : StableFinalizedWindow) : Io World MissingEffectClassification :=
  let! proof := state_proves_absence terms kind stable.(stable_requested_end) in
  match proof with
  | Err error => io_of (missing_state_error error)
  | Ok false => io_ok Missing_Uncertain
  | Ok true =>
      let! confirmed := io_try (confirm_requested_end stable) in
      match confirmed with
      | Ok _ => io_ok Missing_Absent
      | Err error => io_of (missing_state_error error)
      end
  end.

(** ** The five observations *)

Definition effect_instruction (step : WitnessedAssetPrepareStepV2)
    (terms : WitnessedLezAssetTermsV2) (candidate : Candidate)
    : WitnessedAssetEffectInstructionFactsV2 :=
  {| effect_step := step; effect_program_id := runtime.(runtime_escrow_program_id);
     effect_ordered_account_ids := candidate.(candidate_accounts);
     effect_swap_id := terms_swap_id terms |}.

Definition initialization_facts (terms : WitnessedLezAssetTermsV2) (candidate : Candidate)
    (metadata : WitnessedEscrowMetadataFacts)
    (custody : WitnessedAssetInitializationCustodyFactsV2)
    : FinalizedWitnessedAssetInitializationFactsV2 :=
  {| init_transaction := candidate.(candidate_transaction);
     init_instruction := effect_instruction InitializeWitnessed terms candidate;
     init_containing_block := containing_block candidate.(candidate_block);
     init_metadata := metadata;
     init_custody := custody |}.

Definition creation_facts (terms : WitnessedLezAssetTermsV2) (candidate : Candidate)
    (metadata : WitnessedEscrowMetadataFacts) (custody : TokenHoldingFactsV2)
    : FinalizedWitnessedAssetCustodyCreationFactsV2 :=
  {| creation_transaction := candidate.(candidate_transaction);
     creation_instruction := effect_instruction CreateCustodyAta terms candidate;
     creation_containing_block := containing_block candidate.(candidate_block);
     creation_metadata := metadata;
     creation_custody := custody |}.

Definition funding_facts (terms : WitnessedLezAssetTermsV2) (candidate : Candidate)
    (metadata : WitnessedEscrowMetadataFacts) (custody : WitnessedAssetCustodyFactsV2)
    : FinalizedWitnessedAssetFundingFactsV2 :=
  {| funding_transaction := candidate.(candidate_transaction);
     funding_instruction := effect_instruction Fund terms candidate;
     funding_containing_block := containing_block candidate.(candidate_block);
     funding_metadata := metadata;
     funding_custody := custody |}.

Definition claim_facts (terms : WitnessedLezAssetTermsV2) (claim : PreparedWitnessedClaim)
    (candidate : Candidate) (signature : bytes) (metadata : WitnessedEscrowMetadataFacts)
    (custody : WitnessedAssetCustodyFactsV2) : FinalizedWitnessedAssetClaimFactsV2 :=
  {| claim_transaction := candidate.(candidate_transaction);
     claim_instruction :=
       {| claim_program_id := runtime.(runtime_escrow_program_id);
          claim_ordered_account_ids := candidate.(candidate_accounts);
          claim_swap_id := terms_swap_id terms;
          claim_transcript := claim |};
     claim_aggregate_signature := {| Signature_as_bytes := signature |};
     claim_containing_block := containing_block candidate.(candidate_block);
     claim_metadata := metadata;
     claim_custody := custody |}.

(** A report that fails its own validation is an invalid observation. *)
Definition report {A : Type} (r : result A ProtocolValueError) : Io World A :=
  io_of (or_error r Runtime_InvalidObservation).

Definition classify_initialization
    (request : ClassifyFinalizedWitnessedAssetInitializationV2Request)
    : Io World ClassifyFinalizedWitnessedAssetInitializationV2Result :=
  let context := request.(initialization_request_context) in
  let terms := request.(initialization_request_terms) in
  let target := request.(initialization_request_target) in
  let window := request.(initialization_request_window) in
  let! _ := io_of (validate_request request.(initialization_request_runtime) terms) in
  let! scanned := scan terms target window Effect_Initialization None in
  match scanned with
  | Scan_Found candidate stable =>
      let block := candidate.(candidate_block) in
      let! '(metadata, custody) := read_initialization_state terms block.(header_block_id) in
      let! unavailable := post_candidate_state_unavailable stable block.(header_block_id) in
      match unavailable with
      | Some reason => io_ok (initialization_unavailable context terms target reason)
      | None =>
          report (initialization_found context terms target
                    stable.(stable_finalized_clock) window
                    (initialization_facts terms candidate metadata custody))
      end
  | Scan_Missing stable =>
      let! clock := io_of (requested_end_clock stable) in
      let! missing := classify_missing_effect terms Effect_Initialization stable in
      match missing with
      | Missing_Absent => report (initialization_absent context terms target clock window)
      | Missing_Uncertain => report (initialization_uncertain context terms target clock window)
      | Missing_Unavailable reason =>
          io_ok (initialization_unavailable context terms target reason)
      end
  | Scan_Unavailable reason => io_ok (initialization_unavailable context terms target reason)
  end.

Definition classify_custody_creation
    (request : ClassifyFinalizedWitnessedAssetCustodyCreationV2Request)
    : Io World ClassifyFinalizedWitnessedAssetCustodyCreationV2Result :=
  let context := request.(creation_request_context) in
  let terms := request.(creation_request_terms) in
  let target := request.(creation_request_target) in
  let window := request.(creation_request_window) in
  let! _ := io_of (validate_request request.(creation_request_runtime) terms) in
  match terms.(terms_asset) with
  | Asset_Native _ => io_err Runtime_Planner
  | Asset_CustomToken _ =>
      let! scanned := scan terms target window Effect_CustodyCreation None in
      match scanned with
      | Scan_Found candidate stable =>
          let block := candidate.(candidate_block) in
          let! '(metadata, custody) :=
            read_asset_state terms block.(header_block_id) State_Empty 0 in
          let! unavailable := post_candidate_state_unavailable stable block.(header_block_id) in
          match unavailable with
          | Some reason => report (creation_unavailable context terms target reason)
          | None =>
              match custody with
              | Custody_Native _ => io_err Runtime_InvalidObservation
              | Custody_CustomToken custody =>
                  report (creation_found context terms target
                            stable.(stable_finalized_clock) window
                            (creation_facts terms candidate metadata custody))
              end
          end
      | Scan_Missing stable =>
          let! clock := io_of (requested_end_clock stable) in
          let! missing := classify_missing_effect terms Effect_CustodyCreation stable in
          match missing with
          | Missing_Absent => report (creation_absent context terms target clock window)
          | Missing_Uncertain => report (creation_uncertain context terms target clock window)
          | Missing_Unavailable reason =>
              report (creation_unavailable context terms target reason)
          end
      | Scan_Unavailable reason => report (creation_unavailable context terms target reason)
      end
  end.

Definition classify_funding (request : ClassifyFinalizedWitnessedAssetFundingV2Request)
    : Io World ClassifyFinalizedWitnessedAssetFundingV2Result :=
  let context := request.(funding_request_context) in
  let terms := request.(funding_request_terms) in
  let target := request.(funding_request_target) in
  let window := request.(funding_request_window) in
  let! _ := io_of (validate_request request.(funding_request_runtime) terms) in
  let! scanned := scan terms target window Effect_Funding None in
  match scanned with
  | Scan_Found candidate stable =>
      let block := candidate.(candidate_block) in
      let! '(metadata, custody) :=
        read_asset_state terms block.(header_block_id) State_Funded (terms_amount terms) in
      let! unavailable := post_candidate_state_unavailable stable block.(header_block_id) in
      match unavailable with
      | Some reason => io_ok (funding_unavailable context terms target reason)
      | None =>
          report (funding_found context terms target stable.(stable_finalized_clock) window
                    (funding_facts terms candidate metadata custody))
      end
  | Scan_Missing stable =>
      let! clock := io_of (requested_end_clock stable) in
      let! missing := classify_missing_effect terms Effect_Funding stable in
      match missing with
      | Missing_Absent => report (funding_absent context terms target clock window)
      | Missing_Uncertain => report (funding_uncertain context terms target clock window)
      | Missing_Unavailable reason => io_ok (funding_unavailable context terms target reason)
      end
  | Scan_Unavailable reason => io_ok (funding_unavailable context terms target reason)
  end.

Definition classify_claim (request : ClassifyFinalizedWitnessedAssetClaimV2Request)
    : Io World ClassifyFinalizedWitnessedAssetClaimV2Result :=
  let context := request.(claim_request_context) in
  let terms := request.(claim_request_terms) in
  let claim := request.(claim_request_claim) in
  let target := request.(claim_request_target) in
  let window := request.(claim_request_window) in
  let! _ := io_of (validate_request request.(claim_request_runtime) terms) in
  let! _ := io_of (validate_claim_transcript claim) in
  let! scanned := scan terms target window Effect_Claim (Some claim) in
  match scanned with
  | Scan_Found candidate stable =>
      let block := candidate.(candidate_block) in
      let! '(metadata, custody) :=
        read_asset_state terms block.(header_block_id) State_Claimed 0 in
      let! unavailable := post_candidate_state_unavailable stable block.(header_block_id) in
      match unavailable with
      | Some reason => io_ok (claim_unavailable context terms claim target reason)
      | None =>
          match candidate.(candidate_public).(public_signatures_and_public_keys) with
          | [(signature, _)] =>
              report (claim_found context terms claim target
                        stable.(stable_finalized_clock) window
                        (claim_facts terms claim candidate signature metadata custody))
          | _ => io_err Runtime_InvalidObservation
          end
      end
  | Scan_Missing stable =>
      let! clock := io_of (requested_end_clock stable) in
      let! missing := classify_missing_effect terms Effect_Claim stable in
      match missing with
      | Missing_Absent => report (claim_absent context terms claim target clock window)
      | Missing_Uncertain => report (claim_uncertain context terms claim target clock window)
      | Missing_Unavailable reason => io_ok (claim_unavailable context terms claim target reason)
      end
  | Scan_Unavailable reason => io_ok (claim_unavailable context terms claim target reason)
  end.

(** The refund a scan shows, and the window whose state is read with it. *)
Definition interpret_refund_scan (terms : WitnessedLezAssetTermsV2)
    (target : NativeRefundObservationTarget) (scanned : option Scan)
    : result (WitnessedAssetRefundObservationV2 * option StableFinalizedWindow)
        BridgeRuntimeError :=
  match scanned with
  | None => Ok (Refund_NotRequested, None)
  | Some (Scan_Missing stable) =>
      Ok (match target with
          | RefundTarget_Exact _ _ => Refund_UnknownOrPending
          | _ => Refund_Absent
          end, Some stable)
  | Some (Scan_Unavailable _) => Ok (Refund_UnknownOrPending, None)
  | Some (Scan_Found candidate stable) =>
      let refund :=
        Refund_Found
          {| refund_transaction := candidate.(candidate_transaction);
             refund_instruction :=
               {| refund_program_id := runtime.(runtime_escrow_program_id);
                  refund_ordered_account_ids := candidate.(candidate_accounts);
                  refund_swap_id := terms_swap_id terms |} |} in
      match target with
      | RefundTarget_Exact refund_transaction_id _ =>
          if candidate.(candidate_transaction).(observed_transaction_id)
             !=? refund_transaction_id
          then Err Runtime_ConflictingDiscovery
          else Ok (refund, Some stable)
      | _ => Ok (refund, Some stable)
      end
  end.

Definition observe_refund (request : ObserveWitnessedAssetRefundV2Request)
    : Io World ObserveWitnessedAssetRefundV2Result :=
  let terms := request.(refund_request_terms) in
  let target := request.(refund_request_target) in
  let! _ := io_of (validate_request request.(refund_request_runtime) terms) in
  let! scanned :=
    match target with
    | RefundTarget_StateOnly => io_ok None
    | RefundTarget_Exact _ window
    | RefundTarget_DiscoverByTerms window =>
        let! s := scan terms Target_DiscoverByTerms window Effect_Refund None in
        io_ok (Some s)
    end in
  let! '(refund, stable) := io_of (interpret_refund_scan terms target scanned) in
  let! '(clock, metadata, custody, refund) :=
    match stable with
    | Some stable =>
        let! state := io_try (read_asset_state_at_stable_tip terms stable) in
        match state with
        | Ok (clock, metadata, custody) => io_ok (clock, metadata, custody, refund)
        | Err (Runtime_MovingTip | Runtime_Unavailable) =>
            let! '(clock, metadata, custody) := read_latest_asset_state terms in
            io_ok (clock, metadata, custody, Refund_UnknownOrPending)
        | Err error => io_err error
        end
    | None =>
        let! '(clock, metadata, custody) := read_latest_asset_state terms in
        io_ok (clock, metadata, custody, refund)
    end in
  report (ObserveWitnessedAssetRefundV2Result_new request.(refund_request_context) terms clock
            metadata custody refund clock).
End io.
End observer.
