(* ===== verification/AssetObserverFacts.v ===== *)
(** * Correctness of the finalized observer

    First without assumptions on the indexer: what a stable window is, that a
    scan reports exactly the matching transactions of its window, and that what
    the observer reads always passes the protocol's validation.  Then against a
    ledger: if historical reads return the state of the ledger, the observer's
    answers are facts about the executions of the escrow program. *)

From stdpp Require Import base gmap strings list numbers.
From S2P Require Import Prelude SwapCore Decimal BridgeValues AssetEvidence AssetEvidenceFacts.
From S2P Require Import Escrow EscrowFacts EscrowTheorems AssetObserver.

Open Scope Z_scope.

(** ** Taking computations apart *)

Lemma io_bind_Ok {World A B : Type} (m : Io World A) (k : A → Io World B) w b w' :
  (let! a := m in k a) w = (Ok b, w') ↔ ∃ a w1, m w = (Ok a, w1) ∧ k a w1 = (Ok b, w').
Proof.
  unfold io_bind. destruct (m w) as [[a|e] w1]; split.
  - by exists a, w1.
  - by intros (?&?&[= <- <-]&?).
  - done.
  - by intros (?&?&?&?).
Qed.

Lemma io_of_Ok {World A : Type} (r : result A BridgeRuntimeError) (w w' : World) a :
  io_of r w = (Ok a, w') ↔ r = Ok a ∧ w' = w.
Proof. unfold io_of. split; [by intros [= -> ->]|by intros [-> ->]]. Qed.

Lemma io_try_Ok {World A : Type} (m : Io World A) w r w' :
  io_try m w = (Ok r, w') ↔ m w = (r, w').
Proof. unfold io_try. destruct (m w). split; [by intros [= -> ->]|by intros [= -> ->]]. Qed.

Lemma or_error_Ok {A E : Type} (r : result A E) e a : or_error r e = Ok a ↔ r = Ok a.
Proof. destruct r; cbn; split; try done; by intros [= ->]. Qed.

(** A successful run: its calls one after another, its tests passed. *)
Ltac inv_io Hr :=
  lazymatch type of Hr with
  | io_bind _ _ _ = (Ok _, _) =>
      let a := fresh "v" in let w := fresh "w" in let Ha := fresh "Hv" in
      apply io_bind_Ok in Hr as (a&w&Ha&Hr); inv_io Ha; cbv beta iota in Hr; inv_io Hr
  | io_of (ok_or _ _) _ = (Ok _, _) =>
      apply io_of_Ok in Hr as [Hr ->]; apply ok_or_Ok in Hr
  | io_of (or_error _ _) _ = (Ok _, _) =>
      apply io_of_Ok in Hr as [Hr ->]; apply or_error_Ok in Hr
  | io_of _ _ = (Ok _, _) => apply io_of_Ok in Hr as [Hr ->]
  | report _ _ = (Ok _, _) =>
      unfold report in Hr; apply io_of_Ok in Hr as [Hr ->]; apply or_error_Ok in Hr
  | io_try _ _ = (Ok _, _) => apply (proj1 (io_try_Ok _ _ _ _)) in Hr
  | io_ok _ _ = (Ok _, _) => first [injection Hr as <- <-|injection Hr as Hr <-]
  | io_err _ _ = (Ok _, _) => discriminate Hr
  | (if ?c then io_err _ else _) _ = (Ok _, _) =>
      let E := fresh "E" in destruct c eqn:E; [discriminate Hr|]; inv_io Hr
  | _ => idtac
  end.

(** ** Finalized windows *)

Section windows.
Context {H : EscrowHost} {R : LeeRuntime H} {World : Type} {X : FinalizedIndexerApi H World}.

Definition finalized_at (block_id : Z) (block : Block) : Prop :=
  block.(block_header).(header_block_id) = block_id ∧
  block.(block_bedrock_status) = Bedrock_Finalized.

(** Each block names the hash of the one before it. *)
Fixpoint linked (previous : option bytes) (blocks : list Block) : Prop :=
  match blocks with
  | [] => True
  | block :: blocks =>
      (∀ hash, previous = Some hash → block.(block_header).(header_prev_block_hash) = hash) ∧
      linked (Some block.(block_header).(header_hash)) blocks
  end.

Lemma read_finalized_block_Ok block_id w block w' :
  read_finalized_block block_id w = (Ok block, w') → finalized_at block_id block.
Proof.
  unfold read_finalized_block. intros Hr. inv_io Hr. bool_props. by split.
Qed.

Lemma read_linked_blocks_Ok block_ids previous w blocks w' :
  read_linked_blocks block_ids previous w = (Ok blocks, w') →
  Forall2 finalized_at block_ids blocks ∧ linked previous blocks.
Proof.
  revert previous w blocks w'.
  induction block_ids as [|id ids IH]; intros previous w blocks w' Hr; cbn in Hr; inv_io Hr.
  - by split; constructor.
  - apply IH in Hv0 as [Hall Hl]. apply read_finalized_block_Ok in Hv.
    split; [by constructor|]. split; [|done]. intros hash ->. by bool_props.
Qed.

(** What a stable window is made of. *)
Definition stable_over (window : DiscoveryWindow) (s : StableFinalizedWindow) : Prop :=
  Forall2 finalized_at (seqZ window.(window_start_height) window.(window_max_blocks))
    s.(stable_blocks) ∧
  linked None s.(stable_blocks) ∧
  s.(stable_requested_end) = window.(window_start_height) + window.(window_max_blocks) - 1 ∧
  s.(stable_requested_end) ≤ u64_max ∧
  list.last s.(stable_blocks) = Some s.(stable_finalized_tip) ∧
  finalized_at s.(stable_requested_end) s.(stable_finalized_tip) ∧
  s.(stable_finalized_clock) = clock_of s.(stable_finalized_tip).(block_header).

Lemma read_window_Ok window w s w' :
  read_fixed_finalized_window window w = (Ok s, w') → stable_over window s.
Proof.
  unfold read_fixed_finalized_window. intros Hr. inv_io Hr. bool_props. subst.
  repeat match goal with
  | Hx : read_linked_blocks _ _ _ = _ |- _ => apply read_linked_blocks_Ok in Hx as [? ?]
  | Hx : read_finalized_block _ _ = _ |- _ => apply read_finalized_block_Ok in Hx
  | Hx : checked_add _ _ _ = Some _ |- _ => apply checked_add_Some in Hx as [-> ?]
  end.
  unfold stable_over. cbn. split_and!; try done; lia.
Qed.

Lemma find_block_Some blocks block_id block :
  find_block blocks block_id = Some block →
  block ∈ blocks ∧ block.(block_header).(header_block_id) = block_id.
Proof.
  induction blocks as [|b blocks IH]; cbn; [done|].
  destruct (Z.eqb_spec (header_block_id (block_header b)) block_id).
  - intros [= <-]. by split; [left|].
  - intros [? ?]%IH. by split; [right|].
Qed.

Lemma stable_block_range window s block :
  stable_over window s → block ∈ s.(stable_blocks) →
  window.(window_start_height) ≤ block.(block_header).(header_block_id)
    ≤ s.(stable_requested_end).
Proof.
  intros (Hall&_&->&_) Hb. apply list_elem_of_lookup in Hb as [i Hi].
  destruct (Forall2_lookup_r _ _ _ _ _ Hall Hi) as (id&Hid&[<- _]).
  apply lookup_seqZ in Hid. lia.
Qed.
End windows.

(** ** Scanning *)

Section scanning.
Context {H : EscrowHost} {R : LeeRuntime H}.
Variable runtime : RuntimeDescriptor.

(** The transactions of a block with their positions. *)
Fixpoint positions (header : BlockHeader) (index : Z) (transactions : list IndexedTransaction)
    : list (BlockHeader * Z * IndexedTransaction) :=
  match transactions with
  | [] => []
  | transaction :: transactions =>
      (header, index, transaction) :: positions header (index + 1) transactions
  end.

Definition entries (blocks : list Block) : list (BlockHeader * Z * IndexedTransaction) :=
  concat (map (λ b, positions b.(block_header) 0 b.(block_transactions)) blocks).

Section loop.
Variables (terms : WitnessedLezAssetTermsV2) (target : FinalizedWitnessedAssetTransactionTargetV2)
  (kind : EffectKind) (claim : option PreparedWitnessedClaim).

Definition examined (entry : BlockHeader * Z * IndexedTransaction)
    : result (option Candidate) BridgeRuntimeError :=
  examine runtime terms target kind claim entry.1.1 entry.1.2 entry.2.

Definition no_match (l : list (BlockHeader * Z * IndexedTransaction)) : Prop :=
  Forall (λ entry, examined entry = Ok None) l.

Definition only_match (l : list (BlockHeader * Z * IndexedTransaction)) (c : Candidate) : Prop :=
  ∃ before entry after, l = before ++ entry :: after ∧ examined entry = Ok (Some c) ∧
    no_match before ∧ no_match after.

(** The loop's answer on a list of transactions, from the match it had. *)
Definition progress_ok (l : list (BlockHeader * Z * IndexedTransaction))
    (found : option Candidate) (p : ScanProgress) : Prop :=
  match p, found with
  | Progress_Conflict, _ => True
  | Progress found', Some c => found' = Some c ∧ no_match l
  | Progress found', None =>
      match found' with Some c => only_match l c | None => no_match l end
  end.

Lemma no_match_app l l' : no_match (l ++ l') ↔ no_match l ∧ no_match l'.
Proof. apply Forall_app. Qed.

Lemma only_match_before l l' c : no_match l → only_match l' c → only_match (l ++ l') c.
Proof.
  intros Hl (b&e&a&->&He&Hb&Ha). exists (l ++ b), e, a. rewrite (assoc_L (++)).
  split_and!; try done. by apply no_match_app.
Qed.

Lemma only_match_after l l' c : only_match l c → no_match l' → only_match (l ++ l') c.
Proof.
  intros (b&e&a&->&He&Hb&Ha) Hl. exists b, e, (a ++ l'). rewrite <- (assoc_L (++)).
  split_and!; try done. by apply no_match_app.
Qed.

Lemma scan_transactions_Ok block index transactions found p :
  scan_transactions runtime terms target kind claim block index transactions found = Ok p →
  progress_ok (positions block index transactions) found p.
Proof.
  revert index found.
  induction transactions as [|t ts IH]; intros index found Hs; cbn in Hs.
  { injection Hs as <-. destruct found; [split; [done|]|]; constructor. }
  apply result_bind_Ok in Hs as (e&He&Hs). cbn.
  assert (Hn : e = None → no_match [(block, index, t)]) by (intros ->; by repeat constructor).
  destruct e as [c|]; [destruct found as [c0|]|].
  - by injection Hs as <-.
  - apply IH in Hs. destruct p as [[c'|]|]; cbn in Hs |- *; [|naive_solver|done].
    destruct Hs as [[= ->] Hs]. exists [], (block, index, t), (positions block (index + 1) ts).
    split_and!; [done|exact He|constructor|done].
  - specialize (Hn eq_refl). apply IH in Hs. change (?x :: ?l) with ([x] ++ l).
    destruct p as [[c|]|], found as [c0|]; cbn [progress_ok] in Hs |- *; try done;
      rewrite ?no_match_app; try naive_solver. by apply only_match_before.
Qed.

Lemma scan_blocks_Ok requested_end blocks found p :
  Forall (λ b, b.(block_header).(header_block_id) ≤ requested_end) blocks →
  scan_blocks runtime terms target kind claim requested_end blocks found = Ok p →
  progress_ok (entries blocks) found p.
Proof.
  intros Hle. revert found. induction Hle as [|b blocks Hb Hle IH]; intros found Hs; cbn in Hs.
  { injection Hs as <-. destruct found; [split; [done|]|]; constructor. }
  destruct (Z.ltb_spec requested_end (header_block_id (block_header b))); [lia|].
  apply result_bind_Ok in Hs as (q&Hq&Hs). apply scan_transactions_Ok in Hq.
  unfold entries; cbn; fold (entries blocks).
  destruct q as [found'|]; [|by injection Hs as <-]. apply IH in Hs.
  destruct found as [c0|].
  - cbn in Hq. destruct Hq as [-> Hq], p; cbn in Hs |- *; rewrite ?no_match_app; [|done].
    destruct Hs. by split.
  - destruct found' as [c'|], p as [[c|]|]; cbn in Hq, Hs |- *; try done.
    + destruct Hs as [[= ->] Hs]. by apply only_match_after.
    + by destruct Hs.
    + by apply only_match_before.
    + by apply no_match_app.
Qed.
End loop.

(** The instruction that performs an effect for the terms, written out from
    them: native assets have no custody account to create. *)
Definition agreed_instruction (terms : WitnessedLezAssetTermsV2) (kind : EffectKind)
    : option ZecEscrowInstruction :=
  match terms.(terms_asset) with
  | Asset_Native t =>
      let swap := t.(witnessed_swap_id).(Hex32_as_bytes) in
      match kind with
      | Effect_Initialization =>
          Some (Zec_InitializeNativeWitnessed swap t.(witnessed_terms_hash).(Hex32_as_bytes)
            t.(witnessed_aggregate_x_only_public_key).(Hex32_as_bytes)
            t.(witnessed_amount) t.(witnessed_refund_at_ms)
            (program_id_from_hex t.(witnessed_authenticated_transfer_program_id)))
      | Effect_CustodyCreation => None
      | Effect_Funding => Some (Zec_FundNative swap)
      | Effect_Claim => Some (Zec_ClaimNativeWitnessed swap)
      | Effect_Refund => Some (Zec_RefundNative swap)
      end
  | Asset_CustomToken t =>
      let swap := t.(token_swap_id).(Hex32_as_bytes) in
      match kind with
      | Effect_Initialization =>
          Some (Zec_InitializeTokenWitnessed swap t.(token_terms_hash).(Hex32_as_bytes)
            t.(token_aggregate_x_only_public_key).(Hex32_as_bytes)
            t.(token_amount) t.(token_refund_at_ms) ata_program)
      | Effect_CustodyCreation => Some (Zec_CreateTokenCustody swap)
      | Effect_Funding => Some (Zec_FundToken swap)
      | Effect_Claim => Some (Zec_ClaimTokenWitnessed swap)
      | Effect_Refund => Some (Zec_RefundToken swap)
      end
  end.

Lemma instruction_matches_iff terms kind instruction :
  instruction_matches terms kind instruction = true ↔
  agreed_instruction terms kind = Some instruction.
Proof.
  unfold instruction_matches, agreed_instruction.
  destruct (terms_asset terms), kind, instruction; cbn;
    rewrite ?andb_true_iff, ?bool_decide_eq_true, ?Z.eqb_eq; naive_solver.
Qed.

(** A transaction to the escrow program that carries the effect's instruction
    for the terms, whatever its accounts, signers and message. *)
Definition carries_effect (terms : WitnessedLezAssetTermsV2) (kind : EffectKind)
    (transaction : IndexedPublicTransaction) : Prop :=
  let message := transaction.(indexed_message) in
  message.(message_program_id) = program_id_from_hex runtime.(runtime_escrow_program_id) ∧
  ∃ instruction, instruction_from_slice message.(message_instruction_data) = Some instruction ∧
    agreed_instruction terms kind = Some instruction.

(** A transaction that performs the effect of the terms: it carries its
    instruction and has the agreed accounts, signers and, for a claim,
    transcript. *)
Definition performs (terms : WitnessedLezAssetTermsV2) (kind : EffectKind)
    (claim : option PreparedWitnessedClaim) (transaction : IndexedPublicTransaction) : Prop :=
  let message := transaction.(indexed_message) in
  carries_effect terms kind transaction ∧
  map account_hex message.(message_account_ids)
    = (expected_accounts terms runtime.(runtime_escrow_program_id) kind).(AccountIds_as_slice) ∧
  map (λ w, account_hex (account_id_of_public_key w.2))
    transaction.(indexed_signatures_and_public_keys)
    = (expected_signers terms kind).(AccountIds_as_slice) ∧
  (∀ transcript, claim = Some transcript →
     message_to_vec message = Some transcript.(claim_exact_message_bytes).(MessageBytes_as_slice) ∧
     message_hash message = transcript.(claim_message_hash).(Hex32_as_bytes)).

(** The transactions of a list that a search is for are not there: under an
    exact target none has the transaction's identity, and in a search by terms
    none carries the effect's instruction. *)
Definition not_there (terms : WitnessedLezAssetTermsV2)
    (target : FinalizedWitnessedAssetTransactionTargetV2) (kind : EffectKind)
    (l : list (BlockHeader * Z * IndexedTransaction)) : Prop :=
  match target with
  | Target_Exact exact =>
      ∀ entry, entry ∈ l →
      transaction_hash entry.2 ≠ exact.(prepared_transaction_id).(Hex32_as_bytes)
  | Target_DiscoverByTerms =>
      ∀ header index transaction, (header, index, Transaction_Public transaction) ∈ l →
      ¬ carries_effect terms kind transaction
  end.

(** What the observer reports of it. *)
Definition reported_as (terms : WitnessedLezAssetTermsV2) (kind : EffectKind)
    (header : BlockHeader) (index : Z) (transaction : IndexedPublicTransaction)
    (c : Candidate) : Prop :=
  c.(candidate_transaction).(observed_transaction_id) = account_hex transaction.(indexed_hash) ∧
  c.(candidate_transaction).(observed_position)
    = {| position_block_hash := account_hex header.(header_hash);
         position_height := header.(header_block_id);
         position_transaction_index := index |} ∧
  c.(candidate_transaction).(observed_signer_account_ids) = expected_signers terms kind ∧
  c.(candidate_transaction).(observed_is_public) = true ∧
  c.(candidate_accounts) = expected_accounts terms runtime.(runtime_escrow_program_id) kind ∧
  c.(candidate_block) = header.

Lemma AccountIds_new_Ok l ids : AccountIds_new l = Ok ids → ids = {| AccountIds_as_slice := l |}.
Proof. unfold AccountIds_new. destruct (_ <? _); [done|]. by intros [= <-]. Qed.

Lemma observe_kind_Ok terms kind exact instruction :
  observe_kind terms kind exact instruction = Ok (Some kind) →
  instruction_matches terms kind instruction = true.
Proof.
  unfold observe_kind. destruct (instruction_matches terms kind instruction); [done|].
  destruct exact; [done|]. case_bool_decide; [|done]. cbn. intros Hk. inv_ok Hk.
  bool_props. by injection Hk as ->.
Qed.

Lemma decode_public_Ok indexed public :
  decode_indexed_public indexed = Ok public →
  public = {| public_message := indexed.(indexed_message);
              public_signatures_and_public_keys :=
                indexed.(indexed_signatures_and_public_keys) |}.
Proof. unfold decode_indexed_public. destruct (forallb _ _); [|done]. by intros [= <-]. Qed.

Lemma prepared_Ok public prepared :
  prepared_from_transaction public = Ok prepared →
  prepared.(prepared_transaction_id) = account_hex (public_transaction_hash public).
Proof. unfold prepared_from_transaction. intros Hp. inv_ok Hp. by subst. Qed.

Lemma matches_transcript_Ok claim exact message u :
  matches_transcript claim exact message = Ok u →
  ∀ transcript, claim = Some transcript →
    message_to_vec message = Some transcript.(claim_exact_message_bytes).(MessageBytes_as_slice) ∧
    message_hash message = transcript.(claim_message_hash).(Hex32_as_bytes).
Proof.
  intros Hm t ->. cbn in Hm. inv_ok Hm. apply ok_or_Ok in Hx. bool_props. by subst.
Qed.

Lemma candidate_Ok terms indexed block index kind claim exact c :
  candidate runtime terms indexed block index kind claim exact = Ok (Some c) →
  performs terms kind claim indexed ∧ reported_as terms kind block index indexed c ∧
  (∀ e, exact = Some e →
     c.(candidate_transaction).(observed_transaction_id) = e.(prepared_transaction_id) ∧
     c.(candidate_transaction).(observed_exact_bytes) = e.(prepared_exact_bytes)).
Proof.
  unfold candidate. intros Hc. case_bool_decide as Hprog; cbn in Hc; [|by destruct exact].
  inv_ok Hc. destruct x2 as [observed|]; [|done]. inv_ok Hc.
  case_bool_decide as Hk; cbn in Hc; [subst observed|done]. inv_ok Hc.
  injection Hc as <-. apply or_error_Ok, AccountIds_new_Ok in Hx3, Hx4.
  apply decode_public_Ok in Hx as ->. apply ok_or_Ok in Hx1. apply observe_kind_Ok in Hx2.
  pose proof (matches_transcript_Ok _ _ _ _ Hx5). apply prepared_Ok in Hx0. bool_props. subst.
  unfold performs, carries_effect, reported_as;
    cbn -[expected_accounts expected_signers agreed_instruction] in *. split_and!; try done.
  - eexists. split; [done|]. by apply instruction_matches_iff.
  - by rewrite <- E2.
  - by rewrite <- E3.
  - congruence.
  - destruct (index <=? u32_max); congruence.
  - intros e ->. bool_props. by subst.
Qed.

(** A transaction that is passed over is examined in a search by terms and does
    not carry the effect's instruction: the one asked for exactly is never passed
    over. *)
Lemma candidate_None terms indexed block index kind claim exact :
  candidate runtime terms indexed block index kind claim exact = Ok None →
  exact = None ∧ ¬ carries_effect terms kind indexed.
Proof.
  unfold candidate, carries_effect. intros Hc. case_bool_decide as Hprog; cbn in Hc;
    [|destruct exact; [done|]; split; [done|]; by intros [? _]].
  inv_ok Hc. apply decode_public_Ok in Hx as ->. apply ok_or_Ok in Hx1. cbn in Hx1.
  unfold observe_kind in Hx2. destruct (instruction_matches terms kind x1) eqn:Hm.
  - injection Hx2 as <-. inv_ok Hc. rewrite bool_decide_true in Hc by done. cbn in Hc. by inv_ok Hc.
  - destruct exact; [done|]. split; [done|]. intros (_&i&Hi&Hagreed%instruction_matches_iff).
    congruence.
Qed.

Lemma no_match_not_there terms target kind claim l :
  no_match terms target kind claim l → not_there terms target kind l.
Proof.
  unfold no_match, not_there, examined, examine. rewrite list.Forall_forall. intros Hn.
  destruct target as [exact|].
  - intros entry He Heq. specialize (Hn entry He). rewrite Heq, bool_decide_true in Hn by done.
    cbn in Hn. destruct entry as [[header index] [public|]]; cbn in Hn; [|done].
    by apply candidate_None in Hn as [? _].
  - intros header index t He. by apply Hn in He as [_ ?]%candidate_None.
Qed.

Lemma examine_Ok terms target kind claim header index transaction c :
  examine runtime terms target kind claim header index transaction = Ok (Some c) →
  ∃ public, transaction = Transaction_Public public ∧ performs terms kind claim public ∧
    reported_as terms kind header index public c ∧
    targeted target c.(candidate_transaction).
Proof.
  unfold examine. destruct target as [exact|].
  - case_bool_decide; cbn; [|done]. destruct transaction as [public|]; [|done].
    intros (Hp&Hr&He)%candidate_Ok. exists public. do 3 (split; [done|]). by apply He.
  - destruct transaction as [public|]; [|done]. intros (Hp&Hr&_)%candidate_Ok. by exists public.
Qed.

Section io.
Context {World : Type} {X : FinalizedIndexerApi H World}.

Lemma scan_Ok terms target window kind claim w s w' :
  scan runtime terms target window kind claim w = (Ok s, w') →
  match s with
  | Scan_Found c stable =>
      stable_over window stable ∧
      only_match terms target kind claim (entries stable.(stable_blocks)) c
  | Scan_Missing stable =>
      stable_over window stable ∧
      no_match terms target kind claim (entries stable.(stable_blocks))
  | Scan_Unavailable _ => True
  end.
Proof.
  unfold scan. intros Hr. inv_io Hr. destruct v as [stable|[]]; inv_io Hr; try done.
  apply read_window_Ok in Hv.
  assert (Hle : Forall (λ b, header_block_id (block_header b) ≤ stable_requested_end stable)
                  (stable_blocks stable)).
  { apply list.Forall_forall. intros b Hb. apply (stable_block_range window stable b Hv Hb). }
  match goal with Hx : scan_blocks _ _ _ _ _ _ _ _ = Ok _ |- _ =>
    apply (scan_blocks_Ok _ _ _ _ _ _ _ _ Hle) in Hx end.
  destruct v as [[c|]|]; inv_io Hr; [|done..].
  destruct v as [[]|[]]; inv_io Hr; done.
Qed.

(** C30: a scan answers from a stable window that consists of exactly the
    finalized, hash-linked blocks of the requested heights.  What it reports as
    found is a public transaction of that window to the escrow program that
    performs the effect for the terms, with the instruction the terms determine,
    exactly the agreed accounts and signers and, for a claim, the agreed message,
    reported with its identity and position.  In a search by terms no other
    transaction of the window carries that instruction to the escrow program,
    whatever its accounts and signers, and the scan reports none only if no
    transaction of the window carries it.  In a search for an exact transaction
    the one found is that transaction, no other entry of the window has its
    identity, and the scan reports none only if no entry has it; that other
    transactions perform the effect is then not excluded. *)
Theorem scan_reports_matches terms target window kind claim w s w' :
  scan runtime terms target window kind claim w = (Ok s, w') →
  match s with
  | Scan_Found c stable =>
      stable_over window stable ∧
      ∃ before header index transaction after,
        entries stable.(stable_blocks)
        = before ++ (header, index, Transaction_Public transaction) :: after ∧
        performs terms kind claim transaction ∧
        reported_as terms kind header index transaction c ∧
        targeted target c.(candidate_transaction) ∧
        not_there terms target kind (before ++ after)
  | Scan_Missing stable =>
      stable_over window stable ∧ not_there terms target kind (entries stable.(stable_blocks))
  | Scan_Unavailable _ => True
  end.
Proof.
  intros Hs%scan_Ok. destruct s as [c stable|stable|]; [| |done];
    [|destruct Hs; split; [done|by eapply no_match_not_there]].
  destruct Hs as [Hw (before&[[header index] t]&after&He&(public&Ht&Hp&Hr&Hg)%examine_Ok&Hb&Ha)].
  cbn in Ht. subst t. split; [done|]. exists before, header, index, public, after.
  split_and!; try done. eapply no_match_not_there. by apply no_match_app.
Qed.
End io.
End scanning.

(** ** Program identifiers *)

Lemma low_byte b rest : byte_of_Z (Z_of_byte b + 256 * rest) = b.
Proof.
  rewrite <- (byte_of_Z_of_byte b) at 2. unfold byte_of_Z.
  by rewrite Z.mul_comm, Z_mod_plus_full.
Qed.

Lemma le_bytes_roundtrip a b c d : u32_to_le_bytes (u32_from_le_bytes [a; b; c; d]) = [a; b; c; d].
Proof.
  pose proof (Z_of_byte_range a). pose proof (Z_of_byte_range b). pose proof (Z_of_byte_range c).
  unfold u32_to_le_bytes; cbn [u32_from_le_bytes map].
  rewrite <- (Z.div_unique (Z_of_byte a + 256 * (Z_of_byte b + 256 * (Z_of_byte c
     + 256 * (Z_of_byte d + 256 * 0)))) 256 (Z_of_byte b + 256 * (Z_of_byte c
     + 256 * (Z_of_byte d + 256 * 0))) (Z_of_byte a)) by lia.
  rewrite <- (Z.div_unique _ 65536 (Z_of_byte c + 256 * (Z_of_byte d + 256 * 0))
     (Z_of_byte a + 256 * Z_of_byte b)) by lia.
  rewrite <- (Z.div_unique _ 16777216 (Z_of_byte d + 256 * 0)
     (Z_of_byte a + 256 * (Z_of_byte b + 256 * Z_of_byte c))) by lia.
  by rewrite !low_byte.
Qed.

(** A program identifier survives its two forms. *)
Lemma words_roundtrip n value :
  length value = (4 * n)%nat → concat (map u32_to_le_bytes (words_from_le_bytes n value)) = value.
Proof.
  revert value. induction n as [|n IH]; intros value Hl; [by destruct value|].
  destruct value as [|a [|b [|c [|d value]]]]; cbn in Hl; try lia.
  change (words_from_le_bytes (S n) (a :: b :: c :: d :: value))
    with (u32_from_le_bytes [a; b; c; d] :: words_from_le_bytes n value).
  cbn [map concat]. rewrite le_bytes_roundtrip, IH; [done|lia].
Qed.

Lemma program_id_roundtrip value :
  length value.(Hex32_as_bytes) = 32%nat → program_id_to_hex (program_id_from_hex value) = value.
Proof.
  intros Hl. unfold program_id_to_hex, program_id_from_hex.
  rewrite words_roundtrip by done. by destruct value.
Qed.

(** ** Reading accounts *)

Section reading.
Context {H : EscrowHost} {R : LeeRuntime H}.
Variable runtime : RuntimeDescriptor.

(** The addresses and transfers the terms fix. *)
Definition custody_of (terms : WitnessedLezAssetTermsV2) : AccountId :=
  match terms.(terms_asset) with
  | Asset_Native native =>
      compute_custody_pda (program_id_from_hex runtime.(runtime_escrow_program_id))
        native.(witnessed_swap_id).(Hex32_as_bytes)
  | Asset_CustomToken token => token.(token_custody_ata_account_id).(Hex32_as_bytes)
  end.

Definition agreed_claim (terms : WitnessedLezAssetTermsV2) : Transfer :=
  {| transfer_from := custody_of terms;
     transfer_to :=
       match terms.(terms_asset) with
       | Asset_Native native => native.(witnessed_claimant_account_id).(Hex32_as_bytes)
       | Asset_CustomToken token => token.(token_claimant_ata_account_id).(Hex32_as_bytes)
       end;
     transfer_amount := terms_amount terms |}.

Definition agreed_refund (terms : WitnessedLezAssetTermsV2) : Transfer :=
  {| transfer_from := custody_of terms;
     transfer_to :=
       match terms.(terms_asset) with
       | Asset_Native native => native.(witnessed_depositor_account_id).(Hex32_as_bytes)
       | Asset_CustomToken token => token.(token_depositor_ata_account_id).(Hex32_as_bytes)
       end;
     transfer_amount := terms_amount terms |}.

Definition agreed_refund_at (terms : WitnessedLezAssetTermsV2) : Z :=
  match terms.(terms_asset) with
  | Asset_Native native => native.(witnessed_refund_at_ms)
  | Asset_CustomToken token => token.(token_refund_at_ms)
  end.

(** The metadata of an escrow under the terms. *)
Definition metadata_agrees (terms : WitnessedLezAssetTermsV2) (m : EscrowMetadata) : Prop :=
  to_claimant m = agreed_claim terms ∧ to_depositor m = agreed_refund terms ∧
  m.(meta_refund_at) = agreed_refund_at terms ∧
  ∃ key, m.(meta_claim_authority)
         = AggregateWitness key (claim_authority_of terms).(Hex32_as_bytes).

Lemma account_hex_bytes value : account_hex value.(Hex32_as_bytes) = value.
Proof. by destruct value. Qed.

Lemma check_metadata_Ok terms state account facts custody :
  check_metadata runtime terms state account = Ok (facts, custody) →
  (∃ m, metadata_try_from_slice account.(data) = Some m ∧
     escrow_state m.(meta_status) = Ok state ∧ metadata_agrees terms m) ∧
  custody = account_hex (custody_of terms) ∧
  ∀ balance,
    facts = (asset_facts terms
               (account_hex (metadata_pda runtime.(runtime_escrow_program_id) terms))
               runtime.(runtime_escrow_program_id) custody state balance).1.
Proof.
  unfold check_metadata. intros Hc. inv_ok Hc. apply ok_or_Ok in Hx. bool_props. subst x0.
  unfold metadata_agrees, agreed_claim, agreed_refund, agreed_refund_at, custody_of,
    claim_authority_of, terms_amount, asset_facts, to_claimant, to_depositor.
  destruct (terms_asset terms) as [t|t], (meta_claim_authority x) as [|key authority|] eqn:Ha;
    try done; inv_ok Hc; injection Hc as <- <-; bool_props;
    [unfold native_metadata_matches in *|unfold token_metadata_matches in *]; bool_props;
    (split; [|split; [by rewrite ?account_hex_bytes|done]]); exists x;
    do 2 (split; [done|]);
    (split_and!; [f_equal; congruence|f_equal; congruence|congruence|]); subst; by eexists.
Qed.

Section io.
Context {World : Type} {X : FinalizedIndexerApi H World}.

(** Some call of the indexer answered so. *)
Definition answered {A : Type} (m : Io World A) (a : A) : Prop := ∃ w w', m w = (Ok a, w').

Lemma try_join_Ok {A B C : Type} (a : Io World A) (b : Io World B) (c : Io World C) w x y z w' :
  try_join a b c w = (Ok (x, y, z), w') → answered a x ∧ answered b y ∧ answered c z.
Proof.
  unfold try_join, answered. destruct (join_order w) as [[] w0]; intros Hr;
    repeat (apply io_bind_Ok in Hr as (?&?&?&Hr)); injection Hr as <- <- <- <-; eauto 10.
Qed.

(** The account at the escrow's metadata address shows the terms in a state. *)
Definition shows (terms : WitnessedLezAssetTermsV2) (block_id : Z) (state : EscrowState) : Prop :=
  ∃ account m,
    answered (account_at_block (metadata_pda runtime.(runtime_escrow_program_id) terms) block_id)
      (Account_Present account) ∧
    metadata_try_from_slice account.(data) = Some m ∧
    escrow_state m.(meta_status) = Ok state ∧ metadata_agrees terms m.

Lemma require_present_Ok a account :
  require_present a = Ok account → a = Account_Present account.
Proof. destruct a; [done|]. by intros [= <-]. Qed.

Lemma observe_metadata_Ok terms block_id state facts custody :
  answered (observe_metadata runtime terms block_id state) (facts, custody) →
  shows terms block_id state ∧ custody = account_hex (custody_of terms) ∧
  ∀ balance,
    facts = (asset_facts terms
               (account_hex (metadata_pda runtime.(runtime_escrow_program_id) terms))
               runtime.(runtime_escrow_program_id) custody state balance).1.
Proof.
  intros (w&w'&Hr). unfold observe_metadata in Hr. inv_io Hr.
  apply require_present_Ok in Hv0 as ->.
  apply check_metadata_Ok in Hr as ((m&?&?&?)&?&?). split; [|done].
  exists v0, m. split_and!; try done. by eexists _, _.
Qed.

(** The facts of the observer are the facts of the protocol. *)
Definition observed_facts (terms : WitnessedLezAssetTermsV2) (state : EscrowState) (balance : Z)
    : WitnessedEscrowMetadataFacts * WitnessedAssetCustodyFactsV2 :=
  asset_facts terms (account_hex (metadata_pda runtime.(runtime_escrow_program_id) terms))
    runtime.(runtime_escrow_program_id) (account_hex (custody_of terms)) state
    (NativeAmount_new balance).

Definition transfer_program_typed (terms : WitnessedLezAssetTermsV2) : Prop :=
  match terms.(terms_asset) with
  | Asset_Native native =>
      length native.(witnessed_authenticated_transfer_program_id).(Hex32_as_bytes) = 32%nat
  | Asset_CustomToken _ => True
  end.

Lemma read_asset_state_Ok terms block_id state balance w metadata custody w' :
  read_asset_state runtime terms block_id state balance w = (Ok (metadata, custody), w') →
  shows terms block_id state ∧
  (transfer_program_typed terms → (metadata, custody) = observed_facts terms state balance) ∧
  metadata.(facts_status) = state.
Proof.
  assert (Hstatus : ∀ m p c b, facts_status (asset_facts terms m p c state b).1 = state).
  { intros. unfold asset_facts. by destruct (terms_asset terms). }
  unfold read_asset_state, observed_facts, transfer_program_typed.
  destruct (terms_asset terms) as [native|token] eqn:Ht; intros Hr.
  - apply io_bind_Ok in Hr as ([facts custody_id]&w1&Hm&Hr). inv_io Hr.
    destruct (observe_metadata_Ok terms block_id state facts custody_id) as (Hs&->&Hf);
      [by eexists _, _|]. split; [done|]. split; [|by rewrite (Hf (NativeAmount_new balance))].
    intros Hl. rewrite (Hf (NativeAmount_new balance)). unfold asset_facts. rewrite Ht. cbn.
    match goal with Hx : check_native_custody _ _ _ _ = Ok _ |- _ =>
      unfold check_native_custody in Hx; inv_ok Hx end.
    bool_props. subst. f_equal. unfold NativeCustodyFacts_new. repeat f_equal.
    match goal with Hx : program_owner _ = _ |- _ => rewrite Hx end. by apply program_id_roundtrip.
  - apply io_bind_Ok in Hr as ([facts holding]&w1&Hm&Hr). inv_io Hr. unfold read_token_accounts in Hm.
    apply io_bind_Ok in Hm as ([[[f c] u] hc]&w2&Hj&Hm). inv_io Hm.
    apply try_join_Ok in Hj as (Hj&_). destruct (observe_metadata_Ok _ _ _ _ _ Hj) as (Hs&->&Hf).
    split; [done|]. split; [|by rewrite (Hf (NativeAmount_new balance))].
    intros _. rewrite (Hf (NativeAmount_new balance)).
    unfold asset_facts. rewrite Ht. cbn.
    match goal with Hx : check_token_custody _ _ _ = Ok _ |- _ =>
      unfold check_token_custody in Hx; inv_ok Hx end.
    match goal with Hx : match holding_fungible ?h with _ => _ end = _ |- _ =>
      destruct (holding_fungible h); [|done]; inv_ok Hx end.
    bool_props. by subst.
Qed.

Definition initial_custody (terms : WitnessedLezAssetTermsV2)
    : WitnessedAssetInitializationCustodyFactsV2 :=
  match terms.(terms_asset) with
  | Asset_Native native =>
      InitialCustody_Native
        (NativeCustodyFacts_new (account_hex (custody_of terms))
           native.(witnessed_authenticated_transfer_program_id) 0)
  | Asset_CustomToken token =>
      InitialCustody_CustomTokenAtaAbsent token.(token_custody_ata_account_id)
  end.

Lemma read_initialization_state_Ok terms block_id w metadata custody w' :
  read_initialization_state runtime terms block_id w = (Ok (metadata, custody), w') →
  shows terms block_id State_Empty ∧
  (transfer_program_typed terms →
   metadata = (observed_facts terms State_Empty 0).1 ∧
   custody = initial_custody terms).
Proof.
  unfold read_initialization_state, initial_custody.
  destruct (terms_asset terms) as [native|token] eqn:Ht; intros Hr.
  - apply io_bind_Ok in Hr as ([facts c]&w1&Hm&Hr).
    apply read_asset_state_Ok in Hm as (Hs&Hf&_). destruct c as [c|]; inv_io Hr. split; [done|].
    intros Hl. specialize (Hf Hl). unfold observed_facts, asset_facts in *. rewrite Ht in *.
    injection Hf as -> ->. done.
  - apply io_bind_Ok in Hr as ([facts holding]&w1&Hm&Hr). unfold read_token_accounts in Hm.
    apply io_bind_Ok in Hm as ([[[f c] u] hc]&w2&Hj&Hm). inv_io Hm.
    apply try_join_Ok in Hj as (Hj&_). destruct (observe_metadata_Ok _ _ _ _ _ Hj) as (Hs&->&Hf).
    destruct hc; inv_io Hr. split; [done|]. intros _. split; [apply Hf|done].
Qed.
End io.
End reading.

(** ** The observer and the protocol agree *)

Section agreement.
Context {H : EscrowHost} {R : LeeRuntime H} {World : Type} {X : FinalizedIndexerApi H World}.
Variable runtime : RuntimeDescriptor.

Lemma positions_elem header index transactions entry :
  entry ∈ positions header index transactions → entry.1.1 = header.
Proof.
  revert index. induction transactions as [|t ts IH]; intros index; cbn.
  - by intros ?%elem_of_nil.
  - intros [->|Hin]%elem_of_cons; [done|]. by eapply IH.
Qed.

Lemma entries_elem blocks entry :
  entry ∈ entries blocks → ∃ b, b ∈ blocks ∧ entry.1.1 = b.(block_header).
Proof.
  induction blocks as [|b blocks IH]; unfold entries; cbn.
  - by intros ?%elem_of_nil.
  - fold (entries blocks). intros [Hin|(b'&?&?)%IH]%elem_of_app.
    + exists b. split; [left|]. by eapply positions_elem.
    + exists b'. by split; [right|].
Qed.

(** What a found transaction reports. *)
Lemma found_Ok terms target window kind claim w c stable w' :
  scan runtime terms target window kind claim w = (Ok (Scan_Found c stable), w') →
  c.(candidate_block).(header_timestamp) ≤ stable.(stable_finalized_clock).(clock_timestamp_ms) →
  placed c.(candidate_transaction) (containing_block c.(candidate_block))
    stable.(stable_finalized_clock) window ∧
  targeted target c.(candidate_transaction) ∧
  c.(candidate_transaction).(observed_signer_account_ids) = expected_signers terms kind ∧
  c.(candidate_accounts) = expected_accounts terms runtime.(runtime_escrow_program_id) kind.
Proof.
  intros [Hw (before&[[header index] t]&after&He&Hex&_)]%scan_Ok Htime.
  apply examine_Ok in Hex as (public&Htx&_&(_&Hpos&Hsig&Hpub&Hacc&Hblk)&Ht).
  cbn in Htx, Hpos, Hblk. subst t.
  split_and!; try done. unfold placed. rewrite Hpos, Hpub, Hblk in *. cbn.
  destruct (entries_elem stable.(stable_blocks) (header, index, Transaction_Public public))
    as (b&Hb&Hh); [rewrite He; set_solver|]. cbn in Hh. subst header.
  pose proof (stable_block_range window stable b Hw Hb) as Hrange.
  destruct Hw as (Hall&_&Hend&_&Hlast&[Htip _]&Hclk). rewrite Hclk in *. cbn in *.
  assert (1 ≤ window_max_blocks window).
  { destruct (Z.le_gt_cases 1 (window_max_blocks window)); [done|].
    apply Forall2_length in Hall. rewrite length_seqZ in Hall.
    destruct (stable_blocks stable); [done|]. cbn in Hall. lia. }
  unfold window_end_height. split_and!; try done; rewrite ?Hh; lia.
Qed.

Lemma swap_id_facts terms metadata custody m p c status balance :
  (metadata, custody) = asset_facts terms m p c status balance →
  metadata.(facts_swap_id) = terms_swap_id terms.
Proof. unfold asset_facts, terms_swap_id. by destruct (terms_asset terms); intros [= -> ->]. Qed.

Definition kind_of_step (step : WitnessedAssetPrepareStepV2) : EffectKind :=
  match step with
  | InitializeWitnessed => Effect_Initialization
  | CreateCustodyAta => Effect_CustodyCreation
  | Fund => Effect_Funding
  end.

Lemma expected_effect_accounts terms step :
  (expected_accounts terms runtime.(runtime_escrow_program_id) (kind_of_step step))
    .(AccountIds_as_slice)
  = effect_accounts terms step
      (account_hex (metadata_pda runtime.(runtime_escrow_program_id) terms))
      (account_hex (custody_of runtime terms)).
Proof.
  unfold expected_accounts, effect_accounts, custody_of.
  by destruct (terms_asset terms), step.
Qed.

Lemma expected_claim_accounts terms :
  (expected_accounts terms runtime.(runtime_escrow_program_id) Effect_Claim).(AccountIds_as_slice)
  = claim_accounts terms
      (account_hex (metadata_pda runtime.(runtime_escrow_program_id) terms))
      (account_hex (custody_of runtime terms)).
Proof. unfold expected_accounts, claim_accounts, custody_of. by destruct (terms_asset terms). Qed.

Lemma expected_claim_signers terms :
  expected_signers terms Effect_Claim = {| AccountIds_as_slice := [claim_authority_of terms] |}.
Proof. unfold expected_signers, claim_authority_of. by destruct (terms_asset terms). Qed.

Lemma expected_depositor_signers terms step :
  step ≠ CreateCustodyAta →
  expected_signers terms (kind_of_step step) = {| AccountIds_as_slice := [depositor_of terms] |}.
Proof. unfold expected_signers, depositor_of. by destruct (terms_asset terms), step. Qed.

Section reports.
Variables (context : MessageContext) (terms : WitnessedLezAssetTermsV2)
  (target : FinalizedWitnessedAssetTransactionTargetV2) (window : DiscoveryWindow)
  (c : Candidate) (stable : StableFinalizedWindow).
Hypotheses (Htyped : transfer_program_typed terms)
  (Htime : c.(candidate_block).(header_timestamp)
           ≤ stable.(stable_finalized_clock).(clock_timestamp_ms)).

Lemma claim_report_accepted claim w w1 w2 w3 metadata custody signature :
  scan runtime terms target window Effect_Claim (Some claim) w = (Ok (Scan_Found c stable), w1) →
  read_asset_state runtime terms c.(candidate_block).(header_block_id) State_Claimed 0 w2
    = (Ok (metadata, custody), w3) →
  is_ok (claim_found context terms claim target stable.(stable_finalized_clock) window
           (claim_facts runtime terms claim c signature metadata custody)) = true.
Proof.
  intros (Hpl&Hta&Hsig&Hacc)%found_Ok (_&Hst&_)%read_asset_state_Ok; [|done].
  specialize (Hst Htyped). unfold observed_facts in Hst.
  destruct (asset_facts_fields _ _ _ _ _ _ _ _ Hst) as (Hid&Hprog&Hca&_).
  unfold claim_found.
  assert (validate_claim_classification_result (claim_result context terms claim target
    (Outcome_Found stable.(stable_finalized_clock) window
       (claim_facts runtime terms claim c signature metadata custody))) = Ok tt) as ->; [|done].
  cbn [validate_claim_classification_result claim_result claim_outcome claim_target claim_terms
       claim_claim].
  rewrite placement_Ok, target_Ok, state_Ok, claim_facts_Ok, ensure_bind_Ok, bool_decide_eq_true,
    authority_signer_Ok. cbn [claim_facts claim_transaction claim_containing_block claim_metadata
      claim_custody claim_instruction claim_program_id claim_swap_id claim_ordered_account_ids
      claim_transcript].
  rewrite Hid, Hprog, Hsig, Hacc, Hca. split_and!; try done.
  - by eexists.
  - by rewrite (swap_id_facts _ _ _ _ _ _ _ _ Hst).
  - apply expected_claim_accounts.
  - apply expected_claim_signers.
Qed.

Lemma funding_report_accepted w w1 w2 w3 metadata custody :
  scan runtime terms target window Effect_Funding None w = (Ok (Scan_Found c stable), w1) →
  read_asset_state runtime terms c.(candidate_block).(header_block_id) State_Funded
    (terms_amount terms) w2 = (Ok (metadata, custody), w3) →
  is_ok (funding_found context terms target stable.(stable_finalized_clock) window
           (funding_facts runtime terms c metadata custody)) = true.
Proof.
  intros (Hpl&Hta&Hsig&Hacc)%found_Ok (_&Hst&_)%read_asset_state_Ok; [|done].
  specialize (Hst Htyped). unfold observed_facts in Hst.
  destruct (asset_facts_fields _ _ _ _ _ _ _ _ Hst) as (Hid&Hprog&_&Hea).
  unfold funding_found.
  assert (validate_funding_result (funding_result context terms target
    (Outcome_Found stable.(stable_finalized_clock) window
       (funding_facts runtime terms c metadata custody))) = Ok tt) as ->; [|done].
  cbn [validate_funding_result funding_result funding_outcome funding_target funding_terms].
  rewrite placement_Ok, target_Ok, state_Ok, effect_instruction_Ok, depositor_signer_Ok by done.
  cbn [funding_facts funding_transaction funding_containing_block funding_metadata funding_custody
       funding_instruction effect_instruction effect_step effect_program_id effect_swap_id
       effect_ordered_account_ids].
  rewrite Hid, Hprog, Hsig, Hacc, Hea. split_and!; try done.
  - exists (account_hex (custody_of runtime terms)). rewrite Hst. f_equal.
    unfold asset_amount, terms_amount. by destruct (terms_asset terms).
  - by rewrite (swap_id_facts _ _ _ _ _ _ _ _ Hst).
  - apply (expected_effect_accounts terms Fund).
  - by apply (expected_depositor_signers terms Fund).
Qed.

Lemma initial_state_accepted metadata custody :
  metadata = (observed_facts runtime terms State_Empty 0).1 →
  custody = initial_custody runtime terms →
  validate_initialization_state terms (initialization_facts runtime terms c metadata custody)
  = Ok tt.
Proof.
  intros -> ->. unfold validate_initialization_state.
  cbn [initialization_facts init_custody init_metadata].
  assert (Hok : validate_asset_state terms (observed_facts runtime terms State_Empty 0).1
    (observed_facts runtime terms State_Empty 0).2 (Some State_Empty) (Some (NativeAmount_new 0))
    = Ok tt).
  { apply asset_state_accepted_iff. exists (account_hex (custody_of runtime terms)).
    unfold observed_facts, asset_facts. by destruct (terms_asset terms). }
  unfold initial_custody, observed_facts, asset_facts in *.
  destruct (terms_asset terms) as [native|token]; [exact Hok|]. rewrite bool_decide_true by done.
  by apply asset_state_any_balance with (NativeAmount_new 0).
Qed.

Lemma initialization_report_accepted w w1 w2 w3 metadata custody :
  scan runtime terms target window Effect_Initialization None w = (Ok (Scan_Found c stable), w1) →
  read_initialization_state runtime terms c.(candidate_block).(header_block_id) w2
    = (Ok (metadata, custody), w3) →
  is_ok (initialization_found context terms target stable.(stable_finalized_clock) window
           (initialization_facts runtime terms c metadata custody)) = true.
Proof.
  intros (Hpl&Hta&Hsig&Hacc)%found_Ok [_ Hst]%read_initialization_state_Ok; [|done].
  destruct (Hst Htyped) as [Hm Hc].
  destruct (asset_facts_fields terms metadata (observed_facts runtime terms State_Empty 0).2
    (account_hex (metadata_pda runtime.(runtime_escrow_program_id) terms))
    runtime.(runtime_escrow_program_id) (account_hex (custody_of runtime terms)) State_Empty
    (NativeAmount_new 0)) as (Hid&Hprog&_&Hea);
    [rewrite Hm; apply symmetry, surjective_pairing|].
  unfold initialization_found.
  assert (validate_initialization_result (initialization_result context terms target
    (Outcome_Found stable.(stable_finalized_clock) window
       (initialization_facts runtime terms c metadata custody))) = Ok tt) as ->; [|done].
  cbn [validate_initialization_result initialization_result initialization_outcome
       initialization_target initialization_terms].
  rewrite placement_Ok, target_Ok, (initial_state_accepted _ _ Hm Hc).
  cbn [result_bind]. rewrite effect_instruction_Ok, depositor_signer_Ok by done.
  cbn [initialization_facts init_transaction init_containing_block init_metadata init_custody
       init_instruction effect_instruction effect_step effect_program_id effect_swap_id
       effect_ordered_account_ids].
  rewrite Hid, Hprog, Hsig, Hacc, Hea. split_and!; try done.
  - rewrite Hm. unfold observed_facts, asset_facts, terms_swap_id. by destruct (terms_asset terms).
  - apply (expected_effect_accounts terms InitializeWitnessed).
  - by apply (expected_depositor_signers terms InitializeWitnessed).
Qed.

Lemma creation_report_accepted token w w1 w2 w3 metadata custody :
  terms.(terms_asset) = Asset_CustomToken token →
  scan runtime terms target window Effect_CustodyCreation None w
    = (Ok (Scan_Found c stable), w1) →
  read_asset_state runtime terms c.(candidate_block).(header_block_id) State_Empty 0 w2
    = (Ok (metadata, Custody_CustomToken custody), w3) →
  is_ok (creation_found context terms target stable.(stable_finalized_clock) window
           (creation_facts runtime terms c metadata custody)) = true.
Proof.
  intros Ht (Hpl&Hta&Hsig&Hacc)%found_Ok (_&Hst&_)%read_asset_state_Ok; [|done].
  specialize (Hst Htyped). unfold observed_facts in Hst.
  destruct (asset_facts_fields _ _ _ _ _ _ _ _ Hst) as (Hid&Hprog&_&Hea).
  unfold creation_found.
  assert (validate_custody_creation_result (custody_creation_result context terms target
    (Outcome_Found stable.(stable_finalized_clock) window
       (creation_facts runtime terms c metadata custody))) = Ok tt) as ->; [|done].
  unfold validate_custody_creation_result, ensure_custom_token_terms.
  cbn [custody_creation_result creation_outcome creation_target creation_terms]. rewrite Ht at 1.
  cbn [ensure result_bind].
  rewrite placement_Ok, target_Ok, state_Ok, effect_instruction_Ok by (rewrite Ht; done).
  cbn [creation_facts creation_transaction creation_containing_block creation_metadata
       creation_custody creation_instruction effect_instruction effect_step effect_program_id
       effect_swap_id effect_ordered_account_ids].
  rewrite Hid, Hprog, Hsig, Hacc, Hea, ensure_Ok, bool_decide_eq_true. split_and!; try done.
  - by eexists.
  - by rewrite (swap_id_facts _ _ _ _ _ _ _ _ Hst).
  - unfold expected_signers. by destruct (terms_asset terms).
Qed.
End reports.

(** The observer never rejects what it has itself read: once a scan has found
    a transaction and the escrow's accounts were read in the state that belongs
    to the effect, the report passes the protocol's validation, for each of the
    four classified effects, provided only that the containing block is not
    younger than the end of the window. *)
Theorem observer_reports_accepted context terms target window c stable :
  transfer_program_typed terms →
  c.(candidate_block).(header_timestamp) ≤ stable.(stable_finalized_clock).(clock_timestamp_ms) →
  let block_id := c.(candidate_block).(header_block_id) in
  let clock := stable.(stable_finalized_clock) in
  let finds kind claim :=
    answered (scan runtime terms target window kind claim) (Scan_Found c stable) in
  let reads state balance := answered (read_asset_state runtime terms block_id state balance) in
  (∀ metadata custody,
     finds Effect_Initialization None →
     answered (read_initialization_state runtime terms block_id) (metadata, custody) →
     is_ok (initialization_found context terms target clock window
              (initialization_facts runtime terms c metadata custody)) = true) ∧
  (∀ token metadata custody,
     terms.(terms_asset) = Asset_CustomToken token →
     finds Effect_CustodyCreation None →
     reads State_Empty 0 (metadata, Custody_CustomToken custody) →
     is_ok (creation_found context terms target clock window
              (creation_facts runtime terms c metadata custody)) = true) ∧
  (∀ metadata custody,
     finds Effect_Funding None →
     reads State_Funded (terms_amount terms) (metadata, custody) →
     is_ok (funding_found context terms target clock window
              (funding_facts runtime terms c metadata custody)) = true) ∧
  (∀ claim signature metadata custody,
     finds Effect_Claim (Some claim) → reads State_Claimed 0 (metadata, custody) →
     is_ok (claim_found context terms claim target clock window
              (claim_facts runtime terms claim c signature metadata custody)) = true).
Proof.
  intros Hty Htime. split_and!.
  - intros ?? (?&?&?) (?&?&?). by eapply initialization_report_accepted.
  - intros ???? (?&?&?) (?&?&?). by eapply creation_report_accepted.
  - intros ?? (?&?&?) (?&?&?). by eapply funding_report_accepted.
  - intros ???? (?&?&?) (?&?&?). by eapply claim_report_accepted.
Qed.
End agreement.

(** ** What an answer shows *)

Section answers.
Context {H : EscrowHost} {R : LeeRuntime H} {World : Type} {X : FinalizedIndexerApi H World}.
Variable runtime : RuntimeDescriptor.

Lemma requested_end_clock_Ok stable clock :
  requested_end_clock stable = Ok clock → clock.(clock_height) = stable.(stable_requested_end).
Proof.
  unfold requested_end_clock, stable_block. intros Hc. inv_ok Hc. apply ok_or_Ok in Hx.
  apply find_block_Some in Hx as [_ Hid]. by subst clock.
Qed.

(** What the state at the end of a window shows if it proves absence. *)
Definition absence_shown (terms : WitnessedLezAssetTermsV2) (kind : EffectKind) (tip : Z) : Prop :=
  match kind with
  | Effect_Initialization =>
      answered (account_at_block (metadata_pda runtime.(runtime_escrow_program_id) terms) tip)
        Account_Absent
  | Effect_CustodyCreation | Effect_Funding => shows runtime terms tip State_Empty
  | Effect_Claim => shows runtime terms tip State_Funded
  | Effect_Refund => False
  end.

Lemma state_proves_absence_Ok terms kind tip w w' :
  state_proves_absence runtime terms kind tip w = (Ok (Ok true), w') → absence_shown terms kind tip.
Proof.
  unfold state_proves_absence, absence_shown. intros Hr. destruct kind; inv_io Hr.
  - destruct v as [[]|]; try done. by eexists _, _.
  - destruct v as [[]|[]]; try done. by eapply read_initialization_state_Ok.
  - destruct v as [[]|[]]; try done. by eapply read_asset_state_Ok.
  - destruct v as [[]|[]]; try done. by eapply read_asset_state_Ok.
  - done.
Qed.

Lemma missing_absent_Ok terms kind stable w w' :
  classify_missing_effect runtime terms kind stable w = (Ok Missing_Absent, w') →
  absence_shown terms kind stable.(stable_requested_end).
Proof.
  unfold classify_missing_effect. intros Hr. apply io_bind_Ok in Hr as (p&w1&Hp&Hr).
  destruct p as [[]|e]; [|by inv_io Hr|by destruct e].
  by eapply state_proves_absence_Ok.
Qed.

(** ** The handlers *)

Lemma classify_claim_Ok request w r w' :
  classify_claim runtime request w = (Ok r, w') →
  match r.(claim_outcome) with
  | Outcome_Found _ _ facts =>
      shows runtime request.(claim_request_terms)
        facts.(claim_containing_block).(identity_block_id) State_Claimed
  | Outcome_Absent clock _ =>
      shows runtime request.(claim_request_terms) clock.(clock_height) State_Funded
  | _ => True
  end.
Proof.
  unfold classify_claim. intros Hr.
  apply io_bind_Ok in Hr as (?&?&_&Hr). apply io_bind_Ok in Hr as (?&?&_&Hr).
  apply io_bind_Ok in Hr as ([c stable|stable|reason]&?&Hs&Hr).
  - apply io_bind_Ok in Hr as ([metadata custody]&?&Hst&Hr).
    apply read_asset_state_Ok in Hst as [Hst _]. inv_io Hr.
    destruct v; inv_io Hr; [by subst|].
    destruct (public_signatures_and_public_keys _) as [|[signature key] []]; inv_io Hr; try done.
    unfold claim_found in Hr. inv_ok Hr. by subst r.
  - inv_io Hr. apply requested_end_clock_Ok in Hv. destruct v0; inv_io Hr.
    + unfold claim_absent in Hr. inv_ok Hr. subst r. cbn. rewrite Hv.
      by eapply (missing_absent_Ok _ Effect_Claim).
    + unfold claim_uncertain in Hr. inv_ok Hr. by subst r.
    + by subst.
  - inv_io Hr. by subst.
Qed.

Lemma classify_funding_Ok request w r w' :
  classify_funding runtime request w = (Ok r, w') →
  match r.(funding_outcome) with
  | Outcome_Found _ _ facts =>
      shows runtime request.(funding_request_terms)
        facts.(funding_containing_block).(identity_block_id) State_Funded
  | Outcome_Absent clock _ =>
      shows runtime request.(funding_request_terms) clock.(clock_height) State_Empty
  | _ => True
  end.
Proof.
  unfold classify_funding. intros Hr. apply io_bind_Ok in Hr as (?&?&_&Hr).
  apply io_bind_Ok in Hr as ([c stable|stable|reason]&?&Hs&Hr).
  - apply io_bind_Ok in Hr as ([metadata custody]&?&Hst&Hr).
    apply read_asset_state_Ok in Hst as [Hst _]. inv_io Hr.
    destruct v; inv_io Hr; [by subst|]. unfold funding_found in Hr. inv_ok Hr. by subst r.
  - inv_io Hr. apply requested_end_clock_Ok in Hv. destruct v0; inv_io Hr.
    + unfold funding_absent in Hr. inv_ok Hr. subst r. cbn. rewrite Hv.
      by eapply (missing_absent_Ok _ Effect_Funding).
    + unfold funding_uncertain in Hr. inv_ok Hr. by subst r.
    + by subst.
  - inv_io Hr. by subst.
Qed.

Lemma classify_initialization_absent request w r w' clock window :
  classify_initialization runtime request w = (Ok r, w') →
  r.(initialization_outcome) = Outcome_Absent clock window →
  answered
    (account_at_block
       (metadata_pda runtime.(runtime_escrow_program_id) request.(initialization_request_terms))
       clock.(clock_height)) Account_Absent.
Proof.
  unfold classify_initialization. intros Hr Ho. apply io_bind_Ok in Hr as (?&?&_&Hr).
  apply io_bind_Ok in Hr as ([c stable|stable|reason]&?&Hs&Hr).
  - apply io_bind_Ok in Hr as ([metadata custody]&?&_&Hr). inv_io Hr.
    destruct v; inv_io Hr; [by subst|]. unfold initialization_found in Hr. inv_ok Hr. by subst r.
  - inv_io Hr. apply requested_end_clock_Ok in Hv. destruct v0; inv_io Hr.
    + unfold initialization_absent in Hr. inv_ok Hr. subst r. injection Ho as -> _. rewrite Hv.
      by eapply (missing_absent_Ok _ Effect_Initialization).
    + unfold initialization_uncertain in Hr. inv_ok Hr. by subst r.
    + by subst.
  - inv_io Hr. by subst.
Qed.

(** The clock of a stable window is its last block's. *)
Lemma stable_tip_Ok terms window stable w clock metadata custody w' :
  stable_over window stable →
  read_asset_state_at_stable_tip runtime terms stable w = (Ok (clock, metadata, custody), w') →
  shows runtime terms clock.(clock_height) metadata.(facts_status).
Proof.
  intros (_&_&_&_&_&_&Hclk) Hr. unfold read_asset_state_at_stable_tip in Hr.
  apply io_bind_Ok in Hr as (state&?&_&Hr). apply io_bind_Ok in Hr as ([m c]&?&Hst&Hr).
  apply read_asset_state_Ok in Hst as (Hst&_&Hm). apply io_bind_Ok in Hr as (?&?&_&Hr).
  injection Hr as <- <- <- <-. by rewrite Hclk, Hm.
Qed.

Lemma read_latest_Ok terms w clock metadata custody w' :
  read_latest_asset_state runtime terms w = (Ok (clock, metadata, custody), w') →
  shows runtime terms clock.(clock_height) metadata.(facts_status).
Proof.
  unfold read_latest_asset_state. intros Hr. inv_io Hr.
  match goal with Hx : read_fixed_finalized_window _ _ = _ |- _ => apply read_window_Ok in Hx end.
  by eapply stable_tip_Ok.
Qed.

Lemma interpret_refund_Ok terms target scanned refund stable :
  interpret_refund_scan runtime terms target scanned = Ok (refund, Some stable) →
  scanned = Some (Scan_Missing stable) ∨ ∃ c, scanned = Some (Scan_Found c stable).
Proof.
  unfold interpret_refund_scan. destruct scanned as [[c s|s|reason]|]; try done.
  - destruct target as [|id window|window]; [|case_bool_decide; cbn; [|done]|];
      intros [= _ ->]; right; by exists c.
  - intros [= _ ->]. by left.
Qed.

Lemma asset_facts_status terms metadata custody m p c status balance :
  (metadata, custody) = asset_facts terms m p c status balance → metadata.(facts_status) = status.
Proof. unfold asset_facts. by destruct (terms_asset terms); intros [= -> ->]. Qed.

(** A scan for a refund, when one was asked for. *)
Lemma refund_scan_stable request w scanned w' refund stable :
  match request.(refund_request_target) with
  | RefundTarget_StateOnly => io_ok None
  | RefundTarget_Exact _ window
  | RefundTarget_DiscoverByTerms window =>
      let! s := scan runtime request.(refund_request_terms) Target_DiscoverByTerms window
                  Effect_Refund None in
      io_ok (Some s)
  end w = (Ok scanned, w') →
  interpret_refund_scan runtime request.(refund_request_terms) request.(refund_request_target)
    scanned = Ok (refund, Some stable) →
  ∃ window, stable_over window stable.
Proof.
  intros Hscan Hi. apply interpret_refund_Ok in Hi.
  destruct (refund_request_target request) as [|id window|window]; [by injection Hscan as <- _;
    destruct Hi as [|[? ?]]|..]; apply io_bind_Ok in Hscan as (s&?&Hs&Hscan);
    injection Hscan as <- <-; apply scan_Ok in Hs; exists window;
    destruct Hi as [[= ->]|(c&[= ->])]; apply Hs.
Qed.

Lemma observe_refund_Ok request w r w' :
  observe_refund runtime request w = (Ok r, w') →
  shows runtime request.(refund_request_terms) r.(refund_clock_before).(clock_height)
    r.(refund_metadata).(facts_status) ∧
  (∀ facts, r.(refund_refund) = Refund_Found facts →
     r.(refund_metadata).(facts_status) = State_Refunded).
Proof.
  unfold observe_refund. intros Hr. apply io_bind_Ok in Hr as (?&?&_&Hr).
  apply io_bind_Ok in Hr as (scanned&w1&Hscan&Hr).
  apply io_bind_Ok in Hr as ([refund stable]&w2&Hi&Hr). apply io_of_Ok in Hi as [Hi ->].
  apply io_bind_Ok in Hr as ([[[clock metadata] custody] refund']&w3&Hstate&Hr).
  assert (Hshow : shows runtime (refund_request_terms request) clock.(clock_height)
                    metadata.(facts_status)).
  { destruct stable as [stable|].
    - destruct (refund_scan_stable _ _ _ _ _ _ Hscan Hi) as [window Hw].
      apply io_bind_Ok in Hstate as (state&?&Ht&Hstate). apply (proj1 (io_try_Ok _ _ _ _)) in Ht.
      destruct state as [[[k m] c]|[]]; try done.
      + injection Hstate as <- <- <- _ _. by eapply stable_tip_Ok.
      + apply io_bind_Ok in Hstate as ([[k m] c]&?&Hl&Hstate).
        injection Hstate as <- <- <- _ _. by eapply read_latest_Ok.
      + apply io_bind_Ok in Hstate as ([[k m] c]&?&Hl&Hstate).
        injection Hstate as <- <- <- _ _. by eapply read_latest_Ok.
    - apply io_bind_Ok in Hstate as ([[k m] c]&?&Hl&Hstate).
      injection Hstate as <- <- <- _ _. by eapply read_latest_Ok. }
  inv_io Hr. unfold ObserveWitnessedAssetRefundV2Result_new in Hr. inv_ok Hr. subst r. cbn.
  split; [done|]. intros facts ->. cbn in Hx.
  match type of Hx with _ = Ok ?u => destruct u end.
  apply asset_state_accepted_iff in Hx as (c&Hf). by apply asset_facts_status in Hf.
Qed.
End answers.

(** ** Executions of the escrow program *)

Section effects.
Context {H : EscrowHost} {L : EscrowHostLaws H} {V : AccountValidation H}.

Definition preparing (e : Execution) : Prop :=
  kind_of e.(exec_instruction) = K_Initialize ∨ kind_of e.(exec_instruction) = K_Custody.

(** The executions of an escrow without XMR authority, by its status. *)
Definition effects_of (status : EscrowStatus) (tr : list Execution) : Prop :=
  match status with
  | Status_Empty => Forall preparing tr
  | Status_Funded =>
      ∃ before fund, tr = before ++ [fund] ∧ Forall preparing before ∧
        kind_of fund.(exec_instruction) = K_Fund
  | Status_Claimed =>
      ∃ before fund claim proof, tr = before ++ [fund; claim] ∧ Forall preparing before ∧
        kind_of fund.(exec_instruction) = K_Fund ∧
        kind_of claim.(exec_instruction) = K_Claim proof
  | Status_Refunded =>
      ∃ before fund refund token, tr = before ++ [fund; refund] ∧ Forall preparing before ∧
        kind_of fund.(exec_instruction) = K_Fund ∧
        kind_of refund.(exec_instruction) = K_Refund token
  | Status_XmrClaimAuthorized => False
  end.

Lemma step_effects m k from to pays m' tr e :
  meta_step m k from to pays m' → punish_deadline m' = None →
  kind_of e.(exec_instruction) = k → effects_of m.(meta_status) tr →
  effects_of m'.(meta_status) (tr ++ [e]).
Proof.
  intros Hs Hp Hk Hef. destruct k; cbn in Hs.
  - done.
  - destruct Hs as (Hst&->&_). rewrite Hst in *. apply Forall_app. split; [done|].
    apply Forall_singleton. by right.
  - destruct Hs as (Hst&->&_). rewrite Hst in *. by exists tr, e.
  - destruct Hs as (_&->&_&_&_&(?&?&?&?&?&?&?&?&?&Ha&_)).
    unfold punish_deadline in Hp. cbn in Hp. by rewrite Ha in Hp.
  - destruct Hs as (Hst&->&_). rewrite Hst in *. destruct Hef as (b&f&->&Hb&Hf).
    exists b, f, e, proof. by rewrite <- (assoc_L (++)).
  - destruct Hs as (_&->&_&_&_&Hx). destruct (require_xmr_witness_authority _ _ _) eqn:E; [|done].
    apply xmr_authority_deadline in E. change (punish_deadline m = None) in Hp. congruence.
  - destruct Hs as (Hst&->&_). rewrite Hst in *. destruct Hef as (b&f&->&Hb&Hf).
    exists b, f, e, token. by rewrite <- (assoc_L (++)).
  - destruct Hs as (_&->&_&u&Hx&_). change (punish_deadline m = None) in Hp. congruence.
  - destruct Hs as (_&->&_&u&Hx&_). change (punish_deadline m = None) in Hp. congruence.
Qed.

Lemma trace_effects ctx tr d m :
  escrow_trace ctx tr d → metadata_try_from_slice d = Some m → punish_deadline m = None →
  effects_of m.(meta_status) tr.
Proof.
  revert d m. induction tr as [|e tr IH] using rev_ind; intros d m Htr Hm Hp.
  { apply trace_nil_data in Htr as ->. by rewrite default_data_is_no_metadata in Hm. }
  pose proof Htr as (d0&a&Htr0&Ha&Hd&Hv&Hex&Hw&Hpost)%trace_last.
  destruct (metadata_try_from_slice d0) as [m0|] eqn:Hm0.
  - destruct (trace_last_step _ _ _ _ _ _ Htr0 Hm0 Htr) as (m'&Hm'&(Hinv&_)&Hs).
    rewrite Hm in Hm'. injection Hm' as <-.
    destruct (meta_step_facts _ _ _ _ _ _ Hinv Hs) as (_&Hset&_&_).
    eapply step_effects; [done..|]. eapply IH; [done..|]. rewrite Hset in Hp. done.
  - destruct (trace_invariant _ _ _ Htr0) as [[-> _]|(?&?&_)]; [|congruence]. subst d0.
    destruct (execution_cases ctx _ a _ _ d Ha Hv Hex Hpost Hw)
      as [(Hk&_&m'&Hm'&_&Hs&_)|(_&?&?&?&_)]; [|congruence].
    rewrite Hm in Hm'. injection Hm' as <-. rewrite Hs. apply Forall_singleton. by left.
Qed.
End effects.


(** ** Against the ledger *)

(** The ledger behind the indexer: an account has one state after each block,
    a historical read that succeeds returns it, and the account at the escrow's
    metadata address holds what the executions up to that block left in it. *)
Class EscrowLedger (H : EscrowHost) (V : AccountValidation H) (R : LeeRuntime H) (World : Type)
    (X : FinalizedIndexerApi H World) (ctx : ProgramContext) (metadata_id : AccountId) := {
  ledger : AccountId → Z → Account;
  executed : Z → list Execution;
  ledger_reads id block_id w a w' :
    account_at_block id block_id w = (Ok a, w') → a = historical_account (ledger id block_id);
  ledger_executed block_id : escrow_trace ctx (executed block_id) (ledger metadata_id block_id).(data)
}.

(** Empty account data is the data of the default account. *)
Class LeeRuntimeLaws (H : EscrowHost) (R : LeeRuntime H) : Prop := {
  empty_data d : data_is_empty d = true → d = default_data
}.

Section ledger.
Context {H : EscrowHost} {L : EscrowHostLaws H} {V : AccountValidation H}.
Context {R : LeeRuntime H} {Q : LeeRuntimeLaws H R}.
Context {World : Type} {X : FinalizedIndexerApi H World}.
Variables (runtime : RuntimeDescriptor) (terms : WitnessedLezAssetTermsV2) (ctx : ProgramContext).
Context {Y : EscrowLedger H V R World X ctx (metadata_pda runtime.(runtime_escrow_program_id) terms)}.

Lemma historical_present account account' :
  Account_Present account = historical_account account' → account = account'.
Proof. unfold historical_account. destruct (_ && _); [done|]. by intros [= ->]. Qed.

(** A state the observer sees is the state the executions left. *)
Lemma shows_executed block_id state :
  shows runtime terms block_id state →
  ∃ m, escrow_state m.(meta_status) = Ok state ∧ metadata_agrees runtime terms m ∧
    trace_inv (executed block_id) m ∧ effects_of m.(meta_status) (executed block_id).
Proof.
  intros (account&m&(w&w'&Hread)&Hm&Hstate&Hagree).
  apply ledger_reads, historical_present in Hread. subst account.
  pose proof (ledger_executed block_id) as Htr. exists m. split_and!; try done.
  - by eapply trace_with_metadata.
  - eapply trace_effects; [done..|]. destruct Hagree as (_&_&_&key&Hk).
    unfold punish_deadline. by rewrite Hk.
Qed.

Lemma absent_executed block_id :
  answered
    (account_at_block (metadata_pda runtime.(runtime_escrow_program_id) terms) block_id)
    Account_Absent →
  executed block_id = [].
Proof.
  intros (w&w'&Hread%ledger_reads). pose proof (ledger_executed block_id) as Htr.
  assert (Hd : data (ledger (metadata_pda (runtime_escrow_program_id runtime) terms) block_id)
               = default_data).
  { apply empty_data. unfold historical_account in Hread.
    destruct (data_is_empty _); [done|]. by rewrite andb_false_r in Hread. }
  rewrite Hd in Htr. destruct (trace_invariant _ _ _ Htr) as [[-> _]|(m&Hm&_)]; [done|].
  by rewrite default_data_is_no_metadata in Hm.
Qed.

(** The claim of an escrow the observer saw claimed. *)
Definition claimed_as_agreed (tr : list Execution) : Prop :=
  trace_payouts tr = [agreed_claim runtime terms] ∧
  ∃ before fund claim, tr = before ++ [fund; claim] ∧ Forall preparing before ∧
    kind_of fund.(exec_instruction) = K_Fund ∧
    let authority := (claim_authority_of terms).(Hex32_as_bytes) in
    kind_of claim.(exec_instruction) = K_Claim (Proof_AggregateWitness authority) ∧
    signed_by claim authority ∧ claim.(exec_time) < agreed_refund_at terms.

Lemma shows_claimed block_id :
  shows runtime terms block_id State_Claimed → claimed_as_agreed (executed block_id).
Proof.
  intros (m&Hst&(Hc&_&Hat&key&Hauth)&(Hi&Hp&Ht&Ha&_)&He)%shows_executed.
  destruct (meta_status m) eqn:Hs; try done. cbn in He.
  destruct He as (before&fund&claim&proof&Htr&Hb&Hf&Hk).
  unfold settled in Hp. rewrite Hs, Hc in Hp. split; [done|].
  exists before, fund, claim. rewrite Htr in Ht, Ha |- *. do 3 (split; [done|]).
  apply Forall_app in Ht as [_ Ht], Ha as [_ Ha].
  rewrite !list.Forall_cons in Ht, Ha. destruct Ht as (_&Ht&_), Ha as (_&Ha&_).
  unfold timing_ok in Ht. unfold authority_ok in Ha. rewrite Hk in Ht, Ha. rewrite Hauth in Ha.
  destruct proof as [preimage|w]; [by destruct Ha|].
  destruct Ha as (key'&[= <- <-]&_&Hsigned). rewrite Hat in Ht. done.
Qed.

(** The refund of an escrow the observer saw refunded. *)
Definition refunded_as_agreed (tr : list Execution) : Prop :=
  trace_payouts tr = [agreed_refund runtime terms] ∧
  ∃ before fund refund token, tr = before ++ [fund; refund] ∧ Forall preparing before ∧
    kind_of fund.(exec_instruction) = K_Fund ∧
    kind_of refund.(exec_instruction) = K_Refund token ∧
    agreed_refund_at terms ≤ refund.(exec_time).

Lemma shows_refunded block_id :
  shows runtime terms block_id State_Refunded → refunded_as_agreed (executed block_id).
Proof.
  intros (m&Hst&(_&Hr&Hat&_)&(Hi&Hp&Ht&_)&He)%shows_executed.
  destruct (meta_status m) eqn:Hs; try done. cbn in He.
  destruct He as (before&fund&refund&token&Htr&Hb&Hf&Hk).
  unfold settled in Hp. rewrite Hs, Hr in Hp. split; [done|].
  exists before, fund, refund, token. rewrite Htr in Ht |- *. do 4 (split; [done|]).
  apply Forall_app in Ht as [_ Ht]. rewrite !list.Forall_cons in Ht. destruct Ht as (_&Ht&_).
  unfold timing_ok in Ht. rewrite Hk in Ht. by rewrite <- Hat.
Qed.

(** An escrow the observer saw funded: nothing was paid out. *)
Definition funded_only (tr : list Execution) : Prop :=
  trace_payouts tr = [] ∧
  ∃ before fund, tr = before ++ [fund] ∧ Forall preparing before ∧
    kind_of fund.(exec_instruction) = K_Fund.

Lemma shows_funded block_id :
  shows runtime terms block_id State_Funded → funded_only (executed block_id).
Proof.
  intros (m&Hst&_&(_&Hp&_)&He)%shows_executed. destruct (meta_status m) eqn:Hs; try done.
  unfold settled in Hp. rewrite Hs in Hp. by split.
Qed.

Lemma shows_empty block_id :
  shows runtime terms block_id State_Empty → Forall preparing (executed block_id).
Proof.
  intros (m&Hst&_&_&He)%shows_executed. by destruct (meta_status m) eqn:Hs.
Qed.

(** C3: evidence of a claim is evidence of the agreed payment.  If the observer
    classifies a claim as found, then by the containing block the escrow program
    has executed exactly its preparation, one funding and one claim, and the
    claim paid the agreed amount out of the agreed custody to the agreed claimant
    and nothing else was paid; it was authorised by the signature of the agreed
    aggregate authority and ran before the agreed refund time. *)
Theorem claim_evidence_means_paid request w r w' clock window facts :
  request.(claim_request_terms) = terms →
  classify_claim runtime request w = (Ok r, w') →
  r.(claim_outcome) = Outcome_Found clock window facts →
  claimed_as_agreed (executed facts.(claim_containing_block).(identity_block_id)).
Proof.
  intros Ht Hr Ho. apply classify_claim_Ok in Hr. rewrite Ho, Ht in Hr. by apply shows_claimed.
Qed.

(** C29: evidence of a refund is evidence of the agreed refund.  If the observer
    reports a refund as found, then by the block of the reported clock the escrow
    program has executed exactly its preparation, one funding and one refund, and
    the refund paid the agreed amount out of the agreed custody back to the
    depositor, at or after the agreed refund time, and nothing else was paid. *)
Theorem refund_evidence_means_refunded request w r w' facts :
  request.(refund_request_terms) = terms →
  observe_refund runtime request w = (Ok r, w') →
  r.(refund_refund) = Refund_Found facts →
  refunded_as_agreed (executed r.(refund_clock_before).(clock_height)).
Proof.
  intros Ht Hr Ho. apply observe_refund_Ok in Hr as [Hs Hf].
  rewrite (Hf _ Ho), Ht in Hs. by apply shows_refunded.
Qed.

(** Evidence of funding is evidence of funding alone. *)
Theorem funding_evidence_means_funded request w r w' clock window facts :
  request.(funding_request_terms) = terms →
  classify_funding runtime request w = (Ok r, w') →
  r.(funding_outcome) = Outcome_Found clock window facts →
  funded_only (executed facts.(funding_containing_block).(identity_block_id)).
Proof.
  intros Ht Hr Ho. apply classify_funding_Ok in Hr. rewrite Ho, Ht in Hr. by apply shows_funded.
Qed.

(** C28: absence is proved, not only not seen.  If the observer classifies an
    effect as absent, the effect has not happened in any block up to the reported
    clock, also before the window it scanned: no initialization means that the
    escrow program has executed nothing for the swap, no funding that it has only
    prepared it, and no claim that the swap is funded and nothing was paid. *)
Theorem absence_is_proved w w' clock window :
  (∀ request r, request.(initialization_request_terms) = terms →
     classify_initialization runtime request w = (Ok r, w') →
     r.(initialization_outcome) = Outcome_Absent clock window →
     executed clock.(clock_height) = []) ∧
  (∀ request r, request.(funding_request_terms) = terms →
     classify_funding runtime request w = (Ok r, w') →
     r.(funding_outcome) = Outcome_Absent clock window →
     Forall preparing (executed clock.(clock_height))) ∧
  (∀ request r, request.(claim_request_terms) = terms →
     classify_claim runtime request w = (Ok r, w') →
     r.(claim_outcome) = Outcome_Absent clock window →
     funded_only (executed clock.(clock_height))).
Proof.
  split_and!; intros request r Ht Hr Ho.
  - apply (classify_initialization_absent _ _ _ _ _ _ _ Hr) in Ho. rewrite Ht in Ho.
    by apply absent_executed.
  - apply classify_funding_Ok in Hr. rewrite Ho, Ht in Hr. by apply shows_empty.
  - apply classify_claim_Ok in Hr. rewrite Ho, Ht in Hr. by apply shows_funded.
Qed.
End ledger.
