(* ===== verification/AssetObserverSamples.v ===== *)
(** * Sample ledgers for the observer

    A native witnessed escrow of 75 units refundable from time 1000: prepared in
    block 1, funded in block 2 and, in block 3, claimed in one ledger and
    refunded in another.  The theorems about the observer are applied to the
    runs of the observer against both ledgers. *)

From stdpp Require Import base gmap strings list numbers.
From S2P Require Import Prelude SwapCore BridgeValues AssetEvidence AssetEvidenceFacts.
From S2P Require Import Escrow EscrowFacts EscrowTheorems AssetObserver AssetObserverFacts.

Open Scope Z_scope.

Module ObserverSamples.
Import EscrowSamples.

Definition hex (b : bytes) : Hex32 := {| Hex32_as_bytes := b |}.
Definition key : bytes := b32 Byte.x21.
Definition depositor_key : bytes := b32 Byte.x41.

(** ** The executions *)

Definition w_initialize : Instruction :=
  I_initialize_native_witnessed (new_account (b32 Byte.x0a)) (new_account (b32 Byte.x0b))
    depositor_acct claimant_acct (aggregate key) (b32 Byte.x01) (b32 Byte.x02) key 75 1000
    transfer_program.
Definition w_empty : sample_data := data_of (out_of (execute ctx w_initialize)).
Definition w_fund : Instruction :=
  I_fund_native (meta_at w_empty) (custody_at 0) depositor_acct (b32 Byte.x01).
Definition w_funded : sample_data := data_of (out_of (execute ctx w_fund)).
Definition w_claim : Instruction :=
  I_claim_native_witnessed (meta_at w_funded) (custody_at 75) claimant_acct (aggregate key)
    (b32 Byte.x01).
Definition w_claimed : sample_data := data_of (out_of (execute ctx w_claim)).
Definition w_refund : Instruction :=
  I_refund_native (meta_at w_funded) (custody_at 75) depositor_acct (b32 Byte.x01).
Definition w_refunded : sample_data := data_of (out_of (execute ctx w_refund)).

Definition empty_run : list Execution := [] ++ [at_time 10 w_initialize].
Definition witnessed_funded_run : list Execution := empty_run ++ [at_time 20 w_fund].
Definition witnessed_claimed_run : list Execution := witnessed_funded_run ++ [at_time 30 w_claim].
Definition witnessed_refunded_run : list Execution :=
  witnessed_funded_run ++ [at_time 1030 w_refund].

Lemma empty_trace : escrow_trace ctx empty_run w_empty.
Proof.
  apply (extend _ D_default _ _ (new_account (b32 Byte.x0a)));
    [constructor|reflexivity|reflexivity|vm_compute; reflexivity..].
Qed.

Lemma witnessed_funded_trace : escrow_trace ctx witnessed_funded_run w_funded.
Proof.
  apply (extend _ w_empty _ _ (meta_at w_empty));
    [exact empty_trace|reflexivity|reflexivity|vm_compute; reflexivity..].
Qed.

Lemma witnessed_claimed_trace : escrow_trace ctx witnessed_claimed_run w_claimed.
Proof.
  apply (extend _ w_funded _ _ (meta_at w_funded));
    [exact witnessed_funded_trace|reflexivity|reflexivity|vm_compute; reflexivity..].
Qed.

Lemma witnessed_refunded_trace : escrow_trace ctx witnessed_refunded_run w_refunded.
Proof.
  apply (extend _ w_funded _ _ (meta_at w_funded));
    [exact witnessed_funded_trace|reflexivity|reflexivity|vm_compute; reflexivity..].
Qed.

(** ** Terms and transactions *)

Definition native_terms : WitnessedNativeEscrowTerms :=
  {| witnessed_swap_id := hex (b32 Byte.x01);
     witnessed_terms_hash := hex (b32 Byte.x02);
     witnessed_depositor := Participant_Maker;
     witnessed_depositor_account_id := hex (b32 Byte.x0c);
     witnessed_claimant := Participant_Taker;
     witnessed_claimant_account_id := hex (b32 Byte.x0d);
     witnessed_aggregate_authority_account_id := hex (witnessed_account_id key);
     witnessed_aggregate_x_only_public_key := hex key;
     witnessed_amount := 75;
     witnessed_refund_at_ms := 1000;
     witnessed_authenticated_transfer_program_id := program_id_to_hex transfer_program |}.
Definition terms : WitnessedLezAssetTermsV2 := WitnessedLezAssetTermsV2_native native_terms.

Definition message (word : Z) (accounts : list AccountId) : Message :=
  {| message_program_id := replicate 8 7; message_account_ids := accounts;
     message_nonces := []; message_instruction_data := [word] |}.
Definition initialize_message : Message :=
  message 1 [b32 Byte.x0a; b32 Byte.x0b; b32 Byte.x0c; b32 Byte.x0d; witnessed_account_id key].
Definition fund_message : Message := message 2 [b32 Byte.x0a; b32 Byte.x0b; b32 Byte.x0c].
Definition claim_message : Message :=
  message 3 [b32 Byte.x0a; b32 Byte.x0b; b32 Byte.x0d; witnessed_account_id key].
Definition refund_message : Message := message 4 [b32 Byte.x0a; b32 Byte.x0b; b32 Byte.x0c].

Definition encode_message (m : Message) : bytes := map byte_of_Z m.(message_instruction_data).

#[global] Instance sample_lee_runtime : LeeRuntime sample_host := {|
  GENESIS_BLOCK_ID := 1;
  token_program := replicate 8 11;
  ata_program := replicate 8 12;
  compute_metadata_pda := λ _ _, b32 Byte.x0a;
  compute_custody_pda := λ _ _, b32 Byte.x0b;
  public_key_try_new := λ _, true;
  account_id_of_public_key := λ k,
    if k ==? depositor_key then b32 Byte.x0c else witnessed_account_id k;
  public_transaction_hash := λ t, encode_message t.(public_message);
  public_transaction_to_bytes := λ t, encode_message t.(public_message);
  transaction_stateless_check := λ _, true;
  message_to_vec := λ m, Some (encode_message m);
  message_try_from_slice := λ b, if b ==? [Byte.x03] then Some claim_message else None;
  message_hash := encode_message;
  instruction_from_slice := λ d,
    match d with
    | [1] => Some (Zec_InitializeNativeWitnessed (b32 Byte.x01) (b32 Byte.x02) key 75 1000
                     transfer_program)
    | [2] => Some (Zec_FundNative (b32 Byte.x01))
    | [3] => Some (Zec_ClaimNativeWitnessed (b32 Byte.x01))
    | [4] => Some (Zec_RefundNative (b32 Byte.x01))
    | _ => None
    end;
  data_is_empty := λ d, d ==? D_default
|}.

#[global] Instance sample_runtime_laws : LeeRuntimeLaws sample_host sample_lee_runtime.
Proof. split. intros d Hd. exact (bool_decide_eq_true_1 _ Hd). Qed.

(** ** The ledgers *)

Definition transaction (m : Message) (keys : list bytes) : IndexedTransaction :=
  Transaction_Public
    {| indexed_hash := encode_message m; indexed_message := m;
       indexed_signatures_and_public_keys := map (λ k, ([], k)) keys;
       indexed_proof := None |}.

Definition block (id : Z) (t : IndexedTransaction) : Block :=
  {| block_header :=
       {| header_block_id := id; header_prev_block_hash := [byte_of_Z (id - 1)];
          header_hash := [byte_of_Z id]; header_timestamp := 10 * id; header_signature := [] |};
     block_transactions := [t]; block_bedrock_status := Bedrock_Finalized |}.

(** What happens in block 3. *)
Record ending := {
  final_transaction : IndexedTransaction;
  final_data : sample_data;
  final_run : list Execution
}.
Definition claimed : ending :=
  {| final_transaction := transaction claim_message [key]; final_data := w_claimed;
     final_run := witnessed_claimed_run |}.
Definition refunded : ending :=
  {| final_transaction := transaction refund_message []; final_data := w_refunded;
     final_run := witnessed_refunded_run |}.

Definition run_at (e : ending) (block_id : Z) : list Execution :=
  if block_id <? 1 then [] else if block_id <? 2 then empty_run
  else if block_id <? 3 then witnessed_funded_run else e.(final_run).

Definition data_at (e : ending) (block_id : Z) : sample_data :=
  if block_id <? 1 then D_default else if block_id <? 2 then w_empty
  else if block_id <? 3 then w_funded else e.(final_data).

Definition account_at (e : ending) (id : AccountId) (block_id : Z) : Account :=
  if id ==? b32 Byte.x0a then
    if block_id <? 1 then (new_account id).(account) else (meta_at (data_at e block_id)).(account)
  else if id ==? b32 Byte.x0b then
    if block_id <? 1 then (new_account id).(account)
    else (custody_at (if block_id =? 2 then 75 else 0)).(account)
  else (new_account id).(account).

Definition blocks_of (e : ending) : list Block :=
  [block 0 (Transaction_Other [] []); block 1 (transaction initialize_message [depositor_key]);
   block 2 (transaction fund_message [depositor_key]); block 3 e.(final_transaction)].

Definition indexer (e : ending) : FinalizedIndexerApi sample_host unit := {|
  last_finalized_block_id := io_ok (Some 3);
  block_by_id := λ id, io_ok (find_block (blocks_of e) id);
  block_by_hash := λ hash,
    io_ok (List.find (λ b, b.(block_header).(header_hash) ==? hash) (blocks_of e));
  account_at_block := λ id block_id, io_ok (historical_account (account_at e id block_id));
  join_order := λ w, (Join123, w)
|}.

Lemma sample_ledger_executed e block_id :
  escrow_trace ctx e.(final_run) e.(final_data) →
  escrow_trace ctx (run_at e block_id) (account_at e (b32 Byte.x0a) block_id).(data).
Proof.
  intros He. unfold account_at, run_at, data_at. rewrite bool_decide_true by done.
  destruct (block_id <? 1); [constructor|]. destruct (block_id <? 2); [exact empty_trace|].
  destruct (block_id <? 3); [exact witnessed_funded_trace|exact He].
Qed.

Definition ledger_of (e : ending) (He : escrow_trace ctx e.(final_run) e.(final_data))
    : EscrowLedger sample_host sample_validation sample_lee_runtime unit (indexer e) ctx
        (b32 Byte.x0a).
Proof.
  refine {| ledger := account_at e; executed := run_at e |}.
  - by intros id block_id w a w' [= <- _].
  - intros block_id. by apply sample_ledger_executed.
Defined.

(** ** Requests *)

Definition sample_runtime : RuntimeDescriptor :=
  {| runtime_sidecar_role := Participant_Maker; runtime_compatibility := LeeV0_2_0;
     runtime_chain_id := zero_hex32; runtime_channel_id := zero_hex32;
     runtime_genesis_block_hash := hex [Byte.x01];
     runtime_escrow_program_id := program_id_to_hex (replicate 8 7);
     runtime_signer_account_id := hex (b32 Byte.x0c) |}.
Definition context : MessageContext :=
  {| message_schema_version := 2; message_run_id := {| RunId_as_str := "run" |};
     message_request_id := {| RequestId_as_str := "request" |};
     message_sidecar_role := Participant_Maker |}.
Definition from_height (start blocks : Z) : DiscoveryWindow :=
  {| window_start_height := start; window_max_blocks := blocks |}.
Definition transcript : PreparedWitnessedClaim :=
  {| claim_preparation_request_id := {| RequestId_as_str := "prepare" |};
     claim_message_hash := hex [Byte.x03];
     claim_exact_message_bytes := {| MessageBytes_as_slice := [Byte.x03] |} |}.

Definition claim_request (window : DiscoveryWindow)
    : ClassifyFinalizedWitnessedAssetClaimV2Request :=
  {| claim_request_context := context; claim_request_runtime := sample_runtime;
     claim_request_terms := terms; claim_request_claim := transcript;
     claim_request_target := Target_DiscoverByTerms; claim_request_window := window |}.
Definition funding_request (window : DiscoveryWindow)
    : ClassifyFinalizedWitnessedAssetFundingV2Request :=
  {| funding_request_context := context; funding_request_runtime := sample_runtime;
     funding_request_terms := terms; funding_request_target := Target_DiscoverByTerms;
     funding_request_window := window |}.
Definition initialization_request (window : DiscoveryWindow)
    : ClassifyFinalizedWitnessedAssetInitializationV2Request :=
  {| initialization_request_context := context; initialization_request_runtime := sample_runtime;
     initialization_request_terms := terms;
     initialization_request_target := Target_DiscoverByTerms;
     initialization_request_window := window |}.
Definition refund_request (window : DiscoveryWindow) : ObserveWitnessedAssetRefundV2Request :=
  {| refund_request_context := context; refund_request_runtime := sample_runtime;
     refund_request_terms := terms;
     refund_request_target := RefundTarget_DiscoverByTerms window |}.

End ObserverSamples.

(** ** The theorems on the sample ledgers *)

Module ObserverWitnesses.
Import EscrowSamples ObserverSamples.

(** The run of a sample, evaluated. *)
Ltac run_sample m E :=
  destruct m as [r w'] eqn:E; let Hr := fresh in
  pose proof E as Hr; vm_compute in Hr; injection Hr as <- <-.

Lemma scan_reports_matches_witness :
  ∃ stable before header index transaction after,
    stable_over (from_height 1 3) stable ∧
    entries stable.(stable_blocks)
    = before ++ (header, index, Transaction_Public transaction) :: after ∧
    performs sample_runtime terms Effect_Claim (Some transcript) transaction ∧
    ∀ h i other, (h, i, Transaction_Public other) ∈ before ++ after →
      ¬ carries_effect sample_runtime terms Effect_Claim other.
Proof.
  run_sample (scan (X := indexer claimed) sample_runtime terms Target_DiscoverByTerms
                (from_height 1 3) Effect_Claim (Some transcript) tt) E.
  destruct (scan_reports_matches _ _ _ _ _ _ _ _ _ E)
    as (Hw&before&header&index&t&after&He&Hp&_&_&Hn).
  by eexists _, before, header, index, t, after.
Defined.

Lemma observer_reports_accepted_witness :
  ∃ c stable metadata custody,
    answered (scan (X := indexer claimed) sample_runtime terms Target_DiscoverByTerms
                (from_height 1 3) Effect_Claim (Some transcript)) (Scan_Found c stable) ∧
    answered (read_asset_state (X := indexer claimed) sample_runtime terms 3 State_Claimed 0)
      (metadata, custody) ∧
    is_ok (claim_found context terms transcript Target_DiscoverByTerms
             stable.(stable_finalized_clock) (from_height 1 3)
             (claim_facts sample_runtime terms transcript c [] metadata custody)) = true.
Proof.
  run_sample (scan (X := indexer claimed) sample_runtime terms Target_DiscoverByTerms
                (from_height 1 3) Effect_Claim (Some transcript) tt) E.
  run_sample (read_asset_state (X := indexer claimed) sample_runtime terms 3 State_Claimed 0 tt)
    Hread.
  eexists _, _, _, _. split; [by eexists _, _|]. split; [by eexists _, _|].
  eapply (observer_reports_accepted (X := indexer claimed) sample_runtime context terms
           Target_DiscoverByTerms (from_height 1 3));
    [done|by vm_compute|by eexists _, _|by eexists _, _].
Defined.

Lemma claim_evidence_means_paid_witness :
  claimed_as_agreed sample_runtime terms witnessed_claimed_run.
Proof.
  run_sample (classify_claim (X := indexer claimed) sample_runtime
                (claim_request (from_height 1 3)) tt) E.
  exact (claim_evidence_means_paid (Y := ledger_of claimed witnessed_claimed_trace)
           sample_runtime terms ctx (claim_request (from_height 1 3)) tt _ tt _ _ _ eq_refl E
           eq_refl).
Defined.

Lemma refund_evidence_means_refunded_witness :
  refunded_as_agreed sample_runtime terms witnessed_refunded_run.
Proof.
  run_sample (observe_refund (X := indexer refunded) sample_runtime
                (refund_request (from_height 1 3)) tt) E.
  exact (refund_evidence_means_refunded (Y := ledger_of refunded witnessed_refunded_trace)
           sample_runtime terms ctx (refund_request (from_height 1 3)) tt _ tt _ eq_refl E eq_refl).
Defined.

Lemma absence_is_proved_witness : funded_only witnessed_funded_run.
Proof.
  run_sample (classify_claim (X := indexer claimed) sample_runtime
                (claim_request (from_height 1 2)) tt) E.
  exact (proj2 (proj2 (absence_is_proved (Y := ledger_of claimed witnessed_claimed_trace)
           sample_runtime terms ctx tt tt _ _)) (claim_request (from_height 1 2)) _ eq_refl E
           eq_refl).
Defined.
End ObserverWitnesses.
