(* ===== verification/ReleaseCrypto.v ===== *)
(** * Protection of a release: keys, envelopes and authenticators

    [crates/xmr-release-authority/src/lib.rs]: the master key and the file it is
    read from, the encrypted publication, the encodings that bind it to one
    release, and the authenticators of the record that stores it.

    SHA-256, HKDF, HMAC and XChaCha20-Poly1305 are external crates: the class
    [ReleaseCrypto], with what their documentation promises in
    [ReleaseCryptoLaws].  A key of 32 bytes is always accepted by the cipher and
    the authenticator, so [new_from_slice] does not appear. *)

From stdpp Require Import base gmap strings list numbers.
From S2P Require Import Prelude Decimal BridgeValues.

Open Scope Z_scope.

Class ReleaseCrypto := {
  sha256 : bytes → bytes;
  (** [Hkdf::<Sha256>::new(Some(salt), ikm)] expanded to 32 bytes. *)
  hkdf_expand : bytes → bytes → bytes → option bytes;
  hmac_sha256 : bytes → bytes → bytes;
  (** Key, nonce, message and associated data. *)
  aead_encrypt : bytes → bytes → bytes → bytes → option bytes;
  aead_decrypt : bytes → bytes → bytes → bytes → option bytes
}.

Class ReleaseCryptoLaws `{ReleaseCrypto} := {
  length_sha256 : ∀ m, length (sha256 m) = 32%nat;
  hkdf_expand_total : ∀ salt ikm info, is_Some (hkdf_expand salt ikm info);
  length_hmac : ∀ k m, length (hmac_sha256 k m) = 32%nat;
  (** Encryption within the cipher's limits succeeds, appends a 16-byte tag,
      and is inverted by decryption under the same key, nonce and data. *)
  aead_round_trip : ∀ key nonce msg aad, blen msg ≤ 2 ^ 37 →
    ∃ c, aead_encrypt key nonce msg aad = Some c ∧ blen c = blen msg + 16 ∧
         aead_decrypt key nonce c aad = Some msg
}.

Definition KEY_ID_MAX_BYTES : Z := 128.
Definition MAX_PROTECTION_KEY_FILE_BYTES : Z := 66.
Definition TAG_BYTES : Z := 16.
Definition MAX_PUBLICATION_INTENT_BYTES : Z := 2000000.

Definition AAD_DOMAIN := bytes_of_string "lez-atomic-swaps/xmr-release/aad/v1".
Definition KEY_DOMAIN := bytes_of_string "lez-atomic-swaps/xmr-release/key/v1".
Definition FINGERPRINT_DOMAIN := bytes_of_string "lez-atomic-swaps/xmr-release/fingerprint/v1".
Definition CONTEXT_DOMAIN := bytes_of_string "lez-atomic-swaps/xmr-release/context/v3".
Definition EXACT_DOMAIN := bytes_of_string "lez-atomic-swaps/xmr-release/exact/v3".
Definition OBSERVATION_DOMAIN := bytes_of_string "lez-atomic-swaps/xmr-release/observation/v1".
Definition RESOURCE_DOMAIN := bytes_of_string "lez-atomic-swaps/xmr-release/monero-resource/v1".
Definition ACTIVATION_DOMAIN := bytes_of_string "lez-atomic-swaps/xmr-release/activation/v1".
Definition SEMANTIC_KEY_DOMAIN := bytes_of_string "lez-atomic-swaps/xmr-release/semantic-key/v1".
Definition SEMANTIC_MAC_DOMAIN := bytes_of_string "lez-atomic-swaps/xmr-release/semantic-mac/v1".
Definition OBSERVATION_KEY_DOMAIN :=
  bytes_of_string "lez-atomic-swaps/xmr-release/observation-key/v1".
Definition OBSERVATION_MAC_DOMAIN :=
  bytes_of_string "lez-atomic-swaps/xmr-release/observation-mac/v1".
Definition STATE_KEY_DOMAIN := bytes_of_string "lez-atomic-swaps/xmr-release/state-key/v1".
Definition STATE_MAC_DOMAIN := bytes_of_string "lez-atomic-swaps/xmr-release/state-mac/v1".

Inductive ProtectionError :=
| InvalidKeyId
| InvalidKeyMaterial
| InvalidPayloadLength
| InvalidCiphertextLength
| FingerprintMismatch
| KeyIdMismatch
| Randomness
| KeyDerivation
| Encryption
| Protection_Authentication.

Inductive ProtectionKeyFileError := KeyFile_Unavailable | KeyFile_Unsafe | InvalidContents.

Definition validate_key_id (key_id : string) : result unit ProtectionError :=
  if (slen key_id =? 0) || (KEY_ID_MAX_BYTES <? slen key_id) then Err InvalidKeyId else Ok tt.

Definition validate_plaintext_length (length : Z) : result unit ProtectionError :=
  if (length =? 0) || (MAX_PUBLICATION_INTENT_BYTES <? length)
  then Err InvalidPayloadLength else Ok tt.

Definition validate_ciphertext_length (length : Z) : result unit ProtectionError :=
  if (TAG_BYTES + 1 <=? length) && (length <=? MAX_PUBLICATION_INTENT_BYTES + TAG_BYTES)
  then Ok tt else Err InvalidCiphertextLength.

(** ** Length-prefixed encodings *)

Definition append (output value : bytes) : bytes :=
  output ++ be_bytes 8 (blen value) ++ value.

(** The loop [for item in items { append(&mut encoded, item) }]. *)
Definition append_all (domain : bytes) (items : list bytes) : bytes :=
  fold_left append items domain.

#[global] Arguments append : simpl never.
#[global] Arguments append_all : simpl never.

Inductive MoneroNetwork := Regtest | Stagenet.

#[global] Instance MoneroNetwork_eq_dec : EqDecision MoneroNetwork.
Proof. solve_decision. Defined.

(** What [MoneroOutputVerifier::verify] established; the address is its
    canonical text. *)
Record VerifiedMoneroOutputObservation := {
  obs_network : MoneroNetwork;
  obs_genesis_hash : bytes;
  obs_daemon_origin : string;
  obs_wallet_origin : string;
  obs_transaction_id : bytes;
  obs_destination : string;
  obs_amount_piconero : Z;
  obs_containing_block_hash : bytes;
  obs_containing_block_height : Z;
  obs_confirmations : Z;
  obs_stable_tip_hash : bytes;
  obs_stable_tip_height : Z
}.

Definition monero_network_tag (network : MoneroNetwork) : Byte.byte :=
  match network with Regtest => Byte.x00 | Stagenet => Byte.x01 end.

(** The fields [ObservationEncoding] borrows are those of the observation. *)
Definition encode_observation (value : VerifiedMoneroOutputObservation) : bytes :=
  append_all OBSERVATION_DOMAIN
    [ [monero_network_tag value.(obs_network)];
      value.(obs_genesis_hash);
      bytes_of_string value.(obs_daemon_origin);
      bytes_of_string value.(obs_wallet_origin);
      value.(obs_transaction_id);
      bytes_of_string value.(obs_destination);
      be_bytes 8 value.(obs_amount_piconero);
      value.(obs_containing_block_hash);
      be_bytes 8 value.(obs_containing_block_height);
      be_bytes 8 value.(obs_confirmations);
      value.(obs_stable_tip_hash);
      be_bytes 8 value.(obs_stable_tip_height) ].

Definition encode_monero_resource (value : VerifiedMoneroOutputObservation) : bytes :=
  append_all RESOURCE_DOMAIN
    [ [monero_network_tag value.(obs_network)];
      value.(obs_genesis_hash);
      value.(obs_transaction_id);
      bytes_of_string value.(obs_destination);
      be_bytes 8 value.(obs_amount_piconero) ].

Definition immutable_release_context_bytes
    (activation swap_id run_id lez_commitment topology_commitment resource_id
     claim_partial_commitment target publication_id : bytes)
    (window_start window_end : Z) : bytes :=
  append_all CONTEXT_DOMAIN
    [ activation; swap_id; run_id; lez_commitment; topology_commitment; resource_id;
      claim_partial_commitment; target; publication_id;
      be_bytes 8 window_start; be_bytes 8 window_end ].

#[global] Arguments immutable_release_context_bytes : simpl never.

Definition authentication_context (release_context : bytes) (key_id : string) : bytes :=
  append (append AAD_DOMAIN release_context) (bytes_of_string key_id).

Record ReleasePlan := {
  plan_activation : bytes;
  plan_swap_id : bytes;
  plan_run_id : bytes;
  plan_lez_commitment : bytes;
  plan_topology_commitment : bytes;
  plan_resource_id : bytes;
  plan_observation : bytes;
  plan_claim_partial_commitment : bytes;
  plan_target : bytes;
  plan_publication_id : bytes;
  plan_window_start : Z;
  plan_window_end : Z;
  plan_publication : bytes
}.

Definition plan_immutable_context (self : ReleasePlan) : bytes :=
  immutable_release_context_bytes self.(plan_activation) self.(plan_swap_id)
    self.(plan_run_id) self.(plan_lez_commitment) self.(plan_topology_commitment)
    self.(plan_resource_id) self.(plan_claim_partial_commitment) self.(plan_target)
    self.(plan_publication_id) self.(plan_window_start) self.(plan_window_end).

(** ** The protection key *)

Record PublicationProtectionKey := { key_key_id : string; key_material : bytes }.

Definition PublicationProtectionKey_new (key_id : string) (material : bytes)
    : result PublicationProtectionKey ProtectionError :=
  let? _ := validate_key_id key_id in
  if material ==? zero32 then Err InvalidKeyMaterial
  else Ok {| key_key_id := key_id; key_material := material |}.

(** [fs::Metadata], with times in nanoseconds as pairs. *)
Record Metadata := {
  md_is_file : bool;
  md_is_dir : bool;
  md_len : Z;
  md_mode : Z;
  md_nlink : Z;
  md_uid : Z;
  md_dev : Z;
  md_ino : Z;
  md_mtime : Z * Z;
  md_ctime : Z * Z
}.

(** [mode & 0o7777], and the modes [0o600] and [0o700]. *)
Definition permissions (metadata : Metadata) : Z := Z.land metadata.(md_mode) 4095.
Definition OWNER_FILE : Z := 384.
Definition OWNER_DIRECTORY : Z := 448.

Definition validate_protection_key_metadata (euid : Z) (metadata : Metadata)
    : result unit ProtectionKeyFileError :=
  reject_if
    (negb metadata.(md_is_file)
     || (metadata.(md_len) =? 0)
     || (MAX_PROTECTION_KEY_FILE_BYTES <? metadata.(md_len))
     || negb (permissions metadata =? OWNER_FILE)
     || negb (metadata.(md_nlink) =? 1)
     || negb (metadata.(md_uid) =? euid))
    KeyFile_Unsafe.

Definition same_protection_key_file (left right : Metadata) : bool :=
  (left.(md_dev) =? right.(md_dev)) && (left.(md_ino) =? right.(md_ino)).

Definition stable_protection_key_file (left right : Metadata) : bool :=
  same_protection_key_file left right
  && (left.(md_len) =? right.(md_len))
  && (left.(md_uid) =? right.(md_uid))
  && (left.(md_mode) =? right.(md_mode))
  && (left.(md_nlink) =? right.(md_nlink))
  && (left.(md_mtime) ==? right.(md_mtime))
  && (left.(md_ctime) ==? right.(md_ctime)).

(** What the system answered while the file was read: the metadata of the path
    and of the open descriptor, before and after, and the bytes. *)
Record KeyFileReads := {
  read_euid : Z;
  read_path_before : option Metadata;
  read_opened : option Metadata;
  read_contents : option bytes;
  read_opened_after : option Metadata;
  read_path_after : option Metadata
}.

Definition read_owner_private_key_file (reads : KeyFileReads)
    : result bytes ProtectionKeyFileError :=
  let valid := validate_protection_key_metadata reads.(read_euid) in
  let? before := ok_or reads.(read_path_before) KeyFile_Unavailable in
  let? _ := valid before in
  let? opened := ok_or reads.(read_opened) KeyFile_Unavailable in
  let? _ := valid opened in
  let? _ := reject_if (negb (same_protection_key_file before opened)) KeyFile_Unsafe in
  let? contents := ok_or reads.(read_contents) KeyFile_Unavailable in
  let bytes := take (Z.to_nat (MAX_PROTECTION_KEY_FILE_BYTES + 1)) contents in
  let? opened_after := ok_or reads.(read_opened_after) KeyFile_Unavailable in
  let? path_after := ok_or reads.(read_path_after) KeyFile_Unavailable in
  let? _ := valid opened_after in
  let? _ := valid path_after in
  let? _ := reject_if
    (negb (stable_protection_key_file opened opened_after)
     || negb (stable_protection_key_file opened path_after)
     || (blen bytes =? 0)
     || (MAX_PROTECTION_KEY_FILE_BYTES <? blen bytes)) KeyFile_Unsafe in
  Ok bytes.

(** Drop one trailing line ending, if there is one. *)
Definition trim_line_ending (encoded : bytes) : bytes :=
  match rev encoded with
  | Byte.x0a :: Byte.x0d :: front => rev front
  | Byte.x0a :: front => rev front
  | _ => encoded
  end.

Section key_file.
Context `{HexCodec}.

Definition from_owner_private_file (key_id : string) (reads : KeyFileReads)
    : result PublicationProtectionKey ProtectionKeyFileError :=
  let? encoded := read_owner_private_key_file reads in
  let encoded := trim_line_ending encoded in
  let? _ := reject_if
    (negb (blen encoded =? 64) || negb (forallb is_lower_hex encoded)) InvalidContents in
  let? material := ok_or (hex_decode (string_of_bytes encoded)) InvalidContents in
  map_err (PublicationProtectionKey_new key_id material) (λ _, InvalidContents).
End key_file.

(** ** Keyed operations *)

Section crypto.
Context `{ReleaseCrypto}.

Definition monero_resource_id (value : VerifiedMoneroOutputObservation) : bytes :=
  sha256 (encode_monero_resource value).

Definition derive_activation_id (swap_id run_id : bytes) : bytes :=
  sha256 (append (append ACTIVATION_DOMAIN swap_id) run_id).

Definition derive_key (master : PublicationProtectionKey) (aad : bytes)
    : result bytes ProtectionError :=
  ok_or (hkdf_expand aad master.(key_material) (KEY_DOMAIN ++ aad)) KeyDerivation.

Definition release_state_mac (master : PublicationProtectionKey) (release_context binding : bytes)
    (state : string) (revision : Z) : result bytes ProtectionError :=
  let info := append STATE_KEY_DOMAIN (bytes_of_string master.(key_key_id)) in
  let? key := ok_or (hkdf_expand release_context master.(key_material) info) KeyDerivation in
  Ok (hmac_sha256 key
        (STATE_MAC_DOMAIN ++ binding ++ [byte_of_Z revision] ++ bytes_of_string state)).

Definition release_state_authenticator := release_state_mac.

Definition verify_release_state_authenticator (master : PublicationProtectionKey)
    (release_context binding : bytes) (state : string) (revision : Z) (expected : bytes)
    : result bool ProtectionError :=
  let? mac := release_state_mac master release_context binding state revision in
  Ok (mac ==? expected).

Definition record_mac (master : PublicationProtectionKey)
    (immutable_context key_domain mac_domain value : bytes) : result bytes ProtectionError :=
  let info := append key_domain (bytes_of_string master.(key_key_id)) in
  let? key := ok_or (hkdf_expand immutable_context master.(key_material) info) KeyDerivation in
  Ok (hmac_sha256 key (mac_domain ++ be_bytes 8 (blen value) ++ value)).

Definition semantic_intent_authenticator (master : PublicationProtectionKey)
    (immutable_context plaintext : bytes) : result bytes ProtectionError :=
  record_mac master immutable_context SEMANTIC_KEY_DOMAIN SEMANTIC_MAC_DOMAIN plaintext.

Definition verify_semantic_intent_authenticator (master : PublicationProtectionKey)
    (immutable_context plaintext expected : bytes) : result bool ProtectionError :=
  let? mac := record_mac master immutable_context SEMANTIC_KEY_DOMAIN SEMANTIC_MAC_DOMAIN plaintext in
  Ok (mac ==? expected).

Definition observation_authenticator (master : PublicationProtectionKey)
    (immutable_context observation : bytes) : result bytes ProtectionError :=
  record_mac master immutable_context OBSERVATION_KEY_DOMAIN OBSERVATION_MAC_DOMAIN observation.

Definition verify_observation_authenticator (master : PublicationProtectionKey)
    (immutable_context observation expected : bytes) : result bool ProtectionError :=
  let? mac :=
    record_mac master immutable_context OBSERVATION_KEY_DOMAIN OBSERVATION_MAC_DOMAIN observation in
  Ok (mac ==? expected).

Definition envelope_fingerprint (key_id : string) (nonce ciphertext context : bytes) : bytes :=
  sha256
    (append (append (append FINGERPRINT_DOMAIN (bytes_of_string key_id) ++ nonce) ciphertext)
       context).
End crypto.

(** ** The encrypted publication *)

Record ProtectedPublicationIntent := {
  intent_key_id : string;
  intent_nonce : bytes;
  intent_ciphertext : bytes;
  intent_fingerprint : bytes
}.

#[global] Instance ProtectedPublicationIntent_eq_dec : EqDecision ProtectedPublicationIntent.
Proof. solve_decision. Defined.

Definition exact_binding_bytes (context : bytes) (intent : ProtectedPublicationIntent) : bytes :=
  append_all EXACT_DOMAIN
    [ context; bytes_of_string intent.(intent_key_id); intent.(intent_nonce);
      intent.(intent_ciphertext); intent.(intent_fingerprint) ].

Section intent.
Context `{ReleaseCrypto}.

(** [random] is what [getrandom::fill] gave. *)
Definition intent_encrypt (random : option bytes) (plaintext : bytes)
    (key : PublicationProtectionKey) (release_context : bytes)
    : result ProtectedPublicationIntent ProtectionError :=
  let? _ := validate_plaintext_length (blen plaintext) in
  let? nonce := ok_or random Randomness in
  let aad := authentication_context release_context key.(key_key_id) in
  let? derived := derive_key key aad in
  let? ciphertext := ok_or (aead_encrypt derived nonce plaintext aad) Encryption in
  let? _ := validate_ciphertext_length (blen ciphertext) in
  Ok {| intent_key_id := key.(key_key_id);
        intent_nonce := nonce;
        intent_ciphertext := ciphertext;
        intent_fingerprint :=
          envelope_fingerprint key.(key_key_id) nonce ciphertext release_context |}.

Definition intent_from_record_fields (key_id : string) (nonce ciphertext fingerprint : bytes)
    (release_context : bytes) : result ProtectedPublicationIntent ProtectionError :=
  let? _ := validate_key_id key_id in
  let? _ := validate_ciphertext_length (blen ciphertext) in
  if fingerprint !=? envelope_fingerprint key_id nonce ciphertext release_context
  then Err FingerprintMismatch
  else Ok {| intent_key_id := key_id; intent_nonce := nonce;
             intent_ciphertext := ciphertext; intent_fingerprint := fingerprint |}.

Definition intent_decrypt (self : ProtectedPublicationIntent) (key : PublicationProtectionKey)
    (release_context : bytes) : result bytes ProtectionError :=
  if self.(intent_key_id) !=? key.(key_key_id) then Err KeyIdMismatch
  else
    let? _ := validate_ciphertext_length (blen self.(intent_ciphertext)) in
    if self.(intent_fingerprint)
       !=? envelope_fingerprint self.(intent_key_id) self.(intent_nonce)
             self.(intent_ciphertext) release_context
    then Err FingerprintMismatch
    else
      let aad := authentication_context release_context self.(intent_key_id) in
      let? derived := derive_key key aad in
      let? plaintext :=
        ok_or (aead_decrypt derived self.(intent_nonce) self.(intent_ciphertext) aad)
          Protection_Authentication in
      let? _ := validate_plaintext_length (blen plaintext) in
      Ok plaintext.
End intent.
