(* ===== verification/ReleaseStore.v ===== *)
(** * The release journal

    [crates/xmr-release-authority/src/store.rs]: the table of prepared releases
    and its operations, which grant the publication of each release once.

    Every operation checks its file, its connection and its schema before and
    after its transaction; what those checks, the statements and the commit
    answer is the argument [Storage] of each operation.  A check that fails
    after the commit leaves the committed table behind and returns an error. *)

From stdpp Require Import base gmap strings list numbers.
From S2P Require Import Prelude BridgeValues AssetEvidence SqlTable ReleaseCrypto.

Open Scope Z_scope.

Definition MAX_OBSERVATION_BYTES : Z := 65536.
Definition MAX_TARGET_BYTES : Z := 65536.
Definition PREPARED : string := "prepared".
Definition STARTED : string := "publication_started".
Definition ADMITTED : string := "admitted".
Definition AMBIGUOUS : string := "ambiguous".
Definition SUPPRESSED : string := "suppressed".

Inductive ReleaseError :=
| BindingMismatch
| ObservationReplay
| Release_Missing
| InvalidBinding
| InvalidPath
| InsecureDirectory
| UnsafeDatabaseFile
| DatabaseAlreadyExists
| FutureSchema
| ForeignSchema
| CorruptRecord
| Release_Authentication
| Release_Store.

#[global] Instance ReleaseError_eq_dec : EqDecision ReleaseError.
Proof. solve_decision. Defined.

(** ** Windows and states *)

Record ReleaseWindow := { window_start : Z; window_end : Z }.

#[global] Instance ReleaseWindow_eq_dec : EqDecision ReleaseWindow.
Proof. solve_decision. Defined.

Definition ReleaseWindow_new (start end_ : Z) : result ReleaseWindow ReleaseError :=
  if (end_ <=? start) || (i64_max <? end_) then Err InvalidBinding
  else Ok {| window_start := start; window_end := end_ |}.

Inductive ReleaseState := Prepared | PublicationStarted | Release_Admitted | Ambiguous | Suppressed.

#[global] Instance ReleaseState_eq_dec : EqDecision ReleaseState.
Proof. solve_decision. Defined.

Definition state_record (self : ReleaseState) : string * Z :=
  match self with
  | Prepared => (PREPARED, 0)
  | PublicationStarted => (STARTED, 1)
  | Release_Admitted => (ADMITTED, 2)
  | Ambiguous => (AMBIGUOUS, 2)
  | Suppressed => (SUPPRESSED, 2)
  end.

Definition state_from_record (state : string) (revision : Z) : result ReleaseState ReleaseError :=
  if (state ==? PREPARED) && (revision =? 0) then Ok Prepared
  else if (state ==? STARTED) && (revision =? 1) then Ok PublicationStarted
  else if (state ==? ADMITTED) && (revision =? 2) then Ok Release_Admitted
  else if (state ==? AMBIGUOUS) && (revision =? 2) then Ok Ambiguous
  else if (state ==? SUPPRESSED) && (revision =? 2) then Ok Suppressed
  else Err CorruptRecord.

(** ** Rows, snapshots and attempts *)

Record StoredReleaseRecord := {
  row_activation : bytes;
  row_swap_id : bytes;
  row_run_id : bytes;
  row_lez_commitment : bytes;
  row_topology_commitment : bytes;
  row_resource_id : bytes;
  row_observation : bytes;
  row_observation_authenticator : bytes;
  row_claim_partial_commitment : bytes;
  row_target : bytes;
  row_publication_id : bytes;
  row_window_start : Z;
  row_window_end : Z;
  row_binding : bytes;
  row_semantic_authenticator : bytes;
  row_key_id : string;
  row_nonce : bytes;
  row_ciphertext : bytes;
  row_fingerprint : bytes;
  row_state_authenticator : bytes;
  row_state : string;
  row_revision : Z
}.

Record ReleaseSnapshot := {
  snap_activation : bytes;
  snap_run_id : bytes;
  snap_resource_id : bytes;
  snap_observation : bytes;
  snap_observation_authenticator : bytes;
  snap_binding : bytes;
  snap_semantic_authenticator : bytes;
  snap_target : bytes;
  snap_window : ReleaseWindow;
  snap_publication_id : bytes;
  snap_immutable_context : bytes;
  snap_intent : ProtectedPublicationIntent;
  snap_state_authenticator : bytes;
  snap_state : ReleaseState
}.

#[global] Instance ReleaseSnapshot_eq_dec : EqDecision ReleaseSnapshot.
Proof. solve_decision. Defined.

Record PublicationAttempt := {
  attempt_activation : bytes;
  attempt_run_id : bytes;
  attempt_binding : bytes;
  attempt_target : bytes;
  attempt_publication_id : bytes;
  attempt_window : ReleaseWindow;
  attempt_immutable_context : bytes;
  attempt_intent : ProtectedPublicationIntent
}.

Inductive PublicationDecision := Decision_Send (attempt : PublicationAttempt) | Decision_ObserveOnly.

(** ** The table *)

(** SQLite's [length] of a text: its characters before the first NUL. *)
Fixpoint text_characters (text : bytes) : Z :=
  match text with
  | [] => 0
  | b :: text =>
      if b ==? Byte.x00 then 0
      else (if (128 <=? Z_of_byte b) && (Z_of_byte b <? 192) then 0 else 1) + text_characters text
  end.

Definition between (low v high : Z) : bool := (low <=? v) && (v <=? high).
Definition id32 (b : bytes) : bool := len_is 32 b && (b !=? zero32).

Definition release_check (_ : bytes) (row : StoredReleaseRecord) : bool :=
  id32 row.(row_activation)
  && len_is 32 row.(row_swap_id)
  && len_is 32 row.(row_run_id)
  && id32 row.(row_lez_commitment)
  && id32 row.(row_topology_commitment)
  && id32 row.(row_resource_id)
  && between 1 (blen row.(row_observation)) 65536
  && len_is 32 row.(row_observation_authenticator)
  && id32 row.(row_claim_partial_commitment)
  && between 1 (blen row.(row_target)) 65536
  && id32 row.(row_publication_id)
  && between 0 row.(row_window_start) i64_max
  && (row.(row_window_start) <? row.(row_window_end)) && (row.(row_window_end) <=? i64_max)
  && len_is 32 row.(row_binding)
  && len_is 32 row.(row_semantic_authenticator)
  && between 1 (text_characters (bytes_of_string row.(row_key_id))) 128
  && len_is 24 row.(row_nonce)
  && between 17 (blen row.(row_ciphertext)) 2000016
  && len_is 32 row.(row_fingerprint)
  && len_is 32 row.(row_state_authenticator)
  && str_in row.(row_state) [PREPARED; STARTED; ADMITTED; AMBIGUOUS; SUPPRESSED]
  && (((row.(row_state) ==? PREPARED) && (row.(row_revision) =? 0))
      || ((row.(row_state) ==? STARTED) && (row.(row_revision) =? 1))
      || ((row.(row_state) ==? ADMITTED) && (row.(row_revision) =? 2))
      || ((row.(row_state) ==? AMBIGUOUS) && (row.(row_revision) =? 2))
      || ((row.(row_state) ==? SUPPRESSED) && (row.(row_revision) =? 2))).

Abbreviation ReleaseDb :=
  (@gmap bytes (@list.list_eq_dec Byte.byte byte_eq_decision)
     (@list_countable Byte.byte byte_eq_decision byte_countable) StoredReleaseRecord).

Definition resource_key (_ : bytes) (row : StoredReleaseRecord) : bytes := row.(row_resource_id).
Definition binding_key (_ : bytes) (row : StoredReleaseRecord) : bytes := row.(row_binding).
Definition swap_run_key (_ : bytes) (row : StoredReleaseRecord) : bytes * bytes :=
  (row.(row_swap_id), row.(row_run_id)).

(** [INSERT], refused by the primary key, a check or one of the three [UNIQUE]
    constraints. *)
Definition release_insert (db : ReleaseDb) (row : StoredReleaseRecord) : option ReleaseDb :=
  if unique_taken binding_key db row.(row_binding)
     || unique_taken swap_run_key db (row.(row_swap_id), row.(row_run_id))
  then None
  else sql_insert release_check resource_key db row.(row_activation) row.

(** ** What the storage answers during one call *)

Inductive StoragePoint :=
| RevalidateBefore | Lock | ValidateBefore | Begin | ValidateTransaction
| Select | ResourceExists | SwapRunExists | Execute
| ValidateAfter | RevalidateAfter.

Record Storage := {
  storage_fault : StoragePoint → option ReleaseError;
  storage_commit : Fate
}.

(** A check whose error the caller returns, and a statement whose error the
    caller replaces. *)
Definition checked (io : Storage) (point : StoragePoint) : result unit ReleaseError :=
  match io.(storage_fault) point with Some e => Err e | None => Ok tt end.
Definition statement (io : Storage) (point : StoragePoint) (e : ReleaseError)
    : result unit ReleaseError := map_err (checked io point) (λ _, e).

(** From [revalidate_storage] to the opened transaction. *)
Definition begin_transaction (io : Storage) : result unit ReleaseError :=
  let? _ := statement io Lock Release_Store in
  let? _ := checked io ValidateBefore in
  statement io Begin Release_Store.

Definition select_record (io : Storage) (db : ReleaseDb) (activation : bytes)
    : result (option StoredReleaseRecord) ReleaseError :=
  let? _ := statement io Select CorruptRecord in
  Ok (db !! activation).

Definition commit {A : Type} (io : Storage) (db : ReleaseDb) (body : result (ReleaseDb * A) ReleaseError)
    : ReleaseDb * result A ReleaseError :=
  match body with
  | Err e => (db, Err e)
  | Ok (db', a) =>
      match io.(storage_commit) with
      | Delivered => (db', Ok a)
      | RolledBack => (db, Err Release_Store)
      | CommittedUnseen => (db', Err Release_Store)
      end
  end.

(** The checks after a commit. *)
Definition recheck {A : Type} (io : Storage) (r : result A ReleaseError) : result A ReleaseError :=
  let? a := r in
  let? _ := checked io ValidateAfter in
  let? _ := checked io RevalidateAfter in
  Ok a.

Definition commit_checked {A : Type} (io : Storage) (db : ReleaseDb)
    (body : result (ReleaseDb * A) ReleaseError) : ReleaseDb * result A ReleaseError :=
  let '(db', r) := commit io db body in (db', recheck io r).

(** ** Validation *)

Definition array (n : Z) (b : bytes) : result bytes ReleaseError :=
  if blen b =? n then Ok b else Err CorruptRecord.

Section validation.
Context `{ReleaseCrypto}.

Definition StoredReleaseRecord_validate (self : StoredReleaseRecord)
    : result ReleaseSnapshot ReleaseError :=
  let? _ := reject_if
    ((blen self.(row_observation) =? 0)
     || (MAX_OBSERVATION_BYTES <? blen self.(row_observation))
     || (blen self.(row_target) =? 0)
     || (MAX_TARGET_BYTES <? blen self.(row_target))
     || (self.(row_window_start) <? 0)
     || (self.(row_window_end) <=? self.(row_window_start))) CorruptRecord in
  let? _ := map_err (validate_key_id self.(row_key_id)) (λ _, CorruptRecord) in
  let? _ := map_err (validate_ciphertext_length (blen self.(row_ciphertext)))
              (λ _, CorruptRecord) in
  let? activation := array 32 self.(row_activation) in
  let? swap_id := array 32 self.(row_swap_id) in
  let? run_id := array 32 self.(row_run_id) in
  let? lez_commitment := array 32 self.(row_lez_commitment) in
  let? topology_commitment := array 32 self.(row_topology_commitment) in
  let? resource_id := array 32 self.(row_resource_id) in
  let? observation_authenticator := array 32 self.(row_observation_authenticator) in
  let? claim_partial_commitment := array 32 self.(row_claim_partial_commitment) in
  let? publication_id := array 32 self.(row_publication_id) in
  let? binding := array 32 self.(row_binding) in
  let? semantic_authenticator := array 32 self.(row_semantic_authenticator) in
  let? nonce := array 24 self.(row_nonce) in
  let? fingerprint := array 32 self.(row_fingerprint) in
  let? state_authenticator := array 32 self.(row_state_authenticator) in
  let? _ := reject_if
    ((activation ==? zero32) || (swap_id ==? zero32) || (run_id ==? zero32)
     || (activation !=? derive_activation_id swap_id run_id)
     || (lez_commitment ==? zero32) || (topology_commitment ==? zero32)
     || (resource_id ==? zero32) || (claim_partial_commitment ==? zero32)
     || (publication_id ==? zero32)) CorruptRecord in
  let? window_start :=
    if self.(row_window_start) <? 0 then Err CorruptRecord else Ok self.(row_window_start) in
  let? window_end :=
    if self.(row_window_end) <? 0 then Err CorruptRecord else Ok self.(row_window_end) in
  let immutable_context :=
    immutable_release_context_bytes activation swap_id run_id lez_commitment
      topology_commitment resource_id claim_partial_commitment self.(row_target)
      publication_id window_start window_end in
  let? intent :=
    map_err (intent_from_record_fields self.(row_key_id) nonce self.(row_ciphertext)
               fingerprint immutable_context) (λ _, CorruptRecord) in
  let? _ := reject_if (sha256 (exact_binding_bytes immutable_context intent) !=? binding)
              CorruptRecord in
  let? state := state_from_record self.(row_state) self.(row_revision) in
  Ok {| snap_activation := activation;
        snap_run_id := run_id;
        snap_resource_id := resource_id;
        snap_observation := self.(row_observation);
        snap_observation_authenticator := observation_authenticator;
        snap_binding := binding;
        snap_semantic_authenticator := semantic_authenticator;
        snap_target := self.(row_target);
        snap_window := {| window_start := window_start; window_end := window_end |};
        snap_publication_id := publication_id;
        snap_immutable_context := immutable_context;
        snap_intent := intent;
        snap_state_authenticator := state_authenticator;
        snap_state := state |}.

Definition record_matches_plan (snapshot : ReleaseSnapshot) (plan : ReleasePlan)
    (immutable_context : bytes) : bool :=
  (snapshot.(snap_activation) ==? plan.(plan_activation))
  && (snapshot.(snap_run_id) ==? plan.(plan_run_id))
  && (snapshot.(snap_resource_id) ==? plan.(plan_resource_id))
  && (snapshot.(snap_target) ==? plan.(plan_target))
  && (snapshot.(snap_publication_id) ==? plan.(plan_publication_id))
  && (snapshot.(snap_window).(window_start) =? plan.(plan_window_start))
  && (snapshot.(snap_window).(window_end) =? plan.(plan_window_end))
  && (snapshot.(snap_immutable_context) ==? immutable_context).

Definition same_snapshot_binding (left right : ReleaseSnapshot) : bool :=
  (left.(snap_activation) ==? right.(snap_activation))
  && (left.(snap_run_id) ==? right.(snap_run_id))
  && (left.(snap_resource_id) ==? right.(snap_resource_id))
  && (left.(snap_binding) ==? right.(snap_binding))
  && (left.(snap_semantic_authenticator) ==? right.(snap_semantic_authenticator))
  && (left.(snap_target) ==? right.(snap_target))
  && (left.(snap_publication_id) ==? right.(snap_publication_id))
  && (left.(snap_window) ==? right.(snap_window))
  && (left.(snap_immutable_context) ==? right.(snap_immutable_context))
  && (left.(snap_intent) ==? right.(snap_intent)).

(** Errors of the cryptographic operations are one error of the journal. *)
Definition authentic {A} (r : result A ProtectionError) : result A ReleaseError :=
  map_err r (λ _, Release_Authentication).

Definition authenticate_snapshot (snapshot : ReleaseSnapshot) (key : PublicationProtectionKey)
    : result bytes ReleaseError :=
  let context := snapshot.(snap_immutable_context) in
  let? plaintext := authentic (intent_decrypt snapshot.(snap_intent) key context) in
  let? semantic := authentic (verify_semantic_intent_authenticator key context plaintext
                                snapshot.(snap_semantic_authenticator)) in
  let? _ := reject_if (negb semantic) Release_Authentication in
  let? observation := authentic (verify_observation_authenticator key context
                                   snapshot.(snap_observation)
                                   snapshot.(snap_observation_authenticator)) in
  let? _ := reject_if (negb observation) Release_Authentication in
  let '(state, revision) := state_record snapshot.(snap_state) in
  let? state := authentic (verify_release_state_authenticator key context snapshot.(snap_binding)
                             state revision snapshot.(snap_state_authenticator)) in
  let? _ := reject_if (negb state) Release_Authentication in
  Ok plaintext.

Definition validate_plan (plan : ReleasePlan) : result unit ReleaseError :=
  reject_if
    ((plan.(plan_activation) ==? zero32)
     || (plan.(plan_swap_id) ==? zero32)
     || (plan.(plan_run_id) ==? zero32)
     || (plan.(plan_activation) !=? derive_activation_id plan.(plan_swap_id) plan.(plan_run_id))
     || (plan.(plan_lez_commitment) ==? zero32)
     || (plan.(plan_topology_commitment) ==? zero32)
     || (plan.(plan_resource_id) ==? zero32)
     || (blen plan.(plan_observation) =? 0)
     || (MAX_OBSERVATION_BYTES <? blen plan.(plan_observation))
     || (plan.(plan_claim_partial_commitment) ==? zero32)
     || (blen plan.(plan_target) =? 0)
     || (MAX_TARGET_BYTES <? blen plan.(plan_target))
     || (plan.(plan_publication_id) ==? zero32)
     || (plan.(plan_window_end) <=? plan.(plan_window_start))
     || (i64_max <? plan.(plan_window_end))
     || negb (is_ok (validate_plaintext_length (blen plan.(plan_publication))))) InvalidBinding.
End validation.

(** ** Operations *)

(** The columns an [UPDATE] assigns. *)
Definition set_observation (observation authenticator : bytes) (row : StoredReleaseRecord)
    : StoredReleaseRecord :=
  {| row_activation := row.(row_activation); row_swap_id := row.(row_swap_id);
     row_run_id := row.(row_run_id); row_lez_commitment := row.(row_lez_commitment);
     row_topology_commitment := row.(row_topology_commitment);
     row_resource_id := row.(row_resource_id); row_observation := observation;
     row_observation_authenticator := authenticator;
     row_claim_partial_commitment := row.(row_claim_partial_commitment);
     row_target := row.(row_target); row_publication_id := row.(row_publication_id);
     row_window_start := row.(row_window_start); row_window_end := row.(row_window_end);
     row_binding := row.(row_binding);
     row_semantic_authenticator := row.(row_semantic_authenticator);
     row_key_id := row.(row_key_id); row_nonce := row.(row_nonce);
     row_ciphertext := row.(row_ciphertext); row_fingerprint := row.(row_fingerprint);
     row_state_authenticator := row.(row_state_authenticator);
     row_state := row.(row_state); row_revision := row.(row_revision) |}.

Definition set_state (state : ReleaseState) (authenticator : bytes) (row : StoredReleaseRecord)
    : StoredReleaseRecord :=
  {| row_activation := row.(row_activation); row_swap_id := row.(row_swap_id);
     row_run_id := row.(row_run_id); row_lez_commitment := row.(row_lez_commitment);
     row_topology_commitment := row.(row_topology_commitment);
     row_resource_id := row.(row_resource_id); row_observation := row.(row_observation);
     row_observation_authenticator := row.(row_observation_authenticator);
     row_claim_partial_commitment := row.(row_claim_partial_commitment);
     row_target := row.(row_target); row_publication_id := row.(row_publication_id);
     row_window_start := row.(row_window_start); row_window_end := row.(row_window_end);
     row_binding := row.(row_binding);
     row_semantic_authenticator := row.(row_semantic_authenticator);
     row_key_id := row.(row_key_id); row_nonce := row.(row_nonce);
     row_ciphertext := row.(row_ciphertext); row_fingerprint := row.(row_fingerprint);
     row_state_authenticator := authenticator;
     row_state := (state_record state).1; row_revision := (state_record state).2 |}.

(** [UPDATE release SET state ... WHERE activation, run_id, binding, state and
    revision], the compare-and-swap of every transition. *)
Definition update_state (io : Storage) (db : ReleaseDb) (activation run_id binding : bytes)
    (from to : ReleaseState) (authenticator : bytes) (unchanged : ReleaseError)
    : result ReleaseDb ReleaseError :=
  let? _ := statement io Execute Release_Store in
  let? updated :=
    ok_or (sql_update release_check db activation
             (λ row, (row.(row_run_id) ==? run_id) && (row.(row_binding) ==? binding)
                     && (row.(row_state) ==? (state_record from).1)
                     && (row.(row_revision) =? (state_record from).2))
             (set_state to authenticator)) Release_Store in
  let? _ := reject_if (updated.2 !=? 1) unchanged in
  Ok updated.1.

Section operations.
Context `{ReleaseCrypto}.

Definition snapshot_from_plan (plan : ReleasePlan) (immutable_context : bytes)
    (intent : ProtectedPublicationIntent)
    (binding semantic_authenticator observation_authenticator state_authenticator : bytes)
    : ReleaseSnapshot :=
  {| snap_activation := plan.(plan_activation);
     snap_run_id := plan.(plan_run_id);
     snap_resource_id := plan.(plan_resource_id);
     snap_observation := plan.(plan_observation);
     snap_observation_authenticator := observation_authenticator;
     snap_binding := binding;
     snap_semantic_authenticator := semantic_authenticator;
     snap_target := plan.(plan_target);
     snap_window := {| window_start := plan.(plan_window_start);
                       window_end := plan.(plan_window_end) |};
     snap_publication_id := plan.(plan_publication_id);
     snap_immutable_context := immutable_context;
     snap_intent := intent;
     snap_state_authenticator := state_authenticator;
     snap_state := Prepared |}.

Definition with_observation (observation authenticator : bytes) (s : ReleaseSnapshot)
    : ReleaseSnapshot :=
  {| snap_activation := s.(snap_activation); snap_run_id := s.(snap_run_id);
     snap_resource_id := s.(snap_resource_id); snap_observation := observation;
     snap_observation_authenticator := authenticator; snap_binding := s.(snap_binding);
     snap_semantic_authenticator := s.(snap_semantic_authenticator);
     snap_target := s.(snap_target); snap_window := s.(snap_window);
     snap_publication_id := s.(snap_publication_id);
     snap_immutable_context := s.(snap_immutable_context); snap_intent := s.(snap_intent);
     snap_state_authenticator := s.(snap_state_authenticator); snap_state := s.(snap_state) |}.

(** A plan whose activation is already recorded. *)
Definition prepare_existing (io : Storage) (plan : ReleasePlan) (key : PublicationProtectionKey)
    (new_observation_authenticator : bytes) (db : ReleaseDb) (existing : StoredReleaseRecord)
    : result (ReleaseDb * ReleaseSnapshot) ReleaseError :=
  let immutable_context := plan_immutable_context plan in
  let? snapshot := StoredReleaseRecord_validate existing in
  let? _ := authenticate_snapshot snapshot key in
  let? _ := reject_if (negb (record_matches_plan snapshot plan immutable_context))
              BindingMismatch in
  let? semantic := authentic (verify_semantic_intent_authenticator key immutable_context
                                plan.(plan_publication)
                                snapshot.(snap_semantic_authenticator)) in
  let? _ := reject_if (negb semantic) BindingMismatch in
  if snapshot.(snap_observation) !=? plan.(plan_observation) then
    let? _ := statement io Execute Release_Store in
    let? updated :=
      ok_or (sql_update release_check db plan.(plan_activation)
               (λ row, row.(row_binding) ==? snapshot.(snap_binding))
               (set_observation plan.(plan_observation) new_observation_authenticator))
        Release_Store in
    let? _ := reject_if (updated.2 !=? 1) CorruptRecord in
    Ok (updated.1,
        with_observation plan.(plan_observation) new_observation_authenticator snapshot)
  else Ok (db, snapshot).

Definition new_row (plan : ReleasePlan) (intent : ProtectedPublicationIntent)
    (binding semantic_authenticator observation_authenticator state_authenticator : bytes)
    : StoredReleaseRecord :=
  {| row_activation := plan.(plan_activation); row_swap_id := plan.(plan_swap_id);
     row_run_id := plan.(plan_run_id); row_lez_commitment := plan.(plan_lez_commitment);
     row_topology_commitment := plan.(plan_topology_commitment);
     row_resource_id := plan.(plan_resource_id); row_observation := plan.(plan_observation);
     row_observation_authenticator := observation_authenticator;
     row_claim_partial_commitment := plan.(plan_claim_partial_commitment);
     row_target := plan.(plan_target); row_publication_id := plan.(plan_publication_id);
     row_window_start := plan.(plan_window_start); row_window_end := plan.(plan_window_end);
     row_binding := binding; row_semantic_authenticator := semantic_authenticator;
     row_key_id := intent.(intent_key_id); row_nonce := intent.(intent_nonce);
     row_ciphertext := intent.(intent_ciphertext);
     row_fingerprint := intent.(intent_fingerprint);
     row_state_authenticator := state_authenticator;
     row_state := PREPARED; row_revision := 0 |}.

(** A plan whose activation is new: the publication is encrypted only now. *)
Definition prepare_new (io : Storage) (random : option bytes) (plan : ReleasePlan)
    (key : PublicationProtectionKey)
    (semantic_authenticator new_observation_authenticator : bytes) (db : ReleaseDb)
    : result (ReleaseDb * ReleaseSnapshot) ReleaseError :=
  let immutable_context := plan_immutable_context plan in
  let? _ := statement io ResourceExists Release_Store in
  let? _ := reject_if (unique_taken resource_key db plan.(plan_resource_id)) ObservationReplay in
  let? _ := statement io SwapRunExists Release_Store in
  let? _ := reject_if (unique_taken swap_run_key db (plan.(plan_swap_id), plan.(plan_run_id)))
              BindingMismatch in
  let? intent := authentic (intent_encrypt random plan.(plan_publication) key immutable_context) in
  let binding := sha256 (exact_binding_bytes immutable_context intent) in
  let? state_authenticator :=
    authentic (release_state_authenticator key immutable_context binding PREPARED 0) in
  let? _ := reject_if ((i64_max <? plan.(plan_window_start)) || (i64_max <? plan.(plan_window_end)))
              InvalidBinding in
  let? _ := statement io Execute Release_Store in
  let? db' :=
    ok_or (release_insert db
             (new_row plan intent binding semantic_authenticator new_observation_authenticator
                state_authenticator)) BindingMismatch in
  Ok (db', snapshot_from_plan plan immutable_context intent binding semantic_authenticator
             new_observation_authenticator state_authenticator).

Definition prepare (io : Storage) (random : option bytes) (plan : ReleasePlan)
    (key : PublicationProtectionKey) (db : ReleaseDb)
    : ReleaseDb * result ReleaseSnapshot ReleaseError :=
  let immutable_context := plan_immutable_context plan in
  commit_checked io db
    (let? _ := validate_plan plan in
     let? _ := checked io RevalidateBefore in
     let? semantic_authenticator :=
       authentic (semantic_intent_authenticator key immutable_context plan.(plan_publication)) in
     let? new_observation_authenticator :=
       authentic (observation_authenticator key immutable_context plan.(plan_observation)) in
     let? _ := begin_transaction io in
     let? _ := checked io ValidateTransaction in
     let? record := select_record io db plan.(plan_activation) in
     match record with
     | Some existing =>
         prepare_existing io plan key new_observation_authenticator db existing
     | None =>
         prepare_new io random plan key semantic_authenticator new_observation_authenticator db
     end).

Definition load_by_activation_run (io : Storage) (activation run_id : bytes)
    (key : PublicationProtectionKey) (db : ReleaseDb) : result ReleaseSnapshot ReleaseError :=
  let? _ := checked io RevalidateBefore in
  let? _ := statement io Lock Release_Store in
  let? _ := checked io ValidateBefore in
  let? record := select_record io db activation in
  let? record := ok_or record Release_Missing in
  let? snapshot := StoredReleaseRecord_validate record in
  let? _ := reject_if (snapshot.(snap_run_id) !=? run_id) BindingMismatch in
  let? _ := authenticate_snapshot snapshot key in
  let? _ := checked io RevalidateAfter in
  Ok snapshot.

(** The validated and authenticated row an open transaction reads. *)
Definition current_snapshot (io : Storage) (activation : bytes) (key : PublicationProtectionKey)
    (db : ReleaseDb) : result ReleaseSnapshot ReleaseError :=
  let? record := select_record io db activation in
  let? record := ok_or record Release_Missing in
  let? current := StoredReleaseRecord_validate record in
  let? _ := authenticate_snapshot current key in
  Ok current.

Definition exact_publication (io : Storage) (snapshot : ReleaseSnapshot)
    (key : PublicationProtectionKey) (db : ReleaseDb)
    : ReleaseDb * result PreparedTransaction ReleaseError :=
  commit_checked io db
    (let? _ := checked io RevalidateBefore in
     let? _ := authenticate_snapshot snapshot key in
     let? _ := begin_transaction io in
     let? _ := checked io ValidateTransaction in
     let? current := current_snapshot io snapshot.(snap_activation) key db in
     let? _ := reject_if (current !=? snapshot) BindingMismatch in
     let? db' :=
       match current.(snap_state) with
       | Prepared | Suppressed => Err InvalidBinding
       | PublicationStarted =>
           let? authenticator :=
             authentic (release_state_authenticator key current.(snap_immutable_context)
                          current.(snap_binding) AMBIGUOUS 2) in
           update_state io db current.(snap_activation) current.(snap_run_id)
             current.(snap_binding) PublicationStarted Ambiguous authenticator BindingMismatch
       | Release_Admitted | Ambiguous => Ok db
       end in
     let? exact_bytes :=
       authentic (intent_decrypt current.(snap_intent) key current.(snap_immutable_context)) in
     let? exact_bytes := map_err (ExactTransactionBytes_new exact_bytes) (λ _, CorruptRecord) in
     Ok (db', {| prepared_transaction_id :=
                   {| Hex32_as_bytes := current.(snap_publication_id) |};
                 prepared_exact_bytes := exact_bytes |})).

Definition attempt_of (snapshot : ReleaseSnapshot) : PublicationAttempt :=
  {| attempt_activation := snapshot.(snap_activation);
     attempt_run_id := snapshot.(snap_run_id);
     attempt_binding := snapshot.(snap_binding);
     attempt_target := snapshot.(snap_target);
     attempt_publication_id := snapshot.(snap_publication_id);
     attempt_window := snapshot.(snap_window);
     attempt_immutable_context := snapshot.(snap_immutable_context);
     attempt_intent := snapshot.(snap_intent) |}.

(** A caller that finds the send already granted skips the checks after its
    (empty) commit. *)
Definition begin_publication (io : Storage) (snapshot : ReleaseSnapshot)
    (key : PublicationProtectionKey) (db : ReleaseDb)
    : ReleaseDb * result PublicationDecision ReleaseError :=
  let '(db', r) :=
    commit io db
      (let? _ := checked io RevalidateBefore in
       let? _ := begin_transaction io in
       let? _ := checked io ValidateTransaction in
       let? current := current_snapshot io snapshot.(snap_activation) key db in
       let? _ := reject_if (negb (same_snapshot_binding current snapshot)) BindingMismatch in
       if current.(snap_state) !=? Prepared then Ok (db, Decision_ObserveOnly)
       else
         let? started_authenticator :=
           authentic (release_state_authenticator key current.(snap_immutable_context)
                        current.(snap_binding) STARTED 1) in
         let? db' :=
           update_state io db snapshot.(snap_activation) snapshot.(snap_run_id)
             snapshot.(snap_binding) Prepared PublicationStarted started_authenticator
             CorruptRecord in
         Ok (db', Decision_Send (attempt_of snapshot))) in
  match r with
  | Ok (Decision_Send attempt) => (db', recheck io (Ok (Decision_Send attempt)))
  | r => (db', r)
  end.

Definition finish_publication (io : Storage) (attempt : PublicationAttempt)
    (key : PublicationProtectionKey) (terminal : ReleaseState) (db : ReleaseDb)
    : ReleaseDb * result unit ReleaseError :=
  commit_checked io db
    (let? _ := reject_if (negb ((terminal ==? Release_Admitted) || (terminal ==? Ambiguous)
                                || (terminal ==? Suppressed))) InvalidBinding in
     let '(terminal_state, terminal_revision) := state_record terminal in
     let? _ := checked io RevalidateBefore in
     let? _ := begin_transaction io in
     let? current := current_snapshot io attempt.(attempt_activation) key db in
     let? _ := reject_if
       ((current.(snap_run_id) !=? attempt.(attempt_run_id))
        || (current.(snap_binding) !=? attempt.(attempt_binding))
        || (current.(snap_immutable_context) !=? attempt.(attempt_immutable_context))
        || (current.(snap_intent) !=? attempt.(attempt_intent))
        || (current.(snap_state) !=? PublicationStarted)) BindingMismatch in
     let? terminal_authenticator :=
       authentic (release_state_authenticator key current.(snap_immutable_context)
                    current.(snap_binding) terminal_state terminal_revision) in
     let? db' :=
       update_state io db attempt.(attempt_activation) attempt.(attempt_run_id)
         attempt.(attempt_binding) PublicationStarted terminal terminal_authenticator
         CorruptRecord in
     Ok (db', tt)).

Definition validate_for_publication (io : Storage) (snapshot : ReleaseSnapshot)
    (key : PublicationProtectionKey) : result unit ReleaseError :=
  let? _ := checked io RevalidateBefore in
  let? _ := authenticate_snapshot snapshot key in
  checked io RevalidateAfter.
End operations.
