(* ===== verification/ReleaseIssuer.v ===== *)
(** * Issuing a release

    [crates/xmr-release-authority/src/issuer.rs]: the release plan of a swap from
    its agreed terms, the finalized funding of the LEZ escrow, the prepared claim
    authorization and the observed monero output; with the escrow terms of
    [crates/lez-bridge-protocol/src/xmr_v3.rs] and the evidence the adapters
    ([crates/lez-bridge-adapter/src/xmr_v3_first_lock.rs],
    [xmr_v3_claim_authorization.rs], [crates/xmr-monero-adapter/src/topology.rs])
    hand over.  The derivation of the terms from the two agreements, which
    checks curve points and proofs, is an argument of the operation. *)

From stdpp Require Import base gmap strings list numbers.
From S2P Require Import Prelude SwapCore BridgeValues AssetEvidence SqlTable ReleaseCrypto ReleaseStore.

Open Scope Z_scope.

(** ** Escrow terms *)

Record XmrNativeEscrowTermsV3 := {
  xt_swap_id : Hex32;
  xt_activation_commitment : Hex32;
  xt_escrow_program_id : Hex32;
  xt_authenticated_transfer_program_id : Hex32;
  xt_metadata_account_id : Hex32;
  xt_custody_account_id : Hex32;
  xt_depositor : Participant;
  xt_depositor_account_id : Hex32;
  xt_claimant : Participant;
  xt_claimant_account_id : Hex32;
  xt_claim_aggregate_x_only_public_key : Hex32;
  xt_claim_authority_account_id : Hex32;
  xt_refund_aggregate_x_only_public_key : Hex32;
  xt_refund_authority_account_id : Hex32;
  xt_maker_dleq_transcript_commitment : Hex32;
  xt_taker_dleq_transcript_commitment : Hex32;
  xt_claim_partial_context_binding : Hex32;
  xt_claim_partial_commitment : Hex32;
  xt_amount : Z;
  xt_refund_at_ms : Z;
  xt_punish_at_ms : Z;
  xt_claim_message_hash : Hex32;
  xt_refund_message_hash : Hex32;
  xt_punish_message_hash : Hex32
}.

#[global] Instance XmrNativeEscrowTermsV3_eq_dec : EqDecision XmrNativeEscrowTermsV3.
Proof. solve_decision. Defined.

Fixpoint validate_nonzero (values : list (string * Hex32)) : result unit ProtocolValueError :=
  match values with
  | [] => Ok tt
  | (name, value) :: values =>
      if value ==? zero_hex32 then Err (ZeroXmrValue name) else validate_nonzero values
  end.

Definition ensure_distinct (left right : string * Hex32) : result unit ProtocolValueError :=
  if left.2 ==? right.2 then Err (AliasedXmrValues left.1 right.1) else Ok tt.

Fixpoint ensure_distinct_from (first : string * Hex32) (values : list (string * Hex32))
    : result unit ProtocolValueError :=
  match values with
  | [] => Ok tt
  | other :: values =>
      let? _ := ensure_distinct first other in ensure_distinct_from first values
  end.

Fixpoint ensure_all_distinct (values : list (string * Hex32)) : result unit ProtocolValueError :=
  match values with
  | [] => Ok tt
  | first :: values =>
      let? _ := ensure_distinct_from first values in ensure_all_distinct values
  end.

Definition validate_distinct_nonzero (values : list (string * Hex32))
    : result unit ProtocolValueError :=
  let? _ := validate_nonzero values in ensure_all_distinct values.

Definition validate_terms_input (input : XmrNativeEscrowTermsV3) : result unit ProtocolValueError :=
  let? _ := reject_if ((input.(xt_depositor) !=? Participant_Taker)
                       || (input.(xt_claimant) !=? Participant_Maker)) InvalidXmrRoleMapping in
  let? _ := reject_if (input.(xt_amount) =? 0) ZeroEscrowAmount in
  let? _ := reject_if ((input.(xt_refund_at_ms) =? 0)
                       || (input.(xt_punish_at_ms) <=? input.(xt_refund_at_ms)))
              InvalidXmrWindows in
  let? _ := validate_distinct_nonzero
    [ ("escrow program id", input.(xt_escrow_program_id));
      ("authenticated-transfer program id", input.(xt_authenticated_transfer_program_id));
      ("metadata account id", input.(xt_metadata_account_id));
      ("custody account id", input.(xt_custody_account_id));
      ("depositor account id", input.(xt_depositor_account_id));
      ("claimant account id", input.(xt_claimant_account_id));
      ("claim authority account id", input.(xt_claim_authority_account_id));
      ("refund authority account id", input.(xt_refund_authority_account_id)) ]%string in
  let? _ := validate_nonzero
    [ ("swap id", input.(xt_swap_id));
      ("activation commitment", input.(xt_activation_commitment));
      ("claim aggregate x-only public key", input.(xt_claim_aggregate_x_only_public_key));
      ("refund aggregate x-only public key", input.(xt_refund_aggregate_x_only_public_key));
      ("maker DLEQ transcript commitment", input.(xt_maker_dleq_transcript_commitment));
      ("taker DLEQ transcript commitment", input.(xt_taker_dleq_transcript_commitment));
      ("claim partial context binding", input.(xt_claim_partial_context_binding));
      ("claim partial commitment", input.(xt_claim_partial_commitment));
      ("claim message hash", input.(xt_claim_message_hash));
      ("refund message hash", input.(xt_refund_message_hash));
      ("punish message hash", input.(xt_punish_message_hash)) ]%string in
  let? _ := ensure_distinct
    ("claim aggregate x-only public key"%string, input.(xt_claim_aggregate_x_only_public_key))
    ("refund aggregate x-only public key"%string, input.(xt_refund_aggregate_x_only_public_key)) in
  let? _ := ensure_distinct
    ("maker DLEQ transcript commitment"%string, input.(xt_maker_dleq_transcript_commitment))
    ("taker DLEQ transcript commitment"%string, input.(xt_taker_dleq_transcript_commitment)) in
  validate_distinct_nonzero
    [ ("claim message hash", input.(xt_claim_message_hash));
      ("refund message hash", input.(xt_refund_message_hash));
      ("punish message hash", input.(xt_punish_message_hash)) ]%string.

(** The wire form holds the same fields, so terms are their validated input. *)
Definition XmrNativeEscrowTermsV3_new (input : XmrNativeEscrowTermsV3)
    : result XmrNativeEscrowTermsV3 ProtocolValueError :=
  let? _ := validate_terms_input input in Ok input.

(** ** Encodings *)

Definition RUN_ID_DOMAIN := bytes_of_string "lez-atomic-swaps/xmr-release/run-id/v1".
Definition LEZ_EVIDENCE_DOMAIN := bytes_of_string "lez-atomic-swaps/xmr-release/lez-evidence/v1".
Definition TOPOLOGY_DOMAIN := bytes_of_string "lez-atomic-swaps/xmr-release/topology/v1".
Definition TARGET_DOMAIN := bytes_of_string "lez-atomic-swaps/xmr-release/target/v1".
Definition TERMS_DOMAIN := bytes_of_string "lez-atomic-swaps/xmr-release/terms/v3".

Definition bridge_participant_tag (participant : Participant) : Byte.byte :=
  match participant with Participant_Maker => Byte.x00 | Participant_Taker => Byte.x01 end.

Definition compatibility_tag (compatibility : RuntimeCompatibility) : Byte.byte :=
  match compatibility with NssaV0_1_2 => Byte.x00 | LeeV0_2_0 => Byte.x01 end.

Definition terms_items (terms : XmrNativeEscrowTermsV3) : list bytes :=
    [ Hex32_as_bytes terms.(xt_swap_id);
      Hex32_as_bytes terms.(xt_activation_commitment);
      Hex32_as_bytes terms.(xt_escrow_program_id);
      Hex32_as_bytes terms.(xt_authenticated_transfer_program_id);
      Hex32_as_bytes terms.(xt_metadata_account_id);
      Hex32_as_bytes terms.(xt_custody_account_id);
      [bridge_participant_tag terms.(xt_depositor)];
      Hex32_as_bytes terms.(xt_depositor_account_id);
      [bridge_participant_tag terms.(xt_claimant)];
      Hex32_as_bytes terms.(xt_claimant_account_id);
      Hex32_as_bytes terms.(xt_claim_aggregate_x_only_public_key);
      Hex32_as_bytes terms.(xt_claim_authority_account_id);
      Hex32_as_bytes terms.(xt_refund_aggregate_x_only_public_key);
      Hex32_as_bytes terms.(xt_refund_authority_account_id);
      Hex32_as_bytes terms.(xt_maker_dleq_transcript_commitment);
      Hex32_as_bytes terms.(xt_taker_dleq_transcript_commitment);
      Hex32_as_bytes terms.(xt_claim_partial_context_binding);
      Hex32_as_bytes terms.(xt_claim_partial_commitment);
      be_bytes 16 terms.(xt_amount);
      be_bytes 8 terms.(xt_refund_at_ms);
      be_bytes 8 terms.(xt_punish_at_ms);
      Hex32_as_bytes terms.(xt_claim_message_hash);
      Hex32_as_bytes terms.(xt_refund_message_hash);
      Hex32_as_bytes terms.(xt_punish_message_hash) ].

Definition terms_bytes (terms : XmrNativeEscrowTermsV3) : bytes :=
  append_all TERMS_DOMAIN (terms_items terms).

Definition target_items (run_id : RunId) (runtime : RuntimeDescriptor)
    (terms : XmrNativeEscrowTermsV3) : list bytes :=
    [ bytes_of_string run_id.(RunId_as_str);
      [bridge_participant_tag runtime.(runtime_sidecar_role)];
      [compatibility_tag runtime.(runtime_compatibility)];
      Hex32_as_bytes runtime.(runtime_chain_id);
      Hex32_as_bytes runtime.(runtime_channel_id);
      Hex32_as_bytes runtime.(runtime_genesis_block_hash);
      Hex32_as_bytes runtime.(runtime_escrow_program_id);
      Hex32_as_bytes runtime.(runtime_signer_account_id);
      terms_bytes terms ].

Definition release_target_bytes (run_id : RunId) (runtime : RuntimeDescriptor)
    (terms : XmrNativeEscrowTermsV3) : bytes :=
  append_all TARGET_DOMAIN (target_items run_id runtime terms).

#[global] Arguments release_target_bytes : simpl never.

(** ** Evidence *)

(** Of the facts of the funding, what a release reads. *)
Record FundingFacts := {
  funding_transaction : ObservedTransactionFacts;
  funding_containing_block : FinalizedBlockIdentity;
  funding_custody : NativeCustodyFacts
}.

Record FinalizedXmrLezFirstLockEvidenceV3 := {
  lock_run_id : RunId;
  lock_observer : Participant;
  lock_runtime : RuntimeDescriptor;
  lock_terms : XmrNativeEscrowTermsV3;
  lock_exact_funding : PreparedTransaction;
  lock_finalized_clock : ChainClock;
  lock_scanned_window : DiscoveryWindow;
  lock_facts : FundingFacts
}.

Record PreparedXmrClaimAuthorizationEvidenceV3 := {
  auth_context : MessageContext;
  auth_preparer : Participant;
  auth_runtime : RuntimeDescriptor;
  auth_terms : XmrNativeEscrowTermsV3;
  auth_authorization : PreparedTransaction
}.

Record VerifiedMoneroTopologyAttestation := {
  topo_run_id : RunId;
  topo_network : MoneroNetwork;
  topo_genesis_hash : bytes;
  topo_daemon_origin : string;
  topo_target_wallet_origin : string;
  topo_foreign_wallet_origin : string;
  topo_daemon_version : string;
  topo_target_wallet_version : Z;
  topo_foreign_wallet_version : Z;
  topo_offline : bool;
  topo_incoming_connections : Z;
  topo_outgoing_connections : Z
}.

(** The monero terms of the agreement a release reads; the two crates' network
    names are one type, so [networks_match] is equality. *)
Record XmrMoneroTermsV1 := {
  monero_network : MoneroNetwork;
  monero_genesis_hash : bytes;
  monero_address : string;
  monero_amount_piconero : Z;
  monero_required_confirmations : Z
}.

Inductive MoneroTopologyBindingError :=
| RunMismatch | ChainMismatch | DaemonOriginMismatch | WalletOriginMismatch.

Inductive XmrLezBridgeBindingV3Error := Binding_StageB | Binding_Protocol (e : ProtocolValueError).

Inductive XmrClaimReleasePreparationError :=
| StageB (e : XmrLezBridgeBindingV3Error)
| WrongRole
| EvidenceBinding
| Topology (e : MoneroTopologyBindingError)
| MoneroBinding
| InsufficientConfirmations
| InvalidReleaseWindow
| Journal (e : ReleaseError).

Definition validate_observation (self : VerifiedMoneroTopologyAttestation) (run_id : RunId)
    (observation : VerifiedMoneroOutputObservation) : result unit MoneroTopologyBindingError :=
  let? _ := reject_if (self.(topo_run_id) !=? run_id) RunMismatch in
  let? _ := reject_if ((self.(topo_network) !=? observation.(obs_network))
                       || (self.(topo_genesis_hash) !=? observation.(obs_genesis_hash)))
              ChainMismatch in
  let? _ := reject_if (self.(topo_daemon_origin) !=? observation.(obs_daemon_origin))
              DaemonOriginMismatch in
  reject_if (self.(topo_target_wallet_origin) !=? observation.(obs_wallet_origin))
    WalletOriginMismatch.

Definition validate_lez_evidence (first_lock : FinalizedXmrLezFirstLockEvidenceV3)
    (authorization : PreparedXmrClaimAuthorizationEvidenceV3)
    (expected_terms : XmrNativeEscrowTermsV3) : result unit XmrClaimReleasePreparationError :=
  let? _ := reject_if
    ((first_lock.(lock_observer) !=? Participant_Taker)
     || (authorization.(auth_preparer) !=? Participant_Taker)
     || (authorization.(auth_context).(message_sidecar_role) !=? Participant_Taker)
     || (first_lock.(lock_runtime).(runtime_sidecar_role) !=? Participant_Taker)
     || (authorization.(auth_runtime).(runtime_sidecar_role) !=? Participant_Taker)) WrongRole in
  reject_if
    ((first_lock.(lock_run_id) !=? authorization.(auth_context).(message_run_id))
     || (first_lock.(lock_runtime) !=? authorization.(auth_runtime))
     || (first_lock.(lock_terms) !=? expected_terms)
     || (authorization.(auth_terms) !=? expected_terms)) EvidenceBinding.

Definition validate_monero_observation (expected : XmrMoneroTermsV1)
    (observation : VerifiedMoneroOutputObservation)
    : result unit XmrClaimReleasePreparationError :=
  let? _ := reject_if
    ((expected.(monero_network) !=? observation.(obs_network))
     || (expected.(monero_genesis_hash) !=? observation.(obs_genesis_hash))
     || (expected.(monero_address) !=? observation.(obs_destination))
     || (expected.(monero_amount_piconero) !=? observation.(obs_amount_piconero)))
    MoneroBinding in
  reject_if (observation.(obs_confirmations) <? expected.(monero_required_confirmations))
    InsufficientConfirmations.

(** ** Commitments and the operation *)

Section issuer.
Context `{ReleaseCrypto}.

Definition run_id_digest (run_id : RunId) : bytes :=
  sha256 (append RUN_ID_DOMAIN (bytes_of_string run_id.(RunId_as_str))).

Definition lez_evidence_commitment (evidence : FinalizedXmrLezFirstLockEvidenceV3)
    (target : bytes) : bytes :=
  let transaction := evidence.(lock_exact_funding) in
  let clock := evidence.(lock_finalized_clock) in
  let window := evidence.(lock_scanned_window) in
  let facts := evidence.(lock_facts) in
  let position := facts.(funding_transaction).(observed_position) in
  sha256 (append_all LEZ_EVIDENCE_DOMAIN
    [ target;
      Hex32_as_bytes transaction.(prepared_transaction_id);
      transaction.(prepared_exact_bytes).(TransactionBytes_as_slice);
      Hex32_as_bytes clock.(clock_block_hash);
      be_bytes 8 clock.(clock_height);
      be_bytes 8 clock.(clock_timestamp_ms);
      be_bytes 8 window.(window_start_height);
      be_bytes 4 window.(window_max_blocks);
      Hex32_as_bytes position.(position_block_hash);
      be_bytes 8 position.(position_height);
      be_bytes 4 position.(position_transaction_index);
      be_bytes 8 facts.(funding_containing_block).(identity_block_id);
      Hex32_as_bytes facts.(funding_containing_block).(identity_block_hash);
      be_bytes 8 facts.(funding_containing_block).(identity_timestamp_ms);
      Hex32_as_bytes facts.(funding_custody).(custody_account_id);
      Hex32_as_bytes facts.(funding_custody).(custody_owner_program_id);
      be_bytes 16 facts.(funding_custody).(custody_balance).(NativeAmount_as_u128) ]).

(** The verifier attests no peers, so their count does not overflow. *)
Definition topology_commitment (topology : VerifiedMoneroTopologyAttestation) : bytes :=
  sha256 (append_all TOPOLOGY_DOMAIN
    [ bytes_of_string topology.(topo_run_id).(RunId_as_str);
      [monero_network_tag topology.(topo_network)];
      topology.(topo_genesis_hash);
      bytes_of_string topology.(topo_daemon_origin);
      bytes_of_string topology.(topo_target_wallet_origin);
      bytes_of_string topology.(topo_foreign_wallet_origin);
      bytes_of_string topology.(topo_daemon_version);
      be_bytes 4 topology.(topo_target_wallet_version);
      be_bytes 4 topology.(topo_foreign_wallet_version);
      [if topology.(topo_offline) then Byte.x01 else Byte.x00];
      be_bytes 8 (topology.(topo_incoming_connections) + topology.(topo_outgoing_connections)) ]).

(** The plan of a release, from evidence that has passed every check. *)
Definition release_plan (terms : XmrNativeEscrowTermsV3)
    (first_lock : FinalizedXmrLezFirstLockEvidenceV3)
    (authorization : PreparedXmrClaimAuthorizationEvidenceV3)
    (observation : VerifiedMoneroOutputObservation)
    (topology : VerifiedMoneroTopologyAttestation) : ReleasePlan :=
  let run_id := run_id_digest first_lock.(lock_run_id) in
  let target := release_target_bytes first_lock.(lock_run_id) first_lock.(lock_runtime) terms in
  {| plan_activation := derive_activation_id (Hex32_as_bytes terms.(xt_swap_id)) run_id;
     plan_swap_id := Hex32_as_bytes terms.(xt_swap_id);
     plan_run_id := run_id;
     plan_lez_commitment := lez_evidence_commitment first_lock target;
     plan_topology_commitment := topology_commitment topology;
     plan_resource_id := monero_resource_id observation;
     plan_observation := encode_observation observation;
     plan_claim_partial_commitment := Hex32_as_bytes terms.(xt_claim_partial_commitment);
     plan_target := target;
     plan_publication_id :=
       Hex32_as_bytes authorization.(auth_authorization).(prepared_transaction_id);
     plan_window_start := first_lock.(lock_finalized_clock).(clock_timestamp_ms);
     plan_window_end := terms.(xt_refund_at_ms);
     plan_publication :=
       authorization.(auth_authorization).(prepared_exact_bytes).(TransactionBytes_as_slice) |}.

(** [expected] is what [XmrLezBridgeBindingV3::new] derives from the two
    agreements, [monero] the monero terms of the first. *)
Definition prepare_xmr_claim_release (io : Storage) (random : option bytes)
    (expected : result XmrNativeEscrowTermsV3 XmrLezBridgeBindingV3Error)
    (monero : XmrMoneroTermsV1) (first_lock : FinalizedXmrLezFirstLockEvidenceV3)
    (authorization : PreparedXmrClaimAuthorizationEvidenceV3)
    (observation : VerifiedMoneroOutputObservation)
    (topology : VerifiedMoneroTopologyAttestation)
    (key : PublicationProtectionKey) (db : ReleaseDb)
    : ReleaseDb * result ReleaseSnapshot XmrClaimReleasePreparationError :=
  let checks :=
    let? terms := map_err expected StageB in
    let? _ := validate_lez_evidence first_lock authorization terms in
    let? _ := map_err (validate_observation topology first_lock.(lock_run_id) observation)
                Topology in
    let? _ := validate_monero_observation monero observation in
    let? _ := reject_if (terms.(xt_refund_at_ms)
                         <=? first_lock.(lock_finalized_clock).(clock_timestamp_ms))
                InvalidReleaseWindow in
    Ok (release_plan terms first_lock authorization observation topology) in
  match checks with
  | Err e => (db, Err e)
  | Ok plan =>
      let '(db', r) := prepare io random plan key db in (db', map_err r Journal)
  end.

Definition load_xmr_claim_release (io : Storage) (swap_id : bytes) (run_id : RunId)
    (key : PublicationProtectionKey) (db : ReleaseDb) : result ReleaseSnapshot ReleaseError :=
  let run_digest := run_id_digest run_id in
  load_by_activation_run io (derive_activation_id swap_id run_digest) run_digest key db.
End issuer.
