(* ===== verification/ReleasePublisher.v ===== *)
(** * Publishing a release

    [crates/xmr-release-authority/src/store/publisher.rs]: the asynchronous
    operation that reads the finalized clock, takes the one permission of the
    journal, reads the clock again and hands the authorization to the node.

    An asynchronous operation is a [Program]: what it does between two points
    where it can be suspended, cancelled or overtaken by another task is one
    constructor, and its continuation takes the answer.  A submission is two
    constructors, since a task may be cancelled with its request on the way.

    [System] is the journal shared by any number of such tasks and by the other
    operations of the release service, with the trace of what was disclosed; a
    run is any list of [Action]s, and so any interleaving of the tasks. *)

From stdpp Require Import base gmap strings list numbers.
From S2P Require Import Prelude SwapCore BridgeValues AssetEvidence SqlTable.
From S2P Require Import ReleaseCrypto ReleaseStore ReleaseIssuer.

Open Scope Z_scope.

Definition RELEASE_REQUEST_DOMAIN := bytes_of_string "lez-atomic-swaps/xmr-release/request/v1".

(** ** Requests and answers *)

Inductive PublicationAdmissionStatus := Accepted | AlreadyKnown.

Record PublicationAdmission := {
  admission_status : PublicationAdmissionStatus;
  admission_transaction_id : bytes
}.

Inductive PublicationTransportError := Transport_Unavailable | InvalidResponse.

Inductive ReleasePublicationOutcome :=
| Outcome_Admitted (status : PublicationAdmissionStatus)
| Outcome_Ambiguous
| Outcome_Suppressed
| Outcome_ObserveOnly.

Inductive ReleasePublicationError :=
| Publication_Journal (e : ReleaseError)
| FinalizedClockUnavailable
| OutsideWindow.

Inductive FinalizedLezClockError := Clock_Unavailable.

Record SubmitNativeXmrClaimAuthorizationV3Request := {
  submit_context : MessageContext;
  submit_runtime : RuntimeDescriptor;
  submit_terms : XmrNativeEscrowTermsV3;
  submit_authorization : PreparedTransaction
}.

(** What [XmrReleaseClient] returns once its own checks of the response passed. *)
Record SubmitNativeXmrClaimAuthorizationV3Result := {
  submitted_transaction_id : Hex32;
  submitted_outcome : PublicationAdmissionStatus
}.

Record XmrReleaseSubmissionBindingV3 := {
  binding_run_id : RunId;
  binding_runtime : RuntimeDescriptor;
  binding_terms : XmrNativeEscrowTermsV3
}.

Definition XmrReleaseSubmissionBindingV3_new (run_id : RunId) (runtime : RuntimeDescriptor)
    (terms : XmrNativeEscrowTermsV3) : result XmrReleaseSubmissionBindingV3 ReleaseError :=
  if (runtime.(runtime_sidecar_role) !=? Participant_Taker)
     || (runtime.(runtime_compatibility) !=? LeeV0_2_0)
  then Err InvalidBinding
  else Ok {| binding_run_id := run_id; binding_runtime := runtime; binding_terms := terms |}.

Record XmrReleaseClient := {
  client_expected_run_id : RunId;
  client_expected_runtime : RuntimeDescriptor
}.

(** ** Programs *)

Inductive Program (A : Type) : Type :=
| Return (a : A)
| Store_validate (snapshot : ReleaseSnapshot) (key : PublicationProtectionKey)
    (k : result unit ReleaseError → Program A)
| Store_begin (snapshot : ReleaseSnapshot) (key : PublicationProtectionKey)
    (k : result PublicationDecision ReleaseError → Program A)
| Store_finish (attempt : PublicationAttempt) (key : PublicationProtectionKey)
    (terminal : ReleaseState) (k : result unit ReleaseError → Program A)
| Read_clock (expected_genesis_block_hash : Hex32)
    (k : result ChainClock FinalizedLezClockError → Program A)
| Send_request (request : SubmitNativeXmrClaimAuthorizationV3Request) (k : Program A)
| Await_response (k : option SubmitNativeXmrClaimAuthorizationV3Result → Program A).

Arguments Return {A} a.
Arguments Store_validate {A} snapshot key k.
Arguments Store_begin {A} snapshot key k.
Arguments Store_finish {A} attempt key terminal k.
Arguments Read_clock {A} expected_genesis_block_hash k.
Arguments Send_request {A} request k.
Arguments Await_response {A} k.

Fixpoint program_bind {A B} (p : Program A) (f : A → Program B) : Program B :=
  match p with
  | Return a => f a
  | Store_validate s key k => Store_validate s key (λ r, program_bind (k r) f)
  | Store_begin s key k => Store_begin s key (λ r, program_bind (k r) f)
  | Store_finish a key t k => Store_finish a key t (λ r, program_bind (k r) f)
  | Read_clock g k => Read_clock g (λ r, program_bind (k r) f)
  | Send_request q k => Send_request q (program_bind k f)
  | Await_response k => Await_response (λ r, program_bind (k r) f)
  end.

Notation "'await' x ':=' p 'in' k" := (program_bind p (λ x, k))
  (at level 10, x binder, p at level 200, k at level 200,
   format "'[v' 'await'  x  ':='  p  'in' '/' k ']'") : rust_scope.

(** The trait [XmrAuthorizationPublicationTransport]. *)
Record Transport := {
  finalized_lez_timestamp : bytes → Program (result Z PublicationTransportError);
  submit_exact_authorization :
    bytes → bytes → Program (result PublicationAdmission PublicationTransportError)
}.

(** ** The transport over the bridge *)

Definition BridgePublicationTransport (binding : XmrReleaseSubmissionBindingV3)
    (authenticated_target publication_id : bytes) (request_id : RequestId) : Transport := {|
  finalized_lez_timestamp target :=
    if target !=? authenticated_target then Return (Err InvalidResponse)
    else
      await clock := Read_clock binding.(binding_runtime).(runtime_genesis_block_hash) Return in
      match clock with
      | Err _ => Return (Err Transport_Unavailable)
      | Ok clock =>
          if (clock.(clock_block_hash) ==? zero_hex32) || (clock.(clock_timestamp_ms) =? 0)
          then Return (Err InvalidResponse)
          else Return (Ok clock.(clock_timestamp_ms))
      end;
  submit_exact_authorization target exact_publication :=
    if target !=? authenticated_target then Return (Err InvalidResponse)
    else
      match ExactTransactionBytes_new exact_publication with
      | Err _ => Return (Err InvalidResponse)
      | Ok exact_bytes =>
          let request :=
            {| submit_context :=
                 {| message_schema_version := SCHEMA_VERSION;
                    message_run_id := binding.(binding_run_id);
                    message_request_id := request_id;
                    message_sidecar_role := Participant_Taker |};
               submit_runtime := binding.(binding_runtime);
               submit_terms := binding.(binding_terms);
               submit_authorization :=
                 {| prepared_transaction_id := {| Hex32_as_bytes := publication_id |};
                    prepared_exact_bytes := exact_bytes |} |} in
          await result := Send_request request (Await_response Return) in
          match result with
          | None => Return (Err Transport_Unavailable)
          | Some result =>
              Return (Ok {| admission_status := result.(submitted_outcome);
                            admission_transaction_id :=
                              Hex32_as_bytes result.(submitted_transaction_id) |})
          end
      end
|}.

(** ** Publication *)

Definition in_window (window : ReleaseWindow) (timestamp : Z) : bool :=
  (window.(window_start) <=? timestamp) && (timestamp <? window.(window_end)).

(** Persist a terminal state, then report it. *)
Definition mark (attempt : PublicationAttempt) (key : PublicationProtectionKey)
    (terminal : ReleaseState) (outcome : ReleasePublicationOutcome)
    : Program (result ReleasePublicationOutcome ReleasePublicationError) :=
  Store_finish attempt key terminal (λ r,
    match r with
    | Ok _ => Return (Ok outcome)
    | Err e => Return (Err (Publication_Journal e))
    end).

Section publication.
Context `{ReleaseCrypto, HexCodec}.

Definition publish_or_observe (snapshot : ReleaseSnapshot) (key : PublicationProtectionKey)
    (transport : Transport)
    : Program (result ReleasePublicationOutcome ReleasePublicationError) :=
  Store_validate snapshot key (λ valid,
    match valid with
    | Err e => Return (Err (Publication_Journal e))
    | Ok _ =>
        if snapshot.(snap_state) !=? Prepared then Return (Ok Outcome_ObserveOnly)
        else
          await initial := transport.(finalized_lez_timestamp) snapshot.(snap_target) in
          match initial with
          | Err _ => Return (Err FinalizedClockUnavailable)
          | Ok initial_timestamp =>
              if negb (in_window snapshot.(snap_window) initial_timestamp)
              then Return (Err OutsideWindow)
              else
                Store_begin snapshot key (λ decision,
                  match decision with
                  | Err e => Return (Err (Publication_Journal e))
                  | Ok Decision_ObserveOnly => Return (Ok Outcome_ObserveOnly)
                  | Ok (Decision_Send attempt) =>
                      await decisive := transport.(finalized_lez_timestamp) attempt.(attempt_target) in
                      match decisive with
                      | Err _ => mark attempt key Suppressed Outcome_Suppressed
                      | Ok decisive_timestamp =>
                          if (decisive_timestamp <? initial_timestamp)
                             || negb (in_window attempt.(attempt_window) decisive_timestamp)
                          then mark attempt key Suppressed Outcome_Suppressed
                          else
                            match intent_decrypt attempt.(attempt_intent) key
                                    attempt.(attempt_immutable_context) with
                            | Err _ => Return (Err (Publication_Journal Release_Authentication))
                            | Ok exact_publication =>
                                await admission :=
                                  transport.(submit_exact_authorization) attempt.(attempt_target)
                                    exact_publication in
                                match admission with
                                | Ok admission =>
                                    if admission.(admission_transaction_id)
                                       ==? attempt.(attempt_publication_id)
                                    then mark attempt key Release_Admitted
                                           (Outcome_Admitted admission.(admission_status))
                                    else mark attempt key Ambiguous Outcome_Ambiguous
                                | Err _ => mark attempt key Ambiguous Outcome_Ambiguous
                                end
                            end
                      end
                  end)
          end
    end).

Definition validate_publication_binding (snapshot : ReleaseSnapshot)
    (binding : XmrReleaseSubmissionBindingV3) (client : XmrReleaseClient)
    : result unit ReleaseError :=
  let authenticated_target :=
    release_target_bytes binding.(binding_run_id) binding.(binding_runtime)
      binding.(binding_terms) in
  reject_if
    ((snapshot.(snap_target) !=? authenticated_target)
     || (client.(client_expected_run_id) !=? binding.(binding_run_id))
     || (client.(client_expected_runtime) !=? binding.(binding_runtime))) BindingMismatch.

Definition preflight_xmr_claim_release (io : Storage) (snapshot : ReleaseSnapshot)
    (key : PublicationProtectionKey) (binding : XmrReleaseSubmissionBindingV3)
    (client : XmrReleaseClient) : result ReleaseState ReleaseError :=
  let? _ := validate_publication_binding snapshot binding client in
  let? _ := validate_for_publication io snapshot key in
  Ok snapshot.(snap_state).

Definition publish_xmr_claim_release (snapshot : ReleaseSnapshot)
    (key : PublicationProtectionKey) (binding : XmrReleaseSubmissionBindingV3)
    (client : XmrReleaseClient)
    : Program (result ReleasePublicationOutcome ReleasePublicationError) :=
  match validate_publication_binding snapshot binding client with
  | Err e => Return (Err (Publication_Journal e))
  | Ok _ =>
      let authenticated_target :=
        release_target_bytes binding.(binding_run_id) binding.(binding_runtime)
          binding.(binding_terms) in
      let publication_id := snapshot.(snap_publication_id) in
      let request_binding :=
        RELEASE_REQUEST_DOMAIN ++ snapshot.(snap_activation) ++ publication_id in
      match RequestId_new (hex_encode (sha256 request_binding)) with
      | Err _ => Return (Err (Publication_Journal InvalidBinding))
      | Ok request_id =>
          publish_or_observe snapshot key
            (BridgePublicationTransport binding authenticated_target publication_id request_id)
      end
  end.
End publication.

(** ** The release service *)

Record Task := {
  task_snapshot : ReleaseSnapshot;
  task_key : PublicationProtectionKey;
  task_program : Program (result ReleasePublicationOutcome ReleasePublicationError)
}.

(** The evidence one release is issued from. *)
Record Issue := {
  issue_terms : XmrNativeEscrowTermsV3;
  issue_monero : XmrMoneroTermsV1;
  issue_lock : FinalizedXmrLezFirstLockEvidenceV3;
  issue_authorization : PreparedXmrClaimAuthorizationEvidenceV3;
  issue_observation : VerifiedMoneroOutputObservation;
  issue_topology : VerifiedMoneroTopologyAttestation;
  issue_key : PublicationProtectionKey
}.

(** What leaves the service, and the releases it recorded. *)
Inductive Event :=
| Issued (issue : Issue)
| Clock_read (task : nat) (genesis : Hex32) (clock : ChainClock)
| Submitted (task : nat) (request : SubmitNativeXmrClaimAuthorizationV3Request)
| Answered (task : nat) (response : option SubmitNativeXmrClaimAuthorizationV3Result)
| Disclosed (activation : bytes) (transaction : PreparedTransaction).

Inductive Action :=
| Do_issue (issue : Issue) (random : option bytes) (io : Storage)
| Do_disclose (snapshot : ReleaseSnapshot) (key : PublicationProtectionKey) (io : Storage)
| Do_publish (snapshot : ReleaseSnapshot) (key : PublicationProtectionKey)
    (binding : XmrReleaseSubmissionBindingV3) (client : XmrReleaseClient)
| Do_store (task : nat) (io : Storage)
| Do_clock (task : nat) (answer : result ChainClock FinalizedLezClockError)
| Do_send (task : nat)
| Do_answer (task : nat) (response : option SubmitNativeXmrClaimAuthorizationV3Result).

Record System := {
  sys_db : ReleaseDb;
  sys_tasks : list Task;
  sys_trace : list Event
}.

Definition initial_system : System := {| sys_db := ∅; sys_tasks := []; sys_trace := [] |}.

Section service.
Context `{ReleaseCrypto, HexCodec}.

(** Continue a task, with what it left of the journal and the events it made. *)
Definition continue (sys : System) (i : nat) (t : Task)
    (p : Program (result ReleasePublicationOutcome ReleasePublicationError))
    (db : ReleaseDb) (events : list Event) : System :=
  {| sys_db := db;
     sys_tasks := <[i := {| task_snapshot := t.(task_snapshot); task_key := t.(task_key);
                            task_program := p |}]> sys.(sys_tasks);
     sys_trace := sys.(sys_trace) ++ events |}.

(** One step of a task; an answer to a task that is not waiting for it changes
    nothing. *)
Definition step_task (sys : System) (i : nat) (t : Task) (action : Action) : System :=
  match t.(task_program), action with
  | Store_validate s key k, Do_store _ io =>
      continue sys i t (k (validate_for_publication io s key)) sys.(sys_db) []
  | Store_begin s key k, Do_store _ io =>
      let '(db, r) := begin_publication io s key sys.(sys_db) in continue sys i t (k r) db []
  | Store_finish attempt key terminal k, Do_store _ io =>
      let '(db, r) := finish_publication io attempt key terminal sys.(sys_db) in
      continue sys i t (k r) db []
  | Read_clock genesis k, Do_clock _ (Ok clock) =>
      continue sys i t (k (Ok clock)) sys.(sys_db) [Clock_read i genesis clock]
  | Read_clock genesis k, Do_clock _ (Err e) => continue sys i t (k (Err e)) sys.(sys_db) []
  | Send_request request k, Do_send _ =>
      continue sys i t k sys.(sys_db) [Submitted i request]
  | Await_response k, Do_answer _ response =>
      continue sys i t (k response) sys.(sys_db) [Answered i response]
  | _, _ => sys
  end.

Definition issue_release (issue : Issue) (random : option bytes) (io : Storage) (db : ReleaseDb)
    : ReleaseDb * result ReleaseSnapshot XmrClaimReleasePreparationError :=
  prepare_xmr_claim_release io random (Ok issue.(issue_terms)) issue.(issue_monero)
    issue.(issue_lock) issue.(issue_authorization) issue.(issue_observation)
    issue.(issue_topology) issue.(issue_key) db.

Definition plan_of (issue : Issue) : ReleasePlan :=
  release_plan issue.(issue_terms) issue.(issue_lock) issue.(issue_authorization)
    issue.(issue_observation) issue.(issue_topology).

#[global] Arguments plan_of : simpl never.

Definition step (sys : System) (action : Action) : System :=
  match action with
  | Do_issue issue random io =>
      let '(db, _) := issue_release issue random io sys.(sys_db) in
      let activation := (plan_of issue).(plan_activation) in
      {| sys_db := db; sys_tasks := sys.(sys_tasks);
         sys_trace := sys.(sys_trace) ++
           (if is_null (sys.(sys_db) !! activation) && not_null (db !! activation)
            then [Issued issue] else []) |}
  | Do_disclose snapshot key io =>
      let '(db, r) := exact_publication io snapshot key sys.(sys_db) in
      {| sys_db := db; sys_tasks := sys.(sys_tasks);
         sys_trace := sys.(sys_trace) ++
           match r with
           | Ok transaction => [Disclosed snapshot.(snap_activation) transaction]
           | Err _ => []
           end |}
  | Do_publish snapshot key binding client =>
      {| sys_db := sys.(sys_db);
         sys_tasks := sys.(sys_tasks) ++
           [{| task_snapshot := snapshot; task_key := key;
               task_program := publish_xmr_claim_release snapshot key binding client |}];
         sys_trace := sys.(sys_trace) |}
  | Do_store i _ | Do_clock i _ | Do_send i | Do_answer i _ =>
      match sys.(sys_tasks) !! i with
      | Some t => step_task sys i t action
      | None => sys
      end
  end.

Definition run (sys : System) (actions : list Action) : System := fold_left step actions sys.
End service.
