(* ===== verification/ReleaseFacts.v ===== *)
(** * The release journal: encodings and operations

    The encodings bind what they encode; what each operation of the journal may
    change, whatever the storage answers; and which rows the operations accept. *)

From stdpp Require Import base gmap strings list numbers.
From S2P Require Import Prelude SwapCore BridgeValues AssetEvidence SqlTable.
From S2P Require Import ReleaseCrypto ReleaseStore ReleaseIssuer.

Open Scope Z_scope.

(** ** Length-prefixed encodings *)

Definition short (b : bytes) : Prop := blen b ≤ u64_max.
Definition framed (value : bytes) : bytes := be_bytes 8 (blen value) ++ value.

Lemma append_all_framed domain items :
  append_all domain items = domain ++ concat (framed <$> items).
Proof.
  unfold append_all. revert domain. induction items as [|x items IH]; intros domain; cbn.
  - by rewrite (right_id_L [] (++)).
  - rewrite IH. unfold append, framed. by rewrite <- !(assoc_L (++)).
Qed.

Lemma framed_inj a b x y :
  short a → short b → framed a ++ x = framed b ++ y → a = b ∧ x = y.
Proof.
  unfold framed, short. intros Ha Hb H. rewrite <- !(assoc_L (++)) in H.
  apply app_inj_1 in H as [Hl H]; [|by rewrite !length_be_bytes].
  assert (0 ≤ blen a ∧ 0 ≤ blen b) by (unfold blen; lia).
  apply be_bytes_inj in Hl; [|change (256 ^ Z.of_nat 8) with (u64_max + 1); lia..].
  apply app_inj_1 in H; [done|]. unfold blen in Hl. lia.
Qed.

Lemma append_all_inj domain xs ys :
  length xs = length ys → Forall short xs → Forall short ys →
  append_all domain xs = append_all domain ys → xs = ys.
Proof.
  rewrite !append_all_framed. intros Hlen Hx Hy H. apply app_inv_head in H.
  revert ys Hlen Hy H. induction Hx as [|x xs Hx _ IH]; intros [|y ys] Hlen Hy H; try done.
  inversion Hy; subst. cbn in H. apply framed_inj in H as [-> H]; [|done..].
  f_equal. apply IH; [by injection Hlen|done..].
Qed.

Lemma short_be_bytes n v : (n ≤ 32)%nat → short (be_bytes n v).
Proof. unfold short, blen, u64_max. rewrite length_be_bytes. lia. Qed.

Lemma short_len b n : blen b = n → n ≤ 65536 → short b.
Proof. unfold short, u64_max. lia. Qed.

(** The widths of the Rust types in a target. *)
Definition target_typed (run_id : RunId) (runtime : RuntimeDescriptor)
    (terms : XmrNativeEscrowTermsV3) : Prop :=
  Forall short (target_items run_id runtime terms) ∧ Forall short (terms_items terms) ∧
  is_u128 terms.(xt_amount) ∧ is_u64 terms.(xt_refund_at_ms) ∧ is_u64 terms.(xt_punish_at_ms).

Lemma Hex32_inj a b : Hex32_as_bytes a = Hex32_as_bytes b → a = b.
Proof. destruct a, b. cbn. by intros ->. Qed.

Lemma participant_tag_inj p q : bridge_participant_tag p = bridge_participant_tag q → p = q.
Proof. by destruct p, q. Qed.

Lemma cons_split {A} (x y : A) xs ys : x :: xs = y :: ys → x = y ∧ xs = ys.
Proof. by intros [= -> ->]. Qed.

(** Compare two lists of encoded fields, field by field. *)
Ltac fields_inj :=
  repeat match goal with
  | H : _ :: _ = _ :: _ |- _ => apply cons_split in H as [? H]
  end;
  repeat match goal with
  | H : Hex32_as_bytes _ = Hex32_as_bytes _ |- _ => apply Hex32_inj in H
  | H : [_] = [_] |- _ => injection H as H
  | H : bridge_participant_tag _ = _ |- _ => apply participant_tag_inj in H
  | H : bytes_of_string _ = bytes_of_string _ |- _ => apply bytes_of_string_inj in H
  end.

Lemma terms_items_inj t t' :
  is_u128 t.(xt_amount) → is_u64 t.(xt_refund_at_ms) → is_u64 t.(xt_punish_at_ms) →
  is_u128 t'.(xt_amount) → is_u64 t'.(xt_refund_at_ms) → is_u64 t'.(xt_punish_at_ms) →
  terms_items t = terms_items t' → t = t'.
Proof.
  unfold in_range, u64_max, u128_max, terms_items. intros Ha Hr Hp Ha' Hr' Hp' Heq.
  fields_inj. repeat match goal with
  | H : be_bytes _ _ = be_bytes _ _ |- _ => apply be_bytes_inj in H; [|cbn; lia..]
  end.
  destruct t, t'. cbn in *. by subst.
Qed.

(** The target of a release names one run, runtime and terms. *)
Lemma release_target_inj run run' runtime runtime' terms terms' :
  target_typed run runtime terms → target_typed run' runtime' terms' →
  release_target_bytes run runtime terms = release_target_bytes run' runtime' terms' →
  run = run' ∧ runtime = runtime' ∧ terms = terms'.
Proof.
  intros (Hi&Ht&?&?&?) (Hi'&Ht'&?&?&?) Heq.
  apply append_all_inj in Heq; [|done..]. unfold target_items in Heq. fields_inj.
  match goal with H : terms_bytes _ = terms_bytes _ |- _ =>
    apply append_all_inj, terms_items_inj in H; [|done..] end.
  destruct run, run', runtime, runtime'. cbn in *. subst. split_and!; try done. f_equal.
  by destruct runtime_compatibility, runtime_compatibility0.
Qed.

(** ** Reading a row *)

(** The fields of a row that no update assigns. *)
Definition row_context (row : StoredReleaseRecord) : bytes :=
  immutable_release_context_bytes row.(row_activation) row.(row_swap_id) row.(row_run_id)
    row.(row_lez_commitment) row.(row_topology_commitment) row.(row_resource_id)
    row.(row_claim_partial_commitment) row.(row_target) row.(row_publication_id)
    row.(row_window_start) row.(row_window_end).

#[global] Arguments row_context : simpl never.

Definition row_intent (row : StoredReleaseRecord) : ProtectedPublicationIntent :=
  {| intent_key_id := row.(row_key_id); intent_nonce := row.(row_nonce);
     intent_ciphertext := row.(row_ciphertext); intent_fingerprint := row.(row_fingerprint) |}.

Definition snapshot_of_row (row : StoredReleaseRecord) (state : ReleaseState) : ReleaseSnapshot :=
  {| snap_activation := row.(row_activation);
     snap_run_id := row.(row_run_id);
     snap_resource_id := row.(row_resource_id);
     snap_observation := row.(row_observation);
     snap_observation_authenticator := row.(row_observation_authenticator);
     snap_binding := row.(row_binding);
     snap_semantic_authenticator := row.(row_semantic_authenticator);
     snap_target := row.(row_target);
     snap_window := {| window_start := row.(row_window_start);
                       window_end := row.(row_window_end) |};
     snap_publication_id := row.(row_publication_id);
     snap_immutable_context := row_context row;
     snap_intent := row_intent row;
     snap_state_authenticator := row.(row_state_authenticator);
     snap_state := state |}.

Lemma state_from_record_record s :
  state_from_record (state_record s).1 (state_record s).2 = Ok s.
Proof. by destruct s. Qed.

Lemma state_from_record_Ok state revision s :
  state_from_record state revision = Ok s → (state, revision) = state_record s.
Proof.
  unfold state_from_record. intros H.
  repeat case_match; simplify_eq; bool_props; by subst.
Qed.

Lemma state_record_inj s t : state_record s = state_record t → s = t.
Proof. by destruct s, t. Qed.

Definition has_state (row : StoredReleaseRecord) (state : ReleaseState) : Prop :=
  (row.(row_state), row.(row_revision)) = state_record state.

Lemma has_state_inj row s t : has_state row s → has_state row t → s = t.
Proof. unfold has_state. intros -> H. by apply state_record_inj. Qed.

Section rows.
Context `{ReleaseCrypto}.

Lemma intent_fields_Ok key_id nonce ciphertext fingerprint context i :
  map_err (intent_from_record_fields key_id nonce ciphertext fingerprint context)
    (λ _, CorruptRecord) = Ok i →
  i = {| intent_key_id := key_id; intent_nonce := nonce;
         intent_ciphertext := ciphertext; intent_fingerprint := fingerprint |}.
Proof.
  unfold intent_from_record_fields.
  destruct (validate_key_id key_id); [|done].
  destruct (validate_ciphertext_length _); [|done]. cbn. case_match; cbn; by intros [= <-].
Qed.

(** A row that validates is read back as it is. *)
Lemma validate_Ok row snapshot :
  StoredReleaseRecord_validate row = Ok snapshot →
  ∃ state, snapshot = snapshot_of_row row state ∧ has_state row state.
Proof.
  unfold StoredReleaseRecord_validate, array. intros Hok. inv_ok Hok. subst snapshot.
  repeat match goal with
  | H : (if _ then Ok _ else Err _) = Ok _ |- _ => inv_ok H; subst
  | H : (if _ then Err _ else Ok _) = Ok _ |- _ => inv_ok H; subst
  end.
  match goal with H : map_err (intent_from_record_fields _ _ _ _ _) _ = Ok ?i |- _ =>
    assert (i = row_intent row) as -> by (by eapply intent_fields_Ok)
  end.
  match goal with H : state_from_record _ _ = Ok ?s |- _ =>
    exists s; split; [done|by apply state_from_record_Ok]
  end.
Qed.

(** ** Transactions *)

Lemma commit_cases {A : Type} io (db : ReleaseDb) (body : result (ReleaseDb * A) ReleaseError) db' r :
  commit io db body = (db', r) →
  (db' = db ∧ is_ok r = false) ∨
  (∃ a, body = Ok (db', a) ∧ ∀ a', r = Ok a' → a' = a).
Proof.
  unfold commit. destruct body as [[d a]|e]; [destruct (storage_commit io)|]; intros [= <- <-];
    [right; exists a; split; [done|congruence]|by left|right; exists a; by split|by left].
Qed.

Lemma recheck_Ok {A} io (r : result A ReleaseError) a : recheck io r = Ok a → r = Ok a.
Proof. unfold recheck. intros H1. inv_ok H1. by subst. Qed.

Lemma commit_checked_cases {A : Type} io (db : ReleaseDb) (body : result (ReleaseDb * A) ReleaseError) db' r :
  commit_checked io db body = (db', r) →
  (db' = db ∧ is_ok r = false) ∨
  (∃ a, body = Ok (db', a) ∧ ∀ a', r = Ok a' → a' = a).
Proof.
  unfold commit_checked. destruct (commit io db body) as [d r0] eqn:Hc.
  intros [= <- <-]. apply commit_cases in Hc as [[-> Hr]|(a&Hb&Hr)].
  - left. split; [done|]. by destruct r0.
  - right. exists a. split; [done|]. intros a' Ha. apply Hr. by eapply recheck_Ok.
Qed.

Lemma current_snapshot_Ok io activation key (db : ReleaseDb) current :
  current_snapshot io activation key db = Ok current →
  ∃ row state, db !! activation = Some row ∧ current = snapshot_of_row row state ∧
    has_state row state ∧ is_ok (authenticate_snapshot current key) = true.
Proof.
  unfold current_snapshot, select_record. intros H1. inv_ok H1. inv_ok Hx. subst.
  apply ok_or_Ok in Hx0. apply validate_Ok in Hx1 as (state&->&Hs).
  exists x0, state. split_and!; [done..|]. by rewrite Hx2.
Qed.

Lemma update_state_Ok io (db : ReleaseDb) activation run_id binding from to tag e db' :
  update_state io db activation run_id binding from to tag e = Ok db' →
  ∃ row, db !! activation = Some row ∧ row.(row_run_id) = run_id ∧
    row.(row_binding) = binding ∧ has_state row from ∧
    release_check activation (set_state to tag row) = true ∧
    db' = <[activation := set_state to tag row]> db.
Proof.
  unfold update_state. intros H1. inv_ok H1. subst.
  apply ok_or_Ok in Hx0. apply reject_if_Ok in Hx1. bool_props.
  destruct x0 as [d n]. cbn in *. subst n.
  apply sql_update_Some_1 in Hx0 as (row&Hrow&Hw&Hc&->). bool_props. subst.
  exists row. split_and!; try done. unfold has_state.
  destruct (state_record from); cbn in *; by subst.
Qed.

Lemma authentic_Ok {A} (r : result A ProtectionError) a : authentic r = Ok a → r = Ok a.
Proof. by destruct r; cbn; intros [= ->]. Qed.
End rows.

(** The facts behind each guard of an operation that went through. *)
Ltac release_inv :=
  repeat match goal with
  | H : reject_if _ _ = Ok _ |- _ => apply reject_if_Ok in H
  | H : authentic _ = Ok _ |- _ => apply authentic_Ok in H
  | H : ok_or _ _ = Ok _ |- _ => apply ok_or_Ok in H
  | H : current_snapshot _ _ _ _ = Ok _ |- _ =>
      apply current_snapshot_Ok in H as (?row & ?state & ?Hrow & -> & ?Hs & ?Hauth)
  | H : update_state _ _ _ _ _ _ _ _ _ = Ok _ |- _ =>
      apply update_state_Ok in H as (?row & ?Hrow & ?Hrun & ?Hbind & ?Hs & ?Hck & ->)
  end; bool_props; simplify_eq.

Section operations.
Context `{ReleaseCrypto}.

(** A row moves from one state to another: it was read and authenticated in the
    first, and is authenticated anew in the second. *)
Definition moves_row (key : PublicationProtectionKey) (activation : bytes)
    (from to : ReleaseState) (db : ReleaseDb) (row : StoredReleaseRecord) (db' : ReleaseDb)
    : Prop :=
  ∃ tag, db !! activation = Some row ∧ has_state row from ∧
    is_ok (authenticate_snapshot (snapshot_of_row row from) key) = true ∧
    release_state_authenticator key (row_context row) row.(row_binding)
      (state_record to).1 (state_record to).2 = Ok tag ∧
    release_check activation (set_state to tag row) = true ∧
    db' = <[activation := set_state to tag row]> db.

(** What taking the permission to send may change. *)
Lemma begin_cases io s key (db : ReleaseDb) db' r :
  begin_publication io s key db = (db', r) →
  (db' = db ∧ ∀ a, r ≠ Ok (Decision_Send a)) ∨
  (∃ row, moves_row key s.(snap_activation) Prepared PublicationStarted db row db' ∧
     same_snapshot_binding (snapshot_of_row row Prepared) s = true ∧
     ∀ d, r = Ok d → d = Decision_Send (attempt_of s)).
Proof.
  unfold begin_publication.
  match goal with |- context [commit io db ?b] => set (body := b) end.
  destruct (commit io db body) as [d r0] eqn:Hc. intros Heq.
  assert (d = db' ∧ (∀ x, r = Ok x → r0 = Ok x)) as [-> Hr].
  { destruct r0 as [[a|]|e]; simplify_eq; split; try done.
    intros x Hx. by apply recheck_Ok in Hx. }
  apply commit_cases in Hc as [[-> Hn]|(a&Hb&Ha)].
  { left. split; [done|]. intros a Ha. apply Hr in Ha. by subst r0. }
  subst body. inv_ok Hb. release_inv. cbn in Hb.
  destruct (bool_decide (state = Prepared)) eqn:Hp; cbn in Hb.
  2: { left. simplify_eq. split; [done|]. intros a Hra. by apply Hr, Ha in Hra. }
  right. bool_props. subst state. inv_ok Hb. release_inv.
  eexists. split_and!; [eexists; by split_and!|done|]. intros d Hd. by apply Ha, Hr.
Qed.

(** What persisting the end of an attempt may change. *)
Lemma finish_cases io attempt key terminal (db : ReleaseDb) db' r :
  finish_publication io attempt key terminal db = (db', r) →
  (db' = db ∧ is_ok r = false) ∨
  (∃ row, moves_row key attempt.(attempt_activation) PublicationStarted terminal db row db').
Proof.
  unfold finish_publication. intros Hc.
  apply commit_checked_cases in Hc as [Hc|([]&Hb&_)]; [by left|right].
  destruct terminal; cbn [state_record fst snd] in *; inv_ok Hb; release_inv; try done;
    match goal with H : snap_state _ = _ |- _ => cbn in H; subst end;
    eexists _, _; by split_and!.
Qed.

(** What opening a publication for observation may change, and when it
    discloses the transaction. *)
Lemma exact_cases io s key (db : ReleaseDb) db' r :
  exact_publication io s key db = (db', r) →
  (db' = db ∧ ∀ tx, r = Ok tx → ∃ row, db !! s.(snap_activation) = Some row ∧
                      (has_state row Release_Admitted ∨ has_state row Ambiguous)) ∨
  (∃ row, moves_row key s.(snap_activation) PublicationStarted Ambiguous db row db').
Proof.
  unfold exact_publication. intros Hc.
  apply commit_checked_cases in Hc as [[-> Hr]|(tx&Hb&Hr)].
  { left. split; [done|]. by intros tx ->. }
  inv_ok Hb. release_inv.
  match goal with H : match snap_state _ with _ => _ end = Ok _ |- _ => rename H into Hst end.
  cbn in Hst. destruct state; simplify_eq; try (left; split; [done|]; eauto; fail).
  right. inv_ok Hst. release_inv. cbn in Hrow. simplify_eq. eexists _, _. by split_and!.
Qed.

(** What recording a plan may change: a new row, or the observation of the row
    its activation has. *)
Lemma prepare_cases io random plan key (db : ReleaseDb) db' r :
  prepare io random plan key db = (db', r) →
  db' = db ∨
  (∃ intent semantic observation state,
     db !! plan.(plan_activation) = None ∧ validate_plan plan = Ok tt ∧
     intent_encrypt random plan.(plan_publication) key (plan_immutable_context plan) = Ok intent ∧
     semantic_intent_authenticator key (plan_immutable_context plan) plan.(plan_publication)
       = Ok semantic ∧
     observation_authenticator key (plan_immutable_context plan) plan.(plan_observation)
       = Ok observation ∧
     let binding := sha256 (exact_binding_bytes (plan_immutable_context plan) intent) in
     release_state_authenticator key (plan_immutable_context plan) binding PREPARED 0 = Ok state ∧
     release_insert db (new_row plan intent binding semantic observation state) = Some db') ∨
  (∃ row tag, db !! plan.(plan_activation) = Some row ∧
     observation_authenticator key (plan_immutable_context plan) plan.(plan_observation)
       = Ok tag ∧
     row_context row = plan_immutable_context plan ∧
     release_check plan.(plan_activation) (set_observation plan.(plan_observation) tag row) = true ∧
     db' = <[plan.(plan_activation) := set_observation plan.(plan_observation) tag row]> db).
Proof.
  unfold prepare. intros Hc.
  apply commit_checked_cases in Hc as [[-> _]|(s&Hb&_)]; [by left|].
  inv_ok Hb. destruct x, x3. unfold select_record in *. release_inv.
  match goal with H : (let? _ := statement _ _ _ in _) = Ok _ |- _ => inv_ok H; subst end.
  destruct (db !! plan.(plan_activation)) as [row|] eqn:Hrow.
  - unfold prepare_existing in Hb. inv_ok Hb.
    match goal with H : StoredReleaseRecord_validate _ = Ok _ |- _ =>
      apply validate_Ok in H as (state&->&Hs) end.
    release_inv. unfold record_matches_plan in *. cbn in *. bool_props.
    destruct (bool_decide (row_observation row = _)); cbn in Hb; [simplify_eq; by left|].
    inv_ok Hb. release_inv.
    match goal with H : sql_update _ _ _ _ _ = Some ?x |- _ => destruct x as [d n] end.
    cbn in *. subst.
    match goal with H : sql_update _ _ _ _ _ = _ |- _ =>
      apply sql_update_Some_1 in H as (row'&Hrow'&_&Hck&->) end.
    assert (row' = row) as -> by congruence. right. right. eexists _, _. split_and!; done.
  - right. left. unfold prepare_new in Hb. inv_ok Hb. release_inv.
    eexists _, _, _, _. split_and!; done.
Qed.

(** The checks an issued release has passed. *)
Definition evidence_checked (terms : XmrNativeEscrowTermsV3) (monero : XmrMoneroTermsV1)
    (first_lock : FinalizedXmrLezFirstLockEvidenceV3)
    (authorization : PreparedXmrClaimAuthorizationEvidenceV3)
    (observation : VerifiedMoneroOutputObservation)
    (topology : VerifiedMoneroTopologyAttestation) : Prop :=
  validate_lez_evidence first_lock authorization terms = Ok tt ∧
  validate_observation topology first_lock.(lock_run_id) observation = Ok tt ∧
  validate_monero_observation monero observation = Ok tt ∧
  first_lock.(lock_finalized_clock).(clock_timestamp_ms) < terms.(xt_refund_at_ms).

Lemma prepare_release_cases io random terms monero lock auth obs topo key (db : ReleaseDb) db' r :
  prepare_xmr_claim_release io random (Ok terms) monero lock auth obs topo key db = (db', r) →
  db' = db ∨
  (evidence_checked terms monero lock auth obs topo ∧
   ∃ r', prepare io random (release_plan terms lock auth obs topo) key db = (db', r')).
Proof.
  unfold prepare_xmr_claim_release, evidence_checked. cbn [map_err result_bind].
  destruct (validate_lez_evidence _ _ _) as [[]|]; [|intros [= <- <-]; by left].
  destruct (validate_observation _ _ _) as [[]|]; [|intros [= <- <-]; by left].
  destruct (validate_monero_observation _ _) as [[]|]; [|intros [= <- <-]; by left]. cbn.
  destruct (_ <=? _) eqn:Hle; cbn; [intros [= <- <-]; by left|].
  destruct (prepare _ _ _ _ _) as [d r'] eqn:Hp. intros [= <- <-]. right.
  bool_props. split_and!; eauto.
Qed.
End operations.

(** ** Envelopes *)

Section envelopes.
Context `{ReleaseCryptoLaws}.

(** A publication is decrypted as it was encrypted. *)
Lemma encrypt_decrypt random plaintext key context intent :
  intent_encrypt random plaintext key context = Ok intent →
  intent_decrypt intent key context = Ok plaintext.
Proof.
  unfold intent_encrypt, intent_decrypt. intros Henc. inv_ok Henc. subst intent. release_inv. cbn.
  rewrite !bool_decide_eq_true_2 by done. cbn.
  match goal with H : validate_plaintext_length _ = Ok ?u |- _ =>
    pose proof H as Hlen; destruct u end.
  match goal with H : validate_ciphertext_length _ = Ok _ |- _ => rewrite H; cbn end.
  match goal with H : derive_key _ _ = Ok _ |- _ => rewrite H; cbn end.
  unfold validate_plaintext_length in Hlen. destruct (_ || _) eqn:Hb in Hlen; [done|].
  bool_props. unfold MAX_PUBLICATION_INTENT_BYTES in *.
  match goal with H : aead_encrypt ?k ?n ?m ?a = Some ?c |- _ =>
    destruct (aead_round_trip k n m a) as (c'&Hc'&_&Hd); [lia|]; rewrite H in Hc';
    injection Hc' as <-; rewrite Hd; cbn end.
  unfold validate_plaintext_length, MAX_PUBLICATION_INTENT_BYTES.
  destruct (Z.eqb_spec (blen plaintext) 0), (Z.ltb_spec 2000000 (blen plaintext)); cbn; try done; lia.
Qed.
End envelopes.
