(* ===== verification/ReleaseProtocol.v ===== *)
(** * The protocol of a publication

    What a publishing task has done so far is its [Progress]; [conforms] says
    that a program only does what its progress permits, and the publication of a
    release does.  [transition] is the release service with programs replaced by
    progress, and every step of the service is one of its transitions. *)

From stdpp Require Import base gmap strings list numbers.
From S2P Require Import Prelude SwapCore BridgeValues AssetEvidence SqlTable.
From S2P Require Import ReleaseCrypto ReleaseStore ReleaseIssuer ReleasePublisher ReleaseFacts.

Open Scope Z_scope.

(** ** Progress and conformance *)

(** The finalized clocks a task has read, the permission it was given, the
    request it sent with its answer, and the end it asked the journal for. *)
Record Progress := {
  clocks : list (Hex32 * ChainClock);
  grant : option PublicationAttempt;
  sent : option SubmitNativeXmrClaimAuthorizationV3Request;
  answer : option (option SubmitNativeXmrClaimAuthorizationV3Result);
  finished : option ReleaseState
}.

Definition no_progress : Progress :=
  {| clocks := []; grant := None; sent := None; answer := None; finished := None |}.

Definition with_clock (c : Hex32 * ChainClock) (g : Progress) : Progress :=
  {| clocks := g.(clocks) ++ [c]; grant := g.(grant); sent := g.(sent); answer := g.(answer);
     finished := g.(finished) |}.
Definition with_grant (a : PublicationAttempt) (g : Progress) : Progress :=
  {| clocks := g.(clocks); grant := Some a; sent := g.(sent); answer := g.(answer);
     finished := g.(finished) |}.
Definition with_sent (q : SubmitNativeXmrClaimAuthorizationV3Request) (g : Progress) : Progress :=
  {| clocks := g.(clocks); grant := g.(grant); sent := Some q; answer := g.(answer);
     finished := g.(finished) |}.
Definition with_answer (r : option SubmitNativeXmrClaimAuthorizationV3Result) (g : Progress)
    : Progress :=
  {| clocks := g.(clocks); grant := g.(grant); sent := g.(sent); answer := Some r;
     finished := g.(finished) |}.
Definition with_finished (t : ReleaseState) (g : Progress) : Progress :=
  {| clocks := g.(clocks); grant := g.(grant); sent := g.(sent); answer := g.(answer);
     finished := Some t |}.

Section protocol.
Context `{ReleaseCrypto, HexCodec}.

(** When a task may send: it read the finalized clock twice, inside the window
    and without regression, and the request is the protected one. *)
Definition may_send (s : ReleaseSnapshot) (key : PublicationProtectionKey) (g : Progress)
    (q : SubmitNativeXmrClaimAuthorizationV3Request) : Prop :=
  ∃ first last genesis,
    g.(clocks) = [(genesis, first); (genesis, last)] ∧
    genesis = q.(submit_runtime).(runtime_genesis_block_hash) ∧
    in_window s.(snap_window) first.(clock_timestamp_ms) = true ∧
    in_window s.(snap_window) last.(clock_timestamp_ms) = true ∧
    first.(clock_timestamp_ms) ≤ last.(clock_timestamp_ms) ∧
    s.(snap_target) = release_target_bytes q.(submit_context).(message_run_id)
                        q.(submit_runtime) q.(submit_terms) ∧
    s.(snap_publication_id)
      = Hex32_as_bytes q.(submit_authorization).(prepared_transaction_id) ∧
    intent_decrypt s.(snap_intent) key s.(snap_immutable_context)
      = Ok q.(submit_authorization).(prepared_exact_bytes).(TransactionBytes_as_slice).

(** What a task may report of its attempt. *)
Definition may_finish (g : Progress) (a : PublicationAttempt) (t : ReleaseState) : Prop :=
  match t with
  | Suppressed => g.(sent) = None
  | Ambiguous => True
  | Release_Admitted => ∃ q r, g.(sent) = Some q ∧ g.(answer) = Some (Some r) ∧
                  Hex32_as_bytes r.(submitted_transaction_id) = a.(attempt_publication_id)
  | Prepared | PublicationStarted => False
  end.

Fixpoint conforms {A : Type} (s : ReleaseSnapshot) (key : PublicationProtectionKey) (g : Progress)
    (p : Program A) : Prop :=
  match p with
  | Return _ => True
  | Store_validate _ _ k => ∀ r, conforms s key g (k r)
  | Store_begin s' key' k =>
      s' = s ∧ key' = key ∧ g.(grant) = None ∧ g.(sent) = None ∧ g.(finished) = None ∧
      conforms s key (with_grant (attempt_of s) g) (k (Ok (Decision_Send (attempt_of s)))) ∧
      conforms s key g (k (Ok Decision_ObserveOnly)) ∧
      ∀ e, conforms s key g (k (Err e))
  | Store_finish a key' t k =>
      key' = key ∧ g.(grant) = Some a ∧ g.(finished) = None ∧ may_finish g a t ∧
      ∀ r, conforms s key (with_finished t g) (k r)
  | Read_clock genesis k =>
      (∀ e, conforms s key g (k (Err e))) ∧
      ∀ c, conforms s key (with_clock (genesis, c) g) (k (Ok c))
  | Send_request q k =>
      g.(grant) = Some (attempt_of s) ∧ g.(sent) = None ∧ g.(finished) = None ∧
      may_send s key g q ∧ conforms s key (with_sent q g) k
  | Await_response k => is_Some g.(sent) ∧ g.(answer) = None ∧ ∀ r, conforms s key (with_answer r g) (k r)
  end.

Lemma mark_conforms s key g a t outcome :
  g.(grant) = Some a → g.(finished) = None → may_finish g a t →
  conforms s key g (mark a key t outcome).
Proof. intros Hg Hf Hm. cbn. split_and!; try done. by intros [[]|e]. Qed.

#[local] Arguments mark : simpl never.

(** The publication of a release conforms, from the start. *)
Lemma publish_conforms s key binding client :
  conforms s key no_progress (publish_xmr_claim_release s key binding client).
Proof.
  unfold publish_xmr_claim_release.
  destruct (validate_publication_binding s binding client) as [[]|e] eqn:Hb; [|done].
  apply reject_if_Ok in Hb. bool_props.
  destruct (RequestId_new _) as [request_id|e]; [|done].
  unfold publish_or_observe. cbn. intros [[]|e]; [|done].
  destruct (negb (bool_decide (snap_state s = Prepared))); [done|].
  rewrite bool_decide_eq_true_2 by done. cbn. split; [done|]. intros c0.
  destruct (_ || _); [done|]. cbn.
  destruct (in_window _ (clock_timestamp_ms c0)) eqn:Hw0; [|done]. cbn.
  split_and!; [done..| |done|done].
  rewrite bool_decide_eq_true_2 by done. cbn.
  split; [by intros _; apply mark_conforms|]. intros c1.
  destruct (bool_decide (clock_block_hash c1 = _) || _); [by apply mark_conforms|]. cbn.
  destruct (clock_timestamp_ms c1 <? clock_timestamp_ms c0) eqn:Hlt; [by apply mark_conforms|].
  destruct (in_window _ (clock_timestamp_ms c1)) eqn:Hw1; [|by apply mark_conforms]. cbn.
  destruct (intent_decrypt _ _ _) as [plain|] eqn:Hd; [|done].
  destruct (ExactTransactionBytes_new plain) as [exact|] eqn:He; [|by apply mark_conforms]. cbn.
  unfold ExactTransactionBytes_new in He. destruct (_ || _) in He; simplify_eq. bool_props.
  split_and!; try done.
  - eexists c0, c1, _. split_and!; done.
  - intros [r|]; cbn; [|by apply mark_conforms].
    destruct (bool_decide _) eqn:Hid; cbn; [|by apply mark_conforms].
    bool_props. apply mark_conforms; try done. cbn. eauto.
Qed.
End protocol.

(** ** The service as transitions *)

Record Publisher := {
  pub_snapshot : ReleaseSnapshot;
  pub_key : PublicationProtectionKey;
  pub_progress : Progress
}.

Definition set_progress (p : Publisher) (g : Progress) : Publisher :=
  {| pub_snapshot := p.(pub_snapshot); pub_key := p.(pub_key); pub_progress := g |}.

Record View := { v_db : ReleaseDb; v_publishers : list Publisher; v_trace : list Event }.

Section transitions.
Context `{ReleaseCrypto, HexCodec}.

Definition issue_checked (issue : Issue) : Prop :=
  evidence_checked issue.(issue_terms) issue.(issue_monero) issue.(issue_lock)
    issue.(issue_authorization) issue.(issue_observation) issue.(issue_topology).

(** The row an issued release is recorded with. *)
Definition issued_row (issue : Issue) (row : StoredReleaseRecord) : Prop :=
  let plan := plan_of issue in
  let key := issue.(issue_key) in
  let context := plan_immutable_context plan in
  ∃ random intent semantic observation state,
    validate_plan plan = Ok tt ∧
    intent_encrypt random plan.(plan_publication) key context = Ok intent ∧
    semantic_intent_authenticator key context plan.(plan_publication) = Ok semantic ∧
    observation_authenticator key context plan.(plan_observation) = Ok observation ∧
    let binding := sha256 (exact_binding_bytes context intent) in
    release_state_authenticator key context binding PREPARED 0 = Ok state ∧
    row = new_row plan intent binding semantic observation state.

Inductive transition : View → View → Prop :=
| T_skip v : transition v v
| T_issue db ps tr issue row db' :
    issue_checked issue → db !! (plan_of issue).(plan_activation) = None →
    issued_row issue row → release_insert db row = Some db' →
    transition (Build_View db ps tr) (Build_View db' ps (tr ++ [Issued issue]))
| T_observe db ps tr issue row tag :
    db !! (plan_of issue).(plan_activation) = Some row →
    row_context row = plan_immutable_context (plan_of issue) →
    observation_authenticator issue.(issue_key) (row_context row)
      (plan_of issue).(plan_observation) = Ok tag →
    release_check (plan_of issue).(plan_activation)
      (set_observation (plan_of issue).(plan_observation) tag row) = true →
    transition (Build_View db ps tr)
      (Build_View (<[(plan_of issue).(plan_activation) :=
                       set_observation (plan_of issue).(plan_observation) tag row]> db) ps tr)
| T_spawn db ps tr s key :
    transition (Build_View db ps tr)
      (Build_View db (ps ++ [{| pub_snapshot := s; pub_key := key;
                                pub_progress := no_progress |}]) tr)
| T_clock db ps tr i p genesis c :
    ps !! i = Some p →
    transition (Build_View db ps tr)
      (Build_View db (<[i := set_progress p (with_clock (genesis, c) p.(pub_progress))]> ps)
         (tr ++ [Clock_read i genesis c]))
| T_grant db ps tr i p row db' (given : bool) :
    ps !! i = Some p → p.(pub_progress).(grant) = None → p.(pub_progress).(sent) = None →
    p.(pub_progress).(finished) = None →
    moves_row p.(pub_key) p.(pub_snapshot).(snap_activation) Prepared PublicationStarted
      db row db' →
    same_snapshot_binding (snapshot_of_row row Prepared) p.(pub_snapshot) = true →
    transition (Build_View db ps tr)
      (Build_View db'
         (<[i := set_progress p
                   (if given then with_grant (attempt_of p.(pub_snapshot)) p.(pub_progress)
                    else p.(pub_progress))]> ps) tr)
| T_send db ps tr i p q :
    ps !! i = Some p → p.(pub_progress).(grant) = Some (attempt_of p.(pub_snapshot)) →
    p.(pub_progress).(sent) = None → p.(pub_progress).(finished) = None →
    may_send p.(pub_snapshot) p.(pub_key) p.(pub_progress) q →
    transition (Build_View db ps tr)
      (Build_View db (<[i := set_progress p (with_sent q p.(pub_progress))]> ps)
         (tr ++ [Submitted i q]))
| T_answer db ps tr i p r :
    ps !! i = Some p → is_Some p.(pub_progress).(sent) → p.(pub_progress).(answer) = None →
    transition (Build_View db ps tr)
      (Build_View db (<[i := set_progress p (with_answer r p.(pub_progress))]> ps)
         (tr ++ [Answered i r]))
| T_finish db ps tr i p a t row db' :
    ps !! i = Some p → p.(pub_progress).(grant) = Some a → p.(pub_progress).(finished) = None →
    may_finish p.(pub_progress) a t →
    moves_row p.(pub_key) a.(attempt_activation) PublicationStarted t db row db' →
    transition (Build_View db ps tr)
      (Build_View db' (<[i := set_progress p (with_finished t p.(pub_progress))]> ps) tr)
| T_unfinished db ps tr i p a t :
    ps !! i = Some p → p.(pub_progress).(grant) = Some a → p.(pub_progress).(finished) = None →
    may_finish p.(pub_progress) a t →
    transition (Build_View db ps tr)
      (Build_View db (<[i := set_progress p (with_finished t p.(pub_progress))]> ps) tr)
| T_open db ps tr key activation row db' events :
    moves_row key activation PublicationStarted Ambiguous db row db' →
    (events = [] ∨ ∃ tx, events = [Disclosed activation tx]) →
    transition (Build_View db ps tr) (Build_View db' ps (tr ++ events))
| T_disclose db ps tr activation row tx :
    db !! activation = Some row → has_state row Release_Admitted ∨ has_state row Ambiguous →
    transition (Build_View db ps tr) (Build_View db ps (tr ++ [Disclosed activation tx])).

(** ** Simulation *)

Definition follows (t : Task) (p : Publisher) : Prop :=
  t.(task_snapshot) = p.(pub_snapshot) ∧ t.(task_key) = p.(pub_key) ∧
  conforms p.(pub_snapshot) p.(pub_key) p.(pub_progress) t.(task_program).

Definition simulates (sys : System) (v : View) : Prop :=
  sys.(sys_db) = v.(v_db) ∧ sys.(sys_trace) = v.(v_trace) ∧
  Forall2 follows sys.(sys_tasks) v.(v_publishers).

Lemma simulates_continue sys v i t p program db events g :
  simulates sys v → sys.(sys_tasks) !! i = Some t → v.(v_publishers) !! i = Some p →
  conforms p.(pub_snapshot) p.(pub_key) g program →
  simulates (continue sys i t program db events)
    (Build_View db (<[i := set_progress p g]> v.(v_publishers)) (v.(v_trace) ++ events)).
Proof.
  intros (_&Htr&Hf) Ht Hp Hc. split_and!; [done|cbn; by rewrite Htr|cbn].
  apply Forall2_insert; [done|]. destruct (Forall2_lookup_lr _ _ _ _ _ _ Hf Ht Hp) as (?&?&_).
  by split_and!.
Qed.

Lemma set_progress_id (ps : list Publisher) (i : nat) p :
  ps !! i = Some p → <[i := set_progress p p.(pub_progress)]> ps = ps.
Proof. intros Hp. apply list_insert_id. by destruct p. Qed.

Lemma issue_simulated sys v issue random io :
  simulates sys v →
  ∃ v', transition v v' ∧ simulates (step sys (Do_issue issue random io)) v'.
Proof.
  intros (Hdb&Htr&Hf). destruct v as [db ps tr]. cbn in *. subst db tr.
  destruct (issue_release issue random io (sys_db sys)) as [db' r] eqn:Hi.
  assert (Hskip : db' = sys_db sys → ∃ v',
    transition (Build_View (sys_db sys) ps (sys_trace sys)) v' ∧
    simulates {| sys_db := db'; sys_tasks := sys_tasks sys;
      sys_trace := sys_trace sys ++
        (if is_null (sys_db sys !! plan_activation (plan_of issue)) &&
            not_null (db' !! plan_activation (plan_of issue)) then [Issued issue] else []) |} v').
  { intros ->. eexists. split; [apply T_skip|]. split_and!; [done|cbn|done].
    destruct (sys_db sys !! _); cbn; by rewrite (right_id_L [] (++)). }
  apply prepare_release_cases in Hi as [Hi|(Hev&r'&Hp)]; [by apply Hskip|].
  apply prepare_cases in Hp as [Hi|[Hp|Hp]]; [by apply Hskip| |].
  - destruct Hp as (intent&semantic&observation&state&Hn&Hv&He&Hs&Ho&Hst&Hins).
    assert (Hdb' : is_Some (db' !! plan_activation (plan_of issue))).
    { unfold release_insert in Hins. destruct (_ || _); [done|].
      apply sql_insert_Some in Hins as (->&_). by rewrite lookup_insert_eq. }
    eexists. split.
    { eapply (T_issue _ _ _ issue); [done|done| |exact Hins]. eexists random, _, _, _, _.
      by split_and!. }
    split_and!; [done|cbn|done]. unfold plan_of. rewrite Hn. fold (plan_of issue).
    by destruct Hdb' as [row ->].
  - destruct Hp as (row&tag&Hrow&Ho&Hctx&Hck&->). eexists. split.
    { apply (T_observe _ _ _ issue row tag); try done. by rewrite Hctx. }
    split_and!; [done|cbn|done]. unfold plan_of. rewrite Hrow. cbn.
    by rewrite (right_id_L [] (++)).
Qed.

Lemma disclose_simulated sys v s key io :
  simulates sys v → ∃ v', transition v v' ∧ simulates (step sys (Do_disclose s key io)) v'.
Proof.
  intros (Hdb&Htr&Hf). destruct v as [db ps tr]. cbn in *. subst db tr.
  destruct (exact_publication io s key (sys_db sys)) as [db' r] eqn:Hx.
  apply exact_cases in Hx as [[-> Hr]|(row&Hm)].
  - destruct r as [tx|e].
    + destruct (Hr tx eq_refl) as (row&Hrow&Hs). eexists. split; [by eapply T_disclose|done].
    + eexists. split; [apply T_skip|]. split_and!; [done|cbn|done].
      by rewrite (right_id_L [] (++)).
  - eexists. split; [eapply T_open; [done|]|by split_and!]. destruct r; eauto.
Qed.

Lemma task_simulated sys v i t action :
  simulates sys v → sys.(sys_tasks) !! i = Some t →
  ∃ v', transition v v' ∧ simulates (step_task sys i t action) v'.
Proof.
  intros Hsim Ht. pose proof Hsim as (Hdb&Htr&Hf).
  destruct (Forall2_lookup_l _ _ _ _ _ Hf Ht) as (p&Hp&Hs&Hk&Hc).
  destruct v as [db ps tr]. cbn in Hdb, Htr, Hf, Hp. subst db tr.
  assert (Hsame : ∀ program, conforms p.(pub_snapshot) p.(pub_key) p.(pub_progress) program → ∃ v',
    transition (Build_View (sys_db sys) ps (sys_trace sys)) v' ∧
    simulates (continue sys i t program (sys_db sys) []) v').
  { intros program Hpr. eexists. split; [apply T_skip|].
    pose proof (simulates_continue _ _ _ _ _ program (sys_db sys) [] _ Hsim Ht Hp Hpr) as H1.
    cbn in H1. by rewrite (right_id_L [] (++)), set_progress_id in H1. }
  assert (Hskip : ∃ v', transition (Build_View (sys_db sys) ps (sys_trace sys)) v' ∧ simulates sys v')
    by (eexists; split; [apply T_skip|done]).
  assert (Hgo : ∀ program db events g v',
    conforms p.(pub_snapshot) p.(pub_key) g program →
    v' = Build_View db (<[i := set_progress p g]> ps) (sys_trace sys ++ events) →
    transition (Build_View (sys_db sys) ps (sys_trace sys)) v' →
    ∃ v', transition (Build_View (sys_db sys) ps (sys_trace sys)) v' ∧
      simulates (continue sys i t program db events) v').
  { intros program db events g v' Hpr -> Htn. eexists. split; [exact Htn|].
    by apply (simulates_continue _ (Build_View (sys_db sys) ps (sys_trace sys))). }
  unfold step_task. destruct (task_program t) as [a|s' k' k|s' k' k|a k' term k|gen k|q k|k],
    action as [| | |j io|j [c|e]|j|j resp]; try exact Hskip.
  - apply Hsame, Hc.
  - destruct Hc as (->&->&Hg&Hsn&Hfn&Hc1&Hc2&Hc3).
    destruct (begin_publication _ _ _ _) as [db' r] eqn:Hb.
    apply begin_cases in Hb as [[-> Hr]|(row&Hm&Hsame'&Hr)].
    + apply Hsame. destruct r as [[a|]|e]; [by destruct (Hr a)|done|apply Hc3].
    + destruct r as [d|e].
      * rewrite (Hr d eq_refl). eapply Hgo; [exact Hc1| |]; [reflexivity|].
        rewrite (right_id_L [] (++)). by eapply (T_grant _ _ _ _ _ _ _ true).
      * eapply Hgo; [apply Hc3| |]; [reflexivity|].
        rewrite (right_id_L [] (++)). by eapply (T_grant _ _ _ _ _ _ _ false).
  - destruct Hc as (->&Hg&Hfn&Hm&Hc).
    destruct (finish_publication _ _ _ _ _) as [db' r] eqn:Hb.
    apply finish_cases in Hb as [[-> _]|(row&Hmv)];
      (eapply Hgo; [apply Hc|reflexivity|]; rewrite (right_id_L [] (++))).
    + by eapply T_unfinished.
    + by eapply T_finish.
  - eapply Hgo; [apply Hc|reflexivity|]. by apply T_clock.
  - apply Hsame, Hc.
  - destruct Hc as (Hg&Hsn&Hfn&Hm&Hc). eapply Hgo; [exact Hc|reflexivity|]. by apply T_send.
  - destruct Hc as (Hsn&Ha&Hc). eapply Hgo; [apply Hc|reflexivity|]. by apply T_answer.
Qed.

(** Every step of the service is a transition. *)
Lemma step_simulated sys v action :
  simulates sys v → ∃ v', transition v v' ∧ simulates (step sys action) v'.
Proof.
  intros Hsim.
  assert (Htask : ∀ i, ∃ v', transition v v' ∧
    simulates match sys_tasks sys !! i with Some t => step_task sys i t action | None => sys end v').
  { intros i. destruct (sys_tasks sys !! i) eqn:Ht; [by apply task_simulated|].
    eexists. split; [apply T_skip|done]. }
  destruct action; try apply Htask; [by apply issue_simulated|by apply disclose_simulated|].
  destruct Hsim as (Hdb&Htr&Hf), v as [db ps tr]. cbn in *. subst.
  eexists. split; [apply T_spawn|]. split_and!; [done..|]. cbn. apply Forall2_app; [done|].
  constructor; [|done]. split_and!; [done..|]. apply publish_conforms.
Qed.

Lemma run_simulated sys v actions :
  simulates sys v → ∃ v', rtc transition v v' ∧ simulates (run sys actions) v'.
Proof.
  revert sys v. induction actions as [|a actions IH]; intros sys v Hsim; [by exists v|].
  destruct (step_simulated sys v a Hsim) as (v1&Ht&Hs1).
  destruct (IH _ _ Hs1) as (v'&Hr&Hs'). exists v'. split; [by eapply rtc_l|done].
Qed.
End transitions.

Section issued.
Context `{ReleaseCryptoLaws, HexCodec}.

(** The envelope of an issued row opens to the prepared authorization. *)
Lemma issued_decrypts issue row :
  issued_row issue row →
  intent_decrypt (row_intent row) issue.(issue_key) (row_context row)
  = Ok (plan_of issue).(plan_publication).
Proof.
  intros (random&intent&semantic&observation&state&_&Henc&_&_&_&->).
  apply encrypt_decrypt in Henc. by destruct intent.
Qed.
End issued.
