(* ===== verification/ReleaseInvariant.v ===== *)
(** * The invariant of the release service

    What every view reached by transitions satisfies, by rule induction: rows
    come from issued releases and keep their fixed columns, a permission is held
    by one publisher, and the trace agrees with what publishers have done. *)

From stdpp Require Import base gmap strings list numbers.
From S2P Require Import Prelude SwapCore BridgeValues AssetEvidence SqlTable.
From S2P Require Import ReleaseCrypto ReleaseStore ReleaseIssuer ReleasePublisher ReleaseFacts.
From S2P Require Import ReleaseProtocol.

Open Scope Z_scope.

(** ** Rows through updates *)

(** A row without the columns that updates assign. *)
Definition fixed_part (row : StoredReleaseRecord) : StoredReleaseRecord :=
  set_observation [] [] (set_state Prepared [] row).

Lemma fixed_set_state t tag row : fixed_part (set_state t tag row) = fixed_part row.
Proof. done. Qed.
Lemma fixed_set_observation o tag row : fixed_part (set_observation o tag row) = fixed_part row.
Proof. done. Qed.

Lemma has_state_set_state t tag row s : has_state (set_state t tag row) s ↔ s = t.
Proof.
  unfold has_state. cbn. split.
  - intros H. apply state_record_inj. by rewrite <- H, <- surjective_pairing.
  - intros ->. by rewrite <- surjective_pairing.
Qed.

Lemma row_context_fixed row row' :
  fixed_part row = fixed_part row' → row_context row = row_context row'.
Proof. unfold row_context. intros H. injection H as. congruence. Qed.

(** The clocks a task has read, in order. *)
Definition reads (i : nat) (trace : list Event) : list (Hex32 * ChainClock) :=
  omap (λ e, match e with
             | Clock_read j genesis c => if decide (j = i) then Some (genesis, c) else None
             | _ => None
             end) trace.

Lemma reads_app i tr tr' : reads i (tr ++ tr') = reads i tr ++ reads i tr'.
Proof. apply omap_app. Qed.

(** A decomposition of an extended trace is one of the trace, or ends at the
    new event. *)
Lemma app_singleton_split {A} (tr pre post : list A) e x :
  tr ++ [e] = pre ++ x :: post →
  (∃ post', tr = pre ++ x :: post') ∨ (tr = pre ∧ e = x ∧ post = []).
Proof.
  intros H. destruct post as [|y post' _] using rev_ind.
  - right. apply app_inj_2 in H as [-> [= ->]]; done.
  - left. exists post'. change (x :: post' ++ [y]) with ((x :: post') ++ [y]) in H.
    rewrite (assoc_L (++)) in H. by apply app_inj_2 in H as [-> _].
Qed.

Section invariant.
Context `{ReleaseCrypto, HexCodec}.

(** A row is the one some issued release was recorded with, up to updates. *)
Definition recorded (tr : list Event) (activation : bytes) (row : StoredReleaseRecord) : Prop :=
  ∃ issue row0, Issued issue ∈ tr ∧ issue_checked issue ∧ issued_row issue row0 ∧
    fixed_part row = fixed_part row0 ∧ activation = row.(row_activation).

(** What stood behind a submission when it was made. *)
Definition sent_for (pre : list Event) (i : nat) (q : SubmitNativeXmrClaimAuthorizationV3Request)
    (s : ReleaseSnapshot) (key : PublicationProtectionKey) : Prop :=
  ∃ g issue row, g.(clocks) = reads i pre ∧ may_send s key g q ∧
    Issued issue ∈ pre ∧ issue_checked issue ∧ issued_row issue row ∧
    same_snapshot_binding (snapshot_of_row row Prepared) s = true.

Record view_ok (v : View) : Prop := {
  ok_rows : ∀ α row, v.(v_db) !! α = Some row → recorded v.(v_trace) α row;
  ok_resources : ∀ α β row row', v.(v_db) !! α = Some row → v.(v_db) !! β = Some row' →
    row.(row_resource_id) = row'.(row_resource_id) → α = β;
  ok_grant : ∀ i p a, v.(v_publishers) !! i = Some p → p.(pub_progress).(grant) = Some a →
    a = attempt_of p.(pub_snapshot) ∧
    ∃ row st, v.(v_db) !! p.(pub_snapshot).(snap_activation) = Some row ∧ has_state row st ∧
      st ≠ Prepared ∧ same_snapshot_binding (snapshot_of_row row Prepared) p.(pub_snapshot) = true;
  ok_unique : ∀ i j p q, v.(v_publishers) !! i = Some p → v.(v_publishers) !! j = Some q →
    is_Some p.(pub_progress).(grant) → is_Some q.(pub_progress).(grant) →
    p.(pub_snapshot).(snap_activation) = q.(pub_snapshot).(snap_activation) → i = j;
  ok_sent : ∀ i p, v.(v_publishers) !! i = Some p → is_Some p.(pub_progress).(sent) →
    is_Some p.(pub_progress).(grant);
  ok_submitted : ∀ i q, Submitted i q ∈ v.(v_trace) →
    ∃ p, v.(v_publishers) !! i = Some p ∧ p.(pub_progress).(sent) = Some q;
  ok_once : ∀ m n i q q', v.(v_trace) !! m = Some (Submitted i q) →
    v.(v_trace) !! n = Some (Submitted i q') → m = n;
  ok_clock_range : ∀ i genesis c, Clock_read i genesis c ∈ v.(v_trace) →
    (i < length v.(v_publishers))%nat;
  ok_clocks : ∀ i p, v.(v_publishers) !! i = Some p → p.(pub_progress).(clocks) = reads i v.(v_trace);
  ok_sends : ∀ pre i q post, v.(v_trace) = pre ++ Submitted i q :: post →
    ∃ p, v.(v_publishers) !! i = Some p ∧ sent_for pre i q p.(pub_snapshot) p.(pub_key);
  ok_disclosed : ∀ α tx, Disclosed α tx ∈ v.(v_trace) →
    ∃ row, v.(v_db) !! α = Some row ∧ (has_state row Release_Admitted ∨ has_state row Ambiguous);
  ok_suppressed : ∀ α row i p, v.(v_db) !! α = Some row → has_state row Suppressed →
    v.(v_publishers) !! i = Some p → p.(pub_snapshot).(snap_activation) = α →
    is_Some p.(pub_progress).(grant) →
    p.(pub_progress).(sent) = None ∧ is_Some p.(pub_progress).(finished);
  ok_admitted : ∀ α row, v.(v_db) !! α = Some row → has_state row Release_Admitted →
    ∃ i p q r, v.(v_publishers) !! i = Some p ∧ p.(pub_snapshot).(snap_activation) = α ∧
      p.(pub_progress).(sent) = Some q ∧ p.(pub_progress).(answer) = Some (Some r) ∧
      Hex32_as_bytes r.(submitted_transaction_id) = p.(pub_snapshot).(snap_publication_id);
  ok_sent_trace : ∀ i p q, v.(v_publishers) !! i = Some p → p.(pub_progress).(sent) = Some q →
    Submitted i q ∈ v.(v_trace);
  ok_answers : ∀ i p r, v.(v_publishers) !! i = Some p → p.(pub_progress).(answer) = Some r →
    Answered i r ∈ v.(v_trace)
}.

Lemma view_ok_initial : view_ok (Build_View ∅ [] []).
Proof.
  split; cbn; intros; try (by rewrite lookup_empty in *); try (by rewrite lookup_nil in *);
    try set_solver.
  - by destruct pre.
Qed.

Definition opens (from to : ReleaseState) : Prop :=
  (from = Prepared ∧ to = PublicationStarted) ∨
  (from = PublicationStarted ∧ to ≠ Prepared ∧ to ≠ PublicationStarted).

(** What a transition does to one row: nothing, a new observation, or a move
    between states. *)
Inductive row_step (row row' : StoredReleaseRecord) : Prop :=
| Row_same (Heq : row' = row)
| Row_observed o tag (Heq : row' = set_observation o tag row)
| Row_moved from to tag (Hfrom : has_state row from) (Heq : row' = set_state to tag row)
    (Hopen : opens from to).

Lemma row_step_fixed row row' : row_step row row' → fixed_part row' = fixed_part row.
Proof. by intros [->|o tag ->|? ? tag _ -> _]. Qed.

(** A terminal state stays. *)
Lemma row_step_terminal row row' s :
  row_step row row' → has_state row s → s ≠ Prepared → s ≠ PublicationStarted → has_state row' s.
Proof.
  intros [->|o tag ->|from to tag Hf -> Hopen] Hs H1 H2; [done|done|].
  rewrite (has_state_inj _ _ _ Hf Hs) in Hopen. unfold opens in Hopen. naive_solver.
Qed.

Lemma row_step_started row row' s :
  row_step row row' → has_state row s → s ≠ Prepared → ∃ s', has_state row' s' ∧ s' ≠ Prepared.
Proof.
  intros [->|o tag ->|from to tag Hf -> Hopen] Hs Hne; [eauto|eauto|].
  exists to. split; [by apply has_state_set_state|]. unfold opens in Hopen. naive_solver.
Qed.

Lemma moves_row_step key α from to (db : ReleaseDb) row db' β r :
  moves_row key α from to db row db' →
  opens from to → db !! β = Some r → ∃ r', db' !! β = Some r' ∧ row_step r r'.
Proof.
  intros (tag&Hrow&Hs&_&_&_&->) Hopen Hr. destruct (decide (β = α)) as [->|Hne].
  - rewrite lookup_insert_eq. eexists. split; [done|]. simplify_eq. by eapply Row_moved.
  - rewrite lookup_insert_ne by done. eexists. split; [done|]. by apply Row_same.
Qed.

(** Rows are never dropped, and only new releases add one. *)
Lemma transition_row v v' α row :
  transition v v' → v.(v_db) !! α = Some row →
  ∃ row', v'.(v_db) !! α = Some row' ∧ row_step row row'.
Proof.
  assert (Hsame : ∀ db : ReleaseDb, db !! α = Some row → ∃ row', db !! α = Some row' ∧ row_step row row').
  { intros db Hr. eexists. split; [done|]. by apply Row_same. }
  intros Ht Hrow. destruct Ht; cbn in *; try (by apply Hsame); try (eapply moves_row_step; [done| |done]).
  - unfold release_insert in *. destruct (_ || _); [done|].
    match goal with H : sql_insert _ _ _ _ _ = _ |- _ =>
      apply sql_insert_Some in H as (->&Hn&_) end.
    apply Hsame. rewrite lookup_insert_ne; [done|]. congruence.
  - destruct (decide (α = plan_activation (plan_of issue))) as [->|Hne].
    + rewrite lookup_insert_eq. eexists. split; [done|]. simplify_eq. by eapply Row_observed.
    + apply Hsame. by rewrite lookup_insert_ne.
  - by left.
  - right. split; [done|]. by destruct t.
  - by right.
Qed.

Lemma transition_trace v v' : transition v v' → ∃ ext, v'.(v_trace) = v.(v_trace) ++ ext.
Proof. destruct 1; cbn; eauto; by exists []; rewrite (right_id_L [] (++)). Qed.

Lemma transition_new_row v v' α row :
  transition v v' → v'.(v_db) !! α = Some row → v.(v_db) !! α = None →
  ∃ issue, v'.(v_trace) = v.(v_trace) ++ [Issued issue] ∧ issue_checked issue ∧
    issued_row issue row ∧ α = row.(row_activation) ∧
    unique_taken resource_key v.(v_db) row.(row_resource_id) = false.
Proof.
  intros Ht Hrow Hnone. destruct Ht; cbn in *; try congruence;
    try match goal with H : moves_row _ ?a _ _ _ _ _ |- _ =>
      destruct H as (tag&Ha&_&_&_&_&->); rewrite lookup_insert_ne in Hrow; congruence end.
  - unfold release_insert in *. destruct (_ || _); [done|].
    match goal with H : sql_insert _ _ _ _ _ = _ |- _ =>
      apply sql_insert_Some in H as (->&Hn&_&Hu) end.
    apply lookup_insert_Some in Hrow as [[<- <-]|[_ ?]]; [|congruence].
    exists issue. by split_and!.
  - rewrite lookup_insert_ne in Hrow; congruence.
Qed.

Lemma fixed_resource row row' :
  fixed_part row = fixed_part row' → row.(row_resource_id) = row'.(row_resource_id).
Proof. intros H1. by injection H1. Qed.

Lemma step_rows v v' α row :
  transition v v' → view_ok v → v'.(v_db) !! α = Some row → recorded v'.(v_trace) α row.
Proof.
  intros Ht Hv Hrow. destruct (v.(v_db) !! α) as [row0|] eqn:Hprev.
  - destruct (transition_row _ _ _ _ Ht Hprev) as (row1&Hrow1&Hs). simplify_eq.
    destruct (ok_rows _ Hv _ _ Hprev) as (issue&r0&Hin&Hc&Hi&Hf&->).
    destruct (transition_trace _ _ Ht) as [ext ->]. apply row_step_fixed in Hs as Hfx.
    exists issue, r0. split_and!; [set_solver|done|done|congruence|by injection Hfx].
  - destruct (transition_new_row _ _ _ _ Ht Hrow Hprev) as (issue&->&Hc&Hi&->&_).
    exists issue, row. split_and!; [set_solver|done..].
Qed.

Lemma step_resources v v' α β row row' :
  transition v v' → view_ok v → v'.(v_db) !! α = Some row → v'.(v_db) !! β = Some row' →
  row.(row_resource_id) = row'.(row_resource_id) → α = β.
Proof.
  intros Ht Hv.
  assert (Hnew : ∀ α β row row', v'.(v_db) !! α = Some row → v'.(v_db) !! β = Some row' →
    row.(row_resource_id) = row'.(row_resource_id) → v.(v_db) !! α = None →
    ∀ old, v.(v_db) !! β = Some old → False).
  { clear α β row row'. intros α β row row' Ha Hb Heq Hn old Hold.
    destruct (transition_new_row _ _ _ _ Ht Ha Hn) as (_&_&_&_&_&Hu).
    destruct (transition_row _ _ _ _ Ht Hold) as (r1&Hr1&Hs). simplify_eq.
    apply row_step_fixed, fixed_resource in Hs.
    rewrite (proj2 (unique_taken_true resource_key _ _)) in Hu; [done|].
    exists β, old. split; [done|]. unfold resource_key. congruence. }
  intros Ha Hb Heq.
  destruct (v.(v_db) !! α) as [ra|] eqn:Ea, (v.(v_db) !! β) as [rb|] eqn:Eb.
  - destruct (transition_row _ _ _ _ Ht Ea) as (r1&Hr1&Hs1).
    destruct (transition_row _ _ _ _ Ht Eb) as (r2&Hr2&Hs2). simplify_eq.
    apply row_step_fixed, fixed_resource in Hs1, Hs2.
    eapply (ok_resources _ Hv); [done..|congruence].
  - exfalso. by eapply (Hnew β α).
  - exfalso. by eapply (Hnew α β).
  - destruct Ht; cbn in *; try congruence;
      try match goal with H : moves_row _ ?a _ _ _ _ _ |- _ =>
        destruct H as (tag&Hx&_&_&_&_&->);
        apply lookup_insert_Some in Ha as [[<- _]|[_ Ha]]; congruence end.
    + unfold release_insert in *. destruct (_ || _); [done|].
      match goal with H : sql_insert _ _ _ _ _ = _ |- _ => apply sql_insert_Some in H as (->&_) end.
      apply lookup_insert_Some in Ha as [[<- _]|[_ Ha]], Hb as [[<- _]|[_ Hb]]; congruence.
    + apply lookup_insert_Some in Ha as [[<- _]|[_ Ha]]; congruence.
Qed.

(** What a transition does to one publisher. *)
Inductive publisher_step (v v' : View) (i : nat) (p p' : Publisher) : Prop :=
| Pub_same (Heq : p' = p)
| Pub_clock genesis c (Heq : p' = set_progress p (with_clock (genesis, c) p.(pub_progress)))
    (Htr : v'.(v_trace) = v.(v_trace) ++ [Clock_read i genesis c])
| Pub_grant row
    (Heq : p' = set_progress p (with_grant (attempt_of p.(pub_snapshot)) p.(pub_progress)))
    (Hnone : p.(pub_progress).(grant) = None) (Hnot : p.(pub_progress).(sent) = None)
    (Hmv : moves_row p.(pub_key) p.(pub_snapshot).(snap_activation) Prepared PublicationStarted
             v.(v_db) row v'.(v_db))
    (Hsame : same_snapshot_binding (snapshot_of_row row Prepared) p.(pub_snapshot) = true)
    (Htr : v'.(v_trace) = v.(v_trace))
| Pub_send q (Heq : p' = set_progress p (with_sent q p.(pub_progress)))
    (Hg : p.(pub_progress).(grant) = Some (attempt_of p.(pub_snapshot)))
    (Hnot : p.(pub_progress).(sent) = None) (Hopen : p.(pub_progress).(finished) = None)
    (Hmay : may_send p.(pub_snapshot) p.(pub_key) p.(pub_progress) q)
    (Htr : v'.(v_trace) = v.(v_trace) ++ [Submitted i q]) (Hdb : v'.(v_db) = v.(v_db))
| Pub_answer r (Heq : p' = set_progress p (with_answer r p.(pub_progress)))
    (Hsent : is_Some p.(pub_progress).(sent)) (Hnone : p.(pub_progress).(answer) = None)
    (Htr : v'.(v_trace) = v.(v_trace) ++ [Answered i r])
| Pub_finish t (Heq : p' = set_progress p (with_finished t p.(pub_progress))).

(** One publisher moves at a time; the others, and the trace it does not write,
    stay. *)
Lemma transition_publisher v v' i p' :
  transition v v' → v'.(v_publishers) !! i = Some p' →
  (v.(v_publishers) !! i = None ∧ p'.(pub_progress) = no_progress ∧
   i = length v.(v_publishers) ∧ v'.(v_trace) = v.(v_trace)) ∨
  ∃ p, v.(v_publishers) !! i = Some p ∧ publisher_step v v' i p p' ∧
    (p' = p ∨ ∀ j, j ≠ i → v'.(v_publishers) !! j = v.(v_publishers) !! j).
Proof.
  intros Ht Hp'.
  assert (Hsame : v'.(v_publishers) !! i = v.(v_publishers) !! i →
    ∃ p, v.(v_publishers) !! i = Some p ∧ publisher_step v v' i p p' ∧
      (p' = p ∨ ∀ j, j ≠ i → v'.(v_publishers) !! j = v.(v_publishers) !! j)).
  { intros Heq. exists p'. split_and!; [congruence|by apply Pub_same|by left]. }
  assert (Hins : ∀ k p g, v'.(v_publishers) = <[k := set_progress p g]> v.(v_publishers) →
    v.(v_publishers) !! k = Some p → publisher_step v v' k p (set_progress p g) →
    ∃ p, v.(v_publishers) !! i = Some p ∧ publisher_step v v' i p p' ∧
      (p' = p ∨ ∀ j, j ≠ i → v'.(v_publishers) !! j = v.(v_publishers) !! j)).
  { intros k p g Heq Hk Hst. destruct (decide (k = i)) as [->|Hne].
    - exists p. rewrite Heq in Hp'. apply list_lookup_insert_Some in Hp' as [(_&<-&_)|(?&_)]; [|done].
      split_and!; [done..|]. right. intros j Hj. by rewrite Heq, list_lookup_insert_ne.
    - apply Hsame. by rewrite Heq, list_lookup_insert_ne. }
  destruct Ht; cbn in *; try (right; by apply Hsame).
  - apply lookup_snoc_Some in Hp' as [[Hlt Hp']|[-> <-]].
    + right. apply Hsame. by rewrite lookup_app_l.
    + left. split_and!; try done. apply lookup_ge_None. lia.
  - right. eapply Hins; [done..|]. by eapply Pub_clock.
  - right. eapply Hins; [done..|]. destruct given; [by eapply Pub_grant|].
    apply Pub_same. by destruct p.
  - right. eapply Hins; [done..|]. by eapply Pub_send.
  - right. eapply Hins; [done..|]. by eapply Pub_answer.
  - right. eapply Hins; [done..|]. by eapply Pub_finish.
  - right. eapply Hins; [done..|]. by eapply Pub_finish.
Qed.

Lemma same_binding_fixed row row' s :
  fixed_part row = fixed_part row' →
  same_snapshot_binding (snapshot_of_row row Prepared) s
  = same_snapshot_binding (snapshot_of_row row' Prepared) s.
Proof.
  intros Hf. pose proof (row_context_fixed _ _ Hf) as Hc.
  unfold same_snapshot_binding, snapshot_of_row, row_intent. cbn. rewrite Hc.
  injection Hf as. by repeat match goal with Heq : _ = _ |- _ => rewrite Heq; clear Heq end.
Qed.

(** Snapshots and keys stay; what was granted, sent or answered stays. *)
Lemma publisher_step_keeps v v' i p p' :
  publisher_step v v' i p p' →
  p'.(pub_snapshot) = p.(pub_snapshot) ∧ p'.(pub_key) = p.(pub_key) ∧
  (is_Some p.(pub_progress).(grant) → p'.(pub_progress).(grant) = p.(pub_progress).(grant)) ∧
  (is_Some p.(pub_progress).(sent) → p'.(pub_progress).(sent) = p.(pub_progress).(sent)) ∧
  (is_Some p.(pub_progress).(answer) → p'.(pub_progress).(answer) = p.(pub_progress).(answer)) ∧
  (is_Some p.(pub_progress).(finished) → is_Some p'.(pub_progress).(finished)).
Proof.
  intros []; subst p'; cbn; split_and!; try done; intros [x Hx]; try congruence; eauto.
Qed.

Lemma transition_publisher_forward v v' i p :
  transition v v' → v.(v_publishers) !! i = Some p →
  ∃ p', v'.(v_publishers) !! i = Some p' ∧ publisher_step v v' i p p'.
Proof.
  intros Ht Hp.
  assert (is_Some (v'.(v_publishers) !! i)) as [p' Hp'].
  { apply lookup_lt_is_Some. apply lookup_lt_Some in Hp.
    destruct Ht; cbn in *; rewrite ?length_insert, ?length_app; cbn; lia. }
  destruct (transition_publisher _ _ _ _ Ht Hp') as [(Hn&_)|(p0&Hp0&Hst&_)]; [congruence|].
  simplify_eq. eauto.
Qed.

Lemma step_grant v v' i p a :
  transition v v' → view_ok v → v'.(v_publishers) !! i = Some p →
  p.(pub_progress).(grant) = Some a →
  a = attempt_of p.(pub_snapshot) ∧
  ∃ row st, v'.(v_db) !! p.(pub_snapshot).(snap_activation) = Some row ∧ has_state row st ∧
    st ≠ Prepared ∧ same_snapshot_binding (snapshot_of_row row Prepared) p.(pub_snapshot) = true.
Proof.
  intros Ht Hv Hp Hg.
  destruct (transition_publisher _ _ _ _ Ht Hp) as [(_&Hnp&_)|(p0&Hp0&Hst&_)].
  { by rewrite Hnp in Hg. }
  assert (Hold : p0.(pub_progress).(grant) = Some a → p.(pub_snapshot) = p0.(pub_snapshot) →
    a = attempt_of p.(pub_snapshot) ∧
    ∃ row st, v'.(v_db) !! p.(pub_snapshot).(snap_activation) = Some row ∧ has_state row st ∧
      st ≠ Prepared ∧ same_snapshot_binding (snapshot_of_row row Prepared) p.(pub_snapshot) = true).
  { intros Hg0 ->. destruct (ok_grant _ Hv _ _ _ Hp0 Hg0) as (->&row&st&Hrow&Hs&Hne&Hsame).
    split; [done|]. destruct (transition_row _ _ _ _ Ht Hrow) as (row'&Hrow'&Hrs).
    destruct (row_step_started _ _ _ Hrs Hs Hne) as (st'&Hs'&Hne').
    exists row', st'. split_and!; try done.
    by rewrite (same_binding_fixed _ _ _ (row_step_fixed _ _ Hrs)). }
  destruct Hst; subst p; cbn in *; try (by apply Hold).
  simplify_eq. split; [done|]. destruct Hmv as (tag&Hrow&_&_&_&_&->).
  eexists _, PublicationStarted. rewrite lookup_insert_eq. split_and!; try done.
Qed.

Lemma step_unique v v' i j p q :
  transition v v' → view_ok v → v'.(v_publishers) !! i = Some p → v'.(v_publishers) !! j = Some q →
  is_Some p.(pub_progress).(grant) → is_Some q.(pub_progress).(grant) →
  p.(pub_snapshot).(snap_activation) = q.(pub_snapshot).(snap_activation) → i = j.
Proof.
  intros Ht Hv Hp Hq Hgp Hgq Heq. destruct (decide (i = j)) as [|Hij]; [done|].
  (* a publisher given the permission now cannot meet one that had it *)
  assert (Hnow : ∀ i j p q p0 q0, publisher_step v v' i p0 p → v.(v_publishers) !! j = Some q0 →
    q.(pub_snapshot) = q0.(pub_snapshot) → p.(pub_snapshot) = p0.(pub_snapshot) →
    p.(pub_snapshot).(snap_activation) = q.(pub_snapshot).(snap_activation) →
    is_Some p.(pub_progress).(grant) → is_Some q0.(pub_progress).(grant) →
    is_Some p0.(pub_progress).(grant)).
  { clear -Hv. intros i j p q p0 q0 Hst Hq0 Hqs Hps Heq Hg [a Ha].
    destruct (p0.(pub_progress).(grant)) eqn:Hn; [done|].
    destruct Hst; subst p; cbn in *; try (rewrite Hn in Hg; by destruct Hg); try congruence.
    destruct (ok_grant _ Hv _ _ _ Hq0 Ha) as (_&row'&st&Hrow'&Hs'&Hne&_).
    destruct Hmv as (tag&Hrow&Hs&_). rewrite Heq, Hqs in Hrow. simplify_eq.
    destruct Hne. by eapply has_state_inj. }
  destruct (transition_publisher _ _ _ _ Ht Hp) as [(_&Hnp&_)|(p0&Hp0&Hsp&Hop)];
    [rewrite Hnp in Hgp; by destruct Hgp|].
  destruct (transition_publisher _ _ _ _ Ht Hq) as [(_&Hnp&_)|(q0&Hq0&Hsq&_)];
    [rewrite Hnp in Hgq; by destruct Hgq|].
  pose proof (publisher_step_keeps _ _ _ _ _ Hsp) as (Hps&_).
  pose proof (publisher_step_keeps _ _ _ _ _ Hsq) as (Hqs&_).
  assert (is_Some p0.(pub_progress).(grant) ∧ is_Some q0.(pub_progress).(grant)) as [Hg1 Hg2].
  { destruct Hop as [->|Hop].
    - split; [done|]. by eapply (Hnow j i q p0 q0 p0).
    - assert (q = q0) as -> by (specialize (Hop j); rewrite Hq, Hq0 in Hop; naive_solver).
      split; [|done]. by eapply (Hnow i j p q0 p0 q0). }
  eapply (ok_unique _ Hv); [exact Hp0|exact Hq0|done|done|congruence].
Qed.

(** A transition writes at most one event, and each event comes from the move
    it reports. *)
Lemma transition_event v v' :
  transition v v' → v'.(v_trace) = v.(v_trace) ∨
  ∃ e, v'.(v_trace) = v.(v_trace) ++ [e] ∧
    match e with
    | Submitted i q =>
        ∃ p, v.(v_publishers) !! i = Some p ∧ p.(pub_progress).(sent) = None ∧
          is_Some p.(pub_progress).(grant) ∧
          may_send p.(pub_snapshot) p.(pub_key) p.(pub_progress) q ∧
          v'.(v_publishers) !! i = Some (set_progress p (with_sent q p.(pub_progress)))
    | Clock_read i genesis c =>
        ∃ p, v.(v_publishers) !! i = Some p ∧
          v'.(v_publishers) !! i
          = Some (set_progress p (with_clock (genesis, c) p.(pub_progress)))
    | Disclosed α _ =>
        ∃ row, v'.(v_db) !! α = Some row ∧ (has_state row Release_Admitted ∨ has_state row Ambiguous)
    | Issued _ | Answered _ _ => True
    end.
Proof.
  assert (Hins : ∀ (ps : list Publisher) i p p', ps !! i = Some p → <[i := p']> ps !! i = Some p').
  { intros ps i p p' Hp. apply list_lookup_insert_eq. by eapply lookup_lt_Some. }
  destruct 1; cbn; try (by left).
  - right. by eexists.
  - right. eexists. split; [done|]. exists p. split; [done|]. by eapply Hins.
  - right. eexists. split; [done|]. exists p. split_and!; [done..|by eexists|done|by eapply Hins].
  - right. by eexists.
  - match goal with H : _ ∨ _ |- _ => destruct H as [->|[tx ->]] end;
      [left; by rewrite (right_id_L [] (++))|right].
    eexists. split; [done|]. match goal with H : moves_row _ _ _ _ _ _ _ |- _ =>
      destruct H as (tag&_&_&_&_&_&->) end.
    eexists. rewrite lookup_insert_eq. split; [done|]. by right.
  - right. eexists. split; [done|]. cbn. eauto.
Qed.

Lemma step_sent v v' i p :
  transition v v' → view_ok v → v'.(v_publishers) !! i = Some p →
  is_Some p.(pub_progress).(sent) → is_Some p.(pub_progress).(grant).
Proof.
  intros Ht Hv Hp Hs.
  destruct (transition_publisher _ _ _ _ Ht Hp) as [(_&Hnp&_)|(p0&Hp0&Hst&_)].
  { rewrite Hnp in Hs. by destruct Hs. }
  pose proof (ok_sent _ Hv _ _ Hp0) as Hold.
  destruct Hst; subst p; cbn in *; auto; by rewrite Hg.
Qed.

Lemma step_submitted v v' i q :
  transition v v' → view_ok v → Submitted i q ∈ v'.(v_trace) →
  ∃ p, v'.(v_publishers) !! i = Some p ∧ p.(pub_progress).(sent) = Some q.
Proof.
  intros Ht Hv Hin.
  assert (Hold : Submitted i q ∈ v.(v_trace) →
    ∃ p, v'.(v_publishers) !! i = Some p ∧ p.(pub_progress).(sent) = Some q).
  { intros Ho. destruct (ok_submitted _ Hv _ _ Ho) as (p&Hp&Hs).
    destruct (transition_publisher_forward _ _ _ _ Ht Hp) as (p'&Hp'&Hst).
    apply publisher_step_keeps in Hst as (_&_&_&Hk&_). exists p'. split; [done|].
    rewrite Hk; [done|by eexists]. }
  destruct (transition_event _ _ Ht) as [Htr|(e&Htr&He)]; rewrite Htr in Hin; [auto|].
  apply elem_of_app in Hin as [Hin|Hin%list_elem_of_singleton]; [auto|]. subst e.
  destruct He as (p&_&_&_&_&Hp'). by eexists.
Qed.

Lemma step_once v v' m n i q q' :
  transition v v' → view_ok v → v'.(v_trace) !! m = Some (Submitted i q) →
  v'.(v_trace) !! n = Some (Submitted i q') → m = n.
Proof.
  intros Ht Hv Hm Hn.
  destruct (transition_event _ _ Ht) as [Htr|(e&Htr&He)]; rewrite Htr in Hm, Hn.
  { by eapply (ok_once _ Hv). }
  assert (Hnew : ∀ q, e = Submitted i q → ∀ k q', v.(v_trace) !! k = Some (Submitted i q') → False).
  { intros q0 -> k q1 Hk. destruct He as (p&Hp&Hns&_).
    apply list_elem_of_lookup_2, (ok_submitted _ Hv) in Hk as (p'&Hp'&Hs). congruence. }
  apply lookup_snoc_Some in Hm as [[_ Hm]|[-> ->]], Hn as [[_ Hn]|[-> Heq]]; try done.
  - by eapply (ok_once _ Hv).
  - exfalso. by eapply Hnew.
  - exfalso. by eapply Hnew.
Qed.

Lemma step_clock_range v v' i genesis c :
  transition v v' → view_ok v → Clock_read i genesis c ∈ v'.(v_trace) →
  (i < length v'.(v_publishers))%nat.
Proof.
  intros Ht Hv Hin.
  assert (Hlen : (length v.(v_publishers) ≤ length v'.(v_publishers))%nat).
  { destruct Ht; cbn; rewrite ?length_insert, ?length_app; lia. }
  destruct (transition_event _ _ Ht) as [Htr|(e&Htr&He)]; rewrite Htr in Hin.
  { apply (ok_clock_range _ Hv) in Hin. lia. }
  apply elem_of_app in Hin as [Hin|Hin%list_elem_of_singleton].
  { apply (ok_clock_range _ Hv) in Hin. lia. }
  subst e. destruct He as (p&_&Hp). by eapply lookup_lt_Some.
Qed.

Lemma reads_other i tr e :
  (∀ genesis c, e ≠ Clock_read i genesis c) → reads i (tr ++ [e]) = reads i tr.
Proof.
  intros Hne. rewrite reads_app. destruct e; cbn; try by rewrite (right_id_L [] (++)).
  case_decide; [|by rewrite (right_id_L [] (++))]. subst. by destruct (Hne genesis clock).
Qed.

Lemma reads_none i tr : (∀ genesis c, Clock_read i genesis c ∉ tr) → reads i tr = [].
Proof.
  induction tr as [|e tr IH] using rev_ind; intros Hne; [done|].
  rewrite reads_other; [apply IH; set_solver|]. intros genesis c ->. apply (Hne genesis c). set_solver.
Qed.

Lemma step_clocks v v' i p :
  transition v v' → view_ok v → v'.(v_publishers) !! i = Some p →
  p.(pub_progress).(clocks) = reads i v'.(v_trace).
Proof.
  intros Ht Hv Hp.
  destruct (transition_publisher _ _ _ _ Ht Hp) as [(_&->&->&->)|(p0&Hp0&Hst&_)].
  { symmetry. apply reads_none. intros genesis c Hin. apply (ok_clock_range _ Hv) in Hin. lia. }
  pose proof (ok_clocks _ Hv _ _ Hp0) as Hold.
  assert (Hkeep : (∀ genesis c, v'.(v_trace) ≠ v.(v_trace) ++ [Clock_read i genesis c]) →
    reads i v'.(v_trace) = reads i v.(v_trace)).
  { intros Hne. destruct (transition_event _ _ Ht) as [->|(e&Htr&He)]; [done|].
    rewrite Htr. apply reads_other. intros genesis c ->. by apply (Hne genesis c). }
  assert (Hno : p.(pub_progress).(clocks) = p0.(pub_progress).(clocks) →
    ∀ genesis c, v'.(v_trace) ≠ v.(v_trace) ++ [Clock_read i genesis c]).
  { intros Heq genesis c Htr. destruct (transition_event _ _ Ht) as [Htr'|(e&Htr'&He)].
    - rewrite Htr' in Htr. apply (f_equal length) in Htr. rewrite length_app in Htr. cbn in Htr. lia.
    - rewrite Htr' in Htr. apply app_inj_2 in Htr as [_ [= ->]]; [|done].
      destruct He as (p1&Hp1&Hp1'). simplify_eq. cbn in Heq.
      apply (f_equal length) in Heq. rewrite length_app in Heq. cbn in Heq. lia. }
  destruct Hst; subst p; cbn in *; try (rewrite Hkeep; [done|by apply Hno]).
  rewrite Htr, reads_app, Hold. cbn. by rewrite decide_True.
Qed.

Lemma step_sends v v' pre i q post :
  transition v v' → view_ok v → v'.(v_trace) = pre ++ Submitted i q :: post →
  ∃ p, v'.(v_publishers) !! i = Some p ∧ sent_for pre i q p.(pub_snapshot) p.(pub_key).
Proof.
  intros Ht Hv Heq.
  assert (Hold : ∀ post', v.(v_trace) = pre ++ Submitted i q :: post' →
    ∃ p, v'.(v_publishers) !! i = Some p ∧ sent_for pre i q p.(pub_snapshot) p.(pub_key)).
  { intros post' Ho. destruct (ok_sends _ Hv _ _ _ _ Ho) as (p&Hp&Hm).
    destruct (transition_publisher_forward _ _ _ _ Ht Hp) as (p'&Hp'&Hst).
    apply publisher_step_keeps in Hst as (Hs&Hk&_). exists p'. by rewrite Hs, Hk. }
  destruct (transition_event _ _ Ht) as [Htr|(e&Htr&He)]; rewrite Htr in Heq; [by eapply Hold|].
  apply app_singleton_split in Heq as [[post' Ho]|(Hpre&->&->)]; [by eapply Hold|].
  destruct He as (p&Hp&_&[a Ha]&Hm&Hp'). eexists. split; [exact Hp'|]. rewrite <- Hpre. cbn.
  destruct (ok_grant _ Hv _ _ _ Hp Ha) as (_&row&st&Hrow&_&_&Hsame).
  destruct (ok_rows _ Hv _ _ Hrow) as (issue&row0&Hin&Hc&Hi&Hf&_).
  exists p.(pub_progress), issue, row0. split_and!; try done; [by apply (ok_clocks _ Hv)|].
  by rewrite <- (same_binding_fixed _ _ _ Hf).
Qed.

Lemma step_disclosed v v' α tx :
  transition v v' → view_ok v → Disclosed α tx ∈ v'.(v_trace) →
  ∃ row, v'.(v_db) !! α = Some row ∧ (has_state row Release_Admitted ∨ has_state row Ambiguous).
Proof.
  intros Ht Hv Hin.
  assert (Hold : Disclosed α tx ∈ v.(v_trace) →
    ∃ row, v'.(v_db) !! α = Some row ∧ (has_state row Release_Admitted ∨ has_state row Ambiguous)).
  { intros Ho. destruct (ok_disclosed _ Hv _ _ Ho) as (row&Hrow&Hs).
    destruct (transition_row _ _ _ _ Ht Hrow) as (row'&Hrow'&Hst). exists row'. split; [done|].
    destruct Hs as [Hs|Hs]; [left|right]; by eapply row_step_terminal. }
  destruct (transition_event _ _ Ht) as [Htr|(e&Htr&He)]; rewrite Htr in Hin; [auto|].
  apply elem_of_app in Hin as [Hin|Hin%list_elem_of_singleton]; [auto|]. by subst e.
Qed.

(** A release is suppressed or admitted by the publisher that holds its
    permission. *)
Lemma transition_end v v' α row t :
  transition v v' → v'.(v_db) !! α = Some row → has_state row t →
  t = Suppressed ∨ t = Release_Admitted →
  (∃ row0, v.(v_db) !! α = Some row0 ∧ has_state row0 t) ∨
  ∃ i p a, v.(v_publishers) !! i = Some p ∧ p.(pub_progress).(grant) = Some a ∧
    a.(attempt_activation) = α ∧ may_finish p.(pub_progress) a t ∧
    v'.(v_publishers) !! i = Some (set_progress p (with_finished t p.(pub_progress))).
Proof.
  intros Ht Hrow Hs Hend. destruct Ht; cbn in *; try (left; by eauto);
    try match goal with H : moves_row _ _ _ _ _ _ _ |- _ =>
      destruct H as (tag&Hr&_&_&_&_&->);
      apply lookup_insert_Some in Hrow as [[<- <-]|[_ Hrow]]; [|left; by eauto];
      apply has_state_set_state in Hs as ->
    end; try (naive_solver; fail).
  - unfold release_insert in *. destruct (_ || _); [done|].
    match goal with H : sql_insert _ _ _ _ _ = _ |- _ => apply sql_insert_Some in H as (->&_) end.
    apply lookup_insert_Some in Hrow as [[<- <-]|[_ Hrow]]; [|left; by eauto].
    match goal with H : issued_row _ _ |- _ => destruct H as (?&?&?&?&?&_&_&_&_&_&->) end.
    apply (has_state_inj _ Prepared) in Hs; [|done]. naive_solver.
  - apply lookup_insert_Some in Hrow as [[<- <-]|[_ Hrow]]; left; by eauto.
  - right. eexists i, p, a. split_and!; try done. apply list_lookup_insert_eq.
    by eapply lookup_lt_Some.
Qed.

Lemma step_suppressed v v' α row i p :
  transition v v' → view_ok v → v'.(v_db) !! α = Some row → has_state row Suppressed →
  v'.(v_publishers) !! i = Some p → p.(pub_snapshot).(snap_activation) = α →
  is_Some p.(pub_progress).(grant) →
  p.(pub_progress).(sent) = None ∧ is_Some p.(pub_progress).(finished).
Proof.
  intros Ht Hv Hrow Hs Hp Hα Hg.
  destruct (transition_publisher _ _ _ _ Ht Hp) as [(_&Hnp&_)|(p0&Hp0&Hst&_)].
  { rewrite Hnp in Hg. by destruct Hg. }
  pose proof (publisher_step_keeps _ _ _ _ _ Hst) as (Hsn&_).
  destruct (transition_end _ _ _ _ _ Ht Hrow Hs) as [(row0&Hrow0&Hs0)|Hend]; [by left| |].
  - assert (Hg0 : is_Some p0.(pub_progress).(grant)).
    { destruct Hst; subst p; cbn in *; try done.
      destruct Hmv as (tag&Hr&Hpr&_). rewrite Hα in Hr. simplify_eq.
      by apply (has_state_inj _ _ _ Hpr) in Hs0. }
    destruct (ok_suppressed _ Hv _ _ _ _ Hrow0 Hs0 Hp0) as [Hn Hf]; [congruence|done|].
    destruct Hst; subst p; cbn in *; try done. by rewrite Hopen in Hf; destruct Hf.
  - destruct Hend as (k&pk&a&Hpk&Ha&Hact&Hmay&Hpk').
    assert (Hk : is_Some pk.(pub_progress).(grant)) by by rewrite Ha.
    destruct (ok_grant _ Hv _ _ _ Hpk Ha) as (->&_). cbn in Hact.
    assert (i = k) as ->.
    { eapply (step_unique _ _ _ _ _ _ Ht Hv Hp Hpk'); [done|done|]. cbn. congruence. }
    rewrite Hpk' in Hp. simplify_eq. cbn. split; [done|by eexists].
Qed.

Lemma step_admitted v v' α row :
  transition v v' → view_ok v → v'.(v_db) !! α = Some row → has_state row Release_Admitted →
  ∃ i p q r, v'.(v_publishers) !! i = Some p ∧ p.(pub_snapshot).(snap_activation) = α ∧
    p.(pub_progress).(sent) = Some q ∧ p.(pub_progress).(answer) = Some (Some r) ∧
    Hex32_as_bytes r.(submitted_transaction_id) = p.(pub_snapshot).(snap_publication_id).
Proof.
  intros Ht Hv Hrow Hs.
  destruct (transition_end _ _ _ _ _ Ht Hrow Hs) as [(row0&Hrow0&Hs0)|Hend]; [by right| |].
  - destruct (ok_admitted _ Hv _ _ Hrow0 Hs0) as (i&p&q&r&Hp&Hα&Hq&Hr&Hid).
    destruct (transition_publisher_forward _ _ _ _ Ht Hp) as (p'&Hp'&Hst).
    apply publisher_step_keeps in Hst as (Hsn&_&_&Hsent&Hans&_).
    exists i, p', q, r. rewrite Hsn, Hsent, Hans by (by eexists). by split_and!.
  - destruct Hend as (k&pk&a&Hpk&Ha&Hact&(q&r&Hq&Hr&Hid)&Hpk').
    destruct (ok_grant _ Hv _ _ _ Hpk Ha) as (->&_).
    eexists k, _, q, r. split; [exact Hpk'|]. by split_and!.
Qed.

Lemma step_written v v' i p :
  transition v v' → view_ok v → v'.(v_publishers) !! i = Some p →
  (∀ q, p.(pub_progress).(sent) = Some q → Submitted i q ∈ v'.(v_trace)) ∧
  (∀ r, p.(pub_progress).(answer) = Some r → Answered i r ∈ v'.(v_trace)).
Proof.
  intros Ht Hv Hp.
  destruct (transition_publisher _ _ _ _ Ht Hp) as [(_&Hnp&_)|(p0&Hp0&Hst&_)].
  { by rewrite Hnp. }
  destruct (transition_trace _ _ Ht) as [ext Hext].
  assert (Hold : (∀ q, p0.(pub_progress).(sent) = Some q → Submitted i q ∈ v'.(v_trace)) ∧
    (∀ r, p0.(pub_progress).(answer) = Some r → Answered i r ∈ v'.(v_trace))).
  { rewrite Hext. split; intros x Hx; apply elem_of_app; left;
      [by eapply (ok_sent_trace _ Hv)|by eapply (ok_answers _ Hv)]. }
  destruct Hold. destruct Hst; subst p; cbn in *; split; auto; intros x [= <-]; rewrite Htr; set_solver.
Qed.

(** The invariant of every run. *)
Lemma view_ok_step v v' : transition v v' → view_ok v → view_ok v'.
Proof.
  intros Ht Hv. split.
  - intros α row. by apply step_rows with v.
  - intros α β row row'. by apply step_resources with v.
  - intros i p a. by apply step_grant with v.
  - intros i j p q. by apply step_unique with v.
  - intros i p. by apply step_sent with v.
  - intros i q. by apply step_submitted with v.
  - intros m n i q q'. by apply step_once with v.
  - intros i genesis c. by apply step_clock_range with v.
  - intros i p. by apply step_clocks with v.
  - intros pre i q post. by apply step_sends with v.
  - intros α tx. by apply step_disclosed with v.
  - intros α row i p. by apply step_suppressed with v.
  - intros α row. by apply step_admitted with v.
  - intros i p q Hp. by apply (step_written _ _ _ _ Ht Hv Hp).
  - intros i p r Hp. by apply (step_written _ _ _ _ Ht Hv Hp).
Qed.
End invariant.
