(* ===== verification/ReleaseTheorems.v ===== *)
(** * The release service: what its runs guarantee

    Every run of the service, under any interleaving of publications, faults of
    the storage and answers of the clock and the node: one submission per release
    and per monero output, behind the evidence and inside the window it was
    issued for; a suppressed release was never disclosed; an admitted one was
    submitted and answered; recorded releases are final. *)

From stdpp Require Import base gmap strings list numbers.
From S2P Require Import Prelude SwapCore BridgeValues AssetEvidence SqlTable.
From S2P Require Import ReleaseCrypto ReleaseStore ReleaseIssuer ReleasePublisher ReleaseFacts.
From S2P Require Import ReleaseProtocol ReleaseInvariant.

Open Scope Z_scope.

Section runs.
Context `{ReleaseCrypto, HexCodec}.

Lemma run_view_from sys v actions :
  simulates sys v → view_ok v →
  ∃ v', rtc transition v v' ∧ simulates (run sys actions) v' ∧ view_ok v'.
Proof.
  intros Hs Hv. destruct (run_simulated sys v actions Hs) as (v'&Hr&Hs'). exists v'.
  split_and!; [done..|]. clear -Hr Hv. induction Hr; [done|]. by eauto using view_ok_step.
Qed.

Lemma simulates_initial : simulates initial_system (Build_View ∅ [] []).
Proof. by split_and!. Qed.

Lemma run_view actions :
  ∃ v, simulates (run initial_system actions) v ∧ view_ok v.
Proof.
  destruct (run_view_from _ _ actions simulates_initial view_ok_initial) as (v&_&?&?). eauto.
Qed.

Lemma system_run_app sys a b : run sys (a ++ b) = run (run sys a) b.
Proof. apply fold_left_app. Qed.

Lemma rtc_row v v' α row s :
  rtc transition v v' → v.(v_db) !! α = Some row →
  ∃ row', v'.(v_db) !! α = Some row' ∧ fixed_part row' = fixed_part row ∧
    (has_state row s → s ≠ Prepared → s ≠ PublicationStarted → has_state row' s).
Proof.
  intros Hr. revert row. induction Hr as [v|v v1 v' Ht Hr IH]; intros row Hrow; [eauto|].
  destruct (transition_row _ _ _ _ Ht Hrow) as (row1&Hrow1&Hst).
  destruct (IH _ Hrow1) as (row'&Hrow'&Hf&Hs). exists row'. split_and!; [done| |].
  - rewrite Hf. by apply row_step_fixed.
  - intros H1 H2 H3. apply Hs; [|done..]. by eapply row_step_terminal.
Qed.

(** The task of a submission, and the row it was granted on. *)
Lemma submitted_task sys v i q t :
  simulates sys v → view_ok v → Submitted i q ∈ sys.(sys_trace) → sys.(sys_tasks) !! i = Some t →
  ∃ p row, v.(v_publishers) !! i = Some p ∧ p.(pub_snapshot) = t.(task_snapshot) ∧
    p.(pub_key) = t.(task_key) ∧ p.(pub_progress).(sent) = Some q ∧
    is_Some p.(pub_progress).(grant) ∧
    sys.(sys_db) !! t.(task_snapshot).(snap_activation) = Some row ∧
    row.(row_resource_id) = t.(task_snapshot).(snap_resource_id).
Proof.
  intros (Hdb&Htr&Hf) Hv Hin Ht. rewrite Htr in Hin.
  destruct (ok_submitted _ Hv _ _ Hin) as (p&Hp&Hsent).
  destruct (Forall2_lookup_lr _ _ _ _ _ _ Hf Ht Hp) as (Hs&Hk&_).
  destruct (ok_sent _ Hv _ _ Hp) as [a Ha]; [by eexists|].
  destruct (ok_grant _ Hv _ _ _ Hp Ha) as (_&row&st&Hrow&_&_&Hsame).
  unfold same_snapshot_binding in Hsame. bool_props. cbn in *.
  exists p, row. rewrite Hdb, Hs. split_and!; try done.
Qed.

(** C6: Across any interleaving of publishing tasks, restarts, lost commits and
    storage faults, two submissions handed to the node for the same release, or
    for releases of the same monero output, are one and the same event of the
    trace. *)
Theorem release_submits_once actions m n i j q r t u :
  let sys := run initial_system actions in
  sys.(sys_trace) !! m = Some (Submitted i q) → sys.(sys_trace) !! n = Some (Submitted j r) →
  sys.(sys_tasks) !! i = Some t → sys.(sys_tasks) !! j = Some u →
  (t.(task_snapshot).(snap_activation) = u.(task_snapshot).(snap_activation) ∨
   t.(task_snapshot).(snap_resource_id) = u.(task_snapshot).(snap_resource_id)) →
  m = n.
Proof.
  intros sys Hm Hn Ht Hu Heq. destruct (run_view actions) as (v&Hsim&Hv). fold sys in Hsim.
  destruct (submitted_task _ _ _ _ _ Hsim Hv (list_elem_of_lookup_2 _ _ _ Hm) Ht)
    as (p&row&Hp&Hps&_&_&Hgp&Hrow&Hres).
  destruct (submitted_task _ _ _ _ _ Hsim Hv (list_elem_of_lookup_2 _ _ _ Hn) Hu)
    as (p'&row'&Hp'&Hps'&_&_&Hgp'&Hrow'&Hres').
  destruct Hsim as (Hdb&Htr&_). rewrite Hdb in Hrow, Hrow'. rewrite Htr in Hm, Hn.
  assert (Hact : t.(task_snapshot).(snap_activation) = u.(task_snapshot).(snap_activation)).
  { destruct Heq as [Heq|Heq]; [done|]. eapply (ok_resources _ Hv); [done..|congruence]. }
  assert (i = j) as -> by (eapply (ok_unique _ Hv); [exact Hp|exact Hp'|done|done|congruence]).
  by eapply (ok_once _ Hv).
Qed.

(** C18: Once a release is recorded as suppressed, nothing of it has left the
    service or ever will: no task submitted it, and no observer was given its
    signed transaction, whatever runs afterwards. *)
Theorem suppressed_never_disclosed before after α row :
  (run initial_system before).(sys_db) !! α = Some row → has_state row Suppressed →
  let sys := run initial_system (before ++ after) in
  (∀ i q t, sys.(sys_tasks) !! i = Some t → t.(task_snapshot).(snap_activation) = α →
     Submitted i q ∉ sys.(sys_trace)) ∧
  (∀ tx, Disclosed α tx ∉ sys.(sys_trace)).
Proof.
  intros Hrow Hs sys. destruct (run_view before) as (v&Hsim&Hv).
  destruct (run_view_from _ _ after Hsim Hv) as (v'&Hr&Hsim'&Hv').
  rewrite <- system_run_app in Hsim'. fold sys in Hsim'. destruct Hsim as (Hdb&_). rewrite Hdb in Hrow.
  destruct (rtc_row _ _ _ _ Suppressed Hr Hrow) as (row'&Hrow'&_&Hs').
  specialize (Hs' Hs ltac:(done) ltac:(done)). split.
  - intros i q t Ht Hα Hin.
    destruct (submitted_task _ _ _ _ _ Hsim' Hv' Hin Ht) as (p&_&Hp&Hps&_&Hsent&Hg&_).
    destruct (ok_suppressed _ Hv' _ _ _ _ Hrow' Hs' Hp) as [Hn _]; [congruence|done|congruence].
  - intros tx Hin. destruct Hsim' as (_&Htr&_). rewrite Htr in Hin.
    destruct (ok_disclosed _ Hv' _ _ Hin) as (row1&Hrow1&Hst). simplify_eq.
    destruct Hst as [Hst|Hst]; by apply (has_state_inj _ _ _ Hs') in Hst.
Qed.

(** A release is recorded as admitted only if one of its tasks submitted it
    and the node answered that very submission with the identity of the
    publication. *)
Theorem admitted_was_answered actions α row :
  let sys := run initial_system actions in
  sys.(sys_db) !! α = Some row → has_state row Release_Admitted →
  ∃ i t q r, sys.(sys_tasks) !! i = Some t ∧ t.(task_snapshot).(snap_activation) = α ∧
    Submitted i q ∈ sys.(sys_trace) ∧ Answered i (Some r) ∈ sys.(sys_trace) ∧
    Hex32_as_bytes r.(submitted_transaction_id) = t.(task_snapshot).(snap_publication_id).
Proof.
  intros sys Hrow Hs. destruct (run_view actions) as (v&(Hdb&Htr&Hf)&Hv).
  fold sys in Hdb, Htr, Hf. rewrite Hdb in Hrow.
  destruct (ok_admitted _ Hv _ _ Hrow Hs) as (i&p&q&r&Hp&Hα&Hq&Hr&Hid).
  destruct (Forall2_lookup_r _ _ _ _ _ Hf Hp) as (t&Ht&Hts&_). exists i, t, q, r.
  rewrite Htr, Hts. split_and!; try done;
    [by apply (ok_sent_trace _ Hv _ _ _ Hp)|by apply (ok_answers _ Hv _ _ _ Hp)].
Qed.

(** Nothing rewrites a recorded release: whatever runs afterwards, it keeps
    its output, target, window, ciphertext and binding, and an end state it
    reached. *)
Theorem release_records_are_final before after α row s :
  (run initial_system before).(sys_db) !! α = Some row →
  ∃ row', (run initial_system (before ++ after)).(sys_db) !! α = Some row' ∧
    fixed_part row' = fixed_part row ∧
    (has_state row s → s ≠ Prepared → s ≠ PublicationStarted → has_state row' s).
Proof.
  intros Hrow. destruct (run_view before) as (v&Hsim&Hv).
  destruct (run_view_from _ _ after Hsim Hv) as (v'&Hr&(Hdb'&_)&_).
  destruct Hsim as (Hdb&_). rewrite system_run_app, Hdb'. rewrite Hdb in Hrow. by eapply rtc_row.
Qed.
End runs.

Section evidence.
Context `{ReleaseCryptoLaws, HexCodec}.

(** What the checks of an issued release say of its evidence. *)
Lemma issue_checked_facts issue :
  issue_checked issue →
  issue.(issue_lock).(lock_terms) = issue.(issue_terms) ∧
  issue.(issue_authorization).(auth_terms) = issue.(issue_terms) ∧
  issue.(issue_observation).(obs_destination) = issue.(issue_monero).(monero_address) ∧
  issue.(issue_observation).(obs_amount_piconero) = issue.(issue_monero).(monero_amount_piconero) ∧
  issue.(issue_monero).(monero_required_confirmations)
    ≤ issue.(issue_observation).(obs_confirmations) ∧
  issue.(issue_topology).(topo_run_id) = issue.(issue_lock).(lock_run_id).
Proof.
  intros (Hl&Ho&Hm&_). unfold validate_lez_evidence, validate_observation,
    validate_monero_observation in *.
  inv_ok Hl. inv_ok Ho. inv_ok Hm. release_inv. by split_and!.
Qed.

(** C8: An authorization is handed to the node only behind its evidence.  A
    release was issued before, from an output with the agreed address, amount
    and confirmations and from the finalized funding of the same terms; the
    request names the run, the runtime and the terms of that funding and the
    identity of the prepared authorization, and carries its exact bytes when the
    task has the key it was issued with; and the task read the finalized clock
    of the runtime's chain exactly twice, at times that do not go back, from the
    funding on and strictly before the refund opens. *)
Theorem release_requires_evidence actions pre i q post t :
  let sys := run initial_system actions in
  sys.(sys_trace) = pre ++ Submitted i q :: post → sys.(sys_tasks) !! i = Some t →
  target_typed q.(submit_context).(message_run_id) q.(submit_runtime) q.(submit_terms) →
  (∀ issue, Issued issue ∈ pre →
     target_typed issue.(issue_lock).(lock_run_id) issue.(issue_lock).(lock_runtime)
       issue.(issue_terms)) →
  ∃ issue first last,
    let lock := issue.(issue_lock) in
    let authorization := issue.(issue_authorization).(auth_authorization) in
    let observation := issue.(issue_observation) in
    Issued issue ∈ pre ∧
    lock.(lock_terms) = q.(submit_terms) ∧ lock.(lock_runtime) = q.(submit_runtime) ∧
    lock.(lock_run_id) = q.(submit_context).(message_run_id) ∧
    observation.(obs_destination) = issue.(issue_monero).(monero_address) ∧
    observation.(obs_amount_piconero) = issue.(issue_monero).(monero_amount_piconero) ∧
    issue.(issue_monero).(monero_required_confirmations) ≤ observation.(obs_confirmations) ∧
    q.(submit_authorization).(prepared_transaction_id) = authorization.(prepared_transaction_id) ∧
    (t.(task_key) = issue.(issue_key) → q.(submit_authorization) = authorization) ∧
    (let genesis := q.(submit_runtime).(runtime_genesis_block_hash) in
     reads i pre = [(genesis, first); (genesis, last)]) ∧
    lock.(lock_finalized_clock).(clock_timestamp_ms) ≤ first.(clock_timestamp_ms) ∧
    first.(clock_timestamp_ms) ≤ last.(clock_timestamp_ms) ∧
    last.(clock_timestamp_ms) < q.(submit_terms).(xt_refund_at_ms).
Proof.
  intros sys Htr Ht Hq Hissues. destruct (run_view actions) as (v&(Hdb&Hvt&Hf)&Hv).
  fold sys in Hdb, Hvt, Hf. rewrite Hvt in Htr.
  destruct (ok_sends _ Hv _ _ _ _ Htr) as (p&Hp&g&issue&row&Hcl&Hm&Hin&Hc&Hi&Hsame).
  destruct (Forall2_lookup_lr _ _ _ _ _ _ Hf Ht Hp) as (Hts&Htk&_).
  destruct Hm as (first&last&genesis&Hg&->&Hw1&Hw2&Hle&Htarget&Hid&Hdec).
  pose proof (issued_decrypts _ _ Hi) as Henc.
  destruct Hi as (random&intent&semantic&observation&state&_&_&_&_&_&->).
  unfold same_snapshot_binding in Hsame. bool_props. cbn in *.
  destruct (issue_checked_facts _ Hc) as (Hlt&_&Hdest&Hamt&Hconf&_).
  match goal with H : plan_target _ = snap_target _ |- _ =>
    rewrite Htarget in H; apply release_target_inj in H as (Hrun&Hrt&Hterms); [|by apply Hissues|done]
  end.
  match goal with H : _ = snap_window _ |- _ => rewrite <- H in Hw1, Hw2 end.
  unfold in_window in *. bool_props. cbn in *.
  assert (Hpid : Hex32_as_bytes issue.(issue_authorization).(auth_authorization)
                   .(prepared_transaction_id) = snap_publication_id (pub_snapshot p)) by done.
  assert (Hauth : prepared_transaction_id (submit_authorization q)
    = prepared_transaction_id issue.(issue_authorization).(auth_authorization))
    by (apply Hex32_inj; congruence).
  exists issue, first, last. split_and!; try done; try congruence.
  - intros Hkey.
    match goal with Hi : _ = snap_intent _, Hx : _ = snap_immutable_context _ |- _ =>
      rewrite <- Hi, <- Hx, <- Htk, Hkey in Hdec end.
    rewrite Henc in Hdec. injection Hdec as Hbytes.
    change (plan_publication (plan_of issue)) with
      (TransactionBytes_as_slice issue.(issue_authorization).(auth_authorization)
         .(prepared_exact_bytes)) in Hbytes.
    destruct (submit_authorization q) as [? []], (auth_authorization _) as [? []]. cbn in *.
    congruence.
  - rewrite <- Hterms. done.
Qed.
End evidence.
