(* ===== verification/ReleaseIntegrity.v ===== *)
(** * The release journal stays readable

    Under one protection key, every row of a reachable journal validates and
    authenticates, so no operation reports corruption or a failed
    authentication; and the operations on a sound row succeed on a storage without
    faults. *)

From stdpp Require Import base gmap strings list numbers.
From S2P Require Import Prelude SwapCore BridgeValues AssetEvidence SqlTable.
From S2P Require Import ReleaseCrypto ReleaseStore ReleaseIssuer ReleasePublisher ReleaseFacts.
From S2P Require Import ReleaseProtocol ReleaseInvariant ReleaseTheorems.

Open Scope Z_scope.

(** A storage on which nothing fails. *)
Definition quiet : Storage := {| storage_fault := λ _, None; storage_commit := Delivered |}.

Section soundness.
Context `{ReleaseCrypto}.

(** The columns that no update assigns agree with each other and open under the
    key. *)
Definition fixed_sound (key : PublicationProtectionKey) (row : StoredReleaseRecord) : Prop :=
  validate_key_id row.(row_key_id) = Ok tt ∧
  row.(row_swap_id) ≠ zero32 ∧ row.(row_run_id) ≠ zero32 ∧
  row.(row_activation) = derive_activation_id row.(row_swap_id) row.(row_run_id) ∧
  row.(row_fingerprint) = envelope_fingerprint row.(row_key_id) row.(row_nonce)
                            row.(row_ciphertext) (row_context row) ∧
  row.(row_binding) = sha256 (exact_binding_bytes (row_context row) (row_intent row)) ∧
  ∃ plaintext, intent_decrypt (row_intent row) key (row_context row) = Ok plaintext ∧
    semantic_intent_authenticator key (row_context row) plaintext
    = Ok row.(row_semantic_authenticator).

Definition row_sound (key : PublicationProtectionKey) (α : bytes) (row : StoredReleaseRecord)
    : Prop :=
  release_check α row = true ∧ fixed_sound key row ∧
  observation_authenticator key (row_context row) row.(row_observation)
  = Ok row.(row_observation_authenticator) ∧
  release_state_authenticator key (row_context row) row.(row_binding)
    row.(row_state) row.(row_revision) = Ok row.(row_state_authenticator).

Lemma fixed_sound_fixed key row row' :
  fixed_part row = fixed_part row' → fixed_sound key row → fixed_sound key row'.
Proof.
  intros Hf. pose proof (row_context_fixed _ _ Hf) as Hc. unfold fixed_sound, row_intent.
  rewrite Hc. injection Hf as.
  by repeat match goal with Heq : _ = _ |- _ => rewrite Heq; clear Heq end.
Qed.

Lemma release_check_state α row :
  release_check α row = true → ∃ st, has_state row st.
Proof.
  unfold release_check. intros Hck. apply andb_true_iff in Hck as [_ Hst].
  rewrite !orb_true_iff in Hst. unfold has_state.
  destruct Hst as [[[[Hst|Hst]|Hst]|Hst]|Hst]; bool_props;
    [exists Prepared|exists PublicationStarted|exists Release_Admitted|exists Ambiguous|exists Suppressed];
    cbn; congruence.
Qed.

Lemma id32_array b : id32 b = true → array 32 b = Ok b ∧ b ≠ zero32.
Proof. unfold id32, len_is, array. intros Hb. bool_props. by rewrite H0, Z.eqb_refl. Qed.

Lemma len_array n b : len_is n b = true → array n b = Ok b.
Proof. unfold len_is, array. by intros ->. Qed.

Lemma bool_decide_zero (b : bytes) : b ≠ zero32 → bool_decide (b = zero32) = false.
Proof. apply bool_decide_eq_false_2. Qed.

(** A row within the table's checks validates, as it is. *)
Lemma fixed_validate key α row st :
  release_check α row = true → fixed_sound key row → has_state row st →
  StoredReleaseRecord_validate row = Ok (snapshot_of_row row st).
Proof.
  intros Hck (Hkey&Hswap&Hrun&Hact&Hfp&Hbind&_) Hst.
  unfold release_check, between in Hck. bool_props.
  repeat match goal with
  | H : id32 _ = true |- _ => apply id32_array in H as [? ?]
  | H : len_is _ _ = true |- _ => apply len_array in H
  end.
  unfold StoredReleaseRecord_validate, intent_from_record_fields.
  rewrite Hkey. cbn [map_err result_bind].
  assert (Hct : validate_ciphertext_length (blen row.(row_ciphertext)) = Ok tt).
  { unfold validate_ciphertext_length, TAG_BYTES, MAX_PUBLICATION_INTENT_BYTES.
    rewrite !(proj2 (Z.leb_le _ _)) by lia. done. }
  rewrite Hct.
  assert (Hb : (blen row.(row_observation) =? 0)
     || (MAX_OBSERVATION_BYTES <? blen row.(row_observation))
     || (blen row.(row_target) =? 0)
     || (MAX_TARGET_BYTES <? blen row.(row_target))
     || (row.(row_window_start) <? 0)
     || (row.(row_window_end) <=? row.(row_window_start)) = false).
  { unfold MAX_OBSERVATION_BYTES, MAX_TARGET_BYTES. rewrite !orb_false_iff. split_and!; lia. }
  rewrite Hb. cbn [reject_if result_bind map_err].
  repeat match goal with H : array _ _ = Ok _ |- _ => rewrite H; clear H; cbn [result_bind] end.
  rewrite !bool_decide_zero by done. rewrite (bool_decide_eq_true_2 _ Hact).
  cbn [negb orb reject_if result_bind].
  rewrite !(proj2 (Z.ltb_ge _ _)) by lia. cbn [result_bind].
  fold (row_context row). rewrite (bool_decide_eq_true_2 _ Hfp). cbn [negb map_err result_bind].
  fold (row_intent row). rewrite (bool_decide_eq_true_2 _ (eq_sym Hbind)).
  cbn [negb reject_if result_bind].
  unfold has_state in Hst. rewrite (surjective_pairing (state_record st)) in Hst.
  injection Hst as -> ->. by rewrite state_from_record_record.
Qed.

Lemma sound_validate key α row st :
  row_sound key α row → has_state row st →
  StoredReleaseRecord_validate row = Ok (snapshot_of_row row st).
Proof. intros (Hck&Hf&_) Hst. by eapply fixed_validate. Qed.

(** With a sound fixed part and observation, only the state's authenticator decides. *)
Lemma authenticate_state key row st :
  fixed_sound key row →
  observation_authenticator key (row_context row) row.(row_observation)
  = Ok row.(row_observation_authenticator) →
  has_state row st →
  ∃ plaintext, authenticate_snapshot (snapshot_of_row row st) key =
    let? mac := authentic (release_state_authenticator key (row_context row) row.(row_binding)
                             row.(row_state) row.(row_revision)) in
    if mac ==? row.(row_state_authenticator) then Ok plaintext else Err Release_Authentication.
Proof.
  intros (_&_&_&_&_&_&plaintext&Hdec&Hsem) Hobs Hst. exists plaintext.
  unfold authenticate_snapshot, verify_semantic_intent_authenticator,
    verify_observation_authenticator, verify_release_state_authenticator.
  unfold semantic_intent_authenticator, observation_authenticator, release_state_authenticator in *.
  cbn [snapshot_of_row snap_immutable_context snap_intent snap_semantic_authenticator
       snap_observation snap_observation_authenticator snap_binding snap_state
       snap_state_authenticator].
  unfold authentic. rewrite Hdec. cbn [map_err result_bind].
  rewrite Hsem. cbn [map_err result_bind].
  rewrite bool_decide_eq_true_2 by done. cbn [negb reject_if result_bind].
  rewrite Hobs. cbn [map_err result_bind].
  rewrite bool_decide_eq_true_2 by done. cbn [negb reject_if result_bind].
  unfold has_state in Hst. destruct (state_record st) as [state revision]. injection Hst as <- <-.
  destruct (release_state_mac _ _ _ _ _) as [mac|]; [|done]. cbn. by destruct (mac ==? _).
Qed.

Lemma sound_authenticate key α row st :
  row_sound key α row → has_state row st →
  is_ok (authenticate_snapshot (snapshot_of_row row st) key) = true.
Proof.
  intros (_&Hf&Hobs&Hstate) Hst.
  destruct (authenticate_state _ _ _ Hf Hobs Hst) as [plaintext ->].
  rewrite Hstate. cbn. by rewrite bool_decide_eq_true_2.
Qed.
End soundness.

(** ** Every reachable row is sound *)

Section preservation.
Context `{ReleaseCryptoLaws, HexCodec}.
Variable key : PublicationProtectionKey.
Hypothesis key_valid : validate_key_id key.(key_key_id) = Ok tt.

Definition db_sound (db : ReleaseDb) : Prop := map_Forall (row_sound key) db.

Lemma sound_moves α from to (db : ReleaseDb) row db' :
  db_sound db → moves_row key α from to db row db' → db_sound db'.
Proof using Type.
  intros Hdb (tag&Hrow&_&_&Htag&Hck&->). apply map_Forall_insert_2; [|done].
  destruct (Hdb _ _ Hrow) as (_&Hf&Hobs&_). by split_and!.
Qed.

Lemma sound_observed plan (db : ReleaseDb) row tag :
  db_sound db → db !! plan.(plan_activation) = Some row →
  observation_authenticator key (plan_immutable_context plan) plan.(plan_observation) = Ok tag →
  row_context row = plan_immutable_context plan →
  release_check plan.(plan_activation) (set_observation plan.(plan_observation) tag row) = true →
  db_sound (<[plan.(plan_activation) := set_observation plan.(plan_observation) tag row]> db).
Proof using Type.
  intros Hdb Hrow Htag Hctx Hck. apply map_Forall_insert_2; [|done].
  destruct (Hdb _ _ Hrow) as (_&Hf&_&Hst).
  split_and!; [done|by apply (fixed_sound_fixed _ row)| |done].
  change (row_context _) with (row_context row). by rewrite Hctx.
Qed.

Lemma sound_new plan random intent semantic observation state (db db' : ReleaseDb) :
  db_sound db → validate_plan plan = Ok tt →
  intent_encrypt random plan.(plan_publication) key (plan_immutable_context plan) = Ok intent →
  semantic_intent_authenticator key (plan_immutable_context plan) plan.(plan_publication)
    = Ok semantic →
  observation_authenticator key (plan_immutable_context plan) plan.(plan_observation)
    = Ok observation →
  let binding := sha256 (exact_binding_bytes (plan_immutable_context plan) intent) in
  release_state_authenticator key (plan_immutable_context plan) binding PREPARED 0 = Ok state →
  release_insert db (new_row plan intent binding semantic observation state) = Some db' →
  db_sound db'.
Proof using All.
  intros Hdb Hplan Henc Hsem Hobs binding Hstate Hins.
  unfold release_insert in Hins. destruct (_ || _); [done|].
  apply sql_insert_Some in Hins as (->&_&Hck&_). apply map_Forall_insert_2; [|done].
  pose proof (encrypt_decrypt _ _ _ _ _ Henc) as Hdec.
  unfold intent_encrypt in Henc. inv_ok Henc. subst intent. apply reject_if_Ok in Hplan. bool_props.
  split_and!; [done| |done|done].
  unfold fixed_sound. cbn. split_and!; try done. by exists plan.(plan_publication).
Qed.

(** Every key of an action is the service's. *)
Definition action_keyed (action : Action) : Prop :=
  match action with
  | Do_issue issue _ _ => issue.(issue_key) = key
  | Do_disclose _ k _ | Do_publish _ k _ _ => k = key
  | _ => True
  end.

Lemma step_task_keyed sys i t action :
  Forall (λ t, task_key t = key) sys.(sys_tasks) → sys.(sys_tasks) !! i = Some t →
  Forall (λ t, task_key t = key) (step_task sys i t action).(sys_tasks).
Proof using Type.
  intros Hk Ht. assert (Hcont : ∀ p db events,
    Forall (λ t, task_key t = key) (continue sys i t p db events).(sys_tasks)).
  { intros p db events. cbn. apply Forall_insert; [done|]. cbn. exact (Forall_lookup_1 _ _ _ _ Hk Ht). }
  unfold step_task. repeat case_match; auto.
Qed.

Lemma step_keyed sys action :
  action_keyed action → Forall (λ t, task_key t = key) sys.(sys_tasks) →
  Forall (λ t, task_key t = key) (step sys action).(sys_tasks).
Proof using Type.
  intros Ha Hk. destruct action; cbn in *;
    try (destruct (sys_tasks sys !! _) eqn:Ht; [by apply step_task_keyed|done]).
  - by destruct (issue_release _ _ _ _).
  - by destruct (exact_publication _ _ _ _).
  - apply Forall_app. by repeat constructor.
Qed.

Lemma step_task_sound sys v i t action :
  simulates sys v → Forall (λ t, task_key t = key) sys.(sys_tasks) →
  sys.(sys_tasks) !! i = Some t → db_sound sys.(sys_db) →
  db_sound (step_task sys i t action).(sys_db).
Proof using Type.
  intros (_&_&Hf) Hk Ht Hdb. destruct (Forall2_lookup_l _ _ _ _ _ Hf Ht) as (p&_&Hs&Hkey&Hc).
  pose proof (Forall_lookup_1 _ _ _ _ Hk Ht) as Htk. cbn in Htk.
  unfold step_task. destruct (task_program t) as [a|s' k' k|s' k' k|a k' term k|gen k|q k|k],
    action as [| | |j io|j [c|e]|j|j resp]; try done.
  - destruct Hc as (->&->&_). rewrite <- Hkey, Htk.
    destruct (begin_publication _ _ _ _) as [db' r] eqn:Hb. cbn.
    apply begin_cases in Hb as [[-> _]|(row&Hm&_)]; [done|by eapply sound_moves].
  - destruct Hc as (->&_). rewrite <- Hkey, Htk.
    destruct (finish_publication _ _ _ _ _) as [db' r] eqn:Hb. cbn.
    apply finish_cases in Hb as [[-> _]|(row&Hm)]; [done|by eapply sound_moves].
Qed.

Lemma step_sound sys v action :
  simulates sys v → action_keyed action → Forall (λ t, task_key t = key) sys.(sys_tasks) →
  db_sound sys.(sys_db) → db_sound (step sys action).(sys_db).
Proof using All.
  intros Hsim Ha Hk Hdb. destruct action; cbn in *;
    try (destruct (sys_tasks sys !! _) eqn:Ht; [by eapply step_task_sound|done]); [| |done].
  - destruct (issue_release _ _ _ _) as [db' r] eqn:Hi. cbn. unfold issue_release in Hi.
    rewrite Ha in Hi. apply prepare_release_cases in Hi as [->|(_&r'&Hp)]; [done|].
    apply prepare_cases in Hp as [->|[Hp|Hp]]; [done| |].
    + destruct Hp as (intent&semantic&observation&state&_&Hv&He&Hsm&Ho&Hst&Hins).
      by eapply sound_new.
    + destruct Hp as (row&tag&Hrow&Ho&Hctx&Hck&->). by apply sound_observed.
  - destruct (exact_publication _ _ _ _) as [db' r] eqn:Hx. cbn. subst.
    apply exact_cases in Hx as [[-> _]|(row&Hm)]; [done|by eapply sound_moves].
Qed.

Lemma run_sound actions :
  Forall action_keyed actions → db_sound (run initial_system actions).(sys_db).
Proof using All.
  intros Ha.
  assert (Hgo : ∀ sys v, simulates sys v → Forall (λ t, task_key t = key) sys.(sys_tasks) →
    db_sound sys.(sys_db) → db_sound (run sys actions).(sys_db)).
  { induction Ha as [|a actions Ha _ IH]; intros sys v Hsim Hk Hdb; [done|].
    destruct (step_simulated sys v a Hsim) as (v'&_&Hsim').
    apply (IH _ v'); [done|by apply step_keyed|by eapply step_sound]. }
  apply (Hgo _ _ simulates_initial); [constructor|apply map_Forall_empty].
Qed.
End preservation.

(** ** Operations on a sound row *)

Section operations.
Context `{ReleaseCryptoLaws}.

Lemma state_tag_total key context binding state revision :
  ∃ tag, release_state_authenticator key context binding state revision = Ok tag ∧
    length tag = 32%nat.
Proof.
  unfold release_state_authenticator, release_state_mac.
  match goal with |- context [hkdf_expand ?s ?k ?i] =>
    destruct (hkdf_expand_total s k i) as [derived ->] end.
  eexists. split; [reflexivity|apply length_hmac].
Qed.

Lemma release_check_set_state α t tag row :
  release_check α row = true → length tag = 32%nat → release_check α (set_state t tag row) = true.
Proof.
  unfold release_check. intros Hck Hlen. cbn [set_state row_activation row_swap_id row_run_id
    row_lez_commitment row_topology_commitment row_resource_id row_observation
    row_observation_authenticator row_claim_partial_commitment row_target row_publication_id
    row_window_start row_window_end row_binding row_semantic_authenticator row_key_id row_nonce
    row_ciphertext row_fingerprint row_state_authenticator row_state row_revision].
  bool_props. repeat match goal with H : ?b = true |- context [?b] => rewrite H end.
  assert (len_is 32 tag = true) as -> by (unfold len_is, blen; rewrite Hlen; done).
  rewrite (proj2 (Z.ltb_lt _ _)), (proj2 (Z.leb_le _ i64_max)) by done. by destruct t.
Qed.

Lemma current_quiet key α (db : ReleaseDb) row st :
  db !! α = Some row → row_sound key α row → has_state row st →
  current_snapshot quiet α key db = Ok (snapshot_of_row row st).
Proof.
  intros Hrow Hs Hst. unfold current_snapshot. cbn. rewrite Hrow. cbn.
  rewrite (sound_validate _ _ _ _ Hs Hst). cbn.
  pose proof (sound_authenticate _ _ _ _ Hs Hst) as Ha.
  by destruct (authenticate_snapshot _ _).
Qed.

Lemma update_quiet α (db : ReleaseDb) row from to tag e :
  db !! α = Some row → has_state row from → release_check α (set_state to tag row) = true →
  update_state quiet db α row.(row_run_id) row.(row_binding) from to tag e
  = Ok (<[α := set_state to tag row]> db).
Proof.
  intros Hrow Hst Hck. unfold update_state. cbn.
  rewrite (proj2 (sql_update_Some_1 _ _ _ _ _ (<[α := set_state to tag row]> db))); [done|].
  exists row. split_and!; try done. unfold has_state in Hst. rewrite <- Hst. cbn.
  by rewrite !bool_decide_eq_true_2, Z.eqb_refl.
Qed.

(** The permission of a sound prepared release is granted. *)
Lemma begin_quiet key α (db : ReleaseDb) row :
  db !! α = Some row → α = row.(row_activation) → row_sound key α row → has_state row Prepared →
  ∃ tag,
    begin_publication quiet (snapshot_of_row row Prepared) key db
    = (<[α := set_state PublicationStarted tag row]> db,
       Ok (Decision_Send (attempt_of (snapshot_of_row row Prepared)))) ∧
    moves_row key α Prepared PublicationStarted db row
      (<[α := set_state PublicationStarted tag row]> db).
Proof.
  intros Hrow Hα Hs Hst. pose proof Hs as (Hck&_).
  destruct (state_tag_total key (row_context row) row.(row_binding) STARTED 1) as (tag&Htag&Hlen).
  pose proof (release_check_set_state α PublicationStarted tag row Hck Hlen) as Hck'.
  exists tag. split; [|by exists tag; split_and!; try done; eapply sound_authenticate].
  unfold begin_publication. cbn [snapshot_of_row snap_activation]. rewrite <- Hα.
  rewrite (current_quiet _ _ _ _ _ Hrow Hs Hst). cbn [checked quiet storage_fault begin_transaction statement map_err result_bind].
  assert (Hsame : same_snapshot_binding (snapshot_of_row row Prepared)
            (snapshot_of_row row Prepared) = true).
  { unfold same_snapshot_binding. by rewrite !bool_decide_eq_true_2. }
  cbn -[same_snapshot_binding release_state_authenticator update_state].
  rewrite Hsame, Htag. cbn -[update_state].
  by rewrite (update_quiet _ _ _ _ _ _ CorruptRecord Hrow Hst Hck').
Qed.

(** The end of a sound started attempt is recorded. *)
Lemma finish_quiet key α (db : ReleaseDb) row s t :
  db !! α = Some row → row_sound key α row → has_state row PublicationStarted →
  α = s.(snap_activation) → same_snapshot_binding (snapshot_of_row row Prepared) s = true →
  (t = Release_Admitted ∨ t = Ambiguous ∨ t = Suppressed) →
  ∃ tag, finish_publication quiet (attempt_of s) key t db = (<[α := set_state t tag row]> db, Ok tt).
Proof.
  intros Hrow Hs Hst Hα Hsame Ht. pose proof Hs as (Hck&_).
  destruct (state_tag_total key (row_context row) row.(row_binding)
    (state_record t).1 (state_record t).2) as (tag&Htag&Hlen). exists tag.
  pose proof (release_check_set_state α t tag row Hck Hlen) as Hck'.
  unfold same_snapshot_binding in Hsame. bool_props. cbn in *.
  unfold finish_publication. cbn [attempt_of attempt_activation]. rewrite <- Hα.
  rewrite (current_quiet _ _ _ _ _ Hrow Hs Hst).
  assert (Hterm : negb ((t ==? Release_Admitted) || (t ==? Ambiguous) || (t ==? Suppressed)) = false)
    by (by destruct Ht as [->|[->| ->]]).
  rewrite Hterm. destruct (state_record t) as [state revision]. cbn in Htag.
  cbn -[release_state_authenticator update_state].
  rewrite <- ?Hα. repeat match goal with Heq : _ = _ s |- _ => rewrite <- ?Heq; clear Heq end.
  rewrite !bool_decide_eq_true_2 by done. cbn -[release_state_authenticator update_state].
  rewrite Htag. cbn -[update_state]. by rewrite (update_quiet _ _ _ _ _ _ CorruptRecord Hrow Hst Hck').
Qed.
End operations.

Section theorems.
Context `{ReleaseCryptoLaws, HexCodec}.

(** A release service that works under one valid protection key never
    finds its journal corrupt or unauthentic: whatever ran before, every
    recorded release is loaded by its identity, in the state it is recorded
    in. *)
Theorem release_journal_readable actions key α row :
  validate_key_id key.(key_key_id) = Ok tt → Forall (action_keyed key) actions →
  let db := (run initial_system actions).(sys_db) in
  db !! α = Some row →
  ∃ st, has_state row st ∧
    load_by_activation_run quiet α row.(row_run_id) key db = Ok (snapshot_of_row row st).
Proof.
  intros Hkey Ha db Hrow. pose proof (run_sound key Hkey actions Ha _ _ Hrow) as Hs.
  pose proof Hs as (Hck&_). destruct (release_check_state _ _ Hck) as [st Hst]. exists st.
  split; [done|]. unfold load_by_activation_run. fold db in Hrow. cbn. rewrite Hrow. cbn.
  rewrite (sound_validate _ _ _ _ Hs Hst). cbn. rewrite bool_decide_eq_true_2 by done. cbn.
  pose proof (sound_authenticate _ _ _ _ Hs Hst) as Hauth.
  by destruct (authenticate_snapshot _ _).
Qed.

(** The message of a state's authenticator. *)
Definition state_message (row : StoredReleaseRecord) (state : ReleaseState) : bytes :=
  STATE_MAC_DOMAIN ++ row.(row_binding) ++ [byte_of_Z (state_record state).2]
  ++ bytes_of_string (state_record state).1.

Definition state_key (key : PublicationProtectionKey) (row : StoredReleaseRecord) : option bytes :=
  hkdf_expand (row_context row) key.(key_material)
    (append STATE_KEY_DOMAIN (bytes_of_string key.(key_key_id))).

Lemma state_authenticator_message key row st k :
  has_state row st → state_key key row = Some k →
  release_state_authenticator key (row_context row) row.(row_binding) row.(row_state)
    row.(row_revision) = Ok (hmac_sha256 k (state_message row st)).
Proof.
  unfold has_state, state_key, release_state_authenticator, release_state_mac, state_message.
  intros Hst Hk. rewrite Hk. destruct (state_record st). by injection Hst as -> ->.
Qed.

Lemma edited_authenticate key α row st t k :
  row_sound key α row → has_state row st → state_key key row = Some k →
  hmac_sha256 k (state_message row t) ≠ hmac_sha256 k (state_message row st) →
  let row' := set_state t row.(row_state_authenticator) row in
  StoredReleaseRecord_validate row' = Ok (snapshot_of_row row' t) ∧
  authenticate_snapshot (snapshot_of_row row' t) key = Err Release_Authentication.
Proof.
  intros (Hck&Hf&Hobs&Hstate) Hst Hk Hne row'.
  assert (Hst' : has_state row' t) by (unfold has_state; by destruct t).
  assert (Hf' : fixed_sound key row') by (by apply (fixed_sound_fixed key row)).
  split.
  - apply (fixed_validate key α); [|done..]. apply release_check_set_state; [done|].
    rewrite (state_authenticator_message _ _ _ _ Hst Hk) in Hstate. injection Hstate as <-.
    apply length_hmac.
  - destruct (authenticate_state key row' t Hf' Hobs Hst') as [plaintext ->].
    rewrite (state_authenticator_message key row' t k Hst' Hk).
    rewrite (state_authenticator_message _ _ _ _ Hst Hk) in Hstate. injection Hstate as Hstate.
    cbn [authentic map_err result_bind]. rewrite bool_decide_eq_false_2; [done|].
    change (hmac_sha256 k (state_message row t) ≠ row.(row_state_authenticator)). congruence.
Qed.

(** C25: Setting back the state of a recorded release behind the service's back
    is noticed.  When the authenticator's function tells the two states of this
    release apart, the edited row is neither loaded, nor granted a send, nor
    finished, and the journal is left as it is. *)
Theorem edited_state_is_rejected actions key α row st t k (db : ReleaseDb) s a terminal :
  validate_key_id key.(key_key_id) = Ok tt → Forall (action_keyed key) actions →
  (run initial_system actions).(sys_db) !! α = Some row → has_state row st →
  state_key key row = Some k →
  hmac_sha256 k (state_message row t) ≠ hmac_sha256 k (state_message row st) →
  db !! α = Some (set_state t row.(row_state_authenticator) row) →
  s.(snap_activation) = α → a.(attempt_activation) = α →
  terminal ∈ [Release_Admitted; Ambiguous; Suppressed] →
  load_by_activation_run quiet α row.(row_run_id) key db = Err Release_Authentication ∧
  begin_publication quiet s key db = (db, Err Release_Authentication) ∧
  finish_publication quiet a key terminal db = (db, Err Release_Authentication).
Proof.
  intros Hkey Ha Hrow Hst Hk Hne Hdb Hs Hat Ht.
  pose proof (run_sound key Hkey actions Ha _ _ Hrow) as Hsound.
  destruct (edited_authenticate _ _ _ _ _ _ Hsound Hst Hk Hne) as [Hval Hauth].
  assert (Hcur : current_snapshot quiet α key db = Err Release_Authentication).
  { unfold current_snapshot. cbn. rewrite Hdb. cbn -[set_state snapshot_of_row].
    rewrite Hval. cbn -[set_state snapshot_of_row]. by rewrite Hauth. }
  split_and!.
  - unfold load_by_activation_run. cbn. rewrite Hdb. cbn -[set_state snapshot_of_row].
    rewrite Hval. cbn -[set_state snapshot_of_row]. rewrite bool_decide_eq_true_2 by done.
    cbn -[set_state snapshot_of_row]. by rewrite Hauth.
  - unfold begin_publication. rewrite Hs, Hcur. done.
  - unfold finish_publication. rewrite Hat, Hcur.
    by repeat (apply elem_of_cons in Ht as [->|Ht]; [done|]); apply elem_of_nil in Ht.
Qed.
End theorems.
