(* ===== verification/ReleaseLiveness.v ===== *)
(** * A prepared release can be published

    From any reachable journal, a release that is still prepared is admitted by
    one publishing task, when the storage does not fail, the finalized clock is
    inside the window and the sidecar answers with the right transaction. *)

From stdpp Require Import base gmap strings list numbers.
From S2P Require Import Prelude SwapCore BridgeValues BridgeValuesFacts AssetEvidence SqlTable.
From S2P Require Import ReleaseCrypto ReleaseStore ReleaseIssuer ReleasePublisher ReleaseFacts.
From S2P Require Import ReleaseProtocol ReleaseInvariant ReleaseTheorems ReleaseIntegrity.

Open Scope Z_scope.


Section liveness.
Context `{ReleaseCryptoLaws, HexCodec}.

(** The last task of a system takes a step. *)
Definition with_task (db : ReleaseDb) (ts : list Task) (tr : list Event) (s : ReleaseSnapshot)
    (key : PublicationProtectionKey)
    (p : Program (result ReleasePublicationOutcome ReleasePublicationError)) : System :=
  {| sys_db := db;
     sys_tasks := ts ++ [{| task_snapshot := s; task_key := key; task_program := p |}];
     sys_trace := tr |}.

Lemma with_task_lookup db ts tr s key p :
  (with_task db ts tr s key p).(sys_tasks) !! length ts
  = Some {| task_snapshot := s; task_key := key; task_program := p |}.
Proof. cbn. by rewrite lookup_app_r, Nat.sub_diag. Qed.

Lemma with_task_continue db ts tr s key p p' db' events :
  continue (with_task db ts tr s key p) (length ts)
    {| task_snapshot := s; task_key := key; task_program := p |} p' db' events
  = with_task db' ts (tr ++ events) s key p'.
Proof.
  unfold continue, with_task. cbn. f_equal. rewrite insert_app_r_alt, Nat.sub_diag by done. done.
Qed.

(** The steps of the last task, one per constructor. *)
Lemma step_validate db ts tr s key s' key' k io :
  step (with_task db ts tr s key (Store_validate s' key' k)) (Do_store (length ts) io)
  = with_task db ts tr s key (k (validate_for_publication io s' key')).
Proof.
  cbn [step]. rewrite with_task_lookup. cbn [step_task task_program].
  by rewrite with_task_continue, (right_id_L [] (++)).
Qed.

Lemma step_begin db ts tr s key s' key' k io db' r :
  begin_publication io s' key' db = (db', r) →
  step (with_task db ts tr s key (Store_begin s' key' k)) (Do_store (length ts) io)
  = with_task db' ts tr s key (k r).
Proof.
  intros Hb. cbn [step]. rewrite with_task_lookup. cbn [step_task task_program with_task sys_db].
  rewrite Hb. fold (with_task db ts tr s key (Store_begin s' key' k)).
  by rewrite with_task_continue, (right_id_L [] (++)).
Qed.

Lemma step_finish db ts tr s key a key' t k io db' r :
  finish_publication io a key' t db = (db', r) →
  step (with_task db ts tr s key (Store_finish a key' t k)) (Do_store (length ts) io)
  = with_task db' ts tr s key (k r).
Proof.
  intros Hb. cbn [step]. rewrite with_task_lookup. cbn [step_task task_program with_task sys_db].
  rewrite Hb. fold (with_task db ts tr s key (Store_finish a key' t k)).
  by rewrite with_task_continue, (right_id_L [] (++)).
Qed.

Lemma step_clock db ts tr s key genesis k c :
  step (with_task db ts tr s key (Read_clock genesis k)) (Do_clock (length ts) (Ok c))
  = with_task db ts (tr ++ [Clock_read (length ts) genesis c]) s key (k (Ok c)).
Proof.
  cbn [step]. rewrite with_task_lookup. cbn [step_task task_program]. by rewrite with_task_continue.
Qed.

Lemma step_send db ts tr s key q k :
  step (with_task db ts tr s key (Send_request q k)) (Do_send (length ts))
  = with_task db ts (tr ++ [Submitted (length ts) q]) s key k.
Proof.
  cbn [step]. rewrite with_task_lookup. cbn [step_task task_program]. by rewrite with_task_continue.
Qed.

Lemma step_answer db ts tr s key k r :
  step (with_task db ts tr s key (Await_response k)) (Do_answer (length ts) r)
  = with_task db ts (tr ++ [Answered (length ts) r]) s key (k r).
Proof.
  cbn [step]. rewrite with_task_lookup. cbn [step_task task_program]. by rewrite with_task_continue.
Qed.

Lemma request_id_total m : ∃ id, RequestId_new (hex_encode (sha256 m)) = Ok id.
Proof.
  set (h := {| Hex32_as_bytes := sha256 m |}).
  destruct (submission_requests_valid h h) as [Hid _]; [|by eexists].
  unfold blen. cbn. by rewrite length_sha256.
Qed.

Lemma validate_quiet key α row :
  row_sound key α row → has_state row Prepared →
  validate_for_publication quiet (snapshot_of_row row Prepared) key = Ok tt.
Proof.
  intros Hs Hst. unfold validate_for_publication.
  pose proof (sound_authenticate _ _ _ _ Hs Hst) as Ha. cbn.
  by destruct (authenticate_snapshot _ _).
Qed.

Lemma decrypted_sendable intent key context plaintext :
  intent_decrypt intent key context = Ok plaintext →
  ExactTransactionBytes_new plaintext = Ok {| TransactionBytes_as_slice := plaintext |}.
Proof.
  unfold intent_decrypt. intros Hd. inv_ok Hd. release_inv. subst.
  match goal with H : validate_plaintext_length _ = _ |- _ =>
    unfold validate_plaintext_length in H; destruct (_ || _) eqn:Hl in H; [done|] end.
  unfold ExactTransactionBytes_new.
  change MAX_TRANSACTION_BYTES with MAX_PUBLICATION_INTENT_BYTES. by rewrite Hl.
Qed.

(** What [publish_or_observe] does through the bridge when the journal does not fail, both clock
    readings are inside the window and the sidecar answers with the right transaction. *)
Lemma publish_flow db db1 db2 ts tr key binding id row first last answer plaintext :
  let s := snapshot_of_row row Prepared in
  let i := length ts in
  let target := release_target_bytes binding.(binding_run_id) binding.(binding_runtime)
                  binding.(binding_terms) in
  let genesis := binding.(binding_runtime).(runtime_genesis_block_hash) in
  s.(snap_target) = target →
  Forall (λ c, clock_block_hash c ≠ zero_hex32 ∧ clock_timestamp_ms c ≠ 0 ∧
               in_window s.(snap_window) (clock_timestamp_ms c) = true) [first; last] →
  first.(clock_timestamp_ms) ≤ last.(clock_timestamp_ms) →
  Hex32_as_bytes answer.(submitted_transaction_id) = row.(row_publication_id) →
  validate_for_publication quiet s key = Ok tt →
  begin_publication quiet s key db = (db1, Ok (Decision_Send (attempt_of s))) →
  intent_decrypt (row_intent row) key (row_context row) = Ok plaintext →
  finish_publication quiet (attempt_of s) key Release_Admitted db1 = (db2, Ok tt) →
  ∃ q,
    q.(submit_authorization)
    = {| prepared_transaction_id := {| Hex32_as_bytes := row.(row_publication_id) |};
         prepared_exact_bytes := {| TransactionBytes_as_slice := plaintext |} |} ∧
    run (with_task db ts tr s key (publish_or_observe s key
           (BridgePublicationTransport binding target s.(snap_publication_id) id)))
      [ Do_store i quiet; Do_clock i (Ok first); Do_store i quiet; Do_clock i (Ok last);
        Do_send i; Do_answer i (Some answer); Do_store i quiet ]
    = with_task db2 ts (tr ++ [ Clock_read i genesis first; Clock_read i genesis last;
                                Submitted i q; Answered i (Some answer) ]) s key
        (Return (Ok (Outcome_Admitted answer.(submitted_outcome)))).
Proof.
  intros s i target genesis Htarget Hclocks Hle Hid Hval Hbegin Hdec Hfinish.
  apply list.Forall_cons in Hclocks as [(Hb1&Ht1&Hw1) Hclocks].
  apply list.Forall_cons in Hclocks as [(Hb2&Ht2&Hw2) _].
  eexists. split; cycle 1.
  { unfold run; cbn [fold_left]; unfold publish_or_observe; subst i.
    rewrite step_validate, Hval; cbv beta iota.
    change (bool_decide (snap_state s = Prepared)) with true; cbn [negb].
    cbn [BridgePublicationTransport finalized_lez_timestamp submit_exact_authorization].
    rewrite (bool_decide_eq_true_2 (snap_target s = target)) by done. cbn [negb program_bind].
    rewrite step_clock, (bool_decide_eq_false_2 _ Hb1), (proj2 (Z.eqb_neq _ _) Ht1).
    cbn [orb program_bind]; rewrite Hw1; cbn [negb].
    rewrite (step_begin _ _ _ _ _ _ _ _ _ _ _ Hbegin).
    change (attempt_target (attempt_of s)) with (snap_target s).
    rewrite (bool_decide_eq_true_2 (snap_target s = target)) by done. cbn [negb program_bind].
    rewrite step_clock, (bool_decide_eq_false_2 _ Hb2), (proj2 (Z.eqb_neq _ _) Ht2).
    cbn [orb program_bind].
    change (attempt_window (attempt_of s)) with (snap_window s).
    rewrite Hw2, (proj2 (Z.ltb_ge _ _) Hle); cbn [orb negb].
    change (attempt_intent (attempt_of s)) with (row_intent row).
    change (attempt_immutable_context (attempt_of s)) with (row_context row).
    rewrite Hdec, (decrypted_sendable _ _ _ _ Hdec); cbn [program_bind].
    rewrite step_send; cbn [program_bind]; rewrite step_answer; cbn [program_bind].
    cbn [admission_transaction_id admission_status].
    change (attempt_publication_id (attempt_of s)) with (row_publication_id row).
    rewrite (bool_decide_eq_true_2 _ Hid); unfold mark.
    rewrite (step_finish _ _ _ _ _ _ _ _ _ _ _ _ Hfinish).
    by rewrite <- !(assoc_L (++)). }
  done.
Qed.

(** C26: From any reachable journal under one key, a prepared release is admitted by
    a publishing task whose storage does not fail, whose two clock readings lie in
    order inside the window, and whose submission is answered with the record's
    identity; the request it sends carries the exact prepared transaction. *)
Theorem prepared_release_can_be_admitted actions key α row binding client first last answer :
  validate_key_id key.(key_key_id) = Ok tt → Forall (action_keyed key) actions →
  let sys := run initial_system actions in
  let s := snapshot_of_row row Prepared in
  let i := length sys.(sys_tasks) in
  sys.(sys_db) !! α = Some row → has_state row Prepared →
  validate_publication_binding s binding client = Ok tt →
  Forall (λ c, clock_block_hash c ≠ zero_hex32 ∧ clock_timestamp_ms c ≠ 0 ∧
               in_window s.(snap_window) (clock_timestamp_ms c) = true) [first; last] →
  first.(clock_timestamp_ms) ≤ last.(clock_timestamp_ms) →
  Hex32_as_bytes answer.(submitted_transaction_id) = row.(row_publication_id) →
  let sys' := run sys
    [ Do_publish s key binding client; Do_store i quiet; Do_clock i (Ok first); Do_store i quiet;
      Do_clock i (Ok last); Do_send i; Do_answer i (Some answer); Do_store i quiet ] in
  ∃ row' q plaintext,
    sys'.(sys_db) !! α = Some row' ∧ has_state row' Release_Admitted ∧
    fixed_part row' = fixed_part row ∧
    intent_decrypt (row_intent row) key (row_context row) = Ok plaintext ∧
    q.(submit_authorization)
    = {| prepared_transaction_id := {| Hex32_as_bytes := row.(row_publication_id) |};
         prepared_exact_bytes := {| TransactionBytes_as_slice := plaintext |} |} ∧
    sys'.(sys_tasks) !! i
    = Some {| task_snapshot := s; task_key := key;
              task_program := Return (Ok (Outcome_Admitted answer.(submitted_outcome))) |} ∧
    sys'.(sys_trace) = sys.(sys_trace) ++
      [ Clock_read i binding.(binding_runtime).(runtime_genesis_block_hash) first;
        Clock_read i binding.(binding_runtime).(runtime_genesis_block_hash) last;
        Submitted i q; Answered i (Some answer) ].
Proof.
  intros Hkey Ha sys s i Hrow Hst Hbind Hclocks Hle Hid sys'.
  pose proof (run_sound key Hkey actions Ha _ _ Hrow) as Hs. fold sys in Hs.
  assert (Hα : α = row.(row_activation)).
  { destruct (run_view actions) as (v&(Hdb&_)&Hv). fold sys in Hdb. rewrite Hdb in Hrow.
    by destruct (ok_rows _ Hv _ _ Hrow) as (?&?&_&_&_&_&?). }
  destruct (begin_quiet _ _ _ _ Hrow Hα Hs Hst) as (tag&Hbegin&Hmv).
  assert (Hs1 : row_sound key α (set_state PublicationStarted tag row)).
  { eapply (sound_moves key); [apply (run_sound key Hkey actions Ha)|exact Hmv|].
    apply lookup_insert_eq. }
  destruct (finish_quiet key α _ _ s Release_Admitted (lookup_insert_eq (sys_db sys) α _) Hs1)
    as (tag'&Hfinish); [done|done| |by left|].
  { unfold same_snapshot_binding. by rewrite !bool_decide_eq_true_2. }
  pose proof Hs as (_&(_&_&_&_&_&_&plaintext&Hdec&_)&_).
  assert (Htarget : validate_publication_binding s binding client = Ok tt) by done.
  unfold validate_publication_binding in Htarget. apply reject_if_Ok in Htarget. bool_props.
  destruct (request_id_total (RELEASE_REQUEST_DOMAIN ++ snap_activation s ++ snap_publication_id s))
    as [id Hrid].
  destruct (publish_flow (sys_db sys) _ _ (sys_tasks sys) (sys_trace sys) key binding id row
    first last answer plaintext ltac:(done) Hclocks Hle Hid (validate_quiet _ _ _ Hs Hst)
    Hbegin Hdec Hfinish) as (q&Hq&Hrun).
  assert (Hsys : sys' = run (with_task sys.(sys_db) sys.(sys_tasks) sys.(sys_trace) s key
    (publish_xmr_claim_release s key binding client)) [ Do_store i quiet; Do_clock i (Ok first);
      Do_store i quiet; Do_clock i (Ok last); Do_send i; Do_answer i (Some answer);
      Do_store i quiet ]) by done.
  unfold publish_xmr_claim_release in Hsys. rewrite Hbind, Hrid in Hsys.
  rewrite Hsys. fold s i in Hrun. rewrite Hrun.
  exists (set_state Release_Admitted tag' (set_state PublicationStarted tag row)), q, plaintext.
  split_and!; try done; [apply lookup_insert_eq|apply with_task_lookup].
Qed.
End liveness.
