(* ===== verification/ReleaseSamples.v ===== *)
(** * A sample release

    One release of a swap of 75 units: it is issued, and two tasks publish it
    while their steps interleave; only the first is granted the send and it is
    admitted.  In a second run the clock has passed the refund time when it is
    read again, and the release is suppressed.  The theorems about the release
    service are applied to these runs, with the end of a message in the place of
    its digest, which obeys the same laws. *)

From stdpp Require Import base gmap strings list numbers.
From S2P Require Import Prelude SwapCore BridgeValues BridgeValuesFacts AssetEvidence SqlTable.
From S2P Require Import ReleaseCrypto ReleaseStore ReleaseIssuer ReleasePublisher ReleaseFacts.
From S2P Require Import ReleaseProtocol ReleaseInvariant ReleaseTheorems ReleaseIntegrity.
From S2P Require Import ReleaseLiveness.

Open Scope Z_scope.

Module ReleaseSamples.

(** ** Functions that obey the laws *)

(** The end of the message, padded. *)
Definition digest (m : bytes) : bytes := Byte.x01 :: take 31 (rev_append m (repeat Byte.x00 31)).
Definition seal (key nonce aad : bytes) : bytes := take 16 (digest (key ++ nonce ++ aad)).

#[global] Instance tail_crypto : ReleaseCrypto := {|
  sha256 := digest;
  hkdf_expand salt ikm info := Some (digest (salt ++ ikm ++ info));
  hmac_sha256 key m := digest (key ++ m);
  aead_encrypt key nonce msg aad := Some (msg ++ seal key nonce aad);
  aead_decrypt key nonce c aad :=
    let n := (length c - 16)%nat in
    if drop n c ==? seal key nonce aad then Some (take n c) else None
|}.

Lemma length_digest m : length (digest m) = 32%nat.
Proof.
  unfold digest. cbn [length].
  rewrite length_take, rev_append_rev, length_app, repeat_length. lia.
Qed.

#[global] Instance tail_laws : ReleaseCryptoLaws.
Proof.
  split; [exact length_digest|by eexists|intros; apply length_digest|].
  intros key nonce msg aad _. eexists. split; [done|].
  assert (Hl : length (seal key nonce aad) = 16%nat) by (unfold seal; rewrite length_take, length_digest; done).
  unfold blen. rewrite length_app, Hl. split; [lia|]. cbn -[digest].
  rewrite length_app, Hl, Nat.add_sub, take_app_length, drop_app_length.
  by rewrite bool_decide_eq_true_2.
Qed.

(** ** The evidence *)

Definition hex (b : Byte.byte) : Hex32 := {| Hex32_as_bytes := repeat b 32 |}.

Definition terms : XmrNativeEscrowTermsV3 := {|
  xt_swap_id := hex Byte.x01; xt_activation_commitment := hex Byte.x02;
  xt_escrow_program_id := hex Byte.x03; xt_authenticated_transfer_program_id := hex Byte.x04;
  xt_metadata_account_id := hex Byte.x05; xt_custody_account_id := hex Byte.x06;
  xt_depositor := Participant_Taker; xt_depositor_account_id := hex Byte.x07;
  xt_claimant := Participant_Maker; xt_claimant_account_id := hex Byte.x08;
  xt_claim_aggregate_x_only_public_key := hex Byte.x09;
  xt_claim_authority_account_id := hex Byte.x0a;
  xt_refund_aggregate_x_only_public_key := hex Byte.x0b;
  xt_refund_authority_account_id := hex Byte.x0c;
  xt_maker_dleq_transcript_commitment := hex Byte.x0d;
  xt_taker_dleq_transcript_commitment := hex Byte.x0e;
  xt_claim_partial_context_binding := hex Byte.x0f;
  xt_claim_partial_commitment := hex Byte.x10;
  xt_amount := 75; xt_refund_at_ms := 1000; xt_punish_at_ms := 2000;
  xt_claim_message_hash := hex Byte.x11; xt_refund_message_hash := hex Byte.x12;
  xt_punish_message_hash := hex Byte.x13
|}.

Definition runtime : RuntimeDescriptor := {|
  runtime_sidecar_role := Participant_Taker; runtime_compatibility := LeeV0_2_0;
  runtime_chain_id := hex Byte.x21; runtime_channel_id := hex Byte.x22;
  runtime_genesis_block_hash := hex Byte.x23; runtime_escrow_program_id := hex Byte.x03;
  runtime_signer_account_id := hex Byte.x07
|}.

Definition run_name : RunId := {| RunId_as_str := "run-1" |}.
Definition clock_at (t : Z) : ChainClock :=
  {| clock_block_hash := hex Byte.x31; clock_height := t / 10; clock_timestamp_ms := t |}.
Definition funding : PreparedTransaction := {|
  prepared_transaction_id := hex Byte.x41;
  prepared_exact_bytes := {| TransactionBytes_as_slice := [Byte.x0a; Byte.x0b] |}
|}.
Definition authorization : PreparedTransaction := {|
  prepared_transaction_id := hex Byte.x42;
  prepared_exact_bytes := {| TransactionBytes_as_slice := [Byte.x0c; Byte.x0d; Byte.x0e] |}
|}.

Definition position : ChainPosition :=
  {| position_block_hash := hex Byte.x30; position_height := 9; position_transaction_index := 0 |}.

Definition lock : FinalizedXmrLezFirstLockEvidenceV3 := {|
  lock_run_id := run_name; lock_observer := Participant_Taker; lock_runtime := runtime;
  lock_terms := terms; lock_exact_funding := funding; lock_finalized_clock := clock_at 100;
  lock_scanned_window := {| window_start_height := 1; window_max_blocks := 16 |};
  lock_facts := {|
    funding_transaction := {|
      observed_transaction_id := hex Byte.x41;
      observed_exact_bytes := prepared_exact_bytes funding;
      observed_position := position;
      observed_signer_account_ids := {| AccountIds_as_slice := [hex Byte.x07] |};
      observed_is_public := true |};
    funding_containing_block :=
      {| identity_block_id := 9; identity_block_hash := hex Byte.x30; identity_timestamp_ms := 90 |};
    funding_custody := {|
      custody_account_id := hex Byte.x06; custody_owner_program_id := hex Byte.x04;
      custody_balance := {| NativeAmount_as_u128 := 75 |} |} |}
|}.

Definition observation : VerifiedMoneroOutputObservation := {|
  obs_network := Stagenet; obs_genesis_hash := repeat Byte.x51 32;
  obs_daemon_origin := "http://127.0.0.1:38081"; obs_wallet_origin := "http://127.0.0.1:38083";
  obs_transaction_id := repeat Byte.x52 32; obs_destination := "5Address";
  obs_amount_piconero := 1500; obs_containing_block_hash := repeat Byte.x53 32;
  obs_containing_block_height := 700; obs_confirmations := 12;
  obs_stable_tip_hash := repeat Byte.x54 32; obs_stable_tip_height := 711
|}.

Definition key : PublicationProtectionKey :=
  {| key_key_id := "key-1"; key_material := repeat Byte.x61 32 |}.

Definition issue : Issue := {|
  issue_terms := terms;
  issue_monero := {|
    monero_network := Stagenet; monero_genesis_hash := repeat Byte.x51 32;
    monero_address := "5Address"; monero_amount_piconero := 1500;
    monero_required_confirmations := 10 |};
  issue_lock := lock;
  issue_authorization := {|
    auth_context := {|
      message_schema_version := 1; message_run_id := run_name;
      message_request_id := {| RequestId_as_str := "prepare-1" |};
      message_sidecar_role := Participant_Taker |};
    auth_preparer := Participant_Taker; auth_runtime := runtime; auth_terms := terms;
    auth_authorization := authorization |};
  issue_observation := observation;
  issue_topology := {|
    topo_run_id := run_name; topo_network := Stagenet; topo_genesis_hash := repeat Byte.x51 32;
    topo_daemon_origin := "http://127.0.0.1:38081";
    topo_target_wallet_origin := "http://127.0.0.1:38083";
    topo_foreign_wallet_origin := "http://127.0.0.1:38084"; topo_daemon_version := "0.18.4.0";
    topo_target_wallet_version := 65564; topo_foreign_wallet_version := 65564;
    topo_offline := false; topo_incoming_connections := 0; topo_outgoing_connections := 0 |};
  issue_key := key
|}.

Definition binding : XmrReleaseSubmissionBindingV3 :=
  {| binding_run_id := run_name; binding_runtime := runtime; binding_terms := terms |}.
Definition client : XmrReleaseClient :=
  {| client_expected_run_id := run_name; client_expected_runtime := runtime |}.
Definition admission : SubmitNativeXmrClaimAuthorizationV3Result :=
  {| submitted_transaction_id := hex Byte.x42; submitted_outcome := Accepted |}.

(** ** The runs *)

Definition issued : list Action := [Do_issue issue (Some (repeat Byte.x71 24)) quiet].
Definition activation : bytes := (plan_of issue).(plan_activation).

Definition no_row : StoredReleaseRecord :=
  new_row (plan_of issue)
    {| intent_key_id := ""; intent_nonce := []; intent_ciphertext := []; intent_fingerprint := [] |}
    [] [] [] [].
Definition row_after (actions : list Action) : StoredReleaseRecord :=
  default no_row ((run initial_system actions).(sys_db) !! activation).

Definition prepared : ReleaseSnapshot := snapshot_of_row (row_after issued) Prepared.

(** Two tasks publish; the second loses the race for the send. *)
Definition two_tasks : list Action := issued ++
  [ Do_publish prepared key binding client; Do_publish prepared key binding client;
    Do_store 0 quiet; Do_store 1 quiet; Do_clock 1 (Ok (clock_at 200));
    Do_clock 0 (Ok (clock_at 210)); Do_store 0 quiet; Do_store 1 quiet;
    Do_clock 0 (Ok (clock_at 300)); Do_send 0 ].
Definition admitted : list Action := two_tasks ++ [Do_answer 0 (Some admission); Do_store 0 quiet].

(** The clock is past the refund time before the send. *)
Definition too_late : list Action := issued ++
  [ Do_publish prepared key binding client; Do_store 0 quiet; Do_clock 0 (Ok (clock_at 200));
    Do_store 0 quiet; Do_clock 0 (Ok (clock_at 1000)); Do_store 0 quiet ].

Definition no_task : Task :=
  {| task_snapshot := prepared; task_key := key; task_program := Return (Ok Outcome_ObserveOnly) |}.
Definition task_after (actions : list Action) (i : nat) : Task :=
  default no_task ((run initial_system actions).(sys_tasks) !! i).

Lemma looked_up {A} (o : option A) (d : A) : not_null o = true → o = Some (default d o).
Proof. by destruct o. Qed.

(** The request of the first task. *)
Definition request : SubmitNativeXmrClaimAuthorizationV3Request := {|
  submit_context := {|
    message_schema_version := 1; message_run_id := run_name;
    message_request_id := {| RequestId_as_str := hex_encode (sha256 (RELEASE_REQUEST_DOMAIN
      ++ prepared.(snap_activation) ++ prepared.(snap_publication_id))) |};
    message_sidecar_role := Participant_Taker |};
  submit_runtime := runtime; submit_terms := terms; submit_authorization := authorization
|}.

Lemma sample_typed : target_typed run_name runtime terms.
Proof.
  unfold target_typed, short, is_u128, is_u64.
  split_and!; apply (bool_decide_unpack _); vm_compute; done.
Qed.

Lemma sample_keyed : Forall (action_keyed key) admitted.
Proof. repeat constructor. Qed.

Definition before_send : list Event :=
  [ Issued issue; Clock_read 1 (hex Byte.x23) (clock_at 200);
    Clock_read 0 (hex Byte.x23) (clock_at 210); Clock_read 0 (hex Byte.x23) (clock_at 300) ].

Lemma two_tasks_trace :
  (run initial_system two_tasks).(sys_trace) = before_send ++ Submitted 0 request :: [].
Proof. vm_compute. reflexivity. Qed.

Lemma admitted_row :
  (run initial_system admitted).(sys_db) !! activation = Some (row_after admitted) ∧
  has_state (row_after admitted) Release_Admitted.
Proof. split; [apply looked_up; vm_compute; reflexivity|vm_compute; reflexivity]. Qed.

Lemma prepared_row :
  (run initial_system issued).(sys_db) !! activation = Some (row_after issued) ∧
  has_state (row_after issued) Prepared.
Proof. split; [apply looked_up; vm_compute; reflexivity|vm_compute; reflexivity]. Qed.

Lemma suppressed_row :
  (run initial_system too_late).(sys_db) !! activation = Some (row_after too_late) ∧
  has_state (row_after too_late) Suppressed.
Proof. split; [apply looked_up; vm_compute; reflexivity|vm_compute; reflexivity]. Qed.

Lemma two_tasks_task i :
  (i < 2)%nat → (run initial_system two_tasks).(sys_tasks) !! i = Some (task_after two_tasks i).
Proof. intros Hi. apply looked_up. destruct i as [|[|]]; [vm_compute; reflexivity..|lia]. Qed.

Lemma sample_issued i : Issued i ∈ before_send → i = issue.
Proof.
  intros Hi. repeat (apply elem_of_cons in Hi as [Hi|Hi]; [congruence|]).
  by apply elem_of_nil in Hi.
Qed.

(** ** The theorems on the runs *)

Lemma release_submits_once_witness :
  let sys := run initial_system two_tasks in
  sys.(sys_trace) !! 4%nat = Some (Submitted 0 request) ∧ 4%nat = 4%nat.
Proof.
  assert (Hq : (run initial_system two_tasks).(sys_trace) !! 4%nat = Some (Submitted 0 request))
    by (by rewrite two_tasks_trace).
  split; [exact Hq|].
  exact (release_submits_once two_tasks 4 4 0 0 request request _ _ Hq Hq
    (two_tasks_task 0 ltac:(lia)) (two_tasks_task 0 ltac:(lia)) (or_introl eq_refl)).
Defined.

Lemma release_requires_evidence_witness :
  ∃ (i : Issue) (first last : ChainClock),
    obs_amount_piconero i.(issue_observation) = monero_amount_piconero i.(issue_monero) ∧
    clock_timestamp_ms first ≤ clock_timestamp_ms last ∧ clock_timestamp_ms last < 1000.
Proof.
  destruct (release_requires_evidence two_tasks _ 0 request _ (task_after two_tasks 0)
    two_tasks_trace (two_tasks_task 0 ltac:(lia)) sample_typed) as (i&first&last&Hi).
  - intros i Hi. rewrite (sample_issued i Hi); exact sample_typed.
  - exists i, first, last. by split_and!; apply Hi.
Defined.

Lemma suppressed_never_disclosed_witness :
  has_state (row_after too_late) Suppressed ∧
  ∀ tx, Disclosed activation tx
        ∉ (run initial_system (too_late ++ [Do_disclose prepared key quiet])).(sys_trace).
Proof.
  destruct suppressed_row as [Hrow Hst]. split; [exact Hst|].
  apply (suppressed_never_disclosed too_late [Do_disclose prepared key quiet] activation
    (row_after too_late) Hrow Hst).
Defined.

Lemma admitted_was_answered_witness :
  has_state (row_after admitted) Release_Admitted ∧
  ∃ i q, Submitted i q ∈ (run initial_system admitted).(sys_trace).
Proof.
  destruct admitted_row as [Hrow Hst]. split; [exact Hst|].
  destruct (admitted_was_answered admitted activation _ Hrow Hst) as (i&t&q&r&_&_&Hq&_).
  exists i, q. exact Hq.
Defined.

Lemma release_records_are_final_witness :
  ∃ row', (run initial_system (admitted ++ [Do_disclose prepared key quiet])).(sys_db) !! activation
          = Some row' ∧ fixed_part row' = fixed_part (row_after admitted).
Proof.
  destruct (release_records_are_final admitted [Do_disclose prepared key quiet] activation _
    Release_Admitted (proj1 admitted_row)) as (row'&Hrow&Hf&_).
  exists row'. split; [exact Hrow|exact Hf].
Defined.

Lemma release_journal_readable_witness :
  ∃ s, load_by_activation_run quiet activation (row_after admitted).(row_run_id) key
         (run initial_system admitted).(sys_db) = Ok s.
Proof.
  destruct (release_journal_readable admitted key activation _ eq_refl sample_keyed
    (proj1 admitted_row)) as (st&_&Hload).
  eexists. exact Hload.
Defined.

(** The admitted release is set back to prepared: no second send is granted. *)
Lemma edited_state_is_rejected_witness :
  let row := row_after admitted in
  let db := <[activation := set_state Prepared row.(row_state_authenticator) row]>
              (run initial_system admitted).(sys_db) in
  (begin_publication quiet prepared key db).2 = Err Release_Authentication.
Proof.
  intros row db.
  destruct (edited_state_is_rejected admitted key activation row Release_Admitted Prepared
    (default [] (state_key key row)) db prepared (attempt_of prepared) Release_Admitted
    eq_refl sample_keyed (proj1 admitted_row) (proj2 admitted_row)) as (_&Hbegin&_);
    [reflexivity|vm_compute; congruence|apply lookup_insert_eq
    |vm_compute; reflexivity|vm_compute; reflexivity|by left|].
  by rewrite Hbegin.
Defined.

Lemma prepared_release_can_be_admitted_witness :
  ∃ actions row,
    (run (run initial_system issued) actions).(sys_db) !! activation = Some row ∧
    has_state row Release_Admitted.
Proof.
  destruct (prepared_release_can_be_admitted issued key activation (row_after issued) binding
    client (clock_at 200) (clock_at 300) admission eq_refl ltac:(repeat constructor)
    (proj1 prepared_row) (proj2 prepared_row)) as (row&q&plaintext&Hrow&Hst&_);
    [vm_compute; reflexivity| |vm_compute; congruence|vm_compute; reflexivity|].
  - repeat (apply list.Forall_cons; split); [| |constructor];
      (split_and!; [vm_compute; congruence|vm_compute; congruence|vm_compute; reflexivity]).
  - eexists _, row. split; [exact Hrow|exact Hst].
Defined.
End ReleaseSamples.
