(* ===== verification/ActorProcess.v ===== *)
(** * The maker's actor processes: data and tables

    [crates/swap-store/src/maker_actor_process.rs]: manifests, leases, owner
    requests and progress of the actor processes a maker's daemons schedule, the
    tables that store them with their constraints, and the reading of rows.

    [serde_json] is not part of the repository: [ActorJson] says what the store
    relies on.  The artifacts of a process and its kernel lock are outside of the
    database. *)

From Stdlib Require Import Ascii.
From stdpp Require Import base gmap strings list numbers sorting.
From S2P Require Import Prelude SwapCore BridgeValues MakerMarket SqlTable StoreBase.

Open Scope Z_scope.

Definition MANIFEST_VERSION : Z := 1.
Definition MAX_PATH_BYTES : Z := 4096.
Definition MAX_FAILURE_CLASS_BYTES : Z := 64.
Definition MAX_PROGRESS_LABEL_BYTES : Z := 64.
Definition MAX_DUE_LIMIT : Z := 128.

(** ** Errors and names *)

Inductive MakerActorProcessError :=
| InvalidManifest
| InvalidLeaseOwner
| MissingSwap
| PairMismatch
| RegistrationConflict
| LeaseConflict
| ManualActionRequestConflict
| ManualActionGenerationConflict
| ManualActionPending
| ManualActionUnavailable
| UnsafeLock
| LockMismatch
| InvalidSchedulingInput
| Actor_CorruptRecord
| Actor_Store (e : StoreError)
| Actor_Sqlite.

Inductive MakerActorKindV1 := Actor_Bitcoin | Actor_Monero | Actor_Zcash.

#[global] Instance MakerActorKindV1_eq_dec : EqDecision MakerActorKindV1.
Proof. solve_decision. Defined.

Definition kind_name (self : MakerActorKindV1) : string :=
  match self with
  | Actor_Bitcoin => "bitcoin" | Actor_Monero => "monero" | Actor_Zcash => "zcash"
  end.

Definition kind_pair (self : MakerActorKindV1) : Pair :=
  match self with
  | Actor_Bitcoin => Pair_Bitcoin | Actor_Monero => Pair_Monero | Actor_Zcash => Pair_Zcash
  end.

Definition kind_parse (value : string) : result MakerActorKindV1 MakerActorProcessError :=
  if value ==? "bitcoin" then Ok Actor_Bitcoin
  else if value ==? "monero" then Ok Actor_Monero
  else if value ==? "zcash" then Ok Actor_Zcash
  else Err Actor_CorruptRecord.

Inductive MakerActorScheduleState :=
| Schedule_Queued | Schedule_Leased | Schedule_Backoff | Schedule_Terminal | Schedule_Failed.

#[global] Instance MakerActorScheduleState_eq_dec : EqDecision MakerActorScheduleState.
Proof. solve_decision. Defined.

Definition schedule_name (self : MakerActorScheduleState) : string :=
  match self with
  | Schedule_Queued => "queued"
  | Schedule_Leased => "leased"
  | Schedule_Backoff => "backoff"
  | Schedule_Terminal => "terminal"
  | Schedule_Failed => "failed"
  end.

Definition schedule_parse (value : string)
    : result MakerActorScheduleState MakerActorProcessError :=
  if value ==? "queued" then Ok Schedule_Queued
  else if value ==? "leased" then Ok Schedule_Leased
  else if value ==? "backoff" then Ok Schedule_Backoff
  else if value ==? "terminal" then Ok Schedule_Terminal
  else if value ==? "failed" then Ok Schedule_Failed
  else Err Actor_CorruptRecord.

(** ** Manifests *)

(** A path is its text; one that is not UTF-8 is refused before any other test
    and does not appear.  [Path::components] of an absolute path ignores
    repeated separators, [.] and a trailing separator; [Path] equality compares
    components. *)
Fixpoint split_path (s : string) : list string :=
  match s with
  | EmptyString => [EmptyString]
  | String c s' =>
      if bool_decide (c = "/"%char) then EmptyString :: split_path s'
      else match split_path s' with
           | piece :: pieces => String c piece :: pieces
           | [] => [String c EmptyString]
           end
  end.

Definition is_absolute (path : string) : bool :=
  match path with String "/" _ => true | _ => false end.

Definition components (path : string) : list string :=
  filter (λ piece, piece ≠ "" ∧ piece ≠ ".") (split_path path).

Definition path_eq (left right : string) : bool :=
  eqb (is_absolute left) (is_absolute right) && (components left ==? components right).

Definition validate_path (path : string) : result unit MakerActorProcessError :=
  let? _ := reject_if (negb (is_absolute path) || (MAX_PATH_BYTES <? slen path)
                       || (slen path =? 0)) InvalidManifest in
  reject_if (existsb (λ piece, piece ==? "..") (components path)) InvalidManifest.

Record MakerActorManifestV1 := {
  manifest_swap_id : SwapId;
  manifest_kind : MakerActorKindV1;
  manifest_config_path : string;
  manifest_config_sha256 : bytes;
  manifest_program_path : string;
  manifest_program_sha256 : bytes;
  manifest_state_database_path : string
}.

Definition MakerActorManifestV1_new (swap_id : SwapId) (kind : MakerActorKindV1)
    (config_path : string) (config_sha256 : bytes) (program_path : string)
    (program_sha256 : bytes) (state_database_path : string)
    : result MakerActorManifestV1 MakerActorProcessError :=
  let? _ := validate_path config_path in
  let? _ := validate_path program_path in
  let? _ := validate_path state_database_path in
  if path_eq config_path program_path || path_eq config_path state_database_path
     || path_eq program_path state_database_path
  then Err InvalidManifest
  else Ok {| manifest_swap_id := swap_id; manifest_kind := kind;
             manifest_config_path := config_path; manifest_config_sha256 := config_sha256;
             manifest_program_path := program_path; manifest_program_sha256 := program_sha256;
             manifest_state_database_path := state_database_path |}.

(** The derived equality. *)
Definition manifest_eq (left right : MakerActorManifestV1) : bool :=
  (left.(manifest_swap_id) ==? right.(manifest_swap_id))
  && (left.(manifest_kind) ==? right.(manifest_kind))
  && path_eq left.(manifest_config_path) right.(manifest_config_path)
  && (left.(manifest_config_sha256) ==? right.(manifest_config_sha256))
  && path_eq left.(manifest_program_path) right.(manifest_program_path)
  && (left.(manifest_program_sha256) ==? right.(manifest_program_sha256))
  && path_eq left.(manifest_state_database_path) right.(manifest_state_database_path).

(** ** Leases, resolutions and manual actions *)

Record MakerActorLeaseOwner := { owner_bytes : bytes }.

#[global] Instance MakerActorLeaseOwner_eq_dec : EqDecision MakerActorLeaseOwner.
Proof. solve_decision. Defined.

Definition zero16 : bytes := repeat Byte.x00 16.

Definition MakerActorLeaseOwner_new (value : bytes)
    : result MakerActorLeaseOwner MakerActorProcessError :=
  if value ==? zero16 then Err InvalidLeaseOwner else Ok {| owner_bytes := value |}.

Record MakerActorProcessRecordV1 := {
  process_manifest : MakerActorManifestV1;
  process_schedule_state : MakerActorScheduleState;
  process_next_attempt_at : Z;
  process_lease_generation : Z;
  process_lease_owner : option MakerActorLeaseOwner;
  process_leased_at : option Z;
  process_child_identity : option (Z * Z);
  process_attempt_count : Z;
  process_last_failure_class : option string;
  process_created_at : Z;
  process_updated_at : Z
}.

Record MakerActorLeaseV1 := {
  lease_record : MakerActorProcessRecordV1;
  lease_owner : MakerActorLeaseOwner;
  lease_generation : Z
}.

Definition lease_swap (lease : MakerActorLeaseV1) : SwapId :=
  lease.(lease_record).(process_manifest).(manifest_swap_id).

Definition with_owner (self : MakerActorLeaseV1) (owner : MakerActorLeaseOwner)
    : MakerActorLeaseV1 :=
  {| lease_record := self.(lease_record); lease_owner := owner;
     lease_generation := self.(lease_generation) |}.

Inductive MakerActorAttemptResolution :=
| Requeue (not_before : Z)
| Resolve_Backoff (not_before : Z) (failure_class : string)
| Resolve_Terminal
| ManualActionCompleted
| Resolve_Failed (failure_class : string).

Inductive MakerActorManualAction := Action_Claim | Action_Refund.

Inductive MakerActorManualActionState :=
| Action_Queued | Action_Leased | Action_Completed | Action_Failed.

#[global] Instance MakerActorManualAction_eq_dec : EqDecision MakerActorManualAction.
Proof. solve_decision. Defined.
#[global] Instance MakerActorManualActionState_eq_dec : EqDecision MakerActorManualActionState.
Proof. solve_decision. Defined.

Definition action_name (self : MakerActorManualAction) : string :=
  match self with Action_Claim => "claim" | Action_Refund => "refund" end.

Definition action_parse (value : string)
    : result MakerActorManualAction MakerActorProcessError :=
  if value ==? "claim" then Ok Action_Claim
  else if value ==? "refund" then Ok Action_Refund
  else Err Actor_CorruptRecord.

Definition action_state_name (self : MakerActorManualActionState) : string :=
  match self with
  | Action_Queued => "queued"
  | Action_Leased => "leased"
  | Action_Completed => "completed"
  | Action_Failed => "failed"
  end.

Definition action_state_parse (value : string)
    : result MakerActorManualActionState MakerActorProcessError :=
  if value ==? "queued" then Ok Action_Queued
  else if value ==? "leased" then Ok Action_Leased
  else if value ==? "completed" then Ok Action_Completed
  else if value ==? "failed" then Ok Action_Failed
  else Err Actor_CorruptRecord.

Record MakerActorManualActionSnapshot := {
  snapshot_request_id : RequestId;
  snapshot_swap_id : SwapId;
  snapshot_action : MakerActorManualAction;
  snapshot_action_state : MakerActorManualActionState;
  snapshot_requested_after_generation : Z;
  snapshot_lease_owner : option MakerActorLeaseOwner;
  snapshot_lease_generation : option Z
}.

Record MakerActorManualActionCommit := {
  commit_requested_after_generation : Z;
  commit_was_replay : bool
}.

Inductive MakerActorProgressObservationV1 :=
| Progress_NotActivated
| Progress_Active (phase : string) (revision : Z) (next_action : string).

(** Lowercase letters, digits and underscores. *)
Definition is_label_byte (b : Byte.byte) : bool :=
  let v := Z_of_byte b in
  ((97 <=? v) && (v <=? 122)) || ((48 <=? v) && (v <=? 57)) || (v =? 95).

Definition valid_progress_label (value : string) : bool :=
  negb (slen value =? 0) && (slen value <=? MAX_PROGRESS_LABEL_BYTES)
  && forallb is_label_byte (bytes_of_string value).

Definition progress_active (phase : string) (revision : Z) (next_action : string)
    : result MakerActorProgressObservationV1 MakerActorProcessError :=
  if negb (valid_progress_label phase) || negb (valid_progress_label next_action)
  then Err InvalidSchedulingInput
  else Ok (Progress_Active phase revision next_action).

Definition progress_validate (self : MakerActorProgressObservationV1)
    : result unit MakerActorProcessError :=
  match self with
  | Progress_NotActivated => Ok tt
  | Progress_Active phase _ next_action =>
      if valid_progress_label phase && valid_progress_label next_action
      then Ok tt else Err Actor_CorruptRecord
  end.

Record MakerActorProgressSnapshotV1 := {
  progress_swap_id : SwapId;
  progress_actor_kind : MakerActorKindV1;
  progress_source_generation : Z;
  progress_observation : MakerActorProgressObservationV1;
  progress_observed_at : Z
}.

Record MakerActorMonitorSnapshotV1 := {
  monitor_process : MakerActorProcessRecordV1;
  monitor_progress : option MakerActorProgressSnapshotV1;
  monitor_manual_action : option MakerActorManualActionSnapshot
}.

Record StoredManualActionResultV1 := {
  stored_action_schema_version : Z;
  stored_requested_after_generation : Z
}.

Definition validate_failure_class (value : string) : result unit MakerActorProcessError :=
  if (slen value =? 0) || (MAX_FAILURE_CLASS_BYTES <? slen value)
     || negb (forallb is_label_byte (bytes_of_string value))
  then Err InvalidSchedulingInput else Ok tt.

Definition resolution_fields (resolution : MakerActorAttemptResolution)
    : result (MakerActorScheduleState * Z * option string) MakerActorProcessError :=
  match resolution with
  | Requeue not_before => Ok (Schedule_Queued, not_before, None)
  | Resolve_Backoff not_before failure_class =>
      let? _ := validate_failure_class failure_class in
      Ok (Schedule_Backoff, not_before, Some failure_class)
  | Resolve_Terminal | ManualActionCompleted => Ok (Schedule_Terminal, 0, None)
  | Resolve_Failed failure_class =>
      let? _ := validate_failure_class failure_class in
      Ok (Schedule_Failed, 0, Some failure_class)
  end.

Definition time_to_sql (value : Z) : Z := Z.min value i64_max.

Definition generation_to_sql (value : Z) : result Z MakerActorProcessError :=
  if i64_max <? value then Err Actor_CorruptRecord else Ok value.

Definition decode_u64 (value : Z) : result Z MakerActorProcessError :=
  if value <? 0 then Err Actor_CorruptRecord else Ok value.

(** [Option::map(f).transpose()] *)
Definition transpose {A B E} (f : A → result B E) (o : option A) : result (option B) E :=
  match o with
  | None => Ok None
  | Some a => let? b := f a in Ok (Some b)
  end.

Definition decode_owner (value : option bytes)
    : result (option MakerActorLeaseOwner) MakerActorProcessError :=
  transpose (λ bytes,
    let? _ := reject_if (negb (blen bytes =? 16)) Actor_CorruptRecord in
    map_err (MakerActorLeaseOwner_new bytes) (λ _, Actor_CorruptRecord)) value.

(** ** Tables *)

Class ActorJson := {
  (** [StoredManualActionRequest], and the object [repin_maker_actor_program]
      builds. *)
  manual_request_to_json : SwapId → MakerActorManualAction → Z → string;
  repin_request_to_json : SwapId → Z → bytes → string;
  manual_result_to_json : StoredManualActionResultV1 → string;
  manual_result_from_json : string → option StoredManualActionResultV1;
  progress_to_json : MakerActorProgressObservationV1 → string;
  progress_from_json : string → option MakerActorProgressObservationV1;
  (** The pair of a stored [SwapCoordinator]. *)
  swap_pair_from_json : string → option Pair
}.

Class ActorJsonLaws `{ActorJson} := {
  manual_request_inj : ∀ s a g s' a' g',
    manual_request_to_json s a g = manual_request_to_json s' a' g' → s = s' ∧ a = a' ∧ g = g';
  repin_request_inj : ∀ s g h s' g' h',
    repin_request_to_json s g h = repin_request_to_json s' g' h' → s = s' ∧ g = g' ∧ h = h';
  requests_disjoint : ∀ s a g s' g' h,
    manual_request_to_json s a g ≠ repin_request_to_json s' g' h;
  manual_result_round_trip : ∀ r, manual_result_from_json (manual_result_to_json r) = Some r;
  progress_round_trip : ∀ p, progress_from_json (progress_to_json p) = Some p
}.

(** The columns of [maker_actor_processes] that registration writes, and those
    that scheduling assigns. *)
Record ActorPin := {
  pin_actor_kind : string;
  pin_manifest_version : Z;
  pin_manifest_path : string;
  pin_manifest_sha256 : bytes;
  pin_program_path : string;
  pin_program_sha256 : bytes;
  pin_state_db_path : string;
  pin_desired_state : string;
  pin_created_at : Z
}.

Record ActorSchedule := {
  sch_state : string;
  sch_next_attempt_at : Z;
  sch_generation : Z;
  sch_owner : option bytes;
  sch_leased_at : option Z;
  sch_child_pid : option Z;
  sch_child_start_ticks : option Z;
  sch_attempt_count : Z;
  sch_failure_class : option string;
  sch_updated_at : Z
}.

Record ProcessRow := { row_pin : ActorPin; row_schedule : ActorSchedule }.

(** [maker_actor_manual_actions], by its unique [request_id]. *)
Record ActionRow := {
  act_sequence : Z;
  act_swap_id : string;
  act_action : string;
  act_state : string;
  act_requested_after : Z;
  act_owner : option bytes;
  act_generation : option Z;
  act_created_at : Z;
  act_updated_at : Z
}.

Record ProgressRow := {
  prog_payload_version : Z;
  prog_actor_kind : string;
  prog_source_generation : Z;
  prog_payload_json : string;
  prog_observed_at : Z
}.

(** A row of [maker_application_mutations], which all operations of the store
    share. *)
Record RequestRow := {
  req_operation : string;
  req_payload_version : Z;
  req_request_json : string;
  req_result_json : string
}.

(** The tables, with the column [state_json] of [swaps] and the counter of the
    [AUTOINCREMENT] column. *)
Record ActorDb := {
  db_swaps : gmap string string;
  db_requests : gmap string RequestRow;
  db_processes : gmap string ProcessRow;
  db_actions : gmap string ActionRow;
  db_action_sequence : Z;
  db_progress : gmap string ProgressRow
}.

Definition empty_actor_db : ActorDb :=
  {| db_swaps := ∅; db_requests := ∅; db_processes := ∅; db_actions := ∅;
     db_action_sequence := 0; db_progress := ∅ |}.

Definition with_processes (db : ActorDb) t : ActorDb :=
  {| db_swaps := db.(db_swaps); db_requests := db.(db_requests); db_processes := t;
     db_actions := db.(db_actions); db_action_sequence := db.(db_action_sequence);
     db_progress := db.(db_progress) |}.

Definition with_actions (db : ActorDb) t sequence : ActorDb :=
  {| db_swaps := db.(db_swaps); db_requests := db.(db_requests);
     db_processes := db.(db_processes); db_actions := t; db_action_sequence := sequence;
     db_progress := db.(db_progress) |}.

Definition with_progress (db : ActorDb) t : ActorDb :=
  {| db_swaps := db.(db_swaps); db_requests := db.(db_requests);
     db_processes := db.(db_processes); db_actions := db.(db_actions);
     db_action_sequence := db.(db_action_sequence); db_progress := t |}.

Definition with_requests (db : ActorDb) t : ActorDb :=
  {| db_swaps := db.(db_swaps); db_requests := t; db_processes := db.(db_processes);
     db_actions := db.(db_actions); db_action_sequence := db.(db_action_sequence);
     db_progress := db.(db_progress) |}.

(** [CHECK] constraints. *)

Definition null_or (p : Z → bool) (o : option Z) : bool :=
  match o with None => true | Some v => p v end.

(** An [INTEGER] column of a strict table refuses the real number that SQLite's
    addition yields beyond [i64]. *)
Definition process_check (_ : string) (row : ProcessRow) : bool :=
  let pin := row.(row_pin) in
  let sch := row.(row_schedule) in
  str_in pin.(pin_actor_kind) ["bitcoin"; "monero"; "zcash"]
  && (pin.(pin_manifest_version) =? 1)
  && len_is 32 pin.(pin_manifest_sha256) && len_is 32 pin.(pin_program_sha256)
  && str_in pin.(pin_desired_state) ["running"; "stopped"]
  && str_in sch.(sch_state) ["queued"; "leased"; "backoff"; "terminal"; "failed"]
  && (0 <=? sch.(sch_next_attempt_at))
  && (0 <=? sch.(sch_generation)) && (sch.(sch_generation) <=? i64_max)
  && null_or_len 16 sch.(sch_owner)
  && null_or (λ v, 0 <=? v) sch.(sch_leased_at)
  && null_or (λ v, 0 <? v) sch.(sch_child_pid)
  && null_or (λ v, 0 <? v) sch.(sch_child_start_ticks)
  && (0 <=? sch.(sch_attempt_count)) && (sch.(sch_attempt_count) <=? i64_max)
  && (0 <=? pin.(pin_created_at)) && (pin.(pin_created_at) <=? sch.(sch_updated_at))
  && eqb (is_null sch.(sch_child_pid)) (is_null sch.(sch_child_start_ticks))
  && (((sch.(sch_state) ==? "leased")
       && not_null sch.(sch_owner) && not_null sch.(sch_leased_at))
      || ((sch.(sch_state) !=? "leased")
          && is_null sch.(sch_owner) && is_null sch.(sch_leased_at)
          && is_null sch.(sch_child_pid) && is_null sch.(sch_child_start_ticks))).

Definition action_check (_ : string) (row : ActionRow) : bool :=
  str_in row.(act_action) ["claim"; "refund"]
  && str_in row.(act_state) ["queued"; "leased"; "completed"; "failed"]
  && (0 <=? row.(act_requested_after))
  && null_or_len 16 row.(act_owner)
  && null_or (λ v, 0 <? v) row.(act_generation)
  && (0 <=? row.(act_created_at)) && (row.(act_created_at) <=? row.(act_updated_at))
  && (((row.(act_state) ==? "leased")
       && not_null row.(act_owner) && not_null row.(act_generation))
      || ((row.(act_state) !=? "leased")
          && is_null row.(act_owner) && is_null row.(act_generation))).

Definition progress_check (_ : string) (row : ProgressRow) : bool :=
  (row.(prog_payload_version) =? 1)
  && str_in row.(prog_actor_kind) ["bitcoin"; "monero"; "zcash"]
  && (0 <? row.(prog_source_generation)) && (0 <=? row.(prog_observed_at)).

(** The partial index [maker_actor_manual_actions_one_open]. *)
Definition action_open (row : ActionRow) : bool := str_in row.(act_state) ["queued"; "leased"].

Definition open_key (request_id : string) (row : ActionRow) : string + string :=
  if action_open row then inl row.(act_swap_id) else inr request_id.

(** [UNIQUE] columns. *)
Definition manifest_path_key (_ : string) (row : ProcessRow) : string :=
  row.(row_pin).(pin_manifest_path).
Definition state_path_key (_ : string) (row : ProcessRow) : string :=
  row.(row_pin).(pin_state_db_path).

(** A statement the engine refuses fails the operation. *)
Definition run_sql {A} (o : option A) : result A MakerActorProcessError := ok_or o Actor_Sqlite.

Definition insert_process (db : ActorDb) (k : string) (row : ProcessRow)
    : result ActorDb MakerActorProcessError :=
  let? _ := reject_if (bool_decide (db.(db_swaps) !! k = None)
                       || unique_taken state_path_key db.(db_processes) (state_path_key k row))
              Actor_Sqlite in
  let? t := run_sql (sql_insert process_check manifest_path_key db.(db_processes) k row) in
  Ok (with_processes db t).

Definition update_process (db : ActorDb) (k : string) (where_ : ProcessRow → bool)
    (set : ProcessRow → ProcessRow) : result (ActorDb * Z) MakerActorProcessError :=
  let? '(t, changed) := run_sql (sql_update process_check db.(db_processes) k where_ set) in
  Ok (with_processes db t, changed).

Definition insert_action (db : ActorDb) (k : string) (row : Z → ActionRow)
    : result ActorDb MakerActorProcessError :=
  let sequence := db.(db_action_sequence) + 1 in
  let? _ := reject_if (bool_decide (db.(db_processes) !! (row sequence).(act_swap_id) = None)
                       || (i64_max <? sequence)) Actor_Sqlite in
  let? t := run_sql (sql_insert action_check open_key db.(db_actions) k (row sequence)) in
  Ok (with_actions db t sequence).

(** No update of an action reopens it, so the partial index is not concerned. *)
Definition update_action (db : ActorDb) (k : string) (where_ : ActionRow → bool)
    (set : ActionRow → ActionRow) : result (ActorDb * Z) MakerActorProcessError :=
  let? '(t, changed) := run_sql (sql_update action_check db.(db_actions) k where_ set) in
  Ok (with_actions db t db.(db_action_sequence), changed).

Definition request_check (_ : string) (row : RequestRow) : bool :=
  str_in row.(req_operation) MUTATION_OPERATIONS
  && (row.(req_payload_version) =? 1).

Definition insert_request (db : ActorDb) (k : string) (row : RequestRow)
    : result ActorDb MakerActorProcessError :=
  let? t := run_sql (sql_insert request_check (λ k _, k) db.(db_requests) k row) in
  Ok (with_requests db t).

(** ** Reading rows *)

Definition decode_record (swap_id : string) (row : ProcessRow)
    : result MakerActorProcessRecordV1 MakerActorProcessError :=
  let pin := row.(row_pin) in
  let sch := row.(row_schedule) in
  let? _ := reject_if (negb (pin.(pin_manifest_version) =? MANIFEST_VERSION))
              Actor_CorruptRecord in
  let? _ := reject_if (negb (blen pin.(pin_manifest_sha256) =? 32)) Actor_CorruptRecord in
  let? _ := reject_if (negb (blen pin.(pin_program_sha256) =? 32)) Actor_CorruptRecord in
  let? swap_id := map_err (SwapId_new swap_id) (λ _, Actor_CorruptRecord) in
  let? kind := kind_parse pin.(pin_actor_kind) in
  let? manifest :=
    MakerActorManifestV1_new swap_id kind pin.(pin_manifest_path) pin.(pin_manifest_sha256)
      pin.(pin_program_path) pin.(pin_program_sha256) pin.(pin_state_db_path) in
  let? schedule_state := schedule_parse sch.(sch_state) in
  let? lease_owner := decode_owner sch.(sch_owner) in
  let? leased_at := transpose decode_u64 sch.(sch_leased_at) in
  let? child_identity :=
    match sch.(sch_child_pid), sch.(sch_child_start_ticks) with
    | None, None => Ok None
    | Some pid, Some ticks =>
        let? _ := reject_if ((pid <? 0) || (u32_max <? pid)) Actor_CorruptRecord in
        let? ticks := decode_u64 ticks in
        Ok (Some (pid, ticks))
    | _, _ => Err Actor_CorruptRecord
    end in
  let? _ := reject_if
    (negb (eqb (schedule_state ==? Schedule_Leased) (not_null lease_owner && not_null leased_at))
     || ((schedule_state !=? Schedule_Leased) && not_null child_identity)) Actor_CorruptRecord in
  let? next_attempt_at := decode_u64 sch.(sch_next_attempt_at) in
  let? generation := decode_u64 sch.(sch_generation) in
  let? attempt_count := decode_u64 sch.(sch_attempt_count) in
  let? created_at := decode_u64 pin.(pin_created_at) in
  let? updated_at := decode_u64 sch.(sch_updated_at) in
  Ok {| process_manifest := manifest; process_schedule_state := schedule_state;
        process_next_attempt_at := next_attempt_at; process_lease_generation := generation;
        process_lease_owner := lease_owner; process_leased_at := leased_at;
        process_child_identity := child_identity; process_attempt_count := attempt_count;
        process_last_failure_class := sch.(sch_failure_class);
        process_created_at := created_at; process_updated_at := updated_at |}.

Definition load_record (db : ActorDb) (swap_id : SwapId)
    : result (option MakerActorProcessRecordV1) MakerActorProcessError :=
  transpose (decode_record (SwapId_as_str swap_id))
    (db.(db_processes) !! SwapId_as_str swap_id).

Definition decode_manual_action (request_id : string) (row : ActionRow)
    : result MakerActorManualActionSnapshot MakerActorProcessError :=
  let? state := action_state_parse row.(act_state) in
  let? lease_owner := decode_owner row.(act_owner) in
  let? lease_generation := transpose decode_u64 row.(act_generation) in
  let? _ := reject_if
    (negb (eqb (state ==? Action_Leased) (not_null lease_owner && not_null lease_generation)))
    Actor_CorruptRecord in
  let? request_id := map_err (RequestId_new request_id) (λ _, Actor_CorruptRecord) in
  let? swap_id := map_err (SwapId_new row.(act_swap_id)) (λ _, Actor_CorruptRecord) in
  let? action := action_parse row.(act_action) in
  let? requested_after := decode_u64 row.(act_requested_after) in
  Ok {| snapshot_request_id := request_id; snapshot_swap_id := swap_id;
        snapshot_action := action; snapshot_action_state := state;
        snapshot_requested_after_generation := requested_after;
        snapshot_lease_owner := lease_owner; snapshot_lease_generation := lease_generation |}.

Definition load_manual_action_by_request (db : ActorDb) (request_id : RequestId)
    : result (option MakerActorManualActionSnapshot) MakerActorProcessError :=
  transpose (decode_manual_action (RequestId_as_str request_id))
    (db.(db_actions) !! RequestId_as_str request_id).

(** [ORDER BY sequence DESC LIMIT 1] *)
Definition later (x y : string * ActionRow) : string * ActionRow :=
  if x.2.(act_sequence) <? y.2.(act_sequence) then y else x.

Definition last_action (l : list (string * ActionRow)) : option (string * ActionRow) :=
  match l with [] => None | x :: l => Some (fold_left later l x) end.

Definition select_action (db : ActorDb) (p : ActionRow → bool) : option (string * ActionRow) :=
  last_action (filter (λ kr : string * ActionRow, p kr.2 = true) (map_to_list db.(db_actions))).

Definition load_open_manual_action (db : ActorDb) (swap_id : SwapId)
    : result (option MakerActorManualActionSnapshot) MakerActorProcessError :=
  transpose (λ kr : string * ActionRow, decode_manual_action kr.1 kr.2)
    (select_action db (λ row, (row.(act_swap_id) ==? SwapId_as_str swap_id) && action_open row)).

Definition load_latest_manual_action (db : ActorDb) (swap_id : SwapId)
    : result (option MakerActorManualActionSnapshot) MakerActorProcessError :=
  transpose (λ kr : string * ActionRow, decode_manual_action kr.1 kr.2)
    (select_action db (λ row, row.(act_swap_id) ==? SwapId_as_str swap_id)).
