(* ===== verification/ActorScheduler.v ===== *)
(** * Scheduling of the maker's actor processes

    The operations of [crates/swap-store/src/maker_actor_process.rs].  A daemon
    claims a due actor with a lease fenced by its owner and a generation, records
    the child it spawned, and resolves the attempt; the owner may queue a claim or
    a refund to be executed under the next lease, or pin another build of the
    actor's program.  Every operation is a function of the database that returns
    the database it commits and its result.

    [recover_abandoned_maker_actor] takes the outcome of the check of the kernel
    lock. *)

From stdpp Require Import base gmap strings list numbers sorting.
From S2P Require Import Prelude SwapCore BridgeValues MakerMarket SqlTable StoreBase MakerConfiguration ActorProcess.

Open Scope Z_scope.

Section json.
Context `{ActorJson}.

Definition decode_actor_progress (swap_id : string) (row : ProgressRow) (process_kind : string)
    : result MakerActorProgressSnapshotV1 MakerActorProcessError :=
  let? _ := reject_if (negb (row.(prog_payload_version) =? 1)
                       || (row.(prog_actor_kind) !=? process_kind)) Actor_CorruptRecord in
  let? observation := ok_or (progress_from_json row.(prog_payload_json)) Actor_CorruptRecord in
  let? _ := progress_validate observation in
  let? swap_id := map_err (SwapId_new swap_id) (λ _, Actor_CorruptRecord) in
  let? kind := kind_parse row.(prog_actor_kind) in
  let? generation := decode_u64 row.(prog_source_generation) in
  let? observed_at := decode_u64 row.(prog_observed_at) in
  Ok {| progress_swap_id := swap_id; progress_actor_kind := kind;
        progress_source_generation := generation; progress_observation := observation;
        progress_observed_at := observed_at |}.

Definition load_actor_progress (db : ActorDb) (swap_id : SwapId)
    : result (option MakerActorProgressSnapshotV1) MakerActorProcessError :=
  let k := SwapId_as_str swap_id in
  match db.(db_progress) !! k, db.(db_processes) !! k with
  | Some row, Some process =>
      let? snapshot := decode_actor_progress k row process.(row_pin).(pin_actor_kind) in
      Ok (Some snapshot)
  | _, _ => Ok None
  end.

(** ** Registration *)

Definition validate_manifest_swap (db : ActorDb) (manifest : MakerActorManifestV1)
    : result unit MakerActorProcessError :=
  let? swap_json :=
    ok_or (db.(db_swaps) !! SwapId_as_str manifest.(manifest_swap_id)) MissingSwap in
  let? found := ok_or (swap_pair_from_json swap_json) (Actor_Store Serialization) in
  reject_if (found !=? kind_pair manifest.(manifest_kind)) PairMismatch.

Definition registered_row (manifest : MakerActorManifestV1) (now : Z) : ProcessRow := {|
  row_pin := {|
    pin_actor_kind := kind_name manifest.(manifest_kind);
    pin_manifest_version := MANIFEST_VERSION;
    pin_manifest_path := manifest.(manifest_config_path);
    pin_manifest_sha256 := manifest.(manifest_config_sha256);
    pin_program_path := manifest.(manifest_program_path);
    pin_program_sha256 := manifest.(manifest_program_sha256);
    pin_state_db_path := manifest.(manifest_state_database_path);
    pin_desired_state := "running"; pin_created_at := now |};
  row_schedule := {|
    sch_state := "queued"; sch_next_attempt_at := now; sch_generation := 0;
    sch_owner := None; sch_leased_at := None; sch_child_pid := None;
    sch_child_start_ticks := None; sch_attempt_count := 0; sch_failure_class := None;
    sch_updated_at := now |}
|}.

(** Whether the exact row was already present. *)
Definition register_maker_actor_in_transaction (db : ActorDb) (manifest : MakerActorManifestV1)
    (now : Z) : result (ActorDb * bool) MakerActorProcessError :=
  let? _ := validate_manifest_swap db manifest in
  let? existing := load_record db manifest.(manifest_swap_id) in
  match existing with
  | Some existing =>
      if manifest_eq existing.(process_manifest) manifest then Ok (db, true)
      else Err RegistrationConflict
  | None =>
      let? db := insert_process db (SwapId_as_str manifest.(manifest_swap_id))
                   (registered_row manifest (time_to_sql now)) in
      Ok (db, false)
  end.

Definition register_maker_actor (db : ActorDb) (manifest : MakerActorManifestV1) (now : Z)
    : ActorDb * result bool MakerActorProcessError :=
  immediate_transaction db (register_maker_actor_in_transaction db manifest now).

Definition require_exact_maker_actor_in_transaction (db : ActorDb)
    (manifest : MakerActorManifestV1) : result unit MakerActorProcessError :=
  let? _ := validate_manifest_swap db manifest in
  let? existing := load_record db manifest.(manifest_swap_id) in
  let? existing := ok_or existing RegistrationConflict in
  reject_if (negb (manifest_eq existing.(process_manifest) manifest)) RegistrationConflict.

Definition load_maker_actor_manifest_in_transaction (db : ActorDb) (swap_id : SwapId)
    : result (option MakerActorManifestV1) MakerActorProcessError :=
  let? record := load_record db swap_id in Ok (process_manifest <$> record).

(** ** Owner requests *)

Definition ACTOR_REQUEST : string := "actor_action_request".

Definition replay_manual_action_request (db : ActorDb) (request_id : RequestId)
    (request_json : string)
    : result (option MakerActorManualActionCommit) MakerActorProcessError :=
  match db.(db_requests) !! RequestId_as_str request_id with
  | None => Ok None
  | Some row =>
      let? _ := reject_if ((row.(req_operation) !=? ACTOR_REQUEST)
                           || (row.(req_request_json) !=? request_json))
                  ManualActionRequestConflict in
      let? result := ok_or (manual_result_from_json row.(req_result_json))
                       (Actor_Store Serialization) in
      let? _ := reject_if (negb (result.(stored_action_schema_version) =? 1))
                  Actor_CorruptRecord in
      let? action := load_manual_action_by_request db request_id in
      let? _ := reject_if (is_null action) Actor_CorruptRecord in
      Ok (Some {| commit_requested_after_generation :=
                    result.(stored_requested_after_generation);
                  commit_was_replay := true |})
  end.

(** The columns a queued request and a new pin assign. *)
Definition requeued (now : Z) (row : ProcessRow) : ProcessRow :=
  let sch := row.(row_schedule) in
  {| row_pin := {|
       pin_actor_kind := row.(row_pin).(pin_actor_kind);
       pin_manifest_version := row.(row_pin).(pin_manifest_version);
       pin_manifest_path := row.(row_pin).(pin_manifest_path);
       pin_manifest_sha256 := row.(row_pin).(pin_manifest_sha256);
       pin_program_path := row.(row_pin).(pin_program_path);
       pin_program_sha256 := row.(row_pin).(pin_program_sha256);
       pin_state_db_path := row.(row_pin).(pin_state_db_path);
       pin_desired_state := "running"; pin_created_at := row.(row_pin).(pin_created_at) |};
     row_schedule := {|
       sch_state := "queued"; sch_next_attempt_at := now;
       sch_generation := sch.(sch_generation); sch_owner := None; sch_leased_at := None;
       sch_child_pid := None; sch_child_start_ticks := None;
       sch_attempt_count := sch.(sch_attempt_count); sch_failure_class := None;
       sch_updated_at := now |} |}.

Definition repinned (program_sha256 : bytes) (now : Z) (row : ProcessRow) : ProcessRow :=
  let sch := row.(row_schedule) in
  {| row_pin := {|
       pin_actor_kind := row.(row_pin).(pin_actor_kind);
       pin_manifest_version := row.(row_pin).(pin_manifest_version);
       pin_manifest_path := row.(row_pin).(pin_manifest_path);
       pin_manifest_sha256 := row.(row_pin).(pin_manifest_sha256);
       pin_program_path := row.(row_pin).(pin_program_path);
       pin_program_sha256 := program_sha256;
       pin_state_db_path := row.(row_pin).(pin_state_db_path);
       pin_desired_state := row.(row_pin).(pin_desired_state);
       pin_created_at := row.(row_pin).(pin_created_at) |};
     row_schedule := {|
       sch_state := "queued"; sch_next_attempt_at := now;
       sch_generation := sch.(sch_generation); sch_owner := sch.(sch_owner);
       sch_leased_at := sch.(sch_leased_at); sch_child_pid := sch.(sch_child_pid);
       sch_child_start_ticks := sch.(sch_child_start_ticks);
       sch_attempt_count := sch.(sch_attempt_count); sch_failure_class := None;
       sch_updated_at := now |} |}.

(** [schedule_state IN ('queued', 'backoff', 'failed')] *)
Definition requeueable (row : ProcessRow) : bool :=
  str_in row.(row_schedule).(sch_state) ["queued"; "backoff"; "failed"].

Definition queued_action (swap_id : SwapId) (action : MakerActorManualAction)
    (expected_generation now sequence : Z) : ActionRow :=
  {| act_sequence := sequence; act_swap_id := SwapId_as_str swap_id;
     act_action := action_name action; act_state := "queued";
     act_requested_after := expected_generation; act_owner := None; act_generation := None;
     act_created_at := now; act_updated_at := now |}.

Definition queue_maker_actor_manual_action (db : ActorDb) (request_id : RequestId)
    (swap_id : SwapId) (action : MakerActorManualAction) (expected_generation now : Z)
    : ActorDb * result MakerActorManualActionCommit MakerActorProcessError :=
  let request_json := manual_request_to_json swap_id action expected_generation in
  immediate_transaction db (
    let? replay := replay_manual_action_request db request_id request_json in
    match replay with
    | Some commit => Ok (db, commit)
    | None =>
        let? record := load_record db swap_id in
        let? record := ok_or record ManualActionUnavailable in
        let? _ := reject_if (negb (record.(process_lease_generation) =? expected_generation))
                    ManualActionGenerationConflict in
        let? _ := reject_if (record.(process_schedule_state) ==? Schedule_Terminal)
                    ManualActionUnavailable in
        let? pending := load_open_manual_action db swap_id in
        let? _ := reject_if (not_null pending) ManualActionPending in
        let now := time_to_sql now in
        let? generation := generation_to_sql expected_generation in
        let? db := insert_action db (RequestId_as_str request_id)
                     (queued_action swap_id action generation now) in
        let? db :=
          if record.(process_schedule_state) !=? Schedule_Leased then
            let? '(db, changed) :=
              update_process db (SwapId_as_str swap_id)
                (λ row, requeueable row
                        && (row.(row_schedule).(sch_generation) =? generation))
                (requeued now) in
            let? _ := reject_if (negb (changed =? 1)) ManualActionUnavailable in
            Ok db
          else Ok db in
        let result_json := manual_result_to_json
          {| stored_action_schema_version := 1;
             stored_requested_after_generation := expected_generation |} in
        let? db := insert_request db (RequestId_as_str request_id)
                     {| req_operation := ACTOR_REQUEST; req_payload_version := 1;
                        req_request_json := request_json; req_result_json := result_json |} in
        Ok (db, {| commit_requested_after_generation := expected_generation;
                   commit_was_replay := false |})
    end).

Definition repin_maker_actor_program (db : ActorDb) (request_id : RequestId)
    (swap_id : SwapId) (expected_generation : Z) (program_sha256 : bytes) (now : Z)
    : ActorDb * result MakerActorManualActionCommit MakerActorProcessError :=
  let request_json := repin_request_to_json swap_id expected_generation program_sha256 in
  immediate_transaction db (
    match db.(db_requests) !! RequestId_as_str request_id with
    | Some row =>
        let? _ := reject_if ((row.(req_operation) !=? ACTOR_REQUEST)
                             || (row.(req_request_json) !=? request_json))
                    ManualActionRequestConflict in
        Ok (db, {| commit_requested_after_generation := expected_generation;
                   commit_was_replay := true |})
    | None =>
        let? record := load_record db swap_id in
        let? record := ok_or record ManualActionUnavailable in
        let? _ := reject_if (negb (record.(process_lease_generation) =? expected_generation))
                    ManualActionGenerationConflict in
        let now := time_to_sql now in
        let? '(db, changed) :=
          update_process db (SwapId_as_str swap_id) requeueable (repinned program_sha256 now) in
        let? _ := reject_if (negb (changed =? 1)) ManualActionUnavailable in
        let? db := insert_request db (RequestId_as_str request_id)
                     {| req_operation := ACTOR_REQUEST; req_payload_version := 1;
                        req_request_json := request_json; req_result_json := "{}" |} in
        Ok (db, {| commit_requested_after_generation := expected_generation;
                   commit_was_replay := false |})
    end).

(** ** Leases *)

(** [schedule_state = 'leased' AND lease_owner = ? AND lease_generation = ?] *)
Definition fenced (owner : MakerActorLeaseOwner) (generation : Z) (row : ProcessRow) : bool :=
  let sch := row.(row_schedule) in
  (sch.(sch_state) ==? "leased") && (sch.(sch_owner) ==? Some owner.(owner_bytes))
  && (sch.(sch_generation) =? generation).

Definition action_fenced (owner : MakerActorLeaseOwner) (generation : Z) (row : ActionRow)
    : bool :=
  (row.(act_state) ==? "leased") && (row.(act_owner) ==? Some owner.(owner_bytes))
  && (row.(act_generation) ==? Some generation).

Definition leased_to (owner : MakerActorLeaseOwner) (now : Z) (row : ProcessRow) : ProcessRow :=
  let sch := row.(row_schedule) in
  {| row_pin := row.(row_pin);
     row_schedule := {|
       sch_state := "leased"; sch_next_attempt_at := sch.(sch_next_attempt_at);
       sch_generation := sch.(sch_generation) + 1; sch_owner := Some owner.(owner_bytes);
       sch_leased_at := Some now; sch_child_pid := None; sch_child_start_ticks := None;
       sch_attempt_count := sch.(sch_attempt_count) + 1;
       sch_failure_class := sch.(sch_failure_class); sch_updated_at := now |} |}.

(** [desired_state = 'running' AND schedule_state IN ('queued', 'backoff') AND
    next_attempt_at <= ?] *)
Definition due (now : Z) (row : ProcessRow) : bool :=
  (row.(row_pin).(pin_desired_state) ==? "running")
  && str_in row.(row_schedule).(sch_state) ["queued"; "backoff"]
  && (row.(row_schedule).(sch_next_attempt_at) <=? now).

Definition claim_maker_actor (db : ActorDb) (swap_id : SwapId) (owner : MakerActorLeaseOwner)
    (now : Z) : ActorDb * result (option MakerActorLeaseV1) MakerActorProcessError :=
  let now := time_to_sql now in
  immediate_transaction db (
    let? '(db, changed) :=
      update_process db (SwapId_as_str swap_id) (due now) (leased_to owner now) in
    if changed =? 0 then Ok (db, None)
    else
      let? record := load_record db swap_id in
      let? record := ok_or record Actor_CorruptRecord in
      let? _ := reject_if ((record.(process_lease_owner) !=? Some owner)
                           || (record.(process_schedule_state) !=? Schedule_Leased))
                  Actor_CorruptRecord in
      Ok (db, Some {| lease_record := record; lease_owner := owner;
                      lease_generation := record.(process_lease_generation) |})).

Definition with_child (child : option (Z * Z)) (row : ProcessRow) : ProcessRow :=
  let sch := row.(row_schedule) in
  {| row_pin := row.(row_pin);
     row_schedule := {|
       sch_state := sch.(sch_state); sch_next_attempt_at := sch.(sch_next_attempt_at);
       sch_generation := sch.(sch_generation); sch_owner := sch.(sch_owner);
       sch_leased_at := sch.(sch_leased_at); sch_child_pid := fst <$> child;
       sch_child_start_ticks := snd <$> child; sch_attempt_count := sch.(sch_attempt_count);
       sch_failure_class := sch.(sch_failure_class); sch_updated_at := sch.(sch_updated_at) |} |}.

(** A single statement, outside of a transaction. *)
Definition set_maker_actor_child (db : ActorDb) (lease : MakerActorLeaseV1)
    (where_ : ActorSchedule → bool) (child : option (Z * Z))
    : ActorDb * result unit MakerActorProcessError :=
  immediate_transaction db (
    let? generation := generation_to_sql lease.(lease_generation) in
    let? '(db, changed) :=
      update_process db (SwapId_as_str (lease_swap lease))
        (λ row, fenced lease.(lease_owner) generation row && where_ row.(row_schedule))
        (with_child child) in
    if changed =? 1 then Ok (db, tt) else Err LeaseConflict).

Definition record_maker_actor_child (db : ActorDb) (lease : MakerActorLeaseV1)
    (pid start_ticks : Z) : ActorDb * result unit MakerActorProcessError :=
  if (pid =? 0) || (start_ticks =? 0) then (db, Err InvalidSchedulingInput)
  else set_maker_actor_child db lease
         (λ sch, is_null sch.(sch_child_pid) && is_null sch.(sch_child_start_ticks))
         (Some (pid, time_to_sql start_ticks)).

Definition clear_maker_actor_child (db : ActorDb) (lease : MakerActorLeaseV1)
    (pid start_ticks : Z) : ActorDb * result unit MakerActorProcessError :=
  if (pid =? 0) || (start_ticks =? 0) then (db, Err InvalidSchedulingInput)
  else set_maker_actor_child db lease
         (λ sch, (sch.(sch_child_pid) ==? Some pid)
                 && (sch.(sch_child_start_ticks) ==? Some (time_to_sql start_ticks)))
         None.

(** ** Manual actions under a lease *)

Definition action_with (state : string) (owner : option MakerActorLeaseOwner)
    (generation : option Z) (updated_at : Z) (row : ActionRow) : ActionRow :=
  {| act_sequence := row.(act_sequence); act_swap_id := row.(act_swap_id);
     act_action := row.(act_action); act_state := state;
     act_requested_after := row.(act_requested_after); act_owner := owner_bytes <$> owner;
     act_generation := generation; act_created_at := row.(act_created_at);
     act_updated_at := updated_at |}.

(** [SET state = 'failed', updated_at = ?] *)
Definition action_failed (now : Z) (row : ActionRow) : ActionRow :=
  {| act_sequence := row.(act_sequence); act_swap_id := row.(act_swap_id);
     act_action := row.(act_action); act_state := "failed";
     act_requested_after := row.(act_requested_after); act_owner := row.(act_owner);
     act_generation := row.(act_generation); act_created_at := row.(act_created_at);
     act_updated_at := now |}.

(** An [UPDATE] of one action that must change it. *)
Definition update_one_action (db : ActorDb) (request_id : RequestId) (where_ : ActionRow → bool)
    (set : ActionRow → ActionRow) : result ActorDb MakerActorProcessError :=
  let? '(db, changed) := update_action db (RequestId_as_str request_id) where_ set in
  let? _ := reject_if (negb (changed =? 1)) LeaseConflict in
  Ok db.

Definition held_by (lease : MakerActorLeaseV1) (action : MakerActorManualActionSnapshot)
    : bool :=
  (action.(snapshot_lease_owner) ==? Some lease.(lease_owner))
  && (action.(snapshot_lease_generation) ==? Some lease.(lease_generation)).

Definition claim_maker_actor_manual_action (db : ActorDb) (lease : MakerActorLeaseV1)
    : ActorDb * result (option MakerActorManualActionSnapshot) MakerActorProcessError :=
  immediate_transaction db (
    let? record := load_record db (lease_swap lease) in
    let? record := ok_or record LeaseConflict in
    let? _ := reject_if
      ((record.(process_schedule_state) !=? Schedule_Leased)
       || (record.(process_lease_owner) !=? Some lease.(lease_owner))
       || negb (record.(process_lease_generation) =? lease.(lease_generation))) LeaseConflict in
    let? action := load_open_manual_action db (lease_swap lease) in
    match action with
    | None => Ok (db, None)
    | Some action =>
        let leased db :=
          let? leased := load_manual_action_by_request db action.(snapshot_request_id) in
          let? leased := ok_or leased Actor_CorruptRecord in
          Ok (db, Some leased) in
        match action.(snapshot_action_state) with
        | Action_Queued =>
            let requested := action.(snapshot_requested_after_generation) in
            if lease.(lease_generation) <? requested then Err Actor_CorruptRecord
            else if lease.(lease_generation) =? requested then Ok (db, None)
            else
              let? generation := generation_to_sql lease.(lease_generation) in
              let? db :=
                update_one_action db action.(snapshot_request_id)
                  (λ row, row.(act_state) ==? "queued")
                  (λ row, action_with "leased" (Some lease.(lease_owner)) (Some generation)
                            row.(act_updated_at) row) in
              leased db
        | Action_Leased => if held_by lease action then leased db else Err LeaseConflict
        | _ => Err LeaseConflict
        end
    end).

Definition resolved (state : MakerActorScheduleState) (next : Z) (failure : option string)
    (now : Z) (row : ProcessRow) : ProcessRow :=
  let sch := row.(row_schedule) in
  {| row_pin := row.(row_pin);
     row_schedule := {|
       sch_state := schedule_name state; sch_next_attempt_at := next;
       sch_generation := sch.(sch_generation); sch_owner := None; sch_leased_at := None;
       sch_child_pid := None; sch_child_start_ticks := None;
       sch_attempt_count := sch.(sch_attempt_count); sch_failure_class := failure;
       sch_updated_at := now |} |}.

Definition manual_state_of (resolution : MakerActorAttemptResolution)
    : MakerActorManualActionState :=
  match resolution with
  | Requeue _ | Resolve_Backoff _ _ => Action_Queued
  | ManualActionCompleted => Action_Completed
  | Resolve_Terminal | Resolve_Failed _ => Action_Failed
  end.

(** The open action when its swap's attempt is resolved. *)
Definition resolve_action (db : ActorDb) (lease : MakerActorLeaseV1) (generation : Z)
    (manual_state : MakerActorManualActionState) (action : MakerActorManualActionSnapshot)
    (now : Z) : result ActorDb MakerActorProcessError :=
  match action.(snapshot_action_state) with
  | Action_Queued =>
      if action.(snapshot_requested_after_generation) =? lease.(lease_generation) then
        match manual_state with
        | Action_Queued => Ok db
        | Action_Failed =>
            update_one_action db action.(snapshot_request_id)
              (λ row, row.(act_state) ==? "queued")
              (action_failed now)
        | _ => Err LeaseConflict
        end
      else Err LeaseConflict
  | Action_Leased =>
      if held_by lease action then
        update_one_action db action.(snapshot_request_id)
          (action_fenced lease.(lease_owner) generation)
          (action_with (action_state_name manual_state) None None now)
      else Err LeaseConflict
  | _ => Err LeaseConflict
  end.

Definition upsert_actor_progress (db : ActorDb) (lease : MakerActorLeaseV1)
    (progress : MakerActorProgressObservationV1) (now : Z)
    : result ActorDb MakerActorProcessError :=
  let k := SwapId_as_str (lease_swap lease) in
  let? generation := generation_to_sql lease.(lease_generation) in
  let row := {| prog_payload_version := 1;
                prog_actor_kind :=
                  kind_name lease.(lease_record).(process_manifest).(manifest_kind);
                prog_source_generation := generation;
                prog_payload_json := progress_to_json progress;
                prog_observed_at := time_to_sql now |} in
  let? _ := reject_if (bool_decide (db.(db_processes) !! k = None)
                       || negb (progress_check k row)) Actor_Sqlite in
  match db.(db_progress) !! k with
  | None => Ok (with_progress db (<[k := row]> db.(db_progress)))
  | Some old =>
      if old.(prog_source_generation) <=? generation
      then
        let row' := {| prog_payload_version := old.(prog_payload_version);
                       prog_actor_kind := row.(prog_actor_kind);
                       prog_source_generation := row.(prog_source_generation);
                       prog_payload_json := row.(prog_payload_json);
                       prog_observed_at := row.(prog_observed_at) |} in
        Ok (with_progress db (<[k := row']> db.(db_progress)))
      else Err LeaseConflict
  end.

Definition resolve_maker_actor_attempt_inner (db : ActorDb) (lease : MakerActorLeaseV1)
    (resolution : MakerActorAttemptResolution)
    (progress : option MakerActorProgressObservationV1) (now : Z)
    : ActorDb * result unit MakerActorProcessError :=
  let manual_state := manual_state_of resolution in
  immediate_transaction db (
    let? '(state, next, failure) := resolution_fields resolution in
    let? generation := generation_to_sql lease.(lease_generation) in
    let? '(db, changed) :=
      update_process db (SwapId_as_str (lease_swap lease))
        (fenced lease.(lease_owner) generation)
        (resolved state (time_to_sql next) failure (time_to_sql now)) in
    let? _ := reject_if (negb (changed =? 1)) LeaseConflict in
    let? action := load_open_manual_action db (lease_swap lease) in
    let? db :=
      match action with
      | None => Ok db
      | Some action => resolve_action db lease generation manual_state action (time_to_sql now)
      end in
    let? db :=
      match progress with
      | None => Ok db
      | Some progress => upsert_actor_progress db lease progress now
      end in
    Ok (db, tt)).

Definition resolve_maker_actor_attempt (db : ActorDb) (lease : MakerActorLeaseV1)
    (resolution : MakerActorAttemptResolution) (now : Z)
    : ActorDb * result unit MakerActorProcessError :=
  resolve_maker_actor_attempt_inner db lease resolution None now.

Definition resolve_maker_actor_attempt_with_progress (db : ActorDb) (lease : MakerActorLeaseV1)
    (resolution : MakerActorAttemptResolution) (progress : MakerActorProgressObservationV1)
    (now : Z) : ActorDb * result unit MakerActorProcessError :=
  match progress_validate progress with
  | Err _ => (db, Err InvalidSchedulingInput)
  | Ok _ => resolve_maker_actor_attempt_inner db lease resolution (Some progress) now
  end.

(** ** Recovery *)

Definition recovered (owner : MakerActorLeaseOwner) (generation now : Z) (row : ProcessRow)
    : ProcessRow :=
  let sch := row.(row_schedule) in
  {| row_pin := row.(row_pin);
     row_schedule := {|
       sch_state := sch.(sch_state); sch_next_attempt_at := sch.(sch_next_attempt_at);
       sch_generation := generation; sch_owner := Some owner.(owner_bytes);
       sch_leased_at := Some now; sch_child_pid := None; sch_child_start_ticks := None;
       sch_attempt_count := sch.(sch_attempt_count) + 1;
       sch_failure_class := Some "coordinator_restarted"; sch_updated_at := now |} |}.

(** [held] is what [ActorHeldLock::validate_for] returns for the lease's record. *)
Definition recover_abandoned_maker_actor (db : ActorDb) (lease : MakerActorLeaseV1)
    (held : result unit MakerActorProcessError) (new_owner : MakerActorLeaseOwner) (now : Z)
    : ActorDb * result MakerActorLeaseV1 MakerActorProcessError :=
  let k := SwapId_as_str (lease_swap lease) in
  let now := time_to_sql now in
  immediate_transaction db (
    let? _ := held in
    let? generation :=
      ok_or (checked_add u64_max lease.(lease_generation) 1) Actor_CorruptRecord in
    let? generation := generation_to_sql generation in
    let? old_generation := generation_to_sql lease.(lease_generation) in
    let? '(db, changed) :=
      update_process db k (fenced lease.(lease_owner) old_generation)
        (recovered new_owner generation now) in
    let? _ := reject_if (negb (changed =? 1)) LeaseConflict in
    let? action := load_open_manual_action db (lease_swap lease) in
    let? db :=
      match action with
      | None => Ok db
      | Some action =>
          match action.(snapshot_action_state) with
          | Action_Queued => Ok db
          | Action_Leased =>
              if held_by lease action then
                update_one_action db action.(snapshot_request_id)
                  (action_fenced lease.(lease_owner) old_generation)
                  (λ row, action_with row.(act_state) (Some new_owner) (Some generation) now row)
              else Err LeaseConflict
          | _ => Err LeaseConflict
          end
      end in
    let? record := load_record db (lease_swap lease) in
    let? record := ok_or record Actor_CorruptRecord in
    let? _ := reject_if
      ((record.(process_schedule_state) !=? Schedule_Leased)
       || (record.(process_lease_owner) !=? Some new_owner)
       || negb (record.(process_lease_generation) =? generation)) Actor_CorruptRecord in
    Ok (db, {| lease_record := record; lease_owner := new_owner;
               lease_generation := generation |})).

(** ** Listings *)

(** [ORDER BY next_attempt_at, swap_id] *)
Definition due_le (x y : string * ProcessRow) : Prop :=
  x.2.(row_schedule).(sch_next_attempt_at) < y.2.(row_schedule).(sch_next_attempt_at) ∨
  (x.2.(row_schedule).(sch_next_attempt_at) = y.2.(row_schedule).(sch_next_attempt_at) ∧
   String.leb x.1 y.1 = true).

#[global] Instance due_le_dec x y : Decision (due_le x y).
Proof. unfold due_le. apply _. Defined.

Definition list_due_maker_actor_ids (db : ActorDb) (now limit : Z)
    : result (list SwapId) MakerActorProcessError :=
  let? _ := reject_if ((limit <? 1) || (MAX_DUE_LIMIT <? limit)) InvalidSchedulingInput in
  let rows := merge_sort due_le
    (filter (λ kr : string * ProcessRow, due (time_to_sql now) kr.2 = true)
       (map_to_list db.(db_processes))) in
  collect_results (λ kr : string * ProcessRow, map_err (SwapId_new kr.1) (λ _, Actor_CorruptRecord))
    (take (Z.to_nat limit) rows).

Definition process_key_le (x y : string * ProcessRow) : Prop := String.leb x.1 y.1 = true.

#[global] Instance process_key_le_dec x y : Decision (process_key_le x y).
Proof. unfold process_key_le. apply _. Defined.

Definition list_records (db : ActorDb) (state : option MakerActorScheduleState)
    : result (list MakerActorProcessRecordV1) MakerActorProcessError :=
  collect_results (λ kr : string * ProcessRow, decode_record kr.1 kr.2)
    (merge_sort process_key_le
       (filter (λ kr : string * ProcessRow,
                  match state with
                  | Some state => kr.2.(row_schedule).(sch_state) ==? schedule_name state
                  | None => true
                  end = true) (map_to_list db.(db_processes)))).

Definition list_maker_actor_processes (db : ActorDb)
    : result (list MakerActorProcessRecordV1) MakerActorProcessError := list_records db None.

Definition list_leased_maker_actors (db : ActorDb)
    : result (list MakerActorLeaseV1) MakerActorProcessError :=
  let? records := list_records db (Some Schedule_Leased) in
  collect_results (λ record,
    let? owner := ok_or record.(process_lease_owner) Actor_CorruptRecord in
    Ok {| lease_record := record; lease_owner := owner;
          lease_generation := record.(process_lease_generation) |}) records.

Definition maker_actor_monitor_snapshot (db : ActorDb) (swap_id : SwapId)
    : result (option MakerActorMonitorSnapshotV1) MakerActorProcessError :=
  let? process := load_record db swap_id in
  match process with
  | None => Ok None
  | Some process =>
      let? progress := load_actor_progress db swap_id in
      let? manual_action := load_latest_manual_action db swap_id in
      let? _ := reject_if
        (match progress with
         | Some snapshot =>
             snapshot.(progress_actor_kind) !=? process.(process_manifest).(manifest_kind)
         | None => false
         end
         || match manual_action with
            | Some snapshot =>
                snapshot.(snapshot_swap_id) !=? process.(process_manifest).(manifest_swap_id)
            | None => false
            end) Actor_CorruptRecord in
      Ok (Some {| monitor_process := process; monitor_progress := progress;
                  monitor_manual_action := manual_action |})
  end.
End json.

(** ** Runs *)

(** The operations that write, and the writes of the rest of the store to the
    two tables it shares with them: a request of another operation, and a swap. *)
Inductive ActorCall :=
| Call_register (manifest : MakerActorManifestV1) (now : Z)
| Call_queue (request_id : RequestId) (swap_id : SwapId) (action : MakerActorManualAction)
    (expected_generation now : Z)
| Call_repin (request_id : RequestId) (swap_id : SwapId) (expected_generation : Z)
    (program_sha256 : bytes) (now : Z)
| Call_claim (swap_id : SwapId) (owner : MakerActorLeaseOwner) (now : Z)
| Call_claim_action (lease : MakerActorLeaseV1)
| Call_record_child (lease : MakerActorLeaseV1) (pid start_ticks : Z)
| Call_clear_child (lease : MakerActorLeaseV1) (pid start_ticks : Z)
| Call_resolve (lease : MakerActorLeaseV1) (resolution : MakerActorAttemptResolution)
    (progress : option MakerActorProgressObservationV1) (now : Z)
| Call_recover (lease : MakerActorLeaseV1) (held : result unit MakerActorProcessError)
    (new_owner : MakerActorLeaseOwner) (now : Z)
| Other_request (request_id : RequestId) (row : RequestRow)
| Other_swap (swap_id : SwapId) (state_json : string).

Inductive ActorOutcome :=
| Registered (was_replay : bool)
| Accepted_request (commit : MakerActorManualActionCommit)
| Granted (lease : MakerActorLeaseV1)
| Nothing_due
| Action_handed (action : option MakerActorManualActionSnapshot)
| Acknowledged
| Refused_call (e : MakerActorProcessError).

Definition outcome {A} (f : A → ActorOutcome) (r : ActorDb * result A MakerActorProcessError)
    : ActorDb * ActorOutcome :=
  (r.1, match r.2 with Ok a => f a | Err e => Refused_call e end).

Definition actor_call `{ActorJson} (db : ActorDb) (c : ActorCall) : ActorDb * ActorOutcome :=
  match c with
  | Call_register manifest now => outcome Registered (register_maker_actor db manifest now)
  | Call_queue rid swap action generation now =>
      outcome Accepted_request (queue_maker_actor_manual_action db rid swap action generation now)
  | Call_repin rid swap generation sha now =>
      outcome Accepted_request (repin_maker_actor_program db rid swap generation sha now)
  | Call_claim swap owner now =>
      outcome (λ lease, match lease with Some lease => Granted lease | None => Nothing_due end)
        (claim_maker_actor db swap owner now)
  | Call_claim_action lease =>
      outcome Action_handed (claim_maker_actor_manual_action db lease)
  | Call_record_child lease pid ticks =>
      outcome (λ _, Acknowledged) (record_maker_actor_child db lease pid ticks)
  | Call_clear_child lease pid ticks =>
      outcome (λ _, Acknowledged) (clear_maker_actor_child db lease pid ticks)
  | Call_resolve lease resolution progress now =>
      outcome (λ _, Acknowledged)
        match progress with
        | None => resolve_maker_actor_attempt db lease resolution now
        | Some progress =>
            resolve_maker_actor_attempt_with_progress db lease resolution progress now
        end
  | Call_recover lease held owner now =>
      outcome Granted (recover_abandoned_maker_actor db lease held owner now)
  | Other_request rid row =>
      outcome (λ _, Acknowledged) (immediate_transaction db (
        let? _ := reject_if (row.(req_operation) ==? ACTOR_REQUEST) InvalidSchedulingInput in
        let? db := insert_request db (RequestId_as_str rid) row in Ok (db, tt)))
  | Other_swap swap json =>
      ({| db_swaps := <[SwapId_as_str swap := json]> db.(db_swaps);
          db_requests := db.(db_requests); db_processes := db.(db_processes);
          db_actions := db.(db_actions); db_action_sequence := db.(db_action_sequence);
          db_progress := db.(db_progress) |}, Acknowledged)
  end.

Abbreviation actor_run := (run_calls actor_call).
