(* ===== verification/ActorFacts.v ===== *)
(** * What an operation on the actor tables changes

    Reading a row returns what it holds, and every operation leaves the database
    as it was or makes one [effect]. *)

From stdpp Require Import base gmap strings list numbers sorting.
From S2P Require Import Prelude SwapCore BridgeValues MakerMarket SqlTable StoreBase MakerConfiguration ActorProcess ActorScheduler.

Open Scope Z_scope.

(** ** Statements *)

Definition put_process (db : ActorDb) (k : string) (row : ProcessRow) : ActorDb :=
  with_processes db (<[k := row]> db.(db_processes)).

Definition put_action (db : ActorDb) (k : string) (row : ActionRow) : ActorDb :=
  with_actions db (<[k := row]> db.(db_actions)) db.(db_action_sequence).

Lemma run_sql_Ok {A} (o : option A) a : run_sql o = Ok a → o = Some a.
Proof. destruct o; cbn; naive_solver. Qed.

Lemma update_process_Ok db k where_ set db' n :
  update_process db k where_ set = Ok (db', n) →
  (n = 0 ∧ db' = db) ∨
  (n = 1 ∧ ∃ row, db.(db_processes) !! k = Some row ∧ where_ row = true ∧
     process_check k (set row) = true ∧ db' = put_process db k (set row)).
Proof.
  unfold update_process. intros Hu. apply result_bind_Ok in Hu as ([t m]&Ht&[= <- <-]).
  apply run_sql_Ok in Ht. unfold sql_update in Ht.
  destruct (db_processes db !! k) as [row|]; [|simplify_eq; left; by destruct db].
  destruct (where_ row) eqn:Hw; [|simplify_eq; left; by destruct db].
  destruct (process_check k (set row)) eqn:Hc; [|done]. simplify_eq. right. eauto 6.
Qed.

Lemma update_process_one db k where_ set db' n (e : MakerActorProcessError) u :
  update_process db k where_ set = Ok (db', n) → reject_if (negb (n =? 1)) e = Ok u →
  ∃ row, db.(db_processes) !! k = Some row ∧ where_ row = true ∧
    process_check k (set row) = true ∧ db' = put_process db k (set row).
Proof.
  intros Hu Hn. apply reject_if_Ok in Hn. bool_props.
  apply update_process_Ok in Hu as [[-> _]|[_ Hu]]; [done|exact Hu].
Qed.

Lemma update_one_action_Ok db rid where_ set db' :
  update_one_action db rid where_ set = Ok db' →
  ∃ row, db.(db_actions) !! RequestId_as_str rid = Some row ∧ where_ row = true ∧
    action_check (RequestId_as_str rid) (set row) = true ∧
    db' = put_action db (RequestId_as_str rid) (set row).
Proof.
  unfold update_one_action, update_action. intros Hu.
  apply result_bind_Ok in Hu as ([d m]&Ht&Hu). inv_ok Hu. subst d.
  apply result_bind_Ok in Ht as ([t m']&Ht&[= <- <-]). apply run_sql_Ok in Ht.
  apply reject_if_Ok in Hx. bool_props. subst m'.
  apply sql_update_Some_1 in Ht as (row&Hrow&Hw&Hc&->). eauto 6.
Qed.

(** ** Reading rows *)

Lemma transpose_Ok {A B E} (f : A → result B E) o r :
  transpose f o = Ok r →
  (o = None ∧ r = None) ∨ (∃ a b, o = Some a ∧ r = Some b ∧ f a = Ok b).
Proof.
  destruct o as [a|]; cbn; [|intros [= <-]; by left].
  destruct (f a) as [b|] eqn:Hf; cbn; [|done]. intros [= <-]. right. eauto.
Qed.

Lemma decode_owner_Ok o r : decode_owner o = Ok r → o = owner_bytes <$> r.
Proof.
  unfold decode_owner. intros [[-> ->]|(b&ow&->&->&Ho)]%transpose_Ok; [done|].
  inv_ok Ho. unfold MakerActorLeaseOwner_new in Ho. destruct (b ==? zero16); [done|].
  by injection Ho as <-.
Qed.

Lemma decode_u64_Ok v w : decode_u64 v = Ok w → w = v.
Proof. unfold decode_u64. destruct (v <? 0); [done|]. by intros [= ->]. Qed.

Lemma decode_u64s_Ok o r : transpose decode_u64 o = Ok r → r = o.
Proof.
  intros [[-> ->]|(a&b&->&->&Hb)]%transpose_Ok; [done|]. by rewrite (decode_u64_Ok _ _ Hb).
Qed.

(** The tests of a parser, one name after the other. *)
Ltac parse_cases s :=
  repeat match goal with |- context [bool_decide (s = ?v)] =>
    destruct (decide (s = v)) as [->|?]; [cbn; by intros [= <-]|];
    rewrite (bool_decide_eq_false_2 (s = v)) by done end; done.

Lemma schedule_parse_Ok s st : schedule_parse s = Ok st → s = schedule_name st.
Proof. unfold schedule_parse. parse_cases s. Qed.

Lemma action_state_parse_Ok s st : action_state_parse s = Ok st → s = action_state_name st.
Proof. unfold action_state_parse. parse_cases s. Qed.

Lemma action_parse_Ok s a : action_parse s = Ok a → s = action_name a.
Proof. unfold action_parse. parse_cases s. Qed.

Lemma kind_parse_Ok s k : kind_parse s = Ok k → s = kind_name k.
Proof. unfold kind_parse. parse_cases s. Qed.

Lemma schedule_name_inj s t : schedule_name s = schedule_name t → s = t.
Proof. by destruct s, t. Qed.
Lemma action_state_name_inj s t : action_state_name s = action_state_name t → s = t.
Proof. by destruct s, t. Qed.
Lemma owner_bytes_inj a b : owner_bytes a = owner_bytes b → a = b.
Proof. destruct a, b. cbn. by intros ->. Qed.
Lemma SwapId_as_str_inj a b : SwapId_as_str a = SwapId_as_str b → a = b.
Proof. destruct a, b. cbn. by intros ->. Qed.
Lemma RequestId_as_str_inj a b : RequestId_as_str a = RequestId_as_str b → a = b.
Proof. destruct a, b. cbn. by intros ->. Qed.

Lemma swap_id_Ok {E} s id (e : E) :
  map_err (SwapId_new s) (λ _, e) = Ok id → s = SwapId_as_str id.
Proof. unfold SwapId_new. destruct (bad_identifier s); [done|]. by intros [= <-]. Qed.

Lemma request_id_Ok {E} s id (e : E) :
  map_err (RequestId_new s) (λ _, e) = Ok id → s = RequestId_as_str id.
Proof. unfold RequestId_new. destruct (safe_identifier s); [|done]. by intros [= <-]. Qed.

(** The record of a row. *)
Record record_of (k : string) (row : ProcessRow) (r : MakerActorProcessRecordV1) : Prop := {
  of_swap : k = SwapId_as_str r.(process_manifest).(manifest_swap_id);
  of_kind : row.(row_pin).(pin_actor_kind) = kind_name r.(process_manifest).(manifest_kind);
  of_state : row.(row_schedule).(sch_state) = schedule_name r.(process_schedule_state);
  of_generation : row.(row_schedule).(sch_generation) = r.(process_lease_generation);
  of_owner : row.(row_schedule).(sch_owner) = owner_bytes <$> r.(process_lease_owner)
}.

Lemma decode_record_Ok k row r : decode_record k row = Ok r → record_of k row r.
Proof.
  unfold decode_record. intros Hr. inv_ok Hr. subst r.
  match goal with H : MakerActorManifestV1_new _ _ _ _ _ _ _ = Ok _ |- _ =>
    unfold MakerActorManifestV1_new in H; inv_ok H; subst end.
  split; cbn.
  - by eapply swap_id_Ok.
  - by apply kind_parse_Ok.
  - by apply schedule_parse_Ok.
  - symmetry. by apply decode_u64_Ok.
  - by apply decode_owner_Ok.
Qed.

Lemma load_record_Some db swap r :
  load_record db swap = Ok (Some r) →
  ∃ row, db.(db_processes) !! SwapId_as_str swap = Some row ∧
    record_of (SwapId_as_str swap) row r.
Proof.
  unfold load_record. intros [[_ [=]]|(row&r'&Hrow&[= <-]&Hd)]%transpose_Ok.
  exists row. split; [done|by apply decode_record_Ok].
Qed.

Lemma load_record_None db swap :
  load_record db swap = Ok None → db.(db_processes) !! SwapId_as_str swap = None.
Proof. unfold load_record. by intros [[? _]|(row&r'&_&[=]&_)]%transpose_Ok. Qed.

Record snapshot_of (k : string) (row : ActionRow) (a : MakerActorManualActionSnapshot) : Prop := {
  of_request : k = RequestId_as_str a.(snapshot_request_id);
  of_action_swap : row.(act_swap_id) = SwapId_as_str a.(snapshot_swap_id);
  of_action : row.(act_action) = action_name a.(snapshot_action);
  of_action_state : row.(act_state) = action_state_name a.(snapshot_action_state);
  of_requested : row.(act_requested_after) = a.(snapshot_requested_after_generation);
  of_action_owner : row.(act_owner) = owner_bytes <$> a.(snapshot_lease_owner);
  of_action_generation : row.(act_generation) = a.(snapshot_lease_generation)
}.

Lemma decode_manual_action_Ok k row a : decode_manual_action k row = Ok a → snapshot_of k row a.
Proof.
  unfold decode_manual_action. intros Ha. inv_ok Ha. subst a. split; cbn.
  - by eapply request_id_Ok.
  - by eapply swap_id_Ok.
  - by apply action_parse_Ok.
  - by apply action_state_parse_Ok.
  - symmetry. by apply decode_u64_Ok.
  - by apply decode_owner_Ok.
  - symmetry. by apply decode_u64s_Ok.
Qed.

(** ** Selecting an action *)

Lemma fold_later l x :
  fold_left later l x ∈ x :: l ∧ ∀ y, y ∈ x :: l → y.2.(act_sequence) ≤ (fold_left later l x).2.(act_sequence).
Proof.
  revert x. induction l as [|z l IH]; intros x; cbn.
  - split; [set_solver|]. intros y ->%list_elem_of_singleton. done.
  - destruct (IH (later x z)) as [Hin Hmax].
    assert (Hxz : later x z = x ∧ z.2.(act_sequence) ≤ x.2.(act_sequence) ∨
                  later x z = z ∧ x.2.(act_sequence) ≤ z.2.(act_sequence)).
    { unfold later. destruct (Z.ltb_spec (act_sequence x.2) (act_sequence z.2)); [right|left];
        split; (done || lia). }
    split; [destruct Hxz as [[-> _]|[-> _]]; set_solver|].
    intros y Hy. pose proof (Hmax (later x z) ltac:(set_solver)) as Hl.
    apply elem_of_cons in Hy as [->|[->|Hy]%elem_of_cons];
      [destruct Hxz as [[E ?]|[E ?]]; rewrite E in Hl |- *; lia..|].
    apply Hmax. set_solver.
Qed.

Lemma select_action_Some db p k row :
  select_action db p = Some (k, row) →
  db.(db_actions) !! k = Some row ∧ p row = true ∧
  ∀ k' row', db.(db_actions) !! k' = Some row' → p row' = true →
    row'.(act_sequence) ≤ row.(act_sequence).
Proof.
  unfold select_action, last_action.
  destruct (filter _ _) as [|x l] eqn:Hf; [done|]. intros [= Hlast].
  destruct (fold_later l x) as [Hin Hmax]. rewrite Hlast, <- Hf in Hin. rewrite Hlast in Hmax.
  apply list_elem_of_filter in Hin as [Hp Hin%elem_of_map_to_list]. split_and!; [done..|].
  intros k' row' Hk' Hp'. apply (Hmax (k', row')). rewrite <- Hf.
  apply list_elem_of_filter. split; [done|]. by apply elem_of_map_to_list.
Qed.

Lemma select_action_None db p :
  select_action db p = None → ∀ k row, db.(db_actions) !! k = Some row → p row = false.
Proof.
  unfold select_action, last_action.
  destruct (filter _ _) as [|x l] eqn:Hf; [|done]. intros _ k row Hk.
  destruct (p row) eqn:Hp; [|done]. exfalso.
  assert (Hin : (k, row) ∈ filter (λ kr : string * ActionRow, p kr.2 = true)
    (map_to_list (db_actions db))).
  { apply list_elem_of_filter. split; [done|]. by apply elem_of_map_to_list. }
  rewrite Hf in Hin. by apply elem_of_nil in Hin.
Qed.

(** The swap has no open action, or the selected one. *)
Definition no_open (db : ActorDb) (swap : string) : Prop :=
  ∀ k row, db.(db_actions) !! k = Some row → row.(act_swap_id) = swap → action_open row = false.

Definition open_action (db : ActorDb) (swap : string) (k : string) (row : ActionRow) : Prop :=
  db.(db_actions) !! k = Some row ∧ row.(act_swap_id) = swap ∧ action_open row = true.

Lemma load_open_Ok db swap r :
  load_open_manual_action db swap = Ok r →
  (r = None ∧ no_open db (SwapId_as_str swap)) ∨
  (∃ k row a, r = Some a ∧ open_action db (SwapId_as_str swap) k row ∧ snapshot_of k row a).
Proof.
  unfold load_open_manual_action.
  intros [[Hs ->]|([k row]&a&Hs&->&Ha)]%transpose_Ok; [left|right].
  - split; [done|]. intros k row Hk Hsw. apply (select_action_None _ _ Hs) in Hk.
    rewrite bool_decide_eq_true_2 in Hk by done. by destruct (action_open row).
  - apply select_action_Some in Hs as (Hk&Hp&_). bool_props.
    exists k, row, a. split_and!; try done. by apply decode_manual_action_Ok.
Qed.

(** ** Effects *)

Definition put_request (db : ActorDb) (k json result : string) : ActorDb :=
  with_requests db (<[k := {| req_operation := ACTOR_REQUEST; req_payload_version := 1;
                              req_request_json := json; req_result_json := result |}]>
                      db.(db_requests)).

Definition add_action (db : ActorDb) (k : string) (row : ActionRow) : ActorDb :=
  with_actions db (<[k := row]> db.(db_actions)) (db.(db_action_sequence) + 1).

Definition put_progress (db : ActorDb) (k : string) (row : ProgressRow) : ActorDb :=
  with_progress db (<[k := row]> db.(db_progress)).

Section effects.
Context `{ActorJson}.

(** What becomes of the open action of a swap when its lease ends. *)
Inductive action_end (lease : MakerActorLeaseV1) (state : MakerActorManualActionState) (now : Z)
    (db : ActorDb) : ActorDb → Prop :=
| end_none : no_open db (SwapId_as_str (lease_swap lease)) → action_end lease state now db db
| end_wait k row :
    open_action db (SwapId_as_str (lease_swap lease)) k row → row.(act_state) = "queued" →
    row.(act_requested_after) = lease.(lease_generation) → state = Action_Queued →
    action_end lease state now db db
| end_fail k row :
    open_action db (SwapId_as_str (lease_swap lease)) k row → row.(act_state) = "queued" →
    row.(act_requested_after) = lease.(lease_generation) → state = Action_Failed →
    action_check k (action_failed now row) = true →
    action_end lease state now db (put_action db k (action_failed now row))
| end_done k row :
    open_action db (SwapId_as_str (lease_swap lease)) k row →
    action_fenced lease.(lease_owner) lease.(lease_generation) row = true →
    action_check k (action_with (action_state_name state) None None now row) = true →
    action_end lease state now db
      (put_action db k (action_with (action_state_name state) None None now row)).

(** What becomes of it when its lease is taken over. *)
Inductive action_transfer (lease : MakerActorLeaseV1) (owner : MakerActorLeaseOwner) (now : Z)
    (db : ActorDb) : ActorDb → Prop :=
| transfer_none :
    no_open db (SwapId_as_str (lease_swap lease)) → action_transfer lease owner now db db
| transfer_queued k row :
    open_action db (SwapId_as_str (lease_swap lease)) k row → row.(act_state) = "queued" →
    action_transfer lease owner now db db
| transfer_leased k row :
    open_action db (SwapId_as_str (lease_swap lease)) k row →
    action_fenced lease.(lease_owner) lease.(lease_generation) row = true →
    let row' := action_with row.(act_state) (Some owner) (Some (lease.(lease_generation) + 1))
                  now row in
    action_check k row' = true → action_transfer lease owner now db (put_action db k row').

Inductive progress_put (lease : MakerActorLeaseV1) (now : Z) (db : ActorDb)
    : option MakerActorProgressObservationV1 → ActorDb → Prop :=
| progress_none : progress_put lease now db None db
| progress_some p row :
    progress_validate p = Ok tt →
    row.(prog_payload_json) = progress_to_json p →
    row.(prog_actor_kind) = kind_name lease.(lease_record).(process_manifest).(manifest_kind) →
    row.(prog_source_generation) = lease.(lease_generation) →
    0 < row.(prog_source_generation) → 0 ≤ row.(prog_observed_at) →
    match db.(db_progress) !! SwapId_as_str (lease_swap lease) with
    | Some old => old.(prog_source_generation) ≤ row.(prog_source_generation) ∧
                  row.(prog_payload_version) = old.(prog_payload_version)
    | None => row.(prog_payload_version) = 1
    end →
    progress_put lease now db (Some p)
      (put_progress db (SwapId_as_str (lease_swap lease)) row).

Inductive effect (db : ActorDb) : ActorCall → ActorOutcome → ActorDb → Prop :=
| E_register manifest now :
    let k := SwapId_as_str manifest.(manifest_swap_id) in
    let row := registered_row manifest (time_to_sql now) in
    db.(db_processes) !! k = None → process_check k row = true →
    effect db (Call_register manifest now) (Registered false) (put_process db k row)
| E_queue rid swap action generation now row row' :
    let k := SwapId_as_str swap in
    let r := RequestId_as_str rid in
    let arow := queued_action swap action generation (time_to_sql now)
                  (db.(db_action_sequence) + 1) in
    db.(db_requests) !! r = None → db.(db_actions) !! r = None →
    db.(db_processes) !! k = Some row →
    row.(row_schedule).(sch_generation) = generation →
    row.(row_schedule).(sch_state) ≠ "terminal" → no_open db k → action_check r arow = true →
    (row.(row_schedule).(sch_state) = "leased" ∧ row' = row ∨
     requeueable row = true ∧ row' = requeued (time_to_sql now) row ∧
     process_check k row' = true) →
    effect db (Call_queue rid swap action generation now)
      (Accepted_request {| commit_requested_after_generation := generation;
                           commit_was_replay := false |})
      (put_request (put_process (add_action db r arow) k row') r
         (manual_request_to_json swap action generation)
         (manual_result_to_json {| stored_action_schema_version := 1;
                                   stored_requested_after_generation := generation |}))
| E_repin rid swap generation sha now row :
    let k := SwapId_as_str swap in
    let row' := repinned sha (time_to_sql now) row in
    db.(db_requests) !! RequestId_as_str rid = None →
    db.(db_processes) !! k = Some row → row.(row_schedule).(sch_generation) = generation →
    requeueable row = true → process_check k row' = true →
    effect db (Call_repin rid swap generation sha now)
      (Accepted_request {| commit_requested_after_generation := generation;
                           commit_was_replay := false |})
      (put_request (put_process db k row') (RequestId_as_str rid)
         (repin_request_to_json swap generation sha) "{}")
| E_claim swap owner now row record :
    let k := SwapId_as_str swap in
    let row' := leased_to owner (time_to_sql now) row in
    db.(db_processes) !! k = Some row → due (time_to_sql now) row = true →
    process_check k row' = true → record_of k row' record →
    effect db (Call_claim swap owner now)
      (Granted {| lease_record := record; lease_owner := owner;
                  lease_generation := row'.(row_schedule).(sch_generation) |})
      (put_process db k row')
| E_claim_action lease row r arow a :
    let k := SwapId_as_str (lease_swap lease) in
    let arow' := action_with "leased" (Some lease.(lease_owner)) (Some lease.(lease_generation))
                   arow.(act_updated_at) arow in
    db.(db_processes) !! k = Some row →
    fenced lease.(lease_owner) lease.(lease_generation) row = true →
    open_action db k r arow → arow.(act_state) = "queued" →
    arow.(act_requested_after) < lease.(lease_generation) →
    action_check r arow' = true → snapshot_of r arow' a →
    effect db (Call_claim_action lease) (Action_handed (Some a)) (put_action db r arow')
| E_record_child lease pid ticks row :
    let k := SwapId_as_str (lease_swap lease) in
    let row' := with_child (Some (pid, time_to_sql ticks)) row in
    db.(db_processes) !! k = Some row →
    fenced lease.(lease_owner) lease.(lease_generation) row = true →
    process_check k row' = true →
    effect db (Call_record_child lease pid ticks) Acknowledged (put_process db k row')
| E_clear_child lease pid ticks row :
    let k := SwapId_as_str (lease_swap lease) in
    let row' := with_child None row in
    db.(db_processes) !! k = Some row →
    fenced lease.(lease_owner) lease.(lease_generation) row = true →
    process_check k row' = true →
    effect db (Call_clear_child lease pid ticks) Acknowledged (put_process db k row')
| E_resolve lease resolution progress now row state next failure db1 db2 :
    let k := SwapId_as_str (lease_swap lease) in
    let row' := resolved state (time_to_sql next) failure (time_to_sql now) row in
    resolution_fields resolution = Ok (state, next, failure) →
    db.(db_processes) !! k = Some row →
    fenced lease.(lease_owner) lease.(lease_generation) row = true →
    process_check k row' = true →
    action_end lease (manual_state_of resolution) (time_to_sql now) (put_process db k row') db1 →
    progress_put lease (time_to_sql now) db1 progress db2 →
    effect db (Call_resolve lease resolution progress now) Acknowledged db2
| E_recover lease held owner now row record db1 :
    let k := SwapId_as_str (lease_swap lease) in
    let row' := recovered owner (lease.(lease_generation) + 1) (time_to_sql now) row in
    held = Ok tt → db.(db_processes) !! k = Some row →
    fenced lease.(lease_owner) lease.(lease_generation) row = true →
    process_check k row' = true →
    action_transfer lease owner (time_to_sql now) (put_process db k row') db1 →
    record_of k row' record →
    effect db (Call_recover lease held owner now)
      (Granted {| lease_record := record; lease_owner := owner;
                  lease_generation := lease.(lease_generation) + 1 |}) db1
| E_request rid row :
    row.(req_operation) ≠ ACTOR_REQUEST → db.(db_requests) !! RequestId_as_str rid = None →
    effect db (Other_request rid row) Acknowledged
      (with_requests db (<[RequestId_as_str rid := row]> db.(db_requests)))
| E_swap swap json :
    effect db (Other_swap swap json) Acknowledged
      {| db_swaps := <[SwapId_as_str swap := json]> db.(db_swaps);
         db_requests := db.(db_requests); db_processes := db.(db_processes);
         db_actions := db.(db_actions); db_action_sequence := db.(db_action_sequence);
         db_progress := db.(db_progress) |}.

(** ** Every operation makes an effect or none *)

Lemma generation_to_sql_Ok g v : generation_to_sql g = Ok v → v = g.
Proof using Type. unfold generation_to_sql. destruct (i64_max <? g); [done|]. by intros [= ->]. Qed.

Lemma insert_request_Ok db rid json res db' :
  insert_request db rid {| req_operation := ACTOR_REQUEST; req_payload_version := 1;
                           req_request_json := json; req_result_json := res |} = Ok db' →
  db.(db_requests) !! rid = None ∧ db' = put_request db rid json res.
Proof using Type.
  unfold insert_request. intros Hi. inv_ok Hi. apply run_sql_Ok, sql_insert_Some in Hx as (->&?&_).
  by subst db'.
Qed.

Lemma replay_None db rid json :
  replay_manual_action_request db rid json = Ok None →
  db.(db_requests) !! RequestId_as_str rid = None.
Proof using Type.
  unfold replay_manual_action_request. destruct (db_requests db !! _); [|done].
  intros Hr. by inv_ok Hr.
Qed.

Lemma register_effect db manifest now db' r :
  register_maker_actor_in_transaction db manifest now = Ok (db', r) →
  db' = db ∨ effect db (Call_register manifest now) (Registered r) db'.
Proof using Type.
  unfold register_maker_actor_in_transaction. intros Hr. inv_ok Hr.
  destruct x0 as [existing|].
  - destruct (manifest_eq _ _); [|done]. injection Hr as <- <-. by left.
  - inv_ok Hr. injection Hr as -> <-. right. unfold insert_process in Hx1. inv_ok Hx1. subst db'.
    apply run_sql_Ok, sql_insert_Some in Hx3 as (->&?&?&_). by apply E_register.
Qed.

Lemma insert_action_Ok db k row db' :
  insert_action db k row = Ok db' →
  db.(db_actions) !! k = None ∧ action_check k (row (db.(db_action_sequence) + 1)) = true ∧
  db' = add_action db k (row (db.(db_action_sequence) + 1)).
Proof using Type.
  unfold insert_action. intros Hi. inv_ok Hi. subst db'.
  by apply run_sql_Ok, sql_insert_Some in Hx0 as (->&?&?&_).
Qed.

Lemma put_same_process db k row : db.(db_processes) !! k = Some row → put_process db k row = db.
Proof using Type.
  intros Hk. unfold put_process, with_processes. rewrite insert_id by done. by destruct db.
Qed.

Lemma queue_effect db rid swap action generation now db' r :
  queue_maker_actor_manual_action db rid swap action generation now = (db', Ok r) →
  db' = db ∧ is_Some (db.(db_requests) !! RequestId_as_str rid) ∨ effect db (Call_queue rid swap action generation now) (Accepted_request r) db'.
Proof using Type.
  unfold queue_maker_actor_manual_action, immediate_transaction.
  destruct (result_bind _ _) as [[d c]|] eqn:Hq; [|done]. intros [= <- <-].
  inv_ok Hq. destruct x as [commit|]; [injection Hq as <- <-|].
  { left. split; [done|]. unfold replay_manual_action_request in Hx.
    destruct (db_requests db !! _); [eauto|done]. }
  right. apply replay_None in Hx. inv_ok Hq. injection Hq as <- <-.
  destruct x as [record|]; [|done]. injection Hx1 as <-.
  apply load_record_Some in Hx0 as (row&Hrow&Hof).
  apply reject_if_Ok in Hx2, Hx3, Hx5. bool_props.
  apply generation_to_sql_Ok in Hx6 as ->.
  apply load_open_Ok in Hx4 as [[-> Hopen]|(?&?&?&->&_)]; [|done].
  apply insert_action_Ok in Hx7 as (Hact&Hck&->).
  apply insert_request_Ok in Hx9 as [_ ->].
  pose proof (of_generation _ _ _ Hof) as Hgen. pose proof (of_state _ _ _ Hof) as Hst.
  assert (Hnt : sch_state (row_schedule row) ≠ "terminal")
    by (rewrite Hst; by destruct (process_schedule_state record)).
  case_bool_decide as Hl; cbn [negb] in Hx8.
  - injection Hx8 as <-. rewrite <- (put_same_process (add_action _ _ _) (SwapId_as_str swap) row) by done.
    apply E_queue with row; [done|done|done|congruence|done|done|done|].
    left. split; [|done]. by rewrite Hst, Hl.
  - apply result_bind_Ok in Hx8 as ([d n]&Hu&Hx8). inv_ok Hx8. subst x7.
    destruct (update_process_one _ _ _ _ _ _ _ _ Hu Hx0) as (row1&Hr1&Hw&Hpc&->).
    cbn in Hr1. rewrite Hrow in Hr1. injection Hr1 as <-. bool_props.
    apply E_queue with row; [done|done|done|congruence|done|done|done|]. right. by split_and!.
Qed.

Lemma repin_effect db rid swap generation sha now db' r :
  repin_maker_actor_program db rid swap generation sha now = (db', Ok r) →
  db' = db ∨ effect db (Call_repin rid swap generation sha now) (Accepted_request r) db'.
Proof using Type.
  unfold repin_maker_actor_program, immediate_transaction.
  destruct (db_requests db !! _) as [prior|] eqn:Hreq.
  { cbn. destruct (_ || _); cbn; [done|]. intros [= <- <-]. by left. }
  destruct (result_bind _ _) as [[d c]|] eqn:Hq; [|done]. intros [= <- <-]. right.
  inv_ok Hq. destruct x as [record|]; [|done]. injection Hx0 as <-.
  apply load_record_Some in Hx as (row&Hrow&Hof).
  injection Hq as <- <-. apply reject_if_Ok in Hx1. bool_props.
  destruct (update_process_one _ _ _ _ _ _ _ _ Hx2 Hx3) as (row1&Hr1&Hw&Hpc&->).
  rewrite Hrow in Hr1. injection Hr1 as <-.
  apply insert_request_Ok in Hx4 as [_ ->].
  apply E_repin; try done. rewrite (of_generation _ _ _ Hof). congruence.
Qed.

Lemma claim_effect db swap owner now db' lease :
  claim_maker_actor db swap owner now = (db', Ok (Some lease)) →
  effect db (Call_claim swap owner now) (Granted lease) db'.
Proof using Type.
  unfold claim_maker_actor, immediate_transaction.
  destruct (result_bind _ _) as [[d c]|] eqn:Hq; [|done]. intros [= <- ->].
  apply result_bind_Ok in Hq as ([d1 n]&Hu&Hq).
  apply update_process_Ok in Hu as [[-> ->]|(->&row&Hrow&Hw&Hpc&->)]; [done|].
  cbn [Z.eqb] in Hq. inv_ok Hq. destruct x as [record|]; [|done]. injection Hx0 as <-.
  injection Hq as <- <-. apply load_record_Some in Hx as (row1&Hr1&Hof).
  cbn in Hr1. rewrite lookup_insert_eq in Hr1. injection Hr1 as <-.
  rewrite <- (of_generation _ _ _ Hof). by apply E_claim.
Qed.

Lemma claim_unclaimed db swap owner now db' :
  claim_maker_actor db swap owner now = (db', Ok None) → db' = db.
Proof using Type.
  unfold claim_maker_actor, immediate_transaction.
  destruct (result_bind _ _) as [[d c]|] eqn:Hq; [|done]. intros [= <- ->].
  apply result_bind_Ok in Hq as ([d1 n]&Hu&Hq).
  apply update_process_Ok in Hu as [[-> ->]|(->&_)]; [by injection Hq as <-|].
  cbn [Z.eqb] in Hq. by inv_ok Hq.
Qed.

Lemma record_fenced k row r owner generation :
  record_of k row r → r.(process_schedule_state) = Schedule_Leased →
  r.(process_lease_owner) = Some owner → r.(process_lease_generation) = generation →
  fenced owner generation row = true.
Proof using Type.
  intros Hof Hs Ho Hg. unfold fenced.
  rewrite (of_state _ _ _ Hof), (of_owner _ _ _ Hof), (of_generation _ _ _ Hof), Hs, Ho, Hg.
  by rewrite !bool_decide_eq_true_2, Z.eqb_refl by done.
Qed.

Lemma snapshot_fenced k row a lease :
  snapshot_of k row a → a.(snapshot_action_state) = Action_Leased → held_by lease a = true →
  action_fenced lease.(lease_owner) lease.(lease_generation) row = true.
Proof using Type.
  intros Hof Hs Hh. unfold held_by in Hh. bool_props. unfold action_fenced.
  rewrite (of_action_state _ _ _ Hof), (of_action_owner _ _ _ Hof),
    (of_action_generation _ _ _ Hof), Hs.
  match goal with H : snapshot_lease_owner a = _ |- _ => rewrite H end.
  match goal with H : snapshot_lease_generation a = _ |- _ => rewrite H end.
  by rewrite !bool_decide_eq_true_2 by done.
Qed.

Lemma load_by_request_Some db rid a :
  load_manual_action_by_request db rid = Ok (Some a) →
  ∃ row, db.(db_actions) !! RequestId_as_str rid = Some row ∧
    snapshot_of (RequestId_as_str rid) row a.
Proof using Type.
  unfold load_manual_action_by_request. intros [[_ [=]]|(row&a'&Hrow&[= <-]&Hd)]%transpose_Ok.
  exists row. split; [done|by apply decode_manual_action_Ok].
Qed.

Lemma claim_action_effect db lease db' r :
  claim_maker_actor_manual_action db lease = (db', Ok r) →
  db' = db ∨ effect db (Call_claim_action lease) (Action_handed r) db'.
Proof using Type.
  unfold claim_maker_actor_manual_action, immediate_transaction.
  destruct (result_bind _ _) as [[d c]|] eqn:Hq; [|done]. intros [= <- <-].
  inv_ok Hq. destruct x as [record|]; [|done]. injection Hx0 as <-.
  apply load_record_Some in Hx as (row&Hrow&Hof). apply reject_if_Ok in Hx1. bool_props.
  pose proof (record_fenced _ _ _ _ _ Hof ltac:(done) ltac:(done) ltac:(done)) as Hfence.
  apply load_open_Ok in Hx2 as [[-> _]|(k&arow&action&->&Hopen&Hsnap)];
    [injection Hq as <- <-; by left|].
  destruct (snapshot_action_state action) eqn:Hst; [|..|done|done].
  - destruct (Z.ltb_spec (lease_generation lease) (snapshot_requested_after_generation action));
      [done|].
    destruct (Z.eqb_spec (lease_generation lease) (snapshot_requested_after_generation action));
      [injection Hq as <- <-; by left|right].
    inv_ok Hq. injection Hq as <- <-. destruct x2 as [leased|]; [|done]. injection Hx2 as <-.
    apply generation_to_sql_Ok in Hx as ->.
    apply update_one_action_Ok in Hx0 as (arow1&Ha1&Hw&Hck&->).
    rewrite <- (of_request _ _ _ Hsnap) in *. destruct Hopen as (Hk&Hopen).
    rewrite Hk in Ha1. injection Ha1 as <-.
    apply load_by_request_Some in Hx1 as (arow2&Ha2&Hof2).
    rewrite <- (of_request _ _ _ Hsnap) in *. cbn in Ha2. rewrite lookup_insert_eq in Ha2.
    injection Ha2 as <-. apply bool_decide_eq_true in Hw.
    apply E_claim_action with row; try done. rewrite (of_requested _ _ _ Hsnap). lia.
  - destruct (held_by lease action); [|done]. inv_ok Hq. injection Hq as <- <-. by left.
Qed.

Lemma set_child_effect db lease where_ child db' u :
  set_maker_actor_child db lease where_ child = (db', Ok u) →
  ∃ row, db.(db_processes) !! SwapId_as_str (lease_swap lease) = Some row ∧
    fenced lease.(lease_owner) lease.(lease_generation) row = true ∧
    where_ row.(row_schedule) = true ∧
    process_check (SwapId_as_str (lease_swap lease)) (with_child child row) = true ∧
    db' = put_process db (SwapId_as_str (lease_swap lease)) (with_child child row).
Proof using Type.
  unfold set_maker_actor_child, immediate_transaction.
  destruct (result_bind _ _) as [[d c]|] eqn:Hq; [|done]. intros [= <- _].
  inv_ok Hq. apply generation_to_sql_Ok in Hx as ->. injection Hq as <-.
  apply update_process_Ok in Hx0 as [[-> _]|(_&row&Hrow&Hw&Hpc&->)]; [done|]. bool_props. eauto 7.
Qed.

Lemma resolve_action_end db lease state action now db' k row :
  open_action db (SwapId_as_str (lease_swap lease)) k row → snapshot_of k row action →
  resolve_action db lease lease.(lease_generation) state action now = Ok db' →
  action_end lease state now db db'.
Proof using Type.
  intros Hopen Hof Hr. unfold resolve_action in Hr. pose proof Hopen as (Hk&_).
  pose proof (of_action_state _ _ _ Hof) as Hs.
  destruct (snapshot_action_state action) eqn:Hst; [|..|done|done].
  - destruct (Z.eqb_spec (snapshot_requested_after_generation action) (lease_generation lease))
      as [Hreq|]; [|done]. rewrite <- (of_requested _ _ _ Hof) in Hreq.
    destruct state; try done; [injection Hr as <-; by eapply end_wait|].
    apply update_one_action_Ok in Hr as (row1&Hr1&_&Hck&->).
    rewrite <- (of_request _ _ _ Hof) in *. rewrite Hk in Hr1. injection Hr1 as <-.
    by apply end_fail.
  - destruct (held_by lease action) eqn:Hh; [|done].
    apply update_one_action_Ok in Hr as (row1&Hr1&_&Hck&->).
    rewrite <- (of_request _ _ _ Hof) in *. rewrite Hk in Hr1. injection Hr1 as <-.
    apply end_done; [done|by eapply snapshot_fenced|done].
Qed.

Lemma upsert_progress_put db lease progress now db' :
  progress_validate progress = Ok tt → upsert_actor_progress db lease progress now = Ok db' →
  progress_put lease (time_to_sql now) db (Some progress) db'.
Proof using Type.
  intros Hv. unfold upsert_actor_progress. intros Hu. inv_ok Hu.
  apply generation_to_sql_Ok in Hx as ->. apply reject_if_Ok in Hx0.
  unfold progress_check in Hx0. cbn in Hx0. bool_props.
  destruct (db_progress db !! _) as [old|] eqn:Hold.
  - destruct (Z.leb_spec (prog_source_generation old) (lease_generation lease)); [|done].
    injection Hu as <-. apply progress_some; cbn; try done. by rewrite Hold.
  - injection Hu as <-. apply progress_some; cbn; try done. by rewrite Hold.
Qed.

Lemma resolve_effect db lease resolution progress now db' u :
  match progress with Some p => progress_validate p = Ok tt | None => True end →
  resolve_maker_actor_attempt_inner db lease resolution progress now = (db', Ok u) →
  effect db (Call_resolve lease resolution progress now) Acknowledged db'.
Proof using Type.
  intros Hp. unfold resolve_maker_actor_attempt_inner, immediate_transaction.
  destruct (result_bind _ _) as [[d c]|] eqn:Hq; [|done]. intros [= <- _].
  apply result_bind_Ok in Hq as ([[state next] failure]&Hf&Hq). inv_ok Hq.
  injection Hq as <- _. apply generation_to_sql_Ok in Hx as ->.
  destruct (update_process_one _ _ _ _ _ _ _ _ Hx0 Hx1) as (row&Hrow&Hw&Hpc&->).
  eapply E_resolve with (db1 := x2); try done.
  - apply load_open_Ok in Hx2 as [[-> Hn]|(k&arow&a&->&Ho&Hof)].
    + injection Hx3 as <-. by apply end_none.
    + by apply (resolve_action_end _ _ _ a _ _ k arow).
  - destruct progress as [p|]; [by apply upsert_progress_put|injection Hx4 as <-; constructor].
Qed.

Lemma recover_effect db lease held owner now db' lease' :
  recover_abandoned_maker_actor db lease held owner now = (db', Ok lease') →
  effect db (Call_recover lease held owner now) (Granted lease') db'.
Proof using Type.
  unfold recover_abandoned_maker_actor, immediate_transaction.
  destruct (result_bind _ _) as [[d c]|] eqn:Hq; [|done]. intros [= <- <-].
  inv_ok Hq. injection Hq as <- <-.
  destruct x. apply ok_or_Ok, checked_add_Some in Hx0 as [-> _].
  apply generation_to_sql_Ok in Hx1 as ->. apply generation_to_sql_Ok in Hx2 as ->.
  destruct (update_process_one _ _ _ _ _ _ _ _ Hx3 Hx4) as (row&Hrow&Hw&Hpc&->).
  destruct x6 as [record|]; [|done]. injection Hx8 as <-.
  assert (Ht : action_transfer lease owner (time_to_sql now)
    (put_process db (SwapId_as_str (lease_swap lease))
       (recovered owner (lease_generation lease + 1) (time_to_sql now) row)) x5).
  { apply load_open_Ok in Hx5 as [[-> Hn]|(k&arow&a&->&Ho&Hof)];
      [injection Hx6 as <-; by apply transfer_none|].
    pose proof (of_action_state _ _ _ Hof) as Hs.
    destruct (snapshot_action_state a) eqn:Hst; [|..|done|done].
    - injection Hx6 as <-. by eapply transfer_queued.
    - destruct (held_by lease a) eqn:Hh; [|done].
      apply update_one_action_Ok in Hx6 as (row1&Hr1&_&Hck&->).
      rewrite <- (of_request _ _ _ Hof) in *. pose proof Ho as (Hk&_). rewrite Hk in Hr1.
      injection Hr1 as <-. apply transfer_leased; [done|by eapply snapshot_fenced|done]. }
  assert (Hproc : db_processes x5 = db_processes (put_process db (SwapId_as_str (lease_swap lease))
    (recovered owner (lease_generation lease + 1) (time_to_sql now) row))) by (by destruct Ht).
  apply load_record_Some in Hx7 as (row1&Hr1&Hof). rewrite Hproc in Hr1. cbn in Hr1.
  rewrite lookup_insert_eq in Hr1. injection Hr1 as <-. by eapply E_recover.
Qed.

Lemma outcome_effect {A} db c (f : A → ActorOutcome) r :
  (∀ db' a, r = (db', Ok a) → db' = db ∨ effect db c (f a) db') →
  (∀ e, r.2 = Err e → r.1 = db) →
  (outcome f r).1 = db ∨ effect db c (outcome f r).2 (outcome f r).1.
Proof using Type.
  intros Hok Herr. destruct r as [db' [a|e]]; cbn; [by apply Hok|left; by eapply Herr].
Qed.

Lemma transaction_err {A} db (body : result (ActorDb * A) MakerActorProcessError) e :
  (immediate_transaction db body).2 = Err e → (immediate_transaction db body).1 = db.
Proof using Type. by destruct body as [[]|]. Qed.

Lemma actor_call_effect db c :
  (actor_call db c).1 = db ∨ effect db c (actor_call db c).2 (actor_call db c).1.
Proof using Type.
  destruct c; cbn [actor_call]; try (apply outcome_effect; [|intros ?; try apply transaction_err]).
  - intros db' r Hr. unfold register_maker_actor, immediate_transaction in Hr.
    destruct (register_maker_actor_in_transaction _ _ _) as [[]|] eqn:Hreg; [|done].
    injection Hr as <- <-. by apply register_effect.
  - intros db' r [[? _]|?]%queue_effect; auto.
  - intros db' r. apply repin_effect.
  - intros db' [lease|] Hr; [right; by apply claim_effect|left; by eapply claim_unclaimed].
  - intros db' r. apply claim_action_effect.
  - intros db' u Hr. unfold record_maker_actor_child in Hr. destruct (_ || _); [done|].
    apply set_child_effect in Hr as (row&?&?&_&?&->). right. by apply E_record_child.
  - unfold record_maker_actor_child. destruct (_ || _); [done|]. apply transaction_err.
  - intros db' u Hr. unfold clear_maker_actor_child in Hr. destruct (_ || _); [done|].
    apply set_child_effect in Hr as (row&?&?&_&?&->). right. by apply E_clear_child.
  - unfold clear_maker_actor_child. destruct (_ || _); [done|]. apply transaction_err.
  - intros db' u Hr. right. destruct progress as [p|]; [|by eapply (resolve_effect _ _ _ None)].
    unfold resolve_maker_actor_attempt_with_progress in Hr.
    destruct (progress_validate p) as [[]|] eqn:Hv; [|done].
    by eapply (resolve_effect _ _ _ (Some p)).
  - destruct progress as [p|]; [|apply transaction_err].
    unfold resolve_maker_actor_attempt_with_progress.
    destruct (progress_validate p); [|done]. apply transaction_err.
  - intros db' lease' Hr. right. by apply recover_effect.
  - intros db' u Hr. unfold immediate_transaction in Hr.
    destruct (result_bind _ _) as [[d v]|] eqn:Hq; [|done]. injection Hr as <- _.
    inv_ok Hq. injection Hq as <- _. apply reject_if_Ok in Hx. bool_props. right.
    unfold insert_request in Hx0. inv_ok Hx0. subst.
    apply run_sql_Ok, sql_insert_Some in Hx1 as (->&?&_). by apply E_request.
  - right. apply E_swap.
Qed.
End effects.
