(* ===== verification/ActorInvariant.v ===== *)
(** * The invariant of the actor tables

    Every effect lets the tables grow ([actor_le]): a process keeps its manifest,
    its generations do not go back, and within one generation a lease is only kept
    or given up.  Every effect preserves [actor_inv]: a generation counts the
    attempts, a swap has at most one open action, and a
    leased action is held by the lease of its process. *)

From stdpp Require Import base gmap strings list numbers sorting.
From S2P Require Import Prelude SwapCore BridgeValues MakerMarket SqlTable StoreBase MakerConfiguration ActorProcess ActorScheduler ActorFacts.

Open Scope Z_scope.

(** ** Growth *)

Abbreviation gen row := (sch_generation (row_schedule row)).
Abbreviation state_of row := (sch_state (row_schedule row)).
Abbreviation owner_of row := (sch_owner (row_schedule row)).

Definition pin_static (p : ActorPin) : string * Z * string * bytes * string * string * Z :=
  (p.(pin_actor_kind), p.(pin_manifest_version), p.(pin_manifest_path), p.(pin_manifest_sha256),
   p.(pin_program_path), p.(pin_state_db_path), p.(pin_created_at)).

Definition proc_le (row row' : ProcessRow) : Prop :=
  pin_static row.(row_pin) = pin_static row'.(row_pin) ∧
  (gen row < gen row' ∨
   gen row = gen row' ∧
   (state_of row' = "leased" → state_of row = "leased" ∧ owner_of row' = owner_of row)) ∧
  (state_of row = "terminal" → row' = row).

#[global] Instance proc_le_preorder : PreOrder proc_le.
Proof.
  split.
  - intros row. split_and!; auto.
  - intros a b c (Hp&Hg&Ht) (Hp'&Hg'&Ht'). split_and!; [congruence| |].
    + destruct Hg as [?|[? Hl]], Hg' as [?|[? Hl']]; [left; lia..|].
      right. split; [lia|]. intros Hc. destruct (Hl' Hc) as [Hb Ho]. destruct (Hl Hb). split; congruence.
    + intros Ha. rewrite (Ht Ha) in Ht'. auto.
Qed.

Definition act_static (row : ActionRow) : Z * string * string * Z * Z :=
  (row.(act_sequence), row.(act_swap_id), row.(act_action), row.(act_requested_after),
   row.(act_created_at)).

Definition act_le (row row' : ActionRow) : Prop :=
  act_static row = act_static row' ∧ (action_open row = false → row' = row).

#[global] Instance act_le_preorder : PreOrder act_le.
Proof.
  split.
  - by intros row.
  - intros a b c [Hs Ho] [Hs' Ho']. split; [congruence|]. intros Ha.
    rewrite (Ho Ha) in Ho'. auto.
Qed.

Definition prog_le (row row' : ProgressRow) : Prop :=
  row.(prog_source_generation) ≤ row'.(prog_source_generation).

#[global] Instance prog_le_preorder : PreOrder prog_le.
Proof. unfold prog_le. split; [by intros ?|intros ? ? ? ? ?; lia]. Qed.

Record actor_le (db db' : ActorDb) : Prop := {
  le_processes : map_le proc_le db.(db_processes) db'.(db_processes);
  le_actions : map_le act_le db.(db_actions) db'.(db_actions);
  le_requests : map_le eq db.(db_requests) db'.(db_requests);
  le_progress : map_le prog_le db.(db_progress) db'.(db_progress)
}.

#[global] Instance actor_le_preorder : PreOrder actor_le.
Proof.
  split.
  - intros db. by split.
  - intros a b c [] []. split; by etrans.
Qed.

Lemma put_process_le db k row row' :
  db.(db_processes) !! k = Some row → proc_le row row' → actor_le db (put_process db k row').
Proof.
  intros Hk Hle. split; cbn; try done. apply map_le_insert; [apply _|]. by intros x [= ->]%(eq_trans (eq_sym Hk)).
Qed.

Lemma put_action_le db r row row' :
  db.(db_actions) !! r = Some row → act_le row row' → actor_le db (put_action db r row').
Proof.
  intros Hk Hle. split; cbn; try done. apply map_le_insert; [apply _|]. by intros x [= ->]%(eq_trans (eq_sym Hk)).
Qed.

Lemma fenced_spec owner generation row :
  fenced owner generation row = true ↔
  state_of row = "leased" ∧ owner_of row = Some owner.(owner_bytes) ∧ gen row = generation.
Proof.
  unfold fenced. rewrite !andb_true_iff, !bool_decide_eq_true, Z.eqb_eq. tauto.
Qed.

Lemma action_fenced_spec owner generation row :
  action_fenced owner generation row = true ↔
  row.(act_state) = "leased" ∧ row.(act_owner) = Some owner.(owner_bytes) ∧
  row.(act_generation) = Some generation.
Proof. unfold action_fenced. rewrite !andb_true_iff, !bool_decide_eq_true. tauto. Qed.

Lemma str_in_spec s l : str_in s l = true ↔ s ∈ l.
Proof.
  unfold str_in. rewrite existsb_exists. split.
  - intros (x&Hx&->%bool_decide_eq_true). by apply list_elem_of_In.
  - intros Hs. exists s. split; [by apply list_elem_of_In|by apply bool_decide_eq_true].
Qed.

(** One case per element of a literal list. *)
Ltac elem_cases Hs :=
  repeat (apply elem_of_cons in Hs as [Hs|Hs]); [..|by apply elem_of_nil in Hs].

Lemma requeueable_idle row :
  requeueable row = true → state_of row ≠ "leased" ∧ state_of row ≠ "terminal".
Proof. unfold requeueable. intros Hs%str_in_spec. elem_cases Hs; by rewrite Hs. Qed.

Lemma due_idle now row :
  due now row = true → state_of row ≠ "leased" ∧ state_of row ≠ "terminal".
Proof. unfold due. intros Hs. bool_props. apply str_in_spec in H1. elem_cases H1; by rewrite H1. Qed.

Lemma resolved_idle resolution state next failure :
  resolution_fields resolution = Ok (state, next, failure) → state ≠ Schedule_Leased.
Proof. destruct resolution; cbn; intros Hr; inv_ok Hr; by simplify_eq. Qed.

Lemma action_open_spec row :
  action_open row = true ↔ row.(act_state) = "queued" ∨ row.(act_state) = "leased".
Proof.
  unfold action_open. rewrite str_in_spec, !elem_of_cons, elem_of_nil. tauto.
Qed.

Lemma resolved_le resolution state next next' failure now row :
  resolution_fields resolution = Ok (state, next, failure) → state_of row = "leased" →
  proc_le row (resolved state next' failure now row).
Proof.
  intros Hres%resolved_idle Hl. split_and!; [done| |congruence].
  right. split; [done|]. cbn. intros Hs. by destruct state.
Qed.

Section growth.
Context `{ActorJson}.

Lemma action_end_le lease state now db db' : action_end lease state now db db' → actor_le db db'.
Proof using Type.
  intros [Hn|k row Ho ? ? ?|k row (Hk&_&Ho) _ _ _ _|k row (Hk&_&Ho) _ _]; try done;
    (eapply put_action_le; [done|split; [done|congruence]]).
Qed.

Lemma action_transfer_le lease owner now db db' :
  action_transfer lease owner now db db' → actor_le db db'.
Proof using Type.
  intros [Hn|k row Ho ?|k row (Hk&_&Ho) _ row' _]; try done.
  eapply put_action_le; [done|split; [done|congruence]].
Qed.

Lemma progress_put_le lease now db p db' : progress_put lease now db p db' → actor_le db db'.
Proof using Type.
  intros [|p' row _ _ _ _ _ _ Hold]; [done|]. split; cbn; try done.
  apply map_le_insert; [apply _|]. intros old Ho. rewrite Ho in Hold. by destruct Hold.
Qed.

Lemma effect_le db c o db' : effect db c o db' → actor_le db db'.
Proof using Type.
  destruct 1 as
    [m now k row Hn _|rid swap action g now row row' k r arow Hreq Hact Hrow Hg Hst Hno Hck Hrow'
    |rid swap g sha now row k row' Hreq Hrow Hg Hq _|swap owner now row record k row' Hrow Hd _ _
    |lease row r arow a k arow' Hrow Hf Ho Hst _ _ _|lease pid ticks row k row' Hrow Hf _
    |lease pid ticks row k row' Hrow Hf _
    |lease res p now row state next failure db1 db2 k row' Hres Hrow Hf _ He Hp
    |lease held owner now row record db1 k row' _ Hrow Hf _ Ht _|rid row _ Hreq|swap json].
  - split; cbn; try done. apply map_le_insert; [apply _|]. intros ? Hx. by rewrite Hn in Hx.
  - split; cbn; try done.
    + apply map_le_insert; [apply _|]. intros x [= ->]%(eq_trans (eq_sym Hrow)).
      destruct Hrow' as [[_ ->]|(Hq&->&_)]; [done|]. apply requeueable_idle in Hq as [? ?].
      split_and!; [done|right; split; [done|]; intros; done|done].
    + apply map_le_insert; [apply _|]. intros x Hx. by rewrite Hact in Hx.
    + apply map_le_insert; [apply _|]. intros x Hx. by rewrite Hreq in Hx.
  - apply requeueable_idle in Hq as [? ?]. split; cbn; try done.
    + apply map_le_insert; [apply _|]. intros x [= ->]%(eq_trans (eq_sym Hrow)).
      split_and!; [done|right; split; [done|]; intros; done|done].
    + apply map_le_insert; [apply _|]. intros x Hx. by rewrite Hreq in Hx.
  - apply due_idle in Hd as [? ?]. eapply put_process_le; [done|].
    split_and!; [done|left; cbn; lia|done].
  - destruct Ho as (Hk&_&Ho). eapply put_action_le; [done|split; [done|congruence]].
  - apply fenced_spec in Hf as (Hl&_&_). eapply put_process_le; [done|].
    split_and!; [done|by right|congruence].
  - apply fenced_spec in Hf as (Hl&_&_). eapply put_process_le; [done|].
    split_and!; [done|by right|congruence].
  - apply fenced_spec in Hf as (Hl&_&_). etrans; [|by eapply progress_put_le].
    etrans; [|by eapply action_end_le]. eapply put_process_le; [done|].
    by eapply resolved_le.
  - apply fenced_spec in Hf as (Hl&_&Hg). etrans; [|by eapply action_transfer_le].
    eapply put_process_le; [done|]. split_and!; [done|left; cbn; lia|congruence].
  - split; cbn; try done. apply map_le_insert; [apply _|]. intros x Hx. by rewrite Hreq in Hx.
  - by split.
Qed.

Lemma actor_call_le db c : actor_le db (actor_call db c).1.
Proof using Type. destruct (actor_call_effect db c) as [->|He]; [done|by eapply effect_le]. Qed.
End growth.

(** ** The invariant *)

(** An action of the swap of a process row. *)
Definition action_ok (row : ProcessRow) (r : string) (arow : ActionRow) : Prop :=
  action_check r arow = true ∧ arow.(act_requested_after) ≤ gen row ∧
  (arow.(act_state) = "leased" →
   state_of row = "leased" ∧ arow.(act_owner) = owner_of row ∧
   arow.(act_generation) = Some (gen row) ∧ arow.(act_requested_after) < gen row).

Record actor_inv (db : ActorDb) : Prop := {
  inv_rows : ∀ k row, db.(db_processes) !! k = Some row →
    process_check k row = true ∧ gen row = row.(row_schedule).(sch_attempt_count);
  inv_actions : ∀ r arow, db.(db_actions) !! r = Some arow →
    ∃ row, db.(db_processes) !! arow.(act_swap_id) = Some row ∧ action_ok row r arow;
  inv_one_open : ∀ k r r' arow arow',
    open_action db k r arow → open_action db k r' arow' → r = r';
  inv_progress : ∀ k p, db.(db_progress) !! k = Some p →
    progress_check k p = true ∧
    ∃ row, db.(db_processes) !! k = Some row ∧ p.(prog_source_generation) ≤ gen row
}.

Lemma actor_inv_empty : actor_inv empty_actor_db.
Proof. split; cbn; intros *; try (by rewrite lookup_empty). by intros [? _]. Qed.

(** The swap's process row is replaced, together with the swap's actions. *)
Lemma inv_replace db k row row' db' :
  actor_inv db → db.(db_processes) !! k = Some row →
  db'.(db_processes) = <[k := row']> db.(db_processes) →
  db'.(db_progress) = db.(db_progress) →
  process_check k row' = true → gen row' = row'.(row_schedule).(sch_attempt_count) →
  gen row ≤ gen row' →
  (∀ r arow, db'.(db_actions) !! r = Some arow → arow.(act_swap_id) ≠ k →
     db.(db_actions) !! r = Some arow) →
  (∀ r arow, db'.(db_actions) !! r = Some arow → arow.(act_swap_id) = k →
     action_ok row' r arow) →
  (∀ r r' arow arow', open_action db' k r arow → open_action db' k r' arow' → r = r') →
  actor_inv db'.
Proof.
  intros Hinv Hk Hproc Hprog Hck Hgen Hle Hother Hown Hopen. split; rewrite ?Hproc, ?Hprog.
  - intros j x [[<- <-]|[_ Hj]]%lookup_insert_Some; [done|by apply (inv_rows _ Hinv)].
  - intros r arow Hr. destruct (decide (act_swap_id arow = k)) as [Heq|Hne].
    + rewrite Heq, lookup_insert_eq. eauto.
    + rewrite lookup_insert_ne by done. apply (inv_actions _ Hinv). auto.
  - intros j r r' arow arow' Ho Ho'. destruct (decide (j = k)) as [->|Hne]; [eauto|].
    destruct Ho as (Hr&Hs&Ho), Ho' as (Hr'&Hs'&Ho').
    apply (inv_one_open _ Hinv j r r' arow arow'); split_and!; try done;
      apply Hother; congruence.
  - intros j p Hp. destruct (inv_progress _ Hinv _ _ Hp) as (?&x&Hx&Hg). split; [done|].
    destruct (decide (j = k)) as [->|]; [rewrite lookup_insert_eq|rewrite lookup_insert_ne by done];
      [|eauto]. rewrite Hk in Hx. injection Hx as <-. exists row'. split; [done|lia].
Qed.

Lemma inv_process db k row row' :
  actor_inv db → db.(db_processes) !! k = Some row → process_check k row' = true →
  gen row' = row'.(row_schedule).(sch_attempt_count) → gen row ≤ gen row' →
  (∀ r arow, db.(db_actions) !! r = Some arow → arow.(act_swap_id) = k →
     arow.(act_state) = "leased" →
     state_of row' = state_of row ∧ owner_of row' = owner_of row ∧ gen row' = gen row) →
  actor_inv (put_process db k row').
Proof.
  intros Hinv Hk Hck Hatt Hle Hl. apply (inv_replace db k row row'); try done.
  - intros r arow Hr <-. destruct (inv_actions _ Hinv _ _ Hr) as (x&Hx&Ha&Hreq&Hst).
    rewrite Hk in Hx. injection Hx as <-. split_and!; [done|lia|]. intros Hs.
    destruct (Hst Hs) as (?&?&?&?), (Hl _ _ Hr eq_refl Hs) as (?&?&?).
    split_and!; [congruence|congruence|congruence|lia].
  - intros r r' arow arow' Ho Ho'. exact (inv_one_open _ Hinv _ _ _ _ _ Ho Ho').
Qed.

(** While its process is not leased, no action is; nor while none is open. *)
Lemma idle_actions db k row :
  actor_inv db → db.(db_processes) !! k = Some row → state_of row ≠ "leased" →
  ∀ r arow, db.(db_actions) !! r = Some arow → arow.(act_swap_id) = k →
  arow.(act_state) ≠ "leased".
Proof.
  intros Hinv Hk Hst r arow Hr <- Hs. destruct (inv_actions _ Hinv _ _ Hr) as (x&Hx&_&_&Hl).
  rewrite Hk in Hx. injection Hx as <-. by destruct (Hl Hs).
Qed.

Lemma unopened_actions db k :
  no_open db k → ∀ r arow, db.(db_actions) !! r = Some arow → arow.(act_swap_id) = k →
  arow.(act_state) ≠ "leased".
Proof.
  intros Hno r arow Hr Hk Hs. pose proof (Hno _ _ Hr Hk) as Ho.
  rewrite (proj2 (action_open_spec arow)) in Ho; [done|by right].
Qed.

Lemma queued_actions db k r0 arow0 :
  actor_inv db → open_action db k r0 arow0 → arow0.(act_state) = "queued" →
  ∀ r arow, db.(db_actions) !! r = Some arow → arow.(act_swap_id) = k →
  arow.(act_state) ≠ "leased".
Proof.
  intros Hinv Ho Hq r arow Hr Hk Hs.
  assert (r = r0) as ->.
  { apply (inv_one_open _ Hinv k r r0 arow arow0); [|done]. split_and!; [done..|].
    apply action_open_spec. by right. }
  destruct Ho as (Hr0&_). rewrite Hr in Hr0. injection Hr0 as <-. congruence.
Qed.

(** The only open action of the swap is replaced as well. *)
Lemma inv_process_action db k row row' r arow arow' db' :
  actor_inv db → db.(db_processes) !! k = Some row → process_check k row' = true →
  gen row' = row'.(row_schedule).(sch_attempt_count) → gen row ≤ gen row' →
  open_action db k r arow → act_swap_id arow' = k → action_ok row' r arow' →
  db'.(db_processes) = <[k := row']> db.(db_processes) →
  db'.(db_actions) = <[r := arow']> db.(db_actions) → db'.(db_progress) = db.(db_progress) →
  actor_inv db'.
Proof.
  intros Hinv Hk Hck Hatt Hle Ho Hswap Hok Hproc Hact Hprog.
  assert (Hold : ∀ q x, db'.(db_actions) !! q = Some x → q ≠ r → db.(db_actions) !! q = Some x).
  { intros q x Hq Hne. rewrite Hact, lookup_insert_ne in Hq by done. done. }
  assert (Hone : ∀ q x, open_action db' k q x → q = r).
  { intros q x (Hq&Hs&Hx). destruct (decide (q = r)) as [|Hne]; [done|].
    apply (inv_one_open _ Hinv k q r x arow); [|done]. split_and!; auto. }
  apply (inv_replace db k row row'); try done.
  - intros q x Hq Hne. apply Hold; [done|]. intros ->.
    rewrite Hact, lookup_insert_eq in Hq. congruence.
  - intros q x Hq Hs. destruct (decide (q = r)) as [->|Hne].
    + rewrite Hact, lookup_insert_eq in Hq. by injection Hq as <-.
    + pose proof (Hold _ _ Hq Hne) as Hq'.
      destruct (inv_actions _ Hinv _ _ Hq') as (y&Hy&Hc&Hr&Hl). rewrite Hs, Hk in Hy.
      injection Hy as <-. split_and!; [done|lia|]. intros Hst. exfalso. apply Hne.
      apply (Hone _ x). split_and!; [done..|]. apply action_open_spec. by right.
  - intros q q' x x' Hx Hx'. by rewrite (Hone _ _ Hx), (Hone _ _ Hx').
Qed.

Section preservation.
Context `{ActorJson}.

Lemma inv_end db lease row state next failure now rstate db' :
  let k := SwapId_as_str (lease_swap lease) in
  let row' := resolved state next failure now row in
  actor_inv db → db.(db_processes) !! k = Some row →
  fenced lease.(lease_owner) lease.(lease_generation) row = true →
  process_check k row' = true → state ≠ Schedule_Leased → rstate ≠ Action_Leased →
  action_end lease rstate now (put_process db k row') db' → actor_inv db'.
Proof using Type.
  intros k row' Hinv Hk Hf Hck Hst Hrs He. apply fenced_spec in Hf as (_&_&Hg).
  destruct (inv_rows _ Hinv _ _ Hk) as [_ Hatt].
  assert (Hplain : (∀ r arow, db.(db_actions) !! r = Some arow → arow.(act_swap_id) = k →
    arow.(act_state) ≠ "leased") → actor_inv (put_process db k row')).
  { intros Hno. apply (inv_process db k row); try done. intros r arow Hr Hs Hl. by destruct (Hno r arow). }
  destruct He as [Hn|r arow Ho Hq _ _|r arow Ho Hq Hreq _ Hac|r arow Ho Hfa Hac].
  - by apply Hplain, unopened_actions.
  - by apply Hplain, (queued_actions db k r arow).
  - pose proof Ho as (Hr&Hs&_).
    apply (inv_process_action db k row row' r arow (action_failed now arow)); try done.
    split_and!; [done|cbn in *; lia|done].
  - pose proof Ho as (Hr&Hs&_).
    destruct (inv_actions _ Hinv _ _ Hr) as (x&Hx&_&Hle&_). fold k in Hs.
    rewrite Hs, Hk in Hx. injection Hx as <-.
    apply (inv_process_action db k row row' r arow
      (action_with (action_state_name rstate) None None now arow)); try done.
    split_and!; [done|cbn in *; lia|]. cbn. by destruct rstate.
Qed.

Lemma inv_transfer db lease row owner now db' :
  let k := SwapId_as_str (lease_swap lease) in
  let row' := recovered owner (lease.(lease_generation) + 1) now row in
  actor_inv db → db.(db_processes) !! k = Some row →
  fenced lease.(lease_owner) lease.(lease_generation) row = true →
  process_check k row' = true →
  action_transfer lease owner now (put_process db k row') db' → actor_inv db'.
Proof using Type.
  intros k row' Hinv Hk Hf Hck He. apply fenced_spec in Hf as (Hl&_&Hg).
  destruct (inv_rows _ Hinv _ _ Hk) as [_ Hatt].
  assert (Hplain : (∀ r arow, db.(db_actions) !! r = Some arow → arow.(act_swap_id) = k →
    arow.(act_state) ≠ "leased") → actor_inv (put_process db k row')).
  { intros Hno. apply (inv_process db k row); cbn; try done; [lia|lia|].
    intros r arow Hr Hs Hst. by destruct (Hno r arow). }
  destruct He as [Hn|r arow Ho Hq|r arow Ho Hfa arow' Hac].
  - by apply Hplain, unopened_actions.
  - by apply Hplain, (queued_actions db k r arow).
  - pose proof Ho as (Hr&Hs&_). apply action_fenced_spec in Hfa as (Has&_&_).
    destruct (inv_actions _ Hinv _ _ Hr) as (x&Hx&_&Hle&_). fold k in Hs.
    rewrite Hs, Hk in Hx. injection Hx as <-.
    apply (inv_process_action db k row row' r arow arow'); cbn; try done; [lia|lia|].
    split_and!; [done|cbn in *; lia|]. cbn. intros _. split_and!; [done..|lia].
Qed.

Lemma inv_progress_put db lease now p db' :
  actor_inv db →
  (∃ row, db.(db_processes) !! SwapId_as_str (lease_swap lease) = Some row ∧
     lease.(lease_generation) = gen row) →
  progress_put lease now db p db' → actor_inv db'.
Proof using Type.
  intros Hinv (prow&Hk&Hg) [|p' row _ _ Hkind Hsrc Hpos Htime Hold]; [done|].
  split; cbn; try apply Hinv. intros j x [[<- <-]|[_ Hj]]%lookup_insert_Some;
    [|by apply (inv_progress _ Hinv)].
  split; [|exists prow; split; [done|lia]]. unfold progress_check. rewrite Hkind.
  assert (Hv : prog_payload_version row = 1).
  { destruct (db_progress db !! _) as [old|] eqn:Ho; [|done]. destruct Hold as [_ ->].
    destruct (inv_progress _ Hinv _ _ Ho) as [Hc _]. unfold progress_check in Hc. by bool_props. }
  rewrite Hv, (proj2 (Z.ltb_lt _ _) Hpos), (proj2 (Z.leb_le _ _) Htime).
  by destruct (manifest_kind _).
Qed.

(** A new action of a swap that has none open. *)
Lemma inv_queue db swap row row' r arow db' :
  let k := SwapId_as_str swap in
  actor_inv db → db.(db_processes) !! k = Some row → process_check k row' = true →
  gen row' = row'.(row_schedule).(sch_attempt_count) → gen row' = gen row → no_open db k →
  action_check r arow = true → arow.(act_swap_id) = k → arow.(act_state) = "queued" →
  arow.(act_requested_after) = gen row →
  db'.(db_processes) = <[k := row']> db.(db_processes) →
  db'.(db_actions) = <[r := arow]> db.(db_actions) → db'.(db_progress) = db.(db_progress) →
  actor_inv db'.
Proof using Type.
  intros k Hinv Hk Hck Hatt Hgen Hno Hac Hs Hst Hreq Hproc Hact Hprog.
  assert (Hone : ∀ q x, open_action db' k q x → q = r).
  { intros q x (Hq&Hqs&Hqo). destruct (decide (q = r)) as [|Hne]; [done|].
    rewrite Hact, lookup_insert_ne in Hq by done. by rewrite (Hno _ _ Hq Hqs) in Hqo. }
  apply (inv_replace db k row row'); try done; [lia|..].
  - intros q x Hq Hne. rewrite Hact in Hq. apply lookup_insert_Some in Hq as [[_ <-]|[_ ?]]; done.
  - intros q x Hq Hqs. rewrite Hact in Hq. apply lookup_insert_Some in Hq as [[<- <-]|[Hne Hq]].
    + split_and!; [done|lia|congruence].
    + destruct (inv_actions _ Hinv _ _ Hq) as (y&Hy&Hc&Hr&_). rewrite Hqs, Hk in Hy.
      injection Hy as <-. split_and!; [done|lia|]. intros Hl.
      by destruct (unopened_actions _ _ Hno _ _ Hq Hqs).
  - intros q q' x x' Hx Hx'. by rewrite (Hone _ _ Hx), (Hone _ _ Hx').
Qed.

Lemma manual_state_idle resolution : manual_state_of resolution ≠ Action_Leased.
Proof using Type. by destruct resolution. Qed.

Lemma effect_inv db c o db' : actor_inv db → effect db c o db' → actor_inv db'.
Proof using Type.
  intros Hinv. destruct 1 as
    [m now k row Hn Hck|rid swap action g now row row' k r arow Hreq Hact Hrow Hg Hst Hno Hck Hrow'
    |rid swap g sha now row k row' Hreq Hrow Hg Hq Hck|swap owner now row record k row' Hrow Hd Hck _
    |lease row r arow a k arow' Hrow Hf Ho Hst Hlt Hck _|lease pid ticks row k row' Hrow Hf Hck
    |lease pid ticks row k row' Hrow Hf Hck
    |lease res p now row state next failure db1 db2 k row' Hres Hrow Hf Hck He Hp
    |lease held owner now row record db1 k row' _ Hrow Hf Hck Ht _|rid row _ Hreq|swap json];
    try (destruct (inv_rows _ Hinv _ _ Hrow) as [Hok Hatt]).
  - split; cbn.
    + intros j x [[<- <-]|[_ Hj]]%lookup_insert_Some; [done|by apply (inv_rows _ Hinv)].
    + intros r arow Hr. destruct (inv_actions _ Hinv _ _ Hr) as (x&Hx&?). exists x.
      split; [|done]. rewrite lookup_insert_ne; [done|]. intros E. fold k in E. congruence.
    + apply (inv_one_open _ Hinv).
    + intros j p Hp. destruct (inv_progress _ Hinv _ _ Hp) as (?&x&Hx&?). split; [done|].
      exists x. split; [|done]. rewrite lookup_insert_ne; [done|]. intros E. fold k in E. congruence.
  - apply (inv_queue db swap row row' r arow); try done.
    + destruct Hrow' as [[_ ->]|(_&->&?)]; done.
    + destruct Hrow' as [[_ ->]|(_&->&?)]; done.
    + destruct Hrow' as [[_ ->]|(_&->&?)]; done.
  - assert (Hp : actor_inv (put_process db k row')).
    { apply (inv_process db k row); try done. intros r arow Hr Hs Hl.
      apply requeueable_idle in Hq as [Hi _]. by destruct (idle_actions _ _ _ Hinv Hrow Hi r arow). }
    destruct Hp. by split.
  - apply (inv_process db k row); try done; [cbn; lia|cbn; lia|]. intros r arow Hr Hs Hl.
    apply due_idle in Hd as [Hi _]. by destruct (idle_actions _ _ _ Hinv Hrow Hi r arow).
  - pose proof Hf as (Hl&Hown&Hg)%fenced_spec.
    apply (inv_process_action db k row row r arow arow'); try done; [by destruct Ho as (?&?&?)| |].
    + split_and!; [done|cbn; lia|]. intros _. cbn. split_and!; [done|done|congruence|lia].
    + cbn. by rewrite insert_id.
  - by apply (inv_process db k row).
  - by apply (inv_process db k row).
  - apply (inv_progress_put db1 lease (time_to_sql now) p); [|
      assert (Hproc : db_processes db1 = db_processes (put_process db k row')) by (by destruct He);
      apply fenced_spec in Hf as (_&_&Hg); exists row'; split; [|done];
      rewrite Hproc; cbn; by rewrite lookup_insert_eq|done].
    apply (inv_end db lease row state (time_to_sql next) failure (time_to_sql now)
      (manual_state_of res)); try done; [by eapply resolved_idle|apply manual_state_idle].
  - by apply (inv_transfer db lease row owner (time_to_sql now)).
  - destruct Hinv. by split.
  - destruct Hinv. by split.
Qed.

Lemma actor_call_inv db c : actor_inv db → actor_inv (actor_call db c).1.
Proof using Type.
  intros Hinv. destruct (actor_call_effect db c) as [->|He]; [done|by eapply effect_inv].
Qed.

Lemma actor_run_inv calls : actor_inv (actor_run empty_actor_db calls).
Proof using Type.
  apply (run_calls_inv actor_call (λ _, True)); [|by apply Forall_true|apply actor_inv_empty].
  intros. by apply actor_call_inv.
Qed.
End preservation.
