(* ===== verification/ActorTheorems.v ===== *)
(** * Leases and manual actions

    In every run of calls, of which any may be rolled back or lose its result: a
    generation is granted once, a lease that was superseded or resolved has no
    power any more, and an owner's action is completed only after it was handed
    to a lease granted after the request. *)

From stdpp Require Import base gmap strings list numbers sorting.
From S2P Require Import Prelude SwapCore BridgeValues MakerMarket SqlTable StoreBase MakerConfiguration ActorProcess ActorScheduler ActorFacts ActorInvariant.

Open Scope Z_scope.

Abbreviation start := empty_actor_db.
Abbreviation at_position := (committed_at actor_call start).
Abbreviation db_before calls i := (actor_run start (take i calls)).

Section runs.
Context `{ActorJson}.

(** ** Positions *)

Lemma run_snoc calls c f :
  actor_run start (calls ++ [(c, f)])
  = match f with RolledBack => actor_run start calls | _ => (actor_call (actor_run start calls) c).1 end.
Proof using Type. rewrite run_calls_app. cbn. by destruct f. Qed.

Lemma committed_lt calls i x : at_position calls i = Some x → (i < length calls)%nat.
Proof using Type.
  unfold committed_at. destruct (calls !! i) eqn:Hi; [|done]. intros _. by eapply lookup_lt_Some.
Qed.

Lemma committed_snoc calls x i y :
  at_position calls i = Some y → at_position (calls ++ [x]) i = Some y.
Proof using Type.
  intros Hy. pose proof (committed_lt _ _ _ Hy) as Hlt. unfold committed_at in *.
  rewrite lookup_app_l, take_app_le by lia. done.
Qed.

Lemma committed_last calls c f :
  f ≠ RolledBack →
  at_position (calls ++ [(c, f)]) (length calls) = Some (c, (actor_call (actor_run start calls) c).2).
Proof using Type.
  intros Hf. unfold committed_at.
  rewrite lookup_app_r, Nat.sub_diag, take_app_length by done. by destruct f.
Qed.

Lemma position_grow calls i j c o :
  at_position calls i = Some (c, o) → (i < j)%nat →
  o = (actor_call (db_before calls i) c).2 ∧
  actor_le (actor_call (db_before calls i) c).1 (db_before calls j).
Proof using Type.
  intros Hi Hij.
  destruct (committed_grow actor_call (λ _, True) (λ _, True) ltac:(done) actor_le start calls i j c o)
    as (_&_&?&?); try done; [intros; apply actor_call_le|by apply Forall_true].
Qed.

(** ** Grants *)

Lemma granted_effect db c lease :
  (actor_call db c).2 = Granted lease → effect db c (Granted lease) (actor_call db c).1.
Proof using Type.
  assert (Hout : ∀ A (f : A → ActorOutcome) r, (∀ a, f a ≠ Granted lease) →
    (outcome f r).2 = Granted lease → False).
  { intros A f [d [a|e]] Hf; cbn; [apply Hf|done]. }
  destruct c; cbn [actor_call]; try (intros Hg; exfalso; revert Hg; by apply Hout).
  - destruct (claim_maker_actor db swap_id owner now) as [d [[l|]|]] eqn:Hc; cbn; try done.
    intros [= ->]. by apply claim_effect.
  - destruct (recover_abandoned_maker_actor db lease0 held new_owner now) as [d [l|]] eqn:Hc;
      cbn; try done. intros [= ->]. by apply recover_effect.
  - done.
Qed.

Lemma granted_fences db c lease :
  (actor_call db c).2 = Granted lease →
  ∃ row row', db.(db_processes) !! SwapId_as_str (lease_swap lease) = Some row ∧
    (actor_call db c).1.(db_processes) !! SwapId_as_str (lease_swap lease) = Some row' ∧
    gen row < lease.(lease_generation) ∧
    fenced lease.(lease_owner) lease.(lease_generation) row' = true ∧
    record_of (SwapId_as_str (lease_swap lease)) row' lease.(lease_record).
Proof using Type.
  intros Hg. apply granted_effect in Hg.
  remember (Granted lease) as o eqn:Ho. remember (actor_call db c).1 as db' eqn:Hdb. clear Hdb.
  destruct Hg as [| | |swap owner now row record k row' Hrow Hd Hck Hof| | | | |
    old held owner now row record db1 k row' Hh Hrow Hf Hck Ht Hof| |]; try discriminate Ho;
    injection Ho as <-; unfold lease_swap; cbn [lease_record lease_owner lease_generation];
    rewrite <- (of_swap _ _ _ Hof).
  - exists row, row'. cbn. rewrite lookup_insert_eq. split_and!; try done; [lia|].
    by apply fenced_spec.
  - apply fenced_spec in Hf as (Hl&_&Hgen). exists row, row'.
    assert (Hproc : db_processes db1 = db_processes (put_process db k row')) by (by destruct Ht).
    rewrite Hproc. cbn. rewrite lookup_insert_eq. split_and!; try done; [lia|].
    by apply fenced_spec.
Qed.

(** C20: A lease is granted once.  In every run, two grants for the same swap and
    generation are one and the same call, whoever asked for them. *)
Theorem lease_generations_unique calls i j c c' lease lease' :
  at_position calls i = Some (c, Granted lease) → at_position calls j = Some (c', Granted lease') →
  lease_swap lease = lease_swap lease' → lease.(lease_generation) = lease'.(lease_generation) →
  i = j.
Proof using Type.
  assert (Hlt : ∀ i j c c' l l', at_position calls i = Some (c, Granted l) →
    at_position calls j = Some (c', Granted l') → lease_swap l = lease_swap l' →
    lease_generation l = lease_generation l' → (i < j)%nat → False).
  { intros i' j' d d' l l' Hi Hj Hs Hg Hij.
    destruct (position_grow _ _ _ _ _ Hi Hij) as [Ho Hle].
    destruct (granted_fences _ _ _ (eq_sym Ho)) as (_&r1&_&Hr1&_&Hf%fenced_spec&_).
    apply committed_output in Hj. destruct (granted_fences _ _ _ Hj) as (r2&_&Hr2&_&Hlt&_).
    destruct (le_processes _ _ Hle _ _ Hr1) as (r3&Hr3&(_&Hgen&_)).
    rewrite Hs in Hr3. rewrite Hr2 in Hr3. injection Hr3 as <-. destruct Hf as (_&_&?).
    destruct Hgen; lia. }
  intros Hi Hj Hs Hg. destruct (lt_eq_lt_dec i j) as [[Hij|Hij]|Hij]; [|done|]; exfalso.
  - exact (Hlt _ _ _ _ _ _ Hi Hj Hs Hg Hij).
  - exact (Hlt _ _ _ _ _ _ Hj Hi (eq_sym Hs) (eq_sym Hg) Hij).
Qed.

(** ** Superseded leases *)

Definition uses (c : ActorCall) (lease : MakerActorLeaseV1) : Prop :=
  match c with
  | Call_claim_action l | Call_record_child l _ _ | Call_clear_child l _ _
  | Call_resolve l _ _ _ | Call_recover l _ _ _ => l = lease
  | _ => False
  end.

Lemma claim_action_fenced db lease db' r :
  claim_maker_actor_manual_action db lease = (db', Ok r) →
  ∃ row, db.(db_processes) !! SwapId_as_str (lease_swap lease) = Some row ∧
    fenced lease.(lease_owner) lease.(lease_generation) row = true.
Proof using Type.
  unfold claim_maker_actor_manual_action, immediate_transaction.
  destruct (result_bind _ _) as [[d c]|] eqn:Hq; [|done]. intros _.
  inv_ok Hq. destruct x as [record|]; [|done]. injection Hx0 as <-.
  apply load_record_Some in Hx as (row&Hrow&Hof). apply reject_if_Ok in Hx1. bool_props.
  exists row. split; [done|]. by eapply record_fenced.
Qed.

Lemma effect_fenced db c o db' lease :
  effect db c o db' → uses c lease →
  ∃ row, db.(db_processes) !! SwapId_as_str (lease_swap lease) = Some row ∧
    fenced lease.(lease_owner) lease.(lease_generation) row = true.
Proof using Type. destruct 1; cbn; try done; intros <-; eauto. Qed.

(** A call that succeeds with a lease finds it in force. *)
Lemma used_fenced db c lease :
  uses c lease → (∀ e, (actor_call db c).2 ≠ Refused_call e) →
  ∃ row, db.(db_processes) !! SwapId_as_str (lease_swap lease) = Some row ∧
    fenced lease.(lease_owner) lease.(lease_generation) row = true.
Proof using Type.
  intros Hu Hok. destruct c; try done; cbn in Hu; subst; cbn [actor_call] in Hok.
  - destruct (claim_maker_actor_manual_action db lease) as [d [a|e]] eqn:Hr;
      [by eapply claim_action_fenced|by destruct (Hok e)].
  - destruct (record_maker_actor_child db lease pid start_ticks) as [d [[]|e]] eqn:Hr;
      [|by destruct (Hok e)].
    unfold record_maker_actor_child in Hr. destruct (_ || _); [done|].
    apply set_child_effect in Hr as (row&?&?&_). eauto.
  - destruct (clear_maker_actor_child db lease pid start_ticks) as [d [[]|e]] eqn:Hr;
      [|by destruct (Hok e)].
    unfold clear_maker_actor_child in Hr. destruct (_ || _); [done|].
    apply set_child_effect in Hr as (row&?&?&_). eauto.
  - destruct progress as [p|].
    + unfold resolve_maker_actor_attempt_with_progress in Hok.
      destruct (progress_validate p) as [[]|] eqn:Hv; [|by destruct (Hok InvalidSchedulingInput)].
      destruct (resolve_maker_actor_attempt_inner _ _ _ _ _) as [d [[]|e]] eqn:Hr;
        [|by destruct (Hok e)].
      apply (resolve_effect _ _ _ (Some p)) in Hr; [|done]. by apply (effect_fenced _ _ _ _ _ Hr).
    + destruct (resolve_maker_actor_attempt _ _ _ _) as [d [[]|e]] eqn:Hr; [|by destruct (Hok e)].
      apply (resolve_effect _ _ _ None) in Hr; [|done]. by apply (effect_fenced _ _ _ _ _ Hr).
  - destruct (recover_abandoned_maker_actor _ _ _ _ _) as [d [l|e]] eqn:Hr; [|by destruct (Hok e)].
    apply recover_effect in Hr. by apply (effect_fenced _ _ _ _ _ Hr).
Qed.

Lemma refused_unchanged db c e : (actor_call db c).2 = Refused_call e → (actor_call db c).1 = db.
Proof using Type.
  intros Hr. destruct (actor_call_effect db c) as [|He]; [done|].
  rewrite Hr in He. inversion He.
Qed.

Lemma unfenced_refused db c lease :
  uses c lease →
  (∀ row, db.(db_processes) !! SwapId_as_str (lease_swap lease) = Some row →
     fenced lease.(lease_owner) lease.(lease_generation) row = false) →
  ∃ e, actor_call db c = (db, Refused_call e).
Proof using Type.
  intros Hu Hno.
  destruct (actor_call db c).2 as [| | | | | |e] eqn:Ho;
    [..|exists e; rewrite (surjective_pairing (actor_call db c)), Ho;
        by rewrite (refused_unchanged _ _ _ Ho)];
    (destruct (used_fenced db c lease Hu) as (row&Hrow&Hf);
       [intros e; by rewrite Ho|by rewrite (Hno _ Hrow) in Hf]).
Qed.

(** The calls that end a lease: another grant for its swap, or the resolution of
    the attempt. *)
Definition ends (swap : SwapId) (c : ActorCall) (o : ActorOutcome) : Prop :=
  (∃ lease, o = Granted lease ∧ lease_swap lease = swap) ∨
  (∃ lease resolution progress now,
     c = Call_resolve lease resolution progress now ∧ o = Acknowledged ∧ lease_swap lease = swap).

Lemma resolve_acknowledged db lease resolution progress now :
  (actor_call db (Call_resolve lease resolution progress now)).2 = Acknowledged →
  effect db (Call_resolve lease resolution progress now) Acknowledged
    (actor_call db (Call_resolve lease resolution progress now)).1.
Proof using Type.
  cbn [actor_call]. destruct progress as [p|]; intros Ha.
  - unfold resolve_maker_actor_attempt_with_progress in *.
    destruct (progress_validate p) as [[]|] eqn:Hv; [|done].
    destruct (resolve_maker_actor_attempt_inner _ _ _ _ _) as [d [[]|e]] eqn:Hr; [|done].
    by apply (resolve_effect _ _ _ (Some p)) in Hr.
  - destruct (resolve_maker_actor_attempt _ _ _ _) as [d [[]|e]] eqn:Hr; [|done].
    by apply (resolve_effect _ _ _ None) in Hr.
Qed.

Lemma put_keeps db db1 db2 lease state p now k row :
  action_end lease state now (put_process db k row) db1 → progress_put lease now db1 p db2 →
  db_processes db2 = <[k := row]> (db_processes db).
Proof using Type. intros He Hp. by destruct Hp, He. Qed.

Lemma resolved_ends db lease resolution progress now :
  let c := Call_resolve lease resolution progress now in
  (actor_call db c).2 = Acknowledged →
  ∃ row row', db.(db_processes) !! SwapId_as_str (lease_swap lease) = Some row ∧
    (actor_call db c).1.(db_processes) !! SwapId_as_str (lease_swap lease) = Some row' ∧
    gen row' = gen row ∧ state_of row' ≠ "leased".
Proof using Type.
  intros c Ha. apply resolve_acknowledged in Ha. fold c in Ha.
  remember (actor_call db c).1 as db' eqn:Hdb. clear Hdb. subst c.
  inversion Ha as [| | | | | | |? ? ? ? row state next failure db1 ? k row' Hres Hrow _ _ He Hp| | |].
  exists row, row'. rewrite (put_keeps _ _ _ _ _ _ _ _ _ He Hp), lookup_insert_eq.
  split_and!; try done. apply resolved_idle in Hres. by destruct state.
Qed.

(** A later call of the run ended the leases granted before it. *)
Definition ended_by (calls : list (ActorCall * Fate)) (i n : nat) (swap : SwapId) : Prop :=
  ∃ j c o, (i < j < n)%nat ∧ at_position calls j = Some (c, o) ∧ ends swap c o.

Lemma ended_unfenced calls i n c lease row :
  at_position calls i = Some (c, Granted lease) → ended_by calls i n (lease_swap lease) →
  (db_before calls n).(db_processes) !! SwapId_as_str (lease_swap lease) = Some row →
  state_of row = "leased" → gen row ≠ lease.(lease_generation).
Proof using Type.
  intros Hi (j&c'&o&[Hij Hjn]&Hj&He) Hrow Hs Hg.
  destruct (position_grow _ _ _ _ _ Hi Hij) as [Ho Hle].
  destruct (granted_fences _ _ _ (eq_sym Ho)) as (_&r1&_&Hr1&_&Hf&_).
  apply fenced_spec in Hf as (_&_&Hg1).
  destruct (le_processes _ _ Hle _ _ Hr1) as (r2&Hr2&(_&Hgen&_)).
  destruct (position_grow _ _ _ _ _ Hj Hjn) as [Ho' Hle'].
  destruct He as [(l'&->&Hs')|(l'&res&p&now&->&->&Hs')].
  - destruct (granted_fences _ _ _ (eq_sym Ho')) as (r3&r4&Hr3&Hr4&Hlt&Hf&_).
    rewrite Hs' in *. rewrite Hr2 in Hr3. injection Hr3 as <-. apply fenced_spec in Hf as (_&_&Hg4).
    destruct (le_processes _ _ Hle' _ _ Hr4) as (r5&Hr5&(_&Hgen'&_)).
    rewrite Hrow in Hr5. injection Hr5 as <-. destruct Hgen, Hgen'; lia.
  - destruct (resolved_ends _ _ _ _ _ (eq_sym Ho')) as (r3&r4&Hr3&Hr4&Hg4&Hs4).
    rewrite Hs' in *. rewrite Hr2 in Hr3. injection Hr3 as <-.
    destruct (le_processes _ _ Hle' _ _ Hr4) as (r5&Hr5&(_&Hgen'&_)).
    rewrite Hrow in Hr5. injection Hr5 as <-.
    destruct Hgen' as [|[_ Hk]]; [destruct Hgen; lia|by destruct (Hk Hs)].
Qed.

(** C9: A stale or forged lease has no power.  Once a later call took the swap over
    or resolved its attempt, and at any time when it names an owner it was not
    granted to, a call that presents the lease, to hand out an action, to record
    or clear a child, to resolve or to recover, is refused and changes nothing. *)
Theorem stale_lease_powerless calls i n c c' lease owner :
  at_position calls i = Some (c, Granted lease) → (i < n)%nat →
  ended_by calls i n (lease_swap lease) ∨ owner ≠ lease.(lease_owner) →
  uses c' (with_owner lease owner) →
  ∃ e, actor_call (db_before calls n) c' = (db_before calls n, Refused_call e).
Proof using Type.
  intros Hi Hin Hend Hu. apply (unfenced_refused _ _ (with_owner lease owner) Hu). intros row Hrow.
  apply not_true_iff_false. intros (Hs&Hown&Hg)%fenced_spec. cbn in Hown, Hg.
  destruct Hend as [He|Hne]; [by eapply (ended_unfenced _ _ _ _ _ row Hi He)|].
  destruct (position_grow _ _ _ _ _ Hi Hin) as [Ho Hle].
  destruct (granted_fences _ _ _ (eq_sym Ho)) as (_&r1&_&Hr1&_&Hf&_).
  apply fenced_spec in Hf as (_&Ho1&Hg1).
  destruct (le_processes _ _ Hle _ _ Hr1) as (r2&Hr2&(_&Hgen&_)).
  change (lease_swap (with_owner lease owner)) with (lease_swap lease) in Hrow.
  rewrite Hrow in Hr2. injection Hr2 as <-. destruct Hgen as [|[_ Hk]]; [lia|].
  destruct (Hk Hs) as [_ Ho2]. apply Hne, owner_bytes_inj. congruence.
Qed.

(** ** The life of an owner's action *)

Definition queued_by (c : ActorCall) (o : ActorOutcome) (r : string) (row : ActionRow) : Prop :=
  ∃ rid swap action now,
    c = Call_queue rid swap action row.(act_requested_after) now ∧
    o = Accepted_request {| commit_requested_after_generation := row.(act_requested_after);
                            commit_was_replay := false |} ∧
    r = RequestId_as_str rid ∧ row.(act_swap_id) = SwapId_as_str swap ∧
    row.(act_action) = action_name action.

Definition handed_by (c : ActorCall) (o : ActorOutcome) (r : string) (row : ActionRow) : Prop :=
  ∃ lease a, c = Call_claim_action lease ∧ o = Action_handed (Some a) ∧
    RequestId_as_str a.(snapshot_request_id) = r ∧
    SwapId_as_str (lease_swap lease) = row.(act_swap_id) ∧
    row.(act_requested_after) < lease.(lease_generation).

Definition completed_by (c : ActorCall) (o : ActorOutcome) (row : ActionRow) : Prop :=
  ∃ lease progress now, c = Call_resolve lease ManualActionCompleted progress now ∧
    o = Acknowledged ∧ SwapId_as_str (lease_swap lease) = row.(act_swap_id).

(** What a call makes of the action that is then in the row. *)
Inductive action_step (db : ActorDb) (c : ActorCall) (o : ActorOutcome) (r : string)
    (row' : ActionRow) : Prop :=
| step_same : db.(db_actions) !! r = Some row' → action_step db c o r row'
| step_queued : row'.(act_state) = "queued" → queued_by c o r row' → action_step db c o r row'
| step_back row :
    db.(db_actions) !! r = Some row → act_static row = act_static row' →
    row'.(act_state) = "queued" ∨ row'.(act_state) = "failed" → action_step db c o r row'
| step_handed row :
    db.(db_actions) !! r = Some row → act_static row = act_static row' →
    row'.(act_state) = "leased" → handed_by c o r row' → action_step db c o r row'
| step_kept row :
    db.(db_actions) !! r = Some row → act_static row = act_static row' →
    row.(act_state) = "leased" → row'.(act_state) = "leased" → action_step db c o r row'
| step_completed row :
    db.(db_actions) !! r = Some row → act_static row = act_static row' →
    row.(act_state) = "leased" → row'.(act_state) = "completed" → completed_by c o row' →
    action_step db c o r row'.

Lemma end_step db lease resolution progress now db1 db' k row r row' :
  action_end lease (manual_state_of resolution) (time_to_sql now) (put_process db k row) db1 →
  db_actions db' = db_actions db1 → db'.(db_actions) !! r = Some row' →
  action_step db (Call_resolve lease resolution progress now) Acknowledged r row'.
Proof using Type.
  intros He Heq. rewrite Heq.
  destruct He as [Hn|q x Ho _ _ _|q x (Hq&Hs&Ho) _ _ _ _|q x (Hq&Hs&Ho) Hf _]; cbn;
    [by apply step_same|by apply step_same| |]; intros [[<- <-]|[_ ?]]%lookup_insert_Some; try (by apply step_same).
  - apply step_back with x; try done. by right.
  - apply action_fenced_spec in Hf as (Hl&_). destruct resolution; cbn.
    1, 2, 3, 5: apply step_back with x; try done; cbn; tauto.
    apply step_completed with x; try done. by exists lease, progress, now.
Qed.

Lemma effect_step db c o db' r row' :
  effect db c o db' → db'.(db_actions) !! r = Some row' → action_step db c o r row'.
Proof using Type.
  destruct 1 as
    [|rid swap action g now row prow k q arow Hreq Hact Hrow Hg Hst Hno Hck _| |
    |lease row q arow a k arow' Hrow Hf (Hq&Hs&_) Hst Hlt _ Hof| |
    |lease res p now row state next failure db1 db2 k row1 _ _ _ _ He Hp
    |lease held owner now row record db1 k row1 _ Hrow Hf _ Ht _| |];
    cbn [db_actions put_process with_processes put_request with_requests add_action with_actions
         put_action]; try (by apply step_same).
  - intros [[<- <-]|[_ ?]]%lookup_insert_Some; [|by apply step_same].
    apply step_queued; [done|]. by exists rid, swap, action, now.
  - intros [[<- <-]|[_ ?]]%lookup_insert_Some; [|by apply step_same].
    apply step_handed with arow; try done. exists lease, a. split_and!; try done.
    by rewrite <- (of_request _ _ _ Hof).
  - apply (end_step db lease res p now db1 db2 k row1); [done|by destruct Hp].
  - destruct Ht as [|q x|q x (Hq&_) Hfa x' _]; cbn; [by apply step_same..|].
    intros [[<- <-]|[_ ?]]%lookup_insert_Some; [|by apply step_same].
    apply action_fenced_spec in Hfa as (Hl&_). by apply step_kept with x.
Qed.

(** The calls an action's row goes back to. *)
Definition action_history (calls : list (ActorCall * Fate)) (r : string) (row : ActionRow) : Prop :=
  ∃ h c o, at_position calls h = Some (c, o) ∧ queued_by c o r row ∧
    (row.(act_state) = "leased" ∨ row.(act_state) = "completed" →
     ∃ i c o, (h < i)%nat ∧ at_position calls i = Some (c, o) ∧ handed_by c o r row ∧
       (row.(act_state) = "completed" →
        ∃ j c o, (i < j)%nat ∧ at_position calls j = Some (c, o) ∧ completed_by c o row)).

Lemma history_snoc calls x r row : action_history calls r row → action_history (calls ++ [x]) r row.
Proof using Type.
  intros (h&c&o&Hh&Hq&Hl). exists h, c, o. split_and!; [by apply committed_snoc|done|].
  intros Hs. destruct (Hl Hs) as (i&d&p&Hlt&Hi&Hhand&Hc). exists i, d, p.
  split_and!; [done|by apply committed_snoc|done|].
  intros Hd. destruct (Hc Hd) as (j&e&q&?&?&?). exists j, e, q. eauto using committed_snoc.
Qed.

Lemma queued_by_static c o r row row' :
  act_static row = act_static row' → queued_by c o r row → queued_by c o r row'.
Proof using Type. destruct row, row'. by intros [= <- <- <- <- <-]. Qed.

Lemma handed_by_static c o r row row' :
  act_static row = act_static row' → handed_by c o r row → handed_by c o r row'.
Proof using Type. destruct row, row'. by intros [= <- <- <- <- <-]. Qed.

Lemma history_static calls r row row' :
  act_static row = act_static row' → row'.(act_state) = row.(act_state) ∨
  row'.(act_state) ≠ "leased" ∧ row'.(act_state) ≠ "completed" →
  action_history calls r row → action_history calls r row'.
Proof using Type.
  destruct row, row'. unfold act_static; cbn. intros [= <- <- <- <- <-] Hs (h&c&o&Hh&Hq&Hl).
  exists h, c, o. split_and!; [done|done|]. cbn in *. intros Hst.
  destruct Hs as [->|[? ?]]; [auto|tauto].
Qed.

Lemma action_histories calls :
  ∀ r row, (actor_run start calls).(db_actions) !! r = Some row → action_history calls r row.
Proof using Type.
  induction calls as [|[c f] calls IH] using rev_ind; [done|]. intros r row'.
  rewrite run_snoc. destruct (decide (f = RolledBack)) as [->|Hf];
    [intros Hr; by apply history_snoc, IH|].
  replace (match f with RolledBack => _ | _ => _ end)
    with (actor_call (actor_run start calls) c).1 by (by destruct f).
  pose proof (committed_last calls c f Hf) as Hlast. intros Hr.
  destruct (actor_call_effect (actor_run start calls) c) as [Hsame|He];
    [rewrite Hsame in Hr; by apply history_snoc, IH|].
  destruct (effect_step _ _ _ _ _ _ He Hr) as
    [Ho|Hst Hq|row Ho Hs Hst|row Ho Hs Hst Hh|row Ho Hs Hst Hst'|row Ho Hs Hst Hst' Hc].
  - by apply history_snoc, IH.
  - exists (length calls), c, (actor_call (actor_run start calls) c).2.
    split_and!; [done|done|]. rewrite Hst. by intros [|].
  - apply history_snoc, (history_static _ _ row); [done| |by apply IH].
    right. destruct Hst as [-> | ->]; done.
  - destruct (IH _ _ Ho) as (h&d&o&Hh'&Hq&_). exists h, d, o.
    split_and!; [by apply committed_snoc|by eapply queued_by_static|]. intros _.
    exists (length calls), c, (actor_call (actor_run start calls) c).2.
    split_and!; [by eapply committed_lt|done|done|congruence].
  - apply history_snoc, (history_static _ _ row); [done|left; congruence|by apply IH].
  - destruct (IH _ _ Ho) as (h&d&o&Hh'&Hq&Hl). exists h, d, o.
    split_and!; [by apply committed_snoc|by eapply queued_by_static|]. intros _.
    destruct Hl as (i&d'&o'&Hlt&Hi&Hh&_); [by left|]. exists i, d', o'.
    split_and!; [done|by apply committed_snoc|by eapply handed_by_static|]. intros _.
    exists (length calls), c, (actor_call (actor_run start calls) c).2.
    split_and!; [by eapply committed_lt|done|done].
Qed.

(** C19: An owner's action is executed only as it was asked for.  An action that is
    completed in the store was queued by its request, was handed out afterwards to
    a lease of its swap with a generation beyond the one the request had seen, and
    an attempt of that swap was resolved as completing it after that. *)
Theorem completed_action_was_handed calls r row :
  (actor_run start calls).(db_actions) !! r = Some row → row.(act_state) = "completed" →
  ∃ h i j c1 c2 c3 o1 o2 o3, (h < i < j)%nat ∧
    at_position calls h = Some (c1, o1) ∧ queued_by c1 o1 r row ∧
    at_position calls i = Some (c2, o2) ∧ handed_by c2 o2 r row ∧
    at_position calls j = Some (c3, o3) ∧ completed_by c3 o3 row.
Proof using Type.
  intros Hr Hs. destruct (action_histories _ _ _ Hr) as (h&c1&o1&Hh&Hq&Hl).
  destruct Hl as (i&c2&o2&Hlt&Hi&Hhand&Hc); [by right|].
  destruct (Hc Hs) as (j&c3&o3&Hlt'&Hj&Hdone).
  exists h, i, j, c1, c2, c3, o1, o2, o3. split_and!; done.
Qed.
End runs.
