(* ===== verification/ActorIntegrity.v ===== *)
(** * Readable actor tables

    The rows of every run of calls with well-formed arguments and leases the
    store gave out can be read back: records, actions, progress and requests. *)

From stdpp Require Import base gmap strings list numbers sorting.
From S2P Require Import Prelude SwapCore BridgeValues MakerMarket SqlTable StoreBase MakerConfiguration ActorProcess ActorScheduler ActorFacts ActorInvariant ActorTheorems.

Open Scope Z_scope.

(** ** Rows that decode *)

Lemma decode_u64_total v : 0 ≤ v → decode_u64 v = Ok v.
Proof. intros Hv. unfold decode_u64. by rewrite (proj2 (Z.ltb_ge v 0)). Qed.

Lemma decode_u64s_total o : (∀ v, o = Some v → 0 ≤ v) → transpose decode_u64 o = Ok o.
Proof. destruct o as [v|]; [|done]. intros Hv. cbn. by rewrite decode_u64_total by auto. Qed.

Lemma decode_owner_total o :
  null_or_len 16 o = true → o ≠ Some zero16 →
  ∃ r, decode_owner o = Ok r ∧ o = owner_bytes <$> r.
Proof.
  destruct o as [b|]; [|by exists None]. cbn. intros Hl Hz. exists (Some {| owner_bytes := b |}).
  unfold decode_owner, MakerActorLeaseOwner_new. cbn. unfold len_is in Hl. rewrite Hl. cbn.
  by rewrite bool_decide_eq_false_2 by congruence.
Qed.

(** One case per value a column may have. *)
Ltac parse_total Hs := apply str_in_spec in Hs; elem_cases Hs; subst; eexists; reflexivity.

Lemma schedule_parse_total s :
  str_in s ["queued"; "leased"; "backoff"; "terminal"; "failed"] = true →
  ∃ st, schedule_parse s = Ok st.
Proof. intros Hs. parse_total Hs. Qed.

Lemma action_state_parse_total s :
  str_in s ["queued"; "leased"; "completed"; "failed"] = true →
  ∃ st, action_state_parse s = Ok st.
Proof. intros Hs. parse_total Hs. Qed.

Lemma action_parse_total s :
  str_in s ["claim"; "refund"] = true → ∃ a, action_parse s = Ok a.
Proof. intros Hs. parse_total Hs. Qed.

Lemma kind_parse_name kind : kind_parse (kind_name kind) = Ok kind.
Proof. by destruct kind. Qed.

(** The paths of a manifest that [MakerActorManifestV1_new] accepts, with
    whatever identity and hashes. *)
Definition paths_typed (config program state : string) : Prop :=
  ∀ id kind h h', MakerActorManifestV1_new id kind config h program h' state
    = Ok {| manifest_swap_id := id; manifest_kind := kind; manifest_config_path := config;
            manifest_config_sha256 := h; manifest_program_path := program;
            manifest_program_sha256 := h'; manifest_state_database_path := state |}.

Lemma manifest_new_paths id kind config h program h' state m :
  MakerActorManifestV1_new id kind config h program h' state = Ok m →
  paths_typed config program state ∧ manifest_swap_id m = id ∧ manifest_kind m = kind ∧
  manifest_config_path m = config ∧ manifest_config_sha256 m = h ∧
  manifest_program_path m = program ∧ manifest_program_sha256 m = h' ∧
  manifest_state_database_path m = state.
Proof.
  unfold paths_typed, MakerActorManifestV1_new.
  destruct (validate_path config); [|done]. destruct (validate_path program); [|done].
  destruct (validate_path state); [|done]. cbn. destruct (_ || _); [done|]. by intros [= <-].
Qed.

Record row_typed (k : string) (row : ProcessRow) : Prop := {
  typed_swap : bad_identifier k = false;
  typed_kind : ∃ kind, row.(row_pin).(pin_actor_kind) = kind_name kind;
  typed_paths : paths_typed row.(row_pin).(pin_manifest_path) row.(row_pin).(pin_program_path)
                  row.(row_pin).(pin_state_db_path);
  typed_owner : owner_of row ≠ Some zero16;
  typed_pid : ∀ pid, row.(row_schedule).(sch_child_pid) = Some pid → pid ≤ u32_max
}.

(** What the constraints of a process row say. *)
Record row_checked (row : ProcessRow) : Prop := {
  ck_kind : str_in row.(row_pin).(pin_actor_kind) ["bitcoin"; "monero"; "zcash"] = true;
  ck_version : row.(row_pin).(pin_manifest_version) = 1;
  ck_config : len_is 32 row.(row_pin).(pin_manifest_sha256) = true;
  ck_program : len_is 32 row.(row_pin).(pin_program_sha256) = true;
  ck_desired : str_in row.(row_pin).(pin_desired_state) ["running"; "stopped"] = true;
  ck_state : str_in (state_of row) ["queued"; "leased"; "backoff"; "terminal"; "failed"] = true;
  ck_next : 0 ≤ row.(row_schedule).(sch_next_attempt_at);
  ck_generation : 0 ≤ gen row ≤ i64_max;
  ck_owner : null_or_len 16 (owner_of row) = true;
  ck_leased_at : ∀ v, row.(row_schedule).(sch_leased_at) = Some v → 0 ≤ v;
  ck_pid : ∀ v, row.(row_schedule).(sch_child_pid) = Some v → 0 < v;
  ck_ticks : ∀ v, row.(row_schedule).(sch_child_start_ticks) = Some v → 0 < v;
  ck_attempts : 0 ≤ row.(row_schedule).(sch_attempt_count) ≤ i64_max;
  ck_times : 0 ≤ row.(row_pin).(pin_created_at) ≤ row.(row_schedule).(sch_updated_at);
  ck_child : row.(row_schedule).(sch_child_pid) = None ↔
             row.(row_schedule).(sch_child_start_ticks) = None;
  ck_lease :
    state_of row = "leased" ∧ is_Some (owner_of row) ∧
      is_Some row.(row_schedule).(sch_leased_at) ∨
    state_of row ≠ "leased" ∧ owner_of row = None ∧ row.(row_schedule).(sch_leased_at) = None ∧
      row.(row_schedule).(sch_child_pid) = None ∧ row.(row_schedule).(sch_child_start_ticks) = None
}.

Lemma null_or_spec (p : Z → bool) o : null_or p o = true ↔ ∀ v, o = Some v → p v = true.
Proof. destruct o; cbn; naive_solver. Qed.

Lemma is_null_spec {A} (o : option A) : is_null o = true ↔ o = None.
Proof. by destruct o. Qed.

Lemma not_null_spec {A} (o : option A) : not_null o = true ↔ is_Some o.
Proof. destruct o; cbn; [|by rewrite is_Some_alt]. by split; [eauto|]. Qed.

Lemma process_check_spec k row : process_check k row = true ↔ row_checked row.
Proof.
  unfold process_check.
  rewrite !andb_true_iff, !orb_true_iff, !andb_true_iff, !null_or_spec, !is_null_spec, !not_null_spec,
    negb_true_iff, bool_decide_eq_true, bool_decide_eq_false, !Z.leb_le, Z.eqb_eq.
  setoid_rewrite Z.leb_le. setoid_rewrite Z.ltb_lt.
  assert (He : eqb (is_null row.(row_schedule).(sch_child_pid))
                 (is_null row.(row_schedule).(sch_child_start_ticks)) = true ↔
    (row.(row_schedule).(sch_child_pid) = None ↔ row.(row_schedule).(sch_child_start_ticks) = None)).
  { destruct (sch_child_pid _), (sch_child_start_ticks _); cbn; naive_solver. }
  rewrite He. split; [intros Hc; split; tauto|intros []; tauto].
Qed.

Lemma SwapId_new_total k :
  bad_identifier k = false → SwapId_new k = Ok {| SwapId_as_str := k |}.
Proof. unfold SwapId_new. by intros ->. Qed.

Lemma RequestId_new_total k :
  safe_identifier k = true → RequestId_new k = Ok {| RequestId_as_str := k |}.
Proof. unfold RequestId_new. by intros ->. Qed.

Lemma decode_record_total k row :
  process_check k row = true → row_typed k row → ∃ r, decode_record k row = Ok r.
Proof.
  intros Hc%process_check_spec [Hk [kind Hkind] Hpaths Hzero Hpid]. unfold decode_record.
  pose proof (ck_times _ Hc). pose proof (ck_generation _ Hc). pose proof (ck_attempts _ Hc).
  pose proof (ck_config _ Hc) as Hconfig. pose proof (ck_program _ Hc) as Hprogram.
  unfold len_is in *. rewrite (ck_version _ Hc), Hconfig, Hprogram, SwapId_new_total by done. cbn.
  rewrite Hkind, kind_parse_name. cbn. rewrite Hpaths. cbn.
  destruct (schedule_parse_total _ (ck_state _ Hc)) as [st Hst]. rewrite Hst. cbn.
  apply schedule_parse_Ok in Hst.
  destruct (decode_owner_total _ (ck_owner _ Hc) Hzero) as (ow&How&Hb). rewrite How. cbn.
  rewrite decode_u64s_total by apply Hc. cbn.
  rewrite !decode_u64_total by (lia || apply Hc).
  pose proof (ck_lease _ Hc) as Hl. rewrite Hst in Hl.
  destruct Hl as [(Hs&Ho&Ht)|(Hs&Ho&Ht&Hp&Hq)].
  - assert (st = Schedule_Leased) as -> by (by destruct st).
    destruct ow; [|rewrite Hb in Ho; by destruct Ho].
    destruct Ht as [t Ht]. rewrite Ht.
    destruct (sch_child_pid (row_schedule row)) as [pid|] eqn:Hp.
    + destruct (sch_child_start_ticks (row_schedule row)) as [ticks|] eqn:Hq;
        [|by apply (ck_child _ Hc) in Hq; rewrite Hp in Hq].
      pose proof (ck_pid _ Hc _ Hp). pose proof (ck_ticks _ Hc _ Hq). pose proof (Hpid _ eq_refl).
      rewrite (proj2 (Z.ltb_ge pid 0)), (proj2 (Z.ltb_ge u32_max pid)), decode_u64_total by lia.
      cbn. eauto.
    + rewrite (proj1 (ck_child _ Hc) Hp). cbn. eauto.
  - rewrite Ht, Hp, Hq. rewrite Ho in Hb. destruct ow; [done|]. destruct st; try done; cbn; eauto.
Qed.

Record action_checked (row : ActionRow) : Prop := {
  ack_action : str_in row.(act_action) ["claim"; "refund"] = true;
  ack_state : str_in row.(act_state) ["queued"; "leased"; "completed"; "failed"] = true;
  ack_requested : 0 ≤ row.(act_requested_after);
  ack_owner : null_or_len 16 row.(act_owner) = true;
  ack_generation : ∀ v, row.(act_generation) = Some v → 0 < v;
  ack_times : 0 ≤ row.(act_created_at) ≤ row.(act_updated_at);
  ack_lease :
    row.(act_state) = "leased" ∧ is_Some row.(act_owner) ∧ is_Some row.(act_generation) ∨
    row.(act_state) ≠ "leased" ∧ row.(act_owner) = None ∧ row.(act_generation) = None
}.

Lemma action_check_spec k row : action_check k row = true ↔ action_checked row.
Proof.
  unfold action_check.
  rewrite !andb_true_iff, !orb_true_iff, !andb_true_iff, !null_or_spec, !is_null_spec, !not_null_spec,
    negb_true_iff, bool_decide_eq_true, bool_decide_eq_false, !Z.leb_le.
  setoid_rewrite Z.ltb_lt. split; [intros Hc; split; tauto|intros []; tauto].
Qed.

Lemma decode_action_total r arow :
  action_check r arow = true → safe_identifier r = true →
  bad_identifier arow.(act_swap_id) = false → arow.(act_owner) ≠ Some zero16 →
  ∃ a, decode_manual_action r arow = Ok a.
Proof.
  intros Hc%action_check_spec Hr Hs Hz. unfold decode_manual_action.
  destruct (action_state_parse_total _ (ack_state _ Hc)) as [st Hst]. rewrite Hst. cbn.
  apply action_state_parse_Ok in Hst.
  destruct (decode_owner_total _ (ack_owner _ Hc) Hz) as (ow&How&Hb). rewrite How. cbn.
  rewrite decode_u64s_total by (intros v Hv; apply (ack_generation _ Hc) in Hv; lia). cbn.
  rewrite RequestId_new_total, SwapId_new_total by done.
  destruct (action_parse_total _ (ack_action _ Hc)) as [ac Hac]. rewrite Hac.
  rewrite decode_u64_total by apply Hc.
  pose proof (ack_lease _ Hc) as Hl. rewrite Hst, Hb in Hl.
  destruct Hl as [(Hl&[o Ho]&[g Hg])|(Hl&Ho&Hg)]; rewrite Hg; destruct ow, st; try done; cbn; eauto.
Qed.

(** ** Well-formed calls *)

Definition owner_typed (owner : MakerActorLeaseOwner) : Prop :=
  len_is 16 owner.(owner_bytes) = true ∧ MakerActorLeaseOwner_new owner.(owner_bytes) = Ok owner.

Definition manifest_typed (m : MakerActorManifestV1) : Prop :=
  bad_identifier (SwapId_as_str m.(manifest_swap_id)) = false ∧
  MakerActorManifestV1_new m.(manifest_swap_id) m.(manifest_kind) m.(manifest_config_path)
    m.(manifest_config_sha256) m.(manifest_program_path) m.(manifest_program_sha256)
    m.(manifest_state_database_path) = Ok m.

(** The arguments the constructors of their types accept; a process identifier
    has 32 bits. *)
Definition call_typed (c : ActorCall) : Prop :=
  match c with
  | Call_register m _ => manifest_typed m
  | Call_queue rid _ _ _ _ => safe_identifier (RequestId_as_str rid) = true
  | Call_claim _ owner _ | Call_recover _ _ owner _ => owner_typed owner
  | Call_record_child _ pid _ => pid ≤ u32_max
  | _ => True
  end.

(** The lease belongs to a process of its kind. *)
Definition lease_kept (db : ActorDb) (lease : MakerActorLeaseV1) : Prop :=
  ∃ row, db.(db_processes) !! SwapId_as_str (lease_swap lease) = Some row ∧
    row.(row_pin).(pin_actor_kind)
    = kind_name lease.(lease_record).(process_manifest).(manifest_kind).

Section typed.
Context `{ActorJson}.

Definition request_readable (db : ActorDb) (r : string) (req : RequestRow) : Prop :=
  (∃ s a g, req.(req_request_json) = manual_request_to_json s a g ∧
     req.(req_result_json) = manual_result_to_json
       {| stored_action_schema_version := 1; stored_requested_after_generation := g |} ∧
     is_Some (db.(db_actions) !! r)) ∨
  (∃ s g h, req.(req_request_json) = repin_request_to_json s g h).

Record db_typed (db : ActorDb) : Prop := {
  typed_rows : ∀ k row, db.(db_processes) !! k = Some row → row_typed k row;
  typed_actions : ∀ r arow, db.(db_actions) !! r = Some arow → safe_identifier r = true;
  typed_progress : ∀ k p row,
    db.(db_progress) !! k = Some p → db.(db_processes) !! k = Some row →
    p.(prog_actor_kind) = row.(row_pin).(pin_actor_kind) ∧
    ∃ o, p.(prog_payload_json) = progress_to_json o ∧ progress_validate o = Ok tt;
  typed_requests : ∀ r req, db.(db_requests) !! r = Some req →
    req.(req_operation) = ACTOR_REQUEST → request_readable db r req
}.

Lemma db_typed_empty : db_typed empty_actor_db.
Proof using Type. split; cbn; intros *; by rewrite ?lookup_empty. Qed.

Lemma typed_put_process db k row row' :
  db_typed db → db.(db_processes) !! k = Some row →
  row'.(row_pin).(pin_actor_kind) = row.(row_pin).(pin_actor_kind) → row_typed k row' →
  db_typed (put_process db k row').
Proof using Type.
  intros Ht Hk Hkind Hrow. split; cbn; try apply Ht.
  - intros j x [[<- <-]|[_ Hj]]%lookup_insert_Some; [done|by apply (typed_rows _ Ht)].
  - intros j p x Hp [[<- <-]|[_ Hj]]%lookup_insert_Some; [|by apply (typed_progress _ Ht _ _ _ Hp)].
    rewrite Hkind. by apply (typed_progress _ Ht _ _ _ Hp).
Qed.

Lemma typed_put_action db r arow arow' :
  db_typed db → db.(db_actions) !! r = Some arow → db_typed (put_action db r arow').
Proof using Type.
  intros Ht Hr. split; cbn; try apply Ht.
  - intros q x [[<- _]|[_ Hq]]%lookup_insert_Some; by eapply (typed_actions _ Ht).
  - intros q req Hq Hop. destruct (typed_requests _ Ht _ _ Hq Hop) as [(s&a&g&?&?&?)|?]; [left|by right].
    exists s, a, g. split_and!; try done. cbn. apply lookup_insert_is_Some. destruct (decide (r = q)); eauto.
Qed.

(** The columns of a row that stays typed. *)
Lemma row_typed_same k row row' :
  row_typed k row → pin_static row.(row_pin) = pin_static row'.(row_pin) →
  owner_of row' ≠ Some zero16 →
  (∀ pid, row'.(row_schedule).(sch_child_pid) = Some pid → pid ≤ u32_max) → row_typed k row'.
Proof using Type.
  intros [] Hpin Ho Hp. unfold pin_static in Hpin. injection Hpin as Hk _ Hm _ Hq Hs _.
  split; rewrite <- ?Hk, <- ?Hm, <- ?Hq, <- ?Hs; done.
Qed.

Lemma owner_typed_nonzero owner : owner_typed owner → Some owner.(owner_bytes) ≠ Some zero16.
Proof using Type.
  unfold owner_typed, MakerActorLeaseOwner_new. intros [_ Ho]. case_bool_decide; congruence.
Qed.
Lemma typed_put_request db r json res :
  db_typed db →
  request_readable db r {| req_operation := ACTOR_REQUEST; req_payload_version := 1;
                           req_request_json := json; req_result_json := res |} →
  db_typed (put_request db r json res).
Proof using Type.
  intros Ht Hr. split; cbn; try apply Ht.
  intros q req [[<- <-]|[_ Hq]]%lookup_insert_Some; [done|by apply (typed_requests _ Ht)].
Qed.

Lemma typed_add_action db r arow :
  db_typed db → db.(db_requests) !! r = None → safe_identifier r = true →
  db_typed (add_action db r arow).
Proof using Type.
  intros Ht Hn Hr. split; cbn; try apply Ht.
  - intros q x [[<- _]|[_ Hq]]%lookup_insert_Some; [done|by eapply (typed_actions _ Ht)].
  - intros q req Hq Hop. destruct (typed_requests _ Ht _ _ Hq Hop) as [(s&a&g&?&?&?)|?]; [left|by right].
    exists s, a, g. split_and!; try done. cbn. apply lookup_insert_is_Some. destruct (decide (r = q)); eauto.
Qed.

Lemma typed_action_end db lease state now db' :
  db_typed db → action_end lease state now db db' → db_typed db'.
Proof using Type.
  intros Ht [| |r arow (Hr&_) _ _ _ _|r arow (Hr&_) _ _]; try done; by eapply typed_put_action.
Qed.

Lemma typed_action_transfer db lease owner now db' :
  db_typed db → action_transfer lease owner now db db' → db_typed db'.
Proof using Type.
  intros Ht [| |r arow (Hr&_) _ arow' _]; try done; by eapply typed_put_action.
Qed.

Lemma typed_progress_put db lease now p db' :
  db_typed db → lease_kept db lease → progress_put lease now db p db' → db_typed db'.
Proof using Type.
  intros Ht (row&Hrow&Hkind) [|o p' Hv Hj Hk _ _ _ _]; [done|]. split; cbn; try apply Ht.
  intros k x y [[<- <-]|[_ Hx]]%lookup_insert_Some Hy; [|by apply (typed_progress _ Ht _ _ _ Hx)].
  rewrite Hrow in Hy. injection Hy as <-. split; [congruence|eauto].
Qed.

Lemma lease_kept_le db db' lease : actor_le db db' → lease_kept db lease → lease_kept db' lease.
Proof using Type.
  intros Hle (row&Hrow&Hk). destruct (le_processes _ _ Hle _ _ Hrow) as (row'&Hrow'&(Hp&_)).
  exists row'. split; [done|]. unfold pin_static in Hp. injection Hp as Hp. congruence.
Qed.

Lemma typed_process_effect db k row row' :
  db_typed db → db.(db_processes) !! k = Some row →
  pin_static row.(row_pin) = pin_static row'.(row_pin) → owner_of row' ≠ Some zero16 →
  (∀ pid, row'.(row_schedule).(sch_child_pid) = Some pid → pid ≤ u32_max) →
  db_typed (put_process db k row').
Proof using Type.
  intros Ht Hk Hpin Ho Hp. eapply typed_put_process; [done|done| |].
  - unfold pin_static in Hpin. by injection Hpin.
  - eapply row_typed_same; [by apply (typed_rows _ Ht)|done..].
Qed.

Lemma effect_typed db c o db' :
  actor_inv db → db_typed db → call_typed c → (∀ lease, uses c lease → lease_kept db lease) →
  effect db c o db' → db_typed db'.
Proof using Type.
  intros Hinv Ht Hc Hlease. destruct 1 as
    [m now k row Hn Hck|rid swap action g now row row' k r arow Hreq Hact Hrow Hg Hst Hno Hck Hrow'
    |rid swap g sha now row k row' Hreq Hrow Hg Hq Hck|swap owner now row record k row' Hrow Hd Hck _
    |lease row r arow a k arow' Hrow Hf Ho Hst Hlt Hck _|lease pid ticks row k row' Hrow Hf Hck
    |lease pid ticks row k row' Hrow Hf Hck
    |lease res p now row state next failure db1 db2 k row' Hres Hrow Hf Hck He Hp
    |lease held owner now row record db1 k row' _ Hrow Hf Hck Htr _|rid row Hop Hreq|swap json];
    try (pose proof (typed_rows _ Ht _ _ Hrow) as Htr0).
  - destruct Hc as [Hid Hnew%manifest_new_paths].
    assert (Hnp : db.(db_progress) !! k = None).
    { apply eq_None_not_Some. intros [p Hp]. destruct (inv_progress _ Hinv _ _ Hp) as (_&?&Hx&_).
      congruence. }
    split; cbn; try apply Ht.
    + intros j x [[<- <-]|[_ Hj]]%lookup_insert_Some; [|by apply (typed_rows _ Ht)].
      split; cbn; try done; [eauto|by destruct Hnew].
    + intros j p x Hp [[<- <-]|[_ Hj]]%lookup_insert_Some; [congruence|].
      by apply (typed_progress _ Ht _ _ _ Hp).
  - apply typed_put_request.
    + apply (typed_process_effect _ k row); [by apply typed_add_action|done|..];
        (destruct Hrow' as [[_ ->]|(_&->&_)]; [|done]); [done|apply Htr0..].
    + left. exists swap, action, g. split_and!; try done. cbn. rewrite lookup_insert_eq. eauto.
  - apply typed_put_request; [|right; cbn; eauto].
    apply requeueable_idle in Hq as [Hidle _].
    apply process_check_spec in Hck. destruct (ck_lease _ Hck) as [(Hl&_)|(_&Ho&_&Hp&_)]; [done|].
    by apply (typed_process_effect _ k row); [..|rewrite Ho|rewrite Hp].
  - by apply (typed_process_effect _ k row); [..|apply owner_typed_nonzero|].
  - destruct Ho as (Hr&_). by eapply typed_put_action.
  - apply (typed_process_effect _ k row); [done..|apply Htr0|]. by intros q [= <-].
  - by apply (typed_process_effect _ k row); [..|apply Htr0|].
  - assert (Ht1 : db_typed (put_process db k row')) by (by apply (typed_process_effect _ k row)).
    eapply typed_progress_put; [by eapply typed_action_end| |done].
    apply (lease_kept_le db); [|by apply Hlease].
    etrans; [|by eapply action_end_le]. eapply put_process_le; [done|].
    apply fenced_spec in Hf as (Hl&_&_). by eapply resolved_le.
  - eapply typed_action_transfer; [|done].
    by apply (typed_process_effect _ k row); [..|apply owner_typed_nonzero|].
  - split; cbn; try apply Ht. intros q req [[<- <-]|[_ Hq]]%lookup_insert_Some; [done|].
    by apply (typed_requests _ Ht).
  - destruct Ht. by split.
Qed.

Lemma actor_call_typed db c :
  actor_inv db → db_typed db → call_typed c → (∀ lease, uses c lease → lease_kept db lease) →
  db_typed (actor_call db c).1.
Proof using Type.
  intros Hinv Ht Hc Hl. destruct (actor_call_effect db c) as [->|He]; [done|].
  by eapply effect_typed.
Qed.

(** ** Runs with leases the store gave out *)

(** The store gave the lease out before the call: it granted it, or listed it;
    the caller may name another owner. *)
Definition given (calls : list (ActorCall * Fate)) (i : nat) (lease : MakerActorLeaseV1) : Prop :=
  ∃ given owner, lease = with_owner given owner ∧
  ((∃ n c, (n < i)%nat ∧ at_position calls n = Some (c, Granted given)) ∨
   (∃ n leases, (n ≤ i)%nat ∧ list_leased_maker_actors (db_before calls n) = Ok leases ∧
      given ∈ leases)).

Definition run_typed (calls : list (ActorCall * Fate)) : Prop :=
  ∀ i c f, calls !! i = Some (c, f) →
    call_typed c ∧ ∀ lease, uses c lease → given calls i lease.

Lemma collect_results_elem {A B E} (f : A → result B E) l ys y :
  collect_results f l = Ok ys → y ∈ ys → ∃ x, x ∈ l ∧ f x = Ok y.
Proof using Type.
  revert ys. induction l as [|x l IH]; cbn; intros ys Hys Hy.
  - injection Hys as <-. by apply elem_of_nil in Hy.
  - inv_ok Hys. subst ys. apply elem_of_cons in Hy as [->|Hy]; [eauto using list_elem_of_here|].
    destruct (IH _ Hx0 Hy) as (z&?&?). eauto using list_elem_of_further.
Qed.

Lemma listed_record db leases lease :
  list_leased_maker_actors db = Ok leases → lease ∈ leases →
  ∃ row, db.(db_processes) !! SwapId_as_str (lease_swap lease) = Some row ∧
    record_of (SwapId_as_str (lease_swap lease)) row lease.(lease_record) ∧
    fenced lease.(lease_owner) lease.(lease_generation) row = true.
Proof using Type.
  unfold list_leased_maker_actors, list_records. intros Hl Hin. inv_ok Hl.
  apply (collect_results_elem _ _ _ _ Hl) in Hin as (record&Hrec&Hlease). inv_ok Hlease.
  apply ok_or_Ok in Hx0. subst lease. unfold lease_swap. cbn.
  apply (collect_results_elem _ _ _ _ Hx) in Hrec as ([k row]&Hrow&Hd).
  rewrite merge_sort_Permutation in Hrow.
  apply list_elem_of_filter in Hrow as [Hs%bool_decide_eq_true Hrow%elem_of_map_to_list].
  apply decode_record_Ok in Hd. cbn in Hd, Hs. rewrite <- (of_swap _ _ _ Hd). exists row. split_and!; [done..|].
  apply (record_fenced k row record); try done.
  rewrite (of_state _ _ _ Hd) in Hs. by apply (schedule_name_inj _ Schedule_Leased).
Qed.

Lemma before_le calls i j : (i ≤ j)%nat → actor_le (db_before calls i) (db_before calls j).
Proof using Type.
  intros Hij. apply (run_take_grow actor_call (λ _, True) (λ _, True)); try done;
    [apply _|intros; apply actor_call_le|by apply Forall_true].
Qed.

Lemma given_kept calls i lease : given calls i lease → lease_kept (db_before calls i) lease.
Proof using Type.
  intros (l&owner&->&[(n&c&Hlt&Hn)|(n&leases&Hle&Hl&Hin)]);
    change (lease_kept (db_before calls i) l).
  - destruct (position_grow _ _ _ _ _ Hn Hlt) as [Ho Hgrow].
    destruct (granted_fences _ _ _ (eq_sym Ho)) as (_&row&_&Hrow&_&_&Hof).
    eapply lease_kept_le; [done|]. exists row. split; [done|apply Hof].
  - destruct (listed_record _ _ _ Hl Hin) as (row&Hrow&Hof&_).
    eapply lease_kept_le; [by apply before_le|]. exists row. split; [done|apply Hof].
Qed.

Lemma before_typed calls n : run_typed calls → (n ≤ length calls)%nat → db_typed (db_before calls n).
Proof using Type.
  intros Hr. induction n as [|n IH]; intros Hn; [apply db_typed_empty|].
  destruct (lookup_lt_is_Some_2 calls n) as [[c f] Hc]; [lia|].
  rewrite (take_S_r _ _ _ Hc), run_snoc. specialize (IH ltac:(lia)).
  destruct (Hr _ _ _ Hc) as [Htc Hl].
  assert (Hstep : db_typed (actor_call (db_before calls n) c).1).
  { apply actor_call_typed; [apply actor_run_inv|done..|]. intros lease Hu. by apply given_kept, Hl. }
  by destruct f.
Qed.

Lemma run_typed_inv calls : run_typed calls → db_typed (actor_run start calls).
Proof using Type.
  intros Hr. rewrite <- (firstn_all calls). by apply before_typed.
Qed.
End typed.
