(* ===== verification/ActorReads.v ===== *)
(** * Reading the actor tables

    After every run of well-formed calls the monitor and the listings return, the
    listings of due and of leased processes are complete, and a request that is
    repeated gets the answer it got before. *)

From stdpp Require Import base gmap strings list numbers sorting.
From S2P Require Import Prelude SwapCore BridgeValues MakerMarket SqlTable StoreBase MakerConfiguration ActorProcess ActorScheduler ActorFacts ActorInvariant ActorTheorems ActorIntegrity.

Open Scope Z_scope.

Section reads.
Context `{ActorJson}.

(** ** Reading a typed database *)

Section one.
Variable db : ActorDb.
Hypothesis Hinv : actor_inv db.
Hypothesis Htyped : db_typed db.

Lemma row_readable k row :
  db.(db_processes) !! k = Some row → ∃ r, decode_record k row = Ok r.
Proof using Hinv Htyped.
  intros Hk. apply decode_record_total; [by apply (inv_rows _ Hinv)|by apply (typed_rows _ Htyped)].
Qed.

Lemma load_record_total swap :
  ∃ r, load_record db swap = Ok r ∧
    (r = None ↔ db.(db_processes) !! SwapId_as_str swap = None).
Proof using Hinv Htyped.
  unfold load_record. destruct (db_processes db !! _) as [row|] eqn:Hrow; [|by exists None].
  destruct (row_readable _ _ Hrow) as [r Hr]. exists (Some r). cbn. by rewrite Hr.
Qed.

Lemma action_readable r arow :
  db.(db_actions) !! r = Some arow → ∃ a, decode_manual_action r arow = Ok a.
Proof using Hinv Htyped.
  intros Hr. destruct (inv_actions _ Hinv _ _ Hr) as (row&Hrow&Hc&_&Hl).
  pose proof (typed_rows _ Htyped _ _ Hrow) as Ht.
  apply decode_action_total; [done|by eapply (typed_actions _ Htyped)|apply Ht|].
  destruct (ack_lease _ (proj1 (action_check_spec _ _) Hc)) as [(Hs&_)|(_&->&_)]; [|done].
  destruct (Hl Hs) as (_&->&_). apply Ht.
Qed.

Lemma selected_readable p :
  ∃ a, transpose (λ kr : string * ActionRow, decode_manual_action kr.1 kr.2) (select_action db p)
       = Ok a.
Proof using Hinv Htyped.
  destruct (select_action db p) as [[k row]|] eqn:Hs; [|by exists None].
  apply select_action_Some in Hs as (Hk&_). destruct (action_readable _ _ Hk) as [a Ha].
  cbn. rewrite Ha. eauto.
Qed.

Lemma load_open_total swap : ∃ a, load_open_manual_action db swap = Ok a.
Proof using Hinv Htyped. apply selected_readable. Qed.

Lemma load_latest_total swap :
  ∃ a, load_latest_manual_action db swap = Ok a ∧
    ∀ s, a = Some s → s.(snapshot_swap_id) = swap.
Proof using Hinv Htyped.
  unfold load_latest_manual_action. edestruct selected_readable as [a Ha].
  exists a. split; [exact Ha|]. intros s ->.
  apply transpose_Ok in Ha as [[_ [=]]|([k row]&s'&Hs&[= <-]&Hd)].
  apply select_action_Some in Hs as (_&Hw%bool_decide_eq_true&_).
  apply decode_manual_action_Ok in Hd. cbn in Hd. apply SwapId_as_str_inj.
  by rewrite <- (of_action_swap _ _ _ Hd).
Qed.

(** ** Listings *)

Lemma list_records_total state :
  ∃ records, list_records db state = Ok records ∧
    Forall2 (λ kr r, decode_record kr.1 kr.2 = Ok r)
      (merge_sort process_key_le
         (filter (λ kr : string * ProcessRow,
                    match state with
                    | Some state => kr.2.(row_schedule).(sch_state) ==? schedule_name state
                    | None => true
                    end = true) (map_to_list db.(db_processes)))) records.
Proof using Hinv Htyped.
  unfold list_records. apply collect_results_Ok. intros [k row] Hin.
  rewrite merge_sort_Permutation in Hin.
  apply list_elem_of_filter in Hin as [_ Hin%elem_of_map_to_list]. by apply row_readable.
Qed.

(** Every leased process is listed, with the lease that is in force. *)
Lemma list_leased_total :
  ∃ leases, list_leased_maker_actors db = Ok leases ∧
    ∀ k row, db.(db_processes) !! k = Some row → state_of row = "leased" →
    ∃ lease, lease ∈ leases ∧ SwapId_as_str (lease_swap lease) = k ∧
      fenced lease.(lease_owner) lease.(lease_generation) row = true.
Proof using Hinv Htyped.
  unfold list_leased_maker_actors.
  destruct (list_records_total (Some Schedule_Leased)) as (records&Hrec&HF).
  rewrite Hrec. cbn [result_bind].
  assert (Hall : ∀ record, record ∈ records → ∃ owner, process_lease_owner record = Some owner).
  { intros record [i Hi]%list_elem_of_lookup.
    destruct (Forall2_lookup_r _ _ _ _ _ HF Hi) as ([k row]&Hk&Hd).
    apply list_elem_of_lookup_2 in Hk. rewrite merge_sort_Permutation in Hk.
    apply list_elem_of_filter in Hk as [Hs%bool_decide_eq_true Hk%elem_of_map_to_list].
    apply decode_record_Ok in Hd. cbn in Hd, Hs.
    destruct (inv_rows _ Hinv _ _ Hk) as [Hc%process_check_spec _].
    destruct (ck_lease _ Hc) as [(_&[b Hb]&_)|(Hn&_)]; [|done].
    rewrite (of_owner _ _ _ Hd) in Hb. destruct (process_lease_owner record); [eauto|done]. }
  destruct (collect_results_Ok (λ record,
    let? owner := ok_or record.(process_lease_owner) Actor_CorruptRecord in
    Ok {| lease_record := record; lease_owner := owner;
          lease_generation := record.(process_lease_generation) |}) records) as (leases&Hl&HL).
  { intros record Hin. destruct (Hall _ Hin) as [owner ->]. cbn. eauto. }
  exists leases. split; [done|]. intros k row Hk Hs.
  assert (Hin : (k, row) ∈ merge_sort process_key_le
    (filter (λ kr : string * ProcessRow, (state_of kr.2 ==? schedule_name Schedule_Leased) = true)
       (map_to_list db.(db_processes)))).
  { rewrite merge_sort_Permutation. apply list_elem_of_filter.
    split; [by apply bool_decide_eq_true|by apply elem_of_map_to_list]. }
  apply list_elem_of_lookup in Hin as [i Hi].
  destruct (Forall2_lookup_l _ _ _ _ _ HF Hi) as (record&Hr&Hd%decode_record_Ok). cbn in Hd.
  destruct (Forall2_lookup_l _ _ _ _ _ HL Hr) as (lease&Hlease&Hok).
  destruct (Hall _ ltac:(by eapply list_elem_of_lookup_2)) as [owner Ho]. rewrite Ho in Hok.
  injection Hok as <-. eexists. split; [by eapply list_elem_of_lookup_2|]. unfold lease_swap. cbn.
  split; [by rewrite (of_swap _ _ _ Hd)|]. apply (record_fenced k row record); try done.
  rewrite (of_state _ _ _ Hd) in Hs. by apply (schedule_name_inj _ Schedule_Leased).
Qed.

(** The due processes in order of their time, cut off at the limit. *)
Lemma list_due_total now limit :
  1 ≤ limit ≤ MAX_DUE_LIMIT →
  ∃ ids, list_due_maker_actor_ids db now limit = Ok ids ∧ Z.of_nat (length ids) ≤ limit ∧
    (∀ id, id ∈ ids → ∃ row, db.(db_processes) !! SwapId_as_str id = Some row ∧
       due (time_to_sql now) row = true) ∧
    (Z.of_nat (length ids) < limit → ∀ k row, db.(db_processes) !! k = Some row →
       due (time_to_sql now) row = true → {| SwapId_as_str := k |} ∈ ids).
Proof using Hinv Htyped.
  intros Hlim. unfold list_due_maker_actor_ids.
  rewrite (proj2 (Z.ltb_ge limit 1)), (proj2 (Z.ltb_ge MAX_DUE_LIMIT limit)) by lia. cbn.
  set (rows := merge_sort due_le _).
  assert (Hrows : ∀ k row, (k, row) ∈ rows ↔
    db.(db_processes) !! k = Some row ∧ due (time_to_sql now) row = true).
  { intros k row. unfold rows. rewrite merge_sort_Permutation, list_elem_of_filter, elem_of_map_to_list.
    cbn. tauto. }
  assert (Hid : ∀ k row, (k, row) ∈ rows → SwapId_new k = Ok {| SwapId_as_str := k |}).
  { intros k row [Hk _]%Hrows. apply SwapId_new_total, (typed_rows _ Htyped _ _ Hk). }
  destruct (collect_results_Ok (λ kr : string * ProcessRow,
    map_err (SwapId_new kr.1) (λ _, Actor_CorruptRecord)) (take (Z.to_nat limit) rows))
    as (ids&Hids&HF).
  { intros [k row] (i&Hin%list_elem_of_lookup_2&_)%elem_of_take. cbn. rewrite (Hid _ _ Hin). cbn. eauto. }
  exists ids. split; [done|]. pose proof (Forall2_length _ _ _ HF) as Hlen.
  rewrite length_take in Hlen. split_and!; [lia| |].
  - intros id [i Hi]%list_elem_of_lookup.
    destruct (Forall2_lookup_r _ _ _ _ _ HF Hi) as ([k row]&Hk&Hd).
    apply list_elem_of_lookup_2, elem_of_take in Hk as (q&Hk%list_elem_of_lookup_2&_). cbn in Hd. rewrite (Hid _ _ Hk) in Hd.
    injection Hd as <-. exists row. by apply Hrows.
  - intros Hlt k row Hk Hdue. assert (Hin : (k, row) ∈ rows) by (by apply Hrows).
    rewrite take_ge in HF by lia. apply list_elem_of_lookup in Hin as [i Hi].
    destruct (Forall2_lookup_l _ _ _ _ _ HF Hi) as (id&Hd&Hok). cbn in Hok.
    rewrite (Hid k row) in Hok by (by eapply list_elem_of_lookup_2). injection Hok as <-.
    by eapply list_elem_of_lookup_2.
Qed.

Context {Hlaws : ActorJsonLaws}.

Lemma load_progress_total swap record :
  load_record db swap = Ok (Some record) →
  ∃ p, load_actor_progress db swap = Ok p ∧
    ∀ s, p = Some s → s.(progress_actor_kind) = record.(process_manifest).(manifest_kind).
Proof using Hinv Htyped Hlaws.
  intros (row&Hrow&Hof)%load_record_Some. unfold load_actor_progress. rewrite Hrow.
  destruct (db_progress db !! _) as [p|] eqn:Hp; [|by exists None].
  destruct (typed_progress _ Htyped _ _ _ Hp Hrow) as (Hk&o&Hj&Hv).
  destruct (inv_progress _ Hinv _ _ Hp) as [Hc _]. unfold progress_check in Hc. bool_props.
  pose proof (typed_swap _ _ (typed_rows _ Htyped _ _ Hrow)) as Hid.
  unfold decode_actor_progress. rewrite Hj, progress_round_trip, Hk, (of_kind _ _ _ Hof).
  rewrite bool_decide_eq_true_2 by done.
  replace (prog_payload_version p =? 1) with true by (symmetry; by apply Z.eqb_eq). cbn.
  rewrite Hv, SwapId_new_total, kind_parse_name, !decode_u64_total by (done || lia). cbn.
  eexists. split; [done|]. by intros s [= <-].
Qed.

Lemma monitor_total swap :
  ∃ m, maker_actor_monitor_snapshot db swap = Ok m ∧
    (m = None ↔ db.(db_processes) !! SwapId_as_str swap = None).
Proof using Hinv Htyped Hlaws.
  unfold maker_actor_monitor_snapshot. destruct (load_record_total swap) as (r&Hr&Hnone).
  rewrite Hr. cbn. destruct r as [record|]; [|exists None; tauto].
  destruct (load_progress_total _ _ Hr) as (p&Hp&Hkind). rewrite Hp. cbn.
  destruct (load_latest_total swap) as (a&Ha&Hswap). rewrite Ha. cbn.
  assert (Hid : manifest_swap_id (process_manifest record) = swap).
  { apply load_record_Some in Hr as (row&_&Hof). apply SwapId_as_str_inj.
    by rewrite (of_swap _ _ _ Hof). }
  eexists. split.
  - destruct p as [s|], a as [t|]; cbn;
      rewrite ?(Hkind _ eq_refl), ?(Hswap _ eq_refl), ?Hid, ?bool_decide_eq_true_2 by done; done.
  - split; [done|]. intros Hx. by apply Hnone in Hx.
Qed.

(** ** Requests *)

Lemma queue_replays rid req swap action generation now :
  db.(db_requests) !! RequestId_as_str rid = Some req → req.(req_operation) = ACTOR_REQUEST →
  req.(req_request_json) = manual_request_to_json swap action generation →
  actor_call db (Call_queue rid swap action generation now)
  = (db, Accepted_request {| commit_requested_after_generation := generation;
                             commit_was_replay := true |}).
Proof using Hinv Htyped Hlaws.
  intros Hreq Hop Hj. cbn [actor_call]. unfold queue_maker_actor_manual_action,
    replay_manual_action_request, load_manual_action_by_request.
  destruct (typed_requests _ Htyped _ _ Hreq Hop) as [(s&a&g&Hj'&Hres&[arow Harow])|(s&g&h&Hj')];
    rewrite Hj in Hj'; [|by apply requests_disjoint in Hj'].
  apply manual_request_inj in Hj' as (->&->&->).
  destruct (action_readable _ _ Harow) as [snap Hsnap].
  rewrite Hreq, Hop, Hj, !bool_decide_eq_true_2, Hres, manual_result_round_trip by done. cbn.
  rewrite Harow. cbn. rewrite Hsnap. done.
Qed.

Lemma queue_conflicts rid req swap action generation now :
  db.(db_requests) !! RequestId_as_str rid = Some req →
  req.(req_request_json) ≠ manual_request_to_json swap action generation →
  actor_call db (Call_queue rid swap action generation now)
  = (db, Refused_call ManualActionRequestConflict).
Proof using Type.
  intros Hreq Hj. cbn [actor_call].
  unfold queue_maker_actor_manual_action, replay_manual_action_request.
  rewrite Hreq, (bool_decide_eq_false_2 (_ = manual_request_to_json _ _ _)), orb_true_r by done. done.
Qed.

Lemma repin_conflicts rid req swap generation sha now :
  db.(db_requests) !! RequestId_as_str rid = Some req →
  req.(req_request_json) ≠ repin_request_to_json swap generation sha →
  actor_call db (Call_repin rid swap generation sha now)
  = (db, Refused_call ManualActionRequestConflict).
Proof using Type.
  intros Hreq Hj. cbn [actor_call]. unfold repin_maker_actor_program.
  rewrite Hreq, (bool_decide_eq_false_2 (_ = repin_request_to_json _ _ _)), orb_true_r by done. done.
Qed.
End one.

Lemma accepted_request_row db rid swap action generation now commit :
  let c := Call_queue rid swap action generation now in
  (actor_call db c).2 = Accepted_request commit →
  ∃ req, (actor_call db c).1.(db_requests) !! RequestId_as_str rid = Some req ∧
    req.(req_operation) = ACTOR_REQUEST ∧
    req.(req_request_json) = manual_request_to_json swap action generation.
Proof using Type.
  intros c Ho. destruct (db.(db_requests) !! RequestId_as_str rid) as [req|] eqn:Hreq.
  - assert (Hm : req.(req_operation) = ACTOR_REQUEST ∧
      req.(req_request_json) = manual_request_to_json swap action generation).
    { subst c. cbn in Ho. unfold queue_maker_actor_manual_action, replay_manual_action_request in Ho.
      rewrite Hreq in Ho. destruct (reject_if _ ManualActionRequestConflict) eqn:Hr; [|done].
      apply reject_if_Ok in Hr. by bool_props. }
    destruct (le_requests _ _ (actor_call_le db c) _ _ Hreq) as (req'&Hreq'&<-). eauto.
  - subst c. cbn in Ho |- *.
    destruct (queue_maker_actor_manual_action _ _ _ _ _ _) as [d [r|]] eqn:Hq; [|done].
    apply queue_effect in Hq as [[_ [? Hx]]|He]; [congruence|]. cbn.
    inversion He; subst. cbn. rewrite lookup_insert_eq. eauto.
Qed.

(** ** Runs *)

Context {Hlaws : ActorJsonLaws}.

(** The tables stay readable.  After every run of calls with well-formed
    arguments and leases the store gave out, the monitor answers for every swap;
    all processes are listed; the listing of leases holds the lease in force of
    every leased process, so that after a restart each can be recovered; and the
    listing of due processes returns due ones only, and all of them unless it is
    full. *)
Theorem actor_records_readable calls :
  run_typed calls →
  let db := actor_run start calls in
  (∀ swap, ∃ m, maker_actor_monitor_snapshot db swap = Ok m ∧
     (m = None ↔ db.(db_processes) !! SwapId_as_str swap = None)) ∧
  (∃ records, list_maker_actor_processes db = Ok records ∧
     length records = size db.(db_processes)) ∧
  (∃ leases, list_leased_maker_actors db = Ok leases ∧
     ∀ k row, db.(db_processes) !! k = Some row → state_of row = "leased" →
     ∃ lease, lease ∈ leases ∧ SwapId_as_str (lease_swap lease) = k ∧
       fenced lease.(lease_owner) lease.(lease_generation) row = true) ∧
  (∀ now limit, 1 ≤ limit ≤ MAX_DUE_LIMIT →
     ∃ ids, list_due_maker_actor_ids db now limit = Ok ids ∧ Z.of_nat (length ids) ≤ limit ∧
       (∀ id, id ∈ ids → ∃ row, db.(db_processes) !! SwapId_as_str id = Some row ∧
          due (time_to_sql now) row = true) ∧
       (Z.of_nat (length ids) < limit → ∀ k row, db.(db_processes) !! k = Some row →
          due (time_to_sql now) row = true → {| SwapId_as_str := k |} ∈ ids)).
Proof using Hlaws.
  intros Hr db. pose proof (actor_run_inv calls) as Hinv. pose proof (run_typed_inv _ Hr) as Ht.
  split_and!.
  - intros swap. by apply monitor_total.
  - destruct (list_records_total db Hinv Ht None) as (records&Hl&HF). exists records.
    split; [done|]. rewrite <- (Forall2_length _ _ _ HF), merge_sort_Permutation.
    rewrite <- length_map_to_list. clear HF. induction (map_to_list _) as [|x l IH]; [done|].
    rewrite filter_cons_True by done. cbn. congruence.
  - by apply list_leased_total.
  - intros now limit. by apply list_due_total.
Qed.

(** A request takes effect once.  After a request for an owner's action was
    accepted, every later delivery of it gets the same answer, marked as a
    replay, and another request under its identifier, for an action or for a
    program, is refused; none of them changes anything. *)
Theorem actor_requests_idempotent calls i n rid swap action generation now commit :
  run_typed calls →
  at_position calls i
  = Some (Call_queue rid swap action generation now, Accepted_request commit) →
  (i < n ≤ length calls)%nat →
  let db := db_before calls n in
  (∀ now', actor_call db (Call_queue rid swap action generation now')
     = (db, Accepted_request {| commit_requested_after_generation := generation;
                                commit_was_replay := true |})) ∧
  (∀ swap' action' generation' now', (swap', action', generation') ≠ (swap, action, generation) →
     actor_call db (Call_queue rid swap' action' generation' now')
     = (db, Refused_call ManualActionRequestConflict)) ∧
  (∀ swap' generation' sha now', actor_call db (Call_repin rid swap' generation' sha now')
     = (db, Refused_call ManualActionRequestConflict)).
Proof using Hlaws.
  intros Hr Hi [Hin Hn] db. pose proof (before_typed calls n Hr Hn) as Ht.
  assert (Hinv : actor_inv db) by apply actor_run_inv.
  destruct (position_grow _ _ _ _ _ Hi Hin) as [Ho Hle].
  destruct (accepted_request_row _ _ _ _ _ _ _ (eq_sym Ho)) as (req&Hreq&Hop&Hj).
  destruct (le_requests _ _ Hle _ _ Hreq) as (req'&Hreq'&<-). fold db in Hreq'. split_and!.
  - intros now'. by apply (queue_replays db Hinv Ht rid req).
  - intros s a g now' Hne. apply (queue_conflicts db rid req); [done|]. rewrite Hj.
    intros (->&->&->)%manual_request_inj. done.
  - intros s g h now'. apply (repin_conflicts db rid req); [done|]. rewrite Hj. apply requests_disjoint.
Qed.
End reads.
