(* ===== verification/ActorLiveness.v ===== *)
(** * A due actor gets its turn

    A due process can be claimed, the owner's action that waits for it is handed
    to that lease, and the attempt can be resolved in every way the daemon may
    choose. *)

From stdpp Require Import base gmap strings list numbers sorting.
From S2P Require Import Prelude SwapCore BridgeValues MakerMarket SqlTable StoreBase MakerConfiguration ActorProcess ActorScheduler ActorFacts ActorInvariant ActorTheorems ActorIntegrity ActorReads.

Open Scope Z_scope.

(** ** Statements that go through *)

Lemma update_process_hit db k where_ set row :
  db.(db_processes) !! k = Some row → where_ row = true → process_check k (set row) = true →
  update_process db k where_ set = Ok (put_process db k (set row), 1).
Proof. intros Hk Hw Hc. unfold update_process, sql_update. by rewrite Hk, Hw, Hc. Qed.

Lemma update_one_action_hit db rid where_ set row :
  db.(db_actions) !! RequestId_as_str rid = Some row → where_ row = true →
  action_check (RequestId_as_str rid) (set row) = true →
  update_one_action db rid where_ set = Ok (put_action db (RequestId_as_str rid) (set row)).
Proof. intros Hk Hw Hc. unfold update_one_action, update_action, sql_update. by rewrite Hk, Hw, Hc. Qed.

Lemma generation_to_sql_total g : g ≤ i64_max → generation_to_sql g = Ok g.
Proof. intros Hg. unfold generation_to_sql. by rewrite (proj2 (Z.ltb_ge i64_max g)). Qed.

Lemma load_record_of db swap row r :
  db.(db_processes) !! SwapId_as_str swap = Some row →
  decode_record (SwapId_as_str swap) row = Ok r → load_record db swap = Ok (Some r).
Proof. intros Hk Hd. unfold load_record. rewrite Hk. cbn. by rewrite Hd. Qed.

Lemma time_to_sql_range t : 0 ≤ t → 0 ≤ time_to_sql t ≤ i64_max.
Proof. unfold time_to_sql, i64_max. lia. Qed.

(** ** The steps of an attempt *)

Lemma claimed_checked k owner now row :
  process_check k row = true → gen row = row.(row_schedule).(sch_attempt_count) →
  gen row < i64_max → owner_typed owner → 0 ≤ now → row.(row_pin).(pin_created_at) ≤ now →
  process_check k (leased_to owner now row) = true.
Proof.
  intros Hc%process_check_spec Hatt Hg [Hlen _] Hnow Hcr. apply process_check_spec.
  pose proof (ck_generation _ Hc). pose proof (ck_times _ Hc).
  split; cbn; try done; try lia; try apply Hc; try (by intros ? [= <-]). left. split_and!; eauto.
Qed.

Lemma resolved_checked k resolution state next failure now row :
  process_check k row = true → resolution_fields resolution = Ok (state, next, failure) →
  0 ≤ next → 0 ≤ now → row.(row_pin).(pin_created_at) ≤ now →
  process_check k (resolved state (time_to_sql next) failure now row) = true.
Proof.
  intros Hc%process_check_spec Hres%resolved_idle Hnext Hnow Hcr. apply process_check_spec.
  pose proof (ck_times _ Hc). pose proof (time_to_sql_range _ Hnext).
  split; cbn; try done; try lia; try apply Hc; [by destruct state|].
  right. split_and!; try done. by destruct state.
Qed.

Lemma handed_checked k owner generation row :
  action_check k row = true → owner_typed owner → 0 < generation →
  action_check k (action_with "leased" (Some owner) (Some generation) row.(act_updated_at) row) = true.
Proof.
  intros Hc%action_check_spec [Hlen _] Hg. apply action_check_spec.
  split; cbn; try apply Hc; try done; [by intros ? [= <-]|]. left. split_and!; eauto.
Qed.

Lemma ended_checked k state now row :
  action_check k row = true → state ≠ Action_Leased → row.(act_created_at) ≤ now →
  action_check k (action_with (action_state_name state) None None now row) = true.
Proof.
  intros Hc%action_check_spec Hs Hnow. apply action_check_spec. pose proof (ack_times _ Hc).
  split; cbn; try done; try lia; try apply Hc; [by destruct state|].
  right. split_and!; try done. by destruct state.
Qed.

Section liveness.
Context `{ActorJson}.

(** What a lease needs to act: the process holds it, and it carries its record. *)
Record holds (db : ActorDb) (lease : MakerActorLeaseV1) (row : ProcessRow) : Prop := {
  holds_row : db.(db_processes) !! SwapId_as_str (lease_swap lease) = Some row;
  holds_fence : fenced lease.(lease_owner) lease.(lease_generation) row = true;
  holds_record : decode_record (SwapId_as_str (lease_swap lease)) row = Ok lease.(lease_record);
  holds_owner : owner_typed lease.(lease_owner)
}.

Lemma claim_goes_through db swap row owner now :
  actor_inv db → db_typed db → db.(db_processes) !! SwapId_as_str swap = Some row →
  due (time_to_sql now) row = true → gen row < i64_max → owner_typed owner → 0 ≤ now →
  row.(row_pin).(pin_created_at) ≤ time_to_sql now →
  ∃ lease, actor_call db (Call_claim swap owner now)
    = (put_process db (SwapId_as_str swap) (leased_to owner (time_to_sql now) row), Granted lease) ∧
    lease_swap lease = swap ∧ lease.(lease_owner) = owner ∧ lease.(lease_generation) = gen row + 1 ∧
    holds (put_process db (SwapId_as_str swap) (leased_to owner (time_to_sql now) row)) lease
      (leased_to owner (time_to_sql now) row).
Proof using Type.
  intros Hinv Ht Hrow Hdue Hg Ho Hnow Hcr. destruct (inv_rows _ Hinv _ _ Hrow) as [Hc Hatt].
  pose proof (time_to_sql_range _ Hnow).
  assert (Hck : process_check (SwapId_as_str swap) (leased_to owner (time_to_sql now) row) = true)
    by (apply claimed_checked; (done || lia)).
  set (row' := leased_to _ _ _) in *.
  destruct (decode_record_total _ row' Hck) as [r Hd].
  { apply (row_typed_same _ row); try done; [by apply (typed_rows _ Ht)|].
    by apply owner_typed_nonzero. }
  pose proof (decode_record_Ok _ _ _ Hd) as Hof.
  assert (Hrow' : db_processes (put_process db (SwapId_as_str swap) row') !! SwapId_as_str swap
                  = Some row') by apply lookup_insert_eq.
  assert (Hown : process_lease_owner r = Some owner).
  { pose proof (of_owner _ _ _ Hof) as Hb. destruct (process_lease_owner r) as [o|]; [|done].
    cbn in Hb. injection Hb as Hb. by rewrite (owner_bytes_inj _ _ Hb). }
  assert (Hst : process_schedule_state r = Schedule_Leased).
  { apply schedule_name_inj. by rewrite <- (of_state _ _ _ Hof). }
  assert (Hsw : manifest_swap_id (process_manifest r) = swap).
  { apply SwapId_as_str_inj. by rewrite (of_swap _ _ _ Hof). }
  exists {| lease_record := r; lease_owner := owner;
            lease_generation := process_lease_generation r |}.
  cbn [actor_call]. unfold claim_maker_actor.
  rewrite (update_process_hit _ _ _ (leased_to owner (time_to_sql now)) row Hrow Hdue Hck). cbn [result_bind Z.eqb]. fold row'.
  rewrite (load_record_of _ _ _ _ Hrow' Hd). cbn.
  rewrite Hown, Hst, !bool_decide_eq_true_2 by done. cbn.
  split_and!; [done|done|done|by rewrite <- (of_generation _ _ _ Hof)|].
  split; unfold lease_swap; cbn; rewrite ?Hsw; try done.
  apply fenced_spec. split_and!; [done..|apply (of_generation _ _ _ Hof)].
Qed.

Lemma held_record db lease row :
  holds db lease row →
  load_record db (lease_swap lease) = Ok (Some lease.(lease_record)) ∧
  lease.(lease_record).(process_schedule_state) = Schedule_Leased ∧
  lease.(lease_record).(process_lease_owner) = Some lease.(lease_owner) ∧
  lease.(lease_record).(process_lease_generation) = lease.(lease_generation).
Proof using Type.
  intros [Hrow (Hs&Ho&Hg)%fenced_spec Hd _]. pose proof (decode_record_Ok _ _ _ Hd) as Hof.
  split_and!; [by eapply load_record_of| | |by rewrite <- (of_generation _ _ _ Hof)].
  - apply schedule_name_inj. by rewrite <- (of_state _ _ _ Hof).
  - rewrite (of_owner _ _ _ Hof) in Ho. destruct (process_lease_owner _) as [o|]; [|done].
    cbn in Ho. injection Ho as Ho. by rewrite (owner_bytes_inj _ _ Ho).
Qed.

Definition handed_row (lease : MakerActorLeaseV1) (arow : ActionRow) : ActionRow :=
  action_with "leased" (Some lease.(lease_owner)) (Some lease.(lease_generation))
    arow.(act_updated_at) arow.

(** The open action of a swap, read back. *)
Lemma load_open_cases db swap :
  actor_inv db → db_typed db →
  (load_open_manual_action db swap = Ok None ∧ no_open db (SwapId_as_str swap)) ∨
  (∃ k row a, load_open_manual_action db swap = Ok (Some a) ∧
     open_action db (SwapId_as_str swap) k row ∧ snapshot_of k row a).
Proof using Type.
  intros Hinv Ht. destruct (load_open_total db Hinv Ht swap) as [a Ha].
  destruct (load_open_Ok _ _ _ Ha) as [[-> ?]|(k&row&s&->&?&?)]; eauto 10.
Qed.

Lemma hand_goes_through db lease row :
  actor_inv db → db_typed db → holds db lease row →
  0 < lease.(lease_generation) ≤ i64_max →
  (∀ r arow, open_action db (SwapId_as_str (lease_swap lease)) r arow →
     arow.(act_state) = "queued" ∧ arow.(act_requested_after) < lease.(lease_generation)) →
  (actor_call db (Call_claim_action lease) = (db, Action_handed None) ∧
   no_open db (SwapId_as_str (lease_swap lease))) ∨
  (∃ r arow a, open_action db (SwapId_as_str (lease_swap lease)) r arow ∧
     snapshot_of r (handed_row lease arow) a ∧
     actor_call db (Call_claim_action lease)
     = (put_action db r (handed_row lease arow), Action_handed (Some a))).
Proof using Type.
  intros Hinv Ht Hh Hg Hq. destruct (held_record _ _ _ Hh) as (Hload&Hs&Ho&Hgen).
  cbn [actor_call]. unfold claim_maker_actor_manual_action. rewrite Hload. cbn.
  rewrite Hs, Ho, Hgen, Z.eqb_refl, !bool_decide_eq_true_2 by done. cbn.
  destruct (load_open_cases db (lease_swap lease) Hinv Ht) as [[-> Hno]|(r&arow&s&->&Hopen&Hof)];
    [by left|right]. cbn. pose proof (of_request _ _ _ Hof) as Hreq. subst r.
  destruct (Hq _ _ Hopen) as [Hst Hlt]. pose proof Hopen as (Hr&Hsw&_).
  destruct (inv_actions _ Hinv _ _ Hr) as (row0&Hrow0&Hack&_).
  assert (Hck : action_check (RequestId_as_str (snapshot_request_id s)) (handed_row lease arow) = true)
    by (apply handed_checked; [done|apply Hh|lia]).
  assert (snapshot_action_state s = Action_Queued) as ->.
  { apply action_state_name_inj. by rewrite <- (of_action_state _ _ _ Hof). }
  rewrite (of_requested _ _ _ Hof) in Hlt.
  rewrite (proj2 (Z.ltb_ge _ _)), (proj2 (Z.eqb_neq _ _)), generation_to_sql_total by lia. cbn.
  destruct (decode_action_total _ _ Hck) as [a Ha]; [by eapply (typed_actions _ Ht)| | |].
  { cbn. apply (typed_rows _ Ht _ _ Hrow0). }
  { apply owner_typed_nonzero, Hh. }
  exists (RequestId_as_str (snapshot_request_id s)), arow, a.
  split_and!; [done|by apply decode_manual_action_Ok|].
  rewrite (update_one_action_hit _ _ _ (handed_row lease) arow Hr); [|by apply bool_decide_eq_true|done].
  cbn [result_bind]. unfold load_manual_action_by_request. cbn. rewrite lookup_insert_eq. cbn.
  by rewrite Ha.
Qed.

(** The open action is the one the lease was handed. *)
Lemma end_goes_through db lease resolution now :
  actor_inv db → db_typed db → lease.(lease_generation) ≤ i64_max →
  (∀ r arow, open_action db (SwapId_as_str (lease_swap lease)) r arow →
     action_fenced lease.(lease_owner) lease.(lease_generation) arow = true ∧
     arow.(act_created_at) ≤ now) →
  ∃ action d, load_open_manual_action db (lease_swap lease) = Ok action ∧
    d.(db_processes) = db.(db_processes) ∧ d.(db_progress) = db.(db_progress) ∧
    ∀ k row, match action with
      | None => Ok (put_process db k row)
      | Some action => resolve_action (put_process db k row) lease lease.(lease_generation)
                         (manual_state_of resolution) action now
      end = Ok (put_process d k row).
Proof using Type.
  intros Hinv Ht Hg Hopen.
  destruct (load_open_cases db (lease_swap lease) Hinv Ht) as [[-> _]|(r&arow&s&->&Ho&Hof)];
    [by exists None, db|].
  destruct (Hopen _ _ Ho) as [(Hst&How&Hgen)%action_fenced_spec Hcr]. pose proof Ho as (Hr&_).
  pose proof (of_request _ _ _ Hof) as Hreq. subst r.
  destruct (inv_actions _ Hinv _ _ Hr) as (_&_&Hck&_).
  exists (Some s), (put_action db (RequestId_as_str (snapshot_request_id s))
    (action_with (action_state_name (manual_state_of resolution)) None None now arow)).
  split_and!; try done. intros k row. unfold resolve_action.
  assert (snapshot_action_state s = Action_Leased) as ->.
  { apply action_state_name_inj. by rewrite <- (of_action_state _ _ _ Hof). }
  assert (held_by lease s = true) as ->.
  { unfold held_by. rewrite (of_action_owner _ _ _ Hof) in How.
    rewrite (of_action_generation _ _ _ Hof) in Hgen. rewrite Hgen.
    destruct (snapshot_lease_owner s) as [o|]; [|done]. injection How as How%owner_bytes_inj.
    subst o. by rewrite !bool_decide_eq_true_2. }
  by rewrite (update_one_action_hit _ _ _ _ arow);
    [|done|apply action_fenced_spec|apply ended_checked; [|apply manual_state_idle|]].
Qed.

Lemma progress_goes_through db lease progress now row :
  actor_inv db → db.(db_processes) !! SwapId_as_str (lease_swap lease) = Some row →
  gen row = lease.(lease_generation) → 0 < lease.(lease_generation) ≤ i64_max → 0 ≤ now →
  ∀ d k r, d.(db_progress) = db.(db_progress) → d.(db_processes) = db.(db_processes) →
    is_Some ((put_process d k r).(db_processes) !! SwapId_as_str (lease_swap lease)) →
  ∃ d', upsert_actor_progress (put_process d k r) lease progress now = Ok d' ∧
    d'.(db_processes) = (put_process d k r).(db_processes).
Proof using Type.
  intros Hinv Hrow Hg Hpos Hnow d k r Hprog Hproc [x Hx]. unfold upsert_actor_progress.
  rewrite generation_to_sql_total by lia. cbn [result_bind].
  unfold progress_check. cbn [prog_payload_version prog_actor_kind prog_source_generation prog_observed_at].
  rewrite Hx, (bool_decide_eq_false_2 (Some x = None)), (proj2 (Z.ltb_lt 0 _)) by (done || lia).
  rewrite (proj2 (Z.leb_le 0 _)) by apply (time_to_sql_range _ Hnow).
  replace (str_in (kind_name _) _) with true by (by destruct (manifest_kind _)). cbn.
  rewrite Hprog. destruct (db_progress db !! _) as [old|] eqn:Hold; [|eauto].
  destruct (inv_progress _ Hinv _ _ Hold) as (_&row'&Hrow'&Hle).
  rewrite Hrow in Hrow'. injection Hrow' as <-.
  rewrite (proj2 (Z.leb_le _ _)) by lia. eauto.
Qed.

Lemma resolve_goes_through db lease row resolution progress now state next failure :
  actor_inv db → db_typed db → holds db lease row → 0 < lease.(lease_generation) →
  (∀ r arow, open_action db (SwapId_as_str (lease_swap lease)) r arow →
     action_fenced lease.(lease_owner) lease.(lease_generation) arow = true ∧
     arow.(act_created_at) ≤ time_to_sql now) →
  resolution_fields resolution = Ok (state, next, failure) → 0 ≤ next → 0 ≤ now →
  row.(row_pin).(pin_created_at) ≤ time_to_sql now →
  match progress with Some p => progress_validate p = Ok tt | None => True end →
  ∃ d, actor_call db (Call_resolve lease resolution progress now) = (d, Acknowledged) ∧
    d.(db_processes) !! SwapId_as_str (lease_swap lease)
    = Some (resolved state (time_to_sql next) failure (time_to_sql now) row).
Proof using Type.
  intros Hinv Ht Hh Hpos Hopen Hres Hnext Hnow Hcr Hv. pose proof Hh as [Hrow Hf _ _].
  destruct (inv_rows _ Hinv _ _ Hrow) as [Hck _].
  pose proof (ck_generation _ (proj1 (process_check_spec _ _) Hck)).
  pose proof Hf as (_&_&Hg)%fenced_spec.
  pose proof (resolved_checked _ _ _ _ _ _ _ Hck Hres Hnext (proj1 (time_to_sql_range _ Hnow)) Hcr)
    as Hck'.
  destruct (end_goes_through db lease resolution (time_to_sql now)) as (a&d&Ha&Hproc&Hprog&Hend);
    [done|done|lia|done|].
  set (row' := resolved _ _ _ _ _) in *. set (k := SwapId_as_str _) in *.
  assert (Hinner : ∃ d', resolve_maker_actor_attempt_inner db lease resolution progress now
    = (d', Ok tt) ∧ d'.(db_processes) !! k = Some row').
  { unfold resolve_maker_actor_attempt_inner. rewrite Hres. cbn [result_bind].
    rewrite generation_to_sql_total by lia. cbn [result_bind]. fold k.
    rewrite (update_process_hit _ _ _ (resolved state (time_to_sql next) failure (time_to_sql now))
      row Hrow Hf Hck').
    cbn [result_bind Z.eqb Pos.eqb negb reject_if]. fold row'.
    change (load_open_manual_action (put_process db k row') (lease_swap lease))
      with (load_open_manual_action db (lease_swap lease)). rewrite Ha. cbn [result_bind].
    rewrite Hend. cbn [result_bind]. destruct progress as [p|]; cycle 1.
    { cbn. eexists. split; [done|]. cbn. by rewrite lookup_insert_eq. }
    destruct (progress_goes_through db lease p now row Hinv Hrow Hg ltac:(lia) Hnow d k row' Hprog Hproc)
      as (d'&Hd'&Hp'); [cbn; rewrite lookup_insert_eq; eauto|].
    rewrite Hd'. cbn. exists d'. split; [done|]. rewrite Hp'. cbn. by rewrite lookup_insert_eq. }
  destruct Hinner as (d'&Hi&Hd'). exists d'. split; [|done]. cbn [actor_call].
  destruct progress as [p|]; unfold resolve_maker_actor_attempt_with_progress,
    resolve_maker_actor_attempt; [rewrite Hv|]; by rewrite Hi.
Qed.

Lemma hand_over db lease row later :
  actor_inv db → db_typed db → holds db lease row →
  0 < lease.(lease_generation) ≤ i64_max →
  (∀ r arow, open_action db (SwapId_as_str (lease_swap lease)) r arow →
     arow.(act_state) = "queued" ∧ arow.(act_requested_after) < lease.(lease_generation) ∧
     arow.(act_created_at) ≤ later) →
  ∃ d a, actor_call db (Call_claim_action lease) = (d, Action_handed a) ∧
    d.(db_processes) = db.(db_processes) ∧ actor_inv d ∧
    (∀ r arow, open_action db (SwapId_as_str (lease_swap lease)) r arow →
       ∃ s, a = Some s ∧ RequestId_as_str s.(snapshot_request_id) = r ∧
         arow.(act_action) = action_name s.(snapshot_action)) ∧
    (∀ r arow, open_action d (SwapId_as_str (lease_swap lease)) r arow →
       action_fenced lease.(lease_owner) lease.(lease_generation) arow = true ∧
       arow.(act_created_at) ≤ later).
Proof using Type.
  intros Hinv Ht Hh Hg Hq. pose proof (actor_call_inv db (Call_claim_action lease) Hinv) as Hinv'.
  destruct (hand_goes_through db lease row) as [[Hc Hno]|(r&arow&a&Ho&Hof&Hc)]; try done.
  { intros r arow Ho. by destruct (Hq _ _ Ho) as (?&?&_). }
  - exists db, None. split_and!; try done; intros r arow (Hr&Hs&Ho);
      by rewrite (Hno _ _ Hr Hs) in Ho.
  - rewrite Hc in Hinv'. eexists _, (Some a). split_and!; try done.
    + intros r' arow' Ho'. assert (r' = r) as -> by (by eapply (inv_one_open _ Hinv)).
      destruct Ho' as (Hr'&_), Ho as (Hr&_). rewrite Hr in Hr'. injection Hr' as <-.
      exists a. split_and!; [done|by rewrite (of_request _ _ _ Hof)|].
      by rewrite <- (of_action _ _ _ Hof).
    + intros r' arow' Ho'.
      assert (Hopen : open_action (put_action db r (handed_row lease arow))
        (SwapId_as_str (lease_swap lease)) r (handed_row lease arow)).
      { split; [by cbn; rewrite lookup_insert_eq|]. split; [apply Ho|done]. }
      assert (r' = r) as -> by (by eapply (inv_one_open _ Hinv')).
      destruct Ho' as (Hr'&_), Hopen as (Hr&_). rewrite Hr in Hr'. injection Hr' as <-.
      split; [by apply action_fenced_spec|]. by destruct (Hq _ _ Ho) as (_&_&?).
Qed.

(** C27: A due actor gets its turn, while the clocks agree and the counter has
    room.  After every run of well-formed calls take a process that is due at the
    time [now] and a time [later]; assume that [now] is not before the process was
    created, that [later] is neither before [now] nor before the owner's open
    action for the swap was created, and that the lease generation is below the
    largest [i64].  Then a claim at [now] is granted the next generation of the
    lease; the owner's open action, if there is one, is handed to that lease; and
    the attempt can be resolved at [later] with every resolution that has valid
    fields, with or without valid progress, which leaves the process scheduled as
    the resolution says.  Without the clock conditions the rows' time constraints
    refuse the writes. *)
Theorem due_actor_gets_turn calls swap row owner now resolution progress later state next failure :
  let db := actor_run start calls in
  let k := SwapId_as_str swap in
  run_typed calls → db.(db_processes) !! k = Some row → due (time_to_sql now) row = true →
  gen row < i64_max → owner_typed owner → 0 ≤ now → now ≤ later →
  row.(row_pin).(pin_created_at) ≤ time_to_sql now →
  (∀ r arow, open_action db k r arow → arow.(act_created_at) ≤ time_to_sql later) →
  resolution_fields resolution = Ok (state, next, failure) → 0 ≤ next →
  match progress with Some p => progress_validate p = Ok tt | None => True end →
  ∃ d1 d2 d3 lease a,
    actor_call db (Call_claim swap owner now) = (d1, Granted lease) ∧
    lease_swap lease = swap ∧ lease.(lease_generation) = gen row + 1 ∧
    actor_call d1 (Call_claim_action lease) = (d2, Action_handed a) ∧
    (∀ r arow, open_action db k r arow →
       ∃ s, a = Some s ∧ RequestId_as_str s.(snapshot_request_id) = r ∧
         arow.(act_action) = action_name s.(snapshot_action)) ∧
    actor_call d2 (Call_resolve lease resolution progress later) = (d3, Acknowledged) ∧
    d3.(db_processes) !! k
    = Some (resolved state (time_to_sql next) failure (time_to_sql later)
              (leased_to owner (time_to_sql now) row)).
Proof using Type.
  intros db k Hr Hrow Hdue Hg Ho Hnow Hlater Hcr Hacr Hres Hnext Hp.
  pose proof (actor_run_inv calls) as Hinv. pose proof (run_typed_inv _ Hr) as Ht. fold db in Hinv, Ht.
  destruct (claim_goes_through db swap row owner now) as (lease&Hc&<-&Hown&Hgen&Hh); [done..|].
  fold k in Hc, Hh. set (row' := leased_to _ _ _) in *. set (d1 := put_process db k row') in *.
  destruct (inv_rows _ Hinv _ _ Hrow) as [Hck%process_check_spec _].
  pose proof (ck_generation _ Hck). apply due_idle in Hdue as [Hidle _].
  assert (Hinv1 : actor_inv d1).
  { change d1 with (d1, Granted lease).1. rewrite <- Hc. by apply actor_call_inv. }
  assert (Ht1 : db_typed d1).
  { change d1 with (d1, Granted lease).1. rewrite <- Hc. by apply actor_call_typed. }
  destruct (hand_over d1 lease row' (time_to_sql later)) as (d2&a&Ha&Hproc&Hinv2&Hhand&Hfence);
    [done|done|done|lia| |].
  { intros r arow Hopen. pose proof Hopen as (Hra&Hs&Hst). fold k in Hs.
    destruct (inv_actions _ Hinv _ _ Hra) as (x&Hx&_&Hreq&Hl). rewrite Hs, Hrow in Hx.
    injection Hx as <-. split_and!; [|lia|by apply (Hacr r)].
    apply action_open_spec in Hst as [|Hst]; [done|]. by destruct (Hl Hst). }
  assert (Ht2 : db_typed d2).
  { change d2 with (d2, Action_handed a).1. rewrite <- Ha. apply actor_call_typed; try done.
    intros l <-. exists row'. split; [apply Hh|]. apply (of_kind k).
    apply decode_record_Ok, Hh. }
  destruct (resolve_goes_through d2 lease row' resolution progress later state next failure)
    as (d3&Hd3&Hrow3); try done; [|lia|lia|cbn; unfold time_to_sql in *; lia|].
  { destruct Hh. by split; [rewrite Hproc|..]. }
  exists d1, d2, d3, lease, a. split_and!; done.
Qed.
End liveness.
