(* ===== verification/ActorSamples.v ===== *)
(** * An evening of the actors

    A concrete serialisation and a run on which the hypotheses of the theorems on
    the actors' store hold: a process is registered, claimed and requeued, its
    owner asks for the claim, a daemon dies with the next lease, another takes it
    over and completes the action. *)

From Stdlib Require Import Ascii.
From stdpp Require Import base gmap strings list numbers sorting countable.
From S2P Require Import Prelude SwapCore BridgeValues MakerMarket SqlTable StoreBase MakerConfiguration ActorProcess ActorScheduler ActorFacts ActorInvariant ActorTheorems ActorIntegrity ActorReads ActorLiveness.

Open Scope Z_scope.

(** ** Texts for values *)

Fixpoint bits (p : positive) : string :=
  match p with
  | xH => ""
  | xO p => String "0" (bits p)
  | xI p => String "1" (bits p)
  end.

Fixpoint unbits (s : string) : positive :=
  match s with
  | EmptyString => xH
  | String c s => if bool_decide (c = "1"%char) then xI (unbits s) else xO (unbits s)
  end.

Lemma unbits_bits p : unbits (bits p) = p.
Proof. induction p; cbn; try case_bool_decide; congruence. Qed.

Definition text {A} `{Countable A} (a : A) : string := bits (encode a).
Definition untext {A} `{Countable A} (s : string) : option A := decode (unbits s).

Lemma untext_text {A} `{Countable A} (a : A) : untext (text a) = Some a.
Proof. unfold untext, text. by rewrite unbits_bits, decode_encode. Qed.

Lemma text_inj {A} `{Countable A} (a b : A) : text a = text b → a = b.
Proof. intros E. apply (f_equal (untext (A := A))) in E. rewrite !untext_text in E. congruence. Qed.

Definition is_claim (a : MakerActorManualAction) : bool :=
  match a with Action_Claim => true | Action_Refund => false end.

Definition progress_fields (p : MakerActorProgressObservationV1) : option (string * Z * string) :=
  match p with
  | Progress_NotActivated => None
  | Progress_Active phase revision next_action => Some (phase, revision, next_action)
  end.

#[global] Instance actor_json : ActorJson := {|
  manual_request_to_json s a g := String "m" (text (SwapId_as_str s, is_claim a, g));
  repin_request_to_json s g h := String "r" (text (SwapId_as_str s, g, Byte.to_N <$> h));
  manual_result_to_json r :=
    text (r.(stored_action_schema_version), r.(stored_requested_after_generation));
  manual_result_from_json s :=
    '(v, g) ← untext (A := Z * Z) s;
    Some {| stored_action_schema_version := v; stored_requested_after_generation := g |};
  progress_to_json p := text (progress_fields p);
  progress_from_json s :=
    fields ← untext (A := option (string * Z * string)) s;
    Some match fields with
    | None => Progress_NotActivated
    | Some (phase, revision, next_action) => Progress_Active phase revision next_action
    end;
  swap_pair_from_json s :=
    if s ==? "monero" then Some Pair_Monero else if s ==? "bitcoin" then Some Pair_Bitcoin else None
|}.

Lemma to_N_inj b b' : Byte.to_N b = Byte.to_N b' → b = b'.
Proof.
  intros E. apply (f_equal Byte.of_N) in E. rewrite !Byte.of_to_N in E. congruence.
Qed.

#[global] Instance actor_json_laws : ActorJsonLaws.
Proof.
  split.
  - intros [s] a g [s'] a' g' E. cbn in E. injection E as E%text_inj. injection E as -> Ha ->.
    by destruct a, a'.
  - intros [s] g h [s'] g' h' E. cbn in E. injection E as E%text_inj. injection E as -> -> Eh.
    split_and!; try done. revert h' Eh.
    induction h as [|b h IH]; intros [|b' h'] Eh; try done. cbn in Eh.
    injection Eh as Hb%to_N_inj Eh. f_equal; [done|by apply IH].
  - done.
  - intros [v g]. cbn. by rewrite untext_text.
  - intros [|phase revision next_action]; cbn; by rewrite untext_text.
Qed.

(** ** The run *)

Definition swap_a : SwapId := {| SwapId_as_str := "swap-a" |}.
Definition owner_of_byte (b : Byte.byte) : MakerActorLeaseOwner :=
  {| owner_bytes := repeat b 16 |}.
Definition first_daemon := owner_of_byte Byte.x01.
Definition second_daemon := owner_of_byte Byte.x02.
Definition request_a : RequestId := {| RequestId_as_str := "request-aaaaaaaa" |}.

Definition manifest_a : MakerActorManifestV1 :=
  {| manifest_swap_id := swap_a; manifest_kind := Actor_Monero;
     manifest_config_path := "/srv/a/config.json"; manifest_config_sha256 := repeat Byte.x03 32;
     manifest_program_path := "/opt/actor"; manifest_program_sha256 := repeat Byte.x04 32;
     manifest_state_database_path := "/srv/a/state.db" |}.

Definition evening_1 : list (ActorCall * Fate) :=
  [(Other_swap swap_a "monero", Delivered); (Call_register manifest_a 10, Delivered);
   (Call_claim swap_a first_daemon 20, Delivered)].

(** What the store granted last. *)
Definition last_grant (calls : list (ActorCall * Fate)) : option MakerActorLeaseV1 :=
  match committed_at actor_call empty_actor_db calls (length calls - 1) with
  | Some (_, Granted lease) => Some lease
  | _ => None
  end.

Definition no_record : MakerActorProcessRecordV1 :=
  {| process_manifest := manifest_a; process_schedule_state := Schedule_Failed;
     process_next_attempt_at := 0; process_lease_generation := 0; process_lease_owner := None;
     process_leased_at := None; process_child_identity := None; process_attempt_count := 0;
     process_last_failure_class := None; process_created_at := 0; process_updated_at := 0 |}.

Definition no_lease : MakerActorLeaseV1 :=
  {| lease_record := no_record; lease_owner := first_daemon; lease_generation := 0 |}.

Definition lease_1 : MakerActorLeaseV1 :=
  Eval vm_compute in default no_lease (last_grant evening_1).

(** The process waits to be claimed, with an action to execute. *)
Definition waiting : list (ActorCall * Fate) :=
  evening_1 ++
  [(Call_queue request_a swap_a Action_Claim 1 25, Delivered);
   (Call_resolve lease_1 (Requeue 30) None 28, Delivered)].

Definition evening_2 : list (ActorCall * Fate) :=
  waiting ++ [(Call_claim swap_a first_daemon 35, CommittedUnseen)].

Definition lease_2 : MakerActorLeaseV1 :=
  Eval vm_compute in default no_lease (last_grant evening_2).

Definition evening_3 : list (ActorCall * Fate) :=
  evening_2 ++ [(Call_recover lease_2 (Ok tt) second_daemon 40, Delivered)].

Definition lease_3 : MakerActorLeaseV1 :=
  Eval vm_compute in default no_lease (last_grant evening_3).

Definition evening : list (ActorCall * Fate) :=
  evening_3 ++
  [(Call_claim_action lease_3, Delivered);
   (Call_record_child lease_3 77 5, RolledBack);
   (Call_record_child lease_3 77 5, Delivered);
   (Call_resolve lease_3 ManualActionCompleted
      (Some (Progress_Active "claimed" 7 "none")) 50, Delivered)].

(** ** Its calls are well formed *)

Lemma evening_at_2 :
  at_position evening 2 = Some (Call_claim swap_a first_daemon 20, Granted lease_1).
Proof. vm_compute. reflexivity. Qed.
Lemma waiting_at_2 :
  at_position waiting 2 = Some (Call_claim swap_a first_daemon 20, Granted lease_1).
Proof. vm_compute. reflexivity. Qed.
Lemma evening_at_5 :
  at_position evening 5 = Some (Call_claim swap_a first_daemon 35, Granted lease_2).
Proof. vm_compute. reflexivity. Qed.
Lemma evening_at_6 :
  at_position evening 6 = Some (Call_recover lease_2 (Ok tt) second_daemon 40, Granted lease_3).
Proof. vm_compute. reflexivity. Qed.
Lemma evening_at_3 :
  at_position evening 3 = Some (Call_queue request_a swap_a Action_Claim 1 25,
    Accepted_request {| commit_requested_after_generation := 1; commit_was_replay := false |}).
Proof. vm_compute. reflexivity. Qed.
Lemma evening_listed_6 : list_leased_maker_actors (db_before evening 6) = Ok [lease_2].
Proof. vm_compute. reflexivity. Qed.

Lemma given_1 : given waiting 4 lease_1.
Proof.
  exists lease_1, first_daemon. split; [reflexivity|]. left. exists 2%nat. eexists.
  split; [lia|apply waiting_at_2].
Qed.
Lemma given_1_later : given evening 4 lease_1.
Proof.
  exists lease_1, first_daemon. split; [reflexivity|]. left. exists 2%nat. eexists.
  split; [lia|apply evening_at_2].
Qed.
Lemma given_2 : given evening 6 lease_2.
Proof.
  exists lease_2, first_daemon. split; [reflexivity|]. right. exists 6%nat, [lease_2].
  split_and!; [lia|apply evening_listed_6|apply list_elem_of_here].
Qed.
Lemma given_3 i : (6 < i)%nat → given evening i lease_3.
Proof.
  exists lease_3, second_daemon. split; [reflexivity|]. left. exists 6%nat. eexists.
  split; [lia|apply evening_at_6].
Qed.

(** One case per call. *)
Ltac each_call i Hi :=
  repeat (destruct i as [|i]; [cbn in Hi; injection Hi as <- <-; split|]);
  [..|by destruct i].

Lemma waiting_typed : run_typed waiting.
Proof.
  intros i c f Hi. each_call i Hi; try done; try (by split; vm_compute).
  intros l <-. apply given_1.
Qed.

Lemma evening_typed : run_typed evening.
Proof.
  intros i c f Hi. each_call i Hi; try done; try (by split; vm_compute); intros l <-;
    [apply given_1_later|apply given_2|apply given_3; lia..].
Qed.

(** ** The theorems at this run *)

Lemma lease_generations_unique_witness :
  lease_swap lease_3 = swap_a ∧ lease_generation lease_3 = 3 ∧ 6%nat = 6%nat.
Proof.
  split; [reflexivity|]. split; [reflexivity|].
  exact (lease_generations_unique evening 6 6 _ _ lease_3 lease_3 evening_at_6 evening_at_6
    eq_refl eq_refl).
Defined.

(** The daemon that was taken over comes back. *)
Lemma stale_lease_powerless_witness :
  ∃ e, actor_call (db_before evening 8) (Call_resolve lease_2 Resolve_Terminal None 60)
       = (db_before evening 8, Refused_call e).
Proof.
  apply (stale_lease_powerless evening 5 8 _ _ lease_2 first_daemon evening_at_5);
    [lia| |reflexivity].
  left. exists 6%nat. eexists _, _. split; [lia|]. split; [apply evening_at_6|].
  left. exists lease_3. split; reflexivity.
Defined.

Definition executed_row : ActionRow :=
  {| act_sequence := 1; act_swap_id := "swap-a"; act_action := "claim"; act_state := "completed";
     act_requested_after := 1; act_owner := None; act_generation := None; act_created_at := 25;
     act_updated_at := 50 |}.

Lemma evening_executed : (actor_run start evening).(db_actions) !! "request-aaaaaaaa" = Some executed_row.
Proof. vm_compute. reflexivity. Qed.

Lemma completed_action_was_handed_witness :
  ∃ i j c2 c3 o2 o3, (i < j)%nat ∧
    at_position evening i = Some (c2, o2) ∧ handed_by c2 o2 "request-aaaaaaaa" executed_row ∧
    at_position evening j = Some (c3, o3) ∧ completed_by c3 o3 executed_row.
Proof.
  destruct (completed_action_was_handed evening "request-aaaaaaaa" executed_row evening_executed eq_refl)
    as (h&i&j&c1&c2&c3&o1&o2&o3&[_ Hij]&_&_&Hi&Hh&Hj&Hc).
  exists i, j, c2, c3, o2, o3. exact (conj Hij (conj Hi (conj Hh (conj Hj Hc)))).
Defined.

Lemma actor_records_readable_witness :
  ∃ m, maker_actor_monitor_snapshot (actor_run start evening) swap_a = Ok m ∧
    (m = None ↔ (actor_run start evening).(db_processes) !! "swap-a" = None).
Proof. exact (proj1 (actor_records_readable evening evening_typed) swap_a). Defined.

Lemma actor_requests_idempotent_witness :
  actor_call (db_before evening 11) (Call_queue request_a swap_a Action_Claim 1 70)
  = (db_before evening 11,
     Accepted_request {| commit_requested_after_generation := 1; commit_was_replay := true |}) ∧
  actor_call (db_before evening 11) (Call_queue request_a swap_a Action_Refund 1 70)
  = (db_before evening 11, Refused_call ManualActionRequestConflict).
Proof.
  destruct (actor_requests_idempotent evening 3 11 request_a swap_a Action_Claim 1 25 _
    evening_typed evening_at_3 ltac:(cbn; lia)) as (Hsame&Hother&_).
  exact (conj (Hsame 70) (Hother swap_a Action_Refund 1 70 ltac:(congruence))).
Defined.

(** The process and its action while both wait. *)
Definition waiting_process : ProcessRow :=
  Eval vm_compute in
  default (registered_row manifest_a 0) ((actor_run start waiting).(db_processes) !! "swap-a").

Lemma waiting_row : (actor_run start waiting).(db_processes) !! "swap-a" = Some waiting_process.
Proof. vm_compute. reflexivity. Qed.

Lemma waiting_action r arow :
  open_action (actor_run start waiting) "swap-a" r arow → act_created_at arow ≤ 45.
Proof.
  intros (Hr&_). assert (Ha : (actor_run start waiting).(db_actions)
    = {[ "request-aaaaaaaa" := queued_action swap_a Action_Claim 1 25 1 ]})
    by (vm_compute; reflexivity).
  rewrite Ha in Hr. apply lookup_singleton_Some in Hr as [_ <-]. cbn. lia.
Qed.

Lemma due_actor_gets_turn_witness :
  ∃ d1 d2 d3 lease a,
    actor_call (actor_run start waiting) (Call_claim swap_a second_daemon 40) = (d1, Granted lease) ∧
    actor_call d1 (Call_claim_action lease) = (d2, Action_handed a) ∧
    actor_call d2 (Call_resolve lease ManualActionCompleted None 45) = (d3, Acknowledged).
Proof.
  destruct (due_actor_gets_turn waiting swap_a waiting_process second_daemon 40
    ManualActionCompleted None 45 Schedule_Terminal 0 None waiting_typed waiting_row)
    as (d1&d2&d3&lease&a&H1&_&_&H2&_&H3&_).
  - reflexivity.
  - reflexivity.
  - split; reflexivity.
  - lia.
  - lia.
  - cbn. unfold time_to_sql, i64_max. lia.
  - exact waiting_action.
  - reflexivity.
  - lia.
  - exact I.
  - exists d1, d2, d3, lease, a. exact (conj H1 (conj H2 H3)).
Defined.
