(* ===== verification/BtcRecoverySamples.v ===== *)
(** * A recovered swap

    A concrete serialisation and runs on which the hypotheses of the theorems on the
    recovery store hold: a maker accepts an agreement, funds its leg by a plan of two
    transactions, records the swap to its end, loses a process in between and reads
    the outcome; a taker whose counterparty never locks is refunded. *)

From Stdlib Require Import Ascii.
From stdpp Require Import base gmap strings list numbers countable.
From S2P Require Import Prelude SwapCore Coordinator CoordinatorFacts PublicEffectPlan SqlTable StoreBase BtcMakerLock BtcMakerLockFacts BtcRecovery BtcRecoverySpec BtcRecoveryFacts BtcRecoveryReplay BtcRecoveryTheorems ActorSamples.

Open Scope Z_scope.

(** ** Texts *)

(** Fields that end in a semicolon. *)
Fixpoint field (f rest : string) : string :=
  match f with
  | EmptyString => String ";" rest
  | String c f => String c (field f rest)
  end.

Fixpoint unfields (s : string) : list string :=
  match s with
  | EmptyString => []
  | String c s =>
      if bool_decide (c = ";"%char) then EmptyString :: unfields s
      else match unfields s with
           | [] => [String c EmptyString]
           | f :: fs => String c f :: fs
           end
  end.

Lemma unfields_field {A} `{Countable A} (a : A) rest :
  unfields (field (text a) rest) = text a :: unfields rest.
Proof.
  unfold text. generalize (encode a). intros p. induction p as [p IH|p IH|]; cbn.
  - by rewrite IH.
  - by rewrite IH.
  - done.
Qed.

Definition kind_code (k : BtcLifecycleEvidenceKind) : N :=
  match k with
  | TakerLock => 0 | MakerLock => 1 | RevealingClaim => 2
  | FollowupClaim => 3 | MakerRefund => 4 | TakerRefund => 5
  end%N.
Definition code_kind (n : N) : BtcLifecycleEvidenceKind :=
  match n with
  | 0 => TakerLock | 1 => MakerLock | 2 => RevealingClaim
  | 3 => FollowupClaim | 4 => MakerRefund | _ => TakerRefund
  end%N.
Definition chain_code (c : Chain) : N :=
  match c with Chain_Lez => 0 | Chain_Bitcoin => 1 | Chain_Monero => 2 | Chain_Zcash => 3 end%N.
Definition code_chain (n : N) : Chain :=
  match n with 0 => Chain_Lez | 1 => Chain_Bitcoin | 2 => Chain_Monero | _ => Chain_Zcash end%N.

Definition position_code (p : ChainPosition) : N * bool * Z :=
  (chain_code p.(position_chain), p.(position_basis) ==? BlockHeight, p.(position_value)).
Definition code_position (t : N * bool * Z) : ChainPosition :=
  let '(c, b, v) := t in
  {| position_chain := code_chain c; position_basis := if b : bool then BlockHeight else Timestamp;
     position_value := v |}.

Lemma code_chain_code c : code_chain (chain_code c) = c.
Proof. by destruct c. Qed.
Lemma code_kind_code k : code_kind (kind_code k) = k.
Proof. by destruct k. Qed.
Lemma code_position_code p : code_position (position_code p) = p.
Proof. destruct p as [c b v]. cbn. rewrite code_chain_code. by destruct b. Qed.

#[global] Instance recovery_json : RecoveryJson := {|
  coordinator_to_json c :=
    field (text c.(coord_id).(SwapId_as_str))
      (field (text c.(maker_lock_transaction_id)) (field (text c.(taker_lock_transaction_id)) ""));
  evidence_to_json e :=
    field (text (kind_code e.(ev_kind))) (field (text (chain_code e.(ev_chain)))
    (field (text e.(ev_proof).(proof_transaction_id)) (field (text e.(ev_proof).(proof_confirmations))
    (field (text e.(ev_chain_evidence)) (field (text e.(ev_revealing_public_witness))
    (field (text (evidence_commitment <$> e.(ev_claim_evidence)))
    (field (text (position_code <$> e.(ev_refund_position))) "")))))));
  evidence_from_json s :=
    match unfields s with
    | [k; c; id; n; b; w; claim; position] =>
        k ← untext k; c ← untext c; id ← untext id; n ← untext n; b ← untext b; w ← untext w;
        claim ← untext claim; position ← untext position;
        Some {| ev_kind := code_kind k; ev_chain := code_chain c;
                ev_proof := {| proof_transaction_id := id; proof_confirmations := n |};
                ev_chain_evidence := b; ev_revealing_public_witness := w;
                ev_claim_evidence := Build_ClaimEvidence <$> claim;
                ev_refund_position := code_position <$> position |}
    | _ => None
    end
|}.

#[global] Instance recovery_json_laws : RecoveryJsonLaws.
Proof.
  split.
  - intros [k c [id n] b w claim position]. cbn. rewrite !unfields_field. cbn.
    rewrite !untext_text. cbn. rewrite code_kind_code, code_chain_code. do 2 f_equal.
    + by destruct claim as [[]|].
    + destruct position as [p|]; [|done]. exact (f_equal Some (code_position_code p)).
  - intros e Hne. apply (f_equal unfields) in Hne. cbn in Hne. by rewrite unfields_field in Hne.
Qed.

(** ** The maker's swap *)

Definition initial := Samples.btc0.
Definition sha (b : bytes) : bytes := LockSamples.digest b.

(** The acceptance of a party; its agreement is the one the lock plan names. *)
Definition acceptance_of (role : Participant) : BtcAgreementAcceptance :=
  {| acc_swap_id := initial.(coord_id); acc_local_role := role; acc_agreement_wire := [Byte.x01];
     acc_agreement_commitment := LockSamples.intent.(lock_agreement_commitment);
     acc_asset_extension_wire := None; acc_asset_commitment := None;
     acc_initial_snapshot_digest := sha []; acc_accepted_at := 5 |}.

Definition store_of (role : Participant) (was_replay : bool) : BtcRecoveryStore :=
  {| store_acceptance := acceptance_of role; store_initial := initial;
     store_acceptance_was_replay := was_replay |}.

Definition seen (kind : BtcLifecycleEvidenceKind) (chain : Chain) (id : string) (n : Z)
    : BtcLifecycleEvidenceV1 :=
  {| ev_kind := kind; ev_chain := chain;
     ev_proof := {| proof_transaction_id := id; proof_confirmations := n |};
     ev_chain_evidence := [Byte.x09]; ev_revealing_public_witness := None;
     ev_claim_evidence := None; ev_refund_position := None |}.

Definition taker_funds := seen TakerLock Chain_Bitcoin "taker" 3.
Definition maker_funds := seen MakerLock Chain_Lez "maker" 3.
Definition claim : BtcLifecycleEvidenceV1 :=
  {| ev_kind := RevealingClaim; ev_chain := Chain_Lez;
     ev_proof := {| proof_transaction_id := "claim"; proof_confirmations := 1 |};
     ev_chain_evidence := [Byte.x09]; ev_revealing_public_witness := Some (repeat Byte.x05 64);
     ev_claim_evidence := Some Samples.evidence; ev_refund_position := None |}.
Definition follow := seen FollowupClaim Chain_Bitcoin "follow" 1.

Definition maker := store_of Participant_Maker false.

(** The plan's transactions, all confirmed. *)
Definition plan_calls : list (RecoveryCall * Fate) :=
  (λ c : LockCall * Fate, (Call_lock c.1, c.2)) <$> take 9 LockSamples.closed_calls.

Definition maker_run : list (RecoveryCall * Fate) :=
  [(Call_open (acceptance_of Participant_Maker) initial Activate, Delivered);
   (Call_project maker 0 taker_funds, CommittedUnseen)]
  ++ plan_calls ++
  [(Call_project maker 1 maker_funds, Delivered);
   (Call_project_close maker 1 maker_funds, RolledBack);
   (Call_project_close maker 1 maker_funds, Delivered);
   (Call_project maker 2 claim, Delivered);
   (Call_project maker 3 follow, Delivered)].

Definition maker_db : RecoveryDb := recovery_after sha maker_run.

Definition ended : BtcOfflineStatus :=
  {| status_revision := 4; status_phase := Completed; status_terminal := Some Outcome_Completed;
     status_revealing_public_witness := Some (repeat Byte.x05 64) |}.

Lemma maker_status : status sha maker_db maker = Ok ended.
Proof. by vm_compute. Defined.

Lemma acceptance_of_built role : acceptance_built sha (acceptance_of role).
Proof.
  exists initial, role, [Byte.x01], LockSamples.intent.(lock_agreement_commitment), 5.
  split_and!; [by vm_compute|by vm_compute|left; by vm_compute].
Defined.

Lemma store_of_opened role was_replay : store_opened sha (store_of role was_replay).
Proof. split; [apply acceptance_of_built|by vm_compute]. Defined.

Lemma maker_run_good : good_run sha maker_run.
Proof.
  split.
  - repeat (constructor; [first [exact (acceptance_of_built Participant_Maker)
                                |exact LockSamples.intent_typed
                                |split; [exact (store_of_opened Participant_Maker false)|by vm_compute]]|]).
    constructor.
  - intros c c' (x&Hx&Hc) (y&Hy&Hc') _.
    assert (Hall : Forall (λ z : RecoveryCall * Fate,
                     call_initial z.1 = None ∨ call_initial z.1 = Some initial) maker_run).
    { repeat (constructor; [first [by left|by right]|]). constructor. }
    rewrite list.Forall_forall in Hall. destruct (Hall x Hx), (Hall y Hy); congruence.
Defined.

(** ** Witnesses *)

Lemma recovery_store_refines_witness :
  recovery_committed sha maker_run 11
    = Some (Call_project maker 1 maker_funds, Err (InvalidSequence 2)) ∧
  store_represents sha maker_db (recovery_spec_after sha maker_run).
Proof.
  split; [by vm_compute|].
  exact (proj2 (recovery_store_refines sha LockSamples.digest_length maker_run maker_run_good)).
Defined.

Lemma accepted_swap_recoverable_witness :
  ∃ s, status sha (recovery_after sha (take 14 maker_run)) maker = Ok s.
Proof.
  apply (accepted_swap_recoverable sha LockSamples.digest_length maker_run 0 14
           (acceptance_of Participant_Maker) initial Activate maker maker_run_good);
    [by vm_compute|lia].
Defined.

Lemma projected_evidence_final_witness :
  (recovery_call sha (recovery_after sha (take 16 maker_run)) (Call_project_close maker 1 maker_funds)).2
    = Ok (Out_projection {| projection_revision := 2; projection_was_replay := true |}).
Proof.
  apply (projected_evidence_final sha LockSamples.digest_length maker_run 13 16 maker 1 maker_funds
           true {| projection_revision := 2; projection_was_replay := false |} maker_run_good);
    [by vm_compute|lia].
Defined.

Lemma maker_lock_iff_plan_closed_witness :
  ∃ evidence plan,
    recovery_evidence (recovery_after sha (take 16 maker_run)) maker
      = Ok (indexed_evidence evidence) ∧
    load_intent sha (recovery_after sha (take 16 maker_run)).(rdb_locks) initial.(coord_id)
      = Ok plan ∧
    (MakerLock ∈ ev_kind <$> evidence ↔
       ∃ s, plan = Some s ∧ s.(lock_closed_revision) ≠ None) ∧
    ∀ s, plan = Some s → s.(lock_closed_revision) ≠ None →
      plan_closed (acceptance_of Participant_Maker) s.
Proof.
  apply (maker_lock_iff_plan_closed sha LockSamples.digest_length maker_run 0 16
           (acceptance_of Participant_Maker) initial Activate maker maker_run_good);
    [by vm_compute|lia|done].
Defined.

Lemma recovered_outcome_genuine_witness :
  ∃ evidence, recovery_evidence maker_db maker = Ok (indexed_evidence evidence) ∧
    Forall (evidence_shows initial) evidence ∧
    outcome_shown initial ended Outcome_Completed evidence.
Proof.
  apply (recovered_outcome_genuine sha maker_db maker ended Outcome_Completed);
    [by vm_compute|exact maker_status|done].
Defined.

Lemma chain_head_binds_evidence_witness :
  ∃ state, reconstruct_checked sha maker_db maker.(store_acceptance) initial = Ok state ∧
    (select_evidence maker_db maker.(store_acceptance)
       = select_evidence maker_db maker.(store_acceptance) ∨
     digest_collision sha
       (history_inputs sha maker.(store_acceptance)
          (select_evidence maker_db maker.(store_acceptance)))
       (history_inputs sha maker.(store_acceptance)
          (select_evidence maker_db maker.(store_acceptance)))).
Proof.
  destruct (reconstruct_checked sha maker_db maker.(store_acceptance) initial) as [state|] eqn:Hr;
    [|by vm_compute in Hr].
  exists state. split; [done|].
  apply (chain_head_binds_evidence sha LockSamples.digest_length maker_db maker_db
           maker.(store_acceptance) initial initial state state); [by vm_compute|exact Hr|exact Hr|done].
Defined.

(** ** A refund after two records *)

Definition taker := store_of Participant_Taker false.

Definition taker_refund : BtcLifecycleEvidenceV1 :=
  {| ev_kind := TakerRefund; ev_chain := Chain_Bitcoin;
     ev_proof := {| proof_transaction_id := "back"; proof_confirmations := 1 |};
     ev_chain_evidence := [Byte.x09]; ev_revealing_public_witness := None;
     ev_claim_evidence := None; ev_refund_position := Some Samples.taker_deadline |}.

Definition taker_run : list (RecoveryCall * Fate) :=
  [(Call_open (acceptance_of Participant_Taker) initial Activate, Delivered);
   (Call_project taker 0 taker_funds, Delivered);
   (Call_project taker 1 taker_refund, Delivered)].

(** When the maker never locks, the swap ends after two records. *)
Lemma terminal_after_two_records :
  status sha (recovery_after sha taker_run) taker
  = Ok {| status_revision := 2; status_phase := Refunded;
          status_terminal := Some Outcome_Refunded; status_revealing_public_witness := None |}.
Proof. by vm_compute. Qed.
